(* ===== verification/_CoqProject ===== *)
-Q . S2P
Prelude.v
PyText.v
Json.v
Sha256.v
PyDecimal.v
PyDateTime.v
PitTypes.v
PitCodec.v
PitStore.v
PitPersist.v
Leakage.v
ForecastDomain.v
ForecastAdapters.v
Horizon.v
Universe.v
ReferenceData.v
ReferenceDocuments.v
CanonicalMinute.v
MinuteSpool.v
MinuteQuality.v
Storage.v
Manifests.v
FileSystem.v
Repository.v
RepositoryHistory.v
RepositoryInventory.v
RepositoryPublication.v
RepositoryVerify.v
Ingestion.v
Coordinator.v
IngestionProviders.v
CoordinatorSafety.v
CoordinatorExecution.v
CoordinatorLiveness.v
ForecastEvaluation.v
TransportSecurity.v
Contracts.v
Specialists.v
MacroTypes.v
MacroSpecialist.v
EarningsTypes.v
EarningsSpecialist.v
MarketTypes.v
MarketSpecialists.v
ForecastService.v
Runtime.v
