(* ===== verification/Prelude.v ===== *)
(** * Aegis-MX: a verification library for its Python research and serving code

    Aegis-MX is a trading-research system: a C++ core and a Go control plane
    surround Python code that stores point-in-time data, ingests and normalises
    provider data, defines the contracts of forecasts, evaluates events and serves
    forecasts.  This library models the Python code that carries those guarantees and
    proves what it promises.  Source paths below are relative to [src/python/].

    ** The parts and their files

    The language and its library
    - [Prelude]: exceptions ([res], [raise_when], the exception classes and their
      subclass test), state passing, stable sorting ([py_sorted]), ordered
      dictionaries ([od_get], [od_set]), order classes and the tactics and hints.
    - [PyText]: [str] as code points, [bytes], UTF codecs, integer formatting.
    - [Json]: [json.dumps] with sorted keys and [json.loads], with their round trip.
    - [Sha256]: [hashlib.sha256], executable.
    - [PyDecimal]: [decimal.Decimal] as the code uses it, with the rounding of the
      default context.
    - [PyDateTime]: calendar dates, timestamps and their ISO texts.

    The point-in-time research store ([research/aegis_mx_research])
    - [PitTypes] ([types.py]): records, manifests and their validation.
    - [PitCodec] ([store.py]): the canonical JSON codec of a record.
    - [PitStore] ([store.py], [PointInTimeStore]): the bounded append-only store with
      its indexes and temporal queries.
    - [PitPersist] ([store.py], [PersistentPointInTimeStore]): the same on SQLite,
      with transactions and faults.
    - [Leakage] ([leakage.py]): validation of a dataset manifest against a store,
      through the class [KnowledgeStore] that both stores implement.

    The contracts of the research platform ([research/aegis_mx_research])
    - [Horizon] ([forecast_contracts.py]): exchange calendars and horizons.
    - [Universe] ([forecast_contracts.py]): the ticker universe, its parser,
      resolvers, snapshot and codec.
    - [ReferenceData] ([reference_data.py]): exact ratios, reference revisions and the
      bitemporal store that resolves symbols for [Universe]; the class
      [VersionedReference] is the protocol its five record types implement.
    - [ReferenceDocuments] ([reference_data.py]): snapshot and report documents, their
      digests and the verification of an artifact.

    Canonical minute bars ([research/aegis_mx_research/canonical_minute.py])
    - [CanonicalMinute]: tick sizes, resolution through the reference store and the
      normalisation of a raw bar.
    - [MinuteSpool]: the deduplicating spool over SQLite tables, with the faults of its
      transaction.
    - [MinuteQuality]: the scan of a partition and its quality report.

    The data repository ([research/aegis_mx_research/data_repository.py])
    - [Storage]: policy, usage, quotas and admission.
    - [Manifests]: source and partition manifests, identities and codec.
    - [FileSystem]: inodes, directories, descriptors and a schedule of faults; the
      operating system that the repository calls.
    - [Repository]: every operation of the repository over it.
    - [RepositoryHistory], [RepositoryInventory], [RepositoryPublication],
      [RepositoryVerify]: the theorems about it.

    Ingestion ([research/aegis_mx_research/ingestion.py])
    - [Ingestion]: requests, entitlements, rate and retry policies, plans,
      checkpoints and results.
    - [Coordinator]: planning and execution over a repository and a provider.
    - [IngestionProviders]: the synthetic and the scripted provider.
    - [CoordinatorSafety], [CoordinatorExecution], [CoordinatorLiveness]: the theorems.

    The forecast service ([model_serving/aegis_mx_timeseries])
    - [ForecastDomain] ([domain.py]): request contexts, codec and identifiers.
    - [ForecastAdapters] ([adapters.py]): model adapters and result validation.
    - [Contracts] ([intelligence/aegis_mx_intelligence/contracts.py]): the validation
      of the published model-forecast contract.
    - [ForecastService] ([service.py]): cache, publication and the worker.
    - [ForecastEvaluation] ([evaluation.py]): the walk-forward comparison.
    - [TransportSecurity] ([transport_security.py]): identity, policy, secrets, TLS
      rotation and rate limits.
    - [Runtime] ([runtime.py]): routing, admission and dispatch of HTTP requests.

    The event specialists ([intelligence/aegis_mx_intelligence])
    - [Specialists]: the checks, integer arithmetic, excerpts, derived identifiers and
      canonical documents that the specialists share.
    - [MacroTypes] ([macro_types.py]), [MacroSpecialist] ([macro_specialist.py]): the
      macroeconomic releases and their frozen event processor.
    - [EarningsTypes] ([earnings_types.py]), [EarningsSpecialist]
      ([earnings_specialist.py]): earnings releases and the lifecycle of an event.
    - [MarketTypes] ([market_specialists_types.py]), [MarketSpecialists]
      ([market_specialists.py]): index rebalances, closing auctions, hidden liquidity.

    ** How code is rendered

    A pure function is a Rocq function; a fallible one returns [res], whose errors are
    exceptions with the Python class and a message (interpolated values are left out
    of messages).  A class with state is a [Record]; a method that mutates it passes
    the state explicitly and an exception keeps the mutations made before it.  A frozen
    dataclass is a [Record] with a [_post_init] that makes the checks of
    [__post_init__].  Integers are [Z]; where the code bounds them, so does the model.
    Static types of the source are types of the model, so an [isinstance] check on an
    argument that has the declared type cannot fail and is left out; checks on decoded
    JSON are kept.  Clocks, file systems with their faults, model backends, the
    FlatBuffers encoder, zlib, the time-zone database, the capacity probe, path
    resolution, providers and injected resolvers are arguments, and theorems quantify
    over them.

    ** What the theorems show

    - Point-in-time store: every reachable store keeps its invariant; appending refines
      an append-only log; queries are exactly the latest knowledge at the cutoff and are
      not changed by later knowledge; the codec round-trips; the SQLite store refines
      the memory store, appends atomically and opens exactly on usable databases; the
      leakage report is exact and acceptance is equivalent to absence of leaks.
    - Contracts: resolving a horizon equals a reference definition over the listed
      minutes and counts exactly the requested ones; the universe parser and codec are
      exact; ratio arithmetic is exact or an overflow; split adjustment is exact;
      reference queries are point in time; lineage is equivalent to construction.
    - Minute bars: normalisation is exact and grounded in what was known; ingesting a
      source refines an abstract specification and does not depend on the order of
      sources; every reachable spool accounts for its rows; the quality report is the
      one its records determine.
    - Repository: published files are immutable in every history and under every
      failure; publication is atomic; one writer at most; manifests round-trip and
      decoded ones are authentic; admission, inventory and verification are exact.
    - Ingestion: an execution reports only what is stored, changes nothing published,
      is bounded and authorized and releases its lock; a stopped download of an object
      that can be resumed continues behind exactly the stored bytes, any other starts
      again; with a faithful provider and no failures an execution completes.
    - Forecast service: contexts are accepted exactly when valid and round-trip;
      adapters return validated results and the external backend is contained; every
      reachable worker state keeps its bounds; a run answers its whole batch and
      contains declared failures; authorization, rate limits, TLS rotation and, where a
      security policy is configured, dispatch fail closed; for times that fit the
      contract and an adapter that fails only as declared, the forecast endpoint answers
      with a sound result exactly when the request can be served and with 503 otherwise.
    - Specialists: a valid bundle of representable values is answered, unless a macro
      release has no weighted field or earnings come with invalid market features, which
      raise; it is published exactly when the stated evidence is there and an abstention
      carries no forecast; published numbers are the stated ones and within their bounds; only
      exactly equal metrics are compared; the macro processor accepts a chain of revisions
      linked by digests, and the lifecycle of earnings makes only legal transitions that
      every hook approved.
    - Further theorems show behaviours that differ from the documentation or from what
      the code means: [membership_keys_collide],
      [persistent_snapshot_differs_out_of_order], [hex_checks_accept_other_text],
      [publication_error_loses_batch], [long_prices_are_rounded],
      [sync_failure_leaves_stale_count], [dot_path_raises_index_error],
      [unnormalized_path_accepted], [oversized_partition_unreadable],
      [rate_limit_exceeded], [unweighted_release_refused].

    ** Bounds and fuel

    - [Json.loads] scans with fuel of the length of the document plus one; every step
      consumes a character, and [loads_dumps] shows that it suffices for every document
      that [dumps] writes.
    - [Horizon.minute_loop] has fuel [minute_fuel], the number of minutes left in the
      session; [resolve_horizon_exact] shows that it is never exhausted.
    - [Repository.walk] has as fuel the number of inodes plus one; [inventory_exact]
      shows that this is enough for every clean tree.
    - The batches of [MinuteQuality] and [Coordinator] have as fuel the number of rows or
      objects, of which every batch takes at least one.
    - [Coordinator.download] has the size of the object as fuel; [download_bounded] shows
      that every iteration receives at least a byte, so that it is never exhausted.
    - [Sha256] recurses on the list of blocks; all other recursion is structural.

    ** Not modelled

    - [reference_data.py]: building a snapshot from a provider report, file I/O,
      benchmark and command line.
    - [canonical_minute.py]: the parsers of provider files, the Parquet writer and the
      publication of files; [real_minute_pipeline.py], which calls them.
    - [data_repository.py]: the display documents of its reports; modes and modification
      times of files, paths through symbolic links and other processes that change the
      data root during an operation.
    - [ingestion.py]: the replay provider, the redaction of messages and the interleaving
      of the steps of workers, which run one after another in an arbitrary order.
    - The provider clients ([alfred.py], [alpaca_historical.py], [gdelt.py],
      [sec_edgar.py]), which send requests and parse what services answer.
    - [feature_dataset.py], [feature_events.py], [training_readiness.py]: they compute
      with floats or read many artefacts from Parquet files.
    - The news pipeline: threads, sandbox processes and text analysis.
    - Options pricing and microstructure training: floating-point numerics, which need a
      model of binary64 first.
    - Floats in JSON documents, ISO week dates and basic-format dates.  Where the model
      leaves open what happens (a path through a symbolic link, a stored row with members
      of another type, exhausted fuel) it raises [Undescribed], which no source raises.
    - Sockets, signals, threads and the creation of TLS contexts; generated FlatBuffers
      bindings; command lines; operational tools; the C++ and Go code. *)

From stdpp Require Export base tactics option list gmap strings sorting.
From Stdlib Require Export ZArith Lia.

Open Scope Z_scope.

(** ** Notations and exceptions *)

Declare Scope py_scope.
Delimit Scope py_scope with py.

(** Reason codes that some exception classes carry. *)
Inductive UniverseErrorCode :=
  | INVALID_ENCODING | SOURCE_TOO_LARGE | EMPTY_UNIVERSE | SYMBOL_TOO_LONG
  | MALFORMED_SYMBOL | AMBIGUOUS_SYMBOL | DUPLICATE_SYMBOL | INVALID_RESOLUTION
  | AMBIGUOUS_INSTRUMENT | INVALID_SNAPSHOT | HASH_MISMATCH | IO_ERROR.
#[export] Instance UniverseErrorCode_eq_dec : EqDecision UniverseErrorCode.
Proof. solve_decision. Defined.

Inductive HorizonErrorCode :=
  | INVALID_SPEC | INVALID_CALENDAR | INVALID_SESSION | INVALID_HALT
  | CALENDAR_VERSION_MISMATCH | INVALID_AS_OF_TIME | HALT_ENCOUNTERED
  | INSUFFICIENT_CALENDAR | TIMESTAMP_OVERFLOW.
#[export] Instance HorizonErrorCode_eq_dec : EqDecision HorizonErrorCode.
Proof. solve_decision. Defined.

Inductive ReferenceErrorCode :=
  | INVALID_INPUT | INTEGRITY_FAILURE | CONFLICT | MISSING_CALENDAR
  | INEXACT_ARITHMETIC | INTEGER_OVERFLOW | UNSUPPORTED_SCHEMA | UNRESOLVED.
#[export] Instance ReferenceErrorCode_eq_dec : EqDecision ReferenceErrorCode.
Proof. solve_decision. Defined.

Inductive MinuteNormalizationCode :=
  | CONFLICTING_DUPLICATE | CORRUPT_SPOOL | MN_HASH_MISMATCH | INEXACT_PRICE
  | INVALID_PRICE | INVALID_QUANTITY | INVALID_SOURCE | MN_MISSING_CALENDAR
  | MN_MISSING_REFERENCE | MISSING_TICK_SIZE | OUTSIDE_SESSION | RECORD_LIMIT
  | MN_SOURCE_TOO_LARGE | TIMESTAMP_DISORDER | MN_UNSUPPORTED_SCHEMA.
#[export] Instance MinuteNormalizationCode_eq_dec : EqDecision MinuteNormalizationCode.
Proof. solve_decision. Defined.

Inductive StorageErrorCode :=
  | INVALID_POLICY | INVALID_REQUEST | INVALID_PATH | SYMLINK_DETECTED | HARDLINK_DETECTED
  | UNSUPPORTED_FILE | FILESYSTEM_UNKNOWN | CONCURRENT_ADMISSION | ADMISSION_DENIED
  | MANIFEST_CORRUPT | SE_HASH_MISMATCH | SIZE_MISMATCH | IMMUTABLE_CONFLICT
  | INTERRUPTED_PUBLICATION | MISSING_LINEAGE | IO_FAILURE.
#[export] Instance StorageErrorCode_eq_dec : EqDecision StorageErrorCode.
Proof. solve_decision. Defined.

Inductive FetchErrorCode :=
  | FE_INVALID_REQUEST | UNAUTHORIZED | PLAN_MISMATCH | PROVIDER_UNAVAILABLE | SIZE_UNKNOWN
  | OBJECT_TOO_LARGE | RETRY_EXHAUSTED | TIMEOUT | RATE_LIMITED | PARTIAL_RESPONSE
  | OBJECT_CHANGED | FE_HASH_MISMATCH | MALFORMED_OBJECT | DUPLICATE_OBJECT
  | CHECKPOINT_CORRUPT | CREDENTIAL_UNAVAILABLE | SHUTDOWN | FE_IO_FAILURE.
#[export] Instance FetchErrorCode_eq_dec : EqDecision FetchErrorCode.
Proof. solve_decision. Defined.

(** Exception classes that the modelled code raises or catches.  [Undescribed] is
    not a class of the language: it marks the few inputs, named where they occur,
    for which the model does not say what the code does. *)
Inductive exn_class :=
  | ValueError | JSONDecodeError | UnicodeError | OverflowError | KeyError
  | TypeError | IndexError | DatabaseError | OSError | AttributeError
  | FileExistsError | FileNotFoundError
  | PersistentStoreError | LeakageDetectedError | ContractValidationError
  | RuntimeError | AdapterDeviceError | AdapterUnavailableError | TransportSecurityError
  | UniverseContractError (code : UniverseErrorCode) (line_number : option Z)
  | HorizonContractError (code : HorizonErrorCode)
  | ReferenceDataError (code : ReferenceErrorCode)
  | MinuteNormalizationError (code : MinuteNormalizationCode)
  | StorageError (code : StorageErrorCode)
  | FetchContractError (code : FetchErrorCode)
  | ProviderFetchError (code : FetchErrorCode) (retryable : bool) (retry_after_ns : Z)
  | MacroEvaluationError | MarketSpecialistEvaluationError | EarningsEvaluationError
  | ZeroDivisionError | DecimalInvalidOperation | DecimalOverflow | Undescribed.

#[export] Instance exn_class_eq_dec : EqDecision exn_class.
Proof. solve_decision. Defined.

Record exn := Exn { exn_cls : exn_class; exn_msg : string }.

#[export] Instance exn_eq_dec : EqDecision exn.
Proof. solve_decision. Defined.

(** [issubclass]: an [except] clause for [sup] catches an exception of class
    [sub].  The classes of the program derive from [ValueError] or
    [RuntimeError] as their declarations say. *)
Definition issubclass (sub sup : exn_class) : bool :=
  bool_decide (sub = sup) ||
  match sub, sup with
  | (JSONDecodeError | UnicodeError | LeakageDetectedError | ContractValidationError
     | UniverseContractError _ _ | HorizonContractError _ | ReferenceDataError _
     | MinuteNormalizationError _ | MacroEvaluationError | MarketSpecialistEvaluationError
     | EarningsEvaluationError),
    ValueError => true
  | (FileExistsError | FileNotFoundError), OSError => true
  | (PersistentStoreError | AdapterDeviceError | AdapterUnavailableError
     | TransportSecurityError | StorageError _ | FetchContractError _
     | ProviderFetchError _ _ _), RuntimeError => true
  | _, _ => false
  end.

Definition caught_by (e : exn) (handlers : list exn_class) : bool :=
  existsb (issubclass (exn_cls e)) handlers.

(** Fallible code: a value or a raised exception. *)
Inductive res (A : Type) :=
  | Ok (a : A)
  | Err (e : exn).
Arguments Ok {A} a.
Arguments Err {A} e.

#[export] Instance res_eq_dec `{EqDecision A} : EqDecision (res A).
Proof. solve_decision. Defined.

#[export] Instance Ok_inj {A} : Inj (=) (=) (@Ok A).
Proof. by intros x y [= ->]. Qed.

Definition rbind {A B} (m : res A) (k : A -> res B) : res B :=
  match m with Ok a => k a | Err e => Err e end.

Definition raise {A} (c : exn_class) (msg : string) : res A := Err (Exn c msg).

(** [if b: raise c(msg)] *)
Definition raise_when (b : bool) (c : exn_class) (msg : string) : res unit :=
  if b then raise c msg else Ok tt.

(** [try: m except handlers: h] *)
Definition try_except {A} (m : res A) (handlers : list exn_class)
    (h : exn -> res A) : res A :=
  match m with
  | Ok a => Ok a
  | Err e => if caught_by e handlers then h e else Err e
  end.

Notation "'let!' x ':=' c 'in' k" := (rbind c (fun x => k))
  (at level 10, x binder, c at level 100, k at level 200) : py_scope.
Notation "'do!' c 'in' k" := (rbind c (fun _ => k))
  (at level 10, c at level 100, k at level 200) : py_scope.
Open Scope py_scope.

(** ** Reasoning about [res] *)

Lemma rbind_ok {A B} (m : res A) (k : A -> res B) b :
  rbind m k = Ok b <-> exists a, m = Ok a /\ k a = Ok b.
Proof. destruct m; simpl; naive_solver. Qed.

Lemma rbind_err {A B} (m : res A) (k : A -> res B) e :
  rbind m k = Err e <-> m = Err e \/ exists a, m = Ok a /\ k a = Err e.
Proof. destruct m; simpl; naive_solver. Qed.

Lemma rbind_step {A B} (m : res A) (k : A -> res B) a b :
  m = Ok a -> k a = Ok b -> rbind m k = Ok b.
Proof. by intros ->. Qed.

Lemma raise_when_ok b c msg u : raise_when b c msg = Ok u <-> b = false.
Proof. destruct u. unfold raise_when, raise. destruct b; naive_solver. Qed.

Lemma raise_when_false b c msg : b = false -> raise_when b c msg = Ok tt.
Proof. by intros ->. Qed.

Lemma try_except_ok {A} (m : res A) hs h a :
  m = Ok a -> try_except m hs h = Ok a.
Proof. by intros ->. Qed.

(** [inv_ok] unfolds every hypothesis that says a chain of fallible steps
    returned normally into the facts that each step returned normally. *)
Ltac inv_ok :=
  repeat match goal with
  | H : rbind _ _ = Ok _ |- _ =>
      let a := fresh "a" in let Ha := fresh "Ha" in
      apply rbind_ok in H; destruct H as (a & Ha & H)
  | H : raise_when _ _ _ = Ok _ |- _ => apply raise_when_ok in H
  | H : Ok _ = Ok _ |- _ => injection H as H
  | H : raise _ _ = Ok _ |- _ => discriminate H
  | H : Err _ = Ok _ |- _ => discriminate H
  | u : unit |- _ => destruct u
  end; subst; simplify_eq.

(** [step_ok] advances the goal [rbind m k = _] over a guard that passes. *)
Ltac step_ok :=
  match goal with
  | |- context [rbind (raise_when ?b ?c ?m) ?k] =>
      rewrite (raise_when_false b c m); [simpl | ]
  end.

(** [pass_guards] advances over every guard that [lia] shows to pass. *)
Ltac pass_guards := repeat (rewrite raise_when_false by lia; cbn [rbind]).

Lemma orb_false_split a b : a || b = false -> a = false /\ b = false.
Proof. by destruct a, b. Qed.

Lemma andb_true_split a b : a && b = true -> a = true /\ b = true.
Proof. by destruct a, b. Qed.

(** [bprop] turns boolean equations on comparisons into propositions. *)
Ltac bprop :=
  repeat match goal with
  | H : _ || _ = false |- _ => apply orb_false_split in H; destruct H
  | H : _ && _ = true |- _ => apply andb_true_split in H; destruct H
  | H : negb _ = false |- _ => apply negb_false_iff in H
  | H : negb _ = true |- _ => apply negb_true_iff in H
  | H : bool_decide _ = true |- _ => apply bool_decide_eq_true in H
  | H : bool_decide _ = false |- _ => apply bool_decide_eq_false in H
  end.

(** Mapping a fallible function over a tuple, left to right. *)
Fixpoint res_map {A B} (f : A -> res B) (l : list A) : res (list B) :=
  match l with
  | [] => Ok []
  | x :: t => let! y := f x in let! ys := res_map f t in Ok (y :: ys)
  end.

(** A [for] loop whose body only validates. *)
Fixpoint res_iter {A} (f : A -> res unit) (l : list A) : res unit :=
  match l with
  | [] => Ok tt
  | x :: t => do! f x in res_iter f t
  end.

Lemma res_iter_ok {A} (f : A -> res unit) l u :
  res_iter f l = Ok u <-> Forall (fun x => f x = Ok tt) l.
Proof.
  destruct u. induction l as [|x l IH]; simpl; [by split|].
  rewrite rbind_ok, Forall_cons. split.
  - intros ([] & ? & ?%IH); auto.
  - intros [? ?%IH]. by exists tt.
Qed.

Lemma res_map_ok {A B} (f : A -> res B) l ys :
  res_map f l = Ok ys <-> Forall2 (fun x y => f x = Ok y) l ys.
Proof.
  revert ys. induction l as [|x l IH]; intros ys; simpl.
  - split; [intros [= <-]; constructor | by inversion 1].
  - rewrite rbind_ok. split.
    + intros (y & Hy & H). apply rbind_ok in H as (ys' & Hys & [= <-]).
      constructor; [done | by apply IH].
    + inversion 1 as [|? y ? ys' ? HF]; subst. exists y. split; [done|].
      apply rbind_ok. exists ys'. split; [by apply IH | done].
Qed.

Lemma res_map_fmap {A B} (f : A -> res B) (g : A -> B) l :
  (forall x, x ∈ l -> f x = Ok (g x)) -> res_map f l = Ok (g <$> l).
Proof.
  induction l as [|x l IH]; simpl; intros H; [done|].
  rewrite (H x) by set_solver. simpl. rewrite IH by set_solver. done.
Qed.

Lemma res_map_err {A B} (f : A -> res B) l e :
  res_map f l = Err e -> exists x, x ∈ l /\ f x = Err e.
Proof.
  induction l as [|x l IH]; simpl; [done|]. intros [H | (y & _ & H)]%rbind_err.
  - exists x. split; [left | done].
  - apply rbind_err in H as [H | (? & _ & [=])]. destruct (IH H) as (z & Hz & He).
    exists z. split; [by right | done].
Qed.

(** [itertools.pairwise] *)
Fixpoint pairwise {A} (l : list A) : list (A * A) :=
  match l with
  | x :: ((y :: _) as t) => (x, y) :: pairwise t
  | _ => []
  end.

Lemma length_pairwise {A} (l : list A) : length (pairwise l) = Nat.pred (length l).
Proof.
  induction l as [|x [|y l] IH]; try done. simpl in *. by rewrite IH.
Qed.

(** ** Which exceptions a computation can raise *)

Definition raises_only {A} (c : exn_class) (m : res A) : Prop :=
  forall e, m = Err e -> exn_cls e = c.

Lemma raises_only_ok {A} c (a : A) : raises_only c (Ok a).
Proof. by intros e H. Qed.

Lemma raises_only_raise {A} c msg : raises_only c (raise (A := A) c msg).
Proof. by intros e [= <-]. Qed.

Lemma raises_only_when c b msg : raises_only c (raise_when b c msg).
Proof. destruct b; [apply raises_only_raise | apply raises_only_ok]. Qed.

Lemma raises_only_bind {A B} c (m : res A) (k : A -> res B) :
  raises_only c m -> (forall a, raises_only c (k a)) -> raises_only c (rbind m k).
Proof. intros Hm Hk e. destruct m as [a|e']; simpl; [apply Hk | intros [= <-]; by apply Hm]. Qed.

Lemma raises_only_iter {A} c (f : A -> res unit) l :
  (forall x, raises_only c (f x)) -> raises_only c (res_iter f l).
Proof.
  intros H. induction l as [|x l IH]; simpl; [apply raises_only_ok|].
  by apply raises_only_bind.
Qed.

(** ** Stateful code: state passing with exceptions.  An exception keeps the
    mutations made before it was raised. *)
Definition M (S A : Type) : Type := S -> S * res A.

Definition st_ret {S A} (a : A) : M S A := fun s => (s, Ok a).
Definition st_raise {S A} (e : exn) : M S A := fun s => (s, Err e).
Definition st_bind {S A B} (m : M S A) (k : A -> M S B) : M S B := fun s =>
  match m s with
  | (s', Ok a) => k a s'
  | (s', Err e) => (s', Err e)
  end.
Definition st_get {S A} (f : S -> A) : M S A := fun s => (s, Ok (f s)).
Definition st_put {S} (f : S -> S) : M S unit := fun s => (f s, Ok tt).
Definition st_lift {S A} (r : res A) : M S A := fun s => (s, r).
Definition st_try {S A} (m : M S A) (handlers : list exn_class)
    (h : exn -> M S A) : M S A := fun s =>
  match m s with
  | (s', Ok a) => (s', Ok a)
  | (s', Err e) => if caught_by e handlers then h e s' else (s', Err e)
  end.

Notation "x '<~' c ';;' k" := (st_bind c (fun x => k))
  (at level 100, c at next level, right associativity) : py_scope.
Notation "c ';;~' k" := (st_bind c (fun _ => k))
  (at level 100, right associativity) : py_scope.

Lemma st_bind_ok {S A B} (m : M S A) (k : A -> M S B) s s' a :
  m s = (s', Ok a) -> st_bind m k s = k a s'.
Proof. unfold st_bind. by intros ->. Qed.

(** ** Total orders given by boolean tests, and Python's stable [sorted] *)

Class PreorderB {A} (leb : A -> A -> bool) : Prop := {
  preb_total x y : leb x y = true \/ leb y x = true;
  preb_trans x y z : leb x y = true -> leb y z = true -> leb x z = true;
}.

Class OrderB {A} (leb : A -> A -> bool) : Prop := {
  ordb_pre :: PreorderB leb;
  ordb_anti x y : leb x y = true -> leb y x = true -> x = y;
}.

Lemma preb_refl {A} (leb : A -> A -> bool) `{!PreorderB leb} x : leb x x = true.
Proof. by destruct (preb_total x x). Qed.

#[export] Instance Zleb_order : OrderB Z.leb.
Proof. split; [split|]; intros; lia. Qed.

(** Lexicographic comparison of tuples and of sequences. *)
Definition pair_leb {A B} (la : A -> A -> bool) (lb : B -> B -> bool)
    (p q : A * B) : bool :=
  la p.1 q.1 && (negb (la q.1 p.1) || lb p.2 q.2).

Fixpoint list_leb {A} (leb : A -> A -> bool) (l k : list A) : bool :=
  match l, k with
  | [], _ => true
  | _ :: _, [] => false
  | x :: l', y :: k' => leb x y && (negb (leb y x) || list_leb leb l' k')
  end.

#[export] Instance pair_leb_order {A B} (la : A -> A -> bool) (lb : B -> B -> bool)
  `{!OrderB la, !OrderB lb} : OrderB (pair_leb la lb).
Proof.
  unfold pair_leb. split; [split|].
  - intros [a b] [a' b']; simpl.
    destruct (la a a') eqn:?, (la a' a) eqn:?; simpl; auto.
    + apply preb_total.
    + destruct (preb_total a a'); congruence.
  - intros [a b] [a' b'] [a'' b'']; simpl.
    intros [Ha Hb]%andb_true_split [Ha' Hb']%andb_true_split.
    rewrite (preb_trans _ _ _ Ha Ha'). simpl.
    destruct (la a'' a) eqn:E; simpl; [|done].
    rewrite (preb_trans _ _ _ Ha' E) in Hb.
    rewrite (preb_trans _ _ _ E Ha) in Hb'. simpl in *.
    by eapply preb_trans.
  - intros [a b] [a' b']; simpl.
    intros [Ha Hb]%andb_true_split [Ha' Hb']%andb_true_split.
    rewrite Ha' in Hb. rewrite Ha in Hb'. simpl in *.
    f_equal; by apply ordb_anti.
Qed.

#[export] Instance list_leb_order {A} (leb : A -> A -> bool) `{!OrderB leb} :
  OrderB (list_leb leb).
Proof.
  split; [split|].
  - induction x as [|a x IH]; intros [|b y]; simpl; auto.
    destruct (leb a b) eqn:?, (leb b a) eqn:?; simpl; auto.
    destruct (preb_total a b); congruence.
  - induction x as [|a x IH]; intros [|b y] [|c z]; simpl; try done.
    intros [Ha Hb]%andb_true_split [Ha' Hb']%andb_true_split.
    rewrite (preb_trans _ _ _ Ha Ha'). simpl.
    destruct (leb c a) eqn:E; simpl; [|done].
    rewrite (preb_trans _ _ _ Ha' E) in Hb.
    rewrite (preb_trans _ _ _ E Ha) in Hb'. simpl in *. by eapply IH.
  - induction x as [|a x IH]; intros [|b y]; simpl; try done.
    intros [Ha Hb]%andb_true_split [Ha' Hb']%andb_true_split.
    rewrite Ha' in Hb. rewrite Ha in Hb'. simpl in *.
    f_equal; [by apply ordb_anti | by apply IH].
Qed.

(** Comparison through a key function, as [sorted(..., key=f)]. *)
Definition leb_on {A B} (f : A -> B) (leb : B -> B -> bool) (x y : A) : bool :=
  leb (f x) (f y).

#[export] Instance leb_on_preorder {A B} (f : A -> B) leb `{!PreorderB leb} :
  PreorderB (leb_on f leb).
Proof.
  unfold leb_on. split; intros; [apply preb_total | by eapply preb_trans].
Qed.

#[export] Instance orderb_preorder {A} (leb : A -> A -> bool) :
  OrderB leb -> PreorderB leb.
Proof. by intros []. Qed.

Fixpoint insert_by {A} (leb : A -> A -> bool) (x : A) (l : list A) : list A :=
  match l with
  | [] => [x]
  | y :: t => if leb x y then x :: y :: t else y :: insert_by leb x t
  end.

Definition py_sorted {A} (leb : A -> A -> bool) (l : list A) : list A :=
  foldr (insert_by leb) [] l.

Section sorted.
Context {A : Type} (leb : A -> A -> bool) `{!PreorderB leb}.

Lemma insert_by_perm x l : insert_by leb x l ≡ₚ x :: l.
Proof using.
  induction l as [|y l IH]; simpl; [done|].
  destruct (leb x y); [done|]. rewrite IH. by apply Permutation_swap.
Qed.

Lemma py_sorted_perm l : py_sorted leb l ≡ₚ l.
Proof using.
  induction l as [|x l IH]; simpl; [done|]. by rewrite insert_by_perm, IH.
Qed.

Lemma elem_of_py_sorted x l : x ∈ py_sorted leb l <-> x ∈ l.
Proof using. by rewrite py_sorted_perm. Qed.

Lemma insert_by_sorted x l :
  StronglySorted (fun a b => leb a b = true) l ->
  StronglySorted (fun a b => leb a b = true) (insert_by leb x l).
Proof using All.
  induction 1 as [|y l Hs IH Hy]; simpl; [repeat constructor|].
  destruct (leb x y) eqn:E.
  - constructor; [by constructor|]. constructor; [done|].
    eapply Forall_impl; [exact Hy|]. intros z ?. by eapply preb_trans.
  - constructor; [done|]. rewrite insert_by_perm. constructor; [|done].
    destruct (preb_total x y); congruence.
Qed.

Lemma py_sorted_sorted l :
  StronglySorted (fun a b => leb a b = true) (py_sorted leb l).
Proof using All.
  induction l as [|x l IH]; simpl; [constructor | by apply insert_by_sorted].
Qed.

Lemma py_sorted_id l :
  StronglySorted (fun a b => leb a b = true) l -> py_sorted leb l = l.
Proof using.
  induction 1 as [|x l Hs IH Hx]; simpl; [done|]. rewrite IH.
  destruct l as [|y l]; simpl; [done|].
  apply Forall_cons in Hx as [-> _]. done.
Qed.

(** A list is determined by its elements once it is sorted by keys that
    tell its elements apart. *)
Lemma py_sorted_unique l k :
  (forall x y, x ∈ l -> y ∈ l -> leb x y = true -> leb y x = true -> x = y) ->
  StronglySorted (fun a b => leb a b = true) k -> k ≡ₚ l -> k = py_sorted leb l.
Proof using All.
  intros Hinj Hk Hp.
  apply (StronglySorted_unique_strong (fun a b => leb a b = true)).
  - intros x y. rewrite elem_of_py_sorted, Hp. auto.
  - done.
  - apply py_sorted_sorted.
  - by rewrite py_sorted_perm.
Qed.
End sorted.

(** ** The last element that satisfies a test *)

Lemma last_filter_app {A} (f : A -> bool) l x :
  last (List.filter f (l ++ [x])) = if f x then Some x else last (List.filter f l).
Proof.
  rewrite List.filter_app. simpl. destruct (f x).
  - by rewrite last_snoc.
  - by rewrite app_nil_r.
Qed.

Lemma last_filter_Some {A} (f : A -> bool) (l : list A) x :
  last (List.filter f l) = Some x <->
  exists i, l !! i = Some x /\ f x = true /\
    forall j y, (i < j)%nat -> l !! j = Some y -> f y = false.
Proof.
  induction l as [|z l IH] using rev_ind; simpl.
  - split; [done|]. by intros (i & Hi & _).
  - rewrite last_filter_app. destruct (f z) eqn:Hz.
    + split.
      * intros [= <-]. exists (length l). rewrite list_lookup_middle by done.
        split; [done|]. split; [done|]. intros j y Hj Hy%lookup_lt_Some.
        rewrite length_app in Hy. simpl in Hy. lia.
      * intros (i & Hi & Hx & Hlast).
        destruct (decide (i < length l)%nat).
        -- rewrite (Hlast (length l) z) in Hz; [done|lia|]. by apply list_lookup_middle.
        -- apply lookup_lt_Some in Hi as Hlt. rewrite length_app in Hlt. simpl in Hlt.
           assert (i = length l) as -> by lia. by rewrite list_lookup_middle in Hi.
    + rewrite IH. split.
      * intros (i & Hi & Hx & Hlast). exists i.
        rewrite lookup_app_l by (by eapply lookup_lt_Some). split; [done|]. split; [done|].
        intros j y Hj Hy. destruct (decide (j < length l)%nat).
        -- rewrite lookup_app_l in Hy by done. by eapply Hlast.
        -- apply lookup_lt_Some in Hy as Hlt. rewrite length_app in Hlt. simpl in Hlt.
           assert (j = length l) as -> by lia.
           rewrite list_lookup_middle in Hy by done. by simplify_eq.
      * intros (i & Hi & Hx & Hlast). exists i.
        destruct (decide (i < length l)%nat).
        -- rewrite lookup_app_l in Hi by done. split; [done|]. split; [done|].
           intros j y Hj Hy. apply (Hlast j); [done|].
           rewrite lookup_app_l; [done|]. by eapply lookup_lt_Some.
        -- apply lookup_lt_Some in Hi as Hlt. rewrite length_app in Hlt. simpl in Hlt.
           assert (i = length l) as -> by lia.
           rewrite list_lookup_middle in Hi by done. simplify_eq. congruence.
Qed.

Lemma NoDup_map_inj {A B} (f : A -> B) l x y :
  NoDup (map f l) -> x ∈ l -> y ∈ l -> f x = f y -> x = y.
Proof.
  induction l as [|z l IH]; simpl; [set_solver|].
  intros [Hz Hnd]%NoDup_cons Hx Hy Hf.
  apply elem_of_cons in Hx as [-> | Hx], Hy as [-> | Hy]; auto.
  - destruct Hz. rewrite Hf. by apply list_elem_of_fmap_2.
  - destruct Hz. rewrite <- Hf. by apply list_elem_of_fmap_2.
Qed.

(** ** Filtering and sorting the images of a list *)

Lemma filter_map_comm {A B} (g : A -> B) (f : B -> bool) l :
  List.filter f (map g l) = map g (List.filter (fun x => f (g x)) l).
Proof. induction l as [|x l IH]; simpl; [done|]. rewrite IH. by destruct (f (g x)). Qed.

Lemma filter_ext_elem {A} (f g : A -> bool) l :
  (forall x, x ∈ l -> f x = g x) -> List.filter f l = List.filter g l.
Proof. intros H. apply filter_ext_in. intros x Hx%list_elem_of_In. auto. Qed.

Lemma elem_of_filter_b {A} (f : A -> bool) l x :
  x ∈ List.filter f l <-> x ∈ l /\ f x = true.
Proof. by rewrite list_elem_of_In, filter_In, <- list_elem_of_In. Qed.

Lemma py_sorted_map {A B} (f : A -> B) (la : A -> A -> bool) (lb : B -> B -> bool) l :
  (forall x y, lb (f x) (f y) = la x y) ->
  py_sorted lb (map f l) = map f (py_sorted la l).
Proof.
  intros H. induction l as [|x l IH]; simpl; [done|]. rewrite IH.
  clear IH. induction (py_sorted la l) as [|y k IHk]; simpl; [done|].
  rewrite H. destruct (la x y); [done|]. simpl. by rewrite IHk.
Qed.

Lemma py_sorted_on {A B} (g : A -> B) leb l :
  py_sorted leb (map g l) = map g (py_sorted (leb_on g leb) l).
Proof. by apply py_sorted_map. Qed.

Lemma insert_by_ext {A} (le1 le2 : A -> A -> bool) x l :
  (forall y, y ∈ l -> le1 x y = le2 x y) -> insert_by le1 x l = insert_by le2 x l.
Proof.
  induction l as [|y l IH]; simpl; intros H; [done|].
  rewrite (H y), IH by set_solver. done.
Qed.

Lemma py_sorted_ext {A} (le1 le2 : A -> A -> bool) l :
  (forall x y, x ∈ l -> y ∈ l -> le1 x y = le2 x y) -> py_sorted le1 l = py_sorted le2 l.
Proof.
  induction l as [|x l IH]; simpl; intros H; [done|].
  rewrite IH by set_solver. apply insert_by_ext. intros y. rewrite elem_of_py_sorted. set_solver.
Qed.

Lemma strongly_sorted_last {A} (R : A -> A -> Prop) l x y :
  StronglySorted R (l ++ [x]) -> y ∈ l -> R y x.
Proof.
  induction l as [|z l IH]; simpl; intros Hs Hy; [set_solver|].
  apply StronglySorted_inv in Hs as [Hs Hz]. rewrite Forall_forall in Hz.
  apply elem_of_cons in Hy as [-> | Hy]; [apply Hz; set_solver | auto].
Qed.

(** The first of a descending sort of a strictly ascending list is its last
    element: [ORDER BY ... DESC LIMIT 1]. *)
Lemma head_sorted_desc {A} (f : A -> Z) l :
  StronglySorted (fun a b => f a < f b) l ->
  head (py_sorted (leb_on f (fun a b => b <=? a)) l) = last l.
Proof.
  intros Hs. assert (Hp : PreorderB (fun a b => b <=? a)) by (split; intros; lia).
  destruct l as [|x l] using rev_ind; [done|clear IHl]. rewrite last_snoc.
  pose proof (py_sorted_sorted (leb_on f (fun a b => b <=? a)) (l ++ [x])) as Hk.
  pose proof (fun z => elem_of_py_sorted (leb_on f (fun a b => b <=? a)) z (l ++ [x])) as Hel.
  destruct (py_sorted _ (l ++ [x])) as [|y k].
  - exfalso. eapply not_elem_of_nil, (Hel x). set_solver.
  - simpl. f_equal. apply StronglySorted_inv in Hk as [_ Hk]. rewrite Forall_forall in Hk.
    assert (Hy : y ∈ l ++ [x]) by (apply Hel; set_solver).
    apply elem_of_app in Hy as [Hy | ->%list_elem_of_singleton]; [|done].
    pose proof (strongly_sorted_last _ _ _ _ Hs Hy) as Hlt. simpl in Hlt.
    assert (Hx : x ∈ y :: k) by (apply Hel; set_solver).
    apply elem_of_cons in Hx as [-> | Hx]; [done|].
    specialize (Hk x Hx). unfold leb_on in Hk. lia.
Qed.

Lemma strongly_sorted_impl {A} (R S : A -> A -> Prop) l :
  (forall x y, R x y -> S x y) -> StronglySorted R l -> StronglySorted S l.
Proof.
  intros H. induction 1 as [|x l _ IH Hx]; constructor; [done|].
  eapply Forall_impl; [exact Hx|]. auto.
Qed.

Lemma strongly_sorted_nth {A} (R : A -> A -> Prop) l i j x y :
  StronglySorted R l -> (i < j)%nat -> l !! i = Some x -> l !! j = Some y -> R x y.
Proof.
  intros Hs. revert i j. induction Hs as [|z l _ IH Hz]; intros i j Hij Hi Hj; [done|].
  destruct j as [|j]; [lia|]. cbn in Hj. destruct i as [|i]; cbn in Hi.
  - injection Hi as ->. rewrite Forall_forall in Hz. apply Hz. by eapply list_elem_of_lookup_2.
  - apply (IH i j); [lia | done | done].
Qed.

Lemma strongly_sorted_lookup {A} (R : A -> A -> Prop) l :
  (forall i j x y, (i < j)%nat -> l !! i = Some x -> l !! j = Some y -> R x y) ->
  StronglySorted R l.
Proof.
  induction l as [|x l IH]; intros H; constructor.
  - apply IH. intros i j y z Hij Hy Hz. by apply (H (S i) (S j)); [lia| |].
  - apply Forall_forall. intros y [j Hj]%list_elem_of_lookup_1.
    by apply (H 0%nat (S j)); [lia| |].
Qed.

(** ** Automation *)

Create HintDb py.
#[export] Hint Resolve raises_only_ok raises_only_raise raises_only_when raises_only_bind
  raises_only_iter : py.
#[export] Hint Resolve <- rbind_ok raise_when_ok : py.
#[export] Hint Resolve preb_refl py_sorted_sorted py_sorted_perm : py.
#[export] Hint Extern 1 (raise_when _ _ _ = Ok _) => apply raise_when_false; lia : py.
#[export] Hint Extern 1 (PreorderB _) => apply _ : py.

(** ** Insertion-ordered dictionaries *)

Section odict.
Context {K V : Type} `{!EqDecision K}.

Fixpoint od_get (k : K) (l : list (K * V)) : option V :=
  match l with
  | [] => None
  | (k', v) :: t => if bool_decide (k = k') then Some v else od_get k t
  end.

(** [d\[k\] = v]: in place, or as the newest entry. *)
Fixpoint od_set (k : K) (v : V) (l : list (K * V)) : list (K * V) :=
  match l with
  | [] => [(k, v)]
  | (k', v') :: t => if bool_decide (k = k') then (k', v) :: t else (k', v') :: od_set k v t
  end.

(** [d.pop(k, None)] and [del d\[k\]] *)
Definition od_pop (k : K) (l : list (K * V)) : list (K * V) :=
  List.filter (fun kv => negb (bool_decide (k = kv.1))) l.

(** [while len(d) >= capacity: d.popitem(last=False)] *)
Definition od_trim (capacity : Z) (l : list (K * V)) : list (K * V) :=
  drop (Z.to_nat (Z.of_nat (length l) - capacity + 1)) l.

(** Remove, evict the oldest, then insert as the newest. *)
Definition od_store (capacity : Z) (k : K) (v : V) (l : list (K * V)) : list (K * V) :=
  od_trim capacity (od_pop k l) ++ [(k, v)].
End odict.

(** ** Ordered dictionaries: bounds and lookup *)

Section odict_facts.
Context {K V : Type} `{!EqDecision K}.
Implicit Types (l : list (K * V)).

Lemma od_get_elem k v l : od_get k l = Some v -> (k, v) ∈ l.
Proof using Type.
  induction l as [|[k' v'] l IH]; simpl; [done|]. case_bool_decide as E.
  - intros [= ->]. subst. left.
  - intros Hg%IH. by right.
Qed.

Lemma od_get_none k l : od_get k l = None <-> k ∉ map fst l.
Proof using Type.
  induction l as [|[k' v'] l IH]; simpl; [set_solver|].
  case_bool_decide; [split; [done | set_solver]|]. rewrite IH. set_solver.
Qed.

Lemma od_get_in k v l : NoDup (map fst l) -> (k, v) ∈ l -> od_get k l = Some v.
Proof using Type.
  induction l as [|[k' v'] l IH]; simpl; [set_solver|]. intros [Hk Hnd]%NoDup_cons.
  intros [[= <- <-] | Hin]%elem_of_cons; [by rewrite bool_decide_eq_true_2|].
  rewrite bool_decide_eq_false_2; [auto|]. intros ->.
  destruct Hk. by apply (list_elem_of_fmap_2 fst _ (k', v)).
Qed.

Lemma od_pop_elem k kv l : kv ∈ od_pop k l <-> kv ∈ l /\ k <> kv.1.
Proof using Type.
  unfold od_pop. rewrite elem_of_filter_b, negb_true_iff, bool_decide_eq_false. done.
Qed.

Lemma od_pop_length k l : (length (od_pop k l) <= length l)%nat.
Proof using Type. apply filter_length_le. Qed.

Lemma od_pop_nodup k l : NoDup (map fst l) -> NoDup (map fst (od_pop k l)).
Proof using Type.
  induction l as [|[k' v'] l IH]; simpl; [done|]. intros [Hk Hnd]%NoDup_cons.
  case_bool_decide; simpl; [auto|]. apply NoDup_cons. split; [|auto].
  intros ([k2 v2] & -> & [Hin _]%od_pop_elem)%list_elem_of_fmap_1.
  destruct Hk. by apply (list_elem_of_fmap_2 fst _ (k2, v2)).
Qed.

Lemma od_trim_suffix cap l : exists pre, l = pre ++ od_trim cap l.
Proof using Type. unfold od_trim. eexists. symmetry. apply take_drop. Qed.

Lemma od_store_elem cap k v kv l :
  kv ∈ od_store cap k v l -> kv = (k, v) \/ (kv ∈ l /\ k <> kv.1).
Proof using Type.
  unfold od_store. intros [Hin | ->%list_elem_of_singleton]%elem_of_app; [right | by left].
  apply od_pop_elem. destruct (od_trim_suffix cap (od_pop k l)) as [pre ->].
  apply elem_of_app. by right.
Qed.

Lemma od_store_length cap k v l :
  0 < cap -> Z.of_nat (length (od_store cap k v l)) <= cap.
Proof using Type.
  intros Hc. unfold od_store, od_trim. rewrite length_app, length_drop. simpl. lia.
Qed.

Lemma od_store_nodup cap k v l : NoDup (map fst l) -> NoDup (map fst (od_store cap k v l)).
Proof using Type.
  intros Hnd. unfold od_store. rewrite map_app.
  destruct (od_trim_suffix cap (od_pop k l)) as [pre Hpre].
  apply NoDup_app. split; [|split; [|apply NoDup_singleton]].
  - apply (od_pop_nodup k) in Hnd. rewrite Hpre, map_app in Hnd. by apply NoDup_app in Hnd as (_ & _ & ?).
  - intros x ([k' v'] & -> & Hin)%list_elem_of_fmap_1 Hx. simpl in Hx.
    apply list_elem_of_singleton in Hx. subst k'.
    assert (Hp : (k, v') ∈ od_pop k l) by (rewrite Hpre; apply elem_of_app; by right).
    by apply od_pop_elem in Hp as [_ ?].
Qed.

Lemma od_store_get cap k v l : NoDup (map fst l) -> od_get k (od_store cap k v l) = Some v.
Proof using Type.
  intros Hnd. apply od_get_in; [by apply od_store_nodup|].
  unfold od_store. apply elem_of_app. right. by apply list_elem_of_singleton.
Qed.

(** The newest entries survive as long as they fit. *)
Lemma od_store_suffix cap (k : K) (v : V) pre suf :
  k ∉ map fst suf -> Z.of_nat (length suf) < cap ->
  exists pre', od_store cap k v (pre ++ suf) = pre' ++ suf ++ [(k, v)].
Proof using Type.
  intros Hk Hlen. unfold od_store, od_trim, od_pop. rewrite List.filter_app.
  rewrite (filter_ext_elem _ (fun _ => true) suf).
  - assert (Hs : List.filter (fun _ => true) suf = suf)
      by (clear; induction suf as [|x s IH]; simpl; [done | by rewrite IH]).
    rewrite Hs. rewrite drop_app_le by (rewrite length_app; lia).
    eexists. by rewrite <- app_assoc.
  - intros [k' v'] Hin. simpl. apply negb_true_iff, bool_decide_eq_false. intros <-.
    destruct Hk. by apply (list_elem_of_fmap_2 fst _ (k, v')).
Qed.

Lemma od_get_set (k k' : K) (v : V) l :
  od_get k' (od_set k v l) = if bool_decide (k' = k) then Some v else od_get k' l.
Proof using Type.
  induction l as [|[k2 v2] l IH]; simpl; [done|]. destruct (decide (k = k2)) as [<-|E].
  - rewrite (bool_decide_eq_true_2 (k = k)) by done. simpl. by case_bool_decide.
  - rewrite (bool_decide_eq_false_2 (k = k2)) by done. simpl. rewrite IH.
    repeat case_bool_decide; congruence.
Qed.

Lemma od_set_keys (k : K) (v : V) l :
  map fst (od_set k v l) = if bool_decide (k ∈ map fst l) then map fst l else map fst l ++ [k].
Proof using Type.
  induction l as [|[k2 v2] l IH]; simpl; [done|]. destruct (decide (k = k2)) as [<-|E].
  - rewrite (bool_decide_eq_true_2 (k = k)) by done. simpl.
    rewrite bool_decide_eq_true_2; [done | left].
  - rewrite (bool_decide_eq_false_2 (k = k2)) by done. simpl. rewrite IH. destruct (decide (k ∈ map fst l)) as [Hin|Hin].
    + rewrite !bool_decide_eq_true_2; [done | by right | done].
    + rewrite !bool_decide_eq_false_2; [done | | done]. by intros [|]%elem_of_cons.
Qed.
End odict_facts.
