(* ===== verification/PyText.v ===== *)
(** * Python text, bytes and integer formatting

    Python's [str] is modelled as the list of its code points and [bytes] as a
    list of integers in [0, 255].  This file holds the parts of the language's
    own library that the modelled code calls: UTF-8/16/32 codecs and the
    encoding detection of [json.loads], decimal and hexadecimal integer
    formatting and parsing, [bytes.hex]/[bytes.fromhex], and the [str] methods
    [lower], [upper], [partition], [split] and [startswith]. *)

From S2P Require Import Prelude.
Open Scope Z_scope.

Notation pystr := (list Z) (only parsing).
Notation pybytes := (list Z) (only parsing).

(** A source literal as a Python string. *)
Definition str (s : string) : pystr :=
  map (fun a => Z.of_N (Ascii.N_of_ascii a)) (String.list_ascii_of_string s).
Arguments str : simpl never.

(** [a <= b] on Python strings and bytes: lexicographic by code point. *)
Notation pystr_leb := (list_leb Z.leb).

Definition is_byte (b : Z) : bool := (0 <=? b) && (b <? 256).
Definition is_ascii (c : Z) : bool := (0 <=? c) && (c <? 128).

(** ** UTF-8 *)

Definition is_surrogate (c : Z) : bool := (55296 <=? c) && (c <=? 57343).

(** The encoding of one code point; [None] where [str.encode("utf-8")] raises. *)
Definition utf8_char (c : Z) : option pybytes :=
  if c <? 0 then None
  else if c <? 128 then Some [c]
  else if c <? 2048 then Some [192 + c / 64; 128 + c mod 64]
  else if is_surrogate c then None
  else if c <? 65536 then
    Some [224 + c / 4096; 128 + (c / 64) mod 64; 128 + c mod 64]
  else if c <? 1114112 then
    Some [240 + c / 262144; 128 + (c / 4096) mod 64;
          128 + (c / 64) mod 64; 128 + c mod 64]
  else None.

Fixpoint utf8_encode (s : pystr) : res pybytes :=
  match s with
  | [] => Ok []
  | c :: t =>
      match utf8_char c with
      | None => raise UnicodeError "surrogates not allowed"
      | Some b => let! r := utf8_encode t in Ok (b ++ r)
      end
  end.

Definition is_cont (b : Z) : bool := (128 <=? b) && (b <? 192).

(** [bytes.decode("utf-8", "surrogatepass")]: shortest forms only, surrogates
    let through. *)
Fixpoint utf8_decode (b : pybytes) : option pystr :=
  match b with
  | [] => Some []
  | b0 :: t =>
      if b0 <? 128 then cons b0 <$> utf8_decode t
      else if (194 <=? b0) && (b0 <? 224) then
        match t with
        | b1 :: t1 =>
            if is_cont b1
            then cons ((b0 - 192) * 64 + (b1 - 128)) <$> utf8_decode t1
            else None
        | _ => None
        end
      else if (224 <=? b0) && (b0 <? 240) then
        match t with
        | b1 :: b2 :: t2 =>
            let c := (b0 - 224) * 4096 + (b1 - 128) * 64 + (b2 - 128) in
            if is_cont b1 && is_cont b2 && (2048 <=? c)
            then cons c <$> utf8_decode t2 else None
        | _ => None
        end
      else if (240 <=? b0) && (b0 <? 245) then
        match t with
        | b1 :: b2 :: b3 :: t3 =>
            let c := (b0 - 240) * 262144 + (b1 - 128) * 4096
                     + (b2 - 128) * 64 + (b3 - 128) in
            if is_cont b1 && is_cont b2 && is_cont b3
               && (65536 <=? c) && (c <? 1114112)
            then cons c <$> utf8_decode t3 else None
        | _ => None
        end
      else None
  end.

(** ** UTF-16 and UTF-32, with [surrogatepass] *)

Definition join_surrogates (hi lo : Z) : Z :=
  65536 + (hi - 55296) * 1024 + (lo - 56320).
Definition is_high (u : Z) : bool := (55296 <=? u) && (u <=? 56319).
Definition is_low (u : Z) : bool := (56320 <=? u) && (u <=? 57343).

Fixpoint units16 (be : bool) (b : pybytes) : option (list Z) :=
  match b with
  | [] => Some []
  | x :: y :: t => cons (if be then x * 256 + y else y * 256 + x) <$> units16 be t
  | _ => None
  end.

Fixpoint merge16 (u : list Z) : pystr :=
  match u with
  | [] => []
  | h :: ((l :: t) as r) =>
      if is_high h && is_low l then join_surrogates h l :: merge16 t
      else h :: merge16 r
  | h :: [] => [h]
  end.

Definition utf16_decode (be : bool) (b : pybytes) : option pystr :=
  merge16 <$> units16 be b.

Fixpoint utf32_decode (be : bool) (b : pybytes) : option pystr :=
  match b with
  | [] => Some []
  | w :: x :: y :: z :: t =>
      let c := if be then ((w * 256 + x) * 256 + y) * 256 + z
               else ((z * 256 + y) * 256 + x) * 256 + w in
      if c <? 1114112 then cons c <$> utf32_decode be t else None
  | _ => None
  end.

(** [json.detect_encoding] followed by [bytes.decode(..., "surrogatepass")]. *)
Definition json_decode_bytes (b : pybytes) : option pystr :=
  match b with
  | 0 :: 0 :: 254 :: 255 :: t => utf32_decode true t
  | 255 :: 254 :: 0 :: 0 :: t => utf32_decode false t
  | 254 :: 255 :: t => utf16_decode true t
  | 255 :: 254 :: t => utf16_decode false t
  | 239 :: 187 :: 191 :: t => utf8_decode t
  | b0 :: b1 :: b2 :: b3 :: _ =>
      if b0 =? 0 then
        if b1 =? 0 then utf32_decode true b else utf16_decode true b
      else if b1 =? 0 then
        if (b2 =? 0) && (b3 =? 0) then utf32_decode false b
        else utf16_decode false b
      else utf8_decode b
  | [b0; b1] =>
      if b0 =? 0 then utf16_decode true b
      else if b1 =? 0 then utf16_decode false b
      else utf8_decode b
  | _ => utf8_decode b
  end.

(** [bytes.decode("ascii")] *)
Definition ascii_decode (b : pybytes) : res pystr :=
  if forallb is_ascii b then Ok b
  else raise UnicodeError "ordinal not in range(128)".

Lemma utf8_decode_ascii b : forallb is_ascii b = true -> utf8_decode b = Some b.
Proof.
  unfold is_ascii. induction b as [|c b IH]; simpl; [done|].
  intros [[Hc1 Hc2]%andb_true_split Hb]%andb_true_split.
  rewrite Hc2. by rewrite IH.
Qed.

(** JSON text written by this program is ASCII without NUL bytes, for which
    the detected encoding is UTF-8 and decoding is the identity. *)
Lemma json_decode_bytes_ascii b :
  Forall (fun c => 0 < c < 128) b -> json_decode_bytes b = Some b.
Proof.
  intros Hb.
  assert (Hu : utf8_decode b = Some b).
  { apply utf8_decode_ascii, forallb_forall. intros x Hx%list_elem_of_In.
    unfold is_ascii. rewrite Forall_forall in Hb. specialize (Hb x Hx). lia. }
  assert (Hne : forall x, x ∈ b -> (x =? 0) = false /\ 0 < x < 128).
  { intros x Hx. rewrite Forall_forall in Hb. specialize (Hb x Hx). lia. }
  destruct b as [|b0 [|b1 [|b2 [|b3 t]]]]; unfold json_decode_bytes.
  - done.
  - destruct (Hne b0) as [E0 ?]; [set_solver|].
    destruct b0 as [|p|]; try lia. repeat (done || destruct p as [p|p|]).
  - destruct (Hne b0) as [E0 ?]; [set_solver|].
    destruct (Hne b1) as [E1 ?]; [set_solver|]. rewrite E0, E1.
    destruct b0 as [|p|]; try lia. repeat (done || lia || destruct p as [p|p|]).
  - destruct (Hne b0) as [E0 ?]; [set_solver|].
    destruct b0 as [|p|]; try lia. repeat (done || lia || destruct p as [p|p|]).
  - destruct (Hne b0) as [E0 ?]; [set_solver|].
    destruct (Hne b1) as [E1 ?]; [set_solver|]. rewrite E0, E1.
    destruct b0 as [|p|]; try lia. repeat (done || lia || destruct p as [p|p|]).
Qed.

(** ** UTF-8 preserves the order of strings

    SQLite compares [TEXT] by the bytes of its UTF-8 encoding, Python compares
    [str] by code point; the two orders agree on encodable text. *)

Definition lex_lt (u v : list Z) : Prop :=
  pystr_leb u v = true /\ pystr_leb v u = false.

Lemma lex_lt_cons a b u v : a < b \/ (a = b /\ lex_lt u v) -> lex_lt (a :: u) (b :: v).
Proof.
  unfold lex_lt. simpl. intros [H | [-> [H1 H2]]].
  - assert ((a <=? b) = true) as -> by lia. assert ((b <=? a) = false) as -> by lia. done.
  - by rewrite Z.leb_refl, H1, H2.
Qed.

Lemma list_leb_app_same (e u v : list Z) : pystr_leb (e ++ u) (e ++ v) = pystr_leb u v.
Proof. induction e; simpl; [done|]. by rewrite Z.leb_refl. Qed.

Lemma utf8_char_lt c d e f u v :
  utf8_char c = Some e -> utf8_char d = Some f -> c < d -> lex_lt (e ++ u) (f ++ v).
Proof.
  unfold utf8_char, is_surrogate. intros Hc Hd Hlt.
  repeat case_match; simplify_eq; simpl; try lia;
    apply lex_lt_cons;
    try (left; Z.div_mod_to_equations; lia).
  - destruct (decide (c / 64 < d / 64)); [left; lia|right].
    split; [Z.div_mod_to_equations; lia|]. apply lex_lt_cons. left.
    Z.div_mod_to_equations; lia.
  - destruct (decide (c / 4096 < d / 4096)); [left; lia|right].
    split; [Z.div_mod_to_equations; lia|]. apply lex_lt_cons.
    destruct (decide ((c / 64) mod 64 < (d / 64) mod 64)); [left; lia|right].
    split; [Z.div_mod_to_equations; lia|]. apply lex_lt_cons. left.
    Z.div_mod_to_equations; lia.
  - destruct (decide (c / 262144 < d / 262144)); [left; lia|right].
    split; [Z.div_mod_to_equations; lia|]. apply lex_lt_cons.
    destruct (decide ((c / 4096) mod 64 < (d / 4096) mod 64)); [left; lia|right].
    split; [Z.div_mod_to_equations; lia|]. apply lex_lt_cons.
    destruct (decide ((c / 64) mod 64 < (d / 64) mod 64)); [left; lia|right].
    split; [Z.div_mod_to_equations; lia|]. apply lex_lt_cons. left.
    Z.div_mod_to_equations; lia.
Qed.

Lemma utf8_char_nonempty c e : utf8_char c = Some e -> e <> [].
Proof. unfold utf8_char. intros. repeat case_match; by simplify_eq. Qed.

Lemma utf8_encode_order a b x y :
  utf8_encode a = Ok x -> utf8_encode b = Ok y -> pystr_leb x y = pystr_leb a b.
Proof.
  revert b x y. induction a as [|c a IH]; intros [|d b] x y; simpl; intros Hx Hy.
  - by simplify_eq.
  - by simplify_eq.
  - simplify_eq. destruct (utf8_char c) eqn:E; [|done]. inv_ok.
    apply utf8_char_nonempty in E. by destruct l.
  - destruct (utf8_char c) as [e|] eqn:Ec; [|done].
    destruct (utf8_char d) as [f|] eqn:Ed; [|done].
    apply rbind_ok in Hx as (a0 & Ha & [= <-]), Hy as (a1 & Hb & [= <-]).
    destruct (Z.lt_trichotomy c d) as [Hlt | [-> | Hlt]].
    + destruct (utf8_char_lt c d e f a0 a1 Ec Ed Hlt) as [-> _].
      by assert ((c <=? d) = true) as -> by lia; assert ((d <=? c) = false) as -> by lia.
    + simplify_eq. rewrite list_leb_app_same, Z.leb_refl. simpl. by apply IH.
    + destruct (utf8_char_lt d c f e a1 a0 Ed Ec Hlt) as [_ ->].
      by assert ((c <=? d) = false) as -> by lia.
Qed.

(** ** Decimal integers *)

Fixpoint dec_digits (fuel : nat) (n : Z) : pystr :=
  match fuel with
  | O => [48 + n mod 10]
  | S f => if n <? 10 then [48 + n]
           else dec_digits f (n / 10) ++ [48 + n mod 10]
  end.

(** The decimal digits of a natural number; [log2 n] bounds their count. *)
Definition dec_str (n : Z) : pystr := dec_digits (Z.to_nat (Z.log2 n)) n.

Definition repr_int (n : Z) : pystr :=
  if n <? 0 then 45 :: dec_str (- n) else dec_str n.

(** [sys.int_info.default_max_str_digits]: longer conversions raise. *)
Definition int_max_str_digits : nat := Z.to_nat 4300.

Definition int_str (n : Z) : res pystr :=
  if (int_max_str_digits <? length (dec_str (Z.abs n)))%nat
  then raise ValueError "Exceeds the limit (4300 digits) for integer string conversion"
  else Ok (repr_int n).

Definition is_digit (c : Z) : bool := (48 <=? c) && (c <=? 57).

Definition dec_val (s : pystr) : Z := foldl (fun acc c => acc * 10 + (c - 48)) 0 s.

Lemma dec_val_snoc s c : dec_val (s ++ [c]) = dec_val s * 10 + (c - 48).
Proof. unfold dec_val. by rewrite foldl_app. Qed.

Lemma dec_digits_val fuel n :
  0 <= n < 2 ^ (Z.of_nat fuel + 1) -> dec_val (dec_digits fuel n) = n.
Proof.
  revert n. induction fuel as [|f IH]; intros n Hn; simpl.
  - change (Z.of_nat 0 + 1) with 1 in Hn. unfold dec_val. simpl.
    Z.div_mod_to_equations; lia.
  - destruct (n <? 10) eqn:E.
    + unfold dec_val. simpl. lia.
    + rewrite dec_val_snoc, IH; [Z.div_mod_to_equations; lia|].
      rewrite Nat2Z.inj_succ in Hn.
      replace (Z.succ (Z.of_nat f) + 1) with ((Z.of_nat f + 1) + 1) in Hn by lia.
      rewrite Z.pow_add_r in Hn by lia. Z.div_mod_to_equations; lia.
Qed.

Lemma log2_fuel n : 0 <= n -> 0 <= n < 2 ^ (Z.of_nat (Z.to_nat (Z.log2 n)) + 1).
Proof.
  intros Hn. rewrite Z2Nat.id by apply Z.log2_nonneg.
  destruct (decide (n = 0)) as [->|]; [simpl; lia|].
  pose proof (Z.log2_spec n). lia.
Qed.

Lemma dec_str_val n : 0 <= n -> dec_val (dec_str n) = n.
Proof. intros. apply dec_digits_val. by apply log2_fuel. Qed.

Lemma dec_digits_digit fuel n :
  0 <= n -> Forall (fun c => is_digit c = true) (dec_digits fuel n).
Proof.
  unfold is_digit. revert n. induction fuel as [|f IH]; intros n Hn; simpl.
  - repeat constructor. Z.div_mod_to_equations; lia.
  - destruct (n <? 10) eqn:E.
    + repeat constructor. lia.
    + apply Forall_app. split; [apply IH; Z.div_mod_to_equations; lia|].
      repeat constructor. Z.div_mod_to_equations; lia.
Qed.

(** No leading zero: the text is ["0"] or starts with a non-zero digit. *)
Lemma dec_digits_head fuel n :
  0 < n < 2 ^ (Z.of_nat fuel + 1) ->
  exists c t, dec_digits fuel n = c :: t /\ 49 <= c <= 57.
Proof.
  revert n. induction fuel as [|f IH]; intros n Hn; simpl.
  - change (Z.of_nat 0 + 1) with 1 in Hn. eexists _, _. split; [done|].
    Z.div_mod_to_equations; lia.
  - destruct (n <? 10) eqn:E; [eexists _, _; split; [done|lia]|].
    destruct (IH (n / 10)) as (c & t & -> & ?).
    + rewrite Nat2Z.inj_succ in Hn.
      replace (Z.succ (Z.of_nat f) + 1) with ((Z.of_nat f + 1) + 1) in Hn by lia.
      rewrite Z.pow_add_r in Hn by lia. Z.div_mod_to_equations; lia.
    + by exists c, (t ++ [48 + n mod 10]).
Qed.

Lemma dec_str_digit n : 0 <= n -> Forall (fun c => is_digit c = true) (dec_str n).
Proof. apply dec_digits_digit. Qed.

Lemma dec_str_0 : dec_str 0 = [48].
Proof. done. Qed.

Lemma dec_str_head n : 0 < n -> exists c t, dec_str n = c :: t /\ 49 <= c <= 57.
Proof.
  intros Hn. apply dec_digits_head. pose proof (log2_fuel n). lia.
Qed.

(** ** Hexadecimal *)

Definition hex_char (d : Z) : Z := if d <? 10 then 48 + d else 87 + d.

Definition hex_value (c : Z) : option Z :=
  if (48 <=? c) && (c <=? 57) then Some (c - 48)
  else if (97 <=? c) && (c <=? 102) then Some (c - 87)
  else if (65 <=? c) && (c <=? 70) then Some (c - 55)
  else None.

Lemma hex_value_char d : 0 <= d < 16 -> hex_value (hex_char d) = Some d.
Proof.
  intros. unfold hex_char, hex_value. destruct (d <? 10) eqn:?.
  - assert ((48 <=? 48 + d) && (48 + d <=? 57) = true) as -> by lia. f_equal; lia.
  - assert ((48 <=? 87 + d) && (87 + d <=? 57) = false) as -> by lia.
    assert ((97 <=? 87 + d) && (87 + d <=? 102) = true) as -> by lia. f_equal; lia.
Qed.

Lemma hex_char_range d : 0 <= d < 16 ->
  48 <= hex_char d <= 57 \/ 97 <= hex_char d <= 102.
Proof. unfold hex_char. intros. case_match; lia. Qed.

(** ASCII white space, as [Py_ISSPACE]. *)
Definition ascii_space (c : Z) : bool := (c =? 32) || ((9 <=? c) && (c <=? 13)).

(** [bytes.hex()] *)
Definition bytes_hex (b : pybytes) : pystr :=
  flat_map (fun x => [hex_char (x / 16); hex_char (x mod 16)]) b.

(** [bytes.fromhex]: pairs of digits, white space allowed between pairs. *)
Fixpoint fromhex (s : pystr) : option pybytes :=
  match s with
  | [] => Some []
  | c :: t =>
      if ascii_space c then fromhex t
      else match t with
           | d :: t' =>
               match hex_value c, hex_value d with
               | Some h, Some l => cons (h * 16 + l) <$> fromhex t'
               | _, _ => None
               end
           | [] => None
           end
  end.

Definition bytes_fromhex (s : pystr) : res pybytes :=
  match fromhex s with
  | Some b => Ok b
  | None => raise ValueError "non-hexadecimal number found in fromhex() arg"
  end.

Lemma fromhex_hex b : Forall (fun x => 0 <= x < 256) b -> fromhex (bytes_hex b) = Some b.
Proof.
  induction 1 as [|x b Hx Hb IH]; [done|].
  assert (0 <= x / 16 < 16) by (Z.div_mod_to_equations; lia).
  assert (0 <= x mod 16 < 16) by (Z.div_mod_to_equations; lia).
  simpl. unfold ascii_space.
  pose proof (hex_char_range (x / 16)).
  assert ((hex_char (x / 16) =? 32) || ((9 <=? hex_char (x / 16)) && (hex_char (x / 16) <=? 13))
          = false) as -> by lia.
  rewrite !hex_value_char by done. change (flat_map _ b) with (bytes_hex b).
  rewrite IH. simpl. do 2 f_equal. Z.div_mod_to_equations; lia.
Qed.

(** [f"{n:0wx}"] for a value that fits in [w] digits. *)
Fixpoint hex_fixed (w : nat) (n : Z) : pystr :=
  match w with
  | O => []
  | S w' => hex_fixed w' (n / 16) ++ [hex_char (n mod 16)]
  end.

Lemma length_hex_fixed w n : length (hex_fixed w n) = w.
Proof.
  revert n. induction w as [|w IH]; intros n; simpl; [done|].
  rewrite length_app, IH. simpl. lia.
Qed.

Lemma hex_fixed_chars w n c : c ∈ hex_fixed w n -> 48 <= c <= 57 \/ 97 <= c <= 102.
Proof.
  revert n. induction w as [|w IH]; intros n; simpl; [set_solver|].
  intros [H | ->%list_elem_of_singleton]%elem_of_app; [by eapply IH|].
  apply hex_char_range. Z.div_mod_to_equations; lia.
Qed.

(** ** [int(s, 16)]

    White space and decimal digits of other scripts are first mapped to ASCII;
    the rest follows CPython's [PyLong_FromString]: surrounding white space, a
    sign, a ["0x"] prefix and single underscores between digits are accepted. *)

(** First code points of the runs of ten decimal digits of Unicode 15. *)
Definition unicode_zeros : list Z :=
  [1632; 1776; 1984; 2406; 2534; 2662; 2790; 2918; 3046; 3174; 3302; 3430; 3558;
   3664; 3792; 3872; 4160; 4240; 6112; 6160; 6470; 6608; 6784; 6800; 6992; 7088;
   7232; 7248; 42528; 43216; 43264; 43472; 43504; 43600; 44016; 65296; 66720;
   68912; 69734; 69872; 69942; 70096; 70384; 70736; 70864; 71248; 71360; 71472;
   71904; 72016; 72784; 73040; 73120; 73552; 92768; 92864; 93008; 120782; 120792;
   120802; 120812; 120822; 123200; 123632; 124144; 125264; 130032].

Definition unicode_spaces : list Z :=
  [133; 160; 5760; 8192; 8193; 8194; 8195; 8196; 8197; 8198; 8199; 8200; 8201;
   8202; 8232; 8233; 8239; 8287; 12288].

Definition to_ascii_digit (c : Z) : Z :=
  if c <? 127 then c
  else if existsb (Z.eqb c) unicode_spaces then 32
  else match List.find (fun z => (z <=? c) && (c <=? z + 9)) unicode_zeros with
       | Some z => 48 + (c - z)
       | None => 63
       end.

Fixpoint lstrip (s : pystr) : pystr :=
  match s with
  | c :: t => if ascii_space c then lstrip t else s
  | [] => []
  end.

Definition strip (s : pystr) : pystr := rev (lstrip (rev (lstrip s))).

Fixpoint hex_run (acc : Z) (seen prev_us : bool) (s : pystr) : option Z :=
  match s with
  | [] => if seen && negb prev_us then Some acc else None
  | c :: t =>
      if c =? 95 then if prev_us || negb seen then None else hex_run acc seen true t
      else match hex_value c with
           | Some d => hex_run (acc * 16 + d) true false t
           | None => None
           end
  end.

Definition strip_sign (s : pystr) : bool * pystr :=
  match s with
  | 43 :: r => (false, r)
  | 45 :: r => (true, r)
  | _ => (false, s)
  end.

Definition strip_0x (s : pystr) : pystr :=
  match s with
  | 48 :: x :: r =>
      if (x =? 120) || (x =? 88)
      then match r with 95 :: r' => r' | _ => r end
      else s
  | _ => s
  end.

Definition int_base16 (s : pystr) : option Z :=
  let (neg, t) := strip_sign (strip (map to_ascii_digit s)) in
  (fun v => if neg : bool then - v else v) <$> hex_run 0 false false (strip_0x t).

Definition hexc (c : Z) : Prop := 48 <= c <= 57 \/ 97 <= c <= 102.

Lemma lstrip_hexc s : Forall hexc s -> lstrip s = s.
Proof.
  destruct 1 as [|c s Hc Hs]; [done|]. simpl. unfold ascii_space, hexc in *.
  assert ((c =? 32) || ((9 <=? c) && (c <=? 13)) = false) as -> by lia. done.
Qed.

Lemma strip_hexc s : Forall hexc s -> strip s = s.
Proof.
  intros Hs. unfold strip. rewrite (lstrip_hexc s) by done.
  rewrite lstrip_hexc by (by apply Forall_rev).
  apply rev_involutive.
Qed.

Lemma to_ascii_hexc s : Forall hexc s -> map to_ascii_digit s = s.
Proof.
  induction 1 as [|c s Hc Hs IH]; [done|]. simpl. rewrite IH. f_equal.
  unfold to_ascii_digit, hexc in *. by assert ((c <? 127) = true) as -> by lia.
Qed.

Lemma strip_prefix_hexc s :
  Forall hexc s -> strip_sign s = (false, s) /\ strip_0x s = s.
Proof.
  intros Hs. split.
  - destruct Hs as [|c s Hc Hs]; [done|]. unfold strip_sign, hexc in *.
    destruct c as [|p|]; try lia. repeat (done || lia || destruct p as [p|p|]).
  - destruct Hs as [|c s Hc Hs]; [done|]. unfold strip_0x.
    destruct (decide (c = 48)) as [->|].
    + destruct Hs as [|x s Hx Hs]; [done|]. unfold hexc in *.
      by assert ((x =? 120) || (x =? 88) = false) as -> by lia.
    + unfold hexc in *. destruct c as [|p|]; try lia.
      repeat (done || lia || destruct p as [p|p|]).
Qed.

Lemma hex_fixed_hexc w n : Forall hexc (hex_fixed w n).
Proof. apply Forall_forall. intros c. apply hex_fixed_chars. Qed.

Lemma hex_run_app w n t acc seen :
  0 <= n < 16 ^ Z.of_nat w ->
  hex_run acc seen false (hex_fixed w n ++ t)
  = hex_run (acc * 16 ^ Z.of_nat w + n) (seen || (0 <? w)%nat) false t.
Proof.
  revert n t acc seen. induction w as [|w IH]; intros n t acc seen Hn.
  - simpl in *. rewrite orb_false_r. f_equal. lia.
  - rewrite Nat2Z.inj_succ, Z.pow_succ_r in Hn by lia.
    cbn [hex_fixed]. rewrite <- app_assoc.
    rewrite IH by (Z.div_mod_to_equations; lia).
    assert (0 <= n mod 16 < 16) by (Z.div_mod_to_equations; lia).
    pose proof (hex_char_range (n mod 16)). simpl.
    assert ((hex_char (n mod 16) =? 95) = false) as -> by lia.
    rewrite hex_value_char by done. rewrite orb_true_r. f_equal.
    rewrite Nat2Z.inj_succ, Z.pow_succ_r by lia. Z.div_mod_to_equations; lia.
Qed.

Lemma int_base16_hex_fixed w n :
  (0 < w)%nat -> 0 <= n < 16 ^ Z.of_nat w -> int_base16 (hex_fixed w n) = Some n.
Proof.
  intros Hw Hn. unfold int_base16.
  pose proof (hex_fixed_hexc w n) as Hh.
  rewrite to_ascii_hexc, strip_hexc by done.
  destruct (strip_prefix_hexc _ Hh) as [-> ->].
  rewrite <- (app_nil_r (hex_fixed w n)), hex_run_app by done. simpl.
  assert ((0 <? w)%nat = true) as -> by (apply Nat.ltb_lt; lia). done.
Qed.

(** ** [str] methods *)

(** [str.lower] on ASCII letters.  Other letters are left alone: the callers
    only compare the result with text they separately require to be
    hexadecimal. *)
Definition lower (s : pystr) : pystr :=
  map (fun c => if (65 <=? c) && (c <=? 90) then c + 32 else c) s.

(** [str.upper], exact for every result that is ASCII: besides [a-z], ten
    other code points have an ASCII upper case. *)
Definition upper_char (c : Z) : pystr :=
  if (97 <=? c) && (c <=? 122) then [c - 32]
  else if c =? 223 then str "SS" else if c =? 305 then str "I"
  else if c =? 383 then str "S" else if c =? 64256 then str "FF"
  else if c =? 64257 then str "FI" else if c =? 64258 then str "FL"
  else if c =? 64259 then str "FFI" else if c =? 64260 then str "FFL"
  else if c =? 64261 then str "ST" else if c =? 64262 then str "ST"
  else [c].
Definition upper (s : pystr) : pystr := flat_map upper_char s.

(** [s.partition(sep)] for a one-character separator: what precedes it, and
    what follows it when it occurs. *)
Fixpoint partition_char (sep : Z) (s : pystr) : pystr * option pystr :=
  match s with
  | [] => ([], None)
  | c :: t => if c =? sep then ([], Some t)
              else let (a, b) := partition_char sep t in (c :: a, b)
  end.

(** [s.split(sep)] for a one-character separator. *)
Fixpoint split_char (sep : Z) (s : pystr) : list pystr :=
  match s with
  | [] => [[]]
  | c :: t =>
      if c =? sep then [] :: split_char sep t
      else match split_char sep t with
           | w :: ws => (c :: w) :: ws
           | [] => [[c]]
           end
  end.

Fixpoint startswith (p s : pystr) : bool :=
  match p, s with
  | [], _ => true
  | a :: p', b :: s' => (a =? b) && startswith p' s'
  | _ :: _, [] => false
  end.

Lemma lower_hexc s : Forall hexc s -> lower s = s.
Proof.
  induction 1 as [|c s Hc Hs IH]; [done|]. simpl.
  change (map _ s) with (lower s). rewrite IH. f_equal. unfold hexc in Hc.
  by assert ((65 <=? c) && (c <=? 90) = false) as -> by lia.
Qed.

(** ASCII character classes of regular expressions *)
Definition in_range (lo hi c : Z) : bool := (lo <=? c) && (c <=? hi).
Definition is_lower (c : Z) : bool := in_range 97 122 c.
Definition is_upper (c : Z) : bool := in_range 65 90 c.
Definition is_decimal (c : Z) : bool := in_range 48 57 c.

(** Integers of up to 4300 bits are below CPython's conversion limit. *)
Lemma length_dec_digits fuel n : (length (dec_digits fuel n) <= fuel + 1)%nat.
Proof.
  revert n. induction fuel as [|f IH]; intros n; simpl; [lia|].
  case_match; simpl; [lia|]. rewrite length_app. simpl. specialize (IH (n / 10)). lia.
Qed.

Lemma int_str_ok n : Z.abs n < 2 ^ 4300 -> exists s, int_str n = Ok s.
Proof.
  intros H. unfold int_str, dec_str, int_max_str_digits.
  pose proof (length_dec_digits (Z.to_nat (Z.log2 (Z.abs n))) (Z.abs n)) as Hl.
  assert (Z.log2 (Z.abs n) < 4300).
  { destruct (decide (n = 0)) as [->|]; [done|]. apply Z.log2_lt_pow2; [clear H; lia | exact H]. }
  clear H. rewrite (proj2 (Nat.ltb_ge _ _)); [eauto|]. pose proof (Z.log2_nonneg (Z.abs n)). lia.
Qed.
