(* ===== verification/Json.v ===== *)
(** * The [json] module as this program uses it

    [dumps] is [json.dumps(value, sort_keys=True, separators=(",", ":"))] with
    [ensure_ascii] on; [loads] follows CPython's scanner.  Both are executable.
    The central lemma, [loads_dumps], says that reading back a document written
    by [dumps] gives the document with the members of every object sorted.
    Documents nested deeper than the interpreter's recursion limit, for which
    CPython raises [RecursionError], are outside the model: no document of this
    program nests more than three levels. *)

From S2P Require Import Prelude PyText.
Open Scope Z_scope.

(** A [dict] is the list of its items in insertion order, without repeated
    keys.  The text of a float is kept as it was read. *)
Inductive json :=
  | JNull
  | JBool (b : bool)
  | JInt (n : Z)
  | JFloat (text : pystr)
  | JStr (s : pystr)
  | JArr (l : list json)
  | JObj (m : list (pystr * json)).

(** The induction hypothesis reaches the elements of arrays and objects. *)
Lemma json_ind' (P : json -> Prop) :
  P JNull -> (forall b, P (JBool b)) -> (forall n, P (JInt n)) ->
  (forall t, P (JFloat t)) -> (forall s, P (JStr s)) ->
  (forall l, Forall P l -> P (JArr l)) ->
  (forall m, Forall (fun kv => P kv.2) m -> P (JObj m)) ->
  forall v, P v.
Proof.
  intros Hn Hb Hi Hf Hs Ha Ho. fix IH 1. intros [|b|n|t|s|l|m].
  - exact Hn.
  - apply Hb.
  - apply Hi.
  - apply Hf.
  - apply Hs.
  - apply Ha. induction l as [|x l IHl]; constructor; [apply IH | exact IHl].
  - apply Ho. induction m as [|[k x] m IHm]; constructor; [apply IH | exact IHm].
Qed.

(** ** Writing *)

Definition escape_char (c : Z) : pystr :=
  if c =? 34 then [92; 34] else if c =? 92 then [92; 92]
  else if c =? 10 then [92; 110] else if c =? 13 then [92; 114]
  else if c =? 9 then [92; 116] else if c =? 12 then [92; 102]
  else if c =? 8 then [92; 98]
  else if (32 <=? c) && (c <=? 126) then [c]
  else if c <? 65536 then 92 :: 117 :: hex_fixed 4 c
  else let n := c - 65536 in
       (92 :: 117 :: hex_fixed 4 (55296 + (n / 1024) mod 1024)) ++
       (92 :: 117 :: hex_fixed 4 (56320 + n mod 1024)).

Definition dumps_str (s : pystr) : pystr := 34 :: flat_map escape_char s ++ [34].

Fixpoint join (sep : Z) (l : list pystr) : pystr :=
  match l with
  | [] => []
  | [x] => x
  | x :: t => x ++ sep :: join sep t
  end.

Definition member_text (kt : pystr * pystr) : pystr := dumps_str kt.1 ++ 58 :: kt.2.

Definition key_leb {A} : pystr * A -> pystr * A -> bool := leb_on fst pystr_leb.

Fixpoint dumps (v : json) : res pystr :=
  match v with
  | JNull => Ok (str "null")
  | JBool true => Ok (str "true")
  | JBool false => Ok (str "false")
  | JInt n => int_str n
  | JFloat t => Ok t
  | JStr s => Ok (dumps_str s)
  | JArr l =>
      let! ts := res_map id (map dumps l) in
      Ok (91 :: join 44 ts ++ [93])
  | JObj m =>
      let! ts := res_map (fun kr : pystr * res pystr => let! t := kr.2 in Ok (kr.1, t))
                   (py_sorted key_leb (map (fun kv => (kv.1, dumps kv.2)) m)) in
      Ok (123 :: join 44 (map member_text ts) ++ [125])
  end.

(** ** Reading *)

Definition is_ws (c : Z) : bool := (c =? 32) || (c =? 9) || (c =? 10) || (c =? 13).

Fixpoint skip_ws (s : pystr) : pystr :=
  match s with
  | c :: t => if is_ws c then skip_ws t else s
  | [] => []
  end.

Definition hex4 (a b c d : Z) : option Z :=
  match hex_value a, hex_value b, hex_value c, hex_value d with
  | Some x, Some y, Some z, Some w => Some (((x * 16 + y) * 16 + z) * 16 + w)
  | _, _, _, _ => None
  end.

Definition simple_escape (c : Z) : option Z :=
  if c =? 34 then Some 34 else if c =? 92 then Some 92
  else if c =? 47 then Some 47 else if c =? 98 then Some 8
  else if c =? 102 then Some 12 else if c =? 110 then Some 10
  else if c =? 114 then Some 13 else if c =? 116 then Some 9 else None.

Definition cons_text (c : Z) (r : res (pystr * pystr)) : res (pystr * pystr) :=
  let! p := r in Ok (c :: p.1, p.2).

Definition json_error {A} : res A := raise JSONDecodeError "malformed JSON".

(** The text of a string literal after its opening quote, and what follows its
    closing quote. *)
Fixpoint scan_string (s : pystr) : res (pystr * pystr) :=
  match s with
  | [] => json_error
  | c :: t =>
      if c =? 34 then Ok ([], t)
      else if c =? 92 then
        match t with
        | e :: t1 =>
            if e =? 117 then
              match t1 with
              | a :: b :: c :: d :: t2 =>
                  match hex4 a b c d with
                  | None => json_error
                  | Some u =>
                      match t2 with
                      | x :: y :: a' :: b' :: c' :: d' :: t3 =>
                          if is_high u && (x =? 92) && (y =? 117) then
                            match hex4 a' b' c' d' with
                            | Some l => if is_low l
                                        then cons_text (join_surrogates u l) (scan_string t3)
                                        else cons_text u (scan_string t2)
                            | None => json_error
                            end
                          else cons_text u (scan_string t2)
                      | _ => cons_text u (scan_string t2)
                      end
                  end
              | _ => json_error
              end
            else
              match simple_escape e with
              | Some c => cons_text c (scan_string t1)
              | None => json_error
              end
        | [] => json_error
        end
      else if c <=? 31 then json_error
      else cons_text c (scan_string t)
  end.

Fixpoint span_digits (s : pystr) : pystr * pystr :=
  match s with
  | c :: t => if is_digit c then let (d, r) := span_digits t in (c :: d, r) else ([], s)
  | [] => ([], [])
  end.

(** The integer part: ["0"] or a run of digits with no leading zero. *)
Definition scan_intpart (s : pystr) : option (pystr * pystr) :=
  match s with
  | c :: t => if c =? 48 then Some ([48], t)
              else if is_digit c then Some (span_digits s) else None
  | [] => None
  end.

Definition scan_frac (s : pystr) : option (pystr * pystr) :=
  match s with
  | c :: t => if c =? 46 then match span_digits t with
                              | ([], _) => None
                              | (d, r) => Some (46 :: d, r)
                              end
              else None
  | _ => None
  end.

Definition scan_sign (s : pystr) : pystr * pystr :=
  match s with
  | c :: t => if (c =? 43) || (c =? 45) then ([c], t) else ([], s)
  | [] => ([], [])
  end.

Definition scan_exp (s : pystr) : option (pystr * pystr) :=
  match s with
  | e :: t =>
      if (e =? 101) || (e =? 69) then
        let (sg, t1) := scan_sign t in
        match span_digits t1 with
        | ([], _) => None
        | (d, r) => Some (e :: sg ++ d, r)
        end
      else None
  | [] => None
  end.

Definition scan_minus (s : pystr) : bool * pystr :=
  match s with
  | c :: t => if c =? 45 then (true, t) else (false, s)
  | [] => (false, [])
  end.

Definition scan_number (s : pystr) : res (json * pystr) :=
  let (neg, u) := scan_minus s in
  match scan_intpart u with
  | None => json_error
  | Some (ds, r) =>
      let sign := if neg : bool then [45] else [] in
      match scan_frac r with
      | Some (f, r1) =>
          match scan_exp r1 with
          | Some (x, r2) => Ok (JFloat (sign ++ ds ++ f ++ x), r2)
          | None => Ok (JFloat (sign ++ ds ++ f), r1)
          end
      | None =>
          match scan_exp r with
          | Some (x, r2) => Ok (JFloat (sign ++ ds ++ x), r2)
          | None =>
              if (int_max_str_digits <? length ds)%nat
              then raise ValueError "Exceeds the limit (4300 digits) for integer string conversion"
              else Ok (JInt (if neg then - dec_val ds else dec_val ds), r)
          end
      end
  end.

(** [dict(pairs)]: a repeated key keeps its place and takes the last value. *)
Fixpoint dict_set {A} (k : pystr) (x : A) (m : list (pystr * A)) : list (pystr * A) :=
  match m with
  | [] => [(k, x)]
  | (k', y) :: t => if bool_decide (k = k') then (k, x) :: t else (k', y) :: dict_set k x t
  end.

Definition dict_of_pairs {A} (l : list (pystr * A)) : list (pystr * A) :=
  foldl (fun m kv => dict_set kv.1 kv.2 m) [] l.

(** [text] is a prefix of [s]: what follows it. *)
Fixpoint after (text s : pystr) : option pystr :=
  match text, s with
  | [], _ => Some s
  | a :: p, b :: t => if a =? b then after p t else None
  | _ :: _, [] => None
  end.

Definition scan_word (s : pystr) : res (json * pystr) :=
  match after (str "null") s with
  | Some r => Ok (JNull, r)
  | None =>
  match after (str "true") s with
  | Some r => Ok (JBool true, r)
  | None =>
  match after (str "false") s with
  | Some r => Ok (JBool false, r)
  | None =>
  match after (str "NaN") s with
  | Some r => Ok (JFloat (str "NaN"), r)
  | None =>
  match after (str "Infinity") s with
  | Some r => Ok (JFloat (str "Infinity"), r)
  | None =>
  match after (str "-Infinity") s with
  | Some r => Ok (JFloat (str "-Infinity"), r)
  | None => scan_number s
  end end end end end end.

(** The scanner.  Each call consumes a character, so the length of the text
    bounds the recursion and [loads] gives one unit more. *)
Fixpoint scan_value (fuel : nat) (s : pystr) : res (json * pystr) :=
  match fuel with
  | O => json_error
  | S f =>
      match s with
      | [] => json_error
      | c :: t =>
          if c =? 34 then let! p := scan_string t in Ok (JStr p.1, p.2)
          else if c =? 91 then
            match skip_ws t with
            | [] => json_error
            | c' :: r => if c' =? 93 then Ok (JArr [], r) else scan_items f (c' :: r) []
            end
          else if c =? 123 then
            match skip_ws t with
            | [] => json_error
            | c' :: r => if c' =? 125 then Ok (JObj [], r) else scan_members f (c' :: r) []
            end
          else scan_word s
      end
  end
with scan_items (fuel : nat) (s : pystr) (acc : list json) : res (json * pystr) :=
  match fuel with
  | O => json_error
  | S f =>
      let! p := scan_value f s in
      match skip_ws p.2 with
      | [] => json_error
      | c :: r =>
          if c =? 93 then Ok (JArr (rev (p.1 :: acc)), r)
          else if c =? 44 then scan_items f (skip_ws r) (p.1 :: acc)
          else json_error
      end
  end
with scan_members (fuel : nat) (s : pystr) (acc : list (pystr * json)) : res (json * pystr) :=
  match fuel with
  | O => json_error
  | S f =>
      match s with
      | [] => json_error
      | q :: t =>
          if q =? 34 then
            let! k := scan_string t in
            match skip_ws k.2 with
            | [] => json_error
            | c :: r =>
                if c =? 58 then
                  let! p := scan_value f (skip_ws r) in
                  match skip_ws p.2 with
                  | [] => json_error
                  | c' :: r' =>
                      if c' =? 125
                      then Ok (JObj (dict_of_pairs (rev ((k.1, p.1) :: acc))), r')
                      else if c' =? 44 then scan_members f (skip_ws r') ((k.1, p.1) :: acc)
                      else json_error
                  end
                else json_error
            end
          else json_error
      end
  end.

Definition loads (s : pystr) : res json :=
  match s with
  | [] => json_error
  | c :: _ =>
      if c =? 65279 then json_error
      else
        let! p := scan_value (S (length s)) (skip_ws s) in
        match skip_ws p.2 with
        | [] => Ok p.1
        | _ :: _ => json_error
        end
  end.

(** [json.loads] applied to [bytes]. *)
Definition loads_bytes (b : pybytes) : res json :=
  match json_decode_bytes b with
  | Some s => loads s
  | None => raise UnicodeError "invalid encoding"
  end.

(** Apostrophes stand for the quotation marks of the text. *)
Example loads_sample :
  loads (map (fun c => if c =? 39 then 34 else c)
    (str "{ 'b' : [1, -20, true, null], 'a': 'x\u00e9\ud83d\ude00', 'b': 1.5e3 } "))
  = Ok (JObj [(str "b", JFloat (str "1.5e3")); (str "a", JStr [120; 233; 128512])]).
Proof. vm_compute. reflexivity. Qed.

(** ** Reading back what was written *)

(** Text that [str.encode("utf-8")] accepts. *)
Definition text_ok (s : pystr) : Prop :=
  Forall (fun c => 0 <= c < 1114112 /\ is_surrogate c = false) s.

(** Documents whose strings are text, whose objects have distinct keys, and
    that hold no float. *)
Fixpoint json_ok (v : json) : Prop :=
  match v with
  | JFloat _ => False
  | JStr s => text_ok s
  | JArr l => foldr (fun x P => json_ok x /\ P) True l
  | JObj m => NoDup (map fst m) /\ foldr (fun kv P => text_ok kv.1 /\ json_ok kv.2 /\ P) True m
  | _ => True
  end.

(** The document with the members of every object sorted by key. *)
Fixpoint norm (v : json) : json :=
  match v with
  | JArr l => JArr (map norm l)
  | JObj m => JObj (py_sorted key_leb (map (fun kv => (kv.1, norm kv.2)) m))
  | _ => v
  end.

Lemma hex4_fixed n :
  0 <= n < 65536 ->
  exists a b c d, hex_fixed 4 n = [a; b; c; d] /\ hex4 a b c d = Some n.
Proof.
  intros Hn. eexists _, _, _, _. split; [reflexivity|]. unfold hex4.
  rewrite !hex_value_char by (Z.div_mod_to_equations; lia).
  f_equal. Z.div_mod_to_equations; lia.
Qed.

Lemma scan_string_u n t :
  0 <= n < 65536 -> is_high n = false ->
  scan_string (92 :: 117 :: hex_fixed 4 n ++ t) = cons_text n (scan_string t).
Proof.
  intros Hn Hh. destruct (hex4_fixed n Hn) as (a & b & c & d & -> & E).
  simpl. rewrite E. destruct t as [|x [|y [|a' [|b' [|c' [|d' t]]]]]]; try done.
  by rewrite Hh.
Qed.

Lemma scan_string_pair u l t :
  is_high u = true -> is_low l = true ->
  scan_string ((92 :: 117 :: hex_fixed 4 u) ++ (92 :: 117 :: hex_fixed 4 l) ++ t)
  = cons_text (join_surrogates u l) (scan_string t).
Proof.
  intros Hu Hl. unfold is_high, is_low in *.
  destruct (hex4_fixed u) as (a & b & c & d & -> & E); [lia|].
  destruct (hex4_fixed l) as (a' & b' & c' & d' & -> & E'); [lia|].
  simpl. rewrite E, E'. unfold is_high, is_low.
  by rewrite Hu, Hl.
Qed.

Lemma scan_string_simple e c t :
  (e =? 117) = false -> simple_escape e = Some c ->
  scan_string (92 :: e :: t) = cons_text c (scan_string t).
Proof. intros H1 H2. simpl. by rewrite H1, H2. Qed.

Lemma scan_string_char c t :
  0 <= c < 1114112 -> is_surrogate c = false ->
  scan_string (escape_char c ++ t) = cons_text c (scan_string t).
Proof.
  intros Hc Hs. unfold escape_char.
  repeat match goal with
  | |- context [if c =? ?k then [92; ?e] else _] =>
      destruct (Z.eqb_spec c k) as [-> | ?]; [by apply scan_string_simple|]
  end.
  destruct ((32 <=? c) && (c <=? 126)) eqn:E.
  - simpl. assert ((c =? 34) = false) as -> by lia. assert ((c =? 92) = false) as -> by lia.
    by assert ((c <=? 31) = false) as -> by lia.
  - destruct (c <? 65536) eqn:E2.
    + apply scan_string_u; [lia|]. unfold is_surrogate, is_high in *. lia.
    + rewrite <- app_assoc. rewrite scan_string_pair.
      * f_equal. unfold join_surrogates. Z.div_mod_to_equations; lia.
      * unfold is_high. Z.div_mod_to_equations; lia.
      * unfold is_low. Z.div_mod_to_equations; lia.
Qed.

Lemma scan_string_dumps s t :
  text_ok s -> scan_string (flat_map escape_char s ++ 34 :: t) = Ok (s, t).
Proof.
  induction 1 as [|c s [Hc Hs] _ IH]; [done|]. cbn [flat_map].
  rewrite <- app_assoc, scan_string_char by done. by rewrite IH.
Qed.

(** What may follow a number without becoming part of it. *)
Definition delim (t : pystr) : Prop :=
  match t with
  | [] => True
  | c :: _ => is_digit c = false /\ c <> 46 /\ c <> 101 /\ c <> 69
  end.

Lemma span_digits_app ds t :
  Forall (fun c => is_digit c = true) ds -> delim t -> span_digits (ds ++ t) = (ds, t).
Proof.
  intros Hd Ht. induction Hd as [|c ds Hc _ IH]; simpl.
  - destruct t as [|c t]; [done|]. destruct Ht as [Hc _]. simpl. by rewrite Hc.
  - by rewrite Hc, IH.
Qed.

Lemma scan_intpart_dec n t :
  0 <= n -> delim t -> scan_intpart (dec_str n ++ t) = Some (dec_str n, t).
Proof.
  intros Hn Ht. destruct (decide (n = 0)) as [->|]; [done|].
  destruct (dec_str_head n) as (c & u & Hd & Hc); [lia|].
  pose proof (dec_str_digit n Hn) as Hds. rewrite Hd in *.
  unfold scan_intpart. cbn [app].
  assert ((c =? 48) = false) as -> by lia.
  apply Forall_cons in Hds as Hds'. destruct Hds' as [-> _].
  f_equal. apply (span_digits_app (c :: u)); done.
Qed.

Lemma delim_no_frac_exp t : delim t -> scan_frac t = None /\ scan_exp t = None.
Proof.
  destruct t as [|c t]; [done|]. intros (? & ? & ? & ?). unfold scan_frac, scan_exp.
  assert ((c =? 46) = false) as -> by lia.
  by assert ((c =? 101) || (c =? 69) = false) as -> by lia.
Qed.

Lemma scan_number_int n b t :
  int_str n = Ok b -> delim t -> scan_number (b ++ t) = Ok (JInt n, t).
Proof.
  unfold int_str. intros Hb Ht.
  destruct (int_max_str_digits <? length (dec_str (Z.abs n)))%nat eqn:Hlen; [done|].
  simplify_eq. unfold repr_int, scan_number.
  destruct (delim_no_frac_exp t Ht) as [Hf He].
  destruct (n <? 0) eqn:Hneg.
  - assert (Z.abs n = - n) as Habs by lia. rewrite Habs in Hlen.
    cbn [app scan_minus]. rewrite Z.eqb_refl, scan_intpart_dec by (done || lia).
    rewrite Hf, He, Hlen, dec_str_val by lia. by rewrite Z.opp_involutive.
  - assert (Z.abs n = n) as Habs by lia. rewrite Habs in Hlen.
    assert (scan_minus (dec_str n ++ t) = (false, dec_str n ++ t)) as ->.
    { destruct (decide (n = 0)) as [->|]; [done|].
      destruct (dec_str_head n) as (c & u & -> & Hc); [lia|]. simpl.
      by assert ((c =? 45) = false) as -> by lia. }
    rewrite scan_intpart_dec by (done || lia).
    by rewrite Hf, He, Hlen, dec_str_val by lia.
Qed.

Lemma int_str_head n b :
  int_str n = Ok b -> exists c u, b = c :: u /\ (c = 45 \/ 48 <= c <= 57) /\
    (c = 45 -> exists d v, u = d :: v /\ 48 <= d <= 57).
Proof.
  unfold int_str, repr_int. intros Hb. case_match; [done|]. simplify_eq.
  assert (Hd : forall m, 0 <= m -> exists d v, dec_str m = d :: v /\ 48 <= d <= 57).
  { intros m Hm. destruct (decide (m = 0)) as [->|]; [by eexists _, _|].
    destruct (dec_str_head m) as (c & u & ? & ?); [lia|]. exists c, u. split; [done|lia]. }
  case_match.
  - eexists _, _. split; [done|]. split; [lia|]. intros _. apply Hd. lia.
  - destruct (Hd n) as (c & u & -> & ?); [lia|]. exists c, u. split; [done|].
    split; lia.
Qed.

Lemma after_cons_ne a p c t : a <> c -> after (a :: p) (c :: t) = None.
Proof. intros. simpl. by assert ((a =? c) = false) as -> by lia. Qed.

Lemma scan_value_int f n b t :
  int_str n = Ok b -> delim t -> scan_value (S f) (b ++ t) = Ok (JInt n, t).
Proof.
  intros Hb Ht. rewrite <- (scan_number_int n b t Hb Ht).
  destruct (int_str_head n b Hb) as (c & u & -> & Hc & Hm).
  cbn [app scan_value].
  assert ((c =? 34) = false) as -> by lia. assert ((c =? 91) = false) as -> by lia.
  assert ((c =? 123) = false) as -> by lia. unfold scan_word.
  change (str "null") with (110 :: str "ull"). change (str "true") with (116 :: str "rue").
  change (str "false") with (102 :: str "alse"). change (str "NaN") with (78 :: str "aN").
  change (str "Infinity") with (73 :: str "nfinity").
  rewrite !after_cons_ne by lia.
  change (str "-Infinity") with (45 :: 73 :: str "nfinity").
  destruct (decide (c = 45)) as [->|].
  - destruct (Hm eq_refl) as (d & v & -> & ?). cbn [app after].
    rewrite Z.eqb_refl. by assert ((73 =? d) = false) as -> by lia.
  - by rewrite after_cons_ne by lia.
Qed.

Lemma dict_set_fresh {A} k (x : A) m :
  k ∉ map fst m -> dict_set k x m = m ++ [(k, x)].
Proof.
  induction m as [|[k' y] m IH]; simpl; [done|]. intros H.
  rewrite bool_decide_eq_false_2 by set_solver. by rewrite IH by set_solver.
Qed.

Lemma dict_of_pairs_nodup {A} (l : list (pystr * A)) :
  NoDup (map fst l) -> dict_of_pairs l = l.
Proof.
  unfold dict_of_pairs. intros Hnd.
  enough (H : forall m, NoDup (map fst (m ++ l)) ->
                foldl (fun m kv => dict_set kv.1 kv.2 m) m l = m ++ l) by by apply H.
  clear Hnd. induction l as [|[k x] l IH]; intros m Hm; simpl; [by rewrite app_nil_r|].
  rewrite map_app in Hm. simpl in Hm.
  rewrite dict_set_fresh.
  - rewrite IH; rewrite <- app_assoc; [done|]. by rewrite map_app.
  - intros Hin. apply NoDup_app in Hm as (_ & Hd & _). apply (Hd k); [done|]. set_solver.
Qed.

Lemma dumps_head v b :
  dumps v = Ok b -> json_ok v ->
  exists c u, b = c :: u /\ is_ws c = false /\ c <> 93 /\ c <> 65279.
Proof.
  destruct v as [|[]|n|x|s|l|m]; simpl; intros Hb Hok; try done; inv_ok;
    try (eexists _, _; split; [reflexivity|]; by unfold is_ws).
  destruct (int_str_head n b Hb) as (c & u & -> & Hc & _).
  exists c, u. split; [done|]. unfold is_ws. lia.
Qed.

Lemma skip_ws_cons c u : is_ws c = false -> skip_ws (c :: u) = c :: u.
Proof. simpl. by intros ->. Qed.

(** Reading [v] back from its text consumes exactly that text. *)
Definition reads (v : json) : Prop :=
  forall b, dumps v = Ok b -> json_ok v ->
  forall f t, (length b <= f)%nat -> delim t -> scan_value f (b ++ t) = Ok (norm v, t).

Lemma delim_comma t : delim (44 :: t).
Proof. by repeat split. Qed.
Lemma delim_bracket t : delim (93 :: t).
Proof. by repeat split. Qed.
Lemma delim_brace t : delim (125 :: t).
Proof. by repeat split. Qed.
#[local] Hint Resolve delim_comma delim_bracket delim_brace : core.

Lemma join_cons sep x y l : join sep (x :: y :: l) = x ++ sep :: join sep (y :: l).
Proof. done. Qed.

Lemma join_head v ts b :
  dumps v = Ok b -> json_ok v ->
  exists c u, join 44 (b :: ts) = c :: u /\ is_ws c = false /\ c <> 93.
Proof.
  intros Hb Hok. destruct (dumps_head v b Hb Hok) as (c & u & -> & ? & ? & ?).
  destruct ts; simpl; eauto.
Qed.

Lemma scan_items_spec l ts :
  Forall reads l -> Forall2 (fun v b => dumps v = Ok b) l ts -> Forall json_ok l ->
  l <> [] -> forall f acc t, (length (join 44 ts) < f)%nat ->
  scan_items f (join 44 ts ++ 93 :: t) acc = Ok (JArr (rev acc ++ map norm l), t).
Proof.
  intros Hr H2 Hok Hne. induction H2 as [|v b l ts Hb H2 IH]; [done|].
  apply Forall_cons in Hr as [Hv Hr]. apply Forall_cons in Hok as [Hov Hok].
  intros [|f] acc t Hf; [lia|]. destruct H2 as [|w b' l ts Hb' H2].
  - cbn [join] in *. cbn [scan_items]. rewrite Hv by (auto || lia). simpl.
    done.
  - rewrite join_cons in *. rewrite length_app in Hf. cbn [length] in Hf.
    cbn [scan_items]. rewrite <- app_assoc. cbn [app].
    rewrite Hv by (auto || lia). cbn [rbind].
    apply Forall_cons in Hok as Hok'. destruct Hok' as [How _].
    destruct (join_head w ts b' Hb' How) as (c & u & Hj & Hc & _).
    cbn [snd fst]. rewrite skip_ws_cons by done. cbn [Z.eqb Pos.eqb].
    rewrite Hj. cbn [app]. rewrite skip_ws_cons by done.
    rewrite app_comm_cons, <- Hj, IH by (done || lia).
    simpl. by rewrite <- app_assoc.
Qed.

Lemma scan_members_spec m ts :
  Forall (fun kv => reads kv.2) m ->
  Forall2 (fun kv kt => kt.1 = kv.1 /\ dumps kv.2 = Ok kt.2) m ts ->
  Forall (fun kv => text_ok kv.1 /\ json_ok kv.2) m ->
  m <> [] -> forall f acc t, (length (join 44 (map member_text ts)) < f)%nat ->
  scan_members f (join 44 (map member_text ts) ++ 125 :: t) acc
  = Ok (JObj (dict_of_pairs (rev acc ++ map (fun kv => (kv.1, norm kv.2)) m)), t).
Proof.
  intros Hr H2 Hok Hne. induction H2 as [|[k v] [k' b] m ts [Hk Hb] H2 IH]; [done|].
  simpl in Hk, Hb. subst k'.
  apply Forall_cons in Hr as [Hv Hr]. apply Forall_cons in Hok as [[Hok1 Hov] Hok].
  simpl in Hv, Hok1, Hov. destruct (dumps_head v b Hb Hov) as (c & u & Hbu & Hc & _ & _).
  intros [|f] acc t Hf; [lia|].
  assert (Hstep : forall r, (length b <= f)%nat -> delim r ->
    scan_members (S f) ((dumps_str k ++ 58 :: b) ++ r) acc =
    match skip_ws r with
    | [] => json_error
    | c' :: r' =>
        if c' =? 125 then Ok (JObj (dict_of_pairs (rev ((k, norm v) :: acc))), r')
        else if c' =? 44 then scan_members f (skip_ws r') ((k, norm v) :: acc)
        else json_error
    end).
  { intros r Hl Hr'. unfold dumps_str. cbn [app scan_members]. rewrite Z.eqb_refl.
    rewrite <- !app_assoc. cbn [app]. rewrite scan_string_dumps by done. cbn [rbind].
    cbn [snd fst]. rewrite skip_ws_cons by done. cbn [Z.eqb Pos.eqb].
    rewrite Hbu. cbn [app]. rewrite skip_ws_cons by done.
    rewrite app_comm_cons, <- Hbu, Hv by done. done. }
  assert (Hlen : (length b < length (member_text (k, b)))%nat).
  { unfold member_text. simpl. rewrite !length_app. simpl. lia. }
  destruct H2 as [|[k2 v2] [k2' b2] m ts [Hk2 Hb2] H2].
  - cbn [map join] in *. unfold member_text at 1. rewrite Hstep by (auto || lia). done.
  - cbn [map] in *. rewrite join_cons in *. rewrite length_app in Hf. cbn [length] in Hf.
    rewrite <- app_assoc. unfold member_text at 1. rewrite Hstep by (cbn [app]; auto || lia).
    cbn [app]. rewrite skip_ws_cons by done. cbn [Z.eqb Pos.eqb].
    assert (skip_ws (join 44 (member_text (k2', b2) :: map member_text ts) ++ 125 :: t)
            = join 44 (member_text (k2', b2) :: map member_text ts) ++ 125 :: t) as ->.
    { destruct ts; done. }
    rewrite IH by (done || lia). simpl. by rewrite <- app_assoc.
Qed.

Lemma json_ok_arr l : json_ok (JArr l) <-> Forall json_ok l.
Proof.
  simpl. induction l as [|x l IH]; simpl; [by split|].
  by rewrite Forall_cons, IH.
Qed.

Lemma json_ok_obj m :
  json_ok (JObj m) <->
  NoDup (map fst m) /\ Forall (fun kv => text_ok kv.1 /\ json_ok kv.2) m.
Proof.
  simpl. f_equiv. induction m as [|x l IH]; simpl; [by split|].
  rewrite Forall_cons, IH. tauto.
Qed.

(** The texts of the members, in the order they are written. *)
Lemma dumps_obj m b :
  dumps (JObj m) = Ok b ->
  exists ts, Forall2 (fun kv kt => kt.1 = kv.1 /\ dumps kv.2 = Ok kt.2)
               (py_sorted key_leb m) ts /\
             b = 123 :: join 44 (map member_text ts) ++ [125].
Proof.
  cbn [dumps]. rewrite rbind_ok. intros (ts & Hts & [= <-]). exists ts. split; [|done].
  rewrite (py_sorted_map _ key_leb) in Hts by done.
  apply res_map_ok in Hts. rewrite Forall2_fmap_l in Hts.
  eapply Forall2_impl; [exact Hts|]. intros [k v] [k' t] H. simpl in H.
  apply rbind_ok in H as (t' & Ht & [= <- <-]). done.
Qed.

Lemma dumps_arr l b :
  dumps (JArr l) = Ok b ->
  exists ts, Forall2 (fun v t => dumps v = Ok t) l ts /\ b = 91 :: join 44 ts ++ [93].
Proof.
  cbn [dumps]. rewrite rbind_ok. intros (ts & Hts & [= <-]). exists ts. split; [|done].
  apply res_map_ok in Hts. by rewrite Forall2_fmap_l in Hts.
Qed.

Lemma reads_word f w v t :
  w <> [] -> (forall t, scan_word (w ++ t) = Ok (v, t)) ->
  (forall c, head w = Some c -> c <> 34 /\ c <> 91 /\ c <> 123) ->
  (length w <= f)%nat -> scan_value f (w ++ t) = Ok (v, t).
Proof.
  intros Hne Hw Hh Hf. destruct w as [|c w]; [done|]. destruct f as [|f]; [simpl in Hf; lia|].
  destruct (Hh c) as (? & ? & ?); [done|]. cbn [app scan_value].
  assert ((c =? 34) = false) as -> by lia. assert ((c =? 91) = false) as -> by lia.
  assert ((c =? 123) = false) as -> by lia. apply Hw.
Qed.

Lemma dumps_reads v : reads v.
Proof.
  induction v as [|b|n|x|s|l Hl|m Hm] using json_ind'; intros b' Hb Hok f t Hf Ht.
  - simpl in Hb. simplify_eq. apply reads_word; try done. by intros c [= <-].
  - destruct b; simpl in Hb; simplify_eq; apply reads_word; try done; by intros c [= <-].
  - simpl in Hb. destruct f as [|f]; [|by apply scan_value_int].
    destruct (int_str_head n b' Hb) as (? & ? & -> & _). simpl in Hf. lia.
  - done.
  - simpl in Hb, Hok. simplify_eq. destruct f as [|f]; [simpl in Hf; lia|].
    cbn [app scan_value dumps_str]. rewrite Z.eqb_refl, <- app_assoc. cbn [app].
    by rewrite scan_string_dumps.
  - apply dumps_arr in Hb as (ts & H2 & ->). apply json_ok_arr in Hok.
    destruct f as [|f]; [simpl in Hf; lia|]. cbn [app scan_value norm Z.eqb Pos.eqb].
    destruct H2 as [|v b l ts Hb H2]; [done|].
    apply Forall_cons in Hok as Hok'. destruct Hok' as [Hov _].
    destruct (join_head v ts b Hb Hov) as (c & u & Hj & Hc & Hne).
    rewrite <- app_assoc, Hj. cbn [app]. rewrite skip_ws_cons by done.
    assert ((c =? 93) = false) as -> by lia. rewrite app_comm_cons, <- Hj.
    rewrite (scan_items_spec (v :: l)); try done; [by constructor|].
    cbn [length] in Hf. rewrite length_app in Hf. simpl in Hf. simpl. lia.
  - apply dumps_obj in Hb as (ts & H2 & ->). apply json_ok_obj in Hok as [Hnd Hok].
    destruct f as [|f]; [simpl in Hf; lia|]. cbn [norm].
    rewrite (py_sorted_map _ key_leb) by done.
    pose proof (py_sorted_perm key_leb m) as Hp.
    rewrite <- Hp in Hm, Hok, Hnd. revert H2 Hm Hok Hnd.
    generalize (py_sorted key_leb m). clear Hp m. intros m H2 Hm Hok Hnd.
    cbn [app scan_value Z.eqb Pos.eqb].
    destruct H2 as [|kv kt m ts Hkt H2]; [done|].
    assert (Hj : exists u, join 44 (map member_text (kt :: ts)) = 34 :: u).
    { destruct ts; simpl; by eexists. }
    destruct Hj as [u Hj]. rewrite <- app_assoc, Hj. cbn [app].
    rewrite skip_ws_cons by done. cbn [Z.eqb Pos.eqb]. rewrite app_comm_cons, <- Hj.
    rewrite (scan_members_spec (kv :: m)); try done; [|by constructor|].
    + simpl rev. cbn [app]. rewrite dict_of_pairs_nodup; [done|].
      rewrite map_map. simpl. done.
    + cbn [length] in Hf. rewrite length_app in Hf. simpl in Hf. simpl. lia.
Qed.

(** Reading back a written document gives it with sorted objects. *)
Lemma loads_dumps v b : json_ok v -> dumps v = Ok b -> loads b = Ok (norm v).
Proof.
  intros Hok Hb. destruct (dumps_head v b Hb Hok) as (c & u & Hbu & Hc & _ & Hbom).
  unfold loads. rewrite Hbu at 1. assert ((c =? 65279) = false) as -> by lia.
  assert (skip_ws b = b) as -> by (rewrite Hbu; by apply skip_ws_cons).
  pose proof (dumps_reads v b Hb Hok (S (length b)) []) as H.
  rewrite app_nil_r in H. rewrite H by (done || lia). done.
Qed.

(** ** What is written is ASCII *)

Definition printable (s : pystr) : Prop := Forall (fun c => 0 < c < 128) s.

Lemma printable_app s t : printable (s ++ t) <-> printable s /\ printable t.
Proof. apply Forall_app. Qed.

Lemma printable_hex w n : printable (hex_fixed w n).
Proof.
  apply Forall_forall. intros c Hc. apply hex_fixed_chars in Hc. lia.
Qed.

Lemma printable_escape c : 0 <= c -> printable (escape_char c).
Proof.
  intros Hc. unfold escape_char. repeat case_match;
    repeat (apply Forall_cons; split; [lia|]); try done; try apply printable_hex.
  apply printable_app. split; repeat (apply Forall_cons; split; [lia|]); apply printable_hex.
Qed.

Lemma printable_dumps_str s : text_ok s -> printable (dumps_str s).
Proof.
  intros Hs. unfold dumps_str. apply Forall_cons. split; [lia|]. apply printable_app.
  split; [|by repeat constructor]. induction Hs as [|c s [? _] _ IH]; simpl; [constructor|].
  apply printable_app. split; [|done]. apply printable_escape. lia.
Qed.

Lemma printable_join l : Forall printable l -> printable (join 44 l).
Proof.
  induction 1 as [|x l Hx Hl IH]; [constructor|]. destruct l as [|y l]; [done|].
  rewrite join_cons. apply printable_app. split; [done|]. by apply Forall_cons.
Qed.

Lemma printable_int n b : int_str n = Ok b -> printable b.
Proof.
  unfold int_str, repr_int. intros H. case_match; [done|]. simplify_eq.
  assert (Hd : forall m, 0 <= m -> printable (dec_str m)).
  { intros m Hm. eapply Forall_impl; [by apply dec_str_digit|].
    unfold is_digit. simpl. intros. lia. }
  case_match; [apply Forall_cons; split; [lia|]|]; apply Hd; lia.
Qed.

Lemma dumps_printable v b : json_ok v -> dumps v = Ok b -> printable b.
Proof.
  revert b. induction v as [|c|n|x|s|l Hl|m Hm] using json_ind'; intros b Hok Hb.
  - simpl in Hb. simplify_eq. by repeat constructor.
  - destruct c; simpl in Hb; simplify_eq; by repeat constructor.
  - by eapply printable_int.
  - done.
  - simpl in Hb. simplify_eq. by apply printable_dumps_str.
  - apply dumps_arr in Hb as (ts & H2 & ->). apply json_ok_arr in Hok.
    apply Forall_cons. split; [lia|]. apply printable_app. split; [|by repeat constructor].
    apply printable_join. clear -Hl Hok H2. induction H2; [constructor|].
    inversion Hl; inversion Hok; subst. constructor; auto.
  - apply dumps_obj in Hb as (ts & H2 & ->). apply json_ok_obj in Hok as [_ Hok].
    rewrite <- (py_sorted_perm key_leb m) in Hm, Hok.
    apply Forall_cons. split; [lia|]. apply printable_app. split; [|by repeat constructor].
    apply printable_join. revert H2 Hm Hok. generalize (py_sorted key_leb m). clear m.
    intros m H2 Hm Hok. induction H2 as [|[k v] [k' t] m ts [Hk Hv] H2 IH];
      [constructor|]. simpl in *. subst k'.
    apply Forall_cons in Hm as [Hm1 Hm]. apply Forall_cons in Hok as [[Hok1 Hok2] Hok].
    constructor; [|auto]. unfold member_text. apply printable_app.
    split; [by apply printable_dumps_str|]. apply Forall_cons. split; [lia|].
    by apply Hm1.
Qed.

Lemma loads_bytes_dumps v b : json_ok v -> dumps v = Ok b -> loads_bytes b = Ok (norm v).
Proof.
  intros Hok Hb. unfold loads_bytes.
  rewrite json_decode_bytes_ascii by (by eapply dumps_printable).
  by apply loads_dumps.
Qed.

(** ** Typed access, as the decoders of this program do it *)

(** [m\[k\]] *)
Fixpoint jget (k : pystr) (m : list (pystr * json)) : res json :=
  match m with
  | [] => raise KeyError "missing key"
  | (k', v) :: t => if bool_decide (k = k') then Ok v else jget k t
  end.

Lemma utf8_encode_text_ok s b : utf8_encode s = Ok b -> text_ok s.
Proof.
  revert b. induction s as [|c s IH]; intros b; simpl; [constructor|].
  destruct (utf8_char c) eqn:E; [|done]. intros H. inv_ok. constructor; [|by eapply IH].
  unfold utf8_char in E. repeat case_match; simplify_eq; split; try lia; try done;
    unfold is_surrogate; lia.
Qed.

(** Objects whose members are written in the order of their keys. *)
Fixpoint keys_sorted (l : list pystr) : bool :=
  match l with
  | [] => true
  | k :: t => forallb (fun k' => pystr_leb k k' && negb (pystr_leb k' k)) t && keys_sorted t
  end.

Lemma keys_sorted_nodup l : keys_sorted l = true -> NoDup l.
Proof.
  induction l as [|k l IH]; simpl; [constructor|].
  intros [Hk Hl]%andb_true_split. constructor; [|auto]. intros Hin.
  rewrite forallb_forall in Hk. apply list_elem_of_In, Hk in Hin.
  apply andb_true_split in Hin as [H1 H2]. by rewrite H1 in H2.
Qed.

Lemma norm_obj m :
  keys_sorted (map fst m) = true ->
  norm (JObj m) = JObj (map (fun kv => (kv.1, norm kv.2)) m).
Proof.
  intros H. simpl. f_equal. rewrite (py_sorted_map _ key_leb) by done. f_equal.
  apply py_sorted_id. revert H. induction m as [|[k v] m IH]; simpl; [constructor|].
  intros [Hk Hl]%andb_true_split. constructor; [by apply IH|].
  apply Forall_forall. intros [k' v'] Hin. unfold key_leb, leb_on. simpl.
  rewrite forallb_forall in Hk. specialize (Hk k').
  apply andb_true_split in Hk as [? _]; [done|].
  apply (in_map fst) with (x := (k', v')). by apply list_elem_of_In.
Qed.

Lemma json_ok_obj_intro m :
  keys_sorted (map fst m) = true -> Forall (fun k => text_ok k) (map fst m) ->
  Forall (fun kv => json_ok kv.2) m -> json_ok (JObj m).
Proof.
  intros Hs Hk Hv. apply json_ok_obj. split; [by apply keys_sorted_nodup|].
  induction m as [|[k v] m IH]; [constructor|]. simpl in Hs.
  apply andb_true_split in Hs as [_ Hs].
  simpl in Hk. apply Forall_cons in Hk as [? ?]. apply Forall_cons in Hv as [? ?].
  constructor; [by split | auto].
Qed.

Lemma str_text_ok s : text_ok (str s).
Proof.
  unfold text_ok, str. apply Forall_fmap, Forall_forall. intros a _. simpl.
  pose proof (Ascii.N_ascii_bounded a). unfold is_surrogate. lia.
Qed.

(** Keys and lookups of literal objects are decided by computation. *)
Ltac json_keys :=
  match goal with
  | |- keys_sorted _ = true => reflexivity
  | |- Forall _ (map fst _) =>
      cbn [map fst]; repeat (apply Forall_cons; split; [apply str_text_ok|]); apply Forall_nil_2
  end.

Ltac jget_compute :=
  cbn [jget];
  repeat match goal with
  | |- context [bool_decide (str ?a = str ?b)] =>
      let r := eval vm_compute in (bool_decide (str a = str b)) in
      change (bool_decide (str a = str b)) with r; cbv iota
  end.

(** ** Writing succeeds when integers are not astronomically long *)

Fixpoint ints_printable (v : json) : bool :=
  match v with
  | JInt n => Z.abs n <? 2 ^ 4300
  | JArr l => forallb ints_printable l
  | JObj m => forallb (fun kv => ints_printable kv.2) m
  | _ => true
  end.

Lemma res_map_total {A B} (f : A -> res B) l :
  Forall (fun x => exists y, f x = Ok y) l -> exists ys, res_map f l = Ok ys.
Proof.
  induction 1 as [|x l [y Hy] _ [ys IH]]; simpl; [eauto|]. rewrite Hy, IH. simpl. eauto.
Qed.

Lemma dumps_total v : ints_printable v = true -> exists b, dumps v = Ok b.
Proof.
  induction v as [|c|n|x|s|l Hl|m Hm] using json_ind'; intros H; simpl; eauto.
  - destruct c; eauto.
  - apply int_str_ok. cbn [ints_printable] in H. by apply Z.ltb_lt in H.
  - destruct (res_map_total id (map dumps l)) as [ts ->]; simpl; [|eauto].
    apply Forall_fmap. simpl in H. rewrite forallb_forall in H.
    rewrite Forall_forall in Hl |- *. intros v Hv. apply Hl; [done|].
    by apply H, list_elem_of_In.
  - match goal with |- context [res_map ?f ?l] =>
      destruct (res_map_total f l) as [ts ->]; simpl; [|eauto] end.
    rewrite py_sorted_perm. apply Forall_fmap. simpl in H. rewrite forallb_forall in H.
    rewrite Forall_forall in Hm |- *. intros [k v] Hv. simpl.
    destruct (Hm _ Hv) as [b Hb]; simpl in *; [|rewrite Hb; simpl; eauto].
    by apply (H (k, v)), list_elem_of_In.
Qed.

Lemma hexc_text_ok s : Forall hexc s -> text_ok s.
Proof.
  intros H. eapply Forall_impl; [exact H|]. unfold hexc, is_surrogate. intros c Hc. lia.
Qed.

Lemma bytes_hex_hexc d : Forall (fun x => 0 <= x < 256) d -> Forall hexc (bytes_hex d).
Proof.
  induction 1 as [|x d Hx _ IH]; [constructor|]. simpl.
  pose proof (hex_char_range (x / 16)). pose proof (hex_char_range (x mod 16)).
  assert (0 <= x / 16 < 16) by (Z.div_mod_to_equations; lia).
  assert (0 <= x mod 16 < 16) by (Z.div_mod_to_equations; lia).
  repeat (apply Forall_cons; split; [unfold hexc; lia|]). exact IH.
Qed.

Lemma length_bytes_hex d : length (bytes_hex d) = (2 * length d)%nat.
Proof. induction d as [|x d IH]; [done|]. simpl. rewrite IH. lia. Qed.

Lemma bytes_hex_text_ok b : Forall (fun x => 0 <= x < 256) b -> text_ok (bytes_hex b).
Proof. intros H. by apply hexc_text_ok, bytes_hex_hexc. Qed.

(** ** Members of a document that was read back *)

Definition norm_members (m : list (pystr * json)) : list (pystr * json) :=
  py_sorted key_leb (map (fun kv => (kv.1, norm kv.2)) m).

Lemma norm_obj_members m : norm (JObj m) = JObj (norm_members m).
Proof. done. Qed.

Lemma jget_elem k v m : NoDup (map fst m) -> jget k m = Ok v <-> (k, v) ∈ m.
Proof.
  induction m as [|[k' v'] m IH]; simpl; intros Hnd; [set_solver|].
  apply NoDup_cons in Hnd as [Hk Hnd]. case_bool_decide as E.
  - subst k'. split; [intros [= ->]; set_solver|].
    intros [[= ->] | Hin]%elem_of_cons; [done|].
    destruct Hk. by apply (list_elem_of_fmap_2 fst _ (k, v)).
  - rewrite IH by done. set_solver.
Qed.

Lemma norm_members_perm m :
  norm_members m ≡ₚ map (fun kv => (kv.1, norm kv.2)) m.
Proof. apply py_sorted_perm. Qed.

Lemma norm_members_keys m : map fst (norm_members m) ≡ₚ map fst m.
Proof. rewrite norm_members_perm, map_map. done. Qed.

Lemma jget_norm k m v :
  NoDup (map fst m) -> jget k m = Ok v -> jget k (norm_members m) = Ok (norm v).
Proof.
  intros Hnd Hv. apply jget_elem in Hv; [|done].
  apply jget_elem; [by rewrite norm_members_keys|].
  rewrite norm_members_perm. by apply (list_elem_of_fmap_2 (fun kv => (kv.1, norm kv.2)) _ (k, v)).
Qed.

(** Distinctness of literal keys is decided by computation. *)
Ltac nodup_keys :=
  cbn [map fst app]; apply (bool_decide_unpack _); vm_compute; exact I.

(** [norm_get] reads a literal member of a document that was read back. *)
Ltac norm_get :=
  match goal with
  | |- context [jget ?k (norm_members ?m)] =>
      erewrite (jget_norm k m) by (nodup_keys || (cbn [app]; jget_compute; reflexivity))
  end.

(** [value.keys() == keys] *)
Definition keys_are (m : list (pystr * json)) (keys : list string) : bool :=
  bool_decide (list_to_set (map fst m) = (list_to_set (map str keys) : gset pystr)).

Lemma keys_norm m keys :
  bool_decide (list_to_set (map fst m) = (list_to_set (map str keys) : gset pystr)) = true ->
  keys_are (norm_members m) keys = true.
Proof.
  intros H%bool_decide_eq_true. unfold keys_are. apply bool_decide_eq_true.
  by rewrite (list_to_set_perm_L _ _ (norm_members_keys m)).
Qed.

(** ** The length of a document *)

Definition sum_of {A} (f : A -> Z) (l : list A) : Z := foldr (fun x acc => f x + acc) 0 l.

Lemma sum_of_perm {A} (f : A -> Z) l k : l ≡ₚ k -> sum_of f l = sum_of f k.
Proof. unfold sum_of. induction 1; simpl; lia. Qed.

Lemma sum_of_bound {A} (f : A -> Z) c l :
  Forall (fun x => f x <= c) l -> sum_of f l <= c * Z.of_nat (length l).
Proof. unfold sum_of. induction 1; cbn [foldr length]; lia. Qed.

(** An upper bound on the characters that [dumps] writes. *)
Fixpoint json_size (v : json) : Z :=
  match v with
  | JNull => 4
  | JBool _ => 5
  | JInt n => Z.log2 (Z.abs n) + 2
  | JFloat t => Z.of_nat (length t)
  | JStr s => Z.of_nat (length (dumps_str s))
  | JArr l => 2 + sum_of (fun x => json_size x + 1) l
  | JObj m => 2 + sum_of (fun kv => Z.of_nat (length (dumps_str kv.1)) + 2 + json_size kv.2) m
  end.

Lemma length_join sep (l : list pystr) :
  Z.of_nat (length (join sep l)) <= sum_of (fun x => Z.of_nat (length x) + 1) l.
Proof.
  unfold sum_of. induction l as [|x [|y l] IH]; [done | cbn; lia |].
  change (join sep (x :: y :: l)) with (x ++ sep :: join sep (y :: l)).
  rewrite length_app. cbn [length foldr] in *. lia.
Qed.

Lemma sum_of_le {A B} (f : A -> Z) (g : B -> Z) l k :
  Forall2 (fun x y => g y <= f x) l k -> sum_of g k <= sum_of f l.
Proof. unfold sum_of. induction 1; cbn [foldr]; lia. Qed.

Lemma length_int_str n b : int_str n = Ok b -> Z.of_nat (length b) <= Z.log2 (Z.abs n) + 2.
Proof.
  unfold int_str, repr_int, dec_str. intros H. case_match; [done|]. injection H as <-.
  pose proof (length_dec_digits (Z.to_nat (Z.log2 (Z.abs n))) (Z.abs n)) as Hl.
  pose proof (Z.log2_nonneg (Z.abs n)).
  case_match; cbn [length]; [replace (- n) with (Z.abs n) by lia | replace n with (Z.abs n) at 1 2 by lia];
    lia.
Qed.

Lemma dumps_size v b : dumps v = Ok b -> Z.of_nat (length b) <= json_size v.
Proof.
  revert b. induction v as [|c|n|x|s|l Hl|m Hm] using json_ind'; intros b Hb.
  - by injection Hb as <-.
  - destruct c; by injection Hb as <-.
  - by apply length_int_str.
  - injection Hb as <-. cbn. lia.
  - injection Hb as <-. cbn [json_size]. lia.
  - apply dumps_arr in Hb as (ts & Hts & ->). cbn [json_size length]. rewrite length_app. cbn [length].
    pose proof (length_join 44 ts) as Hj.
    assert (sum_of (fun x => Z.of_nat (length x) + 1) ts <= sum_of (fun x => json_size x + 1) l); [|lia].
    apply sum_of_le. clear Hj. induction Hts as [|v t l ts Ht _ IH]; constructor; apply Forall_cons in Hl as [Hv Hl].
    + specialize (Hv t Ht). lia.
    + by apply IH.
  - apply dumps_obj in Hb as (ts & Hts & ->). cbn [json_size length]. rewrite length_app. cbn [length].
    pose proof (length_join 44 (map member_text ts)) as Hj.
    rewrite <- (sum_of_perm _ _ _ (py_sorted_perm key_leb m)). rewrite <- (py_sorted_perm key_leb m) in Hm.
    assert (sum_of (fun x => Z.of_nat (length x) + 1) (map member_text ts)
            <= sum_of (fun kv => Z.of_nat (length (dumps_str kv.1)) + 2 + json_size kv.2) (py_sorted key_leb m)); [|lia].
    apply sum_of_le. apply Forall2_fmap_r. clear Hj.
    induction Hts as [|v t l ts [Hk Ht] _ IH]; constructor; apply Forall_cons in Hm as [Hv Hm].
    + specialize (Hv _ Ht). unfold compose, member_text. rewrite length_app, Hk. cbn [length]. lia.
    + by apply IH.
Qed.

(** Text of printable characters needs no escapes. *)
Definition unescaped (c : Z) : Prop := 32 <= c <= 126 /\ c <> 34 /\ c <> 92.

Lemma length_dumps_str s : Forall unescaped s -> Z.of_nat (length (dumps_str s)) = Z.of_nat (length s) + 2.
Proof.
  intros H. unfold dumps_str. cbn [length]. rewrite length_app. cbn [length].
  assert (flat_map escape_char s = s) as ->; [|lia].
  induction H as [|c s Hc _ IH]; [done|]. cbn [flat_map]. rewrite IH.
  assert (escape_char c = [c]) as ->; [|done]. unfold escape_char, unescaped in *.
  repeat (case_match; [lia|]). case_match; [done | lia].
Qed.

Lemma hexc_unescaped s : Forall hexc s -> Forall unescaped s.
Proof. intros H. eapply Forall_impl; [exact H|]. unfold hexc, unescaped. intros c Hc. lia. Qed.

(** ** Canonical text *)

Lemma py_sorted_idem {A} (leb : A -> A -> bool) `{!PreorderB leb} l :
  py_sorted leb (py_sorted leb l) = py_sorted leb l.
Proof. apply py_sorted_id, (py_sorted_sorted leb). Qed.

(** The text of a document does not depend on the order of members. *)
Lemma dumps_norm v : dumps (norm v) = dumps v.
Proof.
  induction v as [|b|n|x|s|l Hl|m Hm] using json_ind'; try done.
  - cbn [norm dumps]. do 2 f_equal. rewrite map_map. apply map_ext_Forall. exact Hl.
  - cbn [norm dumps]. do 2 f_equal. rewrite !(py_sorted_map _ key_leb) by done.
    rewrite (py_sorted_idem key_leb), map_map. apply map_ext_Forall. rewrite py_sorted_perm.
    eapply Forall_impl; [exact Hm|]. intros [k v] H. cbn in *. by rewrite H.
Qed.

(** Reading a line. *)
Lemma loads_line v b : json_ok v -> dumps v = Ok b -> loads (b ++ [10]) = Ok (norm v).
Proof.
  intros Hok Hb. destruct (dumps_head v b Hb Hok) as (c & u & Hbu & Hc & _ & Hbom).
  unfold loads. rewrite Hbu at 1. cbn [app]. assert ((c =? 65279) = false) as -> by lia.
  assert (skip_ws (b ++ [10]) = b ++ [10]) as -> by (rewrite Hbu; by apply skip_ws_cons).
  rewrite (dumps_reads v b Hb Hok (S (length (b ++ [10]))) [10]); [done | rewrite length_app; lia | done].
Qed.

Lemma loads_bytes_line v b : json_ok v -> dumps v = Ok b -> loads_bytes (b ++ [10]) = Ok (norm v).
Proof.
  intros Hok Hb. unfold loads_bytes. rewrite json_decode_bytes_ascii; [by apply loads_line|].
  apply Forall_app. split; [by eapply dumps_printable | by repeat constructor].
Qed.
