(* ===== verification/Sha256.v ===== *)
(** * [hashlib.sha256]

    The digest of FIPS 180-4 over lists of bytes, executable.  Incremental
    [update] calls are modelled by concatenating their arguments. *)

From S2P Require Import Prelude PyText.
Open Scope Z_scope.

Definition mask32 (x : Z) : Z := x mod 4294967296.
Definition add32 (x y : Z) : Z := mask32 (x + y).
Definition rotr (n x : Z) : Z :=
  Z.lor (Z.shiftr x n) (mask32 (Z.shiftl x (32 - n))).

Definition big_sigma0 (x : Z) : Z := Z.lxor (rotr 2 x) (Z.lxor (rotr 13 x) (rotr 22 x)).
Definition big_sigma1 (x : Z) : Z := Z.lxor (rotr 6 x) (Z.lxor (rotr 11 x) (rotr 25 x)).
Definition small_sigma0 (x : Z) : Z :=
  Z.lxor (rotr 7 x) (Z.lxor (rotr 18 x) (Z.shiftr x 3)).
Definition small_sigma1 (x : Z) : Z :=
  Z.lxor (rotr 17 x) (Z.lxor (rotr 19 x) (Z.shiftr x 10)).
Definition ch (x y z : Z) : Z := Z.lxor (Z.land x y) (Z.land (4294967295 - x) z).
Definition maj (x y z : Z) : Z :=
  Z.lxor (Z.land x y) (Z.lxor (Z.land x z) (Z.land y z)).

(** The constants of the standard: the first 32 fractional bits of the square
    and cube roots of the first primes. *)
Definition is_prime (n : nat) : bool :=
  forallb (fun d => negb ((n mod d =? 0)%nat)) (List.seq 2 (n - 2)).
Definition primes : list Z := map Z.of_nat (List.filter is_prime (List.seq 2 310)).

(** The integer cube root, bit by bit from [2 ^ 35]. *)
Fixpoint cube_root (bits : nat) (acc n : Z) : Z :=
  match bits with
  | O => acc
  | S b => let c := acc + 2 ^ Z.of_nat b in
           cube_root b (if c * c * c <=? n then c else acc) n
  end.

Definition square_root_word (p : Z) : Z := mask32 (Z.sqrt (p * 2 ^ 64)).
Definition cube_root_word (p : Z) : Z := mask32 (cube_root 36 0 (p * 2 ^ 96)).

Definition round_constants : list Z := Eval vm_compute in map cube_root_word primes.
Definition initial_words : list Z := Eval vm_compute in map square_root_word (take 8 primes).

Record hstate := HState { ha : Z; hb : Z; hc : Z; hd : Z; he : Z; hf : Z; hg : Z; hh : Z }.

Definition initial_hash : hstate := Eval vm_compute in
  match initial_words with
  | [a; b; c; d; e; f; g; h] => HState a b c d e f g h
  | _ => HState 0 0 0 0 0 0 0 0
  end.

(** The schedule, last word first. *)
Fixpoint extend_schedule (n : nat) (w : list Z) : list Z :=
  match n with
  | O => w
  | S n' =>
      let x := add32 (add32 (small_sigma1 (nth 1 w 0)) (nth 6 w 0))
                     (add32 (small_sigma0 (nth 14 w 0)) (nth 15 w 0)) in
      extend_schedule n' (x :: w)
  end.

Definition round (h : hstate) (kw : Z * Z) : hstate :=
  let t1 := add32 (add32 (hh h) (big_sigma1 (he h)))
                  (add32 (ch (he h) (hf h) (hg h)) (add32 kw.1 kw.2)) in
  let t2 := add32 (big_sigma0 (ha h)) (maj (ha h) (hb h) (hc h)) in
  HState (add32 t1 t2) (ha h) (hb h) (hc h) (add32 (hd h) t1) (he h) (hf h) (hg h).

Fixpoint words (b : pybytes) : list Z :=
  match b with
  | x :: y :: z :: w :: t => (((x * 256 + y) * 256 + z) * 256 + w) :: words t
  | _ => []
  end.

Definition compress (h : hstate) (block : pybytes) : hstate :=
  let schedule := rev (extend_schedule 48 (rev (words block))) in
  let r := foldl round h (combine round_constants schedule) in
  HState (add32 (ha h) (ha r)) (add32 (hb h) (hb r)) (add32 (hc h) (hc r))
         (add32 (hd h) (hd r)) (add32 (he h) (he r)) (add32 (hf h) (hf r))
         (add32 (hg h) (hg r)) (add32 (hh h) (hh r)).

Fixpoint be_bytes (w : nat) (n : Z) : pybytes :=
  match w with
  | O => []
  | S w' => be_bytes w' (n / 256) ++ [n mod 256]
  end.

Definition pad (b : pybytes) : pybytes :=
  let n := Z.of_nat (length b) in
  b ++ [128] ++ repeat 0 (Z.to_nat ((55 - n) mod 64)) ++ be_bytes 8 (n * 8).

Fixpoint digest_blocks (fuel : nat) (h : hstate) (b : pybytes) : hstate :=
  match fuel with
  | O => h
  | S f => match b with
           | [] => h
           | _ => digest_blocks f (compress h (firstn 64 b)) (skipn 64 b)
           end
  end.

Definition sha256 (b : pybytes) : pybytes :=
  let h := digest_blocks (S (length b)) initial_hash (pad b) in
  flat_map (be_bytes 4) [ha h; hb h; hc h; hd h; he h; hf h; hg h; hh h].
Arguments sha256 : simpl never.

(** [sha256(b).hexdigest()] *)
Definition sha256_hex (b : pybytes) : pystr := bytes_hex (sha256 b).

Lemma length_be_bytes w n : length (be_bytes w n) = w.
Proof.
  revert n. induction w as [|w IH]; intros n; simpl; [done|].
  rewrite length_app, IH. simpl. lia.
Qed.

Lemma be_bytes_range w n : Forall (fun x => 0 <= x < 256) (be_bytes w n).
Proof.
  revert n. induction w as [|w IH]; intros n; simpl; [constructor|].
  apply Forall_app. split; [apply IH|]. repeat constructor; Z.div_mod_to_equations; lia.
Qed.

Lemma length_sha256 b : length (sha256 b) = 32%nat.
Proof.
  unfold sha256. cbn [flat_map]. by rewrite !length_app, !length_be_bytes.
Qed.

Lemma sha256_range b : Forall (fun x => 0 <= x < 256) (sha256 b).
Proof.
  unfold sha256. cbn [flat_map].
  rewrite !Forall_app. repeat split; apply be_bytes_range || constructor.
Qed.

Example sha256_abc :
  sha256_hex (str "abc") =
  str "ba7816bf8f01cfea414140de5dae2223b00361a396177a9cb410ff61f20015ad".
Proof. vm_compute. reflexivity. Qed.

Example sha256_two_blocks :
  sha256_hex (str "abcdbcdecdefdefgefghfghighijhijkijkljklmklmnlmnomnopnopq") =
  str "248d6a61d20638b8e5c026930c3e6039a33ce45964ff2167f6ecedd419db06c1".
Proof. vm_compute. reflexivity. Qed.
