(* ===== verification/PyDecimal.v ===== *)
(** * [decimal.Decimal] as this program uses it

    Values, multiplication by an integer and conversion to an integer, in the
    default context: 28 digits, rounding half to even, exponents up to 999999, with
    traps on [InvalidOperation] and [Overflow].  A finite value is
    [(-1)^sign * coefficient * 10^exponent]. *)

From S2P Require Import Prelude PyText.

Open Scope Z_scope.

Inductive decimal :=
  | Finite (negative : bool) (coefficient : Z) (exponent : Z)
  | Infinite (negative : bool)
  | QuietNaN
  | SignallingNaN.
#[export] Instance decimal_eq_dec : EqDecision decimal.
Proof. solve_decision. Defined.

(** The default context. *)
Definition precision : Z := 28.
Definition Emax : Z := 999999.
Definition Emin : Z := -999999.
Definition Etiny : Z := Emin - precision + 1.
Definition Etop : Z := Emax - precision + 1.

Definition decimal_of_int (n : Z) : decimal := Finite (n <? 0) (Z.abs n) 0.

(** The number of digits of a coefficient. *)
Definition ndigits (c : Z) : Z := Z.of_nat (length (dec_str c)).

(** [n / d] rounded half to even. *)
Definition half_even (n d : Z) : Z :=
  let q := n / d in
  let r := n mod d in
  if (d <? 2 * r) || ((2 * r =? d) && Z.odd q) then q + 1 else q.

Definition decimal_overflow {A} : res A := raise DecimalOverflow "above Emax".

(** Rounding of an exact result to the context. *)
Definition decimal_fix (negative : bool) (c e : Z) : res decimal :=
  if c =? 0 then Ok (Finite negative 0 (Z.min (Z.max e Etiny) Emax)) else
  let exp_min := ndigits c + e - precision in
  if Etop <? exp_min then decimal_overflow else
  let exp_min := Z.max exp_min Etiny in
  if e <? exp_min then
    let c' := half_even c (10 ^ (exp_min - e)) in
    if precision <? ndigits c' then
      if Etop <? exp_min + 1 then decimal_overflow else Ok (Finite negative (c' / 10) (exp_min + 1))
    else Ok (Finite negative c' exp_min)
  else Ok (Finite negative c e).

(** [value * n] for an integer [n]. *)
Definition decimal_mul_int (d : decimal) (n : Z) : res decimal :=
  match d with
  | Finite s c e => decimal_fix (xorb s (n <? 0)) (c * Z.abs n) e
  | Infinite s =>
      if n =? 0 then raise DecimalInvalidOperation "(+-)INF * 0"
      else Ok (Infinite (xorb s (n <? 0)))
  | QuietNaN => Ok QuietNaN
  | SignallingNaN => raise DecimalInvalidOperation "sNaN"
  end.

Definition is_finite (d : decimal) : bool := match d with Finite _ _ _ => true | _ => false end.

(** [value == value.to_integral_value()], for a finite value. *)
Definition is_integral (c e : Z) : bool := (0 <=? e) || (c mod 10 ^ (- e) =? 0).

(** [int(value)], for a finite value: truncation. *)
Definition decimal_int (negative : bool) (c e : Z) : Z :=
  let magnitude := if 0 <=? e then c * 10 ^ e else c / 10 ^ (- e) in
  if negative then - magnitude else magnitude.

(** ** Digits *)

Lemma dec_val_bound s :
  Forall (fun c => is_digit c = true) s -> 0 <= dec_val s < 10 ^ Z.of_nat (length s).
Proof.
  induction s as [|c s IH] using rev_ind; [done|]. intros [Hs Hc]%Forall_app.
  apply Forall_cons in Hc as [Hc _]. unfold is_digit in Hc. bprop. specialize (IH Hs).
  rewrite dec_val_snoc, length_app. cbn [length].
  rewrite Nat2Z.inj_add, Z.pow_add_r by lia. change (10 ^ Z.of_nat 1) with 10. lia.
Qed.

Lemma dec_val_cons c s : dec_val (c :: s) = (c - 48) * 10 ^ Z.of_nat (length s) + dec_val s.
Proof.
  induction s as [|d s IH] using rev_ind; [cbn; lia|].
  rewrite app_comm_cons, !dec_val_snoc, IH, length_app. cbn [length].
  rewrite Nat2Z.inj_add, Z.pow_add_r by lia. change (10 ^ Z.of_nat 1) with 10. lia.
Qed.

Lemma ndigits_pos c : 0 < c -> 1 <= ndigits c.
Proof. intros Hc. unfold ndigits. destruct (dec_str_head c Hc) as (d & t & -> & _). cbn [length]. lia. Qed.

Lemma ndigits_spec c : 0 < c -> 10 ^ (ndigits c - 1) <= c < 10 ^ ndigits c.
Proof.
  intros Hc. pose proof (dec_str_digit c ltac:(lia)) as Hd. pose proof (dec_str_val c ltac:(lia)) as Hv.
  unfold ndigits. destruct (dec_str_head c Hc) as (d & t & E & Hdr). rewrite E in *.
  pose proof (dec_val_bound _ Hd) as Hb. rewrite Hv in Hb. split; [|lia].
  rewrite dec_val_cons in Hv. apply Forall_cons in Hd as [_ Ht]. apply dec_val_bound in Ht.
  cbn [length]. rewrite Nat2Z.inj_succ. replace (Z.succ _ - 1) with (Z.of_nat (length t)) by lia.
  set (p := 10 ^ Z.of_nat (length t)) in *. nia.
Qed.

Lemma ndigits_unique c n : 0 < c -> 1 <= n -> 10 ^ (n - 1) <= c < 10 ^ n -> ndigits c = n.
Proof.
  intros Hc Hn [H1 H2]. pose proof (ndigits_pos c Hc). destruct (ndigits_spec c Hc) as [H3 H4].
  assert (n - 1 < ndigits c) by (apply (Z.pow_lt_mono_r_iff 10); lia).
  assert (ndigits c - 1 < n) by (apply (Z.pow_lt_mono_r_iff 10); lia). lia.
Qed.

Lemma ndigits_le c n : 0 < c -> 0 <= n -> c < 10 ^ n -> ndigits c <= n.
Proof.
  intros Hc Hn H. pose proof (ndigits_pos c Hc). destruct (ndigits_spec c Hc) as [H1 _].
  assert (ndigits c - 1 < n) by (apply (Z.pow_lt_mono_r_iff 10); lia). lia.
Qed.

Lemma ndigits_scale c k : 0 < c -> 0 <= k -> ndigits (c * 10 ^ k) = ndigits c + k.
Proof.
  intros Hc Hk. pose proof (ndigits_pos c Hc). destruct (ndigits_spec c Hc) as [H1 H2].
  assert (0 < 10 ^ k) by (apply Z.pow_pos_nonneg; lia).
  apply ndigits_unique; [nia | lia |]. replace (ndigits c + k - 1) with (ndigits c - 1 + k) by lia.
  rewrite !Z.pow_add_r by lia. nia.
Qed.

(** ** Exact results *)

(** [c * 10^e] is the integer [v]. *)
Definition equals_int (c e v : Z) : Prop := if 0 <=? e then c * 10 ^ e = v else c = v * 10 ^ (- e).

Lemma equals_int_spec c e v :
  0 <= c -> (is_integral c e = true /\ decimal_int false c e = v) <-> equals_int c e v.
Proof.
  intros Hc. unfold is_integral, decimal_int, equals_int. destruct (0 <=? e) eqn:E; cbn [orb]; [naive_solver|].
  assert (0 < 10 ^ (- e)) by (apply Z.pow_pos_nonneg; lia). rewrite Z.eqb_eq. split.
  - intros [Hm <-]. rewrite (Z.div_mod c (10 ^ (- e))) at 1 by lia. lia.
  - intros ->. rewrite Z.mod_mul, Z.div_mul by lia. done.
Qed.

Lemma half_even_exact q d : 0 < d -> half_even (q * d) d = q.
Proof.
  intros Hd. unfold half_even. rewrite Z.div_mul, Z.mod_mul by lia.
  replace (d <? 2 * 0) with false by lia. replace (2 * 0 =? d) with false by lia. done.
Qed.

(** A result that is an integer of few digits is not changed by rounding. *)
Lemma decimal_fix_int c e v :
  0 < v < 10 ^ 19 -> equals_int c e v -> 0 < c ->
  exists c' e', decimal_fix false c e = Ok (Finite false c' e') /\ 0 <= c' /\ equals_int c' e' v.
Proof.
  intros Hv Heq Hc. unfold decimal_fix. replace (c =? 0) with false by lia.
  pose proof (ndigits_pos c Hc) as Hnd. unfold equals_int in Heq. destruct (0 <=? e) eqn:E.
  - destruct (ndigits_spec c Hc) as [Hlo _]. assert (0 < 10 ^ e) by (apply Z.pow_pos_nonneg; lia).
    assert (ndigits c - 1 + e < 19).
    { apply (Z.pow_lt_mono_r_iff 10); [lia..|]. rewrite Z.pow_add_r by lia. nia. }
    cbv zeta. unfold precision, Etop, Etiny, Emin, Emax, precision.
    rewrite (proj2 (Z.ltb_ge _ _)) by lia. rewrite (proj2 (Z.ltb_ge _ _)) by lia.
    exists c, e. split; [done|]. split; [lia|]. unfold equals_int. by rewrite E.
  - pose proof (ndigits_pos v ltac:(lia)) as Hnv. assert (Hv19 : ndigits v <= 19) by (apply ndigits_le; lia).
    assert (Hnc : ndigits c = ndigits v - e) by (rewrite Heq, ndigits_scale; lia).
    cbv zeta. unfold precision, Etop, Etiny, Emin, Emax, precision.
    rewrite (proj2 (Z.ltb_ge _ _)) by lia. rewrite Z.max_l by lia. rewrite Hnc.
    replace (ndigits v - e + e - 28) with (ndigits v - 28) by lia. set (x := ndigits v - 28) in *.
    destruct (e <? x) eqn:Ex.
    + assert (Hh : half_even c (10 ^ (x - e)) = v * 10 ^ (- x)).
      { rewrite Heq. replace (- e) with (- x + (x - e)) by lia. rewrite Z.pow_add_r, Z.mul_assoc by lia.
        apply half_even_exact. apply Z.pow_pos_nonneg; lia. }
      rewrite Hh, ndigits_scale by lia. rewrite (proj2 (Z.ltb_ge _ _)) by lia.
      exists (v * 10 ^ (- x)), x. split; [done|]. split; [nia|]. unfold equals_int.
      rewrite (proj2 (Z.leb_gt _ _)) by lia. done.
    + exists c, e. split; [done|]. split; [lia|]. unfold equals_int. by rewrite E.
Qed.

(** A short coefficient is rounded only below the least exponent. *)
Lemma decimal_fix_short sign c e s c' e' :
  0 < c < 10 ^ precision -> decimal_fix sign c e = Ok (Finite s c' e') ->
  s = sign /\ (c' = c /\ e' = e \/ 0 <= c' <= 10 ^ precision /\ e' = Etiny).
Proof.
  intros Hc. unfold decimal_fix. replace (c =? 0) with false by lia. cbv zeta.
  assert (ndigits c <= precision) by (apply ndigits_le; unfold precision in *; lia).
  destruct (Etop <? _); [done|]. set (m := Z.max _ Etiny).
  destruct (e <? m) eqn:E; [|intros [= <- <- <-]; auto].
  assert (m = Etiny) as Hm by (unfold m in *; lia).
  set (k := 10 ^ (m - e)). assert (Hk : 10 <= k).
  { unfold k. replace (m - e) with (1 + (m - e - 1)) by lia. rewrite Z.pow_add_r by lia.
    assert (0 < 10 ^ (m - e - 1)) by (apply Z.pow_pos_nonneg; lia). lia. }
  assert (Hh : 0 <= half_even c k <= 10 ^ precision).
  { unfold half_even. assert (0 <= c / k <= c / 10) by (split; [apply Z.div_pos; lia | apply Z.div_le_compat_l; lia]).
    assert (c / 10 < 10 ^ precision) by (apply Z.div_lt_upper_bound; unfold precision in *; lia).
    destruct (_ || _); lia. }
  destruct (precision <? ndigits (half_even c k)) eqn:En.
  - exfalso. assert (H10 : half_even c k <= 10 ^ (precision - 1)).
    { assert (c / k <= c / 10) by (apply Z.div_le_compat_l; lia).
      assert (c / 10 < 10 ^ (precision - 1)).
      { apply Z.div_lt_upper_bound; [lia|]. change (10 * 10 ^ (precision - 1)) with (10 ^ precision). lia. }
      unfold half_even. destruct (_ || _); lia. }
    destruct (Z.eq_dec (half_even c k) 0) as [E0|E0]; [rewrite E0 in En; by vm_compute in En|].
    assert (ndigits (half_even c k) <= precision) by (apply ndigits_le; [lia | done |];
      eapply Z.le_lt_trans; [exact H10|]; done). lia.
  - intros [= <- <- <-]. split; [done|]. right. by rewrite Hm.
Qed.
