(* ===== verification/PyDateTime.v ===== *)
(** * [datetime] as this program uses it

    Dates of the proleptic Gregorian calendar with their ordinals, ISO 8601 texts, and
    the moments that [datetime.fromisoformat] reads. *)

From S2P Require Import Prelude PyText Json.

Open Scope Z_scope.

(** [datetime.date] *)
Record date := Date { year : Z; month : Z; day : Z }.
#[export] Instance date_eq_dec : EqDecision date.
Proof. solve_decision. Defined.
#[export] Instance date_countable : Countable date.
Proof.
  refine (inj_countable (fun d => (year d, month d, day d))
            (fun p => Some (Date p.1.1 p.1.2 p.2)) _).
  by intros [].
Defined.

Definition date_ltb (a b : date) : bool :=
  (year a <? year b)
  || ((year a =? year b) && ((month a <? month b)
                             || ((month a =? month b) && (day a <? day b)))).

(** [date.isoformat()] *)
Definition digit_at (power n : Z) : Z := 48 + (n / power) mod 10.
Definition isoformat (d : date) : pystr :=
  [digit_at 1000 (year d); digit_at 100 (year d); digit_at 10 (year d); digit_at 1 (year d); 45;
   digit_at 10 (month d); digit_at 1 (month d); 45; digit_at 10 (day d); digit_at 1 (day d)].

Definition is_leap (y : Z) : bool :=
  (y mod 4 =? 0) && (negb (y mod 100 =? 0) || (y mod 400 =? 0)).
Definition days_in_month (y m : Z) : Z :=
  if m =? 2 then (if is_leap y then 29 else 28)
  else if (m =? 4) || (m =? 6) || (m =? 9) || (m =? 11) then 30 else 31.

(** What [date(year, month, day)] accepts. *)
Definition valid_date (d : date) : bool :=
  (1 <=? year d) && (year d <=? 9999) && (1 <=? month d) && (month d <=? 12)
  && (1 <=? day d) && (day d <=? days_in_month (year d) (month d)).

(** [date.fromisoformat] of the form [YYYY-MM-DD].  The other forms that it accepts
    (basic and week dates, of 7, 8 or 10 characters) are not described. *)
Definition fromisoformat (s : pystr) : res date :=
  match s with
  | [y1; y2; y3; y4; 45; m1; m2; s2; d1; d2] =>
      if m1 =? 87 then raise Undescribed "week date" else
      if forallb is_digit [y1; y2; y3; y4; m1; m2; d1; d2] && (s2 =? 45) then
        let d := Date (dec_val [y1; y2; y3; y4]) (dec_val [m1; m2]) (dec_val [d1; d2]) in
        if valid_date d then Ok d else raise ValueError "date component is out of range"
      else raise ValueError "invalid isoformat string"
  | _ =>
      if forallb is_ascii s
         && negb (bool_decide (length s = 7%nat) || bool_decide (length s = 8%nat)
                  || bool_decide (length s = 10%nat))
      then raise ValueError "invalid isoformat string"
      else raise Undescribed "other ISO 8601 date"
  end.

(** ** Texts *)

Lemma digit_at_digit p n : is_digit (digit_at p n) = true.
Proof. unfold is_digit, digit_at. Z.div_mod_to_equations; lia. Qed.

Lemma days_in_month_le y m : days_in_month y m <= 31.
Proof. unfold days_in_month. repeat case_match; lia. Qed.

Lemma fromisoformat_isoformat d : valid_date d = true -> fromisoformat (isoformat d) = Ok d.
Proof.
  intros Hd. pose proof (days_in_month_le (year d) (month d)) as Hle.
  assert (Hr : 1 <= year d <= 9999 /\ 1 <= month d <= 12 /\ 1 <= day d <= 31) by (unfold valid_date in Hd; lia).
  unfold isoformat, fromisoformat.
  replace (digit_at 10 (month d) =? 87) with false
    by (pose proof (digit_at_digit 10 (month d)) as H; unfold is_digit in H; lia).
  cbn [forallb]. rewrite !digit_at_digit. cbn [andb Z.eqb Pos.eqb].
  assert (dec_val [digit_at 1000 (year d); digit_at 100 (year d); digit_at 10 (year d); digit_at 1 (year d)] = year d) as ->.
  { unfold dec_val, digit_at. cbn [foldl]. Z.div_mod_to_equations; lia. }
  assert (dec_val [digit_at 10 (month d); digit_at 1 (month d)] = month d) as ->.
  { unfold dec_val, digit_at. cbn [foldl]. Z.div_mod_to_equations; lia. }
  assert (dec_val [digit_at 10 (day d); digit_at 1 (day d)] = day d) as ->.
  { unfold dec_val, digit_at. cbn [foldl]. Z.div_mod_to_equations; lia. }
  destruct d as [y m x]. cbn [year month day] in *. by rewrite Hd.
Qed.

Lemma isoformat_text d : text_ok (isoformat d).
Proof.
  assert (H : forall p n, 0 <= digit_at p n < 1114112 /\ is_surrogate (digit_at p n) = false).
  { intros p n. pose proof (digit_at_digit p n) as Hd. unfold is_digit, is_surrogate in *. lia. }
  unfold isoformat, text_ok. repeat (apply Forall_cons; split; [by apply H || (unfold is_surrogate; lia)|]).
  apply Forall_nil_2.
Qed.

(** ** Ordinals *)

(** The days before a month of a year, and [date.toordinal()]. *)
Definition days_before_month (y m : Z) : Z :=
  foldr Z.add 0 (map (days_in_month y) (List.filter (fun k => k <? m) [1; 2; 3; 4; 5; 6; 7; 8; 9; 10; 11; 12])).
Definition days_before_year (y : Z) : Z := (y - 1) * 365 + (y - 1) / 4 - (y - 1) / 100 + (y - 1) / 400.
Definition toordinal (d : date) : Z := days_before_year (year d) + days_before_month (year d) (month d) + day d.

(** [date.weekday()]: Monday is 0. *)
Definition weekday (d : date) : Z := (toordinal d + 6) mod 7.

(** [d + timedelta(days=1)] *)
Definition next_day (d : date) : date :=
  if day d <? days_in_month (year d) (month d) then Date (year d) (month d) (day d + 1)
  else if month d <? 12 then Date (year d) (month d + 1) 1
  else Date (year d + 1) 1 1.

(** [d + timedelta(days=k)] for [k] from [0] to [n - 1]. *)
Fixpoint days_from (n : nat) (d : date) : list date :=
  match n with
  | O => []
  | S k => d :: days_from k (next_day d)
  end.

Lemma days_before_next_month y m : 1 <= m < 12 -> days_before_month y (m + 1) = days_before_month y m + days_in_month y m.
Proof.
  intros Hm. unfold days_before_month.
  assert (Hs : m = 1 \/ m = 2 \/ m = 3 \/ m = 4 \/ m = 5 \/ m = 6 \/ m = 7 \/ m = 8 \/ m = 9 \/ m = 10 \/ m = 11) by lia.
  assert (forall a l k, foldr Z.add 0 (map (days_in_month y) (l ++ [k])) + a
                        = foldr Z.add 0 (map (days_in_month y) l) + days_in_month y k + a) as Hsnoc.
  { intros a l k. induction l as [|x l IH]; cbn; [lia|]. cbn in IH. lia. }
  destruct Hs as [->|[->|[->|[->|[->|[->|[->|[->|[->|[->| ->]]]]]]]]]];
    match goal with
    | |- foldr Z.add 0 (map _ ?l) = foldr Z.add 0 (map _ ?k) + days_in_month _ ?m =>
        let l' := eval vm_compute in l in let k' := eval vm_compute in k in
        change (foldr Z.add 0 (map (days_in_month y) l') = foldr Z.add 0 (map (days_in_month y) k') + days_in_month y m);
        pose proof (Hsnoc 0 k' m) as H; cbn [app] in H; lia
    end.
Qed.

Lemma next_day_ordinal d : valid_date d = true -> toordinal (next_day d) = toordinal d + 1.
Proof.
  intros Hd. destruct d as [y m x]. unfold valid_date in Hd. cbn [year month day] in Hd.
  unfold next_day. cbn [year month day].
  destruct (x <? days_in_month y m) eqn:Ex; [unfold toordinal; cbn [year month day]; lia|].
  assert (Hx : x = days_in_month y m) by lia. rewrite Hx. clear Hx.
  destruct (m <? 12) eqn:Em; unfold toordinal; cbn [year month day].
  - rewrite days_before_next_month by lia. lia.
  - assert (m = 12) as -> by lia. assert (Hd12 : days_before_month y 12 = 334 + (if is_leap y then 1 else 0)).
    { unfold days_before_month. match goal with |- context [List.filter ?f ?l] =>
        let k := eval vm_compute in (List.filter f l) in change (List.filter f l) with k end.
      cbn. destruct (is_leap y); reflexivity. }
    rewrite Hd12. change (days_before_month (y + 1) 1) with 0. change (days_in_month y 12) with 31.
    unfold days_before_year, is_leap. replace (y + 1 - 1) with y by lia.
    destruct (y mod 4 =? 0) eqn:E4, (y mod 100 =? 0) eqn:E100, (y mod 400 =? 0) eqn:E400; cbn [negb andb orb];
      Z.div_mod_to_equations; lia.
Qed.

(** ** Moments *)

(** A [datetime]: its date, the second of the day, the microsecond and, when it is
    aware, its offset from UTC in microseconds. *)
Record datetime := {
  dt_date : date;
  dt_second : Z;
  dt_microsecond : Z;
  dt_offset : option Z;
}.

Definition two (a b : Z) : option Z := if is_digit a && is_digit b then Some (dec_val [a; b]) else None.

(** [HH:MM:SS] *)
Definition clock_text (s : pystr) : option (Z * pystr) :=
  match s with
  | h1 :: h2 :: 58 :: m1 :: m2 :: 58 :: s1 :: s2 :: rest =>
      match two h1 h2, two m1 m2, two s1 s2 with
      | Some h, Some m, Some x =>
          if (h <? 24) && (m <? 60) && (x <? 60) then Some (h * 3600 + m * 60 + x, rest) else None
      | _, _, _ => None
      end
  | _ => None
  end.

(** A fraction of three or six digits, in microseconds. *)
Definition fraction_text (s : pystr) : option (Z * pystr) :=
  match s with
  | 46 :: rest =>
      let digits := take 6 rest in
      if bool_decide (length digits = 6%nat) && forallb is_digit digits
      then Some (dec_val digits, drop 6 rest)
      else let three := take 3 rest in
           if bool_decide (length three = 3%nat) && forallb is_digit three
           then Some (dec_val three * 1000, drop 3 rest) else None
  | _ => Some (0, s)
  end.

(** Nothing, [Z], or [+HH:MM] and [-HH:MM]. *)
Definition offset_text (s : pystr) : option (option Z) :=
  match s with
  | [] => Some None
  | [90] => Some (Some 0)
  | [sign; h1; h2; 58; m1; m2] =>
      match two h1 h2, two m1 m2 with
      | Some h, Some m =>
          if ((sign =? 43) || (sign =? 45)) && (h <? 24) && (m <? 60)
          then Some (Some ((if sign =? 45 then -1 else 1) * (h * 3600 + m * 60) * 1000000)) else None
      | _, _ => None
      end
  | _ => None
  end.

(** [datetime.fromisoformat] of the form [YYYY-MM-DDTHH:MM:SS] with an optional fraction
    of three or six digits and an optional offset, and of a date alone.  A text shorter
    than seven characters is rejected; the other forms are not described. *)
Definition datetime_fromisoformat (s : pystr) : res datetime :=
  if (length s <? 7)%nat then raise ValueError "Invalid isoformat string" else
  let undescribed := raise Undescribed "other ISO 8601 moment" in
  match fromisoformat (take 10 s) with
  | Err _ => undescribed
  | Ok d =>
      match drop 10 s with
      | [] => Ok {| dt_date := d; dt_second := 0; dt_microsecond := 0; dt_offset := None |}
      | 84 :: rest =>
          match clock_text rest with
          | Some (second, rest) =>
              match fraction_text rest with
              | Some (micro, rest) =>
                  match offset_text rest with
                  | Some offset => Ok {| dt_date := d; dt_second := second; dt_microsecond := micro; dt_offset := offset |}
                  | None => undescribed
                  end
              | None => undescribed
              end
          | None => undescribed
          end
      | _ => undescribed
      end
  end.

(** An aware moment as nanoseconds from the epoch: what [(d - epoch)] gives. *)
Definition epoch_ordinal : Z := 719163.
Definition moment_ns (t : datetime) (offset : Z) : Z :=
  (((toordinal (dt_date t) - epoch_ordinal) * 86400 + dt_second t) * 1000000 + dt_microsecond t - offset) * 1000.

Lemma epoch_is_1970 : toordinal (Date 1970 1 1) = epoch_ordinal.
Proof. reflexivity. Qed.

(** [datetime.isoformat()]: the fraction only when there is one, the offset of an aware
    moment with seconds only when it has some. *)
Definition two_digits (n : Z) : pystr := [digit_at 10 n; digit_at 1 n].
Definition six_digits (n : Z) : pystr := map (fun p => digit_at p n) [100000; 10000; 1000; 100; 10; 1].
Definition clock_isoformat (second micro : Z) : pystr :=
  two_digits (second / 3600) ++ 58 :: two_digits (second / 60 mod 60) ++ 58 :: two_digits (second mod 60)
  ++ (if micro =? 0 then [] else 46 :: six_digits micro).
Definition offset_isoformat (offset : Z) : pystr :=
  let size := Z.abs offset in
  let second := size / 1000000 in
  let micro := size mod 1000000 in
  (if offset <? 0 then 45 else 43) :: two_digits (second / 3600) ++ 58 :: two_digits (second / 60 mod 60)
  ++ (if (second mod 60 =? 0) && (micro =? 0) then []
      else 58 :: two_digits (second mod 60) ++ (if micro =? 0 then [] else 46 :: six_digits micro)).
Definition datetime_isoformat (t : datetime) : pystr :=
  isoformat (dt_date t) ++ 84 :: clock_isoformat (dt_second t) (dt_microsecond t)
  ++ match dt_offset t with Some offset => offset_isoformat offset | None => [] end.

(** [s.replace(old, new)] for a nonempty [old]; [skip] characters belong to an
    occurrence that has been replaced. *)
Fixpoint replace_from (old new : pystr) (skip : nat) (s : pystr) : pystr :=
  match s with
  | [] => []
  | c :: rest =>
      match skip with
      | S k => replace_from old new k rest
      | O => if startswith old s then new ++ replace_from old new (Nat.pred (length old)) rest
             else c :: replace_from old new O rest
      end
  end.
Definition replace_all (old new s : pystr) : pystr := replace_from old new O s.

Example utc_isoformat :
  replace_all (str "+00:00") (str "Z")
    (datetime_isoformat {| dt_date := Date 2026 8 31; dt_second := 52200; dt_microsecond := 5; dt_offset := Some 0 |})
  = str "2026-08-31T14:30:00.000005Z".
Proof. reflexivity. Qed.

Lemma ascii_text s : Forall (fun c => 0 <= c < 128) s -> text_ok s.
Proof. intros H. eapply Forall_impl; [exact H|]. intros c Hc. cbn beta in Hc. unfold is_surrogate. lia. Qed.

Lemma digits_ascii n : Forall (fun c => 0 <= c < 128) (two_digits n) /\ Forall (fun c => 0 <= c < 128) (six_digits n).
Proof.
  assert (forall p, 0 <= digit_at p n < 128) as H.
  { intros p. pose proof (digit_at_digit p n) as H. unfold is_digit in H. lia. }
  split; [unfold two_digits | unfold six_digits; apply Forall_map];
    repeat first [apply Forall_nil_2 | apply Forall_cons_2; [apply H|]].
Qed.

Lemma datetime_isoformat_text t : text_ok (datetime_isoformat t).
Proof.
  unfold datetime_isoformat. apply Forall_app. split; [apply isoformat_text|]. apply ascii_text.
  pose proof (fun n => proj1 (digits_ascii n)). pose proof (fun n => proj2 (digits_ascii n)).
  unfold clock_isoformat, offset_isoformat.
  repeat first [ apply Forall_app_2 | apply Forall_nil_2 | apply Forall_cons_2; [repeat case_match; lia|]
               | progress case_match | solve [auto] ].
Qed.

Lemma replace_from_text old new n s : text_ok new -> text_ok s -> text_ok (replace_from old new n s).
Proof.
  intros Hn Hs. revert n. induction Hs as [|c s Hc Hs IH]; intros n; [apply Forall_nil_2|]. cbn [replace_from].
  destruct n; [|apply IH]. case_match; [apply Forall_app_2; [exact Hn | apply IH] | apply Forall_cons_2; [exact Hc | apply IH]].
Qed.
