(* ===== verification/PitTypes.v ===== *)
(** * Point-in-time records and dataset manifests

    Models [python/research/aegis_mx_research/types.py]: the enumerations, the
    frozen dataclasses with the validation of their [__post_init__], and the
    derived values.  A dataclass is a [Record]; an instance exists in the
    program only when its [__post_init__] returned, which the [_ok] predicates
    state. *)

From S2P Require Import Prelude PyText Json.
From stdpp Require Import pretty.
Open Scope Z_scope.

Definition POINT_IN_TIME_SCHEMA_VERSION : pystr := str "1.0.0".
Definition MAX_TEXT_BYTES : Z := 160.
Definition SHA256_BYTES : Z := 32.

(** ** Enumerations and their wire values *)

Inductive SourceKind :=
  | OFFICIAL_PRIMARY | LICENSED_PROVIDER | PUBLIC_SECONDARY | SYNTHETIC_REPLAY.

Definition SourceKind_value (k : SourceKind) : Z :=
  match k with
  | OFFICIAL_PRIMARY => 1 | LICENSED_PROVIDER => 2
  | PUBLIC_SECONDARY => 3 | SYNTHETIC_REPLAY => 4
  end.

Definition SourceKind_of (n : Z) : res SourceKind :=
  if n =? 1 then Ok OFFICIAL_PRIMARY else if n =? 2 then Ok LICENSED_PROVIDER
  else if n =? 3 then Ok PUBLIC_SECONDARY else if n =? 4 then Ok SYNTHETIC_REPLAY
  else raise ValueError "not a valid SourceKind".

Inductive RecordKind :=
  | CORPORATE_ACTION | SYMBOL_MAPPING | DELISTING | INDEX_MEMBERSHIP
  | ANALYST_ESTIMATE | MACRO_VINTAGE | NEWS_REVISION | FILING_REVISION.

#[export] Instance RecordKind_eq_dec : EqDecision RecordKind.
Proof. solve_decision. Defined.

Definition RecordKind_value (k : RecordKind) : Z :=
  match k with
  | CORPORATE_ACTION => 1 | SYMBOL_MAPPING => 2 | DELISTING => 3
  | INDEX_MEMBERSHIP => 4 | ANALYST_ESTIMATE => 5 | MACRO_VINTAGE => 6
  | NEWS_REVISION => 7 | FILING_REVISION => 8
  end.

Definition RecordKind_of (n : Z) : res RecordKind :=
  if n =? 1 then Ok CORPORATE_ACTION else if n =? 2 then Ok SYMBOL_MAPPING
  else if n =? 3 then Ok DELISTING else if n =? 4 then Ok INDEX_MEMBERSHIP
  else if n =? 5 then Ok ANALYST_ESTIMATE else if n =? 6 then Ok MACRO_VINTAGE
  else if n =? 7 then Ok NEWS_REVISION else if n =? 8 then Ok FILING_REVISION
  else raise ValueError "not a valid RecordKind".

Inductive CorporateActionType := SPLIT | CASH_DIVIDEND | MERGER | SPINOFF.

Definition CorporateActionType_value (k : CorporateActionType) : Z :=
  match k with SPLIT => 1 | CASH_DIVIDEND => 2 | MERGER => 3 | SPINOFF => 4 end.

Definition CorporateActionType_of (n : Z) : res CorporateActionType :=
  if n =? 1 then Ok SPLIT else if n =? 2 then Ok CASH_DIVIDEND
  else if n =? 3 then Ok MERGER else if n =? 4 then Ok SPINOFF
  else raise ValueError "not a valid CorporateActionType".

Inductive DatasetSplit := TRAIN | VALIDATION | TEST.

Definition DatasetSplit_value (d : DatasetSplit) : Z :=
  match d with TRAIN => 1 | VALIDATION => 2 | TEST => 3 end.

(** Iterating over the enumeration. *)
Definition DatasetSplits : list DatasetSplit := [TRAIN; VALIDATION; TEST].

#[export] Instance DatasetSplit_eq_dec : EqDecision DatasetSplit.
Proof. solve_decision. Defined.

Inductive SplitMethod := WALK_FORWARD | BLOCKED_TIME | RANDOMIZED.

#[export] Instance SplitMethod_eq_dec : EqDecision SplitMethod.
Proof. solve_decision. Defined.

(** ** Shared field checks *)

Definition bounded_text_to (value : pystr) (name : string) (maximum : Z) : res unit :=
  let error := (name ++ " is empty, contains NUL, or exceeds "
                ++ pretty maximum ++ " UTF-8 bytes")%string in
  if bool_decide (value = []) || existsb (Z.eqb 0) value then raise ValueError error
  else
    let! encoded := utf8_encode value in
    raise_when (maximum <? Z.of_nat (length encoded)) ValueError error.

Definition bounded_text (value : pystr) (name : string) : res unit :=
  bounded_text_to value name MAX_TEXT_BYTES.

Definition positive (value : Z) (name : string) : res unit :=
  raise_when (value <=? 0) ValueError (name ++ " must be positive").

(** ** Provenance *)

Record DataSource := {
  ds_source_id : pystr;
  ds_kind : SourceKind;
  ds_provider : pystr;
  ds_document_id : pystr;
  ds_content_sha256 : pybytes;
  ds_authenticated : bool;
}.

Definition DataSource_post_init (s : DataSource) : res unit :=
  do! bounded_text (ds_source_id s) "source_id" in
  do! bounded_text (ds_provider s) "provider" in
  do! bounded_text (ds_document_id s) "document_id" in
  raise_when ((negb (Z.of_nat (length (ds_content_sha256 s)) =? SHA256_BYTES))
              || negb (existsb (fun b => negb (b =? 0)) (ds_content_sha256 s)))
    ValueError "content_sha256 must be a nonzero SHA-256 digest".

Record ValidityInterval := {
  vi_from : Z;
  vi_to : option Z;
}.

Definition ValidityInterval_post_init (v : ValidityInterval) : res unit :=
  do! positive (vi_from v) "valid_from_ns" in
  raise_when match vi_to v with Some t => t <=? vi_from v | None => false end
    ValueError "valid_to_ns must be greater than valid_from_ns".

(** [ValidityInterval.contains]: the half-open interval. *)
Definition contains (v : ValidityInterval) (timestamp_ns : Z) : bool :=
  (vi_from v <=? timestamp_ns)
  && match vi_to v with None => true | Some t => timestamp_ns <? t end.

(** ** Payloads *)

Record CorporateAction := {
  ca_action_id : pystr;
  ca_instrument_id : pystr;
  ca_action_type : CorporateActionType;
  ca_ratio_numerator : Z;
  ca_ratio_denominator : Z;
}.

Definition CorporateAction_post_init (p : CorporateAction) : res unit :=
  do! bounded_text (ca_action_id p) "action_id" in
  do! bounded_text (ca_instrument_id p) "instrument_id" in
  do! positive (ca_ratio_numerator p) "ratio_numerator" in
  positive (ca_ratio_denominator p) "ratio_denominator".

Record SymbolMapping := {
  sm_symbol : pystr;
  sm_instrument_id : pystr;
  sm_venue : pystr;
}.

Definition SymbolMapping_post_init (p : SymbolMapping) : res unit :=
  do! bounded_text_to (sm_symbol p) "symbol" 32 in
  do! bounded_text (sm_instrument_id p) "instrument_id" in
  bounded_text_to (sm_venue p) "venue" 32.

Record Delisting := {
  dl_instrument_id : pystr;
  dl_reason : pystr;
}.

Definition Delisting_post_init (p : Delisting) : res unit :=
  do! bounded_text (dl_instrument_id p) "instrument_id" in
  bounded_text (dl_reason p) "reason".

Record IndexMembership := {
  im_index_id : pystr;
  im_instrument_id : pystr;
  im_included : bool;
}.

Definition IndexMembership_post_init (p : IndexMembership) : res unit :=
  do! bounded_text (im_index_id p) "index_id" in
  bounded_text (im_instrument_id p) "instrument_id".

Record AnalystEstimateVintage := {
  ae_instrument_id : pystr;
  ae_metric_id : pystr;
  ae_fiscal_period : pystr;
  ae_value : Z;
  ae_unit : pystr;
}.

Definition AnalystEstimateVintage_post_init (p : AnalystEstimateVintage) : res unit :=
  do! bounded_text (ae_instrument_id p) "instrument_id" in
  do! bounded_text_to (ae_metric_id p) "metric_id" 64 in
  do! bounded_text_to (ae_fiscal_period p) "fiscal_period" 32 in
  bounded_text_to (ae_unit p) "unit" 32.

Record MacroVintage := {
  mv_series_id : pystr;
  mv_reference_period : pystr;
  mv_value : Z;
  mv_unit : pystr;
}.

Definition MacroVintage_post_init (p : MacroVintage) : res unit :=
  do! bounded_text_to (mv_series_id p) "series_id" 64 in
  do! bounded_text_to (mv_reference_period p) "reference_period" 32 in
  bounded_text_to (mv_unit p) "unit" 32.

Record NewsRevision := {
  nr_document_id : pystr;
  nr_correction_of : option pystr;
}.

Definition NewsRevision_post_init (p : NewsRevision) : res unit :=
  do! bounded_text (nr_document_id p) "document_id" in
  match nr_correction_of p with
  | Some c => bounded_text c "correction_of_record_id"
  | None => Ok tt
  end.

Record FilingRevision := {
  fr_accession_id : pystr;
  fr_form_type : pystr;
  fr_amendment_of : option pystr;
}.

Definition FilingRevision_post_init (p : FilingRevision) : res unit :=
  do! bounded_text (fr_accession_id p) "accession_id" in
  do! bounded_text_to (fr_form_type p) "form_type" 32 in
  match fr_amendment_of p with
  | Some c => bounded_text c "amendment_of_record_id"
  | None => Ok tt
  end.

Inductive RecordPayload :=
  | PCorporateAction (p : CorporateAction)
  | PSymbolMapping (p : SymbolMapping)
  | PDelisting (p : Delisting)
  | PIndexMembership (p : IndexMembership)
  | PAnalystEstimate (p : AnalystEstimateVintage)
  | PMacroVintage (p : MacroVintage)
  | PNewsRevision (p : NewsRevision)
  | PFilingRevision (p : FilingRevision).

Definition payload_post_init (p : RecordPayload) : res unit :=
  match p with
  | PCorporateAction p => CorporateAction_post_init p
  | PSymbolMapping p => SymbolMapping_post_init p
  | PDelisting p => Delisting_post_init p
  | PIndexMembership p => IndexMembership_post_init p
  | PAnalystEstimate p => AnalystEstimateVintage_post_init p
  | PMacroVintage p => MacroVintage_post_init p
  | PNewsRevision p => NewsRevision_post_init p
  | PFilingRevision p => FilingRevision_post_init p
  end.

Definition payload_kind (p : RecordPayload) : RecordKind :=
  match p with
  | PCorporateAction _ => CORPORATE_ACTION
  | PSymbolMapping _ => SYMBOL_MAPPING
  | PDelisting _ => DELISTING
  | PIndexMembership _ => INDEX_MEMBERSHIP
  | PAnalystEstimate _ => ANALYST_ESTIMATE
  | PMacroVintage _ => MACRO_VINTAGE
  | PNewsRevision _ => NEWS_REVISION
  | PFilingRevision _ => FILING_REVISION
  end.

Definition payload_logical_key (p : RecordPayload) : pystr :=
  match p with
  | PCorporateAction p => ca_action_id p
  | PSymbolMapping p => sm_symbol p
  | PDelisting p => dl_instrument_id p
  | PIndexMembership p => im_index_id p ++ str ":" ++ im_instrument_id p
  | PAnalystEstimate p =>
      ae_instrument_id p ++ str ":" ++ ae_metric_id p ++ str ":" ++ ae_fiscal_period p
  | PMacroVintage p => mv_series_id p ++ str ":" ++ mv_reference_period p
  | PNewsRevision p => nr_document_id p
  | PFilingRevision p => fr_accession_id p
  end.

(** ** The bitemporal record *)

Record PointInTimeRecord := {
  record_id : pystr;
  logical_key : pystr;
  kind : RecordKind;
  event_time_ns : Z;
  publication_time_ns : Z;
  receive_time_ns : Z;
  processing_time_ns : Z;
  revision_time_ns : Z;
  validity : ValidityInterval;
  source : DataSource;
  version : Z;
  payload : RecordPayload;
  schema_version : pystr;
}.

Definition PointInTimeRecord_post_init (r : PointInTimeRecord) : res unit :=
  do! bounded_text (record_id r) "record_id" in
  do! bounded_text (logical_key r) "logical_key" in
  do! positive (event_time_ns r) "event_time_ns" in
  do! positive (publication_time_ns r) "publication_time_ns" in
  do! positive (receive_time_ns r) "receive_time_ns" in
  do! positive (processing_time_ns r) "processing_time_ns" in
  do! positive (revision_time_ns r) "revision_time_ns" in
  do! raise_when (receive_time_ns r <? publication_time_ns r) ValueError
        "receive_time_ns cannot precede publication_time_ns" in
  do! raise_when (processing_time_ns r <? receive_time_ns r) ValueError
        "processing_time_ns cannot precede receive_time_ns" in
  do! raise_when (revision_time_ns r <? publication_time_ns r) ValueError
        "revision_time_ns cannot precede publication_time_ns" in
  do! raise_when (negb (contains (validity r) (event_time_ns r))) ValueError
        "event_time_ns must be inside the business validity interval" in
  do! raise_when (version r <=? 0) ValueError "version must be positive" in
  do! raise_when (negb (bool_decide (schema_version r = POINT_IN_TIME_SCHEMA_VERSION)))
        ValueError "unsupported point-in-time schema_version" in
  do! raise_when (negb (bool_decide (kind r = payload_kind (payload r)))) ValueError
        "record kind does not match payload type" in
  raise_when (negb (bool_decide (logical_key r = payload_logical_key (payload r))))
    ValueError "logical_key does not match the canonical payload key".

(** [PointInTimeRecord.available_at_ns] *)
Definition available_at_ns (r : PointInTimeRecord) : Z :=
  Z.max (processing_time_ns r) (revision_time_ns r).

(** A record the program can hold: it and the values it is built from passed
    their validation, and its digest is a [bytes] object. *)
Definition record_ok (r : PointInTimeRecord) : Prop :=
  PointInTimeRecord_post_init r = Ok tt /\
  ValidityInterval_post_init (validity r) = Ok tt /\
  DataSource_post_init (source r) = Ok tt /\
  payload_post_init (payload r) = Ok tt /\
  Forall (fun b => 0 <= b < 256) (ds_content_sha256 (source r)).

(** ** Dataset samples and manifests *)

Record DatasetSample := {
  sample_id : pystr;
  ss_event_time_ns : Z;
  feature_start_ns : Z;
  feature_end_ns : Z;
  label_start_ns : Z;
  label_end_ns : Z;
  split : DatasetSplit;
  record_ids : list pystr;
  universe_instrument_ids : list pystr;
}.

Definition DatasetSample_post_init (s : DatasetSample) : res unit :=
  do! bounded_text (sample_id s) "sample_id" in
  do! positive (ss_event_time_ns s) "event_time_ns" in
  do! positive (feature_start_ns s) "feature_start_ns" in
  do! positive (feature_end_ns s) "feature_end_ns" in
  do! positive (label_start_ns s) "label_start_ns" in
  do! positive (label_end_ns s) "label_end_ns" in
  do! raise_when (feature_end_ns s <? feature_start_ns s) ValueError
        "feature interval is reversed" in
  do! raise_when (label_end_ns s <? label_start_ns s) ValueError
        "label interval is reversed" in
  do! raise_when (bool_decide (record_ids s = []) || negb (bool_decide (NoDup (record_ids s))))
        ValueError "record_ids must be nonempty and unique" in
  raise_when (negb (bool_decide (NoDup (universe_instrument_ids s)))) ValueError
    "universe_instrument_ids must be unique".

Record DatasetManifest := {
  dataset_id : pystr;
  created_at_ns : Z;
  split_method : SplitMethod;
  samples : list DatasetSample;
  universe_index_id : pystr;
  embargo_ns : Z;
  random_seed : option Z;
}.

Definition DatasetManifest_post_init (m : DatasetManifest) : res unit :=
  do! bounded_text (dataset_id m) "dataset_id" in
  do! positive (created_at_ns m) "created_at_ns" in
  do! bounded_text (universe_index_id m) "universe_index_id" in
  do! raise_when (match samples m with [] => true | _ => false end) ValueError
        "dataset manifest requires samples" in
  do! raise_when (negb (bool_decide (NoDup (map sample_id (samples m))))) ValueError
        "dataset sample identifiers must be unique" in
  do! raise_when (embargo_ns m <? 0) ValueError "embargo_ns cannot be negative" in
  raise_when (bool_decide (split_method m = RANDOMIZED) && bool_decide (random_seed m = None))
    ValueError "randomized split metadata must retain its random seed".

Definition manifest_ok (m : DatasetManifest) : Prop :=
  DatasetManifest_post_init m = Ok tt /\
  Forall (fun s => DatasetSample_post_init s = Ok tt) (samples m).

(** ** Consequences of validation *)

Lemma bounded_text_to_inv value name maximum u :
  bounded_text_to value name maximum = Ok u ->
  value <> [] /\ text_ok value /\
  exists b, utf8_encode value = Ok b /\ Z.of_nat (length b) <= maximum.
Proof.
  unfold bounded_text_to. case_match eqn:E; [done|]. intros H. inv_ok. bprop.
  split; [done|]. split; [by eapply utf8_encode_text_ok|]. eexists. split; [done|]. lia.
Qed.

Lemma bounded_text_text_ok value name u : bounded_text value name = Ok u -> text_ok value.
Proof. intros H. by apply bounded_text_to_inv in H as (_ & ? & _). Qed.

Lemma bounded_text_to_text_ok value name n u :
  bounded_text_to value name n = Ok u -> text_ok value.
Proof. intros H. by apply bounded_text_to_inv in H as (_ & ? & _). Qed.

Lemma positive_ok value name u : positive value name = Ok u <-> 0 < value.
Proof. unfold positive. rewrite raise_when_ok. lia. Qed.

Lemma SourceKind_of_value k : SourceKind_of (SourceKind_value k) = Ok k.
Proof. by destruct k. Qed.
Lemma RecordKind_of_value k : RecordKind_of (RecordKind_value k) = Ok k.
Proof. by destruct k. Qed.
Lemma CorporateActionType_of_value k :
  CorporateActionType_of (CorporateActionType_value k) = Ok k.
Proof. by destruct k. Qed.

#[export] Instance RecordKind_value_inj : Inj (=) (=) RecordKind_value.
Proof. by intros [] []. Qed.

Lemma record_post_init_inv r :
  PointInTimeRecord_post_init r = Ok tt ->
  text_ok (record_id r) /\ text_ok (logical_key r) /\
  0 < event_time_ns r /\ 0 < publication_time_ns r /\
  publication_time_ns r <= receive_time_ns r <= processing_time_ns r /\
  publication_time_ns r <= revision_time_ns r /\
  contains (validity r) (event_time_ns r) = true /\
  0 < version r /\ schema_version r = POINT_IN_TIME_SCHEMA_VERSION /\
  kind r = payload_kind (payload r) /\
  logical_key r = payload_logical_key (payload r).
Proof.
  unfold PointInTimeRecord_post_init. intros H. inv_ok. bprop.
  repeat match goal with
  | H : positive _ _ = Ok _ |- _ => apply positive_ok in H
  | H : bounded_text _ _ = Ok _ |- _ => apply bounded_text_text_ok in H
  end.
  repeat split; try done; lia.
Qed.

Lemma record_ok_available r :
  record_ok r -> 0 < processing_time_ns r /\ 0 < available_at_ns r /\
    processing_time_ns r <= available_at_ns r /\ revision_time_ns r <= available_at_ns r.
Proof.
  intros [H%record_post_init_inv _]. unfold available_at_ns. lia.
Qed.

Lemma sample_post_init_inv s :
  DatasetSample_post_init s = Ok tt ->
  0 < ss_event_time_ns s /\ 0 < feature_end_ns s /\
  feature_start_ns s <= feature_end_ns s /\ label_start_ns s <= label_end_ns s /\
  record_ids s <> [] /\ NoDup (record_ids s) /\ NoDup (universe_instrument_ids s).
Proof.
  unfold DatasetSample_post_init. intros H. inv_ok. bprop.
  repeat match goal with
  | H : positive _ _ = Ok _ |- _ => apply positive_ok in H
  end.
  repeat split; try done; lia.
Qed.
