(* ===== verification/PitCodec.v ===== *)
(** * Canonical encoding of point-in-time records

    Models the codec of [python/research/aegis_mx_research/store.py]:
    [_canonical_bytes], [_payload_document], the [_require_*] helpers and
    [_record_from_bytes].  The round trip says that every valid record is read
    back exactly from the bytes the store writes for it. *)

From S2P Require Import Prelude PyText Json PitTypes.
Open Scope Z_scope.

(** ** Writing *)

(** [json.dumps(...).encode("ascii")]; the text is already ASCII. *)
Definition canonical_bytes (v : json) : res pybytes := dumps v.

Definition opt_str (o : option pystr) : json :=
  match o with Some s => JStr s | None => JNull end.
Definition opt_int (o : option Z) : json :=
  match o with Some n => JInt n | None => JNull end.

Definition payload_members (p : RecordPayload) : list (pystr * json) :=
  match p with
  | PCorporateAction p =>
      [(str "action_id", JStr (ca_action_id p));
       (str "action_type", JInt (CorporateActionType_value (ca_action_type p)));
       (str "instrument_id", JStr (ca_instrument_id p));
       (str "ratio_denominator", JInt (ca_ratio_denominator p));
       (str "ratio_numerator", JInt (ca_ratio_numerator p))]
  | PSymbolMapping p =>
      [(str "instrument_id", JStr (sm_instrument_id p));
       (str "symbol", JStr (sm_symbol p));
       (str "venue", JStr (sm_venue p))]
  | PDelisting p =>
      [(str "instrument_id", JStr (dl_instrument_id p));
       (str "reason", JStr (dl_reason p))]
  | PIndexMembership p =>
      [(str "included", JBool (im_included p));
       (str "index_id", JStr (im_index_id p));
       (str "instrument_id", JStr (im_instrument_id p))]
  | PAnalystEstimate p =>
      [(str "fiscal_period", JStr (ae_fiscal_period p));
       (str "instrument_id", JStr (ae_instrument_id p));
       (str "metric_id", JStr (ae_metric_id p));
       (str "unit", JStr (ae_unit p));
       (str "value", JInt (ae_value p))]
  | PMacroVintage p =>
      [(str "reference_period", JStr (mv_reference_period p));
       (str "series_id", JStr (mv_series_id p));
       (str "unit", JStr (mv_unit p));
       (str "value", JInt (mv_value p))]
  | PNewsRevision p =>
      [(str "correction_of_record_id", opt_str (nr_correction_of p));
       (str "document_id", JStr (nr_document_id p))]
  | PFilingRevision p =>
      [(str "accession_id", JStr (fr_accession_id p));
       (str "amendment_of_record_id", opt_str (fr_amendment_of p));
       (str "form_type", JStr (fr_form_type p))]
  end.

Definition source_members (s : DataSource) : list (pystr * json) :=
  [(str "authenticated", JBool (ds_authenticated s));
   (str "content_sha256", JStr (bytes_hex (ds_content_sha256 s)));
   (str "document_id", JStr (ds_document_id s));
   (str "kind", JInt (SourceKind_value (ds_kind s)));
   (str "provider", JStr (ds_provider s));
   (str "source_id", JStr (ds_source_id s))].

Definition validity_members (v : ValidityInterval) : list (pystr * json) :=
  [(str "valid_from_ns", JInt (vi_from v));
   (str "valid_to_ns", opt_int (vi_to v))].

Definition payload_document (r : PointInTimeRecord) : json :=
  JObj
    [(str "event_time_ns", JInt (event_time_ns r));
     (str "kind", JInt (RecordKind_value (kind r)));
     (str "logical_key", JStr (logical_key r));
     (str "payload", JObj (payload_members (payload r)));
     (str "processing_time_ns", JInt (processing_time_ns r));
     (str "publication_time_ns", JInt (publication_time_ns r));
     (str "receive_time_ns", JInt (receive_time_ns r));
     (str "record_id", JStr (record_id r));
     (str "revision_time_ns", JInt (revision_time_ns r));
     (str "schema_version", JStr (schema_version r));
     (str "source", JObj (source_members (source r)));
     (str "validity", JObj (validity_members (validity r)));
     (str "version", JInt (version r))].

(** The bytes the store keeps for a record. *)
Definition record_bytes (r : PointInTimeRecord) : res pybytes :=
  canonical_bytes (payload_document r).

(** ** Reading *)

Definition require_mapping (v : json) (field : string) : res (list (pystr * json)) :=
  match v with
  | JObj m => Ok m
  | _ => raise PersistentStoreError (field ++ " is not an object")
  end.

Definition require_str (v : json) (field : string) : res pystr :=
  match v with
  | JStr s => Ok s
  | _ => raise PersistentStoreError (field ++ " is not a string")
  end.

Definition require_int (v : json) (field : string) : res Z :=
  match v with
  | JInt n => Ok n
  | _ => raise PersistentStoreError (field ++ " is not an integer")
  end.

Definition require_bool (v : json) (msg : string) : res bool :=
  match v with
  | JBool b => Ok b
  | _ => raise PersistentStoreError msg
  end.

Definition require_opt_str (v : json) (msg : string) : res (option pystr) :=
  match v with
  | JNull => Ok None
  | JStr s => Ok (Some s)
  | _ => raise PersistentStoreError msg
  end.

Definition require_opt_int (v : json) (field : string) : res (option Z) :=
  match v with
  | JNull => Ok None
  | v => let! n := require_int v field in Ok (Some n)
  end.

(** [m\[key\]] checked to be a string or an integer. *)
Definition get_str (m : list (pystr * json)) (key : string) (field : string) : res pystr :=
  let! v := jget (str key) m in require_str v field.
Definition get_int (m : list (pystr * json)) (key : string) (field : string) : res Z :=
  let! v := jget (str key) m in require_int v field.

Definition checked {A} (post_init : A -> res unit) (a : A) : res A :=
  do! post_init a in Ok a.

Definition decode_payload (k : RecordKind) (m : list (pystr * json)) : res RecordPayload :=
  match k with
  | CORPORATE_ACTION =>
      let! action_id := get_str m "action_id" "action_id" in
      let! instrument_id := get_str m "instrument_id" "instrument_id" in
      let! action_code := get_int m "action_type" "action_type" in
      let! action_type := CorporateActionType_of action_code in
      let! numerator := get_int m "ratio_numerator" "ratio_numerator" in
      let! denominator := get_int m "ratio_denominator" "ratio_denominator" in
      let! p := checked CorporateAction_post_init
                  {| ca_action_id := action_id; ca_instrument_id := instrument_id;
                     ca_action_type := action_type; ca_ratio_numerator := numerator;
                     ca_ratio_denominator := denominator |} in
      Ok (PCorporateAction p)
  | SYMBOL_MAPPING =>
      let! symbol := get_str m "symbol" "symbol" in
      let! instrument_id := get_str m "instrument_id" "instrument_id" in
      let! venue := get_str m "venue" "venue" in
      let! p := checked SymbolMapping_post_init
                  {| sm_symbol := symbol; sm_instrument_id := instrument_id;
                     sm_venue := venue |} in
      Ok (PSymbolMapping p)
  | DELISTING =>
      let! instrument_id := get_str m "instrument_id" "instrument_id" in
      let! reason := get_str m "reason" "reason" in
      let! p := checked Delisting_post_init
                  {| dl_instrument_id := instrument_id; dl_reason := reason |} in
      Ok (PDelisting p)
  | INDEX_MEMBERSHIP =>
      let! included_value := jget (str "included") m in
      let! included := require_bool included_value "included is not a boolean" in
      let! index_id := get_str m "index_id" "index_id" in
      let! instrument_id := get_str m "instrument_id" "instrument_id" in
      let! p := checked IndexMembership_post_init
                  {| im_index_id := index_id; im_instrument_id := instrument_id;
                     im_included := included |} in
      Ok (PIndexMembership p)
  | ANALYST_ESTIMATE =>
      let! instrument_id := get_str m "instrument_id" "instrument_id" in
      let! metric_id := get_str m "metric_id" "metric_id" in
      let! fiscal_period := get_str m "fiscal_period" "fiscal_period" in
      let! value := get_int m "value" "value" in
      let! unit := get_str m "unit" "unit" in
      let! p := checked AnalystEstimateVintage_post_init
                  {| ae_instrument_id := instrument_id; ae_metric_id := metric_id;
                     ae_fiscal_period := fiscal_period; ae_value := value; ae_unit := unit |} in
      Ok (PAnalystEstimate p)
  | MACRO_VINTAGE =>
      let! series_id := get_str m "series_id" "series_id" in
      let! reference_period := get_str m "reference_period" "reference_period" in
      let! value := get_int m "value" "value" in
      let! unit := get_str m "unit" "unit" in
      let! p := checked MacroVintage_post_init
                  {| mv_series_id := series_id; mv_reference_period := reference_period;
                     mv_value := value; mv_unit := unit |} in
      Ok (PMacroVintage p)
  | NEWS_REVISION =>
      let! correction_value := jget (str "correction_of_record_id") m in
      let! correction := require_opt_str correction_value "correction parent is malformed" in
      let! document_id := get_str m "document_id" "document_id" in
      let! p := checked NewsRevision_post_init
                  {| nr_document_id := document_id; nr_correction_of := correction |} in
      Ok (PNewsRevision p)
  | FILING_REVISION =>
      let! amendment_value := jget (str "amendment_of_record_id") m in
      let! amendment := require_opt_str amendment_value "amendment parent is malformed" in
      let! accession_id := get_str m "accession_id" "accession_id" in
      let! form_type := get_str m "form_type" "form_type" in
      let! p := checked FilingRevision_post_init
                  {| fr_accession_id := accession_id; fr_form_type := form_type;
                     fr_amendment_of := amendment |} in
      Ok (PFilingRevision p)
  end.

(** The body of the [try] of [_record_from_bytes]. *)
Definition decode_record (encoded : pybytes) : res PointInTimeRecord :=
  let! value := loads_bytes encoded in
  let! document := require_mapping value "record" in
  let! payload_json := jget (str "payload") document in
  let! payload_value := require_mapping payload_json "payload" in
  let! source_json := jget (str "source") document in
  let! source_value := require_mapping source_json "source" in
  let! validity_json := jget (str "validity") document in
  let! validity_value := require_mapping validity_json "validity" in
  let! kind_code := get_int document "kind" "kind" in
  let! kind := RecordKind_of kind_code in
  let! source_kind_code := get_int source_value "kind" "source.kind" in
  let! source_kind := SourceKind_of source_kind_code in
  let! digest_text := get_str source_value "content_sha256" "source.content_sha256" in
  let! digest := bytes_fromhex digest_text in
  let! payload := decode_payload kind payload_value in
  let! valid_to_json := jget (str "valid_to_ns") validity_value in
  let! valid_to := require_opt_int valid_to_json "valid_to_ns" in
  let! authenticated_json := jget (str "authenticated") source_value in
  let! authenticated := require_bool authenticated_json "source.authenticated is not a boolean" in
  let! record_id := get_str document "record_id" "record_id" in
  let! logical_key := get_str document "logical_key" "logical_key" in
  let! event_time := get_int document "event_time_ns" "event_time_ns" in
  let! publication_time := get_int document "publication_time_ns" "publication_time_ns" in
  let! receive_time := get_int document "receive_time_ns" "receive_time_ns" in
  let! processing_time := get_int document "processing_time_ns" "processing_time_ns" in
  let! revision_time := get_int document "revision_time_ns" "revision_time_ns" in
  let! valid_from := get_int validity_value "valid_from_ns" "valid_from_ns" in
  let! validity := checked ValidityInterval_post_init
                     {| vi_from := valid_from; vi_to := valid_to |} in
  let! source_id := get_str source_value "source_id" "source_id" in
  let! provider := get_str source_value "provider" "provider" in
  let! document_id := get_str source_value "document_id" "source.document_id" in
  let! source := checked DataSource_post_init
                   {| ds_source_id := source_id; ds_kind := source_kind;
                      ds_provider := provider; ds_document_id := document_id;
                      ds_content_sha256 := digest; ds_authenticated := authenticated |} in
  let! version := get_int document "version" "version" in
  let! schema_version := get_str document "schema_version" "schema_version" in
  checked PointInTimeRecord_post_init
    {| record_id := record_id; logical_key := logical_key; kind := kind;
       event_time_ns := event_time; publication_time_ns := publication_time;
       receive_time_ns := receive_time; processing_time_ns := processing_time;
       revision_time_ns := revision_time; validity := validity; source := source;
       version := version; payload := payload; schema_version := schema_version |}.

Definition record_from_bytes (encoded : pybytes) : res PointInTimeRecord :=
  try_except (decode_record encoded) [KeyError; TypeError; ValueError; JSONDecodeError]
    (fun _ => raise PersistentStoreError "stored point-in-time record is corrupt").

(** ** Round trip *)

Lemma opt_str_norm o : norm (opt_str o) = opt_str o.
Proof. by destruct o. Qed.
Lemma opt_int_norm o : norm (opt_int o) = opt_int o.
Proof. by destruct o. Qed.
Lemma opt_str_ok o : (forall s, o = Some s -> text_ok s) -> json_ok (opt_str o).
Proof. destruct o; simpl; auto. Qed.
Lemma opt_int_ok o : json_ok (opt_int o).
Proof. by destruct o. Qed.

(** [members_ok]: the side conditions of a literal object of valid fields. *)
Ltac text_hyps :=
  repeat match goal with
  | H : bounded_text _ _ = Ok _ |- _ => apply bounded_text_text_ok in H
  | H : bounded_text_to _ _ _ = Ok _ |- _ => apply bounded_text_to_text_ok in H
  end.
Ltac members_ok :=
  apply json_ok_obj_intro; [json_keys | json_keys |];
  repeat (apply Forall_cons; split; [cbn [snd]|]); try apply Forall_nil_2;
  try exact I; try assumption.

Lemma payload_members_ok p : payload_post_init p = Ok tt -> json_ok (JObj (payload_members p)).
Proof.
  destruct p as [p|p|p|p|p|p|p|p]; cbn [payload_post_init payload_members];
    [unfold CorporateAction_post_init | unfold SymbolMapping_post_init
    | unfold Delisting_post_init | unfold IndexMembership_post_init
    | unfold AnalystEstimateVintage_post_init | unfold MacroVintage_post_init
    | unfold NewsRevision_post_init | unfold FilingRevision_post_init];
    intros H; inv_ok; text_hyps; members_ok;
    apply opt_str_ok; intros s Hs; rewrite Hs in H; by eapply bounded_text_text_ok.
Qed.

Lemma source_members_ok s :
  DataSource_post_init s = Ok tt -> Forall (fun b => 0 <= b < 256) (ds_content_sha256 s) ->
  json_ok (JObj (source_members s)).
Proof.
  unfold DataSource_post_init. intros H Hb. inv_ok. text_hyps. members_ok.
  by apply bytes_hex_text_ok.
Qed.

Lemma document_ok r : record_ok r -> json_ok (payload_document r).
Proof.
  intros (H%record_post_init_inv & _ & Hs & Hp & Hb).
  destruct H as (Hid & Hkey & _ & _ & _ & _ & _ & _ & Hv & _ & _).
  unfold payload_document. members_ok.
  - by apply payload_members_ok.
  - rewrite Hv. apply str_text_ok.
  - by apply source_members_ok.
  - members_ok. apply opt_int_ok.
Qed.

Lemma payload_members_norm p :
  norm (JObj (payload_members p)) = JObj (payload_members p).
Proof.
  destruct p; rewrite norm_obj by json_keys; cbn [payload_members map fst snd];
    by rewrite ?opt_str_norm.
Qed.

Lemma document_norm r : norm (payload_document r) = payload_document r.
Proof.
  unfold payload_document. rewrite norm_obj by json_keys. cbn [map fst snd].
  rewrite payload_members_norm, !norm_obj by json_keys.
  unfold source_members, validity_members. cbn [map fst snd]. by rewrite opt_int_norm.
Qed.

Lemma checked_ok {A} (f : A -> res unit) a : f a = Ok tt -> checked f a = Ok a.
Proof. unfold checked. by intros ->. Qed.

Ltac decode_step :=
  first [ progress unfold get_str, get_int | progress jget_compute
        | progress cbn [rbind require_str require_int require_bool require_mapping] ].

Lemma require_opt_str_opt o msg : require_opt_str (opt_str o) msg = Ok o.
Proof. by destruct o. Qed.

Lemma require_opt_int_opt o field : require_opt_int (opt_int o) field = Ok o.
Proof. by destruct o. Qed.

Lemma decode_payload_members p :
  payload_post_init p = Ok tt ->
  decode_payload (payload_kind p) (payload_members p) = Ok p.
Proof.
  destruct p as [[]|[]|[]|[]|[]|[]|[]|[]]; cbn [payload_post_init]; intros H;
    unfold decode_payload, payload_members; cbn -[jget str get_str get_int checked rbind];
    repeat decode_step;
    rewrite ?CorporateActionType_of_value, ?require_opt_str_opt; repeat decode_step;
    by rewrite checked_ok.
Qed.

Lemma decode_record_bytes r b :
  record_ok r -> record_bytes r = Ok b -> decode_record b = Ok r.
Proof.
  intros Hok Hb. unfold decode_record.
  rewrite (loads_bytes_dumps _ _ (document_ok r Hok) Hb), document_norm.
  destruct Hok as (Hr & Hv & Hs & Hp & Hbytes).
  destruct (record_post_init_inv r Hr) as (_ & _ & _ & _ & _ & _ & _ & _ & _ & Hk & _).
  unfold payload_document. cbn [rbind require_mapping].
  repeat decode_step. rewrite RecordKind_of_value. cbn [rbind].
  unfold source_members. repeat decode_step. rewrite SourceKind_of_value. cbn [rbind].
  repeat decode_step. unfold bytes_fromhex. rewrite fromhex_hex by done. cbn [rbind].
  rewrite Hk, decode_payload_members by done. cbn [rbind].
  unfold validity_members. repeat decode_step.
  rewrite require_opt_int_opt.
  repeat decode_step. destruct r as [? ? ? ? ? ? ? ? [] [] ? ? ?]. simpl in *.
  rewrite (checked_ok ValidityInterval_post_init) by done. repeat decode_step.
  rewrite (checked_ok DataSource_post_init) by done. repeat decode_step.
  rewrite <- Hk. by rewrite checked_ok.
Qed.

Lemma record_from_bytes_roundtrip r b :
  record_ok r -> record_bytes r = Ok b -> record_from_bytes b = Ok r.
Proof.
  intros Hok Hb. unfold record_from_bytes. by rewrite (decode_record_bytes r b).
Qed.

Lemma record_bytes_inj r r' b :
  record_ok r -> record_ok r' -> record_bytes r = Ok b -> record_bytes r' = Ok b -> r' = r.
Proof.
  intros Hr Hr' Hb Hb'.
  pose proof (record_from_bytes_roundtrip r b Hr Hb).
  pose proof (record_from_bytes_roundtrip r' b Hr' Hb'). congruence.
Qed.

(** ** Properties *)

(** C5: round trip of the persisted encoding.  A valid record whose integers
    have at most 4300 bits always has an encoding; the bytes are ASCII, reading
    them back gives exactly the record, and no other valid record has them. *)
Theorem record_codec_roundtrip r :
  record_ok r -> ints_printable (payload_document r) = true ->
  exists b, record_bytes r = Ok b /\ Forall (fun c => 0 < c < 128) b /\
    record_from_bytes b = Ok r /\
    forall r', record_ok r' -> record_bytes r' = Ok b -> r' = r.
Proof.
  intros Hok Hint. destruct (dumps_total _ Hint) as [b Hb]. exists b.
  split; [exact Hb|]. split; [eapply dumps_printable; [by apply document_ok | exact Hb]|].
  split; [by apply record_from_bytes_roundtrip|].
  intros r' Hr' Hb'. by eapply record_bytes_inj.
Qed.

Definition codec_sample : PointInTimeRecord :=
  let p := PNewsRevision {| nr_document_id := [110; 228; 8364; 128512];
                            nr_correction_of := Some (str "first") |} in
  {| record_id := str "second"; logical_key := payload_logical_key p; kind := payload_kind p;
     event_time_ns := 5; publication_time_ns := 10; receive_time_ns := 11;
     processing_time_ns := 12; revision_time_ns := 13;
     validity := {| vi_from := 1; vi_to := Some 99 |};
     source := {| ds_source_id := str "wire"; ds_kind := OFFICIAL_PRIMARY;
                  ds_provider := str "W"; ds_document_id := str "d";
                  ds_content_sha256 := repeat 200 32; ds_authenticated := true |};
     version := 2; payload := p; schema_version := POINT_IN_TIME_SCHEMA_VERSION |}.

Lemma record_codec_roundtrip_witness :
  exists b, record_bytes codec_sample = Ok b /\ record_from_bytes b = Ok codec_sample.
Proof.
  destruct (record_codec_roundtrip codec_sample) as (b & Hb & _ & Hr & _).
  - split; [reflexivity|]. split; [reflexivity|]. split; [reflexivity|].
    split; [reflexivity|]. repeat (apply Forall_cons; split; [lia|]). apply Forall_nil_2.
  - vm_compute. reflexivity.
  - exists b. split; [exact Hb | exact Hr].
Defined.
