(* ===== verification/PitStore.v ===== *)
(** * The in-memory point-in-time store

    Models [PointInTimeStore] of
    [python/research/aegis_mx_research/store.py]: the bounded append-only list
    of records with its two indexes, [append] with its lineage checks, and the
    temporal queries.  The store is shown to refine a plain list of records:
    [append] adds exactly the admissible records, and every query is a function
    of that list. *)

From S2P Require Import Prelude PyText Json PitTypes.
Open Scope Z_scope.

#[export] Instance RecordKind_countable : Countable RecordKind.
Proof.
  refine (inj_countable RecordKind_value
            (fun n => match RecordKind_of n with Ok k => Some k | Err _ => None end) _).
  intros k. by rewrite RecordKind_of_value.
Defined.

(** ** Link checks shared with the persistent store *)

Definition validate_timestamp (timestamp_ns : Z) : res unit :=
  raise_when (timestamp_ns <=? 0) ValueError
    "point-in-time query timestamp must be positive".

(** A link field is truthy when it is present and not empty. *)
Definition truthy (o : option pystr) : bool :=
  match o with Some (_ :: _) => true | _ => false end.

Definition validate_initial_link (record : PointInTimeRecord) : res unit :=
  match payload record with
  | PNewsRevision p => raise_when (truthy (nr_correction_of p)) ValueError
      "initial news revision cannot link to a correction parent"
  | PFilingRevision p => raise_when (truthy (fr_amendment_of p)) ValueError
      "initial filing revision cannot link to an amendment parent"
  | _ => Ok tt
  end.

Definition validate_revision_link (record previous : PointInTimeRecord) : res unit :=
  match payload record with
  | PNewsRevision p =>
      raise_when (negb (bool_decide (nr_correction_of p = Some (record_id previous))))
        ValueError "news correction must link to the prior accepted revision"
  | PFilingRevision p =>
      raise_when (negb (bool_decide (fr_amendment_of p = Some (record_id previous))))
        ValueError "filing amendment must link to the prior accepted revision"
  | _ => Ok tt
  end.

(** ** State and operations *)

(** The series a record belongs to. *)
Definition series (r : PointInTimeRecord) : RecordKind * pystr := (kind r, logical_key r).

Record PointInTimeStore := {
  capacity : Z;
  records : list PointInTimeRecord;
  by_id : gmap pystr PointInTimeRecord;
  by_series : gmap (RecordKind * pystr) (list PointInTimeRecord);
}.

(** [PointInTimeStore.__init__] *)
Definition new_store (cap : Z) : res PointInTimeStore :=
  do! raise_when (cap <=? 0) ValueError "point-in-time store capacity must be positive" in
  Ok {| capacity := cap; records := []; by_id := ∅; by_series := ∅ |}.

Definition set_history key (h : list PointInTimeRecord) (s : PointInTimeStore) :=
  {| capacity := capacity s; records := records s; by_id := by_id s;
     by_series := <[key := h]> (by_series s) |}.
Definition push_record r (s : PointInTimeStore) :=
  {| capacity := capacity s; records := records s ++ [r]; by_id := by_id s;
     by_series := by_series s |}.
Definition index_record r (s : PointInTimeStore) :=
  {| capacity := capacity s; records := records s; by_id := <[record_id r := r]> (by_id s);
     by_series := by_series s |}.

(** The version, time and link checks of a record against its history. *)
Definition check_lineage (record : PointInTimeRecord)
    (history : option (list PointInTimeRecord)) : res unit :=
  match history with
  | None => raise_when (negb (version record =? 1)) ValueError
              "first point-in-time record version must be one"
  | Some h =>
      match last h with
      | None => raise IndexError "list index out of range"
      | Some previous =>
          do! raise_when (negb (version record =? version previous + 1)) ValueError
                "point-in-time record versions must be contiguous" in
          do! raise_when (revision_time_ns record <=? revision_time_ns previous) ValueError
                "point-in-time revision time must increase" in
          validate_revision_link record previous
      end
  end.

Definition append (record : PointInTimeRecord) : M PointInTimeStore unit :=
  self <~ st_get id ;;
  st_lift (raise_when (capacity self <=? Z.of_nat (length (records self))) OverflowError
             "point-in-time store capacity exhausted") ;;~
  st_lift (raise_when (bool_decide (is_Some (by_id self !! record_id record))) ValueError
             "duplicate point-in-time record_id") ;;~
  let key := series record in
  let history := by_series self !! key in
  st_lift (check_lineage record history) ;;~
  h <~ match history with
       | None => st_lift (validate_initial_link record) ;;~
                 st_put (set_history key []) ;;~ st_ret []
       | Some h => st_ret h
       end ;;
  st_put (set_history key (h ++ [record])) ;;~
  st_put (push_record record) ;;~
  st_put (index_record record).

Fixpoint extend (rs : list PointInTimeRecord) : M PointInTimeStore unit :=
  match rs with
  | [] => st_ret tt
  | r :: t => append r ;;~ extend t
  end.

Definition record_by_id (s : PointInTimeStore) (i : pystr) : option PointInTimeRecord :=
  by_id s !! i.

Definition records_for (s : PointInTimeStore) (k : RecordKind) (key : pystr)
    : list PointInTimeRecord :=
  default [] (by_series s !! (k, key)).

(** [available < cutoff or (inclusive and available == cutoff)] *)
Definition eligible (inclusive : bool) (cutoff : Z) (r : PointInTimeRecord) : bool :=
  (available_at_ns r <? cutoff) || (inclusive && (available_at_ns r =? cutoff)).

Definition latest_revisions (inclusive : bool) (cutoff : Z) (rs : list PointInTimeRecord)
    : gmap (RecordKind * pystr) PointInTimeRecord :=
  foldl (fun m r => if eligible inclusive cutoff r then <[series r := r]> m else m) ∅ rs.

Definition series_leb : RecordKind * pystr -> RecordKind * pystr -> bool :=
  leb_on (fun k => (RecordKind_value k.1, k.2)) (pair_leb Z.leb pystr_leb).

Definition snapshot_of (inclusive : bool) (cutoff : Z) (rs : list PointInTimeRecord)
    : list PointInTimeRecord :=
  map snd (py_sorted (leb_on fst series_leb)
             (map_to_list (latest_revisions inclusive cutoff rs))).

(** [PointInTimeStore._snapshot] *)
Definition snapshot (s : PointInTimeStore) (timestamp_ns : Z) (inclusive : bool)
    : res (list PointInTimeRecord) :=
  do! validate_timestamp timestamp_ns in
  Ok (snapshot_of inclusive timestamp_ns (records s)).

Definition as_known_at (s : PointInTimeStore) (timestamp_ns : Z) := snapshot s timestamp_ns true.
Definition latest_available_before (s : PointInTimeStore) (timestamp_ns : Z) :=
  snapshot s timestamp_ns false.

(** The sort key of [revisions_after]. *)
Definition revision_key (r : PointInTimeRecord) : Z * (Z * (pystr * Z)) :=
  (revision_time_ns r, (RecordKind_value (kind r), (logical_key r, version r))).
Definition revision_leb : PointInTimeRecord -> PointInTimeRecord -> bool :=
  leb_on revision_key (pair_leb Z.leb (pair_leb Z.leb (pair_leb pystr_leb Z.leb))).

Definition revisions_of (cutoff : Z) (rs : list PointInTimeRecord) : list PointInTimeRecord :=
  py_sorted revision_leb (List.filter (fun r => cutoff <? revision_time_ns r) rs).

Definition revisions_after (s : PointInTimeStore) (timestamp_ns : Z)
    : res (list PointInTimeRecord) :=
  do! validate_timestamp timestamp_ns in
  Ok (revisions_of timestamp_ns (records s)).

(** The loop of [membership_at] over a snapshot. *)
Definition membership_step (index_id : pystr) (timestamp_ns : Z)
    (members : gset pystr) (r : PointInTimeRecord) : gset pystr :=
  match payload r with
  | PIndexMembership p =>
      if bool_decide (im_index_id p = index_id) && contains (validity r) timestamp_ns
      then if im_included p then {[im_instrument_id p]} ∪ members
           else members ∖ {[im_instrument_id p]}
      else members
  | _ => members
  end.

Definition members_of (index_id : pystr) (timestamp_ns : Z) (rs : list PointInTimeRecord)
    : list pystr :=
  py_sorted pystr_leb (elements (foldl (membership_step index_id timestamp_ns) ∅ rs)).

Definition membership_at (s : PointInTimeStore) (timestamp_ns : Z) (index_id : pystr)
    (known_at_ns : option Z) : res (list pystr) :=
  let cutoff := default timestamp_ns known_at_ns in
  let! rs := as_known_at s cutoff in
  Ok (members_of index_id timestamp_ns rs).

(** The loop of [symbol_mapping_at]: the first match of a snapshot. *)
Fixpoint find_mapping (symbol : pystr) (timestamp_ns : Z) (rs : list PointInTimeRecord)
    : option SymbolMapping :=
  match rs with
  | [] => None
  | r :: t =>
      match payload r with
      | PSymbolMapping p =>
          if bool_decide (sm_symbol p = symbol) && contains (validity r) timestamp_ns
          then Some p else find_mapping symbol timestamp_ns t
      | _ => find_mapping symbol timestamp_ns t
      end
  end.

Definition symbol_mapping_at (s : PointInTimeStore) (timestamp_ns : Z) (symbol : pystr)
    (known_at_ns : option Z) : res (option SymbolMapping) :=
  let cutoff := default timestamp_ns known_at_ns in
  let! rs := as_known_at s cutoff in
  Ok (find_mapping symbol timestamp_ns rs).

Definition is_action_of (instrument_id : pystr) (r : PointInTimeRecord) : bool :=
  match payload r with
  | PCorporateAction p => bool_decide (ca_instrument_id p = instrument_id)
  | _ => false
  end.

Definition corporate_action_history (s : PointInTimeStore) (instrument_id : pystr)
    (known_at_ns : Z) : res (list PointInTimeRecord) :=
  let! rs := as_known_at s known_at_ns in
  Ok (List.filter (is_action_of instrument_id) rs).

(** ** Specification: an append-only list of records *)

Definition in_series (key : RecordKind * pystr) (r : PointInTimeRecord) : bool :=
  bool_decide (series r = key).

Definition history_of (key : RecordKind * pystr) (rs : list PointInTimeRecord)
    : list PointInTimeRecord := List.filter (in_series key) rs.

Definition starts (r : PointInTimeRecord) : Prop :=
  version r = 1 /\ validate_initial_link r = Ok tt.

Definition succeeds (p r : PointInTimeRecord) : Prop :=
  version r = version p + 1 /\ revision_time_ns p < revision_time_ns r /\
  validate_revision_link r p = Ok tt.

(** One series: contiguous versions from 1, increasing revision times, each
    correction or amendment linked to its predecessor. *)
Definition lineage (l : list PointInTimeRecord) : Prop :=
  (forall r, head l = Some r -> starts r) /\
  (forall i p r, l !! i = Some p -> l !! S i = Some r -> succeeds p r).

(** Whether a list of records may be extended by [r], and the exception
    otherwise. *)
Definition admissible (cap : Z) (rs : list PointInTimeRecord) (r : PointInTimeRecord) : res unit :=
  do! raise_when (cap <=? Z.of_nat (length rs)) OverflowError
        "point-in-time store capacity exhausted" in
  do! raise_when (bool_decide (record_id r ∈ map record_id rs)) ValueError
        "duplicate point-in-time record_id" in
  match last (history_of (series r) rs) with
  | None =>
      do! raise_when (negb (version r =? 1)) ValueError
            "first point-in-time record version must be one" in
      validate_initial_link r
  | Some previous =>
      do! raise_when (negb (version r =? version previous + 1)) ValueError
            "point-in-time record versions must be contiguous" in
      do! raise_when (revision_time_ns r <=? revision_time_ns previous) ValueError
            "point-in-time revision time must increase" in
      validate_revision_link r previous
  end.

Record store_inv (s : PointInTimeStore) : Prop := {
  inv_room : 0 < capacity s /\ Z.of_nat (length (records s)) <= capacity s;
  inv_ids : NoDup (map record_id (records s));
  inv_by_id : forall i r,
    by_id s !! i = Some r <-> r ∈ records s /\ record_id r = i;
  inv_series : forall key,
    by_series s !! key = match history_of key (records s) with [] => None | h => Some h end;
  inv_lineage : forall key, lineage (history_of key (records s));
}.

(** The states the program can reach from a new store of capacity [cap]. *)
Inductive reachable (cap : Z) : PointInTimeStore -> Prop :=
  | reach_new s : new_store cap = Ok s -> reachable cap s
  | reach_append s r s' o : reachable cap s -> append r s = (s', o) -> reachable cap s'.

(** ** Histories *)

Lemma history_of_app key rs r :
  history_of key (rs ++ [r])
  = history_of key rs ++ (if in_series key r then [r] else []).
Proof. unfold history_of. by rewrite List.filter_app. Qed.

Lemma elem_of_history key rs r : r ∈ history_of key rs <-> r ∈ rs /\ series r = key.
Proof.
  unfold history_of, in_series.
  by rewrite list_elem_of_In, filter_In, <- list_elem_of_In, bool_decide_eq_true.
Qed.

Lemma lineage_snoc l r :
  lineage l -> match last l with None => starts r | Some p => succeeds p r end ->
  lineage (l ++ [r]).
Proof.
  intros [Hh Hs] Hr. destruct l as [|x l] using rev_ind; [|clear IHl].
  - simpl in *. split; [by intros ? [= <-]|]. intros i p q _ Hq. by destruct i.
  - rewrite last_snoc in Hr. split.
    + intros q Hq. apply Hh. destruct l; simpl in *; done.
    + intros i p q Hp Hq. rewrite <- app_assoc in Hp, Hq.
      destruct (decide (S i < length (l ++ [x]))%nat) as [Hlt|Hge].
      * apply (Hs i); [rewrite <- Hp | rewrite <- Hq]; rewrite app_assoc; symmetry;
          apply lookup_app_l; lia.
      * rewrite length_app in Hge. simpl in Hge.
        apply lookup_lt_Some in Hq as Hlt. rewrite !length_app in Hlt. simpl in Hlt.
        assert (i = length l) as -> by lia.
        cbn [app] in Hp. rewrite list_lookup_middle in Hp by done. simplify_eq.
        rewrite lookup_app_r in Hq by lia.
        replace (S (length l) - length l)%nat with 1%nat in Hq by lia.
        simpl in Hq. by simplify_eq.
Qed.

(** Versions count positions and revision times increase along a series. *)
Lemma lineage_version l i r : lineage l -> l !! i = Some r -> version r = Z.of_nat i + 1.
Proof.
  intros [Hh Hs]. revert r. induction i as [|i IH]; intros r Hr.
  - destruct l as [|x l]; [done|]. simpl in Hr. simplify_eq.
    by destruct (Hh _ eq_refl) as [-> _].
  - destruct (l !! i) as [p|] eqn:Hp.
    + destruct (Hs i p r Hp Hr) as [-> _]. rewrite (IH p eq_refl). lia.
    + apply lookup_ge_None in Hp. apply lookup_lt_Some in Hr. lia.
Qed.

Lemma lineage_revision l i j p r :
  lineage l -> (i < j)%nat -> l !! i = Some p -> l !! j = Some r ->
  revision_time_ns p < revision_time_ns r.
Proof.
  intros Hl Hij Hp. revert r. induction Hij as [|j Hij IH]; intros r Hr.
  - by destruct Hl as [_ Hs]; destruct (Hs i p r Hp Hr) as (_ & ? & _).
  - destruct (l !! j) as [q|] eqn:Hq.
    + specialize (IH q eq_refl). destruct Hl as [_ Hs].
      destruct (Hs j q r Hq Hr) as (_ & ? & _). lia.
    + apply lookup_ge_None in Hq. apply lookup_lt_Some in Hr. lia.
Qed.

Lemma admissible_ok cap rs r :
  admissible cap rs r = Ok tt <->
  Z.of_nat (length rs) < cap /\ record_id r ∉ map record_id rs /\
  match last (history_of (series r) rs) with None => starts r | Some p => succeeds p r end.
Proof.
  unfold admissible, starts, succeeds. split.
  - intros H. inv_ok. bprop. split; [lia|]. split; [done|].
    destruct (last _) as [p|]; inv_ok; bprop; repeat split; try done; lia.
  - intros (H1 & H2 & H3).
    rewrite (raise_when_false (cap <=? _)) by lia. simpl.
    rewrite bool_decide_eq_false_2 by done. simpl.
    destruct (last _) as [p|].
    + destruct H3 as (Hv & Ht & Hl). rewrite raise_when_false by lia. simpl.
      by rewrite raise_when_false by lia.
    + destruct H3 as (Hv & Hl). by rewrite raise_when_false by lia.
Qed.

(** ** [append] refines the list *)

Lemma by_id_fresh s r :
  store_inv s ->
  bool_decide (is_Some (by_id s !! record_id r))
  = bool_decide (record_id r ∈ map record_id (records s)).
Proof.
  intros Hinv. apply bool_decide_ext. split.
  - intros [q [Hq Hid]%(inv_by_id s Hinv)]. rewrite <- Hid. by apply list_elem_of_fmap_2.
  - intros (q & Hid & Hq)%list_elem_of_fmap_1. exists q. apply (inv_by_id s Hinv). by split.
Qed.

Definition appended (r : PointInTimeRecord) (s : PointInTimeStore) : PointInTimeStore :=
  {| capacity := capacity s; records := records s ++ [r];
     by_id := <[record_id r := r]> (by_id s);
     by_series := <[series r := history_of (series r) (records s) ++ [r]]> (by_series s) |}.

Lemma append_eq s r :
  store_inv s ->
  append r s = match admissible (capacity s) (records s) r with
               | Ok _ => (appended r s, Ok tt)
               | Err e => (s, Err e)
               end.
Proof.
  intros Hinv. unfold append, admissible, st_bind, st_get, st_lift, st_put, st_ret, id.
  destruct (raise_when (capacity s <=? _) _ _); [|done]. simpl.
  rewrite by_id_fresh by done. destruct (raise_when (bool_decide _) _ _); [|done]. simpl.
  unfold check_lineage. rewrite (inv_series s Hinv).
  unfold appended, set_history, push_record, index_record.
  destruct (history_of (series r) (records s)) as [|x h] eqn:Hh.
  - simpl. destruct (raise_when (negb (version r =? 1)) _ _); [|done]. simpl.
    destruct (validate_initial_link r); [|done]. simpl. do 2 f_equal.
    by rewrite insert_insert_eq.
  - destruct (last (x :: h)) as [p|] eqn:Hl.
    + by destruct (rbind _ _).
    + by apply last_None in Hl.
Qed.

Lemma appended_inv s r :
  store_inv s -> admissible (capacity s) (records s) r = Ok tt -> store_inv (appended r s).
Proof.
  intros Hinv (Hroom & Hfresh & Hlin)%admissible_ok. split; simpl.
  - pose proof (inv_room s Hinv). rewrite length_app. simpl. lia.
  - rewrite map_app. apply NoDup_app. split; [apply inv_ids; done|].
    split; [|apply NoDup_singleton]. set_solver.
  - intros i q. destruct (decide (record_id r = i)) as [<-|Hne].
    + rewrite lookup_insert_eq. split.
      * intros [= ->]. set_solver.
      * intros [[Hq | ->%list_elem_of_singleton]%elem_of_app Hid]; [|done].
        destruct Hfresh. rewrite <- Hid. by apply list_elem_of_fmap_2.
    + rewrite lookup_insert_ne, (inv_by_id s Hinv) by done. set_solver.
  - intros key. rewrite history_of_app. unfold in_series.
    destruct (decide (series r = key)) as [<-|Hne].
    + rewrite lookup_insert_eq, bool_decide_eq_true_2 by done.
      by destruct (history_of (series r) (records s)).
    + rewrite lookup_insert_ne, bool_decide_eq_false_2, app_nil_r by done.
      apply (inv_series s Hinv).
  - intros key. rewrite history_of_app. unfold in_series.
    destruct (decide (series r = key)) as [<-|Hne].
    + rewrite bool_decide_eq_true_2 by done.
      apply lineage_snoc; [apply (inv_lineage s Hinv) | done].
    + rewrite bool_decide_eq_false_2, app_nil_r by done. apply (inv_lineage s Hinv).
Qed.

Lemma new_store_inv cap s : new_store cap = Ok s -> store_inv s.
Proof.
  unfold new_store. intros H. inv_ok. split; simpl.
  - lia.
  - constructor.
  - intros i r. rewrite lookup_empty. set_solver.
  - intros key. apply lookup_empty.
  - intros key. split; [done|]. intros i p r Hp. done.
Qed.

Lemma append_inv s r s' o : store_inv s -> append r s = (s', o) -> store_inv s'.
Proof.
  intros Hinv. rewrite append_eq by done. destruct (admissible _ _ _) as [[]|e] eqn:E.
  - intros [= <- <-]. by apply appended_inv.
  - by intros [= <- <-].
Qed.

Lemma reachable_inv cap s : reachable cap s -> store_inv s.
Proof.
  induction 1 as [s Hs | s r s' o _ IH Hs]; [by eapply new_store_inv|].
  by eapply append_inv.
Qed.

Lemma append_capacity s r s' o : store_inv s -> append r s = (s', o) -> capacity s' = capacity s.
Proof.
  intros Hinv. rewrite append_eq by done. destruct (admissible _ _ _); by intros [= <- <-].
Qed.

Lemma reachable_capacity cap s : reachable cap s -> capacity s = cap.
Proof.
  induction 1 as [s Hs | s r s' o Hr IH Hs].
  - unfold new_store in Hs. by inv_ok.
  - rewrite <- IH. eapply append_capacity; [by eapply reachable_inv | done].
Qed.

(** ** Snapshots *)

Definition candidate inclusive cutoff key (r : PointInTimeRecord) : bool :=
  in_series key r && eligible inclusive cutoff r.

Lemma latest_lookup inclusive cutoff rs key :
  latest_revisions inclusive cutoff rs !! key
  = last (List.filter (candidate inclusive cutoff key) rs).
Proof.
  induction rs as [|r rs IH] using rev_ind; [apply lookup_empty|].
  unfold latest_revisions in *. rewrite foldl_app, last_filter_app. simpl.
  unfold candidate at 1, in_series. destruct (eligible inclusive cutoff r).
  - rewrite andb_true_r. destruct (decide (series r = key)) as [<-|Hne].
    + by rewrite lookup_insert_eq, bool_decide_eq_true_2.
    + by rewrite lookup_insert_ne, bool_decide_eq_false_2.
  - by rewrite andb_false_r.
Qed.

Lemma latest_series inclusive cutoff rs key r :
  latest_revisions inclusive cutoff rs !! key = Some r ->
  series r = key /\ r ∈ rs /\ eligible inclusive cutoff r = true.
Proof.
  rewrite latest_lookup, last_filter_Some. unfold candidate, in_series.
  intros (i & Hi & [Hs He]%andb_true_split & _). bprop.
  by apply list_elem_of_lookup_2 in Hi.
Qed.

Lemma snapshot_perm inclusive cutoff rs :
  snapshot_of inclusive cutoff rs ≡ₚ map snd (map_to_list (latest_revisions inclusive cutoff rs)).
Proof. unfold snapshot_of. by rewrite py_sorted_perm. Qed.

Lemma elem_of_snapshot inclusive cutoff rs r :
  r ∈ snapshot_of inclusive cutoff rs <->
  latest_revisions inclusive cutoff rs !! series r = Some r.
Proof.
  rewrite snapshot_perm, list_elem_of_fmap. split.
  - intros ([key q] & -> & Hq%elem_of_map_to_list). simpl.
    apply latest_series in Hq as Hs. destruct Hs as [-> _]. done.
  - intros H. exists (series r, r). split; [done|]. by apply elem_of_map_to_list.
Qed.

#[export] Instance series_leb_order : OrderB series_leb.
Proof.
  split; [apply leb_on_preorder, _|].
  intros [k1 s1] [k2 s2] H1 H2. unfold series_leb, leb_on in *. simpl in *.
  pose proof (ordb_anti _ _ H1 H2) as H. simplify_eq. done.
Qed.

Lemma strongly_sorted_map {A B} (f : A -> B) (R : B -> B -> Prop) (l : list A) :
  StronglySorted (fun x y => R (f x) (f y)) l -> StronglySorted R (map f l).
Proof.
  induction 1 as [|x l _ IH Hx]; simpl; [constructor|]. constructor; [done|].
  apply Forall_fmap. exact Hx.
Qed.

Lemma snapshot_sorted inclusive cutoff rs :
  StronglySorted (fun a b => series_leb (series a) (series b) = true)
    (snapshot_of inclusive cutoff rs).
Proof.
  unfold snapshot_of.
  pose proof (py_sorted_sorted (leb_on fst series_leb)
    (map_to_list (latest_revisions inclusive cutoff rs))) as H.
  pose proof (fun kv => elem_of_py_sorted (leb_on fst series_leb) kv
    (map_to_list (latest_revisions inclusive cutoff rs))) as Hin.
  assert (Hkv : forall kv : RecordKind * list Z * PointInTimeRecord,
    kv ∈ py_sorted (leb_on fst series_leb) (map_to_list (latest_revisions inclusive cutoff rs)) ->
    series kv.2 = kv.1).
  { intros [key q]. rewrite Hin, elem_of_map_to_list. intros Hq. simpl.
    by apply latest_series in Hq as [-> _]. }
  clear Hin. revert Hkv. induction H as [|kv l _ IH Hx]; intros Hkv; simpl; [constructor|].
  constructor; [apply IH; set_solver|]. apply Forall_fmap, Forall_forall. intros kv' Hkv'. simpl.
  rewrite !Hkv by set_solver. rewrite Forall_forall in Hx. by apply Hx.
Qed.

(** A snapshot holds one record per series. *)
Lemma snapshot_inj inclusive cutoff rs r q :
  r ∈ snapshot_of inclusive cutoff rs -> q ∈ snapshot_of inclusive cutoff rs ->
  series r = series q -> r = q.
Proof. rewrite !elem_of_snapshot. intros Hr Hq Hs. rewrite Hs in Hr. congruence. Qed.

Lemma snapshot_nodup inclusive cutoff rs : NoDup (map series (snapshot_of inclusive cutoff rs)).
Proof.
  rewrite snapshot_perm, map_map.
  rewrite (map_ext_in _ fst).
  - apply NoDup_fst_map_to_list.
  - intros [key q] Hin%list_elem_of_In%elem_of_map_to_list. simpl.
    by apply latest_series in Hin as [-> _].
Qed.

(** A sorted list with the elements of a snapshot is that snapshot. *)
Lemma snapshot_unique inclusive cutoff rs l :
  NoDup l -> StronglySorted (fun a b => series_leb (series a) (series b) = true) l ->
  (forall r, r ∈ l <-> latest_revisions inclusive cutoff rs !! series r = Some r) ->
  l = snapshot_of inclusive cutoff rs.
Proof.
  intros Hnd Hs Hel.
  apply (StronglySorted_unique_strong (fun a b => series_leb (series a) (series b) = true)).
  - intros x y Hx Hy H1 H2. apply (snapshot_inj inclusive cutoff rs).
    + apply elem_of_snapshot. by apply Hel.
    + done.
    + by apply ordb_anti.
  - done.
  - apply snapshot_sorted.
  - apply NoDup_Permutation; [done | | intros r; by rewrite Hel, elem_of_snapshot].
    eapply NoDup_fmap_1. apply snapshot_nodup.
Qed.

(** Records that become known later do not change what was known before. *)
Lemma snapshot_app_future inclusive cutoff rs later :
  Forall (fun r => eligible inclusive cutoff r = false) later ->
  snapshot_of inclusive cutoff (rs ++ later) = snapshot_of inclusive cutoff rs.
Proof.
  intros H. unfold snapshot_of, latest_revisions. rewrite foldl_app.
  do 3 f_equal. generalize (foldl (fun (m : gmap (RecordKind * list Z) PointInTimeRecord) r =>
    if eligible inclusive cutoff r then <[series r:=r]> m else m) ∅ rs).
  induction H as [|r later Hr _ IH]; intros m; simpl; [done|]. by rewrite Hr.
Qed.

(** ** Membership *)

(** What a record says about [x] being a member, if anything. *)
Definition vote (index_id : pystr) (ts : Z) (x : pystr) (r : PointInTimeRecord) : option bool :=
  match payload r with
  | PIndexMembership p =>
      if bool_decide (im_index_id p = index_id) && contains (validity r) ts
         && bool_decide (im_instrument_id p = x)
      then Some (im_included p) else None
  | _ => None
  end.

Lemma membership_last_vote index_id ts x (rs : list PointInTimeRecord) :
  x ∈ foldl (membership_step index_id ts) ∅ rs <->
  last (omap (vote index_id ts x) rs) = Some true.
Proof.
  induction rs as [|r rs IH] using rev_ind; [set_solver|].
  rewrite foldl_app, omap_app. simpl. unfold membership_step at 1, vote at 2.
  destruct (payload r) as [| | |p| | | |]; try by rewrite app_nil_r.
  destruct (bool_decide (im_index_id p = index_id) && contains (validity r) ts); simpl;
    [|by rewrite app_nil_r].
  destruct (decide (im_instrument_id p = x)) as [<-|Hne].
  - rewrite bool_decide_eq_true_2, last_snoc by done.
    destruct (im_included p); set_solver.
  - rewrite bool_decide_eq_false_2, app_nil_r, <- IH by done.
    destruct (im_included p); set_solver.
Qed.

(** Two records that speak about the same member are of the same series. *)
Lemma vote_series index_id ts x r q b c :
  record_ok r -> record_ok q ->
  vote index_id ts x r = Some b -> vote index_id ts x q = Some c -> series r = series q.
Proof.
  intros [Hr _] [Hq _]. apply record_post_init_inv in Hr, Hq.
  destruct Hr as (_ & _ & _ & _ & _ & _ & _ & _ & _ & Hrk & Hrl).
  destruct Hq as (_ & _ & _ & _ & _ & _ & _ & _ & _ & Hqk & Hql).
  unfold vote, series. rewrite Hrk, Hrl, Hqk, Hql.
  destruct (payload r), (payload q); try done.
  intros H1 H2. repeat case_match; simplify_eq. bprop. simpl. congruence.
Qed.

Lemma membership_iff index_id ts x rs :
  NoDup (map series rs) -> Forall record_ok rs ->
  x ∈ foldl (membership_step index_id ts) ∅ rs <->
  exists r, r ∈ rs /\ vote index_id ts x r = Some true.
Proof.
  intros Hnd Hok. rewrite membership_last_vote. split.
  - intros H. apply last_Some_elem_of in H. apply list_elem_of_omap in H. naive_solver.
  - intros (r & Hr & Hv).
    destruct (last (omap (vote index_id ts x) rs)) as [b|] eqn:Hl.
    + apply last_Some_elem_of, list_elem_of_omap in Hl as (q & Hq & Hvq).
      rewrite Forall_forall in Hok.
      pose proof (vote_series _ _ _ _ _ _ _ (Hok r Hr) (Hok q Hq) Hv Hvq) as Hs.
      assert (r = q) as -> by (by apply (NoDup_map_inj series rs)). congruence.
    + apply last_None in Hl. exfalso. eapply (not_elem_of_nil true). rewrite <- Hl.
      apply list_elem_of_omap. naive_solver.
Qed.

(** ** Knowledge in terms of versions *)

Lemma filter_candidate inclusive cutoff key rs :
  List.filter (candidate inclusive cutoff key) rs
  = List.filter (eligible inclusive cutoff) (history_of key rs).
Proof.
  unfold history_of, candidate. induction rs as [|r rs IH]; simpl; [done|].
  destruct (in_series key r); simpl; [|done]. by rewrite IH.
Qed.

Lemma latest_version inclusive cutoff rs r :
  (forall key, lineage (history_of key rs)) ->
  latest_revisions inclusive cutoff rs !! series r = Some r <->
  r ∈ rs /\ eligible inclusive cutoff r = true /\
  forall q, q ∈ rs -> series q = series r -> eligible inclusive cutoff q = true ->
    version q <= version r.
Proof.
  intros Hlin. rewrite latest_lookup, filter_candidate, last_filter_Some. split.
  - intros (i & Hi & He & Hlast).
    apply list_elem_of_lookup_2 in Hi as Hin. apply elem_of_history in Hin as [Hin _].
    split; [done|]. split; [done|]. intros q Hq Hs Heq.
    assert (q ∈ history_of (series r) rs) as [j Hj]%list_elem_of_lookup_1
      by (by apply elem_of_history).
    rewrite (lineage_version _ _ _ (Hlin _) Hi), (lineage_version _ _ _ (Hlin _) Hj).
    destruct (decide (i < j)%nat) as [Hlt|]; [|lia].
    by rewrite (Hlast j q Hlt Hj) in Heq.
  - intros (Hin & He & Hmax).
    assert (r ∈ history_of (series r) rs) as [i Hi]%list_elem_of_lookup_1
      by (by apply elem_of_history).
    exists i. split; [done|]. split; [done|]. intros j q Hlt Hj.
    apply list_elem_of_lookup_2 in Hj as Hq. apply elem_of_history in Hq as [Hq Hs].
    destruct (eligible inclusive cutoff q) eqn:Heq; [|done].
    specialize (Hmax q Hq Hs Heq).
    rewrite (lineage_version _ _ _ (Hlin _) Hi), (lineage_version _ _ _ (Hlin _) Hj) in Hmax.
    lia.
Qed.

Lemma eligible_inclusive cutoff r : eligible true cutoff r = true <-> available_at_ns r <= cutoff.
Proof. unfold eligible. lia. Qed.

Lemma as_known_at_ok s ts :
  0 < ts -> as_known_at s ts = Ok (snapshot_of true ts (records s)).
Proof.
  intros H. unfold as_known_at, snapshot, validate_timestamp.
  by rewrite raise_when_false by lia.
Qed.

(** Appending only records that become available after [ts]. *)
Lemma extend_records rs s s' o :
  store_inv s -> extend rs s = (s', o) ->
  store_inv s' /\ exists l, records s' = records s ++ l /\ l `sublist_of` rs.
Proof.
  revert s s' o. induction rs as [|r rs IH]; intros s s' o Hinv; simpl.
  - intros [= <- <-]. split; [done|]. exists []. by rewrite app_nil_r.
  - unfold st_bind. rewrite append_eq by done.
    destruct (admissible (capacity s) (records s) r) as [[]|e] eqn:E.
    + intros H. destruct (IH _ _ _ (appended_inv s r Hinv E) H) as (Hinv' & l & Hl & Hsub).
      split; [done|]. exists (r :: l). simpl in Hl. rewrite <- app_assoc in Hl.
      split; [done|]. by apply sublist_skip.
    + intros [= <- <-]. split; [done|]. exists []. rewrite app_nil_r.
      split; [done|]. apply sublist_nil_l.
Qed.

(** ** Sample records *)

Definition sample_source : DataSource :=
  {| ds_source_id := str "fred"; ds_kind := OFFICIAL_PRIMARY; ds_provider := str "FRED";
     ds_document_id := str "release"; ds_content_sha256 := repeat 7 32;
     ds_authenticated := true |}.

Definition always : ValidityInterval := {| vi_from := 1; vi_to := None |}.

Definition sample_record (id : string) (p : RecordPayload)
    (ver published processed revised : Z) : PointInTimeRecord :=
  {| record_id := str id; logical_key := payload_logical_key p; kind := payload_kind p;
     event_time_ns := 5; publication_time_ns := published; receive_time_ns := published;
     processing_time_ns := processed; revision_time_ns := revised; validity := always;
     source := sample_source; version := ver; payload := p;
     schema_version := POINT_IN_TIME_SCHEMA_VERSION |}.

Definition cpi (value : Z) : RecordPayload :=
  PMacroVintage {| mv_series_id := str "CPI"; mv_reference_period := str "2026-01";
                   mv_value := value; mv_unit := str "index" |}.
Definition member (index instrument : string) (included : bool) : RecordPayload :=
  PIndexMembership {| im_index_id := str index; im_instrument_id := str instrument;
                      im_included := included |}.

Definition cpi_first := sample_record "cpi-1" (cpi 300) 1 10 12 10.
Definition cpi_second := sample_record "cpi-2" (cpi 301) 2 20 25 20.
Definition spx_abc := sample_record "m-1" (member "SPX" "ABC" true) 1 10 11 10.
Definition spx_abc_out := sample_record "m-2" (member "SPX" "ABC" false) 2 30 31 30.

Lemma sample_ok (id : string) p ver published processed revised :
  PointInTimeRecord_post_init (sample_record id p ver published processed revised) = Ok tt ->
  payload_post_init p = Ok tt ->
  record_ok (sample_record id p ver published processed revised).
Proof.
  intros H1 H2. split; [done|]. split; [reflexivity|]. split; [reflexivity|].
  split; [done|]. repeat (apply Forall_cons; split; [lia|]). apply Forall_nil_2.
Qed.

Definition after_append (r : PointInTimeRecord) (s : PointInTimeStore) : PointInTimeStore :=
  (append r s).1.

Lemma reachable_after cap r s : reachable cap s -> reachable cap (after_append r s).
Proof. intros H. eapply reach_append; [exact H | apply surjective_pairing]. Qed.

Definition sample_store : PointInTimeStore :=
  after_append cpi_second (after_append spx_abc (after_append cpi_first
    {| capacity := 10; records := []; by_id := ∅; by_series := ∅ |})).

Lemma sample_reachable : reachable 10 sample_store.
Proof. do 3 apply reachable_after. apply reach_new. reflexivity. Qed.

Lemma sample_records : records sample_store = [cpi_first; spx_abc; cpi_second].
Proof. vm_compute. reflexivity. Qed.

(** ** Properties *)

(** C1: every store reachable from an empty one by any sequence of [append]
    calls, successful or not, keeps its invariant: the number of records stays
    within the capacity it was created with, record identifiers are unique, the
    identifier index and the series index describe exactly the record list, and
    each series has contiguous versions from one, strictly increasing revision
    times, and corrections linked to the revision before them. *)
Theorem store_reachable_invariant cap s :
  reachable cap s -> store_inv s /\ capacity s = cap.
Proof.
  intros H. split; [by eapply reachable_inv | by apply reachable_capacity].
Qed.

Lemma store_reachable_invariant_witness :
  length (records sample_store) = 3%nat /\ store_inv sample_store /\ capacity sample_store = 10.
Proof.
  split; [vm_compute; reflexivity|].
  apply (store_reachable_invariant 10 sample_store). apply sample_reachable.
Defined.

(** C2: on a store that satisfies its invariant, [append] is exactly the
    extension of an append-only list: it succeeds if and only if the
    specification [admissible] allows the record (room left, fresh identifier, valid
    lineage), then the record list grows by that record at its end and the
    record can be looked up by its identifier and as the last revision of its
    series; otherwise it raises the specified exception and changes nothing. *)
Theorem append_refines_log s r :
  store_inv s ->
  exists s', append r s = (s', admissible (capacity s) (records s) r) /\ store_inv s' /\
  match admissible (capacity s) (records s) r with
  | Ok _ => records s' = records s ++ [r] /\
            record_by_id s' (record_id r) = Some r /\
            records_for s' (kind r) (logical_key r)
            = records_for s (kind r) (logical_key r) ++ [r]
  | Err _ => s' = s
  end.
Proof.
  intros Hinv. destruct (admissible (capacity s) (records s) r) as [[]|e] eqn:E.
  - exists (appended r s). rewrite append_eq, E by done.
    split; [done|]. split; [by apply appended_inv|]. split; [done|].
    unfold record_by_id, records_for. simpl.
    change (kind r, logical_key r) with (series r). rewrite !lookup_insert_eq.
    split; [done|]. simpl. rewrite (inv_series s Hinv).
    by destruct (history_of (series r) (records s)).
  - exists s. by rewrite append_eq, E.
Qed.

Lemma append_refines_log_witness :
  store_inv sample_store /\
  exists s', append spx_abc_out sample_store = (s', Ok tt) /\
    records s' = records sample_store ++ [spx_abc_out].
Proof.
  assert (Hinv : store_inv sample_store) by (eapply reachable_inv, sample_reachable).
  split; [exact Hinv|].
  destruct (append_refines_log sample_store spx_abc_out Hinv) as (s' & H & _ & H').
  exists s'.
  assert (E : admissible (capacity sample_store) (records sample_store) spx_abc_out = Ok tt)
    by (vm_compute; reflexivity).
  rewrite E in H, H'. split; [exact H | apply H'].
Defined.

(** C3: [as_known_at] returns exactly the current knowledge.  For a positive
    cutoff it never raises, lists at most one record per series in the order of
    kind and key, and holds precisely the records that were available at the
    cutoff and have the greatest version among the available records of their
    series. *)
Theorem as_known_at_is_latest_knowledge s ts :
  store_inv s -> 0 < ts ->
  exists known, as_known_at s ts = Ok known /\
    StronglySorted (fun a b => series_leb (series a) (series b) = true) known /\
    NoDup (map series known) /\
    forall r, r ∈ known <->
      r ∈ records s /\ available_at_ns r <= ts /\
      forall q, q ∈ records s -> series q = series r -> available_at_ns q <= ts ->
        version q <= version r.
Proof.
  intros Hinv Hts. exists (snapshot_of true ts (records s)).
  split; [by apply as_known_at_ok|]. split; [apply snapshot_sorted|].
  split; [apply snapshot_nodup|]. intros r.
  rewrite elem_of_snapshot, latest_version by apply (inv_lineage s Hinv).
  setoid_rewrite eligible_inclusive. done.
Qed.

Lemma as_known_at_is_latest_knowledge_witness :
  store_inv sample_store /\
  exists known, as_known_at sample_store 22 = Ok known /\ cpi_first ∈ known.
Proof.
  assert (Hinv : store_inv sample_store) by (eapply reachable_inv, sample_reachable).
  split; [exact Hinv|].
  destruct (as_known_at_is_latest_knowledge sample_store 22 Hinv) as (known & H & _ & _ & Hin);
    [lia|].
  exists known. split; [exact H|]. apply Hin. rewrite sample_records.
  split; [constructor|]. split; [vm_compute; discriminate|].
  intros q Hq Hs Ha.
  apply elem_of_cons in Hq as [-> | Hq]; [vm_compute; discriminate|].
  apply elem_of_cons in Hq as [-> | Hq]; [discriminate Hs|].
  apply list_elem_of_singleton in Hq as ->. vm_compute in Ha. contradiction (Ha eq_refl).
Defined.

(** C4: no look-ahead.  Whatever is appended later, accepted or rejected, as
    long as it becomes available only after the cutoff, every query at that
    cutoff gives the answer it gave before: the knowledge snapshot, index
    membership at any business time, symbol resolution and corporate-action
    history. *)
Theorem queries_ignore_later_knowledge s rs s' o cutoff :
  store_inv s -> extend rs s = (s', o) ->
  Forall (fun r => cutoff < available_at_ns r) rs ->
  as_known_at s' cutoff = as_known_at s cutoff /\
  (forall ts index_id,
     membership_at s' ts index_id (Some cutoff) = membership_at s ts index_id (Some cutoff)) /\
  (forall ts symbol,
     symbol_mapping_at s' ts symbol (Some cutoff) = symbol_mapping_at s ts symbol (Some cutoff)) /\
  (forall instrument_id,
     corporate_action_history s' instrument_id cutoff
     = corporate_action_history s instrument_id cutoff).
Proof.
  intros Hinv Hext Hlater.
  assert (H : as_known_at s' cutoff = as_known_at s cutoff).
  { destruct (extend_records _ _ _ _ Hinv Hext) as (_ & l & Hl & Hsub).
    unfold as_known_at, snapshot. rewrite Hl, snapshot_app_future; [done|].
    apply Forall_forall. intros r Hr. rewrite Forall_forall in Hlater.
    assert (cutoff < available_at_ns r) by (apply Hlater; by eapply elem_of_sublist).
    unfold eligible. lia. }
  split; [exact H|]. unfold membership_at, symbol_mapping_at, corporate_action_history.
  simpl. by rewrite H.
Qed.

Lemma queries_ignore_later_knowledge_witness :
  extend [spx_abc_out] sample_store = (after_append spx_abc_out sample_store, Ok tt) /\
  as_known_at (after_append spx_abc_out sample_store) 25 = as_known_at sample_store 25.
Proof.
  assert (H : extend [spx_abc_out] sample_store
              = (after_append spx_abc_out sample_store, Ok tt)) by (vm_compute; reflexivity).
  split; [exact H|].
  apply (queries_ignore_later_knowledge sample_store [spx_abc_out] _ _ 25
           (reachable_inv _ _ sample_reachable) H).
  apply Forall_cons. split; [vm_compute; reflexivity | apply Forall_nil_2].
Defined.

(** Historical index membership.  At a positive knowledge cutoff the query
    never raises and lists, sorted and without repetition, exactly the
    instruments whose latest membership record known at the cutoff includes
    them in the index and is effective at the business time. *)
Theorem membership_at_is_known_membership s ts index_id cutoff :
  store_inv s -> Forall record_ok (records s) -> 0 < cutoff ->
  exists members, membership_at s ts index_id (Some cutoff) = Ok members /\
    NoDup members /\ StronglySorted (fun a b => pystr_leb a b = true) members /\
    forall x, x ∈ members <->
      exists r p, r ∈ records s /\ available_at_ns r <= cutoff /\
        (forall q, q ∈ records s -> series q = series r -> available_at_ns q <= cutoff ->
           version q <= version r) /\
        payload r = PIndexMembership p /\ im_index_id p = index_id /\
        im_instrument_id p = x /\ im_included p = true /\ contains (validity r) ts = true.
Proof.
  intros Hinv Hok Hcut.
  exists (members_of index_id ts (snapshot_of true cutoff (records s))).
  unfold membership_at. simpl. rewrite as_known_at_ok by done. split; [done|].
  unfold members_of. split; [rewrite py_sorted_perm; apply NoDup_elements|].
  split; [apply py_sorted_sorted, _|]. intros x.
  rewrite elem_of_py_sorted, elem_of_elements, membership_iff.
  - apply exist_proper. intros r.
    rewrite elem_of_snapshot, latest_version by apply (inv_lineage s Hinv).
    rewrite eligible_inclusive. setoid_rewrite eligible_inclusive.
    unfold vote. split.
    + intros [(Hr & Ha & Hmax) Hv]. destruct (payload r) as [| | |p| | | |] eqn:Hp; try done.
      case_match eqn:Hc; [|done]. injection Hv as Hv. bprop. exists p. by repeat split.
    + intros (p & Hr & Ha & Hmax & Hp & Hi & Hx & Hinc & Hc). split; [done|].
      rewrite Hp, Hi, Hx, Hinc, Hc, !bool_decide_eq_true_2 by done. done.
  - apply snapshot_nodup.
  - apply Forall_forall. intros r (_ & Hr & _)%elem_of_snapshot%latest_series.
    rewrite Forall_forall in Hok. by apply Hok.
Qed.

Lemma membership_at_is_known_membership_witness :
  exists members, membership_at sample_store 40 (str "SPX") (Some 25) = Ok members /\
    str "ABC" ∈ members.
Proof.
  destruct (membership_at_is_known_membership sample_store 40 (str "SPX") 25
              (reachable_inv _ _ sample_reachable)) as (members & H & _ & _ & Hin).
  - rewrite sample_records. repeat (apply Forall_cons; split; [apply sample_ok; vm_compute; reflexivity|]).
    apply Forall_nil_2.
  - lia.
  - exists members. split; [exact H|]. apply Hin. rewrite sample_records.
    exists spx_abc, {| im_index_id := str "SPX"; im_instrument_id := str "ABC";
                       im_included := true |}.
    split; [constructor; constructor|]. split; [vm_compute; discriminate|].
    split; [|repeat split; reflexivity]. intros q Hq Hs _.
    apply elem_of_cons in Hq as [-> | Hq]; [discriminate Hs|].
    apply elem_of_cons in Hq as [-> | Hq]; [vm_compute; discriminate|].
    apply list_elem_of_singleton in Hq as ->. discriminate Hs.
Defined.

(** The colon in a membership key is ambiguous.  Two different
    index/instrument pairs share one series, and the second is refused as a first
    revision. *)
Lemma membership_keys_collide :
  let first := sample_record "k-1" (member "A" "B:C" true) 1 10 11 10 in
  let second := sample_record "k-2" (member "A:B" "C" true) 1 20 21 20 in
  payload first <> payload second /\ series first = series second /\
  exists s, append first {| capacity := 10; records := []; by_id := ∅; by_series := ∅ |}
            = (s, Ok tt) /\
    snd (append second s)
    = Err (Exn ValueError "point-in-time record versions must be contiguous").
Proof.
  simpl. split; [by intros [=]|]. split; [vm_compute; reflexivity|].
  eexists. split; vm_compute; reflexivity.
Qed.
