(* ===== verification/PitPersist.v ===== *)
(** * The SQLite-backed point-in-time store

    Models [PersistentPointInTimeStore] of
    [python/research/aegis_mx_research/store.py].  The [records] table is a
    list of rows in insertion order; a transaction works on a copy that
    [COMMIT] installs and [ROLLBACK] drops; the statements the class executes
    are list functions with SQL's filtering and ordering.  Faults of the
    database, of the injected test hook and of the final directory sync are
    inputs of [append]. *)

From S2P Require Import Prelude PyText Json Sha256 PitTypes PitCodec PitStore.
Open Scope Z_scope.

(** ** Table, connection and opening *)

Record Row := {
  row_sequence : Z;
  row_record_id : pystr;
  row_kind : Z;
  row_logical_key : pystr;
  row_version : Z;
  row_event_time_ns : Z;
  row_revision_time_ns : Z;
  row_available_at_ns : Z;
  row_json : pybytes;
  row_sha256 : pybytes;
}.

Record PersistentStore := {
  p_capacity : Z;
  p_closed : bool;
  p_rows : list Row;              (* committed *)
  p_tx : option (list Row);       (* the open transaction's copy *)
}.

Definition SQLITE_APPLICATION_ID : Z := 1095587920.
Definition MINIMUM_DATABASE_BYTES : Z := 32768.
Definition PERSISTENT_STORE_SCHEMA_VERSION : pystr := str "1.0.0".

(** What [_validate_path] asks the file system. *)
Record PathState := {
  path_is_symlink : bool;
  parent_exists : bool;
  parent_is_symlink : bool;
  path_exists : bool;
  path_is_file : bool;
}.

Definition validate_path (p : PathState) : res unit :=
  do! raise_when (path_is_symlink p) PersistentStoreError
        "persistent store path cannot be a symlink" in
  do! raise_when (parent_exists p && parent_is_symlink p) PersistentStoreError
        "persistent store parent cannot be a symlink" in
  raise_when (path_exists p && negb (path_is_file p)) PersistentStoreError
    "persistent store path is not a regular file".

(** The database file as [_configure] and [_initialize_or_validate] see it. *)
Record DatabaseFile := {
  df_page_size : Z;
  df_application_id : Z;
  df_user_version : Z;
  df_has_tables : bool;
  df_quick_check : option string;
  df_schema_version : option pystr;
  df_rows : list Row;
}.

Definition configure (maximum_bytes : Z) (f : DatabaseFile) : res unit :=
  raise_when (maximum_bytes / df_page_size f <? 1) PersistentStoreError
    "persistent store page budget is empty".

Definition create_schema (f : DatabaseFile) : res DatabaseFile :=
  do! raise_when (df_has_tables f) DatabaseError "table metadata already exists" in
  Ok {| df_page_size := df_page_size f; df_application_id := SQLITE_APPLICATION_ID;
        df_user_version := 1; df_has_tables := true; df_quick_check := df_quick_check f;
        df_schema_version := Some PERSISTENT_STORE_SCHEMA_VERSION; df_rows := [] |}.

Definition initialize_or_validate (f : DatabaseFile) : res DatabaseFile :=
  do! raise_when (negb (df_application_id f =? 0)
                  && negb (df_application_id f =? SQLITE_APPLICATION_ID))
        PersistentStoreError "incompatible SQLite application identifier" in
  do! raise_when (negb (df_user_version f =? 0) && negb (df_user_version f =? 1))
        PersistentStoreError "unsupported persistent-store schema version" in
  let! f := if df_application_id f =? 0 then create_schema f else Ok f in
  do! raise_when (negb (bool_decide (df_quick_check f = Some "ok"%string)))
        PersistentStoreError "persistent store integrity check failed" in
  do! raise_when (negb (bool_decide
        (df_schema_version f = Some PERSISTENT_STORE_SCHEMA_VERSION)))
        PersistentStoreError "persistent store metadata is incompatible" in
  Ok f.

(** [__init__]: the path is checked before and after its parent is created.  The
    directory creation and the connection themselves are taken to succeed; their
    failures are the operating system's. *)
Definition open_store (capacity maximum_bytes : Z) (before_mkdir after_mkdir : PathState)
    (f : DatabaseFile) : res PersistentStore :=
  do! raise_when (capacity <=? 0) ValueError
        "point-in-time store capacity must be positive" in
  do! raise_when (maximum_bytes <? MINIMUM_DATABASE_BYTES) ValueError
        "persistent store maximum_bytes is too small" in
  do! validate_path before_mkdir in
  do! validate_path after_mkdir in
  let! f := try_except (do! configure maximum_bytes f in initialize_or_validate f)
              [OSError; DatabaseError; PersistentStoreError]
              (fun e => if issubclass (exn_cls e) PersistentStoreError then Err e
                        else raise PersistentStoreError
                               "persistent point-in-time store cannot be opened safely") in
  Ok {| p_capacity := capacity; p_closed := false; p_rows := df_rows f; p_tx := None |}.

(** ** Statements *)

(** Parameter binding of a Python integer. *)
Definition bind_int (n : Z) : res Z :=
  do! raise_when ((n <? - 2 ^ 63) || (2 ^ 63 - 1 <? n)) OverflowError
        "Python int too large to convert to SQLite INTEGER" in Ok n.

(** Parameter binding of text, which SQLite stores as UTF-8. *)
Definition bind_text (s : pystr) : res pystr := let! _ := utf8_encode s in Ok s.

(** [BINARY] collation compares the UTF-8 bytes of text. *)
Definition utf8_bytes (s : pystr) : pybytes :=
  match utf8_encode s with Ok b => b | Err _ => [] end.
Definition text_leb : pystr -> pystr -> bool := leb_on utf8_bytes pystr_leb.

Definition select_series (kind_value : Z) (key : pystr) (rows : list Row) : list Row :=
  List.filter (fun w => (row_kind w =? kind_value) && bool_decide (row_logical_key w = key)) rows.

(** [ORDER BY version DESC LIMIT 1] *)
Definition select_latest (kind_value : Z) (key : pystr) (rows : list Row) : option Row :=
  head (py_sorted (leb_on row_version (fun a b => b <=? a)) (select_series kind_value key rows)).

(** [INSERT INTO records]: binding, then the table's constraints. *)
Definition insert_row (w : Row) (rows : list Row) : res (list Row) :=
  let! _ := bind_int (row_version w) in
  let! _ := bind_int (row_event_time_ns w) in
  let! _ := bind_int (row_revision_time_ns w) in
  let! _ := bind_int (row_available_at_ns w) in
  do! raise_when (existsb (fun v => bool_decide (row_record_id v = row_record_id w)) rows)
        DatabaseError "UNIQUE constraint failed: records.record_id" in
  do! raise_when (existsb (fun v => (row_version v =? row_version w))
                    (select_series (row_kind w) (row_logical_key w) rows))
        DatabaseError "UNIQUE constraint failed: records.kind, records.logical_key, records.version" in
  do! raise_when (negb (Z.of_nat (length (row_sha256 w)) =? 32)) DatabaseError
        "CHECK constraint failed: length(record_sha256) = 32" in
  Ok (rows ++ [w]).

(** [AUTOINCREMENT] gives one more than the largest sequence used. *)
Definition next_sequence (rows : list Row) : Z :=
  1 + foldr (fun w m => Z.max (row_sequence w) m) 0 rows.

(** ** Operations *)

Definition visible (p : PersistentStore) : list Row := default (p_rows p) (p_tx p).

Definition set_tx (tx : option (list Row)) (p : PersistentStore) : PersistentStore :=
  {| p_capacity := p_capacity p; p_closed := p_closed p; p_rows := p_rows p; p_tx := tx |}.

Definition begin_tx (p : PersistentStore) : PersistentStore := set_tx (Some (p_rows p)) p.
Definition commit_tx (p : PersistentStore) : PersistentStore :=
  {| p_capacity := p_capacity p; p_closed := p_closed p; p_rows := visible p; p_tx := None |}.
(** [_rollback]: only inside a transaction. *)
Definition rollback (p : PersistentStore) : PersistentStore := set_tx None p.

Definition ensure_open (p : PersistentStore) : res unit :=
  raise_when (p_closed p) PersistentStoreError "persistent point-in-time store is closed".

(** What can go wrong while [append] runs: the database refusing a statement,
    the [fault_injector] hook raising, or the directory sync failing. *)
Record Faults := {
  fault_begin : option string;
  fault_before_insert : option exn;
  fault_insert : option string;
  fault_after_insert : option exn;
  fault_commit : option string;
  fault_sync : option exn;
}.
Definition no_faults : Faults :=
  {| fault_begin := None; fault_before_insert := None; fault_insert := None;
     fault_after_insert := None; fault_commit := None; fault_sync := None |}.

Definition database_fault {S} (f : option string) : M S unit :=
  match f with Some msg => st_raise (Exn DatabaseError msg) | None => st_ret tt end.
Definition hook {S} (f : option exn) : M S unit :=
  match f with Some e => st_raise e | None => st_ret tt end.

(** ["full" in str(error).lower()] *)
Fixpoint mentions (w s : pystr) : bool :=
  startswith w s || match s with [] => false | _ :: t => mentions w t end.
Definition mentions_full (msg : string) : bool := mentions (str "full") (lower (str msg)).

Definition row_of (seq : Z) (record : PointInTimeRecord) (encoded : pybytes) : Row :=
  {| row_sequence := seq; row_record_id := record_id record;
     row_kind := RecordKind_value (kind record); row_logical_key := logical_key record;
     row_version := version record; row_event_time_ns := event_time_ns record;
     row_revision_time_ns := revision_time_ns record;
     row_available_at_ns := available_at_ns record;
     row_json := encoded; row_sha256 := sha256 encoded |}.

(** The checks of [append] against the visible rows. *)
Definition check_row (cap : Z) (rows : list Row) (record : PointInTimeRecord) : res unit :=
  do! raise_when (cap <=? Z.of_nat (length rows)) OverflowError
        "point-in-time store capacity exhausted" in
  do! raise_when (existsb (fun w => bool_decide (row_record_id w = record_id record)) rows)
        ValueError "duplicate point-in-time record_id" in
  match select_latest (RecordKind_value (kind record)) (logical_key record) rows with
  | None =>
      do! raise_when (negb (version record =? 1)) ValueError
            "first point-in-time record version must be one" in
      validate_initial_link record
  | Some w =>
      let! previous := record_from_bytes (row_json w) in
      do! raise_when (negb (version record =? version previous + 1)) ValueError
            "point-in-time record versions must be contiguous" in
      do! raise_when (revision_time_ns record <=? revision_time_ns previous) ValueError
            "point-in-time revision time must increase" in
      validate_revision_link record previous
  end.

(** The statements of the [try] block. *)
Definition append_statements (record : PointInTimeRecord) (encoded : pybytes) (f : Faults)
    : M PersistentStore unit :=
  database_fault (fault_begin f) ;;~
  st_put begin_tx ;;~
  p <~ st_get id ;;
  st_lift (check_row (p_capacity p) (visible p) record) ;;~
  hook (fault_before_insert f) ;;~
  database_fault (fault_insert f) ;;~
  p <~ st_get id ;;
  rows <~ st_lift (insert_row (row_of (next_sequence (visible p)) record encoded) (visible p)) ;;
  st_put (set_tx (Some rows)) ;;~
  hook (fault_after_insert f) ;;~
  database_fault (fault_commit f) ;;~
  st_put commit_tx ;;~
  hook (fault_sync f).

(** Every handler rolls back; database errors are translated. *)
Definition append_handler (e : exn) : M PersistentStore unit :=
  st_put rollback ;;~
  if issubclass (exn_cls e) OverflowError || issubclass (exn_cls e) ValueError then st_raise e
  else if issubclass (exn_cls e) DatabaseError then
    if mentions_full (exn_msg e)
    then st_raise (Exn OverflowError "persistent point-in-time byte limit reached")
    else st_raise (Exn PersistentStoreError "persistent append failed")
  else st_raise e.

Definition append_row (record : PointInTimeRecord) (f : Faults) : M PersistentStore unit :=
  p <~ st_get id ;;
  st_lift (ensure_open p) ;;~
  encoded <~ st_lift (record_bytes record) ;;
  fun p => match append_statements record encoded f p with
           | (p', Ok u) => (p', Ok u)
           | (p', Err e) => append_handler e p'
           end.

Fixpoint extend_rows (rs : list PointInTimeRecord) : M PersistentStore unit :=
  match rs with
  | [] => st_ret tt
  | r :: t => append_row r no_faults ;;~ extend_rows t
  end.

(** [_decode_row] *)
Definition decode_row (w : Row) : res PointInTimeRecord :=
  do! raise_when (negb (bool_decide (sha256 (row_json w) = row_sha256 w)))
        PersistentStoreError "stored record hash does not match" in
  record_from_bytes (row_json w).

Definition length_rows (p : PersistentStore) : res Z :=
  do! ensure_open p in Ok (Z.of_nat (length (visible p))).

Definition row_by_id (p : PersistentStore) (i : pystr) : res (option PointInTimeRecord) :=
  do! ensure_open p in
  let! i := bind_text i in
  match List.find (fun w => bool_decide (row_record_id w = i)) (visible p) with
  | None => Ok None
  | Some w => let! r := decode_row w in Ok (Some r)
  end.

Definition rows_for (p : PersistentStore) (k : RecordKind) (key : pystr)
    : res (list PointInTimeRecord) :=
  do! ensure_open p in
  let! key := bind_text key in
  res_map decode_row
    (py_sorted (leb_on row_version Z.leb) (select_series (RecordKind_value k) key (visible p))).

(** A statement on a closed connection. *)
Definition connected (p : PersistentStore) : res unit :=
  raise_when (p_closed p) DatabaseError "Cannot operate on a closed database.".

Definition row_revision_leb : Row -> Row -> bool :=
  leb_on (fun w => (row_revision_time_ns w, (row_kind w, (row_logical_key w, row_version w))))
    (pair_leb Z.leb (pair_leb Z.leb (pair_leb text_leb Z.leb))).

Definition row_revisions_after (p : PersistentStore) (timestamp_ns : Z)
    : res (list PointInTimeRecord) :=
  do! validate_timestamp timestamp_ns in
  do! connected p in
  let! cutoff := bind_int timestamp_ns in
  res_map decode_row
    (py_sorted row_revision_leb
       (List.filter (fun w => cutoff <? row_revision_time_ns w) (visible p))).

Definition row_eligible (inclusive : bool) (cutoff : Z) (w : Row) : bool :=
  if inclusive then row_available_at_ns w <=? cutoff else row_available_at_ns w <? cutoff.

Definition same_partition (v w : Row) : bool :=
  (row_kind v =? row_kind w) && bool_decide (row_logical_key v = row_logical_key w).

(** [row_number() OVER (PARTITION BY kind, logical_key ORDER BY available_at_ns
    DESC, sequence DESC) = 1]: no row of the partition comes before it. *)
Definition ranked_first (rows : list Row) (w : Row) : bool :=
  forallb (fun v => negb (same_partition v w)
                    || pair_leb Z.leb Z.leb (row_available_at_ns v, row_sequence v)
                         (row_available_at_ns w, row_sequence w)) rows.

Definition row_series_leb : Row -> Row -> bool :=
  leb_on (fun w => (row_kind w, row_logical_key w)) (pair_leb Z.leb text_leb).

Definition select_snapshot (inclusive : bool) (cutoff : Z) (rows : list Row) : list Row :=
  let eligible := List.filter (row_eligible inclusive cutoff) rows in
  py_sorted row_series_leb (List.filter (ranked_first eligible) eligible).

(** [PersistentPointInTimeStore._snapshot] *)
Definition row_snapshot (p : PersistentStore) (timestamp_ns : Z) (inclusive : bool)
    : res (list PointInTimeRecord) :=
  do! validate_timestamp timestamp_ns in
  do! connected p in
  let! cutoff := bind_int timestamp_ns in
  res_map decode_row (select_snapshot inclusive cutoff (visible p)).

Definition rows_known_at (p : PersistentStore) (timestamp_ns : Z) := row_snapshot p timestamp_ns true.
Definition rows_available_before (p : PersistentStore) (timestamp_ns : Z) :=
  row_snapshot p timestamp_ns false.

Definition row_membership_at (p : PersistentStore) (timestamp_ns : Z) (index_id : pystr)
    (known_at_ns : option Z) : res (list pystr) :=
  let cutoff := default timestamp_ns known_at_ns in
  let! rs := rows_known_at p cutoff in
  Ok (members_of index_id timestamp_ns rs).

Definition row_symbol_mapping_at (p : PersistentStore) (timestamp_ns : Z) (symbol : pystr)
    (known_at_ns : option Z) : res (option SymbolMapping) :=
  let cutoff := default timestamp_ns known_at_ns in
  let! rs := rows_known_at p cutoff in
  Ok (find_mapping symbol timestamp_ns rs).

Definition row_corporate_action_history (p : PersistentStore) (instrument_id : pystr)
    (known_at_ns : Z) : res (list PointInTimeRecord) :=
  let! rs := rows_known_at p known_at_ns in
  Ok (List.filter (is_action_of instrument_id) rs).

Definition deterministic_hash (p : PersistentStore) : res pystr :=
  do! ensure_open p in
  Ok (sha256_hex (flat_map row_sha256 (py_sorted (leb_on row_sequence Z.leb) (visible p)))).

Definition close (p : PersistentStore) : PersistentStore :=
  {| p_capacity := p_capacity p; p_closed := true; p_rows := p_rows p; p_tx := None |}.

(** ** Rows that mirror a list of records *)

#[local] Opaque sha256 record_bytes record_from_bytes.

Definition in_int64 (n : Z) : Prop := - 2 ^ 63 <= n <= 2 ^ 63 - 1.

(** A valid record the database can hold: it has an encoding, and the integers
    kept in columns fit SQLite's 64-bit integers. *)
Definition storable (r : PointInTimeRecord) : Prop :=
  record_ok r /\ (exists b, record_bytes r = Ok b) /\
  in_int64 (version r) /\ in_int64 (event_time_ns r) /\
  in_int64 (revision_time_ns r) /\ in_int64 (available_at_ns r).

Definition bytes_of (r : PointInTimeRecord) : pybytes :=
  match record_bytes r with Ok b => b | Err _ => [] end.

Definition enc (ir : Z * PointInTimeRecord) : Row := row_of ir.1 ir.2 (bytes_of ir.2).

Definition number (rs : list PointInTimeRecord) : list (Z * PointInTimeRecord) :=
  imap (fun i r => (Z.of_nat i + 1, r)) rs.

(** The persistent store holds the records of the in-memory store, in order. *)
Record mirrors (p : PersistentStore) (s : PointInTimeStore) : Prop := {
  mir_open : p_closed p = false;
  mir_idle : p_tx p = None;
  mir_capacity : p_capacity p = capacity s;
  mir_rows : p_rows p = map enc (number (records s));
  mir_storable : Forall storable (records s);
  mir_inv : store_inv s;
}.

Lemma bytes_of_ok r : storable r -> record_bytes r = Ok (bytes_of r).
Proof. intros (_ & [b Hb] & _). unfold bytes_of. by rewrite Hb. Qed.

Lemma number_snoc rs r : number (rs ++ [r]) = number rs ++ [(Z.of_nat (length rs) + 1, r)].
Proof. unfold number. rewrite imap_app. simpl. by rewrite Nat.add_0_r. Qed.

Lemma map_snd_number rs : map snd (number rs) = rs.
Proof.
  induction rs as [|r rs IH] using rev_ind; [done|].
  by rewrite number_snoc, map_app, IH.
Qed.

Lemma length_number rs : length (number rs) = length rs.
Proof. apply length_imap. Qed.

Lemma elem_of_number rs i r :
  (i, r) ∈ number rs <-> exists n, i = Z.of_nat n + 1 /\ rs !! n = Some r.
Proof.
  unfold number. rewrite elem_of_lookup_imap. naive_solver.
Qed.

Lemma number_elem rs i r : (i, r) ∈ number rs -> r ∈ rs.
Proof. intros (n & _ & H)%elem_of_number. by apply list_elem_of_lookup_2 in H. Qed.

Lemma next_sequence_number rs : next_sequence (map enc (number rs)) = Z.of_nat (length rs) + 1.
Proof.
  unfold next_sequence.
  assert (H : forall l k, foldr (fun w m => Z.max (row_sequence w) m) k l
                 = Z.max k (foldr (fun w m => Z.max (row_sequence w) m) 0 l) \/ k < 0).
  { induction l as [|w l IH]; intros k; simpl; [lia|]. destruct (IH k); lia. }
  induction rs as [|r rs IH] using rev_ind; [done|].
  rewrite number_snoc, map_app, foldr_app, length_app. simpl.
  destruct (H (map enc (number rs)) (Z.max (Z.of_nat (length rs) + 1) 0)); lia.
Qed.

(** ** Decoding rows *)

Lemma decode_enc i r : storable r -> decode_row (enc (i, r)) = Ok r.
Proof.
  intros H. unfold decode_row. simpl. rewrite bool_decide_eq_true_2 by reflexivity. simpl.
  apply record_from_bytes_roundtrip; [apply H | by apply bytes_of_ok].
Qed.

Lemma decode_rows l :
  Forall storable (map snd l) -> res_map decode_row (map enc l) = Ok (map snd l).
Proof.
  induction l as [|[i r] l IH]; simpl; intros Hl; [done|].
  apply Forall_cons in Hl as [Hr Hl]. rewrite decode_enc by done. simpl.
  by rewrite IH.
Qed.

Lemma select_series_enc k key l :
  select_series (RecordKind_value k) key (map enc l)
  = map enc (List.filter (fun ir => in_series (k, key) ir.2) l).
Proof.
  unfold select_series. rewrite filter_map_comm. f_equal. apply filter_ext_elem.
  intros [i r] _. unfold in_series, series. simpl. apply eq_bool_prop_intro.
  rewrite andb_True, !bool_decide_spec, Is_true_true, Z.eqb_eq. split.
  - intros [?%(inj RecordKind_value) ?]. congruence.
  - intros [= <- <-]. done.
Qed.

Lemma map_snd_series key rs :
  map snd (List.filter (fun ir => in_series key ir.2) (number rs)) = history_of key rs.
Proof. by rewrite <- (filter_map_comm snd (in_series key)), map_snd_number. Qed.

(** ** [append] *)

Lemma lineage_sorted l : lineage l -> StronglySorted (fun a b => version a < version b) l.
Proof.
  intros Hl. apply strongly_sorted_lookup. intros i j p q Hij Hp Hq.
  rewrite (lineage_version _ _ _ Hl Hp), (lineage_version _ _ _ Hl Hq). lia.
Qed.

Lemma strongly_sorted_map_inv {A B} (f : A -> B) (R : B -> B -> Prop) (l : list A) :
  StronglySorted R (map f l) -> StronglySorted (fun x y => R (f x) (f y)) l.
Proof.
  induction l as [|x l IH]; simpl; [constructor|].
  intros [Hs Hx]%StronglySorted_inv. constructor; [auto|].
  apply Forall_forall. intros y Hy. rewrite Forall_forall in Hx.
  by apply Hx, list_elem_of_fmap_2.
Qed.

Lemma last_map {A B} (f : A -> B) l : last (map f l) = f <$> last l.
Proof. apply fmap_last. Qed.

Lemma select_latest_enc k key rs :
  lineage (history_of (k, key) rs) ->
  exists o, select_latest (RecordKind_value k) key (map enc (number rs)) = enc <$> o /\
    snd <$> o = last (history_of (k, key) rs) /\ forall ir, o = Some ir -> ir ∈ number rs.
Proof.
  intros Hlin. unfold select_latest. rewrite select_series_enc.
  set (l := List.filter (fun ir => in_series (k, key) ir.2) (number rs)).
  assert (Hs : map snd l = history_of (k, key) rs) by apply map_snd_series.
  rewrite head_sorted_desc.
  - exists (last l). rewrite last_map, <- Hs, last_map. split; [done|]. split; [done|].
    intros ir Hir%last_Some_elem_of. by apply elem_of_filter_b in Hir as [? _].
  - apply strongly_sorted_map. rewrite <- Hs in Hlin.
    apply lineage_sorted, strongly_sorted_map_inv in Hlin. exact Hlin.
Qed.

Lemma existsb_elem {A B} `{EqDecision B} (f : A -> B) b l :
  existsb (fun x => bool_decide (f x = b)) l = bool_decide (b ∈ map f l).
Proof.
  apply eq_bool_prop_intro. rewrite bool_decide_spec, existb_True, Exists_exists.
  setoid_rewrite bool_decide_spec. rewrite list_elem_of_fmap. naive_solver.
Qed.

(** The checks against rows are those of the specification. *)
Lemma check_row_admissible cap rs r :
  (forall key, lineage (history_of key rs)) -> Forall storable rs ->
  check_row cap (map enc (number rs)) r = admissible cap rs r.
Proof.
  intros Hlin Hst. unfold check_row, admissible. rewrite length_map, length_number.
  destruct (raise_when _ _ _); [|done]. simpl.
  rewrite (existsb_elem row_record_id), map_map.
  rewrite (map_ext _ (fun ir : Z * PointInTimeRecord => record_id ir.2)) by done.
  rewrite <- (map_map snd record_id), map_snd_number.
  destruct (raise_when _ _ _); [|done]. simpl.
  destruct (select_latest_enc (kind r) (logical_key r) rs (Hlin _)) as (o & -> & Ho & Hin).
  change (kind r, logical_key r) with (series r) in Ho. rewrite <- Ho.
  destruct o as [[i q]|]; simpl; [|done].
  specialize (Hin _ eq_refl). apply number_elem in Hin.
  rewrite Forall_forall in Hst. pose proof (Hst q Hin) as Hq.
  rewrite (record_from_bytes_roundtrip q) by (apply Hq || by apply bytes_of_ok). done.
Qed.

Lemma bind_int_ok n : in_int64 n -> bind_int n = Ok n.
Proof. unfold in_int64, bind_int. intros H. by rewrite raise_when_false by lia. Qed.

Lemma admissible_new_version cap rs r q :
  (forall key, lineage (history_of key rs)) -> admissible cap rs r = Ok tt ->
  q ∈ history_of (series r) rs -> version q <> version r.
Proof.
  intros Hlin (_ & _ & H)%admissible_ok [i Hi]%list_elem_of_lookup_1.
  rewrite (lineage_version _ _ _ (Hlin _) Hi). apply lookup_lt_Some in Hi as Hlt.
  destruct (last (history_of (series r) rs)) as [p|] eqn:Hl.
  - destruct H as [-> _]. rewrite last_lookup in Hl.
    rewrite (lineage_version _ _ _ (Hlin _) Hl). lia.
  - apply last_None in Hl. rewrite Hl in Hlt. simpl in Hlt. lia.
Qed.

Lemma insert_row_ok cap rs r :
  (forall key, lineage (history_of key rs)) -> admissible cap rs r = Ok tt -> storable r ->
  insert_row (row_of (Z.of_nat (length rs) + 1) r (bytes_of r)) (map enc (number rs))
  = Ok (map enc (number (rs ++ [r]))).
Proof.
  intros Hlin Ha (Hok & _ & H1 & H2 & H3 & H4). unfold insert_row. simpl.
  rewrite !bind_int_ok by done. simpl.
  rewrite (existsb_elem row_record_id), map_map.
  rewrite (map_ext _ (fun ir : Z * PointInTimeRecord => record_id ir.2)) by done.
  rewrite <- (map_map snd record_id), map_snd_number.
  pose proof (proj1 (admissible_ok cap rs r) Ha) as (_ & Hid & _).
  rewrite bool_decide_eq_false_2 by done. simpl.
  rewrite (raise_when_false (existsb _ _)); [simpl|].
  - rewrite length_sha256. simpl. by rewrite number_snoc, map_app.
  - apply not_true_iff_false. intros (w & Hw & Hv)%existsb_exists.
    rewrite select_series_enc in Hw. apply in_map_iff in Hw as ([i q] & <- & Hq).
    apply (in_map snd) in Hq. rewrite map_snd_series in Hq. simpl in *.
    apply list_elem_of_In in Hq.
    destruct (admissible_new_version cap rs r q Hlin Ha Hq). lia.
Qed.

Lemma visible_rows p s : mirrors p s -> visible p = map enc (number (records s)).
Proof. intros [_ Ht _ Hr _ _]. unfold visible. by rewrite Ht. Qed.

Lemma exn_admissible cap rs r e :
  admissible cap rs r = Err e -> exn_cls e = OverflowError \/ exn_cls e = ValueError.
Proof.
  unfold admissible, validate_initial_link, validate_revision_link, raise_when, raise.
  intros H. repeat (case_match; simpl in *); simplify_eq; auto.
Qed.

Lemma append_row_eq p s r :
  mirrors p s -> storable r ->
  append_row r no_faults p
  = match admissible (capacity s) (records s) r with
    | Ok _ => ({| p_capacity := p_capacity p; p_closed := false;
                  p_rows := map enc (number (records s ++ [r])); p_tx := None |}, Ok tt)
    | Err e => (p, Err e)
    end.
Proof.
  intros Hm Hst. pose proof Hm as [Hopen Hidle Hcap Hrows Hall Hinv].
  pose proof (inv_lineage s Hinv) as Hlin.
  unfold append_row, append_statements, st_bind, st_get, st_lift, st_put, st_ret, id,
    database_fault, hook, ensure_open. simpl.
  rewrite Hopen. simpl. rewrite bytes_of_ok by done.
  unfold begin_tx, set_tx, visible. simpl. rewrite Hrows, Hcap, check_row_admissible by done.
  destruct (admissible (capacity s) (records s) r) as [[]|e] eqn:E.
  - rewrite next_sequence_number, (insert_row_ok (capacity s)) by done.
    unfold commit_tx, visible. simpl. by rewrite Hopen.
  - unfold append_handler, st_bind, st_put, rollback, set_tx. simpl.
    destruct p. simpl in *. subst.
    destruct (exn_admissible _ _ _ _ E) as [Hc|Hc]; by rewrite Hc.
Qed.

Lemma mirrors_appended p s r :
  mirrors p s -> storable r -> admissible (capacity s) (records s) r = Ok tt ->
  mirrors {| p_capacity := p_capacity p; p_closed := false;
             p_rows := map enc (number (records s ++ [r])); p_tx := None |} (appended r s).
Proof.
  intros [Hopen Hidle Hcap Hrows Hall Hinv] Hst Ha. split; simpl; try done.
  - apply Forall_app. split; [done|]. by apply Forall_singleton.
  - by apply appended_inv.
Qed.

(** ** Queries *)

Lemma text_leb_ok a b x y :
  utf8_encode a = Ok x -> utf8_encode b = Ok y -> text_leb a b = pystr_leb a b.
Proof.
  intros Ha Hb. unfold text_leb, leb_on, utf8_bytes. rewrite Ha, Hb.
  by apply utf8_encode_order.
Qed.

Lemma storable_key r : storable r -> exists b, utf8_encode (logical_key r) = Ok b.
Proof.
  intros [[H _] _]. unfold PointInTimeRecord_post_init in H.
  apply rbind_ok in H as (? & _ & H). apply rbind_ok in H as (? & H & _).
  apply bounded_text_to_inv in H as (_ & _ & b & Hb & _). by exists b.
Qed.

Lemma text_leb_key r q :
  storable r -> storable q ->
  text_leb (logical_key r) (logical_key q) = pystr_leb (logical_key r) (logical_key q).
Proof.
  intros [x Hx]%storable_key [y Hy]%storable_key. by eapply text_leb_ok.
Qed.

Lemma decode_sublist rs l :
  Forall storable rs -> (forall ir, ir ∈ l -> ir ∈ number rs) ->
  res_map decode_row (map enc l) = Ok (map snd l).
Proof.
  intros Hst Hl. apply decode_rows. apply Forall_forall.
  intros r ([i q] & -> & Hq)%list_elem_of_fmap_1.
  rewrite Forall_forall in Hst. by eapply Hst, number_elem, Hl.
Qed.

Lemma connected_ok p s : mirrors p s -> connected p = Ok tt /\ ensure_open p = Ok tt.
Proof. intros [H _ _ _ _ _]. unfold connected, ensure_open. by rewrite H. Qed.

Lemma row_by_id_eq p s i b :
  mirrors p s -> utf8_encode i = Ok b -> row_by_id p i = Ok (record_by_id s i).
Proof.
  intros Hm Hi. unfold row_by_id, bind_text. rewrite (proj2 (connected_ok p s Hm)), Hi. simpl.
  rewrite (visible_rows p s Hm). pose proof Hm as [_ _ _ _ Hst Hinv].
  unfold record_by_id.
  destruct (List.find _ _) as [w|] eqn:E.
  - apply find_some in E as [Hw Hid]. apply in_map_iff in Hw as ([n r] & <- & Hr).
    apply list_elem_of_In, number_elem in Hr. rewrite Forall_forall in Hst.
    rewrite decode_enc by auto. simpl in *. bprop. f_equal. symmetry.
    by apply (inv_by_id s Hinv).
  - destruct (by_id s !! i) as [r|] eqn:Hr; [|done].
    apply (inv_by_id s Hinv) in Hr as [[n Hr]%list_elem_of_lookup_1 Hid].
    assert (Hin : In (enc (Z.of_nat n + 1, r)) (map enc (number (records s)))).
    { apply in_map, list_elem_of_In, elem_of_number. by exists n. }
    apply (find_none _ _ E) in Hin. simpl in Hin. by bprop.
Qed.

Lemma rows_for_eq p s k key b :
  mirrors p s -> utf8_encode key = Ok b -> rows_for p k key = Ok (records_for s k key).
Proof.
  intros Hm Hi. unfold rows_for, bind_text. rewrite (proj2 (connected_ok p s Hm)), Hi. simpl.
  rewrite (visible_rows p s Hm). pose proof Hm as [_ _ _ _ Hst Hinv].
  rewrite select_series_enc, py_sorted_on.
  rewrite (decode_sublist (records s)); [|done|].
  - change (leb_on enc (leb_on row_version Z.leb)) 
      with (leb_on (@snd Z PointInTimeRecord) (leb_on version Z.leb)).
    rewrite <- (py_sorted_on snd), map_snd_series, py_sorted_id.
    + unfold records_for. rewrite (inv_series s Hinv). by destruct (history_of _ _).
    + eapply strongly_sorted_impl; [|apply lineage_sorted, (inv_lineage s Hinv)].
      unfold leb_on. simpl. lia.
  - intros ir. rewrite elem_of_py_sorted, elem_of_filter_b. by intros [? _].
Qed.

Lemma revision_leb_enc ir jq :
  storable ir.2 -> storable jq.2 ->
  row_revision_leb (enc ir) (enc jq) = revision_leb ir.2 jq.2.
Proof.
  intros Hi Hj. unfold row_revision_leb, revision_leb, leb_on, revision_key, pair_leb. simpl.
  by rewrite text_leb_key, (text_leb_key jq.2) by done.
Qed.

Lemma row_revisions_after_eq p s ts :
  mirrors p s -> in_int64 ts -> row_revisions_after p ts = revisions_after s ts.
Proof.
  intros Hm Hts. unfold row_revisions_after, revisions_after.
  destruct (validate_timestamp ts); [|done]. simpl.
  rewrite (proj1 (connected_ok p s Hm)), (visible_rows p s Hm), bind_int_ok by done. simpl.
  pose proof Hm as [_ _ _ _ Hst Hinv].
  rewrite filter_map_comm, py_sorted_on, (decode_sublist (records s)); [|done|].
  - f_equal. unfold revisions_of.
    set (l := List.filter _ (number (records s))).
    rewrite (py_sorted_ext _ (leb_on snd revision_leb)).
    + rewrite <- (py_sorted_on snd). f_equal. unfold l.
      rewrite <- (map_snd_number (records s)) at 2. by rewrite filter_map_comm.
    + intros [i r] [j q] [Hr%number_elem _]%elem_of_filter_b [Hq%number_elem _]%elem_of_filter_b.
      rewrite Forall_forall in Hst. by apply revision_leb_enc; apply Hst.
  - intros ir. rewrite elem_of_py_sorted, elem_of_filter_b. by intros [? _].
Qed.

Lemma row_hash_eq p s :
  mirrors p s ->
  deterministic_hash p = Ok (sha256_hex (flat_map (fun r => sha256 (bytes_of r)) (records s))).
Proof.
  intros Hm. unfold deterministic_hash. rewrite (proj2 (connected_ok p s Hm)). simpl.
  rewrite (visible_rows p s Hm), py_sorted_on, py_sorted_id.
  - do 2 f_equal. rewrite <- (map_snd_number (records s)) at 2.
    induction (number (records s)) as [|[i r] l IH]; simpl; [done|]. by rewrite IH.
  - apply strongly_sorted_lookup. intros i j [a r] [b q] Hij Hi Hj.
    unfold number in Hi, Hj. rewrite list_lookup_imap in Hi, Hj.
    destruct (records s !! i), (records s !! j); simpl in *; simplify_eq.
    unfold leb_on. simpl. lia.
Qed.

(** ** Snapshots *)

(** Along each series, later revisions do not become available earlier. *)
Definition available_in_order (rs : list PointInTimeRecord) : Prop :=
  forall i j p q, (i < j)%nat -> rs !! i = Some p -> rs !! j = Some q ->
    series p = series q -> available_at_ns p <= available_at_ns q.

Lemma row_eligible_enc inclusive cutoff ir :
  row_eligible inclusive cutoff (enc ir) = eligible inclusive cutoff ir.2.
Proof. unfold row_eligible, eligible. destruct inclusive; simpl; lia. Qed.

Lemma same_partition_enc ir jq :
  same_partition (enc ir) (enc jq) = bool_decide (series ir.2 = series jq.2).
Proof.
  unfold same_partition, series. simpl. apply eq_bool_prop_intro.
  rewrite andb_True, !bool_decide_spec, Is_true_true, Z.eqb_eq. split.
  - intros [?%(inj RecordKind_value) ?]. congruence.
  - intros [= -> ->]. done.
Qed.

Definition eligible_rows inclusive cutoff rs :=
  List.filter (fun ir => eligible inclusive cutoff ir.2) (number rs).

(** The window function's choice, in order, is the last eligible revision. *)
Lemma ranked_first_latest inclusive cutoff rs n r :
  available_in_order rs -> rs !! n = Some r -> eligible inclusive cutoff r = true ->
  ranked_first (map enc (eligible_rows inclusive cutoff rs)) (enc (Z.of_nat n + 1, r)) = true
  <-> forall j q, (n < j)%nat -> rs !! j = Some q -> candidate inclusive cutoff (series r) q = false.
Proof.
  intros Hord Hn He. unfold ranked_first. rewrite forallb_forall. split.
  - intros H j q Hlt Hj. unfold candidate, in_series.
    destruct (decide (series q = series r)) as [Hs|]; [|by rewrite bool_decide_eq_false_2].
    destruct (eligible inclusive cutoff q) eqn:Eq; [|by rewrite andb_false_r].
    assert (Hin : In (enc (Z.of_nat j + 1, q)) (map enc (eligible_rows inclusive cutoff rs))).
    { apply in_map, list_elem_of_In, elem_of_filter_b. split; [|done].
      apply elem_of_number. by exists j. }
    apply H in Hin. rewrite same_partition_enc in Hin. simpl in Hin.
    rewrite bool_decide_eq_true_2 in Hin by done.
    pose proof (Hord n j r q Hlt Hn Hj (eq_sym Hs)). unfold pair_leb in Hin. simpl in Hin. lia.
  - intros H w ([m q] & <- & Hin)%in_map_iff.
    apply list_elem_of_In, elem_of_filter_b in Hin as [(j & -> & Hj)%elem_of_number Eq].
    rewrite same_partition_enc. simpl.
    destruct (decide (series q = series r)) as [Hs|]; [|by rewrite bool_decide_eq_false_2].
    rewrite bool_decide_eq_true_2 by done. unfold pair_leb. simpl.
    destruct (decide (n < j)%nat) as [Hlt|Hge].
    + specialize (H j q Hlt Hj). unfold candidate, in_series in H.
      rewrite bool_decide_eq_true_2 in H by done. simpl in *. congruence.
    + destruct (decide (j = n)) as [->|]; [simplify_eq; lia|].
      pose proof (Hord j n q r ltac:(lia) Hj Hn Hs). lia.
Qed.

Definition chosen_rows inclusive cutoff rs : list (Z * PointInTimeRecord) :=
  py_sorted (leb_on enc row_series_leb)
    (List.filter (fun ir => ranked_first (map enc (eligible_rows inclusive cutoff rs)) (enc ir))
       (eligible_rows inclusive cutoff rs)).

Lemma select_snapshot_enc inclusive cutoff rs :
  select_snapshot inclusive cutoff (map enc (number rs)) = map enc (chosen_rows inclusive cutoff rs).
Proof.
  unfold select_snapshot, chosen_rows, eligible_rows. rewrite filter_map_comm.
  rewrite (filter_ext_elem _ (fun ir => eligible inclusive cutoff ir.2))
    by (intros; apply row_eligible_enc).
  by rewrite filter_map_comm, py_sorted_on.
Qed.

Lemma chosen_rows_elem inclusive cutoff rs ir :
  ir ∈ chosen_rows inclusive cutoff rs <->
  ir ∈ number rs /\ eligible inclusive cutoff ir.2 = true /\
  ranked_first (map enc (eligible_rows inclusive cutoff rs)) (enc ir) = true.
Proof.
  unfold chosen_rows. rewrite elem_of_py_sorted, elem_of_filter_b.
  unfold eligible_rows at 1. rewrite elem_of_filter_b. tauto.
Qed.

Lemma chosen_rows_latest inclusive cutoff rs r :
  available_in_order rs ->
  r ∈ map snd (chosen_rows inclusive cutoff rs) <->
  latest_revisions inclusive cutoff rs !! series r = Some r.
Proof.
  intros Hord. rewrite latest_lookup, last_filter_Some, list_elem_of_fmap. split.
  - intros ([i q] & -> & Hq). apply chosen_rows_elem in Hq as (Hq & He & Hr).
    apply elem_of_number in Hq as (n & -> & Hn). simpl in *. exists n. split; [done|].
    unfold candidate at 1, in_series. rewrite bool_decide_eq_true_2, He by done. split; [done|].
    by apply ranked_first_latest.
  - intros (n & Hn & Hc & Hl). exists (Z.of_nat n + 1, r). split; [done|].
    unfold candidate in Hc. bprop. apply chosen_rows_elem. split; [apply elem_of_number; eauto|].
    split; [done|]. by apply ranked_first_latest.
Qed.

Lemma NoDup_number rs : NoDup (number rs).
Proof.
  apply NoDup_alt. intros i j [a r] Hi Hj. unfold number in Hi, Hj.
  rewrite list_lookup_imap in Hi, Hj.
  destruct (rs !! i), (rs !! j); simpl in *; simplify_eq. lia.
Qed.

Lemma NoDup_filter_b {A} (f : A -> bool) l : NoDup l -> NoDup (List.filter f l).
Proof. rewrite !NoDup_ListNoDup. apply List.NoDup_filter. Qed.

Lemma chosen_rows_nodup inclusive cutoff rs :
  NoDup (map record_id rs) -> NoDup (map snd (chosen_rows inclusive cutoff rs)).
Proof.
  intros Hid. apply NoDup_fmap_2_strong.
  - intros [i r] [j q] Hi Hj Hrq. simpl in Hrq. subst q.
    apply chosen_rows_elem in Hi as [(n & -> & Hn)%elem_of_number _].
    apply chosen_rows_elem in Hj as [(m & -> & Hm)%elem_of_number _].
    apply NoDup_fmap_1 in Hid. by rewrite (NoDup_lookup _ _ _ _ Hid Hn Hm).
  - unfold chosen_rows. rewrite py_sorted_perm. do 2 apply NoDup_filter_b. apply NoDup_number.
Qed.

#[export] Instance row_series_preorder : PreorderB row_series_leb.
Proof.
  unfold row_series_leb. apply leb_on_preorder. unfold text_leb.
  change (PreorderB (leb_on (fun kv : Z * pystr => (kv.1, utf8_bytes kv.2))
            (pair_leb Z.leb pystr_leb))). apply _.
Qed.

Lemma chosen_rows_sorted inclusive cutoff rs :
  Forall storable rs ->
  StronglySorted (fun a b => series_leb (series a) (series b) = true)
    (map snd (chosen_rows inclusive cutoff rs)).
Proof.
  intros Hst. apply strongly_sorted_map.
  pose proof (py_sorted_sorted (leb_on enc row_series_leb)
    (List.filter (fun ir => ranked_first (map enc (eligible_rows inclusive cutoff rs)) (enc ir))
       (eligible_rows inclusive cutoff rs))) as Hs. fold (chosen_rows inclusive cutoff rs) in Hs.
  assert (Hin : forall ir, ir ∈ chosen_rows inclusive cutoff rs -> storable ir.2).
  { intros [i r] [Hr%number_elem _]%chosen_rows_elem. rewrite Forall_forall in Hst. auto. }
  induction Hs as [|x l _ IH Hx]; constructor; [apply IH; set_solver|].
  rewrite Forall_forall in Hx |- *. intros y Hy.
  specialize (Hx y Hy). unfold leb_on, row_series_leb in Hx. simpl in Hx.
  unfold series_leb, leb_on, series. simpl.
  unfold leb_on, pair_leb in *. simpl in *. rewrite text_leb_key in Hx by (apply Hin; set_solver).
  exact Hx.
Qed.

Lemma row_snapshot_eq p s ts inclusive :
  mirrors p s -> available_in_order (records s) -> in_int64 ts ->
  row_snapshot p ts inclusive = snapshot s ts inclusive.
Proof.
  intros Hm Hord Hts. unfold row_snapshot, snapshot.
  destruct (validate_timestamp ts); [|done]. simpl.
  rewrite (proj1 (connected_ok p s Hm)), (visible_rows p s Hm), bind_int_ok by done. simpl.
  pose proof Hm as [_ _ _ _ Hst Hinv].
  rewrite select_snapshot_enc, (decode_sublist (records s)); [|done|].
  - f_equal. apply snapshot_unique.
    + apply chosen_rows_nodup, (inv_ids s Hinv).
    + by apply chosen_rows_sorted.
    + intros r. by apply chosen_rows_latest.
  - by intros ir [? _]%chosen_rows_elem.
Qed.

(** ** Faults *)

Lemma append_handler_fails e p :
  exists e', append_handler e p = (rollback p, Err e').
Proof.
  unfold append_handler, st_bind, st_put, st_raise.
  repeat case_match; eauto.
Qed.

Definition with_rows (rows : list Row) (p : PersistentStore) : PersistentStore :=
  {| p_capacity := p_capacity p; p_closed := p_closed p; p_rows := rows; p_tx := None |}.

(** A step failed before the [COMMIT]. *)
Ltac before_commit := simpl in *; simplify_eq; left; split; [reflexivity | by eexists].

(** The statements leave the committed rows alone until the [COMMIT]. *)
Lemma append_statements_cases r b f p p' o :
  append_statements r b f p = (p', o) -> p_tx p = None ->
  (rollback p' = with_rows (p_rows p) p /\ exists e, o = Err e) \/
  (p' = with_rows (p_rows p ++ [row_of (next_sequence (p_rows p)) r b]) p /\
   (o = Ok tt \/ exists e, fault_sync f = Some e /\ o = Err e)).
Proof.
  intros H Htx.
  unfold append_statements, st_bind, st_get, st_lift, st_put, st_ret, id, database_fault, hook,
    st_raise, begin_tx, commit_tx, set_tx, visible in H. simpl in H.
  destruct (fault_begin f); [before_commit|]. simpl in H.
  destruct (check_row _ _ _) as [[]|e]; [|before_commit]. simpl in H.
  destruct (fault_before_insert f); [before_commit|]. simpl in H.
  destruct (fault_insert f); [before_commit|]. simpl in H.
  destruct (insert_row _ _) as [rows|e] eqn:Hins; [|before_commit]. simpl in H.
  destruct (fault_after_insert f); [before_commit|]. simpl in H.
  destruct (fault_commit f); [before_commit|]. simpl in H.
  unfold insert_row in Hins. apply rbind_ok in Hins as (? & _ & Hins).
  do 3 (apply rbind_ok in Hins as (? & _ & Hins)). inv_ok.
  right. destruct (fault_sync f); unfold st_ret, st_raise in H; simplify_eq;
    (split; [reflexivity | eauto]).
Qed.

(** ** Opening *)

(** A file this class may use: a blank database, or one it created before whose
    integrity check passes. *)
Definition usable (f : DatabaseFile) : Prop :=
  df_quick_check f = Some "ok"%string /\
  ((df_application_id f = 0 /\ df_has_tables f = false /\
    (df_user_version f = 0 \/ df_user_version f = 1)) \/
   (df_application_id f = SQLITE_APPLICATION_ID /\
    (df_user_version f = 0 \/ df_user_version f = 1) /\
    df_schema_version f = Some PERSISTENT_STORE_SCHEMA_VERSION)).

Definition path_safe (ps : PathState) : Prop :=
  path_is_symlink ps = false /\ parent_exists ps && parent_is_symlink ps = false /\
  path_exists ps && negb (path_is_file ps) = false.

Definition initial_rows (f : DatabaseFile) : list Row :=
  if df_application_id f =? 0 then [] else df_rows f.

Lemma validate_path_ok ps u : validate_path ps = Ok u <-> path_safe ps.
Proof.
  destruct u. unfold validate_path, path_safe. split.
  - intros H. by inv_ok.
  - intros (-> & -> & ->). done.
Qed.

Lemma initialize_ok f f' :
  initialize_or_validate f = Ok f' -> usable f /\ df_rows f' = initial_rows f.
Proof.
  unfold initialize_or_validate, initial_rows, usable. intros H.
  destruct (df_application_id f =? 0) eqn:E; unfold create_schema in *; inv_ok; simpl in *;
    bprop; (split; [|done]); (split; [done|]); [left|right]; repeat split; try done; lia.
Qed.

Lemma initialize_usable f :
  usable f -> exists f', initialize_or_validate f = Ok f' /\ df_rows f' = initial_rows f.
Proof.
  unfold initialize_or_validate, initial_rows, usable.
  intros [Hq [(Ha & Ht & Hu) | (Ha & Hu & Hv)]]; rewrite Ha; simpl.
  - rewrite (raise_when_false (_ && _)) by lia. simpl. unfold create_schema. rewrite Ht. simpl.
    rewrite Hq, bool_decide_eq_true_2 by done. simpl. eexists. by split.
  - rewrite (raise_when_false (_ && _)) by lia. simpl.
    rewrite Hq, Hv, !bool_decide_eq_true_2 by done. simpl. by exists f.
Qed.

(** ** Sample: two revisions processed out of order *)

Definition vintage_first := sample_record "v-1" (cpi 300) 1 10 100 10.
Definition vintage_second := sample_record "v-2" (cpi 301) 2 20 50 20.

Definition empty_memory (cap : Z) : PointInTimeStore :=
  {| capacity := cap; records := []; by_id := ∅; by_series := ∅ |}.
Definition empty_rows (cap : Z) : PersistentStore :=
  {| p_capacity := cap; p_closed := false; p_rows := []; p_tx := None |}.

Lemma mirrors_empty cap : 0 < cap -> mirrors (empty_rows cap) (empty_memory cap).
Proof.
  intros H. split; try done. apply (new_store_inv cap).
  unfold new_store. by rewrite raise_when_false by lia.
Qed.

Lemma sample_storable (id : string) p ver published processed revised :
  PointInTimeRecord_post_init (sample_record id p ver published processed revised) = Ok tt ->
  payload_post_init p = Ok tt ->
  match record_bytes (sample_record id p ver published processed revised) with
  | Ok _ => True | Err _ => False end ->
  in_int64 ver -> in_int64 revised -> in_int64 (Z.max processed revised) ->
  storable (sample_record id p ver published processed revised).
Proof.
  intros H1 H2 H3 H4 H5 H6. split; [by apply sample_ok|].
  split; [|unfold available_at_ns, in_int64 in *; simpl; lia].
  destruct (record_bytes _) as [b|]; [by exists b | done].
Qed.

#[local] Transparent sha256 record_bytes record_from_bytes.

Ltac in_range := unfold in_int64; simpl; lia.

Lemma vintage_first_storable : storable vintage_first.
Proof. apply sample_storable; [reflexivity | reflexivity | vm_compute; exact I | in_range..]. Qed.
Lemma vintage_second_storable : storable vintage_second.
Proof. apply sample_storable; [reflexivity | reflexivity | vm_compute; exact I | in_range..]. Qed.
Lemma cpi_second_storable : storable cpi_second.
Proof. apply sample_storable; [reflexivity | reflexivity | vm_compute; exact I | in_range..]. Qed.

(** The two stores after the same successful [append]. *)
Lemma mirrors_step p s r :
  mirrors p s -> storable r -> admissible (capacity s) (records s) r = Ok tt ->
  exists p' s', append_row r no_faults p = (p', Ok tt) /\ append r s = (s', Ok tt) /\
    mirrors p' s' /\ records s' = records s ++ [r].
Proof.
  intros Hm Hst Ha. eexists _, _. rewrite (append_row_eq p s), append_eq, Ha by (done || apply Hm).
  split; [done|]. split; [done|]. split; [by apply mirrors_appended | done].
Qed.

(** ** Properties *)

(** C6: the persistent [append] implements the in-memory one.  From stores that
    hold the same records, appending a valid record whose integers fit SQLite's
    columns gives the same outcome in both, success or the same exception with
    the same message, and the stores again hold the same records. *)
Theorem persistent_append_refines_memory p s r :
  mirrors p s -> storable r ->
  exists p' s' o, append_row r no_faults p = (p', o) /\ append r s = (s', o) /\ mirrors p' s'.
Proof.
  intros Hm Hst. pose proof (append_row_eq p s r Hm Hst) as Hp.
  pose proof (append_eq s r (mir_inv p s Hm)) as Hs.
  destruct (admissible (capacity s) (records s) r) as [[]|e] eqn:Ha.
  - eexists _, _, _. split; [exact Hp|]. split; [exact Hs|]. by apply mirrors_appended.
  - by exists p, s, (Err e).
Qed.

Lemma persistent_append_refines_memory_witness :
  exists p' s' o, append_row vintage_first no_faults (empty_rows 5) = (p', o) /\
    append vintage_first (empty_memory 5) = (s', o) /\ mirrors p' s'.
Proof.
  apply (persistent_append_refines_memory (empty_rows 5) (empty_memory 5) vintage_first).
  - apply mirrors_empty. lia.
  - apply vintage_first_storable.
Defined.

(** The persistent lookups answer like the in-memory ones.  On stores that
    hold the same records, counting, lookup by identifier, the history of a
    series and the revisions after a cutoff agree, in content and order (SQLite
    compares UTF-8 bytes, Python code points), and the deterministic hash is a
    function of the record sequence. *)
Theorem persistent_queries_refine_memory p s :
  mirrors p s ->
  length_rows p = Ok (Z.of_nat (length (records s))) /\
  (forall i b, utf8_encode i = Ok b -> row_by_id p i = Ok (record_by_id s i)) /\
  (forall k key b, utf8_encode key = Ok b -> rows_for p k key = Ok (records_for s k key)) /\
  (forall ts, in_int64 ts -> row_revisions_after p ts = revisions_after s ts) /\
  deterministic_hash p
  = Ok (sha256_hex (flat_map (fun r => sha256 (bytes_of r)) (records s))).
Proof.
  intros Hm. split; [|split; [|split; [|split]]].
  - unfold length_rows. rewrite (proj2 (connected_ok p s Hm)), (visible_rows p s Hm). simpl.
    by rewrite length_map, length_number.
  - intros. by eapply row_by_id_eq.
  - intros. by eapply rows_for_eq.
  - intros. by apply row_revisions_after_eq.
  - by apply row_hash_eq.
Qed.

Lemma persistent_queries_refine_memory_witness :
  exists p s, mirrors p s /\ row_by_id p (str "v-1") = Ok (Some vintage_first).
Proof.
  destruct (mirrors_step (empty_rows 5) (empty_memory 5) vintage_first)
    as (p & s & _ & _ & Hm & Hr); [apply mirrors_empty; lia | apply vintage_first_storable
      | vm_compute; reflexivity |].
  exists p, s. split; [exact Hm|].
  destruct (persistent_queries_refine_memory p s Hm) as (_ & Hid & _).
  rewrite (Hid (str "v-1") (str "v-1") eq_refl). f_equal.
  apply (inv_by_id s (mir_inv p s Hm)). rewrite Hr. split; [constructor | reflexivity].
Defined.

(** The persistent knowledge queries answer like the in-memory ones as long
    as, along each series, no later revision became available before an earlier
    one: snapshots, index membership, symbol resolution and corporate actions
    are then equal at every cutoff that fits a 64-bit integer. *)
Theorem persistent_snapshots_agree_in_order p s cutoff :
  mirrors p s -> available_in_order (records s) -> in_int64 cutoff ->
  rows_known_at p cutoff = as_known_at s cutoff /\
  rows_available_before p cutoff = latest_available_before s cutoff /\
  (forall ts index_id, row_membership_at p ts index_id (Some cutoff)
                       = membership_at s ts index_id (Some cutoff)) /\
  (forall ts symbol, row_symbol_mapping_at p ts symbol (Some cutoff)
                     = symbol_mapping_at s ts symbol (Some cutoff)) /\
  (forall instrument_id, row_corporate_action_history p instrument_id cutoff
                         = corporate_action_history s instrument_id cutoff).
Proof.
  intros Hm Hord Hc.
  assert (H : rows_known_at p cutoff = as_known_at s cutoff) by (by apply row_snapshot_eq).
  unfold row_membership_at, membership_at, row_symbol_mapping_at, symbol_mapping_at,
    row_corporate_action_history, corporate_action_history. simpl. rewrite H.
  split; [done|]. split; [by apply row_snapshot_eq | done].
Qed.

Lemma persistent_snapshots_agree_in_order_witness :
  exists p s, mirrors p s /\ rows_known_at p 150 = as_known_at s 150.
Proof.
  destruct (mirrors_step (empty_rows 5) (empty_memory 5) vintage_first)
    as (p & s & _ & _ & Hm & Hr); [apply mirrors_empty; lia | apply vintage_first_storable
      | vm_compute; reflexivity |].
  exists p, s. split; [exact Hm|].
  apply (persistent_snapshots_agree_in_order p s 150 Hm).
  - rewrite Hr. intros [|i] [|j] x y Hlt Hx Hy; simpl in *; (lia || done).
  - unfold in_int64. lia.
Defined.

(** Without that order the two stores differ.  After the same two accepted
    revisions, the first processed later than the second, the in-memory store
    reports the second revision and the persistent store the first. *)
Theorem persistent_snapshot_differs_out_of_order :
  exists p s, mirrors p s /\ records s = [vintage_first; vintage_second] /\
    as_known_at s 200 = Ok [vintage_second] /\ rows_known_at p 200 = Ok [vintage_first].
Proof.
  destruct (mirrors_step (empty_rows 5) (empty_memory 5) vintage_first)
    as (p1 & s1 & _ & Hs1 & Hm1 & Hr1); [apply mirrors_empty; lia
      | apply vintage_first_storable | vm_compute; reflexivity |].
  destruct (mirrors_step p1 s1 vintage_second) as (p & s & _ & _ & Hm & Hr);
    [exact Hm1 | apply vintage_second_storable | |].
  { rewrite Hr1. vm_compute in Hs1. simplify_eq. vm_compute. reflexivity. }
  rewrite Hr1 in Hr. exists p, s. split; [exact Hm|]. split; [exact Hr|]. split.
  - unfold as_known_at, snapshot. rewrite Hr. vm_compute. reflexivity.
  - unfold rows_known_at, row_snapshot. rewrite (visible_rows p s Hm), Hr.
    rewrite (proj1 (connected_ok p s Hm)). vm_compute. reflexivity.
Qed.

(** C7: [append] is atomic under every fault.  Whatever the database, the
    injected hook or the directory sync does, the transaction is closed and the
    committed rows are either untouched or extended by exactly the new record's
    row; success means the row is there, and a raised exception leaves the row
    behind only when the directory sync after the commit failed. *)
Theorem append_row_atomic r f p p' o :
  append_row r f p = (p', o) -> p_tx p = None ->
  p_tx p' = None /\ p_capacity p' = p_capacity p /\ p_closed p' = p_closed p /\
  ((p_rows p' = p_rows p /\ exists e, o = Err e) \/
   (exists b, record_bytes r = Ok b /\
      p_rows p' = p_rows p ++ [row_of (next_sequence (p_rows p)) r b] /\
      (o = Ok tt \/ (exists e, o = Err e) /\ exists e, fault_sync f = Some e))).
Proof.
  unfold append_row, st_bind, st_get, st_lift, id. intros H Htx.
  destruct (ensure_open p); [|simplify_eq; split; [done|]; eauto 10].
  destruct (record_bytes r) as [b|e]; [|simplify_eq; split; [done|]; eauto 10].
  destruct (append_statements r b f p) as [q o'] eqn:E.
  apply append_statements_cases in E as [[Hq [e ->]] | [-> Ho]]; [| |done].
  - destruct (append_handler_fails e q) as [e' He]. rewrite He, Hq in H. simplify_eq. simpl.
    repeat (split; [done|]). left. eauto.
  - destruct Ho as [-> | (e & Hf & ->)].
    + simplify_eq. simpl. repeat (split; [done|]). right. exists b. auto.
    + destruct (append_handler_fails e (with_rows
        (p_rows p ++ [row_of (next_sequence (p_rows p)) r b]) p)) as [e' He].
      rewrite He in H. simplify_eq. simpl. repeat (split; [done|]). right. exists b. eauto 10.
Qed.

Definition disk_full : Faults :=
  {| fault_begin := None; fault_before_insert := None; fault_insert := None;
     fault_after_insert := None; fault_commit := Some "database or disk is full"%string;
     fault_sync := None |}.

Lemma append_row_atomic_witness :
  append_row vintage_first disk_full (empty_rows 5)
  = (empty_rows 5, Err (Exn OverflowError "persistent point-in-time byte limit reached")) /\
  p_tx (empty_rows 5) = None.
Proof.
  assert (E : append_row vintage_first disk_full (empty_rows 5)
    = (empty_rows 5, Err (Exn OverflowError "persistent point-in-time byte limit reached")))
    by (vm_compute; reflexivity).
  split; [exact E|]. apply (append_row_atomic _ _ _ _ _ E eq_refl).
Defined.

(** Opening.  A store opens exactly when its limits are positive and large
    enough, the path and its parent are no symbolic links before and after the
    directory is created, at least one page fits, and the file is blank or was
    created by this program and passes its integrity check; it then starts with
    the rows of that file and no transaction. *)
Theorem open_store_accepts_usable capacity maximum_bytes before_mkdir after_mkdir f :
  (forall p, open_store capacity maximum_bytes before_mkdir after_mkdir f = Ok p ->
     p = {| p_capacity := capacity; p_closed := false; p_rows := initial_rows f;
            p_tx := None |}) /\
  ((exists p, open_store capacity maximum_bytes before_mkdir after_mkdir f = Ok p) <->
   0 < capacity /\ MINIMUM_DATABASE_BYTES <= maximum_bytes /\
   path_safe before_mkdir /\ path_safe after_mkdir /\
   1 <= maximum_bytes / df_page_size f /\ usable f).
Proof.
  assert (Hinv : forall p, open_store capacity maximum_bytes before_mkdir after_mkdir f = Ok p ->
    p = {| p_capacity := capacity; p_closed := false; p_rows := initial_rows f; p_tx := None |} /\
    0 < capacity /\ MINIMUM_DATABASE_BYTES <= maximum_bytes /\
    path_safe before_mkdir /\ path_safe after_mkdir /\
    1 <= maximum_bytes / df_page_size f /\ usable f).
  { intros p H. unfold open_store, configure, try_except in H. inv_ok.
    apply validate_path_ok in Ha1, Ha2. case_match eqn:E; inv_ok.
    - apply initialize_ok in E as [Hu Hr]. rewrite Hr. repeat split; try done; try lia;
        apply Ha1 || apply Ha2 || apply Hu.
    - by repeat case_match. }
  split; [intros p H; apply (Hinv p H)|]. split; [intros [p H]; apply (Hinv p H)|].
  intros (Hc & Hb & H1 & H2 & H3 & Hu). unfold open_store, configure.
  apply (validate_path_ok _ tt) in H1, H2. unfold MINIMUM_DATABASE_BYTES in *.
  rewrite (raise_when_false (capacity <=? 0)) by lia. simpl.
  rewrite (raise_when_false (maximum_bytes <? 32768)), H1, H2 by lia. simpl.
  rewrite raise_when_false by lia. simpl.
  destruct (initialize_usable f Hu) as (f' & -> & _). simpl. eauto.
Qed.
