(* ===== verification/Leakage.v ===== *)
(** * Leakage validation of datasets

    Models [python/research/aegis_mx_research/leakage.py].  The validator asks a
    point-in-time store for records and historical index membership through the
    class [KnowledgeStore]; both stores are instances, and [KnowledgeLaws] says
    what an instance promises.  The report is compared with a declarative
    account of every leak, [leak], and acceptance with [leak_free]. *)

From S2P Require Import Prelude PyText Json PitTypes PitCodec PitStore PitPersist.
Open Scope Z_scope.

(** ** The report *)

Inductive LeakageCode :=
  | FUTURE_MACRO_REVISION | FUTURE_CONSTITUENT | POST_EVENT_ESTIMATE
  | FUTURE_CORPORATE_ACTION | SURVIVORSHIP_BIAS | LABEL_OVERLAP
  | RANDOMIZED_TIME_SPLIT | NON_CHRONOLOGICAL_SPLIT | FUTURE_RECORD
  | MISSING_PROVENANCE | FUTURE_FEATURE.

Definition LeakageCode_value (c : LeakageCode) : Z :=
  match c with
  | FUTURE_MACRO_REVISION => 1 | FUTURE_CONSTITUENT => 2 | POST_EVENT_ESTIMATE => 3
  | FUTURE_CORPORATE_ACTION => 4 | SURVIVORSHIP_BIAS => 5 | LABEL_OVERLAP => 6
  | RANDOMIZED_TIME_SPLIT => 7 | NON_CHRONOLOGICAL_SPLIT => 8 | FUTURE_RECORD => 9
  | MISSING_PROVENANCE => 10 | FUTURE_FEATURE => 11
  end.

Record LeakageViolation := Violation {
  v_code : LeakageCode;
  v_sample_id : pystr;
  v_record_id : option pystr;
  v_detail : pystr;
}.

Record LeakageReport := {
  report_dataset_id : pystr;
  violations : list LeakageViolation;
}.

Definition accepted (r : LeakageReport) : bool :=
  match violations r with [] => true | _ => false end.

Definition raise_if_invalid (r : LeakageReport) : res unit :=
  raise_when (negb (accepted r)) LeakageDetectedError
    "dataset rejected with leakage violation(s)".

(** ** The store as the validator sees it *)

Class KnowledgeStore (S : Type) := {
  ask_record : S -> pystr -> res (option PointInTimeRecord);
  ask_membership : S -> Z -> pystr -> option Z -> res (list pystr);
}.

#[export] Instance memory_knowledge : KnowledgeStore PointInTimeStore := {
  ask_record s i := Ok (record_by_id s i);
  ask_membership := membership_at;
}.

#[export] Instance persistent_knowledge : KnowledgeStore PersistentStore := {
  ask_record := row_by_id;
  ask_membership := row_membership_at;
}.

(** ** Validation *)

Definition future_code (k : RecordKind) : LeakageCode :=
  match k with
  | MACRO_VINTAGE => FUTURE_MACRO_REVISION
  | INDEX_MEMBERSHIP => FUTURE_CONSTITUENT
  | ANALYST_ESTIMATE => POST_EVENT_ESTIMATE
  | CORPORATE_ACTION => FUTURE_CORPORATE_ACTION
  | _ => FUTURE_RECORD
  end.

(** [if b: violations.append(v)] *)
Definition when (b : bool) (v : LeakageViolation) : list LeakageViolation :=
  if b then [v] else [].

Definition cutoff_of (sample : DatasetSample) : Z :=
  Z.min (feature_end_ns sample) (ss_event_time_ns sample).

Definition window_violations (sample : DatasetSample) : list LeakageViolation :=
  when (ss_event_time_ns sample <? feature_end_ns sample)
    (Violation FUTURE_FEATURE (sample_id sample) None
       (str "feature window extends beyond the sample event time")) ++
  when (label_start_ns sample <=? feature_end_ns sample)
    (Violation LABEL_OVERLAP (sample_id sample) None
       (str "label interval overlaps the feature interval")).

(** The body of the loop over [sample.record_ids]. *)
Definition record_violations (sample : DatasetSample) (i : pystr)
    (record : option PointInTimeRecord) : list LeakageViolation :=
  match record with
  | None => [Violation MISSING_PROVENANCE (sample_id sample) (Some i)
               (str "sample references an unknown point-in-time record")]
  | Some r =>
      when (cutoff_of sample <? available_at_ns r)
        (Violation (future_code (kind r)) (sample_id sample) (Some i)
           (str "record was unavailable at the feature cutoff")) ++
      when (bool_decide (kind r = INDEX_MEMBERSHIP)
            && negb (contains (validity r) (ss_event_time_ns sample)))
        (Violation FUTURE_CONSTITUENT (sample_id sample) (Some i)
           (str "constituent state is not effective at the sample time")) ++
      when (bool_decide (kind r = CORPORATE_ACTION)
            && negb (contains (validity r) (ss_event_time_ns sample)))
        (Violation FUTURE_CORPORATE_ACTION (sample_id sample) (Some i)
           (str "corporate action was applied outside its effective interval"))
  end.

Definition universe_violations (sample : DatasetSample) (expected : list pystr)
    : list LeakageViolation :=
  when (negb (bool_decide (list_to_set (C := gset pystr) expected
                           = list_to_set (universe_instrument_ids sample))))
    (Violation SURVIVORSHIP_BIAS (sample_id sample) None
       (str "sample universe differs from point-in-time index membership")).

Section validator.
Context {S : Type} `{!KnowledgeStore S}.

(** [_validate_sample]: what it appends. *)
Definition validate_sample (m : DatasetManifest) (store : S) (sample : DatasetSample)
    : res (list LeakageViolation) :=
  let! per_record := res_map (fun i => let! record := ask_record store i in
                                       Ok (record_violations sample i record))
                       (record_ids sample) in
  let! expected := ask_membership store (ss_event_time_ns sample) (universe_index_id m)
                     (Some (cutoff_of sample)) in
  Ok (window_violations sample ++ mjoin per_record ++ universe_violations sample expected).
End validator.

(** [max(f(s) for s in l)] of a nonempty tuple. *)
Definition max_of {A} (f : A -> Z) (x : A) (l : list A) : Z :=
  foldl (fun acc y => Z.max acc (f y)) (f x) l.
Definition min_of {A} (f : A -> Z) (x : A) (l : list A) : Z :=
  foldl (fun acc y => Z.min acc (f y)) (f x) l.
(** [min(l, key=f)]: the first of the smallest. *)
Definition min_by {A} (f : A -> Z) (x : A) (l : list A) : A :=
  foldl (fun best y => if f y <? f best then y else best) x l.

Definition boundary_violations (embargo : Z) (prior current : list DatasetSample)
    : list LeakageViolation :=
  match current, prior with
  | c :: cs, p :: ps =>
      when (min_of ss_event_time_ns c cs <=? max_of ss_event_time_ns p ps)
        (Violation NON_CHRONOLOGICAL_SPLIT (sample_id (min_by ss_event_time_ns c cs)) None
           (str "later dataset partition is not strictly later in time")) ++
      when (min_of feature_start_ns c cs <? max_of label_end_ns p ps + embargo)
        (Violation LABEL_OVERLAP (sample_id (min_by feature_start_ns c cs)) None
           (str "prior labels overlap the next split or its embargo"))
  | _, _ => []
  end.

Definition in_split (d : DatasetSplit) (s : DatasetSample) : bool := bool_decide (split s = d).

(** [_validate_split_boundaries]: the loop over the splits with [prior] growing. *)
Fixpoint split_violations (m : DatasetManifest) (prior : list DatasetSample)
    (ds : list DatasetSplit) : list LeakageViolation :=
  match ds with
  | [] => []
  | d :: t =>
      let current := List.filter (in_split d) (samples m) in
      boundary_violations (embargo_ns m) prior current ++ split_violations m (prior ++ current) t
  end.

Definition violation_leb : LeakageViolation -> LeakageViolation -> bool :=
  leb_on (fun v => (LeakageCode_value (v_code v),
                    (v_sample_id v, (default [] (v_record_id v), v_detail v))))
    (pair_leb Z.leb (pair_leb pystr_leb (pair_leb pystr_leb pystr_leb))).

Section validator.
Context {S : Type} `{!KnowledgeStore S}.

(** [LeakageValidator.validate] *)
Definition validate (m : DatasetManifest) (store : S) : res LeakageReport :=
  let! per_sample := res_map (validate_sample m store) (samples m) in
  let found :=
    when (bool_decide (split_method m = RANDOMIZED))
      (Violation RANDOMIZED_TIME_SPLIT [] None
         (str "randomized train/test splitting is forbidden for time series")) ++
    mjoin per_sample ++ split_violations m [] DatasetSplits in
  Ok {| report_dataset_id := dataset_id m; violations := py_sorted violation_leb found |}.

Definition validate_or_raise (m : DatasetManifest) (store : S) : res LeakageReport :=
  let! report := validate m store in
  do! raise_if_invalid report in Ok report.
End validator.

(** ** What a store promises to the validator *)

Definition find_record (rs : list PointInTimeRecord) (i : pystr) : option PointInTimeRecord :=
  List.find (fun r => bool_decide (record_id r = i)) rs.

(** The members of an index at [ts] according to what was known at [cutoff]. *)
Definition known_members (rs : list PointInTimeRecord) (index_id : pystr) (ts cutoff : Z)
    : list pystr := members_of index_id ts (snapshot_of true cutoff rs).

Class KnowledgeLaws (S : Type) `{!KnowledgeStore S} := {
  knows : S -> list PointInTimeRecord -> Prop;
  askable_id : pystr -> Prop;
  askable_time : Z -> Prop;
  knows_record s rs i :
    knows s rs -> askable_id i -> ask_record s i = Ok (find_record rs i);
  knows_membership s rs ts index_id cutoff :
    knows s rs -> 0 < cutoff -> askable_time cutoff ->
    ask_membership s ts index_id (Some cutoff) = Ok (known_members rs index_id ts cutoff);
}.

Lemma record_by_id_find s i : store_inv s -> record_by_id s i = find_record (records s) i.
Proof.
  intros Hinv. unfold record_by_id, find_record. destruct (List.find _ _) as [r|] eqn:E.
  - apply find_some in E as [Hr%list_elem_of_In Hid]. bprop.
    by apply (inv_by_id s Hinv).
  - destruct (by_id s !! i) as [r|] eqn:Hr; [|done].
    apply (inv_by_id s Hinv) in Hr as [Hr%list_elem_of_In Hid].
    apply (find_none _ _ E) in Hr. by bprop.
Qed.

Lemma memory_membership s ts index_id cutoff :
  0 < cutoff ->
  membership_at s ts index_id (Some cutoff) = Ok (known_members (records s) index_id ts cutoff).
Proof. intros H. unfold membership_at. simpl. by rewrite as_known_at_ok. Qed.

#[export, refine] Instance memory_laws : KnowledgeLaws PointInTimeStore := {
  knows s rs := store_inv s /\ rs = records s;
  askable_id _ := True;
  askable_time _ := True;
  knows_record := _;
  knows_membership := _;
}.
Proof.
  - intros s rs i [Hinv ->] _. simpl. by rewrite record_by_id_find.
  - intros s rs ts index_id cutoff [Hinv ->] Hc _. by apply memory_membership.
Defined.

(** The persistent store promises the same for text SQLite can hold, cutoffs of
    64 bits and revisions that became available in order. *)
#[export, refine] Instance persistent_laws : KnowledgeLaws PersistentStore := {
  knows p rs := exists s, mirrors p s /\ available_in_order (records s) /\ rs = records s;
  askable_id i := exists b, utf8_encode i = Ok b;
  askable_time := in_int64;
  knows_record := _;
  knows_membership := _;
}.
Proof.
  - intros p rs i (s & Hm & _ & ->) [b Hb]. simpl. rewrite (row_by_id_eq p s i b) by done.
    by rewrite record_by_id_find by apply Hm.
  - intros p rs ts index_id cutoff (s & Hm & Hord & ->) Hc Hin. simpl.
    unfold row_membership_at. simpl. unfold rows_known_at.
    rewrite (row_snapshot_eq p s) by done. by apply memory_membership.
Defined.

(** ** The leaks of a dataset *)

(** [t] is the first of the samples of split [d] with the least [f]. *)
Definition earliest (f : DatasetSample -> Z) (m : DatasetManifest) (d : DatasetSplit)
    (t : DatasetSample) : Prop :=
  let l := List.filter (in_split d) (samples m) in
  exists n, l !! n = Some t /\
    forall j u, l !! j = Some u -> f t <= f u /\ ((j < n)%nat -> f t < f u).

(** [s] is in an earlier split than [d]. *)
Definition before_split (m : DatasetManifest) (d : DatasetSplit) (s : DatasetSample) : Prop :=
  s ∈ samples m /\ DatasetSplit_value (split s) < DatasetSplit_value d.

(** One constructor per reason to reject. *)
Inductive leak (m : DatasetManifest) (rs : list PointInTimeRecord) : LeakageViolation -> Prop :=
  | leak_randomized :
      split_method m = RANDOMIZED ->
      leak m rs (Violation RANDOMIZED_TIME_SPLIT [] None
        (str "randomized train/test splitting is forbidden for time series"))
  | leak_feature s :
      s ∈ samples m -> ss_event_time_ns s < feature_end_ns s ->
      leak m rs (Violation FUTURE_FEATURE (sample_id s) None
        (str "feature window extends beyond the sample event time"))
  | leak_label s :
      s ∈ samples m -> label_start_ns s <= feature_end_ns s ->
      leak m rs (Violation LABEL_OVERLAP (sample_id s) None
        (str "label interval overlaps the feature interval"))
  | leak_unknown s i :
      s ∈ samples m -> i ∈ record_ids s -> find_record rs i = None ->
      leak m rs (Violation MISSING_PROVENANCE (sample_id s) (Some i)
        (str "sample references an unknown point-in-time record"))
  | leak_future s i r :
      s ∈ samples m -> i ∈ record_ids s -> find_record rs i = Some r ->
      cutoff_of s < available_at_ns r ->
      leak m rs (Violation (future_code (kind r)) (sample_id s) (Some i)
        (str "record was unavailable at the feature cutoff"))
  | leak_constituent s i r :
      s ∈ samples m -> i ∈ record_ids s -> find_record rs i = Some r ->
      kind r = INDEX_MEMBERSHIP -> contains (validity r) (ss_event_time_ns s) = false ->
      leak m rs (Violation FUTURE_CONSTITUENT (sample_id s) (Some i)
        (str "constituent state is not effective at the sample time"))
  | leak_action s i r :
      s ∈ samples m -> i ∈ record_ids s -> find_record rs i = Some r ->
      kind r = CORPORATE_ACTION -> contains (validity r) (ss_event_time_ns s) = false ->
      leak m rs (Violation FUTURE_CORPORATE_ACTION (sample_id s) (Some i)
        (str "corporate action was applied outside its effective interval"))
  | leak_universe s x :
      s ∈ samples m ->
      ~ (x ∈ universe_instrument_ids s <->
         x ∈ known_members rs (universe_index_id m) (ss_event_time_ns s) (cutoff_of s)) ->
      leak m rs (Violation SURVIVORSHIP_BIAS (sample_id s) None
        (str "sample universe differs from point-in-time index membership"))
  | leak_chronology d s t :
      before_split m d s -> earliest ss_event_time_ns m d t ->
      ss_event_time_ns t <= ss_event_time_ns s ->
      leak m rs (Violation NON_CHRONOLOGICAL_SPLIT (sample_id t) None
        (str "later dataset partition is not strictly later in time"))
  | leak_embargo d s t :
      before_split m d s -> earliest feature_start_ns m d t ->
      feature_start_ns t < label_end_ns s + embargo_ns m ->
      leak m rs (Violation LABEL_OVERLAP (sample_id t) None
        (str "prior labels overlap the next split or its embargo")).

(** No leak at all, stated without the report. *)
Record leak_free (m : DatasetManifest) (rs : list PointInTimeRecord) : Prop := {
  lf_ordered : split_method m <> RANDOMIZED;
  lf_windows s : s ∈ samples m ->
    feature_end_ns s <= ss_event_time_ns s /\ feature_end_ns s < label_start_ns s;
  lf_records s i : s ∈ samples m -> i ∈ record_ids s ->
    exists r, find_record rs i = Some r /\ available_at_ns r <= feature_end_ns s /\
      (kind r = INDEX_MEMBERSHIP \/ kind r = CORPORATE_ACTION ->
       contains (validity r) (ss_event_time_ns s) = true);
  lf_universe s x : s ∈ samples m ->
    x ∈ universe_instrument_ids s <->
    x ∈ known_members rs (universe_index_id m) (ss_event_time_ns s) (feature_end_ns s);
  lf_splits s t : s ∈ samples m -> t ∈ samples m ->
    DatasetSplit_value (split s) < DatasetSplit_value (split t) ->
    ss_event_time_ns s < ss_event_time_ns t /\
    label_end_ns s + embargo_ns m <= feature_start_ns t;
}.

(** ** Minima and maxima *)

Lemma max_of_spec {A} (f : A -> Z) x l z :
  z <= max_of f x l <-> exists y, y ∈ x :: l /\ z <= f y.
Proof.
  unfold max_of. revert x. induction l as [|y l IH] using rev_ind; intros x; simpl.
  - split; [intros; exists x; set_solver|]. by intros (y & ->%list_elem_of_singleton & ?).
  - rewrite foldl_app. simpl. split.
    + intros H. destruct (decide (z <= f y)); [exists y; set_solver|].
      destruct (proj1 (IH x)) as (w & ? & ?); [lia|]. exists w. set_solver.
    + intros (w & Hw & Hz). rewrite app_comm_cons in Hw.
      apply elem_of_app in Hw as [Hw | ->%list_elem_of_singleton]; [|lia].
      assert (z <= foldl (fun acc y => Z.max acc (f y)) (f x) l) by (apply IH; eauto). lia.
Qed.

Lemma min_of_min_by {A} (f : A -> Z) x l : min_of f x l = f (min_by f x l).
Proof.
  unfold min_of, min_by. induction l as [|y l IH] using rev_ind; simpl; [done|].
  rewrite !foldl_app. simpl. rewrite IH.
  destruct (f y <? f (foldl _ x l)) eqn:E; lia.
Qed.

(** [min] returns the first element of least key. *)
Lemma min_by_spec {A} (f : A -> Z) x l t :
  min_by f x l = t ->
  exists n, (x :: l) !! n = Some t /\
    forall j u, (x :: l) !! j = Some u -> f t <= f u /\ ((j < n)%nat -> f t < f u).
Proof.
  unfold min_by. revert t. induction l as [|y l IH] using rev_ind; intros t; simpl.
  - intros <-. exists 0%nat. split; [done|]. intros [|j] u; simpl; [|done].
    intros [= ->]. lia.
  - rewrite foldl_app. simpl. destruct (IH _ eq_refl) as (n & Hn & Hmin).
    set (b := foldl _ x l) in *. rewrite app_comm_cons. case_match eqn:E; intros <-.
    + exists (length (x :: l)). split; [by rewrite lookup_app_r, Nat.sub_diag by done|].
      intros j u Hu. apply lookup_app_Some in Hu as [Hu | [Hge Hu]].
      * pose proof (Hmin j u Hu). apply lookup_lt_Some in Hu. lia.
      * apply list_lookup_singleton_Some in Hu as [? <-]. lia.
    + exists n. split; [by apply lookup_app_l_Some|].
      intros j u Hu. apply lookup_app_Some in Hu as [Hu | [Hge Hu]]; [by apply Hmin|].
      apply list_lookup_singleton_Some in Hu as [? <-]. apply lookup_lt_Some in Hn. lia.
Qed.

Lemma first_least_unique {A} (f : A -> Z) (l : list A) n n' t t' :
  l !! n = Some t -> (forall j u, l !! j = Some u -> f t <= f u /\ ((j < n)%nat -> f t < f u)) ->
  l !! n' = Some t' -> (forall j u, l !! j = Some u -> f t' <= f u /\ ((j < n')%nat -> f t' < f u)) ->
  t = t'.
Proof.
  intros Hn Hm Hn' Hm'. pose proof (Hm _ _ Hn'). pose proof (Hm' _ _ Hn).
  destruct (Nat.lt_trichotomy n n') as [|[->|]]; [lia | congruence | lia].
Qed.

(** ** The report is exact *)

Lemma elem_of_when v b w : v ∈ when b w <-> b = true /\ v = w.
Proof. unfold when. destruct b; set_solver. Qed.

Lemma elem_of_boundary m prior d v :
  (forall s, s ∈ prior <-> before_split m d s) ->
  v ∈ boundary_violations (embargo_ns m) prior (List.filter (in_split d) (samples m)) <->
  (exists s t, before_split m d s /\ earliest ss_event_time_ns m d t /\
     ss_event_time_ns t <= ss_event_time_ns s /\
     v = Violation NON_CHRONOLOGICAL_SPLIT (sample_id t) None
           (str "later dataset partition is not strictly later in time")) \/
  (exists s t, before_split m d s /\ earliest feature_start_ns m d t /\
     feature_start_ns t < label_end_ns s + embargo_ns m /\
     v = Violation LABEL_OVERLAP (sample_id t) None
           (str "prior labels overlap the next split or its embargo")).
Proof.
  intros Hprior. unfold earliest.
  destruct (List.filter (in_split d) (samples m)) as [|c cs].
  { simpl. split; [set_solver|]. intros [(s & t & _ & (n & Hn & _) & _) | (s & t & _ & (n & Hn & _) & _)]; done. }
  destruct prior as [|p ps].
  { simpl. split; [set_solver|].
    intros [(s & t & Hs%Hprior & _) | (s & t & Hs%Hprior & _)]; set_solver. }
  cbn [boundary_violations]. rewrite elem_of_app, !elem_of_when, !min_of_min_by.
  rewrite Z.leb_le, Z.ltb_lt.
  rewrite <- Z.le_succ_l, <- Z.le_sub_le_add_r.
  rewrite !max_of_spec. setoid_rewrite Hprior.
  destruct (min_by_spec ss_event_time_ns c cs _ eq_refl) as (n1 & Hn1 & Hm1).
  destruct (min_by_spec feature_start_ns c cs _ eq_refl) as (n2 & Hn2 & Hm2).
  split.
  - intros [[(s & Hs & Hle) ->] | [(s & Hs & Hle) ->]]; [left|right]; eexists s, _;
      (split; [done|]); (split; [eauto|]); (split; [lia|done]).
  - intros [(s & t & Hs & (n & Hn & Hm) & Hle & ->) | (s & t & Hs & (n & Hn & Hm) & Hle & ->)];
      [left|right].
    + rewrite (first_least_unique ss_event_time_ns _ _ _ _ _ Hn Hm Hn1 Hm1) in *. eauto.
    + rewrite (first_least_unique feature_start_ns _ _ _ _ _ Hn Hm Hn2 Hm2) in *.
      split; [|done]. exists s. split; [done|lia].
Qed.

Lemma elem_of_split_filter m d s :
  s ∈ List.filter (in_split d) (samples m) <-> s ∈ samples m /\ split s = d.
Proof. rewrite elem_of_filter_b. unfold in_split. by rewrite bool_decide_eq_true. Qed.

Lemma elem_of_split_violations m v :
  v ∈ split_violations m [] DatasetSplits <->
  exists d, (exists s t, before_split m d s /\ earliest ss_event_time_ns m d t /\
     ss_event_time_ns t <= ss_event_time_ns s /\
     v = Violation NON_CHRONOLOGICAL_SPLIT (sample_id t) None
           (str "later dataset partition is not strictly later in time")) \/
  (exists s t, before_split m d s /\ earliest feature_start_ns m d t /\
     feature_start_ns t < label_end_ns s + embargo_ns m /\
     v = Violation LABEL_OVERLAP (sample_id t) None
           (str "prior labels overlap the next split or its embargo")).
Proof.
  unfold DatasetSplits. cbn [split_violations]. rewrite !elem_of_app.
  rewrite (elem_of_boundary m _ TRAIN), (elem_of_boundary m _ VALIDATION),
    (elem_of_boundary m _ TEST);
    try (intros s; rewrite ?elem_of_app, ?elem_of_split_filter, ?elem_of_nil;
         unfold before_split; destruct (split s); simpl; intuition (congruence || lia)).
  split; [intros [|[|[|]]]; [eauto..|set_solver]|]. intros [[] H]; tauto.
Qed.

Section leaks.
Context (m : DatasetManifest) (rs : list PointInTimeRecord).

Definition sample_leaks (s : DatasetSample) : list LeakageViolation :=
  window_violations s ++
  mjoin (map (fun i => record_violations s i (find_record rs i)) (record_ids s)) ++
  universe_violations s
    (known_members rs (universe_index_id m) (ss_event_time_ns s) (cutoff_of s)).

Lemma elem_of_sample_leaks v :
  (exists s, s ∈ samples m /\ v ∈ sample_leaks s) <->
  (exists s, s ∈ samples m /\ v ∈ window_violations s) \/
  (exists s i, s ∈ samples m /\ i ∈ record_ids s /\
     v ∈ record_violations s i (find_record rs i)) \/
  (exists s, s ∈ samples m /\ v ∈ universe_violations s
     (known_members rs (universe_index_id m) (ss_event_time_ns s) (cutoff_of s))).
Proof.
  unfold sample_leaks. setoid_rewrite elem_of_app. setoid_rewrite elem_of_app.
  setoid_rewrite list_elem_of_join. setoid_rewrite list_elem_of_fmap. naive_solver.
Qed.

Lemma universe_differs s expected v :
  v ∈ universe_violations s expected <->
  (exists x, ~ (x ∈ universe_instrument_ids s <-> x ∈ expected)) /\
  v = Violation SURVIVORSHIP_BIAS (sample_id s) None
        (str "sample universe differs from point-in-time index membership").
Proof.
  unfold universe_violations. rewrite elem_of_when, negb_true_iff, bool_decide_eq_false.
  apply and_iff_compat_r. set (E := list_to_set (C := gset pystr) expected).
  set (U := list_to_set (C := gset pystr) (universe_instrument_ids s)). split.
  - intros Hne. destruct (decide ((E ∖ U) ∪ (U ∖ E) = ∅)) as [Heq|Hne'].
    + destruct Hne. apply set_eq. intros x. destruct (decide (x ∈ E)), (decide (x ∈ U)); set_solver.
    + apply set_choose_L in Hne' as [x Hx]. exists x. unfold E, U in Hx. set_solver.
  - intros [x Hx] HEU. apply Hx. rewrite <- !(elem_of_list_to_set (C := gset pystr)).
    fold E U. by rewrite HEU.
Qed.

Lemma found_iff_leak v :
  v ∈ when (bool_decide (split_method m = RANDOMIZED))
         (Violation RANDOMIZED_TIME_SPLIT [] None
            (str "randomized train/test splitting is forbidden for time series")) ++
       mjoin (map sample_leaks (samples m)) ++ split_violations m [] DatasetSplits <->
  leak m rs v.
Proof.
  rewrite !elem_of_app, elem_of_when, bool_decide_eq_true, elem_of_split_violations.
  rewrite list_elem_of_join. setoid_rewrite list_elem_of_fmap.
  transitivity ((split_method m = RANDOMIZED /\ v = Violation RANDOMIZED_TIME_SPLIT [] None
            (str "randomized train/test splitting is forbidden for time series")) \/
    (exists s, s ∈ samples m /\ v ∈ sample_leaks s) \/
    (exists d, (exists s t, before_split m d s /\ earliest ss_event_time_ns m d t /\
     ss_event_time_ns t <= ss_event_time_ns s /\
     v = Violation NON_CHRONOLOGICAL_SPLIT (sample_id t) None
           (str "later dataset partition is not strictly later in time")) \/
  (exists s t, before_split m d s /\ earliest feature_start_ns m d t /\
     feature_start_ns t < label_end_ns s + embargo_ns m /\
     v = Violation LABEL_OVERLAP (sample_id t) None
           (str "prior labels overlap the next split or its embargo")))); [naive_solver|].
  rewrite elem_of_sample_leaks. setoid_rewrite universe_differs.
  unfold window_violations, record_violations.
  setoid_rewrite elem_of_app. setoid_rewrite elem_of_when. split.
  - intros [[Hr ->] | [[(s & Hs & [[H ->] | [H ->]]) | [(s & i & Hs & Hi & H) | (s & Hs & [x Hx] & ->)]]
      | [d [(s & t & Hb & He & Hle & ->) | (s & t & Hb & He & Hle & ->)]]]].
    + by constructor.
    + apply leak_feature; [done|lia].
    + apply leak_label; [done|lia].
    + destruct (find_record rs i) as [r|] eqn:Hf.
      * rewrite !elem_of_app, !elem_of_when in H.
        destruct H as [[H ->] | [[H ->] | [H ->]]]; bprop.
        -- eapply leak_future; eauto. lia.
        -- by eapply leak_constituent.
        -- by eapply leak_action.
      * apply list_elem_of_singleton in H as ->. by apply leak_unknown.
    + by eapply leak_universe.
    + by eapply leak_chronology.
    + by eapply leak_embargo.
  - destruct 1 as [Hr | s Hs H | s Hs H | s i Hs Hi Hf | s i r Hs Hi Hf H | s i r Hs Hi Hf Hk H
      | s i r Hs Hi Hf Hk H | s x Hs H | d s t Hb He H | d s t Hb He H].
    + by left.
    + right; left; left. exists s. split; [done|]. left. split; [lia|done].
    + right; left; left. exists s. split; [done|]. right. split; [lia|done].
    + right; left; right; left. exists s, i. rewrite Hf. set_solver.
    + right; left; right; left. exists s, i. rewrite Hf, !elem_of_app, !elem_of_when.
      split; [done|]. split; [done|]. left. split; [lia|done].
    + right; left; right; left. exists s, i. rewrite Hf, !elem_of_app, !elem_of_when.
      split; [done|]. split; [done|]. right; left. by rewrite Hk, H.
    + right; left; right; left. exists s, i. rewrite Hf, !elem_of_app, !elem_of_when.
      split; [done|]. split; [done|]. right; right. by rewrite Hk, H.
    + right; left; right; right. exists s. eauto.
    + right; right. exists d. left. by exists s, t.
    + right; right. exists d. right. by exists s, t.
Qed.
End leaks.

Section exact.
Context {S : Type} `{!KnowledgeStore S, !KnowledgeLaws S}.
Context (m : DatasetManifest) (store : S) (rs : list PointInTimeRecord).
Context (Hknows : knows store rs) (Hm : manifest_ok m).
Context (Hids : forall s i, s ∈ samples m -> i ∈ record_ids s -> askable_id i).
Context (Htimes : forall s, s ∈ samples m -> askable_time (cutoff_of s)).

Lemma validate_sample_eq s : s ∈ samples m -> validate_sample m store s = Ok (sample_leaks m rs s).
Proof using All.
  intros Hs. unfold validate_sample, sample_leaks.
  rewrite (res_map_fmap _ (fun i => record_violations s i (find_record rs i))).
  - simpl. assert (Hpos : 0 < cutoff_of s).
    { destruct Hm as [_ Hall]. rewrite Forall_forall in Hall.
      pose proof (sample_post_init_inv s (Hall s Hs)). unfold cutoff_of. lia. }
    by rewrite (knows_membership store rs _ _ _ Hknows Hpos (Htimes s Hs)).
  - intros i Hi. by rewrite (knows_record store rs) by (done || by eapply Hids).
Qed.

Lemma validate_eq :
  validate m store = Ok {| report_dataset_id := dataset_id m;
    violations := py_sorted violation_leb
      (when (bool_decide (split_method m = RANDOMIZED))
         (Violation RANDOMIZED_TIME_SPLIT [] None
            (str "randomized train/test splitting is forbidden for time series")) ++
       mjoin (map (sample_leaks m rs) (samples m)) ++ split_violations m [] DatasetSplits) |}.
Proof using All.
  unfold validate. rewrite (res_map_fmap _ (sample_leaks m rs)); [done|]. apply validate_sample_eq.
Qed.

End exact.

(** ** No leak *)

Lemma earliest_exists f m t :
  t ∈ samples m -> exists u, earliest f m (split t) u /\ f u <= f t.
Proof.
  intros Ht. assert (Hin : t ∈ List.filter (in_split (split t)) (samples m))
    by (by apply elem_of_split_filter).
  unfold earliest. destruct (List.filter (in_split (split t)) (samples m)) as [|c cs]; [set_solver|].
  destruct (min_by_spec f c cs _ eq_refl) as (n & Hn & Hmin).
  apply list_elem_of_lookup_1 in Hin as [j Hj]. exists (min_by f c cs).
  split; [eauto|]. by apply (Hmin j).
Qed.

Lemma earliest_elem f m d t : earliest f m d t -> t ∈ samples m /\ split t = d.
Proof.
  intros (n & Hn & _). apply list_elem_of_lookup_2 in Hn. by apply elem_of_split_filter in Hn.
Qed.

Lemma leak_free_no_leak m rs v : leak_free m rs -> leak m rs v -> False.
Proof.
  intros [Hord Hwin Hrec Huni Hspl] Hleak.
  assert (Hcut : forall s, s ∈ samples m -> cutoff_of s = feature_end_ns s)
    by (intros s Hs; destruct (Hwin s Hs); unfold cutoff_of; lia).
  destruct Hleak as [Hr | s Hs H | s Hs H | s i Hs Hi Hf | s i r Hs Hi Hf H | s i r Hs Hi Hf Hk H
      | s i r Hs Hi Hf Hk H | s x Hs H | d s t [Hs Hd] He H | d s t [Hs Hd] He H].
  - done.
  - destruct (Hwin s Hs). lia.
  - destruct (Hwin s Hs). lia.
  - destruct (Hrec s i Hs Hi) as (r & ? & _). congruence.
  - destruct (Hrec s i Hs Hi) as (q & ? & ? & _). simplify_eq. rewrite Hcut in H by done. lia.
  - destruct (Hrec s i Hs Hi) as (q & ? & ? & Hq). simplify_eq. by rewrite Hq in H by auto.
  - destruct (Hrec s i Hs Hi) as (q & ? & ? & Hq). simplify_eq. by rewrite Hq in H by auto.
  - apply H. rewrite Hcut by done. by apply Huni.
  - apply earliest_elem in He as [Ht <-]. destruct (Hspl s t Hs Ht Hd). lia.
  - apply earliest_elem in He as [Ht <-]. destruct (Hspl s t Hs Ht Hd). lia.
Qed.

Lemma no_leak_free m rs : (forall v, ~ leak m rs v) -> leak_free m rs.
Proof.
  intros H.
  assert (Hwin : forall s, s ∈ samples m ->
    feature_end_ns s <= ss_event_time_ns s /\ feature_end_ns s < label_start_ns s).
  { intros s Hs. split.
    - destruct (decide (ss_event_time_ns s < feature_end_ns s)); [|lia].
      edestruct H. by eapply leak_feature.
    - destruct (decide (label_start_ns s <= feature_end_ns s)); [|lia].
      edestruct H. by eapply leak_label. }
  assert (Hcut : forall s, s ∈ samples m -> cutoff_of s = feature_end_ns s)
    by (intros s Hs; destruct (Hwin s Hs); unfold cutoff_of; lia).
  split.
  - intros Hr. edestruct H. by eapply leak_randomized.
  - done.
  - intros s i Hs Hi. destruct (find_record rs i) as [r|] eqn:Hf;
      [|edestruct H; by eapply leak_unknown].
    exists r. split; [done|]. split.
    + rewrite <- Hcut by done. destruct (decide (cutoff_of s < available_at_ns r)); [|lia].
      edestruct H. by eapply leak_future.
    + intros Hk. destruct (contains _ _) eqn:Hc; [done|].
      destruct Hk; edestruct H; [by eapply leak_constituent | by eapply leak_action].
  - intros s x Hs. rewrite <- Hcut by done.
    destruct (decide (x ∈ universe_instrument_ids s)),
      (decide (x ∈ known_members rs (universe_index_id m) (ss_event_time_ns s) (cutoff_of s)));
      try tauto; edestruct H; eapply (leak_universe _ _ s x); tauto.
  - intros s t Hs Ht Hd. split.
    + destruct (earliest_exists ss_event_time_ns m t Ht) as (u & Hu & Hle).
      destruct (decide (ss_event_time_ns u <= ss_event_time_ns s)); [|lia].
      edestruct H. apply (leak_chronology m rs (split t) s u); [by split | done | done].
    + destruct (earliest_exists feature_start_ns m t Ht) as (u & Hu & Hle).
      destruct (decide (feature_start_ns u < label_end_ns s + embargo_ns m)); [|lia].
      edestruct H. apply (leak_embargo m rs (split t) s u); [by split | done | lia].
Qed.

(** ** Samples *)

Definition safe_sample (id : string) (event : Z) (d : DatasetSplit) : DatasetSample :=
  {| sample_id := str id; ss_event_time_ns := event; feature_start_ns := event - 2;
     feature_end_ns := event; label_start_ns := event + 1; label_end_ns := event + 5;
     split := d; record_ids := [str "cpi-1"]; universe_instrument_ids := [str "ABC"] |}.

Definition safe_manifest : DatasetManifest :=
  {| dataset_id := str "safe"; created_at_ns := 100; split_method := WALK_FORWARD;
     samples := [safe_sample "a" 20 TRAIN; safe_sample "b" 60 TEST];
     universe_index_id := str "SPX"; embargo_ns := 3; random_seed := None |}.

Lemma safe_manifest_ok : manifest_ok safe_manifest.
Proof.
  split; [vm_compute; reflexivity|].
  repeat (apply Forall_cons; split; [vm_compute; reflexivity|]). apply Forall_nil_2.
Qed.

(** ** Properties *)

(** C8: the leakage report is exact.  Against any store that keeps its promise,
    validating a well-formed manifest never raises; the report carries the
    dataset's identifier, its violations are in the documented order, and a
    violation is reported if and only if it is one of the leaks [leak] of the
    dataset. *)
Theorem leakage_report_exact {S} `{!KnowledgeStore S, !KnowledgeLaws S}
    (m : DatasetManifest) (store : S) rs :
  knows store rs -> manifest_ok m ->
  (forall s i, s ∈ samples m -> i ∈ record_ids s -> askable_id i) ->
  (forall s, s ∈ samples m -> askable_time (cutoff_of s)) ->
  exists report, validate m store = Ok report /\
    report_dataset_id report = dataset_id m /\
    StronglySorted (fun a b => violation_leb a b = true) (violations report) /\
    forall v, v ∈ violations report <-> leak m rs v.
Proof.
  intros Hk Hm Hi Ht. rewrite (validate_eq m store rs) by done. eexists. split; [done|].
  split; [done|]. split; [apply py_sorted_sorted; unfold violation_leb; apply _|].
  intros v. simpl. by rewrite elem_of_py_sorted, found_iff_leak.
Qed.

Lemma leakage_report_exact_witness :
  exists report, validate safe_manifest sample_store = Ok report /\
    forall v, v ∈ violations report <-> leak safe_manifest (records sample_store) v.
Proof.
  destruct (leakage_report_exact safe_manifest sample_store (records sample_store))
    as (report & H & _ & _ & Hv).
  - split; [apply (reachable_inv _ _ sample_reachable) | reflexivity].
  - apply safe_manifest_ok.
  - intros s i _ _. exact I.
  - intros s _. exact I.
  - exists report. split; [exact H | exact Hv].
Defined.

(** Fail-closed acceptance.  [validate_or_raise] returns for a dataset if
    and only if it is free of leaks: not split at random, features end by the
    event and before the labels, every source record known at the end of the
    features and effective where that matters, the universe equal to the index
    as known then, and later splits strictly later with the embargo respected.
    Otherwise it raises [LeakageDetectedError]. *)
Theorem acceptance_iff_leak_free {S} `{!KnowledgeStore S, !KnowledgeLaws S}
    (m : DatasetManifest) (store : S) rs :
  knows store rs -> manifest_ok m ->
  (forall s i, s ∈ samples m -> i ∈ record_ids s -> askable_id i) ->
  (forall s, s ∈ samples m -> askable_time (cutoff_of s)) ->
  ((exists report, validate_or_raise m store = Ok report) <-> leak_free m rs) /\
  ((exists e, validate_or_raise m store = Err e) ->
   exists msg, validate_or_raise m store = Err (Exn LeakageDetectedError msg)).
Proof.
  intros Hk Hm Hi Ht. unfold validate_or_raise.
  rewrite (validate_eq m store rs) by done. simpl.
  pose proof (found_iff_leak m rs) as Hleak.
  set (found := when _ _ ++ _) in *. unfold raise_if_invalid, accepted. simpl.
  pose proof (py_sorted_perm violation_leb found) as Hp.
  destruct (py_sorted violation_leb found) as [|v vs]; simpl.
  - split; [|by intros [e He]]. split; [|eauto]. intros _. apply no_leak_free.
    intros v Hv%Hleak. rewrite <- Hp in Hv. set_solver.
  - split; [|eauto]. split; [by intros [r Hr]|]. intros Hfree. exfalso.
    apply (leak_free_no_leak m rs v Hfree). apply Hleak. rewrite <- Hp. set_solver.
Qed.

Lemma acceptance_iff_leak_free_witness :
  exists report, validate_or_raise safe_manifest sample_store = Ok report /\
    leak_free safe_manifest (records sample_store).
Proof.
  assert (E : exists report, validate_or_raise safe_manifest sample_store = Ok report)
    by (eexists; vm_compute; reflexivity).
  destruct (acceptance_iff_leak_free safe_manifest sample_store (records sample_store)) as [H _].
  - split; [apply (reachable_inv _ _ sample_reachable) | reflexivity].
  - apply safe_manifest_ok.
  - intros s i _ _. exact I.
  - intros s _. exact I.
  - destruct E as [report E]. exists report. split; [exact E | apply H; exists report; exact E].
Defined.

(** The verdict does not depend on the store.  Over a persistent store that
    mirrors an in-memory one whose revisions became available in order, a
    well-formed manifest with storable identifiers and 64-bit times gets the
    same report. *)
Theorem validation_same_on_both_stores m p s :
  mirrors p s -> available_in_order (records s) -> manifest_ok m ->
  (forall q i, q ∈ samples m -> i ∈ record_ids q -> exists b, utf8_encode i = Ok b) ->
  (forall q, q ∈ samples m -> in_int64 (cutoff_of q)) ->
  validate m p = validate m s /\ validate_or_raise m p = validate_or_raise m s.
Proof.
  intros Hm Hord Hok Hi Ht.
  assert (H : validate m p = validate m s).
  { rewrite (validate_eq m p (records s)); [|by exists s|done|done|done].
    rewrite (validate_eq m s (records s)); [done|split; [apply Hm | done]|done|done|done]. }
  split; [exact H|]. unfold validate_or_raise. by rewrite H.
Qed.

Lemma validation_same_on_both_stores_witness :
  validate safe_manifest (empty_rows 5) = validate safe_manifest (empty_memory 5).
Proof.
  apply (validation_same_on_both_stores safe_manifest (empty_rows 5) (empty_memory 5)).
  - apply mirrors_empty. lia.
  - intros i j x y _ Hx. discriminate Hx.
  - apply safe_manifest_ok.
  - intros q i Hq Hi. exists (str "cpi-1").
    apply elem_of_cons in Hq as [-> | Hq]; [|apply list_elem_of_singleton in Hq as ->];
      apply list_elem_of_singleton in Hi as ->; reflexivity.
  - intros q Hq.
    apply elem_of_cons in Hq as [-> | Hq]; [|apply list_elem_of_singleton in Hq as ->];
      unfold in_int64, cutoff_of; simpl; lia.
Defined.
