(* ===== verification/ForecastDomain.v ===== *)
(** * Forecast contexts

    Models [python/model_serving/aegis_mx_timeseries/domain.py] and the
    identifier type of [python/intelligence/aegis_mx_intelligence/contracts.py]:
    targets and their units, the validation of an untrusted request into an
    immutable context, the canonical encoding of a context with its digest, and
    identifiers derived from provenance. *)

From S2P Require Import Prelude PyText Json Sha256.
Open Scope Z_scope.

Definition PPM : Z := 1000000.
Definition MAX_CONTEXT_BYTES : Z := 2 ^ 20.
Definition MAX_HISTORY_POINTS : Z := 4096.
Definition MAX_HORIZONS : Z := 16.
Definition MAX_SCHEDULED_EVENT_FLAGS : Z := 2 ^ 32 - 1.
Definition MIN_HISTORY_POINTS : Z := 4.
Definition QUANTILE_COUNT : Z := 3.
Definition SECONDS_PER_DAY : Z := 86400.
Definition IDENTIFIER_HEX_LENGTH : Z := 32.
Definition SHA256_HEX_LENGTH : Z := 64.

(** ** 128-bit identifiers *)

Record Identifier128 := Id128 { high : Z; low : Z }.

#[export] Instance Identifier128_eq_dec : EqDecision Identifier128.
Proof. solve_decision. Defined.
#[export] Instance Identifier128_countable : Countable Identifier128.
Proof.
  refine (inj_countable (fun i => (high i, low i)) (fun p => Some (Id128 p.1 p.2)) _).
  by intros [].
Defined.

Definition Identifier128_post_init (i : Identifier128) : res unit :=
  let maximum := 2 ^ 64 - 1 in
  do! raise_when (negb ((0 <=? high i) && (high i <=? maximum))
                  || negb ((0 <=? low i) && (low i <=? maximum))) ValueError
        "identifier words must be unsigned 64-bit integers" in
  raise_when ((high i =? 0) && (low i =? 0)) ValueError
    "the all-zero identifier is reserved and invalid".

Definition new_identifier (h l : Z) : res Identifier128 :=
  do! Identifier128_post_init (Id128 h l) in Ok (Id128 h l).

Definition identifier_ok (i : Identifier128) : Prop := Identifier128_post_init i = Ok tt.

Definition id_hex (i : Identifier128) : pystr := hex_fixed 16 (high i) ++ hex_fixed 16 (low i).

(** ** Enumerations *)

Inductive ForecastTarget :=
  | RETURN | REALIZED_VOLATILITY | VOLUME | SPREAD | MARKET_FACTOR | SECTOR_FACTOR.
#[export] Instance ForecastTarget_eq_dec : EqDecision ForecastTarget.
Proof. solve_decision. Defined.

Definition ForecastTarget_value (t : ForecastTarget) : Z :=
  match t with
  | RETURN => 1 | REALIZED_VOLATILITY => 2 | VOLUME => 3
  | SPREAD => 4 | MARKET_FACTOR => 5 | SECTOR_FACTOR => 6
  end.

Definition ForecastTarget_name (t : ForecastTarget) : pystr :=
  match t with
  | RETURN => str "RETURN" | REALIZED_VOLATILITY => str "REALIZED_VOLATILITY"
  | VOLUME => str "VOLUME" | SPREAD => str "SPREAD"
  | MARKET_FACTOR => str "MARKET_FACTOR" | SECTOR_FACTOR => str "SECTOR_FACTOR"
  end.

Definition ForecastTargets : list ForecastTarget :=
  [RETURN; REALIZED_VOLATILITY; VOLUME; SPREAD; MARKET_FACTOR; SECTOR_FACTOR].

(** [ForecastTarget\[name\]] *)
Definition ForecastTarget_named (name : pystr) : res ForecastTarget :=
  match List.find (fun t => bool_decide (ForecastTarget_name t = name)) ForecastTargets with
  | Some t => Ok t
  | None => raise KeyError "unknown target"
  end.

Inductive AdapterDevice := CPU | GPU.
#[export] Instance AdapterDevice_eq_dec : EqDecision AdapterDevice.
Proof. solve_decision. Defined.

Inductive SessionState := SS_UNKNOWN | PRE_OPEN | OPEN | HALTED | AUCTION | CLOSED.
#[export] Instance SessionState_eq_dec : EqDecision SessionState.
Proof. solve_decision. Defined.

Definition SessionState_value (s : SessionState) : Z :=
  match s with
  | SS_UNKNOWN => 0 | PRE_OPEN => 1 | OPEN => 2 | HALTED => 3 | AUCTION => 4 | CLOSED => 5
  end.

Definition SessionState_of (n : Z) : res SessionState :=
  if n =? 0 then Ok SS_UNKNOWN else if n =? 1 then Ok PRE_OPEN else if n =? 2 then Ok OPEN
  else if n =? 3 then Ok HALTED else if n =? 4 then Ok AUCTION else if n =? 5 then Ok CLOSED
  else raise ValueError "not a valid SessionState".

Inductive ModelHealth :=
  | MH_UNKNOWN | WARMING | HEALTHY | MH_DEGRADED | FAILED | DISABLED.
#[export] Instance ModelHealth_eq_dec : EqDecision ModelHealth.
Proof. solve_decision. Defined.

Inductive WorkerStatus :=
  | ACCEPTED | QUEUE_FULL | DEADLINE_MISSED | COMPLETED | FALLBACK_COMPLETED
  | NO_RESULT | MODEL_FAILURE | INVALID_REQUEST | STOPPED.
#[export] Instance WorkerStatus_eq_dec : EqDecision WorkerStatus.
Proof. solve_decision. Defined.

Inductive BaselineKind :=
  | LAST_VALUE | SEASONAL_NAIVE | ARIMA_COMPATIBLE | GARCH_COMPATIBLE
  | GRADIENT_BOOSTING | COMPACT_TEMPORAL.
#[export] Instance BaselineKind_eq_dec : EqDecision BaselineKind.
Proof. solve_decision. Defined.

(** ** Requests and contexts *)

Record TimeSeriesPoint := {
  pt_event_time : Z;
  pt_available : Z;
  pt_value : Z;
}.

Record KnownFutureCovariate := {
  cv_horizon : Z;
  cv_event_time : Z;
  cv_known : Z;
  cv_time_of_day : Z;
  cv_session_state : SessionState;
  cv_event_flags : Z;
}.

Record ContextBuildRequest := {
  instrument_id : Identifier128;
  session_id : Identifier128;
  feature_snapshot_id : Identifier128;
  configuration_version : Identifier128;
  feature_definition_version : Identifier128;
  source_first_global_event_id : Identifier128;
  source_last_global_event_id : Identifier128;
  target : ForecastTarget;
  as_of_exchange_event_time_ns : Z;
  point_in_time_wall_clock_utc_ns : Z;
  built_process_monotonic_time_ns : Z;
  source_payload_sha256 : pybytes;
  horizons_ns : list Z;
  quantiles_ppm : Z * Z * Z;
  history : list TimeSeriesPoint;
  future_covariates : list KnownFutureCovariate;
}.

(** A context has the fields of the request it was built from and its digest. *)
Record ForecastContext := {
  fields :> ContextBuildRequest;
  context_sha256 : pybytes;
}.

#[export] Instance TimeSeriesPoint_eq_dec : EqDecision TimeSeriesPoint.
Proof. solve_decision. Defined.
#[export] Instance KnownFutureCovariate_eq_dec : EqDecision KnownFutureCovariate.
Proof. solve_decision. Defined.
#[export] Instance ContextBuildRequest_eq_dec : EqDecision ContextBuildRequest.
Proof. solve_decision. Defined.
#[export] Instance ForecastContext_eq_dec : EqDecision ForecastContext.
Proof. solve_decision. Defined.

Definition target_bounds (t : ForecastTarget) : Z * Z :=
  match t with
  | RETURN | MARKET_FACTOR | SECTOR_FACTOR => (-10000000, 10000000)
  | REALIZED_VOLATILITY => (0, 10000000)
  | VOLUME => (0, 1000000000000)
  | SPREAD => (0, 1000000000)
  end.

Definition in_bounds (t : ForecastTarget) (v : Z) : bool :=
  ((target_bounds t).1 <=? v) && (v <=? (target_bounds t).2).

(** ** Validation *)

Definition quantile_list (q : Z * Z * Z) : list Z := [q.1.1; q.1.2; q.2].

(** [ContextBuilder.__init__]: the value it keeps. *)
Definition new_builder (minimum_history : Z) : res Z :=
  do! raise_when (negb ((MIN_HISTORY_POINTS <=? minimum_history)
                        && (minimum_history <=? MAX_HISTORY_POINTS))) ValueError
        "minimum history is outside the supported bound" in
  Ok minimum_history.

Definition validate_shape (minimum_history : Z) (r : ContextBuildRequest) : res unit :=
  let n := Z.of_nat (length (history r)) in
  let h := Z.of_nat (length (horizons_ns r)) in
  let '(q0, q1, q2) := quantiles_ppm r in
  do! raise_when (negb ((minimum_history <=? n) && (n <=? MAX_HISTORY_POINTS))) ValueError
        "history length is outside the configured bound" in
  do! raise_when (negb ((0 <? h) && (h <=? MAX_HORIZONS))
                  || existsb (fun v => v <=? 0) (horizons_ns r)) ValueError
        "horizon set is empty or outside the configured bound" in
  do! raise_when (existsb (fun p => p.2 <=? p.1) (pairwise (horizons_ns r))) ValueError
        "horizons must be strictly increasing" in
  do! raise_when (negb (Z.of_nat (size (list_to_set (C := gset Z) [q0; q1; q2]))
                        =? QUANTILE_COUNT)
                  || negb ((0 <=? q0) && (q0 <? q1) && (q1 <? q2) && (q2 <=? PPM))) ValueError
        "quantiles must be three distinct increasing PPM values" in
  do! raise_when (negb (Z.of_nat (length (source_payload_sha256 r)) =? 32)) ValueError
        "source payload SHA-256 must contain exactly 32 bytes" in
  raise_when ((as_of_exchange_event_time_ns r <=? 0)
              || (point_in_time_wall_clock_utc_ns r <=? 0)
              || (built_process_monotonic_time_ns r <=? 0)) ValueError
    "context timestamps, including monotonic time, must be positive".

(** The loop of [_validate_history]; it returns the last event time. *)
Fixpoint history_loop (r : ContextBuildRequest) (previous : Z) (l : list TimeSeriesPoint)
    : res Z :=
  match l with
  | [] => Ok previous
  | p :: t =>
      do! raise_when (pt_event_time p <=? previous) ValueError
            "history exchange timestamps must be strictly increasing" in
      do! raise_when (as_of_exchange_event_time_ns r <? pt_event_time p) ValueError
            "history contains an event after the as-of time" in
      do! raise_when (negb ((0 <? pt_available p)
                            && (pt_available p <=? point_in_time_wall_clock_utc_ns r)))
            ValueError "history violates the point-in-time availability cutoff" in
      do! raise_when (negb (in_bounds (target r) (pt_value p))) ValueError
            "history value is outside the target unit range" in
      history_loop r (pt_event_time p) t
  end.

Definition validate_history (r : ContextBuildRequest) : res unit :=
  let! previous := history_loop r 0 (history r) in
  raise_when (negb (previous =? as_of_exchange_event_time_ns r)) ValueError
    "as-of time must identify the final history observation".

Definition validate_covariate (r : ContextBuildRequest) (hc : Z * KnownFutureCovariate)
    : res unit :=
  let (horizon, c) := hc in
  do! raise_when (negb (cv_horizon c =? horizon)) ValueError
        "future covariate horizon does not match the request" in
  do! raise_when (negb (cv_event_time c =? as_of_exchange_event_time_ns r + horizon)) ValueError
        "future timestamp does not equal as-of plus horizon" in
  do! raise_when (negb ((0 <? cv_known c) && (cv_known c <=? point_in_time_wall_clock_utc_ns r)))
        ValueError "future covariate violates the point-in-time cutoff" in
  do! raise_when (negb ((0 <=? cv_time_of_day c) && (cv_time_of_day c <? SECONDS_PER_DAY)))
        ValueError "time-of-day covariate is outside the session day" in
  do! raise_when (bool_decide (cv_session_state c = SS_UNKNOWN)) ValueError
        "future covariate session state is unknown" in
  raise_when (negb ((0 <=? cv_event_flags c)
                    && (cv_event_flags c <=? MAX_SCHEDULED_EVENT_FLAGS))) ValueError
    "scheduled-event flags are outside uint32".

Definition validate_covariates (r : ContextBuildRequest) : res unit :=
  do! raise_when (negb (Z.of_nat (length (future_covariates r))
                        =? Z.of_nat (length (horizons_ns r)))) ValueError
        "one future covariate is required for every horizon" in
  res_iter (validate_covariate r) (combine (horizons_ns r) (future_covariates r)).

(** ** Encoding *)

(** [asdict(item)] *)
Definition point_document (p : TimeSeriesPoint) : json :=
  JObj [(str "exchange_event_time_ns", JInt (pt_event_time p));
        (str "available_wall_clock_utc_ns", JInt (pt_available p));
        (str "value", JInt (pt_value p))].

Definition covariate_document (c : KnownFutureCovariate) : json :=
  JObj [(str "horizon_ns", JInt (cv_horizon c));
        (str "exchange_event_time_ns", JInt (cv_event_time c));
        (str "known_wall_clock_utc_ns", JInt (cv_known c));
        (str "time_of_day_second", JInt (cv_time_of_day c));
        (str "session_state", JInt (SessionState_value (cv_session_state c)));
        (str "scheduled_event_flags", JInt (cv_event_flags c))].

Definition context_payload (c : ContextBuildRequest) : list (pystr * json) :=
  [(str "as_of_exchange_event_time_ns", JInt (as_of_exchange_event_time_ns c));
   (str "built_process_monotonic_time_ns", JInt (built_process_monotonic_time_ns c));
   (str "configuration_version", JStr (id_hex (configuration_version c)));
   (str "feature_definition_version", JStr (id_hex (feature_definition_version c)));
   (str "feature_snapshot_id", JStr (id_hex (feature_snapshot_id c)));
   (str "future_covariates", JArr (map covariate_document (future_covariates c)));
   (str "history", JArr (map point_document (history c)));
   (str "horizons_ns", JArr (map JInt (horizons_ns c)));
   (str "instrument_id", JStr (id_hex (instrument_id c)));
   (str "point_in_time_wall_clock_utc_ns", JInt (point_in_time_wall_clock_utc_ns c));
   (str "quantiles_ppm", JArr (map JInt (quantile_list (quantiles_ppm c))));
   (str "session_id", JStr (id_hex (session_id c)));
   (str "source_first_global_event_id", JStr (id_hex (source_first_global_event_id c)));
   (str "source_last_global_event_id", JStr (id_hex (source_last_global_event_id c)));
   (str "source_payload_sha256", JStr (bytes_hex (source_payload_sha256 c)));
   (str "target", JStr (lower (ForecastTarget_name (target c))))].

(** [json.dumps(...).encode("ascii")]; the text is already ASCII. *)
Definition canonical_context_bytes (payload : list (pystr * json)) : res pybytes :=
  dumps (JObj payload).

(** [ContextBuilder.build] *)
Definition build (minimum_history : Z) (r : ContextBuildRequest) : res ForecastContext :=
  do! validate_shape minimum_history r in
  do! validate_history r in
  do! validate_covariates r in
  let! b := canonical_context_bytes (context_payload r) in
  Ok {| fields := r; context_sha256 := sha256 b |}.

Definition encode_context (c : ForecastContext) : res pybytes :=
  let! encoded := canonical_context_bytes
    (context_payload c ++ [(str "context_sha256", JStr (bytes_hex (context_sha256 c)))]) in
  do! raise_when (MAX_CONTEXT_BYTES <? Z.of_nat (length encoded)) ValueError
        "encoded context exceeds the service bound" in
  Ok encoded.

(** ** Decoding *)

(** [str(v)] for a JSON value.  [None] stands for the text of a float or of a
    container, which always has a character that is neither a hexadecimal digit
    nor part of a target name. *)
Definition str_of (v : json) : option pystr :=
  match v with
  | JStr s => Some s
  | JInt n => Some (repr_int n)
  | JBool true => Some (str "True")
  | JBool false => Some (str "False")
  | JNull => Some (str "None")
  | _ => None
  end.

Definition target_of (v : json) : res ForecastTarget :=
  match str_of v with
  | Some s => ForecastTarget_named (upper s)
  | None => raise KeyError "unknown target"
  end.

Definition digest_of (v : json) : res pybytes :=
  match str_of v with
  | Some s => bytes_fromhex s
  | None => raise ValueError "non-hexadecimal number found in fromhex() arg"
  end.

Definition require_mapping (v : json) : res (list (pystr * json)) :=
  match v with
  | JObj m => Ok m
  | _ => raise ValueError "context JSON root must be an object"
  end.

Definition require_int (v : json) (field : string) : res Z :=
  match v with
  | JInt n => Ok n
  | _ => raise ValueError (field +:+ " must be an integer")
  end.

Definition require_list (v : json) (field : string) : res (list json) :=
  match v with
  | JArr l => Ok l
  | _ => raise ValueError (field +:+ " must be an array")
  end.

Definition require_int_list (v : json) (field : string) : res (list Z) :=
  let! l := require_list v field in
  res_map (fun x => require_int x field) l.

(** [_require_int(_require_mapping(item)\[key\], field)] *)
Definition item_int (item : json) (key : string) (field : string) : res Z :=
  let! m := require_mapping item in
  let! v := jget (str key) m in
  require_int v field.

Definition decode_point (item : json) : res TimeSeriesPoint :=
  let! e := item_int item "exchange_event_time_ns" "history.exchange_event_time_ns" in
  let! a := item_int item "available_wall_clock_utc_ns" "history.available_wall_clock_utc_ns" in
  let! v := item_int item "value" "history.value" in
  Ok {| pt_event_time := e; pt_available := a; pt_value := v |}.

Definition decode_covariate (item : json) : res KnownFutureCovariate :=
  let! h := item_int item "horizon_ns" "covariate.horizon_ns" in
  let! e := item_int item "exchange_event_time_ns" "covariate.exchange_event_time_ns" in
  let! k := item_int item "known_wall_clock_utc_ns" "covariate.known_wall_clock_utc_ns" in
  let! d := item_int item "time_of_day_second" "covariate.time_of_day_second" in
  let! n := item_int item "session_state" "covariate.session_state" in
  let! s := SessionState_of n in
  let! f := item_int item "scheduled_event_flags" "covariate.scheduled_event_flags" in
  Ok {| cv_horizon := h; cv_event_time := e; cv_known := k; cv_time_of_day := d;
        cv_session_state := s; cv_event_flags := f |}.

(** [_identifier] *)
Definition identifier (v : json) (field : string) : res Identifier128 :=
  match v with
  | JStr value =>
      do! raise_when (negb (Z.of_nat (length value) =? IDENTIFIER_HEX_LENGTH)) ValueError
            (field +:+ " must be a 32-character identifier") in
      match int_base16 (take 16 value), int_base16 (drop 16 value) with
      | Some h, Some l =>
          do! raise_when (negb (bool_decide (value = lower value))) ValueError
                (field +:+ " must be lowercase hexadecimal") in
          new_identifier h l
      | _, _ => raise ValueError (field +:+ " must be lowercase hexadecimal")
      end
  | _ => raise ValueError (field +:+ " must be a 32-character identifier")
  end.

Definition get_identifier (m : list (pystr * json)) (key : string) : res Identifier128 :=
  let! v := jget (str key) m in identifier v key.

Definition get_int (m : list (pystr * json)) (key : string) : res Z :=
  let! v := jget (str key) m in require_int v key.

Definition expected_keys : gset pystr :=
  list_to_set (map str
    ["as_of_exchange_event_time_ns"; "built_process_monotonic_time_ns";
     "configuration_version"; "context_sha256"; "feature_definition_version";
     "feature_snapshot_id"; "future_covariates"; "history"; "horizons_ns"; "instrument_id";
     "point_in_time_wall_clock_utc_ns"; "quantiles_ppm"; "session_id";
     "source_first_global_event_id"; "source_last_global_event_id"; "source_payload_sha256";
     "target"]%string).

(** The fields read inside the [try] block. *)
Definition decode_series (m : list (pystr * json))
    : res (ForecastTarget * list TimeSeriesPoint * list KnownFutureCovariate
           * pybytes * pybytes) :=
  let! v := jget (str "target") m in
  let! t := target_of v in
  let! hv := jget (str "history") m in
  let! cv := jget (str "future_covariates") m in
  let! hl := require_list hv "history" in
  let! cl := require_list cv "future_covariates" in
  let! h := res_map decode_point hl in
  let! c := res_map decode_covariate cl in
  let! sv := jget (str "source_payload_sha256") m in
  let! s := digest_of sv in
  let! dv := jget (str "context_sha256") m in
  let! d := digest_of dv in
  Ok (t, h, c, s, d).

(** The request and the digest that the members of a context state. *)
Definition decode_members (m : list (pystr * json)) : res (ContextBuildRequest * pybytes) :=
  do! raise_when (negb (bool_decide (list_to_set (map fst m) = expected_keys))) ValueError
        "context JSON fields do not match the schema" in
  let! fs := try_except (decode_series m) [KeyError; TypeError; ValueError]
               (fun _ => raise ValueError "context JSON contains a malformed field") in
  let '(t, h, c, s, d) := fs in
  let! qv := jget (str "quantiles_ppm") m in
  let! q := require_int_list qv "quantiles_ppm" in
  match q with
  | [q0; q1; q2] =>
      let! i := get_identifier m "instrument_id" in
      let! se := get_identifier m "session_id" in
      let! fsn := get_identifier m "feature_snapshot_id" in
      let! cfg := get_identifier m "configuration_version" in
      let! fdv := get_identifier m "feature_definition_version" in
      let! sf := get_identifier m "source_first_global_event_id" in
      let! sl := get_identifier m "source_last_global_event_id" in
      let! asof := get_int m "as_of_exchange_event_time_ns" in
      let! pit := get_int m "point_in_time_wall_clock_utc_ns" in
      let! built := get_int m "built_process_monotonic_time_ns" in
      let! hz := jget (str "horizons_ns") m in
      let! hs := require_int_list hz "horizons_ns" in
      Ok ({| instrument_id := i; session_id := se; feature_snapshot_id := fsn;
             configuration_version := cfg; feature_definition_version := fdv;
             source_first_global_event_id := sf; source_last_global_event_id := sl;
             target := t; as_of_exchange_event_time_ns := asof;
             point_in_time_wall_clock_utc_ns := pit; built_process_monotonic_time_ns := built;
             source_payload_sha256 := s; horizons_ns := hs; quantiles_ppm := (q0, q1, q2);
             history := h; future_covariates := c |}, d)
  | _ => raise ValueError "quantiles_ppm must contain three values"
  end.

(** [ContextBuilder()] *)
Definition DEFAULT_MINIMUM_HISTORY : Z := 16.

Definition decode_context (encoded : pybytes) : res ForecastContext :=
  do! raise_when (bool_decide (encoded = [])
                  || (MAX_CONTEXT_BYTES <? Z.of_nat (length encoded))) ValueError
        "encoded context size is invalid" in
  let! payload := try_except (let! text := ascii_decode encoded in
                              let! v := loads text in require_mapping v)
                    [UnicodeError; JSONDecodeError]
                    (fun _ => raise ValueError "encoded context must be canonical ASCII JSON") in
  let! rd := decode_members payload in
  let! context := build DEFAULT_MINIMUM_HISTORY rd.1 in
  do! raise_when (negb (bool_decide (context_sha256 context = rd.2))) ValueError
        "context SHA-256 does not match its canonical fields" in
  Ok context.

(** ** Derived identifiers and checkpoints *)

Inductive part := PBytes (b : pybytes) | PStr (s : pystr) | PInt (n : Z).

(** [s.encode("ascii")] *)
Definition ascii_encode (s : pystr) : res pybytes :=
  do! raise_when (negb (forallb is_ascii s)) UnicodeError "ordinal not in range(128)" in Ok s.

Definition part_bytes (p : part) : res pybytes :=
  match p with
  | PBytes b => Ok b
  | PStr s => ascii_encode s
  | PInt n => let! s := int_str n in ascii_encode s
  end.

(** [digest.update(len(encoded).to_bytes(8, "big")); digest.update(encoded)] *)
Definition framed (encoded : pybytes) : pybytes :=
  be_bytes 8 (Z.of_nat (length encoded)) ++ encoded.

Definition be_int (b : pybytes) : Z := foldl (fun acc x => acc * 256 + x) 0 b.

(** The hashed bytes. *)
Definition identifier_preimage (domain : pystr) (parts : list part) : res pybytes :=
  let! d := ascii_encode domain in
  let! encoded := res_map part_bytes parts in
  Ok (str "aegis-mx-timeseries-v1" ++ [0] ++ d ++ flat_map framed encoded).

Definition derived_identifier (domain : pystr) (parts : list part) : res Identifier128 :=
  let! b := identifier_preimage domain parts in
  let raw := take 16 (sha256 b) in
  let h := be_int (take 8 raw) in
  let l := be_int (drop 8 raw) in
  new_identifier h (if negb (h =? 0) || negb (l =? 0) then l else 1).

Definition validate_checkpoint_sha256 (value : option pystr) : res unit :=
  match value with
  | None => Ok tt
  | Some v =>
      do! raise_when (negb (Z.of_nat (length v) =? SHA256_HEX_LENGTH)
                      || negb (bool_decide (v = lower v))) ValueError
            "checkpoint SHA-256 must be 64 lowercase hexadecimal characters" in
      let! _ := try_except (bytes_fromhex v) [ValueError]
                  (fun _ => raise ValueError "checkpoint SHA-256 must be hexadecimal") in
      Ok tt
  end.

Record ModelIdentity := { mi_model_id : Identifier128; mi_model_version : Identifier128 }.

(** ** What a valid request is *)

Definition point_valid (r : ContextBuildRequest) (p : TimeSeriesPoint) : Prop :=
  0 < pt_event_time p <= as_of_exchange_event_time_ns r /\
  0 < pt_available p <= point_in_time_wall_clock_utc_ns r /\
  (target_bounds (target r)).1 <= pt_value p <= (target_bounds (target r)).2.

Definition covariate_valid (r : ContextBuildRequest) (h : Z) (c : KnownFutureCovariate) : Prop :=
  cv_horizon c = h /\ cv_event_time c = as_of_exchange_event_time_ns r + h /\
  0 < cv_known c <= point_in_time_wall_clock_utc_ns r /\
  0 <= cv_time_of_day c < SECONDS_PER_DAY /\ cv_session_state c <> SS_UNKNOWN /\
  0 <= cv_event_flags c < 2 ^ 32.

Record request_valid (minimum_history : Z) (r : ContextBuildRequest) : Prop := {
  rv_history_length : minimum_history <= Z.of_nat (length (history r)) <= MAX_HISTORY_POINTS;
  rv_horizon_count : 0 < Z.of_nat (length (horizons_ns r)) <= MAX_HORIZONS;
  rv_horizons_positive : Forall (fun h => 0 < h) (horizons_ns r);
  rv_horizons_increase : StronglySorted Z.lt (horizons_ns r);
  rv_quantiles : 0 <= (quantiles_ppm r).1.1 < (quantiles_ppm r).1.2 /\
                 (quantiles_ppm r).1.2 < (quantiles_ppm r).2 <= PPM;
  rv_digest : length (source_payload_sha256 r) = 32%nat;
  rv_times : 0 < as_of_exchange_event_time_ns r /\ 0 < point_in_time_wall_clock_utc_ns r /\
             0 < built_process_monotonic_time_ns r;
  rv_points : Forall (point_valid r) (history r);
  rv_order : StronglySorted (fun p q => pt_event_time p < pt_event_time q) (history r);
  rv_last : pt_event_time <$> last (history r) = Some (as_of_exchange_event_time_ns r);
  rv_covariates : Forall2 (covariate_valid r) (horizons_ns r) (future_covariates r);
}.

(** ** The builder accepts exactly the valid requests *)

Lemma pairwise_increasing l :
  existsb (fun p => p.2 <=? p.1) (pairwise l) = false <-> StronglySorted Z.lt l.
Proof.
  induction l as [|x [|y l] IH].
  - split; [constructor | done].
  - split; [by repeat constructor | done].
  - change (pairwise (x :: y :: l)) with ((x, y) :: pairwise (y :: l)). cbn [existsb fst snd].
    rewrite orb_false_iff, IH. split.
    + intros [Hxy Hs]. constructor; [done|]. apply StronglySorted_inv in Hs as Hs'.
      destruct Hs' as [_ Hy]. constructor; [lia|].
      eapply Forall_impl; [exact Hy|]. intros z ?. lia.
    + intros [Hs Hx]%StronglySorted_inv. apply Forall_cons in Hx as [? _]. split; [lia|done].
Qed.

Lemma size_three (a b c : Z) :
  a < b -> b < c -> size (list_to_set (C := gset Z) [a; b; c]) = 3%nat.
Proof.
  intros. rewrite size_list_to_set; [done|].
  repeat (apply NoDup_cons; split; [set_unfold; lia|]). apply NoDup_nil_2.
Qed.

Lemma validate_shape_ok m r u :
  validate_shape m r = Ok u <->
  (m <= Z.of_nat (length (history r)) <= MAX_HISTORY_POINTS) /\
  (0 < Z.of_nat (length (horizons_ns r)) <= MAX_HORIZONS) /\
  Forall (fun h => 0 < h) (horizons_ns r) /\ StronglySorted Z.lt (horizons_ns r) /\
  (0 <= (quantiles_ppm r).1.1 < (quantiles_ppm r).1.2 /\
   (quantiles_ppm r).1.2 < (quantiles_ppm r).2 <= PPM) /\
  length (source_payload_sha256 r) = 32%nat /\
  (0 < as_of_exchange_event_time_ns r /\ 0 < point_in_time_wall_clock_utc_ns r /\
   0 < built_process_monotonic_time_ns r).
Proof.
  destruct u. unfold validate_shape. destruct (quantiles_ppm r) as [[q0 q1] q2]. cbn [fst snd].
  rewrite <- pairwise_increasing. split.
  - intros H. inv_ok. bprop. repeat match goal with |- _ /\ _ => split end; try done; try lia.
    apply Forall_forall. intros h Hh. destruct (existsb _ _) eqn:E; [done|].
    destruct (decide (0 < h)); [done|].
    assert (existsb (fun v => v <=? 0) (horizons_ns r) = true); [|congruence].
    apply existsb_exists. exists h. split; [by apply list_elem_of_In | lia].
  - intros (H1 & H2 & H3 & H4 & H5 & H6 & H7).
    assert (E : existsb (fun v => v <=? 0) (horizons_ns r) = false).
    { apply not_true_iff_false. intros (h & Hh & Hle)%existsb_exists.
      rewrite Forall_forall in H3. apply list_elem_of_In, H3 in Hh. lia. }
    rewrite E, H4, size_three by lia. change (Z.of_nat 3 =? QUANTILE_COUNT) with true. cbn [negb orb].
    pass_guards. done.
Qed.

Lemma history_loop_ok r l previous z :
  history_loop r previous l = Ok z <->
  Forall (fun p => previous < pt_event_time p <= as_of_exchange_event_time_ns r /\
    0 < pt_available p <= point_in_time_wall_clock_utc_ns r /\
    (target_bounds (target r)).1 <= pt_value p <= (target_bounds (target r)).2) l /\
  StronglySorted (fun p q => pt_event_time p < pt_event_time q) l /\
  z = default previous (pt_event_time <$> last l).
Proof.
  revert previous. induction l as [|p l IH]; intros previous; cbn [history_loop].
  - split; [intros [= <-]; repeat constructor | by intros (_ & _ & ->)].
  - unfold in_bounds. split.
    + intros H. inv_ok. bprop. apply IH in H as (Hf & Hs & ->). split; [|split].
      * constructor; [lia|]. eapply Forall_impl; [exact Hf|]. intros q Hq; cbn beta in *; lia.
      * constructor; [done|]. eapply Forall_impl; [exact Hf|]. intros q Hq; cbn beta in *; lia.
      * rewrite last_cons. by destruct (last l).
    + intros (Hf & Hs & ->). apply Forall_cons in Hf as [Hp Hf].
      apply StronglySorted_inv in Hs as [Hs Hlt].
      pass_guards. apply IH. split; [|split; [done|]].
      * rewrite Forall_forall in Hf, Hlt |- *. intros q Hq. specialize (Hf q Hq).
        specialize (Hlt q Hq). lia.
      * rewrite last_cons. by destruct (last l).
Qed.

Lemma validate_history_ok r u :
  0 < as_of_exchange_event_time_ns r ->
  validate_history r = Ok u <->
  Forall (point_valid r) (history r) /\
  StronglySorted (fun p q => pt_event_time p < pt_event_time q) (history r) /\
  pt_event_time <$> last (history r) = Some (as_of_exchange_event_time_ns r).
Proof.
  intros Hpos. destruct u. unfold validate_history. rewrite rbind_ok.
  setoid_rewrite history_loop_ok. setoid_rewrite raise_when_ok. unfold point_valid. split.
  - intros (z & (Hf & Hs & ->) & Hz). split; [done|]. split; [done|].
    apply negb_false_iff, Z.eqb_eq in Hz.
    destruct (last (history r)); simpl in *; [f_equal; lia | exfalso; lia].
  - intros (Hf & Hs & Hl). eexists. split; [done|]. rewrite Hl. simpl. lia.
Qed.

Lemma validate_covariate_ok r h c u :
  validate_covariate r (h, c) = Ok u <-> covariate_valid r h c.
Proof.
  destruct u. unfold validate_covariate, covariate_valid, MAX_SCHEDULED_EVENT_FLAGS. split.
  - intros H. inv_ok. bprop. repeat match goal with |- _ /\ _ => split end; try done; lia.
  - intros (H1 & H2 & H3 & H4 & H5 & H6). rewrite bool_decide_eq_false_2 by done.
    pass_guards. done.
Qed.

Lemma validate_covariates_ok r u :
  validate_covariates r = Ok u <-> Forall2 (covariate_valid r) (horizons_ns r) (future_covariates r).
Proof.
  destruct u. unfold validate_covariates. rewrite rbind_ok. setoid_rewrite res_iter_ok.
  setoid_rewrite raise_when_ok.
  split.
  - intros ([] & Hl & Hf). assert (Hlen : length (horizons_ns r) = length (future_covariates r)) by lia.
    clear Hl. revert Hlen Hf. generalize (future_covariates r).
    induction (horizons_ns r) as [|h hs IH]; intros [|c cs] Hlen Hf; try done.
    simpl in Hf. apply Forall_cons in Hf as [Hc Hf]. constructor.
    + by apply (validate_covariate_ok r h c tt).
    + apply IH; [simpl in Hlen; lia | done].
  - intros H. exists tt. split; [apply Forall2_length in H; lia|].
    induction H as [|h c hs cs Hc _ IH]; [constructor|]. simpl. constructor; [|done].
    by apply validate_covariate_ok.
Qed.

Lemma build_ok m r c :
  build m r = Ok c <->
  request_valid m r /\ exists b, canonical_context_bytes (context_payload r) = Ok b /\
    c = {| fields := r; context_sha256 := sha256 b |}.
Proof.
  unfold build. split.
  - intros H. apply rbind_ok in H as ([] & Hs & H). apply rbind_ok in H as ([] & Hh & H).
    apply rbind_ok in H as ([] & Hc & H). apply rbind_ok in H as (b & Hb & [= <-]).
    apply validate_shape_ok in Hs as (H1 & H2 & H3 & H4 & H5 & H6 & H7).
    apply validate_history_ok in Hh as (H8 & H9 & H10); [|apply H7].
    apply validate_covariates_ok in Hc. split; [by split | eauto].
  - intros ([H1 H2 H3 H4 H5 H6 H7 H8 H9 H10 H11] & b & Hb & ->).
    rewrite (proj2 (validate_shape_ok m r tt)) by done. simpl.
    rewrite (proj2 (validate_history_ok r tt (proj1 H7))) by done. simpl.
    rewrite (proj2 (validate_covariates_ok r tt)) by done. simpl. by rewrite Hb.
Qed.

(** ** Reading back an encoded context *)

Lemma identifier_ok_range i :
  identifier_ok i <->
  0 <= high i < 2 ^ 64 /\ 0 <= low i < 2 ^ 64 /\ ~ (high i = 0 /\ low i = 0).
Proof.
  unfold identifier_ok, Identifier128_post_init. split.
  - intros H. inv_ok. bprop. lia.
  - intros (H1 & H2 & H3). by pass_guards.
Qed.

Lemma id_hex_hexc i : Forall hexc (id_hex i).
Proof. unfold id_hex. apply Forall_app. split; apply hex_fixed_hexc. Qed.

Lemma identifier_hex i field : identifier_ok i -> identifier (JStr (id_hex i)) field = Ok i.
Proof.
  intros Hi. pose proof (proj1 (identifier_ok_range i) Hi) as (Hh & Hl & _).
  cbn [identifier]. unfold id_hex.
  rewrite length_app, !length_hex_fixed.
  change (Z.of_nat (16 + 16) =? IDENTIFIER_HEX_LENGTH) with true. cbn [negb raise_when rbind].
  rewrite take_app_length', drop_app_length' by (symmetry; apply length_hex_fixed).
  rewrite !int_base16_hex_fixed by (simpl; lia).
  rewrite lower_hexc by apply id_hex_hexc. rewrite bool_decide_eq_true_2 by done. simpl.
  unfold new_identifier. destruct i. unfold identifier_ok in Hi. simpl in *. by rewrite Hi.
Qed.

Lemma target_of_name t : target_of (JStr (lower (ForecastTarget_name t))) = Ok t.
Proof. by destruct t; vm_compute. Qed.

Lemma digest_of_hex b :
  Forall (fun x => 0 <= x < 256) b -> digest_of (JStr (bytes_hex b)) = Ok b.
Proof. intros H. unfold digest_of, bytes_fromhex. simpl. by rewrite fromhex_hex. Qed.

Lemma SessionState_of_value s : SessionState_of (SessionState_value s) = Ok s.
Proof. by destruct s. Qed.

Ltac read_member := norm_get; cbn [rbind require_int require_list norm].

Lemma decode_point_document p : decode_point (norm (point_document p)) = Ok p.
Proof.
  unfold decode_point, item_int, point_document. rewrite norm_obj_members. cbn [require_mapping rbind].
  repeat read_member. by destruct p.
Qed.

Lemma decode_covariate_document c : decode_covariate (norm (covariate_document c)) = Ok c.
Proof.
  unfold decode_covariate, item_int, covariate_document. rewrite norm_obj_members.
  cbn [require_mapping rbind]. repeat read_member. rewrite SessionState_of_value. cbn [rbind].
  by destruct c.
Qed.

Lemma res_map_inverse {A B C} (f : B -> res C) (g : A -> B) (h : A -> C) l :
  (forall x, f (g x) = Ok (h x)) -> res_map f (map g l) = Ok (map h l).
Proof.
  intros H. induction l as [|x l IH]; simpl; [done|]. rewrite H. simpl. by rewrite IH.
Qed.

Lemma require_int_list_ints l field : require_int_list (norm (JArr (map JInt l))) field = Ok l.
Proof.
  unfold require_int_list. cbn [norm require_list rbind]. rewrite map_map.
  rewrite (res_map_inverse _ _ id) by done. by rewrite map_id.
Qed.

(** The identifiers and the digest of a request are values of their types. *)
Definition request_typed (r : ContextBuildRequest) : Prop :=
  Forall identifier_ok
    [instrument_id r; session_id r; feature_snapshot_id r; configuration_version r;
     feature_definition_version r; source_first_global_event_id r;
     source_last_global_event_id r] /\
  Forall (fun x => 0 <= x < 256) (source_payload_sha256 r).

Definition context_members (c : ForecastContext) : list (pystr * json) :=
  context_payload c ++ [(str "context_sha256", JStr (bytes_hex (context_sha256 c)))].

Lemma context_members_nodup c : NoDup (map fst (context_members c)).
Proof. unfold context_members, context_payload. nodup_keys. Qed.

Lemma context_members_keys c :
  list_to_set (map fst (norm_members (context_members c))) = expected_keys.
Proof.
  rewrite (list_to_set_perm_L _ _ (norm_members_keys (context_members c))).
  unfold context_members, context_payload, expected_keys. cbn [map fst app].
  apply (bool_decide_unpack _). vm_compute. exact I.
Qed.

Lemma decode_series_members (c : ForecastContext) :
  request_typed c -> Forall (fun x => 0 <= x < 256) (context_sha256 c) ->
  decode_series (norm_members (context_members c))
  = Ok (target c, history c, future_covariates c, source_payload_sha256 c, context_sha256 c).
Proof.
  intros [_ Hs] Hd. unfold decode_series, context_members, context_payload.
  norm_get. cbn [rbind norm]. rewrite target_of_name. cbn [rbind].
  norm_get. cbn [rbind]. norm_get. cbn [rbind norm require_list].
  rewrite !map_map, (res_map_inverse _ _ id), (res_map_inverse _ _ id)
    by (intros; apply decode_point_document || apply decode_covariate_document).
  rewrite !map_id. cbn [rbind]. norm_get. cbn [rbind norm].
  rewrite digest_of_hex by done. cbn [rbind]. norm_get. cbn [rbind norm].
  by rewrite digest_of_hex.
Qed.

Lemma decode_members_context (c : ForecastContext) :
  request_typed c -> Forall (fun x => 0 <= x < 256) (context_sha256 c) ->
  decode_members (norm_members (context_members c)) = Ok (fields c, context_sha256 c).
Proof.
  intros Ht Hd. unfold decode_members.
  rewrite context_members_keys, bool_decide_eq_true_2 by done. cbn [negb raise_when rbind].
  rewrite decode_series_members by done. cbn [try_except rbind].
  destruct Ht as [Hids _]. repeat (apply Forall_cons in Hids as [? Hids]).
  unfold context_members, context_payload, get_identifier, get_int.
  norm_get. cbn [rbind]. rewrite require_int_list_ints. cbn [rbind quantile_list].
  repeat (norm_get; cbn [rbind norm require_int]; rewrite ?identifier_hex by done; cbn [rbind]).
  change (JArr (map norm (map JInt (horizons_ns c)))) with (norm (JArr (map JInt (horizons_ns c)))).
  rewrite require_int_list_ints. destruct c as [[] d]. simpl. by destruct quantiles_ppm0 as [[] ?].
Qed.

Lemma nodup_json_ok m :
  NoDup (map fst m) -> Forall (fun k => text_ok k) (map fst m) ->
  Forall (fun kv => json_ok kv.2) m -> json_ok (JObj m).
Proof.
  intros Hnd Hk Hv. apply json_ok_obj. split; [done|]. clear Hnd.
  induction m as [|[k v] m IH]; [constructor|]. simpl in Hk.
  apply Forall_cons in Hk as [? ?]. apply Forall_cons in Hv as [? ?].
  constructor; [by split | auto].
Qed.

Ltac literal_ok :=
  apply nodup_json_ok;
  [ nodup_keys
  | cbn [map fst app]; repeat (apply Forall_cons; split; [apply str_text_ok|]); apply Forall_nil_2
  | cbn [app];
    repeat match goal with
    | |- Forall _ (_ :: _) => apply Forall_cons; split; [cbn [snd]|]
    | |- Forall _ [] => apply Forall_nil_2
    end ];
  try exact I.

Lemma json_ok_map {A} (f : A -> json) l : (forall x, json_ok (f x)) -> json_ok (JArr (map f l)).
Proof. intros H. apply json_ok_arr, Forall_fmap, Forall_forall. intros x _. apply H. Qed.

Lemma lower_text_ok s : text_ok s -> text_ok (lower s).
Proof.
  intros H. apply Forall_fmap. eapply Forall_impl; [exact H|]. intros c [Hc Hs]. simpl.
  unfold is_surrogate in *. case_match; lia.
Qed.

Lemma context_members_ok (c : ForecastContext) :
  request_typed c -> Forall (fun x => 0 <= x < 256) (context_sha256 c) ->
  json_ok (JObj (context_members c)).
Proof.
  intros [_ Hs] Hd. unfold context_members, context_payload. literal_ok;
    match goal with
    | |- json_ok (JStr (id_hex ?i)) => exact (hexc_text_ok _ (id_hex_hexc i))
    | |- json_ok (JStr (bytes_hex ?b)) => apply (bytes_hex_text_ok b); assumption
    | |- json_ok (JStr (lower ?s)) => apply (lower_text_ok s); by destruct (target c); apply str_text_ok
    | |- json_ok (JArr (map covariate_document _)) =>
        apply json_ok_map; intros x; unfold covariate_document; literal_ok
    | |- json_ok (JArr (map point_document _)) =>
        apply json_ok_map; intros x; unfold point_document; literal_ok
    | |- json_ok (JArr (map JInt _)) => apply json_ok_map; intros x; exact I
    end.
Qed.

Lemma decode_encoded (c : ForecastContext) b :
  request_typed c -> Forall (fun x => 0 <= x < 256) (context_sha256 c) ->
  build DEFAULT_MINIMUM_HISTORY c = Ok c -> encode_context c = Ok b -> decode_context b = Ok c.
Proof.
  intros Ht Hd Hb He. unfold encode_context in He. inv_ok.
  change (dumps (JObj (context_members c)) = Ok b) in Ha.
  pose proof (context_members_ok c Ht Hd) as Hok. unfold decode_context.
  pose proof (dumps_printable _ _ Hok Ha) as Hp. pose proof (loads_dumps _ _ Hok Ha) as Hl.
  rewrite (raise_when_false (bool_decide (b = []) || _)).
  - cbn [rbind]. unfold ascii_decode. rewrite (proj2 (forallb_forall is_ascii b)).
    + cbn [rbind]. rewrite Hl, norm_obj_members. cbn [rbind require_mapping try_except].
      rewrite decode_members_context by done. cbn [rbind fst snd]. rewrite Hb. cbn [rbind].
      by rewrite bool_decide_eq_true_2.
    + intros x Hx%list_elem_of_In. unfold printable in Hp. rewrite Forall_forall in Hp.
      specialize (Hp x Hx). unfold is_ascii. lia.
  - rewrite Ha0, orb_false_r. apply bool_decide_eq_false. intros ->.
    discriminate Hl.
Qed.

(** ** Errors of the builder *)

Lemma validate_raises m r :
  raises_only ValueError (validate_shape m r) /\ raises_only ValueError (validate_history r) /\
  raises_only ValueError (validate_covariates r).
Proof.
  split; [|split].
  - unfold validate_shape. destruct (quantiles_ppm r) as [[q0 q1] q2]. auto 10 with py.
  - unfold validate_history. apply raises_only_bind; [|auto with py].
    generalize 0. induction (history r) as [|p l IH]; intros z; simpl; auto 10 with py.
  - unfold validate_covariates, validate_covariate.
    apply raises_only_bind; [auto with py|]. intros _. apply raises_only_iter.
    intros [h c]. auto 10 with py.
Qed.

Lemma build_invalid m r :
  ~ request_valid m r -> exists msg, build m r = Err (Exn ValueError msg).
Proof.
  intros Hinv. destruct (validate_raises m r) as (Hs & Hh & Hc). unfold build.
  destruct (validate_shape m r) as [[]|[c msg]] eqn:E1; simpl.
  2:{ specialize (Hs _ eq_refl). simpl in Hs. subst. eauto. }
  destruct (validate_history r) as [[]|[c msg]] eqn:E2; simpl.
  2:{ specialize (Hh _ eq_refl). simpl in Hh. subst. eauto. }
  destruct (validate_covariates r) as [[]|[c msg]] eqn:E3; simpl.
  2:{ specialize (Hc _ eq_refl). simpl in Hc. subst. eauto. }
  destruct Hinv. apply validate_shape_ok in E1 as (H1 & H2 & H3 & H4 & H5 & H6 & H7).
  apply validate_history_ok in E2 as (H8 & H9 & H10); [|apply H7].
  apply validate_covariates_ok in E3. by split.
Qed.

(** ** Framing of derived identifiers *)

Lemma be_int_app a b : be_int (a ++ b) = foldl (fun acc x => acc * 256 + x) (be_int a) b.
Proof. apply foldl_app. Qed.

Lemma be_int_be_bytes w n : 0 <= n < 256 ^ Z.of_nat w -> be_int (be_bytes w n) = n.
Proof.
  revert n. induction w as [|w IH]; intros n Hn; [simpl in *; unfold be_int; simpl; lia|].
  simpl. rewrite be_int_app, IH; simpl.
  - rewrite Z.mul_comm. symmetry. apply Z.div_mod. lia.
  - rewrite Nat2Z.inj_succ, Z.pow_succ_r in Hn by lia. Z.div_mod_to_equations. lia.
Qed.

Lemma framed_cons_inj a b x y :
  Z.of_nat (length a) < 256 ^ 8 -> Z.of_nat (length b) < 256 ^ 8 ->
  framed a ++ x = framed b ++ y -> a = b /\ x = y.
Proof.
  intros Ha Hb H. unfold framed in H. rewrite <- !app_assoc in H.
  apply app_inj_1 in H as [Hl H]; [|by rewrite !length_be_bytes].
  apply (f_equal be_int) in Hl. rewrite !be_int_be_bytes in Hl by (simpl; lia).
  by apply app_inj_1 in H as [-> ->]; [|lia].
Qed.

Lemma framed_inj l k :
  Forall (fun b => Z.of_nat (length b) < 256 ^ 8) l ->
  Forall (fun b => Z.of_nat (length b) < 256 ^ 8) k ->
  flat_map framed l = flat_map framed k -> l = k.
Proof.
  revert k. induction l as [|a l IH]; intros [|b k] Hl Hk H; [done| | |].
  - apply (f_equal length) in H. cbn [flat_map length] in H. unfold framed in H.
    rewrite !length_app, length_be_bytes in H. lia.
  - apply (f_equal length) in H. cbn [flat_map length] in H. unfold framed in H.
    rewrite !length_app, length_be_bytes in H. lia.
  - apply Forall_cons in Hl as [Ha Hl], Hk as [Hb Hk]. cbn [flat_map] in H.
    apply framed_cons_inj in H as [-> H]; [|done|done]. f_equal. by apply IH.
Qed.

Lemma be_int_range b : Forall (fun x => 0 <= x < 256) b -> 0 <= be_int b < 256 ^ Z.of_nat (length b).
Proof.
  induction b as [|x b IH] using rev_ind; intros H; [unfold be_int; simpl; lia|].
  apply Forall_app in H as [Hb Hx]. apply Forall_cons in Hx as [Hx _].
  rewrite be_int_app, length_app. cbn [foldl length]. specialize (IH Hb). cbn beta in Hx.
  rewrite Nat.add_1_r, Nat2Z.inj_succ, Z.pow_succ_r by lia. lia.
Qed.

Lemma derived_identifier_valid domain parts b :
  identifier_preimage domain parts = Ok b ->
  exists i, derived_identifier domain parts = Ok i /\ identifier_ok i.
Proof.
  intros Hb. unfold derived_identifier. rewrite Hb. cbn [rbind].
  set (raw := take 16 (sha256 b)).
  assert (Hraw : Forall (fun x => 0 <= x < 256) raw) by (apply Forall_take, sha256_range).
  pose proof (be_int_range (take 8 raw)) as Hh. pose proof (be_int_range (drop 8 raw)) as Hl.
  assert (Hlen : length raw = 16%nat) by (unfold raw; rewrite length_take, length_sha256; lia).
  rewrite length_take, Hlen in Hh. rewrite length_drop, Hlen in Hl.
  specialize (Hh (Forall_take _ _ _ Hraw)). specialize (Hl (Forall_drop _ _ _ Hraw)).
  change (256 ^ Z.of_nat (8 `min` 16)) with (2 ^ 64) in Hh.
  change (256 ^ Z.of_nat (16 - 8)) with (2 ^ 64) in Hl.
  set (h := be_int (take 8 raw)) in *. set (l := be_int (drop 8 raw)) in *.
  set (l' := if negb (h =? 0) || negb (l =? 0) then l else 1).
  assert (Hok : identifier_ok (Id128 h l')).
  { apply identifier_ok_range. unfold l'. cbn [high low]. clearbody h l raw. clear -Hh Hl.
    destruct (negb (h =? 0) || negb (l =? 0)) eqn:E; lia. }
  exists (Id128 h l'). split; [|done]. unfold new_identifier. unfold identifier_ok in Hok.
  by rewrite Hok.
Qed.

(** ** Sample request *)

Definition sample_id (n : Z) : Identifier128 := Id128 0 n.

Definition sample_point (n : nat) : TimeSeriesPoint :=
  {| pt_event_time := Z.of_nat n + 1; pt_available := Z.of_nat n + 1;
     pt_value := 100 + 7 * Z.of_nat n |}.

Definition sample_covariate (h : Z) : KnownFutureCovariate :=
  {| cv_horizon := h; cv_event_time := 16 + h; cv_known := 5; cv_time_of_day := 34200;
     cv_session_state := OPEN; cv_event_flags := 5 |}.

Definition sample_request : ContextBuildRequest :=
  {| instrument_id := sample_id 1; session_id := sample_id 2; feature_snapshot_id := sample_id 3;
     configuration_version := sample_id 4; feature_definition_version := sample_id 5;
     source_first_global_event_id := sample_id 6; source_last_global_event_id := sample_id 7;
     target := VOLUME; as_of_exchange_event_time_ns := 16;
     point_in_time_wall_clock_utc_ns := 50; built_process_monotonic_time_ns := 60;
     source_payload_sha256 := repeat 171 32; horizons_ns := [60; 300];
     quantiles_ppm := (100000, 500000, 900000); history := map sample_point (List.seq 0 16);
     future_covariates := map sample_covariate [60; 300] |}.

Lemma sample_request_typed : request_typed sample_request.
Proof.
  split; [repeat (apply Forall_cons; split; [reflexivity|]); apply Forall_nil_2|].
  repeat (apply Forall_cons; split; [lia|]). apply Forall_nil_2.
Qed.

Definition sample_context : ForecastContext := Eval vm_compute in
  match build 16 sample_request with
  | Ok c => c
  | Err _ => {| fields := sample_request; context_sha256 := [] |}
  end.

Lemma sample_context_built : build 16 sample_request = Ok sample_context.
Proof. vm_compute. reflexivity. Qed.

Lemma sample_request_valid : request_valid 16 sample_request.
Proof. apply (proj1 (build_ok _ _ _) sample_context_built). Qed.

(** ** Properties *)

(** The context builder accepts exactly the point-in-time valid requests.
    A request whose history, horizons, quantiles, timestamps and covariates
    satisfy [request_valid] yields a context with the same fields and the
    SHA-256 of their canonical encoding; any other request raises
    [ValueError]. *)
Theorem build_accepts_exactly_valid minimum_history r :
  ints_printable (JObj (context_payload r)) = true ->
  (request_valid minimum_history r ->
   exists b, canonical_context_bytes (context_payload r) = Ok b /\
     build minimum_history r = Ok {| fields := r; context_sha256 := sha256 b |}) /\
  (~ request_valid minimum_history r ->
   exists msg, build minimum_history r = Err (Exn ValueError msg)).
Proof.
  intros Hint. split; [|apply build_invalid]. intros Hv.
  destruct (dumps_total _ Hint) as [b Hb]. exists b. split; [exact Hb|].
  apply build_ok. eauto.
Qed.

Lemma build_accepts_exactly_valid_witness :
  exists b, build 16 sample_request = Ok {| fields := sample_request; context_sha256 := sha256 b |}.
Proof.
  destruct (build_accepts_exactly_valid 16 sample_request) as [H _]; [vm_compute; reflexivity|].
  destruct (H sample_request_valid) as (b & _ & Hb). exists b. exact Hb.
Defined.

(** Contexts survive the wire.  A typed request that the service's builder
    accepts yields a context whose encoding, unless it is larger than the
    service bound, decodes to exactly that context. *)
Theorem context_codec_roundtrip r c :
  request_typed r -> build DEFAULT_MINIMUM_HISTORY r = Ok c ->
  ints_printable (JObj (context_payload r)) = true ->
  encode_context c = Err (Exn ValueError "encoded context exceeds the service bound") \/
  exists b, encode_context c = Ok b /\ Z.of_nat (length b) <= MAX_CONTEXT_BYTES /\
    decode_context b = Ok c.
Proof.
  intros Ht Hb Hint. apply build_ok in Hb as Hb'. destruct Hb' as (_ & p & _ & Hc).
  assert (Hf : fields c = r) by by rewrite Hc.
  assert (Hd : Forall (fun x => 0 <= x < 256) (context_sha256 c))
    by (rewrite Hc; apply sha256_range).
  destruct (dumps_total (JObj (context_members c))) as [b Hbytes].
  { cbn [ints_printable] in *. unfold context_members. by rewrite forallb_app, Hf, Hint. }
  destruct (encode_context c) as [b'|e] eqn:He.
  - right. exists b'. split; [done|]. split.
    + unfold encode_context in He. inv_ok. lia.
    + apply decode_encoded; [by rewrite Hf | done | by rewrite Hf | done].
  - left. unfold encode_context in He.
    change (canonical_context_bytes _) with (dumps (JObj (context_members c))) in He.
    rewrite Hbytes in He. cbn [rbind] in He. unfold raise_when, raise in He.
    case_match; by simplify_eq.
Qed.

Lemma context_codec_roundtrip_witness :
  exists b, encode_context sample_context = Ok b /\ decode_context b = Ok sample_context.
Proof.
  destruct (context_codec_roundtrip sample_request sample_context sample_request_typed
    sample_context_built) as [H | (b & Hb & _ & Hd)].
  - vm_compute. reflexivity.
  - exfalso. vm_compute in H. discriminate H.
  - exists b. split; [exact Hb | exact Hd].
Defined.

(** Nothing undecodable gets in.  Whatever bytes arrive, a decoded context
    satisfies every check of the service's builder again and carries the SHA-256
    of its own canonical fields. *)
Theorem decode_context_revalidates encoded c :
  decode_context encoded = Ok c ->
  request_valid DEFAULT_MINIMUM_HISTORY c /\
  exists b, canonical_context_bytes (context_payload c) = Ok b /\ context_sha256 c = sha256 b.
Proof.
  unfold decode_context. intros H. apply rbind_ok in H as (? & _ & H).
  apply rbind_ok in H as (? & _ & H). apply rbind_ok in H as (rd & _ & H).
  apply rbind_ok in H as (c' & Hb & H). inv_ok.
  apply build_ok in Hb as (Hv & b & Hb & ->). simpl. eauto.
Qed.

Lemma decode_context_revalidates_witness :
  exists b, decode_context b = Ok sample_context /\
    request_valid DEFAULT_MINIMUM_HISTORY sample_context.
Proof.
  assert (E : exists b, decode_context b = Ok sample_context).
  { destruct (encode_context sample_context) as [b|e] eqn:He; [|vm_compute in He; discriminate He].
    exists b. apply decode_encoded; [apply sample_request_typed | | apply sample_context_built | exact He].
    vm_compute context_sha256. repeat (apply Forall_cons; split; [lia|]). apply Forall_nil_2. }
  destruct E as [b E]. exists b. split; [exact E | apply (decode_context_revalidates b _ E)].
Defined.

Lemma preimage_inj (d x y : pybytes) :
  @Ok pybytes (str "aegis-mx-timeseries-v1" ++ [0] ++ d ++ x)
  = Ok (str "aegis-mx-timeseries-v1" ++ [0] ++ d ++ y) -> x = y.
Proof.
  generalize (str "aegis-mx-timeseries-v1"). intros p [= H].
  apply app_inv_head in H. injection H as H. by apply app_inv_head in H.
Qed.

(** Derived identifiers are always valid, and within one domain the hashed
    bytes determine the parts: two lists of parts are hashed alike only when
    their encodings agree one by one, so no concatenation of parts can be
    confused with another. *)
Theorem derived_identifier_separates domain parts parts' b :
  identifier_preimage domain parts = Ok b -> identifier_preimage domain parts' = Ok b ->
  (forall p e, p ∈ parts ++ parts' -> part_bytes p = Ok e -> Z.of_nat (length e) < 2 ^ 64) ->
  res_map part_bytes parts = res_map part_bytes parts' /\
  exists i, derived_identifier domain parts = Ok i /\ derived_identifier domain parts' = Ok i /\
    identifier_ok i.
Proof.
  intros Hb Hb' Hlen. split.
  - unfold identifier_preimage in Hb, Hb'.
    apply rbind_ok in Hb as (d & Hd & Hb), Hb' as (d' & Hd' & Hb').
    rewrite Hd in Hd'. injection Hd' as <-.
    apply rbind_ok in Hb as (l & Hl & Hb), Hb' as (k & Hk & Hb'). rewrite Hl, Hk. f_equal.
    rewrite <- Hb' in Hb. apply preimage_inj in Hb. apply framed_inj; [| |exact Hb].
    + apply res_map_ok in Hl. apply Forall_forall. intros e He.
      apply list_elem_of_lookup_1 in He as [n Hn].
      destruct (Forall2_lookup_r _ _ _ _ _ Hl Hn) as (p & Hp & He).
      apply (Hlen p); [apply elem_of_app; left; by eapply list_elem_of_lookup_2 | done].
    + apply res_map_ok in Hk. apply Forall_forall. intros e He.
      apply list_elem_of_lookup_1 in He as [n Hn].
      destruct (Forall2_lookup_r _ _ _ _ _ Hk Hn) as (p & Hp & He).
      apply (Hlen p); [apply elem_of_app; right; by eapply list_elem_of_lookup_2 | done].
  - destruct (derived_identifier_valid domain parts b Hb) as (i & Hi & Hok).
    exists i. split; [done|]. split; [|done]. unfold derived_identifier in *.
    rewrite Hb in Hi. by rewrite Hb'.
Qed.

Lemma derived_identifier_separates_witness :
  exists i, derived_identifier (str "model") [PStr (str "a"); PInt 5] = Ok i /\ identifier_ok i.
Proof.
  destruct (identifier_preimage (str "model") [PStr (str "a"); PInt 5]) as [b|e] eqn:E;
    [|vm_compute in E; discriminate E].
  destruct (derived_identifier_separates (str "model") [PStr (str "a"); PInt 5]
    [PStr (str "a"); PInt 5] b E E) as (_ & i & Hi & _ & Hok).
  - intros p e Hp He. cbn [app] in Hp.
    repeat (apply elem_of_cons in Hp as [-> | Hp]; [vm_compute in He; injection He as <-; vm_compute; reflexivity|]).
    apply elem_of_nil in Hp. contradiction.
  - exists i. split; [exact Hi | exact Hok].
Defined.

(** The hexadecimal checks let other text through.  Sixty-four blanks pass
    as a checkpoint digest, and an identifier may be written with a prefix, a
    sign, blanks and underscores, so that it does not read back as written. *)
Theorem hex_checks_accept_other_text :
  validate_checkpoint_sha256 (Some (repeat 32 64)) = Ok tt /\
  identifier (JStr (str "0x0000000000000a   +0_0000000001")) "instrument_id" = Ok (Id128 10 1) /\
  id_hex (Id128 10 1) <> str "0x0000000000000a   +0_0000000001".
Proof. split; [reflexivity|]. split; [vm_compute; reflexivity|]. by vm_compute. Qed.
