(* ===== verification/ForecastAdapters.v ===== *)
(** * Model adapters

    Models [python/model_serving/aegis_mx_timeseries/adapters.py]: the integer
    arithmetic of the comparators, the validation of adapter output, the
    deterministic reference and baseline adapters and the identity-enforcing
    wrapper around an external backend.  The backend is a function the wrapper
    is given; nothing is assumed of it. *)

From S2P Require Import Prelude PyText Json Sha256 ForecastDomain.
Open Scope Z_scope.

Definition MIN_BASELINE_HISTORY : Z := 4.
Definition MIN_SEASONAL_PERIOD : Z := 2.
Definition MAX_SEASONAL_PERIOD : Z := 256.

(** ** Arithmetic *)

Definition trunc_div (numerator denominator : Z) : res Z :=
  do! raise_when (denominator <=? 0) ValueError "denominator must be positive" in
  let magnitude := Z.abs numerator / denominator in
  Ok (if numerator <? 0 then - magnitude else magnitude).

Definition clamp_target (t : ForecastTarget) (v : Z) : Z :=
  Z.max (target_bounds t).1 (Z.min (target_bounds t).2 v).

Definition py_sum (l : list Z) : Z := foldl Z.add 0 l.

(** [l\[-n:\]] *)
Definition last_n {A} (n : nat) (l : list A) : list A := drop (length l - n) l.

(** [l\[i\]] with Python's negative indexes. *)
Definition py_index {A} (l : list A) (i : Z) : res A :=
  let j := if i <? 0 then i + Z.of_nat (length l) else i in
  match (if j <? 0 then None else l !! Z.to_nat j) with
  | Some x => Ok x
  | None => raise IndexError "index out of range"
  end.

Definition differences (values : list Z) : list Z :=
  map (fun p => p.2 - p.1) (pairwise values).

Definition recent_differences (c : ForecastContext) : list Z :=
  differences (map pt_value (last_n 9 (history c))).

Definition residual_scale (c : ForecastContext) : Z :=
  match recent_differences c with
  | [] => 1
  | ds => Z.max 1 (py_sum (map Z.abs ds) / Z.of_nat (length ds))
  end.

Definition quantiles (c : ForecastContext) (point horizon_index : Z) : Z * Z * Z :=
  let width := residual_scale c * Z.max 1 (horizon_index + 1) in
  (clamp_target (target c) (point - width), point, clamp_target (target c) (point + width)).

(** [int.bit_count] *)
Fixpoint pos_bits (p : positive) : Z :=
  match p with xH => 1 | xO q => pos_bits q | xI q => 1 + pos_bits q end.
Definition bit_count (n : Z) : Z :=
  match n with Z0 => 0 | Zpos p => pos_bits p | Zneg p => pos_bits p end.

(** ** Results *)

Record AdapterForecast := {
  af_horizon_ns : Z;
  af_point_value : Z;
  af_quantile_values : Z * Z * Z;
  af_confidence_ppm : Z;
  af_calibration_score_ppm : Z;
  af_data_quality_score_ppm : Z;
  af_ood_score_ppm : Z;
}.

Record AdapterResult := {
  ar_context_sha256 : pybytes;
  ar_target : ForecastTarget;
  ar_forecasts : list AdapterForecast;
  ar_producer_name : pystr;
  ar_model_id : Identifier128;
  ar_model_version : Identifier128;
  ar_device : AdapterDevice;
  ar_checkpoint_sha256 : option pystr;
}.

#[export] Instance AdapterForecast_eq_dec : EqDecision AdapterForecast.
Proof. solve_decision. Defined.
#[export] Instance AdapterResult_eq_dec : EqDecision AdapterResult.
Proof. solve_decision. Defined.

(** The loop body of [AdapterResult.validate_for]. *)
Definition validate_forecast (t : ForecastTarget) (hf : Z * AdapterForecast) : res unit :=
  let (expected_horizon, f) := hf in
  let '(q0, q1, q2) := af_quantile_values f in
  do! raise_when (negb (af_horizon_ns f =? expected_horizon)) ValueError
        "adapter output horizon does not match the context" in
  do! raise_when (negb ((q0 <=? q1) && (q1 <=? q2))) ValueError
        "adapter quantiles must be monotonic" in
  do! raise_when (existsb (fun v => negb (in_bounds t v)) [af_point_value f; q0; q1; q2])
        ValueError "adapter forecast is outside the target range" in
  raise_when (existsb (fun s => negb ((0 <=? s) && (s <=? PPM)))
                [af_confidence_ppm f; af_calibration_score_ppm f;
                 af_data_quality_score_ppm f; af_ood_score_ppm f])
    ValueError "adapter score is outside PPM".

Definition validate_for (a : AdapterResult) (c : ForecastContext) : res unit :=
  do! validate_checkpoint_sha256 (ar_checkpoint_sha256 a) in
  do! raise_when (negb (bool_decide (ar_context_sha256 a = context_sha256 c))
                  || negb (bool_decide (ar_target a = target c))) ValueError
        "adapter output is detached from its forecast context" in
  do! raise_when (bool_decide (ar_producer_name a = [])
                  || negb (Z.of_nat (length (ar_forecasts a))
                           =? Z.of_nat (length (horizons_ns c)))) ValueError
        "adapter output does not cover every requested horizon" in
  res_iter (validate_forecast (target c)) (combine (horizons_ns c) (ar_forecasts a)).

(** ** The adapter interface *)

(** What an adapter call is given and may return; the identity is fixed. *)
Definition BatchFunction : Type :=
  list ForecastContext -> AdapterDevice -> option pystr -> res (list AdapterResult).

Record ForecastModelAdapter := {
  adapter_name : pystr;
  model_id : Identifier128;
  model_version : Identifier128;
  forecast_batch : BatchFunction;
}.

(** [TimesFmAdapter]: the identity fields of every result are overwritten. *)
Definition timesfm_normalize (mid mver : Identifier128) (device : AdapterDevice)
    (checkpoint : option pystr) (a : AdapterResult) : AdapterResult :=
  {| ar_context_sha256 := ar_context_sha256 a; ar_target := ar_target a;
     ar_forecasts := ar_forecasts a; ar_producer_name := str "timesfm";
     ar_model_id := mid; ar_model_version := mver; ar_device := device;
     ar_checkpoint_sha256 := checkpoint |}.

Definition timesfm_forecast_batch (backend : BatchFunction) (mid mver : Identifier128)
    : BatchFunction := fun contexts device checkpoint =>
  do! validate_checkpoint_sha256 checkpoint in
  let! results := backend contexts device checkpoint in
  do! raise_when (negb (Z.of_nat (length results) =? Z.of_nat (length contexts)))
        AdapterUnavailableError "TimesFM backend result count does not match the batch" in
  let normalized := map (timesfm_normalize mid mver device checkpoint) results in
  do! res_iter (fun cr => validate_for cr.2 cr.1) (combine contexts normalized) in
  Ok normalized.

Definition TimesFmAdapter (backend : BatchFunction) (mid mver : Identifier128)
    : ForecastModelAdapter :=
  {| adapter_name := str "timesfm"; model_id := mid; model_version := mver;
     forecast_batch := timesfm_forecast_batch backend mid mver |}.

(** ** The reference adapter *)

Definition session_adjustment (trend : Z) (s : SessionState) : res Z :=
  match s with
  | SS_UNKNOWN => raise KeyError "0"
  | PRE_OPEN => Ok ((- trend) / 4)
  | OPEN => Ok 0
  | HALTED => Ok (- trend)
  | AUCTION => Ok (trend / 2)
  | CLOSED => Ok ((- trend) / 2)
  end.

(** The loop body over the horizons. *)
Definition reference_forecast (c : ForecastContext) (trend : Z)
    (ihc : nat * (Z * KnownFutureCovariate)) : res AdapterForecast :=
  let '(n, (horizon, covariate)) := ihc in
  let index := Z.of_nat n in
  let! session := session_adjustment trend (cv_session_state covariate) in
  let event := bit_count (cv_event_flags covariate) * Z.max 1 (residual_scale c / 10) in
  let! last_point := py_index (history c) (-1) in
  let point := clamp_target (target c)
                 (pt_value last_point + trend * (index + 1) + session + event) in
  Ok {| af_horizon_ns := horizon; af_point_value := point;
        af_quantile_values := quantiles c point index;
        af_confidence_ppm := Z.max 100000 (800000 - index * 50000);
        af_calibration_score_ppm := 750000; af_data_quality_score_ppm := 1000000;
        af_ood_score_ppm := 0 |}.

Definition enumerate {A} (l : list A) : list (nat * A) := imap (fun n x => (n, x)) l.

(** What [zip(a, b, strict=True)] does when the shorter sequence has ended. *)
Definition zip_end {A B} (a : list A) (b : list B) : res unit :=
  do! raise_when (length b <? length a)%nat ValueError
        "zip() argument 2 is shorter than argument 1" in
  raise_when (length a <? length b)%nat ValueError
    "zip() argument 2 is longer than argument 1".

(** The loop body over the contexts. *)
Definition reference_result (mid mver : Identifier128) (device : AdapterDevice)
    (checkpoint : option pystr) (c : ForecastContext) : res AdapterResult :=
  let ds := recent_differences c in
  let! trend := trunc_div (py_sum ds) (Z.of_nat (length ds)) in
  let! forecasts := res_map (reference_forecast c trend)
                      (enumerate (combine (horizons_ns c) (future_covariates c))) in
  do! zip_end (horizons_ns c) (future_covariates c) in
  let result := {| ar_context_sha256 := context_sha256 c; ar_target := target c;
                   ar_forecasts := forecasts; ar_producer_name := str "timesfm_reference";
                   ar_model_id := mid; ar_model_version := mver; ar_device := device;
                   ar_checkpoint_sha256 := checkpoint |} in
  do! validate_for result c in
  Ok result.

Definition reference_forecast_batch (mid mver : Identifier128) : BatchFunction :=
  fun contexts device checkpoint =>
  do! validate_checkpoint_sha256 checkpoint in
  res_map (reference_result mid mver device checkpoint) contexts.

Definition ReferenceTimesFmAdapter (mid mver : Identifier128) : ForecastModelAdapter :=
  {| adapter_name := str "timesfm_reference"; model_id := mid; model_version := mver;
     forecast_batch := reference_forecast_batch mid mver |}.

(** ** Baselines *)

Definition BASELINE_NAMES (k : BaselineKind) : pystr :=
  match k with
  | LAST_VALUE => str "last_value" | SEASONAL_NAIVE => str "seasonal_naive"
  | ARIMA_COMPATIBLE => str "arima_compatible" | GARCH_COMPATIBLE => str "garch_compatible"
  | GRADIENT_BOOSTING => str "gradient_boosting" | COMPACT_TEMPORAL => str "compact_temporal"
  end.

(** The point before it is clamped. *)
Definition baseline_raw (k : BaselineKind) (values : list Z) (seasonal_period : Z) : res Z :=
  match k with
  | LAST_VALUE => py_index values (-1)
  | SEASONAL_NAIVE => py_index values (- seasonal_period)
  | ARIMA_COMPATIBLE =>
      let ds := differences (last_n 9 values) in
      let! v := py_index values (-1) in
      let! trend := trunc_div (py_sum ds) (Z.of_nat (length ds)) in
      Ok (v + trend)
  | GARCH_COMPATIBLE =>
      let ds := differences (last_n 9 values) in
      Ok (Z.sqrt (py_sum (map (fun v => v * v) ds) / Z.of_nat (length ds)))
  | GRADIENT_BOOSTING =>
      let! v1 := py_index values (-1) in
      let! v2 := py_index values (-2) in
      let! v4 := py_index values (-4) in
      let recent := v1 - v2 in
      let long := v1 - v4 in
      let point := if 0 <? recent then v1 + Z.abs recent / 2 else v1 in
      Ok (if long <? 0 then point - Z.abs long / 3 else point)
  | COMPACT_TEMPORAL =>
      let! v4 := py_index values (-4) in
      let! v3 := py_index values (-3) in
      let! v2 := py_index values (-2) in
      let! v1 := py_index values (-1) in
      trunc_div (v4 + 2 * v3 + 3 * v2 + 4 * v1) 10
  end.

Definition baseline_point (k : BaselineKind) (t : ForecastTarget) (values : list Z)
    (seasonal_period : Z) : res Z :=
  do! raise_when (Z.of_nat (length values) <? Z.max MIN_BASELINE_HISTORY seasonal_period)
        AdapterUnavailableError "baseline has insufficient history" in
  let! point := baseline_raw k values seasonal_period in
  Ok (clamp_target t point).

Definition baseline_result (k : BaselineKind) (mid mver : Identifier128) (seasonal_period : Z)
    (c : ForecastContext) : res AdapterResult :=
  let! point := baseline_point k (target c) (map pt_value (history c)) seasonal_period in
  let forecasts := map (fun ih : nat * Z =>
    {| af_horizon_ns := ih.2; af_point_value := point;
       af_quantile_values := quantiles c point (Z.of_nat ih.1);
       af_confidence_ppm := 500000; af_calibration_score_ppm := 500000;
       af_data_quality_score_ppm := 1000000; af_ood_score_ppm := 0 |})
    (enumerate (horizons_ns c)) in
  let result := {| ar_context_sha256 := context_sha256 c; ar_target := target c;
                   ar_forecasts := forecasts; ar_producer_name := BASELINE_NAMES k;
                   ar_model_id := mid; ar_model_version := mver; ar_device := CPU;
                   ar_checkpoint_sha256 := None |} in
  do! validate_for result c in
  Ok result.

Definition baseline_forecast_batch (k : BaselineKind) (mid mver : Identifier128)
    (seasonal_period : Z) : BatchFunction := fun contexts device checkpoint =>
  do! raise_when (negb (bool_decide (device = CPU))) AdapterDeviceError
        "baseline adapters support CPU only" in
  do! raise_when (negb (bool_decide (checkpoint = None))) AdapterUnavailableError
        "baseline adapters do not accept checkpoints" in
  res_map (baseline_result k mid mver seasonal_period) contexts.

Definition BaselineAdapter (k : BaselineKind) (mid mver : Identifier128) (seasonal_period : Z)
    : res ForecastModelAdapter :=
  do! raise_when (negb ((MIN_SEASONAL_PERIOD <=? seasonal_period)
                        && (seasonal_period <=? MAX_SEASONAL_PERIOD))) ValueError
        "seasonal period is outside the supported bound" in
  Ok {| adapter_name := BASELINE_NAMES k; model_id := mid; model_version := mver;
        forecast_batch := baseline_forecast_batch k mid mver seasonal_period |}.

(** ** What a valid result is *)

Definition in_ppm (s : Z) : Prop := 0 <= s <= PPM.
Definition within (t : ForecastTarget) (v : Z) : Prop :=
  (target_bounds t).1 <= v <= (target_bounds t).2.

Record forecast_valid (t : ForecastTarget) (h : Z) (f : AdapterForecast) : Prop := {
  fv_horizon : af_horizon_ns f = h;
  fv_monotonic : (af_quantile_values f).1.1 <= (af_quantile_values f).1.2 <= (af_quantile_values f).2;
  fv_point : within t (af_point_value f);
  fv_quantiles : Forall (within t) (quantile_list (af_quantile_values f));
  fv_scores : Forall in_ppm [af_confidence_ppm f; af_calibration_score_ppm f;
                             af_data_quality_score_ppm f; af_ood_score_ppm f];
}.

Record result_valid (c : ForecastContext) (a : AdapterResult) : Prop := {
  av_checkpoint : validate_checkpoint_sha256 (ar_checkpoint_sha256 a) = Ok tt;
  av_context : ar_context_sha256 a = context_sha256 c;
  av_target : ar_target a = target c;
  av_producer : ar_producer_name a <> [];
  av_forecasts : Forall2 (forecast_valid (target c)) (horizons_ns c) (ar_forecasts a);
}.

Lemma in_bounds_within t v : in_bounds t v = true <-> within t v.
Proof. unfold in_bounds, within. lia. Qed.

Lemma existsb_negb_false {A} (f : A -> bool) l :
  existsb (fun x => negb (f x)) l = false <-> Forall (fun x => f x = true) l.
Proof.
  induction l as [|x l IH]; simpl; [by split|].
  rewrite orb_false_iff, IH, Forall_cons, negb_false_iff. done.
Qed.

Lemma validate_forecast_ok t h f u : validate_forecast t (h, f) = Ok u <-> forecast_valid t h f.
Proof.
  destruct u. unfold validate_forecast. destruct (af_quantile_values f) as [[q0 q1] q2] eqn:Eq.
  split.
  - intros H. apply rbind_ok in H as ([] & H1 & H). apply rbind_ok in H as ([] & H2 & H).
    apply rbind_ok in H as ([] & H3 & H4).
    rewrite raise_when_ok in H1, H2, H3, H4. rewrite existsb_negb_false in H3, H4.
    apply Forall_cons in H3 as [H3 H3']. split; rewrite ?Eq; cbn [fst snd quantile_list]; try lia.
    + by apply in_bounds_within.
    + eapply Forall_impl; [exact H3'|]. intros v. apply in_bounds_within.
    + eapply Forall_impl; [exact H4|]. unfold in_ppm. intros s Hs. lia.
  - intros [H1 H2 H3 H4 H5]. rewrite Eq in *. cbn [fst snd quantile_list] in *.
    rewrite (raise_when_false (negb (_ =? h))) by lia. cbn [rbind].
    rewrite (raise_when_false (negb (_ && _))) by lia. cbn [rbind].
    rewrite (proj2 (existsb_negb_false (in_bounds t) _)).
    + cbn [raise_when rbind]. apply raise_when_ok.
      apply (existsb_negb_false (fun s => (0 <=? s) && (s <=? PPM))).
      eapply Forall_impl; [exact H5|]. unfold in_ppm. intros s Hs. cbn beta in *. lia.
    + apply Forall_cons. split; [by apply in_bounds_within|].
      eapply Forall_impl; [exact H4|]. intros v. apply in_bounds_within.
Qed.

Lemma iter_combine {A B} (f : A * B -> res unit) (P : A -> B -> Prop) l k :
  (forall x y, f (x, y) = Ok tt <-> P x y) -> length l = length k ->
  res_iter f (combine l k) = Ok tt <-> Forall2 P l k.
Proof.
  intros Hf. rewrite res_iter_ok. revert k.
  induction l as [|x l IH]; intros [|y k] Hlen; simpl in *; try done.
  rewrite Forall_cons, Forall2_cons, Hf, IH by lia. done.
Qed.

Lemma validate_for_ok a c u : validate_for a c = Ok u <-> result_valid c a.
Proof.
  destruct u. unfold validate_for. split.
  - intros H. apply rbind_ok in H as ([] & H1 & H). apply rbind_ok in H as ([] & H2 & H).
    apply rbind_ok in H as ([] & H3 & H4). rewrite raise_when_ok in H2, H3. bprop.
    split; try done. apply (iter_combine (validate_forecast (target c)) (forecast_valid (target c)));
      [intros x y; apply validate_forecast_ok | lia | done].
  - intros [H1 H2 H3 H4 H5]. rewrite H1. cbn [rbind].
    rewrite !bool_decide_eq_true_2, bool_decide_eq_false_2 by done. cbn [negb orb raise_when rbind].
    rewrite (Forall2_length _ _ _ H5), Z.eqb_refl. cbn [negb raise_when rbind].
    apply (iter_combine (validate_forecast (target c)) (forecast_valid (target c)));
      [intros x y; apply validate_forecast_ok | by eapply Forall2_length | done].
Qed.

(** ** Arithmetic facts *)

Lemma trunc_div_ok n d : 0 < d -> exists q, trunc_div n d = Ok q /\ q = Z.quot n d.
Proof.
  intros Hd. unfold trunc_div. rewrite raise_when_false by lia. cbn [rbind].
  eexists. split; [done|]. destruct (n <? 0) eqn:E.
  - replace n with (- (Z.abs n)) at 2 by lia. rewrite Z.quot_opp_l, Z.quot_div_nonneg by lia. done.
  - rewrite Z.quot_div_nonneg by lia. by rewrite Z.abs_eq by lia.
Qed.

Lemma target_bounds_order t : (target_bounds t).1 <= (target_bounds t).2.
Proof. by destruct t. Qed.

Lemma clamp_within t v : within t (clamp_target t v).
Proof. unfold within, clamp_target. pose proof (target_bounds_order t). lia. Qed.

Lemma clamp_mono t v w : v <= w -> clamp_target t v <= clamp_target t w.
Proof. unfold clamp_target. lia. Qed.

Lemma clamp_id t v : within t v -> clamp_target t v = v.
Proof. unfold within, clamp_target. lia. Qed.

Lemma residual_scale_pos c : 0 < residual_scale c.
Proof. unfold residual_scale. case_match; lia. Qed.

(** Quantiles around a point of the target range are ordered and in range. *)
Lemma quantiles_valid (c : ForecastContext) point i :
  within (target c) point ->
  (quantiles c point i).1.1 <= (quantiles c point i).1.2 <= (quantiles c point i).2 /\
  Forall (within (target c)) (quantile_list (quantiles c point i)).
Proof.
  intros Hp. unfold quantiles. cbn [fst snd quantile_list].
  set (w := residual_scale c * Z.max 1 (i + 1)).
  assert (0 <= w) by (pose proof (residual_scale_pos c); nia).
  split.
  - rewrite <- (clamp_id _ _ Hp) at 2 3. split; apply clamp_mono; lia.
  - repeat (apply Forall_cons; split; [done || apply clamp_within|]). apply Forall_nil_2.
Qed.

Lemma length_differences l : length (differences l) = Nat.pred (length l).
Proof. unfold differences. by rewrite length_map, length_pairwise. Qed.

Lemma length_last_n {A} n (l : list A) : length (last_n n l) = (length l `min` n)%nat.
Proof. unfold last_n. rewrite length_drop. lia. Qed.

Lemma py_index_last {A} (l : list A) k :
  0 < k <= Z.of_nat (length l) -> exists x, py_index l (- k) = Ok x /\ x ∈ l.
Proof.
  intros Hk. unfold py_index. rewrite (proj2 (Z.ltb_lt (- k) 0)) by lia.
  rewrite (proj2 (Z.ltb_ge _ 0)) by lia.
  destruct (lookup_lt_is_Some_2 l (Z.to_nat (- k + Z.of_nat (length l)))) as [x Hx]; [lia|].
  exists x. rewrite Hx. split; [done|]. by eapply list_elem_of_lookup_2.
Qed.

(** ** The deterministic adapters always succeed on contexts *)

Lemma res_map_exists {A B} (f : A -> res B) (P : A -> B -> Prop) l :
  (forall x, x ∈ l -> exists y, f x = Ok y /\ P x y) ->
  exists ys, res_map f l = Ok ys /\ Forall2 P l ys.
Proof.
  induction l as [|x l IH]; intros H; simpl; [eauto|].
  destruct (H x) as (y & Hy & HP); [set_solver|]. rewrite Hy. cbn [rbind].
  destruct IH as (ys & Hys & HF); [set_solver|]. rewrite Hys. cbn [rbind]. eauto.
Qed.

Lemma enumerate_combine_forall2 {A B C} (P : A -> B -> Prop) (l : list A) (k : list C) ys :
  length l = length k ->
  Forall2 (fun nhc y => P nhc.2.1 y) (enumerate (combine l k)) ys -> Forall2 P l ys.
Proof.
  unfold enumerate. intros Hlen H. apply Forall2_lookup. intros i.
  pose proof (proj1 (Forall2_lookup _ _ _) H) as H'. clear H. rename H' into H.
  specialize (H i). rewrite list_lookup_imap in H.
  destruct (l !! i) as [x|] eqn:Hx.
  - destruct (lookup_lt_is_Some_2 k i) as [z Hz]; [rewrite <- Hlen; by eapply lookup_lt_Some|].
    assert (Hxz : combine l k !! i = Some (x, z)).
    { change (combine l k) with (zip l k). by rewrite lookup_zip_Some. }
    rewrite Hxz in H. simpl in H. inversion H; subst. constructor. done.
  - assert (Hn : combine l k !! i = None).
    { apply lookup_ge_None. apply lookup_ge_None in Hx. rewrite length_combine. lia. }
    rewrite Hn in H. simpl in H. inversion H; subst. constructor.
Qed.

Lemma differences_nonempty values :
  (4 <= length values)%nat -> 0 < Z.of_nat (length (differences (last_n 9 values))).
Proof. intros H. rewrite length_differences, length_last_n. lia. Qed.

Lemma baseline_raw_ok k values period :
  (4 <= length values)%nat -> 0 < period <= Z.of_nat (length values) ->
  exists z, baseline_raw k values period = Ok z.
Proof.
  intros Hlen Hp.
  assert (Hix : forall k, 0 < k <= 4 -> exists x, py_index values (- k) = Ok x).
  { intros j Hj. destruct (py_index_last values j) as (x & Hx & _); [lia | eauto]. }
  destruct (Hix 1) as [v1 E1]; [lia|]. destruct (Hix 2) as [v2 E2]; [lia|].
  destruct (Hix 3) as [v3 E3]; [lia|]. destruct (Hix 4) as [v4 E4]; [lia|].
  change (- (1)) with (-1) in E1. change (- (2)) with (-2) in E2.
  change (- (3)) with (-3) in E3. change (- (4)) with (-4) in E4.
  destruct k; cbn [baseline_raw]; rewrite ?E1, ?E2, ?E3, ?E4; cbn [rbind]; eauto.
  - destruct (py_index_last values period) as (x & Hx & _); [lia | eauto].
  - destruct (trunc_div_ok (py_sum (differences (last_n 9 values))) _
      (differences_nonempty values Hlen)) as (q & -> & _). simpl. eauto.
Qed.

Section deterministic.
Context (c : ForecastContext) (m : Z).
Context (Hm : MIN_HISTORY_POINTS <= m) (Hc : request_valid m c).

Lemma history_length : (4 <= length (history c))%nat.
Proof using Hm Hc. pose proof (rv_history_length m c Hc). unfold MIN_HISTORY_POINTS in *. lia. Qed.

Lemma recent_nonempty : 0 < Z.of_nat (length (recent_differences c)).
Proof using Hm Hc.
  unfold recent_differences. rewrite length_differences, length_map, length_last_n.
  pose proof history_length. lia.
Qed.

Lemma session_adjustment_ok trend cv h :
  covariate_valid c h cv -> exists z, session_adjustment trend (cv_session_state cv) = Ok z.
Proof using Type.
  intros (_ & _ & _ & _ & Hs & _). destruct (cv_session_state cv); simpl; eauto. done.
Qed.

Lemma reference_forecast_ok trend n h cv :
  (n < 16)%nat -> covariate_valid c h cv ->
  exists f, reference_forecast c trend (n, (h, cv)) = Ok f /\ forecast_valid (target c) h f.
Proof using Hm Hc.
  intros Hn Hcv. unfold reference_forecast.
  destruct (session_adjustment_ok trend cv h Hcv) as [z ->]. cbn [rbind].
  destruct (py_index_last (history c) 1) as (p & Hp & _); [pose proof history_length; lia|].
  change (- (1)) with (-1) in Hp. rewrite Hp. cbn [rbind]. eexists. split; [done|].
  set (point := clamp_target _ _).
  assert (Hw : within (target c) point) by apply clamp_within.
  destruct (quantiles_valid c point (Z.of_nat n) Hw) as [Hq Hqs].
  split; cbn [af_horizon_ns af_point_value af_quantile_values af_confidence_ppm
    af_calibration_score_ppm af_data_quality_score_ppm af_ood_score_ppm]; try done.
  unfold in_ppm, PPM. repeat (apply Forall_cons; split; [lia|]). apply Forall_nil_2.
Qed.

Lemma reference_forecasts_ok trend :
  exists fs, res_map (reference_forecast c trend)
               (enumerate (combine (horizons_ns c) (future_covariates c))) = Ok fs /\
    Forall2 (forecast_valid (target c)) (horizons_ns c) fs.
Proof using Hm Hc.
  pose proof (rv_covariates m c Hc) as Hcv. pose proof (rv_horizon_count m c Hc) as Hh.
  unfold MAX_HORIZONS in Hh.
  destruct (res_map_exists (reference_forecast c trend)
    (fun nhc y => forecast_valid (target c) nhc.2.1 y)
    (enumerate (combine (horizons_ns c) (future_covariates c)))) as (fs & Hfs & HF).
  - intros [n [h cv]] (i & hcv & Heq & Hin)%elem_of_lookup_imap. simplify_eq.
    change (combine (horizons_ns c) (future_covariates c))
      with (zip (horizons_ns c) (future_covariates c)) in Hin.
    apply lookup_zip_Some in Hin as [Hh' Hcv'].
    apply lookup_lt_Some in Hh' as Hlt.
    apply reference_forecast_ok; [lia|]. by eapply (Forall2_lookup_lr _ _ _ i).
  - exists fs. split; [done|].
    eapply (enumerate_combine_forall2 _ _ (future_covariates c)); [by eapply Forall2_length | done].
Qed.

Lemma reference_result_ok mid mver device checkpoint :
  validate_checkpoint_sha256 checkpoint = Ok tt ->
  exists a, reference_result mid mver device checkpoint c = Ok a /\ result_valid c a.
Proof using Hm Hc.
  intros Hck. unfold reference_result.
  destruct (trunc_div_ok (py_sum (recent_differences c)) _ recent_nonempty) as (trend & -> & _).
  cbn [rbind]. destruct (reference_forecasts_ok trend) as (fs & -> & Hfs). cbn [rbind].
  pose proof (Forall2_length _ _ _ (rv_covariates m c Hc)) as Hlen.
  unfold zip_end. rewrite Hlen, Nat.ltb_irrefl. cbn [raise_when rbind].
  match goal with |- context [validate_for ?a c] =>
    assert (Hv : result_valid c a) by by split end.
  rewrite (proj2 (validate_for_ok _ c tt) Hv). cbn [rbind]. eauto.
Qed.

Lemma baseline_result_ok k mid mver period :
  0 < period <= Z.of_nat (length (history c)) ->
  exists a, baseline_result k mid mver period c = Ok a /\ result_valid c a.
Proof using Hm Hc.
  intros Hp. unfold baseline_result, baseline_point. pose proof history_length as Hlen.
  rewrite length_map, raise_when_false by (unfold MIN_BASELINE_HISTORY; lia). cbn [rbind].
  destruct (baseline_raw_ok k (map pt_value (history c)) period) as [z ->];
    [rewrite length_map; lia..|]. cbn [rbind].
  set (point := clamp_target (target c) z).
  assert (Hw : within (target c) point) by apply clamp_within.
  match goal with |- context [validate_for ?a c] => assert (Hv : result_valid c a) end.
  { split; cbn [ar_checkpoint_sha256 ar_context_sha256 ar_target ar_producer_name ar_forecasts];
      try done; [by destruct k|].
    rewrite Forall2_fmap_r. unfold enumerate. rewrite Forall2_lookup. intros i.
    rewrite list_lookup_imap. destruct (horizons_ns c !! i) as [h|]; simpl; constructor.
    destruct (quantiles_valid c point (Z.of_nat i) Hw) as [Hq Hqs]. split; simpl; try done.
    unfold in_ppm, PPM. repeat (apply Forall_cons; split; [lia|]). apply Forall_nil_2. }
  rewrite (proj2 (validate_for_ok _ c tt) Hv). cbn [rbind]. eauto.
Qed.
End deterministic.

Lemma sample_context_valid : request_valid 16 sample_context.
Proof. apply sample_request_valid. Qed.

(** ** Properties *)

(** The reference adapter never fails on contexts.  For any batch of
    validated contexts (at least four points of history each), any device and
    any well-formed checkpoint it returns one result per context, in order,
    and each result passes the validation of adapter output: it names its
    context, covers every horizon, and its point and ordered quantiles lie in
    the target's range. *)
Theorem reference_adapter_total mid mver contexts device checkpoint :
  Forall (fun c : ForecastContext => request_valid MIN_HISTORY_POINTS c) contexts ->
  validate_checkpoint_sha256 checkpoint = Ok tt ->
  exists results,
    forecast_batch (ReferenceTimesFmAdapter mid mver) contexts device checkpoint = Ok results /\
    Forall2 result_valid contexts results.
Proof.
  intros Hc Hck. cbn [forecast_batch ReferenceTimesFmAdapter]. unfold reference_forecast_batch.
  rewrite Hck. cbn [rbind]. apply res_map_exists. intros c Hin. rewrite Forall_forall in Hc.
  by apply (reference_result_ok c MIN_HISTORY_POINTS); [|apply Hc|].
Qed.

Lemma request_valid_weaken m m' r : m' <= m -> request_valid m r -> request_valid m' r.
Proof. intros Hle [H1 H2 H3 H4 H5 H6 H7 H8 H9 H10 H11]. split; try done. lia. Qed.

Lemma reference_adapter_total_witness :
  exists results,
    forecast_batch (ReferenceTimesFmAdapter (sample_id 8) (sample_id 9)) [sample_context] GPU None
    = Ok results /\ Forall2 result_valid [sample_context] results.
Proof.
  apply (reference_adapter_total (sample_id 8) (sample_id 9) [sample_context] GPU None).
  - apply Forall_cons. split; [|apply Forall_nil_2].
    apply (request_valid_weaken 16); [vm_compute; discriminate | apply sample_context_valid].
  - reflexivity.
Defined.

(** Every baseline adapter that can be constructed never fails on contexts
    with at least as much history as its seasonal period, on the CPU and
    without a checkpoint; its results pass validation and carry its name and
    identity. *)
Theorem baseline_adapter_total k mid mver period adapter contexts :
  BaselineAdapter k mid mver period = Ok adapter ->
  Forall (fun c : ForecastContext => request_valid (Z.max MIN_HISTORY_POINTS period) c) contexts ->
  exists results, forecast_batch adapter contexts CPU None = Ok results /\
    Forall2 result_valid contexts results.
Proof.
  unfold BaselineAdapter. intros Ha Hc. inv_ok. bprop.
  cbn [forecast_batch]. unfold baseline_forecast_batch.
  rewrite !bool_decide_eq_true_2 by done. cbn [negb raise_when rbind].
  apply res_map_exists. intros c Hin. rewrite Forall_forall in Hc. specialize (Hc c Hin).
  apply (baseline_result_ok c (Z.max MIN_HISTORY_POINTS period)); [lia | done |].
  pose proof (rv_history_length _ _ Hc). unfold MIN_SEASONAL_PERIOD in *. lia.
Qed.

Definition sample_baseline : ForecastModelAdapter :=
  {| adapter_name := str "gradient_boosting"; model_id := sample_id 8;
     model_version := sample_id 9;
     forecast_batch := baseline_forecast_batch GRADIENT_BOOSTING (sample_id 8) (sample_id 9) 8 |}.

Lemma baseline_adapter_total_witness :
  exists results, forecast_batch sample_baseline [sample_context] CPU None = Ok results.
Proof.
  destruct (baseline_adapter_total GRADIENT_BOOSTING (sample_id 8) (sample_id 9) 8
    sample_baseline [sample_context]) as (results & H & _).
  - reflexivity.
  - apply Forall_cons. split; [|apply Forall_nil_2].
    apply (request_valid_weaken 16); [vm_compute; discriminate | apply sample_context_valid].
  - exists results. exact H.
Defined.

(** The external model is contained.  Whatever the backend returns, the
    wrapper either raises or returns exactly one result per context, each
    attached to its context and in range, and each carrying the adapter's own
    name, model identity, device and checkpoint. *)
Theorem timesfm_adapter_contains backend mid mver contexts device checkpoint results :
  forecast_batch (TimesFmAdapter backend mid mver) contexts device checkpoint = Ok results ->
  Forall2 result_valid contexts results /\
  Forall (fun a => ar_producer_name a = str "timesfm" /\ ar_model_id a = mid /\
                   ar_model_version a = mver /\ ar_device a = device /\
                   ar_checkpoint_sha256 a = checkpoint) results.
Proof.
  cbn [forecast_batch TimesFmAdapter]. unfold timesfm_forecast_batch. intros H.
  apply rbind_ok in H as (? & _ & H). apply rbind_ok in H as (raw & _ & H).
  apply rbind_ok in H as ([] & Hlen & H). apply rbind_ok in H as ([] & Hv & H).
  apply raise_when_ok in Hlen. bprop. simplify_eq. split.
  - apply (iter_combine (fun cr => validate_for cr.2 cr.1) result_valid) in Hv; [done| |].
    + intros c a. apply validate_for_ok.
    + rewrite length_map. lia.
  - apply Forall_fmap, Forall_forall. intros a _. done.
Qed.

Lemma timesfm_adapter_contains_witness :
  exists results,
    forecast_batch (TimesFmAdapter (reference_forecast_batch (sample_id 1) (sample_id 1))
      (sample_id 8) (sample_id 9)) [sample_context] CPU None = Ok results /\
    Forall2 result_valid [sample_context] results.
Proof.
  destruct (forecast_batch (TimesFmAdapter (reference_forecast_batch (sample_id 1) (sample_id 1))
      (sample_id 8) (sample_id 9)) [sample_context] CPU None) as [results|e] eqn:E;
    [|vm_compute in E; discriminate E].
  exists results. split; [reflexivity|].
  apply (timesfm_adapter_contains _ _ _ _ _ _ _ E).
Defined.
