(* ===== verification/Horizon.v ===== *)
(** * Exchange-calendar horizons

    Models the horizon half of
    [python/research/aegis_mx_research/forecast_contracts.py]: semantic horizon
    specifications, regular sessions with halts, calendars, and the resolution of a
    horizon to an exchange timestamp.  A frozen dataclass is a record together with
    the check that its [__post_init__] makes; the typed model has no values outside
    an enumeration.  Texts of error messages leave out interpolated values. *)

From S2P Require Import Prelude PyText ForecastDomain.
Open Scope Z_scope.

Definition HORIZON_SCHEMA_VERSION : pystr := str "1.0.0".
Definition MAX_LABEL_BYTES : Z := 16.
Definition MAX_CALENDAR_ID_BYTES : Z := 32.
Definition MAX_SESSION_ID_BYTES : Z := 64.
Definition MAX_CALENDAR_SESSIONS : Z := 4096.
Definition MAX_HORIZON_VALUE : Z := 10000.
Definition MAX_INT64 : Z := 2 ^ 63 - 1.
Definition MINUTE_NS : Z := 60000000000.

Inductive ForecastHorizonUnit := ELAPSED_NANOSECONDS | TRADING_MINUTES | TRADING_SESSIONS.
Inductive HorizonHaltPolicy := HP_NOT_APPLICABLE | REJECT | PAUSE | COUNT_SCHEDULED.
Inductive HorizonSessionEndpoint := SE_NOT_APPLICABLE | REGULAR_SESSION_CLOSE.
#[export] Instance ForecastHorizonUnit_eq_dec : EqDecision ForecastHorizonUnit.
Proof. solve_decision. Defined.
#[export] Instance HorizonHaltPolicy_eq_dec : EqDecision HorizonHaltPolicy.
Proof. solve_decision. Defined.
#[export] Instance HorizonSessionEndpoint_eq_dec : EqDecision HorizonSessionEndpoint.
Proof. solve_decision. Defined.

Definition horizon_error {A} (code : HorizonErrorCode) (msg : string) : res A :=
  raise (HorizonContractError code) msg.
Definition horizon_when (b : bool) (code : HorizonErrorCode) (msg : string) : res unit :=
  raise_when b (HorizonContractError code) msg.

(** [_bounded_ascii] *)
Definition bounded_ascii (value : pystr) (maximum : Z) : res unit :=
  let! encoded := try_except (ascii_encode value) [UnicodeError]
                    (fun _ => horizon_error INVALID_SPEC "text must be ASCII") in
  horizon_when (bool_decide (encoded = []) || (maximum <? Z.of_nat (length encoded))
                || existsb (Z.eqb 0) encoded)
    INVALID_SPEC "text is empty or exceeds its bytes".

(** [_timestamp] *)
Definition check_timestamp (value : Z) (code : HorizonErrorCode) : res unit :=
  horizon_when (negb ((0 <? value) && (value <=? MAX_INT64))) code
    "timestamp is outside positive int64 nanoseconds".

(** ** Specifications *)

(** [_LABEL_PATTERN.fullmatch] *)
Definition label_pattern (s : pystr) : bool :=
  negb (bool_decide (s = [])) && forallb (fun c => is_lower c || is_decimal c) s.

Record HorizonSpec := {
  hs_label : pystr;
  hs_unit : ForecastHorizonUnit;
  hs_value : Z;
  hs_halt_policy : HorizonHaltPolicy;
  hs_session_endpoint : HorizonSessionEndpoint;
  hs_calendar_version : option Identifier128;
  hs_schema_version : pystr;
}.

Definition HorizonSpec_post_init (s : HorizonSpec) : res unit :=
  do! bounded_ascii (hs_label s) MAX_LABEL_BYTES in
  do! horizon_when (negb (label_pattern (hs_label s))) INVALID_SPEC
        "horizon label must be lowercase alphanumeric text" in
  do! horizon_when (negb (bool_decide (hs_schema_version s = HORIZON_SCHEMA_VERSION)))
        INVALID_SPEC "unsupported horizon schema version" in
  let maximum_value := if decide (hs_unit s = ELAPSED_NANOSECONDS) then MAX_INT64
                       else MAX_HORIZON_VALUE in
  do! horizon_when (negb ((0 <? hs_value s) && (hs_value s <=? maximum_value)))
        INVALID_SPEC "horizon value is outside the supported bound" in
  if decide (hs_unit s = ELAPSED_NANOSECONDS) then
    horizon_when (negb (bool_decide (hs_halt_policy s = HP_NOT_APPLICABLE))
                  || negb (bool_decide (hs_session_endpoint s = SE_NOT_APPLICABLE))
                  || negb (bool_decide (hs_calendar_version s = None)))
      INVALID_SPEC "legacy elapsed horizon cannot carry calendar semantics"
  else
    do! horizon_when (bool_decide (hs_calendar_version s = None)) INVALID_SPEC
          "trading horizon requires a calendar version" in
    do! horizon_when (bool_decide (hs_halt_policy s = HP_NOT_APPLICABLE)) INVALID_SPEC
          "trading horizon requires an explicit halt policy" in
    let expected_endpoint := if decide (hs_unit s = TRADING_MINUTES) then SE_NOT_APPLICABLE
                             else REGULAR_SESSION_CLOSE in
    horizon_when (negb (bool_decide (hs_session_endpoint s = expected_endpoint)))
      INVALID_SPEC "session endpoint does not agree with the horizon unit".

Definition new_spec (s : HorizonSpec) : res HorizonSpec :=
  do! HorizonSpec_post_init s in Ok s.

(** [HorizonSpec.trading_minutes] *)
Definition trading_minutes (label : pystr) (value : Z) (version : Identifier128)
    (policy : HorizonHaltPolicy) : res HorizonSpec :=
  new_spec {| hs_label := label; hs_unit := TRADING_MINUTES; hs_value := value;
              hs_halt_policy := policy; hs_session_endpoint := SE_NOT_APPLICABLE;
              hs_calendar_version := Some version;
              hs_schema_version := HORIZON_SCHEMA_VERSION |}.

(** [HorizonSpec.trading_sessions] *)
Definition trading_sessions (label : pystr) (value : Z) (version : Identifier128)
    (policy : HorizonHaltPolicy) : res HorizonSpec :=
  new_spec {| hs_label := label; hs_unit := TRADING_SESSIONS; hs_value := value;
              hs_halt_policy := policy; hs_session_endpoint := REGULAR_SESSION_CLOSE;
              hs_calendar_version := Some version;
              hs_schema_version := HORIZON_SCHEMA_VERSION |}.

Definition REQUIRED_HORIZON_LABELS : list pystr :=
  map str ["5m"; "10m"; "15m"; "30m"; "60m"; "2h"; "5h"; "1d"; "1w"; "2w"; "1mo"; "2mo"]%string.
Definition REQUIRED_TRADING_MINUTES : list Z := [5; 10; 15; 30; 60; 120; 300].
Definition REQUIRED_TRADING_SESSIONS : list Z := [1; 5; 10; 21; 42].

(** [zip(strict=True)] raises when the lengths differ. *)
Definition zip_strict {A B} (l : list A) (k : list B) : res (list (A * B)) :=
  do! raise_when (negb (length l =? length k)%nat) ValueError "zip() argument length mismatch" in
  Ok (combine l k).

Definition required_horizon_specs (version : Identifier128) (policy : HorizonHaltPolicy)
    : res (list HorizonSpec) :=
  let n := length REQUIRED_TRADING_MINUTES in
  let! minutes := zip_strict (take n REQUIRED_HORIZON_LABELS) REQUIRED_TRADING_MINUTES in
  let! minute_specs := res_map (fun lv => trading_minutes lv.1 lv.2 version policy) minutes in
  let! sessions := zip_strict (drop n REQUIRED_HORIZON_LABELS) REQUIRED_TRADING_SESSIONS in
  let! session_specs := res_map (fun lv => trading_sessions lv.1 lv.2 version policy) sessions in
  Ok (minute_specs ++ session_specs).

(** ** Calendars *)

Record HaltInterval := { halt_start : Z; halt_end : Z }.

Definition HaltInterval_post_init (h : HaltInterval) : res unit :=
  do! check_timestamp (halt_start h) TIMESTAMP_OVERFLOW in
  do! check_timestamp (halt_end h) TIMESTAMP_OVERFLOW in
  horizon_when (halt_end h <=? halt_start h) INVALID_HALT "halt interval is empty or reversed".

Record TradingSession := {
  session_id : pystr;
  session_open : Z;
  session_close : Z;
  halt_intervals : list HaltInterval;
}.

(** The loop over the halts of a session. *)
Fixpoint halts_loop (s : TradingSession) (previous_end : Z) (l : list HaltInterval) : res unit :=
  match l with
  | [] => Ok tt
  | h :: t =>
      do! horizon_when ((halt_start h <? session_open s) || (session_close s <? halt_end h)
                        || (halt_start h <? previous_end))
            INVALID_HALT "halt is outside the session or overlaps a prior halt" in
      halts_loop s (halt_end h) t
  end.

Definition TradingSession_post_init (s : TradingSession) : res unit :=
  do! bounded_ascii (session_id s) MAX_SESSION_ID_BYTES in
  do! check_timestamp (session_open s) TIMESTAMP_OVERFLOW in
  do! check_timestamp (session_close s) TIMESTAMP_OVERFLOW in
  let duration := session_close s - session_open s in
  do! horizon_when ((duration <=? 0) || negb (duration mod MINUTE_NS =? 0)) INVALID_SESSION
        "session must contain a positive whole number of minutes" in
  halts_loop s (session_open s) (halt_intervals s).

Record ExchangeCalendar := {
  calendar_id : pystr;
  calendar_version : Identifier128;
  sessions : list TradingSession;
}.

(** The loop over the sessions of a calendar. *)
Fixpoint sessions_loop (previous_close : Z) (session_ids : list pystr)
    (l : list TradingSession) : res unit :=
  match l with
  | [] => Ok tt
  | s :: t =>
      do! horizon_when (bool_decide (session_id s ∈ session_ids)
                        || (session_open s <=? previous_close))
            INVALID_CALENDAR "calendar sessions overlap, are unordered, or repeat identity" in
      sessions_loop (session_close s) (session_id s :: session_ids) t
  end.

Definition ExchangeCalendar_post_init (c : ExchangeCalendar) : res unit :=
  do! bounded_ascii (calendar_id c) MAX_CALENDAR_ID_BYTES in
  let n := Z.of_nat (length (sessions c)) in
  do! horizon_when (negb ((0 <? n) && (n <=? MAX_CALENDAR_SESSIONS))) INVALID_CALENDAR
        "calendar session count is outside the supported bound" in
  sessions_loop 0 [] (sessions c).

Record HorizonTarget := {
  ht_spec : HorizonSpec;
  ht_as_of : Z;
  ht_target : Z;
  ht_elapsed : Z;
}.

Definition HorizonTarget_post_init (t : HorizonTarget) : res unit :=
  do! check_timestamp (ht_as_of t) TIMESTAMP_OVERFLOW in
  do! check_timestamp (ht_target t) TIMESTAMP_OVERFLOW in
  horizon_when ((ht_target t <=? ht_as_of t)
                || negb (ht_elapsed t =? ht_target t - ht_as_of t)) INVALID_SPEC
    "target timestamp and elapsed interval disagree".

Definition new_target (t : HorizonTarget) : res HorizonTarget :=
  do! HorizonTarget_post_init t in Ok t.

(** ** Resolution *)

Definition overlaps_minute (h : HaltInterval) (endpoint : Z) : bool :=
  (halt_start h <? endpoint) && (endpoint - MINUTE_NS <? halt_end h).

Definition halted_minute (s : TradingSession) (endpoint : Z) : bool :=
  existsb (fun h => overlaps_minute h endpoint) (halt_intervals s).

(** The loop of [_as_of_session_index]; a [break] leads to the final [raise]. *)
Fixpoint find_session (as_of : Z) (index : nat) (l : list TradingSession) : res nat :=
  match l with
  | [] => horizon_error INVALID_AS_OF_TIME
            "as-of time is not an eligible regular-session minute endpoint"
  | s :: t =>
      if (session_open s <? as_of) && (as_of <=? session_close s) then
        if negb ((as_of - session_open s) mod MINUTE_NS =? 0) then
          horizon_error INVALID_AS_OF_TIME
            "as-of time is not an eligible regular-session minute endpoint"
        else Ok index
      else find_session as_of (S index) t
  end.

Definition as_of_session_index (c : ExchangeCalendar) (as_of : Z) : res nat :=
  do! check_timestamp as_of TIMESTAMP_OVERFLOW in
  find_session as_of 0 (sessions c).

(** The [while] loop over the minutes of one session: the target, or what remains
    to be counted.  [minute_fuel] is the number of endpoints up to the close. *)
Fixpoint minute_loop (fuel : nat) (policy : HorizonHaltPolicy) (s : TradingSession)
    (endpoint remaining : Z) : res (Z + Z) :=
  match fuel with
  | O => Ok (inr remaining)
  | S fuel' =>
      if endpoint <=? session_close s then
        let halted := halted_minute s endpoint in
        do! horizon_when (halted && bool_decide (policy = REJECT)) HALT_ENCOUNTERED
              "halt intersects the requested trading-minute horizon" in
        if negb halted || bool_decide (policy = COUNT_SCHEDULED) then
          if remaining - 1 =? 0 then Ok (inl endpoint)
          else minute_loop fuel' policy s (endpoint + MINUTE_NS) (remaining - 1)
        else minute_loop fuel' policy s (endpoint + MINUTE_NS) remaining
      else Ok (inr remaining)
  end.

Definition minute_fuel (s : TradingSession) (endpoint : Z) : nat :=
  Z.to_nat ((session_close s - endpoint) / MINUTE_NS + 1).

Definition session_minutes_loop (policy : HorizonHaltPolicy) (s : TradingSession)
    (endpoint remaining : Z) : res (Z + Z) :=
  minute_loop (minute_fuel s endpoint) policy s endpoint remaining.

(** The sessions after the current one. *)
Fixpoint later_sessions_loop (policy : HorizonHaltPolicy) (remaining : Z)
    (l : list TradingSession) : res Z :=
  match l with
  | [] => horizon_error INSUFFICIENT_CALENDAR
            "calendar does not cover the requested trading-minute horizon"
  | s :: t =>
      let! r := session_minutes_loop policy s (session_open s + MINUTE_NS) remaining in
      match r with
      | inl endpoint => Ok endpoint
      | inr remaining' => later_sessions_loop policy remaining' t
      end
  end.

(** [range(session_index, len(calendar.sessions))]: the first pass starts after
    the as-of minute. *)
Definition resolve_trading_minutes (spec : HorizonSpec) (as_of : Z) (c : ExchangeCalendar)
    (session_index : nat) : res Z :=
  match drop session_index (sessions c) with
  | [] => later_sessions_loop (hs_halt_policy spec) (hs_value spec) []
  | s :: t =>
      let! r := session_minutes_loop (hs_halt_policy spec) s (as_of + MINUTE_NS)
                  (hs_value spec) in
      match r with
      | inl endpoint => Ok endpoint
      | inr remaining => later_sessions_loop (hs_halt_policy spec) remaining t
      end
  end.

Fixpoint session_loop (policy : HorizonHaltPolicy) (remaining : Z) (l : list TradingSession)
    : res Z :=
  match l with
  | [] => horizon_error INSUFFICIENT_CALENDAR
            "calendar does not cover the requested trading-session horizon"
  | s :: t =>
      do! horizon_when (negb (bool_decide (length (halt_intervals s) = 0%nat))
                        && bool_decide (policy = REJECT))
            HALT_ENCOUNTERED "halt intersects a candidate future session" in
      if halted_minute s (session_close s) && bool_decide (policy = PAUSE)
      then session_loop policy remaining t
      else if remaining - 1 =? 0 then Ok (session_close s)
      else session_loop policy (remaining - 1) t
  end.

Definition resolve_trading_sessions (spec : HorizonSpec) (c : ExchangeCalendar)
    (session_index : nat) : res Z :=
  session_loop (hs_halt_policy spec) (hs_value spec) (drop (S session_index) (sessions c)).

Definition target_of_minute (spec : HorizonSpec) (as_of target : Z) : res HorizonTarget :=
  new_target {| ht_spec := spec; ht_as_of := as_of; ht_target := target;
                ht_elapsed := target - as_of |}.

Definition resolve_horizon (spec : HorizonSpec) (as_of : Z) (c : ExchangeCalendar)
    : res HorizonTarget :=
  if decide (hs_unit spec = ELAPSED_NANOSECONDS) then
    let target := as_of + hs_value spec in
    do! horizon_when (MAX_INT64 <? target) TIMESTAMP_OVERFLOW
          "elapsed horizon target overflows int64" in
    new_target {| ht_spec := spec; ht_as_of := as_of; ht_target := target;
                  ht_elapsed := hs_value spec |}
  else
    do! horizon_when (negb (bool_decide (hs_calendar_version spec = Some (calendar_version c))))
          CALENDAR_VERSION_MISMATCH "horizon and exchange calendar versions differ" in
    let! session_index := as_of_session_index c as_of in
    let! current_session := match sessions c !! session_index with
                            | Some s => Ok s
                            | None => raise IndexError "tuple index out of range"
                            end in
    do! horizon_when (negb (bool_decide (hs_halt_policy spec = COUNT_SCHEDULED))
                      && halted_minute current_session as_of)
          INVALID_AS_OF_TIME "as-of minute is halted under the selected policy" in
    let! target := if decide (hs_unit spec = TRADING_MINUTES)
                   then resolve_trading_minutes spec as_of c session_index
                   else resolve_trading_sessions spec c session_index in
    target_of_minute spec as_of target.

(** ** Reference definitions

    The minutes of a calendar in one flat list, each with its session. *)

Fixpoint endpoints (n : nat) (e : Z) : list Z :=
  match n with O => [] | S n' => e :: endpoints n' (e + MINUTE_NS) end.

Definition session_minutes (s : TradingSession) : list Z :=
  endpoints (Z.to_nat ((session_close s - session_open s) / MINUTE_NS))
    (session_open s + MINUTE_NS).

Definition calendar_minutes (c : ExchangeCalendar) : list (TradingSession * Z) :=
  flat_map (fun s => map (pair s) (session_minutes s)) (sessions c).

Definition halted (m : TradingSession * Z) : bool := halted_minute m.1 m.2.

(** The minutes that a policy counts. *)
Definition counted (policy : HorizonHaltPolicy) (m : TradingSession * Z) : bool :=
  bool_decide (policy = COUNT_SCHEDULED) || negb (halted m).

Definition nth_or {A} (l : list A) (n : nat) (msg : string) : res A :=
  match l !! Nat.pred n with Some x => Ok x | None => horizon_error INSUFFICIENT_CALENDAR msg end.

(** The [n]th counted minute; under [REJECT] no minute up to it may be halted. *)
Definition minute_target (policy : HorizonHaltPolicy) (n : nat)
    (l : list (TradingSession * Z)) : res Z :=
  if bool_decide (policy = REJECT) && existsb halted (take n l)
  then horizon_error HALT_ENCOUNTERED "halt intersects the requested trading-minute horizon"
  else let! m := nth_or (List.filter (counted policy) l) n
                   "calendar does not cover the requested trading-minute horizon" in
       Ok m.2.

(** The sessions that a policy counts. *)
Definition session_counted (policy : HorizonHaltPolicy) (s : TradingSession) : bool :=
  negb (bool_decide (policy = PAUSE)) || negb (halted_minute s (session_close s)).

Definition has_halts (s : TradingSession) : bool :=
  negb (bool_decide (length (halt_intervals s) = 0%nat)).

Definition session_target (policy : HorizonHaltPolicy) (n : nat) (l : list TradingSession)
    : res Z :=
  if bool_decide (policy = REJECT) && existsb has_halts (take n l)
  then horizon_error HALT_ENCOUNTERED "halt intersects a candidate future session"
  else let! s := nth_or (List.filter (session_counted policy) l) n
                   "calendar does not cover the requested trading-session horizon" in
       Ok (session_close s).

Definition minutes_after (as_of : Z) (c : ExchangeCalendar) : list (TradingSession * Z) :=
  List.filter (fun m => as_of <? m.2) (calendar_minutes c).
Definition sessions_after (as_of : Z) (c : ExchangeCalendar) : list TradingSession :=
  List.filter (fun s => as_of <? session_open s) (sessions c).

(** The target of a horizon, with no loop over sessions and minutes. *)
Definition reference_target (spec : HorizonSpec) (as_of : Z) (c : ExchangeCalendar) : res Z :=
  if decide (hs_unit spec = ELAPSED_NANOSECONDS) then
    do! horizon_when (MAX_INT64 <? as_of + hs_value spec) TIMESTAMP_OVERFLOW
          "elapsed horizon target overflows int64" in
    do! check_timestamp as_of TIMESTAMP_OVERFLOW in
    Ok (as_of + hs_value spec)
  else
    do! horizon_when (negb (bool_decide (hs_calendar_version spec = Some (calendar_version c))))
          CALENDAR_VERSION_MISMATCH "horizon and exchange calendar versions differ" in
    do! check_timestamp as_of TIMESTAMP_OVERFLOW in
    match List.find (fun m => m.2 =? as_of) (calendar_minutes c) with
    | None => horizon_error INVALID_AS_OF_TIME
                "as-of time is not an eligible regular-session minute endpoint"
    | Some m =>
        do! horizon_when (negb (counted (hs_halt_policy spec) m)) INVALID_AS_OF_TIME
              "as-of minute is halted under the selected policy" in
        let n := Z.to_nat (hs_value spec) in
        if decide (hs_unit spec = TRADING_MINUTES)
        then minute_target (hs_halt_policy spec) n (minutes_after as_of c)
        else session_target (hs_halt_policy spec) n (sessions_after as_of c)
    end.

(** ** The minute loop walks the flat list *)

Fixpoint walk (policy : HorizonHaltPolicy) (remaining : Z) (l : list (TradingSession * Z))
    : res Z :=
  match l with
  | [] => horizon_error INSUFFICIENT_CALENDAR
            "calendar does not cover the requested trading-minute horizon"
  | m :: t =>
      do! horizon_when (halted m && bool_decide (policy = REJECT)) HALT_ENCOUNTERED
            "halt intersects the requested trading-minute horizon" in
      if counted policy m
      then if remaining - 1 =? 0 then Ok m.2 else walk policy (remaining - 1) t
      else walk policy remaining t
  end.

Lemma minute_ns_pos : 0 < MINUTE_NS.
Proof. done. Qed.

Lemma minute_fuel_out s e : session_close s < e -> minute_fuel s e = 0%nat.
Proof.
  intros H. unfold minute_fuel. pose proof minute_ns_pos.
  assert ((session_close s - e) / MINUTE_NS < 0) by (apply Z.div_lt_upper_bound; lia). lia.
Qed.

Lemma minute_fuel_in s e :
  e <= session_close s -> minute_fuel s e = S (minute_fuel s (e + MINUTE_NS)).
Proof.
  intros H. unfold minute_fuel. pose proof minute_ns_pos.
  assert (0 <= (session_close s - e) / MINUTE_NS) by (apply Z.div_pos; lia).
  replace (session_close s - (e + MINUTE_NS)) with ((session_close s - e) + (-1) * MINUTE_NS) by lia.
  rewrite Z.div_add by lia. lia.
Qed.

(** The fuel of the [while] loop never runs out. *)
Lemma minute_while policy s e r :
  session_minutes_loop policy s e r =
  if e <=? session_close s then
    do! horizon_when (halted_minute s e && bool_decide (policy = REJECT)) HALT_ENCOUNTERED
          "halt intersects the requested trading-minute horizon" in
    if counted policy (s, e) then
      if r - 1 =? 0 then Ok (inl e)
      else session_minutes_loop policy s (e + MINUTE_NS) (r - 1)
    else session_minutes_loop policy s (e + MINUTE_NS) r
  else Ok (inr r).
Proof.
  unfold session_minutes_loop at 1. destruct (e <=? session_close s) eqn:E.
  - rewrite minute_fuel_in by lia. cbn [minute_loop]. rewrite E. unfold counted, halted.
    cbn [fst snd]. by rewrite orb_comm.
  - by rewrite minute_fuel_out by lia.
Qed.

Lemma loop_walk policy s e r rest :
  (let! x := session_minutes_loop policy s e r in
   match x with inl t => Ok t | inr r' => walk policy r' rest end)
  = walk policy r (map (pair s) (endpoints (minute_fuel s e) e) ++ rest).
Proof.
  remember (minute_fuel s e) as n eqn:En. revert e r En.
  induction n as [|n IH]; intros e r En; rewrite minute_while.
  - destruct (e <=? session_close s) eqn:E; [rewrite minute_fuel_in in En by lia; lia|]. done.
  - destruct (e <=? session_close s) eqn:E; [|rewrite minute_fuel_out in En by lia; lia].
    rewrite minute_fuel_in in En by lia. injection En as En.
    cbn [endpoints map app walk]. unfold halted at 1. cbn [fst snd].
    destruct (horizon_when _ _ _); cbn [rbind]; [|done].
    destruct (counted policy (s, e)); [destruct (r - 1 =? 0)|]; cbn [rbind]; auto.
Qed.

Lemma session_minutes_fuel s : minute_fuel s (session_open s + MINUTE_NS)
  = Z.to_nat ((session_close s - session_open s) / MINUTE_NS).
Proof.
  unfold minute_fuel. f_equal.
  replace (session_close s - (session_open s + MINUTE_NS))
    with ((session_close s - session_open s) + (-1) * MINUTE_NS) by lia.
  pose proof minute_ns_pos. rewrite Z.div_add by lia. lia.
Qed.

Lemma later_walk policy r l :
  later_sessions_loop policy r l
  = walk policy r (flat_map (fun s => map (pair s) (session_minutes s)) l).
Proof.
  revert r. induction l as [|s l IH]; intros r; [done|]. cbn [later_sessions_loop flat_map].
  unfold session_minutes at 1. rewrite <- session_minutes_fuel, <- loop_walk.
  destruct (session_minutes_loop _ _ _ _) as [[t|r']|e]; cbn [rbind]; auto.
Qed.

Lemma walk_target policy r l :
  0 < r -> walk policy r l = minute_target policy (Z.to_nat r) l.
Proof.
  revert r. induction l as [|m l IH]; intros r Hr; unfold minute_target.
  - rewrite take_nil. cbn. rewrite andb_false_r. done.
  - destruct (Z.to_nat r) as [|n] eqn:En; [lia|].
    assert (Hn : Z.to_nat (r - 1) = n) by lia.
    cbn [walk take existsb List.filter]. unfold counted at 1, counted at 1, horizon_when.
    assert (Hstep : counted policy m = true ->
      (if r - 1 =? 0 then Ok m.2 else walk policy (r - 1) l)
      = if bool_decide (policy = REJECT) && existsb halted (take n l)
        then horizon_error HALT_ENCOUNTERED "halt intersects the requested trading-minute horizon"
        else let! x := nth_or (m :: List.filter (counted policy) l) (S n)
               "calendar does not cover the requested trading-minute horizon" in Ok x.2).
    { intros Hc. destruct (r - 1 =? 0) eqn:E1.
      - assert (n = 0%nat) as -> by lia. rewrite take_0. cbn. by rewrite andb_false_r.
      - rewrite IH by lia. rewrite Hn. unfold minute_target.
        destruct n as [|n']; [lia|]. done. }
    destruct (halted m) eqn:Hm, (decide (policy = REJECT)) as [->|Hp].
    + done.
    + rewrite (bool_decide_eq_false_2 (policy = REJECT)) in * by done. cbn [andb raise_when rbind].
      destruct (decide (policy = COUNT_SCHEDULED)) as [->|Hp'].
      * cbn. apply Hstep. done.
      * rewrite bool_decide_eq_false_2 by done. cbn [orb negb]. rewrite IH by lia. rewrite En.
        unfold minute_target. by rewrite (bool_decide_eq_false_2 (policy = REJECT)) by done.
    + cbn. apply Hstep. unfold counted. by rewrite Hm, orb_true_r.
    + rewrite (bool_decide_eq_false_2 (policy = REJECT)) in * by done. cbn [andb raise_when rbind negb].
      rewrite orb_true_r. apply Hstep. unfold counted. by rewrite Hm, orb_true_r.
Qed.

Lemma session_loop_target policy r l :
  0 < r -> session_loop policy r l = session_target policy (Z.to_nat r) l.
Proof.
  revert r. induction l as [|s l IH]; intros r Hr; unfold session_target.
  - rewrite take_nil. cbn. rewrite andb_false_r. done.
  - destruct (Z.to_nat r) as [|n] eqn:En; [lia|].
    assert (Hn : Z.to_nat (r - 1) = n) by lia.
    cbn [session_loop take existsb List.filter]. fold (has_halts s). unfold horizon_when.
    assert (Hstep : (if r - 1 =? 0 then Ok (session_close s) else session_loop policy (r - 1) l)
      = if bool_decide (policy = REJECT) && existsb has_halts (take n l)
        then horizon_error HALT_ENCOUNTERED "halt intersects a candidate future session"
        else let! x := nth_or (s :: List.filter (session_counted policy) l) (S n)
               "calendar does not cover the requested trading-session horizon" in
             Ok (session_close x)).
    { destruct (r - 1 =? 0) eqn:E1.
      - assert (n = 0%nat) as -> by lia. rewrite take_0. cbn. by rewrite andb_false_r.
      - rewrite IH by lia. rewrite Hn. unfold session_target. destruct n as [|n']; [lia|]. done. }
    unfold session_counted at 1.
    destruct (decide (policy = REJECT)) as [->|Hp].
    + rewrite andb_true_r. destruct (has_halts s); [done|]. cbn [raise_when rbind].
      rewrite andb_false_r. apply Hstep.
    + rewrite (bool_decide_eq_false_2 (policy = REJECT)) in * by done.
      rewrite andb_false_r. cbn [andb raise_when rbind].
      destruct (decide (policy = PAUSE)) as [->|Hp']; cbn.
      * rewrite andb_true_r. destruct (halted_minute s (session_close s)); cbn; [|apply Hstep].
        rewrite IH by lia. by rewrite En.
      * rewrite (bool_decide_eq_false_2 (policy = PAUSE)) by done. rewrite andb_false_r. apply Hstep.
Qed.

(** ** Valid calendars *)

(** A calendar and its sessions, as constructed. *)
Definition calendar_ok (c : ExchangeCalendar) : Prop :=
  ExchangeCalendar_post_init c = Ok tt
  /\ Forall (fun s => TradingSession_post_init s = Ok tt) (sessions c).

(** What the constructor of a session establishes. *)
Record session_ok (s : TradingSession) : Prop := {
  so_open : 0 < session_open s;
  so_order : session_open s < session_close s;
  so_close : session_close s <= MAX_INT64;
  so_grid : (session_close s - session_open s) mod MINUTE_NS = 0;
}.

Lemma session_post_init_ok s : TradingSession_post_init s = Ok tt -> session_ok s.
Proof.
  unfold TradingSession_post_init, check_timestamp, horizon_when. intros H. cbv zeta in H.
  inv_ok. bprop. split; lia.
Qed.

Definition before (s t : TradingSession) : Prop := session_close s < session_open t.

Lemma sessions_loop_sorted prev ids l :
  sessions_loop prev ids l = Ok tt -> Forall session_ok l ->
  Forall (fun s => prev < session_open s) l /\ StronglySorted before l.
Proof.
  unfold horizon_when. revert prev ids. induction l as [|s l IH]; intros prev ids H Hok; [by repeat constructor|].
  cbn in H. apply Forall_cons in Hok as [Hs Hok]. unfold horizon_when in H. inv_ok. bprop.
  destruct (IH _ _ H Hok) as [Hl Hsort]. destruct Hs. split.
  - constructor; [lia|]. eapply Forall_impl; [exact Hl|]. intros t Ht. cbn in *. lia.
  - constructor; [done|]. eapply Forall_impl; [exact Hl|]. done.
Qed.

Lemma calendar_sorted c :
  calendar_ok c -> Forall session_ok (sessions c) /\ StronglySorted before (sessions c).
Proof.
  intros [H Hs]. assert (Hok : Forall session_ok (sessions c)).
  { eapply Forall_impl; [exact Hs|]. apply session_post_init_ok. }
  split; [done|]. unfold ExchangeCalendar_post_init, horizon_when in H. cbv zeta in H. inv_ok.
  by eapply sessions_loop_sorted.
Qed.

Lemma elem_endpoints n e x :
  x ∈ endpoints n e <-> exists k, 0 <= k < Z.of_nat n /\ x = e + k * MINUTE_NS.
Proof.
  revert e. induction n as [|n IH]; intros e; cbn [endpoints].
  - split; [set_solver | intros (k & Hk & _); lia].
  - rewrite elem_of_cons, IH. split.
    + intros [-> | (k & Hk & ->)]; [exists 0 | exists (k + 1)]; lia.
    + intros (k & Hk & ->). destruct (decide (k = 0)) as [->|]; [left; lia|].
      right. exists (k - 1). lia.
Qed.

Lemma elem_session_minutes s x :
  session_ok s ->
  x ∈ session_minutes s <->
  session_open s < x <= session_close s /\ (x - session_open s) mod MINUTE_NS = 0.
Proof.
  intros [Ho Hlt Hc Hg]. unfold session_minutes. rewrite elem_endpoints. pose proof minute_ns_pos as HM.
  assert (Hd : session_close s - session_open s
               = (session_close s - session_open s) / MINUTE_NS * MINUTE_NS)
    by (pose proof (Z.div_mod (session_close s - session_open s) MINUTE_NS); lia).
  assert (0 <= (session_close s - session_open s) / MINUTE_NS) by (apply Z.div_pos; lia).
  set (q := (session_close s - session_open s) / MINUTE_NS) in *. rewrite Z2Nat.id by lia. split.
  - intros (k & Hk & ->). split; [nia|].
    replace (session_open s + MINUTE_NS + k * MINUTE_NS - session_open s) with ((k + 1) * MINUTE_NS) by lia.
    by apply Z.mod_mul; lia.
  - intros [Hx Hm]. exists ((x - session_open s) / MINUTE_NS - 1).
    assert (x - session_open s = (x - session_open s) / MINUTE_NS * MINUTE_NS)
      by (pose proof (Z.div_mod (x - session_open s) MINUTE_NS); lia).
    set (p := (x - session_open s) / MINUTE_NS) in *. nia.
Qed.

Lemma elem_calendar_minutes c s x :
  Forall session_ok (sessions c) ->
  (s, x) ∈ calendar_minutes c <->
  s ∈ sessions c /\ session_open s < x <= session_close s
  /\ (x - session_open s) mod MINUTE_NS = 0.
Proof.
  intros Hok. unfold calendar_minutes. rewrite list_elem_of_In, in_flat_map. split.
  - intros (s' & Hs & Hx). apply in_map_iff in Hx as (y & [= -> ->] & Hy).
    apply list_elem_of_In in Hs, Hy. split; [done|]. apply elem_session_minutes; [|done].
    rewrite Forall_forall in Hok. by apply Hok.
  - intros (Hs & Hx). exists s. split; [by apply list_elem_of_In|]. apply in_map.
    apply list_elem_of_In, elem_session_minutes; [|done]. rewrite Forall_forall in Hok. by apply Hok.
Qed.

(** ** The as-of minute splits the calendar *)

Lemma filter_all {A} (f : A -> bool) l : Forall (fun x => f x = true) l -> List.filter f l = l.
Proof. induction 1 as [|x l Hx _ IH]; [done|]. cbn. by rewrite Hx, IH. Qed.

Lemma filter_none {A} (f : A -> bool) l : Forall (fun x => f x = false) l -> List.filter f l = [].
Proof. induction 1 as [|x l Hx _ IH]; [done|]. cbn. by rewrite Hx. Qed.

Lemma filter_endpoints k n e :
  List.filter (fun x => e + (Z.of_nat k - 1) * MINUTE_NS <? x) (endpoints n e)
  = endpoints (n - k) (e + Z.of_nat k * MINUTE_NS).
Proof.
  revert n e. induction k as [|k IH]; intros n e.
  - rewrite Nat.sub_0_r. replace (e + Z.of_nat 0 * MINUTE_NS) with e by lia.
    apply filter_all, Forall_forall. intros x Hx. apply elem_endpoints in Hx as (i & Hi & ->).
    pose proof minute_ns_pos. apply Z.ltb_lt. nia.
  - destruct n as [|n]; [done|]. cbn [endpoints List.filter]. pose proof minute_ns_pos.
    rewrite (proj2 (Z.ltb_ge _ _)) by nia.
    replace (e + (Z.of_nat (S k) - 1) * MINUTE_NS)
      with (e + MINUTE_NS + (Z.of_nat k - 1) * MINUTE_NS) by lia.
    rewrite IH. cbn [Nat.sub]. f_equal. lia.
Qed.

Lemma session_minutes_after s as_of :
  session_ok s -> session_open s < as_of <= session_close s ->
  (as_of - session_open s) mod MINUTE_NS = 0 ->
  List.filter (fun x => as_of <? x) (session_minutes s)
  = endpoints (minute_fuel s (as_of + MINUTE_NS)) (as_of + MINUTE_NS).
Proof.
  intros [Ho Hlt Hc Hg] Ha Hm. pose proof minute_ns_pos as HM. unfold session_minutes, minute_fuel.
  pose proof (Z.div_mod (as_of - session_open s) MINUTE_NS) as Hd1.
  pose proof (Z.div_mod (session_close s - session_open s) MINUTE_NS) as Hd2.
  set (k := (as_of - session_open s) / MINUTE_NS) in *.
  set (q := (session_close s - session_open s) / MINUTE_NS) in *.
  assert (1 <= k) by nia. assert (k <= q) by nia.
  pose proof (filter_endpoints (Z.to_nat k) (Z.to_nat q) (session_open s + MINUTE_NS)) as Hf.
  rewrite Z2Nat.id in Hf by lia.
  replace (session_open s + MINUTE_NS + (k - 1) * MINUTE_NS) with as_of in Hf by lia.
  rewrite Hf. replace (session_open s + MINUTE_NS + k * MINUTE_NS) with (as_of + MINUTE_NS) by lia.
  f_equal. replace (session_close s - (as_of + MINUTE_NS)) with ((q - k - 1) * MINUTE_NS) by lia.
  rewrite Z.div_mul by lia. lia.
Qed.

Lemma filter_pairs (s : TradingSession) (f : Z -> bool) l :
  List.filter (fun m : TradingSession * Z => f m.2) (map (pair s) l) = map (pair s) (List.filter f l).
Proof. induction l as [|x l IH]; [done|]. cbn. case_match; cbn; by rewrite IH. Qed.

Lemma split_before pre s post :
  StronglySorted before (pre ++ s :: post) -> Forall session_ok (pre ++ s :: post) ->
  Forall (fun t => session_close t < session_open s) pre
  /\ Forall (fun t => session_close s < session_open t) post.
Proof.
  intros Hs Hok. split; apply Forall_forall; intros t [i Hi]%list_elem_of_lookup_1.
  - apply (strongly_sorted_nth before (pre ++ s :: post) i (length pre)); try done.
    + by apply lookup_lt_Some in Hi.
    + rewrite lookup_app_l by (by apply lookup_lt_Some in Hi). done.
    + by rewrite list_lookup_middle.
  - apply (strongly_sorted_nth before (pre ++ s :: post) (length pre) (S (length pre + i))); try done.
    + lia.
    + by rewrite list_lookup_middle.
    + rewrite lookup_app_r by lia. by replace (S (length pre + i) - length pre)%nat with (S i) by lia.
Qed.

Section at_minute.
Context (c : ExchangeCalendar) (pre post : list TradingSession) (s : TradingSession) (as_of : Z).
Context (Hsplit : sessions c = pre ++ s :: post).
Context (Hok : Forall session_ok (sessions c)) (Hsort : StronglySorted before (sessions c)).
Context (Hin : session_open s < as_of <= session_close s)
        (Hgrid : (as_of - session_open s) mod MINUTE_NS = 0).

Lemma around : Forall (fun t => session_close t < as_of) pre
  /\ Forall (fun t => as_of < session_open t) post /\ session_ok s.
Proof.
  rewrite Hsplit in *. destruct (split_before _ _ _ Hsort Hok) as [H1 H2].
  split; [|split].
  - eapply Forall_impl; [exact H1|]. cbn. lia.
  - eapply Forall_impl; [exact H2|]. cbn. lia.
  - apply Forall_app in Hok as [_ Hok']. by apply Forall_cons in Hok' as [? _].
Qed.

Lemma minutes_after_split :
  minutes_after as_of c
  = map (pair s) (endpoints (minute_fuel s (as_of + MINUTE_NS)) (as_of + MINUTE_NS))
    ++ flat_map (fun t => map (pair t) (session_minutes t)) post.
Proof.
  destruct around as (Hpre & Hpost & Hs). unfold minutes_after, calendar_minutes.
  rewrite Hsplit, flat_map_app, List.filter_app. cbn [flat_map]. rewrite List.filter_app.
  rewrite (filter_none _ (flat_map _ pre)), (filter_all _ (flat_map _ post)); [cbn [app]; f_equal|..].
  - rewrite (filter_pairs s (fun x => as_of <? x)). by rewrite session_minutes_after.
  - apply Forall_forall. intros [t x] Hx.
    apply (elem_calendar_minutes {| calendar_id := []; calendar_version := calendar_version c;
                                     sessions := post |}) in Hx as (Ht & Hx & _).
    + rewrite Forall_forall in Hpost. specialize (Hpost t Ht). cbn in *. lia.
    + cbn. rewrite Hsplit in Hok. apply Forall_app in Hok as [_ Hrest]. by apply Forall_cons in Hrest as [_ ?].
  - apply Forall_forall. intros [t x] Hx.
    apply (elem_calendar_minutes {| calendar_id := []; calendar_version := calendar_version c;
                                     sessions := pre |}) in Hx as (Ht & Hx & _).
    + rewrite Forall_forall in Hpre. specialize (Hpre t Ht). cbn in *. lia.
    + cbn. rewrite Hsplit in Hok. by apply Forall_app in Hok as [? _].
Qed.

Lemma sessions_after_split : sessions_after as_of c = post.
Proof.
  destruct around as (Hpre & Hpost & Hs). unfold sessions_after. rewrite Hsplit, List.filter_app. cbn.
  rewrite (filter_none _ pre), (filter_all _ post).
  - rewrite (proj2 (Z.ltb_ge _ _)) by lia. done.
  - eapply Forall_impl; [exact Hpost|]. cbn. lia.
  - rewrite Hsplit in Hok. apply Forall_app in Hok as [Hok' _]. clear - Hpre Hok'.
    induction Hpre as [|t l Ht _ IH]; constructor.
    + apply Forall_cons in Hok' as [[] _]. lia.
    + apply IH. by apply Forall_cons in Hok' as [_ ?].
Qed.

Lemma find_minute : List.find (fun m => m.2 =? as_of) (calendar_minutes c) = Some (s, as_of).
Proof.
  assert (Hs : s ∈ sessions c) by (rewrite Hsplit; set_solver).
  assert (Hm : (s, as_of) ∈ calendar_minutes c) by (by apply elem_calendar_minutes).
  destruct (List.find _ _) as [[t x]|] eqn:E.
  - apply find_some in E as [Hx Ex]. cbn in Ex. assert (x = as_of) as -> by lia.
    apply list_elem_of_In, elem_calendar_minutes in Hx as (Ht & Hx & _); [|done]. do 2 f_equal.
    rewrite Hsplit in Ht. destruct around as (Hpre & Hpost & Hs').
    rewrite Forall_forall in Hpre, Hpost. apply elem_of_app in Ht as [Ht|Ht].
    + specialize (Hpre t Ht). cbn in Hpre. lia.
    + apply elem_of_cons in Ht as [->|Ht]; [done|]. specialize (Hpost t Ht). cbn in Hpost. lia.
  - pose proof (find_none _ _ E (s, as_of)) as H. cbn in H. rewrite Z.eqb_refl in H.
    discriminate H. by apply list_elem_of_In.
Qed.
End at_minute.

Lemma find_session_ok as_of i l j :
  find_session as_of i l = Ok j ->
  exists pre s post, l = pre ++ s :: post /\ j = (i + length pre)%nat
    /\ session_open s < as_of <= session_close s /\ (as_of - session_open s) mod MINUTE_NS = 0.
Proof.
  revert i. induction l as [|s l IH]; intros i; cbn; [done|].
  destruct (_ && _) eqn:E.
  - destruct (negb _) eqn:E'; [done|]. intros [= <-]. bprop. exists [], s, l. cbn.
    split; [done|]. split; [lia|]. split; lia.
  - intros (pre & t & post & -> & -> & H)%IH. exists (s :: pre), t, post. cbn.
    split; [done|]. split; [lia | done].
Qed.

Lemma find_session_err as_of i l e :
  find_session as_of i l = Err e ->
  StronglySorted before l -> Forall session_ok l ->
  e = Exn (HorizonContractError INVALID_AS_OF_TIME)
        "as-of time is not an eligible regular-session minute endpoint"
  /\ Forall (fun s => ~ (session_open s < as_of <= session_close s
                         /\ (as_of - session_open s) mod MINUTE_NS = 0)) l.
Proof.
  revert i. induction l as [|s l IH]; intros i; cbn; [by intros [= <-]; repeat constructor|].
  destruct (_ && _) eqn:E.
  - destruct (negb _) eqn:E'; [|done]. intros [= <-] Hs Hok. bprop. split; [done|].
    constructor; [lia|]. inversion Hs as [|? ? _ Hb]; subst. eapply Forall_impl; [exact Hb|].
    unfold before. intros t Ht. cbn in Ht. lia.
  - intros H Hs Hok. inversion Hs; subst. apply Forall_cons in Hok as [_ Hok].
    destruct (IH _ H ltac:(done) Hok) as [-> Hl]. split; [done|]. constructor; [lia | done].
Qed.

(** ** Targets lie in the future and are representable *)

Lemma nth_or_elem {A} (l : list A) n msg x : nth_or l n msg = Ok x -> x ∈ l.
Proof. unfold nth_or. case_match eqn:E; [|done]. intros [= <-]. by eapply list_elem_of_lookup_2. Qed.

Lemma minute_target_elem policy n l t :
  minute_target policy n l = Ok t -> exists s, (s, t) ∈ l /\ counted policy (s, t) = true.
Proof.
  unfold minute_target. case_match; [done|]. intros ([s x] & Hm & [= <-])%rbind_ok.
  apply nth_or_elem, elem_of_filter_b in Hm as [Hm Hc]. eauto.
Qed.

Lemma session_target_elem policy n l t :
  session_target policy n l = Ok t -> exists s, s ∈ l /\ session_close s = t.
Proof.
  unfold session_target. case_match; [done|]. intros (s & Hm & [= <-])%rbind_ok.
  apply nth_or_elem, elem_of_filter_b in Hm as [Hm Hc]. eauto.
Qed.

Lemma minutes_after_range c as_of s t :
  Forall session_ok (sessions c) -> (s, t) ∈ minutes_after as_of c -> as_of < t <= MAX_INT64.
Proof.
  intros Hok Hm. unfold minutes_after in Hm. apply elem_of_filter_b in Hm as [Hc Hm]. cbn in Hm.
  apply elem_calendar_minutes in Hc as (Hs & Ht & _); [|done].
  rewrite Forall_forall in Hok. destruct (Hok s Hs). lia.
Qed.

Lemma sessions_after_range c as_of s :
  Forall session_ok (sessions c) -> s ∈ sessions_after as_of c ->
  as_of < session_close s <= MAX_INT64.
Proof.
  intros Hok Hm. unfold sessions_after in Hm. apply elem_of_filter_b in Hm as [Hs Hm]. cbn in Hm.
  rewrite Forall_forall in Hok. destruct (Hok s Hs). lia.
Qed.

Lemma target_of_minute_ok spec as_of t :
  0 < as_of -> as_of < t <= MAX_INT64 ->
  target_of_minute spec as_of t
  = Ok {| ht_spec := spec; ht_as_of := as_of; ht_target := t; ht_elapsed := t - as_of |}.
Proof.
  intros Ha Ht. unfold target_of_minute, new_target, HorizonTarget_post_init, check_timestamp, horizon_when.
  cbn [ht_as_of ht_target ht_elapsed]. by pass_guards.
Qed.

Lemma spec_value_pos spec : HorizonSpec_post_init spec = Ok tt -> 0 < hs_value spec.
Proof.
  unfold HorizonSpec_post_init, horizon_when. intros H. cbv zeta in H.
  apply rbind_ok in H as (? & _ & H). apply rbind_ok in H as (? & _ & H).
  apply rbind_ok in H as (? & _ & H). apply rbind_ok in H as (? & Hv & _).
  apply raise_when_ok in Hv. bprop. lia.
Qed.

Lemma check_timestamp_ok v code u : check_timestamp v code = Ok u -> 0 < v <= MAX_INT64.
Proof. unfold check_timestamp, horizon_when. intros H%raise_when_ok. bprop. lia. Qed.

Lemma resolve_elapsed spec as_of c :
  HorizonSpec_post_init spec = Ok tt -> hs_unit spec = ELAPSED_NANOSECONDS ->
  resolve_horizon spec as_of c
  = let! t := reference_target spec as_of c in
    Ok {| ht_spec := spec; ht_as_of := as_of; ht_target := t; ht_elapsed := t - as_of |}.
Proof.
  intros Hv%spec_value_pos Hu. unfold resolve_horizon, reference_target.
  rewrite !(decide_True (P := hs_unit spec = ELAPSED_NANOSECONDS)) by done.
  destruct (horizon_when (MAX_INT64 <? as_of + hs_value spec) _ _) as [u|e] eqn:Eo; [|done].
  cbn [rbind]. unfold horizon_when in Eo. apply raise_when_ok in Eo.
  unfold new_target, HorizonTarget_post_init. cbn [ht_as_of ht_target ht_elapsed].
  destruct (check_timestamp as_of TIMESTAMP_OVERFLOW) as [u'|e] eqn:Ea; [|done]. cbn [rbind].
  apply check_timestamp_ok in Ea. unfold check_timestamp, horizon_when. pass_guards.
  by replace (as_of + hs_value spec - as_of) with (hs_value spec) by lia.
Qed.

Lemma resolve_minutes_walk spec as_of c i s post :
  drop i (sessions c) = s :: post ->
  resolve_trading_minutes spec as_of c i
  = walk (hs_halt_policy spec) (hs_value spec)
      (map (pair s) (endpoints (minute_fuel s (as_of + MINUTE_NS)) (as_of + MINUTE_NS))
       ++ flat_map (fun t => map (pair t) (session_minutes t)) post).
Proof.
  intros Hd. unfold resolve_trading_minutes. rewrite Hd, <- loop_walk.
  destruct (session_minutes_loop _ _ _ _) as [[t|r]|e]; cbn [rbind]; [done| |done].
  apply later_walk.
Qed.

Lemma resolve_trading spec as_of c :
  HorizonSpec_post_init spec = Ok tt -> calendar_ok c -> hs_unit spec <> ELAPSED_NANOSECONDS ->
  resolve_horizon spec as_of c
  = let! t := reference_target spec as_of c in
    Ok {| ht_spec := spec; ht_as_of := as_of; ht_target := t; ht_elapsed := t - as_of |}.
Proof.
  intros Hv%spec_value_pos Hc Hu. destruct (calendar_sorted c Hc) as [Hok Hsort].
  unfold resolve_horizon, reference_target, as_of_session_index.
  rewrite !(decide_False (P := hs_unit spec = ELAPSED_NANOSECONDS)) by done.
  destruct (horizon_when _ CALENDAR_VERSION_MISMATCH _); [cbn [rbind]|done].
  destruct (check_timestamp as_of TIMESTAMP_OVERFLOW) as [u'|e] eqn:Ea; [cbn [rbind]|done].
  apply check_timestamp_ok in Ea.
  destruct (find_session as_of 0 (sessions c)) as [j|e] eqn:Ef; cbn [rbind].
  - apply find_session_ok in Ef as (pre & s & post & Hsp & -> & Hin & Hg). cbn [Nat.add].
    rewrite (find_minute c pre post s as_of) by done.
    rewrite Hsp, list_lookup_middle by done. cbn [rbind].
    unfold counted at 1, halted at 1. cbn [fst snd]. rewrite negb_orb, negb_involutive.
    destruct (horizon_when _ INVALID_AS_OF_TIME _); [cbn [rbind]|done].
    assert (Hm : resolve_trading_minutes spec as_of c (length pre)
                 = minute_target (hs_halt_policy spec) (Z.to_nat (hs_value spec)) (minutes_after as_of c)).
    { rewrite (minutes_after_split c pre post s) by done. rewrite <- walk_target by done.
      apply resolve_minutes_walk. by rewrite Hsp, drop_app_length. }
    assert (Hs : resolve_trading_sessions spec c (length pre)
                 = session_target (hs_halt_policy spec) (Z.to_nat (hs_value spec)) (sessions_after as_of c)).
    { rewrite (sessions_after_split c pre post s) by done. unfold resolve_trading_sessions.
      rewrite Hsp, drop_app_ge by lia. replace (S (length pre) - length pre)%nat with 1%nat by lia.
      by apply session_loop_target. }
    rewrite Hm, Hs. case_decide.
    + destruct (minute_target _ _ _) as [t|e] eqn:Et; [|done]. cbn [rbind].
      apply minute_target_elem in Et as (s' & Et & _). apply target_of_minute_ok; [lia|].
      by eapply minutes_after_range.
    + destruct (session_target _ _ _) as [t|e] eqn:Et; [|done]. cbn [rbind].
      apply session_target_elem in Et as (s' & Et & <-). apply target_of_minute_ok; [lia|].
      by apply (sessions_after_range c).
  - apply find_session_err in Ef as [-> Hno]; [|done..].
    destruct (List.find _ _) as [[s x]|] eqn:E; [|done].
    apply find_some in E as [Hx Ex]. cbn in Ex. assert (x = as_of) as -> by lia.
    apply list_elem_of_In, elem_calendar_minutes in Hx as (Hs & Hx); [|done].
    rewrite Forall_forall in Hno. by destruct (Hno s Hs).
Qed.

(** ** Order of the minutes of a calendar *)

Definition earlier (m m' : TradingSession * Z) : Prop := m.2 < m'.2.

Lemma strongly_sorted_filter {A} (R : A -> A -> Prop) (f : A -> bool) l :
  StronglySorted R l -> StronglySorted R (List.filter f l).
Proof.
  induction 1 as [|x l _ IH Hx]; cbn; [constructor|]. case_match; [|done]. constructor; [done|].
  apply Forall_forall. intros y [Hy _]%elem_of_filter_b. rewrite Forall_forall in Hx. by apply Hx.
Qed.

Lemma strongly_sorted_app {A} (R : A -> A -> Prop) l k :
  StronglySorted R l -> StronglySorted R k -> (forall x y, x ∈ l -> y ∈ k -> R x y) ->
  StronglySorted R (l ++ k).
Proof.
  induction 1 as [|x l _ IH Hx]; intros Hk H; [done|]. cbn. constructor.
  - apply IH; [done|]. intros y z Hy Hz. apply H; [by right | done].
  - apply Forall_app. split; [done|]. apply Forall_forall. intros y Hy. apply H; [by left | done].
Qed.

Lemma endpoints_sorted s n e : StronglySorted earlier (map (pair s) (endpoints n e)).
Proof.
  revert e. induction n as [|n IH]; intros e; cbn; constructor; [done|].
  apply Forall_forall. intros [t x] Hx. apply list_elem_of_In, in_map_iff in Hx as (y & [= _ ->] & Hy).
  apply list_elem_of_In, elem_endpoints in Hy as (k & Hk & ->). unfold earlier. cbn.
  pose proof minute_ns_pos. nia.
Qed.

Lemma calendar_minutes_sorted c : calendar_ok c -> StronglySorted earlier (calendar_minutes c).
Proof.
  intros Hc. destruct (calendar_sorted c Hc) as [Hok Hs]. unfold calendar_minutes.
  induction Hs as [|s l _ IH Hb]; cbn; [constructor|]. apply Forall_cons in Hok as [Hs Hok].
  apply strongly_sorted_app; [apply endpoints_sorted | by apply IH |].
  intros [t x] [t' y] Hx Hy. apply list_elem_of_In, in_map_iff in Hx as (z & [= _ ->] & Hz).
  apply list_elem_of_In, elem_session_minutes in Hz as [Hz _]; [|done].
  apply (elem_calendar_minutes {| calendar_id := []; calendar_version := calendar_version c;
                                  sessions := l |}) in Hy as (Ht & Hy & _); [|done].
  rewrite Forall_forall in Hb. specialize (Hb t' Ht). unfold before, earlier in *. cbn. lia.
Qed.

(** In an increasing list, the entries up to the one at [k] are [k + 1]. *)
Lemma count_up_to {A} (key : A -> Z) l k x :
  StronglySorted (fun a b => key a < key b) l -> l !! k = Some x ->
  length (List.filter (fun y => key y <=? key x) l) = S k.
Proof.
  intros Hs. revert k. induction Hs as [|y l _ IH Hy]; intros k Hk; [done|].
  rewrite Forall_forall in Hy. destruct k as [|k]; cbn in Hk.
  - injection Hk as ->. cbn. rewrite Z.leb_refl. cbn. f_equal.
    rewrite filter_none; [done|]. apply Forall_forall. intros z Hz. specialize (Hy z Hz). lia.
  - cbn. assert (key y < key x) by (apply Hy; by eapply list_elem_of_lookup_2).
    rewrite (proj2 (Z.leb_le _ _)) by lia. cbn. f_equal. by apply IH.
Qed.

Lemma existsb_take_le {A} (f : A -> bool) l n n' :
  (n <= n')%nat -> existsb f (take n' l) = false -> existsb f (take n l) = false.
Proof.
  intros Hn H. apply not_true_is_false. intros (x & Hx & Hf)%existsb_exists.
  assert (existsb f (take n' l) = true) as Ht; [|congruence]. apply existsb_exists. exists x.
  split; [|done]. apply list_elem_of_In in Hx. apply list_elem_of_In.
  replace n with (n `min` n')%nat in Hx by lia. rewrite <- take_take in Hx.
  apply elem_of_take in Hx as (i & Hi & _). by eapply list_elem_of_lookup_2.
Qed.

Lemma minute_target_nth policy n l t :
  minute_target policy n l = Ok t ->
  (bool_decide (policy = REJECT) && existsb halted (take n l) = false)
  /\ exists s, List.filter (counted policy) l !! Nat.pred n = Some (s, t).
Proof.
  unfold minute_target, nth_or. case_match; [done|]. case_match eqn:E; [|done].
  cbn. intros [= <-]. split; [done|]. destruct p. eauto.
Qed.

Lemma session_target_nth policy n l t :
  session_target policy n l = Ok t ->
  (bool_decide (policy = REJECT) && existsb has_halts (take n l) = false)
  /\ exists s, List.filter (session_counted policy) l !! Nat.pred n = Some s /\ session_close s = t.
Proof.
  unfold session_target, nth_or. case_match; [done|]. case_match eqn:E; [|done].
  cbn. intros [= <-]. split; [done|]. eauto.
Qed.

Lemma minute_target_mono policy n n' l t' :
  StronglySorted earlier l -> (0 < n < n')%nat -> minute_target policy n' l = Ok t' ->
  exists t, minute_target policy n l = Ok t /\ t < t'.
Proof.
  intros Hs Hn Ht. apply minute_target_nth in Ht as [Hr (s' & Hl)].
  assert (is_Some (List.filter (counted policy) l !! Nat.pred n)) as [[s t] Hx].
  { apply lookup_lt_is_Some. apply lookup_lt_Some in Hl. lia. }
  exists t. unfold minute_target, nth_or. rewrite Hx. split.
  - destruct (bool_decide (policy = REJECT)); [|done]. cbn in *.
    by rewrite (existsb_take_le halted l n n') by (done || lia).
  - by apply (strongly_sorted_nth earlier (List.filter (counted policy) l) (Nat.pred n) (Nat.pred n') (s, t) (s', t'));
      [apply strongly_sorted_filter | lia | |].
Qed.

Lemma session_target_mono policy n n' l t' :
  StronglySorted (fun a b => session_close a < session_close b) l -> (0 < n < n')%nat ->
  session_target policy n' l = Ok t' -> exists t, session_target policy n l = Ok t /\ t < t'.
Proof.
  intros Hs Hn Ht. apply session_target_nth in Ht as [Hr (s' & Hl & <-)].
  assert (is_Some (List.filter (session_counted policy) l !! Nat.pred n)) as [s Hx].
  { apply lookup_lt_is_Some. apply lookup_lt_Some in Hl. lia. }
  exists (session_close s). unfold session_target, nth_or. rewrite Hx. split.
  - destruct (bool_decide (policy = REJECT)); [|done]. cbn in *.
    by rewrite (existsb_take_le has_halts l n n') by (done || lia).
  - by apply (strongly_sorted_nth _ (List.filter (session_counted policy) l) (Nat.pred n) (Nat.pred n') s s'
      (strongly_sorted_filter _ _ _ Hs)); [lia | |].
Qed.

Lemma filter_take_kept {A} (f : A -> bool) l n :
  existsb (fun x => negb (f x)) (take n l) = false ->
  List.filter f l = take n l ++ List.filter f (drop n l).
Proof.
  revert n. induction l as [|x l IH]; intros [|n] H; try done. cbn in *.
  apply orb_false_split in H as [Hx H]. apply negb_false_iff in Hx. rewrite Hx. f_equal. auto.
Qed.

(** Under [REJECT] no minute up to the target is halted. *)
Lemma reject_no_halt n l s t m :
  StronglySorted earlier l -> (0 < n)%nat -> existsb halted (take n l) = false ->
  List.filter (counted REJECT) l !! Nat.pred n = Some (s, t) -> m ∈ l -> m.2 <= t ->
  halted m = false.
Proof.
  intros Hs Hn Hh Hx [i Hi]%list_elem_of_lookup_1 Hm.
  rewrite (filter_take_kept (counted REJECT) l n) in Hx.
  2:{ rewrite <- Hh. clear. induction (take n l) as [|x k IH]; [done|]. cbn. rewrite IH.
      unfold counted. cbn. by destruct (halted x). }
  assert (Hin : (i < n)%nat -> halted m = false).
  { intros Hlt. apply not_true_is_false. intros Ht.
    assert (existsb halted (take n l) = true); [|congruence]. apply existsb_exists. exists m.
    split; [|done]. apply list_elem_of_In, (list_elem_of_lookup_2 _ i). by rewrite lookup_take_lt. }
  destruct (decide (i < n)%nat) as [|Hge]; [auto|]. exfalso.
  assert (Hlen : (i < length l)%nat) by (by apply lookup_lt_Some in Hi).
  rewrite lookup_app_l in Hx by (rewrite length_take; lia).
  rewrite lookup_take_lt in Hx by lia.
  pose proof (strongly_sorted_nth earlier l (Nat.pred n) i (s, t) m Hs ltac:(lia) Hx Hi) as He.
  unfold earlier in He. cbn in He. lia.
Qed.

Lemma sessions_closes_sorted c as_of :
  calendar_ok c -> StronglySorted (fun a b => session_close a < session_close b) (sessions_after as_of c).
Proof.
  intros Hc. destruct (calendar_sorted c Hc) as [Hok Hs]. apply strongly_sorted_filter.
  induction Hs as [|s l _ IH Hb]; constructor; apply Forall_cons in Hok as [Hs' Hok]; [by apply IH|].
  apply Forall_forall. intros t Ht. rewrite Forall_forall in Hb, Hok. specialize (Hb t Ht).
  destruct (Hok t Ht). unfold before in Hb. lia.
Qed.

Lemma filter_filter {A} (f g : A -> bool) l :
  List.filter f (List.filter g l) = List.filter (fun x => g x && f x) l.
Proof. induction l as [|x l IH]; [done|]. cbn. destruct (g x); cbn; rewrite IH; done. Qed.

Definition with_value (v : Z) (s : HorizonSpec) : HorizonSpec :=
  {| hs_label := hs_label s; hs_unit := hs_unit s; hs_value := v;
     hs_halt_policy := hs_halt_policy s; hs_session_endpoint := hs_session_endpoint s;
     hs_calendar_version := hs_calendar_version s; hs_schema_version := hs_schema_version s |}.

Lemma with_value_valid v s :
  0 < v <= hs_value s -> HorizonSpec_post_init s = Ok tt ->
  HorizonSpec_post_init (with_value v s) = Ok tt.
Proof.
  intros Hv. unfold HorizonSpec_post_init, horizon_when. cbn [with_value hs_label hs_unit hs_value
    hs_halt_policy hs_session_endpoint hs_calendar_version hs_schema_version]. cbv zeta.
  destruct (bounded_ascii _ _); cbn [rbind]; [|done].
  destruct (raise_when (negb (label_pattern _)) _ _); cbn [rbind]; [|done].
  destruct (raise_when (negb (bool_decide (hs_schema_version s = _))) _ _); cbn [rbind]; [|done].
  intros (u & Hb & H)%rbind_ok. apply raise_when_ok in Hb. bprop.
  rewrite raise_when_false by lia. exact H.
Qed.

(** ** A calendar to compute with *)

Definition sample_version : Identifier128 := Id128 7 9.
Definition sample_session (name : string) (from to : Z) (halts : list HaltInterval) : TradingSession :=
  {| session_id := str name; session_open := from * MINUTE_NS; session_close := to * MINUTE_NS;
     halt_intervals := halts |}.
Definition sample_calendar : ExchangeCalendar :=
  {| calendar_id := str "XNYS"; calendar_version := sample_version;
     sessions := [sample_session "a" 1 5 []; sample_session "b" 10 14
                    [{| halt_start := 11 * MINUTE_NS; halt_end := 12 * MINUTE_NS |}]] |}.
Definition sample_spec (policy : HorizonHaltPolicy) (value : Z) : HorizonSpec :=
  {| hs_label := str "5m"; hs_unit := TRADING_MINUTES; hs_value := value; hs_halt_policy := policy;
     hs_session_endpoint := SE_NOT_APPLICABLE; hs_calendar_version := Some sample_version;
     hs_schema_version := HORIZON_SCHEMA_VERSION |}.
Definition sample_target (policy : HorizonHaltPolicy) (value minute : Z) : HorizonTarget :=
  {| ht_spec := sample_spec policy value; ht_as_of := 3 * MINUTE_NS; ht_target := minute * MINUTE_NS;
     ht_elapsed := (minute - 3) * MINUTE_NS |}.

(** Four minutes after minute 3: 4, 5, 11, then 12 is halted. *)
Example sample_resolutions :
  resolve_horizon (sample_spec PAUSE 4) (3 * MINUTE_NS) sample_calendar = Ok (sample_target PAUSE 4 13)
  /\ resolve_horizon (sample_spec COUNT_SCHEDULED 4) (3 * MINUTE_NS) sample_calendar
     = Ok (sample_target COUNT_SCHEDULED 4 12)
  /\ exn_cls <$> match resolve_horizon (sample_spec REJECT 4) (3 * MINUTE_NS) sample_calendar with
                 | Err e => Some e | Ok _ => None end = Some (HorizonContractError HALT_ENCOUNTERED).
Proof. by vm_compute. Qed.

Lemma sample_calendar_ok : calendar_ok sample_calendar.
Proof. split; [by vm_compute|]. repeat constructor. Qed.

(** The required horizons exist for every explicit halt policy. *)
Lemma required_specs_valid version policy :
  policy <> HP_NOT_APPLICABLE ->
  exists specs, required_horizon_specs version policy = Ok specs
    /\ map hs_label specs = REQUIRED_HORIZON_LABELS
    /\ map hs_value specs = REQUIRED_TRADING_MINUTES ++ REQUIRED_TRADING_SESSIONS
    /\ Forall (fun s => HorizonSpec_post_init s = Ok tt) specs.
Proof.
  intros Hp. destruct policy; [done| | |]; (eexists; split; [vm_compute; reflexivity|]);
    (split; [done|]); (split; [done|]); repeat constructor.
Qed.

(** A resolved trading horizon satisfies the conditions of the reference. *)
Lemma reference_trading spec as_of c t :
  hs_unit spec <> ELAPSED_NANOSECONDS -> reference_target spec as_of c = Ok t ->
  exists m, List.find (fun m => m.2 =? as_of) (calendar_minutes c) = Some m
    /\ counted (hs_halt_policy spec) m = true
    /\ (if decide (hs_unit spec = TRADING_MINUTES)
        then minute_target (hs_halt_policy spec) (Z.to_nat (hs_value spec)) (minutes_after as_of c)
        else session_target (hs_halt_policy spec) (Z.to_nat (hs_value spec)) (sessions_after as_of c))
       = Ok t.
Proof.
  intros Hu. unfold reference_target. rewrite decide_False by done.
  intros (? & _ & H)%rbind_ok. apply rbind_ok in H as (? & _ & H).
  destruct (List.find _ _) as [m|]; [|done]. apply rbind_ok in H as (? & Hc & H).
  unfold horizon_when in Hc. apply raise_when_ok in Hc. bprop. eauto.
Qed.

Lemma reference_mono spec v as_of c t' :
  calendar_ok c -> 0 < v < hs_value spec -> reference_target spec as_of c = Ok t' ->
  exists t, reference_target (with_value v spec) as_of c = Ok t /\ t < t'.
Proof.
  intros Hc Hv Ht. unfold reference_target in *.
  cbn [with_value hs_unit hs_value hs_halt_policy hs_calendar_version].
  case_decide.
  - apply rbind_ok in Ht as (? & Ho & Ht). apply rbind_ok in Ht as (? & Ha & [= <-]).
    unfold horizon_when in *. apply raise_when_ok in Ho. rewrite raise_when_false by lia. cbn [rbind].
    rewrite Ha. cbn. eexists. split; [done|]. lia.
  - apply rbind_ok in Ht as (? & -> & Ht). apply rbind_ok in Ht as (? & -> & Ht). cbn [rbind].
    destruct (List.find _ _) as [m|]; [|done]. apply rbind_ok in Ht as (? & -> & Ht). cbn [rbind].
    case_decide.
    + eapply minute_target_mono; [| |exact Ht]; [|lia]. by apply strongly_sorted_filter, calendar_minutes_sorted.
    + eapply session_target_mono; [| |exact Ht]; [|lia]. by apply sessions_closes_sorted.
Qed.

(** ** Properties *)

(** C9: horizons resolve as the calendar says.  For a valid specification and a
    valid calendar, the nested loops over sessions and minutes give, for every
    as-of time and with the same error otherwise, the reference target: the
    as-of time must be a counted minute of the calendar, and the target is the
    [value]th counted minute (or session close) after it in the flat list of the
    calendar's minutes (sessions). *)
Theorem resolve_horizon_exact spec as_of c :
  HorizonSpec_post_init spec = Ok tt -> calendar_ok c ->
  resolve_horizon spec as_of c
  = let! t := reference_target spec as_of c in
    Ok {| ht_spec := spec; ht_as_of := as_of; ht_target := t; ht_elapsed := t - as_of |}.
Proof.
  intros Hs Hc. destruct (decide (hs_unit spec = ELAPSED_NANOSECONDS)).
  - by apply resolve_elapsed.
  - by apply resolve_trading.
Qed.

Lemma resolve_horizon_exact_witness :
  resolve_horizon (sample_spec PAUSE 4) (3 * MINUTE_NS) sample_calendar = Ok (sample_target PAUSE 4 13).
Proof.
  rewrite (resolve_horizon_exact (sample_spec PAUSE 4) (3 * MINUTE_NS) sample_calendar).
  - vm_compute. reflexivity.
  - vm_compute. reflexivity.
  - exact sample_calendar_ok.
Defined.

(** A trading-minute horizon counts exactly its minutes.  When it resolves,
    the target is a minute of a session that the halt policy counts, strictly after
    the as-of time; exactly [value] counted minutes of the calendar lie after the
    as-of time and up to the target; and under [REJECT] none of the minutes in
    between is halted. *)
Theorem horizon_counts_minutes spec as_of c T :
  HorizonSpec_post_init spec = Ok tt -> calendar_ok c -> hs_unit spec = TRADING_MINUTES ->
  resolve_horizon spec as_of c = Ok T ->
  let policy := hs_halt_policy spec in
  (exists s, s ∈ sessions c /\ session_open s < ht_target T <= session_close s
     /\ (ht_target T - session_open s) mod MINUTE_NS = 0 /\ counted policy (s, ht_target T) = true)
  /\ as_of < ht_target T
  /\ length (List.filter (fun m => (as_of <? m.2) && (counted policy m && (m.2 <=? ht_target T)))
              (calendar_minutes c)) = Z.to_nat (hs_value spec)
  /\ (policy = REJECT ->
      forall m, m ∈ calendar_minutes c -> as_of < m.2 <= ht_target T -> halted m = false).
Proof.
  intros Hs Hc Hu HT. cbv zeta. pose proof (spec_value_pos spec Hs) as Hv.
  rewrite resolve_trading in HT by (done || congruence). apply rbind_ok in HT as (t & Ht & [= <-]).
  apply reference_trading in Ht as (m & _ & _ & Ht); [|congruence].
  rewrite decide_True in Ht by done. cbn [ht_target].
  destruct (calendar_sorted c Hc) as [Hok _]. pose proof (calendar_minutes_sorted c Hc) as Hsort.
  pose proof (strongly_sorted_filter _ (fun m => as_of <? m.2) _ Hsort) as Hsort'.
  destruct (minute_target_elem _ _ _ _ Ht) as (s & Hin & Hcount).
  pose proof (minutes_after_range c as_of s t Hok Hin).
  apply minute_target_nth in Ht as [Hr (s' & Hl)]. split_and!.
  - exists s. apply elem_of_filter_b in Hin as [Hin _]. by apply elem_calendar_minutes in Hin as (? & ? & ?).
  - lia.
  - rewrite <- filter_filter, <- filter_filter.
    pose proof (count_up_to snd _ _ _ (strongly_sorted_filter _ (counted (hs_halt_policy spec)) _ Hsort') Hl)
      as Hcnt. unfold minutes_after in *. cbn [snd] in Hcnt. rewrite Hcnt. lia.
  - intros Hp m' Hm' Hb. rewrite Hp in *. cbn in Hr.
    apply (reject_no_halt (Z.to_nat (hs_value spec)) (minutes_after as_of c) s' t); try done; [lia| |lia].
    apply elem_of_filter_b. split; [done|]. lia.
Qed.

Lemma horizon_counts_minutes_witness :
  length (List.filter (fun m => (3 * MINUTE_NS <? m.2)
                                && (counted PAUSE m && (m.2 <=? 13 * MINUTE_NS)))
            (calendar_minutes sample_calendar)) = 4%nat.
Proof.
  apply (horizon_counts_minutes (sample_spec PAUSE 4) (3 * MINUTE_NS) sample_calendar (sample_target PAUSE 4 13)).
  - vm_compute. reflexivity.
  - exact sample_calendar_ok.
  - reflexivity.
  - vm_compute. reflexivity.
Defined.

(** Longer horizons end later.  If a horizon resolves, so does every shorter
    one of the same kind at the same as-of time, and its target is strictly
    earlier. *)
Theorem horizon_targets_ordered spec v as_of c T' :
  HorizonSpec_post_init spec = Ok tt -> calendar_ok c -> 0 < v < hs_value spec ->
  resolve_horizon spec as_of c = Ok T' ->
  exists T, resolve_horizon (with_value v spec) as_of c = Ok T /\ ht_target T < ht_target T'.
Proof.
  intros Hs Hc Hv HT. assert (Hs' : HorizonSpec_post_init (with_value v spec) = Ok tt)
    by (apply with_value_valid; [lia | done]).
  destruct (decide (hs_unit spec = ELAPSED_NANOSECONDS)) as [Hu|Hu].
  - rewrite resolve_elapsed in HT by done. apply rbind_ok in HT as (t & Ht & [= <-]).
    destruct (reference_mono spec v as_of c t Hc Hv Ht) as (t1 & Ht1 & Hlt).
    rewrite resolve_elapsed, Ht1 by done. eexists. split; [done|]. exact Hlt.
  - rewrite resolve_trading in HT by done. apply rbind_ok in HT as (t & Ht & [= <-]).
    destruct (reference_mono spec v as_of c t Hc Hv Ht) as (t1 & Ht1 & Hlt).
    rewrite resolve_trading, Ht1 by done. eexists. split; [done|]. exact Hlt.
Qed.

Lemma horizon_targets_ordered_witness :
  exists T, resolve_horizon (sample_spec PAUSE 2) (3 * MINUTE_NS) sample_calendar = Ok T
    /\ ht_target T < 13 * MINUTE_NS.
Proof.
  apply (horizon_targets_ordered (sample_spec PAUSE 4) 2 (3 * MINUTE_NS) sample_calendar (sample_target PAUSE 4 13)).
  - vm_compute. reflexivity.
  - exact sample_calendar_ok.
  - cbn. lia.
  - vm_compute. reflexivity.
Defined.
