(* ===== verification/Universe.v ===== *)
(** * Ticker universe snapshots

    Models the universe half of
    [python/research/aegis_mx_research/forecast_contracts.py]: the parser of the
    ticker file, the resolution of its symbols by an injected resolver, the hashed
    snapshot, and its canonical codec.  A frozen dataclass is a record with the
    check of its [__post_init__]; a resolver is a function that may raise; the
    ticker file is the result of reading it.  Texts of error messages leave out
    interpolated values. *)

From S2P Require Import Prelude PyText Json Sha256 ForecastDomain.
Open Scope Z_scope.

Definition UNIVERSE_SCHEMA_VERSION : pystr := str "1.0.0".
Definition TICKER_UNIVERSE_PATH : pystr := str "/scratch/djy8hg/xtrade/ticker.txt".
Definition MAX_UNIVERSE_BYTES : Z := 2 ^ 20.
Definition MAX_UNIVERSE_SYMBOLS : Z := 10000.
Definition MAX_UNIVERSE_SNAPSHOT_BYTES : Z := 8 * 2 ^ 20.
Definition MAX_SYMBOL_BYTES : Z := 16.
Definition AMBIGUOUS_SYMBOL_CHARACTERS : list Z := [32; 9; 47; 58; 44; 61; 64].

Definition universe_error {A} (code : UniverseErrorCode) (msg : string) : res A :=
  raise (UniverseContractError code None) msg.
Definition universe_when (b : bool) (code : UniverseErrorCode) (msg : string) : res unit :=
  raise_when b (UniverseContractError code None) msg.

(** ** Symbols *)

(** [_SYMBOL_PATTERN]: what may follow the first letter. *)
Definition symbol_char (c : Z) : bool := is_upper c || is_decimal c.
Fixpoint symbol_tail (s : pystr) : bool :=
  match s with
  | [] => true
  | c :: t =>
      if symbol_char c then symbol_tail t
      else ((c =? 46) || (c =? 45)) && negb (bool_decide (t = [])) && forallb symbol_char t
  end.
Definition symbol_pattern (s : pystr) : bool :=
  match s with [] => false | c :: t => is_upper c && symbol_tail t end.

(** [_validate_symbol]; [line] is the line number that the error carries. *)
Definition validate_symbol (line : option Z) (symbol : pystr) : res unit :=
  let fail code := UniverseContractError code line in
  let! encoded := try_except (ascii_encode symbol) [UnicodeError]
                    (fun _ => raise (fail INVALID_ENCODING) "symbol is not ASCII") in
  do! raise_when (MAX_SYMBOL_BYTES <? Z.of_nat (length encoded)) (fail SYMBOL_TOO_LONG)
        "symbol exceeds 16 bytes" in
  do! raise_when (existsb (fun c => bool_decide (c ∈ AMBIGUOUS_SYMBOL_CHARACTERS)) symbol)
        (fail AMBIGUOUS_SYMBOL) "symbol contains a qualifier, delimiter, or whitespace" in
  raise_when (negb (symbol_pattern symbol)) (fail MALFORMED_SYMBOL)
    "symbol must be uppercase ASCII with at most one internal qualifier".

(** ** Resolution *)

Inductive InstrumentResolutionCode :=
  | RESOLVED | UNSUPPORTED | RECENTLY_LISTED | AMBIGUOUS_REFERENCE
  | MISSING_REFERENCE_DATA | DELISTED.
#[export] Instance InstrumentResolutionCode_eq_dec : EqDecision InstrumentResolutionCode.
Proof. solve_decision. Defined.

Definition resolution_value (c : InstrumentResolutionCode) : Z :=
  match c with
  | RESOLVED => 1 | UNSUPPORTED => 2 | RECENTLY_LISTED => 3
  | AMBIGUOUS_REFERENCE => 4 | MISSING_REFERENCE_DATA => 5 | DELISTED => 6
  end.

(** [InstrumentResolutionCode(n)] *)
Definition resolution_of (n : Z) : res InstrumentResolutionCode :=
  match List.find (fun c => resolution_value c =? n)
          [RESOLVED; UNSUPPORTED; RECENTLY_LISTED; AMBIGUOUS_REFERENCE;
           MISSING_REFERENCE_DATA; DELISTED] with
  | Some c => Ok c
  | None => raise ValueError "not a valid InstrumentResolutionCode"
  end.

Record InstrumentResolution := {
  ir_code : InstrumentResolutionCode;
  ir_instrument : option Identifier128;
}.

Definition InstrumentResolution_post_init (r : InstrumentResolution) : res unit :=
  universe_when (negb (Bool.eqb (bool_decide (ir_code r = RESOLVED))
                                (bool_decide (ir_instrument r <> None))))
    INVALID_RESOLUTION "resolved state and instrument identity disagree".

Definition new_resolution (c : InstrumentResolutionCode) (i : option Identifier128)
    : res InstrumentResolution :=
  let r := {| ir_code := c; ir_instrument := i |} in
  do! InstrumentResolution_post_init r in Ok r.

(** [InstrumentResolver.resolve] *)
Notation resolver := (pystr -> res InstrumentResolution) (only parsing).

(** [UnresolvedInstrumentResolver] *)
Definition unresolved_resolver : resolver := fun _ => new_resolution MISSING_REFERENCE_DATA None.

(** [StaticInstrumentResolver] *)
Record StaticInstrumentResolver := {
  sr_resolved : gmap pystr Identifier128;
  sr_unresolved : gmap pystr InstrumentResolutionCode;
}.

Definition new_static_resolver (resolved : gmap pystr Identifier128)
    (unresolved : option (gmap pystr InstrumentResolutionCode)) : res StaticInstrumentResolver :=
  let copy := default ∅ unresolved in
  do! universe_when (negb (bool_decide (dom resolved ∩ dom copy = (∅ : gset pystr))))
        INVALID_RESOLUTION "a symbol cannot be both resolved and unresolved" in
  do! universe_when (existsb (fun kv => bool_decide (kv.2 = RESOLVED)) (map_to_list copy))
        INVALID_RESOLUTION "unresolved mapping cannot use RESOLVED" in
  Ok {| sr_resolved := resolved; sr_unresolved := copy |}.

Definition static_resolve (r : StaticInstrumentResolver) : resolver := fun symbol =>
  match sr_resolved r !! symbol with
  | Some i => new_resolution RESOLVED (Some i)
  | None => new_resolution (default MISSING_REFERENCE_DATA (sr_unresolved r !! symbol)) None
  end.

(** ** Snapshots *)

Record UniverseEntry := {
  source_ordinal : Z;
  symbol : pystr;
  resolution_code : InstrumentResolutionCode;
  entry_instrument : option Identifier128;
}.
#[export] Instance UniverseEntry_eq_dec : EqDecision UniverseEntry.
Proof. solve_decision. Defined.

Definition UniverseEntry_post_init (e : UniverseEntry) : res unit :=
  do! universe_when (source_ordinal e <? 0) INVALID_SNAPSHOT "source ordinal cannot be negative" in
  do! validate_symbol None (symbol e) in
  do! new_resolution (resolution_code e) (entry_instrument e) in Ok tt.

Definition new_entry (e : UniverseEntry) : res UniverseEntry :=
  do! UniverseEntry_post_init e in Ok e.

Record UniverseSnapshot := {
  source_path : pystr;
  source_file_sha256 : pybytes;
  ordered_entries : list UniverseEntry;
  canonical_symbols : list pystr;
  universe_snapshot_sha256 : pybytes;
  snapshot_schema_version : pystr;
}.
#[export] Instance UniverseSnapshot_eq_dec : EqDecision UniverseSnapshot.
Proof. solve_decision. Defined.

Definition UniverseSnapshot_post_init (s : UniverseSnapshot) : res unit :=
  do! universe_when (negb (bool_decide (source_path s = TICKER_UNIVERSE_PATH))) INVALID_SNAPSHOT
        "snapshot source path is not the authoritative ticker file" in
  do! universe_when (negb (bool_decide (snapshot_schema_version s = UNIVERSE_SCHEMA_VERSION)))
        INVALID_SNAPSHOT "unsupported universe schema version" in
  do! universe_when (negb (length (source_file_sha256 s) =? 32)%nat) INVALID_SNAPSHOT
        "source digest is not SHA-256" in
  do! universe_when (negb (length (universe_snapshot_sha256 s) =? 32)%nat) INVALID_SNAPSHOT
        "snapshot digest is not SHA-256" in
  do! universe_when (bool_decide (length (ordered_entries s) = 0%nat)) EMPTY_UNIVERSE
        "snapshot contains no symbols" in
  do! universe_when (negb (bool_decide (map source_ordinal (ordered_entries s)
                                        = seqZ 0 (Z.of_nat (length (ordered_entries s))))))
        INVALID_SNAPSHOT "source ordinals are not contiguous" in
  let symbols := map symbol (ordered_entries s) in
  universe_when (negb (bool_decide (size (list_to_set symbols : gset pystr) = length symbols))
                 || negb (bool_decide (canonical_symbols s = py_sorted pystr_leb symbols)))
    INVALID_SNAPSHOT "snapshot symbols are duplicated or not canonically sorted".

Definition new_snapshot (s : UniverseSnapshot) : res UniverseSnapshot :=
  do! UniverseSnapshot_post_init s in Ok s.

Definition entry_payload (e : UniverseEntry) : json :=
  JObj [(str "instrument_id", match entry_instrument e with
                              | None => JNull
                              | Some i => JStr (id_hex i)
                              end);
        (str "resolution_code", JInt (resolution_value (resolution_code e)));
        (str "source_ordinal", JInt (source_ordinal e));
        (str "symbol", JStr (symbol e))].

Definition by_symbol : list UniverseEntry -> list UniverseEntry :=
  py_sorted (leb_on symbol pystr_leb).

Definition snapshot_payload (s : UniverseSnapshot) : list (pystr * json) :=
  [(str "canonical_entries", JArr (map entry_payload (by_symbol (ordered_entries s))));
   (str "schema_version", JStr (snapshot_schema_version s));
   (str "source_file_sha256", JStr (bytes_hex (source_file_sha256 s)));
   (str "source_path", JStr (source_path s))].

(** [hashlib.sha256(_canonical_json(_snapshot_payload(snapshot))).digest()] *)
Definition payload_digest (s : UniverseSnapshot) : res pybytes :=
  let! encoded := dumps (JObj (snapshot_payload s)) in Ok (sha256 encoded).

Definition snapshot_from_entries (source_sha256 : pybytes) (entries : list UniverseEntry)
    : res UniverseSnapshot :=
  let shape digest :=
    {| source_path := TICKER_UNIVERSE_PATH; source_file_sha256 := source_sha256;
       ordered_entries := entries;
       canonical_symbols := py_sorted pystr_leb (map symbol entries);
       universe_snapshot_sha256 := digest;
       snapshot_schema_version := UNIVERSE_SCHEMA_VERSION |} in
  let! provisional := new_snapshot (shape (repeat 0 32)) in
  let! digest := payload_digest provisional in
  new_snapshot (shape digest).

(** ** Parsing the ticker file *)

Definition removesuffix_cr (s : pystr) : pystr :=
  match last s with Some c => if c =? 13 then take (length s - 1) s else s | None => s end.

(** The loop over the lines; [observed] is the set of [symbols]. *)
Fixpoint parse_lines (line_number : Z) (symbols : list pystr) (lines : list pystr)
    : res (list pystr) :=
  match lines with
  | [] => Ok symbols
  | raw_line :: t =>
      let line := removesuffix_cr raw_line in
      if bool_decide (line = []) then parse_lines (line_number + 1) symbols t else
      do! validate_symbol (Some line_number) line in
      do! raise_when (bool_decide (line ∈ symbols))
            (UniverseContractError DUPLICATE_SYMBOL (Some line_number)) "duplicate symbol" in
      do! universe_when (MAX_UNIVERSE_SYMBOLS <? Z.of_nat (length (symbols ++ [line])))
            SOURCE_TOO_LARGE "ticker source exceeds 10000 symbols" in
      parse_lines (line_number + 1) (symbols ++ [line]) t
  end.

Definition parse_symbols (source : pybytes) : res (list pystr) :=
  do! universe_when (MAX_UNIVERSE_BYTES <? Z.of_nat (length source)) SOURCE_TOO_LARGE
        "ticker source exceeds 1048576 bytes" in
  let! text := try_except (ascii_decode source) [UnicodeError]
                 (fun _ => universe_error INVALID_ENCODING "ticker source is not ASCII") in
  let! symbols := parse_lines 1 [] (split_char 10 text) in
  do! universe_when (bool_decide (length symbols = 0%nat)) EMPTY_UNIVERSE
        "ticker source contains no non-empty symbols" in
  Ok symbols.

(** The loop of [_resolve_symbols]; [resolved] is the dictionary of identities. *)
Fixpoint resolve_loop (resolve : resolver) (ordinal : Z) (resolved : gmap Identifier128 pystr)
    (symbols : list pystr) : res (list UniverseEntry) :=
  match symbols with
  | [] => Ok []
  | s :: t =>
      let! r := resolve s in
      let! e := new_entry {| source_ordinal := ordinal; symbol := s; resolution_code := ir_code r;
                             entry_instrument := ir_instrument r |} in
      let! resolved' :=
        match entry_instrument e with
        | None => Ok resolved
        | Some i =>
            do! universe_when (bool_decide (is_Some (resolved !! i))) AMBIGUOUS_INSTRUMENT
                  "two symbols resolve to one instrument" in
            Ok (<[i := s]> resolved)
        end in
      let! es := resolve_loop resolve (ordinal + 1) resolved' t in
      Ok (e :: es)
  end.

Definition resolve_symbols (symbols : list pystr) (resolve : resolver) : res (list UniverseEntry) :=
  resolve_loop resolve 0 ∅ symbols.

Definition parse_ticker_universe (source : pybytes) (resolve : resolver) : res UniverseSnapshot :=
  let! symbols := parse_symbols source in
  let! entries := resolve_symbols symbols resolve in
  snapshot_from_entries (sha256 source) entries.

(** [file] is the content of the ticker file, or the failure to open or read it. *)
Definition load_ticker_universe (file : res pybytes) (resolve : resolver) : res UniverseSnapshot :=
  let! source := try_except (let! content := file in
                             Ok (take (Z.to_nat (MAX_UNIVERSE_BYTES + 1)) content)) [OSError]
                   (fun _ => universe_error IO_ERROR "authoritative ticker file cannot be read") in
  parse_ticker_universe source resolve.

(** ** The canonical codec *)

Definition encode_universe_snapshot (s : UniverseSnapshot) : res pybytes :=
  let! digest := payload_digest s in
  do! universe_when (negb (bool_decide (digest = universe_snapshot_sha256 s))) HASH_MISMATCH
        "universe snapshot changed after hashing" in
  let! encoded := dumps (JObj (snapshot_payload s
                               ++ [(str "universe_snapshot_sha256", JStr (bytes_hex digest))])) in
  do! universe_when (MAX_UNIVERSE_SNAPSHOT_BYTES <? Z.of_nat (length encoded)) SOURCE_TOO_LARGE
        "encoded universe snapshot exceeds its bound" in
  Ok encoded.

Definition universe_mapping (v : json) : res (list (pystr * json)) :=
  match v with
  | JObj m => Ok m
  | _ => universe_error INVALID_SNAPSHOT "snapshot value must be an object"
  end.

Definition universe_int (v : json) : res Z :=
  match v with
  | JInt n => Ok n
  | _ => universe_error INVALID_SNAPSHOT "field must be an integer"
  end.

Definition universe_text (v : json) : res pystr :=
  match v with
  | JStr s => Ok s
  | _ => universe_error INVALID_SNAPSHOT "field must be text"
  end.

Definition decode_digest (v : json) : res pybytes :=
  let! text := universe_text v in
  do! universe_when (negb (Z.of_nat (length text) =? SHA256_HEX_LENGTH)
                     || negb (bool_decide (text = lower text))) INVALID_SNAPSHOT
        "field must be lowercase SHA-256" in
  try_except (bytes_fromhex text) [ValueError]
    (fun _ => universe_error INVALID_SNAPSHOT "field must be lowercase SHA-256").

Definition decode_identifier (v : json) : res (option Identifier128) :=
  match v with
  | JNull => Ok None
  | _ =>
      let! text := universe_text v in
      do! universe_when (negb (Z.of_nat (length text) =? IDENTIFIER_HEX_LENGTH)
                         || negb (bool_decide (text = lower text))) INVALID_SNAPSHOT
            "instrument_id must be lowercase 128-bit hexadecimal" in
      let! i := try_except
                  (match int_base16 (take 16 text), int_base16 (drop 16 text) with
                   | Some h, Some l => new_identifier h l
                   | _, _ => raise ValueError "invalid literal for int() with base 16"
                   end) [ValueError]
                  (fun _ => universe_error INVALID_SNAPSHOT
                              "instrument_id must be lowercase 128-bit hexadecimal") in
      Ok (Some i)
  end.

Definition decode_entry (raw : json) : res UniverseEntry :=
  let! m := universe_mapping raw in
  do! universe_when (negb (keys_are m ["instrument_id"; "resolution_code"; "source_ordinal";
                                       "symbol"]%string)) INVALID_SNAPSHOT
        "universe entry fields do not match the contract" in
  let! code := try_except (let! v := jget (str "resolution_code") m in
                           let! n := universe_int v in resolution_of n) [ValueError]
                 (fun _ => universe_error INVALID_SNAPSHOT "resolution_code is unknown") in
  let! ov := jget (str "source_ordinal") m in
  let! ordinal := universe_int ov in
  let! sv := jget (str "symbol") m in
  let! text := universe_text sv in
  let! iv := jget (str "instrument_id") m in
  let! i := decode_identifier iv in
  new_entry {| source_ordinal := ordinal; symbol := text; resolution_code := code;
               entry_instrument := i |}.

Definition decode_entries (v : json) : res (list UniverseEntry) :=
  match v with
  | JArr (raw :: rest) =>
      do! universe_when (MAX_UNIVERSE_SYMBOLS <? Z.of_nat (length (raw :: rest)))
            SOURCE_TOO_LARGE "snapshot contains too many entries" in
      let! entries := res_map decode_entry (raw :: rest) in
      do! universe_when (negb (bool_decide (map symbol entries
                                            = py_sorted pystr_leb (map symbol entries))))
            INVALID_SNAPSHOT "canonical entries are not sorted by symbol" in
      Ok (py_sorted (leb_on source_ordinal Z.leb) entries)
  | _ => universe_error INVALID_SNAPSHOT "canonical_entries must be a non-empty array"
  end.

Definition decode_snapshot_payload (encoded : pybytes) : res (list (pystr * json)) :=
  do! universe_when (bool_decide (length encoded = 0%nat)
                     || (MAX_UNIVERSE_SNAPSHOT_BYTES <? Z.of_nat (length encoded)))
        INVALID_SNAPSHOT "snapshot size is invalid" in
  try_except (let! text := ascii_decode encoded in
              let! v := loads text in universe_mapping v)
    [UnicodeError; JSONDecodeError]
    (fun _ => universe_error INVALID_SNAPSHOT "snapshot must be ASCII JSON").

Definition snapshot_keys : list string :=
  ["canonical_entries"; "schema_version"; "source_file_sha256"; "source_path";
   "universe_snapshot_sha256"]%string.

Definition decode_universe_snapshot (encoded : pybytes) : res UniverseSnapshot :=
  let! m := decode_snapshot_payload encoded in
  do! universe_when (negb (keys_are m snapshot_keys)) INVALID_SNAPSHOT
        "snapshot fields do not match the contract" in
  let! vv := jget (str "schema_version") m in
  let! version := universe_text vv in
  do! universe_when (negb (bool_decide (version = UNIVERSE_SCHEMA_VERSION))) INVALID_SNAPSHOT
        "unsupported universe schema version" in
  let! pv := jget (str "source_path") m in
  let! path := universe_text pv in
  do! universe_when (negb (bool_decide (path = TICKER_UNIVERSE_PATH))) INVALID_SNAPSHOT
        "snapshot source path is not authoritative" in
  let! sv := jget (str "source_file_sha256") m in
  let! source_digest := decode_digest sv in
  let! dv := jget (str "universe_snapshot_sha256") m in
  let! snapshot_digest := decode_digest dv in
  let! ev := jget (str "canonical_entries") m in
  let! ordered := decode_entries ev in
  let! snapshot := snapshot_from_entries source_digest ordered in
  do! universe_when (negb (bool_decide (universe_snapshot_sha256 snapshot = snapshot_digest)))
        HASH_MISMATCH "universe snapshot SHA-256 does not match its content" in
  let! canonical := encode_universe_snapshot snapshot in
  do! universe_when (negb (bool_decide (canonical = encoded))) INVALID_SNAPSHOT
        "snapshot is not in canonical JSON form" in
  Ok snapshot.

(** ** Valid symbols *)

(** At most sixteen characters that match the pattern. *)
Definition symbol_valid (s : pystr) : Prop :=
  Z.of_nat (length s) <= MAX_SYMBOL_BYTES /\ symbol_pattern s = true.

Definition plain_char (c : Z) : Prop := symbol_char c = true \/ c = 46 \/ c = 45.

Lemma symbol_tail_plain s : symbol_tail s = true -> Forall plain_char s.
Proof.
  induction s as [|c s IH]; intros H; [constructor|]. cbn in H.
  destruct (symbol_char c) eqn:E; [constructor; [by left | auto]|].
  apply andb_true_split in H as [H Hs]. apply andb_true_split in H as [H _].
  constructor; [right; lia|]. apply Forall_forall. intros x Hx. left.
  rewrite forallb_forall in Hs. apply Hs. by apply list_elem_of_In.
Qed.

Lemma symbol_pattern_plain s : symbol_pattern s = true -> Forall plain_char s.
Proof.
  destruct s as [|c s]; [done|]. cbn. intros [Hc Hs]%andb_true_split. constructor.
  - left. unfold symbol_char. by rewrite Hc.
  - by apply symbol_tail_plain.
Qed.

Lemma plain_char_range c : plain_char c -> 45 <= c <= 90 /\ c <> 47 /\ c <> 58 /\ c <> 61 /\ c <> 64.
Proof.
  unfold plain_char, symbol_char, is_upper, is_decimal, in_range. intros [H | [-> | ->]]; lia.
Qed.

Lemma forallb_Forall {A} (f : A -> bool) l : forallb f l = true <-> Forall (fun x => f x = true) l.
Proof. rewrite forallb_forall, Forall_forall. split; intros H x Hx; apply H; by apply list_elem_of_In. Qed.

Lemma plain_ascii s : Forall plain_char s -> forallb is_ascii s = true.
Proof.
  intros H. apply forallb_Forall. eapply Forall_impl; [exact H|]. intros c Hc%plain_char_range.
  unfold is_ascii. lia.
Qed.

Lemma plain_unambiguous s :
  Forall plain_char s -> existsb (fun c => bool_decide (c ∈ AMBIGUOUS_SYMBOL_CHARACTERS)) s = false.
Proof.
  intros H. apply not_true_is_false. intros (c & Hc & Ha)%existsb_exists.
  apply bool_decide_eq_true in Ha. rewrite Forall_forall in H.
  apply list_elem_of_In, H, plain_char_range in Hc. unfold AMBIGUOUS_SYMBOL_CHARACTERS in Ha.
  set_unfold in Ha. lia.
Qed.

Lemma validate_symbol_ok line s u : validate_symbol line s = Ok u <-> symbol_valid s.
Proof.
  destruct u. unfold validate_symbol, symbol_valid, ascii_encode. split.
  - intros (x & Hx & H)%rbind_ok. destruct (negb (forallb is_ascii s)); [done|].
    injection Hx as <-. inv_ok. bprop. split; [lia | done].
  - intros [Hl Hp]. pose proof (symbol_pattern_plain s Hp) as Hpl.
    rewrite (plain_ascii s Hpl). cbn [negb raise_when rbind try_except].
    rewrite raise_when_false by lia. cbn [rbind].
    rewrite (plain_unambiguous s Hpl). cbn [raise_when rbind]. by rewrite Hp.
Qed.

(** ** The lines of the ticker file *)

Definition listed (lines : list pystr) : list pystr :=
  List.filter (fun s => negb (bool_decide (s = []))) (map removesuffix_cr lines).

Lemma parse_lines_ok n symbols lines r :
  NoDup symbols -> Z.of_nat (length symbols) <= MAX_UNIVERSE_SYMBOLS ->
  parse_lines n symbols lines = Ok r <->
  r = symbols ++ listed lines /\ Forall symbol_valid (listed lines)
  /\ NoDup (symbols ++ listed lines)
  /\ Z.of_nat (length (symbols ++ listed lines)) <= MAX_UNIVERSE_SYMBOLS.
Proof.
  revert n symbols. induction lines as [|raw lines IH]; intros n symbols Hnd Hlen.
  - unfold listed. cbn. rewrite app_nil_r. split; [intros [= <-] | intros (-> & _)]; [|done].
    repeat split; [constructor | done | done].
  - cbn [parse_lines]. unfold listed. cbn [map List.filter]. fold (listed lines).
    set (line := removesuffix_cr raw). destruct (bool_decide (line = [])) eqn:E; cbn [negb].
    { by apply IH. }
    replace (symbols ++ line :: listed lines) with ((symbols ++ [line]) ++ listed lines)
      by (by rewrite <- app_assoc). split.
    + intros (u & Hv & H)%rbind_ok. apply validate_symbol_ok in Hv.
      unfold universe_when in H. apply rbind_ok in H as (? & Hd & H). apply raise_when_ok in Hd.
      apply rbind_ok in H as (? & Hm & H). apply raise_when_ok in Hm. bprop.
      apply IH in H as (-> & HF & HN & HL); [by repeat split; [constructor| |]| |lia].
      apply NoDup_app. split; [done|]. split; [|apply NoDup_singleton]. set_solver.
    + intros (-> & HF & HN & HL). apply Forall_cons in HF as [Hs HF].
      rewrite (proj2 (validate_symbol_ok _ _ tt) Hs). cbn [rbind].
      pose proof HN as HN'. apply NoDup_app in HN' as (HN' & _ & _).
      pose proof HN' as HN''. apply NoDup_app in HN'' as (_ & Hx & _).
      rewrite raise_when_false by (apply bool_decide_eq_false; set_solver). cbn [rbind].
      rewrite length_app in HL. unfold universe_when. rewrite raise_when_false by lia. cbn [rbind].
      apply IH; [done | lia |]. repeat split; [done | done |]. rewrite length_app. lia.
Qed.

(** What a ticker file must be like. *)
Record source_valid (source : pybytes) : Prop := {
  sv_size : Z.of_nat (length source) <= MAX_UNIVERSE_BYTES;
  sv_ascii : Forall (fun c => is_ascii c = true) source;
  sv_symbols : Forall symbol_valid (listed (split_char 10 source));
  sv_distinct : NoDup (listed (split_char 10 source));
  sv_count : 0 < Z.of_nat (length (listed (split_char 10 source))) <= MAX_UNIVERSE_SYMBOLS;
}.

Lemma parse_symbols_ok source r :
  parse_symbols source = Ok r <-> source_valid source /\ r = listed (split_char 10 source).
Proof.
  unfold parse_symbols, universe_when, ascii_decode. split.
  - intros (? & Hl & H)%rbind_ok. apply raise_when_ok in Hl. apply rbind_ok in H as (t & Ht & H).
    destruct (forallb is_ascii source) eqn:Ea; [|done]. injection Ht as <-.
    apply rbind_ok in H as (ss & Hp & H). inv_ok. bprop.
    apply (parse_lines_ok _ _ _ _ NoDup_nil_2 ltac:(done)) in Hp as (-> & HF & HN & HL).
    cbn [app] in *.
    split; [|done]. split; try done; [lia | by apply forallb_Forall |]. split; [lia | done].
  - intros [[Hl Ha Hs Hd Hc] ->]. rewrite raise_when_false by lia. cbn [rbind].
    apply forallb_Forall in Ha. rewrite Ha. cbn [try_except rbind].
    rewrite (proj2 (parse_lines_ok 1 [] (split_char 10 source) (listed (split_char 10 source))
                      NoDup_nil_2 ltac:(done))) by (cbn [app]; repeat split; done || lia).
    cbn [rbind].
    rewrite raise_when_false; [done|]. apply bool_decide_eq_false. lia.
Qed.

(** ** Resolved entries *)

Definition entry_ok (e : UniverseEntry) : Prop := UniverseEntry_post_init e = Ok tt.

Lemma entry_ok_iff e :
  entry_ok e <-> 0 <= source_ordinal e /\ symbol_valid (symbol e)
                 /\ (resolution_code e = RESOLVED <-> entry_instrument e <> None).
Proof.
  unfold entry_ok, UniverseEntry_post_init, new_resolution, InstrumentResolution_post_init, universe_when.
  cbn [ir_code ir_instrument]. split.
  - intros (? & Ho & H)%rbind_ok. apply raise_when_ok in Ho. apply rbind_ok in H as (? & Hs & H).
    apply validate_symbol_ok in Hs. apply rbind_ok in H as (r & Hr & _).
    apply rbind_ok in Hr as (? & Hr & _). apply raise_when_ok in Hr. bprop. apply eqb_prop in Hr.
    split; [lia|]. split; [done|].
    rewrite <- (bool_decide_eq_true (resolution_code e = RESOLVED)), Hr. apply bool_decide_eq_true.
  - intros (Ho & Hs & Hr). rewrite raise_when_false by lia. cbn [rbind].
    rewrite (proj2 (validate_symbol_ok None _ tt) Hs). cbn [rbind].
    by rewrite (bool_decide_ext _ _ Hr), eqb_reflx.
Qed.

(** The resolver's answer is the one that the entry records. *)
Definition answered_by (resolve : resolver) (e : UniverseEntry) : Prop :=
  resolve (symbol e) = Ok {| ir_code := resolution_code e; ir_instrument := entry_instrument e |}.

Definition instruments (es : list UniverseEntry) : list Identifier128 := omap entry_instrument es.

Record resolved_as (resolve : resolver) (n : Z) (symbols : list pystr) (es : list UniverseEntry)
    : Prop := {
  ra_symbols : map symbol es = symbols;
  ra_ordinals : map source_ordinal es = seqZ n (Z.of_nat (length es));
  ra_answers : Forall (answered_by resolve) es;
  ra_entries : Forall entry_ok es;
  ra_distinct : NoDup (instruments es);
}.

Lemma seqZ_front n k : seqZ n (Z.of_nat (S k)) = n :: seqZ (n + 1) (Z.of_nat k).
Proof. rewrite seqZ_cons by lia. do 2 f_equal; lia. Qed.

Lemma resolve_loop_ok resolve n R symbols es :
  resolve_loop resolve n R symbols = Ok es <->
  resolved_as resolve n symbols es /\ Forall (fun i => R !! i = None) (instruments es).
Proof.
  revert n R es. induction symbols as [|s l IH]; intros n R es; cbn [resolve_loop].
  - split.
    + intros [= <-]. split; [split|]; constructor.
    + intros [[Hs _ _ _ _] _]. by destruct es.
  - split.
    + intros ([code i] & Hr & H)%rbind_ok. cbn [ir_code ir_instrument] in H.
      apply rbind_ok in H as (e & He & H). unfold new_entry in He.
      apply rbind_ok in He as ([] & He & [= <-]). cbn [entry_instrument] in H.
      apply rbind_ok in H as (R' & HR & H). apply rbind_ok in H as (es' & Hes & [= <-]).
      apply IH in Hes as [[Hs Ho Ha Hk Hd] Hf]. unfold instruments in *. destruct i as [i|].
      * unfold universe_when in HR. apply rbind_ok in HR as (? & Hn & [= <-]).
        apply raise_when_ok in Hn. bprop. apply eq_None_not_Some in Hn.
        assert (Forall (fun j => R !! j = None /\ j <> i) (omap entry_instrument es')) as Hf'.
        { eapply Forall_impl; [exact Hf|]. intros j Hj. cbn in Hj. by apply lookup_insert_None in Hj as [? ?]. }
        split; [split|]; cbn.
        -- by rewrite Hs.
        -- by rewrite Ho, seqZ_front.
        -- by constructor.
        -- by constructor.
        -- constructor; [|done]. rewrite Forall_forall in Hf'. intros Hin. by apply Hf' in Hin as [_ ?].
        -- constructor; [done|]. eapply Forall_impl; [exact Hf'|]. by intros ? [? _].
      * injection HR as <-. split; [split|]; cbn; try done; [by rewrite Hs | by rewrite Ho, seqZ_front | by constructor | by constructor].
    + intros [[Hs Ho Ha Hk Hd] Hf]. destruct es as [|[o sy code i] es]; [done|]. cbn in Hs.
      injection Hs as -> Hs. cbn [length] in Ho. rewrite seqZ_front in Ho. injection Ho as -> Ho.
      apply Forall_cons in Ha as [Ha Has]. unfold answered_by in Ha. cbn in Ha. rewrite Ha. cbn [rbind ir_code ir_instrument].
      apply Forall_cons in Hk as [Hk Hks]. unfold entry_ok in Hk. unfold new_entry. rewrite Hk. cbn [rbind entry_instrument].
      unfold instruments in *. destruct i as [i|]; cbn in Hd, Hf; cbn [rbind].
      * apply NoDup_cons in Hd as [Hi Hd]. apply Forall_cons in Hf as [Hfi Hf].
        unfold universe_when. rewrite raise_when_false.
        2:{ apply bool_decide_eq_false. rewrite Hfi. by intros [? ?]. }
        cbn [rbind]. rewrite (proj2 (IH (n + 1) (<[i:=s]> R) es)); [done|]. split; [by split|].
        apply Forall_forall. intros j Hj. apply lookup_insert_None. rewrite Forall_forall in Hf.
        split; [by apply Hf | congruence].
      * by rewrite (proj2 (IH (n + 1) R es)).
Qed.

Lemma resolve_symbols_ok resolve symbols es :
  resolve_symbols symbols resolve = Ok es <-> resolved_as resolve 0 symbols es.
Proof.
  unfold resolve_symbols. rewrite resolve_loop_ok. split; [by intros [? _]|]. intros H. split; [done|].
  apply Forall_forall. intros i _. apply lookup_empty.
Qed.

(** ** Snapshots *)

(** A snapshot that its constructor accepts, over constructed entries, and whose
    digest is that of its canonical payload. *)
Record snapshot_valid (s : UniverseSnapshot) : Prop := {
  ss_shape : UniverseSnapshot_post_init s = Ok tt;
  ss_entries : Forall entry_ok (ordered_entries s);
  ss_count : Z.of_nat (length (ordered_entries s)) <= MAX_UNIVERSE_SYMBOLS;
  ss_digest : payload_digest s = Ok (universe_snapshot_sha256 s);
}.

Record shape_valid (s : UniverseSnapshot) : Prop := {
  sh_path : source_path s = TICKER_UNIVERSE_PATH;
  sh_schema : snapshot_schema_version s = UNIVERSE_SCHEMA_VERSION;
  sh_source : length (source_file_sha256 s) = 32%nat;
  sh_digest : length (universe_snapshot_sha256 s) = 32%nat;
  sh_nonempty : ordered_entries s <> [];
  sh_ordinals : map source_ordinal (ordered_entries s) = seqZ 0 (Z.of_nat (length (ordered_entries s)));
  sh_distinct : NoDup (map symbol (ordered_entries s));
  sh_sorted : canonical_symbols s = py_sorted pystr_leb (map symbol (ordered_entries s));
}.

Lemma size_list_le (l : list pystr) : (size (list_to_set l : gset pystr) <= length l)%nat.
Proof.
  induction l as [|x l IH]; cbn; [by rewrite size_empty|].
  pose proof (size_union_alt ({[x]} : gset pystr) (list_to_set l)) as H. rewrite size_singleton in H.
  pose proof (subseteq_size (list_to_set l ∖ {[x]} : gset pystr) (list_to_set l) ltac:(set_solver)). lia.
Qed.

Lemma size_nodup (l : list pystr) :
  size (list_to_set l : gset pystr) = length l <-> NoDup l.
Proof.
  split; [|apply size_list_to_set]. induction l as [|x l IH]; intros H; [constructor|].
  cbn in H. pose proof (size_list_le l) as Hle.
  destruct (decide (x ∈ l)) as [Hx|Hx].
  - rewrite subseteq_union_1_L in H by set_solver. lia.
  - rewrite size_union, size_singleton in H by set_solver. constructor; [done|]. apply IH. lia.
Qed.

Lemma pass_guard {A} b c msg (m : res A) x :
  b = false -> m = Ok x -> (do! raise_when b c msg in m) = Ok x.
Proof. by intros -> ->. Qed.

Lemma post_init_shape s : UniverseSnapshot_post_init s = Ok tt <-> shape_valid s.
Proof.
  unfold UniverseSnapshot_post_init, universe_when. cbv zeta. split.
  - intros H. inv_ok. bprop. rewrite length_map in *. 
    split; try done; try (apply Nat.eqb_eq; done).
    + intros E. by rewrite E in Ha3.
    + apply size_nodup. by rewrite length_map.
  - intros [Hp Hs H1 H2 Hn Ho Hd Hc].
    apply pass_guard; [by rewrite bool_decide_eq_true_2|].
    apply pass_guard; [by rewrite bool_decide_eq_true_2|].
    apply pass_guard; [by rewrite H1|]. apply pass_guard; [by rewrite H2|].
    apply pass_guard; [apply bool_decide_eq_false; by destruct (ordered_entries s)|].
    apply pass_guard; [by rewrite bool_decide_eq_true_2|].
    apply raise_when_false. rewrite bool_decide_eq_true_2 by (by apply size_nodup).
    by rewrite bool_decide_eq_true_2.
Qed.

(** ** The digest always exists *)

Lemma entry_payload_printable e : 0 <= source_ordinal e < 2 ^ 64 -> ints_printable (entry_payload e) = true.
Proof.
  intros H. pose proof (Z.pow_lt_mono_r 2 64 4300 ltac:(done) ltac:(done) ltac:(done)) as H64.
  assert (H7 : Z.abs (resolution_value (resolution_code e)) < 2 ^ 64)
    by (destruct (resolution_code e); cbn; lia).
  unfold entry_payload. destruct (entry_instrument e); cbn [ints_printable forallb snd fst];
    generalize dependent (2 ^ 4300); intros big Hbig; by rewrite !(proj2 (Z.ltb_lt _ big)) by lia.
Qed.

Lemma payload_printable s extra :
  Forall (fun e => 0 <= source_ordinal e < 2 ^ 64) (ordered_entries s) ->
  forallb (fun kv : pystr * json => ints_printable kv.2) extra = true ->
  ints_printable (JObj (snapshot_payload s ++ extra)) = true.
Proof.
  intros H He. unfold snapshot_payload. cbn [ints_printable app forallb snd]. rewrite He, !andb_true_r.
  apply forallb_Forall, Forall_fmap. unfold by_symbol. rewrite py_sorted_perm.
  eapply Forall_impl; [exact H|]. intros e. apply entry_payload_printable.
Qed.

Lemma ordinals_small es :
  map source_ordinal es = seqZ 0 (Z.of_nat (length es)) -> Z.of_nat (length es) <= MAX_UNIVERSE_SYMBOLS ->
  Forall (fun e => 0 <= source_ordinal e < 2 ^ 64) es.
Proof.
  intros Ho Hl. assert (H : Forall (fun n => 0 <= n < 2 ^ 64) (source_ordinal <$> es)).
  { change (source_ordinal <$> es) with (map source_ordinal es). rewrite Ho. apply Forall_forall.
    intros n Hn%elem_of_seqZ. unfold MAX_UNIVERSE_SYMBOLS in Hl. lia. }
  by apply Forall_fmap in H.
Qed.

Lemma payload_digest_total s :
  map source_ordinal (ordered_entries s) = seqZ 0 (Z.of_nat (length (ordered_entries s))) ->
  Z.of_nat (length (ordered_entries s)) <= MAX_UNIVERSE_SYMBOLS ->
  exists d, payload_digest s = Ok d /\ length d = 32%nat /\ Forall (fun x => 0 <= x < 256) d.
Proof.
  intros Ho Hl. unfold payload_digest.
  destruct (dumps_total (JObj (snapshot_payload s ++ []))) as [b Hb].
  - apply payload_printable; [by apply ordinals_small | done].
  - rewrite app_nil_r in Hb. rewrite Hb. cbn. eexists. split; [done|].
    split; [apply length_sha256 | apply sha256_range].
Qed.

(** The snapshot of entries, as a relation. *)
Lemma snapshot_from_entries_ok source es s :
  Z.of_nat (length es) <= MAX_UNIVERSE_SYMBOLS ->
  snapshot_from_entries source es = Ok s <->
  shape_valid s /\ payload_digest s = Ok (universe_snapshot_sha256 s)
  /\ source_file_sha256 s = source /\ ordered_entries s = es.
Proof.
  intros Hl. unfold snapshot_from_entries, new_snapshot. cbv zeta. split.
  - intros (p & Hp & H)%rbind_ok. apply rbind_ok in Hp as ([] & Hp & [= <-]).
    apply rbind_ok in H as (d & Hd & H). apply rbind_ok in H as ([] & H & [= <-]).
    apply post_init_shape in H. split; [done|]. split; [exact Hd|]. done.
  - intros ([Hp Hs H1 H2 Hn Ho Hd Hc] & Hdig & Hsrc & Hes). destruct s as [sp sf oe cs us ssv].
    cbn [source_path source_file_sha256 ordered_entries canonical_symbols universe_snapshot_sha256
         snapshot_schema_version] in *. subst sp ssv sf oe cs.
    rewrite (proj2 (post_init_shape _)) by (by split). cbn [rbind].
    change (payload_digest _) with (payload_digest
      {| source_path := TICKER_UNIVERSE_PATH; source_file_sha256 := source; ordered_entries := es;
         canonical_symbols := py_sorted pystr_leb (map symbol es); universe_snapshot_sha256 := us;
         snapshot_schema_version := UNIVERSE_SCHEMA_VERSION |}) at 1.
    rewrite Hdig. cbn [rbind]. rewrite (proj2 (post_init_shape _)) by (by split). done.
Qed.

(** Entries in order, with distinct symbols, always make a snapshot. *)
Lemma snapshot_of_entries source es :
  length source = 32%nat -> es <> [] -> Z.of_nat (length es) <= MAX_UNIVERSE_SYMBOLS ->
  map source_ordinal es = seqZ 0 (Z.of_nat (length es)) -> NoDup (map symbol es) ->
  exists s, snapshot_from_entries source es = Ok s.
Proof.
  intros Hs Hn Hl Ho Hd.
  set (shape d := {| source_path := TICKER_UNIVERSE_PATH; source_file_sha256 := source; ordered_entries := es;
         canonical_symbols := py_sorted pystr_leb (map symbol es); universe_snapshot_sha256 := d;
         snapshot_schema_version := UNIVERSE_SCHEMA_VERSION |}).
  destruct (payload_digest_total (shape []) Ho Hl) as (d & Hdig & Hdl & _).
  exists (shape d). apply snapshot_from_entries_ok; [done|]. by repeat split.
Qed.

(** ** Reading back an encoded snapshot *)

(** Values of their types: identifiers are 128-bit and digests are bytes. *)
Definition snapshot_typed (s : UniverseSnapshot) : Prop :=
  Forall identifier_ok (instruments (ordered_entries s))
  /\ Forall (fun x => 0 <= x < 256) (source_file_sha256 s).

Lemma resolution_of_value c : resolution_of (resolution_value c) = Ok c.
Proof. by destruct c. Qed.

Lemma decode_identifier_hex i : identifier_ok i -> decode_identifier (JStr (id_hex i)) = Ok (Some i).
Proof.
  intros Hi. pose proof (proj1 (identifier_ok_range i) Hi) as (Hh & Hl & _).
  cbn [decode_identifier universe_text rbind]. unfold id_hex.
  rewrite length_app, !length_hex_fixed.
  change (Z.of_nat (16 + 16) =? IDENTIFIER_HEX_LENGTH) with true.
  rewrite lower_hexc by apply id_hex_hexc. rewrite bool_decide_eq_true_2 by done.
  cbn [negb orb raise_when universe_when rbind].
  rewrite take_app_length', drop_app_length' by (symmetry; apply length_hex_fixed).
  rewrite !int_base16_hex_fixed by (simpl; lia). unfold new_identifier. destruct i.
  unfold identifier_ok in Hi. simpl in *. by rewrite Hi.
Qed.

Lemma decode_digest_hex d :
  Forall (fun x => 0 <= x < 256) d -> length d = 32%nat -> decode_digest (JStr (bytes_hex d)) = Ok d.
Proof.
  intros Hd Hl. cbn [decode_digest universe_text rbind]. rewrite length_bytes_hex, Hl.
  rewrite lower_hexc by (by apply bytes_hex_hexc). rewrite bool_decide_eq_true_2 by done.
  change (Z.of_nat (2 * 32) =? SHA256_HEX_LENGTH) with true. cbn [negb orb raise_when universe_when rbind].
  unfold bytes_fromhex. by rewrite fromhex_hex.
Qed.

Lemma decode_entry_payload e :
  entry_ok e -> (forall i, entry_instrument e = Some i -> identifier_ok i) ->
  decode_entry (norm (entry_payload e)) = Ok e.
Proof.
  intros He Hi. unfold decode_entry, entry_payload. rewrite norm_obj_members.
  cbn [universe_mapping rbind]. rewrite keys_norm by (cbn [map fst]; vm_compute; reflexivity).
  cbn [negb universe_when raise_when rbind].
  norm_get. cbn [rbind norm universe_int]. rewrite resolution_of_value. cbn [try_except rbind].
  norm_get. cbn [rbind norm universe_int]. norm_get. cbn [rbind norm universe_text].
  norm_get. cbn [rbind].
  assert (Hd : decode_identifier (norm match entry_instrument e with
                                       | Some i => JStr (id_hex i) | None => JNull end)
               = Ok (entry_instrument e)).
  { destruct (entry_instrument e) as [i|]; [|done]. cbn [norm]. by apply decode_identifier_hex, Hi. }
  rewrite Hd. cbn [rbind]. unfold new_entry. destruct e. unfold entry_ok in He. cbn in *. by rewrite He.
Qed.

Lemma by_symbol_perm es : by_symbol es ≡ₚ es.
Proof. apply py_sorted_perm. Qed.

Lemma by_ordinal_back es :
  map source_ordinal es = seqZ 0 (Z.of_nat (length es)) ->
  py_sorted (leb_on source_ordinal Z.leb) (by_symbol es) = es.
Proof.
  intros Ho. symmetry. assert (Hlt : StronglySorted (fun a b => source_ordinal a < source_ordinal b) es).
  { apply strongly_sorted_lookup. intros i j x y Hij Hx Hy.
    assert (Hk : forall k z, es !! k = Some z -> source_ordinal z = Z.of_nat k).
    { intros k z Hz. assert (Hm : map source_ordinal es !! k = Some (source_ordinal z))
        by (change (map source_ordinal es) with (source_ordinal <$> es); by rewrite list_lookup_fmap, Hz).
      rewrite Ho in Hm. apply lookup_seqZ in Hm. lia. }
    rewrite (Hk _ _ Hx), (Hk _ _ Hy). lia. }
  apply py_sorted_unique; [exact _| | |symmetry; apply by_symbol_perm].
  - intros x y Hx Hy H1 H2. unfold leb_on in *. rewrite by_symbol_perm in Hx, Hy.
    apply list_elem_of_lookup_1 in Hx as [i Hi], Hy as [j Hj].
    destruct (Nat.lt_trichotomy i j) as [Hij|[->|Hij]].
    + pose proof (strongly_sorted_nth _ _ _ _ _ _ Hlt Hij Hi Hj) as H. cbn in H. lia.
    + congruence.
    + pose proof (strongly_sorted_nth _ _ _ _ _ _ Hlt Hij Hj Hi) as H. cbn in H. lia.
  - eapply strongly_sorted_impl; [|exact Hlt]. unfold leb_on. intros. lia.
Qed.

Lemma decode_entries_payload es :
  es <> [] -> Z.of_nat (length es) <= MAX_UNIVERSE_SYMBOLS ->
  map source_ordinal es = seqZ 0 (Z.of_nat (length es)) ->
  Forall entry_ok es -> Forall identifier_ok (instruments es) ->
  decode_entries (norm (JArr (map entry_payload (by_symbol es)))) = Ok es.
Proof.
  intros Hn Hl Ho He Hi. cbn [norm]. rewrite map_map.
  assert (Hp : by_symbol es ≡ₚ es) by apply by_symbol_perm.
  assert (Hlen : length (by_symbol es) = length es) by (by rewrite Hp).
  assert (Hdec : res_map decode_entry (map (fun e => norm (entry_payload e)) (by_symbol es)) = Ok (by_symbol es)).
  { rewrite <- (map_id (by_symbol es)) at 2. apply res_map_ok, Forall2_fmap.
    apply Forall_Forall2_diag. rewrite Hp. apply Forall_forall. intros e Hel.
    rewrite Forall_forall in He. rewrite Forall_forall in Hi. apply decode_entry_payload; [by apply He|].
    intros i Hei. apply Hi. apply list_elem_of_omap. eauto. }
  unfold decode_entries. destruct (map _ (by_symbol es)) as [|raw rest] eqn:Em.
  { apply map_eq_nil in Em. rewrite Em in Hlen. by destruct es. }
  assert (Hlm : length (raw :: rest) = length es) by (by rewrite <- Em, length_map).
  rewrite Hlm, Hdec. unfold universe_when. rewrite raise_when_false by lia. cbn [rbind].
  rewrite bool_decide_eq_true_2; [cbn; by rewrite by_ordinal_back|].
  unfold by_symbol. rewrite <- py_sorted_on. symmetry. apply py_sorted_id.
  by apply (py_sorted_sorted pystr_leb).
Qed.

Definition snapshot_members (s : UniverseSnapshot) (d : pybytes) : list (pystr * json) :=
  snapshot_payload s ++ [(str "universe_snapshot_sha256", JStr (bytes_hex d))].

Lemma symbol_text_ok s : symbol_valid s -> text_ok s.
Proof.
  intros [_ Hp%symbol_pattern_plain]. eapply Forall_impl; [exact Hp|]. intros c Hc%plain_char_range.
  unfold is_surrogate. lia.
Qed.

Lemma entry_payload_ok e : entry_ok e -> json_ok (entry_payload e).
Proof.
  intros (_ & Hs & _)%entry_ok_iff. unfold entry_payload. literal_ok.
  - destruct (entry_instrument e) as [i|]; [|exact I]. exact (hexc_text_ok _ (id_hex_hexc i)).
  - by apply symbol_text_ok.
Qed.

Lemma snapshot_members_ok s d :
  shape_valid s -> Forall entry_ok (ordered_entries s) -> Forall (fun x => 0 <= x < 256) d ->
  Forall (fun x => 0 <= x < 256) (source_file_sha256 s) -> json_ok (JObj (snapshot_members s d)).
Proof.
  intros [Hp Hv _ _ _ _ _ _] He Hd Hs. unfold snapshot_members, snapshot_payload. rewrite Hp, Hv.
  literal_ok; [| apply str_text_ok | by apply (bytes_hex_text_ok (source_file_sha256 s))
               | apply str_text_ok | by apply (bytes_hex_text_ok d)].
  apply json_ok_arr, Forall_fmap. rewrite by_symbol_perm. eapply Forall_impl; [exact He|].
  intros e. apply entry_payload_ok.
Qed.

Lemma decode_snapshot_members s d b :
  json_ok (JObj (snapshot_members s d)) -> dumps (JObj (snapshot_members s d)) = Ok b ->
  Z.of_nat (length b) <= MAX_UNIVERSE_SNAPSHOT_BYTES ->
  decode_snapshot_payload b = Ok (norm_members (snapshot_members s d)).
Proof.
  intros Hok Hb Hl. pose proof (dumps_printable _ _ Hok Hb) as Hp. pose proof (loads_dumps _ _ Hok Hb) as Hld.
  unfold decode_snapshot_payload, universe_when, ascii_decode. rewrite raise_when_false.
  - cbn [rbind]. rewrite (proj2 (forallb_Forall is_ascii b)).
    + cbn [rbind]. by rewrite Hld.
    + eapply Forall_impl; [exact Hp|]. unfold is_ascii. intros c Hc. lia.
  - rewrite (proj2 (Z.ltb_ge _ _)) by lia. rewrite orb_false_r. apply bool_decide_eq_false.
    destruct b; [discriminate Hld | done].
Qed.

Lemma snapshot_keys_members s d : keys_are (norm_members (snapshot_members s d)) snapshot_keys = true.
Proof.
  apply keys_norm. unfold snapshot_members, snapshot_payload, snapshot_keys. cbn [map fst app].
  vm_compute. reflexivity.
Qed.

Lemma decode_encoded_snapshot s b :
  snapshot_valid s -> snapshot_typed s -> encode_universe_snapshot s = Ok b ->
  decode_universe_snapshot b = Ok s.
Proof.
  intros [Hsh He Hc Hdig] [Hi Hs] Hb. apply post_init_shape in Hsh as Hshape. pose proof Hb as Henc.
  destruct (payload_digest_total s (sh_ordinals _ Hshape) Hc) as (d & Hd & Hdl & Hdr).
  assert (d = universe_snapshot_sha256 s) as -> by congruence.
  unfold encode_universe_snapshot, universe_when in Hb. rewrite Hdig in Hb. cbn [rbind] in Hb.
  apply rbind_ok in Hb as (? & _ & Hb). fold (snapshot_members s (universe_snapshot_sha256 s)) in Hb.
  apply rbind_ok in Hb as (b' & Hb' & Hb). apply rbind_ok in Hb as (? & Hlen & [= ->]).
  apply raise_when_ok in Hlen.
  pose proof (snapshot_members_ok s _ Hshape He Hdr Hs) as Hok.
  unfold decode_universe_snapshot. rewrite (decode_snapshot_members s _ b Hok Hb') by lia. cbn [rbind].
  rewrite snapshot_keys_members. cbn [negb universe_when raise_when rbind].
  destruct Hshape as [Hp Hv Hsl Hul Hne Hor Hdi Hso].
  unfold snapshot_members, snapshot_payload.
  norm_get. cbn [rbind norm universe_text]. rewrite Hv, bool_decide_eq_true_2 by done.
  cbn [negb universe_when raise_when rbind].
  norm_get. cbn [rbind norm universe_text]. rewrite Hp, bool_decide_eq_true_2 by done.
  cbn [negb universe_when raise_when rbind].
  norm_get. cbn [rbind norm]. rewrite decode_digest_hex by done. cbn [rbind].
  norm_get. cbn [rbind norm]. rewrite decode_digest_hex by done. cbn [rbind].
  norm_get. cbn [rbind]. rewrite decode_entries_payload by done. cbn [rbind].
  rewrite (proj2 (snapshot_from_entries_ok (source_file_sha256 s) (ordered_entries s) s Hc)) by (by split).
  cbn [rbind]. rewrite bool_decide_eq_true_2 by done. cbn [negb universe_when raise_when rbind].
  rewrite Henc. cbn [rbind]. by rewrite bool_decide_eq_true_2.
Qed.

(** ** What a decoded snapshot satisfies *)

Lemma hex_value_range c v : hex_value c = Some v -> 0 <= v < 16.
Proof. unfold hex_value. intros H. repeat case_match; simplify_eq; lia. Qed.

Lemma fromhex_range s b : fromhex s = Some b -> Forall (fun x => 0 <= x < 256) b.
Proof.
  remember (length s) as n eqn:En. revert s b En.
  induction (lt_wf n) as [n _ IH]; intros [|c t] b -> H; cbn in H; [injection H as <-; constructor|].
  destruct (ascii_space c); [by apply (IH (length t)) in H; [|cbn; lia|]|].
  destruct t as [|d t]; [done|]. destruct (hex_value c) as [h|] eqn:Eh; [|done].
  destruct (hex_value d) as [l|] eqn:El; [|done]. destruct (fromhex t) as [r|] eqn:Er; [|done].
  injection H as <-. apply hex_value_range in Eh, El. constructor; [lia|].
  by apply (IH (length t)) in Er; [|cbn; lia|].
Qed.

Lemma decode_digest_range v d : decode_digest v = Ok d -> Forall (fun x => 0 <= x < 256) d.
Proof.
  unfold decode_digest, bytes_fromhex. intros (t & _ & H)%rbind_ok. apply rbind_ok in H as (? & _ & H).
  destruct (fromhex t) as [b|] eqn:E; [|done]. injection H as <-. by eapply fromhex_range.
Qed.

Lemma decode_identifier_typed v i : decode_identifier v = Ok (Some i) -> identifier_ok i.
Proof.
  unfold decode_identifier. intros H.
  assert (Hx : exists t h l, universe_text v = Ok t /\ new_identifier h l = Ok i).
  { destruct v; try done; apply rbind_ok in H as (t & Ht & H); try done;
      apply rbind_ok in H as (? & _ & H); apply rbind_ok in H as (j & Hj & [= ->]);
      destruct (int_base16 (take 16 t)) as [h|]; try done; destruct (int_base16 (drop 16 t)) as [l|]; try done;
      exists t, h, l; split; try done; destruct (new_identifier h l) as [?|[[] ?]]; by simplify_eq. }
  destruct Hx as (t & h & l & _ & Hi). unfold new_identifier in Hi.
  apply rbind_ok in Hi as ([] & Hi & [= <-]). done.
Qed.

Lemma decode_entry_valid raw e :
  decode_entry raw = Ok e -> entry_ok e /\ forall i, entry_instrument e = Some i -> identifier_ok i.
Proof.
  unfold decode_entry. intros (m & _ & H)%rbind_ok. apply rbind_ok in H as (? & _ & H).
  apply rbind_ok in H as (c & _ & H). apply rbind_ok in H as (? & _ & H). apply rbind_ok in H as (o & _ & H).
  apply rbind_ok in H as (? & _ & H). apply rbind_ok in H as (t & _ & H). apply rbind_ok in H as (iv & _ & H).
  apply rbind_ok in H as (i & Hi & H). unfold new_entry in H. apply rbind_ok in H as ([] & H & [= <-]).
  split; [done|]. cbn. intros j ->. by eapply decode_identifier_typed.
Qed.

Lemma decode_entries_valid v es :
  decode_entries v = Ok es ->
  Forall entry_ok es /\ Forall identifier_ok (instruments es)
  /\ Z.of_nat (length es) <= MAX_UNIVERSE_SYMBOLS.
Proof.
  unfold decode_entries. destruct v as [| | | | |[|raw rest]|]; try done.
  intros (? & Hl & H)%rbind_ok. unfold universe_when in *. apply raise_when_ok in Hl.
  apply rbind_ok in H as (l & Hm & H). apply rbind_ok in H as (? & _ & [= <-]).
  apply res_map_ok in Hm.
  assert (Hv : Forall (fun e => entry_ok e /\ forall i, entry_instrument e = Some i -> identifier_ok i) l).
  { clear Hl. induction Hm as [|r e rs es He _ IH]; constructor; [by eapply decode_entry_valid | done]. }
  split; [|split].
  - rewrite py_sorted_perm. eapply Forall_impl; [exact Hv|]. by intros ? [? _].
  - apply Forall_forall. intros i (e & He & Hi)%list_elem_of_omap. rewrite py_sorted_perm in He.
    rewrite Forall_forall in Hv. by apply (Hv e He).
  - rewrite py_sorted_perm, <- (Forall2_length _ _ _ Hm). lia.
Qed.

Lemma decoded_snapshot_valid b s :
  decode_universe_snapshot b = Ok s ->
  snapshot_valid s /\ snapshot_typed s /\ encode_universe_snapshot s = Ok b.
Proof.
  unfold decode_universe_snapshot, universe_when. intros (m & _ & H)%rbind_ok.
  do 8 (apply rbind_ok in H as (? & _ & H)).
  apply rbind_ok in H as (sd & Hsd & H). do 2 (apply rbind_ok in H as (? & _ & H)).
  apply rbind_ok in H as (ev & _ & H). apply rbind_ok in H as (es & Hes & H).
  apply rbind_ok in H as (sn & Hsn & H). apply rbind_ok in H as (? & _ & H).
  apply rbind_ok in H as (can & Hcan & H). apply rbind_ok in H as (? & Heq & [= ->]).
  apply raise_when_ok in Heq. bprop. subst can.
  apply decode_entries_valid in Hes as (He & Hi & Hc).
  apply snapshot_from_entries_ok in Hsn as (Hsh & Hd & Hsrc & Hes); [|done]. subst es sd.
  split; [|split; [|done]].
  - split; try done. by apply post_init_shape.
  - split; [done|]. by eapply decode_digest_range.
Qed.

(** ** The encoding always fits its bound *)

Lemma length_id_hex i : length (id_hex i) = 32%nat.
Proof. unfold id_hex. by rewrite length_app, !length_hex_fixed. Qed.

Lemma entry_payload_size e :
  symbol_valid (symbol e) -> 0 <= source_ordinal e < MAX_UNIVERSE_SYMBOLS ->
  json_size (entry_payload e) <= 150.
Proof.
  intros [Hl Hp%symbol_pattern_plain] Ho. unfold entry_payload, MAX_SYMBOL_BYTES, MAX_UNIVERSE_SYMBOLS in *.
  assert (Hs : json_size (JStr (symbol e)) <= 18).
  { cbn [json_size]. rewrite length_dumps_str; [lia|]. eapply Forall_impl; [exact Hp|].
    intros c Hc%plain_char_range. unfold unescaped. lia. }
  assert (Hi : json_size match entry_instrument e with Some i => JStr (id_hex i) | None => JNull end <= 34).
  { destruct (entry_instrument e) as [i|]; cbn [json_size]; [|lia].
    rewrite length_dumps_str, length_id_hex; [lia|]. apply hexc_unescaped, id_hex_hexc. }
  assert (Hn : json_size (JInt (source_ordinal e)) <= 15).
  { cbn [json_size]. pose proof (Z.log2_le_mono (Z.abs (source_ordinal e)) 16383 ltac:(lia)).
    change (Z.log2 16383) with 13 in *. lia. }
  assert (Hc : json_size (JInt (resolution_value (resolution_code e))) <= 4)
    by (destruct (resolution_code e); by vm_compute).
  set (a := match entry_instrument e with _ => _ end) in *.
  cbn [json_size sum_of foldr fst snd] in *. unfold sum_of. cbn [foldr fst snd].
  change (Z.of_nat (length (dumps_str (str "instrument_id")))) with 15.
  change (Z.of_nat (length (dumps_str (str "resolution_code")))) with 17.
  change (Z.of_nat (length (dumps_str (str "source_ordinal")))) with 16.
  change (Z.of_nat (length (dumps_str (str "symbol")))) with 8. lia.
Qed.

Lemma bytes_hex_size d :
  Forall (fun x => 0 <= x < 256) d -> length d = 32%nat -> json_size (JStr (bytes_hex d)) = 66.
Proof.
  intros Hd Hl. cbn [json_size]. rewrite length_dumps_str, length_bytes_hex, Hl; [done|].
  by apply hexc_unescaped, bytes_hex_hexc.
Qed.

Lemma snapshot_members_size s d :
  snapshot_valid s -> snapshot_typed s -> Forall (fun x => 0 <= x < 256) d -> length d = 32%nat ->
  json_size (JObj (snapshot_members s d)) <= MAX_UNIVERSE_SNAPSHOT_BYTES.
Proof.
  intros [Hsh%post_init_shape He Hc _] [_ Hs] Hd Hdl. destruct Hsh as [Hp Hv Hsl _ _ Ho _ _].
  assert (Hes : json_size (JArr (map entry_payload (by_symbol (ordered_entries s)))) <= 151 * MAX_UNIVERSE_SYMBOLS + 2).
  { cbn [json_size]. pose proof (sum_of_bound (fun x => json_size x + 1) 151
      (map entry_payload (by_symbol (ordered_entries s)))) as Hb.
    assert (Hlen : length (by_symbol (ordered_entries s)) = length (ordered_entries s))
      by (by rewrite by_symbol_perm).
    rewrite length_map, Hlen in Hb. apply Z.le_trans with (2 + 151 * Z.of_nat (length (ordered_entries s))).
    - apply Z.add_le_mono_l, Hb. apply Forall_fmap. rewrite by_symbol_perm. apply Forall_forall. intros e Hel.
      rewrite Forall_forall in He. pose proof (proj1 (entry_ok_iff e) (He e Hel)) as (H0 & Hsy & _).
      unfold compose.
      assert (source_ordinal e ∈ map source_ordinal (ordered_entries s)) as Hin
        by (by apply (list_elem_of_fmap_2 source_ordinal)).
      rewrite Ho in Hin. apply elem_of_seqZ in Hin. pose proof (entry_payload_size e Hsy). lia.
    - lia. }
  pose proof (bytes_hex_size _ Hs Hsl) as H1. pose proof (bytes_hex_size d Hd Hdl) as H2.
  unfold snapshot_members, snapshot_payload. rewrite Hp, Hv.
  cbn [app json_size sum_of foldr fst snd] in *. unfold sum_of at 1. cbn [foldr fst snd].
  cbn [json_size] in Hes |- *. rewrite H1, H2.
  change (Z.of_nat (length (dumps_str (str "canonical_entries")))) with 19.
  change (Z.of_nat (length (dumps_str (str "schema_version")))) with 16.
  change (Z.of_nat (length (dumps_str (str "source_file_sha256")))) with 20.
  change (Z.of_nat (length (dumps_str (str "source_path")))) with 13.
  change (Z.of_nat (length (dumps_str (str "universe_snapshot_sha256")))) with 26.
  change (Z.of_nat (length (dumps_str UNIVERSE_SCHEMA_VERSION))) with 7.
  change (Z.of_nat (length (dumps_str TICKER_UNIVERSE_PATH))) with 35.
  unfold MAX_UNIVERSE_SYMBOLS, MAX_UNIVERSE_SNAPSHOT_BYTES, sum_of in *. lia.
Qed.

Lemma encode_total s :
  snapshot_valid s -> snapshot_typed s -> exists b, encode_universe_snapshot s = Ok b.
Proof.
  intros Hv Ht. pose proof Hv as [Hsh He Hc Hd]. apply post_init_shape in Hsh as Hshape.
  destruct (payload_digest_total s (sh_ordinals _ Hshape) Hc) as (d & Hd' & Hdl & Hdr).
  assert (d = universe_snapshot_sha256 s) as -> by congruence.
  unfold encode_universe_snapshot, universe_when. rewrite Hd. cbn [rbind].
  rewrite bool_decide_eq_true_2 by done. cbn [negb raise_when rbind].
  destruct (dumps_total (JObj (snapshot_members s (universe_snapshot_sha256 s)))) as [b Hb].
  - apply payload_printable; [|done]. apply ordinals_small; [apply Hshape | done].
  - unfold snapshot_members in Hb. rewrite Hb. cbn [rbind].
    pose proof (dumps_size _ _ Hb). pose proof (snapshot_members_size s _ Hv Ht Hdr Hdl) as Hs.
    unfold snapshot_members in Hs. rewrite raise_when_false by lia. cbn. eauto.
Qed.

(** ** Which errors parsing raises *)

Definition universe_exn (e : exn) : Prop := exists code line, exn_cls e = UniverseContractError code line.

Lemma guard_exn b code line msg e :
  raise_when b (UniverseContractError code line) msg = Err e -> universe_exn e.
Proof. destruct b; [|done]. intros [= <-]. by exists code, line. Qed.

Lemma validate_symbol_exn line s e : validate_symbol line s = Err e -> universe_exn e.
Proof.
  unfold validate_symbol, ascii_encode. intros [H | (t & _ & H)]%rbind_err.
  { destruct (negb _); cbn in H; [|done]. injection H as <-. by eexists _, _. }
  repeat (apply rbind_err in H as [H | (? & _ & H)]; [by eapply guard_exn|]).
  by eapply guard_exn.
Qed.

Lemma parse_lines_exn n symbols lines e : parse_lines n symbols lines = Err e -> universe_exn e.
Proof.
  revert n symbols. induction lines as [|raw lines IH]; intros n symbols; cbn [parse_lines]; [done|].
  case_bool_decide as Hne; [apply IH|]. intros [H | (? & _ & H)]%rbind_err; [by eapply validate_symbol_exn|].
  repeat (apply rbind_err in H as [H | (? & _ & H)]; [by eapply guard_exn|]).
  by eapply IH.
Qed.

Lemma parse_symbols_exn source e : parse_symbols source = Err e -> universe_exn e.
Proof.
  unfold parse_symbols, universe_when. intros [H | (? & _ & H)]%rbind_err; [by eapply guard_exn|].
  apply rbind_err in H as [H | (? & _ & H)].
  { unfold ascii_decode in H. destruct (forallb is_ascii source); [done|]. injection H as <-. by eexists _, _. }
  apply rbind_err in H as [H | (? & _ & H)]; [by eapply parse_lines_exn|].
  apply rbind_err in H as [H | (? & _ & H)]; [by eapply guard_exn | done].
Qed.

Lemma new_entry_exn en e : new_entry en = Err e -> universe_exn e.
Proof.
  unfold new_entry, UniverseEntry_post_init, new_resolution, InstrumentResolution_post_init, universe_when.
  intros [H | (? & _ & H)]%rbind_err; [|done].
  apply rbind_err in H as [H | (? & _ & H)]; [by eapply guard_exn|].
  apply rbind_err in H as [H | (? & _ & H)]; [by eapply validate_symbol_exn|].
  apply rbind_err in H as [H | (? & _ & H)]; [|done].
  apply rbind_err in H as [H | (? & _ & H)]; [by eapply guard_exn | done].
Qed.

Lemma resolve_loop_exn resolve n R symbols e :
  resolve_loop resolve n R symbols = Err e ->
  universe_exn e \/ exists s, s ∈ symbols /\ resolve s = Err e.
Proof.
  revert n R. induction symbols as [|s l IH]; intros n R; cbn [resolve_loop]; [done|].
  intros [H | (r & _ & H)]%rbind_err; [right; exists s; split; [left | done]|].
  apply rbind_err in H as [H | (en & _ & H)]; [left; by eapply new_entry_exn|].
  apply rbind_err in H as [H | (R' & _ & H)].
  { left. destruct (entry_instrument en); [|done].
    apply rbind_err in H as [H | (? & _ & H)]; [by eapply guard_exn | done]. }
  apply rbind_err in H as [H | (? & _ & H)]; [|done].
  destruct (IH _ _ H) as [?|(s' & Hs & He)]; [by left|]. right. exists s'. split; [by right | done].
Qed.

(** ** Every valid ticker file parses before reference data exists *)

Lemma unresolved_entries n symbols :
  0 <= n -> Forall symbol_valid symbols ->
  exists es, resolved_as unresolved_resolver n symbols es /\ instruments es = [].
Proof.
  intros Hn H. revert n Hn. induction H as [|s l Hs _ IH]; intros n Hn.
  - exists []. split; [split; constructor | done].
  - destruct (IH (n + 1) ltac:(lia)) as (es & [Hsy Ho Ha He Hd] & Hi).
    exists ({| source_ordinal := n; symbol := s; resolution_code := MISSING_REFERENCE_DATA;
               entry_instrument := None |} :: es).
    split; [|done]. split; cbn.
    + by rewrite Hsy.
    + by rewrite Ho, seqZ_front.
    + by constructor.
    + constructor; [|done]. apply entry_ok_iff. cbn. split; [lia|]. by split.
    + done.
Qed.

Lemma unresolved_parses source :
  source_valid source -> exists s, parse_ticker_universe source unresolved_resolver = Ok s.
Proof.
  intros Hv. destruct (unresolved_entries 0 (listed (split_char 10 source)) ltac:(done)) as (es & Hes & _);
    [by destruct Hv|].
  pose proof Hes as [Hs Ho _ _ _]. destruct Hv as [H1 H2 H3 H4 [H5 H6]].
  assert (Hlen : length es = length (listed (split_char 10 source))) by (by rewrite <- Hs, length_map).
  destruct (snapshot_of_entries (sha256 source) es (length_sha256 source)) as [s Hok].
  - intros ->. cbn in Hlen. lia.
  - lia.
  - done.
  - by rewrite Hs.
  - exists s. unfold parse_ticker_universe.
    rewrite (proj2 (parse_symbols_ok source _)) by (by repeat split). cbn [rbind].
    by rewrite (proj2 (resolve_symbols_ok _ _ es) Hes).
Qed.

Example parsed_symbols :
  parse_symbols (str "MSFT" ++ 10 :: str "BRK.B" ++ [13; 10; 10] ++ str "A")
  = Ok [str "MSFT"; str "BRK.B"; str "A"].
Proof. by vm_compute. Qed.

Example rejected_symbols :
  exn_cls <$> map (fun s => match parse_symbols (str s ++ [10]) with Err e => e | Ok _ => Exn KeyError "parsed" end)
                  ["msft"; "A B"; "ABCDEFGHIJKLMNOPQ"; "A.B.C"]%string
  = [UniverseContractError MALFORMED_SYMBOL (Some 1); UniverseContractError AMBIGUOUS_SYMBOL (Some 1);
     UniverseContractError SYMBOL_TOO_LONG (Some 1); UniverseContractError MALFORMED_SYMBOL (Some 1)].
Proof. by vm_compute. Qed.

(** ** Properties *)

(** The ticker parser accepts exactly the valid universes.  A snapshot is
    returned if and only if the file is bounded ASCII whose non-empty lines are
    distinct valid symbols, at least one and at most ten thousand; the resolver
    answers every symbol consistently and never gives two symbols one instrument;
    and the snapshot lists the symbols in file order with those answers, the
    digest of the file and the digest of its own canonical payload.  Any other
    input raises [UniverseContractError], unless the resolver itself raised. *)
Theorem parse_universe_exact source resolve :
  (forall s, parse_ticker_universe source resolve = Ok s <->
     source_valid source /\ snapshot_valid s
     /\ source_file_sha256 s = sha256 source
     /\ map symbol (ordered_entries s) = listed (split_char 10 source)
     /\ Forall (answered_by resolve) (ordered_entries s)
     /\ NoDup (instruments (ordered_entries s)))
  /\ (forall e, parse_ticker_universe source resolve = Err e ->
       universe_exn e \/ exists x, x ∈ listed (split_char 10 source) /\ resolve x = Err e).
Proof.
  unfold parse_ticker_universe. split.
  - intros s. split.
    + intros (ss & Hp & H)%rbind_ok. apply parse_symbols_ok in Hp as [Hv ->].
      apply rbind_ok in H as (es & Hes & H). apply resolve_symbols_ok in Hes as [Hs Ho Ha He Hd].
      assert (Hc : Z.of_nat (length es) <= MAX_UNIVERSE_SYMBOLS)
        by (destruct Hv; rewrite <- (length_map symbol es), Hs; lia).
      apply snapshot_from_entries_ok in H as (Hsh & Hdig & Hsrc & Hoe); [|done]. subst es.
      split_and!; try done. split; try done. by apply post_init_shape.
    + intros (Hv & [Hsh%post_init_shape He Hc Hd] & Hsrc & Hs & Ha & Hnd).
      rewrite (proj2 (parse_symbols_ok source _)) by (by split). cbn [rbind].
      rewrite (proj2 (resolve_symbols_ok resolve _ (ordered_entries s))) by (split; by try apply Hsh).
      cbn [rbind]. by apply snapshot_from_entries_ok.
  - intros e [H | (ss & Hp & H)]%rbind_err; [left; by eapply parse_symbols_exn|].
    apply parse_symbols_ok in Hp as [Hv ->].
    apply rbind_err in H as [H | (es & Hes & H)]; [by eapply resolve_loop_exn|].
    apply resolve_symbols_ok in Hes as [Hs Ho Ha He Hd]. exfalso.
    assert (Hc : Z.of_nat (length es) <= MAX_UNIVERSE_SYMBOLS)
      by (destruct Hv; rewrite <- (length_map symbol es), Hs; lia).
    destruct (snapshot_of_entries (sha256 source) es (length_sha256 source)) as [s Hok];
      [| done | done | |congruence].
    + intros ->. destruct Hv as [_ _ _ _ Hn]. rewrite <- Hs in Hn. cbn in Hn. lia.
    + rewrite Hs. by destruct Hv.
Qed.

(** Universe snapshots have one encoding.  The decoder accepts a byte string
    if and only if it is the encoding of a valid snapshot, and then returns that
    snapshot; and every valid snapshot has an encoding within the size bound. *)
Theorem universe_codec_exact :
  (forall b s, decode_universe_snapshot b = Ok s <->
     snapshot_valid s /\ snapshot_typed s /\ encode_universe_snapshot s = Ok b)
  /\ (forall s, snapshot_valid s -> snapshot_typed s ->
       exists b, encode_universe_snapshot s = Ok b /\ decode_universe_snapshot b = Ok s).
Proof.
  split.
  - intros b s. split; [apply decoded_snapshot_valid|]. intros (? & ? & ?). by apply decode_encoded_snapshot.
  - intros s Hv Ht. destruct (encode_total s Hv Ht) as [b Hb]. exists b. split; [done|].
    by apply decode_encoded_snapshot.
Qed.
