(* ===== verification/ReferenceData.v ===== *)
(** * Point-in-time reference data

    Models [python/research/aegis_mx_research/reference_data.py]: exact ratios, the
    revision records with their validation, the bitemporal reference store with its
    lineage check and queries, and the resolver that it gives to the universe parser.
    A frozen dataclass is a record with the check of its [__post_init__]; a date is
    its year, month and day.  Building a snapshot from a provider report, reading and
    writing files, and the benchmark are not modelled. *)

From Stdlib Require Import Znumtheory.
From S2P Require Import Prelude PyText Json Sha256 PyDateTime ForecastDomain Universe.
Open Scope Z_scope.

Definition REFERENCE_SCHEMA_VERSION : pystr := str "1.0.0".
Definition MAX_INT64 : Z := 2 ^ 63 - 1.
Definition MAX_TEXT_BYTES : Z := 256.

Inductive ListingVenue := NASDAQ | NYSE | NYSE_AMERICAN | OTC | LV_UNKNOWN.
Inductive SecurityType :=
  | COMMON_STOCK | ADR | ETF | PREFERRED_STOCK | UNIT | WARRANT
  | US_EQUITY_UNSPECIFIED | ST_UNKNOWN.
Inductive MappingStatus :=
  | RESOLVED_CURRENT_ONLY | MS_RECENTLY_LISTED | MS_DELISTED | UNSUPPORTED_VENUE
  | AMBIGUOUS | MISSING_REFERENCE.
Inductive CorporateActionKind := SPLIT | CASH_DIVIDEND.
Inductive CalendarDayKind :=
  | REGULAR_SESSION | EARLY_CLOSE_SESSION | WEEKEND | HOLIDAY | UNCLASSIFIED_CLOSURE.
Inductive RoundingPolicy := REJECT_INEXACT | FLOOR | HALF_EVEN.
#[export] Instance ListingVenue_eq_dec : EqDecision ListingVenue.
Proof. solve_decision. Defined.
#[export] Instance SecurityType_eq_dec : EqDecision SecurityType.
Proof. solve_decision. Defined.
#[export] Instance MappingStatus_eq_dec : EqDecision MappingStatus.
Proof. solve_decision. Defined.
#[export] Instance CorporateActionKind_eq_dec : EqDecision CorporateActionKind.
Proof. solve_decision. Defined.
#[export] Instance CalendarDayKind_eq_dec : EqDecision CalendarDayKind.
Proof. solve_decision. Defined.
#[export] Instance RoundingPolicy_eq_dec : EqDecision RoundingPolicy.
Proof. solve_decision. Defined.

Definition ref_error {A} (code : ReferenceErrorCode) (msg : string) : res A :=
  raise (ReferenceDataError code) msg.
Definition ref_when (b : bool) (code : ReferenceErrorCode) (msg : string) : res unit :=
  raise_when b (ReferenceDataError code) msg.

(** [_bounded_text]; the encoding of a lone surrogate raises. *)
Definition bounded_text (value : pystr) (maximum : Z) : res unit :=
  if bool_decide (value = []) || existsb (Z.eqb 0) value
  then ref_error INVALID_INPUT "text is empty, contains NUL, or exceeds its bytes"
  else let! encoded := utf8_encode value in
       ref_when (maximum <? Z.of_nat (length encoded)) INVALID_INPUT
         "text is empty, contains NUL, or exceeds its bytes".

(** [_positive_ns] *)
Definition positive_ns (value : Z) : res unit :=
  ref_when (negb ((0 <? value) && (value <=? MAX_INT64))) INVALID_INPUT
    "value is not a positive int64".

(** [_checked_mul] *)
Definition checked_mul (left right : Z) : res Z :=
  let result := left * right in
  do! ref_when (negb ((- MAX_INT64 <=? result) && (result <=? MAX_INT64))) INTEGER_OVERFLOW
        "signed int64 multiplication overflow" in
  Ok result.

(** [_SHA256.fullmatch] *)
Definition sha256_pattern (s : pystr) : bool :=
  (Z.of_nat (length s) =? 64) && forallb (fun c => is_decimal c || in_range 97 102 c) s.

(** ** Exact ratios *)

Record ExactRatio := { numerator : Z; denominator : Z }.
#[export] Instance ExactRatio_eq_dec : EqDecision ExactRatio.
Proof. solve_decision. Defined.

Definition ExactRatio_post_init (r : ExactRatio) : res unit :=
  do! ref_when (negb ((0 <? numerator r) && (numerator r <=? MAX_INT64))
                || negb ((0 <? denominator r) && (denominator r <=? MAX_INT64)))
        INVALID_INPUT "ratio terms must be positive int64" in
  ref_when (negb (Z.gcd (numerator r) (denominator r) =? 1)) INVALID_INPUT "ratio must be reduced".

Definition new_ratio (n d : Z) : res ExactRatio :=
  let r := {| numerator := n; denominator := d |} in
  do! ExactRatio_post_init r in Ok r.

Definition reduced (n d : Z) : res ExactRatio :=
  do! ref_when ((n <=? 0) || (d <=? 0)) INVALID_INPUT "ratio terms must be positive" in
  let divisor := Z.gcd n d in
  new_ratio (n / divisor) (d / divisor).

Definition inverse (r : ExactRatio) : res ExactRatio := new_ratio (denominator r) (numerator r).

Definition multiply (r other : ExactRatio) : res ExactRatio :=
  let left_divisor := Z.gcd (numerator r) (denominator other) in
  let right_divisor := Z.gcd (numerator other) (denominator r) in
  let! n := checked_mul (numerator r / left_divisor) (numerator other / right_divisor) in
  let! d := checked_mul (denominator r / right_divisor) (denominator other / left_divisor) in
  reduced n d.

Definition apply (r : ExactRatio) (value : Z) (rounding : RoundingPolicy) : res Z :=
  do! ref_when (negb ((0 <=? value) && (value <=? MAX_INT64))) INVALID_INPUT
        "value must be a nonnegative int64" in
  let! product := checked_mul value (numerator r) in
  let quotient := product / denominator r in
  let remainder := product mod denominator r in
  if remainder =? 0 then Ok quotient else
  do! ref_when (bool_decide (rounding = REJECT_INEXACT)) INEXACT_ARITHMETIC
        "rational result is not an exact integer" in
  if bool_decide (rounding = HALF_EVEN) then
    let doubled := remainder * 2 in
    if (denominator r <? doubled) || ((doubled =? denominator r) && (quotient mod 2 =? 1))
    then Ok (quotient + 1) else Ok quotient
  else Ok quotient.

(** ** Intervals, provenance and dates *)

Record BusinessInterval := { effective_from_ns : Z; effective_to_ns : option Z }.

Definition BusinessInterval_post_init (i : BusinessInterval) : res unit :=
  do! positive_ns (effective_from_ns i) in
  match effective_to_ns i with
  | None => Ok tt
  | Some to =>
      do! positive_ns to in
      ref_when (to <=? effective_from_ns i) INVALID_INPUT "business interval is empty"
  end.

Definition contains (i : BusinessInterval) (timestamp : Z) : bool :=
  (effective_from_ns i <=? timestamp) &&
  match effective_to_ns i with None => true | Some to => timestamp <? to end.

Record ReferenceProvenance := {
  provider : pystr;
  dataset : pystr;
  document_id : pystr;
  content_sha256 : pystr;
  observed_at_ns : Z;
  processed_at_ns : Z;
  revision_at_ns : Z;
  source_publication_time_ns : option Z;
  historical_completeness : bool;
  limitation : pystr;
}.

Definition ReferenceProvenance_post_init (p : ReferenceProvenance) : res unit :=
  do! res_iter (fun fv => bounded_text fv.1 fv.2)
        [(provider p, 256); (dataset p, 256); (document_id p, 256); (limitation p, 512)] in
  do! ref_when (negb (sha256_pattern (content_sha256 p))) INVALID_INPUT
        "content_sha256 is malformed" in
  do! res_iter positive_ns [observed_at_ns p; processed_at_ns p; revision_at_ns p] in
  do! ref_when (processed_at_ns p <? observed_at_ns p) INVALID_INPUT
        "processing precedes observation" in
  match source_publication_time_ns p with
  | None => Ok tt
  | Some published =>
      do! positive_ns published in
      do! ref_when (observed_at_ns p <? published) INVALID_INPUT
            "observation precedes publication" in
      ref_when (revision_at_ns p <? published) INVALID_INPUT "revision precedes publication"
  end.

Definition available_at_ns (p : ReferenceProvenance) : Z :=
  Z.max (Z.max (observed_at_ns p) (processed_at_ns p)) (revision_at_ns p).

(** ** Revisions *)

Record InstrumentRevision := {
  revision_id : pystr;
  in_instrument_id : Identifier128;
  primary_symbol : pystr;
  in_listing_venue : ListingVenue;
  security_type : SecurityType;
  listing_date : option date;
  delisting_date : option date;
  in_effective : BusinessInterval;
  in_version : Z;
  unresolved_fields : list pystr;
  in_provenance : ReferenceProvenance;
}.

Definition InstrumentRevision_post_init (r : InstrumentRevision) : res unit :=
  do! bounded_text (revision_id r) MAX_TEXT_BYTES in
  do! ref_when (negb (symbol_pattern (primary_symbol r))) INVALID_INPUT
        "primary_symbol is malformed" in
  do! ref_when (in_version r <=? 0) INVALID_INPUT "instrument version must be positive" in
  do! ref_when (match listing_date r, delisting_date r with
                | Some l, Some d => date_ltb d l
                | _, _ => false
                end) INVALID_INPUT "delisting precedes listing" in
  ref_when (negb (bool_decide (size (list_to_set (unresolved_fields r) : gset pystr)
                               = length (unresolved_fields r))))
    INVALID_INPUT "unresolved fields are duplicated".

Record SymbolMappingRevision := {
  mapping_id : pystr;
  mp_symbol : pystr;
  mp_instrument_id : option Identifier128;
  mp_listing_venue : ListingVenue;
  mp_status : MappingStatus;
  mp_effective : BusinessInterval;
  mp_version : Z;
  mp_provenance : ReferenceProvenance;
}.

Definition SymbolMappingRevision_post_init (r : SymbolMappingRevision) : res unit :=
  do! bounded_text (mapping_id r) MAX_TEXT_BYTES in
  do! ref_when (negb (symbol_pattern (mp_symbol r))) INVALID_INPUT "mapping symbol is malformed" in
  do! ref_when (mp_version r <=? 0) INVALID_INPUT "mapping version must be positive" in
  let needs_id := match mp_status r with
                  | RESOLVED_CURRENT_ONLY | MS_RECENTLY_LISTED | MS_DELISTED
                  | UNSUPPORTED_VENUE => true
                  | AMBIGUOUS | MISSING_REFERENCE => false
                  end in
  ref_when (negb (Bool.eqb needs_id (bool_decide (mp_instrument_id r <> None)))) INVALID_INPUT
    "mapping identity and status disagree".

Record CorporateActionRevision := {
  action_id : pystr;
  ca_instrument_id : Identifier128;
  kind : CorporateActionKind;
  effective_time_ns : Z;
  ca_version : Z;
  ca_provenance : ReferenceProvenance;
  split_new_shares_per_old : option ExactRatio;
  cash_dividend_currency_nanos : option Z;
  currency : option pystr;
}.

Definition CorporateActionRevision_post_init (r : CorporateActionRevision) : res unit :=
  do! bounded_text (action_id r) MAX_TEXT_BYTES in
  do! positive_ns (effective_time_ns r) in
  do! ref_when (ca_version r <=? 0) INVALID_INPUT "action version must be positive" in
  if bool_decide (kind r = SPLIT) then
    ref_when (bool_decide (split_new_shares_per_old r = None)
              || negb (bool_decide (cash_dividend_currency_nanos r = None))
              || negb (bool_decide (currency r = None)))
      INVALID_INPUT "split payload is inconsistent"
  else
    match split_new_shares_per_old r, cash_dividend_currency_nanos r, currency r with
    | None, Some nanos, Some c =>
        do! ref_when (negb ((0 <=? nanos) && (nanos <=? MAX_INT64))) INVALID_INPUT
              "dividend payload is inconsistent" in
        bounded_text c 8
    | _, _, _ => ref_error INVALID_INPUT "dividend payload is inconsistent"
    end.

Record CalendarDayRevision := {
  cd_calendar_id : pystr;
  session_date : date;
  cd_kind : CalendarDayKind;
  open_exchange_time_ns : option Z;
  close_exchange_time_ns : option Z;
  cd_version : Z;
  cd_provenance : ReferenceProvenance;
}.

Definition CalendarDayRevision_post_init (r : CalendarDayRevision) : res unit :=
  do! bounded_text (cd_calendar_id r) 64 in
  do! ref_when (cd_version r <=? 0) INVALID_INPUT "calendar version must be positive" in
  if bool_decide (cd_kind r = REGULAR_SESSION) || bool_decide (cd_kind r = EARLY_CLOSE_SESSION) then
    match open_exchange_time_ns r, close_exchange_time_ns r with
    | Some opened, Some closed =>
        do! positive_ns opened in
        do! positive_ns closed in
        ref_when (closed <=? opened) INVALID_INPUT "calendar session is reversed"
    | _, _ => ref_error INVALID_INPUT "session lacks explicit timestamps"
    end
  else
    ref_when (negb (bool_decide (open_exchange_time_ns r = None))
              || negb (bool_decide (close_exchange_time_ns r = None)))
      INVALID_INPUT "closed day carries session timestamps".

Record HaltRevision := {
  halt_id : pystr;
  hl_instrument_id : Identifier128;
  start_exchange_time_ns : Z;
  end_exchange_time_ns : Z;
  hl_version : Z;
  hl_provenance : ReferenceProvenance;
}.

Definition HaltRevision_post_init (r : HaltRevision) : res unit :=
  do! bounded_text (halt_id r) MAX_TEXT_BYTES in
  do! positive_ns (start_exchange_time_ns r) in
  do! positive_ns (end_exchange_time_ns r) in
  ref_when ((end_exchange_time_ns r <=? start_exchange_time_ns r) || (hl_version r <=? 0))
    INVALID_INPUT "halt interval/version is invalid".

Record ReferenceSnapshot := {
  universe_source_sha256 : pystr;
  source_report_sha256 : pystr;
  as_of_ns : Z;
  rs_instruments : list InstrumentRevision;
  rs_mappings : list SymbolMappingRevision;
  rs_corporate_actions : list CorporateActionRevision;
  rs_calendar_days : list CalendarDayRevision;
  rs_halts : list HaltRevision;
  halt_coverage_complete : bool;
  rs_schema_version : pystr;
}.

Definition ReferenceSnapshot_post_init (s : ReferenceSnapshot) : res unit :=
  do! ref_when (negb (bool_decide (rs_schema_version s = REFERENCE_SCHEMA_VERSION)))
        UNSUPPORTED_SCHEMA "snapshot version is unsupported" in
  do! ref_when (negb (sha256_pattern (universe_source_sha256 s))
                || negb (sha256_pattern (source_report_sha256 s)))
        INVALID_INPUT "snapshot source hash is malformed" in
  do! positive_ns (as_of_ns s) in
  ref_when (bool_decide (length (rs_mappings s) = 0%nat)
            || bool_decide (length (rs_calendar_days s) = 0%nat))
    INVALID_INPUT "snapshot requires mappings and calendar coverage".

(** [_VersionedReference] with the identity that [_revision_identity] gives. *)
Class VersionedReference (T : Type) := {
  version : T -> Z;
  provenance : T -> ReferenceProvenance;
  revision_identity : T -> pystr;
}.
#[export] Instance instrument_versioned : VersionedReference InstrumentRevision :=
  {| version := in_version; provenance := in_provenance; revision_identity := revision_id |}.
#[export] Instance mapping_versioned : VersionedReference SymbolMappingRevision :=
  {| version := mp_version; provenance := mp_provenance; revision_identity := mapping_id |}.
#[export] Instance action_versioned : VersionedReference CorporateActionRevision :=
  {| version := ca_version; provenance := ca_provenance; revision_identity := action_id |}.
#[export] Instance calendar_versioned : VersionedReference CalendarDayRevision :=
  {| version := cd_version; provenance := cd_provenance;
     revision_identity := fun r => cd_calendar_id r ++ 58 :: isoformat (session_date r) |}.
#[export] Instance halt_versioned : VersionedReference HaltRevision :=
  {| version := hl_version; provenance := hl_provenance; revision_identity := halt_id |}.

(** ** The store *)

(** [index.setdefault(key(x), []).append(x)] for every record. *)
Definition index_by `{Countable K} {A} (key : A -> K) (l : list A) : gmap K (list A) :=
  foldl (fun m x => <[key x := default [] (m !! key x) ++ [x]]> m) ∅ l.

Record PointInTimeReferenceStore := {
  snapshot : ReferenceSnapshot;
  mappings_by_symbol : gmap pystr (list SymbolMappingRevision);
  instruments_by_id : gmap Identifier128 (list InstrumentRevision);
  actions_by_instrument : gmap Identifier128 (list CorporateActionRevision);
  calendar_by_date : gmap date (list CalendarDayRevision);
  halts_by_instrument : gmap Identifier128 (list HaltRevision);
}.

(** The record types that group identities. *)
Inductive record_type := T_instrument | T_mapping | T_action | T_calendar | T_halt.
#[export] Instance record_type_eq_dec : EqDecision record_type.
Proof. solve_decision. Defined.

Notation lineage_groups := (list ((record_type * pystr) * list (Z * Z))) (only parsing).

(** [groups.setdefault((type, identity), []).append((version, revision time))] *)
Definition group_records `{VersionedReference T} (t : record_type) (l : list T)
    (groups : lineage_groups) : lineage_groups :=
  foldl (fun g x =>
           let k := (t, revision_identity x) in
           od_set k (default [] (od_get k g) ++ [(version x, revision_at_ns (provenance x))]) g)
    groups l.

Definition check_group (versions : list (Z * Z)) : res unit :=
  let ordered := py_sorted (pair_leb Z.leb Z.leb) versions in
  do! ref_when (negb (bool_decide (map fst ordered = seqZ 1 (Z.of_nat (length ordered)))))
        CONFLICT "noncontiguous revisions" in
  ref_when (existsb (fun pc => pc.2.2 <=? pc.1.2) (pairwise ordered))
    CONFLICT "revision time does not increase".

Definition validate_lineage (s : ReferenceSnapshot) : res unit :=
  let groups :=
    group_records T_halt (rs_halts s)
      (group_records T_calendar (rs_calendar_days s)
         (group_records T_action (rs_corporate_actions s)
            (group_records T_mapping (rs_mappings s)
               (group_records T_instrument (rs_instruments s) [])))) in
  res_iter (fun kv => check_group kv.2) groups.

Definition indexed (s : ReferenceSnapshot) : PointInTimeReferenceStore :=
  {| snapshot := s;
     mappings_by_symbol := index_by mp_symbol (rs_mappings s);
     instruments_by_id := index_by in_instrument_id (rs_instruments s);
     actions_by_instrument := index_by ca_instrument_id (rs_corporate_actions s);
     calendar_by_date := index_by session_date (rs_calendar_days s);
     halts_by_instrument := index_by hl_instrument_id (rs_halts s) |}.

Definition new_reference_store (s : ReferenceSnapshot) : res PointInTimeReferenceStore :=
  do! validate_lineage s in Ok (indexed s).

(** [_known_latest] *)
Section known_latest.
Context `{VersionedReference T}.

Definition availability (x : T) : Z * Z := (available_at_ns (provenance x), version x).
Definition by_availability : list T -> list T :=
  py_sorted (leb_on availability (pair_leb Z.leb Z.leb)).

(** The dictionary of the latest known record of each identity. *)
Definition latest_known (known_at : Z) (l : list T) : list (pystr * T) :=
  foldl (fun m x => if available_at_ns (provenance x) <=? known_at
                    then od_set (revision_identity x) x m else m) [] (by_availability l).

Definition known_latest (l : list T) (known_at : Z) : res (list T) :=
  do! positive_ns known_at in
  let latest := latest_known known_at l in
  Ok (omap (fun k => od_get k latest) (py_sorted pystr_leb (map fst latest))).
End known_latest.

(** [max(candidates, key=...)]: the first greatest element. *)
Definition py_max {A} (leb : A -> A -> bool) (l : list A) : option A :=
  match l with
  | [] => None
  | x :: t => Some (foldl (fun best y => if leb y best then best else y) x t)
  end.

Definition instrument_hex (i : Identifier128) : pystr := id_hex i.

Definition symbol_mapping_at (st : PointInTimeReferenceStore) (symbol : pystr)
    (effective_at known_at : Z) : res (option SymbolMappingRevision) :=
  let! known := known_latest (default [] (mappings_by_symbol st !! symbol)) known_at in
  let candidates := List.filter (fun r => contains (mp_effective r) effective_at) known in
  let identities : gset pystr := list_to_set (map instrument_hex (omap mp_instrument_id candidates)) in
  do! ref_when ((1 <? Z.of_nat (length candidates)) && (1 <? Z.of_nat (size identities)))
        CONFLICT "overlapping symbol mappings disagree" in
  Ok (py_max (leb_on (fun r => (mp_version r, mapping_id r)) (pair_leb Z.leb pystr_leb)) candidates).

(** What must agree between effective revisions of one instrument. *)
Definition instrument_state (r : InstrumentRevision) :=
  (primary_symbol r, in_listing_venue r, security_type r, listing_date r, delisting_date r).

(** [len({f(x) for x in l}) == 1], for a non-empty list. *)
Definition all_same {A B} `{EqDecision B} (f : A -> B) (l : list A) : bool :=
  match l with
  | [] => false
  | x :: t => forallb (fun y => bool_decide (f y = f x)) t
  end.

Definition instrument_at (st : PointInTimeReferenceStore) (i : Identifier128)
    (effective_at known_at : Z) : res (option InstrumentRevision) :=
  let! known := known_latest (default [] (instruments_by_id st !! i)) known_at in
  let candidates := List.filter (fun r => contains (in_effective r) effective_at) known in
  if bool_decide (length candidates = 0%nat) then Ok None else
  do! ref_when (negb (all_same instrument_state candidates)) CONFLICT
        "instrument revisions conflict" in
  Ok (py_max (leb_on (fun r => (in_version r, revision_id r)) (pair_leb Z.leb pystr_leb)) candidates).

Definition corporate_actions_at (st : PointInTimeReferenceStore) (i : Identifier128)
    (effective_at known_at : Z) : res (list CorporateActionRevision) :=
  let! known := known_latest (default [] (actions_by_instrument st !! i)) known_at in
  Ok (py_sorted (leb_on (fun a => (effective_time_ns a, action_id a)) (pair_leb Z.leb pystr_leb))
        (List.filter (fun a => effective_time_ns a <=? effective_at) known)).

(** The loop over the known actions. *)
Fixpoint split_multiplier (after through : Z) (multiplier : ExactRatio)
    (l : list CorporateActionRevision) : res ExactRatio :=
  match l with
  | [] => Ok multiplier
  | a :: t =>
      match split_new_shares_per_old a with
      | Some ratio =>
          if bool_decide (kind a = SPLIT) && ((after <? effective_time_ns a)
                                              && (effective_time_ns a <=? through)) then
            let! inv := inverse ratio in
            let! m := multiply multiplier inv in
            split_multiplier after through m t
          else split_multiplier after through multiplier t
      | None => split_multiplier after through multiplier t
      end
  end.

Definition adjust_price_for_splits (st : PointInTimeReferenceStore) (price : Z) (i : Identifier128)
    (after through known_at : Z) (rounding : RoundingPolicy) : res Z :=
  do! ref_when (through <? after) INVALID_INPUT "adjustment interval is reversed" in
  let! one := new_ratio 1 1 in
  let! actions := corporate_actions_at st i through known_at in
  let! multiplier := split_multiplier after through one actions in
  apply multiplier price rounding.

Definition cash_dividends_at (st : PointInTimeReferenceStore) (i : Identifier128)
    (effective_at known_at : Z) : res (list CorporateActionRevision) :=
  let! actions := corporate_actions_at st i effective_at known_at in
  Ok (List.filter (fun a => bool_decide (kind a = CASH_DIVIDEND)) actions).

Definition halts_at (st : PointInTimeReferenceStore) (i : Identifier128)
    (start_time end_time known_at : Z) : res (list HaltRevision) :=
  do! ref_when (end_time <=? start_time) INVALID_INPUT "halt query interval is empty" in
  let! known := known_latest (default [] (halts_by_instrument st !! i)) known_at in
  Ok (py_sorted (leb_on (fun h => (start_exchange_time_ns h, halt_id h)) (pair_leb Z.leb pystr_leb))
        (List.filter (fun h => (start_exchange_time_ns h <? end_time)
                               && (start_time <? end_exchange_time_ns h)) known)).

Definition calendar_state (r : CalendarDayRevision) :=
  (cd_kind r, open_exchange_time_ns r, close_exchange_time_ns r).

Definition calendar_day_at (st : PointInTimeReferenceStore) (d : date) (known_at : Z)
    : res CalendarDayRevision :=
  let! candidates := known_latest (default [] (calendar_by_date st !! d)) known_at in
  if bool_decide (length candidates = 0%nat)
  then ref_error MISSING_CALENDAR "calendar date is unavailable" else
  do! ref_when (negb (all_same calendar_state candidates)) CONFLICT "calendar sources conflict" in
  match py_max (leb_on cd_version Z.leb) candidates with
  | Some r => Ok r
  | None => raise ValueError "max() arg is an empty sequence"
  end.

(** [_BoundReferenceResolver] *)
Definition resolution_of_status (s : MappingStatus) : InstrumentResolutionCode :=
  match s with
  | RESOLVED_CURRENT_ONLY => RESOLVED
  | MS_RECENTLY_LISTED => RECENTLY_LISTED
  | MS_DELISTED => DELISTED
  | UNSUPPORTED_VENUE => UNSUPPORTED
  | AMBIGUOUS => AMBIGUOUS_REFERENCE
  | MISSING_REFERENCE => MISSING_REFERENCE_DATA
  end.

Definition as_universe_resolver (st : PointInTimeReferenceStore) (effective_at known_at : Z)
    (symbol : pystr) : res InstrumentResolution :=
  let! mapping := symbol_mapping_at st symbol effective_at known_at in
  match mapping with
  | None => new_resolution MISSING_REFERENCE_DATA None
  | Some m =>
      let code := resolution_of_status (mp_status m) in
      new_resolution code (if bool_decide (code = RESOLVED) then mp_instrument_id m else None)
  end.

(** ** Ratios are exact *)

Definition ratio_ok (r : ExactRatio) : Prop := ExactRatio_post_init r = Ok tt.

Lemma ratio_ok_iff r :
  ratio_ok r <-> 0 < numerator r <= MAX_INT64 /\ 0 < denominator r <= MAX_INT64
                 /\ Z.gcd (numerator r) (denominator r) = 1.
Proof.
  unfold ratio_ok, ExactRatio_post_init, ref_when. split.
  - intros H. inv_ok. bprop. split_and!; lia.
  - intros (H1 & H2 & H3). by pass_guards.
Qed.

Lemma new_ratio_ok n d :
  0 < n <= MAX_INT64 -> 0 < d <= MAX_INT64 -> Z.gcd n d = 1 ->
  new_ratio n d = Ok {| numerator := n; denominator := d |}.
Proof.
  intros Hn Hd Hg. unfold new_ratio. rewrite (proj2 (ratio_ok_iff {| numerator := n; denominator := d |})); [done|].
  cbn. split_and!; (lia || done).
Qed.

Lemma inverse_ok r :
  ratio_ok r -> inverse r = Ok {| numerator := denominator r; denominator := numerator r |}.
Proof. intros (H1 & H2 & H3)%ratio_ok_iff. apply new_ratio_ok; [lia | lia |]. by rewrite Z.gcd_comm. Qed.

Lemma gcd_split a b :
  0 < a -> 0 < b -> exists g a' b', 0 < g /\ Z.gcd a b = g /\ a = a' * g /\ b = b' * g
    /\ 0 < a' /\ 0 < b' /\ Z.gcd a' b' = 1.
Proof.
  intros Ha Hb. set (g := Z.gcd a b).
  assert (Hg : 0 < g) by (pose proof (Z.gcd_nonneg a b); destruct (Z.eq_dec g 0) as [E|]; [apply Z.gcd_eq_0 in E|]; lia).
  destruct (Z.gcd_divide_l a b) as [a' Ea]. destruct (Z.gcd_divide_r a b) as [b' Eb]. fold g in Ea, Eb.
  exists g, a', b'. split_and!; try done; try nia.
  pose proof (Z.gcd_div_gcd a b g ltac:(lia) eq_refl) as H.
  rewrite Ea, Eb, !Z.div_mul in H by lia. exact H.
Qed.

Lemma gcd_factor a b g : Z.gcd (a * g) b = 1 -> Z.gcd a b = 1.
Proof.
  intros H. apply Z.gcd_unique; [lia | apply Z.divide_1_l | apply Z.divide_1_l |].
  intros q Ha Hb. rewrite <- H. apply Z.gcd_greatest; [by apply Z.divide_mul_l | done].
Qed.

Lemma gcd_mul_one a b c : Z.gcd a c = 1 -> Z.gcd b c = 1 -> Z.gcd (a * b) c = 1.
Proof.
  rewrite !Zgcd_1_rel_prime. intros Ha Hb. apply rel_prime_sym, rel_prime_mult; by apply rel_prime_sym.
Qed.

(** Cross-cancelled factors are the reduced product. *)
Lemma cross_cancel a b c d :
  0 < a -> 0 < b -> 0 < c -> 0 < d -> Z.gcd a b = 1 -> Z.gcd c d = 1 ->
  let n := (a / Z.gcd a d) * (c / Z.gcd c b) in
  let m := (b / Z.gcd c b) * (d / Z.gcd a d) in
  (0 < a / Z.gcd a d /\ 0 < c / Z.gcd c b /\ 0 < b / Z.gcd c b /\ 0 < d / Z.gcd a d)
  /\ Z.gcd n m = 1 /\ 0 < n /\ 0 < m /\ Z.gcd (a * c) (b * d) * n = a * c
  /\ Z.gcd (a * c) (b * d) * m = b * d.
Proof.
  intros Ha Hb Hc Hd Hab Hcd.
  destruct (gcd_split a d Ha Hd) as (g & a' & d' & Hg & Eg & -> & -> & Ha' & Hd' & Had).
  destruct (gcd_split c b Hc Hb) as (h & c' & b' & Hh & Eh & -> & -> & Hc' & Hb' & Hcb).
  cbv zeta. rewrite Eg, Eh, !Z.div_mul by lia.
  assert (Hab' : Z.gcd a' b' = 1).
  { apply gcd_factor in Hab. rewrite Z.gcd_comm in Hab. apply gcd_factor in Hab. by rewrite Z.gcd_comm. }
  assert (Hcd' : Z.gcd c' d' = 1).
  { apply gcd_factor in Hcd. rewrite Z.gcd_comm in Hcd. apply gcd_factor in Hcd. by rewrite Z.gcd_comm. }
  assert (Hone : Z.gcd (a' * c') (b' * d') = 1).
  { apply gcd_mul_one; rewrite Z.gcd_comm; apply gcd_mul_one; by rewrite Z.gcd_comm. }
  replace (a' * g * (c' * h)) with (a' * c' * (g * h)) by lia.
  replace (b' * h * (d' * g)) with (b' * d' * (g * h)) by lia.
  rewrite Z.gcd_mul_mono_r, Hone, Z.abs_eq by nia. split_and!; try done; nia.
Qed.

(** The reduced product of two ratios. *)
Definition product_ratio (r s : ExactRatio) : ExactRatio :=
  let n := numerator r * numerator s in
  let d := denominator r * denominator s in
  {| numerator := n / Z.gcd n d; denominator := d / Z.gcd n d |}.

Definition fits (r : ExactRatio) : bool := (numerator r <=? MAX_INT64) && (denominator r <=? MAX_INT64).

Definition overflow {A} : res A := ref_error INTEGER_OVERFLOW "signed int64 multiplication overflow".

Lemma checked_mul_pos a b : 0 < a -> 0 < b ->
  checked_mul a b = if a * b <=? MAX_INT64 then Ok (a * b) else overflow.
Proof.
  intros Ha Hb. unfold checked_mul, overflow, ref_when, ref_error. cbv zeta.
  assert (0 < a * b) by nia. unfold MAX_INT64 in *. destruct (a * b <=? _) eqn:E.
  - by rewrite raise_when_false by lia.
  - assert ((- (2 ^ 63 - 1) <=? a * b) = true) as -> by lia. done.
Qed.

Lemma multiply_exact r s :
  ratio_ok r -> ratio_ok s ->
  multiply r s = (if fits (product_ratio r s) then Ok (product_ratio r s) else overflow)
  /\ (fits (product_ratio r s) = true -> ratio_ok (product_ratio r s))
  /\ numerator (product_ratio r s) * (denominator r * denominator s)
     = denominator (product_ratio r s) * (numerator r * numerator s).
Proof.
  intros (Hr1 & Hr2 & Hr3)%ratio_ok_iff (Hs1 & Hs2 & Hs3)%ratio_ok_iff.
  destruct r as [a b], s as [c d]. cbn [numerator denominator] in *.
  destruct (cross_cancel a b c d) as ((Hp1 & Hp2 & Hp3 & Hp4) & Hg & Hn & Hm & En & Em); try lia; try done.
  set (g := Z.gcd (a * c) (b * d)) in *. set (n := a / _ * _) in *. set (m := b / _ * _) in *.
  assert (0 < g) by nia.
  assert (Hp : product_ratio {| numerator := a; denominator := b |} {| numerator := c; denominator := d |}
               = {| numerator := n; denominator := m |}).
  { unfold product_ratio. cbn [numerator denominator]. fold g. rewrite <- En, <- Em.
    by rewrite !(Z.mul_comm g), !Z.div_mul by lia. }
  rewrite Hp. unfold fits. cbn [numerator denominator]. split_and!.
  - unfold multiply. cbn [numerator denominator].
    rewrite !checked_mul_pos by done.
    fold n m. destruct (n <=? MAX_INT64) eqn:E1; [|done]. cbn [rbind andb].
    destruct (m <=? MAX_INT64) eqn:E2; [|done]. cbn [rbind]. unfold reduced, ref_when.
    rewrite raise_when_false by lia. cbn [rbind]. cbv zeta. rewrite Hg, !Z.div_1_r.
    apply new_ratio_ok; [lia | lia | done].
  - intros Hf. bprop. apply ratio_ok_iff. cbn. split_and!; try lia; done.
  - nia.
Qed.

(** What each rounding policy promises about [q] for the quotient [n / d]. *)
Definition rounded (policy : RoundingPolicy) (n d q : Z) : Prop :=
  match policy with
  | REJECT_INEXACT => q * d = n
  | FLOOR => q * d <= n < (q + 1) * d
  | HALF_EVEN => 2 * Z.abs (n - q * d) <= d /\ (2 * Z.abs (n - q * d) = d -> q mod 2 = 0)
  end.

Lemma half_even_round n d :
  0 < d -> n mod d <> 0 ->
  rounded HALF_EVEN n d
    (if (d <? n mod d * 2) || ((n mod d * 2 =? d) && (n / d mod 2 =? 1)) then n / d + 1 else n / d).
Proof.
  intros Hd Hr. pose proof (Z.div_mod n d ltac:(lia)) as E. pose proof (Z.mod_pos_bound n d Hd) as Hb.
  set (q := n / d) in *. set (r := n mod d) in *. cbn [rounded].
  destruct ((d <? r * 2) || _) eqn:Eb.
  - replace (n - (q + 1) * d) with (r - d) by lia. rewrite Z.abs_neq by lia. split; [lia|]. intros Hh.
    assert ((d <? r * 2) = false) as Hf by lia. rewrite Hf in Eb. cbn [orb] in Eb. bprop.
    rewrite Z.add_mod by lia. assert (q mod 2 = 1) as -> by lia. done.
  - apply orb_false_split in Eb as [E1 E2]. replace (n - q * d) with r by lia.
    rewrite Z.abs_eq by lia. split; [lia|]. intros Hh.
    assert ((r * 2 =? d) = true) as Ht by lia. rewrite Ht in E2. cbn [andb] in E2.
    pose proof (Z.mod_pos_bound q 2). lia.
Qed.

(** [apply] succeeds exactly when the product fits and, if inexact results are
    rejected, the quotient is exact; then it is rounded as the policy says. *)
Lemma apply_exact r value policy :
  ratio_ok r -> 0 <= value <= MAX_INT64 ->
  match apply r value policy with
  | Ok q => value * numerator r <= MAX_INT64 /\ 0 <= q
            /\ rounded policy (value * numerator r) (denominator r) q
  | Err e =>
      (exn_cls e = ReferenceDataError INTEGER_OVERFLOW /\ MAX_INT64 < value * numerator r)
      \/ (exn_cls e = ReferenceDataError INEXACT_ARITHMETIC /\ policy = REJECT_INEXACT
          /\ value * numerator r <= MAX_INT64 /\ (value * numerator r) mod denominator r <> 0)
  end.
Proof.
  intros (Hn & Hd & _)%ratio_ok_iff Hv. unfold apply, checked_mul, ref_when. cbv zeta.
  rewrite raise_when_false by lia. cbn [rbind]. set (p := value * numerator r).
  assert (0 <= p) by nia. set (d := denominator r) in *.
  destruct (p <=? MAX_INT64) eqn:Ep.
  2:{ assert ((- MAX_INT64 <=? p) = true) as -> by (unfold MAX_INT64 in *; lia). cbn. left. split; [done | lia]. }
  rewrite raise_when_false by (unfold MAX_INT64 in *; lia). cbn [rbind].
  assert (0 <= p / d) by (apply Z.div_pos; lia).
  pose proof (Z.div_mod p d ltac:(lia)) as E. pose proof (Z.mod_pos_bound p d ltac:(lia)) as Hb.
  destruct (p mod d =? 0) eqn:Em.
  - split; [lia|]. split; [lia|]. destruct policy; cbn [rounded]; [lia | lia |].
    replace (p - p / d * d) with 0 by lia. cbn. lia.
  - destruct policy; cbn.
    + right. split_and!; [done | done | lia | lia].
    + split_and!; lia.
    + pose proof (half_even_round p d ltac:(lia) ltac:(lia)) as Hh.
      destruct ((d <? p mod d * 2) || _); split_and!; try lia; apply Hh.
Qed.

(** ** Split adjustment *)

(** The ratios of the splits in [(after, through]]. *)
Definition split_ratios (after through : Z) (l : list CorporateActionRevision) : list ExactRatio :=
  omap (fun a => if bool_decide (kind a = SPLIT) && ((after <? effective_time_ns a)
                                                     && (effective_time_ns a <=? through))
                 then split_new_shares_per_old a else None) l.

Definition product_of (f : ExactRatio -> Z) (l : list ExactRatio) : Z :=
  foldr (fun r acc => f r * acc) 1 l.

Lemma product_of_cons f r l : product_of f (r :: l) = f r * product_of f l.
Proof. done. Qed.

Lemma split_ratios_cons after through a l :
  split_ratios after through (a :: l)
  = match (if bool_decide (kind a = SPLIT) && ((after <? effective_time_ns a)
                                               && (effective_time_ns a <=? through))
           then split_new_shares_per_old a else None) with
    | Some r => r :: split_ratios after through l
    | None => split_ratios after through l
    end.
Proof. done. Qed.

(** A fraction in lowest terms. *)
Definition lowest (n d : Z) : ExactRatio :=
  {| numerator := n / Z.gcd n d; denominator := d / Z.gcd n d |}.

Lemma lowest_pos n d :
  0 < n -> 0 < d ->
  exists g, 0 < g /\ n = numerator (lowest n d) * g /\ d = denominator (lowest n d) * g
            /\ 0 < numerator (lowest n d) /\ 0 < denominator (lowest n d).
Proof.
  intros Hn Hd. destruct (gcd_split n d Hn Hd) as (g & a & b & Hg & Eg & En & Ed & Ha & Hb & _).
  exists g. unfold lowest. cbn [numerator denominator]. rewrite Eg.
  rewrite En, Ed, !Z.div_mul by lia. by split_and!.
Qed.

Lemma lowest_scale g n d : 0 < g -> 0 < n -> 0 < d -> lowest (n * g) (d * g) = lowest n d.
Proof.
  intros Hg Hn Hd. unfold lowest. rewrite Z.gcd_mul_mono_r, Z.abs_eq by lia.
  assert (0 < Z.gcd n d) by (pose proof (Z.gcd_nonneg n d); pose proof (Z.gcd_eq_0_l n d); lia).
  by rewrite !Z.div_mul_cancel_r by lia.
Qed.

Lemma product_ratio_lowest n d r :
  0 < n -> 0 < d -> ratio_ok r ->
  product_ratio (lowest n d) r = lowest (n * numerator r) (d * denominator r).
Proof.
  intros Hn Hd (Hr1 & Hr2 & _)%ratio_ok_iff.
  destruct (lowest_pos n d Hn Hd) as (g & Hg & En & Ed & Ha & Hb).
  change (product_ratio (lowest n d) r)
    with (lowest (numerator (lowest n d) * numerator r) (denominator (lowest n d) * denominator r)).
  set (a := numerator (lowest n d)) in *. set (b := denominator (lowest n d)) in *.
  rewrite En, Ed. replace (a * g * numerator r) with (a * numerator r * g) by ring.
  replace (b * g * denominator r) with (b * denominator r * g) by ring.
  rewrite lowest_scale; [done | lia | nia | nia].
Qed.

(** The multiplier after the first [k] splits. *)
Definition running (n d : Z) (rs : list ExactRatio) (k : nat) : ExactRatio :=
  lowest (n * product_of denominator (take k rs)) (d * product_of numerator (take k rs)).

Lemma running_cons n d r rs k :
  running n d (r :: rs) (S k) = running (n * denominator r) (d * numerator r) rs k.
Proof. unfold running. cbn [take]. rewrite !product_of_cons. f_equal; ring. Qed.

(** The loop computes the running products in lowest terms and fails exactly at one
    whose terms do not fit. *)
Lemma split_multiplier_exact after through n d l :
  0 < n -> 0 < d -> ratio_ok (lowest n d) -> Forall ratio_ok (split_ratios after through l) ->
  let rs := split_ratios after through l in
  match split_multiplier after through (lowest n d) l with
  | Ok m => m = running n d rs (length rs) /\ ratio_ok m /\ forall k, fits (running n d rs k) = true
  | Err e => exn_cls e = ReferenceDataError INTEGER_OVERFLOW /\ exists k, fits (running n d rs k) = false
  end.
Proof.
  revert n d. induction l as [|a l IH]; intros n d Hn Hd Hm Hl rs.
  - subst rs. cbn. unfold running. cbn [split_ratios omap list_omap]. split_and!; [by rewrite !Z.mul_1_r | done |].
    intros k. rewrite take_nil. cbn. rewrite !Z.mul_1_r.
    apply ratio_ok_iff in Hm as (H1 & H2 & _). unfold fits. lia.
  - subst rs. rewrite split_ratios_cons in *. cbn [split_multiplier].
    destruct (split_new_shares_per_old a) as [r|]; [|by destruct (_ && _); apply IH].
    destruct (_ && _); [|by apply IH]. apply Forall_cons in Hl as [Hr Hl].
    rewrite (inverse_ok r Hr). cbn [rbind].
    set (inv := {| numerator := denominator r; denominator := numerator r |}).
    assert (Hinv : ratio_ok inv).
    { apply ratio_ok_iff in Hr as (H1 & H2 & H3). apply ratio_ok_iff. cbn. rewrite Z.gcd_comm. done. }
    destruct (multiply_exact (lowest n d) inv Hm Hinv) as (-> & Hok & _).
    rewrite (product_ratio_lowest n d inv Hn Hd Hinv) in *. cbn [inv numerator denominator] in *.
    apply ratio_ok_iff in Hr as (Hr1 & Hr2 & _).
    destruct (fits (lowest _ _)) eqn:Ef; cbn [rbind].
    2:{ split; [done|]. exists 1%nat. rewrite running_cons. unfold running. cbn. by rewrite !Z.mul_1_r. }
    specialize (IH (n * denominator r) (d * numerator r) ltac:(nia) ltac:(nia) (Hok eq_refl) Hl). cbv zeta in IH.
    cbn [length]. rewrite running_cons.
    destruct (split_multiplier after through _ l) as [m|e].
    + destruct IH as (-> & Hm' & Hfit). split; [done|]. split; [done|]. intros [|k]; [|by rewrite running_cons].
      unfold running. cbn. rewrite !Z.mul_1_r. apply ratio_ok_iff in Hm as (H1 & H2 & _). unfold fits. lia.
    + destruct IH as (He & k & Hk). split; [done|]. exists (S k). by rewrite running_cons.
Qed.

(** Adjusting [price] by the splits [rs] stays within 64 bits: every running product
    does in lowest terms, and so does the price times the last numerator. *)
Definition adjustment_fits (price : Z) (rs : list ExactRatio) : Prop :=
  (forall k, fits (running 1 1 rs k) = true) /\ price * numerator (running 1 1 rs (length rs)) <= MAX_INT64.

(** ** Indexes are filters *)

Lemma index_by_lookup `{Countable K} {A} (key : A -> K) l k :
  default [] (index_by key l !! k) = List.filter (fun x => bool_decide (key x = k)) l.
Proof.
  unfold index_by. induction l as [|x l IH] using rev_ind; [by cbn; rewrite lookup_empty|].
  rewrite foldl_snoc, List.filter_app. cbn [List.filter]. case_bool_decide as E.
  - subst k. rewrite lookup_insert_eq. cbn. by rewrite IH.
  - by rewrite lookup_insert_ne, app_nil_r.
Qed.

(** ** Sorting commutes with filtering *)

Lemma insert_by_front {A} (leb : A -> A -> bool) x l :
  Forall (fun y => leb x y = true) l -> insert_by leb x l = x :: l.
Proof. destruct 1 as [|y l Hy _]; [done|]. cbn. by rewrite Hy. Qed.

Lemma filter_insert_by {A} (leb : A -> A -> bool) `{!PreorderB leb} (f : A -> bool) x l :
  StronglySorted (fun a b => leb a b = true) l ->
  List.filter f (insert_by leb x l)
  = if f x then insert_by leb x (List.filter f l) else List.filter f l.
Proof.
  induction 1 as [|y l _ IH Hy]; cbn; [done|]. destruct (leb x y) eqn:E.
  - cbn. destruct (f x); [|done]. destruct (f y); cbn; [by rewrite E|].
    symmetry. apply insert_by_front, Forall_forall. intros z [Hz _]%elem_of_filter_b.
    rewrite Forall_forall in Hy. by eapply preb_trans, Hy.
  - cbn. rewrite IH. destruct (f x), (f y); cbn; by rewrite ?E.
Qed.

Lemma py_sorted_filter {A} (leb : A -> A -> bool) `{!PreorderB leb} (f : A -> bool) l :
  List.filter f (py_sorted leb l) = py_sorted leb (List.filter f l).
Proof.
  induction l as [|x l IH]; [done|]. cbn [py_sorted foldr]. 
  change (foldr (insert_by leb) [] l) with (py_sorted leb l).
  rewrite (filter_insert_by leb) by apply (py_sorted_sorted leb). rewrite IH. cbn. by destruct (f x).
Qed.

(** ** The latest known revisions *)

Section latest.
Context `{HT : VersionedReference T}.

Definition known_at (t : Z) (x : T) : bool := available_at_ns (provenance x) <=? t.

Definition keep_latest (l : list T) : list (pystr * T) :=
  foldl (fun m x => od_set (revision_identity x) x m) [] l.

Lemma latest_known_filter t l :
  latest_known t l = keep_latest (by_availability (List.filter (known_at t) l)).
Proof.
  unfold latest_known, by_availability. rewrite <- py_sorted_filter by exact _. unfold keep_latest.
  generalize (@nil (pystr * T)). induction (py_sorted _ l) as [|x k IH]; intros m; [done|].
  cbn. unfold known_at at 1. destruct (available_at_ns (provenance x) <=? t); apply IH.
Qed.

(** Only what is known at the cutoff matters. *)
Lemma known_latest_ext t l l' :
  List.filter (known_at t) l = List.filter (known_at t) l' -> known_latest l t = known_latest l' t.
Proof. intros H. unfold known_latest. by rewrite !latest_known_filter, H. Qed.

Lemma keep_latest_get k l :
  od_get k (keep_latest l) = last (List.filter (fun x => bool_decide (revision_identity x = k)) l).
Proof.
  unfold keep_latest. induction l as [|x l IH] using rev_ind; [done|].
  rewrite foldl_snoc, od_get_set, last_filter_app, IH.
  destruct (decide (revision_identity x = k)) as [<-|E].
  - by rewrite !bool_decide_eq_true_2.
  - by rewrite !bool_decide_eq_false_2.
Qed.

Lemma keep_latest_nodup l : NoDup (map fst (keep_latest l)).
Proof.
  unfold keep_latest. induction l as [|x l IH] using rev_ind; [constructor|].
  rewrite foldl_snoc, od_set_keys. case_bool_decide; [done|]. apply NoDup_app.
  split; [done|]. split; [set_solver | apply NoDup_singleton].
Qed.

(** [x] is the last of the records known at [t] with its identity. *)
Definition is_latest (t : Z) (l : list T) (x : T) : Prop :=
  x ∈ l /\ known_at t x = true /\
  forall y, y ∈ l -> known_at t y = true -> revision_identity y = revision_identity x ->
            pair_leb Z.leb Z.leb (availability y) (availability x) = true.

(** Versions tell the revisions of one identity apart. *)
Definition versions_unique (l : list T) : Prop :=
  forall x y, x ∈ l -> y ∈ l -> revision_identity x = revision_identity y ->
              version x = version y -> x = y.

Lemma known_latest_keys t l r :
  known_latest l t = Ok r ->
  0 < t <= MAX_INT64 /\
  map revision_identity r = py_sorted pystr_leb (map fst (latest_known t l)).
Proof.
  unfold known_latest, positive_ns, ref_when. intros (u & Hp & [= <-])%rbind_ok.
  apply raise_when_ok in Hp. bprop. split; [lia|]. rewrite latest_known_filter.
  set (L := by_availability _).
  assert (Hk : forall k, k ∈ py_sorted pystr_leb (map fst (keep_latest L)) ->
            exists x, od_get k (keep_latest L) = Some x /\ revision_identity x = k).
  { intros k Hk. apply elem_of_py_sorted in Hk. destruct (od_get k (keep_latest L)) as [x|] eqn:E.
    - exists x. split; [done|]. rewrite keep_latest_get in E. apply last_filter_Some in E as (_ & _ & E & _).
      by apply bool_decide_eq_true in E.
    - apply od_get_none in E. done. }
  induction (py_sorted pystr_leb (map fst (keep_latest L))) as [|k ks IH]; [done|]. cbn.
  destruct (Hk k ltac:(left)) as (x & -> & Hx). cbn. rewrite Hx. f_equal. apply IH. intros k' Hk'.
  apply Hk. by right.
Qed.

Lemma known_latest_exact t l r :
  versions_unique l -> known_latest l t = Ok r ->
  forall x, x ∈ r <-> is_latest t l x.
Proof.
  intros Hu H x. unfold known_latest in H. apply rbind_ok in H as (u & _ & [= <-]).
  rewrite latest_known_filter. set (L := by_availability _). rewrite list_elem_of_omap.
  assert (HL : forall y, y ∈ L <-> y ∈ l /\ known_at t y = true).
  { intros y. unfold L, by_availability. rewrite py_sorted_perm. apply elem_of_filter_b. }
  assert (Hs : StronglySorted (fun a b => leb_on availability (pair_leb Z.leb Z.leb) a b = true) L)
    by apply (py_sorted_sorted _).
  split.
  - intros (k & Hk & E). rewrite keep_latest_get in E. apply last_filter_Some in E as (i & Hi & Hx & Hlast).
    apply bool_decide_eq_true in Hx. subst k.
    assert (Hin : x ∈ L) by (by eapply list_elem_of_lookup_2). apply HL in Hin as [Hxl Hxk].
    split; [done|]. split; [done|]. intros y Hyl Hyk Hid.
    assert (y ∈ L) as [j Hj]%list_elem_of_lookup_1 by (by apply HL).
    destruct (Nat.lt_trichotomy i j) as [Hij|[<-|Hij]].
    + specialize (Hlast j y Hij Hj). by apply bool_decide_eq_false in Hlast.
    + assert (x = y) as -> by congruence. apply (preb_refl (pair_leb Z.leb Z.leb)).
    + apply (strongly_sorted_nth _ _ _ _ _ _ Hs Hij Hj Hi).
  - intros (Hxl & Hxk & Hmax). exists (revision_identity x).
    assert (Hin : x ∈ L) by (by apply HL).
    assert (Hg : od_get (revision_identity x) (keep_latest L) = Some x).
    { rewrite keep_latest_get. destruct (last _) as [y|] eqn:E.
      - f_equal. apply last_filter_Some in E as (i & Hi & Hy & Hlast). apply bool_decide_eq_true in Hy.
        assert (HyL : y ∈ L) by (by eapply list_elem_of_lookup_2). apply HL in HyL as [Hyl Hyk].
        specialize (Hmax y Hyl Hyk Hy). apply list_elem_of_lookup_1 in Hin as [j Hj].
        assert (Hle : pair_leb Z.leb Z.leb (availability x) (availability y) = true).
        { destruct (Nat.lt_trichotomy i j) as [Hij|[<-|Hij]].
          - specialize (Hlast j x Hij Hj). by apply bool_decide_eq_false in Hlast.
          - assert (x = y) as -> by congruence. apply (preb_refl (pair_leb Z.leb Z.leb)).
          - apply (strongly_sorted_nth _ _ _ _ _ _ Hs Hij Hj Hi). }
        pose proof (ordb_anti (leb := pair_leb Z.leb Z.leb) _ _ Hle Hmax) as Heq. symmetry.
        apply Hu; [done | done | done |]. by injection Heq.
      - apply last_None in E. exfalso. assert (x ∈ []) as []%not_elem_of_nil. rewrite <- E.
        apply elem_of_filter_b. split; [done|]. by apply bool_decide_eq_true. }
    split; [|done]. apply elem_of_py_sorted. destruct (decide (revision_identity x ∈ map fst (keep_latest L))) as [|Hn]; [done|].
    apply od_get_none in Hn. congruence.
Qed.

Lemma known_latest_sorted t l r :
  known_latest l t = Ok r ->
  StronglySorted (fun a b => pystr_leb a b = true) (map revision_identity r)
  /\ NoDup (map revision_identity r).
Proof.
  intros H. apply known_latest_keys in H as [_ ->]. split; [apply (py_sorted_sorted _)|].
  rewrite py_sorted_perm, latest_known_filter. apply keep_latest_nodup.
Qed.
End latest.

(** ** Lineage *)

Lemma pairwise_map {A B} (f : A -> B) l :
  pairwise (map f l) = map (fun p => (f p.1, f p.2)) (pairwise l).
Proof.
  induction l as [|x [|y l] IH]; [done | done |].
  change (pairwise (x :: y :: l)) with ((x, y) :: pairwise (y :: l)). cbn [map fst snd] in *.
  by rewrite <- IH.
Qed.

Lemma existsb_map {A B} (f : A -> B) (g : B -> bool) l :
  existsb g (map f l) = existsb (fun x => g (f x)) l.
Proof. induction l as [|x l IH]; [done|]. cbn. by rewrite IH. Qed.

(** The revisions of one identity are numbered from one and move forward in time. *)
Definition lineage_ok (versions : list (Z * Z)) : Prop :=
  exists times, StronglySorted Z.lt times /\ versions ≡ₚ zip (seqZ 1 (Z.of_nat (length times))) times.

Lemma numbered_sorted m times :
  StronglySorted (fun a b => pair_leb Z.leb Z.leb a b = true) (zip (seqZ m (Z.of_nat (length times))) times).
Proof.
  apply strongly_sorted_lookup. intros i j [a x] [b y] Hij Hx Hy.
  apply lookup_zip_Some in Hx as [Hx%lookup_seqZ _], Hy as [Hy%lookup_seqZ _].
  unfold pair_leb. cbn. lia.
Qed.

Lemma check_group_ok versions : check_group versions = Ok tt <-> lineage_ok versions.
Proof.
  unfold check_group, ref_when. cbv zeta. set (o := py_sorted _ versions).
  assert (Hp : o ≡ₚ versions) by apply py_sorted_perm. split.
  - intros (? & H1 & H2)%rbind_ok. apply raise_when_ok in H1. apply raise_when_ok in H2. bprop.
    exists (map snd o). rewrite length_map. split.
    + apply pairwise_increasing. rewrite pairwise_map, existsb_map. exact H2.
    + rewrite <- Hp, <- H1. by rewrite zip_fst_snd.
  - intros (times & Hs & Hv).
    assert (Ho : zip (seqZ 1 (Z.of_nat (length times))) times = o).
    { apply (py_sorted_unique (pair_leb Z.leb Z.leb)); [|apply numbered_sorted | by symmetry].
      intros x y _ _. apply ordb_anti. }
    assert (Hl : length (seqZ 1 (Z.of_nat (length times))) = length times) by (rewrite length_seqZ; lia).
    rewrite <- Ho. rewrite fst_zip by lia. rewrite length_zip_with_l_eq by done. rewrite Hl.
    rewrite bool_decide_eq_true_2 by done. cbn [negb raise_when rbind].
    rewrite raise_when_false; [done|]. apply pairwise_increasing in Hs.
    rewrite <- (snd_zip (seqZ 1 (Z.of_nat (length times))) times) in Hs by lia.
    rewrite pairwise_map, existsb_map in Hs. exact Hs.
Qed.

(** The numbers and times of the records with one identity. *)
Definition lineage_of `{VersionedReference T} (k : pystr) (l : list T) : list (Z * Z) :=
  map (fun x => (version x, revision_at_ns (provenance x)))
    (List.filter (fun x => bool_decide (revision_identity x = k)) l).

Lemma group_records_get `{VersionedReference T} t (l : list T) g key :
  default [] (od_get key (group_records t l g))
  = default [] (od_get key g) ++ (if bool_decide (key.1 = t) then lineage_of key.2 l else []).
Proof.
  unfold group_records, lineage_of. induction l as [|x l IH] using rev_ind.
  - cbn. by destruct (bool_decide _); rewrite app_nil_r.
  - rewrite foldl_snoc, od_get_set. cbv zeta. destruct key as [t' k]. cbn [fst snd] in *.
    rewrite List.filter_app, map_app. cbn [List.filter].
    destruct (decide (t' = t)) as [->|Ht]; [destruct (decide (revision_identity x = k)) as [<-|Hk]|].
    + rewrite !(bool_decide_eq_true_2 _) by done. cbn. rewrite IH. rewrite bool_decide_eq_true_2 by done.
      by rewrite app_assoc.
    + rewrite (bool_decide_eq_false_2 ((t, k) = _)) by congruence. rewrite IH.
      rewrite (bool_decide_eq_false_2 (revision_identity x = k)) by done. cbn. by rewrite app_nil_r.
    + rewrite (bool_decide_eq_false_2 ((t', k) = _)) by congruence. rewrite IH.
      by rewrite (bool_decide_eq_false_2 (t' = t)).
Qed.

Lemma group_records_nodup `{VersionedReference T} t (l : list T) g :
  NoDup (map fst g) -> NoDup (map fst (group_records t l g)).
Proof.
  intros Hg. unfold group_records. induction l as [|x l IH] using rev_ind; [done|].
  rewrite foldl_snoc, od_set_keys. case_bool_decide; [done|]. apply NoDup_app.
  split; [done|]. split; [set_solver | apply NoDup_singleton].
Qed.

Lemma check_groups (g : lineage_groups) :
  NoDup (map fst g) ->
  res_iter (fun kv => check_group kv.2) g = Ok tt
  <-> forall key, lineage_ok (default [] (od_get key g)).
Proof.
  intros Hnd. rewrite res_iter_ok, Forall_forall. split.
  - intros H key. destruct (od_get key g) as [v|] eqn:E; cbn.
    + apply check_group_ok. by apply od_get_elem, H in E.
    + exists []. split; [constructor | done].
  - intros H [key v] Hin. apply check_group_ok. specialize (H key).
    by rewrite (od_get_in key v g Hnd Hin) in H.
Qed.

(** Every identity of every record type has a lineage. *)
Definition snapshot_lineage (s : ReferenceSnapshot) : Prop :=
  forall k, lineage_ok (lineage_of k (rs_instruments s)) /\ lineage_ok (lineage_of k (rs_mappings s))
    /\ lineage_ok (lineage_of k (rs_corporate_actions s))
    /\ lineage_ok (lineage_of k (rs_calendar_days s)) /\ lineage_ok (lineage_of k (rs_halts s)).

Lemma validate_lineage_ok s : validate_lineage s = Ok tt <-> snapshot_lineage s.
Proof.
  unfold validate_lineage. cbv zeta. rewrite check_groups by (repeat apply group_records_nodup; constructor).
  unfold snapshot_lineage. split.
  - intros H k. pose proof (H (T_instrument, k)) as H1. pose proof (H (T_mapping, k)) as H2.
    pose proof (H (T_action, k)) as H3. pose proof (H (T_calendar, k)) as H4. pose proof (H (T_halt, k)) as H5.
    rewrite !group_records_get in *. cbn in *. by rewrite !app_nil_r in *.
  - intros H [t k]. destruct (H k) as (H1 & H2 & H3 & H4 & H5). rewrite !group_records_get. cbn.
    destruct t; cbn; by rewrite ?app_nil_r.
Qed.

Lemma validate_lineage_err s e : validate_lineage s = Err e -> exn_cls e = ReferenceDataError CONFLICT.
Proof.
  intros H. assert (Hr : raises_only (ReferenceDataError CONFLICT) (validate_lineage s)).
  { unfold validate_lineage, check_group, ref_when. cbv zeta. apply raises_only_iter. intros x.
    apply raises_only_bind; [apply raises_only_when | intros _; apply raises_only_when]. }
  by apply Hr.
Qed.

Lemma versions_distinct (l : list (Z * Z)) : lineage_ok l -> NoDup (map fst l).
Proof.
  intros (times & _ & ->). rewrite fst_zip by (rewrite length_seqZ; lia). apply NoDup_seqZ.
Qed.

Lemma lineage_versions_unique `{VersionedReference T} (l : list T) :
  (forall k, lineage_ok (lineage_of k l)) -> versions_unique l.
Proof.
  intros Hl x y Hx Hy Hid Hv. specialize (Hl (revision_identity x)).
  apply versions_distinct in Hl. unfold lineage_of in Hl. rewrite map_map in Hl. cbn in Hl.
  eapply (NoDup_map_inj version); [exact Hl| | |done]; apply elem_of_filter_b; split; try done;
    apply bool_decide_eq_true; done.
Qed.

(** ** Knowledge at a cutoff *)

Lemma filter_comm {A} (f g : A -> bool) l :
  List.filter f (List.filter g l) = List.filter g (List.filter f l).
Proof.
  induction l as [|x l IH]; [done|]. cbn. destruct (g x) eqn:Eg, (f x) eqn:Ef; cbn; rewrite ?Eg, ?Ef, IH; done.
Qed.

Lemma known_at_mono `{VersionedReference T} t u (l : list T) :
  t <= u -> List.filter (known_at t) (List.filter (known_at u) l) = List.filter (known_at t) l.
Proof.
  intros Hle. induction l as [|x l IH]; [done|]. cbn. destruct (known_at u x) eqn:Eu; cbn; rewrite IH; [done|].
  unfold known_at in *. by destruct (available_at_ns (provenance x) <=? t) eqn:Et; [lia|].
Qed.

(** Two snapshots hold the same records among those available by [t]. *)
Definition same_knowledge (t : Z) (s s' : ReferenceSnapshot) : Prop :=
  List.filter (known_at t) (rs_instruments s) = List.filter (known_at t) (rs_instruments s')
  /\ List.filter (known_at t) (rs_mappings s) = List.filter (known_at t) (rs_mappings s')
  /\ List.filter (known_at t) (rs_corporate_actions s) = List.filter (known_at t) (rs_corporate_actions s')
  /\ List.filter (known_at t) (rs_calendar_days s) = List.filter (known_at t) (rs_calendar_days s')
  /\ List.filter (known_at t) (rs_halts s) = List.filter (known_at t) (rs_halts s').

Lemma known_index `{HT : VersionedReference T} `{Countable K} (key : T -> K) k t u l l' :
  t <= u -> List.filter (known_at u) l = List.filter (known_at u) l' ->
  known_latest (default [] (index_by key l !! k)) t = known_latest (default [] (index_by key l' !! k)) t.
Proof.
  intros Hle Hk. apply known_latest_ext. rewrite !index_by_lookup, !(filter_comm (known_at t)).
  by rewrite <- (known_at_mono t u l Hle), <- (known_at_mono t u l' Hle), Hk.
Qed.

Lemma store_indexes s st :
  new_reference_store s = Ok st ->
  mappings_by_symbol st = index_by mp_symbol (rs_mappings s)
  /\ instruments_by_id st = index_by in_instrument_id (rs_instruments s)
  /\ actions_by_instrument st = index_by ca_instrument_id (rs_corporate_actions s)
  /\ calendar_by_date st = index_by session_date (rs_calendar_days s)
  /\ halts_by_instrument st = index_by hl_instrument_id (rs_halts s).
Proof. unfold new_reference_store. by intros (? & _ & [= <-])%rbind_ok. Qed.

Section same_answers.
Context (s s' : ReferenceSnapshot) (st st' : PointInTimeReferenceStore) (t u : Z).
Context (Hst : new_reference_store s = Ok st) (Hst' : new_reference_store s' = Ok st').
Context (Hle : t <= u) (Hk : same_knowledge u s s').

Lemma mapping_same x e : symbol_mapping_at st x e t = symbol_mapping_at st' x e t.
Proof using All.
  destruct (store_indexes _ _ Hst) as (E & _), (store_indexes _ _ Hst') as (E' & _), Hk as (_ & H & _).
  unfold symbol_mapping_at. rewrite E, E'. by rewrite (known_index mp_symbol x t u _ _ Hle H).
Qed.

Lemma instrument_same i e : instrument_at st i e t = instrument_at st' i e t.
Proof using All.
  destruct (store_indexes _ _ Hst) as (_ & E & _), (store_indexes _ _ Hst') as (_ & E' & _), Hk as (H & _).
  unfold instrument_at. rewrite E, E'. by rewrite (known_index in_instrument_id i t u _ _ Hle H).
Qed.

Lemma actions_same i e : corporate_actions_at st i e t = corporate_actions_at st' i e t.
Proof using All.
  destruct (store_indexes _ _ Hst) as (_ & _ & E & _), (store_indexes _ _ Hst') as (_ & _ & E' & _), Hk as (_ & _ & H & _).
  unfold corporate_actions_at. rewrite E, E'. by rewrite (known_index ca_instrument_id i t u _ _ Hle H).
Qed.

Lemma calendar_same d : calendar_day_at st d t = calendar_day_at st' d t.
Proof using All.
  destruct (store_indexes _ _ Hst) as (_ & _ & _ & E & _), (store_indexes _ _ Hst') as (_ & _ & _ & E' & _),
    Hk as (_ & _ & _ & H & _).
  unfold calendar_day_at. rewrite E, E'. by rewrite (known_index session_date d t u _ _ Hle H).
Qed.

Lemma halts_same i a b : halts_at st i a b t = halts_at st' i a b t.
Proof using All.
  destruct (store_indexes _ _ Hst) as (_ & _ & _ & _ & E), (store_indexes _ _ Hst') as (_ & _ & _ & _ & E'),
    Hk as (_ & _ & _ & _ & H).
  unfold halts_at. rewrite E, E'. by rewrite (known_index hl_instrument_id i t u _ _ Hle H).
Qed.

Lemma resolver_same e x : as_universe_resolver st e t x = as_universe_resolver st' e t x.
Proof using All. unfold as_universe_resolver. by rewrite mapping_same. Qed.
End same_answers.

Lemma resolve_loop_ext (f g : pystr -> res InstrumentResolution) n R symbols :
  (forall x, f x = g x) -> resolve_loop f n R symbols = resolve_loop g n R symbols.
Proof.
  intros H. revert n R. induction symbols as [|x l IH]; intros n R; [done|]. cbn [resolve_loop]. rewrite H.
  destruct (g x) as [r|]; [|done]. cbn [rbind]. destruct (new_entry _) as [en|]; [|done]. cbn [rbind].
  destruct (match entry_instrument en with None => _ | Some _ => _ end) as [R'|]; [|done]. cbn [rbind].
  by rewrite IH.
Qed.

(** ** Rounding is a property of the rational number *)

Lemma rounded_scale policy c n d q : 0 < c -> rounded policy (c * n) (c * d) q <-> rounded policy n d q.
Proof.
  intros Hc. destruct policy; cbn [rounded].
  - split; [|nia]. intros H. apply (Z.mul_reg_l _ _ c); [lia|]. rewrite <- H. ring.
  - split; nia.
  - replace (c * n - q * (c * d)) with (c * (n - q * d)) by ring. rewrite Z.abs_mul, (Z.abs_eq c) by lia.
    set (a := Z.abs (n - q * d)). split; intros [H1 H2]; (split; [nia|]); intros E; apply H2; nia.
Qed.

Lemma rounded_ratio policy n d n' d' q :
  0 < d -> 0 < d' -> n * d' = n' * d -> rounded policy n d q -> rounded policy n' d' q.
Proof.
  intros Hd Hd' E H. apply (rounded_scale policy d' n d q Hd') in H.
  rewrite (Z.mul_comm d' n), E, (Z.mul_comm n' d), (Z.mul_comm d' d) in H.
  by apply (rounded_scale policy d n' d' q Hd) in H.
Qed.

Lemma product_pos (f : ExactRatio -> Z) l : Forall (fun r => 0 < f r) l -> 0 < product_of f l.
Proof. induction 1 as [|r l Hr _ IH]; [done|]. rewrite product_of_cons. nia. Qed.

(** [max] returns a greatest element. *)
Lemma py_max_spec {A} (leb : A -> A -> bool) `{!PreorderB leb} l x :
  py_max leb l = Some x -> x ∈ l /\ forall y, y ∈ l -> leb y x = true.
Proof.
  destruct l as [|z l]; [done|]. cbn. intros [= <-].
  assert (H : forall b, let m := foldl (fun best y => if leb y best then best else y) b l in
            (m = b \/ m ∈ l) /\ leb b m = true /\ forall y, y ∈ l -> leb y m = true).
  { induction l as [|y l IH]; intros b; cbn.
    - split; [by left|]. split; [apply (preb_refl leb) | set_solver].
    - destruct (leb y b) eqn:E; destruct (IH (if leb y b then b else y)) as (Hm & Hb & Hall); rewrite E in *.
      + split; [destruct Hm; [by left | right; by right]|]. split; [done|].
        intros w [->|Hw]%elem_of_cons; [by eapply preb_trans | by apply Hall].
      + assert (leb b y = true) by (destruct (preb_total b y); congruence).
        split; [right; destruct Hm as [->|]; [left | by right]|]. split; [by eapply preb_trans|].
        intros w [->|Hw]%elem_of_cons; [done | by apply Hall]. }
  specialize (H z) as (Hm & Hb & Hall). split.
  - destruct Hm as [->|]; [left | by right].
  - intros y [->|Hy]%elem_of_cons; [done | by apply Hall].
Qed.

(** The mappings of a symbol that are effective among the latest known ones. *)
Definition mapping_candidate (s : ReferenceSnapshot) (symbol : pystr) (effective_at t : Z)
    (m : SymbolMappingRevision) : Prop :=
  is_latest t (List.filter (fun x => bool_decide (mp_symbol x = symbol)) (rs_mappings s)) m
  /\ contains (mp_effective m) effective_at = true.

(** The conflict test on the candidates of a symbol. *)
Lemma conflicting_instruments (cs : list SymbolMappingRevision) :
  let identities : gset pystr := list_to_set (map instrument_hex (omap mp_instrument_id cs)) in
  if (1 <? Z.of_nat (length cs)) && (1 <? Z.of_nat (size identities))
  then exists m m' i i', m ∈ cs /\ m' ∈ cs /\ mp_instrument_id m = Some i
         /\ mp_instrument_id m' = Some i' /\ instrument_hex i <> instrument_hex i'
  else forall m m' i i', m ∈ cs -> m' ∈ cs -> mp_instrument_id m = Some i ->
         mp_instrument_id m' = Some i' -> instrument_hex i = instrument_hex i'.
Proof.
  intros ids.
  assert (Hids : forall x, x ∈ ids <-> exists m i, m ∈ cs /\ mp_instrument_id m = Some i /\ x = instrument_hex i).
  { intros x. unfold ids. rewrite elem_of_list_to_set, list_elem_of_fmap. setoid_rewrite list_elem_of_omap. naive_solver. }
  clearbody ids. destruct (_ && _) eqn:E; bprop.
  - assert (ids ≢ ∅) as [x Hx]%set_choose by (intros E0%size_empty_iff; lia).
    assert (ids ∖ {[x]} ≢ ∅) as [y Hy]%set_choose.
    { intros E0%size_empty_iff. rewrite size_difference, size_singleton in E0 by set_solver. lia. }
    apply elem_of_difference in Hy as [Hy Hne]. rewrite elem_of_singleton in Hne.
    apply Hids in Hx as (m & i & Hm & Hi & ->), Hy as (m' & i' & Hm' & Hi' & ->).
    exists m, m', i, i'. by split_and!.
  - intros m m' i i' Hm Hm' Hi Hi'.
    destruct (decide (instrument_hex i = instrument_hex i')) as [|Hne]; [done|]. exfalso.
    assert (H2 : {[instrument_hex i; instrument_hex i']} ⊆ ids).
    { intros x Hx. apply Hids. set_unfold in Hx. destruct Hx as [->| ->]; eauto. }
    apply subseteq_size in H2. rewrite size_union, !size_singleton in H2 by set_solver.
    destruct cs as [|a [|b cs']]; [by apply not_elem_of_nil in Hm | |].
    2:{ rewrite !length_cons in E. apply andb_false_iff in E as [E|E]; apply Z.ltb_ge in E; lia. }
    apply list_elem_of_singleton in Hm, Hm'. congruence.
Qed.

(** ** Records to compute with *)

Definition sample_provenance (t : Z) : ReferenceProvenance :=
  {| provider := str "p"; dataset := str "d"; document_id := str "doc"; content_sha256 := repeat 97 64;
     observed_at_ns := t; processed_at_ns := t; revision_at_ns := t; source_publication_time_ns := None;
     historical_completeness := true; limitation := str "none" |}.
Definition sample_mapping (v t : Z) (i : Identifier128) : SymbolMappingRevision :=
  {| mapping_id := str "m"; mp_symbol := str "ABC"; mp_instrument_id := Some i; mp_listing_venue := NYSE;
     mp_status := RESOLVED_CURRENT_ONLY;
     mp_effective := {| effective_from_ns := 1; effective_to_ns := None |};
     mp_version := v; mp_provenance := sample_provenance t |}.
Definition sample_split (name : string) (effective n d : Z) : CorporateActionRevision :=
  {| action_id := str name; ca_instrument_id := Id128 0 7; kind := SPLIT; effective_time_ns := effective;
     ca_version := 1; ca_provenance := sample_provenance 10;
     split_new_shares_per_old := Some {| numerator := n; denominator := d |};
     cash_dividend_currency_nanos := None; currency := None |}.
Definition sample_snapshot (mappings : list SymbolMappingRevision) : ReferenceSnapshot :=
  {| universe_source_sha256 := repeat 97 64; source_report_sha256 := repeat 98 64; as_of_ns := 50;
     rs_instruments := []; rs_mappings := mappings;
     rs_corporate_actions := [sample_split "a" 5 2 1; sample_split "b" 8 3 2];
     rs_calendar_days := [{| cd_calendar_id := str "c"; session_date := Date 2024 1 6; cd_kind := WEEKEND;
                             open_exchange_time_ns := None; close_exchange_time_ns := None; cd_version := 1;
                             cd_provenance := sample_provenance 10 |}];
     rs_halts := []; halt_coverage_complete := true; rs_schema_version := REFERENCE_SCHEMA_VERSION |}.
Definition first_snapshot : ReferenceSnapshot := sample_snapshot [sample_mapping 1 10 (Id128 0 7)].
Definition later_snapshot : ReferenceSnapshot :=
  sample_snapshot [sample_mapping 1 10 (Id128 0 7); sample_mapping 2 20 (Id128 0 9)].

Lemma sample_stores :
  new_reference_store first_snapshot = Ok (indexed first_snapshot)
  /\ new_reference_store later_snapshot = Ok (indexed later_snapshot).
Proof.
  unfold new_reference_store.
  assert (validate_lineage first_snapshot = Ok tt) as -> by (vm_compute; reflexivity).
  assert (validate_lineage later_snapshot = Ok tt) as -> by (vm_compute; reflexivity). done.
Qed.

(** A price of 300 becomes 100 after a 2-for-1 and a 3-for-2 split. *)
Example sample_adjustment :
  adjust_price_for_splits (indexed first_snapshot) 300 (Id128 0 7) 1 9 15 REJECT_INEXACT = Ok 100
  /\ adjust_price_for_splits (indexed first_snapshot) 301 (Id128 0 7) 1 9 15 FLOOR = Ok 100
  /\ adjust_price_for_splits (indexed first_snapshot) 302 (Id128 0 7) 1 9 15 HALF_EVEN = Ok 101.
Proof. by vm_compute. Qed.

(** ** What the queries read *)

Lemma store_lineage s st : new_reference_store s = Ok st -> snapshot_lineage s /\ st = indexed s.
Proof.
  unfold new_reference_store. intros ([] & H & [= <-])%rbind_ok. split; [by apply validate_lineage_ok | done].
Qed.

Lemma versions_unique_filter `{VersionedReference T} (f : T -> bool) l :
  versions_unique l -> versions_unique (List.filter f l).
Proof. intros Hu x y [Hx _]%elem_of_filter_b [Hy _]%elem_of_filter_b. by apply Hu. Qed.

Lemma known_latest_total `{VersionedReference T} (l : list T) t :
  0 < t <= MAX_INT64 -> exists r, known_latest l t = Ok r.
Proof. intros Ht. unfold known_latest, positive_ns, ref_when. rewrite raise_when_false by lia. cbn. eauto. Qed.

Lemma known_latest_err `{VersionedReference T} (l : list T) t e :
  known_latest l t = Err e -> exn_cls e = ReferenceDataError INVALID_INPUT /\ ~ 0 < t <= MAX_INT64.
Proof.
  unfold known_latest, positive_ns, ref_when. intros [H' | (? & _ & [=])]%rbind_err.
  destruct (negb _) eqn:E; [|done]. injection H' as <-. split; [done|]. lia.
Qed.

Lemma actions_read s st i through t actions :
  new_reference_store s = Ok st -> corporate_actions_at st i through t = Ok actions ->
  forall a, a ∈ actions <->
    is_latest t (List.filter (fun x => bool_decide (ca_instrument_id x = i)) (rs_corporate_actions s)) a
    /\ effective_time_ns a <= through.
Proof.
  intros Hst H a. apply store_lineage in Hst as [Hl ->]. unfold corporate_actions_at in H.
  apply rbind_ok in H as (known & Hk & [= <-]). cbn [indexed actions_by_instrument] in Hk.
  rewrite index_by_lookup in Hk. rewrite elem_of_py_sorted, elem_of_filter_b.
  rewrite (known_latest_exact t _ known) by (done || (apply versions_unique_filter, lineage_versions_unique; apply Hl)).
  by rewrite Z.leb_le.
Qed.

Lemma actions_ordered st i through t actions :
  corporate_actions_at st i through t = Ok actions ->
  NoDup (map action_id actions)
  /\ StronglySorted (fun a b => pair_leb Z.leb pystr_leb (effective_time_ns a, action_id a)
                                   (effective_time_ns b, action_id b) = true) actions.
Proof.
  unfold corporate_actions_at. intros (known & Hk & [= <-])%rbind_ok. split; [|apply (py_sorted_sorted _)].
  rewrite py_sorted_perm. apply known_latest_sorted in Hk as [_ Hnd]. cbn [revision_identity action_versioned] in Hnd.
  clear -Hnd. induction known as [|a known IH]; [constructor|]. cbn in *. apply NoDup_cons in Hnd as [Ha Hnd].
  destruct (effective_time_ns a <=? through); [|by apply IH]. cbn. constructor; [|by apply IH].
  intros (b & Hb & Hin)%list_elem_of_fmap. apply elem_of_filter_b in Hin as [Hin _].
  apply Ha, list_elem_of_fmap. eauto.
Qed.

Lemma mapping_read s st symbol e t m :
  new_reference_store s = Ok st -> symbol_mapping_at st symbol e t = Ok (Some m) -> mapping_candidate s symbol e t m.
Proof.
  intros Hst H. apply store_lineage in Hst as [Hl ->]. unfold symbol_mapping_at in H.
  apply rbind_ok in H as (known & Hk & H). apply rbind_ok in H as (? & _ & [= H]).
  cbn [indexed mappings_by_symbol] in Hk. rewrite index_by_lookup in Hk.
  apply (py_max_spec _) in H as [Hin _]. apply elem_of_filter_b in Hin as [Hin Hc]. split; [|done].
  apply (known_latest_exact t _ known); [|done|done]. apply versions_unique_filter, lineage_versions_unique, Hl.
Qed.

Lemma halts_read s st i a b t halts :
  new_reference_store s = Ok st -> halts_at st i a b t = Ok halts ->
  forall h, h ∈ halts <->
    is_latest t (List.filter (fun x => bool_decide (hl_instrument_id x = i)) (rs_halts s)) h
    /\ start_exchange_time_ns h < b /\ a < end_exchange_time_ns h.
Proof.
  intros Hst H h. apply store_lineage in Hst as [Hl ->]. unfold halts_at in H.
  apply rbind_ok in H as (? & _ & H). apply rbind_ok in H as (known & Hk & [= <-]).
  cbn [indexed halts_by_instrument] in Hk.
  rewrite index_by_lookup in Hk. rewrite elem_of_py_sorted, elem_of_filter_b.
  rewrite (known_latest_exact t _ known) by (done || (apply versions_unique_filter, lineage_versions_unique; apply Hl)).
  by rewrite andb_true_iff, !Z.ltb_lt.
Qed.

(** ** Properties *)

(** Ratios compute exactly.  The product of two valid ratios is their reduced
    product when its terms fit 64 bits, and an overflow error exactly otherwise;
    the inverse is exact; and applying a ratio to a price gives the exact quotient
    rounded as the policy promises, or fails exactly when the product overflows or an
    inexact result is to be rejected. *)
Theorem exact_ratio_arithmetic r r' value policy :
  ratio_ok r -> ratio_ok r' -> 0 <= value <= MAX_INT64 ->
  inverse r = Ok {| numerator := denominator r; denominator := numerator r |}
  /\ multiply r r' = (if fits (product_ratio r r') then Ok (product_ratio r r') else overflow)
  /\ numerator (product_ratio r r') * (denominator r * denominator r')
     = denominator (product_ratio r r') * (numerator r * numerator r')
  /\ match apply r value policy with
     | Ok q => value * numerator r <= MAX_INT64 /\ 0 <= q
               /\ rounded policy (value * numerator r) (denominator r) q
     | Err e =>
         (exn_cls e = ReferenceDataError INTEGER_OVERFLOW /\ MAX_INT64 < value * numerator r)
         \/ (exn_cls e = ReferenceDataError INEXACT_ARITHMETIC /\ policy = REJECT_INEXACT
             /\ value * numerator r <= MAX_INT64 /\ (value * numerator r) mod denominator r <> 0)
     end.
Proof.
  intros Hr Hr' Hv. split; [by apply inverse_ok|].
  destruct (multiply_exact r r' Hr Hr') as (H1 & _ & H2). split; [done|]. split; [done|]. by apply apply_exact.
Qed.

Lemma exact_ratio_arithmetic_witness :
  multiply {| numerator := 4; denominator := 3 |} {| numerator := 9; denominator := 2 |}
  = Ok {| numerator := 6; denominator := 1 |}.
Proof.
  destruct (exact_ratio_arithmetic {| numerator := 4; denominator := 3 |} {| numerator := 9; denominator := 2 |}
              5 HALF_EVEN) as (_ & H & _).
  - vm_compute. reflexivity.
  - vm_compute. reflexivity.
  - unfold MAX_INT64. lia.
  - rewrite H. vm_compute. reflexivity.
Defined.

(** C10: split adjustment is exact.  The actions read are the latest known ones of
    the instrument up to the end of the interval, each once, ordered by effective time
    and name.  With [N] and [D] the products of the numerators and denominators of the
    splits in the interval, the adjusted price is the price times [D / N], rounded as
    the policy promises.  The call fails with an overflow exactly when a running
    product of the splits in lowest terms, or the price times the last numerator, does
    not fit 64 bits, and otherwise fails exactly when an inexact result is rejected
    and the quotient is not an integer. *)
Theorem split_adjustment_exact s st price i after through t policy :
  new_reference_store s = Ok st ->
  (forall a r, a ∈ rs_corporate_actions s -> split_new_shares_per_old a = Some r -> ratio_ok r) ->
  0 < t <= MAX_INT64 -> 0 <= price <= MAX_INT64 -> after <= through ->
  exists actions,
    (forall a, a ∈ actions <->
       is_latest t (List.filter (fun x => bool_decide (ca_instrument_id x = i)) (rs_corporate_actions s)) a
       /\ effective_time_ns a <= through)
    /\ NoDup (map action_id actions)
    /\ StronglySorted (fun a b => pair_leb Z.leb pystr_leb (effective_time_ns a, action_id a)
                                    (effective_time_ns b, action_id b) = true) actions
    /\ let rs := split_ratios after through actions in
       let N := product_of numerator rs in
       let D := product_of denominator rs in
       match adjust_price_for_splits st price i after through t policy with
       | Ok q => adjustment_fits price rs /\ rounded policy (price * D) N q
       | Err e => (exn_cls e = ReferenceDataError INTEGER_OVERFLOW /\ ~ adjustment_fits price rs)
                  \/ (exn_cls e = ReferenceDataError INEXACT_ARITHMETIC /\ policy = REJECT_INEXACT
                      /\ adjustment_fits price rs /\ forall q, q * N <> price * D)
       end.
Proof.
  intros Hst Hok Ht Hp Hle.
  destruct (known_latest_total (default [] (actions_by_instrument st !! i)) t Ht) as [known Hk].
  destruct (corporate_actions_at st i through t) as [actions|e] eqn:Ea;
    [|unfold corporate_actions_at in Ea; by rewrite Hk in Ea].
  pose proof (actions_read s st i through t actions Hst Ea) as Hread.
  destruct (actions_ordered st i through t actions Ea) as [Hnd Hsort].
  exists actions. split; [done|]. split; [done|]. split; [done|]. cbv zeta.
  assert (Hrs : Forall ratio_ok (split_ratios after through actions)).
  { apply Forall_forall. intros r (a & Ha & Hr)%list_elem_of_omap. destruct (_ && _); [|done].
    apply Hread in Ha as [(Hin & _) _]. apply elem_of_filter_b in Hin as [Hin _]. by eapply Hok. }
  assert (HND : 0 < product_of numerator (split_ratios after through actions)
                /\ 0 < product_of denominator (split_ratios after through actions)).
  { split; apply product_pos; (eapply Forall_impl; [exact Hrs|]); intros r (? & ? & _)%ratio_ok_iff; lia. }
  unfold adjust_price_for_splits, ref_when. rewrite raise_when_false by lia. cbn [rbind].
  rewrite (new_ratio_ok 1 1) by (unfold MAX_INT64; done). cbn [rbind]. rewrite Ea. cbn [rbind].
  pose proof (split_multiplier_exact after through 1 1 actions) as Hm. cbv zeta in Hm.
  change (lowest 1 1) with {| numerator := 1; denominator := 1 |} in Hm.
  specialize (Hm ltac:(lia) ltac:(lia) ltac:(vm_compute; done) Hrs). revert HND Hm.
  set (rs := split_ratios after through actions). intros [HN HD] Hm.
  destruct (split_multiplier after through _ actions) as [m|e]; cbn [rbind].
  2:{ left. destruct Hm as (He & k & Hk'). split; [done|]. intros [Hf _]. by rewrite Hf in Hk'. }
  destruct Hm as (-> & Hmok & Hfit). pose proof (apply_exact _ price policy Hmok Hp) as Hap.
  assert (Hrun : running 1 1 rs (length rs) = lowest (product_of denominator rs) (product_of numerator rs))
    by (unfold running; by rewrite take_ge, !Z.mul_1_l by done).
  assert (Hfits : adjustment_fits price rs <-> price * numerator (running 1 1 rs (length rs)) <= MAX_INT64)
    by (unfold adjustment_fits; tauto).
  destruct (lowest_pos _ _ HD HN) as (g & Hg & ED & EN & Ha & Hb). rewrite <- Hrun in ED, EN, Ha, Hb.
  set (m := running 1 1 rs (length rs)) in *.
  set (N := product_of numerator rs) in *. set (D := product_of denominator rs) in *.
  assert (Hcross : price * numerator m * N = price * D * denominator m) by (rewrite ED, EN; ring).
  destruct (apply m price policy) as [q|e].
  - destruct Hap as (? & _ & Hq). split; [by apply Hfits|].
    by eapply rounded_ratio; [| |exact Hcross|exact Hq]; lia.
  - destruct Hap as [[He ?] | (He & Hpol & ? & Hmod)]; [left; split; [done|]; rewrite Hfits; lia|].
    right. split_and!; [done | done | by apply Hfits |].
    intros q Hq. apply Hmod. rewrite <- Hq in Hcross.
    assert (price * numerator m = q * denominator m) as -> by nia. by apply Z.mod_mul; lia.
Qed.

Lemma split_adjustment_exact_witness :
  exists actions,
    NoDup (map action_id actions) /\
    match adjust_price_for_splits (indexed first_snapshot) 300 (Id128 0 7) 1 9 15 REJECT_INEXACT with
    | Ok q => rounded REJECT_INEXACT (300 * product_of denominator (split_ratios 1 9 actions))
                (product_of numerator (split_ratios 1 9 actions)) q
    | Err _ => False
    end.
Proof.
  destruct (split_adjustment_exact first_snapshot (indexed first_snapshot) 300 (Id128 0 7) 1 9 15 REJECT_INEXACT)
    as (actions & _ & Hnd & _ & H).
  - apply sample_stores.
  - intros a r Ha Hr. cbn in Ha. apply elem_of_cons in Ha as [->|Ha]; [|apply list_elem_of_singleton in Ha as ->];
      injection Hr as <-; vm_compute; reflexivity.
  - unfold MAX_INT64. lia.
  - unfold MAX_INT64. lia.
  - lia.
  - exists actions. split; [exact Hnd|]. destruct sample_adjustment as (E & _). rewrite E in *. apply H.
Defined.

(** C11: reads are point in time.  Two snapshots that hold the same records among
    those available by [u] give the same answer to every query with a knowledge
    cutoff up to [u], errors included: a revision that becomes available later cannot
    change a past answer.  The same holds of a whole ticker universe resolved through
    the store. *)
Theorem reference_queries_point_in_time s s' st st' t u :
  new_reference_store s = Ok st -> new_reference_store s' = Ok st' ->
  t <= u -> same_knowledge u s s' ->
  (forall x e, symbol_mapping_at st x e t = symbol_mapping_at st' x e t)
  /\ (forall i e, instrument_at st i e t = instrument_at st' i e t)
  /\ (forall i e, corporate_actions_at st i e t = corporate_actions_at st' i e t)
  /\ (forall p i a b policy,
        adjust_price_for_splits st p i a b t policy = adjust_price_for_splits st' p i a b t policy)
  /\ (forall i e, cash_dividends_at st i e t = cash_dividends_at st' i e t)
  /\ (forall i a b, halts_at st i a b t = halts_at st' i a b t)
  /\ (forall d, calendar_day_at st d t = calendar_day_at st' d t)
  /\ (forall content e, parse_ticker_universe content (as_universe_resolver st e t)
                        = parse_ticker_universe content (as_universe_resolver st' e t)).
Proof.
  intros Hst Hst' Hle Hk.
  pose proof (actions_same s s' st st' t u Hst Hst' Hle Hk) as Ha. split_and!.
  - by apply (mapping_same s s' st st' t u).
  - by apply (instrument_same s s' st st' t u).
  - exact Ha.
  - intros p i a b policy. unfold adjust_price_for_splits. by rewrite Ha.
  - intros i e. unfold cash_dividends_at. by rewrite Ha.
  - by apply (halts_same s s' st st' t u).
  - by apply (calendar_same s s' st st' t u).
  - intros content e. unfold parse_ticker_universe, resolve_symbols.
    pose proof (resolver_same s s' st st' t u Hst Hst' Hle Hk e) as Hr.
    destruct (parse_symbols content) as [symbols|]; [|done]. cbn [rbind].
    by rewrite (resolve_loop_ext _ _ _ _ symbols Hr).
Qed.

Lemma reference_queries_point_in_time_witness :
  symbol_mapping_at (indexed later_snapshot) (str "ABC") 5 15
  = Ok (Some (sample_mapping 1 10 (Id128 0 7)))
  /\ symbol_mapping_at (indexed later_snapshot) (str "ABC") 5 20
     = Ok (Some (sample_mapping 2 20 (Id128 0 9))).
Proof.
  destruct sample_stores as [H1 H2]. split; [|vm_compute; reflexivity].
  destruct (reference_queries_point_in_time first_snapshot later_snapshot _ _ 15 15 H1 H2) as (H & _).
  - lia.
  - vm_compute. split_and!; reflexivity.
  - rewrite <- H. vm_compute. reflexivity.
Defined.

(** A symbol resolves to at most one instrument.  For a valid cutoff the answer
    is the candidate with the greatest version and identifier, and then all the
    candidates that name an instrument name the same one; it is empty exactly when
    there is no candidate; and it is a conflict exactly when two candidates name
    different instruments. *)
Theorem symbol_mapping_exact s st symbol effective t :
  new_reference_store s = Ok st -> 0 < t <= MAX_INT64 ->
  let C := mapping_candidate s symbol effective t in
  let agree := forall m m' i i', C m -> C m' -> mp_instrument_id m = Some i ->
                 mp_instrument_id m' = Some i' -> instrument_hex i = instrument_hex i' in
  match symbol_mapping_at st symbol effective t with
  | Ok (Some m) => C m /\ agree /\ forall m', C m' ->
      mp_version m' < mp_version m
      \/ mp_version m' = mp_version m /\ pystr_leb (mapping_id m') (mapping_id m) = true
  | Ok None => forall m, ~ C m
  | Err e => exn_cls e = ReferenceDataError CONFLICT /\ ~ agree
  end.
Proof.
  intros Hst Ht C agree. apply store_lineage in Hst as [Hl ->].
  destruct (known_latest_total (default [] (mappings_by_symbol (indexed s) !! symbol)) t Ht) as [known Hk].
  unfold symbol_mapping_at. rewrite Hk. cbn [rbind]. cbn [indexed mappings_by_symbol] in Hk.
  rewrite index_by_lookup in Hk.
  set (cs := List.filter _ known).
  assert (HC : forall m, m ∈ cs <-> C m).
  { intros m. unfold cs, C, mapping_candidate. rewrite elem_of_filter_b.
    by rewrite (known_latest_exact t _ known)
      by (done || (apply versions_unique_filter, lineage_versions_unique; apply Hl)). }
  pose proof (conflicting_instruments cs) as Hc. cbv zeta in Hc. unfold ref_when.
  destruct (_ && _); cbn [raise_when rbind].
  - split; [done|]. intros Hag. destruct Hc as (m & m' & i & i' & Hm & Hm' & Hi & Hi' & Hne).
    apply Hne. apply (Hag m m'); [by apply HC | by apply HC | done | done].
  - assert (agree) as Hag. { intros m m' i i' Hm%HC Hm'%HC Hi Hi'. by apply (Hc m m' i i'). }
    destruct (py_max _ cs) as [m|] eqn:E.
    + apply (py_max_spec _) in E as [Hin Hmax]. split; [by apply HC|]. split; [done|].
      intros m' Hm'%HC%Hmax. unfold leb_on, pair_leb in Hm'. cbn in Hm'. apply andb_true_iff in Hm' as [H1 H2].
      apply orb_true_iff in H2 as [H2|H2]; [left; lia|].
      destruct (Z.eq_dec (mp_version m') (mp_version m)); [by right | left; lia].
    + intros m Hm%HC. destruct cs; [by apply not_elem_of_nil in Hm | done].
Qed.

Lemma symbol_mapping_exact_witness :
  mapping_candidate first_snapshot (str "ABC") 5 15 (sample_mapping 1 10 (Id128 0 7)).
Proof.
  pose proof (symbol_mapping_exact first_snapshot (indexed first_snapshot) (str "ABC") 5 15
                (proj1 sample_stores) ltac:(unfold MAX_INT64; lia)) as H.
  assert (E : symbol_mapping_at (indexed first_snapshot) (str "ABC") 5 15
              = Ok (Some (sample_mapping 1 10 (Id128 0 7)))) by (vm_compute; reflexivity).
  cbv zeta in H. rewrite E in H. apply H.
Defined.

(** A store exists exactly for a snapshot with a lineage.  Construction succeeds
    exactly when, for every identity of every record type, the versions are 1 to [n]
    and the revision times increase with them; otherwise it is a conflict.  In the
    store every index holds exactly the snapshot's records of its key, in order, and
    two records of one type never share identity and version. *)
Theorem reference_store_lineage s :
  (snapshot_lineage s <-> exists st, new_reference_store s = Ok st)
  /\ match new_reference_store s with
     | Ok st =>
         (forall x, default [] (mappings_by_symbol st !! x)
                    = List.filter (fun r => bool_decide (mp_symbol r = x)) (rs_mappings s))
         /\ (forall i, default [] (instruments_by_id st !! i)
                       = List.filter (fun r => bool_decide (in_instrument_id r = i)) (rs_instruments s))
         /\ (forall i, default [] (actions_by_instrument st !! i)
                       = List.filter (fun r => bool_decide (ca_instrument_id r = i)) (rs_corporate_actions s))
         /\ (forall d, default [] (calendar_by_date st !! d)
                       = List.filter (fun r => bool_decide (session_date r = d)) (rs_calendar_days s))
         /\ (forall i, default [] (halts_by_instrument st !! i)
                       = List.filter (fun r => bool_decide (hl_instrument_id r = i)) (rs_halts s))
         /\ versions_unique (rs_mappings s) /\ versions_unique (rs_instruments s)
         /\ versions_unique (rs_corporate_actions s) /\ versions_unique (rs_calendar_days s)
         /\ versions_unique (rs_halts s)
     | Err e => exn_cls e = ReferenceDataError CONFLICT
     end.
Proof.
  split.
  - rewrite <- validate_lineage_ok. unfold new_reference_store. split.
    + intros ->. by eexists.
    + intros (st & ([] & H & _)%rbind_ok). done.
  - destruct (new_reference_store s) as [st|e] eqn:E.
    + apply store_lineage in E as [Hl ->]. cbn [indexed mappings_by_symbol instruments_by_id
        actions_by_instrument calendar_by_date halts_by_instrument].
      split_and!; try (intros; apply index_by_lookup); apply lineage_versions_unique; apply Hl.
    + unfold new_reference_store in E. apply rbind_err in E as [E | (? & _ & [=])].
      by eapply validate_lineage_err.
Qed.
