(* ===== verification/ReferenceDocuments.v ===== *)
(** * Reference documents

    Models the document functions of
    [python/research/aegis_mx_research/reference_data.py]: the canonical JSON of a
    reference snapshot with its digest, the verification of such a document, and the
    identifier derived from a provider's asset.  The members of a document are the
    items of a Python [dict], in insertion order. *)

From S2P Require Import Prelude PyText Json Sha256 PyDateTime ForecastDomain Universe ReferenceData.

Open Scope Z_scope.

(** ** Values of the enumerations *)

Definition ListingVenue_value (v : ListingVenue) : pystr :=
  str match v with
      | NASDAQ => "NASDAQ" | NYSE => "NYSE" | NYSE_AMERICAN => "NYSE_AMERICAN"
      | OTC => "OTC" | LV_UNKNOWN => "UNKNOWN"
      end.
Definition SecurityType_value (t : SecurityType) : pystr :=
  str match t with
      | COMMON_STOCK => "COMMON_STOCK" | ADR => "ADR" | ETF => "ETF"
      | PREFERRED_STOCK => "PREFERRED_STOCK" | UNIT => "UNIT" | WARRANT => "WARRANT"
      | US_EQUITY_UNSPECIFIED => "US_EQUITY_UNSPECIFIED" | ST_UNKNOWN => "UNKNOWN"
      end.
Definition MappingStatus_value (s : MappingStatus) : pystr :=
  str match s with
      | RESOLVED_CURRENT_ONLY => "RESOLVED_CURRENT_ONLY"
      | MS_RECENTLY_LISTED => "RECENTLY_LISTED" | MS_DELISTED => "DELISTED"
      | UNSUPPORTED_VENUE => "UNSUPPORTED_VENUE" | AMBIGUOUS => "AMBIGUOUS"
      | MISSING_REFERENCE => "MISSING_REFERENCE"
      end.
Definition CorporateActionKind_value (k : CorporateActionKind) : pystr :=
  str match k with SPLIT => "SPLIT" | CASH_DIVIDEND => "CASH_DIVIDEND" end.
Definition CalendarDayKind_value (k : CalendarDayKind) : pystr :=
  str match k with
      | REGULAR_SESSION => "REGULAR_SESSION" | EARLY_CLOSE_SESSION => "EARLY_CLOSE_SESSION"
      | WEEKEND => "WEEKEND" | HOLIDAY => "HOLIDAY"
      | UNCLASSIFIED_CLOSURE => "UNCLASSIFIED_CLOSURE"
      end.

(** [None] as a JSON value. *)
Definition optional {A} (f : A -> json) (o : option A) : json :=
  match o with None => JNull | Some a => f a end.

(** ** Documents *)

(** [dict.pop(key, None)] *)
Definition pop_key (k : pystr) (m : list (pystr * json)) : list (pystr * json) :=
  List.filter (fun kv => negb (bool_decide (kv.1 = k))) m.

Definition document_key : pystr := str "document_sha256".

(** [hashlib.sha256(_canonical_bytes(value)).hexdigest()] *)
Definition canonical_digest (v : json) : res pystr :=
  let! encoded := dumps v in Ok (sha256_hex encoded).

(** Documents of the program hold no float; the text that [json.dumps] writes for a
    float it read is not modelled. *)
Fixpoint has_float (v : json) : bool :=
  match v with
  | JFloat _ => true
  | JArr l => existsb has_float l
  | JObj m => existsb (fun kv => has_float kv.2) m
  | _ => false
  end.

(** [_document] *)
Definition document (payload : list (pystr * json)) : res (list (pystr * json)) :=
  let body := pop_key document_key payload in
  let! digest := canonical_digest (JObj body) in
  Ok (body ++ [(document_key, JStr digest)]).

(** [dict.get(key)] compared with a string. *)
Definition member_is (k : pystr) (s : pystr) (m : list (pystr * json)) : bool :=
  match jget k m with Ok (JStr t) => bool_decide (t = s) | _ => false end.

(** [_verify_document] *)
Definition verify_document (value : json) (expected_schema : pystr) : res (list (pystr * json)) :=
  match value with
  | JObj m =>
      do! raise_when (has_float value) Undescribed "document holds a float" in
      let! actual := canonical_digest (JObj (pop_key document_key m)) in
      do! ref_when (negb (member_is document_key actual m)) INTEGRITY_FAILURE
            "document SHA-256 does not match" in
      do! ref_when (negb (member_is (str "schema_version") expected_schema m)) UNSUPPORTED_SCHEMA
            "schema version is not supported" in
      Ok m
  | _ => ref_error INVALID_INPUT "document is not an object"
  end.

(** ** Snapshots *)

(** [_provenance_dict] *)
Definition provenance_dict (p : ReferenceProvenance) : json :=
  JObj [(str "available_at_ns", JInt (available_at_ns p));
        (str "content_sha256", JStr (content_sha256 p));
        (str "dataset", JStr (dataset p));
        (str "document_id", JStr (document_id p));
        (str "historical_completeness", JBool (historical_completeness p));
        (str "limitation", JStr (limitation p));
        (str "observed_at_ns", JInt (observed_at_ns p));
        (str "processed_at_ns", JInt (processed_at_ns p));
        (str "provider", JStr (provider p));
        (str "revision_at_ns", JInt (revision_at_ns p));
        (str "source_publication_time_ns", optional JInt (source_publication_time_ns p))].

Definition iso_json (d : date) : json := JStr (isoformat d).

Definition instrument_document (r : InstrumentRevision) : json :=
  JObj [(str "delisting_date", optional iso_json (delisting_date r));
        (str "effective_from_ns", JInt (effective_from_ns (in_effective r)));
        (str "effective_to_ns", optional JInt (effective_to_ns (in_effective r)));
        (str "instrument_id", JStr (instrument_hex (in_instrument_id r)));
        (str "listing_date", optional iso_json (listing_date r));
        (str "listing_venue", JStr (ListingVenue_value (in_listing_venue r)));
        (str "primary_symbol", JStr (primary_symbol r));
        (str "provenance", provenance_dict (in_provenance r));
        (str "revision_id", JStr (revision_id r));
        (str "security_type", JStr (SecurityType_value (security_type r)));
        (str "unresolved_fields", JArr (map JStr (unresolved_fields r)));
        (str "version", JInt (in_version r))].

Definition mapping_document (r : SymbolMappingRevision) : json :=
  JObj [(str "effective_from_ns", JInt (effective_from_ns (mp_effective r)));
        (str "effective_to_ns", optional JInt (effective_to_ns (mp_effective r)));
        (str "instrument_id", optional (fun i => JStr (instrument_hex i)) (mp_instrument_id r));
        (str "listing_venue", JStr (ListingVenue_value (mp_listing_venue r)));
        (str "mapping_id", JStr (mapping_id r));
        (str "provenance", provenance_dict (mp_provenance r));
        (str "status", JStr (MappingStatus_value (mp_status r)));
        (str "symbol", JStr (mp_symbol r));
        (str "version", JInt (mp_version r))].

Definition calendar_document (r : CalendarDayRevision) : json :=
  JObj [(str "calendar_id", JStr (cd_calendar_id r));
        (str "close_exchange_time_ns", optional JInt (close_exchange_time_ns r));
        (str "kind", JStr (CalendarDayKind_value (cd_kind r)));
        (str "open_exchange_time_ns", optional JInt (open_exchange_time_ns r));
        (str "provenance", provenance_dict (cd_provenance r));
        (str "session_date", iso_json (session_date r));
        (str "version", JInt (cd_version r))].

Definition action_document (r : CorporateActionRevision) : json :=
  JObj [(str "action_id", JStr (action_id r));
        (str "cash_dividend_currency_nanos", optional JInt (cash_dividend_currency_nanos r));
        (str "currency", optional JStr (currency r));
        (str "effective_time_ns", JInt (effective_time_ns r));
        (str "instrument_id", JStr (instrument_hex (ca_instrument_id r)));
        (str "kind", JStr (CorporateActionKind_value (kind r)));
        (str "provenance", provenance_dict (ca_provenance r));
        (str "split_denominator", optional (fun x => JInt (denominator x)) (split_new_shares_per_old r));
        (str "split_numerator", optional (fun x => JInt (numerator x)) (split_new_shares_per_old r));
        (str "version", JInt (ca_version r))].

Definition halt_document (r : HaltRevision) : json :=
  JObj [(str "end_exchange_time_ns", JInt (end_exchange_time_ns r));
        (str "halt_id", JStr (halt_id r));
        (str "instrument_id", JStr (instrument_hex (hl_instrument_id r)));
        (str "provenance", provenance_dict (hl_provenance r));
        (str "start_exchange_time_ns", JInt (start_exchange_time_ns r));
        (str "version", JInt (hl_version r))].

Definition reference_payload (s : ReferenceSnapshot) : list (pystr * json) :=
  [(str "as_of_ns", JInt (as_of_ns s));
   (str "calendar_days", JArr (map calendar_document (rs_calendar_days s)));
   (str "corporate_actions", JArr (map action_document (rs_corporate_actions s)));
   (str "halt_coverage_complete", JBool (halt_coverage_complete s));
   (str "halts", JArr (map halt_document (rs_halts s)));
   (str "instruments", JArr (map instrument_document (rs_instruments s)));
   (str "live_trading_capable", JBool false);
   (str "mappings", JArr (map mapping_document (rs_mappings s)));
   (str "schema_version", JStr (rs_schema_version s));
   (str "source_report_sha256", JStr (source_report_sha256 s));
   (str "universe_source_sha256", JStr (universe_source_sha256 s))].

(** [snapshot_document] *)
Definition snapshot_document (s : ReferenceSnapshot) : res (list (pystr * json)) :=
  document (reference_payload s).

(** ** Reports *)

Definition REFERENCE_REPORT_SCHEMA_VERSION : pystr := str "1.0.0".
Definition MAX_INPUT_BYTES : Z := 64 * 2 ^ 20.

Definition count_of {A} (f : A -> bool) (l : list A) : json := JInt (Z.of_nat (length (List.filter f l))).

Definition report_entry (r : SymbolMappingRevision) : json :=
  JObj [(str "current_mapping_status", JStr (MappingStatus_value (mp_status r)));
        (str "historical_mapping_status", JStr (str "UNRESOLVED"));
        (str "instrument_id", optional (fun i => JStr (instrument_hex i)) (mp_instrument_id r));
        (str "listing_venue", JStr (ListingVenue_value (mp_listing_venue r)));
        (str "symbol", JStr (mp_symbol r));
        (str "unresolved_fields",
         JArr (map (fun f => JStr (str f))
                 ["historical_symbol_mappings"; "listing_date"; "delisting_date"; "security_subtype";
                  "split_history"; "dividend_history"; "halt_history"]))].

Definition report_payload (s : ReferenceSnapshot) (snapshot_sha256 : pystr) : list (pystr * json) :=
  [(str "as_of_ns", JInt (as_of_ns s));
   (str "calendar",
    JObj [(str "calendar_days", JInt (Z.of_nat (length (rs_calendar_days s))));
          (str "early_close_sessions",
           count_of (fun r => bool_decide (cd_kind r = EARLY_CLOSE_SESSION)) (rs_calendar_days s));
          (str "halt_coverage_complete", JBool (halt_coverage_complete s));
          (str "sessions",
           count_of (fun r => bool_decide (cd_kind r = REGULAR_SESSION)
                              || bool_decide (cd_kind r = EARLY_CLOSE_SESSION)) (rs_calendar_days s));
          (str "weekday_closures_unclassified",
           count_of (fun r => bool_decide (cd_kind r = UNCLASSIFIED_CLOSURE)) (rs_calendar_days s))]);
   (str "counts",
    JObj [(str "current_only_resolved",
           count_of (fun r => bool_decide (mp_status r = RESOLVED_CURRENT_ONLY)) (rs_mappings s));
          (str "historically_complete", JInt 0);
          (str "requested", JInt (Z.of_nat (length (rs_mappings s))));
          (str "stable_instrument_ids",
           count_of (fun r => bool_decide (mp_instrument_id r <> None)) (rs_mappings s));
          (str "unsupported_venue",
           count_of (fun r => bool_decide (mp_status r = UNSUPPORTED_VENUE)) (rs_mappings s))]);
   (str "economic_value_claimed", JBool false);
   (str "entries", JArr (map report_entry (rs_mappings s)));
   (str "live_trading_capable", JBool false);
   (str "reference_snapshot_document_sha256", JStr snapshot_sha256);
   (str "safe_for_historical_training", JBool false);
   (str "schema_version", JStr REFERENCE_REPORT_SCHEMA_VERSION);
   (str "status", JStr (str "PARTIAL_REFERENCE_COVERAGE"));
   (str "unresolved_source_boundaries",
    JArr (map (fun t => JStr (str t))
            ["Nasdaq Trader persistent automated use is not authorized";
             "SEC current ticker mappings are not historical symbology";
             "authoritative historical actions, delistings, mappings, and halts are absent"]));
   (str "universe_source_sha256", JStr (universe_source_sha256 s))].

(** [resolution_report_document] *)
Definition resolution_report_document (s : ReferenceSnapshot) (snapshot_sha256 : pystr)
    : res (list (pystr * json)) :=
  document (report_payload s snapshot_sha256).

(** ** Artifacts *)

(** The bytes that [_write_json] writes. *)
Definition artifact_bytes (value : json) : res pybytes :=
  let! encoded := dumps value in Ok (encoded ++ [10]).

(** [verify_reference_artifact]; the argument is the result of reading the file. *)
Definition verify_reference_artifact (file : res pybytes) (expected_schema : pystr) : res pystr :=
  let! payload := try_except file [OSError]
                    (fun _ => ref_error INVALID_INPUT "reference artifact cannot be read") in
  do! ref_when (bool_decide (payload = []) || (MAX_INPUT_BYTES <? Z.of_nat (length payload)))
        INVALID_INPUT "reference artifact size is invalid" in
  let! value := try_except (loads_bytes payload) [UnicodeError; JSONDecodeError]
                  (fun _ => ref_error INVALID_INPUT "reference artifact is malformed") in
  do! verify_document value expected_schema in
  let! canonical := artifact_bytes value in
  do! ref_when (negb (bool_decide (payload = canonical))) INTEGRITY_FAILURE
        "artifact is not canonical JSON" in
  Ok (sha256_hex payload).

(** [alpaca_instrument_id] *)
Definition alpaca_instrument_id (asset_id : pystr) : res Identifier128 :=
  do! bounded_text asset_id 128 in
  do! ref_when (negb (forallb is_ascii asset_id)) INVALID_INPUT "asset_id must be ASCII" in
  let digest := sha256 (str "ALPACA-ASSET-V1:" ++ asset_id) in
  new_identifier (be_int (take 8 digest)) (be_int (take 8 (drop 8 digest))).

(** ** Documents that were read back *)

Lemma pop_key_norm k m : pop_key k (norm_members m) = norm_members (pop_key k m).
Proof.
  unfold pop_key, norm_members. rewrite (py_sorted_filter key_leb). f_equal.
  induction m as [|[k' v] m IH]; [done|]. cbn. by destruct (negb _); cbn; rewrite IH.
Qed.

Lemma canonical_digest_total v : ints_printable v = true -> exists d, canonical_digest v = Ok d.
Proof. intros [b Hb]%dumps_total. unfold canonical_digest. rewrite Hb. by eexists. Qed.

Lemma canonical_digest_norm m : canonical_digest (JObj (norm_members m)) = canonical_digest (JObj m).
Proof. unfold canonical_digest. by rewrite <- norm_obj_members, dumps_norm. Qed.

Lemma member_is_norm k s m :
  NoDup (map fst m) -> (k, JStr s) ∈ m -> member_is k s (norm_members m) = true.
Proof.
  intros Hnd Hin. unfold member_is. apply jget_elem in Hin; [|done].
  rewrite (jget_norm _ _ _ Hnd Hin). cbn. by apply bool_decide_eq_true.
Qed.

Lemma ok_no_float v : json_ok v -> has_float v = false.
Proof.
  induction v as [|b|n|x|s|l Hl|m Hm] using json_ind'; intros Hok; try done.
  - apply json_ok_arr in Hok. cbn. induction Hok as [|v l Hv _ IH]; [done|].
    apply Forall_cons in Hl as [H1 H2]. cbn. rewrite (H1 Hv). by apply IH.
  - apply json_ok_obj in Hok as [_ Hok]. cbn. induction Hok as [|[k v] m [_ Hv] _ IH]; [done|].
    apply Forall_cons in Hm as [H1 H2]. cbn in *. rewrite (H1 Hv). by apply IH.
Qed.

Lemma norm_ok v : json_ok v -> json_ok (norm v).
Proof.
  induction v as [|b|n|x|s|l Hl|m Hm] using json_ind'; intros Hok; try done.
  - cbn [norm]. apply json_ok_arr. apply json_ok_arr in Hok. apply Forall_fmap.
    rewrite Forall_forall in *. intros v Hv. by apply Hl, Hok.
  - rewrite norm_obj_members. apply json_ok_obj in Hok as [Hnd Hok]. apply json_ok_obj.
    split; [by rewrite norm_members_keys|]. rewrite norm_members_perm. apply Forall_fmap.
    rewrite Forall_forall in *. intros [k v] Hv. cbn. destruct (Hok _ Hv). split; [done|]. by apply (Hm _ Hv).
Qed.

Lemma pop_key_fresh k m : k ∉ map fst (pop_key k m).
Proof.
  intros ([k' v] & -> & Hin)%list_elem_of_fmap. apply elem_of_filter_b in Hin as [_ H]. cbn in H.
  apply negb_true_iff in H. by apply bool_decide_eq_false in H.
Qed.

Lemma pop_key_id k m : k ∉ map fst m -> pop_key k m = m.
Proof.
  induction m as [|[k' v] m IH]; [done|]. cbn. intros [H1 H2]%not_elem_of_cons.
  rewrite bool_decide_eq_false_2 by done. cbn. f_equal. by apply IH.
Qed.

(** The body and the digest of a document. *)
Lemma document_shape m d :
  json_ok (JObj m) -> document m = Ok d ->
  exists digest, d = pop_key document_key m ++ [(document_key, JStr digest)]
    /\ canonical_digest (JObj (pop_key document_key m)) = Ok digest
    /\ pop_key document_key d = pop_key document_key m /\ json_ok (JObj d).
Proof.
  intros Hok H. unfold document in H. apply rbind_ok in H as (digest & Hd & [= <-]). exists digest.
  split; [done|]. split; [done|]. set (body := pop_key document_key m) in *. split.
  - transitivity (pop_key document_key body ++ pop_key document_key [(document_key, JStr digest)]);
      [apply List.filter_app|].
    rewrite (pop_key_id document_key body) by apply pop_key_fresh. cbn. by rewrite app_nil_r.
  - apply json_ok_obj in Hok as [Hnd Hok]. apply json_ok_obj. rewrite map_app. split.
    + apply NoDup_app. split; [|split; [|apply NoDup_singleton]].
      * unfold body, pop_key. clear -Hnd. induction m as [|kv m IH]; [constructor|]. cbn in *.
        apply NoDup_cons in Hnd as [Hk Hnd]. destruct (negb _); cbn; [|by apply IH].
        apply NoDup_cons. split; [|by apply IH]. intros (kv' & E & Hin)%list_elem_of_fmap.
        apply elem_of_filter_b in Hin as [Hin _]. apply Hk. rewrite E. by apply list_elem_of_fmap_2.
      * intros k Hk Hd'. apply list_elem_of_singleton in Hd' as ->. by apply pop_key_fresh in Hk.
    + apply Forall_app. split.
      * rewrite Forall_forall in *. intros kv [Hin _]%elem_of_filter_b. by apply Hok.
      * apply Forall_singleton. split; [apply str_text_ok|]. cbn. apply rbind_ok in Hd as (e & _ & [= <-]).
        apply bytes_hex_text_ok, sha256_range.
Qed.

(** ** Properties *)

(** Reference artifacts verify exactly.  The file written for a document with the
    expected schema verifies and gives its own digest.  Conversely a file that
    verifies is, to the byte, the canonical text of an object, followed by a newline,
    whose digest member is the digest of its other members and whose schema is the
    expected one. *)
Theorem reference_artifact_exact schema :
  (forall payload d b,
     json_ok (JObj payload) -> (str "schema_version", JStr schema) ∈ payload ->
     document payload = Ok d -> artifact_bytes (JObj d) = Ok b ->
     Z.of_nat (length b) <= MAX_INPUT_BYTES ->
     verify_reference_artifact (Ok b) schema = Ok (sha256_hex b))
  /\ (forall file h, verify_reference_artifact file schema = Ok h ->
        exists m text digest,
          file = Ok (text ++ [10]) /\ h = sha256_hex (text ++ [10]) /\ dumps (JObj m) = Ok text
          /\ canonical_digest (JObj (pop_key document_key m)) = Ok digest
          /\ jget document_key m = Ok (JStr digest)
          /\ jget (str "schema_version") m = Ok (JStr schema)).
Proof.
  split.
  - intros payload d b Hok Hin Hd Hb Hlen.
    destruct (document_shape payload d Hok Hd) as (digest & Ed & Hdig & Hpop & Hokd).
    unfold artifact_bytes in Hb. apply rbind_ok in Hb as (text & Ht & [= <-]).
    unfold verify_reference_artifact. cbn [try_except rbind]. unfold ref_when.
    rewrite raise_when_false
      by (apply orb_false_iff; split; [by destruct text | apply Z.ltb_ge; exact Hlen]).
    cbn [rbind].
    rewrite (loads_bytes_line (JObj d) text Hokd Ht). cbn [try_except rbind].
    pose proof (proj1 (proj1 (json_ok_obj d) Hokd)) as Hnd. unfold verify_document.
    rewrite norm_obj_members. rewrite raise_when_false by (rewrite <- norm_obj_members; by apply ok_no_float, norm_ok).
    cbn [rbind]. rewrite pop_key_norm, canonical_digest_norm, Hpop, Hdig. cbn [rbind]. unfold ref_when.
    rewrite (member_is_norm document_key digest d Hnd) by (rewrite Ed; set_solver). cbn [negb raise_when rbind].
    rewrite (member_is_norm (str "schema_version") schema d Hnd).
    2:{ rewrite Ed. apply elem_of_app. left. apply elem_of_filter_b. by split. }
    cbn [negb raise_when rbind]. unfold artifact_bytes. rewrite <- norm_obj_members, dumps_norm, Ht. cbn [rbind].
    by rewrite bool_decide_eq_true_2.
  - intros file h H. unfold verify_reference_artifact in H. apply rbind_ok in H as (b & Hf & H).
    destruct file as [b'|e]; [|cbn in Hf; by destruct (_ || _)]. injection Hf as ->.
    apply rbind_ok in H as (? & _ & H). apply rbind_ok in H as (v & _ & H). apply rbind_ok in H as (m & Hv & H).
    apply rbind_ok in H as (c & Hc & H). apply rbind_ok in H as (? & Heq & [= <-]).
    apply raise_when_ok in Heq. bprop. subst c. unfold artifact_bytes in Hc. apply rbind_ok in Hc as (text & Ht & [= <-]).
    destruct v as [| | | | | |m']; cbn in Hv; try done. apply rbind_ok in Hv as (? & _ & Hv).
    apply rbind_ok in Hv as (digest & Hdig & Hv). apply rbind_ok in Hv as (? & H1 & Hv).
    apply rbind_ok in Hv as (? & H2 & [= <-]). apply raise_when_ok in H1. apply raise_when_ok in H2. bprop.
    exists m', text, digest. split_and!; try done; unfold member_is in *.
    + destruct (jget document_key m') as [[]|]; try done. bprop. by subst.
    + destruct (jget (str "schema_version") m') as [[]|]; try done. bprop. by subst.
Qed.
