(* ===== verification/CanonicalMinute.v ===== *)
(** * Canonical minute bars

    Models the normalisation half of
    [python/research/aegis_mx_research/canonical_minute.py]: tick-size revisions, the
    resolver that binds a minute to its reference data, the conversion of decimal
    prices to integer ticks, the canonical record with its digest, and its decoding.
    Prices are [decimal.Decimal] or [int]; a [bool], which Python counts as an [int],
    is a constructor of its own.  The calendar date of an instant in New York, which
    the operating system's time-zone database gives, is the parameter [session_zone]. *)

From S2P Require Import Prelude PyText Json Sha256 PyDecimal PyDateTime ForecastDomain Universe ReferenceData ReferenceDocuments.

Open Scope Z_scope.

Definition CANONICAL_MINUTE_SCHEMA_VERSION : pystr := str "1.0.0".
Definition NANOSECONDS_PER_MINUTE : Z := 60000000000.
Definition CURRENCY_NANOS_PER_UNIT : Z := 1000000000.
Definition SHA256_HEX_LENGTH : Z := 64.

Inductive RawPriceEncoding := CURRENCY_UNITS_DECIMAL | RESOLVED_TICKS.
Inductive MinuteDataQuality := VALID | DEGRADED.
#[export] Instance RawPriceEncoding_eq_dec : EqDecision RawPriceEncoding.
Proof. solve_decision. Defined.
#[export] Instance MinuteDataQuality_eq_dec : EqDecision MinuteDataQuality.
Proof. solve_decision. Defined.

Definition MinuteDataQuality_value (q : MinuteDataQuality) : pystr :=
  str match q with VALID => "VALID" | DEGRADED => "DEGRADED" end.

Definition minute_error {A} (code : MinuteNormalizationCode) (msg : string) : res A :=
  raise (MinuteNormalizationError code) msg.
Definition minute_when (b : bool) (code : MinuteNormalizationCode) (msg : string) : res unit :=
  raise_when b (MinuteNormalizationError code) msg.

(** [_require_sha256] *)
Definition require_sha256 (value : pystr) : res unit :=
  minute_when (negb (Z.of_nat (length value) =? SHA256_HEX_LENGTH)
               || negb (bool_decide (lower value = value))
               || existsb (fun c => negb (is_decimal c || in_range 97 102 c)) value
               || negb (existsb (fun c => negb (c =? 48)) value))
    INVALID_SOURCE "value is not a SHA-256".

(** [_require_int64] *)
Definition require_int64 (value : Z) (allow_zero : bool) : res unit :=
  minute_when (negb (((if allow_zero then 0 else 1) <=? value) && (value <=? MAX_INT64)))
    INVALID_QUANTITY "value is outside the accepted int64 range".

(** ** Tick sizes *)

Record TickSizeRevision := {
  tk_revision_id : pystr;
  tk_symbol : pystr;
  tick_value_currency_nanos : Z;
  tk_currency : pystr;
  tk_effective_from_ns : Z;
  tk_effective_to_ns : option Z;
  tk_available_at_ns : Z;
  tk_version : Z;
  tk_source_sha256 : pystr;
  tk_historical_completeness : bool;
}.

Definition TickSizeRevision_post_init (r : TickSizeRevision) : res unit :=
  do! minute_when (bool_decide (tk_revision_id r = []) || bool_decide (tk_symbol r = [])
                   || bool_decide (tk_currency r = []))
        MISSING_TICK_SIZE "tick revision identity is incomplete" in
  do! require_int64 (tick_value_currency_nanos r) false in
  do! require_int64 (tk_effective_from_ns r) false in
  do! require_int64 (tk_available_at_ns r) false in
  do! match tk_effective_to_ns r with
      | None => Ok tt
      | Some to =>
          do! require_int64 to false in
          minute_when (to <=? tk_effective_from_ns r) MISSING_TICK_SIZE
            "tick validity interval is empty"
      end in
  do! minute_when (tk_version r <=? 0) MISSING_TICK_SIZE "tick revision version is invalid" in
  require_sha256 (tk_source_sha256 r).

(** [effective_at] *)
Definition tick_effective_at (r : TickSizeRevision) (event_time : Z) : bool :=
  (tk_effective_from_ns r <=? event_time)
  && match tk_effective_to_ns r with None => true | Some to => event_time <? to end.

Record TickSizeStore := {
  ticks_by_symbol : gmap pystr (list TickSizeRevision);
  ticks_sha256 : pystr;
}.

Definition tick_document (r : TickSizeRevision) : json :=
  JObj [(str "available_at_ns", JInt (tk_available_at_ns r));
        (str "currency", JStr (tk_currency r));
        (str "effective_from_ns", JInt (tk_effective_from_ns r));
        (str "effective_to_ns", optional JInt (tk_effective_to_ns r));
        (str "historical_completeness", JBool (tk_historical_completeness r));
        (str "revision_id", JStr (tk_revision_id r));
        (str "source_sha256", JStr (tk_source_sha256 r));
        (str "symbol", JStr (tk_symbol r));
        (str "tick_value_currency_nanos", JInt (tick_value_currency_nanos r));
        (str "version", JInt (tk_version r))].

(** The check of one symbol's revisions. *)
Definition check_ticks (l : list TickSizeRevision) : res unit :=
  let versions := py_sorted (pair_leb Z.leb Z.leb)
                    (map (fun r => (tk_version r, tk_available_at_ns r)) l) in
  do! minute_when (negb (bool_decide (map fst versions = seqZ 1 (Z.of_nat (length versions)))))
        MISSING_TICK_SIZE "tick revisions are not contiguous" in
  minute_when (existsb (fun pc => pc.2.2 <=? pc.1.2) (pairwise versions)) MISSING_TICK_SIZE
    "tick revisions do not advance knowledge time".

(** The symbols in the order of their first revision. *)
Definition tick_groups (l : list TickSizeRevision) : list (pystr * list TickSizeRevision) :=
  foldl (fun m r => od_set (tk_symbol r) (default [] (od_get (tk_symbol r) m) ++ [r]) m) [] l.

(** The value that the digest of a store covers. *)
Definition tick_documents (revisions : list TickSizeRevision) : json :=
  JArr (map tick_document
          (py_sorted (leb_on (fun r => (tk_symbol r, tk_version r)) (pair_leb pystr_leb Z.leb)) revisions)).

(** [TickSizeStore(revisions)] *)
Definition new_tick_store (revisions : list TickSizeRevision) : res TickSizeStore :=
  let by_symbol := tick_groups revisions in
  do! res_iter (fun kv => check_ticks kv.2) by_symbol in
  let! digest := canonical_digest (tick_documents revisions) in
  Ok {| ticks_by_symbol := list_to_map by_symbol; ticks_sha256 := digest |}.

(** [min(l, key=...)]: the first least element. *)
Definition py_min {A} (leb : A -> A -> bool) (l : list A) : option A :=
  match l with
  | [] => None
  | x :: t => Some (foldl (fun best y => if leb best y then best else y) x t)
  end.

(** [TickSizeStore.at] *)
Definition tick_at (st : TickSizeStore) (symbol : pystr) (event_time known_at : Z)
    : res TickSizeRevision :=
  let candidates :=
    List.filter (fun r => (tk_available_at_ns r <=? known_at) && tick_effective_at r event_time)
      (default [] (ticks_by_symbol st !! symbol)) in
  match py_max Z.leb (map tk_version candidates) with
  | None => minute_error MISSING_TICK_SIZE "no known tick-size revision"
  | Some latest_version =>
      let latest := List.filter (fun r => tk_version r =? latest_version) candidates in
      match py_min (leb_on tk_revision_id pystr_leb) latest with
      | Some r => Ok r
      | None => raise ValueError "min() arg is an empty sequence"
      end
  end.

(** ** Resolving a minute *)

Record ResolvedMinuteReference := {
  rf_instrument_id : pystr;
  rf_market_id : pystr;
  rf_mapping_id : pystr;
  rf_instrument_revision_id : pystr;
  rf_tick_revision_id : pystr;
  rf_tick_value_currency_nanos : Z;
  rf_currency : pystr;
  rf_session_id : pystr;
  rf_trading_date : date;
  rf_session_open_ns : Z;
  rf_session_close_ns : Z;
  rf_corporate_action_ids : list pystr;
  rf_reference_sha256 : pystr;
  rf_quality_reasons : list pystr;
}.

(** [MinuteReferenceResolver.resolve]: symbol, event time and knowledge time. *)
Definition minute_resolver : Type := pystr -> Z -> Z -> res ResolvedMinuteReference.

Record ReferenceStoreMinuteResolver := {
  rs_reference : PointInTimeReferenceStore;
  rs_ticks : TickSizeStore;
  rs_reference_sha256 : pystr;
}.

Definition new_minute_resolver (reference : PointInTimeReferenceStore) (ticks : TickSizeStore)
    : res ReferenceStoreMinuteResolver :=
  let! reference_document := snapshot_document (snapshot reference) in
  let! document_sha256 := jget document_key reference_document in
  let! digest := canonical_digest
                   (JObj [(str "reference_snapshot_sha256", document_sha256);
                          (str "tick_snapshot_sha256", JStr (ticks_sha256 ticks))]) in
  Ok {| rs_reference := reference; rs_ticks := ticks; rs_reference_sha256 := digest |}.

(** [except ReferenceDataError] *)
Definition reference_errors : list exn_class :=
  map ReferenceDataError
    [INVALID_INPUT; INTEGRITY_FAILURE; CONFLICT; MISSING_CALENDAR; INEXACT_ARITHMETIC;
     INTEGER_OVERFLOW; UNSUPPORTED_SCHEMA; UNRESOLVED].

Definition eligible_status (s : MappingStatus) : bool :=
  match s with
  | RESOLVED_CURRENT_ONLY | MS_RECENTLY_LISTED | MS_DELISTED => true
  | _ => false
  end.

Definition is_session (k : CalendarDayKind) : bool :=
  match k with REGULAR_SESSION | EARLY_CLOSE_SESSION => true | _ => false end.

(** The reasons for a degraded minute, in the order they are appended. *)
Definition history_reasons (m : SymbolMappingRevision) (i : InstrumentRevision) (c : CalendarDayRevision)
    (t : TickSizeRevision) (halts_complete : bool) : list pystr :=
  (if historical_completeness (mp_provenance m) then [] else [str "MAPPING_HISTORY_INCOMPLETE"])
  ++ (if historical_completeness (in_provenance i) then [] else [str "INSTRUMENT_HISTORY_INCOMPLETE"])
  ++ (if historical_completeness (cd_provenance c) then [] else [str "CALENDAR_HISTORY_INCOMPLETE"])
  ++ (if tk_historical_completeness t then [] else [str "TICK_HISTORY_INCOMPLETE"])
  ++ (if halts_complete then [] else [str "HALT_HISTORY_INCOMPLETE"]).

Section resolver.
Context (session_zone : Z -> date).

(** [ReferenceStoreMinuteResolver.resolve] *)
Definition resolve_minute (r : ReferenceStoreMinuteResolver) : minute_resolver :=
  fun symbol event_time known_at =>
  let! mapping := try_except (symbol_mapping_at (rs_reference r) symbol event_time known_at)
                    reference_errors
                    (fun _ => minute_error MN_MISSING_REFERENCE
                                "symbol mapping cannot be resolved without conflict") in
  match mapping with
  | None => minute_error MN_MISSING_REFERENCE "symbol has no eligible point-in-time mapping"
  | Some m =>
  match mp_instrument_id m with
  | None => minute_error MN_MISSING_REFERENCE "symbol has no eligible point-in-time mapping"
  | Some instrument_id =>
  do! minute_when (negb (eligible_status (mp_status m))) MN_MISSING_REFERENCE
        "symbol has no eligible point-in-time mapping" in
  let! found := instrument_at (rs_reference r) instrument_id event_time known_at in
  match found with
  | None => minute_error MN_MISSING_REFERENCE "symbol has no point-in-time instrument revision"
  | Some instrument =>
  let! tick := tick_at (rs_ticks r) symbol event_time known_at in
  let trading_date := session_zone (event_time / CURRENCY_NANOS_PER_UNIT) in
  let! calendar := try_except (calendar_day_at (rs_reference r) trading_date known_at)
                     reference_errors
                     (fun _ => minute_error MN_MISSING_CALENDAR "calendar is unavailable") in
  match open_exchange_time_ns calendar, close_exchange_time_ns calendar with
  | Some opened, Some closed =>
      do! minute_when (negb (is_session (cd_kind calendar)) || (event_time <? opened)
                       || (closed <? event_time + NANOSECONDS_PER_MINUTE))
            OUTSIDE_SESSION "minute is outside the explicit regular session" in
      let! halts := halts_at (rs_reference r) instrument_id event_time
                      (event_time + NANOSECONDS_PER_MINUTE) known_at in
      do! minute_when (negb (bool_decide (length halts = 0%nat))) OUTSIDE_SESSION
            "minute intersects a known trading halt" in
      let reasons := history_reasons m instrument calendar tick
                       (halt_coverage_complete (snapshot (rs_reference r))) in
      let! session := canonical_digest
                        (JObj [(str "calendar_id", JStr (cd_calendar_id calendar));
                               (str "close_ns", JInt closed);
                               (str "date", JStr (isoformat trading_date));
                               (str "open_ns", JInt opened)]) in
      let! actions := corporate_actions_at (rs_reference r) instrument_id event_time known_at in
      Ok {| rf_instrument_id := instrument_hex instrument_id;
            rf_market_id := ListingVenue_value (mp_listing_venue m);
            rf_mapping_id := mapping_id m;
            rf_instrument_revision_id := revision_id instrument;
            rf_tick_revision_id := tk_revision_id tick;
            rf_tick_value_currency_nanos := tick_value_currency_nanos tick;
            rf_currency := tk_currency tick;
            rf_session_id := take 32 session;
            rf_trading_date := trading_date;
            rf_session_open_ns := opened;
            rf_session_close_ns := closed;
            rf_corporate_action_ids := map action_id actions;
            rf_reference_sha256 := rs_reference_sha256 r;
            rf_quality_reasons := py_sorted pystr_leb reasons |}
  | _, _ => minute_error OUTSIDE_SESSION "minute is outside the explicit regular session"
  end end end end.
End resolver.

(** ** Raw bars and canonical records *)

(** [Decimal | int] *)
Inductive price :=
  | PDecimal (d : decimal)
  | PInt (n : Z)
  | PBool (b : bool).

Record RawMinuteBar := {
  rw_symbol : pystr;
  rw_minute_start : Z;
  open_value : price;
  high_value : price;
  low_value : price;
  close_value : price;
  rw_volume : Z;
  rw_trade_count : option Z;
  vwap_value : option price;
  price_encoding : RawPriceEncoding;
  rw_source_manifest_id : pystr;
  rw_source_object_id : pystr;
  rw_source_record_id : pystr;
  rw_publication_time : option Z;
  rw_availability_time : Z;
  rw_receipt_time : Z;
  rw_processing_time : Z;
  rw_market_id : option pystr;
}.

Record CanonicalMinuteRecord := {
  cm_instrument_id : pystr;
  cm_source_ticker : pystr;
  cm_market_id : pystr;
  cm_session_id : pystr;
  cm_trading_date : date;
  cm_minute_start : Z;
  cm_minute_end : Z;
  cm_session_open : Z;
  cm_session_close : Z;
  cm_currency : pystr;
  cm_tick_value : Z;
  cm_open_ticks : Z;
  cm_high_ticks : Z;
  cm_low_ticks : Z;
  cm_close_ticks : Z;
  cm_volume_shares : Z;
  cm_trade_count : option Z;
  cm_vwap_ticks : option Z;
  cm_publication_time : option Z;
  cm_availability_time : Z;
  cm_receipt_time : Z;
  cm_processing_time : Z;
  cm_quality_state : MinuteDataQuality;
  cm_quality_reasons : list pystr;
  cm_source_manifest_id : pystr;
  cm_source_object_id : pystr;
  cm_source_record_id : pystr;
  cm_mapping_id : pystr;
  cm_instrument_revision_id : pystr;
  cm_tick_revision_id : pystr;
  cm_corporate_action_ids : list pystr;
  cm_reference_sha256 : pystr;
  cm_record_sha256 : pystr;
  cm_schema_version : pystr;
}.

Definition texts (l : list pystr) : json := JArr (map JStr l).

(** [payload(include_hash=False)]: the members without the digest. *)
Definition body (r : CanonicalMinuteRecord) : list (pystr * json) :=
  [(str "close_ticks", JInt (cm_close_ticks r));
   (str "corporate_action_ids", texts (cm_corporate_action_ids r));
   (str "currency", JStr (cm_currency r));
   (str "data_quality_reasons", texts (cm_quality_reasons r));
   (str "data_quality_state", JStr (MinuteDataQuality_value (cm_quality_state r)));
   (str "high_ticks", JInt (cm_high_ticks r));
   (str "instrument_id", JStr (cm_instrument_id r));
   (str "instrument_revision_id", JStr (cm_instrument_revision_id r));
   (str "local_processing_time_ns", JInt (cm_processing_time r));
   (str "local_receipt_time_ns", JInt (cm_receipt_time r));
   (str "low_ticks", JInt (cm_low_ticks r));
   (str "mapping_id", JStr (cm_mapping_id r));
   (str "market_id", JStr (cm_market_id r));
   (str "minute_end_exchange_time_ns", JInt (cm_minute_end r));
   (str "minute_start_exchange_time_ns", JInt (cm_minute_start r));
   (str "open_ticks", JInt (cm_open_ticks r));
   (str "price_unit", JStr (str "TICKS"));
   (str "quantity_unit", JStr (str "SHARES"));
   (str "reference_sha256", JStr (cm_reference_sha256 r));
   (str "schema_version", JStr (cm_schema_version r));
   (str "session_close_exchange_time_ns", JInt (cm_session_close r));
   (str "session_id", JStr (cm_session_id r));
   (str "session_open_exchange_time_ns", JInt (cm_session_open r));
   (str "source_availability_time_ns", JInt (cm_availability_time r));
   (str "source_manifest_id", JStr (cm_source_manifest_id r));
   (str "source_object_id", JStr (cm_source_object_id r));
   (str "source_publication_time_ns", optional JInt (cm_publication_time r));
   (str "source_record_id", JStr (cm_source_record_id r));
   (str "source_ticker", JStr (cm_source_ticker r));
   (str "tick_revision_id", JStr (cm_tick_revision_id r));
   (str "tick_value_currency_nanos", JInt (cm_tick_value r));
   (str "trade_count", optional JInt (cm_trade_count r));
   (str "trading_date", JStr (isoformat (cm_trading_date r)));
   (str "volume_shares", JInt (cm_volume_shares r));
   (str "vwap_ticks", optional JInt (cm_vwap_ticks r))].

(** [payload()]; the position of the digest in the dictionary does not matter, since
    every use sorts the members. *)
Definition payload (r : CanonicalMinuteRecord) : json :=
  JObj ((str "record_sha256", JStr (cm_record_sha256 r)) :: body r).

(** [_digest(payload(include_hash=False))] *)
Definition record_digest (r : CanonicalMinuteRecord) : res pystr := canonical_digest (JObj (body r)).

(** [economic_hash] *)
Definition economic_hash (r : CanonicalMinuteRecord) : res pystr :=
  canonical_digest
    (JObj [(str "close_ticks", JInt (cm_close_ticks r));
           (str "high_ticks", JInt (cm_high_ticks r));
           (str "instrument_id", JStr (cm_instrument_id r));
           (str "low_ticks", JInt (cm_low_ticks r));
           (str "market_id", JStr (cm_market_id r));
           (str "minute_start_exchange_time_ns", JInt (cm_minute_start r));
           (str "open_ticks", JInt (cm_open_ticks r));
           (str "tick_value_currency_nanos", JInt (cm_tick_value r));
           (str "trade_count", optional JInt (cm_trade_count r));
           (str "volume_shares", JInt (cm_volume_shares r));
           (str "vwap_ticks", optional JInt (cm_vwap_ticks r))]).

(** ** Normalisation *)

(** [_currency_nanos] *)
Definition currency_nanos (value : price) : res Z :=
  let invalid := minute_error INVALID_PRICE "price is not finite decimal" in
  match value with
  | PBool _ => minute_error INVALID_PRICE "boolean price is invalid"
  | PDecimal _ | PInt _ =>
      let decimal_value := match value with PDecimal d => d | PInt n => decimal_of_int n
                                          | PBool _ => QuietNaN end in
      let! scaled := try_except (decimal_mul_int decimal_value CURRENCY_NANOS_PER_UNIT)
                       [DecimalInvalidOperation; TypeError; ValueError] (fun _ => invalid) in
      match decimal_value, scaled with
      | Finite _ _ _, Finite negative c e =>
          do! minute_when (negb (is_integral c e)) INEXACT_PRICE
                "price cannot be represented in currency nanos" in
          let result := decimal_int negative c e in
          do! minute_when (negb ((0 <? result) && (result <=? MAX_INT64))) INVALID_PRICE
                "price is outside int64 range" in
          Ok result
      | _, _ => minute_error INEXACT_PRICE "price cannot be represented in currency nanos"
      end
  end.

(** [_ticks] *)
Definition ticks (value : price) (encoding : RawPriceEncoding) (tick_value : Z) : res Z :=
  match encoding with
  | RESOLVED_TICKS =>
      match value with
      | PInt n =>
          do! minute_when (negb ((0 <? n) && (n <=? MAX_INT64))) INVALID_PRICE
                "resolved tick price is outside int64 range" in Ok n
      | _ => minute_error INVALID_PRICE "resolved tick price is outside int64 range"
      end
  | CURRENCY_UNITS_DECIMAL =>
      let! nanos := currency_nanos value in
      do! raise_when (tick_value =? 0) ZeroDivisionError "integer division or modulo by zero" in
      do! minute_when (negb (nanos mod tick_value =? 0)) INEXACT_PRICE
            "price is not an exact multiple of its known tick size" in
      Ok (nanos / tick_value)
  end.

(** The checks on a raw bar before its reference data is resolved. *)
Definition check_raw (raw : RawMinuteBar) : res unit :=
  do! require_int64 (rw_minute_start raw) false in
  do! minute_when (negb (rw_minute_start raw mod NANOSECONDS_PER_MINUTE =? 0)) TIMESTAMP_DISORDER
        "minute start is not aligned to an exchange-time minute" in
  do! minute_when (MAX_INT64 - NANOSECONDS_PER_MINUTE <? rw_minute_start raw) TIMESTAMP_DISORDER
        "minute end overflows int64" in
  do! require_int64 (rw_volume raw) true in
  do! match rw_trade_count raw with None => Ok tt | Some n => require_int64 n true end in
  do! res_iter (fun v => require_int64 v false)
        [rw_availability_time raw; rw_receipt_time raw; rw_processing_time raw] in
  do! match rw_publication_time raw with
      | None => Ok tt
      | Some published =>
          do! require_int64 published false in
          minute_when (rw_availability_time raw <? published) TIMESTAMP_DISORDER
            "availability precedes publication"
      end in
  minute_when ((rw_receipt_time raw <? rw_availability_time raw)
               || (rw_processing_time raw <? rw_receipt_time raw)) TIMESTAMP_DISORDER
    "source/local availability timestamps are disordered".

(** [sorted(set(reasons))] *)
Definition distinct_sorted (l : list pystr) : list pystr :=
  py_sorted pystr_leb (elements (list_to_set l : gset pystr)).

(** The record built from a bar, its reference and its prices in ticks. *)
Definition canonical_record (raw : RawMinuteBar) (ref : ResolvedMinuteReference)
    (o h l c : Z) (vwap : option Z) (digest : pystr) : CanonicalMinuteRecord :=
  let reasons := rf_quality_reasons ref
                 ++ match rw_publication_time raw with
                    | None => [str "SOURCE_PUBLICATION_TIME_UNAVAILABLE"]
                    | Some _ => []
                    end in
  {| cm_instrument_id := rf_instrument_id ref;
     cm_source_ticker := rw_symbol raw;
     cm_market_id := match rw_market_id raw with
                     | Some (x :: t) => x :: t
                     | _ => rf_market_id ref
                     end;
     cm_session_id := rf_session_id ref;
     cm_trading_date := rf_trading_date ref;
     cm_minute_start := rw_minute_start raw;
     cm_minute_end := rw_minute_start raw + NANOSECONDS_PER_MINUTE;
     cm_session_open := rf_session_open_ns ref;
     cm_session_close := rf_session_close_ns ref;
     cm_currency := rf_currency ref;
     cm_tick_value := rf_tick_value_currency_nanos ref;
     cm_open_ticks := o; cm_high_ticks := h; cm_low_ticks := l; cm_close_ticks := c;
     cm_volume_shares := rw_volume raw;
     cm_trade_count := rw_trade_count raw;
     cm_vwap_ticks := vwap;
     cm_publication_time := rw_publication_time raw;
     cm_availability_time := rw_availability_time raw;
     cm_receipt_time := rw_receipt_time raw;
     cm_processing_time := rw_processing_time raw;
     cm_quality_state := if bool_decide (reasons = []) then VALID else DEGRADED;
     cm_quality_reasons := distinct_sorted reasons;
     cm_source_manifest_id := rw_source_manifest_id raw;
     cm_source_object_id := rw_source_object_id raw;
     cm_source_record_id := rw_source_record_id raw;
     cm_mapping_id := rf_mapping_id ref;
     cm_instrument_revision_id := rf_instrument_revision_id ref;
     cm_tick_revision_id := rf_tick_revision_id ref;
     cm_corporate_action_ids := rf_corporate_action_ids ref;
     cm_reference_sha256 := rf_reference_sha256 ref;
     cm_record_sha256 := digest;
     cm_schema_version := CANONICAL_MINUTE_SCHEMA_VERSION |}.

Section normalizer.
Context (resolve : minute_resolver).

(** [CanonicalMinuteNormalizer.normalize] *)
Definition normalize (raw : RawMinuteBar) : res CanonicalMinuteRecord :=
  do! check_raw raw in
  let! ref := resolve (rw_symbol raw) (rw_minute_start raw) (rw_processing_time raw) in
  let in_ticks v := ticks v (price_encoding raw) (rf_tick_value_currency_nanos ref) in
  let! o := in_ticks (open_value raw) in
  let! h := in_ticks (high_value raw) in
  let! l := in_ticks (low_value raw) in
  let! c := in_ticks (close_value raw) in
  do! minute_when ((h <? l) || negb ((l <=? o) && (o <=? h) && ((l <=? c) && (c <=? h))))
        INVALID_PRICE "OHLC values violate bar invariants" in
  let! vwap := match vwap_value raw with
               | None => Ok None
               | Some v => let! t := in_ticks v in Ok (Some t)
               end in
  let record := canonical_record raw ref o h l c vwap in
  let! digest := record_digest (record (repeat 48 64)) in
  Ok (record digest).
End normalizer.

(** ** Decoding *)

(** Members of a decoded document.  The source casts them without a check; a member
    of another type than the declared one is not described. *)
Definition text_member (k : string) (m : list (pystr * json)) : res pystr :=
  let! v := jget (str k) m in
  match v with JStr s => Ok s | _ => raise Undescribed "member is not text" end.
Definition int_member (k : string) (m : list (pystr * json)) : res Z :=
  let! v := jget (str k) m in
  match v with JInt n => Ok n | _ => raise Undescribed "member is not an integer" end.
Definition optional_int_member (k : string) (m : list (pystr * json)) : res (option Z) :=
  let! v := jget (str k) m in
  match v with
  | JNull => Ok None
  | JInt n => Ok (Some n)
  | _ => raise Undescribed "member is not an integer"
  end.
Definition texts_member (k : string) (m : list (pystr * json)) : res (list pystr) :=
  let! v := jget (str k) m in
  match v with
  | JArr l => res_map (fun x => match x with
                                | JStr s => Ok s
                                | _ => raise Undescribed "element is not text"
                                end) l
  | JNull | JBool _ | JInt _ => raise TypeError "object is not iterable"
  | _ => raise Undescribed "member is not an array"
  end.
Definition date_member (k : string) (m : list (pystr * json)) : res date :=
  let! v := jget (str k) m in
  match v with
  | JStr s => fromisoformat s
  | _ => raise TypeError "fromisoformat: argument must be str"
  end.
Definition state_member (k : string) (m : list (pystr * json)) : res MinuteDataQuality :=
  let! v := jget (str k) m in
  match v with
  | JStr s => if bool_decide (s = str "VALID") then Ok VALID
              else if bool_decide (s = str "DEGRADED") then Ok DEGRADED
              else raise ValueError "not a valid MinuteDataQuality"
  | _ => raise ValueError "not a valid MinuteDataQuality"
  end.

Definition decode_minute (m : list (pystr * json)) : res CanonicalMinuteRecord :=
  let! instrument_id := text_member "instrument_id" m in
  let! source_ticker := text_member "source_ticker" m in
  let! market_id := text_member "market_id" m in
  let! session_id := text_member "session_id" m in
  let! trading_date := date_member "trading_date" m in
  let! minute_start := int_member "minute_start_exchange_time_ns" m in
  let! minute_end := int_member "minute_end_exchange_time_ns" m in
  let! session_open := int_member "session_open_exchange_time_ns" m in
  let! session_close := int_member "session_close_exchange_time_ns" m in
  let! currency := text_member "currency" m in
  let! tick_value := int_member "tick_value_currency_nanos" m in
  let! open_ticks := int_member "open_ticks" m in
  let! high_ticks := int_member "high_ticks" m in
  let! low_ticks := int_member "low_ticks" m in
  let! close_ticks := int_member "close_ticks" m in
  let! volume_shares := int_member "volume_shares" m in
  let! trade_count := optional_int_member "trade_count" m in
  let! vwap_ticks := optional_int_member "vwap_ticks" m in
  let! publication := optional_int_member "source_publication_time_ns" m in
  let! availability := int_member "source_availability_time_ns" m in
  let! receipt := int_member "local_receipt_time_ns" m in
  let! processing := int_member "local_processing_time_ns" m in
  let! state := state_member "data_quality_state" m in
  let! reasons := texts_member "data_quality_reasons" m in
  let! source_manifest_id := text_member "source_manifest_id" m in
  let! source_object_id := text_member "source_object_id" m in
  let! source_record_id := text_member "source_record_id" m in
  let! mapping_id := text_member "mapping_id" m in
  let! instrument_revision_id := text_member "instrument_revision_id" m in
  let! tick_revision_id := text_member "tick_revision_id" m in
  let! corporate_action_ids := texts_member "corporate_action_ids" m in
  let! reference_sha256 := text_member "reference_sha256" m in
  let! record_sha256 := text_member "record_sha256" m in
  let! schema_version := text_member "schema_version" m in
  Ok {| cm_instrument_id := instrument_id; cm_source_ticker := source_ticker;
        cm_market_id := market_id; cm_session_id := session_id; cm_trading_date := trading_date;
        cm_minute_start := minute_start; cm_minute_end := minute_end;
        cm_session_open := session_open; cm_session_close := session_close;
        cm_currency := currency; cm_tick_value := tick_value; cm_open_ticks := open_ticks;
        cm_high_ticks := high_ticks; cm_low_ticks := low_ticks; cm_close_ticks := close_ticks;
        cm_volume_shares := volume_shares; cm_trade_count := trade_count;
        cm_vwap_ticks := vwap_ticks; cm_publication_time := publication;
        cm_availability_time := availability; cm_receipt_time := receipt;
        cm_processing_time := processing; cm_quality_state := state;
        cm_quality_reasons := reasons; cm_source_manifest_id := source_manifest_id;
        cm_source_object_id := source_object_id; cm_source_record_id := source_record_id;
        cm_mapping_id := mapping_id; cm_instrument_revision_id := instrument_revision_id;
        cm_tick_revision_id := tick_revision_id; cm_corporate_action_ids := corporate_action_ids;
        cm_reference_sha256 := reference_sha256; cm_record_sha256 := record_sha256;
        cm_schema_version := schema_version |}.

(** [CanonicalMinuteRecord.from_bytes] *)
Definition from_bytes (encoded : pybytes) : res CanonicalMinuteRecord :=
  let! record :=
    try_except (let! value := loads_bytes encoded in
                match value with
                | JObj m => decode_minute m
                | _ => raise TypeError ""
                end)
      [KeyError; TypeError; ValueError; JSONDecodeError]
      (fun _ => minute_error CORRUPT_SPOOL "stored canonical minute is malformed") in
  do! minute_when (negb (bool_decide (cm_schema_version record = CANONICAL_MINUTE_SCHEMA_VERSION)))
        CORRUPT_SPOOL "stored canonical minute hash or schema is invalid" in
  let! digest := record_digest record in
  do! minute_when (negb (bool_decide (digest = cm_record_sha256 record))) CORRUPT_SPOOL
        "stored canonical minute hash or schema is invalid" in
  Ok record.

(** ** Prices *)

Lemma scale_pos c : 0 <= c -> 0 <= c * Z.abs CURRENCY_NANOS_PER_UNIT.
Proof. unfold CURRENCY_NANOS_PER_UNIT. lia. Qed.

(** The amount of a price in nanos is an integer [v]. *)
Definition nanos_of (c e v : Z) : Prop := equals_int (c * CURRENCY_NANOS_PER_UNIT) e v.

Lemma nanos_accepted c e v :
  0 < c -> 0 < v <= MAX_INT64 -> nanos_of c e v ->
  currency_nanos (PDecimal (Finite false c e)) = Ok v.
Proof.
  intros Hc Hv Heq. unfold currency_nanos. cbn [decimal_mul_int].
  change (xorb false (CURRENCY_NANOS_PER_UNIT <? 0)) with false.
  change (Z.abs CURRENCY_NANOS_PER_UNIT) with CURRENCY_NANOS_PER_UNIT.
  destruct (decimal_fix_int (c * CURRENCY_NANOS_PER_UNIT) e v) as (c' & e' & -> & Hc' & Heq');
    [unfold MAX_INT64 in Hv; lia | exact Heq | unfold CURRENCY_NANOS_PER_UNIT; lia |].
  cbn [try_except rbind]. apply equals_int_spec in Heq' as [Hi Hd]; [|done].
  unfold minute_when. rewrite Hi, Hd. cbn [negb raise_when rbind]. by rewrite raise_when_false by lia.
Qed.

Lemma integral_tiny c : 0 <= c <= 10 ^ precision -> is_integral c Etiny = true -> c = 0.
Proof.
  intros Hc. unfold is_integral. replace (0 <=? Etiny) with false by done. cbn [orb].
  rewrite Z.eqb_eq. intros H. rewrite Z.mod_small in H; [done|]. split; [lia|].
  eapply Z.le_lt_trans; [apply Hc|]. apply Z.pow_lt_mono_r; done.
Qed.

Lemma nanos_exact s c e v :
  0 <= c -> c * CURRENCY_NANOS_PER_UNIT < 10 ^ precision ->
  currency_nanos (PDecimal (Finite s c e)) = Ok v ->
  s = false /\ 0 < c /\ 0 < v <= MAX_INT64 /\ nanos_of c e v.
Proof.
  intros Hc Hshort H. unfold currency_nanos in H. apply rbind_ok in H as (d & Hd & H).
  cbn [decimal_mul_int] in Hd. rewrite xorb_false_r in Hd by done.
  change (Z.abs CURRENCY_NANOS_PER_UNIT) with CURRENCY_NANOS_PER_UNIT in Hd.
  destruct (decimal_fix _ _ _) as [d'|x] eqn:E; cbn [try_except] in Hd.
  2:{ by destruct (caught_by _ _). }
  injection Hd as ->. destruct d as [s' c' e'| | |]; try done.
  apply rbind_ok in H as (? & Hi & H). apply raise_when_ok in Hi. bprop.
  apply rbind_ok in H as (? & Hr & [= <-]). apply raise_when_ok in Hr. bprop.
  assert (Hint : forall b, 0 <= b -> decimal_int s' b e' = if s' then - decimal_int false b e' else decimal_int false b e').
  { intros b Hb. unfold decimal_int. by destruct s'. }
  assert (Hpos : forall b, 0 <= b -> 0 <= decimal_int false b e').
  { intros b Hb. unfold decimal_int. destruct (0 <=? e') eqn:Ee.
    - apply Z.mul_nonneg_nonneg; [done|]. apply Z.pow_nonneg. lia.
    - apply Z.div_pos; [done|]. apply Z.pow_pos_nonneg; lia. }
  destruct (Z.eq_dec c 0) as [->|Hne].
  { exfalso. cbn in E. injection E as <- <- <-. unfold decimal_int in *. rewrite Z.mul_0_l, Zdiv_0_l in *.
    destruct (0 <=? _), s; lia. }
  apply decimal_fix_short in E as (-> & E); [|unfold CURRENCY_NANOS_PER_UNIT in *; lia].
  assert (Hc' : 0 <= c') by (destruct E as [[-> _]|[? _]]; unfold CURRENCY_NANOS_PER_UNIT in *; lia).
  specialize (Hint c' Hc'). specialize (Hpos c' Hc'). destruct s; [lia|]. split_and!; [done | lia | lia | lia |].
  destruct E as [[-> ->]|[Hb ->]].
  - apply equals_int_spec; [done|]. done.
  - exfalso. assert (c' = 0) as -> by (by apply integral_tiny).
    assert (decimal_int false 0 Etiny = 0)
      by (unfold decimal_int; replace (0 <=? Etiny) with false by done; apply Zdiv_0_l).
    lia.
Qed.

(** A price of at most 19 significant digits. *)
Definition short_price (p : price) : Prop :=
  match p with
  | PDecimal (Finite _ c _) => 0 <= c /\ c * CURRENCY_NANOS_PER_UNIT < 10 ^ precision
  | PInt n => Z.abs n * CURRENCY_NANOS_PER_UNIT < 10 ^ precision
  | _ => True
  end.

(** The price is [v] nanos. *)
Definition price_in_nanos (p : price) (v : Z) : Prop :=
  match p with
  | PDecimal (Finite negative c e) => negative = false /\ nanos_of c e v
  | PInt n => v = n * CURRENCY_NANOS_PER_UNIT
  | _ => False
  end.

(** The price is [t] ticks of [tick_value] nanos. *)
Definition priced (encoding : RawPriceEncoding) (tick_value : Z) (p : price) (t : Z) : Prop :=
  match encoding with
  | RESOLVED_TICKS => p = PInt t /\ 0 < t <= MAX_INT64
  | CURRENCY_UNITS_DECIMAL => price_in_nanos p (t * tick_value) /\ 0 < t * tick_value <= MAX_INT64
  end.

Lemma nanos_of_pos c e v : 0 <= c -> 0 < v -> nanos_of c e v -> 0 < c.
Proof.
  intros Hc Hv H. destruct (Z.eq_dec c 0) as [->|]; [|lia]. exfalso. unfold nanos_of, equals_int in H.
  rewrite Z.mul_0_l in H. destruct (0 <=? e) eqn:Ee; [lia|].
  assert (0 < 10 ^ (- e)) by (apply Z.pow_pos_nonneg; lia). nia.
Qed.

Lemma nanos_decimal s c e v :
  0 <= c -> c * CURRENCY_NANOS_PER_UNIT < 10 ^ precision ->
  currency_nanos (PDecimal (Finite s c e)) = Ok v
  <-> s = false /\ nanos_of c e v /\ 0 < v <= MAX_INT64.
Proof.
  intros Hc Hs. split.
  - intros H. by destruct (nanos_exact s c e v Hc Hs H) as (-> & _ & ? & ?).
  - intros (-> & H & Hv). apply nanos_accepted; [|done|done]. eapply nanos_of_pos; [done| |done]. lia.
Qed.

Lemma nanos_price p v :
  short_price p ->
  currency_nanos p = Ok v <-> price_in_nanos p v /\ 0 < v <= MAX_INT64.
Proof.
  destruct p as [[s c e| | |]|n|b]; cbn [short_price price_in_nanos]; intros Hs.
  - destruct Hs as [Hc Hs]. rewrite nanos_decimal by done. tauto.
  - split; [done | intros [[] _]].
  - split; [done | intros [[] _]].
  - split; [done | intros [[] _]].
  - assert (currency_nanos (PInt n) = currency_nanos (PDecimal (Finite (n <? 0) (Z.abs n) 0))) as -> by done.
    rewrite nanos_decimal by (done || lia). unfold nanos_of, equals_int. cbn [Z.leb Z.compare Z.pow].
    unfold CURRENCY_NANOS_PER_UNIT in *. split; intros H; lia.
  - split; [done | intros [[] _]].
Qed.

Lemma ticks_priced p encoding tick_value t :
  short_price p -> ticks p encoding tick_value = Ok t <-> priced encoding tick_value p t.
Proof.
  intros Hs. destruct encoding; cbn [ticks priced].
  - split.
    + intros (v & Hv & H)%rbind_ok. apply nanos_price in Hv as [Hv Hr]; [|done].
      apply rbind_ok in H as (? & H0 & H). apply raise_when_ok in H0.
      apply rbind_ok in H as (? & Hm & [= <-]). apply raise_when_ok in Hm. bprop.
      apply Z.eqb_eq in Hm. apply Z.eqb_neq in H0.
      assert (v / tick_value * tick_value = v) as -> by (pose proof (Z.div_mod v tick_value H0); lia). done.
    + intros [Hv Hr]. assert (tick_value <> 0) by (intros ->; lia).
      apply rbind_ok. exists (t * tick_value). split; [by apply nanos_price|].
      rewrite raise_when_false by lia. cbn [rbind]. unfold minute_when.
      rewrite Z.mod_mul, raise_when_false by done. cbn [rbind]. by rewrite Z.div_mul.
  - destruct p as [d|n|b]; try (split; [done | intros [[=] _]]). split.
    + intros (? & H & [= <-])%rbind_ok. apply raise_when_ok in H. bprop. split; [done | lia].
    + intros [[= ->] Hr]. unfold minute_when. by rewrite raise_when_false by lia.
Qed.

(** ** What a raw bar must satisfy *)

Definition int64 (z : Z) : Prop := 0 < z <= MAX_INT64.

Record raw_valid (raw : RawMinuteBar) : Prop := {
  rv_aligned : (NANOSECONDS_PER_MINUTE | rw_minute_start raw);
  rv_start : 0 < rw_minute_start raw <= MAX_INT64 - NANOSECONDS_PER_MINUTE;
  rv_volume : 0 <= rw_volume raw <= MAX_INT64;
  rv_trades : forall n, rw_trade_count raw = Some n -> 0 <= n <= MAX_INT64;
  rv_published : forall t, rw_publication_time raw = Some t -> 0 < t <= rw_availability_time raw;
  rv_available : 0 < rw_availability_time raw <= rw_receipt_time raw;
  rv_processed : rw_receipt_time raw <= rw_processing_time raw <= MAX_INT64;
}.

Lemma require_int64_ok v zero u :
  require_int64 v zero = Ok u <-> (if zero then 0 else 1) <= v <= MAX_INT64.
Proof. unfold require_int64, minute_when. rewrite raise_when_ok. destruct zero; lia. Qed.

Lemma check_raw_ok raw u : check_raw raw = Ok u <-> raw_valid raw.
Proof.
  destruct u. unfold check_raw, minute_when. split.
  - intros (? & H1%require_int64_ok & H)%rbind_ok. apply rbind_ok in H as (? & H2%raise_when_ok & H).
    apply rbind_ok in H as (? & H3%raise_when_ok & H). apply rbind_ok in H as (? & H4%require_int64_ok & H).
    apply rbind_ok in H as (? & H5 & H). apply rbind_ok in H as (? & H6 & H).
    apply rbind_ok in H as (? & H7 & H%raise_when_ok). apply res_iter_ok in H6.
    rewrite !Forall_cons in H6. destruct H6 as (H8%require_int64_ok & H9%require_int64_ok & H10%require_int64_ok & _).
    bprop. apply Z.eqb_eq in H2. apply Z.mod_divide in H2; [|done]. split; try done; try lia.
    + intros n E. rewrite E in H5. by apply require_int64_ok in H5.
    + intros t E. rewrite E in H7. apply rbind_ok in H7 as (? & Ha%require_int64_ok & Hb%raise_when_ok). lia.
  - intros [H1 H2 H3 H4 H5 H6 H7]. unfold NANOSECONDS_PER_MINUTE in *.
    do 3 (apply rbind_ok; exists tt; split;
          [by first [apply require_int64_ok; lia | apply raise_when_false; lia
                    | apply raise_when_false; apply negb_false_iff, Z.eqb_eq, Z.mod_divide; done]|]).
    apply rbind_ok. exists tt. split; [apply require_int64_ok; lia|].
    apply rbind_ok. exists tt. split.
    { destruct (rw_trade_count raw) as [n|]; [|done]. apply require_int64_ok. by apply H4. }
    apply rbind_ok. exists tt. split.
    { apply res_iter_ok. rewrite !Forall_cons. split_and!; try apply Forall_nil_2; apply require_int64_ok; lia. }
    apply rbind_ok. exists tt. split; [|apply raise_when_false; lia].
    destruct (rw_publication_time raw) as [t|]; [|done]. specialize (H5 t eq_refl).
    apply rbind_ok. exists tt. split; [apply require_int64_ok; lia | apply raise_when_false; lia].
Qed.

(** ** Normalised bars *)

Definition priced_option (encoding : RawPriceEncoding) (tick_value : Z) (p : option price) (t : option Z) : Prop :=
  match p, t with
  | None, None => True
  | Some p, Some t => priced encoding tick_value p t
  | _, _ => False
  end.

(** [r] is the canonical form of [raw] under the reference facts [ref]. *)
Record bar_of (raw : RawMinuteBar) (ref : ResolvedMinuteReference) (r : CanonicalMinuteRecord) : Prop := {
  bo_raw : raw_valid raw;
  bo_open : priced (price_encoding raw) (rf_tick_value_currency_nanos ref) (open_value raw) (cm_open_ticks r);
  bo_high : priced (price_encoding raw) (rf_tick_value_currency_nanos ref) (high_value raw) (cm_high_ticks r);
  bo_low : priced (price_encoding raw) (rf_tick_value_currency_nanos ref) (low_value raw) (cm_low_ticks r);
  bo_close : priced (price_encoding raw) (rf_tick_value_currency_nanos ref) (close_value raw) (cm_close_ticks r);
  bo_order : cm_low_ticks r <= cm_open_ticks r <= cm_high_ticks r
             /\ cm_low_ticks r <= cm_close_ticks r <= cm_high_ticks r;
  bo_vwap : priced_option (price_encoding raw) (rf_tick_value_currency_nanos ref) (vwap_value raw) (cm_vwap_ticks r);
  bo_fields : r = canonical_record raw ref (cm_open_ticks r) (cm_high_ticks r) (cm_low_ticks r)
                    (cm_close_ticks r) (cm_vwap_ticks r) (cm_record_sha256 r);
  bo_digest : record_digest r = Ok (cm_record_sha256 r);
}.

Definition short_bar (raw : RawMinuteBar) : Prop :=
  short_price (open_value raw) /\ short_price (high_value raw) /\ short_price (low_value raw)
  /\ short_price (close_value raw) /\ forall p, vwap_value raw = Some p -> short_price p.

Lemma vwap_ticks_ok raw tick_value v :
  (forall p, vwap_value raw = Some p -> short_price p) ->
  match vwap_value raw with
  | None => Ok None
  | Some p => let! t := ticks p (price_encoding raw) tick_value in Ok (Some t)
  end = Ok v <-> priced_option (price_encoding raw) tick_value (vwap_value raw) v.
Proof.
  intros Hs. destruct (vwap_value raw) as [p|]; cbn [priced_option].
  - specialize (Hs p eq_refl). rewrite rbind_ok. setoid_rewrite (ticks_priced p _ _ _ Hs).
    destruct v as [t|]; naive_solver.
  - destruct v; naive_solver.
Qed.

Lemma normalize_bar resolve raw r :
  short_bar raw ->
  normalize resolve raw = Ok r <->
  exists ref, resolve (rw_symbol raw) (rw_minute_start raw) (rw_processing_time raw) = Ok ref /\ bar_of raw ref r.
Proof.
  intros (So & Sh & Sl & Sc & Sv). unfold normalize. split.
  - intros (? & Hraw & H)%rbind_ok. apply check_raw_ok in Hraw. apply rbind_ok in H as (ref & Href & H).
    apply rbind_ok in H as (o & Ho & H). apply rbind_ok in H as (h & Hh & H). apply rbind_ok in H as (l & Hl & H).
    apply rbind_ok in H as (c & Hc & H). apply rbind_ok in H as (? & Hord & H). apply raise_when_ok in Hord.
    apply rbind_ok in H as (v & Hv & H). apply rbind_ok in H as (digest & Hd & [= <-]).
    apply ticks_priced in Ho, Hh, Hl, Hc; try done. apply (vwap_ticks_ok raw _ _ Sv) in Hv. bprop.
    exists ref. split; [done|]. split; try done. cbn. lia.
  - intros (ref & Href & [H1 H2 H3 H4 H5 [H6 H7] H8 H9 H10]).
    apply ticks_priced in H2, H3, H4, H5; try done. apply (vwap_ticks_ok raw _ _ Sv) in H8.
    apply rbind_ok. exists tt. split; [by apply check_raw_ok|]. rewrite Href. cbn [rbind].
    rewrite H2, H3, H4, H5. cbn [rbind]. unfold minute_when. rewrite raise_when_false by lia. cbn [rbind].
    rewrite H8. cbn [rbind].
    assert (record_digest (canonical_record raw ref (cm_open_ticks r) (cm_high_ticks r) (cm_low_ticks r)
              (cm_close_ticks r) (cm_vwap_ticks r) (repeat 48 64)) = record_digest r) as -> by (rewrite H9; done).
    rewrite H10. cbn [rbind]. by rewrite <- H9.
Qed.

(** ** Round trip *)

(** The strings of a record. *)
Definition record_texts (r : CanonicalMinuteRecord) : list pystr :=
  [cm_instrument_id r; cm_source_ticker r; cm_market_id r; cm_session_id r; cm_currency r;
   cm_source_manifest_id r; cm_source_object_id r; cm_source_record_id r; cm_mapping_id r;
   cm_instrument_revision_id r; cm_tick_revision_id r; cm_reference_sha256 r; cm_record_sha256 r;
   cm_schema_version r] ++ cm_quality_reasons r ++ cm_corporate_action_ids r.

Definition payload_members (r : CanonicalMinuteRecord) : list (pystr * json) :=
  (str "record_sha256", JStr (cm_record_sha256 r)) :: body r.

Lemma payload_keys r : NoDup (map fst (payload_members r)).
Proof. cbn [payload_members body map fst]. apply (bool_decide_unpack _). vm_compute. exact I. Qed.

Lemma texts_ok l : Forall text_ok l -> json_ok (texts l).
Proof. intros H. apply json_ok_arr, Forall_fmap. exact H. Qed.

Lemma optional_int_ok o : json_ok (optional JInt o).
Proof. by destruct o. Qed.

Lemma payload_ok r : Forall text_ok (record_texts r) -> json_ok (payload r).
Proof.
  unfold record_texts. rewrite !Forall_app, !Forall_cons. intros (H & Hr & Ha). destruct_and? H.
  apply json_ok_obj. split; [apply payload_keys|].
  unfold body. repeat (apply Forall_cons; split; [split; [apply str_text_ok|]|]); try apply Forall_nil_2;
    cbn [snd]; first [done | apply optional_int_ok | by apply texts_ok | apply isoformat_text
                     | apply str_text_ok | idtac].
Qed.

(** A literal member of a payload that was read back. *)
Lemma payload_member_back k v r :
  (str k, v) ∈ payload_members r -> jget (str k) (norm_members (payload_members r)) = Ok (norm v).
Proof.
  intros H. apply jget_norm; [apply payload_keys|]. by apply jget_elem; [apply payload_keys|].
Qed.

Lemma text_member_back k r s :
  (str k, JStr s) ∈ payload_members r -> text_member k (norm_members (payload_members r)) = Ok s.
Proof. intros H. unfold text_member. by rewrite (payload_member_back _ _ _ H). Qed.

Lemma int_member_back k r n :
  (str k, JInt n) ∈ payload_members r -> int_member k (norm_members (payload_members r)) = Ok n.
Proof. intros H. unfold int_member. by rewrite (payload_member_back _ _ _ H). Qed.

Lemma optional_member_back k r o :
  (str k, optional JInt o) ∈ payload_members r ->
  optional_int_member k (norm_members (payload_members r)) = Ok o.
Proof. intros H. unfold optional_int_member. rewrite (payload_member_back _ _ _ H). by destruct o. Qed.

Lemma texts_member_back k r l :
  (str k, texts l) ∈ payload_members r -> texts_member k (norm_members (payload_members r)) = Ok l.
Proof.
  intros H. unfold texts_member. rewrite (payload_member_back _ _ _ H). cbn [norm texts rbind].
  rewrite map_map. clear H. induction l as [|x l IH]; [done|]. cbn. cbn in IH. by rewrite IH.
Qed.

Lemma date_member_back k r d :
  (str k, JStr (isoformat d)) ∈ payload_members r -> valid_date d = true ->
  date_member k (norm_members (payload_members r)) = Ok d.
Proof.
  intros H Hd. unfold date_member. rewrite (payload_member_back _ _ _ H). cbn [rbind norm].
  by apply fromisoformat_isoformat.
Qed.

Lemma state_member_back k r q :
  (str k, JStr (MinuteDataQuality_value q)) ∈ payload_members r ->
  state_member k (norm_members (payload_members r)) = Ok q.
Proof. intros H. unfold state_member. rewrite (payload_member_back _ _ _ H). by destruct q. Qed.

(** Membership of a literal key by its position. *)
Ltac member_in :=
  unfold payload_members, body; repeat first [apply list_elem_of_here | apply list_elem_of_further].

Section decode.
Local Opaque str isoformat MinuteDataQuality_value.

Lemma decode_minute_payload r :
  valid_date (cm_trading_date r) = true -> decode_minute (norm_members (payload_members r)) = Ok r.
Proof.
  intros Hd. unfold decode_minute.
  repeat (eapply rbind_step;
          [first [eapply text_member_back; member_in | eapply int_member_back; member_in
                 | eapply optional_member_back; member_in | eapply texts_member_back; member_in
                 | eapply date_member_back; [member_in | exact Hd] | eapply state_member_back; member_in]|]).
  by destruct r.
Qed.
End decode.

(** What the store keeps of a record reads back as that record. *)
Lemma from_bytes_payload r b :
  Forall text_ok (record_texts r) -> valid_date (cm_trading_date r) = true ->
  cm_schema_version r = CANONICAL_MINUTE_SCHEMA_VERSION -> record_digest r = Ok (cm_record_sha256 r) ->
  dumps (payload r) = Ok b -> from_bytes b = Ok r.
Proof.
  intros Ht Hd Hs Hdig Hb. unfold from_bytes.
  rewrite (loads_bytes_dumps _ _ (payload_ok r Ht) Hb).
  change (norm (payload r)) with (norm (JObj (payload_members r))). rewrite norm_obj_members. cbn [rbind].
  rewrite (decode_minute_payload r Hd). cbn [try_except rbind]. unfold minute_when.
  rewrite Hs, bool_decide_eq_true_2 by done. cbn [negb raise_when rbind]. rewrite Hdig. cbn [rbind].
  by rewrite bool_decide_eq_true_2.
Qed.

Lemma from_bytes_ok b r :
  from_bytes b = Ok r ->
  cm_schema_version r = CANONICAL_MINUTE_SCHEMA_VERSION /\ record_digest r = Ok (cm_record_sha256 r).
Proof.
  unfold from_bytes. intros (r' & _ & H)%rbind_ok. apply rbind_ok in H as (? & Hs%raise_when_ok & H).
  apply rbind_ok in H as (d & Hd & H). apply rbind_ok in H as (? & Hd'%raise_when_ok & [= <-]). bprop. by subst d.
Qed.

(** A record whose texts can be written and whose date exists. *)
Definition record_ok (r : CanonicalMinuteRecord) : Prop :=
  Forall text_ok (record_texts r) /\ valid_date (cm_trading_date r) = true
  /\ cm_schema_version r = CANONICAL_MINUTE_SCHEMA_VERSION /\ record_digest r = Ok (cm_record_sha256 r).

(** What a resolver must return for its records to be written. *)
Definition reference_ok (ref : ResolvedMinuteReference) : Prop :=
  Forall text_ok ([rf_instrument_id ref; rf_market_id ref; rf_mapping_id ref; rf_instrument_revision_id ref;
                   rf_tick_revision_id ref; rf_currency ref; rf_session_id ref; rf_reference_sha256 ref]
                  ++ rf_corporate_action_ids ref ++ rf_quality_reasons ref)
  /\ valid_date (rf_trading_date ref) = true.

Definition raw_texts (raw : RawMinuteBar) : list pystr :=
  [rw_symbol raw; rw_source_manifest_id raw; rw_source_object_id raw; rw_source_record_id raw]
  ++ match rw_market_id raw with None => [] | Some m => [m] end.

Lemma normalize_digest resolve raw r :
  normalize resolve raw = Ok r ->
  exists ref o h l c v,
    resolve (rw_symbol raw) (rw_minute_start raw) (rw_processing_time raw) = Ok ref
    /\ raw_valid raw /\ r = canonical_record raw ref o h l c v (cm_record_sha256 r)
    /\ record_digest r = Ok (cm_record_sha256 r).
Proof.
  unfold normalize. intros (? & Hraw%check_raw_ok & H)%rbind_ok. apply rbind_ok in H as (ref & Href & H).
  apply rbind_ok in H as (o & _ & H). apply rbind_ok in H as (h & _ & H). apply rbind_ok in H as (l & _ & H).
  apply rbind_ok in H as (c & _ & H). apply rbind_ok in H as (? & _ & H). apply rbind_ok in H as (v & _ & H).
  apply rbind_ok in H as (digest & Hd & [= <-]). by exists ref, o, h, l, c, v.
Qed.

Lemma record_digest_text r s : record_digest r = Ok s -> text_ok s.
Proof.
  unfold record_digest, canonical_digest. intros (e & _ & [= <-])%rbind_ok. apply bytes_hex_text_ok, sha256_range.
Qed.

Lemma normalize_record_ok resolve raw r :
  normalize resolve raw = Ok r -> Forall text_ok (raw_texts raw) ->
  (forall ref, resolve (rw_symbol raw) (rw_minute_start raw) (rw_processing_time raw) = Ok ref -> reference_ok ref) ->
  record_ok r.
Proof.
  intros H Hraw Hres. apply normalize_digest in H as (ref & o & h & l & c & v & Href & _ & Hr & Hd).
  destruct (Hres ref Href) as [Ht Hdate]. pose proof (record_digest_text _ _ Hd) as Hdt.
  split; [|split; [by rewrite Hr | split; [by rewrite Hr | done]]].
  unfold raw_texts in Hraw. rewrite !Forall_app, !Forall_cons in Hraw. rewrite !Forall_app, !Forall_cons in Ht.
  destruct Hraw as [Hraw Hmarket], Ht as (Ht & Hca & Hq). destruct_and? Hraw. destruct_and? Ht.
  unfold record_texts. rewrite !Forall_app, !Forall_cons. rewrite Hr in Hdt |- *. cbn in Hdt |- *. split_and!; try done.
  - destruct (rw_market_id raw) as [[|x m]|]; try done. by apply Forall_cons in Hmarket as [? _].
  - apply str_text_ok.
  - unfold distinct_sorted. rewrite py_sorted_perm. apply Forall_forall. intros x Hx.
    apply elem_of_elements, elem_of_list_to_set in Hx. apply elem_of_app in Hx as [Hx|Hx].
    + rewrite Forall_forall in Hq. by apply Hq.
    + destruct (rw_publication_time raw); [by apply not_elem_of_nil in Hx|].
      apply list_elem_of_singleton in Hx as ->. apply str_text_ok.
Qed.

(** ** Tick sizes *)

Lemma tick_groups_get l s :
  default [] (od_get s (tick_groups l)) = List.filter (fun r => bool_decide (tk_symbol r = s)) l.
Proof.
  unfold tick_groups. induction l as [|x l IH] using rev_ind; [done|].
  rewrite foldl_snoc, od_get_set, List.filter_app. cbn [List.filter].
  destruct (decide (tk_symbol x = s)) as [<-|E].
  - rewrite !bool_decide_eq_true_2 by done. cbn. by rewrite IH.
  - rewrite !bool_decide_eq_false_2 by done. by rewrite app_nil_r.
Qed.

Lemma list_to_map_od `{Countable K} {A} (m : list (K * A)) k : (list_to_map m : gmap K A) !! k = od_get k m.
Proof.
  induction m as [|[k' v] m IH]; [done|]. cbn. destruct (decide (k = k')) as [->|E].
  - by rewrite lookup_insert_eq, ?bool_decide_eq_true_2.
  - by rewrite lookup_insert_ne, IH, ?bool_decide_eq_false_2 by done.
Qed.

Lemma tick_store_lookup revisions st s :
  new_tick_store revisions = Ok st ->
  default [] (ticks_by_symbol st !! s) = List.filter (fun r => bool_decide (tk_symbol r = s)) revisions.
Proof.
  unfold new_tick_store. intros (? & _ & H)%rbind_ok. apply rbind_ok in H as (d & _ & [= <-]). cbn.
  by rewrite list_to_map_od, tick_groups_get.
Qed.

(** The revisions that apply to a query. *)
Definition tick_candidate (revisions : list TickSizeRevision) (symbol : pystr) (event_time known_at : Z)
    (r : TickSizeRevision) : Prop :=
  r ∈ revisions /\ tk_symbol r = symbol /\ tk_available_at_ns r <= known_at /\ tick_effective_at r event_time = true.

Lemma py_min_spec {A} (leb : A -> A -> bool) l x : py_min leb l = Some x -> x ∈ l.
Proof.
  destruct l as [|z l]; [done|]. cbn. intros [= <-].
  assert (H : forall b, foldl (fun best y => if leb best y then best else y) b l ∈ b :: l).
  { induction l as [|y l IH]; intros b; cbn; [left|]. destruct (leb b y).
    - specialize (IH b). set_solver.
    - specialize (IH y). set_solver. }
  apply H.
Qed.

Lemma tick_at_spec revisions st symbol event_time known_at :
  new_tick_store revisions = Ok st ->
  match tick_at st symbol event_time known_at with
  | Ok r => tick_candidate revisions symbol event_time known_at r
            /\ forall r', tick_candidate revisions symbol event_time known_at r' -> tk_version r' <= tk_version r
  | Err e => exn_cls e = MinuteNormalizationError MISSING_TICK_SIZE
             /\ forall r, ~ tick_candidate revisions symbol event_time known_at r
  end.
Proof.
  intros Hst. unfold tick_at. rewrite (tick_store_lookup revisions st symbol Hst). cbv zeta.
  set (cs := List.filter _ _).
  assert (Hcs : forall r, r ∈ cs <-> tick_candidate revisions symbol event_time known_at r).
  { intros r. unfold cs, tick_candidate. rewrite !elem_of_filter_b, andb_true_iff, Z.leb_le, bool_decide_eq_true. tauto. }
  destruct (py_max Z.leb (map tk_version cs)) as [v|] eqn:Ev.
  - apply (py_max_spec Z.leb) in Ev as [Hin Hmax]. apply list_elem_of_fmap in Hin as (r & -> & Hr).
    destruct (py_min _ _) as [x|] eqn:Ex.
    + apply py_min_spec, elem_of_filter_b in Ex as [Hx Hv]. apply Z.eqb_eq in Hv. split; [by apply Hcs|].
      intros r' Hr'%Hcs. rewrite Hv. apply Z.leb_le, Hmax. by apply list_elem_of_fmap_2.
    + exfalso. assert (Hin : r ∈ List.filter (fun r0 => tk_version r0 =? tk_version r) cs)
        by (apply elem_of_filter_b; split; [done | apply Z.eqb_refl]).
      destruct (List.filter _ cs); [by apply not_elem_of_nil in Hin | done].
  - split; [done|]. intros r Hr%Hcs. destruct cs; [by apply not_elem_of_nil in Hr | done].
Qed.

(** Only the revisions known at the cutoff matter. *)
Lemma tick_at_same revisions revisions' st st' symbol event_time t u :
  new_tick_store revisions = Ok st -> new_tick_store revisions' = Ok st' -> t <= u ->
  List.filter (fun r => tk_available_at_ns r <=? u) revisions
  = List.filter (fun r => tk_available_at_ns r <=? u) revisions' ->
  tick_at st symbol event_time t = tick_at st' symbol event_time t.
Proof.
  intros Hst Hst' Hle Hsame. unfold tick_at.
  rewrite (tick_store_lookup revisions st symbol Hst), (tick_store_lookup revisions' st' symbol Hst').
  assert (H : forall l, List.filter (fun r => (tk_available_at_ns r <=? t) && tick_effective_at r event_time)
                          (List.filter (fun r => bool_decide (tk_symbol r = symbol)) l)
              = List.filter (fun r => (tk_available_at_ns r <=? t) && tick_effective_at r event_time)
                  (List.filter (fun r => bool_decide (tk_symbol r = symbol))
                     (List.filter (fun r => tk_available_at_ns r <=? u) l))).
  { induction l as [|x l IH]; [done|]. cbn. destruct (bool_decide _) eqn:Es, (tk_available_at_ns x <=? u) eqn:Eu;
      cbn; rewrite ?Es; cbn; rewrite ?IH; try done.
    by replace (tk_available_at_ns x <=? t) with false by lia. }
  by rewrite (H revisions), (H revisions'), Hsame.
Qed.

(** ** Resolved minutes *)

Section resolved.
Context (session_zone : Z -> date) (r : ReferenceStoreMinuteResolver).

(** What a resolved minute is grounded in. *)
Record grounded (symbol : pystr) (event_time known_at : Z) (ref : ResolvedMinuteReference) : Prop := {
  gr_mapping : exists m i, symbol_mapping_at (rs_reference r) symbol event_time known_at = Ok (Some m)
                 /\ mp_instrument_id m = Some i /\ eligible_status (mp_status m) = true
                 /\ rf_instrument_id ref = instrument_hex i
                 /\ halts_at (rs_reference r) i event_time (event_time + NANOSECONDS_PER_MINUTE) known_at = Ok [];
  gr_tick : exists tick, tick_at (rs_ticks r) symbol event_time known_at = Ok tick
              /\ rf_tick_value_currency_nanos ref = tick_value_currency_nanos tick
              /\ rf_tick_revision_id ref = tk_revision_id tick /\ rf_currency ref = tk_currency tick;
  gr_date : rf_trading_date ref = session_zone (event_time / CURRENCY_NANOS_PER_UNIT);
  gr_calendar : exists c, calendar_day_at (rs_reference r) (rf_trading_date ref) known_at = Ok c
                  /\ is_session (cd_kind c) = true /\ open_exchange_time_ns c = Some (rf_session_open_ns ref)
                  /\ close_exchange_time_ns c = Some (rf_session_close_ns ref);
  gr_session : rf_session_open_ns ref <= event_time
               /\ event_time + NANOSECONDS_PER_MINUTE <= rf_session_close_ns ref;
}.

Lemma try_except_inv {A} (m : res A) hs h a :
  (forall e, exists e', h e = Err e') -> try_except m hs h = Ok a -> m = Ok a.
Proof.
  intros Hh. destruct m as [x|e]; cbn; [done|]. destruct (caught_by e hs); [|done].
  destruct (Hh e) as [e' ->]. done.
Qed.

Lemma resolve_minute_grounded symbol event_time known_at ref :
  resolve_minute session_zone r symbol event_time known_at = Ok ref -> grounded symbol event_time known_at ref.
Proof.
  unfold resolve_minute. intros (mapping & Hm & H)%rbind_ok.
  apply try_except_inv in Hm; [|intros e; by eexists].
  destruct mapping as [m|]; [|done]. destruct (mp_instrument_id m) as [i|] eqn:Ei; [|done].
  apply rbind_ok in H as (? & He%raise_when_ok & H). apply rbind_ok in H as (found & _ & H).
  destruct found as [ins|]; [|done]. apply rbind_ok in H as (tick & Ht & H). apply rbind_ok in H as (c & Hc & H).
  apply try_except_inv in Hc; [|intros e; by eexists].
  destruct (open_exchange_time_ns c) as [opened|] eqn:Eo; [|done].
  destruct (close_exchange_time_ns c) as [closed|] eqn:Ec; [|done].
  apply rbind_ok in H as (? & Hs%raise_when_ok & H). apply rbind_ok in H as (halts & Hh & H).
  apply rbind_ok in H as (? & Hn%raise_when_ok & H). apply rbind_ok in H as (session & _ & H).
  apply rbind_ok in H as (actions & _ & [= <-]). bprop.
  assert (halts = []) as -> by (by destruct halts).
  split; cbn; [by exists m, i | by exists tick | done | by exists c | lia].
Qed.
End resolved.

Definition set_sha (s : pystr) (ref : ResolvedMinuteReference) : ResolvedMinuteReference :=
  {| rf_instrument_id := rf_instrument_id ref; rf_market_id := rf_market_id ref;
     rf_mapping_id := rf_mapping_id ref; rf_instrument_revision_id := rf_instrument_revision_id ref;
     rf_tick_revision_id := rf_tick_revision_id ref;
     rf_tick_value_currency_nanos := rf_tick_value_currency_nanos ref; rf_currency := rf_currency ref;
     rf_session_id := rf_session_id ref; rf_trading_date := rf_trading_date ref;
     rf_session_open_ns := rf_session_open_ns ref; rf_session_close_ns := rf_session_close_ns ref;
     rf_corporate_action_ids := rf_corporate_action_ids ref; rf_reference_sha256 := s;
     rf_quality_reasons := rf_quality_reasons ref |}.

Definition res_fmap {A B} (f : A -> B) (m : res A) : res B := let! a := m in Ok (f a).

(** The digest of the reference data only appears in its own field. *)
Lemma resolve_minute_same session_zone s s' st st' ticks ticks' ts ts' d d' t u symbol event_time :
  new_reference_store s = Ok st -> new_reference_store s' = Ok st' ->
  new_tick_store ticks = Ok ts -> new_tick_store ticks' = Ok ts' ->
  t <= u -> same_knowledge u s s' -> halt_coverage_complete s = halt_coverage_complete s' ->
  List.filter (fun r => tk_available_at_ns r <=? u) ticks
  = List.filter (fun r => tk_available_at_ns r <=? u) ticks' ->
  res_fmap (set_sha []) (resolve_minute session_zone
      {| rs_reference := st; rs_ticks := ts; rs_reference_sha256 := d |} symbol event_time t)
  = res_fmap (set_sha []) (resolve_minute session_zone
      {| rs_reference := st'; rs_ticks := ts'; rs_reference_sha256 := d' |} symbol event_time t).
Proof.
  intros Hst Hst' Hts Hts' Hle Hk Hhalt Hticks. unfold resolve_minute. cbn [rs_reference rs_ticks].
  rewrite (mapping_same s s' st st' t u Hst Hst' Hle Hk).
  assert (snapshot st = s) as Hs by (by apply store_lineage in Hst as [_ ->]).
  assert (snapshot st' = s') as Hs' by (by apply store_lineage in Hst' as [_ ->]).
  rewrite Hs, Hs', Hhalt.
  destruct (try_except (symbol_mapping_at st' symbol event_time t) _ _) as [[m|]|e]; [|done|done]. cbn [rbind].
  destruct (mp_instrument_id m) as [i|]; [|done]. destruct (minute_when _ _ _) as [[]|e]; [|done]. cbn [rbind].
  rewrite (instrument_same s s' st st' t u Hst Hst' Hle Hk).
  destruct (instrument_at st' i event_time t) as [[ins|]|e]; [|done|done]. cbn [rbind].
  rewrite (tick_at_same ticks ticks' ts ts' symbol event_time t u Hts Hts' Hle Hticks).
  destruct (tick_at ts' symbol event_time t) as [tick|e]; [|done]. cbn [rbind].
  rewrite (calendar_same s s' st st' t u Hst Hst' Hle Hk).
  destruct (try_except (calendar_day_at st' _ t) _ _) as [c|e]; [|done]. cbn [rbind].
  destruct (open_exchange_time_ns c), (close_exchange_time_ns c); try done.
  destruct (minute_when _ _ _) as [[]|e]; [|done]. cbn [rbind].
  rewrite (halts_same s s' st st' t u Hst Hst' Hle Hk).
  destruct (halts_at st' i event_time _ t) as [halts|e]; [|done]. cbn [rbind].
  destruct (minute_when _ _ _) as [[]|e]; [|done]. cbn [rbind].
  destruct (canonical_digest _) as [session|e]; [|done]. cbn [rbind].
  rewrite (actions_same s s' st st' t u Hst Hst' Hle Hk).
  by destruct (corporate_actions_at st' i event_time t).
Qed.

(** ** Data to compute with *)

Definition minute_day : date := Date 2024 1 5.
Definition minute_zone (_ : Z) : date := minute_day.
Definition minute_snapshot : ReferenceSnapshot :=
  {| universe_source_sha256 := repeat 97 64; source_report_sha256 := repeat 98 64; as_of_ns := 50;
     rs_instruments :=
       [{| revision_id := str "i"; in_instrument_id := Id128 0 7; primary_symbol := str "ABC";
           in_listing_venue := NYSE; security_type := COMMON_STOCK; listing_date := None;
           delisting_date := None; in_effective := {| effective_from_ns := 1; effective_to_ns := None |};
           in_version := 1; unresolved_fields := []; in_provenance := sample_provenance 10 |}];
     rs_mappings := [sample_mapping 1 10 (Id128 0 7)];
     rs_corporate_actions := [];
     rs_calendar_days :=
       [{| cd_calendar_id := str "c"; session_date := minute_day; cd_kind := REGULAR_SESSION;
           open_exchange_time_ns := Some NANOSECONDS_PER_MINUTE;
           close_exchange_time_ns := Some (400 * NANOSECONDS_PER_MINUTE); cd_version := 1;
           cd_provenance := sample_provenance 10 |}];
     rs_halts := []; halt_coverage_complete := true; rs_schema_version := REFERENCE_SCHEMA_VERSION |}.
Definition sample_tick (v t nanos : Z) : TickSizeRevision :=
  {| tk_revision_id := str "t"; tk_symbol := str "ABC"; tick_value_currency_nanos := nanos;
     tk_currency := str "USD"; tk_effective_from_ns := 1; tk_effective_to_ns := None;
     tk_available_at_ns := t; tk_version := v; tk_source_sha256 := repeat 97 64;
     tk_historical_completeness := true |}.
Definition minute_ticks : list TickSizeRevision := [sample_tick 1 10 10000000].
Definition later_ticks : list TickSizeRevision := minute_ticks ++ [sample_tick 2 40000000000000 1].
Definition tick_store_of (l : list TickSizeRevision) : TickSizeStore :=
  match new_tick_store l with
  | Ok st => st
  | Err _ => {| ticks_by_symbol := ∅; ticks_sha256 := [] |}
  end.
Definition sample_resolver : ReferenceStoreMinuteResolver :=
  {| rs_reference := indexed minute_snapshot; rs_ticks := tick_store_of minute_ticks;
     rs_reference_sha256 := str "reference" |}.
Definition dollars (cents : Z) : price := PDecimal (Finite false cents (-2)).
Definition sample_bar (symbol : string) (start high : Z) : RawMinuteBar :=
  {| rw_symbol := str symbol; rw_minute_start := start; open_value := dollars 10025;
     high_value := dollars high; low_value := dollars 10001; close_value := dollars 10100; rw_volume := 500;
     rw_trade_count := Some 3; vwap_value := None; price_encoding := CURRENCY_UNITS_DECIMAL;
     rw_source_manifest_id := str "m"; rw_source_object_id := str "o"; rw_source_record_id := str "r";
     rw_publication_time := None; rw_availability_time := 30000000000000;
     rw_receipt_time := 30000000000001; rw_processing_time := 30000000000002; rw_market_id := None |}.
Definition plain_reference : ResolvedMinuteReference :=
  {| rf_instrument_id := str "7"; rf_market_id := str "NYSE"; rf_mapping_id := str "m";
     rf_instrument_revision_id := str "i"; rf_tick_revision_id := str "t";
     rf_tick_value_currency_nanos := 10000000; rf_currency := str "USD"; rf_session_id := str "s";
     rf_trading_date := minute_day; rf_session_open_ns := NANOSECONDS_PER_MINUTE;
     rf_session_close_ns := 400 * NANOSECONDS_PER_MINUTE; rf_corporate_action_ids := [];
     rf_reference_sha256 := str "reference"; rf_quality_reasons := [] |}.
Definition plain_resolver : minute_resolver := fun _ _ _ => Ok plain_reference.

Lemma sample_bar_short symbol start high : 0 <= high < 10 ^ 18 -> short_bar (sample_bar symbol start high).
Proof.
  intros Hh. unfold short_bar, CURRENCY_NANOS_PER_UNIT, precision. cbn. unfold CURRENCY_NANOS_PER_UNIT, precision.
  split_and!; try lia. done.
Qed.

(** The bar of 100.25, 101.50, 100.01 and 101.00 dollars in cents; the same bar
    outside the session; and a price off the grid. *)
Definition codes (m : res CanonicalMinuteRecord) : (Z * Z * Z * Z) + exn_class :=
  match m with
  | Ok r => inl (cm_open_ticks r, cm_high_ticks r, cm_low_ticks r, cm_close_ticks r)
  | Err e => inr (exn_cls e)
  end.
Example sample_bars :
  codes (normalize (resolve_minute minute_zone sample_resolver) (sample_bar "ABC" (2 * NANOSECONDS_PER_MINUTE) 10150))
  = inl (10025, 10150, 10001, 10100)
  /\ codes (normalize (resolve_minute minute_zone sample_resolver) (sample_bar "ABC" (400 * NANOSECONDS_PER_MINUTE) 10150))
     = inr (MinuteNormalizationError OUTSIDE_SESSION)
  /\ codes (normalize (resolve_minute minute_zone sample_resolver) (sample_bar "XYZ" (2 * NANOSECONDS_PER_MINUTE) 10150))
     = inr (MinuteNormalizationError MN_MISSING_REFERENCE)
  /\ codes (normalize (resolve_minute minute_zone sample_resolver) (sample_bar "ABC" (2 * NANOSECONDS_PER_MINUTE) 10050))
     = inr (MinuteNormalizationError INVALID_PRICE).
Proof. vm_compute. split_and!; reflexivity. Qed.

Lemma tick_stores_new :
  new_tick_store minute_ticks = Ok (tick_store_of minute_ticks)
  /\ new_tick_store later_ticks = Ok (tick_store_of later_ticks).
Proof.
  assert (H : forall l, res_iter (fun kv => check_ticks kv.2) (tick_groups l) = Ok tt ->
              ints_printable (tick_documents l) = true -> new_tick_store l = Ok (tick_store_of l)).
  { intros l Hc Hp. unfold tick_store_of. destruct (canonical_digest_total _ Hp) as [d Hd].
    unfold new_tick_store. rewrite Hc. cbn [rbind]. by rewrite Hd. }
  split; apply H; vm_compute; reflexivity.
Qed.

Lemma minute_store_new : new_reference_store minute_snapshot = Ok (indexed minute_snapshot).
Proof.
  unfold new_reference_store.
  assert (validate_lineage minute_snapshot = Ok tt) as -> by (vm_compute; reflexivity). done.
Qed.

(** ** Properties *)

(** C12: normalisation is exact.  For prices of at most 19 significant digits a bar is
    accepted exactly when it is well formed, its reference data resolves, every price
    is a whole positive number of 64-bit currency nanos and of ticks, and low and high
    bound open and close; the result then holds those ticks, the fields of the bar and
    of the reference, and its own digest. *)
Theorem normalize_exact resolve raw :
  short_bar raw ->
  match normalize resolve raw with
  | Ok r => exists ref, resolve (rw_symbol raw) (rw_minute_start raw) (rw_processing_time raw) = Ok ref
                        /\ bar_of raw ref r
  | Err _ => forall ref r, resolve (rw_symbol raw) (rw_minute_start raw) (rw_processing_time raw) = Ok ref ->
                           ~ bar_of raw ref r
  end.
Proof.
  intros Hs. destruct (normalize resolve raw) as [r|e] eqn:E.
  - by apply normalize_bar.
  - intros ref r Href Hb. assert (H : normalize resolve raw = Ok r) by (apply normalize_bar; eauto).
    by rewrite H in E.
Qed.

Lemma normalize_exact_witness :
  exists r, bar_of (sample_bar "ABC" (2 * NANOSECONDS_PER_MINUTE) 10150) plain_reference r
            /\ cm_high_ticks r = 10150.
Proof.
  pose proof (normalize_exact plain_resolver (sample_bar "ABC" (2 * NANOSECONDS_PER_MINUTE) 10150)
                (sample_bar_short "ABC" (2 * NANOSECONDS_PER_MINUTE) 10150 ltac:(lia))) as H.
  assert (Hc : codes (normalize plain_resolver (sample_bar "ABC" (2 * NANOSECONDS_PER_MINUTE) 10150))
               = inl (10025, 10150, 10001, 10100)) by (vm_compute; reflexivity).
  destruct (normalize plain_resolver (sample_bar "ABC" (2 * NANOSECONDS_PER_MINUTE) 10150)) as [r|e];
    [|discriminate Hc].
  destruct H as (ref & [= <-] & H). exists r. split; [exact H|]. injection Hc as _ Hc _ _. exact Hc.
Defined.

(** Canonical records round-trip.  The canonical text of a normalised bar whose
    texts and reference facts can be written decodes to that very record; and whatever
    decodes has the supported schema and carries the digest of its other fields. *)
Theorem minute_codec_roundtrip :
  (forall resolve raw r b,
     normalize resolve raw = Ok r -> Forall text_ok (raw_texts raw) ->
     (forall ref, resolve (rw_symbol raw) (rw_minute_start raw) (rw_processing_time raw) = Ok ref -> reference_ok ref) ->
     dumps (payload r) = Ok b -> from_bytes b = Ok r)
  /\ (forall b r, from_bytes b = Ok r ->
        cm_schema_version r = CANONICAL_MINUTE_SCHEMA_VERSION /\ record_digest r = Ok (cm_record_sha256 r)).
Proof.
  split; [|apply from_bytes_ok]. intros resolve raw r b Hn Ht Href Hb.
  destruct (normalize_record_ok resolve raw r Hn Ht Href) as (H1 & H2 & H3 & H4).
  by apply from_bytes_payload.
Qed.

(** Normalised minutes are grounded in what was known.  A bar normalised through
    the reference store lies inside the session of its trading day, meets no known
    halt of its instrument, has the instrument of the mapping known at processing time,
    and is measured in the newest tick size that was known then and effective at its
    start. *)
Theorem normalized_minute_grounded session_zone r s ticks raw m :
  new_reference_store s = Ok (rs_reference r) -> new_tick_store ticks = Ok (rs_ticks r) ->
  normalize (resolve_minute session_zone r) raw = Ok m ->
  let t := rw_processing_time raw in
  cm_session_open m <= cm_minute_start m
  /\ cm_minute_end m = cm_minute_start m + NANOSECONDS_PER_MINUTE
  /\ cm_minute_end m <= cm_session_close m /\ cm_minute_end m <= MAX_INT64
  /\ cm_trading_date m = session_zone (cm_minute_start m / CURRENCY_NANOS_PER_UNIT)
  /\ (exists tick, tick_candidate ticks (cm_source_ticker m) (cm_minute_start m) t tick
        /\ cm_tick_value m = tick_value_currency_nanos tick
        /\ forall tick', tick_candidate ticks (cm_source_ticker m) (cm_minute_start m) t tick' ->
                         tk_version tick' <= tk_version tick)
  /\ exists mapping i,
       mapping_candidate s (cm_source_ticker m) (cm_minute_start m) t mapping
       /\ mp_instrument_id mapping = Some i /\ cm_instrument_id m = instrument_hex i
       /\ forall h, is_latest t (List.filter (fun x => bool_decide (hl_instrument_id x = i)) (rs_halts s)) h ->
                    end_exchange_time_ns h <= cm_minute_start m \/ cm_minute_end m <= start_exchange_time_ns h.
Proof.
  intros Hst Hts H t. apply normalize_digest in H as (ref & o & h & l & c & v & Href & Hraw & Hm & _).
  apply resolve_minute_grounded in Href as [(mp & i & Hmp & Hi & _ & Hid & Hh) (tick & Ht & Htv & _) Hd _ Hs].
  rewrite Hm. cbn [canonical_record cm_session_open cm_minute_start cm_minute_end cm_session_close cm_trading_date
    cm_source_ticker cm_tick_value cm_instrument_id]. destruct Hraw as [_ Hstart _ _ _ Hav Hpr]. fold t in Hmp, Ht, Hh.
  pose proof (tick_at_spec ticks _ (rw_symbol raw) (rw_minute_start raw) t Hts) as Hspec. rewrite Ht in Hspec.
  split_and!; [lia | lia | lia | lia | done | exists tick; naive_solver |].
  apply (mapping_read s) in Hmp; [|done]. exists mp, i. split_and!; [done | done | done |]. intros x Hx.
  destruct (halts_read s _ i _ _ t [] Hst Hh x) as [_ Hback].
  destruct (Z.le_gt_cases (end_exchange_time_ns x) (rw_minute_start raw)); [by left | right].
  destruct (Z.le_gt_cases (rw_minute_start raw + NANOSECONDS_PER_MINUTE) (start_exchange_time_ns x)); [done|].
  exfalso. apply not_elem_of_nil with (x := x). apply Hback. split; [done | lia].
Qed.

Lemma normalized_minute_grounded_witness :
  exists m, normalize (resolve_minute minute_zone sample_resolver)
              (sample_bar "ABC" (2 * NANOSECONDS_PER_MINUTE) 10150) = Ok m
            /\ cm_session_open m <= cm_minute_start m.
Proof.
  assert (Hc : codes (normalize (resolve_minute minute_zone sample_resolver)
                 (sample_bar "ABC" (2 * NANOSECONDS_PER_MINUTE) 10150)) = inl (10025, 10150, 10001, 10100))
    by apply sample_bars.
  destruct (normalize (resolve_minute minute_zone sample_resolver)
              (sample_bar "ABC" (2 * NANOSECONDS_PER_MINUTE) 10150)) as [m|e] eqn:E; [|discriminate Hc].
  exists m. split; [reflexivity|].
  destruct (normalized_minute_grounded minute_zone sample_resolver minute_snapshot minute_ticks
              (sample_bar "ABC" (2 * NANOSECONDS_PER_MINUTE) 10150) m) as (H & _).
  - exact minute_store_new.
  - exact (proj1 tick_stores_new).
  - exact E.
  - exact H.
Defined.

(** Minute resolution is point in time.  Reference records and tick sizes that
    become available after [u] change nothing that a resolver answers for a knowledge
    time up to [u], except the digest of the reference data itself. *)
Theorem minute_resolution_point_in_time session_zone s s' st st' ticks ticks' ts ts' r r' u :
  new_reference_store s = Ok st -> new_reference_store s' = Ok st' ->
  new_tick_store ticks = Ok ts -> new_tick_store ticks' = Ok ts' ->
  new_minute_resolver st ts = Ok r -> new_minute_resolver st' ts' = Ok r' ->
  same_knowledge u s s' -> halt_coverage_complete s = halt_coverage_complete s' ->
  List.filter (fun x => tk_available_at_ns x <=? u) ticks
  = List.filter (fun x => tk_available_at_ns x <=? u) ticks' ->
  forall symbol event_time t, t <= u ->
  res_fmap (set_sha []) (resolve_minute session_zone r symbol event_time t)
  = res_fmap (set_sha []) (resolve_minute session_zone r' symbol event_time t).
Proof.
  intros Hst Hst' Hts Hts' Hr Hr' Hk Hh Ht symbol event_time t Hle.
  unfold new_minute_resolver in Hr, Hr'.
  apply rbind_ok in Hr as (? & _ & Hr). apply rbind_ok in Hr as (? & _ & Hr). apply rbind_ok in Hr as (d & _ & [= <-]).
  apply rbind_ok in Hr' as (? & _ & Hr'). apply rbind_ok in Hr' as (? & _ & Hr').
  apply rbind_ok in Hr' as (d' & _ & [= <-]).
  by apply (resolve_minute_same session_zone s s' st st' ticks ticks' ts ts' d d' t u).
Qed.

Definition resolver_of (l : list TickSizeRevision) : ReferenceStoreMinuteResolver :=
  match new_minute_resolver (indexed minute_snapshot) (tick_store_of l) with
  | Ok r => r
  | Err _ => sample_resolver
  end.

Lemma resolver_new_total st ts :
  ints_printable (JObj (reference_payload (snapshot st))) = true -> exists r, new_minute_resolver st ts = Ok r.
Proof.
  intros Hp. unfold new_minute_resolver, snapshot_document, document.
  change (pop_key document_key (reference_payload (snapshot st))) with (reference_payload (snapshot st)).
  destruct (canonical_digest_total _ Hp) as [d ->]. cbn [rbind].
  assert (jget document_key (reference_payload (snapshot st) ++ [(document_key, JStr d)]) = Ok (JStr d)) as ->
    by (vm_compute; reflexivity).
  cbn [rbind]. match goal with |- context [canonical_digest ?v] => destruct (canonical_digest_total v) as [d' ->] end;
    [vm_compute; reflexivity | by eexists].
Qed.

Lemma resolvers_new l :
  new_minute_resolver (indexed minute_snapshot) (tick_store_of l) = Ok (resolver_of l).
Proof.
  unfold resolver_of. destruct (resolver_new_total (indexed minute_snapshot) (tick_store_of l)) as [r ->];
    [vm_compute; reflexivity | done].
Qed.

Lemma minute_resolution_point_in_time_witness :
  res_fmap (set_sha []) (resolve_minute minute_zone (resolver_of minute_ticks) (str "ABC")
                           (2 * NANOSECONDS_PER_MINUTE) 30000000000000)
  = res_fmap (set_sha []) (resolve_minute minute_zone (resolver_of later_ticks) (str "ABC")
                             (2 * NANOSECONDS_PER_MINUTE) 30000000000000).
Proof.
  apply (minute_resolution_point_in_time minute_zone minute_snapshot minute_snapshot _ _ minute_ticks later_ticks _ _
           _ _ 30000000000000 minute_store_new minute_store_new (proj1 tick_stores_new) (proj2 tick_stores_new)
           (resolvers_new _) (resolvers_new _)).
  - vm_compute. split_and!; reflexivity.
  - reflexivity.
  - vm_compute. reflexivity.
  - lia.
Defined.

(** A price of 31 digits that is no whole number of nanos is rounded and accepted,
    and a price with a huge exponent raises an exception of [decimal] itself. *)
Lemma long_prices_are_rounded :
  currency_nanos (PDecimal (Finite false (10 ^ 30 + 1) (-30))) = Ok 1000000000
  /\ ~ nanos_of (10 ^ 30 + 1) (-30) 1000000000
  /\ res_fmap id (currency_nanos (PDecimal (Finite false 1 999999))) = raise DecimalOverflow "above Emax".
Proof. split_and!; [vm_compute; reflexivity | | vm_compute; reflexivity]. unfold nanos_of, equals_int. cbn. done. Qed.
