(* ===== verification/MinuteSpool.v ===== *)
(** * The canonical minute spool

    Models the spool of [python/research/aegis_mx_research/canonical_minute.py]: the
    stored encoding of a record, [CanonicalMinuteSpool] with its atomic, deduplicating
    ingestion and its queries.  SQLite tables with a primary key are
    finite maps; a statement that the class executes is the function it computes.
    Database faults, the exception of an injected hook and a failing directory sync
    are inputs of [ingest].  The [zlib] library is the parameter [zlib]. *)

From S2P Require Import Prelude PyText Json Sha256 PyDateTime ForecastDomain ReferenceData ReferenceDocuments CanonicalMinute.

Open Scope Z_scope.

Definition MAX_INSTRUMENT_BUCKETS : Z := 256.
Definition MINIMUM_SPOOL_BYTES : Z := 65536.
Definition SPOOL_RECORD_MAGIC : pybytes := str "CMZ1".
Definition MAX_SPOOL_RECORD_BYTES : Z := 65536.
Definition SPOOL_SCHEMA_VERSION : pystr := str "1.2.0".

(** ** Stored records *)

(** What [decompressobj().decompress(data, max_length)] returns, with the state of
    the decompressor afterwards. *)
Record inflated := {
  inflated_payload : pybytes;
  inflated_eof : bool;
  unconsumed_tail : pybytes;
  unused_data : pybytes;
}.

Class Zlib := {
  compress : pybytes -> pybytes;
  decompress : pybytes -> Z -> option inflated;
}.

(** The documented behaviour of the library: decompression, with room to spare,
    returns what was compressed and reaches the end of the stream. *)
Class ZlibLaws `{Zlib} := {
  decompress_compress payload maximum :
    Z.of_nat (length payload) < maximum ->
    decompress (compress payload) maximum
    = Some {| inflated_payload := payload; inflated_eof := true; unconsumed_tail := []; unused_data := [] |};
}.

Section spool.
Context `{Zlib}.

(** [_encode_spool_record] *)
Definition encode_spool_record (payload : pybytes) : res pybytes :=
  do! minute_when (MAX_SPOOL_RECORD_BYTES <? Z.of_nat (length payload)) CORRUPT_SPOOL
        "canonical spool record exceeds its encoding bound" in
  Ok (SPOOL_RECORD_MAGIC ++ compress payload).

(** [_decode_spool_record] *)
Definition decode_spool_record (value : pybytes) : res pybytes :=
  do! minute_when (negb (bool_decide (take 4 value = SPOOL_RECORD_MAGIC))) CORRUPT_SPOOL
        "spool record is not a versioned compressed canonical document" in
  match decompress (drop 4 value) (MAX_SPOOL_RECORD_BYTES + 1) with
  | None => minute_error CORRUPT_SPOOL "spool record compression is corrupt"
  | Some out =>
      do! minute_when ((MAX_SPOOL_RECORD_BYTES <? Z.of_nat (length (inflated_payload out)))
                       || negb (inflated_eof out)
                       || negb (bool_decide (unconsumed_tail out = []))
                       || negb (bool_decide (unused_data out = [])))
            CORRUPT_SPOOL "spool record compression is truncated, oversized, or trailing" in
      Ok (inflated_payload out)
  end.

(** ** Tables *)

(** A row of [records] without its key. *)
Record SpoolRow := {
  row_trading_date : pystr;
  row_bucket : Z;
  row_economic_sha256 : pystr;
  row_record_sha256 : pystr;
  row_stored : pybytes;
}.

(** A row of [processed_sources] without its key. *)
Record ProcessedSource := {
  ps_object_sha256 : pystr;
  ps_input_records : Z;
  ps_inserted_records : Z;
  ps_identical_duplicates : Z;
  ps_rejected_outside_session : Z;
}.

(** The tables; [records] is keyed by instrument and minute. *)
Record Tables := {
  t_records : gmap (pystr * Z) SpoolRow;
  t_processed : gmap pystr ProcessedSource;
  t_partitions : gset (pystr * Z * pystr);
}.

Record CanonicalMinuteSpool := {
  instrument_buckets : Z;
  maximum_records : Z;
  sp_tables : Tables;
  sp_record_count : Z;
  sp_closed : bool;
}.

(** What opening finds: whether the path or its parent is a symbolic link, the
    message of a database error, the result of the integrity check, the stored schema
    version and the tables. *)
Record SpoolFile := {
  sf_symlink : bool;
  sf_error : option string;
  sf_integrity : bool;
  sf_schema : option pystr;
  sf_tables : Tables;
}.

(** ["full" in str(error).lower()] *)
Fixpoint infix (p s : pystr) : bool :=
  bool_decide (take (length p) s = p) || match s with [] => false | _ :: t => infix p t end.
Definition is_full (msg : string) : bool := infix (str "full") (lower (str msg)).

(** [CanonicalMinuteSpool(path, ...)] *)
Definition open_spool (buckets maximum_records' maximum_bytes : Z) (file : SpoolFile)
    : res CanonicalMinuteSpool :=
  do! raise_when (negb ((1 <=? buckets) && (buckets <=? MAX_INSTRUMENT_BUCKETS))) ValueError
        "instrument_buckets must be from 1 through 256" in
  do! raise_when (maximum_records' <=? 0) ValueError "maximum_records must be positive" in
  do! raise_when (maximum_bytes <? MINIMUM_SPOOL_BYTES) ValueError "maximum_bytes is too small" in
  do! minute_when (sf_symlink file) CORRUPT_SPOOL "spool path is a symlink" in
  match sf_error file with
  | Some msg =>
      if is_full msg then minute_error RECORD_LIMIT "spool byte limit is too small for its schema"
      else minute_error CORRUPT_SPOOL "spool cannot be opened"
  | None =>
      do! minute_when (negb (sf_integrity file)
                       || negb (bool_decide (default SPOOL_SCHEMA_VERSION (sf_schema file)
                                             = SPOOL_SCHEMA_VERSION)))
            CORRUPT_SPOOL "spool integrity or schema validation failed" in
      Ok {| instrument_buckets := buckets; maximum_records := maximum_records';
            sp_tables := sf_tables file;
            sp_record_count := Z.of_nat (size (t_records (sf_tables file)));
            sp_closed := false |}
  end.

(** [close] *)
Definition close_spool (s : CanonicalMinuteSpool) : CanonicalMinuteSpool :=
  {| instrument_buckets := instrument_buckets s; maximum_records := maximum_records s;
     sp_tables := sp_tables s; sp_record_count := sp_record_count s; sp_closed := true |}.

(** [_bucket] *)
Definition bucket_of (buckets : Z) (instrument_id : pystr) : res Z :=
  do! raise_when (negb (forallb is_ascii instrument_id)) UnicodeError "ordinal not in range(128)" in
  Ok (be_int (take 8 (sha256 instrument_id)) mod buckets).

(** ** Ingestion *)

(** The fields of a [SourceManifest] that the spool reads. *)
Record SourceManifest := {
  sm_manifest_id : pystr;
  sm_object_sha256 : pystr;
  sm_record_count : Z;
}.

Record SpoolIngestResult := {
  ir_source_manifest_id : pystr;
  ir_input_records : Z;
  ir_inserted_records : Z;
  ir_identical_duplicates : Z;
  ir_rejected_outside_session : Z;
  ir_already_processed : bool;
}.

(** An iterable of raw bars: those it yields, then the exception it raises, if any. *)
Record Bars := {
  bars : list RawMinuteBar;
  bars_error : option exn;
}.

(** What can fail besides the code itself: messages of database errors when the
    transaction begins, while the [n]-th bar is stored, while partitions and source are
    recorded and at the commit; the exception of the injected hook; and that of the final
    directory sync. *)
Record IngestFaults := {
  fault_begin : option string;
  fault_row : Z -> option string;
  fault_partitions : option string;
  fault_processed : option string;
  fault_hook : option exn;
  fault_commit : option string;
  fault_sync : option exn;
}.

Definition database_error (msg : option string) : res unit :=
  match msg with None => Ok tt | Some m => raise DatabaseError m end.
Definition hook_error (e : option exn) : res unit :=
  match e with None => Ok tt | Some x => Err x end.

(** The local variables of [ingest] and the transaction's tables. *)
Record IngestLoop := {
  lp_records : gmap (pystr * Z) SpoolRow;
  lp_record_count : Z;
  lp_input : Z;
  lp_inserted : Z;
  lp_duplicates : Z;
  lp_rejected : Z;
  lp_previous : gmap pystr Z;
  lp_partitions : gset (pystr * Z);
}.

Definition row_key (r : CanonicalMinuteRecord) : pystr * Z := (cm_instrument_id r, cm_minute_start r).

(** Storing one canonical record. *)
Definition store_record (s : CanonicalMinuteSpool) (fault : option string) (r : CanonicalMinuteRecord)
    (lp : IngestLoop) : res IngestLoop :=
  let! encoded := dumps (payload r) in
  let! stored := encode_spool_record encoded in
  let! bucket := bucket_of (instrument_buckets s) (cm_instrument_id r) in
  let! economic := economic_hash r in
  do! database_error fault in
  let trading_date := isoformat (cm_trading_date r) in
  let finish records count inserted duplicates :=
    {| lp_records := records; lp_record_count := count; lp_input := lp_input lp;
       lp_inserted := inserted; lp_duplicates := duplicates; lp_rejected := lp_rejected lp;
       lp_previous := lp_previous lp;
       lp_partitions := {[(trading_date, bucket)]} ∪ lp_partitions lp |} in
  match lp_records lp !! row_key r with
  | None =>
      do! minute_when (maximum_records s <=? lp_record_count lp) RECORD_LIMIT
            "normalization spool record limit is exhausted" in
      let row := {| row_trading_date := trading_date; row_bucket := bucket;
                    row_economic_sha256 := economic; row_record_sha256 := cm_record_sha256 r;
                    row_stored := stored |} in
      Ok (finish (<[row_key r := row]> (lp_records lp)) (lp_record_count lp + 1)
            (lp_inserted lp + 1) (lp_duplicates lp))
  | Some row =>
      do! minute_when (negb (bool_decide (row_economic_sha256 row = economic))) CONFLICTING_DUPLICATE
            "same instrument/minute carries different economic values" in
      let! existing := decode_spool_record (row_stored row) in
      let records :=
        if negb (pystr_leb existing encoded) then
          <[row_key r := {| row_trading_date := row_trading_date row; row_bucket := row_bucket row;
                            row_economic_sha256 := row_economic_sha256 row;
                            row_record_sha256 := cm_record_sha256 r; row_stored := stored |}]>
            (lp_records lp)
        else lp_records lp in
      Ok (finish records (lp_record_count lp) (lp_inserted lp) (lp_duplicates lp + 1))
  end.

Context (resolve : minute_resolver).

(** [except MinuteNormalizationError] with the code [OUTSIDE_SESSION]. *)
Definition outside_session (e : exn) : bool :=
  bool_decide (exn_cls e = MinuteNormalizationError OUTSIDE_SESSION).

(** The body of the loop for one bar. *)
Definition ingest_bar (s : CanonicalMinuteSpool) (f : IngestFaults) (raw : RawMinuteBar)
    (lp : IngestLoop) : res IngestLoop :=
  do! minute_when (match lp_previous lp !! rw_symbol raw with
                   | Some previous => rw_minute_start raw <? previous
                   | None => false
                   end) TIMESTAMP_DISORDER "source bars are not monotonic within a symbol" in
  let counted (rejected : Z) :=
    {| lp_records := lp_records lp; lp_record_count := lp_record_count lp;
       lp_input := lp_input lp + 1; lp_inserted := lp_inserted lp;
       lp_duplicates := lp_duplicates lp; lp_rejected := lp_rejected lp + rejected;
       lp_previous := <[rw_symbol raw := rw_minute_start raw]> (lp_previous lp);
       lp_partitions := lp_partitions lp |} in
  match normalize resolve raw with
  | Ok canonical => store_record s (fault_row f (lp_input lp + 1)) canonical (counted 0)
  | Err e => if outside_session e then Ok (counted 1) else Err e
  end.

Fixpoint ingest_bars (s : CanonicalMinuteSpool) (f : IngestFaults) (l : list RawMinuteBar)
    (lp : IngestLoop) : res IngestLoop :=
  match l with
  | [] => Ok lp
  | raw :: t => let! lp' := ingest_bar s f raw lp in ingest_bars s f t lp'
  end.

(** The transaction up to its commit: the loop and the rows of the other tables. *)
Definition ingest_transaction (s : CanonicalMinuteSpool) (f : IngestFaults) (manifest : SourceManifest)
    (source : Bars) : res (IngestLoop * Tables) :=
  do! database_error (fault_begin f) in
  let! lp := ingest_bars s f (bars source)
               {| lp_records := t_records (sp_tables s); lp_record_count := sp_record_count s;
                  lp_input := 0; lp_inserted := 0; lp_duplicates := 0; lp_rejected := 0;
                  lp_previous := ∅; lp_partitions := ∅ |} in
  do! hook_error (bars_error source) in
  do! database_error (fault_partitions f) in
  do! minute_when (negb (lp_input lp =? sm_record_count manifest)) INVALID_SOURCE
        "normalized count differs from source manifest" in
  let processed :=
    {| ps_object_sha256 := sm_object_sha256 manifest; ps_input_records := lp_input lp;
       ps_inserted_records := lp_inserted lp; ps_identical_duplicates := lp_duplicates lp;
       ps_rejected_outside_session := lp_rejected lp |} in
  do! database_error (fault_processed f) in
  do! hook_error (fault_hook f) in
  do! database_error (fault_commit f) in
  Ok (lp, {| t_records := lp_records lp;
             t_processed := <[sm_manifest_id manifest := processed]> (t_processed (sp_tables s));
             t_partitions := set_map (fun p => (p, sm_manifest_id manifest)) (lp_partitions lp)
                             ∪ t_partitions (sp_tables s) |}).

(** [_raise_database_failure], and the other exceptions as they are. *)
Definition ingest_error (e : exn) : exn :=
  if bool_decide (exn_cls e = DatabaseError) then
    if is_full (exn_msg e)
    then Exn (MinuteNormalizationError RECORD_LIMIT) "normalization spool byte limit is exhausted"
    else Exn (MinuteNormalizationError CORRUPT_SPOOL) "normalization spool transaction failed"
  else e.

Definition set_tables (t : Tables) (count : Z) (s : CanonicalMinuteSpool) : CanonicalMinuteSpool :=
  {| instrument_buckets := instrument_buckets s; maximum_records := maximum_records s;
     sp_tables := t; sp_record_count := count; sp_closed := sp_closed s |}.

(** [CanonicalMinuteSpool.ingest]: a failure restores the count and rolls back what
    is not yet committed. *)
Definition ingest (f : IngestFaults) (manifest : SourceManifest) (source : Bars)
    : M CanonicalMinuteSpool SpoolIngestResult := fun s =>
  if sp_closed s then (s, raise DatabaseError "Cannot operate on a closed database.") else
  match t_processed (sp_tables s) !! sm_manifest_id manifest with
  | Some prior =>
      if bool_decide (ps_object_sha256 prior = sm_object_sha256 manifest) then
        (s, Ok {| ir_source_manifest_id := sm_manifest_id manifest;
                  ir_input_records := ps_input_records prior;
                  ir_inserted_records := ps_inserted_records prior;
                  ir_identical_duplicates := ps_identical_duplicates prior;
                  ir_rejected_outside_session := ps_rejected_outside_session prior;
                  ir_already_processed := true |})
      else (s, minute_error MN_HASH_MISMATCH "processed source identity now names different bytes")
  | None =>
      match ingest_transaction s f manifest source with
      | Err e => (s, Err (ingest_error e))
      | Ok (lp, tables) =>
          match fault_sync f with
          | Some e => (set_tables tables (sp_record_count s) s, Err (ingest_error e))
          | None =>
              (set_tables tables (lp_record_count lp) s,
               Ok {| ir_source_manifest_id := sm_manifest_id manifest;
                     ir_input_records := lp_input lp; ir_inserted_records := lp_inserted lp;
                     ir_identical_duplicates := lp_duplicates lp;
                     ir_rejected_outside_session := lp_rejected lp;
                     ir_already_processed := false |})
          end
      end
  end.

(** ** Queries *)

(** [ingest_totals] *)
Definition ingest_totals (s : CanonicalMinuteSpool) : list (pystr * Z) :=
  let rows := map snd (map_to_list (t_processed (sp_tables s))) in
  [(str "source_objects", Z.of_nat (length rows));
   (str "input_records", sum_of ps_input_records rows);
   (str "inserted_records", sum_of ps_inserted_records rows);
   (str "identical_duplicates", sum_of ps_identical_duplicates rows);
   (str "rejected_outside_session", sum_of ps_rejected_outside_session rows)].

(** [partition_keys] *)
Definition partition_keys (s : CanonicalMinuteSpool) : list (pystr * Z) :=
  py_sorted (pair_leb pystr_leb Z.leb)
    (elements (list_to_set (map (fun kr => (row_trading_date kr.2, row_bucket kr.2))
                              (map_to_list (t_records (sp_tables s)))) : gset (pystr * Z))).

(** The rows of a partition in the order of their keys. *)
Definition partition_rows (s : CanonicalMinuteSpool) (trading_date : pystr) (bucket : Z)
    : list ((pystr * Z) * SpoolRow) :=
  py_sorted (leb_on fst (pair_leb pystr_leb Z.leb))
    (List.filter (fun kr => bool_decide (row_trading_date kr.2 = trading_date) && (row_bucket kr.2 =? bucket))
       (map_to_list (t_records (sp_tables s)))).

(** [cursor.fetchmany(size)] until it is empty. *)
Fixpoint batches {A} (fuel : nat) (size : nat) (l : list A) : list (list A) :=
  match fuel, l with
  | S f, _ :: _ => take size l :: batches f size (drop size l)
  | _, _ => []
  end.

(** [records_for_partition] *)
Definition records_for_partition (s : CanonicalMinuteSpool) (trading_date : pystr) (bucket batch_rows : Z)
    : res (list (list CanonicalMinuteRecord)) :=
  do! raise_when (batch_rows <=? 0) ValueError "batch_rows must be positive" in
  let rows := partition_rows s trading_date bucket in
  res_map (res_map (fun kr => let! b := decode_spool_record (row_stored kr.2) in from_bytes b))
    (batches (length rows) (Z.to_nat batch_rows) rows).

(** [source_manifest_ids] *)
Definition source_manifest_ids (s : CanonicalMinuteSpool) (trading_date : pystr) (bucket : Z) : list pystr :=
  py_sorted pystr_leb
    (map snd (List.filter (fun p => bool_decide (p.1 = (trading_date, bucket)))
                (elements (t_partitions (sp_tables s))))).

(** [duplicate_count] *)
Definition duplicate_count (s : CanonicalMinuteSpool) (ids : list pystr) : res Z :=
  let! counts := res_map (fun i => match t_processed (sp_tables s) !! i with
                                   | Some row => Ok (ps_identical_duplicates row)
                                   | None => raise TypeError "'NoneType' object is not subscriptable"
                                   end) ids in
  Ok (sum_of id counts).
End spool.

(** ** The stored encoding *)

Section facts.
Context `{ZlibLaws}.

Lemma spool_record_back encoded stored :
  encode_spool_record encoded = Ok stored -> decode_spool_record stored = Ok encoded.
Proof.
  unfold encode_spool_record, decode_spool_record, minute_when. intros (? & Hl%raise_when_ok & E)%rbind_ok.
  apply (inj Ok) in E. subst stored.
  assert (take 4 (SPOOL_RECORD_MAGIC ++ compress encoded) = SPOOL_RECORD_MAGIC) as -> by reflexivity.
  assert (drop 4 (SPOOL_RECORD_MAGIC ++ compress encoded) = compress encoded) as -> by reflexivity.
  rewrite bool_decide_eq_true_2 by done. cbn [negb raise_when rbind].
  rewrite decompress_compress by lia. cbn [inflated_payload inflated_eof unconsumed_tail unused_data].
  rewrite Hl. done.
Qed.

(** ** Minutes of a source *)

(** A canonical record with what is stored for it. *)
Record Minute := {
  mi_record : CanonicalMinuteRecord;
  mi_encoded : pybytes;
  mi_stored : pybytes;
  mi_bucket : Z;
  mi_economic : pystr;
}.

Definition mi_key (m : Minute) : pystr * Z := row_key (mi_record m).

Definition minute_of (buckets : Z) (r : CanonicalMinuteRecord) : res Minute :=
  let! encoded := dumps (payload r) in
  let! stored := encode_spool_record encoded in
  let! bucket := bucket_of buckets (cm_instrument_id r) in
  let! economic := economic_hash r in
  Ok {| mi_record := r; mi_encoded := encoded; mi_stored := stored; mi_bucket := bucket; mi_economic := economic |}.

Definition row_of (m : Minute) : SpoolRow :=
  {| row_trading_date := isoformat (cm_trading_date (mi_record m)); row_bucket := mi_bucket m;
     row_economic_sha256 := mi_economic m; row_record_sha256 := cm_record_sha256 (mi_record m);
     row_stored := mi_stored m |}.

(** The row after a minute with an equal economic digest: the least text wins. *)
Definition merge_row (m : Minute) (row : SpoolRow) : SpoolRow :=
  match decode_spool_record (row_stored row) with
  | Ok existing =>
      if negb (pystr_leb existing (mi_encoded m)) then
        {| row_trading_date := row_trading_date row; row_bucket := row_bucket row;
           row_economic_sha256 := row_economic_sha256 row;
           row_record_sha256 := cm_record_sha256 (mi_record m); row_stored := mi_stored m |}
      else row
  | Err _ => row
  end.

Definition put (R : gmap (pystr * Z) SpoolRow) (m : Minute) : gmap (pystr * Z) SpoolRow :=
  <[mi_key m := match R !! mi_key m with None => row_of m | Some row => merge_row m row end]> R.

Lemma minute_stored buckets r m :
  minute_of buckets r = Ok m ->
  mi_record m = r /\ dumps (payload r) = Ok (mi_encoded m) /\ encode_spool_record (mi_encoded m) = Ok (mi_stored m)
  /\ bucket_of buckets (cm_instrument_id r) = Ok (mi_bucket m) /\ economic_hash r = Ok (mi_economic m).
Proof.
  unfold minute_of. intros (e & He & H')%rbind_ok. apply rbind_ok in H' as (st & Hst & H').
  apply rbind_ok in H' as (b & Hb & H'). apply rbind_ok in H' as (ec & Hec & [= <-]). done.
Qed.

Lemma minute_decodes buckets r m :
  minute_of buckets r = Ok m -> decode_spool_record (mi_stored m) = Ok (mi_encoded m).
Proof. intros (_ & _ & Hs & _)%minute_stored. by apply spool_record_back. Qed.

(** ** The loop *)

Context (resolve : minute_resolver) (session_day : Z -> date).
Context (Href : forall x e k ref, resolve x e k = Ok ref ->
                  reference_ok ref /\ rf_trading_date ref = session_day e).

Context (buckets : Z).

(** A minute as ingestion produces it. *)
Definition minute_ok (m : Minute) : Prop :=
  minute_of buckets (mi_record m) = Ok m /\ record_ok (mi_record m)
  /\ cm_trading_date (mi_record m) = session_day (cm_minute_start (mi_record m)).

(** The text determines the minute. *)
Lemma minute_injective m1 m2 : minute_ok m1 -> minute_ok m2 -> mi_encoded m1 = mi_encoded m2 -> m1 = m2.
Proof using H0.
  intros (M1 & (T1 & V1 & C1 & G1) & _) (M2 & (T2 & V2 & C2 & G2) & _) E.
  pose proof (minute_stored _ _ _ M1) as (_ & D1 & _). pose proof (minute_stored _ _ _ M2) as (_ & D2 & _).
  rewrite E in *. pose proof (from_bytes_payload _ _ T1 V1 C1 G1 D1) as F1.
  pose proof (from_bytes_payload _ _ T2 V2 C2 G2 D2) as F2. rewrite F1 in F2. apply (inj Ok) in F2.
  rewrite F2, M2 in M1. by apply (inj Ok) in M1.
Qed.

(** The minute with the lesser text. *)
Definition least (m0 m : Minute) : Minute :=
  if negb (pystr_leb (mi_encoded m0) (mi_encoded m)) then m else m0.

Lemma merge_row_least m0 m :
  minute_ok m0 -> minute_ok m -> mi_key m0 = mi_key m -> mi_economic m0 = mi_economic m ->
  merge_row m (row_of m0) = row_of (least m0 m).
Proof using H0.
  intros (M0 & _ & D0) (M1 & _ & D1) Hk He. unfold merge_row. cbn [row_of row_stored].
  rewrite (minute_decodes _ _ _ M0). unfold least. destruct (negb _); [|done].
  apply minute_stored in M0 as (_ & _ & _ & B0 & _), M1 as (_ & _ & _ & B1 & _).
  unfold mi_key, row_key in Hk. injection Hk as Hi Hm. unfold row_of. cbn. rewrite D0, D1, Hm, He.
  rewrite Hi, B1 in B0. apply (inj Ok) in B0. by rewrite B0.
Qed.

(** The table of minutes that the table of rows represents. *)
Definition holds (T : gmap (pystr * Z) Minute) (R : gmap (pystr * Z) SpoolRow) : Prop :=
  R = row_of <$> T /\ map_Forall (fun k m => minute_ok m /\ mi_key m = k) T.

Definition keep (T : gmap (pystr * Z) Minute) (m : Minute) : gmap (pystr * Z) Minute :=
  <[mi_key m := match T !! mi_key m with None => m | Some m0 => least m0 m end]> T.

(** Minutes of one key agree on their economic digest [E]. *)
Definition agree (E : pystr * Z -> pystr) (T : gmap (pystr * Z) Minute) (ms : list Minute) : Prop :=
  map_Forall (fun k m => mi_economic m = E k) T /\ Forall (fun m => mi_economic m = E (mi_key m)) ms.

Lemma least_cases m0 m : least m0 m = m0 \/ least m0 m = m.
Proof using. unfold least. destruct (negb _); auto. Qed.

Lemma keep_lookup T m k :
  keep T m !! k = if bool_decide (k = mi_key m)
                  then Some match T !! mi_key m with None => m | Some m0 => least m0 m end else T !! k.
Proof using.
  unfold keep. case_bool_decide as E; [subst k; by rewrite lookup_insert_eq | by rewrite lookup_insert_ne].
Qed.

Lemma put_keep T R m :
  holds T R -> minute_ok m -> (forall m0, T !! mi_key m = Some m0 -> mi_economic m0 = mi_economic m) ->
  holds (keep T m) (put R m).
Proof using H0.
  intros [-> HT] Hm He. split.
  - unfold put, keep. rewrite fmap_insert. f_equal. rewrite lookup_fmap.
    destruct (T !! mi_key m) as [m0|] eqn:E; [|done]. cbn. destruct (HT _ _ E) as [Hm0 Hk].
    by apply merge_row_least; [| | | apply He].
  - unfold keep. apply map_Forall_insert_2; [|done]. destruct (T !! mi_key m) as [m0|] eqn:E; [|done].
    destruct (HT _ _ E) as [Hm0 Hk]. by destruct (least_cases m0 m) as [-> | ->].
Qed.

Lemma agree_keep E T m ms : agree E T (m :: ms) -> agree E (keep T m) ms.
Proof using.
  intros [HT [Hm Hms]%Forall_cons]. split; [|done]. unfold keep. apply map_Forall_insert_2; [|done].
  destruct (T !! mi_key m) as [m0|] eqn:E0; [|done]. apply HT in E0.
  by destruct (least_cases m0 m) as [-> | ->].
Qed.

(** ** The order of minutes does not matter *)

Lemma least_leb m0 m : pystr_leb (mi_encoded (least m0 m)) (mi_encoded m0) = true
                       /\ pystr_leb (mi_encoded (least m0 m)) (mi_encoded m) = true.
Proof using.
  unfold least. destruct (pystr_leb (mi_encoded m0) (mi_encoded m)) eqn:E; cbn.
  - split; [apply (preb_refl pystr_leb) | done].
  - split; [|apply (preb_refl pystr_leb)]. by destruct (preb_total (leb := pystr_leb) (mi_encoded m0) (mi_encoded m)); [congruence|].
Qed.

(** A lower bound taken from a list of minutes is unique. *)
Definition least_of (ms : list Minute) (l : Minute) : Prop :=
  l ∈ ms /\ Forall (fun m => pystr_leb (mi_encoded l) (mi_encoded m) = true) ms.

Lemma least_of_unique ms l l' : Forall minute_ok ms -> least_of ms l -> least_of ms l' -> l = l'.
Proof using H0.
  rewrite Forall_forall. intros Hok [Hl Hlow] [Hl' Hlow']. rewrite Forall_forall in Hlow, Hlow'.
  apply minute_injective; [by apply Hok | by apply Hok |]. apply (ordb_anti (leb := pystr_leb)); auto.
Qed.

Lemma least_of_cons ms l m : least_of ms l -> least_of (ms ++ [m]) (least l m).
Proof using.
  intros [Hl Hlow]. destruct (least_leb l m) as [H1 H2]. split.
  - apply elem_of_app. destruct (least_cases l m) as [-> | ->]; [by left | right; left].
  - apply Forall_app. split; [|by repeat constructor]. eapply Forall_impl; [exact Hlow|]. intros x Hx.
    cbv beta in Hx. exact (preb_trans _ _ _ H1 Hx).
Qed.

Lemma least_of_perm ms ms' l : ms ≡ₚ ms' -> least_of ms l -> least_of ms' l.
Proof using. intros Hp [Hl Hlow]. split; [by rewrite <- Hp | by rewrite <- Hp]. Qed.

(** The table after a list of minutes: under each key, the least of the minute that was
    there and those that came. *)
Definition table_minutes (T : gmap (pystr * Z) Minute) (k : pystr * Z) : list Minute := option_list (T !! k).

Lemma option_list_some {A} (o : option A) x : x ∈ option_list o <-> o = Some x.
Proof using.
  destruct o as [a|]; cbn.
  - rewrite list_elem_of_singleton. split; [by intros -> | by intros [= ->]].
  - split; [by intros []%not_elem_of_nil | done].
Qed.

Lemma keep_all_lookup ms T k :
  let known := table_minutes T k ++ List.filter (fun m => bool_decide (mi_key m = k)) ms in
  match foldl keep T ms !! k with
  | None => known = []
  | Some l => least_of known l
  end.
Proof using.
  cbv zeta. induction ms as [|m ms IH] using rev_ind.
  - cbn. rewrite app_nil_r. unfold table_minutes. destruct (T !! k) as [l|]; [|done]. cbn. split; [left|].
    repeat constructor. apply (preb_refl pystr_leb).
  - rewrite foldl_snoc, keep_lookup, List.filter_app. cbn [List.filter].
    destruct (decide (mi_key m = k)) as [<-|Hk].
    + rewrite !bool_decide_eq_true_2 by done. rewrite app_assoc.
      destruct (foldl keep T ms !! mi_key m) as [l|]; [by apply least_of_cons|]. rewrite IH. cbn.
      split; [left|]. repeat constructor. apply (preb_refl pystr_leb).
    + rewrite !bool_decide_eq_false_2 by congruence. by rewrite app_nil_r.
Qed.

Lemma filter_perm_b {A} (f : A -> bool) (l k : list A) : l ≡ₚ k -> List.filter f l ≡ₚ List.filter f k.
Proof using.
  induction 1 as [|x l k _ IH|x y l|l k j _ IH1 _ IH2]; cbn; [done | | | by etrans].
  - destruct (f x); [by constructor | done].
  - destruct (f x), (f y); try done. by constructor.
Qed.

Lemma keep_all_perm ms ms' T :
  ms ≡ₚ ms' -> Forall minute_ok ms -> map_Forall (fun k m => minute_ok m) T ->
  foldl keep T ms = foldl keep T ms'.
Proof using H0.
  intros Hp Hms HT. apply map_eq. intros k.
  pose proof (keep_all_lookup ms T k) as H1. pose proof (keep_all_lookup ms' T k) as H2. cbv zeta in *.
  assert (Hknown : table_minutes T k ++ List.filter (fun m => bool_decide (mi_key m = k)) ms
                   ≡ₚ table_minutes T k ++ List.filter (fun m => bool_decide (mi_key m = k)) ms')
    by (by rewrite (filter_perm_b _ _ _ Hp)).
  destruct (foldl keep T ms !! k) as [l|], (foldl keep T ms' !! k) as [l'|]; try done.
  - f_equal. eapply least_of_unique; [| |by eapply least_of_perm; [symmetry|]]; [|exact H1].
    apply Forall_app. split.
    + apply Forall_forall. intros x Hx%option_list_some. by apply HT in Hx.
    + rewrite Forall_forall in *. intros x [Hx _]%elem_of_filter_b. by apply Hms.
  - exfalso. rewrite H2 in Hknown. destruct H1 as [Hin _]. rewrite Hknown in Hin. by apply not_elem_of_nil in Hin.
  - exfalso. rewrite H1 in Hknown. destruct H2 as [Hin _]. rewrite <- Hknown in Hin. by apply not_elem_of_nil in Hin.
Qed.

(** A source whose texts can be written. *)
Definition source_ok (l : list RawMinuteBar) : Prop := Forall (fun raw => Forall text_ok (raw_texts raw)) l.

Lemma normalized_ok raw r :
  normalize resolve raw = Ok r -> Forall text_ok (raw_texts raw) ->
  record_ok r /\ cm_trading_date r = session_day (cm_minute_start r).
Proof.
  intros Hn Ht. split.
  - eapply normalize_record_ok; [done | done |]. intros ref Hr. by apply Href in Hr as [? _].
  - apply normalize_digest in Hn as (ref & o & h & l & c & v & Hr & _ & -> & _). cbn.
    by apply Href in Hr as [_ ->].
Qed.
(** What a bar contributes: a minute, or nothing when it is outside its session. *)
Definition accepted_of (raw : RawMinuteBar) : res (option Minute) :=
  match normalize resolve raw with
  | Ok r => let! m := minute_of buckets r in Ok (Some m)
  | Err e => if outside_session e then Ok None else Err e
  end.

Lemma accepted_minute raw m :
  Forall text_ok (raw_texts raw) -> accepted_of raw = Ok (Some m) -> minute_ok m.
Proof using Href.
  intros Ht Ha. unfold accepted_of in Ha. destruct (normalize resolve raw) as [r|e] eqn:En.
  - apply rbind_ok in Ha as (m' & Hm & [= ->]). destruct (normalized_ok raw r En Ht) as [Hok Hd].
    destruct (minute_stored _ _ _ Hm) as [E _]. unfold minute_ok. by rewrite E.
  - by destruct (outside_session e).
Qed.

(** The starts of a symbol's bars never decrease. *)
Definition not_before (previous : gmap pystr Z) (raw : RawMinuteBar) : bool :=
  match previous !! rw_symbol raw with
  | Some p => p <=? rw_minute_start raw
  | None => true
  end.
Fixpoint in_order (previous : gmap pystr Z) (l : list RawMinuteBar) : bool :=
  match l with
  | [] => true
  | raw :: t => not_before previous raw && in_order (<[rw_symbol raw := rw_minute_start raw]> previous) t
  end.

Definition fresh (R : gmap (pystr * Z) SpoolRow) (m : Minute) : Z := if R !! mi_key m then 0 else 1.

(** The loop after a bar. *)
Definition after_bar (raw : RawMinuteBar) (om : option Minute) (lp : IngestLoop) : IngestLoop :=
  {| lp_records := match om with Some m => put (lp_records lp) m | None => lp_records lp end;
     lp_record_count := lp_record_count lp + match om with Some m => fresh (lp_records lp) m | None => 0 end;
     lp_input := lp_input lp + 1;
     lp_inserted := lp_inserted lp + match om with Some m => fresh (lp_records lp) m | None => 0 end;
     lp_duplicates := lp_duplicates lp + match om with Some m => 1 - fresh (lp_records lp) m | None => 0 end;
     lp_rejected := lp_rejected lp + match om with Some _ => 0 | None => 1 end;
     lp_previous := <[rw_symbol raw := rw_minute_start raw]> (lp_previous lp);
     lp_partitions := match om with
                      | Some m => {[(isoformat (cm_trading_date (mi_record m)), mi_bucket m)]} ∪ lp_partitions lp
                      | None => lp_partitions lp
                      end |}.

Context (s : CanonicalMinuteSpool) (f : IngestFaults).
Context (Hbuckets : instrument_buckets s = buckets) (Hfaults : forall n, fault_row f n = None).

(** When a minute can be stored. *)
Definition storable (T : gmap (pystr * Z) Minute) (count : Z) (m : Minute) : Prop :=
  match T !! mi_key m with
  | None => count < maximum_records s
  | Some m0 => mi_economic m0 = mi_economic m
  end.

(** Storing a minute, when it can be stored. *)
Lemma store_record_ok T lp r lp' :
  holds T (lp_records lp) ->
  store_record s None r lp = Ok lp' <->
  exists m, minute_of buckets r = Ok m /\ storable T (lp_record_count lp) m
    /\ lp' = {| lp_records := put (lp_records lp) m;
                lp_record_count := lp_record_count lp + fresh (lp_records lp) m; lp_input := lp_input lp;
                lp_inserted := lp_inserted lp + fresh (lp_records lp) m;
                lp_duplicates := lp_duplicates lp + (1 - fresh (lp_records lp) m);
                lp_rejected := lp_rejected lp; lp_previous := lp_previous lp;
                lp_partitions := {[(isoformat (cm_trading_date r), mi_bucket m)]} ∪ lp_partitions lp |}.
Proof using All.
  intros [HR HT]. unfold store_record, minute_of. rewrite Hbuckets.
  destruct (dumps (payload r)) as [encoded|]; cbn [rbind]; [|naive_solver].
  destruct (encode_spool_record encoded) as [stored|] eqn:Es; cbn [rbind]; [|naive_solver].
  destruct (bucket_of buckets (cm_instrument_id r)) as [bucket|]; cbn [rbind]; [|naive_solver].
  destruct (economic_hash r) as [economic|]; cbn [rbind]; [|naive_solver].
  cbn [database_error rbind]. set (m := {| mi_record := r |}).
  transitivity (storable T (lp_record_count lp) m /\
    lp' = {| lp_records := put (lp_records lp) m;
             lp_record_count := lp_record_count lp + fresh (lp_records lp) m; lp_input := lp_input lp;
             lp_inserted := lp_inserted lp + fresh (lp_records lp) m;
             lp_duplicates := lp_duplicates lp + (1 - fresh (lp_records lp) m);
             lp_rejected := lp_rejected lp; lp_previous := lp_previous lp;
             lp_partitions := {[(isoformat (cm_trading_date r), mi_bucket m)]} ∪ lp_partitions lp |}).
  2:{ split; [intros [? ?]; by exists m | intros (m' & Hm' & ? & ?); apply (inj Ok) in Hm'; by subst m']. }
  unfold storable, put, fresh. change (mi_key m) with (row_key r). rewrite HR, lookup_fmap.
  destruct (T !! row_key r) as [m0|] eqn:Et; cbn [fmap option_fmap option_map].
  - destruct (HT _ _ Et) as [(M0 & _ & _) Hk]. cbn [row_of row_economic_sha256 row_stored]. unfold minute_when.
    rewrite (minute_decodes _ _ _ M0). change (mi_economic m) with economic.
    destruct (decide (mi_economic m0 = economic)) as [He|He].
    2:{ rewrite bool_decide_eq_false_2 by done. split; [done | naive_solver]. }
    rewrite bool_decide_eq_true_2 by done. cbn [negb raise_when rbind]. unfold merge_row.
    cbn [row_of row_stored]. rewrite (minute_decodes _ _ _ M0). change (mi_encoded m) with encoded.
    rewrite !Z.add_0_r, Z.sub_0_r.
    destruct (negb (pystr_leb (mi_encoded m0) encoded)).
    + split; [intros E; apply (inj Ok) in E; by subst lp' | by intros [_ ->]].
    + rewrite insert_id by (by rewrite lookup_fmap, Et).
      split; [intros E; apply (inj Ok) in E; by subst lp' | by intros [_ ->]].
  - unfold minute_when. destruct (maximum_records s <=? lp_record_count lp) eqn:El; cbn [raise_when raise rbind].
    + split; [done | lia].
    + rewrite Z.sub_diag, Z.add_0_r. split.
      * intros E; apply (inj Ok) in E; subst lp'. split; [lia | done].
      * by intros [_ ->].
Qed.

Lemma ingest_bar_ok T lp raw lp' :
  holds T (lp_records lp) -> Forall text_ok (raw_texts raw) ->
  ingest_bar resolve s f raw lp = Ok lp' <->
  not_before (lp_previous lp) raw = true
  /\ exists om, accepted_of raw = Ok om /\ lp' = after_bar raw om lp
       /\ match om with Some m => storable T (lp_record_count lp) m | None => True end.
Proof using All.
  intros [HR HT] Htext. unfold ingest_bar, accepted_of. rewrite Hfaults.
  assert (Hguard : match lp_previous lp !! rw_symbol raw with Some p => rw_minute_start raw <? p | None => false end
                   = negb (not_before (lp_previous lp) raw)).
  { unfold not_before. destruct (lp_previous lp !! rw_symbol raw); [lia | done]. }
  unfold minute_when at 1. rewrite Hguard. destruct (not_before (lp_previous lp) raw);
    cbn [negb raise_when raise rbind]; [|split; [done | by intros [[=] _]]].
  destruct (normalize resolve raw) as [r|e] eqn:En.
  2:{ destruct (outside_session e).
      - split; [intros [= <-]; split; [done|]; exists None; split; [done|]; split; [|done];
          unfold after_bar; f_equal; lia|].
        intros (_ & om & [= <-] & -> & _). unfold after_bar. do 2 f_equal; lia.
      - split; [done | by intros (_ & om & [=] & _)]. }
  rewrite (store_record_ok T) by done. cbn [lp_records lp_record_count lp_input lp_inserted lp_duplicates lp_rejected
    lp_previous lp_partitions]. rewrite Z.add_0_r. split.
  - intros (m & Hm & Hst & ->). split; [done|]. exists (Some m). rewrite Hm. split; [done|]. split; [|done].
    unfold after_bar. destruct (minute_stored _ _ _ Hm) as [-> _]. by rewrite Z.add_0_r.
  - intros (_ & om & Hom & -> & Hst). apply rbind_ok in Hom as (m & Hm & [= <-]). exists m. split; [done|].
    split; [done|]. unfold after_bar. destruct (minute_stored _ _ _ Hm) as [-> _]. by rewrite Z.add_0_r.
Qed.
(** ** The whole loop *)

Definition after_bars (l : list RawMinuteBar) (oms : list (option Minute)) (lp : IngestLoop) : IngestLoop :=
  foldl (fun lp p => after_bar p.1 p.2 lp) lp (zip l oms).

Definition minutes (oms : list (option Minute)) : list Minute := omap id oms.

Lemma keep_size T m : Z.of_nat (size (keep T m)) = Z.of_nat (size T) + (if T !! mi_key m then 0 else 1).
Proof using. unfold keep. rewrite map_size_insert. destruct (T !! mi_key m); [unfold id|]; lia. Qed.

Lemma keep_all_size ms T : Z.of_nat (size T) <= Z.of_nat (size (foldl keep T ms)).
Proof using.
  revert T. induction ms as [|m ms IH]; intros T; cbn [foldl]; [lia|]. specialize (IH (keep T m)).
  rewrite keep_size in IH. destruct (T !! mi_key m); lia.
Qed.

Lemma agree_cons E T m ms :
  (forall m0, T !! mi_key m = Some m0 -> mi_economic m0 = mi_economic m) ->
  agree E (keep T m) ms -> agree E T (m :: ms).
Proof using.
  intros Hst [HT Hms]. pose proof (keep_lookup T m (mi_key m)) as Hk. rewrite bool_decide_eq_true_2 in Hk by done.
  assert (HE : mi_economic m = E (mi_key m)).
  { apply HT in Hk. rewrite <- Hk. destruct (T !! mi_key m) as [m0|]; [|done].
    destruct (least_cases m0 m) as [-> | ->]; [symmetry; by apply Hst | done]. }
  split; [|by constructor]. intros k m0 E0. destruct (decide (k = mi_key m)) as [->|Hne].
  - rewrite <- HE. by apply Hst.
  - apply HT. by rewrite keep_lookup, bool_decide_eq_false_2.
Qed.

Lemma fresh_holds T R m : holds T R -> fresh R m = if T !! mi_key m then 0 else 1.
Proof using. intros [-> _]. unfold fresh. rewrite lookup_fmap. by destruct (T !! mi_key m). Qed.

Lemma ingest_bars_ok T l lp lp' :
  holds T (lp_records lp) -> source_ok l -> lp_record_count lp = Z.of_nat (size T) ->
  ingest_bars resolve s f l lp = Ok lp' <->
  in_order (lp_previous lp) l = true
  /\ exists oms, Forall2 (fun raw om => accepted_of raw = Ok om) l oms /\ lp' = after_bars l oms lp
       /\ (exists E, agree E T (minutes oms))
       /\ (Z.of_nat (size (foldl keep T (minutes oms))) <= maximum_records s
           \/ size (foldl keep T (minutes oms)) = size T).
Proof using All.
  revert T lp. induction l as [|raw l IH]; intros T lp HT Hsrc Hc; cbn [ingest_bars in_order].
  - split.
    + intros [= <-]. split; [done|]. exists []. split; [constructor|]. split; [done|]. split; [|by right].
      exists (fun k => from_option mi_economic [] (T !! k)). split; [|constructor]. by intros k m ->.
    + intros (_ & oms & H2 & -> & _). inversion H2. done.
  - apply Forall_cons in Hsrc as [Hraw Hsrc]. rewrite rbind_ok, andb_true_iff. split.
    + intros (lp1 & H1 & H2). apply (ingest_bar_ok T lp raw lp1 HT Hraw) in H1 as (Ho & om & Ha & -> & Hst).
      destruct om as [m|].
      * pose proof (accepted_minute raw m Hraw Ha) as Hm.
        assert (He : forall m0, T !! mi_key m = Some m0 -> mi_economic m0 = mi_economic m)
          by (intros m0 E0; unfold storable in Hst; by rewrite E0 in Hst).
        apply (IH (keep T m)) in H2 as (Hord & oms & Homs & -> & [E HE] & Hlim);
          [|by apply put_keep | done | cbn [after_bar lp_record_count]; rewrite keep_size, (fresh_holds T _ m HT), Hc; done].
        split; [done|]. exists (Some m :: oms). split; [by constructor|]. split; [done|].
        change (minutes (Some m :: oms)) with (m :: minutes oms).
        split; [exists E; by apply agree_cons|]. cbn [foldl]. destruct Hlim as [Hlim|Hlim]; [by left|].
        rewrite Hlim. pose proof (keep_size T m) as Hsz. unfold storable in Hst.
        destruct (T !! mi_key m); [right | left]; lia.
      * apply (IH T) in H2 as (Hord & oms & Homs & -> & HE & Hlim); [|done | done | cbn [after_bar lp_record_count]; lia].
        split; [done|]. exists (None :: oms). by split; [constructor|].
    + intros ([Ho Hord] & oms & H2 & -> & [E HE] & Hlim).
      inversion H2 as [|? om ? oms' Ha Homs]; subst. exists (after_bar raw om lp).
      rewrite (ingest_bar_ok T lp raw _ HT Hraw). destruct om as [m|].
      * pose proof (accepted_minute raw m Hraw Ha) as Hm. 
        change (minutes (Some m :: oms')) with (m :: minutes oms') in HE, Hlim. cbn [foldl] in Hlim.
        assert (He : forall m0, T !! mi_key m = Some m0 -> mi_economic m0 = mi_economic m).
        { intros m0 E0. destruct HE as [HE1 [HE2 _]%Forall_cons]. apply HE1 in E0. congruence. }
        pose proof (keep_size T m) as Hsz. pose proof (keep_all_size (minutes oms') (keep T m)) as Hge. split.
        -- split; [done|]. exists (Some m). split; [done|]. split; [done|]. unfold storable.
           destruct (T !! mi_key m) as [m0|]; [by apply He | lia].
        -- apply (IH (keep T m)); [by apply put_keep | done | cbn [after_bar lp_record_count]; rewrite (fresh_holds T _ m HT); lia |].
           split; [done|]. exists oms'. split; [done|]. split; [done|]. split; [exists E; by apply agree_keep|].
           destruct Hlim as [Hlim|Hlim]; [by left | right; destruct (T !! mi_key m); lia].
      * split; [split; [done|]; by exists None|]. apply (IH T); [done | done | cbn [after_bar lp_record_count]; lia |].
        split; [done|]. exists oms'. split; [done|]. split; [done|]. split; [by exists E | done].
Qed.
Definition partition_of (m : Minute) : pystr * Z := (isoformat (cm_trading_date (mi_record m)), mi_bucket m).

(** The variables of the loop in terms of the minutes. *)
Lemma after_bars_spec T E l oms lp :
  holds T (lp_records lp) -> length l = length oms -> Forall minute_ok (minutes oms) -> agree E T (minutes oms) ->
  let lp' := after_bars l oms lp in
  let T' := foldl keep T (minutes oms) in
  let added := Z.of_nat (size T') - Z.of_nat (size T) in
  holds T' (lp_records lp')
  /\ lp_record_count lp' = lp_record_count lp + added
  /\ lp_input lp' = lp_input lp + Z.of_nat (length l)
  /\ lp_inserted lp' = lp_inserted lp + added
  /\ lp_duplicates lp' = lp_duplicates lp + (Z.of_nat (length (minutes oms)) - added)
  /\ lp_rejected lp' = lp_rejected lp + (Z.of_nat (length l) - Z.of_nat (length (minutes oms)))
  /\ lp_partitions lp' = list_to_set (map partition_of (minutes oms)) ∪ lp_partitions lp.
Proof using All.
  revert T oms lp. induction l as [|raw l IH]; intros T [|om oms] lp HT Hlen Hms HE; try done.
  - cbn. split_and!; try done; try lia. set_solver.
  - injection Hlen as Hlen. destruct om as [m|].
    + change (minutes (Some m :: oms)) with (m :: minutes oms) in *. apply Forall_cons in Hms as [Hm Hms].
      assert (Hst : forall m0, T !! mi_key m = Some m0 -> mi_economic m0 = mi_economic m).
      { intros m0 E0. destruct HE as [HE1 [HE2 _]%Forall_cons]. apply HE1 in E0. congruence. }
      pose proof (fresh_holds T _ m HT) as Hf. pose proof (keep_size T m) as Hsz.
      specialize (IH (keep T m) oms (after_bar raw (Some m) lp) (put_keep T _ m HT Hm Hst) Hlen Hms (agree_keep _ _ _ _ HE)).
      cbv zeta in IH |- *. destruct IH as (I1 & I2 & I3 & I4 & I5 & I6 & I7). cbn [foldl length map list_to_set] in *.
      change (after_bars (raw :: l) (Some m :: oms) lp) with (after_bars l oms (after_bar raw (Some m) lp)).
      rewrite I2, I3, I4, I5, I6, I7. cbn [after_bar lp_record_count lp_input lp_inserted lp_duplicates lp_rejected lp_partitions].
      rewrite Hf. rewrite !Nat2Z.inj_succ. split; [done|].
      split_and!; try (destruct (T !! mi_key m); lia). set_solver.
    + change (minutes (None :: oms)) with (minutes oms) in *.
      specialize (IH T oms (after_bar raw None lp) HT Hlen Hms HE). cbv zeta in IH |- *.
      destruct IH as (I1 & I2 & I3 & I4 & I5 & I6 & I7). cbn [length] in *.
      change (after_bars (raw :: l) (None :: oms) lp) with (after_bars l oms (after_bar raw None lp)).
      rewrite I2, I3, I4, I5, I6, I7. cbn [after_bar lp_record_count lp_input lp_inserted lp_duplicates lp_rejected lp_partitions].
      rewrite !Nat2Z.inj_succ. split; [done|]. split_and!; try lia. done.
Qed.

Lemma accepted_minutes l oms :
  source_ok l -> Forall2 (fun raw om => accepted_of raw = Ok om) l oms -> Forall minute_ok (minutes oms).
Proof using Href.
  intros Hs H2. induction H2 as [|raw om l oms Ha _ IH]; [constructor|]. apply Forall_cons in Hs as [Hraw Hs].
  destruct om as [m|]; [|by apply IH]. change (minutes (Some m :: oms)) with (m :: minutes oms).
  constructor; [by eapply accepted_minute | by apply IH].
Qed.
End facts.

(** ** The whole operation *)

Section ingestion.
Context `{ZlibLaws} (resolve : minute_resolver) (session_day : Z -> date).
Context (Href : forall x e k ref, resolve x e k = Ok ref ->
                  reference_ok ref /\ rf_trading_date ref = session_day e).

Definition no_faults : IngestFaults :=
  {| fault_begin := None; fault_row := fun _ => None; fault_partitions := None; fault_processed := None;
     fault_hook := None; fault_commit := None; fault_sync := None |}.

(** An open spool whose rows are those of the minutes [T] and whose count is right. *)
Record spool_holds (T : gmap (pystr * Z) Minute) (s : CanonicalMinuteSpool) : Prop := {
  sh_open : sp_closed s = false;
  sh_rows : holds session_day (instrument_buckets s) T (t_records (sp_tables s));
  sh_count : sp_record_count s = Z.of_nat (size T);
}.

(** What a source must satisfy to be ingested into a spool that holds [T]: [ms] are its
    minutes. *)
Record ingestible (s : CanonicalMinuteSpool) (T : gmap (pystr * Z) Minute) (manifest : SourceManifest)
    (source : Bars) (ms : list Minute) : Prop := {
  in_complete : bars_error source = None;
  in_count : Z.of_nat (length (bars source)) = sm_record_count manifest;
  in_ordered : in_order ∅ (bars source) = true;
  in_minutes : exists oms, Forall2 (fun raw om => accepted_of resolve (instrument_buckets s) raw = Ok om) (bars source) oms
                           /\ ms = minutes oms;
  in_agree : exists E, agree E T ms;
  in_limit : Z.of_nat (size (foldl keep T ms)) <= maximum_records s \/ size (foldl keep T ms) = size T;
}.

Definition ingested (s : CanonicalMinuteSpool) (T : gmap (pystr * Z) Minute) (manifest : SourceManifest)
    (source : Bars) (ms : list Minute) : SpoolIngestResult :=
  let added := Z.of_nat (size (foldl keep T ms)) - Z.of_nat (size T) in
  {| ir_source_manifest_id := sm_manifest_id manifest;
     ir_input_records := Z.of_nat (length (bars source));
     ir_inserted_records := added;
     ir_identical_duplicates := Z.of_nat (length ms) - added;
     ir_rejected_outside_session := Z.of_nat (length (bars source)) - Z.of_nat (length ms);
     ir_already_processed := false |}.

Definition start_loop (s : CanonicalMinuteSpool) : IngestLoop :=
  {| lp_records := t_records (sp_tables s); lp_record_count := sp_record_count s;
     lp_input := 0; lp_inserted := 0; lp_duplicates := 0; lp_rejected := 0;
     lp_previous := ∅; lp_partitions := ∅ |}.

(** A loop that succeeds met no fault. *)
Lemma ingest_bars_no_fault s f l lp lp' :
  ingest_bars resolve s f l lp = Ok lp' -> ingest_bars resolve s no_faults l lp = Ok lp'.
Proof using.
  revert lp. induction l as [|raw l IH]; intros lp; cbn [ingest_bars]; [done|].
  intros (lp1 & H1 & H2)%rbind_ok. apply rbind_ok. exists lp1. split; [|by apply IH].
  unfold ingest_bar in *. apply rbind_ok in H1 as (u & Hu & H1). rewrite Hu. cbn [rbind].
  destruct (normalize resolve raw); [|done]. unfold store_record in *.
  apply rbind_ok in H1 as (e & -> & H1). cbn [rbind]. apply rbind_ok in H1 as (st & -> & H1). cbn [rbind].
  apply rbind_ok in H1 as (b & -> & H1). cbn [rbind]. apply rbind_ok in H1 as (ec & -> & H1). cbn [rbind].
  apply rbind_ok in H1 as (v & _ & H1). exact H1.
Qed.
(** The row of [processed_sources] for a result. *)
Definition processed_of (manifest : SourceManifest) (r : SpoolIngestResult) : ProcessedSource :=
  {| ps_object_sha256 := sm_object_sha256 manifest; ps_input_records := ir_input_records r;
     ps_inserted_records := ir_inserted_records r; ps_identical_duplicates := ir_identical_duplicates r;
     ps_rejected_outside_session := ir_rejected_outside_session r |}.

(** The spool after its minutes [T] and those of a source, [ms], are kept. *)
Definition committed_tables (s : CanonicalMinuteSpool) (T : gmap (pystr * Z) Minute) (manifest : SourceManifest)
    (source : Bars) (ms : list Minute) : Tables :=
  {| t_records := row_of <$> foldl keep T ms;
     t_processed := <[sm_manifest_id manifest := processed_of manifest (ingested s T manifest source ms)]>
                      (t_processed (sp_tables s));
     t_partitions := set_map (fun p => (p, sm_manifest_id manifest)) (list_to_set (map partition_of ms) : gset (pystr * Z))
                     ∪ t_partitions (sp_tables s) |}.
Definition committed (s : CanonicalMinuteSpool) (T : gmap (pystr * Z) Minute) (manifest : SourceManifest)
    (source : Bars) (ms : list Minute) : CanonicalMinuteSpool :=
  set_tables (committed_tables s T manifest source ms) (Z.of_nat (size (foldl keep T ms))) s.

Lemma ingestible_ok s T manifest source ms :
  source_ok (bars source) -> ingestible s T manifest source ms ->
  Forall (minute_ok session_day (instrument_buckets s)) ms.
Proof using All.
  intros Hs Hi. destruct (in_minutes _ _ _ _ _ Hi) as (oms & H2 & ->). by eapply accepted_minutes.
Qed.

(** The minutes of a source are determined by it. *)
Lemma ingestible_minutes s s' T T' manifest manifest' source ms ms' :
  instrument_buckets s' = instrument_buckets s ->
  ingestible s T manifest source ms -> ingestible s' T' manifest' source ms' -> ms = ms'.
Proof using.
  intros Hb H1 H2. destruct (in_minutes _ _ _ _ _ H1) as (o1 & F1 & ->).
  destruct (in_minutes _ _ _ _ _ H2) as (o2 & F2 & ->). rewrite Hb in F2. f_equal.
  clear H1 H2. revert o2 F2. induction F1 as [|raw om l oms Ha _ IH]; intros o2 F2; inversion F2 as [|? ? ? ? Ha']; subst; [done|].
  rewrite Ha in Ha'. apply (inj Ok) in Ha'. subst. f_equal. by apply IH.
Qed.

Lemma transaction_sound s f T manifest source lp tables :
  spool_holds T s -> source_ok (bars source) ->
  ingest_transaction resolve s f manifest source = Ok (lp, tables) ->
  exists ms, ingestible s T manifest source ms /\ tables = committed_tables s T manifest source ms
    /\ lp_record_count lp = Z.of_nat (size (foldl keep T ms))
    /\ lp_input lp = ir_input_records (ingested s T manifest source ms)
    /\ lp_inserted lp = ir_inserted_records (ingested s T manifest source ms)
    /\ lp_duplicates lp = ir_identical_duplicates (ingested s T manifest source ms)
    /\ lp_rejected lp = ir_rejected_outside_session (ingested s T manifest source ms)
    /\ ingest_transaction resolve s no_faults manifest source = Ok (lp, tables).
Proof using All.
  intros [Hopen Hrows Hcount] Hsrc. unfold ingest_transaction. intros (? & _ & HT)%rbind_ok.
  apply rbind_ok in HT as (lp1 & Hl & HT). apply rbind_ok in HT as (? & He & HT).
  apply rbind_ok in HT as (? & _ & HT). apply rbind_ok in HT as (? & Hc%raise_when_ok & HT).
  apply rbind_ok in HT as (? & _ & HT). apply rbind_ok in HT as (? & _ & HT).
  apply rbind_ok in HT as (? & _ & HT). injection HT as <- <-. apply ingest_bars_no_fault in Hl as Hl'.
  assert (Hb : bars_error source = None) by (by destruct (bars_error source)).
  apply (ingest_bars_ok resolve session_day Href (instrument_buckets s) s no_faults eq_refl (fun _ => eq_refl) T)
    in Hl' as Hx; [|done..]. destruct Hx as (Hord & oms & H2 & -> & [E HE] & Hlim). exists (minutes oms).
  pose proof (after_bars_spec resolve session_day Href (instrument_buckets s) s no_faults eq_refl (fun _ => eq_refl) T E
    (bars source) oms (start_loop s) Hrows (Forall2_length _ _ _ H2) (accepted_minutes _ _ Href _ _ _ Hsrc H2) HE) as Hspec.
  cbv zeta in Hspec. fold (start_loop s) in *.
  destruct Hspec as ([HR _] & S2 & S3 & S4 & S5 & S6 & S7). cbn [start_loop lp_record_count lp_input lp_inserted
    lp_duplicates lp_rejected lp_partitions] in S2, S3, S4, S5, S6, S7. rewrite Hcount in S2.
  split; [constructor; try done; [lia | by exists oms | by exists E]|].
  unfold committed_tables, processed_of, ingested. cbn.
  rewrite S2, S3, S4, S5, S6, HR, S7. split_and!; try lia.
  - rewrite union_empty_r_L, !Z.add_0_l. f_equal.
  - rewrite Hl', Hb. cbn [database_error no_faults fault_begin fault_partitions fault_processed fault_hook fault_commit hook_error rbind].
    unfold minute_when. rewrite Hc. cbn [raise_when rbind]. rewrite HR, S7, S3, S4, S5, S6. done.
Qed.

(** No fault before the sync. *)
Definition quiet (f : IngestFaults) : Prop :=
  fault_begin f = None /\ (forall n, fault_row f n = None) /\ fault_partitions f = None /\ fault_processed f = None
  /\ fault_hook f = None /\ fault_commit f = None.

Lemma transaction_complete s f T manifest source ms :
  quiet f -> spool_holds T s -> source_ok (bars source) -> ingestible s T manifest source ms ->
  exists lp tables, ingest_transaction resolve s f manifest source = Ok (lp, tables).
Proof using All.
  intros (F1 & F2 & F3 & F4 & F5 & F6) [Hopen Hrows Hcount] Hsrc [He Hn Hord (oms & H2 & ->) [E HE] Hlim].
  assert (Hl : ingest_bars resolve s f (bars source) (start_loop s) = Ok (after_bars (bars source) oms (start_loop s))).
  { apply (ingest_bars_ok resolve session_day Href (instrument_buckets s) s f eq_refl F2 T); [done..|].
    split; [done|]. exists oms. split; [done|]. split; [done|]. split; [by exists E | done]. }
  pose proof (after_bars_spec resolve session_day Href (instrument_buckets s) s f eq_refl F2 T E
    (bars source) oms (start_loop s) Hrows (Forall2_length _ _ _ H2) (accepted_minutes _ _ Href _ _ _ Hsrc H2) HE)
    as (_ & _ & Hin & _). cbn [start_loop lp_input] in Hin.
  unfold ingest_transaction. fold (start_loop s). rewrite Hl, He, F1, F3, F4, F5, F6.
  cbn [database_error hook_error rbind].
  unfold minute_when. rewrite Hin, Hn, Z.add_0_l, Z.eqb_refl. cbn [negb raise_when rbind]. by do 2 eexists.
Qed.

Lemma committed_holds s T manifest source ms :
  spool_holds T s -> source_ok (bars source) -> ingestible s T manifest source ms ->
  spool_holds (foldl keep T ms) (committed s T manifest source ms).
Proof using All.
  intros [Hopen [HR HT] Hcount] Hsrc Hi. pose proof (ingestible_ok _ _ _ _ _ Hsrc Hi) as Hms.
  destruct (in_agree _ _ _ _ _ Hi) as [E HE]. constructor; [done | | done]. cbn. split; [done|].
  clear - HT Hms. revert T HT. induction Hms as [|m ms Hm _ IH]; intros T HT; [done|]. cbn [foldl]. apply IH.
  unfold keep. apply map_Forall_insert_2; [|done]. destruct (T !! mi_key m) as [m0|] eqn:E; [|done].
  destruct (HT _ _ E) as [Hm0 Hk]. by destruct (least_cases m0 m) as [-> | ->].
Qed.

(** [ingest] on a source that has not been processed. *)
Lemma ingest_new s f T manifest source :
  spool_holds T s -> source_ok (bars source) -> t_processed (sp_tables s) !! sm_manifest_id manifest = None ->
  (exists e, ingest resolve f manifest source s = (s, Err e))
  \/ exists ms, ingestible s T manifest source ms
     /\ ingest resolve f manifest source s
        = match fault_sync f with
          | None => (committed s T manifest source ms, Ok (ingested s T manifest source ms))
          | Some e => (set_tables (committed_tables s T manifest source ms) (sp_record_count s) s, Err (ingest_error e))
          end.
Proof using All.
  intros Hs Hsrc Hnew. unfold ingest. rewrite (sh_open _ _ Hs), Hnew.
  destruct (ingest_transaction resolve s f manifest source) as [[lp tables]|e] eqn:Et; [right | left; by eexists].
  apply (transaction_sound s f T) in Et as (ms & Hi & -> & H1 & H2 & H3 & H4 & H5 & _); [|done..].
  exists ms. split; [done|]. destruct (fault_sync f); [done|]. rewrite H1, H2, H3, H4, H5. done.
Qed.

Lemma ingest_ingestible s T manifest source ms :
  spool_holds T s -> source_ok (bars source) -> t_processed (sp_tables s) !! sm_manifest_id manifest = None ->
  ingestible s T manifest source ms ->
  ingest resolve no_faults manifest source s
  = (committed s T manifest source ms, Ok (ingested s T manifest source ms)).
Proof using All.
  intros Hs Hsrc Hnew Hi. destruct (ingest_new s no_faults T manifest source Hs Hsrc Hnew) as [[e He]|(ms' & Hi' & He)].
  - destruct (transaction_complete _ no_faults _ _ _ _ ltac:(done) Hs Hsrc Hi) as (lp & tables & Ht). unfold ingest in He.
    rewrite (sh_open _ _ Hs), Hnew, Ht in He. done.
  - by rewrite He, (ingestible_minutes s s T T manifest manifest source ms ms').
Qed.

(** C13: ingesting a source that has not been processed, without outside faults, is a
    transaction with an exact specification.  It succeeds precisely when the source is
    [ingestible]: it raised no exception, has the number of bars its manifest states, no
    symbol goes back in time, every bar normalizes (or is outside its session, and is
    skipped), bars of one instrument and minute agree on their economic digest with each
    other and with what is stored, and the new minutes fit under the limit.  The rows are
    then those of the minutes of the spool and of the source, the least text under each
    key, the counts are exact, and the count of the spool is the size of its table.
    Otherwise it raises and the spool is unchanged. *)
Theorem spool_ingest_exact T s manifest source :
  spool_holds T s -> source_ok (bars source) -> t_processed (sp_tables s) !! sm_manifest_id manifest = None ->
  (forall ms, ingestible s T manifest source ms ->
     ingest resolve no_faults manifest source s
     = (committed s T manifest source ms, Ok (ingested s T manifest source ms))
     /\ spool_holds (foldl keep T ms) (committed s T manifest source ms))
  /\ ((forall ms, ~ ingestible s T manifest source ms) ->
      exists e, ingest resolve no_faults manifest source s = (s, Err e)).
Proof using All.
  intros Hs Hsrc Hnew. split.
  - intros ms Hi. split; [by apply ingest_ingestible | by apply committed_holds].
  - intros Hno. destruct (ingest_new s no_faults T manifest source Hs Hsrc Hnew) as [He|(ms & Hi & _)]; [done|].
    by destruct (Hno ms).
Qed.

(** The answer to a source that was already ingested. *)
Definition repeated (r : SpoolIngestResult) : SpoolIngestResult :=
  {| ir_source_manifest_id := ir_source_manifest_id r; ir_input_records := ir_input_records r;
     ir_inserted_records := ir_inserted_records r; ir_identical_duplicates := ir_identical_duplicates r;
     ir_rejected_outside_session := ir_rejected_outside_session r; ir_already_processed := true |}.

Lemma ingest_processed f s manifest source r :
  sp_closed s = false -> ir_source_manifest_id r = sm_manifest_id manifest ->
  t_processed (sp_tables s) !! sm_manifest_id manifest = Some (processed_of manifest r) ->
  ingest resolve f manifest source s = (s, Ok (repeated r)).
Proof using.
  intros Hopen Hid Hp. unfold ingest. rewrite Hopen, Hp. cbn [processed_of ps_object_sha256].
  rewrite bool_decide_eq_true_2 by done. unfold repeated. by rewrite Hid.
Qed.

(** Ingestion is all or nothing under every fault of the database, of the source,
    of the hook and of the directory sync.  Either the spool is exactly as before and the
    call raised or reported a source that was already processed, or the tables are those
    of the ingestion without faults and every later call with the same manifest, whatever
    its bars and faults, changes nothing and reports the same counts as already
    processed. *)
Theorem spool_ingest_atomic f T s manifest source s' r :
  spool_holds T s -> source_ok (bars source) ->
  ingest resolve f manifest source s = (s', r) ->
  (s' = s /\ forall result, r = Ok result -> ir_already_processed result = true)
  \/ exists s1 result, ingest resolve no_faults manifest source s = (s1, Ok result)
       /\ sp_tables s' = sp_tables s1 /\ (fault_sync f = None -> s' = s1 /\ r = Ok result)
       /\ forall f' source', ingest resolve f' manifest source' s' = (s', Ok (repeated result)).
Proof using All.
  intros Hs Hsrc E. destruct (t_processed (sp_tables s) !! sm_manifest_id manifest) as [prior|] eqn:Hp.
  - left. unfold ingest in E. rewrite (sh_open _ _ Hs), Hp in E.
    destruct (bool_decide _); injection E as <- <-; (split; [done|]); [by intros ? [= <-] | done].
  - destruct (ingest_new s f T manifest source Hs Hsrc Hp) as [[e He]|(ms & Hi & He)].
    + left. rewrite He in E. by injection E as <- <-.
    + right. exists (committed s T manifest source ms), (ingested s T manifest source ms).
      split; [by apply ingest_ingestible|]. rewrite He in E. clear He.
      destruct (fault_sync f); injection E as <- <-; (split; [done|]); (split; [done|]); intros f' source';
        (apply ingest_processed; [apply (sh_open _ _ Hs) | done | cbn; by rewrite lookup_insert_eq]).
Qed.
(** ** The order of sources *)

Lemma agree_keep_all E T ms ms' : agree E T (ms ++ ms') -> agree E (foldl keep T ms) ms'.
Proof using. revert T. induction ms as [|m ms IH]; intros T Ha; [done|]. apply IH. by apply agree_keep. Qed.

Lemma agree_known E T m ms : agree E T (m :: ms) -> forall m0, T !! mi_key m = Some m0 -> mi_economic m0 = mi_economic m.
Proof using. intros [HT [Hm _]%Forall_cons] m0 E0. apply HT in E0. congruence. Qed.

Lemma agree_app E E' T ms ms' : agree E T ms -> agree E' (foldl keep T ms) ms' -> agree E' T (ms ++ ms').
Proof using.
  revert T. induction ms as [|m ms IH]; intros T HE HE'; [done|]. apply agree_cons; [by eapply agree_known|].
  apply IH; [by apply agree_keep | done].
Qed.

Lemma agree_perm E T ms ms' : ms ≡ₚ ms' -> agree E T ms -> agree E T ms'.
Proof using. intros Hp [HT Hms]. split; [done|]. by rewrite <- Hp. Qed.

Lemma agree_prefix E T ms ms' : agree E T (ms ++ ms') -> agree E T ms.
Proof using. intros [HT [Hms _]%Forall_app]. by split. Qed.

Lemma keep_all_swap s T manifest source ms ms' :
  spool_holds T s -> source_ok (bars source) ->
  ingestible s T manifest source ms -> Forall (minute_ok session_day (instrument_buckets s)) ms' ->
  foldl keep (foldl keep T ms') ms = foldl keep (foldl keep T ms) ms'.
Proof using All.
  intros Hs Hsrc Hi Hms'. rewrite <- !foldl_app. destruct (sh_rows _ _ Hs) as [_ HT].
  apply (keep_all_perm session_day (instrument_buckets s)); [apply Permutation_app_comm | |].
  - apply Forall_app. split; [done | by eapply ingestible_ok].
  - eapply map_Forall_impl; [exact HT|]. by intros k m [? _].
Qed.

(** Two sources that can be ingested one after the other can be ingested in the other
    order. *)
Lemma ingestible_swap s T a b A B ma mb :
  spool_holds T s -> source_ok (bars A) -> source_ok (bars B) -> ingestible s T a A ma ->
  ingestible (committed s T a A ma) (foldl keep T ma) b B mb ->
  ingestible s T b B mb /\ ingestible (committed s T b B mb) (foldl keep T mb) a A ma.
Proof using All.
  intros Hs HA HB Ia Ib. pose proof (ingestible_ok _ _ _ _ _ HB Ib) as Hmb.
  pose proof (keep_all_swap s T a A ma mb Hs HA Ia Hmb) as Hsw.
  destruct (in_agree _ _ _ _ _ Ia) as [E HE], (in_agree _ _ _ _ _ Ib) as [E' HE'].
  pose proof (agree_app _ _ _ _ _ HE HE') as Hab. apply (agree_perm _ _ _ (mb ++ ma)) in Hab; [|apply Permutation_app_comm].
  pose proof (in_limit _ _ _ _ _ Ia) as L1. pose proof (in_limit _ _ _ _ _ Ib) as L2. cbn [committed set_tables maximum_records] in L2.
  pose proof (keep_all_size mb T) as S1. pose proof (keep_all_size ma (foldl keep T mb)) as S2.
  pose proof (keep_all_size mb (foldl keep T ma)) as S3. rewrite Hsw in S2. split.
  - destruct Ib as [B1 B2 B3 B4 _ _]. constructor; [done | done | done | done | exists E'; by eapply agree_prefix | lia].
  - destruct Ia as [A1 A2 A3 A4 _ _]. constructor; [done | done | done | done | exists E'; by apply agree_keep_all |].
    cbn [committed set_tables maximum_records]. rewrite Hsw. lia.
Qed.

(** C14: the order in which two sources are ingested does not matter: when one and then
    the other succeed, so do they in the other order, with the same rows, partitions and
    count, and with the same totals of inserted, duplicate, rejected and read bars. *)
Theorem spool_ingest_order_independent T s a b A B s1 s2 ra rb :
  spool_holds T s -> source_ok (bars A) -> source_ok (bars B) -> sm_manifest_id a <> sm_manifest_id b ->
  t_processed (sp_tables s) !! sm_manifest_id a = None -> t_processed (sp_tables s) !! sm_manifest_id b = None ->
  ingest resolve no_faults a A s = (s1, Ok ra) -> ingest resolve no_faults b B s1 = (s2, Ok rb) ->
  exists s1' s2' ra' rb',
    ingest resolve no_faults b B s = (s1', Ok rb') /\ ingest resolve no_faults a A s1' = (s2', Ok ra')
    /\ t_records (sp_tables s2') = t_records (sp_tables s2)
    /\ t_partitions (sp_tables s2') = t_partitions (sp_tables s2)
    /\ sp_record_count s2' = sp_record_count s2
    /\ ir_input_records ra' = ir_input_records ra /\ ir_input_records rb' = ir_input_records rb
    /\ ir_rejected_outside_session ra' = ir_rejected_outside_session ra
    /\ ir_rejected_outside_session rb' = ir_rejected_outside_session rb
    /\ ir_inserted_records ra' + ir_inserted_records rb' = ir_inserted_records ra + ir_inserted_records rb
    /\ ir_identical_duplicates ra' + ir_identical_duplicates rb'
       = ir_identical_duplicates ra + ir_identical_duplicates rb.
Proof using All.
  intros Hs HA HB Hne Na Nb Ea Eb.
  destruct (ingest_new s no_faults T a A Hs HA Na) as [[e He]|(ma & Ia & He)]; rewrite He in Ea; [done|].
  cbn [no_faults fault_sync] in Ea. injection Ea as <- <-. clear He.
  pose proof (committed_holds _ _ _ _ _ Hs HA Ia) as Hs1.
  assert (Nb' : t_processed (sp_tables (committed s T a A ma)) !! sm_manifest_id b = None) by (cbn; by rewrite lookup_insert_ne).
  destruct (ingest_new _ no_faults _ b B Hs1 HB Nb') as [[e He]|(mb & Ib & He)]; rewrite He in Eb; [done|].
  cbn [no_faults fault_sync] in Eb. injection Eb as <- <-. clear He.
  destruct (ingestible_swap s T a b A B ma mb Hs HA HB Ia Ib) as [Ib' Ia'].
  pose proof (committed_holds _ _ _ _ _ Hs HB Ib') as Hs1'.
  assert (Na' : t_processed (sp_tables (committed s T b B mb)) !! sm_manifest_id a = None) by (cbn; by rewrite lookup_insert_ne).
  do 4 eexists. split; [by apply (ingest_ingestible s T b B mb)|].
  split; [by apply (ingest_ingestible _ (foldl keep T mb) a A ma)|].
  pose proof (keep_all_swap s T a A ma mb Hs HA Ia (ingestible_ok _ _ _ _ _ HB Ib')) as Hsw.
  cbn [committed committed_tables set_tables sp_tables t_records t_partitions sp_record_count ingested ir_input_records
       ir_rejected_outside_session ir_inserted_records ir_identical_duplicates]. rewrite Hsw.
  split_and!; try done; try lia. set_solver.
Qed.
(** ** Reachable spools *)

Definition total (f : ProcessedSource -> Z) (m : gmap pystr ProcessedSource) : Z :=
  sum_of f (map snd (map_to_list m)).

Lemma total_insert f k row m : m !! k = None -> total f (<[k := row]> m) = f row + total f m.
Proof using.
  intros Hk. unfold total. rewrite (sum_of_perm f _ (row :: map snd (map_to_list m))); [done|].
  by rewrite map_to_list_insert.
Qed.

(** The counts of a source add up. *)
Definition balanced (row : ProcessedSource) : Prop :=
  ps_input_records row
  = ps_inserted_records row + ps_identical_duplicates row + ps_rejected_outside_session row
  /\ 0 <= ps_inserted_records row /\ 0 <= ps_identical_duplicates row /\ 0 <= ps_rejected_outside_session row.

(** The invariant of a spool that holds the minutes [T]. *)
Record spool_inv (T : gmap (pystr * Z) Minute) (s : CanonicalMinuteSpool) : Prop := {
  si_rows : holds session_day (instrument_buckets s) T (t_records (sp_tables s));
  si_count : sp_record_count s = Z.of_nat (size T);
  si_limit : sp_record_count s <= maximum_records s;
  si_inserted : total ps_inserted_records (t_processed (sp_tables s)) = Z.of_nat (size T);
  si_balanced : map_Forall (fun _ => balanced) (t_processed (sp_tables s));
  si_sources : forall p id, (p, id) ∈ t_partitions (sp_tables s) -> is_Some (t_processed (sp_tables s) !! id);
  si_covered : map_Forall (fun _ m => exists id, (partition_of m, id) ∈ t_partitions (sp_tables s)) T;
}.

Lemma minutes_length oms : (length (minutes oms) <= length oms)%nat.
Proof using. unfold minutes. induction oms as [|[m|] oms IH]; cbn in *; lia. Qed.

Lemma kept_size ms T : (size (foldl keep T ms) <= size T + length ms)%nat.
Proof using.
  revert T. induction ms as [|m ms IH]; intros T; cbn [foldl length]; [lia|]. specialize (IH (keep T m)).
  pose proof (keep_size T m) as Hsz. destruct (T !! mi_key m); lia.
Qed.

Lemma ingested_balanced s T manifest source ms :
  ingestible s T manifest source ms -> balanced (processed_of manifest (ingested s T manifest source ms)).
Proof using.
  intros Hi. destruct (in_minutes _ _ _ _ _ Hi) as (oms & H2 & ->).
  pose proof (minutes_length oms) as Hl. rewrite <- (Forall2_length _ _ _ H2) in Hl.
  pose proof (keep_all_size (minutes oms) T) as H1. pose proof (kept_size (minutes oms) T) as H3.
  unfold balanced, processed_of, ingested. cbn. lia.
Qed.

(** A kept minute was there or came with the source. *)
Lemma kept_from T ms k m : foldl keep T ms !! k = Some m -> T !! k = Some m \/ m ∈ ms.
Proof using.
  intros E. pose proof (keep_all_lookup ms T k) as Hk. cbv zeta in Hk. rewrite E in Hk.
  destruct Hk as [[Hx%option_list_some | [Hx _]%elem_of_filter_b]%elem_of_app _]; auto.
Qed.

Lemma committed_inv s T manifest source ms :
  sp_closed s = false -> spool_inv T s -> source_ok (bars source) -> t_processed (sp_tables s) !! sm_manifest_id manifest = None ->
  ingestible s T manifest source ms -> spool_inv (foldl keep T ms) (committed s T manifest source ms).
Proof using All.
  intros Hopen [Hr Hc Hl Hi Hb Hs Hv] Hsrc Hnew Hin.
  assert (Hs' : spool_holds T s) by done.
  destruct (committed_holds _ _ _ _ _ Hs' Hsrc Hin) as [_ Hrows Hcount].
  pose proof (in_limit _ _ _ _ _ Hin) as Hlim.
  constructor; cbn [committed committed_tables set_tables sp_tables t_processed t_partitions sp_record_count maximum_records
    instrument_buckets] in *; [done | done | lia | | | |].
  - rewrite total_insert by done. rewrite Hi. cbn. lia.
  - apply map_Forall_insert_2; [by apply ingested_balanced | done].
  - intros p id [Hp|Hp]%elem_of_union.
    + apply elem_of_map in Hp as (q & [= -> ->] & _). by rewrite lookup_insert_eq.
    + destruct (decide (id = sm_manifest_id manifest)) as [->|Hne]; [by rewrite lookup_insert_eq|].
      rewrite lookup_insert_ne by done. by eapply Hs.
  - intros k m [Hm|Hm]%kept_from.
    + destruct (Hv _ _ Hm) as [id Hid]. exists id. set_solver.
    + exists (sm_manifest_id manifest). apply elem_of_union_l, elem_of_map. exists (partition_of m). split; [done|].
      apply elem_of_list_to_set, list_elem_of_fmap. by exists m.
Qed.

(** A spool is opened on a blank file, ingests sources, is reopened on the file that an
    ingestion left, whatever failed in it, or is closed. *)
Inductive spool_reachable (buckets maximum bytes : Z) : CanonicalMinuteSpool -> Prop :=
  | reach_open file s :
      sf_tables file = {| t_records := ∅; t_processed := ∅; t_partitions := ∅ |} ->
      open_spool buckets maximum bytes file = Ok s -> spool_reachable buckets maximum bytes s
  | reach_ingest f manifest source s s' r :
      spool_reachable buckets maximum bytes s -> source_ok (bars source) -> fault_sync f = None ->
      ingest resolve f manifest source s = (s', r) -> spool_reachable buckets maximum bytes s'
  | reach_reopen f manifest source s s' r file s'' :
      spool_reachable buckets maximum bytes s -> source_ok (bars source) ->
      ingest resolve f manifest source s = (s', r) -> sf_tables file = sp_tables s' ->
      open_spool buckets maximum bytes file = Ok s'' -> spool_reachable buckets maximum bytes s''
  | reach_close s : spool_reachable buckets maximum bytes s -> spool_reachable buckets maximum bytes (close_spool s).

Lemma open_spool_ok buckets maximum bytes file s :
  open_spool buckets maximum bytes file = Ok s ->
  0 < maximum /\ s = {| instrument_buckets := buckets; maximum_records := maximum; sp_tables := sf_tables file;
                        sp_record_count := Z.of_nat (size (t_records (sf_tables file))); sp_closed := false |}.
Proof using.
  unfold open_spool. intros (? & _ & E)%rbind_ok. apply rbind_ok in E as (? & Hm%raise_when_ok & E).
  apply rbind_ok in E as (? & _ & E). apply rbind_ok in E as (? & _ & E). destruct (sf_error file) as [msg|].
  - by destruct (is_full msg).
  - apply rbind_ok in E as (? & _ & [= <-]). split; [lia | done].
Qed.

(** Whatever happens, ingestion leaves tables that satisfy the invariant, and without a
    failing sync also the count. *)
Lemma ingest_inv T f manifest source s s' r :
  spool_inv T s -> source_ok (bars source) -> ingest resolve f manifest source s = (s', r) ->
  exists T' s1, spool_inv T' s1 /\ sp_tables s' = sp_tables s1 /\ instrument_buckets s1 = instrument_buckets s
    /\ maximum_records s1 = maximum_records s /\ (fault_sync f = None -> s' = s1).
Proof using All.
  intros Hinv Hsrc E. destruct (sp_closed s) eqn:Hopen.
  { unfold ingest in E. rewrite Hopen in E. injection E as <- <-. by exists T, s. }
  destruct (t_processed (sp_tables s) !! sm_manifest_id manifest) as [prior|] eqn:Hp.
  { unfold ingest in E. rewrite Hopen, Hp in E. exists T, s. destruct (bool_decide _); by injection E as <- <-. }
  assert (Hs : spool_holds T s) by (destruct Hinv; done).
  destruct (ingest_new s f T manifest source Hs Hsrc Hp) as [[e He]|(ms & Hi & He)]; rewrite He in E.
  - injection E as <- <-. by exists T, s.
  - exists (foldl keep T ms), (committed s T manifest source ms). split; [by apply committed_inv|].
    destruct (fault_sync f); injection E as <- <-; by split_and!.
Qed.

Lemma spool_reach_inv buckets maximum bytes s :
  spool_reachable buckets maximum bytes s ->
  instrument_buckets s = buckets /\ maximum_records s = maximum /\ exists T, spool_inv T s.
Proof using All.
  induction 1 as [file s Hf [Hm ->]%open_spool_ok | f manifest source s s' r _ (Hb & Hm & T & IH) Hsrc Hsync E
    | f manifest source s s' r file s'' _ (Hb & Hm & T & IH) Hsrc E Hf [Hm' ->]%open_spool_ok | s _ (Hb & Hm & T & IH)].
  - split; [done|]. split; [done|]. exists ∅. rewrite Hf. constructor; cbn; try done.
    rewrite map_size_empty. lia.
  - destruct (ingest_inv T f manifest source s s' r IH Hsrc E) as (T' & s1 & Hi & _ & Hb1 & Hm1 & Hs).
    rewrite (Hs Hsync). split; [congruence|]. split; [congruence|]. by exists T'.
  - destruct (ingest_inv T f manifest source s s' r IH Hsrc E) as (T' & s1 & [H1 H2 H3 H4 H5 H6 H7] & Ht & Hb1 & Hm1 & _).
    split; [done|]. split; [done|]. exists T'. rewrite Hf, Ht.
    assert (Hsz : size (t_records (sp_tables s1)) = size T') by (destruct H1 as [-> _]; by rewrite map_size_fmap).
    constructor; cbn; try done; [congruence | by rewrite Hsz | rewrite Hsz; lia].
  - split; [done|]. split; [done|]. exists T. by destruct IH.
Qed.

(** Every reachable spool keeps its invariant.  Its rows are those of well-formed
    minutes, each under its own key; its count is the number of rows, within the limit,
    and equals the insertions of all processed sources; the counts of every source add up
    to its input; every recorded partition names a processed source, and the partition of
    every row has one.  This survives every failing ingestion, and a reopening restores
    it after a failing directory sync. *)
Theorem spool_reachable_invariant buckets maximum bytes s :
  spool_reachable buckets maximum bytes s ->
  instrument_buckets s = buckets /\ maximum_records s = maximum /\ exists T, spool_inv T s.
Proof using All. apply spool_reach_inv. Qed.
End ingestion.

(** ** Examples *)

(** A codec that stores what it is given. *)
#[local] Instance stored_zlib : Zlib :=
  {| compress payload := payload;
     decompress data maximum :=
       Some {| inflated_payload := take (Z.to_nat maximum) data;
               inflated_eof := Z.of_nat (length data) <=? maximum;
               unconsumed_tail := drop (Z.to_nat maximum) data; unused_data := [] |} |}.

#[local] Instance stored_zlib_laws : ZlibLaws.
Proof.
  constructor. intros payload maximum Hl. cbn. do 2 f_equal; [apply take_ge; lia | lia | apply drop_ge; lia].
Qed.

Definition spool_bar : RawMinuteBar := sample_bar "ABC" (2 * NANOSECONDS_PER_MINUTE) 10150.
Definition spool_record : pystr -> CanonicalMinuteRecord :=
  canonical_record spool_bar plain_reference 10025 10150 10001 10100 None.

Lemma spool_bar_normalized :
  normalize plain_resolver spool_bar
  = let! digest := record_digest (spool_record (repeat 48 64)) in Ok (spool_record digest).
Proof.
  unfold normalize.
  assert (check_raw spool_bar = Ok tt) as -> by (vm_compute; reflexivity).
  change (plain_resolver _ _ _) with (Ok plain_reference). cbn [rbind].
  assert (ticks (open_value spool_bar) (price_encoding spool_bar) (rf_tick_value_currency_nanos plain_reference) = Ok 10025)
    as -> by (vm_compute; reflexivity).
  assert (ticks (high_value spool_bar) (price_encoding spool_bar) (rf_tick_value_currency_nanos plain_reference) = Ok 10150)
    as -> by (vm_compute; reflexivity).
  assert (ticks (low_value spool_bar) (price_encoding spool_bar) (rf_tick_value_currency_nanos plain_reference) = Ok 10001)
    as -> by (vm_compute; reflexivity).
  assert (ticks (close_value spool_bar) (price_encoding spool_bar) (rf_tick_value_currency_nanos plain_reference) = Ok 10100)
    as -> by (vm_compute; reflexivity).
  reflexivity.
Qed.

Lemma spool_bar_accepted : exists m, accepted_of plain_resolver 16 spool_bar = Ok (Some m).
Proof.
  unfold accepted_of. rewrite spool_bar_normalized. unfold record_digest, canonical_digest.
  destruct (dumps_total (JObj (body (spool_record (repeat 48 64))))) as [b ->]; [vm_compute; reflexivity|].
  cbn [rbind]. set (digest := sha256_hex b). unfold minute_of.
  destruct (dumps_total (payload (spool_record digest))) as [e He]; [vm_compute; reflexivity|]. rewrite He. cbn [rbind].
  unfold encode_spool_record, minute_when.
  assert (Hlen : Z.of_nat (length e) <= 10000).
  { apply dumps_size in He. etrans; [exact He|]. unfold payload. cbn [json_size]. unfold sum_of at 1.
    assert (Z.of_nat (length (dumps_str digest)) <= 66).
    { unfold digest, sha256_hex. rewrite length_dumps_str, length_bytes_hex, length_sha256; [lia|].
      by apply hexc_unescaped, bytes_hex_hexc, sha256_range. }
    cbn [foldr fst snd json_size]. change (spool_record digest).(cm_record_sha256) with digest.
    set (rest := foldr _ _ _). assert (rest <= 8000) by (vm_compute; discriminate).
    assert (Z.of_nat (length (dumps_str (str "record_sha256"))) = 15) as -> by reflexivity. lia. }
  replace (MAX_SPOOL_RECORD_BYTES <? Z.of_nat (length e)) with false by (unfold MAX_SPOOL_RECORD_BYTES; lia).
  cbn [raise_when rbind]. unfold bucket_of. change (forallb is_ascii _) with true. cbn [negb raise_when rbind].
  unfold economic_hash, canonical_digest.
  match goal with |- context [dumps ?v] => destruct (dumps_total v) as [x ->]; [vm_compute; reflexivity|] end.
  cbn [rbind]. by eexists.
Qed.

Lemma plain_promise x e k ref :
  plain_resolver x e k = Ok ref -> reference_ok ref /\ rf_trading_date ref = minute_zone e.
Proof.
  intros [= <-]. split; [split|]; [|vm_compute; reflexivity|reflexivity]. cbn [rf_instrument_id plain_reference app].
  repeat (apply Forall_cons; split; [apply str_text_ok|]). apply Forall_nil_2.
Qed.

Definition spool_source : Bars := {| bars := [spool_bar]; bars_error := None |}.
Definition blank_tables : Tables := {| t_records := ∅; t_processed := ∅; t_partitions := ∅ |}.
Definition blank_spool : CanonicalMinuteSpool :=
  {| instrument_buckets := 16; maximum_records := 10; sp_tables := blank_tables; sp_record_count := 0; sp_closed := false |}.
Definition spool_manifest (id : string) : SourceManifest :=
  {| sm_manifest_id := str id; sm_object_sha256 := str "object"; sm_record_count := 1 |}.

Lemma spool_source_ok : source_ok (bars spool_source).
Proof.
  apply Forall_cons; split; [|apply Forall_nil_2]. cbn [raw_texts spool_bar sample_bar rw_symbol app].
  repeat (apply Forall_cons; split; [apply str_text_ok|]). apply Forall_nil_2.
Qed.

Lemma blank_holds : spool_holds minute_zone ∅ blank_spool.
Proof. constructor; [done | | done]. split; [by rewrite fmap_empty | done]. Qed.

(** The bar can be ingested into any open spool of this shape that holds nothing, or
    holds its minute. *)
Lemma spool_source_ingestible T m s id :
  instrument_buckets s = 16 -> maximum_records s = 10 -> accepted_of plain_resolver 16 spool_bar = Ok (Some m) ->
  T = ∅ \/ T = {[mi_key m := m]} -> ingestible plain_resolver s T (spool_manifest id) spool_source [m].
Proof.
  intros Hb Hm Ha HT. constructor; [done | done | done | | |].
  - exists [Some m]. split; [|done]. rewrite Hb. constructor; [exact Ha | constructor].
  - exists (fun _ => mi_economic m). split; [|by repeat constructor]. destruct HT as [-> | ->]; [done|].
    by apply map_Forall_singleton.
  - cbn [foldl]. pose proof (keep_size T m) as Hk. destruct HT as [-> | ->].
    + left. rewrite lookup_empty, map_size_empty in Hk. lia.
    + right. rewrite lookup_singleton_eq in Hk. lia.
Qed.

Lemma spool_ingest_exact_witness :
  exists s' m, ingest plain_resolver no_faults (spool_manifest "a") spool_source blank_spool
               = (s', Ok (ingested blank_spool ∅ (spool_manifest "a") spool_source [m]))
               /\ spool_holds minute_zone (foldl keep ∅ [m]) s'.
Proof.
  destruct spool_bar_accepted as [m Hm].
  destruct (spool_ingest_exact plain_resolver minute_zone plain_promise ∅ blank_spool (spool_manifest "a") spool_source
              blank_holds spool_source_ok (lookup_empty _)) as [H _].
  destruct (H [m]) as [H1 H2].
  - apply spool_source_ingestible; [reflexivity | reflexivity | exact Hm | left; reflexivity].
  - exists (committed blank_spool ∅ (spool_manifest "a") spool_source [m]), m. split; [exact H1 | exact H2].
Defined.

(** A directory sync that fails after the commit. *)
Definition sync_fault : IngestFaults :=
  {| fault_begin := None; fault_row := fun _ => None; fault_partitions := None; fault_processed := None;
     fault_hook := None; fault_commit := None; fault_sync := Some (Exn OSError "sync") |}.

Lemma sync_fault_quiet : quiet sync_fault.
Proof. split_and!; reflexivity. Qed.

Lemma sync_fault_ingest id :
  exists m, ingest plain_resolver sync_fault (spool_manifest id) spool_source blank_spool
            = (set_tables (committed_tables blank_spool ∅ (spool_manifest id) spool_source [m]) 0 blank_spool,
               Err (Exn OSError "sync")).
Proof.
  destruct spool_bar_accepted as [m Hm]. exists m.
  assert (Hi : ingestible plain_resolver blank_spool ∅ (spool_manifest id) spool_source [m])
    by (apply spool_source_ingestible; auto).
  destruct (transaction_complete _ _ plain_promise blank_spool sync_fault ∅ (spool_manifest id) spool_source [m]
              sync_fault_quiet blank_holds spool_source_ok Hi)
    as (lp & tables & Ht).
  destruct (transaction_sound _ _ plain_promise blank_spool sync_fault ∅ (spool_manifest id) spool_source lp tables
              blank_holds spool_source_ok Ht) as (ms & Hi' & -> & _).
  rewrite (ingestible_minutes _ blank_spool blank_spool ∅ ∅ _ _ _ _ _ eq_refl Hi Hi').
  unfold ingest. cbn [blank_spool sp_closed sp_tables blank_tables t_processed]. rewrite lookup_empty. rewrite Ht. reflexivity.
Qed.

Lemma spool_ingest_atomic_witness :
  exists s' r, ingest plain_resolver sync_fault (spool_manifest "a") spool_source blank_spool = (s', r)
    /\ (s' = blank_spool /\ (forall result, r = Ok result -> ir_already_processed result = true)
        \/ exists s1 result, ingest plain_resolver no_faults (spool_manifest "a") spool_source blank_spool = (s1, Ok result)
             /\ sp_tables s' = sp_tables s1).
Proof.
  destruct (ingest plain_resolver sync_fault (spool_manifest "a") spool_source blank_spool) as [s' r] eqn:E.
  exists s', r. split; [reflexivity|].
  destruct (spool_ingest_atomic plain_resolver minute_zone plain_promise sync_fault ∅ blank_spool (spool_manifest "a")
              spool_source s' r blank_holds spool_source_ok E) as [H|(s1 & result & H1 & H2 & _)].
  - left. exact H.
  - right. exists s1, result. split; [exact H1 | exact H2].
Defined.

Lemma spool_ingest_order_independent_witness :
  exists s1 s2, fst (ingest plain_resolver no_faults (spool_manifest "b") spool_source blank_spool) = s1
    /\ fst (ingest plain_resolver no_faults (spool_manifest "a") spool_source s1) = s2 /\ sp_record_count s2 = 1.
Proof.
  destruct spool_bar_accepted as [m Hm].
  pose proof (spool_source_ingestible ∅ m blank_spool "a" eq_refl eq_refl Hm (or_introl eq_refl)) as Ia.
  pose proof (committed_holds _ _ plain_promise _ _ _ _ _ blank_holds spool_source_ok Ia) as Hh.
  assert (Ib : ingestible plain_resolver (committed blank_spool ∅ (spool_manifest "a") spool_source [m]) (foldl keep ∅ [m])
                 (spool_manifest "b") spool_source [m])
    by (apply spool_source_ingestible; [reflexivity | reflexivity | exact Hm | right; reflexivity]).
  assert (Nb : t_processed (sp_tables (committed blank_spool ∅ (spool_manifest "a") spool_source [m]))
               !! sm_manifest_id (spool_manifest "b") = None)
    by (apply lookup_insert_None; split; [apply lookup_empty | discriminate]).
  destruct (spool_ingest_order_independent plain_resolver minute_zone plain_promise ∅ blank_spool
              (spool_manifest "a") (spool_manifest "b") spool_source spool_source _ _ _ _
              blank_holds spool_source_ok spool_source_ok ltac:(discriminate) (lookup_empty _) (lookup_empty _)
              (ingest_ingestible _ _ plain_promise _ _ _ _ _ blank_holds spool_source_ok (lookup_empty _) Ia)
              (ingest_ingestible _ _ plain_promise _ _ _ _ _ Hh spool_source_ok Nb Ib))
    as (s1 & s2 & ra & rb & H1 & H2 & _ & _ & Hc & _).
  exists s1, s2. rewrite H1. split; [reflexivity|]. cbn [fst]. rewrite H2. split; [reflexivity|]. rewrite Hc.
  cbn [committed set_tables sp_record_count foldl].
  pose proof (keep_size (keep ∅ m) m) as Hk. rewrite keep_lookup, bool_decide_eq_true_2 in Hk by reflexivity.
  rewrite Hk, keep_size, lookup_empty. reflexivity.
Defined.

Definition blank_file : SpoolFile :=
  {| sf_symlink := false; sf_error := None; sf_integrity := true; sf_schema := None; sf_tables := blank_tables |}.

Lemma spool_reachable_invariant_witness :
  spool_reachable plain_resolver 16 10 65536 blank_spool /\ exists T, spool_inv minute_zone T blank_spool.
Proof.
  assert (H : spool_reachable plain_resolver 16 10 65536 blank_spool).
  { apply (reach_open _ _ _ _ blank_file); reflexivity. }
  split; [exact H|].
  destruct (spool_reachable_invariant plain_resolver minute_zone plain_promise 16 10 65536 blank_spool H) as (_ & _ & HT).
  exact HT.
Defined.

(** A directory sync that fails after the commit leaves the spool with its previous
    count, although the rows of the source are stored. *)
Lemma sync_failure_leaves_stale_count :
  exists s' e, ingest plain_resolver sync_fault (spool_manifest "a") spool_source blank_spool = (s', Err e)
    /\ size (t_records (sp_tables s')) = 1%nat /\ sp_record_count s' = 0.
Proof.
  destruct (sync_fault_ingest "a") as [m E]. do 2 eexists. split; [exact E|]. split; [|done].
  cbn [set_tables committed_tables sp_tables t_records foldl]. rewrite map_size_fmap.
  pose proof (keep_size ∅ m) as Hk. rewrite lookup_empty, map_size_empty in Hk. lia.
Qed.
