(* ===== verification/MinuteQuality.v ===== *)
(** * The quality of a partition of canonical minutes

    Models [build_partition_quality] of
    [python/research/aegis_mx_research/canonical_minute.py] and proves what the queries of
    the spool and the report of a partition contain. *)

From S2P Require Import Prelude PyText Json Sha256 PyDateTime ForecastDomain ReferenceData ReferenceDocuments CanonicalMinute MinuteSpool.

Open Scope Z_scope.

Definition CANONICAL_MINUTE_QUALITY_SCHEMA_VERSION : pystr := str "1.0.0".

Section quality.
Context `{Zlib}.

(** ** Partition quality *)

Record PartitionQuality := {
  pq_document : list (pystr * json);
  pq_encoded : pybytes;
  pq_sha256 : pystr;
  pq_accepted : bool;
}.

(** The variables of the scan. *)
Record QualityScan := {
  qs_record_count : Z;
  qs_degraded : Z;
  qs_hashed : pybytes;
  qs_sessions : list (pystr * (Z * Z));
  qs_reasons : list (pystr * Z);
}.

Definition count_reason (m : list (pystr * Z)) (reason : pystr) : list (pystr * Z) :=
  od_set reason (default 0 (od_get reason m) + 1) m.

Definition scan_record (q : QualityScan) (r : CanonicalMinuteRecord) : res QualityScan :=
  let! digest := bytes_fromhex (cm_record_sha256 r) in
  Ok {| qs_record_count := qs_record_count q + 1;
        qs_degraded := qs_degraded q + (if bool_decide (cm_quality_state r = DEGRADED) then 1 else 0);
        qs_hashed := qs_hashed q ++ digest;
        qs_sessions := od_set (cm_instrument_id r) (cm_session_open r, cm_session_close r) (qs_sessions q);
        qs_reasons := foldl count_reason (qs_reasons q) (cm_quality_reasons r) |}.

Fixpoint scan_records (q : QualityScan) (l : list CanonicalMinuteRecord) : res QualityScan :=
  match l with
  | [] => Ok q
  | r :: t => let! q' := scan_record q r in scan_records q' t
  end.

Definition quality_status (accepted : bool) (degraded missing : Z) : pystr :=
  if accepted && (degraded =? 0) && (missing =? 0) then str "VALID"
  else if accepted then str "DEGRADED" else str "REJECTED".

(** [build_partition_quality] *)
Definition build_partition_quality (s : CanonicalMinuteSpool) (trading_date : pystr)
    (bucket batch_rows : Z) : res PartitionQuality :=
  let! stream := records_for_partition s trading_date bucket batch_rows in
  let! q := scan_records {| qs_record_count := 0; qs_degraded := 0; qs_hashed := [];
                            qs_sessions := []; qs_reasons := [] |} (concat stream) in
  let expected := sum_of (fun kv => (kv.2.2 - kv.2.1) / NANOSECONDS_PER_MINUTE) (qs_sessions q) in
  let missing := Z.max (expected - qs_record_count q) 0 in
  let sources := source_manifest_ids s trading_date bucket in
  let accepted := 0 <? qs_record_count q in
  let! duplicates := duplicate_count s sources in
  let members :=
    [(str "accepted", JBool accepted);
     (str "conflicting_duplicates", JInt 0);
     (str "data_quality_reason_counts",
      JObj (map (fun kv => (kv.1, JInt kv.2)) (py_sorted (leb_on fst pystr_leb) (qs_reasons q))));
     (str "degraded_records", JInt (qs_degraded q));
     (str "economic_value_claimed", JBool false);
     (str "expected_regular_session_minutes", JInt expected);
     (str "filled_missing_minutes", JInt 0);
     (str "identical_duplicates", JInt duplicates);
     (str "instrument_bucket", JInt bucket);
     (str "instrument_count", JInt (Z.of_nat (length (qs_sessions q))));
     (str "live_trading_capable", JBool false);
     (str "missing_minutes", JInt missing);
     (str "record_count", JInt (qs_record_count q));
     (str "record_sequence_sha256", JStr (sha256_hex (qs_hashed q)));
     (str "schema_version", JStr CANONICAL_MINUTE_QUALITY_SCHEMA_VERSION);
     (str "source_manifest_ids", texts sources);
     (str "status", JStr (quality_status accepted (qs_degraded q) missing));
     (str "trading_date", JStr trading_date)] in
  let! quality_sha256 := canonical_digest (JObj members) in
  let document := members ++ [(str "quality_report_sha256", JStr quality_sha256)] in
  let! encoded := dumps (JObj document) in
  Ok {| pq_document := document; pq_encoded := encoded ++ [10]; pq_sha256 := quality_sha256;
        pq_accepted := accepted |}.
End quality.

(** ** The stream of a partition *)

(** The minutes of a partition in the order of their keys. *)
Definition partition_minutes (T : gmap (pystr * Z) Minute) (trading_date : pystr) (bucket : Z)
    : list ((pystr * Z) * Minute) :=
  py_sorted (leb_on fst (pair_leb pystr_leb Z.leb))
    (List.filter (fun km => bool_decide (partition_of km.2 = (trading_date, bucket))) (map_to_list T)).

Lemma batches_spec {A} fuel size (l : list A) :
  (0 < size)%nat -> (length l <= fuel)%nat ->
  concat (batches fuel size l) = l /\ Forall (fun b => (0 < length b <= size)%nat) (batches fuel size l).
Proof.
  intros Hs. revert l. induction fuel as [|fuel IH]; intros [|x l] Hl; cbn [batches]; try (split; [done | constructor]);
    [cbn in Hl; lia|].
  destruct (IH (drop size (x :: l))) as [H1 H2]; [rewrite length_drop; cbn [length] in *; lia|].
  cbn [concat]. rewrite H1, take_drop. split; [done|]. constructor; [|done]. rewrite length_take. cbn [length]. lia.
Qed.

Lemma NoDup_fst_inj {A B} (l : list (A * B)) x y : NoDup (map fst l) -> x ∈ l -> y ∈ l -> x.1 = y.1 -> x = y.
Proof.
  induction l as [|z l IH]; cbn [map]; intros Hnd Hx Hy E; [by apply not_elem_of_nil in Hx|].
  apply NoDup_cons in Hnd as [Hz Hnd].
  apply elem_of_cons in Hx as [-> | Hx]; apply elem_of_cons in Hy as [-> | Hy]; [done | | | by apply IH].
  - destruct Hz. rewrite E. by apply (list_elem_of_fmap_2 fst).
  - destruct Hz. rewrite <- E. by apply (list_elem_of_fmap_2 fst).
Qed.

Lemma NoDup_filter_fst {A B} (f : A * B -> bool) (l : list (A * B)) : NoDup (map fst l) -> NoDup (map fst (List.filter f l)).
Proof.
  induction l as [|x l IH]; cbn; [done|]. intros [Hx Hl]%NoDup_cons. destruct (f x); cbn; [|auto].
  apply NoDup_cons. split; [|auto]. intros (y & E & [Hy _]%elem_of_filter_b)%list_elem_of_fmap_1.
  destruct Hx. rewrite E. by apply (list_elem_of_fmap_2 fst).
Qed.

(** ** The report *)

(** A dictionary is given by its keys and its lookups. *)
Lemma od_graph {V} (m : list (pystr * V)) (ks : list pystr) (v : pystr -> V) :
  NoDup (map fst m) -> NoDup ks -> (forall k, od_get k m = if bool_decide (k ∈ ks) then Some (v k) else None) ->
  m ≡ₚ map (fun k => (k, v k)) ks.
Proof.
  intros Hm Hk Hg. apply NoDup_Permutation; [by apply (NoDup_fmap_1 fst) | |].
  - apply (NoDup_fmap_1 fst). unfold fmap. fold (map fst (map (fun k => (k, v k)) ks)). by rewrite map_map, map_id.
  - intros [k w]. transitivity (od_get k m = Some w).
    + split; [by apply od_get_in | by apply od_get_elem].
    + rewrite Hg, list_elem_of_fmap. case_bool_decide as E; split.
      * intros [= <-]. by exists k.
      * by intros (? & [= <- ->] & _).
      * done.
      * by intros (? & [= <- ->] & ?).
Qed.

Definition occurrences (x : pystr) (l : list pystr) : Z :=
  Z.of_nat (length (List.filter (fun y => bool_decide (y = x)) l)).

Lemma count_reason_keys m x : NoDup (map fst m) -> NoDup (map fst (count_reason m x)).
Proof.
  intros Hm. unfold count_reason. rewrite od_set_keys. case_bool_decide as E; [done|].
  apply NoDup_app. split; [done|]. split; [|apply NoDup_singleton]. intros y Hy ->%list_elem_of_singleton. done.
Qed.

Lemma count_reasons_spec l m :
  NoDup (map fst m) ->
  NoDup (map fst (foldl count_reason m l))
  /\ forall x, od_get x (foldl count_reason m l)
       = if bool_decide (x ∈ l) then Some (default 0 (od_get x m) + occurrences x l) else od_get x m.
Proof.
  revert m. induction l as [|y l IH]; intros m Hm; cbn [foldl].
  - split; [done|]. intros x. by rewrite bool_decide_eq_false_2 by apply not_elem_of_nil.
  - destruct (IH (count_reason m y) (count_reason_keys m y Hm)) as [Hn Hg]. split; [done|]. intros x. rewrite Hg.
    unfold count_reason. rewrite od_get_set. unfold occurrences. cbn [List.filter].
    destruct (decide (x = y)) as [->|Hne].
    + rewrite !(bool_decide_eq_true_2 (y = y)) by done. rewrite (bool_decide_eq_true_2 (y ∈ y :: l)) by left.
      generalize (default 0 (od_get y m)) as n. intros n. cbn [from_option length].
      case_bool_decide as E; [f_equal; unfold id; lia|].
      assert (List.filter (fun y0 => bool_decide (y0 = y)) l = []) as ->; [|done].
      clear - E. induction l as [|z l IH]; [done|]. apply not_elem_of_cons in E as [E1 E2]. cbn.
      rewrite bool_decide_eq_false_2 by congruence. by apply IH.
    + rewrite (bool_decide_eq_false_2 (x = y)), (bool_decide_eq_false_2 (y = x)) by congruence.
      assert (bool_decide (x ∈ y :: l) = bool_decide (x ∈ l)) as ->; [|done].
      apply bool_decide_ext. rewrite elem_of_cons. naive_solver.
Qed.

Definition reason_counts (l : list pystr) : list (pystr * Z) := map (fun x => (x, occurrences x l)) (distinct_sorted l).

Lemma distinct_sorted_elem x l : x ∈ distinct_sorted l <-> x ∈ l.
Proof. unfold distinct_sorted. by rewrite elem_of_py_sorted, elem_of_elements, elem_of_list_to_set. Qed.

Lemma sorted_reasons l : py_sorted (leb_on fst pystr_leb) (foldl count_reason [] l) = reason_counts l.
Proof.
  destruct (count_reasons_spec l [] (NoDup_nil_2)) as [Hn Hg]. symmetry. apply (py_sorted_unique _).
  - intros x y Hx Hy H1 H2. apply (NoDup_fst_inj _ x y Hn Hx Hy). by apply (ordb_anti (leb := pystr_leb)).
  - unfold reason_counts, distinct_sorted.
    rewrite <- (py_sorted_map (fun x => (x, occurrences x l)) _ (leb_on fst pystr_leb)) by done. apply (py_sorted_sorted _).
  - symmetry. apply od_graph; [done | unfold distinct_sorted; rewrite py_sorted_perm; apply NoDup_elements |].
    intros k. rewrite Hg. cbn. rewrite (bool_decide_ext (k ∈ distinct_sorted l) (k ∈ l)) by apply distinct_sorted_elem. done.
Qed.

(** The session of the last record of an instrument. *)
Definition last_session (l : list CanonicalMinuteRecord) (i : pystr) : Z * Z :=
  match last (List.filter (fun r => bool_decide (cm_instrument_id r = i)) l) with
  | Some r => (cm_session_open r, cm_session_close r)
  | None => (0, 0)
  end.

Definition instruments (l : list CanonicalMinuteRecord) : list pystr := distinct_sorted (map cm_instrument_id l).

Definition note_session (m : list (pystr * (Z * Z))) (r : CanonicalMinuteRecord) : list (pystr * (Z * Z)) :=
  od_set (cm_instrument_id r) (cm_session_open r, cm_session_close r) m.

Lemma sessions_spec l :
  foldl note_session [] l ≡ₚ map (fun i => (i, last_session l i)) (instruments l).
Proof.
  assert (Hs : NoDup (map fst (foldl note_session [] l))
              /\ forall k, od_get k (foldl note_session [] l)
                 = if bool_decide (k ∈ map cm_instrument_id l) then Some (last_session l k) else None).
  { induction l as [|r l [IH1 IH2]] using rev_ind.
    - split; [constructor|]. intros k. by rewrite bool_decide_eq_false_2 by apply not_elem_of_nil.
    - rewrite foldl_snoc. unfold note_session at 1 3. rewrite od_set_keys. split.
      + case_bool_decide as E; [done|]. apply NoDup_app. split; [done|]. split; [|apply NoDup_singleton].
        by intros y Hy ->%list_elem_of_singleton.
      + intros k. rewrite od_get_set, IH2, map_app. unfold last_session. rewrite List.filter_app. cbn [map List.filter].
        destruct (decide (k = cm_instrument_id r)) as [->|Hne].
        * rewrite (bool_decide_eq_true_2 (cm_instrument_id r = _)), last_snoc by done.
          rewrite bool_decide_eq_true_2; [done | set_solver].
        * rewrite (bool_decide_eq_false_2 (k = _)), (bool_decide_eq_false_2 (_ = k)), app_nil_r by congruence.
          erewrite bool_decide_ext; [done | set_solver]. }
  destruct Hs as [H1 H2]. apply od_graph; [done | unfold instruments, distinct_sorted; rewrite py_sorted_perm; apply NoDup_elements|].
  intros k. rewrite H2. erewrite bool_decide_ext; [done|]. unfold instruments. by rewrite distinct_sorted_elem.
Qed.

Lemma session_minutes l :
  sum_of (fun kv => (kv.2.2 - kv.2.1) / NANOSECONDS_PER_MINUTE) (foldl note_session [] l)
  = sum_of (fun i => ((last_session l i).2 - (last_session l i).1) / NANOSECONDS_PER_MINUTE) (instruments l).
Proof.
  rewrite (sum_of_perm _ _ _ (sessions_spec l)). unfold sum_of.
  induction (instruments l) as [|i k IH]; cbn; [done | by rewrite <- IH].
Qed.

Lemma session_count l : length (foldl note_session [] l) = length (instruments l).
Proof. by rewrite (sessions_spec l), length_map. Qed.

Definition digest_bytes (r : CanonicalMinuteRecord) : pybytes :=
  match bytes_fromhex (cm_record_sha256 r) with Ok h => h | Err _ => [] end.
Definition is_degraded (r : CanonicalMinuteRecord) : bool := bool_decide (cm_quality_state r = DEGRADED).
Definition degraded_count (l : list CanonicalMinuteRecord) : Z := Z.of_nat (length (List.filter is_degraded l)).

Lemma record_digest_bytes r : record_ok r -> bytes_fromhex (cm_record_sha256 r) = Ok (digest_bytes r).
Proof.
  intros (_ & _ & _ & Hd). unfold digest_bytes. unfold record_digest, canonical_digest in Hd.
  apply rbind_ok in Hd as (e & _ & [= <-]). unfold bytes_fromhex, sha256_hex. rewrite fromhex_hex by apply sha256_range. done.
Qed.

Lemma scan_records_spec l q :
  Forall record_ok l ->
  scan_records q l
  = Ok {| qs_record_count := qs_record_count q + Z.of_nat (length l);
          qs_degraded := qs_degraded q + degraded_count l;
          qs_hashed := qs_hashed q ++ concat (map digest_bytes l);
          qs_sessions := foldl note_session (qs_sessions q) l;
          qs_reasons := foldl count_reason (qs_reasons q) (concat (map cm_quality_reasons l)) |}.
Proof.
  unfold degraded_count. intros Hl. revert q. induction Hl as [|r l Hr _ IH]; intros q; cbn [scan_records].
  - cbn. rewrite !Z.add_0_r, app_nil_r. by destruct q.
  - unfold scan_record. rewrite (record_digest_bytes r Hr). cbn [rbind]. rewrite IH. cbn [qs_record_count qs_degraded qs_hashed
      qs_sessions qs_reasons]. do 2 f_equal.
    + cbn [length]. lia.
    + cbn [List.filter]. unfold is_degraded at 2. destruct (bool_decide _); cbn [length]; lia.
    + by rewrite <- app_assoc.
    + cbn [map concat]. by rewrite foldl_app.
Qed.

(** The report of a partition as a function of its records. *)
Definition quality_report (trading_date : pystr) (bucket : Z) (records : list CanonicalMinuteRecord)
    (sources : list pystr) (duplicates : Z) : res PartitionQuality :=
  let count := Z.of_nat (length records) in
  let expected := sum_of (fun i => ((last_session records i).2 - (last_session records i).1) / NANOSECONDS_PER_MINUTE)
                    (instruments records) in
  let missing := Z.max (expected - count) 0 in
  let accepted := 0 <? count in
  let members :=
    [(str "accepted", JBool accepted);
     (str "conflicting_duplicates", JInt 0);
     (str "data_quality_reason_counts",
      JObj (map (fun kv => (kv.1, JInt kv.2)) (reason_counts (concat (map cm_quality_reasons records)))));
     (str "degraded_records", JInt (degraded_count records));
     (str "economic_value_claimed", JBool false);
     (str "expected_regular_session_minutes", JInt expected);
     (str "filled_missing_minutes", JInt 0);
     (str "identical_duplicates", JInt duplicates);
     (str "instrument_bucket", JInt bucket);
     (str "instrument_count", JInt (Z.of_nat (length (instruments records))));
     (str "live_trading_capable", JBool false);
     (str "missing_minutes", JInt missing);
     (str "record_count", JInt count);
     (str "record_sequence_sha256", JStr (sha256_hex (concat (map digest_bytes records))));
     (str "schema_version", JStr CANONICAL_MINUTE_QUALITY_SCHEMA_VERSION);
     (str "source_manifest_ids", texts sources);
     (str "status", JStr (quality_status accepted (degraded_count records) missing));
     (str "trading_date", JStr trading_date)] in
  let! digest := canonical_digest (JObj members) in
  let! encoded := dumps (JObj (members ++ [(str "quality_report_sha256", JStr digest)])) in
  Ok {| pq_document := members ++ [(str "quality_report_sha256", JStr digest)];
        pq_encoded := encoded ++ [10]; pq_sha256 := digest; pq_accepted := accepted |}.

(** The identical duplicates of the sources of a partition. *)
Definition source_duplicates (s : CanonicalMinuteSpool) (ids : list pystr) : Z :=
  sum_of (fun i => from_option ps_identical_duplicates 0 (t_processed (sp_tables s) !! i)) ids.

Lemma duplicate_count_spec s ids :
  Forall (fun i => is_Some (t_processed (sp_tables s) !! i)) ids -> duplicate_count s ids = Ok (source_duplicates s ids).
Proof.
  intros Hi. unfold duplicate_count.
  rewrite (res_map_fmap _ (fun i => from_option ps_identical_duplicates 0 (t_processed (sp_tables s) !! i))).
  - cbn [rbind]. f_equal. unfold source_duplicates, sum_of. induction ids as [|i ids IH]; [done|].
    apply Forall_cons in Hi as [_ Hi]. cbn [foldr fmap list_fmap]. by rewrite IH.
  - intros i Hin. rewrite Forall_forall in Hi. destruct (Hi i Hin) as [row ->]. done.
Qed.

(** ** What a partition streams and reports *)

Section facts.
Context `{ZlibLaws} (session_day : Z -> date).

Lemma partition_minutes_keys T d b : NoDup (map fst (partition_minutes T d b)).
Proof using.
  unfold partition_minutes. rewrite py_sorted_perm. apply (NoDup_filter_fst _ (map_to_list T)).
  apply NoDup_fst_map_to_list.
Qed.

Lemma partition_minutes_elem T d b k m :
  (k, m) ∈ partition_minutes T d b <-> T !! k = Some m /\ partition_of m = (d, b).
Proof using.
  unfold partition_minutes. rewrite elem_of_py_sorted, elem_of_filter_b, elem_of_map_to_list, bool_decide_eq_true. done.
Qed.

(** The rows of a partition are those of its minutes. *)
Lemma partition_rows_minutes T s d b :
  t_records (sp_tables s) = row_of <$> T ->
  partition_rows s d b = map (prod_map id row_of) (partition_minutes T d b).
Proof using.
  intros HR. unfold partition_rows, partition_minutes.
  rewrite <- (py_sorted_map (prod_map id row_of) _ (leb_on fst (pair_leb pystr_leb Z.leb))) by done.
  f_equal. rewrite HR, map_to_list_fmap. induction (map_to_list T) as [|[k m] l IH]; [done|].
  cbn [List.filter fmap list_fmap map].
  assert (bool_decide (row_trading_date (prod_map id row_of (k, m)).2 = d) && (row_bucket (prod_map id row_of (k, m)).2 =? b)
          = bool_decide (partition_of m = (d, b))) as ->.
  { cbn. unfold partition_of. apply eq_true_iff_eq. rewrite andb_true_iff, !bool_decide_eq_true, Z.eqb_eq. split; [by intros [-> ->] | by intros [= <- <-]]. }
  cbn [snd]. destruct (bool_decide (partition_of m = (d, b))); cbn [map]; by rewrite <- IH.
Qed.

(** The records of a partition, in the order in which they are streamed. *)
Definition partition_records (T : gmap (pystr * Z) Minute) (d : pystr) (b : Z) : list CanonicalMinuteRecord :=
  map (fun km => mi_record km.2) (partition_minutes T d b).

Lemma concat_map_map {A B} (f : A -> B) (ls : list (list A)) : concat (map (map f) ls) = map f (concat ls).
Proof using. induction ls as [|l ls IH]; cbn; [done|]. by rewrite IH, map_app. Qed.

Lemma records_stream T s d b n :
  holds session_day (instrument_buckets s) T (t_records (sp_tables s)) -> 0 < n ->
  exists bs, records_for_partition s d b n = Ok bs /\ concat bs = partition_records T d b
             /\ Forall (fun l => 0 < Z.of_nat (length l) <= n) bs.
Proof using All.
  intros [HR HT] Hn. unfold records_for_partition. replace (n <=? 0) with false by lia. cbn [raise_when rbind].
  rewrite (partition_rows_minutes T s d b HR), length_map.
  set (kms := partition_minutes T d b).
  assert (Hb : batches (length kms) (Z.to_nat n) (map (prod_map id row_of) kms)
               = map (map (prod_map id row_of)) (batches (length kms) (Z.to_nat n) kms)).
  { generalize (length kms) as fuel. clear. intros fuel. generalize kms. induction fuel as [|fuel IH]; intros [|x l]; try done.
    cbn [batches map]. rewrite <- !(IH (drop _ _)). rewrite <- map_cons, <- !firstn_map, <- !skipn_map. done. }
  rewrite Hb. destruct (batches_spec (length kms) (Z.to_nat n) kms ltac:(lia) ltac:(lia)) as [Hc Hl].
  set (bs := batches (length kms) (Z.to_nat n) kms) in *.
  exists (map (map (fun km => mi_record km.2)) bs). split; [|split].
  - apply res_map_ok, Forall2_fmap_l, Forall2_fmap_r, Forall_Forall2_diag, Forall_forall. intros l Hin.
    apply res_map_ok, Forall2_fmap_l, Forall2_fmap_r, Forall_Forall2_diag, Forall_forall. intros [k m] Hm.
    assert (Hk : (k, m) ∈ kms) by (rewrite <- Hc; apply list_elem_of_In, in_concat; exists l; by rewrite <- !list_elem_of_In).
    apply partition_minutes_elem in Hk as [Hk _]. apply HT in Hk as [(M & (R1 & R2 & R3 & R4) & _) _]. cbn.
    rewrite (minute_decodes _ _ _ M). cbn [rbind]. apply minute_stored in M as (_ & Hd & _).
    by apply from_bytes_payload.
  - unfold partition_records. fold kms. by rewrite <- Hc, concat_map_map.
  - apply Forall_fmap. eapply Forall_impl; [exact Hl|]. intros l Hlen. cbn in *. rewrite length_map. lia.
Qed.

Lemma source_ids_processed s T d b :
  spool_inv session_day T s -> Forall (fun i => is_Some (t_processed (sp_tables s) !! i)) (source_manifest_ids s d b).
Proof using.
  intros Hinv. unfold source_manifest_ids. rewrite py_sorted_perm. apply Forall_fmap, Forall_forall.
  intros [p id] [Hp _]%elem_of_filter_b. apply elem_of_elements in Hp. by apply (si_sources _ _ _ Hinv p id).
Qed.

(** The stream of a partition is exact.  For a spool that keeps its invariant the
    records of a partition are streamed in batches of at most [batch_rows], none empty,
    and together they are, in strictly increasing order of instrument and minute, the
    stored minutes of that partition. *)
Theorem partition_stream_exact T s d b n :
  spool_inv session_day T s -> 0 < n ->
  exists bs, records_for_partition s d b n = Ok bs
    /\ Forall (fun l => 0 < Z.of_nat (length l) <= n) bs
    /\ concat bs = partition_records T d b
    /\ StronglySorted (fun x y => pair_leb pystr_leb Z.leb (row_key x) (row_key y) = true /\ row_key x <> row_key y) (concat bs)
    /\ forall r, r ∈ concat bs <-> exists m, T !! row_key r = Some m /\ mi_record m = r /\ partition_of m = (d, b).
Proof using All.
  intros Hinv Hn. pose proof (si_rows _ _ _ Hinv) as Hrows. destruct (records_stream T s d b n Hrows Hn) as (bs & Hb & Hc & Hl).
  exists bs. split; [done|]. split; [done|]. split; [done|]. rewrite Hc. destruct Hrows as [_ HT]. unfold partition_records. split.
  - pose proof (py_sorted_sorted (leb_on fst (pair_leb pystr_leb Z.leb))
      (List.filter (fun km => bool_decide (partition_of km.2 = (d, b))) (map_to_list T))) as Hs.
    fold (partition_minutes T d b) in Hs. pose proof (partition_minutes_keys T d b) as Hk.
    assert (Hm : Forall (fun km => row_key (mi_record km.2) = km.1) (partition_minutes T d b)).
    { apply Forall_forall. intros [k m] [Hx _]%partition_minutes_elem. by apply HT in Hx as [_ ?]. }
    induction Hs as [|x l Hs IH Hx]; [constructor|]. apply NoDup_cons in Hk as [Hk1 Hk2].
    apply Forall_cons in Hm as [Hm1 Hm2]. constructor; [by apply IH|]. apply Forall_fmap, Forall_forall. intros y Hy.
    rewrite Forall_forall in Hx, Hm2. unfold compose. cbn beta. rewrite Hm1, (Hm2 y Hy). split; [by apply Hx|]. intros E. destruct Hk1. rewrite E.
    by apply (list_elem_of_fmap_2 fst).
  - intros r. rewrite list_elem_of_fmap. split.
    + intros ([k m] & -> & [Hk Hp]%partition_minutes_elem). exists m. apply HT in Hk as Hx. destruct Hx as [_ Hx]. cbn.
      unfold mi_key in Hx. by rewrite Hx.
    + intros (m & Hk & <- & Hp). exists (row_key (mi_record m), m). split; [done|]. by apply partition_minutes_elem.
Qed.

(** The quality report of a partition is the report of its records.  For a spool
    that keeps its invariant the loop over the batches, whatever their size, computes
    exactly the report that the records of the partition determine: the counts of records,
    of degraded records, of every quality reason and of instruments, the minutes that the
    sessions of its instruments expect and those missing, the digest of the sequence of
    record digests, the sources of the partition with their duplicates, and the status. *)
Theorem partition_quality_exact T s d b n :
  spool_inv session_day T s -> 0 < n ->
  build_partition_quality s d b n
  = quality_report d b (partition_records T d b) (source_manifest_ids s d b)
      (source_duplicates s (source_manifest_ids s d b)).
Proof using All.
  intros Hinv Hn. pose proof (si_rows _ _ _ Hinv) as Hrows. destruct (records_stream T s d b n Hrows Hn) as (bs & Hb & Hc & _).
  unfold build_partition_quality. rewrite Hb. cbn [rbind]. rewrite Hc, scan_records_spec.
  - cbn [rbind qs_record_count qs_degraded qs_hashed qs_sessions qs_reasons].
    rewrite (duplicate_count_spec s _ (source_ids_processed s T d b Hinv)).
    rewrite session_minutes, session_count, sorted_reasons, !Z.add_0_l, !app_nil_l. reflexivity.
  - apply Forall_fmap, Forall_forall. intros [k m] [Hk _]%partition_minutes_elem. destruct Hrows as [_ HT].
    by apply HT in Hk as [(_ & ? & _) _].
Qed.
End facts.

(** ** Examples *)

#[local] Existing Instance stored_zlib.
#[local] Existing Instance stored_zlib_laws.

(** A spool with one minute. *)
Definition one_minute_spool (m : Minute) : CanonicalMinuteSpool :=
  committed blank_spool ∅ (spool_manifest "a") spool_source [m].

Lemma blank_inv : spool_inv minute_zone ∅ blank_spool.
Proof.
  constructor.
  - exact (sh_rows _ _ _ blank_holds).
  - reflexivity.
  - cbn [blank_spool sp_record_count maximum_records]. lia.
  - reflexivity.
  - apply map_Forall_empty.
  - intros p id Hp. by apply elem_of_empty in Hp.
  - apply map_Forall_empty.
Qed.

Lemma one_minute_inv m :
  accepted_of plain_resolver 16 spool_bar = Ok (Some m) -> spool_inv minute_zone (foldl keep ∅ [m]) (one_minute_spool m).
Proof.
  intros Hm. apply (committed_inv plain_resolver minute_zone plain_promise).
  - reflexivity.
  - apply blank_inv.
  - apply spool_source_ok.
  - apply lookup_empty.
  - apply spool_source_ingestible; [reflexivity | reflexivity | exact Hm | by left].
Qed.

Lemma partition_stream_exact_witness :
  exists m d b bs, records_for_partition (one_minute_spool m) d b 100 = Ok bs /\ mi_record m ∈ concat bs.
Proof.
  destruct spool_bar_accepted as [m Hm].
  destruct (partition_stream_exact minute_zone (foldl keep ∅ [m]) (one_minute_spool m)
              (isoformat (cm_trading_date (mi_record m))) (mi_bucket m) 100 (one_minute_inv m Hm) ltac:(lia))
    as (bs & Hb & _ & _ & _ & Hx).
  exists m, (isoformat (cm_trading_date (mi_record m))), (mi_bucket m), bs. split; [exact Hb|]. apply Hx. exists m.
  split; [|split; reflexivity]. cbn [foldl]. rewrite keep_lookup, bool_decide_eq_true_2 by reflexivity. reflexivity.
Defined.

Lemma partition_quality_exact_witness :
  exists m, build_partition_quality (one_minute_spool m) (str "1970-01-01") 3 100
            = quality_report (str "1970-01-01") 3 (partition_records (foldl keep ∅ [m]) (str "1970-01-01") 3)
                (source_manifest_ids (one_minute_spool m) (str "1970-01-01") 3)
                (source_duplicates (one_minute_spool m) (source_manifest_ids (one_minute_spool m) (str "1970-01-01") 3)).
Proof.
  destruct spool_bar_accepted as [m Hm]. exists m.
  apply (partition_quality_exact minute_zone (foldl keep ∅ [m]) (one_minute_spool m) (str "1970-01-01") 3 100).
  - exact (one_minute_inv m Hm).
  - lia.
Defined.
