(* ===== verification/Storage.v ===== *)
(** * Storage admission

    Models the accounting half of [python/research/aegis_mx_research/data_repository.py]:
    the checks on byte counts, texts and digests, [StoragePolicy], [QuotaEvidence],
    [StorageRequest], the accounting of an inventory ([usage]), the projections behind an
    admission decision ([_calculate_admission]) and [cleanup_plan].  The inventory of the
    data root and the answer of the capacity probe are arguments here; [Repository.v]
    supplies the inventory. *)

From S2P Require Import Prelude PyText Json Sha256 PyDecimal PyDateTime ReferenceDocuments.

Open Scope Z_scope.

Definition DATA_REPOSITORY_SCHEMA_VERSION : pystr := str "3.0.0".
Definition DECIMAL_GB : Z := 1000000000.
Definition BINARY_GIB : Z := 2 ^ 30.
Definition BINARY_TIB : Z := 2 ^ 40.
Definition MAX_BYTES : Z := 2 ^ 63 - 1.
Definition MAX_PATH_BYTES : Z := 512.
Definition SHA256_HEX_BYTES : Z := 64.
Definition POC_STORAGE_LIMIT_BYTES : Z := 800 * DECIMAL_GB.
Definition STORAGE_AREAS : list pystr :=
  map str ["quarantine"; "raw"; "canonical"; "derived"; "datasets"; "manifests"; "models"; "reports"; "tmp"]%string.
Definition OBJECT_AREAS : list pystr :=
  map str ["quarantine"; "raw"; "canonical"; "derived"; "datasets"; "models"; "reports"]%string.

(** [AdmissionReason] *)
Inductive AdmissionReason :=
  | AR_INTEGER_OVERFLOW | PROJECTION_UNKNOWN | QUOTA_UNKNOWN | FILESYSTEM_CAPACITY_UNKNOWN
  | TEMPORARY_LIMIT | HARD_ROOT_LIMIT | TARGET_REVIEW_REQUIRED | FILESYSTEM_RESERVE | QUOTA_EXHAUSTED.
#[export] Instance AdmissionReason_eq_dec : EqDecision AdmissionReason.
Proof. solve_decision. Defined.

Definition AdmissionReason_value (r : AdmissionReason) : pystr :=
  match r with
  | AR_INTEGER_OVERFLOW => str "INTEGER_OVERFLOW"
  | PROJECTION_UNKNOWN => str "PROJECTION_UNKNOWN"
  | QUOTA_UNKNOWN => str "QUOTA_UNKNOWN"
  | FILESYSTEM_CAPACITY_UNKNOWN => str "FILESYSTEM_CAPACITY_UNKNOWN"
  | TEMPORARY_LIMIT => str "TEMPORARY_LIMIT"
  | HARD_ROOT_LIMIT => str "HARD_ROOT_LIMIT"
  | TARGET_REVIEW_REQUIRED => str "TARGET_REVIEW_REQUIRED"
  | FILESYSTEM_RESERVE => str "FILESYSTEM_RESERVE"
  | QUOTA_EXHAUSTED => str "QUOTA_EXHAUSTED"
  end.

(** ** Checks *)

Definition storage_error {A} (code : StorageErrorCode) (msg : string) : res A := raise (StorageError code) msg.
Definition storage_when (b : bool) (code : StorageErrorCode) (msg : string) : res unit :=
  raise_when b (StorageError code) msg.

(** [except StorageError as error: raise StorageError(code, ...) from error] *)
Definition storage_as {A} (code : StorageErrorCode) (m : res A) : res A :=
  match m with
  | Err (Exn (StorageError _) msg) => storage_error code msg
  | _ => m
  end.

(** [_validate_byte_count] *)
Definition validate_byte_count (value : Z) : res unit :=
  storage_when ((value <? 0) || (MAX_BYTES <? value)) INVALID_REQUEST
    "must be an integer from 0 through 9223372036854775807".

Definition optional_check {A} (f : A -> res unit) (o : option A) : res unit :=
  match o with Some x => f x | None => Ok tt end.

(** [_checked_add] *)
Fixpoint checked_total (total : Z) (values : list Z) : res Z :=
  match values with
  | [] => Ok total
  | value :: t =>
      do! validate_byte_count value in
      do! raise_when (MAX_BYTES - total <? value) OverflowError "signed 64-bit byte calculation overflow" in
      checked_total (total + value) t
  end.
Definition checked_add : list Z -> res Z := checked_total 0.

(** [_validate_text] *)
Definition validate_text (value : pystr) (maximum : Z) : res unit :=
  if bool_decide (value = []) || existsb (Z.eqb 0) value
  then storage_error MANIFEST_CORRUPT "must be nonempty, NUL-free, and bounded"
  else let! encoded := utf8_encode value in
       storage_when (maximum <? Z.of_nat (length encoded)) MANIFEST_CORRUPT
         "must be nonempty, NUL-free, and bounded".

Definition is_hex_digit (c : Z) : bool := is_digit c || ((97 <=? c) && (c <=? 102)).

(** [_validate_sha256] *)
Definition validate_sha256 (value : pystr) : res unit :=
  storage_when (negb (Z.of_nat (length value) =? SHA256_HEX_BYTES)
                || negb (bool_decide (lower value = value))
                || negb (forallb is_hex_digit value)
                || negb (existsb (fun c => negb (c =? 48)) value)) MANIFEST_CORRUPT
    "must be a nonzero lowercase SHA-256 digest".

(** [_validate_utc] *)
Definition validate_utc (value : pystr) : res unit :=
  do! validate_text value 40 in
  let! parsed := try_except (datetime_fromisoformat value) [ValueError]
                   (fun _ => storage_error INVALID_REQUEST "must be an ISO-8601 UTC timestamp") in
  storage_when (negb (bool_decide (dt_offset parsed = Some 0))) INVALID_REQUEST
    "must have an explicit UTC offset".

(** ** Quantities *)

(** [value / BINARY_GIB] is the nearest binary64 number: [value] itself keeps 53 bits,
    half to even, since the divisor is a power of two. *)
Definition binary64_int (v : Z) : Z :=
  let shift := Z.max 0 (Z.log2 v - 52) in half_even v (2 ^ shift) * 2 ^ shift.

(** [f"{value / BINARY_GIB:.6f}"]: the exact value to six decimals, half to even. *)
Definition gib_text (v : Z) : pystr :=
  let n := half_even (binary64_int v * 1000000) BINARY_GIB in
  dec_str (n / 1000000) ++ 46 :: drop 1 (dec_str (1000000 + n mod 1000000)).

(** [_quantity] *)
Definition quantity (value : option Z) : json :=
  match value with
  | None => JObj [(str "bytes_decimal", JNull); (str "gib_binary", JNull)]
  | Some v => JObj [(str "bytes_decimal", JInt v); (str "gib_binary", JStr (gib_text v))]
  end.

(** ** Policy, capacity, quota and requests *)

Record StoragePolicy := {
  administrative_allocation_bytes : Z;
  target_root_bytes : Z;
  hard_root_bytes : Z;
  minimum_reserve_bytes : Z;
  temporary_limit_bytes : Z;
  policy_schema_version : pystr;
}.

Definition default_policy : StoragePolicy :=
  {| administrative_allocation_bytes := 10 * BINARY_TIB; target_root_bytes := POC_STORAGE_LIMIT_BYTES;
     hard_root_bytes := POC_STORAGE_LIMIT_BYTES; minimum_reserve_bytes := 50 * DECIMAL_GB;
     temporary_limit_bytes := 20 * DECIMAL_GB; policy_schema_version := DATA_REPOSITORY_SCHEMA_VERSION |}.

Definition StoragePolicy_post_init (p : StoragePolicy) : res unit :=
  do! res_iter (fun v => storage_as INVALID_POLICY (validate_byte_count v))
        [administrative_allocation_bytes p; target_root_bytes p; hard_root_bytes p;
         minimum_reserve_bytes p; temporary_limit_bytes p] in
  storage_when (negb (administrative_allocation_bytes p =? 10 * BINARY_TIB)
                || (POC_STORAGE_LIMIT_BYTES <? target_root_bytes p)
                || (POC_STORAGE_LIMIT_BYTES <? hard_root_bytes p)
                || (minimum_reserve_bytes p <? 50 * DECIMAL_GB)
                || (20 * DECIMAL_GB <? temporary_limit_bytes p)
                || (hard_root_bytes p <? target_root_bytes p)
                || (administrative_allocation_bytes p <? hard_root_bytes p)
                || (hard_root_bytes p <? temporary_limit_bytes p)
                || negb (bool_decide (policy_schema_version p = DATA_REPOSITORY_SCHEMA_VERSION)))
    INVALID_POLICY "storage policy limits are inconsistent or unsupported".

Definition policy_dict (p : StoragePolicy) : json :=
  JObj [(str "administrative_allocation_bytes_decimal", JInt (administrative_allocation_bytes p));
        (str "hard_root_bytes_decimal", JInt (hard_root_bytes p));
        (str "minimum_reserve_bytes_decimal", JInt (minimum_reserve_bytes p));
        (str "schema_version", JStr (policy_schema_version p));
        (str "target_root_bytes_decimal", JInt (target_root_bytes p));
        (str "temporary_limit_bytes_decimal", JInt (temporary_limit_bytes p))].
Definition policy_sha256 (p : StoragePolicy) : res pystr := canonical_digest (policy_dict p).

Record FileSystemState := {
  fs_total_bytes : option Z;
  fs_free_bytes : option Z;
}.

Definition FileSystemState_post_init (f : FileSystemState) : res unit :=
  do! optional_check validate_byte_count (fs_total_bytes f) in
  do! optional_check validate_byte_count (fs_free_bytes f) in
  match fs_total_bytes f, fs_free_bytes f with
  | Some total, Some free =>
      storage_when (total <? free) FILESYSTEM_UNKNOWN "filesystem free bytes cannot exceed total bytes"
  | _, _ => Ok tt
  end.

Definition filesystem_known (f : FileSystemState) : bool :=
  match fs_total_bytes f, fs_free_bytes f with Some _, Some _ => true | _, _ => false end.

Record QuotaEvidence := {
  limit_bytes : option Z;
  used_bytes : option Z;
  quota_source : option pystr;
  observed_at_utc : option pystr;
  authoritative : bool;
}.

Definition QuotaEvidence_post_init (q : QuotaEvidence) : res unit :=
  do! optional_check validate_byte_count (limit_bytes q) in
  do! optional_check validate_byte_count (used_bytes q) in
  do! match limit_bytes q, used_bytes q with
      | Some limit, Some used =>
          storage_when (limit <? used) INVALID_REQUEST "quota used bytes cannot exceed quota limit"
      | _, _ => Ok tt
      end in
  do! optional_check (fun s => validate_text s 160) (quota_source q) in
  optional_check validate_utc (observed_at_utc q).

Definition quota_known (q : QuotaEvidence) : bool :=
  authoritative q && bool_decide (is_Some (limit_bytes q)) && bool_decide (is_Some (used_bytes q))
  && bool_decide (is_Some (quota_source q)) && bool_decide (is_Some (observed_at_utc q)).

Record StorageRequest := {
  operation_id : pystr;
  output_bytes : option Z;
  rq_temporary_bytes : Z;
  retry_overhead_bytes : Z;
}.

Definition StorageRequest_post_init (r : StorageRequest) : res unit :=
  do! storage_as INVALID_REQUEST (validate_text (operation_id r) 160) in
  do! optional_check (fun v => storage_as INVALID_REQUEST (validate_byte_count v)) (output_bytes r) in
  do! storage_as INVALID_REQUEST (validate_byte_count (rq_temporary_bytes r)) in
  storage_as INVALID_REQUEST (validate_byte_count (retry_overhead_bytes r)).

Definition request_dict (r : StorageRequest) : json :=
  JObj [(str "operation_id", JStr (operation_id r));
        (str "output", quantity (output_bytes r));
        (str "retry_overhead", quantity (Some (retry_overhead_bytes r)));
        (str "temporary", quantity (Some (rq_temporary_bytes r)))].

(** ** Accounting *)

Record FileInventory := {
  relative_path : pystr;
  logical_bytes : Z;
  allocated_bytes : Z;
  inv_area : pystr;
  inv_partial : bool;
  inv_temporary : bool;
}.

Record StorageUsage := {
  su_committed : Z;
  su_partial : Z;
  su_temporary : Z;
  su_logical : Z;
  su_allocated : Z;
  su_file_count : Z;
  su_partial_count : Z;
  su_temporary_count : Z;
  su_filesystem : FileSystemState;
  su_inventory : list FileInventory;
}.

(** The variables of the loop of [usage]. *)
Record UsageScan := {
  us_committed : Z;
  us_partial : Z;
  us_temporary : Z;
  us_allocated : Z;
  us_partial_count : Z;
  us_temporary_count : Z;
}.

Definition count_file (u : UsageScan) (item : FileInventory) : res UsageScan :=
  let! allocated := checked_add [us_allocated u; allocated_bytes item] in
  if inv_temporary item then
    let! temporary := checked_add [us_temporary u; logical_bytes item] in
    Ok {| us_committed := us_committed u; us_partial := us_partial u; us_temporary := temporary;
          us_allocated := allocated; us_partial_count := us_partial_count u;
          us_temporary_count := us_temporary_count u + 1 |}
  else if inv_partial item then
    let! partial := checked_add [us_partial u; logical_bytes item] in
    Ok {| us_committed := us_committed u; us_partial := partial; us_temporary := us_temporary u;
          us_allocated := allocated; us_partial_count := us_partial_count u + 1;
          us_temporary_count := us_temporary_count u |}
  else
    let! committed := checked_add [us_committed u; logical_bytes item] in
    Ok {| us_committed := committed; us_partial := us_partial u; us_temporary := us_temporary u;
          us_allocated := allocated; us_partial_count := us_partial_count u;
          us_temporary_count := us_temporary_count u |}.

Fixpoint count_files (u : UsageScan) (l : list FileInventory) : res UsageScan :=
  match l with
  | [] => Ok u
  | item :: t => let! u' := count_file u item in count_files u' t
  end.

Definition empty_scan : UsageScan :=
  {| us_committed := 0; us_partial := 0; us_temporary := 0; us_allocated := 0; us_partial_count := 0;
     us_temporary_count := 0 |}.

(** The failure of the capacity probe: [except (OSError, StorageError)]. *)
Definition probe_failure (e : exn) : exn :=
  match exn_cls e with
  | StorageError FILESYSTEM_UNKNOWN => e
  | StorageError _ | OSError => Exn (StorageError FILESYSTEM_UNKNOWN) "filesystem capacity could not be established"
  | _ => e
  end.

(** [DataRepository.usage] for an inventory and the answer of the capacity probe. *)
Definition usage (inventory : list FileInventory) (probe : res FileSystemState) : res StorageUsage :=
  let overflow := fun _ : exn => storage_error IO_FAILURE "data-root usage exceeds signed 64-bit range" in
  let! totals := try_except
                   (let! u := count_files empty_scan inventory in
                    let! logical := checked_add [us_committed u; us_partial u; us_temporary u] in
                    Ok (u, logical)) [OverflowError] overflow in
  match probe with
  | Err e => Err (probe_failure e)
  | Ok filesystem =>
      let u := totals.1 in
      Ok {| su_committed := us_committed u; su_partial := us_partial u; su_temporary := us_temporary u;
            su_logical := totals.2; su_allocated := us_allocated u;
            su_file_count := Z.of_nat (length inventory); su_partial_count := us_partial_count u;
            su_temporary_count := us_temporary_count u; su_filesystem := filesystem; su_inventory := inventory |}
  end.

(** ** Projections *)

Record RootProjection := {
  increment_bytes : option Z;
  root_peak_bytes : option Z;
  temporary_peak_bytes : option Z;
  projection_reason : option AdmissionReason;
}.

(** [_root_projection] *)
Definition root_projection (request : StorageRequest) (u : StorageUsage) : res RootProjection :=
  let failed reason :=
    {| increment_bytes := None; root_peak_bytes := None; temporary_peak_bytes := None;
       projection_reason := Some reason |} in
  match output_bytes request with
  | None => Ok (failed PROJECTION_UNKNOWN)
  | Some output =>
      try_except
        (let! increment := checked_add [output; rq_temporary_bytes request; retry_overhead_bytes request] in
         let! root_peak := checked_add [su_logical u; increment] in
         let! temporary_peak := checked_add [su_temporary u; rq_temporary_bytes request;
                                             retry_overhead_bytes request] in
         Ok {| increment_bytes := Some increment; root_peak_bytes := Some root_peak;
               temporary_peak_bytes := Some temporary_peak; projection_reason := None |})
        [OverflowError] (fun _ => Ok (failed AR_INTEGER_OVERFLOW))
  end.

(** [_quota_projection] *)
Definition quota_projection (q : QuotaEvidence) (p : StoragePolicy) (increment : option Z)
    : res (option Z * option Z * option AdmissionReason) :=
  match quota_known q, limit_bytes q, used_bytes q with
  | true, Some limit, Some used =>
      let effective := Z.min limit (administrative_allocation_bytes p) in
      match increment with
      | None => Ok (Some effective, None, None)
      | Some inc =>
          try_except (let! projected := checked_add [used; inc] in Ok (Some effective, Some projected, None))
            [OverflowError] (fun _ => Ok (Some effective, None, Some AR_INTEGER_OVERFLOW))
      end
  | _, _, _ => Ok (None, None, Some QUOTA_UNKNOWN)
  end.

(** [_filesystem_projection] *)
Definition filesystem_projection (f : FileSystemState) (increment : option Z)
    : option Z * option AdmissionReason :=
  match fs_total_bytes f, fs_free_bytes f with
  | Some _, Some free =>
      match increment with
      | None => (None, None)
      | Some inc => (Some (Z.max (free - inc) 0), None)
      end
  | _, _ => (None, Some FILESYSTEM_CAPACITY_UNKNOWN)
  end.

Definition reason_when (b : bool) (r : AdmissionReason) : list AdmissionReason := if b then [r] else [].
Definition above (value : option Z) (limit : Z) : bool :=
  match value with Some v => limit <? v | None => false end.

(** [_limit_reasons] *)
Definition limit_reasons (p : StoragePolicy) (root : RootProjection) (filesystem_free : option Z)
    (quota_limit quota_used : option Z) : list AdmissionReason :=
  reason_when (above (temporary_peak_bytes root) (temporary_limit_bytes p)) TEMPORARY_LIMIT
  ++ reason_when (above (root_peak_bytes root) (hard_root_bytes p)) HARD_ROOT_LIMIT
  ++ reason_when (above (root_peak_bytes root) (target_root_bytes p)) TARGET_REVIEW_REQUIRED
  ++ reason_when (match filesystem_free with Some free => free <? minimum_reserve_bytes p | None => false end)
       FILESYSTEM_RESERVE
  ++ reason_when (match quota_limit with Some limit => above quota_used limit | None => false end) QUOTA_EXHAUSTED.

Record AdmissionDecision := {
  admitted : bool;
  reasons : list AdmissionReason;
  ad_request : StorageRequest;
  ad_usage : StorageUsage;
  ad_quota : QuotaEvidence;
  effective_quota_limit_bytes : option Z;
  projected_root_peak_bytes : option Z;
  projected_temporary_peak_bytes : option Z;
  projected_quota_used_bytes : option Z;
  projected_filesystem_free_bytes : option Z;
  ad_policy_sha256 : pystr;
}.

(** [tuple(dict.fromkeys(l))] *)
Fixpoint first_occurrences {A} `{EqDecision A} (l : list A) : list A :=
  match l with
  | [] => []
  | x :: t => x :: List.filter (fun y => negb (bool_decide (y = x))) (first_occurrences t)
  end.

(** [_calculate_admission], for the usage it measures. *)
Definition calculate_admission (p : StoragePolicy) (u : StorageUsage) (request : StorageRequest)
    (q : QuotaEvidence) : res AdmissionDecision :=
  let! root := root_projection request u in
  let! quota := quota_projection q p (increment_bytes root) in
  let '(effective, projected, quota_reason) := quota in
  let '(free, filesystem_reason) := filesystem_projection (su_filesystem u) (increment_bytes root) in
  let initial := option_list (projection_reason root) ++ option_list quota_reason ++ option_list filesystem_reason in
  let all := first_occurrences (initial ++ limit_reasons p root free effective projected) in
  let! sha := policy_sha256 p in
  Ok {| admitted := bool_decide (all = []); reasons := all; ad_request := request; ad_usage := u; ad_quota := q;
        effective_quota_limit_bytes := effective; projected_root_peak_bytes := root_peak_bytes root;
        projected_temporary_peak_bytes := temporary_peak_bytes root; projected_quota_used_bytes := projected;
        projected_filesystem_free_bytes := free; ad_policy_sha256 := sha |}.

(** ** Cleanup *)

Record CleanupCandidate := {
  cc_relative_path : pystr;
  cc_size_bytes : Z;
  cc_reason : pystr;
  cc_automatic : bool;
  cc_operator_approval_required : bool;
}.

Record CleanupPlan := {
  cp_target_bytes : Z;
  cp_current_bytes : Z;
  cp_required_reduction_bytes : Z;
  cp_planned_reduction_bytes : Z;
  cp_candidates : list CleanupCandidate;
}.

(** [_cleanup_priority] *)
Definition area_rank (area : pystr) : Z :=
  if bool_decide (area = str "quarantine") then 2
  else if bool_decide (area = str "reports") then 3
  else if bool_decide (area = str "models") then 4
  else if bool_decide (area = str "derived") || bool_decide (area = str "datasets") then 5
  else 6.
Definition cleanup_priority (item : FileInventory) : Z * pystr :=
  (if inv_temporary item then 0 else if inv_partial item then 1 else area_rank (inv_area item),
   relative_path item).

(** [_cleanup_reason] *)
Definition cleanup_reason (item : FileInventory) : pystr :=
  if inv_temporary item then str "INTERRUPTED_OR_TEMPORARY_REVIEW"
  else if inv_partial item then str "PARTIAL_OBJECT_REVIEW"
  else if bool_decide (inv_area item = str "quarantine") then str "QUARANTINE_RETENTION_REVIEW"
  else str "IMMUTABLE_RETENTION_REVIEW".

Definition eligible_for_cleanup (item : FileInventory) : bool :=
  bool_decide (inv_area item ∈ OBJECT_AREAS) || inv_temporary item.
Definition candidate_of (item : FileInventory) : CleanupCandidate :=
  {| cc_relative_path := relative_path item; cc_size_bytes := logical_bytes item;
     cc_reason := cleanup_reason item; cc_automatic := false; cc_operator_approval_required := true |}.

(** The loop over the inventory in the order of priority. *)
Fixpoint cleanup_loop (required planned : Z) (l : list FileInventory) : res (list CleanupCandidate * Z) :=
  match l with
  | [] => Ok ([], planned)
  | item :: t =>
      if negb (eligible_for_cleanup item) then cleanup_loop required planned t else
      let! planned' := checked_add [planned; logical_bytes item] in
      if required <=? planned' then Ok ([candidate_of item], planned')
      else let! rest := cleanup_loop required planned' t in Ok (candidate_of item :: rest.1, rest.2)
  end.

(** [cleanup_plan], for the usage it measures. *)
Definition cleanup_plan (p : StoragePolicy) (target_bytes : option Z) (measured : res StorageUsage)
    : res CleanupPlan :=
  let target := default (target_root_bytes p) target_bytes in
  do! validate_byte_count target in
  let! u := measured in
  let required := Z.max (su_logical u - target) 0 in
  let plan planned candidates :=
    {| cp_target_bytes := target; cp_current_bytes := su_logical u; cp_required_reduction_bytes := required;
       cp_planned_reduction_bytes := planned; cp_candidates := candidates |} in
  if required =? 0 then Ok (plan 0 []) else
  let! r := cleanup_loop required 0
              (py_sorted (leb_on cleanup_priority (pair_leb Z.leb pystr_leb)) (su_inventory u)) in
  Ok (plan r.2 r.1).

(** ** Checked sums *)

Definition byte_count (v : Z) : Prop := 0 <= v <= MAX_BYTES.

Lemma validate_byte_count_ok v u : validate_byte_count v = Ok u <-> byte_count v.
Proof. unfold validate_byte_count, storage_when, byte_count. rewrite raise_when_ok. lia. Qed.

Lemma byte_count_checked v : byte_count v -> validate_byte_count v = Ok tt.
Proof. apply validate_byte_count_ok. Qed.

Definition sum (l : list Z) : Z := sum_of id l.

Lemma sum_nonneg l : Forall byte_count l -> 0 <= sum l.
Proof. unfold sum, sum_of. induction 1 as [|x l Hx _ IH]; cbn; [lia|]. unfold byte_count, id in *. lia. Qed.

(** A checked sum is the sum when it fits, and an overflow otherwise. *)
Lemma checked_total_exact l total :
  Forall byte_count l -> 0 <= total <= MAX_BYTES ->
  checked_total total l
  = if total + sum l <=? MAX_BYTES then Ok (total + sum l)
    else raise OverflowError "signed 64-bit byte calculation overflow".
Proof.
  intros Hl. revert total. induction Hl as [|x l Hx Hl IH]; intros total Ht; cbn [checked_total].
  - change (sum []) with 0. rewrite Z.add_0_r. by replace (total <=? MAX_BYTES) with true by lia.
  - rewrite byte_count_checked by done. cbn [rbind]. change (sum (x :: l)) with (x + sum l).
    pose proof (sum_nonneg l Hl). unfold byte_count in Hx.
    destruct (MAX_BYTES - total <? x) eqn:E; cbn [raise_when raise rbind].
    + by replace (total + (x + sum l) <=? MAX_BYTES) with false by lia.
    + rewrite IH by lia. by replace (total + x + sum l) with (total + (x + sum l)) by lia.
Qed.

Lemma checked_add_exact l :
  Forall byte_count l ->
  checked_add l = if sum l <=? MAX_BYTES then Ok (sum l)
                  else raise OverflowError "signed 64-bit byte calculation overflow".
Proof. intros Hl. unfold checked_add. rewrite checked_total_exact; [done | done | unfold MAX_BYTES; lia]. Qed.

(** ** Accounting *)

Definition file_ok (f : FileInventory) : Prop := byte_count (logical_bytes f) /\ byte_count (allocated_bytes f).

Definition is_committed (f : FileInventory) : bool := negb (inv_temporary f) && negb (inv_partial f).
Definition is_partial (f : FileInventory) : bool := negb (inv_temporary f) && inv_partial f.

Definition logical_of (keep : FileInventory -> bool) (l : list FileInventory) : Z :=
  sum_of logical_bytes (List.filter keep l).

Lemma logical_of_cons keep f l : logical_of keep (f :: l) = (if keep f then logical_bytes f else 0) + logical_of keep l.
Proof. unfold logical_of. cbn. by destruct (keep f). Qed.

Lemma logical_of_nonneg keep l : Forall file_ok l -> 0 <= logical_of keep l.
Proof.
  induction 1 as [|f l [Hf _] _ IH]; [done|]. rewrite logical_of_cons. unfold byte_count in Hf. destruct (keep f); lia.
Qed.

Lemma allocated_nonneg l : Forall file_ok l -> 0 <= sum_of allocated_bytes l.
Proof. unfold sum_of. induction 1 as [|f l [_ Hf] _ IH]; cbn [foldr]; [lia|]. unfold byte_count in Hf. lia. Qed.

Lemma logical_split l : sum_of logical_bytes l = logical_of is_committed l + logical_of is_partial l + logical_of inv_temporary l.
Proof.
  induction l as [|f l IH]; [done|]. rewrite !logical_of_cons. change (sum_of logical_bytes (f :: l)) with (logical_bytes f + sum_of logical_bytes l).
  rewrite IH. unfold is_committed, is_partial. destruct (inv_temporary f), (inv_partial f); cbn; lia.
Qed.

Definition scan_after (u : UsageScan) (l : list FileInventory) : UsageScan :=
  {| us_committed := us_committed u + logical_of is_committed l;
     us_partial := us_partial u + logical_of is_partial l;
     us_temporary := us_temporary u + logical_of inv_temporary l;
     us_allocated := us_allocated u + sum_of allocated_bytes l;
     us_partial_count := us_partial_count u + Z.of_nat (length (List.filter is_partial l));
     us_temporary_count := us_temporary_count u + Z.of_nat (length (List.filter inv_temporary l)) |}.

Definition scan_fits (u : UsageScan) (l : list FileInventory) : Prop :=
  us_committed u + logical_of is_committed l <= MAX_BYTES /\ us_partial u + logical_of is_partial l <= MAX_BYTES
  /\ us_temporary u + logical_of inv_temporary l <= MAX_BYTES /\ us_allocated u + sum_of allocated_bytes l <= MAX_BYTES.

Ltac byte_counts :=
  repeat (apply Forall_cons; split; [first [assumption | unfold byte_count in *; lia]|]); apply Forall_nil_2.

Lemma add_pair a b :
  byte_count a -> byte_count b ->
  checked_add [a; b] = if a + b <=? MAX_BYTES then Ok (a + b)
                       else raise OverflowError "signed 64-bit byte calculation overflow".
Proof.
  intros Ha Hb. rewrite checked_add_exact by byte_counts.
  change (sum [a; b]) with (a + (b + 0)). by rewrite Z.add_0_r.
Qed.

(** The loop either fits and adds everything up, or overflows. *)
Lemma count_files_exact l u :
  Forall file_ok l ->
  byte_count (us_committed u) -> byte_count (us_partial u) -> byte_count (us_temporary u) -> byte_count (us_allocated u) ->
  (scan_fits u l /\ count_files u l = Ok (scan_after u l))
  \/ (~ scan_fits u l /\ count_files u l = raise OverflowError "signed 64-bit byte calculation overflow").
Proof.
  intros Hl. revert u. induction Hl as [|f l Hf Hl IH]; intros u H1 H2 H3 H4; cbn [count_files].
  - left. unfold scan_fits, scan_after, logical_of. cbn. unfold byte_count in *. split; [lia|].
    rewrite !Z.add_0_r. by destruct u.
  - destruct Hf as [Hs Ha]. pose proof (logical_of_nonneg is_committed l Hl). pose proof (logical_of_nonneg is_partial l Hl).
    pose proof (logical_of_nonneg inv_temporary l Hl). pose proof (allocated_nonneg l Hl).
    unfold count_file. rewrite add_pair by done.
    unfold scan_fits, scan_after. rewrite !logical_of_cons. change (sum_of allocated_bytes (f :: l)) with (allocated_bytes f + sum_of allocated_bytes l).
    cbn [List.filter]. unfold byte_count in *.
    destruct (us_allocated u + allocated_bytes f <=? MAX_BYTES) eqn:Ea; cbn [rbind];
      [|right; split; [lia | done]].
    assert (Ic : is_committed f = negb (inv_temporary f) && negb (inv_partial f)) by done.
    assert (Ip : is_partial f = negb (inv_temporary f) && inv_partial f) by done.
    rewrite !Ic, !Ip. clear Ic Ip.
    destruct (inv_temporary f); [|destruct (inv_partial f)]; cbn [negb andb]; rewrite add_pair by (unfold byte_count; lia);
      match goal with |- context [rbind (if ?c then _ else _) _] => destruct c eqn:Es end; cbn [rbind];
      [|right; split; [lia | done] | |right; split; [lia | done] | |right; split; [lia | done]].
    all: match goal with |- context [count_files ?v _] => destruct (IH v) as [[Hfit Hc]|[Hfit Hc]] end;
      cbn [us_committed us_partial us_temporary us_allocated]; try lia;
      unfold scan_fits in Hfit; cbn [us_committed us_partial us_temporary us_allocated] in Hfit; rewrite Hc;
      [left; split; [lia|] | right; split; [lia | done]].
    all: f_equal; unfold scan_after; cbn [us_committed us_partial us_temporary us_allocated us_partial_count us_temporary_count length].
    all: f_equal; lia.
Qed.

Lemma usage_sums l filesystem :
  Forall file_ok l ->
  (sum_of logical_bytes l <= MAX_BYTES -> sum_of allocated_bytes l <= MAX_BYTES ->
   usage l (Ok filesystem)
   = Ok {| su_committed := logical_of is_committed l; su_partial := logical_of is_partial l;
           su_temporary := logical_of inv_temporary l; su_logical := sum_of logical_bytes l;
           su_allocated := sum_of allocated_bytes l; su_file_count := Z.of_nat (length l);
           su_partial_count := Z.of_nat (length (List.filter is_partial l));
           su_temporary_count := Z.of_nat (length (List.filter inv_temporary l));
           su_filesystem := filesystem; su_inventory := l |})
  /\ (MAX_BYTES < sum_of logical_bytes l \/ MAX_BYTES < sum_of allocated_bytes l ->
      exists msg, usage l (Ok filesystem) = storage_error IO_FAILURE msg).
Proof.
  intros Hl. pose proof (logical_split l) as Hs. pose proof (logical_of_nonneg is_committed l Hl) as N1.
  pose proof (logical_of_nonneg is_partial l Hl) as N2. pose proof (logical_of_nonneg inv_temporary l Hl) as N3.
  pose proof (allocated_nonneg l Hl) as N4. unfold usage.
  assert (Hz : byte_count 0) by (unfold byte_count, MAX_BYTES; lia).
  destruct (count_files_exact l empty_scan Hl Hz Hz Hz Hz) as [[Hfit Hc]|[Hfit Hc]];
    rewrite Hc; unfold scan_fits in Hfit; cbn [empty_scan us_committed us_partial us_temporary us_allocated] in Hfit.
  2:{ split; [intros; exfalso; lia|]. intros _. by eexists. }
  cbn [rbind]. rewrite checked_add_exact by (cbn [scan_after empty_scan us_committed us_partial us_temporary]; byte_counts).
  assert (sum [us_committed (scan_after empty_scan l); us_partial (scan_after empty_scan l);
               us_temporary (scan_after empty_scan l)] = sum_of logical_bytes l) as ->.
  { unfold sum, sum_of at 1, id. cbn [foldr scan_after empty_scan us_committed us_partial us_temporary]. lia. }
  split.
  - intros H1 H2. replace (sum_of logical_bytes l <=? MAX_BYTES) with true by lia. cbn [rbind try_except fst snd].
    unfold scan_after. cbn [empty_scan us_committed us_partial us_temporary us_allocated us_partial_count us_temporary_count].
    by rewrite !Z.add_0_l.
  - intros Hov. replace (sum_of logical_bytes l <=? MAX_BYTES) with false by lia. by eexists.
Qed.

(** The usage of a data root is exact.  For files whose sizes are byte counts, and
    a capacity probe that answers, [usage] reports the sums of the logical sizes of the
    committed, partial and temporary files, which together are all of them, the sum of the
    allocated sizes and the counts, provided that the logical and the allocated sizes each
    add up to a signed 64-bit number; otherwise it raises [IO_FAILURE]. *)
Theorem usage_exact l filesystem :
  Forall file_ok l ->
  (sum_of logical_bytes l <= MAX_BYTES -> sum_of allocated_bytes l <= MAX_BYTES ->
   usage l (Ok filesystem)
   = Ok {| su_committed := logical_of is_committed l; su_partial := logical_of is_partial l;
           su_temporary := logical_of inv_temporary l; su_logical := sum_of logical_bytes l;
           su_allocated := sum_of allocated_bytes l; su_file_count := Z.of_nat (length l);
           su_partial_count := Z.of_nat (length (List.filter is_partial l));
           su_temporary_count := Z.of_nat (length (List.filter inv_temporary l));
           su_filesystem := filesystem; su_inventory := l |})
  /\ (MAX_BYTES < sum_of logical_bytes l \/ MAX_BYTES < sum_of allocated_bytes l ->
      exists msg, usage l (Ok filesystem) = storage_error IO_FAILURE msg).
Proof. apply usage_sums. Qed.

(** ** Admission *)

Record request_ok (r : StorageRequest) : Prop := {
  ro_output : forall v, output_bytes r = Some v -> byte_count v;
  ro_temporary : byte_count (rq_temporary_bytes r);
  ro_retry : byte_count (retry_overhead_bytes r);
}.

Record usage_ok (u : StorageUsage) : Prop := {
  uo_logical : byte_count (su_logical u);
  uo_temporary : byte_count (su_temporary u);
}.

Record quota_ok (q : QuotaEvidence) : Prop := {
  qo_used : forall v, used_bytes q = Some v -> byte_count v;
}.

(** What the request adds to the root and to the temporary area, when its output is
    known. *)
Definition increment (r : StorageRequest) (output : Z) : Z :=
  output + rq_temporary_bytes r + retry_overhead_bytes r.
Definition temporary_peak (r : StorageRequest) (u : StorageUsage) : Z :=
  su_temporary u + rq_temporary_bytes r + retry_overhead_bytes r.

(** The increment, when the projections of the root fit 64 bits. *)
Definition projected (r : StorageRequest) (u : StorageUsage) : option Z :=
  match output_bytes r with
  | Some output =>
      if (increment r output <=? MAX_BYTES) && (su_logical u + increment r output <=? MAX_BYTES)
         && (temporary_peak r u <=? MAX_BYTES)
      then Some (increment r output) else None
  | None => None
  end.

(** The known limit and use of a quota. *)
Definition known_quota (p : StoragePolicy) (q : QuotaEvidence) : option (Z * Z) :=
  match quota_known q, limit_bytes q, used_bytes q with
  | true, Some limit, Some used => Some (Z.min limit (administrative_allocation_bytes p), used)
  | _, _, _ => None
  end.

Definition known_free (u : StorageUsage) : option Z :=
  match fs_total_bytes (su_filesystem u), fs_free_bytes (su_filesystem u) with
  | Some _, Some free => Some free
  | _, _ => None
  end.

Definition missing {A} (o : option A) : bool := match o with None => true | Some _ => false end.

(** The conditions behind the reasons. *)
Definition violates (p : StoragePolicy) (u : StorageUsage) (r : StorageRequest) (q : QuotaEvidence)
    (reason : AdmissionReason) : bool :=
  let with_increment (f : Z -> bool) := match projected r u with Some inc => f inc | None => false end in
  match reason with
  | AR_INTEGER_OVERFLOW =>
      match output_bytes r, projected r u, known_quota p q with
      | Some _, None, _ => true
      | _, Some inc, Some (_, used) => MAX_BYTES <? used + inc
      | _, _, _ => false
      end
  | PROJECTION_UNKNOWN => missing (output_bytes r)
  | QUOTA_UNKNOWN => missing (known_quota p q)
  | FILESYSTEM_CAPACITY_UNKNOWN => missing (known_free u)
  | TEMPORARY_LIMIT => with_increment (fun _ => temporary_limit_bytes p <? temporary_peak r u)
  | HARD_ROOT_LIMIT => with_increment (fun inc => hard_root_bytes p <? su_logical u + inc)
  | TARGET_REVIEW_REQUIRED => with_increment (fun inc => target_root_bytes p <? su_logical u + inc)
  | FILESYSTEM_RESERVE =>
      with_increment (fun inc => match known_free u with
                                 | Some free => Z.max (free - inc) 0 <? minimum_reserve_bytes p
                                 | None => false
                                 end)
  | QUOTA_EXHAUSTED =>
      with_increment (fun inc => match known_quota p q with
                                 | Some (limit, used) => (used + inc <=? MAX_BYTES) && (limit <? used + inc)
                                 | None => false
                                 end)
  end.

Definition all_reasons : list AdmissionReason :=
  [AR_INTEGER_OVERFLOW; PROJECTION_UNKNOWN; QUOTA_UNKNOWN; FILESYSTEM_CAPACITY_UNKNOWN; TEMPORARY_LIMIT;
   HARD_ROOT_LIMIT; TARGET_REVIEW_REQUIRED; FILESYSTEM_RESERVE; QUOTA_EXHAUSTED].

Lemma reason_listed x : x ∈ all_reasons.
Proof. apply (bool_decide_unpack _). by destruct x. Qed.

Lemma root_projection_exact r u :
  request_ok r -> usage_ok u ->
  root_projection r u
  = Ok match output_bytes r, projected r u with
       | _, Some inc =>
           {| increment_bytes := Some inc; root_peak_bytes := Some (su_logical u + inc);
              temporary_peak_bytes := Some (temporary_peak r u); projection_reason := None |}
       | None, None =>
           {| increment_bytes := None; root_peak_bytes := None; temporary_peak_bytes := None;
              projection_reason := Some PROJECTION_UNKNOWN |}
       | Some _, None =>
           {| increment_bytes := None; root_peak_bytes := None; temporary_peak_bytes := None;
              projection_reason := Some AR_INTEGER_OVERFLOW |}
       end.
Proof.
  intros [Ho Ht Hr] [Hl Hu]. unfold root_projection, projected. destruct (output_bytes r) as [output|]; [|done].
  specialize (Ho output eq_refl). rewrite checked_add_exact by byte_counts.
  assert (sum [output; rq_temporary_bytes r; retry_overhead_bytes r] = increment r output) as ->.
  { unfold sum, sum_of, increment, id. cbn. lia. }
  assert (Hi : 0 <= increment r output) by (unfold increment, byte_count in *; lia).
  destruct (increment r output <=? MAX_BYTES) eqn:E1; cbn [rbind andb]; [|done].
  rewrite add_pair by (unfold byte_count in *; lia).
  destruct (su_logical u + increment r output <=? MAX_BYTES) eqn:E2; cbn [rbind andb]; [|done].
  rewrite checked_add_exact by byte_counts.
  assert (sum [su_temporary u; rq_temporary_bytes r; retry_overhead_bytes r] = temporary_peak r u) as ->.
  { unfold sum, sum_of, temporary_peak, id. cbn. lia. }
  destruct (temporary_peak r u <=? MAX_BYTES) eqn:E3; done.
Qed.

Lemma quota_projection_exact q p u r :
  request_ok r -> usage_ok u -> quota_ok q ->
  quota_projection q p (projected r u)
  = Ok match known_quota p q, projected r u with
       | None, _ => (None, None, Some QUOTA_UNKNOWN)
       | Some (limit, used), None => (Some limit, None, None)
       | Some (limit, used), Some inc =>
           if used + inc <=? MAX_BYTES then (Some limit, Some (used + inc), None)
           else (Some limit, None, Some AR_INTEGER_OVERFLOW)
       end.
Proof.
  intros [Ho Ht Hr] [Hl Hu] [Hq]. unfold quota_projection, known_quota.
  destruct (quota_known q); [|done]. destruct (limit_bytes q) as [limit|]; [|done].
  destruct (used_bytes q) as [used|]; [|done]. specialize (Hq used eq_refl).
  destruct (projected r u) as [inc|] eqn:Ep; [|done].
  assert (byte_count inc).
  { unfold projected in Ep. destruct (output_bytes r) as [output|]; [|done]. specialize (Ho output eq_refl).
    destruct (_ && _) eqn:E in Ep; [|done]. injection Ep as <-. unfold increment, byte_count in *. lia. }
  rewrite add_pair by done. by destruct (used + inc <=? MAX_BYTES).
Qed.

Lemma decision_reasons p u r q :
  request_ok r -> usage_ok u -> quota_ok q ->
  (exists d, calculate_admission p u r q = Ok d /\ reasons d = List.filter (violates p u r q) all_reasons
             /\ admitted d = bool_decide (List.filter (violates p u r q) all_reasons = []))
  \/ exists e, policy_sha256 p = Err e /\ calculate_admission p u r q = Err e.
Proof.
  intros Hr Hu Hq. unfold calculate_admission. rewrite root_projection_exact by done. cbn [rbind].
  set (root := match output_bytes r with Some _ => _ | None => _ end).
  assert (Hinc : increment_bytes root = projected r u).
  { unfold root, projected. destruct (output_bytes r); [|done]. by destruct (_ && _). }
  rewrite Hinc, quota_projection_exact by done. cbn [rbind].
  destruct (policy_sha256 p) as [sha|e]; cbn [rbind]; [left | right; exists e; split; [done|]].
  2:{ destruct (match known_quota p q with Some _ => _ | None => _ end) as [[? ?] ?].
      by destruct (filesystem_projection _ _). }
  assert (Hall : forall eff prj qr free fr,
            match known_quota p q, projected r u with
            | None, _ => (None, None, Some QUOTA_UNKNOWN)
            | Some (limit, used), None => (Some limit, None, None)
            | Some (limit, used), Some inc =>
                if used + inc <=? MAX_BYTES then (Some limit, Some (used + inc), None)
                else (Some limit, None, Some AR_INTEGER_OVERFLOW)
            end = (eff, prj, qr) ->
            filesystem_projection (su_filesystem u) (projected r u) = (free, fr) ->
            first_occurrences ((option_list (projection_reason root) ++ option_list qr ++ option_list fr)
                               ++ limit_reasons p root free eff prj)
            = List.filter (violates p u r q) all_reasons).
  { intros eff prj qr free fr E1 E2. unfold filesystem_projection in E2. unfold all_reasons, limit_reasons, reason_when, above, root.
    cbn [List.filter violates]. unfold known_free in *.
    destruct (output_bytes r) as [output|] eqn:Eo; destruct (projected r u) as [inc|] eqn:Ep;
      destruct (known_quota p q) as [[limit used]|] eqn:Ek;
      destruct (fs_total_bytes (su_filesystem u)) as [total|], (fs_free_bytes (su_filesystem u)) as [fr'|];
      try (unfold projected in Ep; rewrite Eo in Ep; discriminate Ep);
      injection E2 as <- <-;
      try (destruct (used + inc <=? MAX_BYTES) eqn:Ef);
      injection E1 as <- <- <-;
      cbn [increment_bytes root_peak_bytes temporary_peak_bytes projection_reason option_list app];
      try (rewrite (Z.ltb_antisym (used + inc) MAX_BYTES), Ef); cbn [negb andb missing];
      repeat match goal with |- context [if ?b then [_] else []] => destruct b end; reflexivity. }
  destruct (match known_quota p q with Some _ => _ | None => _ end) as [[eff prj] qr] eqn:E1.
  destruct (filesystem_projection (su_filesystem u) (projected r u)) as [free fr] eqn:E2.
  eexists. split; [reflexivity|]. cbn [reasons admitted]. by rewrite (Hall _ _ _ _ _ eq_refl eq_refl).
Qed.

Record policy_ok (p : StoragePolicy) : Prop := {
  po_allocation : administrative_allocation_bytes p = 10 * BINARY_TIB;
  po_target : 0 <= target_root_bytes p <= hard_root_bytes p;
  po_hard : hard_root_bytes p <= POC_STORAGE_LIMIT_BYTES;
  po_reserve : 50 * DECIMAL_GB <= minimum_reserve_bytes p <= MAX_BYTES;
  po_temporary : 0 <= temporary_limit_bytes p <= 20 * DECIMAL_GB;
  po_nested : temporary_limit_bytes p <= hard_root_bytes p;
  po_schema : policy_schema_version p = DATA_REPOSITORY_SCHEMA_VERSION;
}.

Lemma storage_as_ok {A} code (m : res A) a : storage_as code m = Ok a <-> m = Ok a.
Proof.
  unfold storage_as. destruct m as [x|[c msg]]; [done|]. destruct c; split; try done; intros [=].
Qed.

Lemma policy_post_init p : StoragePolicy_post_init p = Ok tt <-> policy_ok p.
Proof.
  unfold StoragePolicy_post_init. split.
  - intros ([] & Hb%res_iter_ok & Hw%raise_when_ok)%rbind_ok.
    apply Forall_cons in Hb as [H1 Hb]. apply Forall_cons in Hb as [H2 Hb]. apply Forall_cons in Hb as [H3 Hb].
    apply Forall_cons in Hb as [H4 Hb]. apply Forall_cons in Hb as [H5 _].
    apply storage_as_ok, validate_byte_count_ok in H1, H2, H3, H4, H5. unfold byte_count in *. bprop.
    constructor; try lia. done.
  - intros [H1 H2 H3 H4 H5 H6 H7]. apply rbind_ok. exists tt. split.
    + apply res_iter_ok. repeat (apply Forall_cons; split; [apply storage_as_ok, validate_byte_count_ok; unfold byte_count;
        unfold POC_STORAGE_LIMIT_BYTES, DECIMAL_GB, MAX_BYTES, BINARY_TIB in *; lia|]). apply Forall_nil_2.
    + apply raise_when_false. rewrite H7, bool_decide_eq_true_2 by done. cbn [negb].
      unfold POC_STORAGE_LIMIT_BYTES, DECIMAL_GB, BINARY_TIB in *. lia.
Qed.

Lemma small_int_printable n : 0 <= n <= MAX_BYTES -> ints_printable (JInt n) = true.
Proof.
  intros Hn. cbn [ints_printable]. apply Z.ltb_lt.
  assert (2 ^ 63 < 2 ^ 4300) by (apply Z.pow_lt_mono_r; lia). unfold MAX_BYTES in Hn. lia.
Qed.

Lemma policy_sha256_total p : policy_ok p -> exists sha, policy_sha256 p = Ok sha.
Proof.
  intros [H1 H2 H3 H4 H5 H6 H7]. apply canonical_digest_total. unfold policy_dict.
  assert (Hb : forall n, 0 <= n <= MAX_BYTES -> ints_printable (JInt n) = true) by apply small_int_printable.
  cbn [ints_printable forallb snd] in *. rewrite !Hb; [done|..];
    unfold POC_STORAGE_LIMIT_BYTES, DECIMAL_GB, MAX_BYTES, BINARY_TIB in *; lia.
Qed.

(** The request fits every limit. *)
Definition fits (p : StoragePolicy) (u : StorageUsage) (r : StorageRequest) (q : QuotaEvidence) : Prop :=
  exists output limit used free,
    output_bytes r = Some output /\ known_quota p q = Some (limit, used) /\ known_free u = Some free
    /\ temporary_peak r u <= temporary_limit_bytes p
    /\ su_logical u + increment r output <= target_root_bytes p
    /\ increment r output + minimum_reserve_bytes p <= free
    /\ used + increment r output <= limit.

Lemma admitted_fits p u r q :
  policy_ok p -> request_ok r -> usage_ok u -> quota_ok q ->
  List.filter (violates p u r q) all_reasons = [] <-> fits p u r q.
Proof.
  intros [P1 P2 P3 P4 P5 P6 P7] [Ho Ht Hr] [Hl Hu] [Hq]. unfold fits.
  destruct (output_bytes r) as [output|] eqn:Eo.
  2:{ split; [|naive_solver]. unfold all_reasons. cbn [List.filter]. destruct (violates _ _ _ _ AR_INTEGER_OVERFLOW); [done|].
      cbn [violates]. rewrite Eo. done. }
  specialize (Ho output eq_refl).
  assert (Hi : 0 <= increment r output) by (unfold increment, byte_count in *; lia).
  assert (Hle : forall limit used, known_quota p q = Some (limit, used) -> limit <= 10 * BINARY_TIB /\ byte_count used).
  { intros limit used Ek. unfold known_quota in Ek. destruct (quota_known q); [|done]. destruct (limit_bytes q); [|done].
    destruct (used_bytes q) as [x|]; [|done]. injection Ek as <- <-. split; [lia | by apply Hq]. }
  unfold byte_count, POC_STORAGE_LIMIT_BYTES, DECIMAL_GB, BINARY_TIB, MAX_BYTES in *. split.
  - intros Hf. assert (Hv : forall x, x ∈ all_reasons -> violates p u r q x = false).
    { intros x Hx. destruct (violates p u r q x) eqn:Ev; [|done]. exfalso.
      assert (x ∈ List.filter (violates p u r q) all_reasons) as Hin by (by apply elem_of_filter_b). rewrite Hf in Hin.
      by apply not_elem_of_nil in Hin. }
    pose proof (Hv AR_INTEGER_OVERFLOW (reason_listed _)) as V1. pose proof (Hv QUOTA_UNKNOWN (reason_listed _)) as V2.
    pose proof (Hv FILESYSTEM_CAPACITY_UNKNOWN (reason_listed _)) as V3. pose proof (Hv TEMPORARY_LIMIT (reason_listed _)) as V4.
    pose proof (Hv TARGET_REVIEW_REQUIRED (reason_listed _)) as V5. pose proof (Hv FILESYSTEM_RESERVE (reason_listed _)) as V6.
    pose proof (Hv QUOTA_EXHAUSTED (reason_listed _)) as V7. clear Hv Hf. cbn [violates] in *. rewrite Eo in V1.
    destruct (projected r u) as [inc|] eqn:Ep; [|done].
    assert (inc = increment r output) as ->.
    { unfold projected in Ep. rewrite Eo in Ep. destruct (_ && _); [|done]. by injection Ep. }
    destruct (known_quota p q) as [[limit used]|]; [|done]. destruct (known_free u) as [free|]; [|done].
    exists output, limit, used, free. split_and!; try done; unfold MAX_BYTES in *; lia.
  - intros (output' & limit & used & free & [= <-] & Ek & Ef & F1 & F2 & F3 & F4).
    destruct (Hle _ _ Ek) as [Hlim Hused].
    assert (Ep : projected r u = Some (increment r output)).
    { unfold projected. rewrite Eo. unfold MAX_BYTES, temporary_peak in *.
      by replace (_ && _) with true by lia. }
    assert (Hv : Forall (fun x => violates p u r q x = false) all_reasons).
    { unfold all_reasons. repeat (apply Forall_cons; split; [cbn [violates]; rewrite ?Eo, ?Ep, ?Ek, ?Ef; cbn [missing];
        try done; unfold MAX_BYTES; lia|]). apply Forall_nil_2. }
    clear - Hv. induction Hv as [|x l Hx _ IH]; [done|]. cbn. by rewrite Hx.
Qed.

(** C20: admission is exact.  For byte counts in range the decision lists, in the order
    of their enumeration and without repetition, precisely the reasons whose condition
    holds: an unknown output, quota or capacity, a projection that overflows 64 bits, and
    every limit that the projected peak exceeds.  Under a valid policy a request is
    admitted exactly when its output, the quota and the capacity are known and the
    projected peaks respect the temporary limit, both root limits, the reserve of the
    file system and the quota. *)
Theorem admission_exact p u r q :
  StoragePolicy_post_init p = Ok tt -> request_ok r -> usage_ok u -> quota_ok q ->
  exists d, calculate_admission p u r q = Ok d
            /\ reasons d = List.filter (violates p u r q) all_reasons
            /\ (admitted d = true <-> fits p u r q).
Proof.
  intros Hp%policy_post_init Hr Hu Hq.
  destruct (decision_reasons p u r q Hr Hu Hq) as [(d & Hd & Hrs & Ha)|(e & He & _)].
  - exists d. split; [done|]. split; [done|]. rewrite Ha, bool_decide_eq_true. by apply admitted_fits.
  - destruct (policy_sha256_total p Hp) as [sha Hs]. congruence.
Qed.

(** ** Cleanup *)

Lemma sum_of_app {A} (f : A -> Z) l k : sum_of f (l ++ k) = sum_of f l + sum_of f k.
Proof. unfold sum_of. induction l as [|x l IH]; cbn; lia. Qed.

Lemma cleanup_loop_exact l required planned :
  Forall file_ok l -> 0 <= planned < required -> planned + sum_of logical_bytes l <= MAX_BYTES ->
  exists chosen rest,
    List.filter eligible_for_cleanup l = chosen ++ rest
    /\ cleanup_loop required planned l = Ok (map candidate_of chosen, planned + sum_of logical_bytes chosen)
    /\ (rest <> [] -> required <= planned + sum_of logical_bytes chosen)
    /\ forall pre x, chosen = pre ++ [x] -> planned + sum_of logical_bytes pre < required.
Proof.
  intros Hl. revert planned. induction Hl as [|f l [Hf _] Hl IH]; intros planned Hp Hs; cbn [cleanup_loop List.filter].
  - exists [], []. split; [done|]. split; [cbn; by rewrite Z.add_0_r|]. split; [done|].
    intros pre x E. by destruct pre.
  - change (sum_of logical_bytes (f :: l)) with (logical_bytes f + sum_of logical_bytes l) in Hs.
    assert (Hn : 0 <= sum_of logical_bytes l).
    { clear - Hl. unfold sum_of. induction Hl as [|g l [Hg _] _ IH]; cbn; [lia|]. unfold byte_count in Hg. lia. }
    unfold byte_count in Hf. destruct (eligible_for_cleanup f); cbn [negb]; [|apply IH; lia].
    rewrite add_pair by (unfold byte_count; lia). replace (planned + logical_bytes f <=? MAX_BYTES) with true by lia.
    cbn [rbind]. destruct (required <=? planned + logical_bytes f) eqn:Er.
    + exists [f], (List.filter eligible_for_cleanup l). split; [done|]. unfold sum_of. cbn. rewrite Z.add_0_r.
      split; [done|]. split; [lia|]. intros [|y pre] x E; [cbn; lia|]. injection E as -> E. by destruct pre.
    + destruct (IH (planned + logical_bytes f)) as (chosen & rest & H1 & H2 & H3 & H4); [lia..|].
      exists (f :: chosen), rest. rewrite H1, H2. cbn [rbind fst snd map].
      change (sum_of logical_bytes (f :: chosen)) with (logical_bytes f + sum_of logical_bytes chosen).
      rewrite Z.add_assoc. split; [done|]. split; [done|]. split; [done|].
      intros [|y pre] x E; [cbn; lia|]. injection E as <- E. specialize (H4 pre x E).
      change (sum_of logical_bytes (f :: pre)) with (logical_bytes f + sum_of logical_bytes pre). lia.
Qed.

(** The order in which files are proposed. *)
Definition by_priority (l : list FileInventory) : list FileInventory :=
  py_sorted (leb_on cleanup_priority (pair_leb Z.leb pystr_leb)) l.

(** A cleanup plan is the shortest sufficient proposal.  For the usage of an
    inventory and a target that is a byte count, the candidates are the first of the
    eligible files in the order of priority; they free at least the required reduction
    unless all eligible files are proposed, one candidate fewer would not be enough, the
    planned reduction is the sum of their sizes, and none is deleted automatically. *)
Theorem cleanup_plan_exact p target u :
  Forall file_ok (su_inventory u) -> su_logical u = sum_of logical_bytes (su_inventory u) ->
  su_logical u <= MAX_BYTES -> byte_count (default (target_root_bytes p) target) ->
  exists plan chosen rest,
    cleanup_plan p target (Ok u) = Ok plan
    /\ List.filter eligible_for_cleanup (by_priority (su_inventory u)) = chosen ++ rest
    /\ cp_candidates plan = map candidate_of chosen
    /\ cp_planned_reduction_bytes plan = sum_of logical_bytes chosen
    /\ cp_required_reduction_bytes plan = Z.max (su_logical u - default (target_root_bytes p) target) 0
    /\ (rest <> [] -> cp_required_reduction_bytes plan <= cp_planned_reduction_bytes plan)
    /\ (forall pre x, chosen = pre ++ [x] -> sum_of logical_bytes pre < cp_required_reduction_bytes plan)
    /\ Forall (fun c => cc_automatic c = false /\ cc_operator_approval_required c = true) (cp_candidates plan).
Proof.
  intros Hl Hu Hm Ht. unfold cleanup_plan. rewrite byte_count_checked by done. cbn [rbind].
  set (required := Z.max _ 0). destruct (required =? 0) eqn:Er.
  - do 2 eexists. exists (List.filter eligible_for_cleanup (by_priority (su_inventory u))). split; [done|].
    instantiate (1 := []). cbn. split_and!; try done; [lia | intros pre x E; by destruct pre].
  - destruct (cleanup_loop_exact (by_priority (su_inventory u)) required 0) as (chosen & rest & H1 & H2 & H3 & H4).
    + unfold by_priority. by rewrite py_sorted_perm.
    + lia.
    + unfold by_priority. rewrite (sum_of_perm _ _ _ (py_sorted_perm _ _)). lia.
    + unfold by_priority in H2. rewrite H2. cbn [rbind fst snd]. exists {| cp_target_bytes := default (target_root_bytes p) target;
        cp_current_bytes := su_logical u; cp_required_reduction_bytes := required;
        cp_planned_reduction_bytes := 0 + sum_of logical_bytes chosen; cp_candidates := map candidate_of chosen |}, chosen, rest.
      cbn [cp_candidates cp_planned_reduction_bytes cp_required_reduction_bytes]. split_and!; try done.
      apply Forall_fmap, Forall_forall. done.
Qed.

(** ** Examples *)

Definition sample_file (name : string) (area : string) (size : Z) (partial temporary : bool) : FileInventory :=
  {| relative_path := str name; logical_bytes := size; allocated_bytes := 512; inv_area := str area;
     inv_partial := partial; inv_temporary := temporary |}.
Definition sample_inventory : list FileInventory :=
  [sample_file "raw/a" "raw" 700 false false; sample_file "tmp/b" "tmp" 200 false true;
   sample_file "models/c" "models" 300 false false].
Definition sample_capacity : FileSystemState :=
  {| fs_total_bytes := Some (900 * DECIMAL_GB); fs_free_bytes := Some (100 * DECIMAL_GB) |}.
Definition sample_usage : StorageUsage :=
  {| su_committed := 1000; su_partial := 0; su_temporary := 200; su_logical := 1200; su_allocated := 1536;
     su_file_count := 3; su_partial_count := 0; su_temporary_count := 1; su_filesystem := sample_capacity;
     su_inventory := sample_inventory |}.

Lemma sample_files_ok : Forall file_ok sample_inventory.
Proof. repeat (apply Forall_cons; split; [split; split; discriminate|]). apply Forall_nil_2. Qed.

Lemma usage_exact_witness : usage sample_inventory (Ok sample_capacity) = Ok sample_usage.
Proof.
  destruct (usage_exact sample_inventory sample_capacity sample_files_ok) as [H _].
  rewrite H; [reflexivity | discriminate | discriminate].
Defined.

Definition sample_request (output : Z) : StorageRequest :=
  {| operation_id := str "request"; output_bytes := Some output; rq_temporary_bytes := 1000; retry_overhead_bytes := 0 |}.
Definition sample_quota : QuotaEvidence :=
  {| limit_bytes := Some (500 * DECIMAL_GB); used_bytes := Some 5000; quota_source := Some (str "quota");
     observed_at_utc := Some (str "2026-01-02T03:04:05Z"); authoritative := true |}.

Lemma admission_exact_witness :
  exists d, calculate_admission default_policy sample_usage (sample_request 1000000) sample_quota = Ok d
            /\ (admitted d = true <-> fits default_policy sample_usage (sample_request 1000000) sample_quota).
Proof.
  destruct (admission_exact default_policy sample_usage (sample_request 1000000) sample_quota) as (d & Hd & _ & Ha).
  - reflexivity.
  - constructor; [intros v [= <-] | |]; split; discriminate.
  - constructor; split; discriminate.
  - constructor. intros v [= <-]. split; discriminate.
  - exists d. split; [exact Hd | exact Ha].
Defined.

Lemma cleanup_plan_exact_witness :
  exists plan chosen, cleanup_plan default_policy (Some 1100) (Ok sample_usage) = Ok plan
                      /\ cp_candidates plan = map candidate_of chosen /\ cp_required_reduction_bytes plan = 100.
Proof.
  destruct (cleanup_plan_exact default_policy (Some 1100) sample_usage sample_files_ok) as (plan & chosen & rest & H1 & _ & H2 & _ & H3 & _).
  - reflexivity.
  - discriminate.
  - split; discriminate.
  - exists plan, chosen. split; [exact H1|]. split; [exact H2 | exact H3].
Defined.
