(* ===== verification/Manifests.v ===== *)
(** * Data manifests

    Models the manifest layer of [python/research/aegis_mx_research/data_repository.py]:
    relative storage paths, [ManifestTimeRange], [ManifestLineage], [SourceManifest],
    [PartitionManifest], their content-derived identities, [encode_manifest],
    [decode_manifest] and [deterministic_dataset_id].  A manifest is the value a
    constructor returned, so it is valid when its [__post_init__] accepts it. *)

From S2P Require Import Prelude PyText Json Sha256 PyDateTime ReferenceDocuments Storage.

Open Scope Z_scope.

Definition MANIFEST_SCHEMA_VERSION : pystr := str "1.0.0".
Definition MAX_MANIFEST_BYTES : Z := 1048576.

(** ** Paths *)

(** [PurePosixPath(value).parts] of a relative path: the components between slashes,
    without the empty ones and the single dots. *)
Definition path_parts (value : pystr) : list pystr :=
  List.filter (fun p => negb (bool_decide (p = [])) && negb (bool_decide (p = [46]))) (split_char 47 value).

(** [PurePosixPath(value).is_absolute()] *)
Definition is_absolute (value : pystr) : bool :=
  match value with c :: _ => c =? 47 | [] => false end.

(** [_validate_relative_path]; the result is [path.parts]. *)
Definition validate_relative_path (value : pystr) (allowed_areas : option (list pystr)) : res (list pystr) :=
  let malformed := storage_error INVALID_PATH "storage path is malformed" in
  if bool_decide (value = []) || existsb (Z.eqb 0) value || existsb (Z.eqb 92) value then malformed
  else
    let! encoded := utf8_encode value in
    if MAX_PATH_BYTES <? Z.of_nat (length encoded) then malformed
    else
      let parts := path_parts value in
      do! storage_when (is_absolute value || existsb (fun p => bool_decide (p = str "..")) parts)
            INVALID_PATH "storage path must be a normalized relative POSIX path" in
      match allowed_areas with
      | None => Ok parts
      | Some areas =>
          match parts with
          | [] => raise IndexError "tuple index out of range"
          | area :: _ =>
              do! storage_when (negb (bool_decide (area ∈ areas))) INVALID_PATH
                    "storage path is outside an approved object area" in
              Ok parts
          end
      end.

(** [_validate_manifest_id] *)
Definition validate_manifest_id (value : pystr) (allowed_prefixes : list pystr) : res unit :=
  do! validate_text value 160 in
  match partition_char 45 value with
  | (prefix, Some digest) =>
      if bool_decide (prefix ∈ allowed_prefixes) then validate_sha256 digest
      else storage_error MANIFEST_CORRUPT "has an invalid manifest type"
  | (_, None) => storage_error MANIFEST_CORRUPT "has an invalid manifest type"
  end.

(** ** Times and lineage *)

Record ManifestTimeRange := {
  event_time_min_ns : Z; event_time_max_ns : Z;
  publication_time_min_ns : Z; publication_time_max_ns : Z;
  receive_time_min_ns : Z; receive_time_max_ns : Z;
  processing_time_min_ns : Z; processing_time_max_ns : Z;
  revision_time_min_ns : Z; revision_time_max_ns : Z;
}.

Definition ManifestTimeRange_post_init (t : ManifestTimeRange) : res unit :=
  do! res_iter
        (fun p => storage_when ((p.1 <? 0) || (p.2 <? p.1) || (MAX_BYTES <? p.2)) MANIFEST_CORRUPT
                    "time range is invalid")
        [(event_time_min_ns t, event_time_max_ns t); (publication_time_min_ns t, publication_time_max_ns t);
         (receive_time_min_ns t, receive_time_max_ns t); (processing_time_min_ns t, processing_time_max_ns t);
         (revision_time_min_ns t, revision_time_max_ns t)] in
  storage_when ((receive_time_min_ns t <? publication_time_min_ns t)
                || (receive_time_max_ns t <? publication_time_max_ns t)
                || (processing_time_min_ns t <? receive_time_min_ns t)
                || (processing_time_max_ns t <? receive_time_max_ns t)
                || (revision_time_min_ns t <? publication_time_min_ns t)
                || (revision_time_max_ns t <? publication_time_max_ns t)) MANIFEST_CORRUPT
    "manifest availability time ranges are inconsistent".

Definition times_dict (t : ManifestTimeRange) : json :=
  JObj [(str "event_time_max_ns", JInt (event_time_max_ns t));
        (str "event_time_min_ns", JInt (event_time_min_ns t));
        (str "processing_time_max_ns", JInt (processing_time_max_ns t));
        (str "processing_time_min_ns", JInt (processing_time_min_ns t));
        (str "publication_time_max_ns", JInt (publication_time_max_ns t));
        (str "publication_time_min_ns", JInt (publication_time_min_ns t));
        (str "receive_time_max_ns", JInt (receive_time_max_ns t));
        (str "receive_time_min_ns", JInt (receive_time_min_ns t));
        (str "revision_time_max_ns", JInt (revision_time_max_ns t));
        (str "revision_time_min_ns", JInt (revision_time_min_ns t))].

Inductive LineageRelation := LR_NONE | CORRECTS | REPLACES.
#[export] Instance LineageRelation_eq_dec : EqDecision LineageRelation.
Proof. solve_decision. Defined.

Definition LineageRelation_value (r : LineageRelation) : pystr :=
  str match r with LR_NONE => "NONE" | CORRECTS => "CORRECTS" | REPLACES => "REPLACES" end.

(** [LineageRelation(value)] *)
Definition lineage_relation (value : pystr) : res LineageRelation :=
  if bool_decide (value = str "NONE") then Ok LR_NONE
  else if bool_decide (value = str "CORRECTS") then Ok CORRECTS
  else if bool_decide (value = str "REPLACES") then Ok REPLACES
  else raise ValueError "not a valid LineageRelation".

Record ManifestLineage := {
  relation : LineageRelation;
  parent_manifest_id : option pystr;
  lineage_reason : option pystr;
}.

Definition no_lineage : ManifestLineage :=
  {| relation := LR_NONE; parent_manifest_id := None; lineage_reason := None |}.

Definition source_prefix : pystr := str "source".
Definition partition_prefix : pystr := str "partition".

Definition ManifestLineage_post_init (l : ManifestLineage) : res unit :=
  if bool_decide (relation l = LR_NONE) then
    storage_when (bool_decide (is_Some (parent_manifest_id l)) || bool_decide (is_Some (lineage_reason l)))
      MANIFEST_CORRUPT "NONE lineage cannot name a parent or reason"
  else
    match parent_manifest_id l, lineage_reason l with
    | Some parent, Some reason =>
        do! validate_manifest_id parent [source_prefix; partition_prefix] in
        validate_text reason 160
    | _, _ => storage_error MANIFEST_CORRUPT "correction or replacement lineage requires parent and reason"
    end.

Definition lineage_dict (l : ManifestLineage) : json :=
  JObj [(str "parent_manifest_id", optional JStr (parent_manifest_id l));
        (str "reason", optional JStr (lineage_reason l));
        (str "relation", JStr (LineageRelation_value (relation l)))].

(** ** Manifests *)

(** The fields both kinds of manifest declare: [_DecodedCommon]. *)
Record ManifestCommon := {
  lineage : ManifestLineage;
  object_sha256 : pystr;
  record_count : Z;
  schema_name : pystr;
  mf_schema_version : pystr;
  size_bytes : Z;
  storage_path : pystr;
  times : ManifestTimeRange;
  universe_snapshot_digest : pystr;
}.

(** [_validate_manifest_common] *)
Definition validate_manifest_common (c : ManifestCommon) : res unit :=
  let! _ := validate_relative_path (storage_path c) (Some OBJECT_AREAS) in
  do! validate_sha256 (object_sha256 c) in
  do! validate_sha256 (universe_snapshot_digest c) in
  do! validate_text (schema_name c) 160 in
  do! validate_text (mf_schema_version c) SHA256_HEX_BYTES in
  storage_as MANIFEST_CORRUPT
    (do! validate_byte_count (size_bytes c) in validate_byte_count (record_count c)).

Record SourceManifest := {
  source_name : pystr;
  source_version : pystr;
  source_object_id : pystr;
  sm_common : ManifestCommon;
}.

Definition SourceManifest_post_init (m : SourceManifest) : res unit :=
  do! validate_text (source_name m) 160 in
  do! validate_text (source_version m) 160 in
  do! validate_text (source_object_id m) 160 in
  validate_manifest_common (sm_common m).

Record PartitionManifest := {
  dataset_name : pystr;
  partition_key : pystr;
  source_manifest_ids : list pystr;
  pm_common : ManifestCommon;
}.

(** The constructor keeps the source identities in order. *)
Definition new_partition (m : PartitionManifest) : res PartitionManifest :=
  do! validate_text (dataset_name m) 160 in
  do! validate_text (partition_key m) 160 in
  do! validate_manifest_common (pm_common m) in
  do! storage_when (bool_decide (source_manifest_ids m = []) || negb (bool_decide (NoDup (source_manifest_ids m))))
        MANIFEST_CORRUPT "partition source_manifest_ids must be nonempty and unique" in
  do! res_iter (fun i => validate_manifest_id i [source_prefix]) (source_manifest_ids m) in
  Ok {| dataset_name := dataset_name m; partition_key := partition_key m;
        source_manifest_ids := py_sorted pystr_leb (source_manifest_ids m); pm_common := pm_common m |}.

Inductive DataManifest :=
  | Source (m : SourceManifest)
  | Partition (m : PartitionManifest).

Definition common (m : DataManifest) : ManifestCommon :=
  match m with Source s => sm_common s | Partition p => pm_common p end.

(** The value of [kind]: the prefix of the identity. *)
Definition manifest_kind (m : DataManifest) : pystr :=
  match m with Source _ => source_prefix | Partition _ => partition_prefix end.

Definition to_payload (m : DataManifest) : list (pystr * json) :=
  let c := common m in
  match m with
  | Source s =>
      [(str "lineage", lineage_dict (lineage c));
       (str "object_sha256", JStr (object_sha256 c));
       (str "record_count", JInt (record_count c));
       (str "schema_name", JStr (schema_name c));
       (str "schema_version", JStr (mf_schema_version c));
       (str "size_bytes_decimal", JInt (size_bytes c));
       (str "source_name", JStr (source_name s));
       (str "source_object_id", JStr (source_object_id s));
       (str "source_version", JStr (source_version s));
       (str "storage_path", JStr (storage_path c));
       (str "times", times_dict (times c));
       (str "universe_snapshot_sha256", JStr (universe_snapshot_digest c))]
  | Partition p =>
      [(str "dataset_name", JStr (dataset_name p));
       (str "lineage", lineage_dict (lineage c));
       (str "object_sha256", JStr (object_sha256 c));
       (str "partition_key", JStr (partition_key p));
       (str "record_count", JInt (record_count c));
       (str "schema_name", JStr (schema_name c));
       (str "schema_version", JStr (mf_schema_version c));
       (str "size_bytes_decimal", JInt (size_bytes c));
       (str "source_manifest_ids", JArr (map JStr (source_manifest_ids p)));
       (str "storage_path", JStr (storage_path c));
       (str "times", times_dict (times c));
       (str "universe_snapshot_sha256", JStr (universe_snapshot_digest c))]
  end.

Definition manifest_body (kind_upper : pystr) (payload : list (pystr * json)) : list (pystr * json) :=
  [(str "manifest_schema_version", JStr MANIFEST_SCHEMA_VERSION);
   (str "manifest_type", JStr kind_upper);
   (str "payload", JObj payload)].

(** [_manifest_identity] *)
Definition manifest_identity (kind : pystr) (payload : list (pystr * json)) : res pystr :=
  let! digest := canonical_digest (JObj (manifest_body (upper kind) payload)) in
  Ok (kind ++ 45 :: digest).

Definition manifest_id (m : DataManifest) : res pystr := manifest_identity (manifest_kind m) (to_payload m).

(** [encode_manifest] *)
Definition encode_manifest (m : DataManifest) : res pybytes :=
  let kind := manifest_kind m in
  let body := manifest_body (upper kind) (to_payload m) in
  let! digest := canonical_digest (JObj body) in
  let! text := dumps (JObj (body ++ [(str "manifest_id", JStr (kind ++ 45 :: digest));
                                     (str "manifest_sha256", JStr digest)])) in
  Ok (text ++ [10]).

(** ** Decoding *)

Definition corrupt {A} (msg : string) : res A := storage_error MANIFEST_CORRUPT msg.

Definition require_mapping (value : json) : res (list (pystr * json)) :=
  match value with JObj m => Ok m | _ => corrupt "must be a JSON object with string keys" end.
Definition require_exact_keys (m : list (pystr * json)) (expected : list string) : res unit :=
  storage_when (negb (keys_are m expected)) MANIFEST_CORRUPT "fields do not match schema".
Definition require_str (value : json) : res pystr :=
  match value with JStr s => Ok s | _ => corrupt "must be a string" end.
Definition require_int (value : json) : res Z :=
  match value with JInt n => Ok n | _ => corrupt "must be an integer" end.

(** [_require_str(mapping\[key\], ...)] *)
Definition str_member (k : string) (m : list (pystr * json)) : res pystr :=
  let! v := jget (str k) m in require_str v.
Definition int_member (k : string) (m : list (pystr * json)) : res Z :=
  let! v := jget (str k) m in require_int v.

Definition time_fields : list string :=
  ["event_time_max_ns"; "event_time_min_ns"; "processing_time_max_ns"; "processing_time_min_ns";
   "publication_time_max_ns"; "publication_time_min_ns"; "receive_time_max_ns"; "receive_time_min_ns";
   "revision_time_max_ns"; "revision_time_min_ns"]%string.

(** [_decode_times] *)
Definition decode_times (value : json) : res ManifestTimeRange :=
  let! m := require_mapping value in
  do! require_exact_keys m time_fields in
  let! event_max := int_member "event_time_max_ns" m in
  let! event_min := int_member "event_time_min_ns" m in
  let! processing_max := int_member "processing_time_max_ns" m in
  let! processing_min := int_member "processing_time_min_ns" m in
  let! publication_max := int_member "publication_time_max_ns" m in
  let! publication_min := int_member "publication_time_min_ns" m in
  let! receive_max := int_member "receive_time_max_ns" m in
  let! receive_min := int_member "receive_time_min_ns" m in
  let! revision_max := int_member "revision_time_max_ns" m in
  let! revision_min := int_member "revision_time_min_ns" m in
  let t := {| event_time_min_ns := event_min; event_time_max_ns := event_max;
              publication_time_min_ns := publication_min; publication_time_max_ns := publication_max;
              receive_time_min_ns := receive_min; receive_time_max_ns := receive_max;
              processing_time_min_ns := processing_min; processing_time_max_ns := processing_max;
              revision_time_min_ns := revision_min; revision_time_max_ns := revision_max |} in
  do! ManifestTimeRange_post_init t in Ok t.

(** A string or null. *)
Definition optional_str (value : json) : res (option pystr) :=
  match value with
  | JNull => Ok None
  | JStr s => Ok (Some s)
  | _ => corrupt "must be a string or null"
  end.

(** [_decode_lineage] *)
Definition decode_lineage (value : json) : res ManifestLineage :=
  let! m := require_mapping value in
  do! require_exact_keys m ["parent_manifest_id"; "reason"; "relation"]%string in
  let! parent := let! v := jget (str "parent_manifest_id") m in optional_str v in
  let! reason := let! v := jget (str "reason") m in optional_str v in
  let! rel := try_except (let! s := str_member "relation" m in lineage_relation s) [ValueError]
                (fun _ => corrupt "lineage relation is invalid") in
  let l := {| relation := rel; parent_manifest_id := parent; lineage_reason := reason |} in
  do! ManifestLineage_post_init l in Ok l.

Definition common_payload_fields : list string :=
  ["lineage"; "object_sha256"; "record_count"; "schema_name"; "schema_version"; "size_bytes_decimal";
   "storage_path"; "times"; "universe_snapshot_sha256"]%string.

(** [_decode_common_payload] *)
Definition decode_common_payload (m : list (pystr * json)) : res ManifestCommon :=
  let! lin := let! v := jget (str "lineage") m in decode_lineage v in
  let! digest := str_member "object_sha256" m in
  let! count := int_member "record_count" m in
  let! name := str_member "schema_name" m in
  let! version := str_member "schema_version" m in
  let! size := int_member "size_bytes_decimal" m in
  let! path := str_member "storage_path" m in
  let! range := let! v := jget (str "times") m in decode_times v in
  let! universe := str_member "universe_snapshot_sha256" m in
  Ok {| lineage := lin; object_sha256 := digest; record_count := count; schema_name := name;
        mf_schema_version := version; size_bytes := size; storage_path := path; times := range;
        universe_snapshot_digest := universe |}.

(** [_decode_source_payload] *)
Definition decode_source_payload (m : list (pystr * json)) : res SourceManifest :=
  do! require_exact_keys m (common_payload_fields ++ ["source_name"; "source_object_id"; "source_version"]%string) in
  let! c := decode_common_payload m in
  let! name := str_member "source_name" m in
  let! version := str_member "source_version" m in
  let! object_id := str_member "source_object_id" m in
  let s := {| source_name := name; source_version := version; source_object_id := object_id; sm_common := c |} in
  do! SourceManifest_post_init s in Ok s.

(** [_decode_partition_payload] *)
Definition decode_partition_payload (m : list (pystr * json)) : res PartitionManifest :=
  do! require_exact_keys m (common_payload_fields ++ ["dataset_name"; "partition_key"; "source_manifest_ids"]%string) in
  let! ids := jget (str "source_manifest_ids") m in
  let! identifiers :=
    match ids with
    | JArr l => res_map (fun v => match v with JStr s => Ok s
                                  | _ => corrupt "source_manifest_ids must be a string array" end) l
    | _ => corrupt "source_manifest_ids must be a string array"
    end in
  let! c := decode_common_payload m in
  let! name := str_member "dataset_name" m in
  let! key := str_member "partition_key" m in
  new_partition {| dataset_name := name; partition_key := key; source_manifest_ids := identifiers; pm_common := c |}.

Definition SOURCE : pystr := str "SOURCE".
Definition PARTITION : pystr := str "PARTITION".

Definition manifest_fields : list string :=
  ["manifest_id"; "manifest_schema_version"; "manifest_sha256"; "manifest_type"; "payload"]%string.

(** [decode_manifest] *)
Definition decode_manifest (encoded : pybytes) : res DataManifest :=
  do! storage_when (MAX_MANIFEST_BYTES <? Z.of_nat (length encoded)) MANIFEST_CORRUPT
        "manifest encoding is invalid or oversized" in
  let! decoded := try_except (loads_bytes encoded) [UnicodeError; JSONDecodeError]
                    (fun _ => corrupt "manifest is malformed or incomplete") in
  let! envelope := require_mapping decoded in
  do! require_exact_keys envelope manifest_fields in
  do! storage_when (negb (member_is (str "manifest_schema_version") MANIFEST_SCHEMA_VERSION envelope))
        MANIFEST_CORRUPT "manifest schema version is unsupported" in
  let! kind := str_member "manifest_type" envelope in
  do! storage_when (negb (bool_decide (kind = SOURCE) || bool_decide (kind = PARTITION))) MANIFEST_CORRUPT
        "manifest type is unsupported" in
  let! payload := let! v := jget (str "payload") envelope in require_mapping v in
  do! raise_when (has_float (JObj payload)) Undescribed "payload holds a float" in
  let! digest := canonical_digest (JObj (manifest_body kind payload)) in
  let! identity := str_member "manifest_id" envelope in
  let! sha := str_member "manifest_sha256" envelope in
  do! storage_when (negb (bool_decide (identity = lower kind ++ 45 :: digest)) || negb (bool_decide (sha = digest)))
        SE_HASH_MISMATCH "manifest identity or hash mismatch" in
  let! manifest :=
    if bool_decide (kind = SOURCE) then let! s := decode_source_payload payload in Ok (Source s)
    else let! p := decode_partition_payload payload in Ok (Partition p) in
  let! own := manifest_id manifest in
  do! storage_when (negb (bool_decide (own = identity))) SE_HASH_MISMATCH "decoded manifest identity mismatch" in
  Ok manifest.

(** [deterministic_dataset_id] *)
Definition deterministic_dataset_id (partition_manifest_ids : list pystr)
    (universe_sha256 calendar_version schema_version : pystr) : res pystr :=
  do! storage_when (bool_decide (partition_manifest_ids = []) || negb (bool_decide (NoDup partition_manifest_ids)))
        MANIFEST_CORRUPT "partition manifest identities must be nonempty and unique" in
  do! res_iter (fun i => validate_text i 160) partition_manifest_ids in
  do! validate_sha256 universe_sha256 in
  do! validate_text calendar_version 160 in
  do! validate_text schema_version 160 in
  let! digest := canonical_digest
    (JObj [(str "calendar_version", JStr calendar_version);
           (str "partition_manifest_ids", JArr (map JStr (py_sorted pystr_leb partition_manifest_ids)));
           (str "schema_version", JStr schema_version);
           (str "universe_snapshot_sha256", JStr universe_sha256)]) in
  Ok (str "dataset-" ++ digest).

(** ** What the checks guarantee *)

Lemma escape_char_length c e : utf8_char c = Some e -> (length (escape_char c) <= 6 * length e)%nat.
Proof.
  unfold utf8_char, escape_char. intros H.
  repeat case_match; simplify_eq; try done; cbn [length];
    rewrite ?length_app; cbn [length]; rewrite ?length_hex_fixed; lia.
Qed.

Lemma dumps_str_length s b :
  utf8_encode s = Ok b -> Z.of_nat (length (dumps_str s)) <= 6 * Z.of_nat (length b) + 2.
Proof.
  intros H. assert (length (flat_map escape_char s) <= 6 * length b)%nat.
  { revert b H. induction s as [|c s IH]; intros b; cbn [utf8_encode flat_map]; [cbn; lia|].
    destruct (utf8_char c) as [e|] eqn:E; [|done]. intros (b' & Hb' & [= <-])%rbind_ok.
    apply escape_char_length in E. apply IH in Hb'. rewrite !length_app. lia. }
  unfold dumps_str. cbn [length]. rewrite length_app. cbn [length]. lia.
Qed.

(** Text of at most [n] bytes of UTF-8. *)
Definition bounded_by (n : Z) (s : pystr) : Prop :=
  text_ok s /\ Z.of_nat (length (dumps_str s)) <= 6 * n + 2.

Lemma validate_text_ok s n : validate_text s n = Ok tt -> bounded_by n s.
Proof.
  unfold validate_text. destruct (_ || _); [done|]. intros (b & Hb & H)%rbind_ok. apply raise_when_ok in H. split.
  - by eapply utf8_encode_text_ok.
  - apply dumps_str_length in Hb. lia.
Qed.

Lemma validate_sha256_ok s : validate_sha256 s = Ok tt -> Forall hexc s /\ length s = 64%nat.
Proof.
  unfold validate_sha256. intros H%raise_when_ok. bprop. split; [|unfold SHA256_HEX_BYTES in *; lia].
  apply Forall_forall. intros c Hc%list_elem_of_In.
  match goal with Hh : forallb _ _ = true |- _ => rewrite forallb_forall in Hh; apply Hh in Hc end.
  unfold is_hex_digit, is_digit, hexc in *. lia.
Qed.

Lemma hexc_bounded s n : Forall hexc s -> Z.of_nat (length s) <= 6 * n -> bounded_by n s.
Proof.
  intros H Hn. split; [by apply hexc_text_ok|]. rewrite length_dumps_str by (by apply hexc_unescaped). lia.
Qed.

Lemma sha256_bounded s : validate_sha256 s = Ok tt -> bounded_by 64 s.
Proof. intros [H Hl]%validate_sha256_ok. apply hexc_bounded; [done | lia]. Qed.

Lemma relative_path_ok s areas parts : validate_relative_path s areas = Ok parts -> bounded_by 512 s /\ parts = path_parts s.
Proof.
  unfold validate_relative_path. destruct (_ || _); [done|]. intros (b & Hb & H)%rbind_ok. case_match; [done|].
  apply rbind_ok in H as (? & _ & H). unfold MAX_PATH_BYTES in *. split.
  - split; [by eapply utf8_encode_text_ok|]. apply dumps_str_length in Hb. lia.
  - destruct areas as [areas|]; [|by injection H]. case_match; [done|]. by apply rbind_ok in H as (? & _ & [= <-]).
Qed.

Lemma manifest_id_ok s prefixes : validate_manifest_id s prefixes = Ok tt -> bounded_by 160 s.
Proof. unfold validate_manifest_id. intros ([] & H & _)%rbind_ok. by apply validate_text_ok. Qed.

Lemma byte_count_ok n : validate_byte_count n = Ok tt <-> 0 <= n <= MAX_BYTES.
Proof. unfold validate_byte_count, storage_when. rewrite raise_when_ok. lia. Qed.

Record common_ok (c : ManifestCommon) : Prop := {
  co_path : bounded_by 512 (storage_path c);
  co_digest : bounded_by 64 (object_sha256 c);
  co_universe : bounded_by 64 (universe_snapshot_digest c);
  co_schema : bounded_by 160 (schema_name c);
  co_version : bounded_by 64 (mf_schema_version c);
  co_size : 0 <= size_bytes c <= MAX_BYTES;
  co_count : 0 <= record_count c <= MAX_BYTES;
}.

Lemma validate_common_ok c : validate_manifest_common c = Ok tt -> common_ok c.
Proof.
  unfold validate_manifest_common. intros (parts & H1 & H)%rbind_ok.
  apply rbind_ok in H as ([] & H2 & H). apply rbind_ok in H as ([] & H3 & H). apply rbind_ok in H as ([] & H4 & H).
  apply rbind_ok in H as ([] & H5 & H). apply storage_as_ok, rbind_ok in H as ([] & H6 & H7).
  apply byte_count_ok in H6, H7. apply relative_path_ok in H1 as [H1 _].
  constructor; auto using sha256_bounded, validate_text_ok.
Qed.

(** Times in range and a lineage whose texts are bounded. *)
Definition times_list (t : ManifestTimeRange) : list Z :=
  [event_time_min_ns t; event_time_max_ns t; publication_time_min_ns t; publication_time_max_ns t;
   receive_time_min_ns t; receive_time_max_ns t; processing_time_min_ns t; processing_time_max_ns t;
   revision_time_min_ns t; revision_time_max_ns t].

Lemma times_ok t : ManifestTimeRange_post_init t = Ok tt -> Forall (fun n => 0 <= n <= MAX_BYTES) (times_list t).
Proof.
  unfold ManifestTimeRange_post_init. intros ([] & H & _)%rbind_ok. apply res_iter_ok in H.
  unfold times_list. rewrite !Forall_cons in H. rewrite !Forall_cons, Forall_nil.
  destruct_and! H. repeat match goal with H : storage_when _ _ _ = Ok _ |- _ => apply raise_when_ok in H end.
  cbn [fst snd] in *. split_and!; try lia; done.
Qed.

Lemma lineage_ok l :
  ManifestLineage_post_init l = Ok tt ->
  (forall p, parent_manifest_id l = Some p -> bounded_by 160 p)
  /\ (forall r, lineage_reason l = Some r -> bounded_by 160 r).
Proof.
  unfold ManifestLineage_post_init. case_bool_decide as E.
  - intros H%raise_when_ok. bprop. destruct (parent_manifest_id l), (lineage_reason l); cbn in *; try done;
      exfalso; eauto.
  - destruct (parent_manifest_id l); [|done]. destruct (lineage_reason l); [|done]. intros ([] & H1 & H2)%rbind_ok.
    split; intros ? [= <-]; [by eapply manifest_id_ok | by apply validate_text_ok].
Qed.

(** ** Valid manifests *)

Definition manifest_valid (m : DataManifest) : Prop :=
  ManifestTimeRange_post_init (times (common m)) = Ok tt
  /\ ManifestLineage_post_init (lineage (common m)) = Ok tt
  /\ match m with
     | Source s => SourceManifest_post_init s = Ok tt
     | Partition p => new_partition p = Ok p
     end.

Lemma new_partition_ok p q :
  new_partition p = Ok q ->
  q = {| dataset_name := dataset_name p; partition_key := partition_key p;
         source_manifest_ids := py_sorted pystr_leb (source_manifest_ids p); pm_common := pm_common p |}
  /\ bounded_by 160 (dataset_name p) /\ bounded_by 160 (partition_key p) /\ common_ok (pm_common p)
  /\ Forall (bounded_by 160) (source_manifest_ids p).
Proof.
  unfold new_partition. intros ([] & H1 & H)%rbind_ok. apply rbind_ok in H as ([] & H2 & H).
  apply rbind_ok in H as ([] & H3 & H). apply rbind_ok in H as (_ & _ & H). apply rbind_ok in H as ([] & H5 & [= <-]).
  split; [done|]. split_and!; auto using validate_text_ok, validate_common_ok.
  apply res_iter_ok in H5. eapply Forall_impl; [exact H5|]. intros i. apply manifest_id_ok.
Qed.

(** What the constructor returns, it accepts again. *)
Lemma new_partition_idem p q : new_partition p = Ok q -> new_partition q = Ok q.
Proof.
  unfold new_partition. intros ([] & H1 & H)%rbind_ok. apply rbind_ok in H as ([] & H2 & H).
  apply rbind_ok in H as ([] & H3 & H). apply rbind_ok in H as ([] & H4 & H). apply rbind_ok in H as ([] & H5 & [= <-]).
  cbn [dataset_name partition_key source_manifest_ids pm_common].
  rewrite H1, H2, H3. cbn [rbind]. apply raise_when_ok in H4. bprop.
  pose proof (py_sorted_perm pystr_leb (source_manifest_ids p)) as Hp. unfold storage_when.
  rewrite raise_when_false.
  2:{ apply orb_false_iff. split; [apply bool_decide_eq_false | apply negb_false_iff, bool_decide_eq_true; by rewrite Hp].
      intros E. rewrite E in Hp. by apply Permutation_nil in Hp. }
  cbn [rbind]. rewrite (proj2 (res_iter_ok _ _ tt)) by (rewrite Hp; by eapply res_iter_ok).
  cbn [rbind]. by rewrite (py_sorted_idem pystr_leb).
Qed.

Lemma valid_common m : manifest_valid m -> common_ok (common m).
Proof.
  intros (_ & _ & H). destruct m as [s|p]; cbn [common].
  - unfold SourceManifest_post_init in H. apply rbind_ok in H as (_ & _ & H). apply rbind_ok in H as (_ & _ & H).
    apply rbind_ok in H as (_ & _ & H). by apply validate_common_ok.
  - by apply new_partition_ok in H as (_ & _ & _ & H & _).
Qed.

Lemma source_texts s :
  SourceManifest_post_init s = Ok tt ->
  bounded_by 160 (source_name s) /\ bounded_by 160 (source_version s) /\ bounded_by 160 (source_object_id s).
Proof.
  unfold SourceManifest_post_init. intros ([] & H1 & H)%rbind_ok. apply rbind_ok in H as ([] & H2 & H).
  apply rbind_ok in H as ([] & H3 & _). auto using validate_text_ok.
Qed.

(** ** Documents of manifests *)

Ltac literal_object := apply json_ok_obj_intro; [json_keys | json_keys | repeat (apply Forall_cons; split); try apply Forall_nil_2; cbn [snd]].

Lemma times_dict_ok t : json_ok (times_dict t).
Proof. unfold times_dict. literal_object; done. Qed.

Lemma lineage_dict_ok l : ManifestLineage_post_init l = Ok tt -> json_ok (lineage_dict l).
Proof.
  intros [H1 H2]%lineage_ok. unfold lineage_dict. literal_object.
  - destruct (parent_manifest_id l); [|done]. by apply H1.
  - destruct (lineage_reason l); [|done]. by apply H2.
  - apply str_text_ok.
Qed.

Lemma bounded_json n s : bounded_by n s -> json_ok (JStr s).
Proof. by intros [H _]. Qed.

Lemma manifest_payload_ok m : manifest_valid m -> json_ok (JObj (to_payload m)).
Proof.
  intros Hv. pose proof (valid_common m Hv) as [Hp Hd Hu Hs Hvr _ _]. destruct Hv as (Ht & Hl & Hk).
  pose proof (times_dict_ok (times (common m))). apply lineage_dict_ok in Hl.
  destruct m as [s|p]; unfold to_payload; cbn [common] in *.
  - apply source_texts in Hk as (H1 & H2 & H3). literal_object; eauto using bounded_json; done.
  - apply new_partition_ok in Hk as (_ & H1 & H2 & _ & H3). literal_object; eauto using bounded_json; try done.
    apply json_ok_arr, Forall_fmap. eapply Forall_impl; [exact H3|]. by intros i [? _].
Qed.

Lemma manifest_payload_printable m : manifest_valid m -> ints_printable (JObj (to_payload m)) = true.
Proof.
  intros Hv. pose proof (valid_common m Hv) as [_ _ _ _ _ Hs Hc]. destruct Hv as (Ht & _ & _).
  apply times_ok in Ht. unfold times_list in Ht. rewrite !Forall_cons in Ht. destruct_and! Ht.
  assert (forall n, 0 <= n <= MAX_BYTES -> (Z.abs n <? 2 ^ 4300) = true) as Hn.
  { intros n Hn. apply Z.ltb_lt. rewrite Z.abs_eq by lia. apply Z.le_lt_trans with (2 ^ 63); [unfold MAX_BYTES in Hn; lia|].
    by apply Z.pow_lt_mono_r. }
  assert (forall l, forallb ints_printable (map JStr l) = true) as Hl.
  { intros l. apply forallb_forall. by intros v (i & <- & _)%in_map_iff. }
  destruct m as [s|p]; unfold to_payload, times_dict, lineage_dict; cbn [common ints_printable forallb snd] in *;
    rewrite !Hn by done; rewrite ?Hl; by destruct (parent_manifest_id _), (lineage_reason _).
Qed.

(** ** Encoding *)

Definition envelope (kind digest : pystr) (payload : list (pystr * json)) : list (pystr * json) :=
  manifest_body (upper kind) payload
  ++ [(str "manifest_id", JStr (kind ++ 45 :: digest)); (str "manifest_sha256", JStr digest)].

Lemma canonical_digest_hex v d : canonical_digest v = Ok d -> Forall hexc d /\ length d = 64%nat.
Proof.
  unfold canonical_digest. intros (b & _ & [= <-])%rbind_ok. unfold sha256_hex.
  split; [apply bytes_hex_hexc, sha256_range | by rewrite length_bytes_hex, length_sha256].
Qed.

Lemma manifest_digest_total m :
  manifest_valid m ->
  exists d, canonical_digest (JObj (manifest_body (upper (manifest_kind m)) (to_payload m))) = Ok d.
Proof.
  intros H. apply canonical_digest_total. apply manifest_payload_printable in H.
  unfold manifest_body. cbn [ints_printable forallb snd] in *. by rewrite H.
Qed.

Lemma kind_text m : text_ok (manifest_kind m) /\ text_ok (upper (manifest_kind m)).
Proof. destruct m; split; first [apply str_text_ok | apply (str_text_ok "SOURCE") | apply (str_text_ok "PARTITION")]. Qed.

Lemma envelope_ok m d : manifest_valid m -> Forall hexc d -> json_ok (JObj (envelope (manifest_kind m) d (to_payload m))).
Proof.
  intros Hv Hd. destruct (kind_text m) as [Hk1 Hk2]. pose proof (manifest_payload_ok m Hv) as Hp.
  unfold envelope, manifest_body. cbn [app]. apply json_ok_obj. split; [nodup_keys|].
  repeat (apply Forall_cons; split; [split; [apply str_text_ok|]|]); try apply Forall_nil_2; cbn [snd].
  - apply (str_text_ok "1.0.0").
  - done.
  - done.
  - cbn. unfold text_ok. apply Forall_app. split; [done|]. apply Forall_cons. split; [done|]. by apply hexc_text_ok.
  - by apply hexc_text_ok.
Qed.

Lemma encode_manifest_total m : manifest_valid m -> exists b, encode_manifest m = Ok b.
Proof.
  intros Hv. destruct (manifest_digest_total m Hv) as [d Hd]. unfold encode_manifest. rewrite Hd. cbn [rbind].
  fold (envelope (manifest_kind m) d (to_payload m)).
  destruct (dumps_total (JObj (envelope (manifest_kind m) d (to_payload m)))) as [b Hb].
  - apply manifest_payload_printable in Hv. unfold envelope, manifest_body. cbn [app ints_printable forallb snd] in *. by rewrite Hv.
  - rewrite Hb. cbn [rbind]. by eexists.
Qed.

(** ** Reading a manifest back *)

Lemma member_str k m s : jget (str k) m = Ok (JStr s) -> str_member k m = Ok s.
Proof. unfold str_member. by intros ->. Qed.
Lemma member_int k m n : jget (str k) m = Ok (JInt n) -> int_member k m = Ok n.
Proof. unfold int_member. by intros ->. Qed.

(** [get_field] reads a literal member of a document that was read back, by its place. *)
Ltac find_member :=
  match goal with
  | |- (?k, _) ∈ (?k, _) :: _ => apply list_elem_of_here
  | |- _ ∈ _ :: _ => apply list_elem_of_further; find_member
  end.
Ltac get_field :=
  match goal with
  | |- context [jget ?k (norm_members ?m)] =>
      erewrite (jget_norm k m) by (nodup_keys || (apply jget_elem; [nodup_keys | find_member]))
  end.
Ltac read_field :=
  eapply rbind_step;
  [first [eapply member_int; get_field; reflexivity | eapply member_str; get_field; reflexivity] | cbv beta].
Ltac exact_keys :=
  unfold require_exact_keys, storage_when; rewrite keys_norm by (cbn [map fst app]; vm_compute; reflexivity);
  cbn [negb raise_when rbind].

Lemma decode_times_dict t : ManifestTimeRange_post_init t = Ok tt -> decode_times (norm (times_dict t)) = Ok t.
Proof.
  intros H. unfold decode_times, times_dict. rewrite norm_obj_members. cbn [require_mapping rbind].
  exact_keys. do 10 read_field.
  match goal with |- rbind (ManifestTimeRange_post_init ?r) _ = _ => assert (r = t) as -> by (by destruct t) end.
  by rewrite H.
Qed.

Lemma lineage_relation_value r : lineage_relation (LineageRelation_value r) = Ok r.
Proof. by destruct r. Qed.

Lemma optional_str_norm o : optional_str (norm (optional JStr o)) = Ok o.
Proof. by destruct o. Qed.

Lemma decode_lineage_dict l : ManifestLineage_post_init l = Ok tt -> decode_lineage (norm (lineage_dict l)) = Ok l.
Proof.
  intros H. unfold decode_lineage, lineage_dict. rewrite norm_obj_members. cbn [require_mapping rbind].
  exact_keys. do 2 (eapply rbind_step; [get_field; apply optional_str_norm | cbv beta]).
  eapply rbind_step; [apply try_except_ok; read_field; apply lineage_relation_value | cbv beta].
  match goal with |- rbind (ManifestLineage_post_init ?r) _ = _ => assert (r = l) as -> by (by destruct l) end.
  by rewrite H.
Qed.

Lemma decode_common_back m :
  manifest_valid m -> decode_common_payload (norm_members (to_payload m)) = Ok (common m).
Proof.
  intros (Ht & Hl & _). unfold decode_common_payload. destruct m as [s|p]; unfold to_payload; cbn [common] in *.
  all: eapply rbind_step; [get_field; by apply decode_lineage_dict | cbv beta]; do 6 read_field;
    eapply rbind_step; [get_field; by apply decode_times_dict | cbv beta]; read_field.
  - by destruct (sm_common s).
  - by destruct (pm_common p).
Qed.

Lemma source_keys s :
  require_exact_keys (norm_members (to_payload (Source s)))
    (common_payload_fields ++ ["source_name"; "source_object_id"; "source_version"]%string) = Ok tt.
Proof. unfold to_payload. by exact_keys. Qed.

Lemma partition_keys p :
  require_exact_keys (norm_members (to_payload (Partition p)))
    (common_payload_fields ++ ["dataset_name"; "partition_key"; "source_manifest_ids"]%string) = Ok tt.
Proof. unfold to_payload. by exact_keys. Qed.

Lemma decode_source_back s :
  manifest_valid (Source s) -> decode_source_payload (norm_members (to_payload (Source s))) = Ok s.
Proof.
  intros Hv. unfold decode_source_payload. eapply rbind_step; [by apply source_keys|].
  eapply rbind_step; [by apply decode_common_back|]. unfold to_payload. do 3 read_field.
  match goal with |- rbind (SourceManifest_post_init ?r) _ = _ => assert (r = s) as -> by (by destruct s) end.
  destruct Hv as (_ & _ & H). by rewrite H.
Qed.


Lemma strings_back l :
  res_map (fun v => match v with JStr s => Ok s | _ => corrupt "source_manifest_ids must be a string array" end)
    (map JStr l) = Ok l.
Proof. induction l as [|s l IH]; [done|]. cbn. by rewrite IH. Qed.

Lemma decode_partition_back p :
  manifest_valid (Partition p) -> decode_partition_payload (norm_members (to_payload (Partition p))) = Ok p.
Proof.
  intros Hv. unfold decode_partition_payload. eapply rbind_step; [by apply partition_keys|].
  eapply rbind_step; [unfold to_payload; get_field; cbn [norm]; rewrite map_map; reflexivity|]. cbv beta iota.
  eapply rbind_step; [apply strings_back|]. eapply rbind_step; [by apply (decode_common_back (Partition p))|].
  unfold to_payload. do 2 read_field. destruct Hv as (_ & _ & H). cbn [common].
  match goal with |- new_partition ?r = _ => assert (r = p) as -> by (by destruct p) end. done.
Qed.

(** The digest of the body does not depend on the order of the payload's members. *)
Lemma body_digest_norm kind payload :
  canonical_digest (JObj (manifest_body kind (norm_members payload)))
  = canonical_digest (JObj (manifest_body kind payload)).
Proof.
  unfold canonical_digest. f_equal. unfold manifest_body. cbn [dumps map fst snd]. do 2 f_equal.
  do 3 f_equal. do 2 f_equal. change (dumps (norm (JObj payload)) = dumps (JObj payload)). apply dumps_norm.
Qed.

Lemma payload_kind_back m :
  manifest_valid m ->
  (if bool_decide (upper (manifest_kind m) = SOURCE)
   then let! s := decode_source_payload (norm_members (to_payload m)) in Ok (Source s)
   else let! p := decode_partition_payload (norm_members (to_payload m)) in Ok (Partition p)) = Ok m.
Proof.
  intros Hv. destruct m as [s|p].
  - rewrite bool_decide_eq_true_2 by reflexivity. eapply rbind_step; [by apply decode_source_back | done].
  - rewrite bool_decide_eq_false_2 by (by vm_compute). eapply rbind_step; [by apply decode_partition_back | done].
Qed.

Lemma decode_encoded_manifest m b :
  manifest_valid m -> encode_manifest m = Ok b -> Z.of_nat (length b) <= MAX_MANIFEST_BYTES ->
  decode_manifest b = Ok m.
Proof.
  intros Hv Hb Hlen. destruct (manifest_digest_total m Hv) as [d Hd]. unfold encode_manifest in Hb. rewrite Hd in Hb.
  cbn [rbind] in Hb. fold (envelope (manifest_kind m) d (to_payload m)) in Hb. apply rbind_ok in Hb as (t & Ht & [= <-]).
  destruct (canonical_digest_hex _ _ Hd) as [Hhex _]. pose proof (envelope_ok m d Hv Hhex) as Hok.
  unfold decode_manifest. eapply rbind_step; [apply raise_when_false; lia|].
  eapply rbind_step; [apply try_except_ok; by apply loads_bytes_line|]. rewrite norm_obj_members.
  eapply rbind_step; [reflexivity|].
  change (envelope (manifest_kind m) d (to_payload m)) with
    [(str "manifest_schema_version", JStr MANIFEST_SCHEMA_VERSION); (str "manifest_type", JStr (upper (manifest_kind m)));
     (str "payload", JObj (to_payload m)); (str "manifest_id", JStr (manifest_kind m ++ 45 :: d));
     (str "manifest_sha256", JStr d)].
  eapply rbind_step; [by exact_keys|].
  eapply rbind_step; [apply raise_when_false; rewrite member_is_norm; [done | nodup_keys | apply list_elem_of_here]|].
  read_field. eapply rbind_step; [apply raise_when_false; by destruct m|].
  eapply rbind_step; [get_field; rewrite norm_obj_members; reflexivity|].
  eapply rbind_step; [apply raise_when_false; rewrite <- norm_obj_members; by apply ok_no_float, norm_ok, manifest_payload_ok|].
  eapply rbind_step; [by rewrite body_digest_norm|]. do 2 read_field.
  eapply rbind_step; [apply raise_when_false; rewrite !bool_decide_eq_true_2; [done | done | by destruct m]|].
  eapply rbind_step; [by apply payload_kind_back|].
  eapply rbind_step; [unfold manifest_id, manifest_identity; rewrite Hd; reflexivity|].
  eapply rbind_step; [apply raise_when_false; by rewrite bool_decide_eq_true_2|]. done.
Qed.

(** ** What a decoded manifest satisfies *)

Lemma decode_times_valid v t : decode_times v = Ok t -> ManifestTimeRange_post_init t = Ok tt.
Proof.
  unfold decode_times. intros (m & _ & H)%rbind_ok. do 11 (apply rbind_ok in H as (? & _ & H)).
  by apply rbind_ok in H as ([] & H & [= <-]).
Qed.

Lemma decode_lineage_valid v l : decode_lineage v = Ok l -> ManifestLineage_post_init l = Ok tt.
Proof.
  unfold decode_lineage. intros (m & _ & H)%rbind_ok. do 4 (apply rbind_ok in H as (? & _ & H)).
  by apply rbind_ok in H as ([] & H & [= <-]).
Qed.

Lemma decode_common_valid m c :
  decode_common_payload m = Ok c ->
  ManifestTimeRange_post_init (times c) = Ok tt /\ ManifestLineage_post_init (lineage c) = Ok tt.
Proof.
  unfold decode_common_payload. intros (l & Hl & H)%rbind_ok. apply rbind_ok in Hl as (? & _ & Hl).
  do 6 (apply rbind_ok in H as (? & _ & H)). apply rbind_ok in H as (t & Ht & H). apply rbind_ok in Ht as (? & _ & Ht).
  apply rbind_ok in H as (? & _ & [= <-]). eauto using decode_times_valid, decode_lineage_valid.
Qed.

Lemma decode_source_valid m s : decode_source_payload m = Ok s -> manifest_valid (Source s).
Proof.
  unfold decode_source_payload. intros (? & _ & H)%rbind_ok. apply rbind_ok in H as (c & Hc & H).
  do 3 (apply rbind_ok in H as (? & _ & H)). apply rbind_ok in H as ([] & H & [= <-]).
  apply decode_common_valid in Hc as [Ht Hl]. by repeat split.
Qed.

Lemma decode_partition_valid m p : decode_partition_payload m = Ok p -> manifest_valid (Partition p).
Proof.
  unfold decode_partition_payload. intros (? & _ & H)%rbind_ok. do 2 (apply rbind_ok in H as (? & _ & H)).
  apply rbind_ok in H as (c & Hc & H). do 2 (apply rbind_ok in H as (? & _ & H)).
  apply decode_common_valid in Hc as [Ht Hl]. pose proof (new_partition_idem _ _ H) as Hi.
  apply new_partition_ok in H as (-> & _). by repeat split.
Qed.

(** An accepted encoding is a valid manifest of the identity that the encoding names. *)
Lemma decode_sound b m :
  decode_manifest b = Ok m ->
  manifest_valid m /\ Z.of_nat (length b) <= MAX_MANIFEST_BYTES
  /\ exists e id, loads_bytes b = Ok (JObj e) /\ jget (str "manifest_id") e = Ok (JStr id) /\ manifest_id m = Ok id.
Proof.
  unfold decode_manifest. intros (? & Hlen & H)%rbind_ok. apply raise_when_ok in Hlen.
  apply rbind_ok in H as (v & Hv & H). apply rbind_ok in H as (e & He & H).
  do 3 (apply rbind_ok in H as (? & _ & H)). apply rbind_ok in H as (? & _ & H).
  do 3 (apply rbind_ok in H as (? & _ & H)). apply rbind_ok in H as (id & Hid & H).
  do 2 (apply rbind_ok in H as (? & _ & H)). apply rbind_ok in H as (mf & Hm & H).
  apply rbind_ok in H as (own & Hown & H). apply rbind_ok in H as (? & Heq & [= ->]). apply raise_when_ok in Heq. bprop.
  subst own. split; [|split; [lia|]].
  - case_bool_decide.
    + apply rbind_ok in Hm as (s & Hs & [= <-]). by eapply decode_source_valid.
    + apply rbind_ok in Hm as (p & Hp & [= <-]). by eapply decode_partition_valid.
  - exists e, id. destruct v; try done. injection He as ->. split; [|split; [|done]].
    + destruct (loads_bytes b) as [|ex]; [by injection Hv as ->|]. cbn in Hv. by destruct (_ || _).
    + apply rbind_ok in Hid as (w & Hw & Hid). rewrite Hw. destruct w; try done. by injection Hid as ->.
Qed.

(** ** Sizes *)

Lemma log2_bound n : 0 <= n <= MAX_BYTES -> 0 <= Z.log2 (Z.abs n) <= 62.
Proof.
  intros H. split; [apply Z.log2_nonneg|]. rewrite Z.abs_eq by lia. destruct (decide (n = 0)) as [->|]; [by vm_compute|].
  assert (Z.log2 n < 63); [|lia]. apply Z.log2_lt_pow2; [lia|]. unfold MAX_BYTES in H. lia.
Qed.

Lemma optional_size o n : 0 <= n -> (forall s, o = Some s -> bounded_by n s) -> json_size (optional JStr o) <= 6 * n + 4.
Proof. intros Hn H. destruct o as [s|]; cbn [optional json_size]; [|lia]. destruct (H s eq_refl). lia. Qed.

(** Key lengths of literal objects are computed. *)
Ltac key_sizes :=
  repeat match goal with
  | |- context [Z.of_nat (length (dumps_str (str ?k)))] =>
      let r := eval vm_compute in (Z.of_nat (length (dumps_str (str k)))) in
      change (Z.of_nat (length (dumps_str (str k)))) with r
  end.

Lemma times_dict_size t : ManifestTimeRange_post_init t = Ok tt -> json_size (times_dict t) <= 1000.
Proof.
  intros H%times_ok. unfold times_list in H. rewrite !Forall_cons in H. destruct_and! H.
  repeat match goal with H1 : 0 <= ?n, H2 : ?n <= MAX_BYTES |- _ => pose proof (log2_bound n (conj H1 H2)); clear H1 end.
  unfold times_dict. cbn [json_size sum_of foldr fst snd]. key_sizes. lia.
Qed.

Lemma lineage_dict_size l : ManifestLineage_post_init l = Ok tt -> json_size (lineage_dict l) <= 2100.
Proof.
  intros [H1 H2]%lineage_ok. apply optional_size in H1, H2; [|lia..].
  unfold lineage_dict. cbn [json_size sum_of foldr fst snd]. key_sizes.
  assert (Z.of_nat (length (dumps_str (LineageRelation_value (relation l)))) <= 10) by (destruct (relation l); by vm_compute).
  lia.
Qed.

Lemma identity_size (kind d : pystr) :
  Forall hexc d -> length d = 64%nat -> kind = source_prefix \/ kind = partition_prefix ->
  Z.of_nat (length (dumps_str (kind ++ 45 :: d))) <= 76.
Proof.
  intros Hd Hl Hk. rewrite length_dumps_str.
  - rewrite length_app. cbn [length]. rewrite Hl. destruct Hk as [-> | ->]; by vm_compute.
  - apply Forall_app. split; [|apply Forall_cons; split; [by vm_compute | by apply hexc_unescaped]].
    destruct Hk as [-> | ->]; apply (bool_decide_unpack _); by vm_compute.
Qed.

(** The members of a source manifest's document take at most 12,500 characters. *)
Lemma source_document_size s d :
  manifest_valid (Source s) -> Forall hexc d -> length d = 64%nat ->
  json_size (JObj (envelope source_prefix d (to_payload (Source s)))) <= 12500.
Proof.
  intros Hv Hd Hl. pose proof (valid_common _ Hv) as [[_ H1] [_ H2] [_ H3] [_ H4] [_ H5] H6 H7].
  destruct Hv as (Ht & Hn & Hs). apply source_texts in Hs as ([_ H8] & [_ H9] & [_ H10]).
  apply times_dict_size in Ht. apply lineage_dict_size in Hn. apply log2_bound in H6, H7.
  pose proof (identity_size source_prefix d Hd Hl (or_introl eq_refl)) as H11.
  assert (Z.of_nat (length (dumps_str d)) = 66) as H12 by (rewrite length_dumps_str by (by apply hexc_unescaped); lia).
  unfold envelope, manifest_body, to_payload. cbn [app common] in *.
  cbn [json_size sum_of foldr fst snd]. unfold MANIFEST_SCHEMA_VERSION. key_sizes.
  change (Z.of_nat (length (dumps_str (upper source_prefix)))) with 8. lia.
Qed.

Lemma source_fits s b :
  manifest_valid (Source s) -> encode_manifest (Source s) = Ok b -> Z.of_nat (length b) <= 12501.
Proof.
  intros Hv Hb. unfold encode_manifest in Hb. apply rbind_ok in Hb as (d & Hd & Hb).
  apply rbind_ok in Hb as (t & Ht & [= <-]). apply canonical_digest_hex in Hd as [Hd Hl].
  fold (envelope source_prefix d (to_payload (Source s))) in Ht. apply dumps_size in Ht.
  pose proof (source_document_size s d Hv Hd Hl). rewrite length_app. cbn [length manifest_kind] in *.
  unfold envelope in *. lia.
Qed.

(** ** Lower bounds *)

Lemma join_ge sep (l : list pystr) : sum_of (fun x => Z.of_nat (length x)) l <= Z.of_nat (length (join sep l)).
Proof.
  unfold sum_of. induction l as [|x [|y l] IH]; [done | cbn; lia |].
  change (join sep (x :: y :: l)) with (x ++ sep :: join sep (y :: l)).
  rewrite length_app. cbn [length foldr] in *. lia.
Qed.

Lemma sum_of_elem {A} (f : A -> Z) l x : (forall y, 0 <= f y) -> x ∈ l -> f x <= sum_of f l.
Proof.
  intros Hf. unfold sum_of. induction l as [|y l IH]; [by intros ?%not_elem_of_nil|].
  assert (0 <= foldr (fun z acc => f z + acc) 0 l) by (clear IH; induction l as [|z l IH]; cbn; [lia | specialize (Hf z); lia]).
  specialize (Hf y). intros [-> | Hx]%elem_of_cons; cbn [foldr]; [lia | specialize (IH Hx); lia].
Qed.

Lemma dumps_member_ge m b k v :
  dumps (JObj m) = Ok b -> (k, v) ∈ m -> exists t, dumps v = Ok t /\ Z.of_nat (length t) <= Z.of_nat (length b).
Proof.
  intros (ts & Hts & ->)%dumps_obj Hin. rewrite <- (py_sorted_perm key_leb m) in Hin.
  apply list_elem_of_lookup_1 in Hin as [i Hi]. destruct (Forall2_lookup_l _ _ _ _ _ Hts Hi) as ([k' t] & Ht & _ & Hv).
  exists t. split; [done|]. cbn [length]. rewrite length_app.
  pose proof (join_ge 44 (map member_text ts)). assert (member_text (k', t) ∈ map member_text ts) as Hm.
  { apply list_elem_of_fmap_2. by eapply list_elem_of_lookup_2. }
  apply (sum_of_elem (fun x => Z.of_nat (length x))) in Hm; [|lia].
  unfold member_text in Hm at 1. rewrite length_app in Hm. cbn [length snd] in Hm. lia.
Qed.

Lemma dumps_strings_ge l b c :
  dumps (JArr (map JStr l)) = Ok b -> Forall (fun s => c <= Z.of_nat (length (dumps_str s))) l ->
  c * Z.of_nat (length l) <= Z.of_nat (length b).
Proof.
  intros (ts & Hts & ->)%dumps_arr Hl. cbn [length]. rewrite length_app. pose proof (join_ge 44 ts) as Hj.
  assert (c * Z.of_nat (length l) <= sum_of (fun x => Z.of_nat (length x)) ts); [|lia]. clear Hj.
  apply Forall2_fmap_l in Hts. induction Hts as [|s t l ts Ht _ IH]; [cbn; lia|].
  apply Forall_cons in Hl as [Hs Hl]. specialize (IH Hl). cbn in Ht. injection Ht as <-. cbn [length sum_of foldr] in *.
  unfold sum_of in IH. lia.
Qed.

(** A valid source identity takes 73 characters in a document. *)
Lemma source_id_size i : validate_manifest_id i [source_prefix] = Ok tt -> Z.of_nat (length (dumps_str i)) = 73.
Proof.
  unfold validate_manifest_id. intros ([] & _ & H)%rbind_ok.
  destruct (partition_char 45 i) as [prefix [digest|]] eqn:E; [|done]. case_bool_decide as Hp; [|done].
  apply list_elem_of_singleton in Hp as ->. apply validate_sha256_ok in H as [Hd Hl].
  assert (i = source_prefix ++ 45 :: digest) as ->.
  { assert (forall p d, partition_char 45 i = (p, Some d) -> i = p ++ 45 :: d) as Hpart; [|by apply Hpart].
    clear. induction i as [|c i IH]; intros p d; cbn [partition_char]; [done|].
    destruct (Z.eqb_spec c 45) as [->|]; [by intros [= <- <-]|].
    destruct (partition_char 45 i) as [p' o]. intros [= <- ->]. cbn. f_equal. by apply IH. }
  rewrite length_dumps_str.
  - rewrite length_app. cbn [length]. rewrite Hl. by vm_compute.
  - apply Forall_app. split; [apply (bool_decide_unpack _); by vm_compute|].
    apply Forall_cons. split; [by vm_compute | by apply hexc_unescaped].
Qed.

Lemma partition_size p b :
  manifest_valid (Partition p) -> encode_manifest (Partition p) = Ok b ->
  73 * Z.of_nat (length (source_manifest_ids p)) < Z.of_nat (length b).
Proof.
  intros (_ & _ & Hp) Hb. unfold encode_manifest in Hb. apply rbind_ok in Hb as (d & _ & Hb).
  apply rbind_ok in Hb as (t & Ht & [= <-]). rewrite length_app. cbn [length].
  destruct (dumps_member_ge _ _ (str "payload") (JObj (to_payload (Partition p))) Ht) as (t1 & Ht1 & Hl1).
  { unfold manifest_body. cbn [app]. do 2 apply list_elem_of_further. apply list_elem_of_here. }
  destruct (dumps_member_ge _ _ (str "source_manifest_ids") (JArr (map JStr (source_manifest_ids p))) Ht1)
    as (t2 & Ht2 & Hl2).
  { unfold to_payload. find_member. }
  apply (dumps_strings_ge _ _ 73) in Ht2; [lia|]. unfold new_partition in Hp.
  do 4 (apply rbind_ok in Hp as (? & _ & Hp)). apply rbind_ok in Hp as ([] & Hids & _). apply res_iter_ok in Hids.
  eapply Forall_impl; [exact Hids|]. intros i Hi%source_id_size. lia.
Qed.

(** ** Properties *)

(** A manifest of one source object, with every field at a small value. *)
Definition example_digest : pystr := repeat 97 64.
Definition example_manifest : DataManifest :=
  Source {| source_name := str "alpaca"; source_version := str "v2"; source_object_id := str "bars/AAPL";
            sm_common :=
              {| lineage := no_lineage; object_sha256 := example_digest; record_count := 390;
                 schema_name := str "minute"; mf_schema_version := str "1.0.0"; size_bytes := 4096;
                 storage_path := str "raw/alpaca/AAPL.json";
                 times := {| event_time_min_ns := 1; event_time_max_ns := 2; publication_time_min_ns := 1;
                             publication_time_max_ns := 2; receive_time_min_ns := 3; receive_time_max_ns := 3;
                             processing_time_min_ns := 4; processing_time_max_ns := 4; revision_time_min_ns := 2;
                             revision_time_max_ns := 2 |};
                 universe_snapshot_digest := example_digest |} |}.

Lemma example_valid : manifest_valid example_manifest.
Proof. by vm_compute. Qed.

(** C18: manifests round trip.  Every valid manifest has an encoding; an encoding of
    at most one mebibyte decodes to the manifest it came from, field by field; and the
    encoding of a source manifest always fits. *)
Theorem manifest_roundtrip m :
  manifest_valid m ->
  exists b, encode_manifest m = Ok b
    /\ (Z.of_nat (length b) <= MAX_MANIFEST_BYTES -> decode_manifest b = Ok m)
    /\ (forall s, m = Source s -> Z.of_nat (length b) <= 12501).
Proof.
  intros Hv. destruct (encode_manifest_total m Hv) as [b Hb]. exists b. split; [done|]. split.
  - by apply decode_encoded_manifest.
  - intros s ->. by eapply source_fits.
Qed.

Lemma manifest_roundtrip_witness :
  manifest_valid example_manifest
  /\ exists b, encode_manifest example_manifest = Ok b /\ decode_manifest b = Ok example_manifest.
Proof.
  split; [exact example_valid|]. destruct (manifest_roundtrip example_manifest example_valid) as (b & Hb & Hd & Hl).
  exists b. split; [exact Hb|]. apply Hd. pose proof (Hl _ eq_refl). unfold MAX_MANIFEST_BYTES. lia.
Defined.

(** C19: decoding authenticates.  Whatever bytes are accepted, the manifest that comes
    out satisfies every check of its constructors (source identities of a partition
    sorted), and its identity, recomputed from its own fields, is the identity that the
    bytes name. *)
Theorem decoded_manifest_authentic b m :
  decode_manifest b = Ok m ->
  manifest_valid m /\ Z.of_nat (length b) <= MAX_MANIFEST_BYTES
  /\ exists e id, loads_bytes b = Ok (JObj e) /\ jget (str "manifest_id") e = Ok (JStr id) /\ manifest_id m = Ok id.
Proof. apply decode_sound. Qed.

Lemma decoded_manifest_authentic_witness :
  exists b, decode_manifest b = Ok example_manifest
    /\ exists e id, loads_bytes b = Ok (JObj e) /\ jget (str "manifest_id") e = Ok (JStr id)
       /\ manifest_id example_manifest = Ok id.
Proof.
  destruct (encode_manifest_total example_manifest example_valid) as [b Hb]. exists b.
  assert (Hd : decode_manifest b = Ok example_manifest).
  { apply (decode_encoded_manifest _ _ example_valid Hb). pose proof (source_fits _ b example_valid Hb). unfold MAX_MANIFEST_BYTES. lia. }
  split; [exact Hd|]. exact (proj2 (proj2 (decoded_manifest_authentic b example_manifest Hd))).
Defined.

(** The [n]-th of a family of distinct source identities. *)
Definition nth_source_id (n : nat) : pystr := source_prefix ++ 45 :: repeat 97 48 ++ hex_fixed 16 (Z.of_nat n).

Lemma partition_char_app p t : Forall (fun c => c <> 45) p -> partition_char 45 (p ++ 45 :: t) = (p, Some t).
Proof. induction 1 as [|c p Hc _ IH]; [done|]. cbn. rewrite IH. by rewrite (proj2 (Z.eqb_neq c 45)). Qed.

Lemma utf8_encode_ascii s : Forall (fun c => 0 < c < 128) s -> utf8_encode s = Ok s.
Proof.
  induction 1 as [|c s Hc _ IH]; [done|]. cbn [utf8_encode]. unfold utf8_char.
  rewrite (proj2 (Z.ltb_ge c 0)), (proj2 (Z.ltb_lt c 128)) by lia. rewrite IH. done.
Qed.

Lemma validate_text_ascii s n :
  s <> [] -> Forall (fun c => 0 < c < 128) s -> Z.of_nat (length s) <= n -> validate_text s n = Ok tt.
Proof.
  intros Hne Hs Hn. unfold validate_text. rewrite bool_decide_eq_false_2 by done.
  assert (existsb (Z.eqb 0) s = false) as ->.
  { clear -Hs. induction Hs as [|c s Hc _ IH]; [done|]. cbn [existsb].
    rewrite IH, orb_false_r. apply Z.eqb_neq. lia. }
  cbn [orb]. rewrite utf8_encode_ascii by done. apply raise_when_false. lia.
Qed.

Lemma hex_digest_valid s :
  Forall hexc (97 :: s) -> length s = 63%nat -> validate_sha256 (97 :: s) = Ok tt.
Proof.
  intros Hs Hl. unfold validate_sha256. apply raise_when_false. rewrite lower_hexc by done.
  rewrite bool_decide_eq_true_2 by done. cbn [length existsb]. rewrite Hl.
  assert (forallb is_hex_digit (97 :: s) = true) as ->; [|done].
  apply forallb_forall. intros c Hc%list_elem_of_In. rewrite Forall_forall in Hs. apply Hs in Hc.
  unfold hexc, is_hex_digit, is_digit in *. lia.
Qed.

Lemma nth_source_id_valid n : validate_manifest_id (nth_source_id n) [source_prefix] = Ok tt.
Proof.
  assert (Forall hexc (repeat 97 48 ++ hex_fixed 16 (Z.of_nat n))) as Hh.
  { apply Forall_app. split; [|apply hex_fixed_hexc]. apply Forall_forall. intros c Hc%list_elem_of_In%repeat_spec. subst c. right. lia. }
  unfold validate_manifest_id, nth_source_id. eapply rbind_step.
  - apply validate_text_ascii; [done| |].
    + apply Forall_app. split; [apply (bool_decide_unpack _); by vm_compute|]. apply Forall_cons. split; [lia|].
      eapply Forall_impl; [exact Hh|]. unfold hexc. lia.
    + rewrite length_app. cbn [length]. rewrite length_app, repeat_length, length_hex_fixed. by vm_compute.
  - rewrite partition_char_app by (apply (bool_decide_unpack _); by vm_compute).
    rewrite bool_decide_eq_true_2 by (by apply list_elem_of_singleton).
    apply (hex_digest_valid (repeat 97 47 ++ hex_fixed 16 (Z.of_nat n))); [exact Hh|]. rewrite length_app, length_hex_fixed. done.
Qed.

Lemma nth_source_id_inj n k : Z.of_nat n < 2 ^ 64 -> Z.of_nat k < 2 ^ 64 -> nth_source_id n = nth_source_id k -> n = k.
Proof.
  intros Hn Hk H%(f_equal (drop 55)). change (hex_fixed 16 (Z.of_nat n) = hex_fixed 16 (Z.of_nat k)) in H.
  pose proof (int_base16_hex_fixed 16 (Z.of_nat n)) as H1. pose proof (int_base16_hex_fixed 16 (Z.of_nat k)) as H2.
  rewrite H, H2 in H1 by lia. assert (Some (Z.of_nat k) = Some (Z.of_nat n)) as [= E] by (apply H1; lia). lia.
Qed.

Definition large_partition : PartitionManifest :=
  {| dataset_name := str "minute"; partition_key := str "2024";
     source_manifest_ids := py_sorted pystr_leb (map nth_source_id (List.seq 0 (Z.to_nat 14365)));
     pm_common := common example_manifest |}.

Lemma large_partition_valid : manifest_valid (Partition large_partition).
Proof.
  split; [by vm_compute|]. split; [by vm_compute|].
  apply (new_partition_idem {| dataset_name := str "minute"; partition_key := str "2024";
           source_manifest_ids := map nth_source_id (List.seq 0 (Z.to_nat 14365)); pm_common := common example_manifest |}).
  unfold new_partition. cbn [dataset_name partition_key pm_common source_manifest_ids].
  do 3 (eapply rbind_step; [by vm_compute|]).
  eapply rbind_step.
  - apply raise_when_false, orb_false_iff. split.
    + apply bool_decide_eq_false. intros E%(f_equal length). rewrite length_map, length_seq in E. cbn [length] in E. lia.
    + apply negb_false_iff, bool_decide_eq_true. apply NoDup_fmap_2_strong; [|apply NoDup_ListNoDup, seq_NoDup].
      intros n k Hn%list_elem_of_In%in_seq Hk%list_elem_of_In%in_seq. apply nth_source_id_inj; lia.
  - eapply (rbind_step _ _ tt); [|reflexivity]. apply res_iter_ok, Forall_fmap, Forall_true. intros n. apply nth_source_id_valid.
Qed.

Lemma large_partition_length : 14364 < Z.of_nat (length (source_manifest_ids large_partition)).
Proof.
  assert (length (source_manifest_ids large_partition) = Z.to_nat 14365) as ->; [|lia].
  unfold large_partition. cbn [source_manifest_ids]. generalize (Z.to_nat 14365). intros n.
  rewrite (Permutation_length (py_sorted_perm pystr_leb (map nth_source_id (List.seq 0 n)))).
  by rewrite length_map, length_seq.
Qed.

(** Large partitions cannot be read back.  A partition manifest of more than
    14,364 source identities is valid and has an encoding, but that encoding is
    rejected as oversized when it is decoded. *)
Theorem oversized_partition_unreadable p :
  manifest_valid (Partition p) -> 14364 < Z.of_nat (length (source_manifest_ids p)) ->
  exists b, encode_manifest (Partition p) = Ok b
    /\ decode_manifest b = storage_error MANIFEST_CORRUPT "manifest encoding is invalid or oversized".
Proof.
  intros Hv Hn. destruct (encode_manifest_total _ Hv) as [b Hb]. exists b. split; [done|].
  apply (partition_size p b Hv) in Hb. unfold decode_manifest, storage_when.
  assert (MAX_MANIFEST_BYTES <? Z.of_nat (length b) = true) as -> by (unfold MAX_MANIFEST_BYTES; lia). done.
Qed.

Lemma oversized_partition_unreadable_witness :
  exists b, encode_manifest (Partition large_partition) = Ok b
    /\ decode_manifest b = storage_error MANIFEST_CORRUPT "manifest encoding is invalid or oversized".
Proof.
  exact (oversized_partition_unreadable large_partition large_partition_valid large_partition_length).
Defined.

(** A dataset is identified by the set of its partitions: when their identities
    are accepted in one order, they give the same dataset identity in every order. *)
Theorem dataset_id_order_independent ids ids' universe calendar schema d :
  ids ≡ₚ ids' -> deterministic_dataset_id ids universe calendar schema = Ok d ->
  deterministic_dataset_id ids' universe calendar schema = Ok d.
Proof.
  unfold deterministic_dataset_id, storage_when. intros Hp ([] & H1 & H)%rbind_ok. apply raise_when_ok in H1. bprop.
  apply rbind_ok in H as ([] & H2 & H). eapply rbind_step.
  { apply raise_when_false, orb_false_iff. split; [apply bool_decide_eq_false | apply negb_false_iff, bool_decide_eq_true; by rewrite <- Hp].
    intros ->. by apply Permutation_sym, Permutation_nil in Hp. }
  eapply (rbind_step _ _ tt); [apply res_iter_ok; rewrite <- Hp; by eapply res_iter_ok|].
  assert (py_sorted pystr_leb ids' = py_sorted pystr_leb ids) as ->; [|done].
  apply (py_sorted_unique pystr_leb); [|apply (py_sorted_sorted pystr_leb)|].
  - intros x y _ _. apply ordb_anti.
  - by rewrite (py_sorted_perm pystr_leb).
Qed.

Lemma dataset_id_order_independent_witness :
  exists d, deterministic_dataset_id [nth_source_id 1; nth_source_id 2] example_digest (str "XNYS") (str "1") = Ok d
    /\ deterministic_dataset_id [nth_source_id 2; nth_source_id 1] example_digest (str "XNYS") (str "1") = Ok d.
Proof.
  destruct (canonical_digest_total
    (JObj [(str "calendar_version", JStr (str "XNYS"));
           (str "partition_manifest_ids", JArr (map JStr (py_sorted pystr_leb [nth_source_id 1; nth_source_id 2])));
           (str "schema_version", JStr (str "1"));
           (str "universe_snapshot_sha256", JStr example_digest)]) eq_refl) as [digest Hd].
  exists (str "dataset-" ++ digest).
  assert (H : deterministic_dataset_id [nth_source_id 1; nth_source_id 2] example_digest (str "XNYS") (str "1")
              = Ok (str "dataset-" ++ digest)).
  { unfold deterministic_dataset_id. do 5 (eapply (rbind_step _ _ tt); [vm_compute; reflexivity|]).
    eapply rbind_step; [exact Hd | reflexivity]. }
  split; [exact H|]. exact (dataset_id_order_independent _ _ _ _ _ _ (Permutation_swap _ _ []) H).
Defined.

(** The path ["."] has no components: the check of its area fails with [IndexError],
    which is not one of the errors that [verify] reports. *)
Lemma dot_path_raises_index_error :
  validate_relative_path (str ".") (Some OBJECT_AREAS) = raise IndexError "tuple index out of range".
Proof. by vm_compute. Qed.

(** Repeated slashes and single dots pass the check for a normalized path. *)
Lemma unnormalized_path_accepted :
  validate_relative_path (str "raw//./a") (Some OBJECT_AREAS) = Ok [str "raw"; str "a"].
Proof. by vm_compute. Qed.
