(* ===== verification/FileSystem.v ===== *)
(** * The file system

    The part of the operating system that [data_repository.py] and [ingestion.py] use: a
    tree of directories, regular files, symbolic links and special files below the data
    root, inodes with their link counts, and the calls of [os], [pathlib] and [fcntl] on
    it.  A path is the list of its components below the root.

    Calls that change or synchronise the tree may fail: [faults] says, call by call,
    whether the next one raises [OSError]; a failing [write] has stored a prefix of its
    bytes.  No other process changes the tree during an operation.  Modification times,
    permissions and the targets of symbolic links are not kept; a path that leads through
    a symbolic link is [Undescribed]. *)

From S2P Require Import Prelude PyText.

Open Scope Z_scope.

Notation path := (list pystr) (only parsing).

Record inode := {
  ino_bytes : pybytes;
  ino_nlink : Z;
  ino_device : Z;
  ino_blocks : Z;
}.

Inductive node :=
  | Directory (device : Z)
  | Regular (ino : Z)
  | Symlink
  | Special (device : Z).
#[export] Instance node_eq_dec : EqDecision node.
Proof. solve_decision. Defined.

Record filesystem := {
  nodes : gmap path node;
  inodes : gmap Z inode;
  next_ino : Z;
}.

(** The operating system and the mutable objects of the program: what the operations
    of a process share. *)
Record world (O : Type) := {
  fs : filesystem;
  (** the outcome of the next calls: [Some n] is a failure, of a [write] after [n] bytes *)
  faults : list (option nat);
  (** [st_blocks] of a file with these contents *)
  blocks_of : pybytes -> Z;
  (** the descriptor that holds the lock of [fcntl.flock] *)
  lock_owner : option Z;
  next_descriptor : Z;
  objects : list O;
}.
Arguments fs {O}. Arguments faults {O}. Arguments blocks_of {O}. Arguments lock_owner {O}.
Arguments next_descriptor {O}. Arguments objects {O}.

(** ** Reading the tree *)

Definition undescribed {A} : res A := raise Undescribed "a path through a symbolic link".

(** The directories that lead to a path, the root first. *)
Definition ancestors (p : path) : list path := map (fun n => take n p) (List.seq 0 (length p)).

Definition enter (f : filesystem) (p : path) : res unit :=
  match nodes f !! p with
  | Some (Directory _) => Ok tt
  | Some Symlink => undescribed
  | Some _ => raise OSError "not a directory"
  | None => raise FileNotFoundError "no such file or directory"
  end.

Definition lookup_node (f : filesystem) (p : path) : res node :=
  do! res_iter (enter f) (ancestors p) in
  match nodes f !! p with
  | Some n => Ok n
  | None => raise FileNotFoundError "no such file or directory"
  end.

Inductive file_type := S_IFDIR | S_IFREG | S_IFLNK | S_IFOTHER.
#[export] Instance file_type_eq_dec : EqDecision file_type.
Proof. solve_decision. Defined.

Record stat_result := {
  st_type : file_type;
  st_dev : Z;
  st_ino : Z;
  st_size : Z;
  st_nlink : Z;
  st_blocks : Z;
}.

(** The status of a node; of a directory, a link or a special file only the type and
    the device are used. *)
Definition node_status (f : filesystem) (n : node) : res stat_result :=
  let other t dev := {| st_type := t; st_dev := dev; st_ino := 0; st_size := 0; st_nlink := 1; st_blocks := 0 |} in
  match n with
  | Directory dev => Ok (other S_IFDIR dev)
  | Symlink => Ok (other S_IFLNK 0)
  | Special dev => Ok (other S_IFOTHER dev)
  | Regular i =>
      match inodes f !! i with
      | Some x => Ok {| st_type := S_IFREG; st_dev := ino_device x; st_ino := i;
                        st_size := Z.of_nat (length (ino_bytes x)); st_nlink := ino_nlink x;
                        st_blocks := ino_blocks x |}
      | None => raise OSError "stale file handle"
      end
  end.

(** [os.lstat] *)
Definition lstat (f : filesystem) (p : path) : res stat_result :=
  let! n := lookup_node f p in node_status f n.

(** [path.exists() or path.is_symlink()] *)
Definition present (f : filesystem) (p : path) : res bool :=
  match lookup_node f p with
  | Ok _ => Ok true
  | Err e => if caught_by e [OSError] then Ok false else Err e
  end.

(** [path.exists()] *)
Definition exists_path (f : filesystem) (p : path) : res bool :=
  match lookup_node f p with
  | Ok Symlink => undescribed
  | Ok _ => Ok true
  | Err e => if caught_by e [OSError] then Ok false else Err e
  end.

(** [path.is_dir()] *)
Definition is_dir (f : filesystem) (p : path) : res bool :=
  match lookup_node f p with
  | Ok Symlink => undescribed
  | Ok (Directory _) => Ok true
  | Ok _ => Ok false
  | Err e => if caught_by e [OSError] then Ok false else Err e
  end.

(** [os.open] of an existing regular file with [O_NOFOLLOW], and reading it to its end. *)
Definition read_file (f : filesystem) (p : path) : res pybytes :=
  let! n := lookup_node f p in
  match n with
  | Regular i => match inodes f !! i with Some x => Ok (ino_bytes x) | None => raise OSError "stale file handle" end
  | _ => raise OSError "not a regular file"
  end.

(** The names in a directory, in order: [sorted(os.scandir(directory))]. *)
Definition child_name (d p : path) : option pystr :=
  match drop (length d) p with
  | [name] => if bool_decide (take (length d) p = d) then Some name else None
  | _ => None
  end.
Definition entries (f : filesystem) (d : path) : list pystr :=
  py_sorted pystr_leb (omap (fun kv => child_name d kv.1) (map_to_list (nodes f))).

(** [sorted(os.scandir(directory))] and [directory.iterdir()] raise for anything but a directory. *)
Definition scandir (f : filesystem) (d : path) : res (list pystr) :=
  let! n := lookup_node f d in
  match n with
  | Directory _ => Ok (entries f d)
  | Symlink => undescribed
  | _ => raise OSError "not a directory"
  end.

(** [path.parent] *)
Definition parent_of (p : path) : path := take (Nat.pred (length p)) p.

(** ** Changing the tree *)

Section calls.
Context {O : Type}.

Definition set_fs (f : filesystem) (w : world O) : world O :=
  {| fs := f; faults := faults w; blocks_of := blocks_of w; lock_owner := lock_owner w;
     next_descriptor := next_descriptor w; objects := objects w |}.
Definition set_faults (l : list (option nat)) (w : world O) : world O :=
  {| fs := fs w; faults := l; blocks_of := blocks_of w; lock_owner := lock_owner w;
     next_descriptor := next_descriptor w; objects := objects w |}.
Definition set_lock (o : option Z) (w : world O) : world O :=
  {| fs := fs w; faults := faults w; blocks_of := blocks_of w; lock_owner := o;
     next_descriptor := next_descriptor w; objects := objects w |}.
Definition set_objects (l : list O) (w : world O) : world O :=
  {| fs := fs w; faults := faults w; blocks_of := blocks_of w; lock_owner := lock_owner w;
     next_descriptor := next_descriptor w; objects := l |}.
Definition set_next_descriptor (n : Z) (w : world O) : world O :=
  {| fs := fs w; faults := faults w; blocks_of := blocks_of w; lock_owner := lock_owner w;
     next_descriptor := n; objects := objects w |}.

Definition set_node (p : path) (n : node) (f : filesystem) : filesystem :=
  {| nodes := <[p := n]> (nodes f); inodes := inodes f; next_ino := next_ino f |}.
Definition remove_node (p : path) (f : filesystem) : filesystem :=
  {| nodes := delete p (nodes f); inodes := inodes f; next_ino := next_ino f |}.
Definition update_inode (i : Z) (g : inode -> inode) (f : filesystem) : filesystem :=
  {| nodes := nodes f; inodes := alter g i (inodes f); next_ino := next_ino f |}.
Definition new_inode (x : inode) (f : filesystem) : filesystem :=
  {| nodes := nodes f; inodes := <[next_ino f := x]> (inodes f); next_ino := next_ino f + 1 |}.

Definition add_links (k : Z) (x : inode) : inode :=
  {| ino_bytes := ino_bytes x; ino_nlink := ino_nlink x + k; ino_device := ino_device x; ino_blocks := ino_blocks x |}.
Definition set_bytes (blocks : pybytes -> Z) (b : pybytes) (x : inode) : inode :=
  {| ino_bytes := b; ino_nlink := ino_nlink x; ino_device := ino_device x; ino_blocks := blocks b |}.

(** A call that fails, before it has any effect, when the schedule says so. *)
Definition sys {A} (call : M (world O) A) : M (world O) A := fun w =>
  match faults w with
  | [] => call w
  | None :: l => call (set_faults l w)
  | Some _ :: l => (set_faults l w, raise OSError "input/output error")
  end.

(** A call that computes a new tree. *)
Definition change {A} (g : filesystem -> res (filesystem * A)) : M (world O) A :=
  sys (fun w => match g (fs w) with
                | Ok (f, a) => (set_fs f w, Ok a)
                | Err e => (w, Err e)
                end).

Definition look {A} (g : filesystem -> res A) : M (world O) A := fun w => (w, g (fs w)).

(** A new name: its directory exists and the name is free. *)
Definition free_name (f : filesystem) (p : path) : res unit :=
  do! res_iter (enter f) (ancestors p) in
  match nodes f !! p with
  | None => Ok tt
  | Some _ => raise FileExistsError "file exists"
  end.

(** The device of the directory that holds a path. *)
Definition parent_device (f : filesystem) (p : path) : Z :=
  match nodes f !! parent_of p with Some (Directory dev) => dev | _ => 0 end.

(** [os.mkdir] *)
Definition sys_mkdir (p : path) : M (world O) unit :=
  change (fun f => do! free_name f p in Ok (set_node p (Directory (parent_device f p)) f, tt)).

(** [os.open] with [O_CREAT] and [O_EXCL]; the result is the inode. *)
Definition sys_create (p : path) : M (world O) Z :=
  change (fun f =>
    do! free_name f p in
    let x := {| ino_bytes := []; ino_nlink := 1; ino_device := parent_device f p; ino_blocks := 0 |} in
    Ok (set_node p (Regular (next_ino f)) (new_inode x f), next_ino f)).

(** The loop of [os.write] that stores all of [payload] at the end of the file. *)
Definition sys_append (i : Z) (payload : pybytes) : M (world O) unit := fun w =>
  let store n l :=
    set_fs (update_inode i (fun x => set_bytes (blocks_of w) (ino_bytes x ++ take n payload) x) (fs w)) (set_faults l w) in
  match faults w with
  | [] => (store (length payload) [], Ok tt)
  | None :: l => (store (length payload) l, Ok tt)
  | Some n :: l => (store n l, raise OSError "input/output error")
  end.

(** [os.fsync] *)
Definition sys_fsync : M (world O) unit := sys (st_ret tt).

(** [os.link(source, target, follow_symlinks=False)] *)
Definition sys_link (source target : path) : M (world O) unit :=
  change (fun f =>
    let! n := lookup_node f source in
    do! free_name f target in
    match n with
    | Regular i => Ok (set_node target (Regular i) (update_inode i (add_links 1) f), tt)
    | Directory _ => raise OSError "operation not permitted"
    | _ => Ok (set_node target n f, tt)
    end).

(** [os.unlink] *)
Definition sys_unlink (p : path) : M (world O) unit :=
  change (fun f =>
    let! n := lookup_node f p in
    match n with
    | Directory _ => raise OSError "is a directory"
    | Regular i => Ok (remove_node p (update_inode i (add_links (-1)) f), tt)
    | _ => Ok (remove_node p f, tt)
    end).

(** [os.replace]: two names of one file are left alone; otherwise the target loses its
    old inode. *)
Definition sys_replace (source target : path) : M (world O) unit :=
  change (fun f =>
    let! n := lookup_node f source in
    do! res_iter (enter f) (ancestors target) in
    match n, nodes f !! target with
    | Directory _, _ | _, Some (Directory _) => raise OSError "is a directory"
    | _, None => Ok (set_node target n (remove_node source f), tt)
    | _, Some old =>
        if bool_decide (n = old) then Ok (f, tt)
        else
          let f' := match old with Regular j => update_inode j (add_links (-1)) f | _ => f end in
          Ok (set_node target n (remove_node source f'), tt)
    end).

(** [os.open] with [O_CREAT], [O_TRUNC] and [O_NOFOLLOW]: an empty file under the name. *)
Definition sys_open_truncate (p : path) : M (world O) unit :=
  change (fun f =>
    do! res_iter (enter f) (ancestors p) in
    match nodes f !! p with
    | None =>
        let x := {| ino_bytes := []; ino_nlink := 1; ino_device := parent_device f p; ino_blocks := 0 |} in
        Ok (set_node p (Regular (next_ino f)) (new_inode x f), tt)
    | Some (Regular i) => Ok (update_inode i (set_bytes (fun _ => 0) []) f, tt)
    | Some (Special _) => raise Undescribed "a special file is opened"
    | Some _ => raise OSError "cannot open file for writing"
    end).

(** [os.open] with [O_WRONLY], [O_APPEND] and [O_NOFOLLOW]; the result is the inode. *)
Definition sys_open_append (p : path) : M (world O) Z :=
  change (fun f =>
    let! n := lookup_node f p in
    match n with
    | Regular i => Ok (f, i)
    | Special _ => raise Undescribed "a special file is opened"
    | _ => raise OSError "cannot open file for writing"
    end).

(** [path.mkdir(mode, parents=True, exist_ok=True)], for the components in reverse. *)
Definition mkdir_exist_ok (p : path) : M (world O) unit := fun w =>
  match sys_mkdir p w with
  | (w', Err e) =>
      if caught_by e [OSError]
      then match is_dir (fs w') p with Ok true => (w', Ok tt) | Ok false => (w', Err e) | Err e' => (w', Err e') end
      else (w', Err e)
  | r => r
  end.

Fixpoint mkdir_parents (reversed : list pystr) : M (world O) unit :=
  match reversed with
  | [] => mkdir_exist_ok []
  | _ :: up => fun w =>
      match sys_mkdir (rev reversed) w with
      | (w', Err e) =>
          if bool_decide (exn_cls e = FileNotFoundError)
          then (mkdir_parents up ;;~ mkdir_exist_ok (rev reversed)) w'
          else if caught_by e [OSError]
          then match is_dir (fs w') (rev reversed) with
               | Ok true => (w', Ok tt) | Ok false => (w', Err e) | Err e' => (w', Err e') end
          else (w', Err e)
      | r => r
      end
  end.
Definition mkdirs (p : path) : M (world O) unit := mkdir_parents (rev p).
End calls.

(** ** Well-formed trees *)

(** The number of names of an inode below the root. *)
Definition refs (f : filesystem) (i : Z) : nat := size (filter (fun kv => kv.2 = Regular i) (nodes f)).

Record wf (f : filesystem) : Prop := {
  wf_parent : forall p n, nodes f !! p = Some n -> p <> [] -> exists d, nodes f !! parent_of p = Some (Directory d);
  wf_ino : forall p i, nodes f !! p = Some (Regular i) -> is_Some (inodes f !! i);
  wf_fresh : forall i x, inodes f !! i = Some x -> i < next_ino f;
  wf_links : forall i x, inodes f !! i = Some x -> Z.of_nat (refs f i) <= ino_nlink x;
}.

Lemma parent_of_snoc p n : parent_of (p ++ [n]) = p.
Proof. unfold parent_of. rewrite length_app. cbn [length]. replace (Nat.pred _) with (length p) by lia. apply take_app_length. Qed.

Lemma path_snoc (p : path) : p <> [] -> exists q n, p = q ++ [n].
Proof. destruct p as [|x p] using rev_ind; [done|]. eauto. Qed.

Lemma ancestors_snoc p n : ancestors (p ++ [n]) = ancestors p ++ [p].
Proof.
  unfold ancestors. rewrite length_app. cbn [length]. rewrite Nat.add_1_r, seq_S, map_app. cbn [map].
  rewrite Nat.add_0_l, take_app_length. f_equal. apply map_ext_Forall, Forall_forall.
  intros k Hk%list_elem_of_In%in_seq. apply take_app_le. lia.
Qed.

Lemma ancestors_nil : ancestors [] = [].
Proof. done. Qed.

Lemma enter_ok f p : enter f p = Ok tt <-> exists d, nodes f !! p = Some (Directory d).
Proof. unfold enter. split; [|by intros [d ->]]. destruct (nodes f !! p) as [[]|]; try done. eauto. Qed.

Lemma ancestors_entered f p : wf f -> (exists n, nodes f !! p = Some n) -> res_iter (enter f) (ancestors p) = Ok tt.
Proof.
  intros Hwf. induction p as [|x p IH] using rev_ind; [done|]. intros [n Hn].
  destruct (wf_parent f Hwf _ _ Hn) as [d Hd]; [by destruct p|]. rewrite parent_of_snoc in Hd.
  rewrite ancestors_snoc. apply res_iter_ok, Forall_app. split.
  - apply res_iter_ok with (u := tt). apply IH. eauto.
  - apply Forall_singleton, enter_ok. eauto.
Qed.

Lemma lookup_node_ok f p n : wf f -> lookup_node f p = Ok n <-> nodes f !! p = Some n.
Proof.
  intros Hwf. unfold lookup_node. split.
  - intros (? & _ & H)%rbind_ok. destruct (nodes f !! p); [|done]. by injection H as ->.
  - intros H. rewrite ancestors_entered by eauto. cbn [rbind]. by rewrite H.
Qed.

Lemma lookup_node_some f p n : lookup_node f p = Ok n -> nodes f !! p = Some n.
Proof. unfold lookup_node. intros (? & _ & H)%rbind_ok. destruct (nodes f !! p); [|done]. by injection H as ->. Qed.

Lemma free_name_some f p : free_name f p = Ok tt -> nodes f !! p = None /\ (p <> [] -> exists d, nodes f !! parent_of p = Some (Directory d)).
Proof.
  unfold free_name. intros ([] & H & Hn)%rbind_ok. split; [by destruct (nodes f !! p)|].
  intros (q & n & ->)%path_snoc. rewrite ancestors_snoc in H. apply res_iter_ok, Forall_app in H as [_ H].
  rewrite Forall_singleton, enter_ok in H. by rewrite parent_of_snoc.
Qed.

Lemma free_name_ok f p d :
  wf f -> p <> [] -> nodes f !! parent_of p = Some (Directory d) -> nodes f !! p = None -> free_name f p = Ok tt.
Proof.
  intros Hwf (q & n & ->)%path_snoc Hd Hn. rewrite parent_of_snoc in Hd. unfold free_name.
  eapply (rbind_step _ _ tt); [|by rewrite Hn]. rewrite ancestors_snoc. apply res_iter_ok, Forall_app. split.
  - apply res_iter_ok with (u := tt). apply ancestors_entered; eauto.
  - apply Forall_singleton, enter_ok. eauto.
Qed.

Lemma refs_insert_other f p n i :
  nodes f !! p = None -> n <> Regular i -> refs (set_node p n f) i = refs f i.
Proof.
  intros Hp Hn. unfold refs, set_node. cbn [nodes]. rewrite map_filter_insert_not'; [done | done |].
  intros y Hy. congruence.
Qed.

Lemma refs_insert_same f p i :
  nodes f !! p = None -> refs (set_node p (Regular i) f) i = S (refs f i).
Proof.
  intros Hp. unfold refs, set_node. cbn [nodes]. rewrite map_filter_insert_True by done.
  apply map_size_insert_None. apply map_lookup_filter_None. by left.
Qed.

Lemma refs_remove_other f p n i :
  nodes f !! p = Some n -> n <> Regular i -> refs (remove_node p f) i = refs f i.
Proof.
  intros Hp Hn. unfold refs, remove_node. cbn [nodes]. rewrite map_filter_delete_not; [done|].
  intros y Hy. cbn. congruence.
Qed.

Lemma refs_remove_same f p i :
  nodes f !! p = Some (Regular i) -> (S (refs (remove_node p f) i) = refs f i)%nat.
Proof.
  intros Hp. unfold refs, remove_node. cbn [nodes]. rewrite map_filter_delete.
  assert (filter (fun kv => kv.2 = Regular i) (nodes f) !! p = Some (Regular i)) as H
    by (by apply map_lookup_filter_Some).
  rewrite map_size_delete_Some by eauto. apply Nat.succ_pred. intros E. apply map_size_empty_iff in E. by rewrite E in H.
Qed.

Lemma refs_pos f p i : nodes f !! p = Some (Regular i) -> (0 < refs f i)%nat.
Proof. intros H%refs_remove_same. lia. Qed.

(** An inode with one link has one name. *)
Lemma single_link f p q i x :
  wf f -> inodes f !! i = Some x -> ino_nlink x = 1 -> nodes f !! p = Some (Regular i) ->
  nodes f !! q = Some (Regular i) -> p = q.
Proof.
  intros Hwf Hx Hl Hp Hq. destruct (decide (p = q)) as [|Hne]; [done|]. exfalso.
  pose proof (wf_links f Hwf i x Hx) as H. pose proof (refs_remove_same f p i Hp).
  assert (0 < refs (remove_node p f) i)%nat; [|lia]. apply (refs_pos _ q).
  unfold remove_node. cbn [nodes]. by rewrite lookup_delete_ne.
Qed.

(** A name is added under a directory. *)
Lemma wf_add_node f p n :
  wf f -> nodes f !! p = None -> (p <> [] -> exists d, nodes f !! parent_of p = Some (Directory d)) ->
  (forall i, n = Regular i -> exists x, inodes f !! i = Some x /\ Z.of_nat (S (refs f i)) <= ino_nlink x) ->
  wf (set_node p n f).
Proof.
  intros Hwf Hp Hd Hn. assert (forall q m, q <> [] -> nodes f !! q = Some m -> parent_of q <> p) as Hne.
  { intros q m Hq Hm E. destruct (wf_parent f Hwf q m Hm Hq) as [d Hd']. congruence. }
  constructor; cbn [nodes inodes next_ino set_node].
  - intros q m Hq Hq0. apply lookup_insert_Some in Hq as [[<- <-] | [Hpq Hq]].
    + destruct (Hd Hq0) as [d Hd']. exists d. rewrite lookup_insert_ne; [done|]. intros E. congruence.
    + destruct (wf_parent f Hwf q m Hq Hq0) as [d Hd']. exists d. rewrite lookup_insert_ne; [done|].
      intros E. by apply (Hne q m).
  - intros q i [[<- ->] | [Hpq Hq]]%lookup_insert_Some; [|by eapply wf_ino].
    destruct (Hn i eq_refl) as (x & Hx & _). eauto.
  - apply (wf_fresh f Hwf).
  - intros i x Hx. change (Z.of_nat (refs (set_node p n f) i) <= ino_nlink x). destruct (decide (n = Regular i)) as [->|Hni].
    + destruct (Hn i eq_refl) as (y & Hy & Hl). rewrite refs_insert_same by done. assert (x = y) as -> by congruence. done.
    + rewrite refs_insert_other by done. by apply wf_links.
Qed.

(** A name that is not a directory is removed. *)
Lemma wf_remove_node f p n :
  wf f -> nodes f !! p = Some n -> (forall d, n <> Directory d) -> wf (remove_node p f).
Proof.
  intros Hwf Hp Hn. constructor; cbn [nodes inodes next_ino remove_node].
  - intros q m [Hpq Hq]%lookup_delete_Some Hq0. destruct (wf_parent f Hwf q m Hq Hq0) as [d Hd]. exists d.
    rewrite lookup_delete_ne; [done|]. intros E. rewrite E in Hp. rewrite Hd in Hp. injection Hp as <-. by apply (Hn d).
  - intros q i [Hpq Hq]%lookup_delete_Some. by eapply wf_ino.
  - apply (wf_fresh f Hwf).
  - intros i x Hx. change (Z.of_nat (refs (remove_node p f) i) <= ino_nlink x). pose proof (wf_links f Hwf i x Hx).
    destruct (decide (n = Regular i)) as [->|Hni].
    + apply refs_remove_same in Hp. lia.
    + by rewrite (refs_remove_other f p n i).
Qed.

Lemma refs_update_inode f i g j : refs (update_inode i g f) j = refs f j.
Proof. done. Qed.

Lemma wf_update_inode f i g :
  wf f -> (forall x, inodes f !! i = Some x -> Z.of_nat (refs f i) <= ino_nlink (g x)) -> wf (update_inode i g f).
Proof.
  intros Hwf Hg. constructor; cbn [nodes inodes next_ino update_inode].
  - apply (wf_parent f Hwf).
  - intros p j Hp. apply lookup_alter_is_Some. by eapply wf_ino.
  - intros j x. rewrite lookup_alter_Some. intros [(<- & y & Hy & _) | [_ Hx]]; by eapply wf_fresh.
  - intros j x. rewrite lookup_alter_Some. intros [(<- & y & Hy & ->) | [Hne Hx]].
    + by apply Hg.
    + by apply (wf_links f Hwf).
Qed.

Lemma wf_new_inode f x : wf f -> 0 <= ino_nlink x -> wf (new_inode x f).
Proof.
  intros Hwf Hx. constructor; cbn [nodes inodes next_ino new_inode].
  - apply (wf_parent f Hwf).
  - intros p j Hp. rewrite lookup_insert_is_Some'. right. by eapply wf_ino.
  - intros j y [[<- _] | [_ Hy]]%lookup_insert_Some; [lia|]. apply (wf_fresh f Hwf) in Hy. lia.
  - intros j y [[<- <-] | [_ Hy]]%lookup_insert_Some; [|by apply (wf_links f Hwf)].
    change (refs (new_inode x f) (next_ino f)) with (refs f (next_ino f)).
    destruct (decide (refs f (next_ino f) = 0%nat)) as [->|Hne]; [done|]. exfalso.
    unfold refs in Hne. apply map_size_non_empty_iff in Hne. apply map_choose in Hne as (p & n & Hp).
    apply map_lookup_filter_Some in Hp as [Hp Hn]. cbn in Hn. subst n.
    destruct (wf_ino f Hwf p _ Hp) as [z Hz]. apply (wf_fresh f Hwf) in Hz. lia.
Qed.

Lemma fresh_unreferenced f p : wf f -> nodes f !! p <> Some (Regular (next_ino f)).
Proof. intros Hwf H. destruct (wf_ino f Hwf p _ H) as [z Hz]. apply (wf_fresh f Hwf) in Hz. lia. Qed.

(** ** What calls keep *)

(** Files at the paths of [P] keep their inode and their bytes. *)
Definition keeps (P : path -> Prop) (f f' : filesystem) : Prop :=
  forall p i x, P p -> nodes f !! p = Some (Regular i) -> inodes f !! i = Some x ->
    nodes f' !! p = Some (Regular i) /\ exists x', inodes f' !! i = Some x' /\ ino_bytes x' = ino_bytes x.

#[export] Instance keeps_preorder P : PreOrder (keeps P).
Proof.
  split.
  - intros f p i x _ Hn Hx. eauto.
  - intros f g h H1 H2 p i x HP Hn Hx. destruct (H1 p i x HP Hn Hx) as (Hn' & y & Hy & Hb).
    destruct (H2 p i y HP Hn' Hy) as (Hn'' & z & Hz & Hb'). split; [done|]. exists z. split; [done | congruence].
Qed.

Lemma keeps_weaken (P Q : path -> Prop) f f' : (forall p, Q p -> P p) -> keeps P f f' -> keeps Q f f'.
Proof. intros HQ H p i x Hp. apply H. by apply HQ. Qed.

Section evolution.
Context {O : Type} (P : path -> Prop).

Definition evolves (w w' : world O) : Prop := wf (fs w) -> wf (fs w') /\ keeps P (fs w) (fs w').

#[export] Instance evolves_preorder : PreOrder evolves.
Proof.
  split.
  - intros w Hwf. by split.
  - intros u v w H1 H2 Hwf. destruct (H1 Hwf) as [Hv K1]. destruct (H2 Hv) as [Hw K2]. split; [done|]. by etrans.
Qed.

(** A computation whose every run, failing or not, evolves the tree. *)
Definition safe {A} (m : M (world O) A) : Prop := forall w, evolves w (m w).1.

Lemma safe_ret {A} (a : A) : safe (st_ret a).
Proof. intros w. apply reflexivity. Qed.
Lemma safe_lift {A} (r : res A) : safe (st_lift r).
Proof. intros w. apply reflexivity. Qed.
Lemma safe_raise {A} e : safe (st_raise (A := A) e).
Proof. intros w. apply reflexivity. Qed.
Lemma safe_look {A} (g : filesystem -> res A) : safe (look g).
Proof. intros w. apply reflexivity. Qed.

Lemma safe_bind {A B} (m : M (world O) A) (k : A -> M (world O) B) : safe m -> (forall a, safe (k a)) -> safe (st_bind m k).
Proof.
  intros Hm Hk w. unfold st_bind. pose proof (Hm w) as H. destruct (m w) as [w' [a|e]]; cbn in *; [|done].
  etrans; [exact H | apply Hk].
Qed.

Lemma safe_try {A} (m : M (world O) A) hs (h : exn -> M (world O) A) :
  safe m -> (forall e, safe (h e)) -> safe (st_try m hs h).
Proof.
  intros Hm Hh w. unfold st_try. pose proof (Hm w) as H. destruct (m w) as [w' [a|e]]; cbn in *; [done|].
  destruct (caught_by e hs); [|done]. etrans; [exact H | apply Hh].
Qed.

Lemma safe_if {A} (b : bool) (m k : M (world O) A) : safe m -> safe k -> safe (if b then m else k).
Proof. by destruct b. Qed.

(** A call is safe when the change it makes is. *)
Lemma safe_change {A} (g : filesystem -> res (filesystem * A)) :
  (forall f f' a, wf f -> g f = Ok (f', a) -> wf f' /\ keeps P f f') -> safe (change g).
Proof.
  intros Hg w Hwf. unfold change, sys.
  assert (forall w0 : world O, fs w0 = fs w ->
    let r := match g (fs w0) with Ok (f, a) => (set_fs f w0, Ok a) | Err e => (w0, Err e) end in
    wf (fs r.1) /\ keeps P (fs w) (fs r.1)) as H.
  { intros w0 E. rewrite E. destruct (g (fs w)) as [[f' a]|e] eqn:Eg; cbn; [by eapply Hg | by rewrite E]. }
  destruct (faults w) as [|[n|] l]; [by apply H | by split | by apply H].
Qed.

Lemma keeps_add_node f p n : nodes f !! p = None -> keeps P f (set_node p n f).
Proof.
  intros Hp q i x _ Hq Hx. cbn. split; [|eauto]. rewrite lookup_insert_ne; [done|]. congruence.
Qed.

Lemma keeps_update_inode f i g : (forall x, ino_bytes (g x) = ino_bytes x) -> keeps P f (update_inode i g f).
Proof.
  intros Hg q j x _ Hq Hx. split; [done|]. cbn. destruct (decide (i = j)) as [->|Hne].
  - exists (g x). split; [|done]. rewrite lookup_alter_eq, Hx. done.
  - exists x. by rewrite lookup_alter_ne.
Qed.

Lemma keeps_remove_node f p : ~ P p -> keeps P f (remove_node p f).
Proof.
  intros Hp q i x HP Hq Hx. cbn. split; [|eauto]. rewrite lookup_delete_ne; [done|]. intros ->. by apply Hp.
Qed.

Lemma safe_mkdir p : safe (sys_mkdir p).
Proof.
  apply safe_change. intros f f' [] Hwf ([] & Hfree & [= <-])%rbind_ok. apply free_name_some in Hfree as [Hn Hd].
  split; [apply wf_add_node; done | by apply keeps_add_node].
Qed.

(** A name is removed and its inode loses a link. *)
Definition drop_name (p : path) (n : node) (f : filesystem) : filesystem :=
  remove_node p (match n with Regular i => update_inode i (add_links (-1)) f | _ => f end).

Lemma wf_drop_name f p n : wf f -> nodes f !! p = Some n -> (forall d, n <> Directory d) -> wf (drop_name p n f).
Proof.
  intros Hwf Hn Hd. pose proof (wf_remove_node f p n Hwf Hn Hd) as Hr. destruct n as [d|i| |d]; try done.
  constructor; cbn [drop_name nodes inodes next_ino remove_node update_inode].
  - apply (wf_parent _ Hr).
  - intros q j Hq. apply lookup_alter_is_Some. by apply (wf_ino _ Hr q).
  - intros j x [(<- & y & Hy & _) | [_ Hx]]%lookup_alter_Some; by eapply wf_fresh.
  - intros j x [(<- & y & Hy & ->) | [Hne Hx]]%lookup_alter_Some.
    + change (Z.of_nat (refs (remove_node p f) i) <= ino_nlink (add_links (-1) y)). cbn [add_links ino_nlink].
      pose proof (wf_links f Hwf i y Hy). apply refs_remove_same in Hn. lia.
    + by apply (wf_links _ Hr).
Qed.

Lemma keeps_drop_name f p n : ~ P p -> keeps P f (drop_name p n f).
Proof.
  intros Hp. unfold drop_name. destruct n as [d|i| |d]; try by apply keeps_remove_node.
  etrans; [apply (keeps_update_inode f i (add_links (-1))); done | by apply keeps_remove_node].
Qed.

Lemma safe_unlink p : ~ P p -> safe (sys_unlink p).
Proof.
  intros Hp. apply safe_change. intros f f' [] Hwf (n & Hn & H)%rbind_ok. apply lookup_node_some in Hn.
  assert ((forall d, n <> Directory d) /\ f' = drop_name p n f) as [Hd ->] by (destruct n; try done; by injection H as <-).
  split; [by apply wf_drop_name | by apply keeps_drop_name].
Qed.

Lemma directory_or_not n : (exists d, n = Directory d) \/ (forall d, n <> Directory d).
Proof. destruct n; [left; eauto | by right..]. Qed.

Lemma wf_rename f source target n :
  wf f -> nodes f !! source = Some n -> (forall d, n <> Directory d) -> nodes f !! target = None ->
  (target <> [] -> exists d, nodes f !! parent_of target = Some (Directory d)) ->
  wf (set_node target n (remove_node source f)).
Proof.
  intros Hwf Hn Hd Ht Hp. apply wf_add_node.
  - by eapply wf_remove_node.
  - cbn. apply lookup_delete_None. by right.
  - intros H. destruct (Hp H) as [d Hd']. exists d. cbn. rewrite lookup_delete_ne; [done|].
    intros E. rewrite E in Hn. rewrite Hn in Hd'. injection Hd' as ->. by apply (Hd d).
  - intros i ->. destruct (wf_ino f Hwf source i Hn) as [x Hx]. exists x. split; [done|].
    rewrite refs_remove_same by done. by apply wf_links.
Qed.

Lemma safe_replace source target : ~ P source -> ~ P target -> safe (sys_replace source target).
Proof.
  intros Hs Ht. apply safe_change. intros f f' [] Hwf (n & Hn & H)%rbind_ok. apply lookup_node_some in Hn.
  apply rbind_ok in H as ([] & Ha & H).
  assert (target <> [] -> exists d, nodes f !! parent_of target = Some (Directory d)) as Hp.
  { intros (q & m & ->)%path_snoc. rewrite ancestors_snoc in Ha. apply res_iter_ok, Forall_app in Ha as [_ Ha].
    rewrite Forall_singleton, enter_ok in Ha. by rewrite parent_of_snoc. }
  assert (forall g, keeps P g (set_node target n (remove_node source g))) as Hk.
  { intros g. etrans; [by apply (keeps_remove_node _ source)|]. intros q i x HP Hq Hx. cbn. split; [|eauto].
    rewrite lookup_insert_ne; [done|]. intros ->. by apply Ht. }
  destruct (directory_or_not n) as [[d ->]|Hd]; [done|].
  destruct (nodes f !! target) as [old|] eqn:Eo.
  2:{ assert (f' = set_node target n (remove_node source f)) as -> by (destruct n; [done | by injection H as <-..]).
      split; [apply wf_rename; naive_solver | apply Hk]. }
  destruct (directory_or_not old) as [[d ->]|Hdo]; [by destruct n|].
  destruct (decide (n = old)) as [->|Hno].
  { assert (f' = f) as ->; [|by split].
    destruct old; [by destruct (Hd device)|..]; rewrite bool_decide_eq_true_2 in H by done; by injection H as <-. }
  assert (source <> target) as Hst by (intros ->; congruence).
  assert (f' = set_node target n (remove_node source (drop_name target old f))) as ->.
  { transitivity (set_node target n (remove_node source
        (match old with Regular j => update_inode j (add_links (-1)) f | _ => f end))).
    - destruct n; [done|..]; (destruct old; [done|..]); rewrite bool_decide_eq_false_2 in H by done; by injection H as <-.
    - unfold set_node, remove_node, drop_name. destruct old; cbn; f_equal;
        by rewrite delete_delete, insert_delete_eq. }
  split.
  - assert (wf (drop_name target old f)) as Hwf' by (apply wf_drop_name; naive_solver).
    assert (nodes (drop_name target old f) = delete target (nodes f)) as En by (by destruct old).
    apply wf_rename; [done | rewrite En, lookup_delete_ne; done | naive_solver | rewrite En; apply lookup_delete_eq |].
    intros H0. destruct (Hp H0) as [d Hd']. exists d. rewrite En, lookup_delete_ne; [done|]. intros E. rewrite E in Eo. naive_solver.
  - etrans; [by apply (keeps_drop_name f target old) | apply Hk].
Qed.

Lemma safe_link source target : safe (sys_link source target).
Proof.
  apply safe_change. intros f f' [] Hwf (n & Hn & H)%rbind_ok. apply lookup_node_some in Hn.
  apply rbind_ok in H as ([] & Hfree & H). apply free_name_some in Hfree as [Ht Hd].
  destruct n as [d|i| |d]; try done; injection H as <-.
  - split; [|etrans; [apply (keeps_update_inode f i (add_links 1)); done | by apply keeps_add_node]].
    apply wf_add_node; [|done|done|].
    + apply wf_update_inode; [done|]. intros x Hx. cbn [add_links ino_nlink]. pose proof (wf_links f Hwf i x Hx). lia.
    + intros j [= <-]. destruct (wf_ino f Hwf source i Hn) as [x Hx]. exists (add_links 1 x). cbn.
      rewrite lookup_alter_eq, Hx. split; [done|]. rewrite refs_update_inode. pose proof (wf_links f Hwf i x Hx). lia.
  - split; [by apply wf_add_node | by apply keeps_add_node].
  - split; [by apply wf_add_node | by apply keeps_add_node].
Qed.

Lemma evolves_same (w w' : world O) : fs w' = fs w -> evolves w w'.
Proof. intros E Hwf. rewrite E. by split. Qed.

Lemma safe_fsync : safe sys_fsync.
Proof. intros w. unfold sys_fsync, sys. destruct (faults w) as [|[|] l]; by apply evolves_same. Qed.

Lemma safe_mkdir_exist_ok p : safe (mkdir_exist_ok p).
Proof.
  intros w. unfold mkdir_exist_ok. pose proof (safe_mkdir p w) as H. destruct (sys_mkdir p w) as [w' [[]|e]]; [done|].
  destruct (caught_by e _); [|done]. by destruct (is_dir _ _) as [[]|].
Qed.

Lemma safe_mkdir_parents l : safe (mkdir_parents l).
Proof.
  induction l as [|x l IH]; [apply safe_mkdir_exist_ok|]. intros w. cbn [mkdir_parents].
  pose proof (safe_mkdir (rev (x :: l)) w) as H. destruct (sys_mkdir _ w) as [w' [[]|e]]; [done|].
  case_bool_decide.
  - etrans; [exact H|]. apply (safe_bind (mkdir_parents l)); [exact IH | intros []; apply safe_mkdir_exist_ok].
  - destruct (caught_by e _); [|done]. by destruct (is_dir _ _) as [[]|].
Qed.

Lemma safe_mkdirs p : safe (mkdirs p).
Proof. apply safe_mkdir_parents. Qed.

(** Adding bytes to an inode that no path of [P] names. *)
Lemma append_evolves i b (w : world O) :
  (forall p, P p -> nodes (fs w) !! p <> Some (Regular i)) -> evolves w (sys_append i b w).1.
Proof.
  intros Hi Hwf.
  assert (forall n l, let f' := fs (set_fs (update_inode i (fun x => set_bytes (blocks_of w) (ino_bytes x ++ take n b) x)
                                              (fs w)) (set_faults l w)) in wf f' /\ keeps P (fs w) f') as H.
  { intros n l. cbn [fs set_fs]. split.
    - apply wf_update_inode; [done|]. intros x Hx. exact (wf_links _ Hwf _ _ Hx).
    - intros p j x HP Hn Hx. split; [done|]. exists x. split; [|done]. cbn. rewrite lookup_alter_ne; [done|].
      intros <-. by apply (Hi p). }
  unfold sys_append. destruct (faults w) as [|[n|] l]; apply H.
Qed.

Lemma append_effect i b (w : world O) :
  wf (fs w) ->
  let f' := fs (sys_append i b w).1 in
  wf f' /\ nodes f' = nodes (fs w) /\ (forall j, j <> i -> inodes f' !! j = inodes (fs w) !! j)
  /\ forall x, inodes (fs w) !! i = Some x -> exists n x', inodes f' !! i = Some x'
       /\ ino_bytes x' = ino_bytes x ++ take n b /\ ino_nlink x' = ino_nlink x
       /\ ((sys_append i b w).2 = Ok tt -> n = length b).
Proof.
  intros Hwf.
  assert (forall n l, let f' := fs (set_fs (update_inode i (fun x => set_bytes (blocks_of w) (ino_bytes x ++ take n b) x)
                                              (fs w)) (set_faults l w)) in
            wf f' /\ nodes f' = nodes (fs w) /\ (forall j, j <> i -> inodes f' !! j = inodes (fs w) !! j)
            /\ forall x, inodes (fs w) !! i = Some x -> exists x', inodes f' !! i = Some x'
                 /\ ino_bytes x' = ino_bytes x ++ take n b /\ ino_nlink x' = ino_nlink x) as H.
  { intros n l. cbn [fs set_fs]. split_and!.
    - apply wf_update_inode; [done|]. intros x Hx. exact (wf_links _ Hwf _ _ Hx).
    - done.
    - intros j Hj. cbn. by rewrite lookup_alter_ne.
    - intros x Hx. cbn. rewrite lookup_alter_eq, Hx. by eexists. }
  unfold sys_append. destruct (faults w) as [|[n|] l]; cbn [fst snd].
  1: destruct (H (length b) []) as (? & ? & ? & Hx). 3: destruct (H (length b) l) as (? & ? & ? & Hx).
  1,3: split_and!; [done..|]; intros x (x' & ? & ? & ?)%Hx; exists (length b), x'; by split_and!.
  destruct (H n l) as (? & ? & ? & Hx). split_and!; [done..|]. intros x (x' & ? & ? & ?)%Hx. exists n, x'. by split_and!.
Qed.

(** A new file: its name is free, and its inode has no other name. *)
Lemma create_step p (w w' : world O) i :
  wf (fs w) -> sys_create p w = (w', Ok i) ->
  i = next_ino (fs w) /\ nodes (fs w) !! p = None /\ wf (fs w')
  /\ nodes (fs w') = <[p := Regular i]> (nodes (fs w))
  /\ exists x, inodes (fs w') = <[i := x]> (inodes (fs w)) /\ ino_bytes x = [] /\ ino_nlink x = 1.
Proof.
  intros Hwf H. unfold sys_create, change, sys in H.
  assert (exists w0 : world O, fs w0 = fs w /\
    match (do! free_name (fs w0) p in
           Ok (set_node p (Regular (next_ino (fs w0)))
                 (new_inode {| ino_bytes := []; ino_nlink := 1; ino_device := parent_device (fs w0) p; ino_blocks := 0 |}
                    (fs w0)), next_ino (fs w0))) with
    | Ok (f, a) => (set_fs f w0, Ok a) | Err e => (w0, Err e) end = (w', Ok i)) as (w0 & E & H0).
  { destruct (faults w) as [|[n|] l]; [exists w; by split | done | exists (set_faults l w); by split]. }
  clear H. rewrite E in H0. destruct (free_name (fs w) p) as [[]|] eqn:Hf; [|done]. cbn [rbind] in H0.
  injection H0 as <- <-. apply free_name_some in Hf as [Hn Hd]. split; [done|]. split; [done|]. cbn [fs set_fs]. split.
  - apply wf_add_node; [by apply wf_new_inode|done|done|]. intros j [= <-]. eexists. cbn. rewrite lookup_insert_eq.
    split; [done|]. cbn. change (refs (new_inode _ (fs w)) (next_ino (fs w))) with (refs (fs w) (next_ino (fs w))).
    destruct (decide (refs (fs w) (next_ino (fs w)) = 0%nat)) as [->|Hne]; [done|]. exfalso.
    unfold refs in Hne. apply map_size_non_empty_iff in Hne. apply map_choose in Hne as (q & n & Hq).
    apply map_lookup_filter_Some in Hq as [Hq Hq']. cbn in Hq'. subst n. by apply (fresh_unreferenced (fs w) q).
  - split; [done|]. eexists. by split.
Qed.

Lemma create_failed p (w w' : world O) e : sys_create p w = (w', Err e) -> fs w' = fs w.
Proof.
  unfold sys_create, change, sys. destruct (faults w) as [|[n|] l]; cbn [fs set_faults].
  - destruct (free_name _ _) as [[]|]; cbn; by intros [= <- _].
  - by intros [= <- _].
  - destruct (free_name _ _) as [[]|]; cbn; by intros [= <- _].
Qed.

(** Creating a file and filling it touches no file that was there. *)
Lemma safe_create_append p b : safe (st_bind (sys_create p) (fun i => sys_append i b)).
Proof.
  intros w Hwf. unfold st_bind. destruct (sys_create p w) as [w1 [i|e]] eqn:E.
  - destruct (create_step p w w1 i Hwf E) as (-> & Hn & Hwf1 & Hnodes & x & Hino & _).
    destruct (append_effect (next_ino (fs w)) b w1 Hwf1) as (Hwf2 & Hn2 & Hi2 & _).
    split; [done|]. intros q j y HP Hq Hy. rewrite Hn2, Hnodes. split; [rewrite lookup_insert_ne; congruence|].
    exists y. split; [|done]. assert (j <> next_ino (fs w)) by (intros ->; by apply (fresh_unreferenced (fs w) q)).
    rewrite Hi2, Hino, lookup_insert_ne by done. done.
  - cbn. rewrite (create_failed p w w1 e E). by split.
Qed.
End evolution.

(** Well-formedness decided by evaluation. *)
Definition wfb (f : filesystem) : bool :=
  forallb (fun kv => bool_decide (kv.1 = [])
                     || match nodes f !! parent_of kv.1 with Some (Directory _) => true | _ => false end)
    (map_to_list (nodes f))
  && forallb (fun kv => match kv.2 with Regular i => bool_decide (is_Some (inodes f !! i)) | _ => true end)
       (map_to_list (nodes f))
  && forallb (fun ix => (ix.1 <? next_ino f) && (Z.of_nat (refs f ix.1) <=? ino_nlink ix.2)) (map_to_list (inodes f)).

Lemma wfb_wf f : wfb f = true -> wf f.
Proof.
  unfold wfb. intros [[H1 H2]%andb_true_split H3]%andb_true_split. rewrite forallb_forall in H1, H2, H3.
  constructor.
  - intros p n Hn Hp. apply elem_of_map_to_list, list_elem_of_In, H1 in Hn. cbn in Hn.
    rewrite bool_decide_eq_false_2 in Hn by done. cbn in Hn. destruct (nodes f !! parent_of p) as [[]|]; try done. eauto.
  - intros p i Hn. apply elem_of_map_to_list, list_elem_of_In, H2 in Hn. cbn in Hn. by apply bool_decide_eq_true in Hn.
  - intros i x Hx. apply elem_of_map_to_list, list_elem_of_In, H3 in Hx. cbn in Hx. lia.
  - intros i x Hx. apply elem_of_map_to_list, list_elem_of_In, H3 in Hx. cbn in Hx. lia.
Qed.

(** ** Outcomes of calls *)

Section outcomes.
Context {O : Type}.
Implicit Types w : world O.

(** A call fails and leaves the tree alone, or makes its change. *)
Lemma change_cases {A} (g : filesystem -> res (filesystem * A)) w :
  (fs (change g w).1 = fs w /\ exists e, (change g w).2 = Err e)
  \/ exists f a, g (fs w) = Ok (f, a) /\ (change g w).2 = Ok a /\ fs (change g w).1 = f.
Proof.
  unfold change, sys. destruct (faults w) as [|[n|] l]; cbn [fs set_faults].
  - destruct (g (fs w)) as [[f a]|e]; [right; by exists f, a | left; by eauto].
  - left. cbn. eauto.
  - destruct (g (fs w)) as [[f a]|e]; [right; by exists f, a | left; by eauto].
Qed.

Lemma change_quiet {A} (g : filesystem -> res (filesystem * A)) w f a :
  faults w = [] -> g (fs w) = Ok (f, a) -> change g w = (set_fs f w, Ok a).
Proof. intros Hq Hg. unfold change, sys. by rewrite Hq, Hg. Qed.

Lemma change_quiet_err {A} (g : filesystem -> res (filesystem * A)) w e :
  faults w = [] -> g (fs w) = Err e -> change g w = (w, Err e).
Proof. intros Hq Hg. unfold change, sys. by rewrite Hq, Hg. Qed.

Lemma fsync_fs w : fs (sys_fsync w).1 = fs w.
Proof. unfold sys_fsync, sys. by destruct (faults w) as [|[n|] l]. Qed.

(** ** Directories *)

(** The tree grows by directories on the way to [p]. *)
Definition grows (p : path) (f f' : filesystem) : Prop :=
  inodes f' = inodes f /\ next_ino f' = next_ino f /\ nodes f ⊆ nodes f'
  /\ forall q n, nodes f' !! q = Some n -> nodes f !! q = None -> (exists d, n = Directory d) /\ q `prefix_of` p.

Lemma grows_refl p f : grows p f f.
Proof. split_and!; try done. intros q n H1 H2. congruence. Qed.

Lemma grows_trans p q f g h : q `prefix_of` p -> grows q f g -> grows p g h -> grows p f h.
Proof.
  intros Hq (I1 & X1 & S1 & N1) (I2 & X2 & S2 & N2). split_and!; [congruence | congruence | by etrans|].
  intros r n Hr Hn. destruct (nodes g !! r) as [m|] eqn:E.
  - assert (m = n) as ->. { eapply lookup_weaken in E; [|exact S2]. congruence. }
    destruct (N1 r n E Hn) as [Hd Hp]. split; [done | by etrans].
  - by apply N2.
Qed.

Lemma mkdir_grows p w : grows p (fs w) (fs (sys_mkdir p w).1).
Proof.
  unfold sys_mkdir. destruct (change_cases (fun f => do! free_name f p in Ok (set_node p (Directory (parent_device f p)) f, tt)) w)
    as [[-> _] | (f & [] & H & _ & ->)]; [apply grows_refl|].
  apply rbind_ok in H as ([] & Hf & [= <-]). apply free_name_some in Hf as [Hn _]. split_and!; try done.
  - by apply insert_subseteq.
  - cbn. intros q n [[<- <-] | [_ Hq]]%lookup_insert_Some Hq'; [eauto | congruence].
Qed.

Lemma mkdir_exist_ok_grows p w : grows p (fs w) (fs (mkdir_exist_ok p w).1).
Proof.
  unfold mkdir_exist_ok. pose proof (mkdir_grows p w) as H. destruct (sys_mkdir p w) as [w' [[]|e]]; [done|].
  destruct (caught_by e _); [|done]. by destruct (is_dir _ _) as [[]|].
Qed.

Lemma mkdirs_grows p w : grows p (fs w) (fs (mkdirs p w).1).
Proof.
  unfold mkdirs. rewrite <- (rev_involutive p) at 1. generalize (rev p). intros l. revert w.
  induction l as [|x l IH]; intros w; [apply (mkdir_exist_ok_grows [])|]. cbn [mkdir_parents].
  pose proof (mkdir_grows (rev (x :: l)) w) as H. destruct (sys_mkdir _ w) as [w' [[]|e]]; [done|]. cbn [fst] in H.
  case_bool_decide.
  - apply (grows_trans _ (rev (x :: l)) _ (fs w')); [done | exact H|].
    unfold st_bind. specialize (IH w'). destruct (mkdir_parents l w') as [w2 [[]|e2]]; cbn [fst] in *.
    + apply (grows_trans _ (rev l) _ (fs w2)); [apply prefix_app_r; reflexivity | exact IH | apply mkdir_exist_ok_grows].
    + apply (grows_trans _ (rev l) _ (fs w2)); [apply prefix_app_r; reflexivity | exact IH | apply grows_refl].
  - destruct (caught_by e _); [|done]. by destruct (is_dir _ _) as [[]|].
Qed.

(** Nothing but directories, or nothing at all, on the way to [p]. *)
Definition open_way (f : filesystem) (p : path) : Prop :=
  forall q, q `prefix_of` p -> q <> [] -> nodes f !! q = None \/ exists d, nodes f !! q = Some (Directory d).

Lemma enter_way f l :
  Forall (fun q => nodes f !! q = None \/ exists d, nodes f !! q = Some (Directory d)) l ->
  res_iter (enter f) l = Ok tt \/ res_iter (enter f) l = raise FileNotFoundError "no such file or directory".
Proof.
  induction 1 as [|q l Hq _ IH]; [by left|]. cbn [res_iter]. destruct Hq as [Hq | [d Hq]].
  - right. unfold enter at 1. by rewrite Hq.
  - rewrite (proj2 (enter_ok f q)) by eauto. exact IH.
Qed.

Lemma prefix_ancestor (p q : path) : q ∈ ancestors p -> q `prefix_of` p.
Proof. unfold ancestors. intros (n & -> & _)%list_elem_of_fmap. apply prefix_take. Qed.

(** A run without failures that ends with [p] a directory. *)
Definition made (p : path) w (r : world O * res unit) : Prop :=
  r.2 = Ok tt /\ r.1 = set_fs (fs r.1) w /\ exists d, nodes (fs r.1) !! p = Some (Directory d).

Lemma set_fs_idem w : set_fs (fs w) w = w.
Proof. by destruct w. Qed.

Lemma mkdir_made p w d :
  wf (fs w) -> faults w = [] -> p <> [] -> nodes (fs w) !! parent_of p = Some (Directory d) ->
  nodes (fs w) !! p = None -> made p w (sys_mkdir p w).
Proof.
  intros Hwf Hq Hp Hd Hn. pose proof (free_name_ok (fs w) p d Hwf Hp Hd Hn) as Hf. unfold sys_mkdir.
  erewrite change_quiet; [|done | by rewrite Hf]. split_and!; [done..|]. cbn. rewrite lookup_insert_eq. eauto.
Qed.

Lemma mkdir_exists p w d :
  wf (fs w) -> faults w = [] -> nodes (fs w) !! p = Some (Directory d) -> sys_mkdir p w = (w, raise FileExistsError "file exists").
Proof.
  intros Hwf Hq Hd. unfold sys_mkdir. apply change_quiet_err; [done|]. unfold free_name.
  rewrite ancestors_entered by eauto. cbn [rbind]. by rewrite Hd.
Qed.

Lemma is_dir_ok f p d : wf f -> nodes f !! p = Some (Directory d) -> is_dir f p = Ok true.
Proof. intros Hwf Hd. unfold is_dir. by rewrite (proj2 (lookup_node_ok f p (Directory d) Hwf)). Qed.

Lemma mkdir_exist_ok_made p w d :
  wf (fs w) -> faults w = [] -> p <> [] -> nodes (fs w) !! parent_of p = Some (Directory d) ->
  nodes (fs w) !! p = None \/ (exists d, nodes (fs w) !! p = Some (Directory d)) -> made p w (mkdir_exist_ok p w).
Proof.
  intros Hwf Hq Hp Hd [Hn | [d' Hn]]; unfold mkdir_exist_ok.
  - destruct (mkdir_made p w d) as (H1 & H2 & H3); try done. destruct (sys_mkdir p w) as [w' [[]|e]]; [|done]. by split_and!.
  - rewrite (mkdir_exists p w d') by done. cbn [caught_by raise]. rewrite (is_dir_ok (fs w) p d') by done.
    split_and!; [done | by rewrite set_fs_idem | by eauto].
Qed.

Lemma mkdirs_made p w :
  wf (fs w) -> faults w = [] -> (exists d, nodes (fs w) !! [] = Some (Directory d)) -> open_way (fs w) p -> made p w (mkdirs p w).
Proof.
  unfold mkdirs. rewrite <- (rev_involutive p) at 1 2. generalize (rev p). intros l. revert w.
  induction l as [|x l IH]; intros w Hwf Hq [dr Hr] Hway.
  { cbn [rev] in *. change (mkdir_parents []) with (mkdir_exist_ok (O := O) []). unfold mkdir_exist_ok.
    rewrite (mkdir_exists [] w dr) by done. cbn [caught_by raise]. rewrite (is_dir_ok (fs w) [] dr) by done.
    split_and!; [done | by rewrite set_fs_idem | by eauto]. }
  assert (open_way (fs w) (rev l)) as Hway' by (intros q Hq'; apply Hway; etrans; [exact Hq' | apply prefix_app_r; reflexivity]).
  assert (rev (x :: l) <> []) as Hne by (cbn; by destruct (rev l)).
  assert (parent_of (rev (x :: l)) = rev l) as Hpar by apply parent_of_snoc.
  cbn [mkdir_parents].
  assert ((exists d, nodes (fs w) !! rev l = Some (Directory d)) \/ nodes (fs w) !! rev l = None) as [[d Hd]|Hd].
  { destruct (decide (rev l = [])) as [E|E]; [rewrite E; eauto|]. destruct (Hway' (rev l)); eauto. }
  - destruct (Hway (rev (x :: l))) as [Hn | [d' Hn]]; [done | done| |].
    + destruct (mkdir_made (rev (x :: l)) w d) as (H1 & H2 & H3); [done..|by rewrite Hpar|done|].
      destruct (sys_mkdir _ w) as [w' [[]|e]]; [by split_and! | done].
    + rewrite (mkdir_exists (rev (x :: l)) w d') by done. cbn [caught_by raise exn_cls].
      rewrite bool_decide_eq_false_2 by done. cbn [existsb]. rewrite (is_dir_ok (fs w) (rev (x :: l)) d') by done.
      split_and!; [done | by rewrite set_fs_idem | by eauto].
  - assert (sys_mkdir (rev (x :: l)) w = (w, raise FileNotFoundError "no such file or directory")) as ->.
    { unfold sys_mkdir. apply change_quiet_err; [done|]. unfold free_name. cbn [rev]. rewrite ancestors_snoc.
      destruct (enter_way (fs w) (ancestors (rev l) ++ [rev l])) as [H | H].
      - apply Forall_app. split; [|apply Forall_singleton; by left]. apply Forall_forall. intros q Hq'%prefix_ancestor.
        destruct (decide (q = [])) as [->|Hq0]; [by eauto|]. by apply Hway'.
      - apply res_iter_ok, Forall_app in H as [_ H]. rewrite Forall_singleton, enter_ok in H. destruct H. congruence.
      - by rewrite H. }
    cbn [raise exn_cls]. rewrite bool_decide_eq_true_2 by done.
    destruct (IH w Hwf Hq (ex_intro _ dr Hr) Hway') as (H1 & H2 & d & H3).
    pose proof (mkdirs_grows (rev l) w) as Hg. unfold mkdirs in Hg. rewrite rev_involutive in Hg.
    destruct (safe_mkdir_parents (fun _ => True) l w Hwf) as [Hwf' _].
    unfold st_bind. destruct (mkdir_parents l w) as [w1 [[]|e1]]; [|done]. cbn [fst snd] in *.
    assert (made (rev (x :: l)) w1 (mkdir_exist_ok (rev (x :: l)) w1)) as (G1 & G2 & G3).
    { apply (mkdir_exist_ok_made _ _ d); [done | by rewrite H2 | done | by rewrite Hpar|].
      destruct (nodes (fs w1) !! rev (x :: l)) as [n|] eqn:E; [right | by left].
      destruct Hg as (_ & _ & Hsub & Hnew). destruct (nodes (fs w) !! rev (x :: l)) as [m|] eqn:Em.
      - destruct (Hway (rev (x :: l))) as [Hn | [d' Hn]]; [done | done | congruence|].
        assert (nodes (fs w1) !! rev (x :: l) = Some (Directory d')) by (by eapply lookup_weaken). exists d'. congruence.
      - destruct (Hnew _ _ E Em) as [[d' ->] _]. eauto. }
    split_and!; [done| |done]. rewrite G2, H2. done.
Qed.
End outcomes.
