(* ===== verification/Repository.v ===== *)
(** * The data repository

    Models [DataRepository] and [AdmissionLease] of
    [python/research/aegis_mx_research/data_repository.py]: the layout of the data root and
    its marker, the writer fence, the inventory of the root, admission, the publication of
    staged objects and of manifests, loading, verification and the policy migration.  Every
    method is a definition on the [world] of [FileSystem.v]; leases are the mutable objects
    of that world, named by their place in [objects].  The capacity probe of the repository,
    the resolution of paths outside the root and the fault injector of a publication are
    arguments. *)

From S2P Require Import Prelude PyText Json Sha256 PyDateTime ReferenceDocuments Storage Manifests FileSystem.

Open Scope Z_scope.

Definition POLICY_MIGRATION_SCHEMA_VERSION : pystr := str "1.0.0".
Definition AUDIT_SCHEMA_VERSION : pystr := str "1.0.0".
Definition PARTIAL_SUFFIXES : list pystr := map str [".part"; ".partial"; ".download"]%string.

Definition StorageErrorCode_value (c : StorageErrorCode) : pystr :=
  str match c with
      | INVALID_POLICY => "INVALID_POLICY" | INVALID_REQUEST => "INVALID_REQUEST"
      | INVALID_PATH => "INVALID_PATH" | SYMLINK_DETECTED => "SYMLINK_DETECTED"
      | HARDLINK_DETECTED => "HARDLINK_DETECTED" | UNSUPPORTED_FILE => "UNSUPPORTED_FILE"
      | FILESYSTEM_UNKNOWN => "FILESYSTEM_UNKNOWN" | CONCURRENT_ADMISSION => "CONCURRENT_ADMISSION"
      | ADMISSION_DENIED => "ADMISSION_DENIED" | MANIFEST_CORRUPT => "MANIFEST_CORRUPT"
      | SE_HASH_MISMATCH => "HASH_MISMATCH" | SIZE_MISMATCH => "SIZE_MISMATCH"
      | IMMUTABLE_CONFLICT => "IMMUTABLE_CONFLICT" | INTERRUPTED_PUBLICATION => "INTERRUPTED_PUBLICATION"
      | MISSING_LINEAGE => "MISSING_LINEAGE" | IO_FAILURE => "IO_FAILURE"
      end.

Inductive PublicationStage := TEMP_FILE_SYNCED | MANIFEST_LINKED.

Record AdmissionLease := {
  lease_root : path;
  lease_descriptor : Z;
  lease_decision : AdmissionDecision;
}.

(** [AdmissionLease.active] *)
Definition active (l : AdmissionLease) : bool := 0 <=? lease_descriptor l.

Record DataRepository := {
  root : path;
  policy : StoragePolicy;
  filesystem_probe : filesystem -> res FileSystemState;
  git_worktree : option path;
}.

Notation W := (world AdmissionLease).
Notation RM := (M W).

(** ** Secure access to files *)

(** [_validate_regular_file] *)
Definition validate_regular_file (f : filesystem) (p : path) (allow_empty : bool) : res stat_result :=
  let! status := try_except (lstat f p) [OSError]
                   (fun _ => storage_error IO_FAILURE "required file is unavailable") in
  do! storage_when (bool_decide (st_type status = S_IFLNK)) SYMLINK_DETECTED "file cannot be a symlink" in
  do! storage_when (negb (bool_decide (st_type status = S_IFREG))) UNSUPPORTED_FILE "path is not a regular file" in
  do! storage_when (negb (st_nlink status =? 1)) HARDLINK_DETECTED "file cannot be hard linked" in
  do! storage_when (negb allow_empty && (st_size status =? 0)) SIZE_MISMATCH "file is empty" in
  Ok status.

(** [_read_secure] *)
Definition read_secure (f : filesystem) (p : path) (maximum_bytes : Z) : res pybytes :=
  do! validate_regular_file f p true in
  let! data := try_except (read_file f p) [OSError]
                 (fun _ => storage_error SYMLINK_DETECTED "cannot securely open file") in
  do! storage_when (maximum_bytes <? Z.of_nat (length data)) MANIFEST_CORRUPT "file exceeds size bound" in
  Ok data.

(** [_hash_secure_file] *)
Definition hash_secure_file (f : filesystem) (p : path) : res pystr :=
  do! validate_regular_file f p false in
  let! data := read_file f p in
  Ok (sha256_hex data).

(** The components of a path one by one, the whole path last. *)
Definition steps_to (p : path) : list path := map (fun n => take (S n) p) (List.seq 0 (length p)).

(** [_assert_safe_path], for a path below the root. *)
Definition assert_safe_path (f : filesystem) (p : path) : res unit :=
  res_iter (fun current =>
    let! here := present f current in
    if negb here then Ok tt
    else
      let! status := lstat f current in
      storage_when (bool_decide (st_type status = S_IFLNK)) SYMLINK_DETECTED "symlink is forbidden in data path")
    (steps_to p).

(** [_create_exclusive_file] *)
Definition create_exclusive_file (p : path) (payload : pybytes) : RM unit :=
  i <~ sys_create p ;; sys_append i payload ;;~ sys_fsync.

(** [_sync_directory] *)
Definition sync_directory (p : path) : RM unit :=
  look (fun f => let! n := lookup_node f p in
                 match n with Directory _ => Ok tt | Symlink => undescribed | _ => raise OSError "not a directory" end)
  ;;~ sys_fsync.

Definition raise_storage {A} (code : StorageErrorCode) (msg : string) : RM A := st_lift (storage_error code msg).

(** ** Layout *)

(** [worktree == root or worktree in root.parents] *)
Definition is_within (worktree root : path) : bool := bool_decide (take (length worktree) root = worktree).

(** [_initialize_root]; [resolve] is [Path.resolve(strict=False)]. *)
Definition initialize_root (self : DataRepository) (resolve : path -> res path) : RM unit :=
  st_lift (match git_worktree self with
           | None => Ok tt
           | Some worktree =>
               let! resolved := try_except (let! a := resolve (root self) in let! b := resolve worktree in Ok (a, b))
                                  [OSError; RuntimeError]
                                  (fun _ => storage_error INVALID_PATH "data-root ancestry cannot be resolved safely") in
               storage_when (is_within worktree (root self) || is_within resolved.2 resolved.1) INVALID_PATH
                 "data root cannot be inside the Git worktree"
           end) ;;~
  here <~ look (fun f => present f []) ;;
  if here : bool then
    look (fun f =>
      let! status := lstat f [] in
      do! storage_when (bool_decide (st_type status = S_IFLNK)) SYMLINK_DETECTED "data root cannot be a symlink" in
      storage_when (negb (bool_decide (st_type status = S_IFDIR))) INVALID_PATH "data root must be a directory")
  else sys_mkdir [].

(** [_initialize_area] *)
Definition initialize_area (area : pystr) : RM unit :=
  here <~ look (fun f => present f [area]) ;;
  if negb here then sys_mkdir [area]
  else
    look (fun f =>
      let! status := lstat f [area] in
      do! storage_when (bool_decide (st_type status = S_IFLNK)) SYMLINK_DETECTED "storage area cannot be a symlink" in
      storage_when (negb (bool_decide (st_type status = S_IFDIR))) INVALID_PATH "storage area is not a directory").

Definition marker_path : path := [str ".aegis-data-root.json"].
Definition lock_path : path := [str ".admission.lock"].

(** The line of a marker for a policy of a schema version. *)
Definition marker_line (policy_digest schema_version : pystr) : res pybytes :=
  let! text := dumps (JObj [(str "data_root_kind", JStr (str "AEGIS_MX_BOUNDED_FORECASTING_POC"));
                            (str "policy_sha256", JStr policy_digest);
                            (str "schema_version", JStr schema_version)]) in
  Ok (text ++ [10]).

(** [_initialize_marker] *)
Definition initialize_marker (self : DataRepository) : RM unit :=
  encoded <~ st_lift (let! digest := policy_sha256 (policy self) in
                      marker_line digest DATA_REPOSITORY_SCHEMA_VERSION) ;;
  here <~ look (fun f => present f marker_path) ;;
  if here : bool then
    look (fun f =>
      let! observed := read_secure f marker_path MAX_MANIFEST_BYTES in
      storage_when (negb (bool_decide (observed = encoded))) INVALID_POLICY
        "data-root policy marker is malformed or incompatible")
  else create_exclusive_file marker_path encoded ;;~ sync_directory [].

(** [_initialize_lock] *)
Definition initialize_lock : RM unit :=
  here <~ look (fun f => exists_path f lock_path) ;;
  (if here : bool then st_ret tt else sys_create lock_path ;;~ st_ret tt) ;;~
  look (fun f => do! validate_regular_file f lock_path true in Ok tt).

Fixpoint st_iter {A} (g : A -> RM unit) (l : list A) : RM unit :=
  match l with [] => st_ret tt | x :: t => g x ;;~ st_iter g t end.

(** [initialize] *)
Definition initialize (self : DataRepository) (resolve : path -> res path) : RM unit :=
  initialize_root self resolve ;;~
  st_iter initialize_area STORAGE_AREAS ;;~
  initialize_marker self ;;~
  initialize_lock.

(** ** Inventory *)

(** [path.relative_to(root).as_posix()] *)
Definition posix (p : path) : pystr := join 47 p.

Definition ends_with (suffix s : pystr) : bool := startswith (rev suffix) (rev s).

(** The item of a regular file. *)
Definition inventory_item (p : path) (status : stat_result) : FileInventory :=
  let first := match p with a :: _ => a | [] => [] end in
  let area := if bool_decide (first ∈ STORAGE_AREAS) then first else str "internal" in
  let temporary := bool_decide (area = str "tmp") in
  let name := match last p with Some n => n | None => [] end in
  {| relative_path := posix p; logical_bytes := st_size status;
     allocated_bytes := Z.max (st_blocks status * 512) 0; inv_area := area;
     inv_partial := negb temporary && existsb (fun s => ends_with s name) PARTIAL_SUFFIXES;
     inv_temporary := temporary |}.

(** The checks on one entry of a directory: [None] for a directory, which is walked. *)
Definition check_entry (f : filesystem) (root_device : Z) (p : path) : res (option FileInventory) :=
  let! status := lstat f p in
  do! storage_when (bool_decide (st_type status = S_IFLNK)) SYMLINK_DETECTED "symlink is forbidden in data root" in
  do! storage_when (negb (st_dev status =? root_device)) INVALID_PATH "cross-device entry is forbidden in data root" in
  if bool_decide (st_type status = S_IFDIR) then Ok None
  else
    do! storage_when (negb (bool_decide (st_type status = S_IFREG))) UNSUPPORTED_FILE
          "unsupported file type in data root" in
    do! storage_when (negb (st_nlink status =? 1)) HARDLINK_DETECTED "hard link makes accounting ambiguous" in
    let! repeated := lstat f p in
    do! storage_when (negb (bool_decide ((st_dev repeated, st_ino repeated, st_size repeated)
                                         = (st_dev status, st_ino status, st_size status)))) IO_FAILURE
          "file changed during accounting" in
    Ok (Some (inventory_item p status)).

(** The generator [walk], for directories nested less than [fuel] deep. *)
Fixpoint walk (fuel : nat) (f : filesystem) (root_device : Z) (d : path) : res (list FileInventory) :=
  match fuel with
  | O => raise Undescribed "directories nested too deep"
  | S n =>
      let! names := try_except (scandir f d) [OSError]
                      (fun _ => storage_error IO_FAILURE "cannot scan data-root directory") in
      let! items := res_map (fun name =>
        let! item := check_entry f root_device (d ++ [name]) in
        match item with
        | Some i => Ok [i]
        | None => walk n f root_device (d ++ [name])
        end) names in
      Ok (concat items)
  end.

(** [_inventory]; the tree has fewer levels than nodes. *)
Definition inventory (f : filesystem) : res (list FileInventory) :=
  let! root_status := lstat f [] in
  walk (S (size (nodes f))) f (st_dev root_status) [].

(** [usage] *)
Definition repository_usage (self : DataRepository) (f : filesystem) : res StorageUsage :=
  let! items := inventory f in usage items (filesystem_probe self f).

(** [_probe_filesystem], for the answer of [os.statvfs]: [f_frsize], [f_blocks] and [f_bavail]. *)
Definition probe_filesystem (statvfs : res (Z * Z * Z)) : res FileSystemState :=
  let unavailable := storage_error FILESYSTEM_UNKNOWN "statvfs capacity is unavailable or out of range" in
  match (let! s := statvfs in
         let '(frsize, blocks, bavail) := s in
         let! total := checked_add [frsize * blocks] in
         let! free := checked_add [frsize * bavail] in
         let state := {| fs_total_bytes := Some total; fs_free_bytes := Some free |} in
         do! FileSystemState_post_init state in Ok state) with
  | Ok state => Ok state
  | Err e => match exn_cls e with
             | StorageError _ => unavailable
             | _ => if caught_by e [OSError; OverflowError] then unavailable else Err e
             end
  end.

(** [cleanup_plan] *)
Definition repository_cleanup_plan (self : DataRepository) (target_bytes : option Z) (f : filesystem) : res CleanupPlan :=
  cleanup_plan (policy self) target_bytes (repository_usage self f).

(** ** The writer fence *)

(** [_acquire_lock]; the result is the descriptor. *)
Definition acquire_lock : RM Z := fun w =>
  let fail code msg w := (w, storage_error code msg) in
  let opened := set_next_descriptor (next_descriptor w + 1) w in
  match lookup_node (fs w) lock_path with
  | Err e => if caught_by e [OSError] then fail IO_FAILURE "admission lock is unavailable" w else (w, Err e)
  | Ok Symlink => fail SYMLINK_DETECTED "admission lock is unavailable" w
  | Ok (Directory _) => fail IO_FAILURE "admission lock is unavailable" w
  | Ok n =>
      match node_status (fs w) n with
      | Err e => (w, Err e)
      | Ok status =>
          if negb (bool_decide (st_type status = S_IFREG)) || negb (st_nlink status =? 1)
          then fail HARDLINK_DETECTED "admission lock is not a unique regular file" opened
          else match lock_owner w with
               | Some _ => fail CONCURRENT_ADMISSION "concurrent storage admission is already active" opened
               | None => (set_lock (Some (next_descriptor w)) opened, Ok (next_descriptor w))
               end
      end
  end.

(** [fcntl.flock(descriptor, LOCK_UN)] and [os.close]. *)
Definition release_lock (descriptor : Z) : RM unit := fun w =>
  (if bool_decide (lock_owner w = Some descriptor) then set_lock None w else w, Ok tt).

(** [try: ... finally:] *)
Definition st_finally {A} (m : RM A) (cleanup : RM unit) : RM A := fun w =>
  match m w with
  | (w', r) => match cleanup w' with
               | (w'', Ok _) => (w'', r)
               | (w'', Err e) => (w'', Err e)
               end
  end.

(** [_calculate_admission] *)
Definition repository_admission (self : DataRepository) (request : StorageRequest) (quota : QuotaEvidence)
    (f : filesystem) : res AdmissionDecision :=
  let! u := repository_usage self f in calculate_admission (policy self) u request quota.

(** [estimate] *)
Definition estimate (self : DataRepository) (request : StorageRequest) (quota : QuotaEvidence) : RM AdmissionDecision :=
  descriptor <~ acquire_lock ;;
  st_finally (look (repository_admission self request quota)) (release_lock descriptor).

(** A new lease; the result is its place among the objects. *)
Definition new_lease (l : AdmissionLease) : RM nat := fun w =>
  (set_objects (objects w ++ [l]) w, Ok (length (objects w))).

(** [acquire_admission] *)
Definition acquire_admission (self : DataRepository) (request : StorageRequest) (quota : QuotaEvidence) : RM nat :=
  descriptor <~ acquire_lock ;;
  fun w =>
    match repository_admission self request quota (fs w) with
    | Err e => (release_lock descriptor ;;~ st_raise e) w
    | Ok decision =>
        if negb (admitted decision)
        then (release_lock descriptor ;;~ raise_storage ADMISSION_DENIED "storage admission denied") w
        else new_lease {| lease_root := root self; lease_descriptor := descriptor; lease_decision := decision |} w
    end.

(** The attributes of a lease. *)
Definition get_lease (l : nat) : RM AdmissionLease := fun w =>
  (w, match objects w !! l with Some x => Ok x | None => raise AttributeError "no such lease" end).

(** [AdmissionLease.close] *)
Definition close_lease (l : nat) : RM unit :=
  x <~ get_lease l ;;
  if negb (active x) then st_ret tt
  else
    st_put (fun w => set_objects (<[l := {| lease_root := lease_root x; lease_descriptor := -1;
                                            lease_decision := lease_decision x |}]> (objects w)) w) ;;~
    release_lock (lease_descriptor x).

(** [AdmissionLease.__enter__]; [__exit__] is [close]. *)
Definition enter_lease (l : nat) : RM nat :=
  x <~ get_lease l ;;
  if negb (active x) then raise_storage ADMISSION_DENIED "lease is inactive" else st_ret l.

(** ** Objects *)

(** [_object_path] *)
Definition object_path (f : filesystem) (relative : pystr) : res path :=
  let! parts := validate_relative_path relative (Some OBJECT_AREAS) in
  do! assert_safe_path f parts in Ok parts.

(** [_verify_manifest_object] *)
Definition verify_manifest_object (f : filesystem) (m : DataManifest) : res unit :=
  let! p := object_path f (storage_path (common m)) in
  let! status := validate_regular_file f p false in
  do! storage_when (negb (st_size status =? size_bytes (common m))) SIZE_MISMATCH
        "object size does not match manifest" in
  let! digest := hash_secure_file f p in
  storage_when (negb (bool_decide (digest = object_sha256 (common m)))) SE_HASH_MISMATCH
    "object SHA-256 does not match manifest".

(** The check that starts both publications. *)
Definition require_lease (self : DataRepository) (l : nat) (msg : string) : RM AdmissionLease :=
  x <~ get_lease l ;;
  if negb (active x) || negb (bool_decide (lease_root x = root self))
  then raise_storage ADMISSION_DENIED msg else st_ret x.

(** The checks of [publish_staged_object] before anything is changed; the result is the
    two paths. *)
Definition check_staged (f : filesystem) (staged final : pystr) (expected_sha256 : pystr) (expected_size : Z)
    : res (path * path) :=
  let! staged_path := validate_relative_path staged (Some [str "tmp"]) in
  let! final_path := validate_relative_path final (Some OBJECT_AREAS) in
  do! validate_sha256 expected_sha256 in
  do! validate_byte_count expected_size in
  do! assert_safe_path f staged_path in
  do! assert_safe_path f final_path in
  let! status := validate_regular_file f staged_path false in
  do! storage_when (negb (st_size status =? expected_size)) SIZE_MISMATCH
        "staged object size does not match the expected size" in
  let! digest := hash_secure_file f staged_path in
  do! storage_when (negb (bool_decide (digest = expected_sha256))) SE_HASH_MISMATCH
        "staged object SHA-256 does not match the expected digest" in
  Ok (staged_path, final_path).

(** The part of [publish_staged_object] after the checks. *)
Definition publish_checked (staged_path final_path : path) (expected_sha256 : pystr) (expected_size : Z) : RM path :=
  mkdirs (parent_of final_path) ;;~
  look (fun f => assert_safe_path f (parent_of final_path)) ;;~
  here <~ look (fun f => present f final_path) ;;
  if here : bool then
    look (fun f =>
      let! status := validate_regular_file f final_path false in
      let! digest := if negb (st_size status =? expected_size) then Ok []
                     else hash_secure_file f final_path in
      storage_when (negb (st_size status =? expected_size) || negb (bool_decide (digest = expected_sha256)))
        IMMUTABLE_CONFLICT "an immutable object path already contains different bytes") ;;~
    sys_unlink staged_path ;;~
    sync_directory (parent_of staged_path) ;;~
    st_ret final_path
  else
    st_try
      (st_try
        (sys_link staged_path final_path ;;~
         sync_directory (parent_of final_path) ;;~
         sys_unlink staged_path ;;~
         sync_directory (parent_of staged_path) ;;~
         st_ret final_path)
        [FileExistsError]
        (fun _ => raise_storage IMMUTABLE_CONFLICT "an immutable object appeared concurrently and was not replaced"))
      [OSError]
      (fun _ => raise_storage INTERRUPTED_PUBLICATION "object publication was interrupted").

(** [publish_staged_object] *)
Definition publish_staged_object (self : DataRepository) (staged final : pystr) (expected_sha256 : pystr)
    (expected_size : Z) (l : nat) : RM path :=
  require_lease self l "object publication requires an active admission lease" ;;~
  paths <~ look (fun f => check_staged f staged final expected_sha256 expected_size) ;;
  let '(staged_path, final_path) := paths in
  publish_checked staged_path final_path expected_sha256 expected_size.

(** ** Manifests *)

Definition stored_path (kind identity : pystr) : path := [str "manifests"; kind; identity ++ str ".json"].

(** [manifest_path] *)
Definition manifest_path (m : DataManifest) : res path :=
  let! identity := manifest_id m in Ok (stored_path (manifest_kind m) identity).

(** [load_manifest] *)
Definition load_manifest (f : filesystem) (identity : pystr) : res DataManifest :=
  do! validate_manifest_id identity [source_prefix; partition_prefix] in
  let! data := read_secure f (stored_path (partition_char 45 identity).1 identity) MAX_MANIFEST_BYTES in
  decode_manifest data.

(** [_prepare_manifest_publication] *)
Definition prepare_manifest_publication (self : DataRepository) (m : DataManifest) (l : nat) : RM pybytes :=
  x <~ require_lease self l "manifest publication requires an active admission lease" ;;
  encoded <~ st_lift (encode_manifest m) ;;
  look (fun f =>
    do! storage_when (match output_bytes (ad_request (lease_decision x)) with
                      | None => true
                      | Some budget => budget <? Z.of_nat (length encoded)
                      end) ADMISSION_DENIED "manifest encoding exceeds the admitted output budget" in
    do! verify_manifest_object f m in
    do! match m with
        | Source _ => Ok tt
        | Partition p => res_iter (fun i => do! load_manifest f i in Ok tt) (source_manifest_ids p)
        end in
    Ok encoded).

(** [_check_existing_manifest]; [true] when the manifest is already published. *)
Definition check_existing_manifest (final_path : path) (encoded : pybytes) : RM bool :=
  here <~ look (fun f => present f final_path) ;;
  if here : bool then
    look (fun f =>
      let! data := read_secure f final_path MAX_MANIFEST_BYTES in
      if bool_decide (data = encoded) then Ok true
      else storage_error IMMUTABLE_CONFLICT "an immutable manifest path already contains different bytes")
  else st_ret false.

(** [except StorageError: raise] and [except OSError as error: raise StorageError(...)] *)
Definition interrupted {A} (m : RM A) : RM A :=
  st_try m [OSError] (fun _ => raise_storage INTERRUPTED_PUBLICATION "manifest publication was interrupted").

(** [_publish_new_manifest] *)
Definition publish_new_manifest (m : DataManifest) (encoded : pybytes) (final_path : path)
    (fault_injector : PublicationStage -> res unit) : RM path :=
  identity <~ st_lift (manifest_id m) ;;
  let temporary_path := [str "tmp"; identity ++ str ".manifest.partial"] in
  here <~ look (fun f => present f temporary_path) ;;
  if here : bool then
    raise_storage INTERRUPTED_PUBLICATION "a prior interrupted manifest publication requires operator recovery"
  else
    interrupted
      (create_exclusive_file temporary_path encoded ;;~
       st_lift (fault_injector TEMP_FILE_SYNCED) ;;~
       st_try (sys_link temporary_path final_path) [FileExistsError]
         (fun _ => raise_storage IMMUTABLE_CONFLICT "manifest appeared concurrently and was not replaced") ;;~
       sync_directory (parent_of final_path) ;;~
       st_lift (fault_injector MANIFEST_LINKED) ;;~
       sys_unlink temporary_path ;;~
       sync_directory (parent_of temporary_path) ;;~
       st_ret final_path).

(** [publish_manifest] *)
Definition publish_manifest (self : DataRepository) (m : DataManifest) (l : nat)
    (fault_injector : PublicationStage -> res unit) : RM path :=
  encoded <~ prepare_manifest_publication self m l ;;
  final_path <~ st_lift (manifest_path m) ;;
  mkdirs (parent_of final_path) ;;~
  look (fun f => assert_safe_path f (parent_of final_path)) ;;~
  existing <~ check_existing_manifest final_path encoded ;;
  if existing : bool then st_ret final_path
  else publish_new_manifest m encoded final_path fault_injector.

(** ** Verification *)

Record VerificationIssue := {
  issue_code : pystr;
  issue_path : pystr;
  issue_detail : pystr;
}.

Record VerificationReport := {
  checked_manifests : Z;
  checked_objects : Z;
  verified_bytes : Z;
  report_errors : list VerificationIssue;
}.

(** [VerificationReport.passed] *)
Definition passed (r : VerificationReport) : bool := bool_decide (length (report_errors r) = O).

(** [_manifest_files] *)
Definition manifest_files (f : filesystem) : res (list path) :=
  let! found := res_map (fun kind =>
    let d := [str "manifests"; kind] in
    let! here := exists_path f d in
    if here : bool then let! names := scandir f d in Ok (map (fun n => d ++ [n]) names) else Ok [])
    [source_prefix; partition_prefix] in
  Ok (py_sorted (leb_on posix pystr_leb) (concat found)).

(** [_validate_manifest_filename] *)
Definition validate_manifest_filename (p : path) (m : DataManifest) : res unit :=
  let! identity := manifest_id m in
  storage_when (negb (bool_decide (last p = Some (identity ++ str ".json")))) MANIFEST_CORRUPT
    "manifest filename does not match its identity".

(** The body of the [try] of [_verify_manifest_path]. *)
Definition check_manifest_file (f : filesystem) (p : path) : res DataManifest :=
  let! data := read_secure f p MAX_MANIFEST_BYTES in
  let! m := decode_manifest data in
  do! validate_manifest_filename p m in
  do! verify_manifest_object f m in
  Ok m.

(** [_verify_manifest_path] *)
Definition verify_manifest_path (f : filesystem) (p : path) : res (DataManifest + VerificationIssue) :=
  let issue code e := Ok (inr {| issue_code := code; issue_path := posix p; issue_detail := str (exn_msg e) |}) in
  match check_manifest_file f p with
  | Ok m => Ok (inl m)
  | Err e =>
      match exn_cls e with
      | StorageError code => issue (StorageErrorCode_value code) e
      | _ => if caught_by e [OSError] then issue (StorageErrorCode_value IO_FAILURE) e else Err e
      end
  end.

(** The variables of the loop of [verify]. *)
Record VerifyScan := {
  vs_manifests : list (pystr * DataManifest);
  vs_objects : Z;
  vs_bytes : Z;
  vs_errors : list VerificationIssue;
}.

Definition verify_one (f : filesystem) (s : VerifyScan) (p : path) : res VerifyScan :=
  let! outcome := verify_manifest_path f p in
  match outcome with
  | inr i => Ok {| vs_manifests := vs_manifests s; vs_objects := vs_objects s; vs_bytes := vs_bytes s;
                   vs_errors := vs_errors s ++ [i] |}
  | inl m =>
      let! identity := manifest_id m in
      let held := od_set identity m (vs_manifests s) in
      match checked_add [vs_bytes s; size_bytes (common m)] with
      | Ok total => Ok {| vs_manifests := held; vs_objects := vs_objects s + 1; vs_bytes := total;
                          vs_errors := vs_errors s |}
      | Err e =>
          if caught_by e [OverflowError]
          then Ok {| vs_manifests := held; vs_objects := vs_objects s + 1; vs_bytes := vs_bytes s;
                     vs_errors := vs_errors s
                       ++ [{| issue_code := StorageErrorCode_value IO_FAILURE; issue_path := posix p;
                              issue_detail := str "verified object byte count exceeds signed 64-bit range" |}] |}
          else Err e
      end
  end.

Fixpoint verify_files (f : filesystem) (s : VerifyScan) (l : list path) : res VerifyScan :=
  match l with [] => Ok s | p :: t => let! s' := verify_one f s p in verify_files f s' t end.

(** The manifests that a manifest refers to. *)
Definition references (m : DataManifest) : list pystr :=
  option_list (parent_manifest_id (lineage (common m)))
  ++ match m with Partition p => source_manifest_ids p | Source _ => [] end.

(** [_reference_issues] *)
Definition reference_issues (manifests : list (pystr * DataManifest)) : res (list VerificationIssue) :=
  let! found := res_map (fun km =>
    let absent := List.filter (fun r => negb (bool_decide (r ∈ map fst manifests))) (references km.2) in
    res_map (fun r =>
      let! p := manifest_path km.2 in
      Ok {| issue_code := StorageErrorCode_value MISSING_LINEAGE; issue_path := posix p;
            issue_detail := str "referenced manifest is absent: " ++ r |}) absent) manifests in
  Ok (concat found).

Definition issue_leb : VerificationIssue -> VerificationIssue -> bool :=
  leb_on (fun i => (issue_path i, issue_code i)) (pair_leb pystr_leb pystr_leb).

(** [verify] *)
Definition verify (self : DataRepository) (f : filesystem) : res VerificationReport :=
  match repository_usage self f with
  | Err e =>
      match exn_cls e with
      | StorageError code =>
          Ok {| checked_manifests := 0; checked_objects := 0; verified_bytes := 0;
                report_errors := [{| issue_code := StorageErrorCode_value code; issue_path := str ".";
                                     issue_detail := str (exn_msg e) |}] |}
      | _ => Err e
      end
  | Ok _ =>
      let! paths := manifest_files f in
      let! s := verify_files f {| vs_manifests := []; vs_objects := 0; vs_bytes := 0; vs_errors := [] |} paths in
      let! missing := reference_issues (vs_manifests s) in
      Ok {| checked_manifests := Z.of_nat (length paths); checked_objects := vs_objects s;
            verified_bytes := vs_bytes s; report_errors := py_sorted issue_leb (vs_errors s ++ missing) |}
  end.

(** ** Migration of the policy *)

Definition legacy_policy_v2 : json :=
  JObj [(str "administrative_allocation_bytes_decimal", JInt (10 * BINARY_TIB));
        (str "hard_root_bytes_decimal", JInt (100 * DECIMAL_GB));
        (str "minimum_reserve_bytes_decimal", JInt (50 * DECIMAL_GB));
        (str "schema_version", JStr (str "2.0.0"));
        (str "target_root_bytes_decimal", JInt (80 * DECIMAL_GB));
        (str "temporary_limit_bytes_decimal", JInt (20 * DECIMAL_GB))].

(** [LEGACY_STORAGE_POLICY_V2_SHA256] *)
Definition legacy_policy_v2_sha256 : res pystr := canonical_digest legacy_policy_v2.

Record MigrationPlan := {
  mp_legacy_sha256 : pystr;
  mp_current_sha256 : pystr;
  mp_legacy_marker : pybytes;
  mp_current_marker : pybytes;
  mp_identity : list (pystr * json);
  mp_sha256 : pystr;
}.

(** The identities that [migrate_policy_v2_to_v3] computes first. *)
Definition migration_plan (p : StoragePolicy) : res MigrationPlan :=
  let! legacy := legacy_policy_v2_sha256 in
  let! current := policy_sha256 p in
  let! legacy_marker := marker_line legacy (str "2.0.0") in
  let! current_marker := marker_line current DATA_REPOSITORY_SCHEMA_VERSION in
  let identity := [(str "from_marker_sha256", JStr (sha256_hex legacy_marker));
                   (str "from_policy_sha256", JStr legacy);
                   (str "schema_version", JStr POLICY_MIGRATION_SCHEMA_VERSION);
                   (str "to_marker_sha256", JStr (sha256_hex current_marker));
                   (str "to_policy_sha256", JStr current)] in
  let! digest := canonical_digest (JObj identity) in
  Ok {| mp_legacy_sha256 := legacy; mp_current_sha256 := current; mp_legacy_marker := legacy_marker;
        mp_current_marker := current_marker; mp_identity := identity; mp_sha256 := digest |}.

Definition migration_id (p : MigrationPlan) : pystr := str "policy-migration-" ++ mp_sha256 p.

Definition history_directory : path := [str "manifests"; str "policy-history"].
Definition history_path (p : MigrationPlan) : path := history_directory ++ [str "marker-" ++ mp_legacy_sha256 p ++ str ".json"].
Definition record_path (p : MigrationPlan) : path := history_directory ++ [migration_id p ++ str ".json"].
Definition staged_marker : path := [str ".aegis-data-root.json.v3.part"].

(** The line of the migration record. *)
Definition migration_record (p : MigrationPlan) : res pybytes :=
  let! text := dumps (JObj (mp_identity p
    ++ [(str "migration_id", JStr (migration_id p));
        (str "migration_sha256", JStr (mp_sha256 p));
        (str "network_access_performed", JBool false);
        (str "original_marker_archived", JBool true)])) in
  Ok (text ++ [10]).

(** The answer of the migration. *)
Definition migration_result (self : DataRepository) (p : MigrationPlan) (execute migrated already_current : bool) : json :=
  JObj [(str "already_current", JBool already_current);
        (str "execute_requested", JBool execute);
        (str "from_policy_sha256", JStr (mp_legacy_sha256 p));
        (str "legacy_marker_archive", JStr (posix (history_path p)));
        (str "migrated", JBool migrated);
        (str "migration_id", JStr (migration_id p));
        (str "migration_record", JStr (posix (record_path p)));
        (str "schema_version", JStr POLICY_MIGRATION_SCHEMA_VERSION);
        (str "to_policy", policy_dict (policy self));
        (str "to_policy_sha256", JStr (mp_current_sha256 p))].

(** An immutable file that may already be there with the same bytes. *)
Definition create_or_match (p : path) (payload : pybytes) (msg : string) : RM unit :=
  here <~ look (fun f => present f p) ;;
  if here : bool then
    look (fun f =>
      let! data := read_secure f p MAX_MANIFEST_BYTES in
      storage_when (negb (bool_decide (data = payload))) IMMUTABLE_CONFLICT msg)
  else create_exclusive_file p payload.

(** The directory of the policy history. *)
Definition ensure_history : RM unit :=
  look (fun f => assert_safe_path f history_directory) ;;~
  here <~ look (fun f => exists_path f history_directory) ;;
  if here : bool then
    look (fun f => let! d := is_dir f history_directory in
                   storage_when (negb d) INVALID_PATH "policy history path is not a directory")
  else sys_mkdir history_directory ;;~ sync_directory (parent_of history_directory).

(** The migration under the writer fence. *)
Definition migrate_locked (self : DataRepository) (p : MigrationPlan) (execute : bool) : RM json :=
  observed <~ look (fun f => read_secure f marker_path MAX_MANIFEST_BYTES) ;;
  if bool_decide (observed = mp_current_marker p) then st_ret (migration_result self p execute false true)
  else if negb (bool_decide (observed = mp_legacy_marker p))
  then raise_storage INVALID_POLICY "data-root marker does not match the reviewed v2 policy"
  else if negb execute then st_ret (migration_result self p execute false false)
  else
    ensure_history ;;~
    create_or_match (history_path p) (mp_legacy_marker p) "legacy policy-marker archive conflicts" ;;~
    record <~ st_lift (migration_record p) ;;
    create_or_match (record_path p) record "policy migration record conflicts" ;;~
    sync_directory history_directory ;;~
    here <~ look (fun f => present f staged_marker) ;;
    (if here : bool then raise_storage INTERRUPTED_PUBLICATION "staged policy marker already exists"
     else create_exclusive_file staged_marker (mp_current_marker p)) ;;~
    look (fun f =>
      let! again := read_secure f marker_path MAX_MANIFEST_BYTES in
      storage_when (negb (bool_decide (again = mp_legacy_marker p))) INVALID_POLICY
        "data-root marker changed during migration") ;;~
    st_try (sys_replace staged_marker marker_path ;;~ sync_directory []) [OSError]
      (fun _ => raise_storage IO_FAILURE "policy marker replacement failed") ;;~
    st_ret (migration_result self p execute true false).

(** [migrate_policy_v2_to_v3] *)
Definition migrate_policy_v2_to_v3 (self : DataRepository) (resolve : path -> res path)
    (expected_current_policy_sha256 : pystr) (execute : bool) : RM json :=
  st_lift (validate_sha256 expected_current_policy_sha256) ;;~
  legacy <~ st_lift legacy_policy_v2_sha256 ;;
  st_lift (storage_when (negb (bool_decide (expected_current_policy_sha256 = legacy))) INVALID_POLICY
             "only the reviewed storage-policy v2 identity can be migrated") ;;~
  look (fun f => match lookup_node f [] with
                 | Ok Symlink | Err _ => storage_error INVALID_PATH "policy migration requires an existing non-symlink data root"
                 | Ok _ => Ok tt
                 end) ;;~
  initialize_root self resolve ;;~
  st_iter (fun area =>
    look (fun f =>
      match lookup_node f [area] with
      | Ok Symlink => storage_error INVALID_PATH "policy migration requires existing storage area"
      | Ok _ => Ok tt
      | Err e => if caught_by e [OSError]
                 then storage_error INVALID_PATH "policy migration requires existing storage area" else Err e
      end) ;;~
    initialize_area area) STORAGE_AREAS ;;~
  plan <~ st_lift (migration_plan (policy self)) ;;
  descriptor <~ acquire_lock ;;
  st_finally (migrate_locked self plan execute) (release_lock descriptor).

(** ** Audit records *)

Record StorageAuditRecord := {
  au_operation : pystr;
  au_outcome : pystr;
  observed_at_wall_utc : pystr;
  au_data_root : pystr;
  au_policy_sha256 : pystr;
  evidence_sha256 : pystr;
  reason_codes : list pystr;
}.

Definition StorageAuditRecord_post_init (r : StorageAuditRecord) : res unit :=
  do! validate_text (au_operation r) 160 in
  do! storage_when (negb (bool_decide (au_outcome r = str "SUCCEEDED") || bool_decide (au_outcome r = str "REJECTED")))
        INVALID_REQUEST "audit outcome is invalid" in
  do! validate_utc (observed_at_wall_utc r) in
  do! validate_text (au_data_root r) MAX_PATH_BYTES in
  do! validate_sha256 (au_policy_sha256 r) in
  do! validate_sha256 (evidence_sha256 r) in
  res_iter (fun c => validate_text c 80) (reason_codes r).

Definition audit_payload (r : StorageAuditRecord) : list (pystr * json) :=
  [(str "automatic_deletion_performed", JBool false);
   (str "data_root", JStr (au_data_root r));
   (str "evidence_sha256", JStr (evidence_sha256 r));
   (str "live_trading_capable", JBool false);
   (str "network_access_performed", JBool false);
   (str "observed_at_wall_utc", JStr (observed_at_wall_utc r));
   (str "operation", JStr (au_operation r));
   (str "outcome", JStr (au_outcome r));
   (str "policy_sha256", JStr (au_policy_sha256 r));
   (str "reason_codes", JArr (map JStr (reason_codes r)));
   (str "schema_version", JStr AUDIT_SCHEMA_VERSION)].

(** [StorageAuditRecord.to_dict] *)
Definition audit_dict (r : StorageAuditRecord) : res json :=
  let! digest := canonical_digest (JObj (audit_payload r)) in
  Ok (JObj ((str "audit_id", JStr (str "storage-audit-" ++ digest)) :: audit_payload r)).

(** [make_audit_record]; [now] is [datetime.now(UTC).isoformat()] and [observed] the
    timestamp given, if any. *)
Definition make_audit_record (operation outcome data_root policy_digest : pystr) (codes : list pystr)
    (evidence : json) (observed : option pystr) (now : pystr) : res StorageAuditRecord :=
  let timestamp := match observed with Some (c :: t) => c :: t | _ => now end in
  let! digest := canonical_digest evidence in
  let r := {| au_operation := operation; au_outcome := outcome; observed_at_wall_utc := timestamp;
              au_data_root := data_root; au_policy_sha256 := policy_digest; evidence_sha256 := digest;
              reason_codes := codes |} in
  do! StorageAuditRecord_post_init r in Ok r.
