(* ===== verification/RepositoryHistory.v ===== *)
(** * Histories of a data repository

    The operations of [Repository.v] as the steps of a process, in any order and with any
    schedule of input/output failures: the tree stays well formed, published files are
    immutable, and the writer fence admits one lease at a time. *)

From S2P Require Import Prelude PyText Json Sha256 Storage Manifests FileSystem Repository.

Open Scope Z_scope.

(** ** Operations *)

Inductive operation :=
  | Initialize (resolve : path -> res path)
  | Estimate (request : StorageRequest) (quota : QuotaEvidence)
  | AcquireAdmission (request : StorageRequest) (quota : QuotaEvidence)
  | EnterLease (l : nat)
  | CloseLease (l : nat)
  | PublishStagedObject (staged final sha : pystr) (size : Z) (l : nat)
  | PublishManifest (m : DataManifest) (l : nat) (fault_injector : PublicationStage -> res unit)
  | MigratePolicy (resolve : path -> res path) (expected : pystr) (execute : bool).

Definition discard {A} (m : RM A) : RM unit := m ;;~ st_ret tt.

Definition perform (self : DataRepository) (o : operation) : RM unit :=
  match o with
  | Initialize resolve => initialize self resolve
  | Estimate request quota => discard (estimate self request quota)
  | AcquireAdmission request quota => discard (acquire_admission self request quota)
  | EnterLease l => discard (enter_lease l)
  | CloseLease l => close_lease l
  | PublishStagedObject staged final sha size l => discard (publish_staged_object self staged final sha size l)
  | PublishManifest m l injector => discard (publish_manifest self m l injector)
  | MigratePolicy resolve expected execute => discard (migrate_policy_v2_to_v3 self resolve expected execute)
  end.

(** A step is an operation, which may raise, or a new schedule of failures. *)
Inductive step (self : DataRepository) : W -> W -> Prop :=
  | step_operation w o : step self w (perform self o w).1
  | step_faults w l : step self w (set_faults l w).

(** ** Published files *)

(** Object files, manifests and the policy history. *)
Definition published (p : path) : Prop :=
  exists area rest, p = area :: rest /\ area ∈ str "manifests" :: OBJECT_AREAS.

#[local] Notation safe := (FileSystem.safe (O := AdmissionLease) published).

Lemma tmp_not_published rest : ~ published (str "tmp" :: rest).
Proof. intros (area & r & [= <- _] & H). revert H. apply (bool_decide_unpack _). by vm_compute. Qed.

Lemma root_file_not_published name : name ∉ str "manifests" :: OBJECT_AREAS -> ~ published [name].
Proof. intros H (area & r & [= <- _] & H'). by apply H. Qed.

Lemma safe_same {A} (m : RM A) : (forall w, fs (m w).1 = fs w) -> safe m.
Proof. intros H w. by apply evolves_same. Qed.

Lemma safe_finally {A} (m : RM A) c : safe m -> safe c -> safe (st_finally m c).
Proof.
  intros Hm Hc w. unfold st_finally. pose proof (Hm w) as H. destruct (m w) as [w' r]. cbn in H.
  pose proof (Hc w') as H'. destruct (c w') as [w'' [[]|e]]; cbn in *; by etrans.
Qed.

Lemma safe_create_exclusive p b : safe (create_exclusive_file p b).
Proof.
  intros w. unfold create_exclusive_file. pose proof (safe_create_append published p b w) as H. unfold st_bind in *.
  destruct (sys_create p w) as [w1 [i|e]]; [|done]. destruct (sys_append i b w1) as [w2 [[]|e]]; [|done].
  etrans; [exact H | apply safe_fsync].
Qed.

#[local] Hint Resolve safe_ret safe_lift safe_raise safe_look safe_bind safe_try safe_if safe_mkdir safe_unlink safe_link
  safe_fsync safe_mkdirs safe_finally safe_create_exclusive : safe.

(** [prove_safe] takes a method apart into its calls. *)
Ltac prove_safe :=
  repeat match goal with
  | |- FileSystem.safe _ (st_bind _ _) => apply safe_bind; [|intros ?]
  | |- FileSystem.safe _ (st_try _ _ _) => apply safe_try; [|intros ?]
  | |- FileSystem.safe _ (st_finally _ _) => apply safe_finally
  | |- FileSystem.safe _ (if _ then _ else _) => apply safe_if
  | |- FileSystem.safe _ (match ?x with (_, _) => _ end) => destruct x
  end; auto with safe.

Lemma safe_sync_directory p : safe (sync_directory p).
Proof. unfold sync_directory. auto with safe. Qed.
Lemma safe_raise_storage {A} c msg : safe (raise_storage (A := A) c msg).
Proof. apply safe_lift. Qed.
Lemma safe_get_lease l : safe (get_lease l).
Proof. by apply safe_same. Qed.
#[local] Hint Resolve safe_sync_directory safe_raise_storage safe_get_lease : safe.

Lemma safe_create p : safe (sys_create p).
Proof.
  intros w. destruct (sys_create p w) as [w' [i|e]] eqn:E.
  - intros Hwf. destruct (create_step p w w' i Hwf E) as (-> & Hn & Hwf' & Hnodes & x & Hino & _).
    split; [done|]. intros q j y _ Hq Hy. cbn. rewrite Hnodes, Hino. split; [rewrite lookup_insert_ne; congruence|].
    exists y. split; [|done]. rewrite lookup_insert_ne; [done|]. intros <-. by apply (fresh_unreferenced (fs w) q).
  - apply evolves_same. by eapply create_failed.
Qed.

Lemma safe_st_iter {A} (g : A -> RM unit) l : (forall x, safe (g x)) -> safe (st_iter g l).
Proof. intros Hg. induction l as [|x l IH]; cbn [st_iter]; auto with safe. Qed.
#[local] Hint Resolve safe_create safe_st_iter : safe.

Lemma safe_initialize_root self resolve : safe (initialize_root self resolve).
Proof. unfold initialize_root. prove_safe. Qed.
Lemma safe_initialize_area area : safe (initialize_area area).
Proof. unfold initialize_area. prove_safe. Qed.
#[local] Hint Resolve safe_initialize_root safe_initialize_area : safe.

Lemma safe_initialize self resolve : safe (initialize self resolve).
Proof. unfold initialize, initialize_marker, initialize_lock. prove_safe. Qed.

Lemma safe_acquire_lock : safe acquire_lock.
Proof.
  apply safe_same. intros w. unfold acquire_lock. destruct (lookup_node _ _) as [n|e]; [|by destruct (caught_by e _)].
  destruct n; try done; destruct (node_status _ _) as [st|]; try done; destruct (_ || _); try done; by destruct (lock_owner w).
Qed.
Lemma safe_release_lock d : safe (release_lock d).
Proof. apply safe_same. intros w. unfold release_lock. cbn. by case_bool_decide. Qed.
Lemma safe_new_lease l : safe (new_lease l).
Proof. by apply safe_same. Qed.
#[local] Hint Resolve safe_acquire_lock safe_release_lock safe_new_lease : safe.

Lemma safe_acquire_admission self request quota : safe (acquire_admission self request quota).
Proof.
  unfold acquire_admission. apply safe_bind; [auto with safe|]. intros d w.
  destruct (repository_admission _ _ _ _) as [decision|e].
  - destruct (negb _); [|apply safe_new_lease]. apply (safe_bind published (release_lock d)); auto with safe.
  - apply (safe_bind published (release_lock d)); auto with safe.
Qed.

Lemma safe_close_lease l : safe (close_lease l).
Proof.
  unfold close_lease. apply safe_bind; [auto with safe|]. intros x. apply safe_if; [auto with safe|].
  apply safe_bind; [|auto with safe]. by apply safe_same.
Qed.

Lemma safe_require_lease self l msg : safe (require_lease self l msg).
Proof. unfold require_lease. prove_safe. Qed.
#[local] Hint Resolve safe_require_lease : safe.

(** A staged path is below [tmp]. *)
Lemma staged_path_tmp s parts :
  validate_relative_path s (Some [str "tmp"]) = Ok parts -> exists rest, parts = str "tmp" :: rest.
Proof.
  unfold validate_relative_path. destruct (_ || _); [done|]. intros (b & _ & H)%rbind_ok. case_match; [done|].
  apply rbind_ok in H as (? & _ & H). destruct (path_parts s) as [|a rest]; [done|].
  apply rbind_ok in H as (? & Ha & [= <-]). apply raise_when_ok in Ha. bprop.
  apply list_elem_of_singleton in Ha as ->. eauto.
Qed.

Lemma check_staged_ok f staged final sha size p q :
  check_staged f staged final sha size = Ok (p, q) ->
  validate_relative_path staged (Some [str "tmp"]) = Ok p /\ validate_relative_path final (Some OBJECT_AREAS) = Ok q
  /\ validate_sha256 sha = Ok tt /\ validate_byte_count size = Ok tt
  /\ assert_safe_path f p = Ok tt /\ assert_safe_path f q = Ok tt
  /\ (exists status, validate_regular_file f p false = Ok status /\ st_size status = size)
  /\ hash_secure_file f p = Ok sha.
Proof.
  unfold check_staged. intros (p' & Hp & H)%rbind_ok. apply rbind_ok in H as (q' & Hq & H).
  apply rbind_ok in H as ([] & Hsha & H). apply rbind_ok in H as ([] & Hsize & H). apply rbind_ok in H as ([] & H1 & H).
  apply rbind_ok in H as ([] & H2 & H). apply rbind_ok in H as (st & Hst & H). apply rbind_ok in H as ([] & Hs & H).
  apply rbind_ok in H as (d & Hd & H). apply rbind_ok in H as ([] & He & [= <- <-]).
  apply raise_when_ok in Hs. apply raise_when_ok in He. bprop. subst d. split_and!; try done.
  exists st. split; [done | lia].
Qed.

Lemma safe_publish_staged self staged final sha size l : safe (publish_staged_object self staged final sha size l).
Proof.
  unfold publish_staged_object. apply safe_bind; [auto with safe|]. intros _. intros w. unfold st_bind at 1, look at 1.
  destruct (check_staged _ _ _ _ _) as [[p q]|e] eqn:E; [|by apply evolves_same].
  apply check_staged_ok in E as (Hp & _). apply staged_path_tmp in Hp as [rest ->].
  pose proof (tmp_not_published rest). unfold publish_checked. revert w. match goal with |- forall w, evolves _ w (?m w).1 => change (safe m) end.
  prove_safe.
Qed.

Lemma safe_publish_manifest self m l injector : safe (publish_manifest self m l injector).
Proof.
  unfold publish_manifest, prepare_manifest_publication, check_existing_manifest, publish_new_manifest, interrupted.
  pose proof tmp_not_published. prove_safe.
Qed.

Lemma safe_create_or_match p b msg : safe (create_or_match p b msg).
Proof. unfold create_or_match. prove_safe. Qed.

Lemma safe_replace_marker : safe (sys_replace staged_marker marker_path).
Proof. apply safe_replace; apply root_file_not_published; apply (bool_decide_unpack _); by vm_compute. Qed.
#[local] Hint Resolve safe_create_or_match safe_replace_marker : safe.

Lemma safe_migrate self resolve expected execute : safe (migrate_policy_v2_to_v3 self resolve expected execute).
Proof.
  unfold migrate_policy_v2_to_v3. prove_safe. unfold migrate_locked, ensure_history. prove_safe.
Qed.

Lemma safe_perform self o : safe (perform self o).
Proof.
  destruct o; cbn [perform]; unfold discard, estimate, enter_lease;
    auto using safe_initialize, safe_close_lease; prove_safe;
    auto using safe_acquire_admission, safe_publish_staged, safe_publish_manifest, safe_migrate.
Qed.

(** ** The writer fence *)

(** The active leases of a world. *)
Definition active_at (w : W) (l : nat) : Prop := exists x, objects w !! l = Some x /\ active x = true.

Record fenced (w : W) : Prop := {
  fence_owner : forall l x, objects w !! l = Some x -> active x = true -> lock_owner w = Some (lease_descriptor x);
  fence_unique : forall l l', active_at w l -> active_at w l' -> l = l';
  fence_descriptor : forall d, lock_owner w = Some d -> 0 <= d < next_descriptor w;
  fence_next : 0 <= next_descriptor w;
}.

(** A computation that leaves the fence and the leases alone. *)
Definition same_fence (w w' : W) : Prop :=
  lock_owner w' = lock_owner w /\ objects w' = objects w /\ next_descriptor w' = next_descriptor w.

#[export] Instance same_fence_preorder : PreOrder same_fence.
Proof. split; unfold same_fence; [done | intros ? ? ? (?&?&?) (?&?&?); split_and!; congruence]. Qed.

Lemma fenced_same w w' : same_fence w w' -> fenced w -> fenced w'.
Proof.
  intros (Hl & Ho & Hn) [H1 H2 H3 H4]. constructor; unfold active_at; rewrite ?Hl, ?Ho, ?Hn; done.
Qed.

(** A computation that only uses the file system. *)
Definition unfenced {A} (m : RM A) : Prop := forall w, same_fence w (m w).1.

Lemma unfenced_pure {A} (m : RM A) : (forall w, (m w).1 = w) -> unfenced m.
Proof. intros H w. rewrite H. apply reflexivity. Qed.
Lemma unfenced_bind {A B} (m : RM A) (k : A -> RM B) : unfenced m -> (forall a, unfenced (k a)) -> unfenced (st_bind m k).
Proof.
  intros Hm Hk w. unfold st_bind. pose proof (Hm w) as H. destruct (m w) as [w' [a|e]]; [|done].
  etrans; [exact H | apply Hk].
Qed.
Lemma unfenced_try {A} (m : RM A) hs h : unfenced m -> (forall e, unfenced (h e)) -> unfenced (st_try m hs h).
Proof.
  intros Hm Hh w. unfold st_try. pose proof (Hm w) as H. destruct (m w) as [w' [a|e]]; [done|].
  destruct (caught_by e hs); [|done]. etrans; [exact H | apply Hh].
Qed.
Lemma unfenced_if {A} (b : bool) (m k : RM A) : unfenced m -> unfenced k -> unfenced (if b then m else k).
Proof. by destruct b. Qed.
Lemma unfenced_change {A} (g : filesystem -> res (filesystem * A)) : unfenced (change g).
Proof. intros w. unfold change, sys. destruct (faults w) as [|[n|] l]; cbn; try done; by destruct (g _) as [[]|]. Qed.
Lemma unfenced_append i b : unfenced (sys_append i b).
Proof. intros w. unfold sys_append. by destruct (faults w) as [|[n|] l]. Qed.
Lemma unfenced_fsync : unfenced sys_fsync.
Proof. intros w. unfold sys_fsync, sys. by destruct (faults w) as [|[n|] l]. Qed.

Create HintDb unfenced.
#[export] Hint Resolve unfenced_change unfenced_append unfenced_fsync : unfenced.
#[export] Hint Extern 1 (unfenced (st_ret _)) => by apply unfenced_pure : unfenced.
#[export] Hint Extern 1 (unfenced (st_lift _)) => by apply unfenced_pure : unfenced.
#[export] Hint Extern 1 (unfenced (look _)) => by apply unfenced_pure : unfenced.
#[export] Hint Extern 1 (unfenced (raise_storage _ _)) => by apply unfenced_pure : unfenced.
#[export] Hint Extern 1 (unfenced (get_lease _)) => by apply unfenced_pure : unfenced.
#[export] Hint Extern 1 (unfenced (sys_mkdir _)) => apply unfenced_change : unfenced.
#[export] Hint Extern 1 (unfenced (sys_create _)) => apply unfenced_change : unfenced.
#[export] Hint Extern 1 (unfenced (sys_link _ _)) => apply unfenced_change : unfenced.
#[export] Hint Extern 1 (unfenced (sys_unlink _)) => apply unfenced_change : unfenced.
#[export] Hint Extern 1 (unfenced (sys_replace _ _)) => apply unfenced_change : unfenced.

Ltac prove_unfenced :=
  repeat match goal with
  | |- unfenced (st_bind _ _) => apply unfenced_bind; [|intros ?]
  | |- unfenced (st_try _ _ _) => apply unfenced_try; [|intros ?]
  | |- unfenced (if _ then _ else _) => apply unfenced_if
  | |- unfenced (match ?x with (_, _) => _ end) => destruct x
  end; auto with unfenced.

Lemma unfenced_mkdir_exist_ok p : unfenced (mkdir_exist_ok p).
Proof.
  intros w. unfold mkdir_exist_ok. pose proof (unfenced_change (fun f => do! free_name f p in
    Ok (set_node p (Directory (parent_device f p)) f, tt)) w) as H. fold (sys_mkdir (O := AdmissionLease) p) in H.
  destruct (sys_mkdir p w) as [w' [[]|e]]; [done|]. destruct (caught_by e _); [|done]. by destruct (is_dir _ _) as [[]|].
Qed.

Lemma unfenced_mkdirs p : unfenced (mkdirs p).
Proof.
  unfold mkdirs. generalize (rev p). intros l. induction l as [|x l IH]; [apply unfenced_mkdir_exist_ok|]. intros w.
  cbn [mkdir_parents]. assert (unfenced (sys_mkdir (rev (x :: l)))) as H by auto with unfenced. specialize (H w).
  destruct (sys_mkdir _ w) as [w' [[]|e]]; [done|]. case_bool_decide.
  - etrans; [exact H|]. apply (unfenced_bind (mkdir_parents l)); [exact IH | intros _; apply unfenced_mkdir_exist_ok].
  - destruct (caught_by e _); [|done]. by destruct (is_dir _ _) as [[]|].
Qed.
#[export] Hint Resolve unfenced_mkdirs : unfenced.

Definition idle (w : W) : Prop := forall l, ~ active_at w l.

Lemma owner_none_idle w : fenced w -> lock_owner w = None -> idle w.
Proof. intros Hf Hn l (x & Hx & Ha). rewrite (fence_owner w Hf l x Hx Ha) in Hn. done. Qed.

Lemma idle_fenced w w' :
  idle w -> objects w' = objects w -> 0 <= next_descriptor w' ->
  (forall d, lock_owner w' = Some d -> 0 <= d < next_descriptor w') -> fenced w'.
Proof.
  intros Hi Ho Hn Hd. assert (idle w') as Hi' by (unfold idle, active_at in *; by rewrite Ho).
  constructor; [|intros l l' H; by destruct (Hi' l)| done | done].
  intros l x Hx Ha. destruct (Hi' l). by exists x.
Qed.

(** Taking the lock: it was free, no lease was active, and it now belongs to a new
    descriptor; a failure changes at most the descriptor counter. *)
Lemma acquire_lock_ok w w' d :
  fenced w -> acquire_lock w = (w', Ok d) ->
  idle w /\ objects w' = objects w /\ fs w' = fs w /\ lock_owner w = None /\ lock_owner w' = Some d /\ 0 <= d < next_descriptor w'.
Proof.
  intros Hf H. unfold acquire_lock in H. destruct (lookup_node _ _) as [n|e]; [|by destruct (caught_by e _)].
  pose proof (fence_next w Hf). pose proof (owner_none_idle w Hf).
  destruct n; try done; destruct (node_status _ _) as [st|]; try done; destruct (_ || _); try done;
    destruct (lock_owner w) eqn:E; try done; injection H as <- <-; cbn; split_and!; auto; lia.
Qed.

Lemma acquire_lock_failed w w' e :
  fenced w -> acquire_lock w = (w', Err e) -> fenced w' /\ objects w' = objects w /\ lock_owner w' = lock_owner w.
Proof.
  intros Hf H. assert (fenced (set_next_descriptor (next_descriptor w + 1) w)) as Hf'.
  { destruct Hf as [H1 H2 H3 H4]. constructor; cbn; auto; [|lia]. intros d Hd. apply H3 in Hd. lia. }
  unfold acquire_lock in H. destruct (lookup_node _ _) as [n|x].
  - destruct n; try (by injection H as <- _); destruct (node_status _ _) as [st|]; try (by injection H as <- _);
      destruct (_ || _); try (by injection H as <- _); destruct (lock_owner w) eqn:E; try done;
      by injection H as <- _; rewrite <- E.
  - destruct (caught_by x _); by injection H as <- _.
Qed.

Lemma release_lock_effect d (w : W) :
  lock_owner (release_lock d w).1 = (if bool_decide (lock_owner w = Some d) then None else lock_owner w)
  /\ objects (release_lock d w).1 = objects w /\ next_descriptor (release_lock d w).1 = next_descriptor w
  /\ (release_lock d w).2 = Ok tt.
Proof. unfold release_lock. by case_bool_decide. Qed.

(** The pattern of [estimate] and of the migration: the lock is held around a
    computation that leaves the fence alone. *)
Lemma locked_fenced {A} (m : Z -> RM A) w :
  fenced w -> (forall d, unfenced (m d)) ->
  fenced (st_bind acquire_lock (fun d => st_finally (m d) (release_lock d)) w).1.
Proof.
  intros Hf Hm. unfold st_bind. destruct (acquire_lock w) as [w1 [d|e]] eqn:E.
  2:{ by apply (acquire_lock_failed w w1 e Hf E). }
  destruct (acquire_lock_ok w w1 d Hf E) as (Hi & Ho & _ & _ & Hl & Hd). unfold st_finally.
  destruct (Hm d w1) as (Hl1 & Ho1 & Hn1). destruct (m d w1) as [w2 r]. cbn [fst] in *.
  destruct (release_lock_effect d w2) as (Hl2 & Ho2 & Hn2 & Hr2). destruct (release_lock d w2) as [w3 [[]|]]; [|done].
  cbn in *. rewrite Hl1, Hl, bool_decide_eq_true_2 in Hl2 by done.
  apply (idle_fenced w); [done | congruence | lia | by rewrite Hl2].
Qed.

Lemma fenced_acquire_admission self request quota w : fenced w -> fenced (acquire_admission self request quota w).1.
Proof.
  intros Hf. unfold acquire_admission, st_bind at 1. destruct (acquire_lock w) as [w1 [d|e]] eqn:E.
  2:{ by apply (acquire_lock_failed w w1 e Hf E). }
  destruct (acquire_lock_ok w w1 d Hf E) as (Hi & Ho & _ & _ & Hl & Hd).
  destruct (release_lock_effect d w1) as (Hl2 & Ho2 & Hn2 & Hr2). rewrite Hl, bool_decide_eq_true_2 in Hl2 by done.
  assert (fenced (release_lock d w1).1) as Hr by (apply (idle_fenced w); [done | congruence | lia | by rewrite Hl2]).
  destruct (repository_admission _ _ _ _) as [decision|e]; [destruct (negb _)|].
  - unfold st_bind. by destruct (release_lock d w1) as [w2 [[]|]].
  - cbn. assert (forall l x, objects w1 !! l = Some x -> active x = true -> False) as Hni.
    { intros l x Hx Ha. apply (Hi l). exists x. by rewrite <- Ho. }
    assert (forall l x, (objects w1 ++ [{| lease_root := root self; lease_descriptor := d; lease_decision := decision |}]) !! l
              = Some x -> active x = true -> l = length (objects w1) /\ lease_descriptor x = d) as Hlast.
    { intros l x [Hx | [Hlt Hx]]%lookup_app_Some Ha; [by destruct (Hni l x)|].
      apply list_lookup_singleton_Some in Hx as [Hz <-]. split; [lia | done]. }
    constructor; cbn.
    + intros l x Hx Ha. destruct (Hlast l x Hx Ha) as [_ ->]. done.
    + intros l l' (x & Hx & Ha) (x' & Hx' & Ha'). destruct (Hlast l x Hx Ha) as [-> _]. by destruct (Hlast l' x' Hx' Ha') as [-> _].
    + intros d' Hd'. rewrite Hl in Hd'. by injection Hd' as <-.
    + lia.
  - unfold st_bind. by destruct (release_lock d w1) as [w2 [[]|]].
Qed.

Lemma fenced_close_lease l w : fenced w -> fenced (close_lease l w).1.
Proof.
  intros Hf. unfold close_lease, st_bind at 1, get_lease. destruct (objects w !! l) as [x|] eqn:Ex; [|done].
  destruct (active x) eqn:Ea; [|done]. cbn [negb]. unfold st_bind, st_put.
  set (w1 := set_objects _ w). destruct (release_lock_effect (lease_descriptor x) w1) as (Hl & Ho & Hn & _).
  change (lock_owner w1) with (lock_owner w) in Hl. change (next_descriptor w1) with (next_descriptor w) in Hn.
  rewrite (fence_owner w Hf l x Ex Ea), bool_decide_eq_true_2 in Hl by done.
  apply (idle_fenced w1); [|done | rewrite Hn; apply (fence_next w Hf) | by rewrite Hl].
  intros l' (y & Hy & Hya). cbn in Hy. apply list_lookup_insert_Some in Hy as [(-> & <- & _) | [Hne Hy]]; [done|].
  apply Hne. apply (fence_unique w Hf); [by exists x | by exists y].
Qed.

Lemma unfenced_st_iter {A} (g : A -> RM unit) l : (forall x, unfenced (g x)) -> unfenced (st_iter g l).
Proof. intros Hg. induction l as [|x l IH]; cbn [st_iter]; [auto with unfenced | by apply unfenced_bind]. Qed.

#[export] Hint Resolve unfenced_st_iter : unfenced.
#[export] Hint Extern 2 (unfenced (st_bind _ _)) => apply unfenced_bind; [|intros ?] : unfenced.
#[export] Hint Extern 2 (unfenced (if _ then _ else _)) => apply unfenced_if : unfenced.

Lemma unfenced_initialize self resolve : unfenced (initialize self resolve).
Proof.
  unfold initialize, initialize_root, initialize_marker, initialize_lock, create_exclusive_file, sync_directory.
  unfold initialize_area. prove_unfenced.
Qed.

Lemma unfenced_publish_staged self staged final sha size l : unfenced (publish_staged_object self staged final sha size l).
Proof. unfold publish_staged_object, publish_checked, require_lease, sync_directory. prove_unfenced. Qed.

Lemma unfenced_publish_manifest self m l injector : unfenced (publish_manifest self m l injector).
Proof.
  unfold publish_manifest, prepare_manifest_publication, require_lease, check_existing_manifest, publish_new_manifest,
    interrupted, create_exclusive_file, sync_directory. prove_unfenced.
Qed.

Lemma unfenced_migrate_locked self p execute : unfenced (migrate_locked self p execute).
Proof.
  unfold migrate_locked, ensure_history, create_or_match, create_exclusive_file, sync_directory. prove_unfenced.
Qed.

(** What precedes the lock leaves the fence alone. *)
Lemma fenced_after {A B} (m : RM A) (k : A -> RM B) w :
  fenced w -> unfenced m -> (forall a w', fenced w' -> fenced (k a w').1) -> fenced (st_bind m k w).1.
Proof.
  intros Hf Hm Hk. unfold st_bind. pose proof (fenced_same _ _ (Hm w) Hf) as H. destruct (m w) as [w' [a|e]]; [|done].
  by apply Hk.
Qed.

Lemma fenced_migrate self resolve expected execute w :
  fenced w -> fenced (migrate_policy_v2_to_v3 self resolve expected execute w).1.
Proof.
  intros Hf. unfold migrate_policy_v2_to_v3.
  do 7 (apply fenced_after; [done | unfold initialize_root, initialize_area; prove_unfenced | intros ? ? ?]).
  apply (locked_fenced (fun _ => migrate_locked self _ execute)); [done|]. intros d. apply unfenced_migrate_locked.
Qed.

Lemma fenced_discard {A} (m : RM A) w : fenced (m w).1 -> fenced (discard m w).1.
Proof. unfold discard, st_bind. by destruct (m w) as [w' [a|e]]. Qed.

Lemma fenced_perform self o w : fenced w -> fenced (perform self o w).1.
Proof.
  intros Hf. destruct o; cbn [perform]; try apply fenced_discard.
  - eapply fenced_same; [apply unfenced_initialize | done].
  - unfold estimate. apply (locked_fenced (fun _ => look (repository_admission self request quota))); [done|].
    intros d. auto with unfenced.
  - by apply fenced_acquire_admission.
  - eapply fenced_same; [|done]. assert (unfenced (enter_lease l)) as H by (unfold enter_lease; prove_unfenced). apply H.
  - by apply fenced_close_lease.
  - eapply fenced_same; [apply unfenced_publish_staged | done].
  - eapply fenced_same; [apply unfenced_publish_manifest | done].
  - by apply fenced_migrate.
Qed.

(** ** Properties *)

(** A root with its areas, one published object and the lock. *)
Definition example_fs : filesystem :=
  {| nodes := list_to_map (([], Directory 7) :: (lock_path, Regular 1) :: ([str "raw"; str "a"], Regular 0)
                           :: map (fun a => ([a], Directory 7)) STORAGE_AREAS);
     inodes := list_to_map [(0, {| ino_bytes := [1; 2; 3]; ino_nlink := 1; ino_device := 7; ino_blocks := 8 |});
                            (1, {| ino_bytes := []; ino_nlink := 1; ino_device := 7; ino_blocks := 0 |})];
     next_ino := 2 |}.
Definition example_world : W :=
  {| fs := example_fs; faults := [None; Some 3%nat]; blocks_of := fun b => Z.of_nat (length b); lock_owner := None;
     next_descriptor := 3; objects := [] |}.
Definition example_repository : DataRepository :=
  {| root := [str "data"]; policy := default_policy;
     filesystem_probe := fun _ => Ok {| fs_total_bytes := Some (2 ^ 50); fs_free_bytes := Some (2 ^ 49) |};
     git_worktree := None |}.

Lemma example_fs_wf : wf example_fs.
Proof. apply wfb_wf. by vm_compute. Qed.

(** C15: published files are immutable.  However operations follow each other, which of
    them raise and wherever input/output fails, a file that was in an object area or among
    the manifests stays there, with the same inode and the same bytes, and the tree stays
    well formed. *)
Theorem published_files_immutable self w w' p i x :
  wf (fs w) -> rtc (step self) w w' -> published p ->
  nodes (fs w) !! p = Some (Regular i) -> inodes (fs w) !! i = Some x ->
  wf (fs w') /\ nodes (fs w') !! p = Some (Regular i)
  /\ exists x', inodes (fs w') !! i = Some x' /\ ino_bytes x' = ino_bytes x.
Proof.
  intros Hwf Hr Hp Hn Hx. assert (evolves published w w') as H; [|by destruct (H Hwf) as [? Hk]; destruct (Hk p i x Hp Hn Hx)].
  clear -Hr. induction Hr as [w|w w1 w2 [w0 o|w0 l] _ IH]; [apply reflexivity| |].
  - etrans; [apply safe_perform | exact IH].
  - etrans; [by apply (evolves_same published w0 (set_faults l w0)) | exact IH].
Qed.

Lemma published_files_immutable_witness :
  exists w', rtc (step example_repository) example_world w'
    /\ nodes (fs w') !! [str "raw"; str "a"] = Some (Regular 0)
    /\ exists x', inodes (fs w') !! 0 = Some x' /\ ino_bytes x' = [1; 2; 3].
Proof.
  set (w1 := (perform example_repository (PublishStagedObject (str "tmp/a") (str "raw/b") (str "00") 3 0) example_world).1).
  exists w1. assert (Hr : rtc (step example_repository) example_world w1) by (apply rtc_once; apply step_operation).
  split; [exact Hr|].
  assert (Hp : published [str "raw"; str "a"]).
  { exists (str "raw"), [str "a"]. split; [reflexivity|]. apply (bool_decide_unpack _). vm_compute. exact I. }
  exact (proj2 (published_files_immutable example_repository example_world w1 [str "raw"; str "a"] 0
    {| ino_bytes := [1; 2; 3]; ino_nlink := 1; ino_device := 7; ino_blocks := 8 |} example_fs_wf Hr Hp eq_refl eq_refl)).
Defined.

(** C17: one writer at a time.  In every history of a process whose leases came from
    [acquire_admission], at most one lease is active, its descriptor is the one that holds
    the lock of the repository, and until it is closed neither an estimate nor another
    admission can succeed. *)
Theorem single_writer self w w' :
  fenced w -> rtc (step self) w w' ->
  (forall l l', active_at w' l -> active_at w' l' -> l = l')
  /\ (forall l x, objects w' !! l = Some x -> active x = true -> lock_owner w' = Some (lease_descriptor x))
  /\ (forall l, active_at w' l -> forall request quota,
        (exists e, (estimate self request quota w').2 = Err e)
        /\ exists e, (acquire_admission self request quota w').2 = Err e
           /\ objects (acquire_admission self request quota w').1 = objects w').
Proof.
  intros Hf Hr. assert (fenced w') as Hf'.
  { induction Hr as [w|w w1 w2 [w0 o|w0 l] _ IH]; [done| |]; apply IH; [by apply fenced_perform | by apply (fenced_same w0 (set_faults l w0))]. }
  split; [apply (fence_unique w' Hf')|]. split; [apply (fence_owner w' Hf')|]. intros l (x & Hx & Ha) request quota. pose proof (fence_owner w' Hf' l x Hx Ha) as Hl.
  assert (exists w1 e, acquire_lock w' = (w1, Err e) /\ objects w1 = objects w') as (w1 & e & E & Ho).
  { destruct (acquire_lock w') as [w1 [d|e]] eqn:E.
    - destruct (acquire_lock_ok w' w1 d Hf' E) as (_ & _ & _ & Hn & _). congruence.
    - exists w1, e. split; [done|]. by apply (acquire_lock_failed w' w1 e Hf' E). }
  unfold estimate, acquire_admission, st_bind. rewrite E. cbn. eauto.
Qed.

(** A world in which a lease was handed out. *)
Definition leased_world : W :=
  set_objects [{| lease_root := [str "data"]; lease_descriptor := 2;
                  lease_decision := {| admitted := true; reasons := [];
                    ad_request := {| operation_id := str "op"; output_bytes := Some 1000000; rq_temporary_bytes := 0;
                                     retry_overhead_bytes := 0 |};
                    ad_usage := {| su_committed := 3; su_partial := 0; su_temporary := 0; su_logical := 3; su_allocated := 4096;
                                   su_file_count := 2; su_partial_count := 0; su_temporary_count := 0;
                                   su_filesystem := {| fs_total_bytes := None; fs_free_bytes := None |};
                                   su_inventory := [] |};
                    ad_quota := {| limit_bytes := None; used_bytes := None; quota_source := None; observed_at_utc := None;
                                   authoritative := false |};
                    effective_quota_limit_bytes := None; projected_root_peak_bytes := None;
                    projected_temporary_peak_bytes := None; projected_quota_used_bytes := None;
                    projected_filesystem_free_bytes := None; ad_policy_sha256 := [] |} |}]
    (set_lock (Some 2) example_world).

Lemma leased_fenced : fenced leased_world.
Proof.
  constructor; cbn.
  - intros [|l] x [= <-] _. done.
  - intros [|l] [|l'] (x & Hx & _) (y & Hy & _); done.
  - intros d [= <-]. lia.
  - lia.
Qed.

Lemma single_writer_witness :
  fenced leased_world /\ active_at leased_world 0
  /\ exists e, (estimate example_repository
                  {| operation_id := str "b"; output_bytes := Some 1; rq_temporary_bytes := 0; retry_overhead_bytes := 0 |}
                  {| limit_bytes := None; used_bytes := None; quota_source := None; observed_at_utc := None;
                     authoritative := false |} leased_world).2 = Err e.
Proof.
  assert (Ha : active_at leased_world 0) by (eexists; split; reflexivity).
  split; [exact leased_fenced|]. split; [exact Ha|].
  exact (proj1 (proj2 (proj2 (single_writer example_repository leased_world leased_world leased_fenced (rtc_refl _ _))) 0%nat Ha _ _)).
Defined.
