(* ===== verification/RepositoryInventory.v ===== *)
(** * The inventory of a data root

    What [_inventory] of [Repository.v] lists, and what the usage measured from it
    means: the walk visits every file below the root exactly once, and returns exactly
    when the whole tree is on one device, without links and without special files. *)

From S2P Require Import Prelude PyText Json Storage FileSystem Repository RepositoryHistory.

Open Scope Z_scope.

(** The walk, with the paths it lists instead of their items. *)
Fixpoint walk_paths (fuel : nat) (f : filesystem) (root_device : Z) (d : path) : res (list path) :=
  match fuel with
  | O => raise Undescribed "directories nested too deep"
  | S n =>
      let! names := try_except (scandir f d) [OSError]
                      (fun _ => storage_error IO_FAILURE "cannot scan data-root directory") in
      let! found := res_map (fun name =>
        let! item := check_entry f root_device (d ++ [name]) in
        match item with
        | Some _ => Ok [d ++ [name]]
        | None => walk_paths n f root_device (d ++ [name])
        end) names in
      Ok (concat found)
  end.

(** The item of a regular file of the tree. *)
Definition item_of (f : filesystem) (p : path) : FileInventory :=
  match lstat f p with
  | Ok status => inventory_item p status
  | Err _ => inventory_item p {| st_type := S_IFOTHER; st_dev := 0; st_ino := 0; st_size := 0; st_nlink := 0; st_blocks := 0 |}
  end.

(** What the walk accepts. *)
Definition clean (f : filesystem) (dev : Z) (n : node) : Prop :=
  match n with
  | Directory d => d = dev
  | Regular i => exists x, inodes f !! i = Some x /\ ino_device x = dev /\ ino_nlink x = 1
  | Symlink | Special _ => False
  end.

Lemma res_map_rel {A B C} (g : A -> res B) (h : A -> res C) (k : C -> B) l :
  (forall a, g a = let! c := h a in Ok (k c)) -> res_map g l = let! cs := res_map h l in Ok (map k cs).
Proof.
  intros H. induction l as [|a l IH]; [done|]. cbn [res_map]. rewrite H, IH. destruct (h a); [|done]. cbn.
  by destruct (res_map h l).
Qed.

Lemma check_entry_ok f dev p o :
  check_entry f dev p = Ok o ->
  exists n, nodes f !! p = Some n /\ clean f dev n
    /\ ((exists d, n = Directory d) /\ o = None \/ (exists i, n = Regular i) /\ o = Some (item_of f p)).
Proof.
  unfold check_entry. intros (st & Hst & H)%rbind_ok. unfold item_of. rewrite Hst.
  unfold lstat in Hst. apply rbind_ok in Hst as (n & Hn%lookup_node_some & Hst).
  apply rbind_ok in H as ([] & H1 & H). apply rbind_ok in H as ([] & H2 & H). apply raise_when_ok in H1, H2. bprop.
  exists n. split; [done|]. destruct n as [d|i| |d]; cbn in Hst.
  - injection Hst as <-. cbn [st_type st_dev] in *. rewrite bool_decide_eq_true_2 in H by done. injection H as <-.
    split; [cbn; lia|]. left. eauto.
  - destruct (inodes f !! i) as [x|] eqn:E; [|done]. injection Hst as <-. cbn [st_type st_dev st_nlink] in *.
    rewrite bool_decide_eq_false_2 in H by done. apply rbind_ok in H as ([] & _ & H).
    apply rbind_ok in H as ([] & H3 & H). apply raise_when_ok in H3. apply rbind_ok in H as (rep & _ & H).
    apply rbind_ok in H as ([] & _ & [= <-]). bprop. split; [exists x; split_and!; [done | lia | lia]|].
    right. eauto.
  - by injection Hst as <-.
  - by injection Hst as <-.
Qed.

Lemma check_entry_clean f dev p n :
  wf f -> nodes f !! p = Some n -> clean f dev n -> exists o, check_entry f dev p = Ok o.
Proof.
  intros Hwf Hn Hc. unfold check_entry, lstat. rewrite (proj2 (lookup_node_ok f p n Hwf) Hn). cbn [rbind].
  destruct n as [d|i| |d]; cbn in Hc; try done.
  - subst d. cbn [node_status rbind st_type st_dev]. unfold storage_when.
    rewrite raise_when_false by done. cbn [rbind]. rewrite raise_when_false by lia. eexists. reflexivity.
  - destruct Hc as (x & Hx & Hd & Hl). cbn [node_status]. rewrite Hx. cbn [rbind st_type st_dev st_nlink st_ino st_size].
    unfold storage_when. rewrite raise_when_false by done. cbn [rbind]. rewrite raise_when_false by lia. cbn [rbind].
    rewrite bool_decide_eq_false_2 by done. rewrite raise_when_false by done. cbn [rbind].
    rewrite raise_when_false by lia. cbn [rbind]. rewrite raise_when_false by (by rewrite bool_decide_eq_true_2).
    eexists. reflexivity.
Qed.

Lemma walk_of_paths fuel f dev d :
  walk fuel f dev d = let! l := walk_paths fuel f dev d in Ok (map (item_of f) l).
Proof.
  revert d. induction fuel as [|n IH]; intros d; [done|]. cbn [walk walk_paths].
  destruct (try_except _ _ _) as [names|]; [|done]. cbn [rbind].
  rewrite (res_map_rel _ (fun name => let! item := check_entry f dev (d ++ [name]) in
    match item with Some _ => Ok [d ++ [name]] | None => walk_paths n f dev (d ++ [name]) end) (map (item_of f))).
  - destruct (res_map _ names) as [found|]; [|done]. cbn. by rewrite concat_map.
  - intros name. destruct (check_entry f dev (d ++ [name])) as [[i|]|] eqn:E; [|apply IH|done]. cbn.
    apply check_entry_ok in E as (m & _ & _ & [[_ E] | [_ E]]); [done|]. by injection E as ->.
Qed.

(** ** Names in a directory *)

Lemma child_name_ok d p name : child_name d p = Some name <-> p = d ++ [name].
Proof.
  unfold child_name. split.
  - destruct (drop (length d) p) as [|x [|y t]] eqn:E; try done. case_bool_decide as Ht; [|done]. intros [= <-].
    by rewrite <- (take_drop (length d) p), E, Ht.
  - intros ->. rewrite drop_app_length, take_app_length. by rewrite bool_decide_eq_true_2.
Qed.

Lemma elem_of_entries f d name : name ∈ entries f d <-> exists n, nodes f !! (d ++ [name]) = Some n.
Proof.
  unfold entries. rewrite elem_of_py_sorted, list_elem_of_omap. split.
  - intros ([p n] & Hp%elem_of_map_to_list & Hc%child_name_ok). cbn in Hc. subst p. eauto.
  - intros [n Hn]. exists (d ++ [name], n). split; [by apply elem_of_map_to_list | by apply child_name_ok].
Qed.

Lemma entries_nodup f d : NoDup (entries f d).
Proof.
  unfold entries. rewrite (py_sorted_perm pystr_leb).
  assert (NoDup (map_to_list (nodes f)).*1) as H by apply NoDup_fst_map_to_list.
  induction (map_to_list (nodes f)) as [|[p n] l IH]; [constructor|]. cbn [omap list_omap fst].
  cbn in H. apply NoDup_cons in H as [Hp H]. destruct (child_name d p) as [name|] eqn:E; rewrite ?E; [|by apply IH].
  apply NoDup_cons. split; [|by apply IH]. intros ([q m] & Hq & Hc)%list_elem_of_omap. cbn in Hc.
  apply child_name_ok in E, Hc. subst p q. apply Hp. by apply (list_elem_of_fmap_2 fst _ (d ++ [name], m)).
Qed.

Lemma elem_of_concat {A} (x : A) ll : x ∈ concat ll <-> exists l, x ∈ l /\ l ∈ ll.
Proof.
  rewrite list_elem_of_In, in_concat. split; intros (l & H1 & H2); exists l; rewrite !list_elem_of_In in *; by split.
Qed.

(** ** The paths of the walk *)

Definition below (d p : path) : Prop := exists x t, p = d ++ x :: t.

Lemma below_split d p : below d p <-> exists x, p = d ++ [x] \/ below (d ++ [x]) p.
Proof.
  split.
  - intros (x & t & ->). exists x. destruct t as [|y t]; [by left|]. right. exists y, t. by rewrite <- app_assoc.
  - intros (x & [-> | (y & t & ->)]); [by exists x, [] | exists x, (y :: t); by rewrite <- app_assoc].
Qed.

Lemma below_ancestor f d p n x :
  wf f -> nodes f !! p = Some n -> p = d ++ [x] \/ below (d ++ [x]) p -> exists m, nodes f !! (d ++ [x]) = Some m.
Proof.
  intros Hwf Hp [-> | (y & t & ->)]; [eauto|]. revert n Hp.
  induction t as [|z t IH] using rev_ind; intros n Hp.
  - destruct (wf_parent f Hwf _ _ Hp) as [dd Hd]; [by destruct (d ++ [x])|]. rewrite parent_of_snoc in Hd. eauto.
  - rewrite app_comm_cons, app_assoc in Hp.
    destruct (wf_parent f Hwf _ _ Hp) as [dd Hd]; [by destruct ((d ++ [x]) ++ y :: t)|]. rewrite parent_of_snoc in Hd. by eapply IH.
Qed.

(** Nothing lies below a file. *)
Lemma below_directory f d p n : wf f -> nodes f !! p = Some n -> below d p -> exists dev, nodes f !! d = Some (Directory dev).
Proof.
  intros Hwf Hp (x & t & ->). assert (exists m, nodes f !! (d ++ [x]) = Some m) as [m Hm].
  { eapply (below_ancestor f d _ n x Hwf Hp). destruct t as [|y t]; [by left|]. right. exists y, t. by rewrite <- app_assoc. }
  destruct (wf_parent f Hwf _ _ Hm) as [dd Hd]; [by destruct d|]. rewrite parent_of_snoc in Hd. eauto.
Qed.

Lemma scandir_directory f d : wf f -> forall dev, nodes f !! d = Some (Directory dev) -> scandir f d = Ok (entries f d).
Proof. intros Hwf dev Hd. unfold scandir. by rewrite (proj2 (lookup_node_ok f d _ Hwf) Hd). Qed.

Lemma scandir_ok f d names : scandir f d = Ok names -> names = entries f d.
Proof. unfold scandir. intros (n & _ & H)%rbind_ok. destruct n; try done. by injection H as <-. Qed.

(** One step of the walk. *)
Lemma walk_paths_step n f dev d l :
  walk_paths (S n) f dev d = Ok l ->
  exists found, l = concat found
    /\ Forall2 (fun name part =>
         (exists i, nodes f !! (d ++ [name]) = Some (Regular i) /\ clean f dev (Regular i) /\ part = [d ++ [name]])
         \/ (nodes f !! (d ++ [name]) = Some (Directory dev) /\ walk_paths n f dev (d ++ [name]) = Ok part))
         (entries f d) found.
Proof.
  cbn [walk_paths]. intros (names & Hn & H)%rbind_ok.
  assert (names = entries f d) as ->.
  { destruct (scandir f d) as [x|e] eqn:E; [apply scandir_ok in E; by injection Hn as <-|]. cbn in Hn. by destruct (_ || _). }
  apply rbind_ok in H as (found & Hf & [= <-]). exists found. split; [done|]. apply res_map_ok in Hf.
  eapply Forall2_impl; [exact Hf|]. intros name part (o & Ho & Hp)%rbind_ok.
  apply check_entry_ok in Ho as (m & Hm & Hc & [[[dd ->] ->] | [[i ->] ->]]).
  - right. cbn in Hc. subst dd. done.
  - left. exists i. by injection Hp as <-.
Qed.

Lemma walk_paths_below n f dev d l p : walk_paths n f dev d = Ok l -> p ∈ l -> below d p.
Proof.
  revert d l. induction n as [|n IH]; intros d l; [done|]. intros (found & -> & Hf)%walk_paths_step.
  intros (part & Hp & Hpart)%elem_of_concat. apply list_elem_of_lookup_1 in Hpart as [k Hk].
  destruct (Forall2_lookup_r _ _ _ _ _ Hf Hk) as (name & Hname & [(i & _ & _ & ->) | [_ Hw]]).
  - apply list_elem_of_singleton in Hp as ->. by exists name, [].
  - apply below_split. exists name. right. by eapply IH.
Qed.

(** The walk lists the regular files below its directory, and everything there is clean. *)
Lemma walk_paths_exact n f dev d l :
  wf f -> walk_paths n f dev d = Ok l ->
  (forall p, p ∈ l <-> below d p /\ exists i, nodes f !! p = Some (Regular i))
  /\ (forall p m, below d p -> nodes f !! p = Some m -> clean f dev m).
Proof.
  intros Hwf. revert d l. induction n as [|n IH]; intros d l; [done|]. intros (found & -> & Hf)%walk_paths_step.
  assert (forall p m, below d p -> nodes f !! p = Some m ->
            clean f dev m /\ (forall i, m = Regular i -> p ∈ concat found)) as Hall.
  { intros p m (x & Hx)%below_split Hm. destruct (below_ancestor f d p m x Hwf Hm Hx) as [k Hk].
    assert (x ∈ entries f d) as [j Hj]%list_elem_of_lookup_1 by (apply elem_of_entries; eauto).
    destruct (Forall2_lookup_l _ _ _ _ _ Hf Hj) as (part & Hpart & Hcase).
    assert (forall q, q ∈ part -> q ∈ concat found) as Hin.
    { intros q Hq. apply elem_of_concat. exists part. split; [done|]. by eapply list_elem_of_lookup_2. }
    destruct Hcase as [(i & Hi & Hc & ->) | [Hdir Hw]]; destruct Hx as [-> | Hb].
    - assert (m = Regular i) as -> by congruence. split; [done|]. intros _ _. apply Hin. set_solver.
    - destruct (below_directory f _ p m Hwf Hm Hb) as [dd Hdd]. congruence.
    - assert (m = Directory dev) as -> by congruence. by split.
    - destruct (IH _ _ Hw) as [IH1 IH2]. split; [by eapply IH2|]. intros i ->. apply Hin, IH1. eauto. }
  split; [intros p; split|].
  - intros (part & Hp & Hpart)%elem_of_concat. apply list_elem_of_lookup_1 in Hpart as [k Hk].
    destruct (Forall2_lookup_r _ _ _ _ _ Hf Hk) as (name & _ & [(i & Hi & _ & ->) | [_ Hw]]).
    + apply list_elem_of_singleton in Hp as ->. split; [by exists name, [] | eauto].
    + destruct (IH _ _ Hw) as [IH1 _]. apply IH1 in Hp as [Hb Hi]. split; [|done]. apply below_split. eauto.
  - intros [Hb [i Hi]]. by eapply (Hall p _ Hb Hi).
  - intros p m Hb Hm. by apply (Hall p m Hb Hm).
Qed.

Lemma below_disjoint d x y p :
  x <> y -> (p = d ++ [x] \/ below (d ++ [x]) p) -> (p = d ++ [y] \/ below (d ++ [y]) p) -> False.
Proof.
  intros Hne Hx Hy. assert (forall z, p = d ++ [z] \/ below (d ++ [z]) p -> head (drop (length d) p) = Some z) as H.
  { intros z [-> | (u & t & ->)]; rewrite <- ?app_assoc, drop_app_length; done. }
  apply H in Hx, Hy. congruence.
Qed.

Lemma walk_paths_nodup n f dev d l : wf f -> walk_paths n f dev d = Ok l -> NoDup l.
Proof.
  intros Hwf. revert d l. induction n as [|n IH]; intros d l; [done|]. intros (found & -> & Hf)%walk_paths_step.
  pose proof (entries_nodup f d) as Hnd.
  assert (Forall2 (fun name part => NoDup part /\ forall p, p ∈ part -> p = d ++ [name] \/ below (d ++ [name]) p)
            (entries f d) found) as H.
  { eapply Forall2_impl; [exact Hf|]. intros name part [(i & _ & _ & ->) | [_ Hw]].
    - split; [apply NoDup_singleton|]. intros p ->%list_elem_of_singleton. by left.
    - split; [by eapply IH|]. intros p Hp. right. by eapply walk_paths_below. }
  clear Hf. induction H as [|name part names found [Hp1 Hp2] Hrest IH']; [constructor|].
  apply NoDup_cons in Hnd as [Hn Hnd]. cbn [concat]. apply NoDup_app. split; [done|]. split; [|by apply IH'].
  intros p Hp (part' & Hp' & Hpart')%elem_of_concat. apply list_elem_of_lookup_1 in Hpart' as [k Hk].
  destruct (Forall2_lookup_r _ _ _ _ _ Hrest Hk) as (name' & Hname' & _ & Hp2').
  eapply (below_disjoint d name name' p); [|by apply Hp2 | by apply Hp2'].
  intros <-. apply Hn. by eapply list_elem_of_lookup_2.
Qed.

(** ** Enough fuel *)

Definition count_below (f : filesystem) (d : path) : nat :=
  size (filter (fun kv => take (length d) kv.1 = d /\ (length d < length kv.1)%nat) (nodes f)).

Lemma count_below_child f d name m :
  nodes f !! (d ++ [name]) = Some m -> (count_below f (d ++ [name]) < count_below f d)%nat.
Proof.
  intros Hm. unfold count_below. apply map_subset_size. apply map_subset_alt. split.
  - apply map_subseteq_spec. intros p n [Hp [Ht Hl]]%map_lookup_filter_Some. cbn in *. apply map_lookup_filter_Some.
    split; [done|]. cbn. rewrite length_app in *. cbn in *. split; [|lia].
    apply (f_equal (take (length d))) in Ht. rewrite take_take in Ht. rewrite Nat.min_l in Ht by lia.
    by rewrite take_app_length in Ht.
  - exists (d ++ [name]). split.
    + apply map_lookup_filter_None. right. intros n _ [_ Hl]. cbn in Hl. lia.
    + exists m. apply map_lookup_filter_Some. split; [done|]. cbn. rewrite take_app_length, length_app. cbn. split; [done | lia].
Qed.

Lemma walk_paths_total n f dev d :
  wf f -> (count_below f d < n)%nat -> nodes f !! d = Some (Directory dev) ->
  (forall p m, below d p -> nodes f !! p = Some m -> clean f dev m) -> exists l, walk_paths n f dev d = Ok l.
Proof.
  intros Hwf. revert d. induction n as [|n IH]; intros d Hn Hd Hc; [lia|]. cbn [walk_paths].
  rewrite (scandir_directory f d Hwf dev Hd). cbn [try_except rbind].
  match goal with |- context [res_map ?g ?l] => destruct (res_map_total g l) as [found ->]; [|by eexists] end.
  apply Forall_forall. intros name [m Hm]%elem_of_entries.
  assert (below d (d ++ [name])) as Hb by (by exists name, []).
  destruct (check_entry_clean f dev _ m Hwf Hm (Hc _ _ Hb Hm)) as [o Ho]. rewrite Ho. cbn [rbind].
  destruct o as [it|]; [by eexists|].
  apply check_entry_ok in Ho as (m' & Hm' & Hc' & [[[dd ->] _] | [_ ?]]); [|done]. cbn in Hc'. subst dd.
  apply IH; [pose proof (count_below_child f d name _ Hm'); lia | done|].
  intros p k Hp. apply Hc. apply below_split. eauto.
Qed.

(** ** Properties *)

Definition is_regular (n : node) : bool := match n with Regular _ => true | _ => false end.

(** The paths of the regular files of the tree. *)
Definition regular_paths (f : filesystem) : list path :=
  map fst (List.filter (fun kv => is_regular kv.2) (map_to_list (nodes f))).

Lemma elem_of_regular_paths f p : p ∈ regular_paths f <-> exists i, nodes f !! p = Some (Regular i).
Proof.
  unfold regular_paths. split.
  - intros ([q n] & -> & [Hq Hr]%elem_of_filter_b)%list_elem_of_fmap. apply elem_of_map_to_list in Hq. cbn in *.
    destruct n; try done. eauto.
  - intros [i Hi]. apply (list_elem_of_fmap_2 fst _ (p, Regular i)). apply elem_of_filter_b. split; [|done].
    by apply elem_of_map_to_list.
Qed.

Lemma regular_paths_nodup f : NoDup (regular_paths f).
Proof.
  unfold regular_paths. assert (NoDup (map fst (map_to_list (nodes f)))) as H by apply NoDup_fst_map_to_list.
  induction (map_to_list (nodes f)) as [|[p n] l IH]; [constructor|]. cbn in *. apply NoDup_cons in H as [Hp H].
  destruct (is_regular n); cbn; [|by apply IH]. apply NoDup_cons. split; [|by apply IH].
  intros ([q m] & -> & [Hq _]%elem_of_filter_b)%list_elem_of_fmap. apply Hp. by apply (list_elem_of_fmap_2 fst _ (q, m)).
Qed.

Lemma below_root p : below [] p <-> p <> [].
Proof. split; [by intros (x & t & ->) | destruct p as [|x t]; [done | by exists x, t]]. Qed.

Definition all_clean (f : filesystem) (dev : Z) : Prop := forall p n, nodes f !! p = Some n -> clean f dev n.

Lemma root_lstat f dev : nodes f !! [] = Some (Directory dev) ->
  inventory f = walk (S (size (nodes f))) f dev [].
Proof. intros H. unfold inventory, lstat, lookup_node. rewrite ancestors_nil. cbn [res_iter rbind]. by rewrite H. Qed.

Lemma inventory_ok f dev items :
  wf f -> nodes f !! [] = Some (Directory dev) -> inventory f = Ok items ->
  all_clean f dev /\ items ≡ₚ map (item_of f) (regular_paths f).
Proof.
  intros Hwf Hr H. rewrite (root_lstat f dev Hr), walk_of_paths in H. apply rbind_ok in H as (l & Hl & [= <-]).
  pose proof (walk_paths_nodup _ _ _ _ _ Hwf Hl) as Hnd. destruct (walk_paths_exact _ _ _ _ _ Hwf Hl) as [H1 H2]. split.
  - intros p n Hp. destruct (decide (p = [])) as [->|Hne]; [|by eapply H2; [apply below_root|]].
    rewrite Hr in Hp. by injection Hp as <-.
  - apply Permutation_map, NoDup_Permutation; [done | apply regular_paths_nodup|]. intros p.
    rewrite H1, elem_of_regular_paths, below_root. split; [by intros [_ H]|]. intros [i Hi]. split; [|eauto].
    intros ->. congruence.
Qed.

Lemma inventory_total f dev :
  wf f -> nodes f !! [] = Some (Directory dev) -> all_clean f dev -> exists items, inventory f = Ok items.
Proof.
  intros Hwf Hr Hc. rewrite (root_lstat f dev Hr), walk_of_paths.
  destruct (walk_paths_total (S (size (nodes f))) f dev [] Hwf) as [l ->]; [|done| |by eexists].
  - unfold count_below. apply Nat.lt_succ_r. apply map_subseteq_size, map_filter_subseteq.
  - intros p m _. apply Hc.
Qed.

(** C21: the inventory is exact.  For a well-formed tree the walk returns exactly when
    every node is on the device of the root and is a directory or a regular file with a
    single link, and it then lists every regular file once. *)
Theorem inventory_exact f dev :
  wf f -> nodes f !! [] = Some (Directory dev) ->
  (all_clean f dev <-> exists items, inventory f = Ok items)
  /\ forall items, inventory f = Ok items -> items ≡ₚ map (item_of f) (regular_paths f).
Proof.
  intros Hwf Hr. split; [split|].
  - by apply inventory_total.
  - intros [items H]. by apply (inventory_ok f dev items Hwf Hr).
  - intros items H. by apply (inventory_ok f dev items Hwf Hr).
Qed.

Lemma inventory_exact_witness :
  all_clean example_fs 7 /\ exists items, inventory example_fs = Ok items /\ length items = 2%nat.
Proof.
  assert (Hr : nodes example_fs !! [] = Some (Directory 7)) by (vm_compute; reflexivity).
  destruct (inventory_exact example_fs 7 example_fs_wf Hr) as [H1 H2].
  assert (Hi : exists items, inventory example_fs = Ok items) by (vm_compute; eexists; reflexivity).
  split; [apply H1; exact Hi|]. destruct Hi as [items Hi]. exists items. split; [exact Hi|].
  rewrite (H2 items Hi). vm_compute. reflexivity.
Defined.

(** The bytes of a file. *)
Definition bytes_at (f : filesystem) (p : path) : pybytes :=
  match nodes f !! p with
  | Some (Regular i) => match inodes f !! i with Some x => ino_bytes x | None => [] end
  | _ => []
  end.

Lemma item_of_regular f p i x :
  wf f -> nodes f !! p = Some (Regular i) -> inodes f !! i = Some x ->
  logical_bytes (item_of f p) = Z.of_nat (length (bytes_at f p)) /\ bytes_at f p = ino_bytes x
  /\ allocated_bytes (item_of f p) = Z.max (ino_blocks x * 512) 0.
Proof.
  intros Hwf Hp Hx. unfold item_of, bytes_at, lstat. rewrite (proj2 (lookup_node_ok f p _ Hwf) Hp), Hp. cbn [rbind node_status].
  by rewrite Hx.
Qed.

(** Byte counts that a [stat_result] can hold. *)
Definition counts_ok (f : filesystem) : Prop :=
  forall i x, inodes f !! i = Some x ->
    Z.of_nat (length (ino_bytes x)) <= MAX_BYTES /\ 0 <= ino_blocks x * 512 <= MAX_BYTES.

Lemma items_ok f : wf f -> counts_ok f -> Forall file_ok (map (item_of f) (regular_paths f)).
Proof.
  intros Hwf Hc. apply Forall_fmap, Forall_forall. intros p [i Hi]%elem_of_regular_paths.
  destruct (wf_ino f Hwf p i Hi) as [x Hx]. destruct (item_of_regular f p i x Hwf Hi Hx) as (H1 & H2 & H3).
  destruct (Hc i x Hx) as [C1 C2]. unfold file_ok, byte_count. cbn. rewrite H1, H2, H3. lia.
Qed.

Lemma sum_of_map {A B} (g : B -> Z) (h : A -> B) l : sum_of g (map h l) = sum_of (fun a => g (h a)) l.
Proof. unfold sum_of. induction l as [|a l IH]; cbn; congruence. Qed.

Lemma sum_of_ext {A} (g h : A -> Z) l : (forall a, a ∈ l -> g a = h a) -> sum_of g l = sum_of h l.
Proof.
  unfold sum_of. induction l as [|a l IH]; intros H; [done|]. cbn. rewrite (H a) by set_solver. rewrite IH by set_solver. done.
Qed.

(** The measured usage is the size of the tree.  For a clean tree whose files and
    whose total fit signed 64-bit counts, and a capacity probe that answers, the usage
    reports the sum of the lengths of all regular files and their number. *)
Theorem repository_usage_exact self f dev capacity :
  wf f -> nodes f !! [] = Some (Directory dev) -> all_clean f dev -> counts_ok f ->
  filesystem_probe self f = Ok capacity ->
  sum_of (fun p => Z.of_nat (length (bytes_at f p))) (regular_paths f) <= MAX_BYTES ->
  sum_of (fun p => allocated_bytes (item_of f p)) (regular_paths f) <= MAX_BYTES ->
  exists u, repository_usage self f = Ok u
    /\ su_logical u = sum_of (fun p => Z.of_nat (length (bytes_at f p))) (regular_paths f)
    /\ su_file_count u = Z.of_nat (length (regular_paths f)) /\ su_filesystem u = capacity.
Proof.
  intros Hwf Hr Hc Hk Hp H1 H2. destruct (inventory_total f dev Hwf Hr Hc) as [items Hi].
  destruct (inventory_ok f dev items Hwf Hr Hi) as [_ Hperm].
  assert (Forall file_ok items) as Hok by (rewrite Hperm; by apply items_ok).
  assert (sum_of logical_bytes items = sum_of (fun p => Z.of_nat (length (bytes_at f p))) (regular_paths f)) as E1.
  { rewrite (sum_of_perm _ _ _ Hperm), sum_of_map. apply sum_of_ext. intros p [i Hpi]%elem_of_regular_paths.
    destruct (wf_ino f Hwf p i Hpi) as [x Hx]. by destruct (item_of_regular f p i x Hwf Hpi Hx). }
  assert (sum_of allocated_bytes items = sum_of (fun p => allocated_bytes (item_of f p)) (regular_paths f)) as E2.
  { by rewrite (sum_of_perm _ _ _ Hperm), sum_of_map. }
  unfold repository_usage. rewrite Hi, Hp. cbn [rbind].
  destruct (usage_sums items capacity Hok) as [Hu _]. rewrite Hu by lia. eexists. split; [reflexivity|]. cbn.
  split_and!; [done | by rewrite (Permutation_length Hperm), length_map | done].
Qed.

Lemma repository_usage_exact_witness :
  exists u, repository_usage example_repository example_fs = Ok u /\ su_logical u = 3.
Proof.
  assert (Hr : nodes example_fs !! [] = Some (Directory 7)) by (vm_compute; reflexivity).
  assert (Hi : exists items, inventory example_fs = Ok items) by (vm_compute; eexists; reflexivity).
  destruct Hi as [items Hi].
  assert (Hk : counts_ok example_fs).
  { intros i x Hx. unfold example_fs in Hx. cbn [inodes] in Hx. apply elem_of_list_to_map_2 in Hx.
    apply elem_of_cons in Hx as [[= -> ->] | Hx]; [vm_compute; split; [discriminate|]; split; discriminate|].
    apply list_elem_of_singleton in Hx as [= -> ->]. vm_compute. split; [discriminate|]; split; discriminate. }
  destruct (repository_usage_exact example_repository example_fs 7 _ example_fs_wf Hr
    (proj1 (inventory_ok example_fs 7 items example_fs_wf Hr Hi)) Hk eq_refl) as (u & Hu & Hl & _);
    [vm_compute; discriminate | vm_compute; discriminate|].
  exists u. split; [exact Hu|]. rewrite Hl. vm_compute. reflexivity.
Defined.
