(* ===== verification/RepositoryPublication.v ===== *)
(** * Publication of objects and manifests

    What [publish_staged_object], [publish_manifest] and [load_manifest] of [Repository.v]
    guarantee: a path holds the whole file or none of it however a publication fails, a
    published manifest is loaded back, and an interrupted publication is noticed. *)

From S2P Require Import Prelude PyText Json Sha256 ReferenceDocuments Storage Manifests FileSystem Repository RepositoryHistory.
From S2P Require Import RepositoryInventory.

Open Scope Z_scope.

(** A path names a file whose bytes satisfy [Q]. *)
Definition names_file (f : filesystem) (p : path) (Q : pybytes -> Prop) : Prop :=
  exists i x, nodes f !! p = Some (Regular i) /\ inodes f !! i = Some x /\ Q (ino_bytes x).

(** The bytes of an object with this digest and size. *)
Definition object_bytes (sha : pystr) (size : Z) (b : pybytes) : Prop :=
  sha256_hex b = sha /\ Z.of_nat (length b) = size.

(** A path names a file with these bytes, and is its only name. *)
Definition holds (f : filesystem) (p : path) (b : pybytes) : Prop :=
  exists i x, nodes f !! p = Some (Regular i) /\ inodes f !! i = Some x /\ ino_bytes x = b /\ ino_nlink x = 1.

(** ** Reading files *)

Lemma node_status_regular f i x : inodes f !! i = Some x ->
  node_status f (Regular i) = Ok {| st_type := S_IFREG; st_dev := ino_device x; st_ino := i;
    st_size := Z.of_nat (length (ino_bytes x)); st_nlink := ino_nlink x; st_blocks := ino_blocks x |}.
Proof. intros H. cbn. by rewrite H. Qed.

Lemma try_storage_ok {A} (m : res A) code msg a :
  try_except m [OSError] (fun _ => storage_error code msg) = Ok a -> m = Ok a.
Proof. destruct m as [b|e]; [done|]. cbn. by destruct (_ || _). Qed.

Lemma regular_file_ok f p allow st :
  validate_regular_file f p allow = Ok st ->
  exists i x, nodes f !! p = Some (Regular i) /\ inodes f !! i = Some x /\ ino_nlink x = 1
    /\ st_size st = Z.of_nat (length (ino_bytes x)) /\ (allow = false -> ino_bytes x <> []).
Proof.
  unfold validate_regular_file. intros (st' & Hs & H)%rbind_ok. apply try_storage_ok in Hs.
  apply rbind_ok in Hs as (n & Hn & Hs). apply lookup_node_some in Hn.
  apply rbind_ok in H as ([] & _ & H). apply rbind_ok in H as ([] & Hreg & H). apply rbind_ok in H as ([] & Hl & H).
  apply rbind_ok in H as ([] & He & [= <-]). apply raise_when_ok in Hreg, Hl, He. bprop.
  destruct n as [d|i| |d]; cbn in Hs; try (injection Hs as <-; done).
  destruct (inodes f !! i) as [x|] eqn:E; [|done]. injection Hs as <-. cbn in *. exists i, x.
  split_and!; [done | done | lia | done|]. intros ->. cbn in He. apply Z.eqb_neq in He. by destruct (ino_bytes x).
Qed.

Lemma regular_file_holds f p b allow :
  wf f -> holds f p b -> (allow = false -> b <> []) ->
  exists st, validate_regular_file f p allow = Ok st /\ st_size st = Z.of_nat (length b).
Proof.
  intros Hwf (i & x & Hn & Hx & <- & Hl) Hb. unfold validate_regular_file, lstat.
  rewrite (proj2 (lookup_node_ok f p (Regular i) Hwf)) by done. cbn [rbind]. rewrite (node_status_regular f i x) by done.
  cbn [try_except rbind st_type st_nlink st_size]. unfold storage_when. rewrite Hl. eexists. split.
  - do 3 (eapply (rbind_step _ _ tt); [by apply raise_when_false|]).
    eapply (rbind_step _ _ tt); [|reflexivity]. apply raise_when_false. destruct allow; [done|]. cbn. apply Z.eqb_neq.
    specialize (Hb eq_refl). by destruct (ino_bytes x).
  - reflexivity.
Qed.

Lemma read_file_ok f p i x : wf f -> nodes f !! p = Some (Regular i) -> inodes f !! i = Some x -> read_file f p = Ok (ino_bytes x).
Proof. intros Hwf Hn Hx. unfold read_file. rewrite (proj2 (lookup_node_ok f p (Regular i) Hwf)) by done. cbn. by rewrite Hx. Qed.

Lemma read_file_some f p b : read_file f p = Ok b -> exists i x, nodes f !! p = Some (Regular i) /\ inodes f !! i = Some x /\ ino_bytes x = b.
Proof.
  unfold read_file. intros (n & Hn%lookup_node_some & H)%rbind_ok. destruct n as [d|i| |d]; try done.
  destruct (inodes f !! i) as [x|] eqn:E; [|done]. injection H as <-. eauto.
Qed.

Lemma hash_secure_ok f p d :
  hash_secure_file f p = Ok d -> exists b, holds f p b /\ b <> [] /\ d = sha256_hex b.
Proof.
  unfold hash_secure_file. intros (st & (i & x & Hn & Hx & Hl & _ & Hne)%regular_file_ok & H)%rbind_ok.
  apply rbind_ok in H as (b & (i' & x' & Hn' & Hx' & <-)%read_file_some & [= <-]).
  assert (i' = i) as -> by congruence. assert (x' = x) as -> by congruence.
  exists (ino_bytes x). split; [by exists i, x | by split; [apply Hne|]].
Qed.

Lemma hash_secure_holds f p b : wf f -> holds f p b -> b <> [] -> hash_secure_file f p = Ok (sha256_hex b).
Proof.
  intros Hwf Hh Hb. unfold hash_secure_file. destruct (regular_file_holds f p b false Hwf Hh) as (st & -> & _); [done|].
  destruct Hh as (i & x & Hn & Hx & <- & _). cbn [rbind]. by rewrite (read_file_ok f p i x Hwf Hn Hx).
Qed.

Lemma read_secure_ok f p n b : read_secure f p n = Ok b -> holds f p b /\ Z.of_nat (length b) <= n.
Proof.
  unfold read_secure. intros (st & (i & x & Hn & Hx & Hl & _)%regular_file_ok & H)%rbind_ok.
  apply rbind_ok in H as (d & (i' & x' & Hn' & Hx' & <-)%try_storage_ok%read_file_some & H).
  apply rbind_ok in H as ([] & Hlen & [= <-]). apply raise_when_ok in Hlen.
  assert (i' = i) as -> by congruence. assert (x' = x) as -> by congruence. split; [by exists i, x | lia].
Qed.

Lemma read_secure_holds f p n b : wf f -> holds f p b -> Z.of_nat (length b) <= n -> read_secure f p n = Ok b.
Proof.
  intros Hwf Hh Hb. unfold read_secure. destruct (regular_file_holds f p b true Hwf Hh) as (st & -> & _); [done|].
  destruct Hh as (i & x & Hn & Hx & <- & _). cbn [rbind]. rewrite (read_file_ok f p i x Hwf Hn Hx). cbn [try_except rbind].
  eapply (rbind_step _ _ tt); [|done]. apply raise_when_false. lia.
Qed.

Lemma present_true f p : present f p = Ok true -> exists n, nodes f !! p = Some n.
Proof.
  unfold present. destruct (lookup_node f p) as [n|e] eqn:E; [intros _; exists n; by apply lookup_node_some|].
  by destruct (caught_by e _).
Qed.

Lemma present_false f p : wf f -> present f p = Ok false -> nodes f !! p = None.
Proof.
  unfold present. intros Hwf H. destruct (nodes f !! p) as [n|] eqn:E; [|done].
  by rewrite (proj2 (lookup_node_ok f p n Hwf)) in H.
Qed.

Lemma present_absent f p : wf f -> nodes f !! p = None -> (forall q d, q `prefix_of` p -> nodes f !! q = Some d -> d <> Symlink) -> present f p = Ok false.
Proof.
  intros Hwf Hn Hs. unfold present. destruct (lookup_node f p) as [n|e] eqn:E; [apply lookup_node_some in E; congruence|].
  assert (caught_by e [OSError] = true) as ->; [|done]. unfold lookup_node in E. rewrite Hn in E.
  apply rbind_err in E as [E | ([] & _ & E)]; [|by injection E as <-].
  assert (forall q, q ∈ ancestors p -> q `prefix_of` p) as Ha by (intros q; apply prefix_ancestor). revert E Ha.
  induction (ancestors p) as [|q l IH]; cbn [res_iter]; [done|]. intros [E | ([] & _ & E)]%rbind_err Ha.
  - unfold enter in E. destruct (nodes f !! q) as [[]|] eqn:Eq; try done; try (by injection E as <-).
    exfalso. by apply (Hs q Symlink); [apply Ha; set_solver | |].
  - apply IH; [done|]. intros q' Hq'. apply Ha. set_solver.
Qed.

(** ** Calls that publish *)

Lemma sync_directory_fs p w : fs (sync_directory p w).1 = fs w.
Proof.
  unfold sync_directory, st_bind, look. destruct (rbind _ _) as [[]|]; [apply fsync_fs | done].
Qed.

(** A computation that links [target] to the file of [source], or changes nothing. *)
Definition links (m : RM unit) (source target : path) : Prop := forall w,
  (fs (m w).1 = fs w /\ exists e, (m w).2 = Err e)
  \/ ((m w).2 = Ok tt /\ nodes (fs w) !! target = None
      /\ forall i, nodes (fs w) !! source = Some (Regular i) ->
           fs (m w).1 = set_node target (Regular i) (update_inode i (add_links 1) (fs w))).

Lemma link_links source target : links (sys_link source target) source target.
Proof.
  intros w. unfold sys_link. match goal with |- context [change ?g] => destruct (change_cases g w) as [H | (f & [] & H & Hr & ->)] end; [by left|].
  right. apply rbind_ok in H as (n & Hn%lookup_node_some & H). apply rbind_ok in H as ([] & [Ht _]%free_name_some & H).
  split_and!; [done..|]. intros i Hi. rewrite Hn in Hi. injection Hi as ->. by injection H as <-.
Qed.

Lemma try_links m hs code msg source target :
  links m source target -> links (st_try m hs (fun _ => raise_storage code msg)) source target.
Proof.
  intros Hm w. unfold st_try. specialize (Hm w). destruct (m w) as [w' [[]|e]]; [done|].
  destruct Hm as [[Hf _] | [? _]]; [left | done]. destruct (caught_by e hs); cbn in *; eauto.
Qed.

Lemma unlink_cases p (w : W) :
  (fs (sys_unlink p w).1 = fs w /\ exists e, (sys_unlink p w).2 = Err e)
  \/ ((sys_unlink p w).2 = Ok tt /\ exists n, nodes (fs w) !! p = Some n /\ fs (sys_unlink p w).1 = drop_name p n (fs w)).
Proof.
  unfold sys_unlink. match goal with |- context [change ?g] => destruct (change_cases g w) as [H | (f & [] & H & Hr & ->)] end; [by left|].
  right. split; [done|]. apply rbind_ok in H as (n & Hn%lookup_node_some & H). exists n. split; [done|].
  destruct n; [done | by injection H as <-..].
Qed.

Lemma file_links f p Q i k : names_file f p Q -> names_file (update_inode i (add_links k) f) p Q.
Proof.
  intros (j & x & Hn & Hx & Hs). exists j. destruct (decide (i = j)) as [->|Hne].
  - exists (add_links k x). split_and!; [done | cbn; by rewrite lookup_alter_eq, Hx | done..].
  - exists x. split_and!; [done | cbn; by rewrite lookup_alter_ne | done..].
Qed.

Lemma file_drop f p q n Q : p <> q -> names_file f p Q -> names_file (drop_name q n f) p Q.
Proof.
  intros Hne H. assert (forall g, names_file g p Q -> names_file (remove_node q g) p Q) as Hr.
  { intros g (j & x & Hn & Hx & Hs). exists j, x. split_and!; try done. cbn. by rewrite lookup_delete_ne. }
  unfold drop_name. apply Hr. destruct n; try done. by apply file_links.
Qed.

Lemma not_prefix_parent (q : path) : q <> [] -> ~ q `prefix_of` parent_of q.
Proof. intros (p & n & ->)%path_snoc H%prefix_length. rewrite parent_of_snoc, length_app in H. cbn in H. lia. Qed.

Lemma grows_absent q f f' : q <> [] -> grows (parent_of q) f f' -> nodes f !! q = None -> nodes f' !! q = None.
Proof.
  intros Hq (_ & _ & _ & Hnew) Hn. destruct (nodes f' !! q) as [n|] eqn:E; [|done].
  destruct (Hnew q n E Hn) as [_ Hp]. by apply not_prefix_parent in Hp.
Qed.

Lemma grows_file p q f f' Q : grows p f f' -> names_file f q Q -> names_file f' q Q.
Proof.
  intros (Hi & _ & Hs & _) (i & x & Hn & Hx & H). exists i, x. rewrite Hi. split_and!; try done; try by destruct H.
  by eapply lookup_weaken.
Qed.

Lemma grows_holds p q f f' b : grows p f f' -> holds f q b -> holds f' q b.
Proof.
  intros (Hi & _ & Hs & _) (i & x & Hn & Hx & H). exists i, x. rewrite Hi. split_and!; try done; try by destruct H.
  by eapply lookup_weaken.
Qed.

Lemma area_path s areas p : validate_relative_path s (Some areas) = Ok p -> exists a t, p = a :: t /\ a ∈ areas.
Proof.
  unfold validate_relative_path. destruct (_ || _); [done|]. intros (b & _ & H)%rbind_ok. case_match; [done|].
  apply rbind_ok in H as ([] & _ & H). destruct (path_parts s) as [|a t]; [done|].
  apply rbind_ok in H as ([] & Ha & [= <-]). apply raise_when_ok in Ha. bprop. eauto.
Qed.

Lemma staged_not_final staged final p q :
  validate_relative_path staged (Some [str "tmp"]) = Ok p -> validate_relative_path final (Some OBJECT_AREAS) = Ok q ->
  p <> q /\ q <> [].
Proof.
  intros (a & t & -> & Ha)%area_path (b & u & -> & Hb)%area_path. split; [|done]. intros [= -> ->].
  apply list_elem_of_singleton in Ha as ->. revert Hb. apply (bool_decide_unpack _). by vm_compute.
Qed.

(** The outcome of a publication at [q] that began with the tree [f]. *)
Definition published_whole (f : filesystem) (p q : path) (Q : pybytes -> Prop) (r : W * res path) : Prop :=
  (forall q', r.2 = Ok q' -> q' = q /\ names_file (fs r.1) q Q /\ nodes (fs r.1) !! p = None)
  /\ (nodes f !! q = None -> nodes (fs r.1) !! q = None \/ names_file (fs r.1) q Q).

(** A handler that only raises changes neither the tree nor success. *)
Lemma try_raise_outcome {A} (m : RM A) hs code msg w :
  let r := st_try m hs (fun _ => raise_storage code msg) w in
  fs r.1 = fs (m w).1 /\ (forall a, r.2 = Ok a <-> (m w).2 = Ok a).
Proof. unfold st_try. destruct (m w) as [w' [a|e]]; [done|]. by destruct (caught_by e hs). Qed.

Lemma published_whole_try f p q Q (m : RM path) hs code msg w :
  published_whole f p q Q (m w) -> published_whole f p q Q (st_try m hs (fun _ => raise_storage code msg) w).
Proof.
  destruct (try_raise_outcome m hs code msg w) as [Hf Hr]. cbn in Hf, Hr. intros [H1 H2].
  unfold published_whole. rewrite Hf. split; [|done]. intros q' Hq'. apply H1. by apply Hr.
Qed.

(** Linking and unlinking, with a step between them that leaves the tree alone. *)
Lemma link_and_unlink w p q Q (link middle : RM unit) :
  links link p q -> (forall w, fs (middle w).1 = fs w) ->
  p <> q -> nodes (fs w) !! q = None -> names_file (fs w) p Q ->
  published_whole (fs w) p q Q
    ((link ;;~ sync_directory (parent_of q) ;;~ middle ;;~ sys_unlink p ;;~ sync_directory (parent_of p) ;;~ st_ret q) w).
Proof.
  intros Hlink Hmid Hpq Hq Hc. unfold st_bind at 1. destruct (Hlink w) as [[Hf [e He]] | (Hok & _ & Hf)].
  { destruct (link w) as [w1 r1]. cbn in *. subst r1. split; [done|]. cbn. rewrite Hf. by left. }
  destruct Hc as (i & x & Hn & Hx & Hs). specialize (Hf i Hn).
  destruct (link w) as [w1 r1]. cbn [fst snd] in *. subst r1.
  assert (names_file (fs w1) q Q) as Hc1.
  { exists i, (add_links 1 x). rewrite Hf. cbn. rewrite lookup_insert_eq, lookup_alter_eq, Hx. by split_and!. }
  assert (forall w', fs w' = fs w1 -> forall e, published_whole (fs w) p q Q (w', Err e)) as Hfail.
  { intros w' E e. split; [done|]. intros _. cbn. rewrite E. by right. }
  pose proof (sync_directory_fs (parent_of q) w1) as E2. unfold st_bind at 1.
  destruct (sync_directory (parent_of q) w1) as [w1' [[]|e2]]; cbn [fst] in E2; [|by apply Hfail].
  pose proof (Hmid w1') as E2'. unfold st_bind at 1. destruct (middle w1') as [w2 [[]|e2]]; cbn [fst] in E2'; rewrite E2 in E2'; [|by apply Hfail].
  unfold st_bind at 1. destruct (unlink_cases p w2) as [[E3 [e He]] | (Hok3 & n & Hn3 & E3)].
  { destruct (sys_unlink p w2) as [w3 r3]. cbn in *. subst r3. apply Hfail. congruence. }
  destruct (sys_unlink p w2) as [w3 r3]. cbn [fst snd] in *. subst r3.
  assert (names_file (fs w3) q Q) as Hc3 by (rewrite E3, E2'; by apply file_drop).
  assert (nodes (fs w3) !! p = None) as Hn4 by (rewrite E3; destruct n; apply lookup_delete_eq).
  pose proof (sync_directory_fs (parent_of p) w3) as E4. unfold st_bind.
  destruct (sync_directory (parent_of p) w3) as [w4 [[]|e4]]; cbn [fst] in E4; split; cbn; try done;
    rewrite E4; [|by right..]. intros q' [= <-]. by split_and!.
Qed.

Lemma publish_checked_whole w p q sha size :
  wf (fs w) -> p <> q -> q <> [] -> names_file (fs w) p (object_bytes sha size) ->
  published_whole (fs w) p q (object_bytes sha size) (publish_checked p q sha size w).
Proof.
  intros Hwf Hpq Hq Hc. unfold publish_checked, st_bind at 1.
  pose proof (mkdirs_grows (parent_of q) w) as Hg. destruct (safe_mkdirs (fun _ => True) (parent_of q) w Hwf) as [Hwf1 _].
  destruct (mkdirs (parent_of q) w) as [w1 r1]. cbn [fst] in *. pose proof (grows_absent q _ _ Hq Hg) as Hna.
  assert (forall e, published_whole (fs w) p q (object_bytes sha size) (w1, Err e)) as Hfail by (split; [done | cbn; auto]).
  destruct r1 as [[]|e1]; [|done]. unfold st_bind at 1, look at 1.
  destruct (assert_safe_path _ _) as [[]|e2]; [|done]. unfold st_bind at 1, look at 1.
  destruct (present _ _) as [[]|e3] eqn:Hp; [| |done].
  - apply present_true in Hp as [n Hn]. assert (nodes (fs w) !! q = None -> False) as Hqn by (intros H; rewrite Hna in Hn; done).
    unfold st_bind at 1, look at 1. match goal with |- context [rbind ?m ?k] => destruct (rbind m k) as [[]|e4] eqn:Hv end; [|done].
    assert (names_file (fs w1) q (object_bytes sha size)) as Hc1.
    { apply rbind_ok in Hv as (st & Hst & Hv). apply regular_file_ok in Hst as (i & x & Hni & Hxi & _ & Hsz & _).
      apply rbind_ok in Hv as (d & Hd & Hv). apply raise_when_ok in Hv. bprop. subst d. rewrite H in Hd. cbn [negb] in Hd.
      apply hash_secure_ok in Hd as (b & (i' & x' & Hni' & Hxi' & Hb & _) & _ & ->).
      exists i, x. assert (i' = i) as -> by congruence. assert (x' = x) as -> by congruence. subst b.
      split_and!; [done..|]. split; [done | lia]. }
    unfold st_bind at 1. destruct (unlink_cases p w1) as [[E3 [e He]] | (Hok3 & m & Hn3 & E3)].
    { destruct (sys_unlink p w1) as [w3 r3]. cbn in *. subst r3. split; [done|]. intros H. by destruct Hqn. }
    destruct (sys_unlink p w1) as [w3 r3]. cbn [fst snd] in *. subst r3.
    pose proof (sync_directory_fs (parent_of p) w3) as E4. unfold st_bind.
    destruct (sync_directory (parent_of p) w3) as [w4 [[]|e4]]; cbn [fst] in E4; split; cbn; try done; try (by intros ?%Hqn).
    intros q' [= <-]. rewrite E4, E3. split_and!; [done | by apply file_drop | destruct m; apply lookup_delete_eq].
  - apply present_false in Hp; [|done]. do 2 apply published_whole_try.
    destruct (link_and_unlink w1 p q (object_bytes sha size) (sys_link p q) (st_ret tt)) as [H1 H2];
      [apply link_links | done | done | done | by eapply grows_file|]. split; auto.
Qed.

(** A lease that may be used. *)
Definition usable_lease (self : DataRepository) (w : W) (l : nat) (x : AdmissionLease) : Prop :=
  objects w !! l = Some x /\ active x = true /\ lease_root x = root self.

Lemma require_lease_cases self l msg w :
  (exists e, require_lease self l msg w = (w, Err e))
  \/ exists x, usable_lease self w l x /\ require_lease self l msg w = (w, Ok x).
Proof.
  unfold require_lease, st_bind, get_lease. destruct (objects w !! l) as [x|] eqn:E; [|left; by eexists].
  destruct (active x) eqn:Ea; cbn [negb orb]; [|left; by eexists]. case_bool_decide; cbn [negb]; [|left; by eexists].
  right. by exists x.
Qed.

Lemma require_lease_ok self l msg w x : usable_lease self w l x -> require_lease self l msg w = (w, Ok x).
Proof.
  intros (Hx & Ha & Hr). unfold require_lease, st_bind, get_lease. rewrite Hx, Ha, bool_decide_eq_true_2 by done. done.
Qed.

(** ** Publication of objects *)

Lemma publish_staged_whole self w staged final sha size l p q :
  wf (fs w) -> validate_relative_path staged (Some [str "tmp"]) = Ok p ->
  validate_relative_path final (Some OBJECT_AREAS) = Ok q ->
  published_whole (fs w) p q (object_bytes sha size) (publish_staged_object self staged final sha size l w).
Proof.
  intros Hwf Hp Hq. unfold publish_staged_object, st_bind at 1.
  assert (forall e, published_whole (fs w) p q (object_bytes sha size) (w, Err e)) as Hfail by (split; [done | cbn; auto]).
  destruct (require_lease_cases self l "object publication requires an active admission lease" w)
    as [[e ->] | (x & _ & ->)]; [apply Hfail|].
  unfold st_bind, look. destruct (check_staged _ _ _ _ _) as [[p' q']|e] eqn:Hc; [|apply Hfail].
  apply check_staged_ok in Hc as (Hp' & Hq' & _ & _ & _ & _ & (st & Hst & Hsz) & Hh).
  assert (p' = p) as -> by congruence. assert (q' = q) as -> by congruence.
  destruct (staged_not_final _ _ _ _ Hp Hq) as [Hne Hq0]. apply publish_checked_whole; [done..|].
  apply regular_file_ok in Hst as (i & z & Hn & Hz & _ & Hsz' & _). apply hash_secure_ok in Hh as (b & Hb & _ & ->).
  destruct Hb as (i' & z' & Hn' & Hz' & Hb & _). exists i, z. assert (i' = i) as -> by congruence.
  assert (z' = z) as -> by congruence. subst b. split_and!; [done..|]. split; [done | lia].
Qed.

(** ** What a publication leaves alone *)

(** Every name but [p] keeps what it names, and every file its bytes. *)
Definition undisturbed (p : path) (f f' : filesystem) : Prop :=
  (forall r n, r <> p -> nodes f !! r = Some n -> nodes f' !! r = Some n)
  /\ (forall i x, inodes f !! i = Some x -> exists x', inodes f' !! i = Some x' /\ ino_bytes x' = ino_bytes x).

#[export] Instance undisturbed_preorder p : PreOrder (undisturbed p).
Proof.
  split; [intros f; split; [done | eauto]|]. intros f g h [H1 H2] [H3 H4]. split; [auto|].
  intros i x Hx. destruct (H2 i x Hx) as (y & Hy & <-). by apply H4.
Qed.

Lemma undisturbed_links p f i k : undisturbed p f (update_inode i (add_links k) f).
Proof.
  split; [done|]. intros j x Hx. cbn. destruct (decide (i = j)) as [->|Hne].
  - exists (add_links k x). by rewrite lookup_alter_eq, Hx.
  - exists x. by rewrite lookup_alter_ne.
Qed.

Lemma undisturbed_name p f q n : nodes f !! q = None -> undisturbed p f (set_node q n f).
Proof. intros Hq. split; [|eauto]. intros r m _ Hr. cbn. rewrite lookup_insert_ne; congruence. Qed.

Lemma undisturbed_drop p f n : undisturbed p f (drop_name p n f).
Proof.
  assert (forall g, undisturbed p g (remove_node p g)) as Hr.
  { intros g. split; [|eauto]. intros r m Hne H. cbn. by rewrite lookup_delete_ne. }
  unfold drop_name. destruct n; try apply Hr. etrans; [apply undisturbed_links | apply Hr].
Qed.

(** A computation that disturbs no name but [p]. *)
Definition disturbs_only {A} (p : path) (m : RM A) : Prop := forall w, undisturbed p (fs w) (fs (m w).1).

Lemma disturbs_same {A} p (m : RM A) : (forall w, fs (m w).1 = fs w) -> disturbs_only p m.
Proof. intros H w. by rewrite H. Qed.
Lemma disturbs_bind {A B} p (m : RM A) (k : A -> RM B) :
  disturbs_only p m -> (forall a, disturbs_only p (k a)) -> disturbs_only p (st_bind m k).
Proof.
  intros Hm Hk w. unfold st_bind. pose proof (Hm w) as H. destruct (m w) as [w' [a|e]]; [|done].
  etrans; [exact H | apply Hk].
Qed.
Lemma disturbs_try {A} p (m : RM A) hs h :
  disturbs_only p m -> (forall e, disturbs_only p (h e)) -> disturbs_only p (st_try m hs h).
Proof.
  intros Hm Hh w. unfold st_try. pose proof (Hm w) as H. destruct (m w) as [w' [a|e]]; [done|].
  destruct (caught_by e hs); [|done]. etrans; [exact H | apply Hh].
Qed.
Lemma disturbs_mkdirs p q : disturbs_only p (mkdirs q).
Proof.
  intros w. destruct (mkdirs_grows q w) as (Hi & _ & Hn & _). split; [|rewrite Hi; eauto].
  intros r n _ Hr. by eapply lookup_weaken.
Qed.
Lemma disturbs_link p q r : disturbs_only p (sys_link q r).
Proof.
  intros w. unfold sys_link. match goal with |- context [change ?g] => destruct (change_cases g w) as [[-> _] | (f & [] & H & _ & ->)] end; [done|].
  apply rbind_ok in H as (n & _ & H). apply rbind_ok in H as ([] & [Ht _]%free_name_some & H).
  destruct n; try done; injection H as <-; [|by apply undisturbed_name..].
  etrans; [apply undisturbed_links | by apply undisturbed_name].
Qed.
Lemma disturbs_unlink p : disturbs_only p (sys_unlink p).
Proof. intros w. destruct (unlink_cases p w) as [[-> _] | (_ & n & _ & ->)]; [done | apply undisturbed_drop]. Qed.

Lemma publish_staged_undisturbed self staged final sha size l p :
  validate_relative_path staged (Some [str "tmp"]) = Ok p ->
  disturbs_only p (publish_staged_object self staged final sha size l).
Proof.
  intros Hp w. unfold publish_staged_object, st_bind at 1.
  destruct (require_lease_cases self l "object publication requires an active admission lease" w) as [[e ->] | (x & _ & ->)]; [done|].
  unfold st_bind, look. destruct (check_staged _ _ _ _ _) as [[p' q]|e] eqn:Hc; [|done].
  apply check_staged_ok in Hc as (Hp' & _). assert (p' = p) as -> by congruence. revert w.
  assert (forall r, disturbs_only p (sync_directory r)) by (intros r; apply disturbs_same, sync_directory_fs).
  unfold publish_checked. apply disturbs_bind; [apply disturbs_mkdirs|]. intros _.
  apply disturbs_bind; [by apply disturbs_same|]. intros _. apply disturbs_bind; [by apply disturbs_same|]. intros [].
  - repeat (apply disturbs_bind; [auto using disturbs_unlink || by apply disturbs_same | intros _]). by apply disturbs_same.
  - do 2 (apply disturbs_try; [|intros _; by apply disturbs_same]).
    repeat (apply disturbs_bind; [auto using disturbs_unlink, disturbs_link | intros _]). by apply disturbs_same.
Qed.

(** C16: object publication is all or nothing.  Whatever fails, and wherever, the final
    path afterwards names a file with exactly the expected digest and size or, if it named
    nothing before, nothing; if it named something before, it still names that, with the
    same bytes.  No name but the staged one is removed or renamed and no file changes its
    bytes.  When the call returns, it returns the final path, that path holds the object
    and the staged name is gone. *)
Theorem object_publication_atomic self w staged final sha size l p q :
  wf (fs w) -> validate_relative_path staged (Some [str "tmp"]) = Ok p ->
  validate_relative_path final (Some OBJECT_AREAS) = Ok q ->
  let r := publish_staged_object self staged final sha size l w in
  published_whole (fs w) p q (object_bytes sha size) r
  /\ undisturbed p (fs w) (fs r.1)
  /\ (forall n, nodes (fs w) !! q = Some n -> nodes (fs r.1) !! q = Some n).
Proof.
  intros Hwf Hp Hq r. pose proof (publish_staged_undisturbed self staged final sha size l p Hp w) as Hu.
  split; [by apply publish_staged_whole|]. split; [exact Hu|].
  intros n. apply (proj1 Hu). by destruct (staged_not_final _ _ _ _ Hp Hq) as [Hne _].
Qed.

(** ** Runs without failures *)

Lemma present_parent f q d : wf f -> q <> [] -> nodes f !! parent_of q = Some (Directory d) -> nodes f !! q = None -> present f q = Ok false.
Proof.
  intros Hwf (p & n & ->)%path_snoc Hd Hn. rewrite parent_of_snoc in Hd. unfold present, lookup_node.
  rewrite ancestors_snoc, Hn.
  assert (res_iter (enter f) (ancestors p ++ [p]) = Ok tt) as ->; [|done]. apply res_iter_ok, Forall_app. split.
  - apply res_iter_ok with (u := tt). apply ancestors_entered; eauto.
  - apply Forall_singleton, enter_ok. eauto.
Qed.

Lemma prefix_snoc (q p : path) x : q `prefix_of` p ++ [x] -> q `prefix_of` p \/ q = p ++ [x].
Proof.
  intros [k Hk]. destruct k as [|y k _] using rev_ind; [right; by rewrite app_nil_r in Hk|]. left.
  rewrite app_assoc in Hk. apply app_inj_tail in Hk as [-> _]. by exists k.
Qed.

Lemma prefix_directory f p q d :
  wf f -> nodes f !! p = Some (Directory d) -> q `prefix_of` p -> exists d', nodes f !! q = Some (Directory d').
Proof.
  intros Hwf Hd Hq. revert d Hd. induction p as [|x p IH] using rev_ind; intros d Hd.
  - apply prefix_nil_inv in Hq as ->. eauto.
  - apply prefix_snoc in Hq as [Hq | ->]; [|eauto].
    destruct (wf_parent f Hwf _ _ Hd) as [d' Hd']; [by destruct p|]. rewrite parent_of_snoc in Hd'. by eapply IH.
Qed.

Lemma steps_prefix p q : q ∈ steps_to p -> q `prefix_of` p.
Proof. unfold steps_to. intros (n & -> & _)%list_elem_of_fmap. apply prefix_take. Qed.

(** A path through directories to a directory, or to a regular file, is safe. *)
Lemma assert_safe_ok f p n :
  wf f -> nodes f !! p = Some n -> n <> Symlink -> assert_safe_path f p = Ok tt.
Proof.
  intros Hwf Hn Hs. unfold assert_safe_path. apply res_iter_ok, Forall_forall. intros q Hq%steps_prefix.
  assert (exists m, nodes f !! q = Some m /\ m <> Symlink) as (m & Hm & Hms).
  { destruct (decide (q = p)) as [->|Hne]; [eauto|]. destruct (decide (p = [])) as [->|Hp]; [by apply prefix_nil_inv in Hq|].
    destruct (wf_parent f Hwf p n Hn Hp) as [d Hd]. apply path_snoc in Hp as (r & y & ->).
    apply prefix_snoc in Hq as [Hq | ->]; [|done]. rewrite parent_of_snoc in Hd.
    destruct (prefix_directory f r q d Hwf Hd Hq) as [d' Hd']. by eexists. }
  unfold present, lstat. rewrite (proj2 (lookup_node_ok f q m Hwf)) by done. cbn [rbind negb].
  destruct m as [d|i| |d]; cbn [node_status]; try done. destruct (wf_ino f Hwf q i Hm) as [x ->]. done.
Qed.

Lemma quiet_sync p (w : W) d :
  wf (fs w) -> faults w = [] -> nodes (fs w) !! p = Some (Directory d) -> sync_directory p w = (w, Ok tt).
Proof.
  intros Hwf Hq Hd. unfold sync_directory, st_bind, look. rewrite (proj2 (lookup_node_ok _ p _ Hwf) Hd). cbn.
  unfold sys_fsync, sys. by rewrite Hq.
Qed.

Lemma quiet_link p q (w : W) i d :
  wf (fs w) -> faults w = [] -> nodes (fs w) !! p = Some (Regular i) -> q <> [] ->
  nodes (fs w) !! parent_of q = Some (Directory d) -> nodes (fs w) !! q = None ->
  sys_link p q w = (set_fs (set_node q (Regular i) (update_inode i (add_links 1) (fs w))) w, Ok tt).
Proof.
  intros Hwf Hq Hp Hq0 Hd Hn. unfold sys_link. apply change_quiet; [done|].
  rewrite (proj2 (lookup_node_ok _ p _ Hwf) Hp). cbn [rbind]. by rewrite (free_name_ok _ q d Hwf Hq0 Hd Hn).
Qed.

Lemma quiet_unlink p (w : W) i :
  wf (fs w) -> faults w = [] -> nodes (fs w) !! p = Some (Regular i) ->
  sys_unlink p w = (set_fs (drop_name p (Regular i) (fs w)) w, Ok tt).
Proof.
  intros Hwf Hq Hp. unfold sys_unlink. apply change_quiet; [done|].
  by rewrite (proj2 (lookup_node_ok _ p _ Hwf) Hp).
Qed.

(** A file moves from one name to the other. *)
Definition moved (f f' : filesystem) (p q : path) (i : Z) : Prop :=
  f' = drop_name p (Regular i) (set_node q (Regular i) (update_inode i (add_links 1) f)).

(** [tree] shows the maps of a changed tree. *)
Ltac tree := cbn [fs set_fs nodes inodes next_ino drop_name remove_node update_inode set_node new_inode].

Lemma moved_holds f f' p q i b :
  p <> q -> moved f f' p q i -> nodes f !! p = Some (Regular i) -> holds f p b ->
  holds f' q b /\ nodes f' !! p = None /\ (forall r, r <> p -> r <> q -> nodes f' !! r = nodes f !! r).
Proof.
  intros Hpq Hm Hp (i' & x & Hn & Hx & Hb & Hl). unfold moved in Hm. subst f'. assert (i' = i) as -> by congruence. split_and!.
  - exists i, (add_links (-1) (add_links 1 x)). tree. rewrite lookup_delete_ne, lookup_insert_eq by done.
    rewrite !lookup_alter_eq, Hx. split_and!; [done..|]. cbn. lia.
  - apply lookup_delete_eq.
  - intros r H1 H2. tree. by rewrite lookup_delete_ne, lookup_insert_ne.
Qed.

Lemma moved_wf (w : W) p q i d :
  wf (fs w) -> nodes (fs w) !! p = Some (Regular i) -> q <> [] -> nodes (fs w) !! parent_of q = Some (Directory d) ->
  nodes (fs w) !! q = None ->
  wf (set_node q (Regular i) (update_inode i (add_links 1) (fs w)))
  /\ wf (drop_name p (Regular i) (set_node q (Regular i) (update_inode i (add_links 1) (fs w)))).
Proof.
  intros Hwf Hp Hq0 Hd Hn. assert (wf (set_node q (Regular i) (update_inode i (add_links 1) (fs w)))) as H1.
  { pose proof (safe_link (fun _ => True) p q (set_faults [] w) Hwf) as [H _].
    rewrite (quiet_link p q (set_faults [] w) i d) in H by done. exact H. }
  split; [done|]. apply wf_drop_name; [done| |done]. tree. rewrite lookup_insert_ne; [done|]. congruence.
Qed.

(** Linking, synchronising, unlinking and synchronising again moves the file. *)
Lemma quiet_move {A} p q w i d (k : RM A) :
  wf (fs w) -> faults w = [] -> p <> [] -> nodes (fs w) !! p = Some (Regular i) -> q <> [] ->
  nodes (fs w) !! parent_of q = Some (Directory d) -> nodes (fs w) !! q = None ->
  exists f', wf f' /\ moved (fs w) f' p q i
    /\ (sys_link p q ;;~ sync_directory (parent_of q) ;;~ sys_unlink p ;;~ sync_directory (parent_of p) ;;~ k) w
       = k (set_fs f' w).
Proof.
  intros Hwf Hq Hp0 Hp Hq0 Hd Hn. destruct (moved_wf w p q i d Hwf Hp Hq0 Hd Hn) as [H1 H2].
  eexists. split; [exact H2|]. split; [reflexivity|].
  rewrite (st_bind_ok _ _ _ _ _ (quiet_link p q w i d Hwf Hq Hp Hq0 Hd Hn)).
  assert (q <> p) as Hqp by congruence. assert (parent_of q <> q) as Hpq by (intros E; rewrite E in Hd; congruence).
  erewrite st_bind_ok; [|apply (quiet_sync _ _ d); [done | done | tree; by rewrite lookup_insert_ne]].
  erewrite st_bind_ok; [|apply (quiet_unlink p _ i); [done | done | tree; by rewrite lookup_insert_ne]].
  destruct (wf_parent _ Hwf p _ Hp Hp0) as [dp Hdp].
  erewrite st_bind_ok; [reflexivity|]. apply (quiet_sync _ _ dp); [done | done|]. tree.
  rewrite lookup_delete_ne by congruence. rewrite lookup_insert_ne by congruence. done.
Qed.

(** Nothing but a missing name stands between the root and the final path. *)
Definition ready_for (f : filesystem) (q : path) : Prop :=
  (exists d, nodes f !! [] = Some (Directory d)) /\ open_way f (parent_of q) /\ nodes f !! q = None.

(** After [mkdirs], the directory of the final path is there and nothing else changed. *)
Lemma quiet_mkdirs q (w : W) :
  wf (fs w) -> faults w = [] -> q <> [] -> ready_for (fs w) q ->
  exists f1 d, mkdirs (parent_of q) w = (set_fs f1 w, Ok tt) /\ wf f1 /\ grows (parent_of q) (fs w) f1
    /\ nodes f1 !! parent_of q = Some (Directory d) /\ nodes f1 !! q = None
    /\ assert_safe_path f1 (parent_of q) = Ok tt /\ present f1 q = Ok false.
Proof.
  intros Hwf Hq Hq0 (Hr & Hway & Hn). destruct (mkdirs_made (parent_of q) w Hwf Hq Hr Hway) as (H1 & H2 & d & H3).
  pose proof (mkdirs_grows (parent_of q) w) as Hg. destruct (safe_mkdirs (fun _ => True) (parent_of q) w Hwf) as [Hwf1 _].
  destruct (mkdirs (parent_of q) w) as [w1 r1]. cbn [fst snd] in *. subst r1. exists (fs w1), d.
  assert (nodes (fs w1) !! q = None) as Hn1 by (by eapply grows_absent).
  split_and!; [by rewrite H2 at 1 | done | done | done | done | by eapply assert_safe_ok | by eapply present_parent].
Qed.

(** Besides a file that moves to [q], only directories on the way there are new. *)
Definition adds (p q : path) (f f' : filesystem) : Prop :=
  (forall r n, r <> p -> nodes f !! r = Some n -> nodes f' !! r = Some n)
  /\ (forall r, r <> q -> ~ r `prefix_of` parent_of q -> nodes f !! r = None -> nodes f' !! r = None).

Lemma moved_adds f f' p q i :
  nodes f !! p = Some (Regular i) -> nodes f !! q = None -> moved f f' p q i -> adds p q f f'.
Proof.
  intros Hp Hq ->. split.
  - intros r n Hr Hn. tree. rewrite lookup_delete_ne by done. rewrite lookup_insert_ne by congruence. done.
  - intros r Hr _ Hn. tree. rewrite lookup_delete_ne by congruence. by rewrite lookup_insert_ne.
Qed.

Lemma grows_adds f f1 f' p q : grows (parent_of q) f f1 -> adds p q f1 f' -> adds p q f f'.
Proof.
  intros (_ & _ & Hsub & Hnew) [H1 H2]. split.
  - intros r n Hr Hn. apply H1; [done|]. by eapply lookup_weaken.
  - intros r Hr Hp Hn. apply H2; [done | done|]. destruct (nodes f1 !! r) as [n|] eqn:E; [|done].
    by destruct (Hnew r n E Hn) as [_ ?].
Qed.

Lemma publish_staged_quiet self w staged final sha size l x p q :
  wf (fs w) -> faults w = [] -> usable_lease self w l x ->
  check_staged (fs w) staged final sha size = Ok (p, q) -> ready_for (fs w) q ->
  exists f' b, publish_staged_object self staged final sha size l w = (set_fs f' w, Ok q)
    /\ wf f' /\ holds (fs w) p b /\ sha256_hex b = sha /\ Z.of_nat (length b) = size
    /\ holds f' q b /\ nodes f' !! p = None /\ adds p q (fs w) f'.
Proof.
  intros Hwf Hq Hl Hc Hready. pose proof Hc as (Hp & Hf & _ & _ & _ & _ & (st & Hst & Hsz) & Hh)%check_staged_ok.
  destruct (staged_not_final _ _ _ _ Hp Hf) as [Hne Hq0]. apply staged_path_tmp in Hp as [rest Hp].
  apply hash_secure_ok in Hh as (b & Hb & _ & ->). pose proof Hb as (i & y & Hn & Hy & Hyb & Hyl).
  apply regular_file_ok in Hst as (i' & y' & Hn' & Hy' & _ & Hsz' & _).
  assert (i' = i) as -> by congruence. assert (y' = y) as -> by congruence.
  destruct (quiet_mkdirs q w Hwf Hq Hq0 Hready) as (f1 & d & Hm & Hwf1 & Hg & Hd & Hn1 & Hs & Hpr).
  assert (nodes f1 !! p = Some (Regular i)) as Hp1 by (destruct Hg as (_ & _ & Hsub & _); by eapply lookup_weaken).
  destruct (quiet_move p q (set_fs f1 w) i d (st_ret q)) as (f' & Hwf' & Hmv & Hrun);
    [done | done | by rewrite Hp | done | done | done | done|].
  exists f', b. unfold publish_staged_object.
  rewrite (st_bind_ok _ _ _ _ _ (require_lease_ok self l _ w x Hl)). unfold st_bind at 1, look at 1. rewrite Hc.
  unfold publish_checked. rewrite (st_bind_ok _ _ _ _ _ Hm). unfold st_bind at 1, look at 1. cbn [fs set_fs]. rewrite Hs.
  unfold st_bind at 1, look at 1. cbn [fs set_fs]. rewrite Hpr. unfold st_try. rewrite Hrun.
  split_and!; [done | done | done | done | congruence | | |].
  - eapply (moved_holds f1 f' p q i b); [done | done | done | by eapply grows_holds].
  - eapply (moved_holds f1 f' p q i b); [done | done | done | by eapply grows_holds].
  - eapply grows_adds; [exact Hg|]. by eapply moved_adds.
Qed.

(** Object publication succeeds.  With an active lease of this repository, a staged
    file of the expected digest and size, a free final name and no input/output failure,
    the call returns the final path; that path then holds the staged bytes under their
    only name, and the staged name is gone. *)
Theorem object_publication_succeeds self w staged final sha size l x p q :
  wf (fs w) -> faults w = [] -> usable_lease self w l x ->
  check_staged (fs w) staged final sha size = Ok (p, q) -> ready_for (fs w) q ->
  exists f' b, publish_staged_object self staged final sha size l w = (set_fs f' w, Ok q)
    /\ wf f' /\ holds (fs w) p b /\ sha256_hex b = sha /\ Z.of_nat (length b) = size
    /\ holds f' q b /\ nodes f' !! p = None.
Proof.
  intros Hwf Hq Hl Hc Hr. destruct (publish_staged_quiet self w staged final sha size l x p q Hwf Hq Hl Hc Hr)
    as (f' & b & H1 & H2 & H3 & H4 & H5 & H6 & H7 & _). by exists f', b.
Qed.

(** ** Publication of manifests *)

Lemma quiet_create p b (w : W) d :
  wf (fs w) -> faults w = [] -> p <> [] -> nodes (fs w) !! parent_of p = Some (Directory d) -> nodes (fs w) !! p = None ->
  exists f', create_exclusive_file p b w = (set_fs f' w, Ok tt) /\ wf f' /\ holds f' p b
    /\ nodes f' = <[p := Regular (next_ino (fs w))]> (nodes (fs w))
    /\ forall i, i <> next_ino (fs w) -> inodes f' !! i = inodes (fs w) !! i.
Proof.
  intros Hwf Hq Hp Hd Hn. unfold create_exclusive_file. destruct (sys_create p w) as [w1 r1] eqn:E.
  assert (r1 = Ok (next_ino (fs w)) /\ w1 = set_fs (fs w1) w) as [-> Hw1].
  { unfold sys_create in E. erewrite change_quiet in E; [|done | by rewrite (free_name_ok _ p d)]. by injection E as <- <-. }
  destruct (create_step p w w1 _ Hwf E) as (_ & _ & Hwf1 & Hnodes & x & Hino & Hb0 & Hl0).
  rewrite (st_bind_ok _ _ _ _ _ E). set (i := next_ino (fs w)) in *.
  destruct (append_effect i b w1 Hwf1) as (Hwf2 & Hn2 & Hi2 & Hx2).
  assert (faults w1 = []) as Hq1 by (by rewrite Hw1).
  assert (sys_append i b w1 = (set_fs (fs (sys_append i b w1).1) w, Ok tt)) as Ea.
  { unfold sys_append. rewrite Hq1. cbn [fst fs set_fs set_faults]. rewrite Hw1 at 2. f_equal. destruct w. cbn in Hq |- *. by subst. }
  rewrite (st_bind_ok _ _ _ _ _ Ea). unfold sys_fsync, sys. cbn [faults set_fs]. rewrite Hq.
  eexists. split; [reflexivity|]. split; [done|]. split; [|split].
  - destruct (Hx2 x) as (n & x' & Hx' & Hb & Hl & Hn'); [by rewrite Hino, lookup_insert_eq|].
    exists i, x'. rewrite Hn2, Hnodes, lookup_insert_eq. split_and!; [done | done | | congruence].
    rewrite Ea in Hn'. rewrite Hb, Hb0, Hn' by done. cbn. apply firstn_all.
  - by rewrite Hn2.
  - intros j Hj. rewrite Hi2 by done. by rewrite Hino, lookup_insert_ne.
Qed.

Lemma quiet_lift {A B} (a : A) (k : A -> RM B) w : st_bind (st_lift (Ok a)) k w = k a w.
Proof. done. Qed.

Definition temporary_manifest (identity : pystr) : path := [str "tmp"; identity ++ str ".manifest.partial"].

(** The conditions that [publish_manifest] checks, for a manifest with this encoding. *)
Definition publishable (self : DataRepository) (w : W) (m : DataManifest) (l : nat) (encoded : pybytes) : Prop :=
  exists x budget, usable_lease self w l x /\ encode_manifest m = Ok encoded
    /\ output_bytes (ad_request (lease_decision x)) = Some budget /\ Z.of_nat (length encoded) <= budget
    /\ verify_manifest_object (fs w) m = Ok tt
    /\ forall p, m = Partition p -> Forall (fun i => exists s, load_manifest (fs w) i = Ok s) (source_manifest_ids p).

Lemma prepare_ok self w m l encoded :
  publishable self w m l encoded -> prepare_manifest_publication self m l w = (w, Ok encoded).
Proof.
  intros (x & budget & Hl & He & Hb & Hlen & Hv & Hs). unfold prepare_manifest_publication.
  rewrite (st_bind_ok _ _ _ _ _ (require_lease_ok self l _ w x Hl)), He, quiet_lift. unfold look. f_equal.
  eapply (rbind_step _ _ tt); [rewrite Hb; apply raise_when_false; lia|].
  eapply rbind_step; [exact Hv|]. eapply (rbind_step _ _ tt); [|done]. destruct m as [s|p]; [done|].
  apply res_iter_ok. eapply Forall_impl; [by apply Hs|]. intros i [s Hi]. by rewrite Hi.
Qed.

Lemma manifest_id_total m : manifest_valid m -> exists d, manifest_id m = Ok (manifest_kind m ++ 45 :: d).
Proof.
  intros Hv. destruct (manifest_digest_total m Hv) as [d Hd]. exists d. unfold manifest_id, manifest_identity. by rewrite Hd.
Qed.

Lemma manifest_names m identity :
  manifest_id m = Ok identity ->
  manifest_path m = Ok (stored_path (manifest_kind m) identity)
  /\ temporary_manifest identity <> stored_path (manifest_kind m) identity
  /\ (partition_char 45 identity).1 = manifest_kind m.
Proof.
  intros H. split; [unfold manifest_path; by rewrite H|]. split; [done|].
  unfold manifest_id, manifest_identity in H. apply rbind_ok in H as (d & _ & [= <-]).
  rewrite partition_char_app; [done|]. destruct m; apply (bool_decide_unpack _); by vm_compute.
Qed.

Lemma publish_manifest_quiet self w m l encoded identity dt :
  wf (fs w) -> faults w = [] -> manifest_valid m -> publishable self w m l encoded -> manifest_id m = Ok identity ->
  ready_for (fs w) (stored_path (manifest_kind m) identity) ->
  nodes (fs w) !! [str "tmp"] = Some (Directory dt) -> nodes (fs w) !! temporary_manifest identity = None ->
  exists f', publish_manifest self m l (fun _ => Ok tt) w = (set_fs f' w, Ok (stored_path (manifest_kind m) identity))
    /\ wf f' /\ holds f' (stored_path (manifest_kind m) identity) encoded /\ nodes f' !! temporary_manifest identity = None
    /\ adds (temporary_manifest identity) (stored_path (manifest_kind m) identity) (fs w) f'
    /\ (Z.of_nat (length encoded) <= MAX_MANIFEST_BYTES ->
        validate_manifest_id identity [source_prefix; partition_prefix] = Ok tt -> load_manifest f' identity = Ok m).
Proof.
  intros Hwf Hq Hv Hpub Hid Hready Hdt Hnt. destruct (manifest_names m identity Hid) as (Hpath & Hne & Hkind).
  set (q := stored_path (manifest_kind m) identity) in *. set (t := temporary_manifest identity) in *.
  destruct (quiet_mkdirs q w Hwf Hq) as (f1 & d & Hm & Hwf1 & Hg & Hd & Hn1 & Hs & Hpr); [done | done|].
  assert (nodes f1 !! [str "tmp"] = Some (Directory dt)) as Hdt1 by (destruct Hg as (_ & _ & Hsub & _); by eapply lookup_weaken).
  assert (nodes f1 !! t = None) as Hnt1.
  { destruct (nodes f1 !! t) as [n|] eqn:E; [|done]. destruct Hg as (_ & _ & _ & Hnew).
    destruct (Hnew t n E Hnt) as [_ Hp]. unfold t, q, temporary_manifest, stored_path, parent_of in Hp. cbn in Hp.
    apply prefix_cons_inv_1 in Hp. done. }
  destruct (quiet_create t encoded (set_fs f1 w) dt) as (f2 & Hc & Hwf2 & Hh2 & Hnodes2 & Hino2); [done..|].
  cbn [fs set_fs] in Hnodes2. set (i := next_ino f1) in *.
  assert (nodes f2 !! t = Some (Regular i)) as Hti by (by rewrite Hnodes2, lookup_insert_eq).
  destruct (quiet_move t q (set_fs f2 w) i d (st_ret q)) as (f' & Hwf' & Hmv & Hrun);
    [done | done | done | done | done | cbn [fs set_fs]; rewrite Hnodes2, lookup_insert_ne; done
    | cbn [fs set_fs]; rewrite Hnodes2, lookup_insert_ne; done |].
  destruct (moved_holds f2 f' t q i encoded) as (Hh' & Hnt' & _); [done..|].
  exists f'. split_and!; [|done..| |].
  - unfold publish_manifest. rewrite (st_bind_ok _ _ _ _ _ (prepare_ok self w m l encoded Hpub)), Hpath, quiet_lift.
    rewrite (st_bind_ok _ _ _ _ _ Hm). unfold st_bind at 1, look at 1. cbn [fs set_fs]. rewrite Hs.
    unfold st_bind at 1, check_existing_manifest, st_bind at 1, look at 1. cbn [fs set_fs]. rewrite Hpr. cbn [st_ret].
    unfold publish_new_manifest. rewrite Hid, quiet_lift. fold (temporary_manifest identity). fold t.
    unfold st_bind at 1, look at 1. cbn [fs set_fs]. rewrite (present_parent f1 t dt) by done.
    unfold interrupted, st_try at 1. rewrite (st_bind_ok _ _ _ _ _ Hc), quiet_lift.
    assert (st_try (sys_link t q) [FileExistsError] (fun _ => raise_storage IMMUTABLE_CONFLICT
              "manifest appeared concurrently and was not replaced") (set_fs f2 w) = sys_link t q (set_fs f2 w)) as El.
    { unfold st_try. rewrite (quiet_link t q (set_fs f2 w) i d); [done | done | done | done | done | |];
        cbn [fs set_fs]; rewrite Hnodes2, lookup_insert_ne; done. }
    change (set_fs f2 (set_fs f1 w)) with (set_fs f2 w). unfold st_bind at 1. rewrite El. unfold st_bind at 1 in Hrun.
    destruct (sys_link t q (set_fs f2 w)) as [w3 [[]|e3]]; [|done].
    unfold st_bind at 1 in Hrun. unfold st_bind at 1. destruct (sync_directory (parent_of q) w3) as [w4 [[]|e4]]; [|done].
    rewrite quiet_lift, Hrun. done.
  - eapply grows_adds; [exact Hg|]. destruct (moved_adds f2 f' t q i) as [A1 A2]; [done | by rewrite Hnodes2, lookup_insert_ne | done|].
    split.
    + intros r n Hr Hn. apply A1; [done|]. by rewrite Hnodes2, lookup_insert_ne.
    + intros r Hr Hp Hn. destruct (decide (r = t)) as [->|Hrt]; [done|]. apply A2; [done..|]. by rewrite Hnodes2, lookup_insert_ne.
  - intros Hlen Hvid. unfold load_manifest. eapply rbind_step; [exact Hvid|]. rewrite Hkind.
    eapply rbind_step; [by apply read_secure_holds|]. destruct Hpub as (x & budget & _ & He & _). by apply decode_encoded_manifest.
Qed.

(** Manifests are published and loaded back.  Under an active lease whose budget
    covers the encoding, for a manifest whose object verifies and whose sources load, with
    free names and no failure, the manifest lands at the path of its identity, under one
    name and with its whole encoding; the temporary name is gone; and, when the encoding
    fits one mebibyte and the identity is not the zero digest, loading that identity gives
    the same manifest. *)
Theorem manifest_publication_succeeds self w m l encoded identity dt :
  wf (fs w) -> faults w = [] -> manifest_valid m -> publishable self w m l encoded -> manifest_id m = Ok identity ->
  ready_for (fs w) (stored_path (manifest_kind m) identity) ->
  nodes (fs w) !! [str "tmp"] = Some (Directory dt) -> nodes (fs w) !! temporary_manifest identity = None ->
  exists f', publish_manifest self m l (fun _ => Ok tt) w = (set_fs f' w, Ok (stored_path (manifest_kind m) identity))
    /\ wf f' /\ holds f' (stored_path (manifest_kind m) identity) encoded /\ nodes f' !! temporary_manifest identity = None
    /\ (Z.of_nat (length encoded) <= MAX_MANIFEST_BYTES ->
        validate_manifest_id identity [source_prefix; partition_prefix] = Ok tt -> load_manifest f' identity = Ok m).
Proof.
  intros Hwf Hq Hv Hp Hid Hr Hdt Hnt. destruct (publish_manifest_quiet self w m l encoded identity dt Hwf Hq Hv Hp Hid Hr Hdt Hnt)
    as (f' & H1 & H2 & H3 & H4 & _ & H5). by exists f'.
Qed.

(** Creating a file under [t], failing or not, changes no other name. *)
Lemma create_exclusive_outcome t b (w : W) :
  wf (fs w) ->
  let r := create_exclusive_file t b w in
  wf (fs r.1) /\ (forall q, q <> t -> nodes (fs r.1) !! q = nodes (fs w) !! q)
  /\ (r.2 = Ok tt -> names_file (fs r.1) t (eq b)).
Proof.
  intros Hwf. unfold create_exclusive_file, st_bind. destruct (sys_create t w) as [w1 [i|e]] eqn:E.
  2:{ cbn [fst snd]. rewrite (create_failed t w w1 e E). split; [done|]. by split. }
  destruct (create_step t w w1 i Hwf E) as (-> & Hn & Hwf1 & Hnodes & x & Hino & Hb0 & _).
  destruct (append_effect (next_ino (fs w)) b w1 Hwf1) as (Hwf2 & Hn2 & _ & Hx2).
  destruct (Hx2 x) as (n & x' & Hx' & Hb & _ & Hlen); [by rewrite Hino, lookup_insert_eq|].
  assert (forall q, q <> t -> nodes (fs (sys_append (next_ino (fs w)) b w1).1) !! q = nodes (fs w) !! q) as Hother.
  { intros q Hq. rewrite Hn2, Hnodes. by rewrite lookup_insert_ne. }
  destruct (sys_append _ b w1) as [w2 [[]|e2]]; cbn [fst snd] in *; [|by split_and!].
  pose proof (fsync_fs w2) as Ef. rewrite Ef. split_and!; [done..|]. intros _.
  exists (next_ino (fs w)), x'. rewrite Hn2, Hnodes, lookup_insert_eq. split_and!; [done | done|].
  rewrite Hb, Hb0, (Hlen eq_refl). cbn. by rewrite firstn_all.
Qed.

Lemma publish_new_whole w m encoded identity injector :
  wf (fs w) -> manifest_id m = Ok identity ->
  nodes (fs w) !! stored_path (manifest_kind m) identity = None ->
  published_whole (fs w) (temporary_manifest identity) (stored_path (manifest_kind m) identity) (eq encoded)
    (publish_new_manifest m encoded (stored_path (manifest_kind m) identity) injector w).
Proof.
  intros Hwf Hid Hn. destruct (manifest_names m identity Hid) as (_ & Hne & _).
  set (q := stored_path (manifest_kind m) identity) in *. unfold publish_new_manifest. rewrite Hid, quiet_lift.
  fold (temporary_manifest identity). set (t := temporary_manifest identity) in *.
  assert (forall w' e, nodes (fs w') !! q = None -> published_whole (fs w) t q (eq encoded) (w', Err e)) as Hfail
    by (intros w' e H; split; [done | cbn; auto]).
  unfold st_bind at 1, look at 1. destruct (present _ _) as [[]|e] eqn:Hp; [by apply Hfail | | by apply Hfail].
  unfold interrupted. apply published_whole_try. unfold st_bind at 1.
  destruct (create_exclusive_outcome t encoded w Hwf) as (Hwf1 & Hother & Hok).
  destruct (create_exclusive_file t encoded w) as [w1 [[]|e1]]; cbn [fst snd] in *; [|apply Hfail; by rewrite Hother].
  assert (nodes (fs w1) !! q = None) as Hn1 by (by rewrite Hother).
  unfold st_bind at 1, st_lift at 1. destruct (injector TEMP_FILE_SYNCED) as [[]|e2]; [|by apply Hfail].
  destruct (link_and_unlink w1 t q (eq encoded)
    (st_try (sys_link t q) [FileExistsError]
       (fun _ => raise_storage IMMUTABLE_CONFLICT "manifest appeared concurrently and was not replaced"))
    (st_lift (injector MANIFEST_LINKED))) as [H1 H2];
    [apply try_links, link_links | done | done | done | by apply Hok |]. by split; auto.
Qed.

Lemma publish_manifest_whole self w m l injector encoded identity :
  wf (fs w) -> encode_manifest m = Ok encoded -> manifest_id m = Ok identity ->
  nodes (fs w) !! stored_path (manifest_kind m) identity = None ->
  published_whole (fs w) (temporary_manifest identity) (stored_path (manifest_kind m) identity) (eq encoded)
    (publish_manifest self m l injector w).
Proof.
  intros Hwf He Hid Hn. destruct (manifest_names m identity Hid) as (Hpath & Hne & _).
  set (q := stored_path (manifest_kind m) identity) in *. set (t := temporary_manifest identity) in *.
  assert (forall w' e, nodes (fs w') !! q = None -> published_whole (fs w) t q (eq encoded) (w', Err e)) as Hfail
    by (intros w' e H; split; [done | cbn; auto]).
  unfold publish_manifest, st_bind at 1. destruct (prepare_manifest_publication self m l w) as [w0 r0] eqn:E0.
  assert (w0 = w /\ (forall b, r0 = Ok b -> b = encoded)) as [-> Hr0].
  { unfold prepare_manifest_publication, st_bind at 1 in E0.
    destruct (require_lease_cases self l "manifest publication requires an active admission lease" w)
      as [[e Er] | (x & _ & Er)]; rewrite Er in E0; [by injection E0 as <- <-|].
    rewrite He, quiet_lift in E0. injection E0 as <- <-. split; [done|]. intros b Hb.
    do 3 (apply rbind_ok in Hb as ([] & _ & Hb)). by injection Hb as <-. }
  destruct r0 as [b|e0]; [|by apply Hfail]. assert (b = encoded) as -> by (by apply Hr0).
  rewrite Hpath, quiet_lift. unfold st_bind at 1. pose proof (mkdirs_grows (parent_of q) w) as Hg.
  destruct (safe_mkdirs (fun _ => True) (parent_of q) w Hwf) as [Hwf1 _].
  destruct (mkdirs (parent_of q) w) as [w1 r1]. cbn [fst] in *.
  assert (nodes (fs w1) !! q = None) as Hn1 by (by eapply grows_absent).
  destruct r1 as [[]|e1]; [|by apply Hfail]. unfold st_bind at 1, look at 1.
  destruct (assert_safe_path _ _) as [[]|e2]; [|by apply Hfail].
  unfold st_bind at 1, check_existing_manifest, st_bind at 1, look at 1.
  destruct (present _ _) as [[]|e3] eqn:Hp; [|  |by apply Hfail].
  - apply present_true in Hp as [n Hn']. congruence.
  - cbn [st_ret]. destruct (publish_new_whole w1 m encoded identity injector Hwf1 Hid Hn1) as [H1 H2]. by split; auto.
Qed.

(** Manifest publication is all or nothing.  For every schedule of input/output
    failures and every injected fault, the path of the manifest afterwards names its whole
    encoding or, as before, nothing; when the call returns, the encoding is there and the
    temporary name is gone. *)
Theorem manifest_publication_atomic self w m l injector encoded identity :
  wf (fs w) -> encode_manifest m = Ok encoded -> manifest_id m = Ok identity ->
  nodes (fs w) !! stored_path (manifest_kind m) identity = None ->
  published_whole (fs w) (temporary_manifest identity) (stored_path (manifest_kind m) identity) (eq encoded)
    (publish_manifest self m l injector w).
Proof. apply publish_manifest_whole. Qed.

(** ** Interrupted publications *)

Lemma hardlink_unreadable f p i x n :
  wf f -> nodes f !! p = Some (Regular i) -> inodes f !! i = Some x -> ino_nlink x <> 1 ->
  read_secure f p n = storage_error HARDLINK_DETECTED "file cannot be hard linked".
Proof.
  intros Hwf Hp Hx Hl. unfold read_secure, validate_regular_file, lstat. rewrite (proj2 (lookup_node_ok f p _ Hwf) Hp).
  cbn [rbind node_status]. rewrite Hx. cbn [try_except rbind st_type st_nlink]. unfold storage_when.
  rewrite raise_when_false by done. cbn [rbind]. rewrite raise_when_false by done. cbn [rbind].
  by rewrite (proj2 (Z.eqb_neq _ _) Hl).
Qed.

(** Two names of one file. *)
Definition linked_twice (f : filesystem) (p q : path) : Prop :=
  p <> q /\ exists i, nodes f !! p = Some (Regular i) /\ nodes f !! q = Some (Regular i).

Lemma linked_twice_nlink f p q :
  wf f -> linked_twice f p q -> exists i x, nodes f !! q = Some (Regular i) /\ inodes f !! i = Some x /\ ino_nlink x <> 1.
Proof.
  intros Hwf (Hne & i & Hp & Hq). destruct (wf_ino f Hwf p i Hp) as [x Hx]. exists i, x. split_and!; [done..|].
  intros Hl. apply Hne. by eapply single_link.
Qed.

Lemma acquire_lock_fs (w w1 : W) d : acquire_lock w = (w1, Ok d) -> fs w1 = fs w.
Proof.
  unfold acquire_lock. intros E. destruct (lookup_node _ _) as [n|e']; [|by destruct (caught_by e' _)].
  destruct n; try done; destruct (node_status _ _); try done; destruct (_ || _); try done;
    destruct (lock_owner w); try done; by injection E as <- _.
Qed.

(** An interrupted publication is noticed.  While the temporary name of a manifest
    and its final path name the same file, the manifest is not loaded, no usage is
    measured, and so neither an estimate nor an admission succeeds. *)
Theorem interrupted_publication_noticed self w kind identity dev :
  wf (fs w) -> nodes (fs w) !! [] = Some (Directory dev) -> kind = (partition_char 45 identity).1 ->
  linked_twice (fs w) (temporary_manifest identity) (stored_path kind identity) ->
  (exists e, load_manifest (fs w) identity = Err e)
  /\ (exists e, repository_usage self (fs w) = Err e)
  /\ forall request quota,
       (exists e, (estimate self request quota w).2 = Err e) /\ exists e, (acquire_admission self request quota w).2 = Err e.
Proof.
  intros Hwf Hr -> Hl. destruct (linked_twice_nlink _ _ _ Hwf Hl) as (i & x & Hn & Hx & Hnl).
  assert (exists e, repository_usage self (fs w) = Err e) as [e He].
  { unfold repository_usage. destruct (inventory (fs w)) as [items|e] eqn:E; [|by eexists]. exfalso.
    destruct (inventory_ok _ dev items Hwf Hr E) as [Hc _]. destruct (Hc _ _ Hn) as (y & Hy & _ & Hy1). congruence. }
  assert (forall request quota, repository_admission self request quota (fs w) = Err e) as Ha
    by (intros; unfold repository_admission; by rewrite He).
  split; [|split; [eauto|]].
  - unfold load_manifest. destruct (validate_manifest_id _ _) as [[]|e']; [|by eexists]. cbn [rbind].
    rewrite (hardlink_unreadable _ _ i x) by done. by eexists.
  - intros request quota. split.
    + unfold estimate, st_bind. destruct (acquire_lock w) as [w1 [d|e1]] eqn:E1; [|by eexists].
      assert (fs w1 = fs w) as Ef by (by apply (acquire_lock_fs w w1 d)).
      unfold st_finally, look. rewrite Ef, Ha. unfold release_lock. by eexists.
    + unfold acquire_admission, st_bind at 1. destruct (acquire_lock w) as [w1 [d|e1]] eqn:E1; [|by eexists].
      assert (fs w1 = fs w) as Ef by (by apply (acquire_lock_fs w w1 d)).
      rewrite Ef, Ha. unfold st_bind, release_lock. by eexists.
Qed.

(** ** Examples *)

(** The digest of the bytes 1, 2, 3. *)
Definition abc_digest : pystr := Eval vm_compute in sha256_hex [1; 2; 3].

(** The leased world of the histories, with a staged copy of the published object. *)
Definition staged_fs : filesystem :=
  {| nodes := <[[str "tmp"; str "a"] := Regular 2]> (nodes example_fs);
     inodes := <[2 := {| ino_bytes := [1; 2; 3]; ino_nlink := 1; ino_device := 7; ino_blocks := 8 |}]> (inodes example_fs);
     next_ino := 3 |}.
Definition staged_world (l : list (option nat)) : W := set_faults l (set_fs staged_fs leased_world).

Lemma staged_fs_wf : wf staged_fs.
Proof. apply wfb_wf. by vm_compute. Qed.

Lemma object_publication_atomic_witness :
  let r := publish_staged_object example_repository (str "tmp/a") (str "raw/b") abc_digest 3 0 (staged_world [None; Some 1%nat]) in
  published_whole staged_fs [str "tmp"; str "a"] [str "raw"; str "b"] (object_bytes abc_digest 3) r
  /\ undisturbed [str "tmp"; str "a"] staged_fs (fs r.1)
  /\ (forall n, nodes staged_fs !! [str "raw"; str "b"] = Some n -> nodes (fs r.1) !! [str "raw"; str "b"] = Some n).
Proof.
  apply (object_publication_atomic example_repository (staged_world [None; Some 1%nat]) (str "tmp/a") (str "raw/b")
    abc_digest 3 0 [str "tmp"; str "a"] [str "raw"; str "b"]); [exact staged_fs_wf | reflexivity | reflexivity].
Defined.

Lemma object_publication_succeeds_witness :
  exists f' b, publish_staged_object example_repository (str "tmp/a") (str "raw/b") abc_digest 3 0 (staged_world [])
      = (set_fs f' (staged_world []), Ok [str "raw"; str "b"])
    /\ holds f' [str "raw"; str "b"] b /\ Z.of_nat (length b) = 3.
Proof.
  assert (Hl : exists x, usable_lease example_repository (staged_world []) 0 x) by (eexists; split; [reflexivity | split; reflexivity]).
  destruct Hl as [x Hl].
  assert (Hr : ready_for (fs (staged_world [])) [str "raw"; str "b"]).
  { split; [eexists; vm_compute; reflexivity|]. split; [|vm_compute; reflexivity].
    intros q Hq Hne. destruct q as [|a q]; [exfalso; apply Hne; reflexivity|].
    pose proof (prefix_cons_inv_1 _ _ _ _ Hq) as ->. apply prefix_cons_inv_2, prefix_nil_inv in Hq as ->.
    right. eexists. vm_compute. reflexivity. }
  destruct (object_publication_succeeds example_repository (staged_world []) (str "tmp/a") (str "raw/b") abc_digest 3 0 x
    [str "tmp"; str "a"] [str "raw"; str "b"] staged_fs_wf eq_refl Hl ltac:(vm_compute; reflexivity) Hr)
    as (f' & b & H1 & _ & _ & _ & H2 & H3 & _).
  exists f', b. split; [exact H1|]. split; [exact H3 | exact H2].
Defined.

(** A manifest of the published object. *)
Definition object_manifest : DataManifest :=
  Source {| source_name := str "alpaca"; source_version := str "v2"; source_object_id := str "bars/AAPL";
            sm_common := {| lineage := no_lineage; object_sha256 := abc_digest; record_count := 1;
                            schema_name := str "minute"; mf_schema_version := str "1.0.0"; size_bytes := 3;
                            storage_path := str "raw/a"; times := times (common example_manifest);
                            universe_snapshot_digest := example_digest |} |}.

Lemma object_manifest_valid : manifest_valid object_manifest.
Proof. by vm_compute. Qed.

Lemma object_manifest_publishable fl :
  exists encoded identity, publishable example_repository (staged_world fl) object_manifest 0 encoded
    /\ encode_manifest object_manifest = Ok encoded /\ manifest_id object_manifest = Ok identity
    /\ nodes staged_fs !! stored_path source_prefix identity = None
    /\ nodes staged_fs !! temporary_manifest identity = None.
Proof.
  destruct (encode_manifest_total _ object_manifest_valid) as [b Hb]. destruct (manifest_id_total _ object_manifest_valid) as [d Hd].
  exists b, (source_prefix ++ 45 :: d). split; [|split; [done|split; [done|split]]].
  - eexists _, 1000000. split; [split; [reflexivity | split; reflexivity]|]. split; [done|]. split; [reflexivity|].
    split; [pose proof (source_fits _ b object_manifest_valid Hb); lia|]. split; [by vm_compute | done].
  - apply (not_elem_of_list_to_map_1 (([str "tmp"; str "a"], Regular 2) :: ([], Directory 7) :: (lock_path, Regular 1)
      :: ([str "raw"; str "a"], Regular 0) :: map (fun a => ([a], Directory 7)) STORAGE_AREAS)). cbn -[str].
    rewrite !not_elem_of_cons. split_and!; try done. apply not_elem_of_nil.
  - apply (not_elem_of_list_to_map_1 (([str "tmp"; str "a"], Regular 2) :: ([], Directory 7) :: (lock_path, Regular 1)
      :: ([str "raw"; str "a"], Regular 0) :: map (fun a => ([a], Directory 7)) STORAGE_AREAS)). cbn -[str].
    rewrite !not_elem_of_cons. split_and!; try done. apply not_elem_of_nil.
Qed.

Lemma object_manifest_ready fl identity :
  nodes staged_fs !! stored_path source_prefix identity = None -> ready_for (fs (staged_world fl)) (stored_path source_prefix identity).
Proof.
  intros Hn. split; [eexists; by vm_compute|]. split; [|done]. intros q Hq Hne.
  change (q `prefix_of` [str "manifests"; source_prefix]) in Hq.
  destruct q as [|a q]; [done|]. pose proof (prefix_cons_inv_1 _ _ _ _ Hq) as ->. apply prefix_cons_inv_2 in Hq.
  destruct q as [|b q]; [right; eexists; by vm_compute|]. pose proof (prefix_cons_inv_1 _ _ _ _ Hq) as ->.
  apply prefix_cons_inv_2, prefix_nil_inv in Hq as ->. left. by vm_compute.
Qed.

Lemma manifest_publication_succeeds_witness :
  exists encoded identity f', encode_manifest object_manifest = Ok encoded /\ manifest_id object_manifest = Ok identity
    /\ publish_manifest example_repository object_manifest 0 (fun _ => Ok tt) (staged_world [])
       = (set_fs f' (staged_world []), Ok (stored_path source_prefix identity))
    /\ holds f' (stored_path source_prefix identity) encoded.
Proof.
  destruct (object_manifest_publishable []) as (b & i & Hp & Hb & Hi & Hn & Ht). exists b, i.
  destruct (manifest_publication_succeeds example_repository (staged_world []) object_manifest 0 b i 7 staged_fs_wf eq_refl
    object_manifest_valid Hp Hi (object_manifest_ready [] i Hn) ltac:(vm_compute; reflexivity) Ht) as (f' & H1 & _ & H2 & _).
  exists f'. split; [exact Hb|]. split; [exact Hi|]. split; [exact H1 | exact H2].
Defined.

Lemma manifest_publication_atomic_witness :
  exists encoded identity, encode_manifest object_manifest = Ok encoded
    /\ published_whole staged_fs (temporary_manifest identity) (stored_path source_prefix identity) (eq encoded)
         (publish_manifest example_repository object_manifest 0
            (fun s => match s with MANIFEST_LINKED => raise OSError "injected" | _ => Ok tt end) (staged_world [None; Some 5%nat])).
Proof.
  destruct (object_manifest_publishable [None; Some 5%nat]) as (b & i & _ & Hb & Hi & Hn & _). exists b, i.
  split; [exact Hb|]. exact (manifest_publication_atomic example_repository (staged_world [None; Some 5%nat]) object_manifest 0
    _ b i staged_fs_wf Hb Hi Hn).
Defined.

(** A publication that stopped between the link and the removal of the temporary name. *)
Definition stopped_identity : pystr := str "source-aa".
Definition stopped_fs : filesystem :=
  {| nodes := <[temporary_manifest stopped_identity := Regular 2]> (<[stored_path source_prefix stopped_identity := Regular 2]>
       (<[[str "manifests"; source_prefix] := Directory 7]> (nodes example_fs)));
     inodes := <[2 := {| ino_bytes := [123; 125]; ino_nlink := 2; ino_device := 7; ino_blocks := 8 |}]> (inodes example_fs);
     next_ino := 3 |}.

Lemma stopped_fs_wf : wf stopped_fs.
Proof. apply wfb_wf. by vm_compute. Qed.

Lemma interrupted_publication_noticed_witness :
  linked_twice stopped_fs (temporary_manifest stopped_identity) (stored_path source_prefix stopped_identity)
  /\ exists e, repository_usage example_repository stopped_fs = Err e.
Proof.
  assert (Hl : linked_twice stopped_fs (temporary_manifest stopped_identity) (stored_path source_prefix stopped_identity)).
  { split; [discriminate|]. exists 2. split; vm_compute; reflexivity. }
  split; [exact Hl|].
  exact (proj1 (proj2 (interrupted_publication_noticed example_repository (set_fs stopped_fs example_world) source_prefix
    stopped_identity 7 stopped_fs_wf ltac:(vm_compute; reflexivity) eq_refl Hl))).
Defined.
