(* ===== verification/RepositoryVerify.v ===== *)
(** * Verification of a data root

    What a report of [verify] in [Repository.v] means: it passes exactly when the root can
    be measured, every manifest file decodes, carries its own name and describes the bytes
    of its object, and every manifest that is referred to is there. *)

From S2P Require Import Prelude PyText Json Sha256 ReferenceDocuments Storage Manifests FileSystem Repository.
From S2P Require Import RepositoryHistory RepositoryInventory RepositoryPublication.

Open Scope Z_scope.

(** The manifests of the files that pass their own checks, in the order of the files. *)
Definition verified_manifests (f : filesystem) (paths : list path) : list DataManifest :=
  omap (fun p => match check_manifest_file f p with Ok m => Some m | Err _ => None end) paths.

(** The table of [verify]: by identity, the last manifest that carries it. *)
Definition identity_of (m : DataManifest) : pystr := match manifest_id m with Ok i => i | Err _ => [] end.
Definition manifest_table (l : list DataManifest) : list (pystr * DataManifest) :=
  foldl (fun t m => od_set (identity_of m) m t) [] l.

Lemma check_manifest_ok f p m :
  check_manifest_file f p = Ok m ->
  exists b identity, holds f p b /\ decode_manifest b = Ok m /\ manifest_id m = Ok identity
    /\ last p = Some (identity ++ str ".json") /\ verify_manifest_object f m = Ok tt.
Proof.
  unfold check_manifest_file. intros (b & [Hb _]%read_secure_ok & H)%rbind_ok. apply rbind_ok in H as (m' & Hm & H).
  apply rbind_ok in H as ([] & Hn & H). apply rbind_ok in H as ([] & Ho & [= ->]).
  unfold validate_manifest_filename in Hn. apply rbind_ok in Hn as (i & Hi & Hn). apply raise_when_ok in Hn. bprop.
  exists b, i. by split_and!.
Qed.

(** An object that verifies is the object of the manifest. *)
Lemma verified_object f m :
  verify_manifest_object f m = Ok tt ->
  exists p b, validate_relative_path (storage_path (common m)) (Some OBJECT_AREAS) = Ok p /\ holds f p b
    /\ Z.of_nat (length b) = size_bytes (common m) /\ sha256_hex b = object_sha256 (common m).
Proof.
  unfold verify_manifest_object, object_path. intros (p & Hp & H)%rbind_ok. apply rbind_ok in Hp as (q & Hq & Hp).
  apply rbind_ok in Hp as ([] & _ & [= ->]). apply rbind_ok in H as (st & Hst & H). apply rbind_ok in H as ([] & Hs & H).
  apply rbind_ok in H as (d & Hd & H). apply raise_when_ok in Hs, H. bprop. subst d.
  apply regular_file_ok in Hst as (i & x & Hn & Hx & _ & Hsz & _).
  apply hash_secure_ok in Hd as (b & Hb & _ & Hsha). exists p, b. split_and!; [done | done | | done].
  destruct Hb as (i' & x' & Hn' & Hx' & <- & _). assert (i' = i) as -> by congruence. assert (x' = x) as -> by congruence. lia.
Qed.

(** The sizes of verified manifests are byte counts. *)
Lemma check_manifest_size f p m : check_manifest_file f p = Ok m -> 0 <= size_bytes (common m) <= MAX_BYTES.
Proof.
  intros (b & i & _ & [Hv _]%decode_sound & _)%check_manifest_ok. by destruct (valid_common m Hv).
Qed.

Lemma checked_add_two a b :
  0 <= a <= MAX_BYTES -> 0 <= b <= MAX_BYTES ->
  checked_add [a; b] = (if a + b <=? MAX_BYTES then Ok (a + b)
                        else raise OverflowError "signed 64-bit byte calculation overflow").
Proof.
  intros Ha Hb. unfold checked_add, checked_total. rewrite !(proj2 (byte_count_ok _)) by done. cbn [rbind].
  rewrite raise_when_false by lia. cbn [rbind]. replace (0 + a) with a by lia. unfold raise_when.
  destruct (Z.ltb_spec (MAX_BYTES - a) b); destruct (Z.leb_spec (a + b) MAX_BYTES); try lia; done.
Qed.

(** One file of the loop. *)
Lemma verify_one_ok f s p m :
  check_manifest_file f p = Ok m -> 0 <= vs_bytes s <= MAX_BYTES ->
  verify_one f s p
  = Ok {| vs_manifests := od_set (identity_of m) m (vs_manifests s); vs_objects := vs_objects s + 1;
          vs_bytes := if vs_bytes s + size_bytes (common m) <=? MAX_BYTES then vs_bytes s + size_bytes (common m) else vs_bytes s;
          vs_errors := vs_errors s ++ (if vs_bytes s + size_bytes (common m) <=? MAX_BYTES then []
            else [{| issue_code := StorageErrorCode_value IO_FAILURE; issue_path := posix p;
                     issue_detail := str "verified object byte count exceeds signed 64-bit range" |}]) |}.
Proof.
  intros Hm Hb. pose proof (check_manifest_size f p m Hm) as Hs. destruct (check_manifest_ok f p m Hm) as (_ & i & _ & _ & Hi & _).
  unfold verify_one, verify_manifest_path. rewrite Hm. cbn [rbind]. rewrite Hi. unfold identity_of. rewrite Hi. cbn [rbind].
  rewrite checked_add_two by done. destruct (_ <=? _); [by rewrite app_nil_r | done].
Qed.

Lemma verify_one_err f s p e s' :
  check_manifest_file f p = Err e -> verify_one f s p = Ok s' ->
  exists i, s' = {| vs_manifests := vs_manifests s; vs_objects := vs_objects s; vs_bytes := vs_bytes s;
                    vs_errors := vs_errors s ++ [i] |}.
Proof.
  intros He. unfold verify_one. intros (outcome & Ho & H)%rbind_ok. assert (exists i, outcome = inr i) as [i ->].
  { unfold verify_manifest_path in Ho. rewrite He in Ho.
    destruct (exn_cls e); try (destruct (caught_by e _)); try done; injection Ho as <-; by eexists. }
  injection H as <-. by eexists.
Qed.

Lemma sum_of_cons {A} (g : A -> Z) x l : sum_of g (x :: l) = g x + sum_of g l.
Proof. done. Qed.

(** The loop: the manifests it holds, and when it reports nothing. *)
Lemma verify_files_spec f s paths s' :
  0 <= vs_bytes s <= MAX_BYTES -> verify_files f s paths = Ok s' ->
  vs_manifests s' = foldl (fun t m => od_set (identity_of m) m t) (vs_manifests s) (verified_manifests f paths)
  /\ vs_objects s' = vs_objects s + Z.of_nat (length (verified_manifests f paths))
  /\ exists errs, vs_errors s' = vs_errors s ++ errs
     /\ (errs = [] <-> Forall (fun p => exists m, check_manifest_file f p = Ok m) paths
                      /\ vs_bytes s + sum_of (fun m => size_bytes (common m)) (verified_manifests f paths) <= MAX_BYTES)
     /\ (errs = [] -> vs_bytes s' = vs_bytes s + sum_of (fun m => size_bytes (common m)) (verified_manifests f paths)).
Proof.
  revert s. induction paths as [|p paths IH]; intros s Hb; cbn [verify_files].
  { intros [= <-]. cbn. split; [done|]. split; [lia|]. exists []. rewrite app_nil_r. split; [done|].
    split; [split; [intros _; split; [constructor | lia] | done] | lia]. }
  intros (s1 & H1 & H)%rbind_ok. unfold verified_manifests. cbn [omap list_omap].
  destruct (check_manifest_file f p) as [m|e] eqn:E.
  - rewrite (verify_one_ok f s p m E Hb) in H1. injection H1 as <-. pose proof (check_manifest_size f p m E) as Hs.
    match type of H with verify_files f ?s2 _ = _ =>
      destruct (IH s2) as (Hm & Ho & errs & He & Hiff & Hbytes);
        [cbn [vs_bytes]; destruct (Z.leb_spec (vs_bytes s + size_bytes (common m)) MAX_BYTES); lia | exact H|] end. clear IH. cbn [vs_manifests vs_objects vs_bytes vs_errors] in *.
    fold (verified_manifests f paths) in *. split; [exact Hm|]. split; [cbn [length]; lia|].
    assert (forall l : list DataManifest, Forall (fun m => 0 <= size_bytes (common m)) l -> 0 <= sum_of (fun m => size_bytes (common m)) l) as Hpos.
    { intros l. unfold sum_of. induction 1; cbn; lia. }
    assert (0 <= sum_of (fun m => size_bytes (common m)) (verified_manifests f paths)) as Hp.
    { apply Hpos, Forall_forall. intros k (q & _ & Hk)%list_elem_of_omap.
      destruct (check_manifest_file f q) as [k'|] eqn:Ek; [|done]. injection Hk as ->. apply check_manifest_size in Ek. lia. }
    rewrite !sum_of_cons.
    destruct (Z.leb_spec (vs_bytes s + size_bytes (common m)) MAX_BYTES) as [Hle|Hgt].
    + exists errs. rewrite <- app_assoc in He. split; [exact He|]. split; [|intros ->; rewrite Hbytes by done; lia].
      rewrite Hiff. split.
      * intros [HF Hsum]. split; [constructor; eauto | lia].
      * intros [HF Hsum]. apply Forall_cons in HF as [_ HF]. split; [done | lia].
    + eexists. rewrite <- app_assoc in He. split; [exact He|]. split; [|done]. split; [done|]. intros [_ Hsum]. lia.
  - destruct (verify_one_err f s p e s1 E H1) as [i ->]. 
    match type of H with verify_files f ?s2 _ = _ => destruct (IH s2 Hb H) as (Hm & Ho & errs & He & _) end. cbn in *.
    split; [exact Hm|]. split; [exact Ho|]. exists (i :: errs). rewrite <- app_assoc in He. split; [exact He|].
    split; [|done]. split; [done|]. intros [HF _]. apply Forall_cons in HF as [[m Hm'] _]. congruence.
Qed.

(** Nothing is missing when every reference has an entry. *)
Lemma reference_issues_nil t l :
  reference_issues t = Ok l ->
  l = [] <-> Forall (fun km => Forall (fun r => r ∈ map fst t) (references km.2)) t.
Proof.
  unfold reference_issues. intros (found & Hf & [= <-])%rbind_ok. apply res_map_ok in Hf.
  assert (forall parts (u : list (pystr * DataManifest)), Forall2 (fun km part => res_map (fun r =>
      let! p := manifest_path km.2 in
      Ok {| issue_code := StorageErrorCode_value MISSING_LINEAGE; issue_path := posix p;
            issue_detail := str "referenced manifest is absent: " ++ r |})
      (List.filter (fun r => negb (bool_decide (r ∈ map fst t))) (references km.2)) = Ok part) u parts ->
    concat parts = [] <-> Forall (fun km => Forall (fun r => r ∈ map fst t) (references km.2)) u) as H; [|by apply H].
  intros parts u. induction 1 as [|km part u parts Hp _ IH]; [by split; [constructor|]|]. cbn [concat].
  rewrite Forall_cons, <- IH. apply res_map_ok, Forall2_length in Hp.
  assert (part = [] <-> Forall (fun r => r ∈ map fst t) (references km.2)) as Hpart.
  { rewrite <- length_zero_iff_nil, <- Hp. clear. induction (references km.2) as [|r l IH]; [by split; [constructor|]|].
    cbn. rewrite Forall_cons. case_bool_decide; cbn; [rewrite IH; naive_solver | naive_solver]. }
  rewrite <- Hpart. destruct part; cbn; [naive_solver|]. split; [done | naive_solver].
Qed.

Lemma py_sorted_nil {A} (leb : A -> A -> bool) l : py_sorted leb l = [] <-> l = [].
Proof.
  split; [|by intros ->]. intros H. pose proof (py_sorted_perm leb l) as Hp. rewrite H in Hp. by apply Permutation_nil in Hp.
Qed.

(** ** Properties *)

(** What a passing report says of the manifest files of a root: each passes its own
    checks, their sizes add up to a signed 64-bit number, and every manifest that one of
    them refers to is among them. *)
Definition root_verified (f : filesystem) (paths : list path) : Prop :=
  Forall (fun p => exists m, check_manifest_file f p = Ok m) paths
  /\ sum_of (fun m => size_bytes (common m)) (verified_manifests f paths) <= MAX_BYTES
  /\ Forall (fun km => Forall (fun r => r ∈ map fst (manifest_table (verified_manifests f paths))) (references km.2))
       (manifest_table (verified_manifests f paths)).

(** A file at [p] that is a manifest under its own name, with its object in place. *)
Definition describes_object (f : filesystem) (p : path) : Prop :=
  exists m data identity q b,
    holds f p data /\ decode_manifest data = Ok m /\ manifest_id m = Ok identity
    /\ last p = Some (identity ++ str ".json")
    /\ validate_relative_path (storage_path (common m)) (Some OBJECT_AREAS) = Ok q /\ holds f q b
    /\ Z.of_nat (length b) = size_bytes (common m) /\ sha256_hex b = object_sha256 (common m).

Lemma check_manifest_describes f p m : check_manifest_file f p = Ok m -> describes_object f p.
Proof.
  intros (b & i & Hb & Hd & Hi & Hl & Hv)%check_manifest_ok.
  apply verified_object in Hv as (q & c & Hq & Hc & Hs' & Hh). exists m, b, i, q, c. by split_and!.
Qed.

Lemma length_verified f paths :
  Forall (fun p => exists m, check_manifest_file f p = Ok m) paths -> length (verified_manifests f paths) = length paths.
Proof.
  unfold verified_manifests. induction 1 as [|p paths [m Hm] _ IH]; [done|]. cbn [omap list_omap]. rewrite Hm. cbn. lia.
Qed.

(** The report of a root that can be measured. *)
Lemma verify_measured self f u paths rep :
  repository_usage self f = Ok u -> manifest_files f = Ok paths -> verify self f = Ok rep ->
  checked_manifests rep = Z.of_nat (length paths)
  /\ (passed rep = true <-> root_verified f paths)
  /\ (passed rep = true -> checked_objects rep = Z.of_nat (length paths)
      /\ verified_bytes rep = sum_of (fun m => size_bytes (common m)) (verified_manifests f paths)).
Proof.
  intros Hu Hp H. unfold verify in H. rewrite Hu, Hp in H. cbn [rbind] in H. apply rbind_ok in H as (s & Hs & H).
  apply rbind_ok in H as (missing & Hm & [= <-]). unfold passed, root_verified. cbn [report_errors checked_manifests checked_objects verified_bytes].
  apply verify_files_spec in Hs as (Ht & Ho & errs & He & Hiff & Hbytes); [|cbn; unfold MAX_BYTES; lia].
  cbn [vs_manifests vs_objects vs_bytes vs_errors app] in *. fold (manifest_table (verified_manifests f paths)) in Ht.
  apply reference_issues_nil in Hm. rewrite Ht in Hm. rewrite He, bool_decide_eq_true, length_zero_iff_nil, py_sorted_nil.
  assert (errs ++ missing = [] <-> errs = [] /\ missing = []) as -> by (destruct errs, missing; cbn; naive_solver).
  rewrite Hiff, Hm. split; [done|]. split; [rewrite Z.add_0_l; naive_solver|]. intros [[HF Hle] _].
  rewrite Hbytes by (apply Hiff; done). split; [|lia]. rewrite Ho, length_verified by done. lia.
Qed.

Lemma verify_files_total f s paths :
  0 <= vs_bytes s <= MAX_BYTES -> Forall (fun p => exists m, check_manifest_file f p = Ok m) paths ->
  exists s', verify_files f s paths = Ok s'.
Proof.
  intros Hb HF. revert s Hb. induction HF as [|p paths [m Hm] _ IH]; intros s Hb; [by eexists|]. cbn [verify_files].
  rewrite (verify_one_ok f s p m Hm Hb). cbn [rbind]. apply IH. cbn [vs_bytes].
  apply check_manifest_size in Hm. destruct (Z.leb_spec (vs_bytes s + size_bytes (common m)) MAX_BYTES); lia.
Qed.

Lemma reference_issues_total t :
  Forall (fun km => Forall (fun r => r ∈ map fst t) (references km.2)) t -> reference_issues t = Ok [].
Proof.
  intros HF. unfold reference_issues.
  assert (forall u : list (pystr * DataManifest), Forall (fun km => Forall (fun r => r ∈ map fst t) (references km.2)) u ->
    res_map (fun km => res_map (fun r =>
      let! p := manifest_path km.2 in
      Ok {| issue_code := StorageErrorCode_value MISSING_LINEAGE; issue_path := posix p;
            issue_detail := str "referenced manifest is absent: " ++ r |})
      (List.filter (fun r => negb (bool_decide (r ∈ map fst t))) (references km.2))) u = Ok (map (fun _ => []) u)) as H.
  { induction 1 as [|km u Hk _ IH]; [done|]. cbn [res_map map]. rewrite IH.
    assert (List.filter (fun r => negb (bool_decide (r ∈ map fst t))) (references km.2) = []) as ->; [|done].
    induction Hk as [|r l Hr _ IHl]; [done|]. cbn. by rewrite bool_decide_eq_true_2. }
  rewrite H by done. cbn [rbind]. f_equal. clear. induction t; [done|]. cbn. done.
Qed.

Lemma verify_total self f u paths :
  repository_usage self f = Ok u -> manifest_files f = Ok paths -> root_verified f paths -> exists rep, verify self f = Ok rep.
Proof.
  intros Hu Hp (HF & _ & Hr). unfold verify. rewrite Hu, Hp. cbn [rbind].
  match goal with |- context [verify_files f ?s _] => destruct (verify_files_total f s paths) as [s' Hs] end;
    [cbn; unfold MAX_BYTES; lia | done|]. rewrite Hs. cbn [rbind].
  apply verify_files_spec in Hs as (Ht & _); [|cbn; unfold MAX_BYTES; lia]. cbn [vs_manifests] in Ht.
  rewrite Ht. fold (manifest_table (verified_manifests f paths)). rewrite reference_issues_total by done. by eexists.
Qed.

(** C22: verification is exact.  A passing report is returned exactly when the root can be
    measured, its manifest directories can be listed, every manifest file decodes to a
    manifest that carries the file's name and whose object is there with the recorded size
    and digest, the sizes add up to a signed 64-bit number, and every manifest that one of
    them refers to is among them.  When the measurement fails with a storage error the
    report has that error as its only issue.  Otherwise the report counts every manifest
    file, and if it passes all objects and the sum of their sizes. *)
Theorem verify_exact self f :
  ((exists rep, verify self f = Ok rep /\ passed rep = true) <->
   exists u paths, repository_usage self f = Ok u /\ manifest_files f = Ok paths /\ root_verified f paths)
  /\ (forall e code, repository_usage self f = Err e -> exn_cls e = StorageError code ->
      verify self f = Ok {| checked_manifests := 0; checked_objects := 0; verified_bytes := 0;
                            report_errors := [{| issue_code := StorageErrorCode_value code; issue_path := str ".";
                                                 issue_detail := str (exn_msg e) |}] |})
  /\ (forall u paths rep, repository_usage self f = Ok u -> manifest_files f = Ok paths -> verify self f = Ok rep ->
      checked_manifests rep = Z.of_nat (length paths)
      /\ (passed rep = true <-> root_verified f paths)
      /\ (passed rep = true -> checked_objects rep = Z.of_nat (length paths)
          /\ verified_bytes rep = sum_of (fun m => size_bytes (common m)) (verified_manifests f paths)
          /\ Forall (describes_object f) paths)).
Proof.
  split; [|split].
  - split.
    + intros (rep & Hv & Hp). destruct (repository_usage self f) as [u|e] eqn:Hu.
      * destruct (manifest_files f) as [paths|e] eqn:Hf; [|unfold verify in Hv; by rewrite Hu, Hf in Hv].
        exists u, paths. split_and!; [done | done|]. by apply (verify_measured self f u paths rep Hu Hf Hv).
      * unfold verify in Hv. rewrite Hu in Hv. destruct (exn_cls e); try done. by injection Hv as <-.
    + intros (u & paths & Hu & Hf & Hr). destruct (verify_total self f u paths Hu Hf Hr) as [rep Hv].
      exists rep. split; [done|]. by apply (verify_measured self f u paths rep Hu Hf Hv).
  - intros e code Hu He. unfold verify. by rewrite Hu, He.
  - intros u paths rep Hu Hf Hv. destruct (verify_measured self f u paths rep Hu Hf Hv) as (H1 & H2 & H3).
    split; [done|]. split; [done|]. intros Hp. destruct (H3 Hp) as [H4 H5]. split_and!; [done | done |].
    apply H2 in Hp as [HF _]. eapply Forall_impl; [exact HF|]. intros p [m Hm]. by eapply check_manifest_describes.
Qed.

(** A root with one manifest file that is not a manifest. *)
Definition corrupt_fs : filesystem :=
  {| nodes := <[[str "manifests"; source_prefix; str "x.json"] := Regular 2]>
                (<[[str "manifests"; source_prefix] := Directory 7]> (nodes example_fs));
     inodes := <[2 := {| ino_bytes := [123; 125]; ino_nlink := 1; ino_device := 7; ino_blocks := 8 |}]> (inodes example_fs);
     next_ino := 3 |}.

Lemma verify_exact_witness :
  exists rep, verify example_repository corrupt_fs = Ok rep /\ checked_manifests rep = 1 /\ passed rep = false.
Proof.
  assert (Hv : exists rep, verify example_repository corrupt_fs = Ok rep) by (vm_compute; eexists; reflexivity).
  assert (Hu : exists u, repository_usage example_repository corrupt_fs = Ok u) by (vm_compute; eexists; reflexivity).
  destruct Hv as [rep Hv]. destruct Hu as [u Hu]. exists rep. split; [exact Hv|].
  destruct (proj2 (proj2 (verify_exact example_repository corrupt_fs)) u [[str "manifests"; source_prefix; str "x.json"]] rep Hu
    ltac:(vm_compute; reflexivity) Hv) as (H1 & H2 & _).
  split; [exact H1|]. apply not_true_iff_false. intros Hp. apply H2 in Hp as [HF _]. inversion HF as [|p l [m Hm] _]; subst.
  vm_compute in Hm. discriminate Hm.
Defined.
