(* ===== verification/Ingestion.v ===== *)
(** * Ingestion contracts

    Models the data of [python/research/aegis_mx_research/ingestion.py]: error and status
    codes, entitlements, rate and retry policies, fetch requests, source objects, the
    checkpoint of a download with its codec, fetch plans and results, and the rate limiter.
    The coordinator that uses them is in [Coordinator.v].

    The regular expressions of identifiers, symbols and digests are the predicates
    [is_identifier], [is_symbol] and [is_sha256].  The redacted messages of results are for
    people and are left out, with the functions that redact them. *)

From S2P Require Import Prelude PyText Json Sha256 PyDateTime ReferenceDocuments Storage Manifests.

Open Scope Z_scope.

Definition INGESTION_SCHEMA_VERSION : pystr := str "1.0.0".
Definition DEFAULT_INGESTION_SEED : Z := 20260831.
Definition MAX_FETCH_OBJECTS : Z := 20000.
Definition MAX_FETCH_TICKERS : Z := 10000.
Definition MAX_FETCH_DAYS : Z := 3660.
Definition MAX_CHUNK_BYTES : Z := 16777216.
Definition MAX_CHECKPOINT_BYTES : Z := 65536.
Definition MANIFEST_ESTIMATE_BYTES : Z := 4096.
Definition MAX_LOCATOR_BYTES : Z := 512.
Definition MAX_REQUEST_RATE : Z := 1000000.
Definition MAX_PROVIDER_TIMEOUT_NS : Z := 300000000000.
Definition MAX_RETRY_ATTEMPTS : Z := 16.
Definition MAX_CONCURRENCY : Z := 32.
Definition MAX_METADATA_TEXT_BYTES : Z := 160.
Definition SATURDAY_INDEX : Z := 5.

Definition FetchErrorCode_value (c : FetchErrorCode) : pystr :=
  str match c with
      | FE_INVALID_REQUEST => "INVALID_REQUEST" | UNAUTHORIZED => "UNAUTHORIZED"
      | PLAN_MISMATCH => "PLAN_MISMATCH" | PROVIDER_UNAVAILABLE => "PROVIDER_UNAVAILABLE"
      | SIZE_UNKNOWN => "SIZE_UNKNOWN" | OBJECT_TOO_LARGE => "OBJECT_TOO_LARGE"
      | RETRY_EXHAUSTED => "RETRY_EXHAUSTED" | TIMEOUT => "TIMEOUT" | RATE_LIMITED => "RATE_LIMITED"
      | PARTIAL_RESPONSE => "PARTIAL_RESPONSE" | OBJECT_CHANGED => "OBJECT_CHANGED"
      | FE_HASH_MISMATCH => "HASH_MISMATCH" | MALFORMED_OBJECT => "MALFORMED_OBJECT"
      | DUPLICATE_OBJECT => "DUPLICATE_OBJECT" | CHECKPOINT_CORRUPT => "CHECKPOINT_CORRUPT"
      | CREDENTIAL_UNAVAILABLE => "CREDENTIAL_UNAVAILABLE" | SHUTDOWN => "SHUTDOWN"
      | FE_IO_FAILURE => "IO_FAILURE"
      end.

Inductive FetchStatus := PLANNED | COMPLETED | ALREADY_PRESENT | QUARANTINED | STOPPED | FAILED | PARTIAL.
#[export] Instance FetchStatus_eq_dec : EqDecision FetchStatus.
Proof. solve_decision. Defined.

Inductive ProviderHealthState := PH_UNKNOWN | HEALTHY | DEGRADED | UNAVAILABLE.
#[export] Instance ProviderHealthState_eq_dec : EqDecision ProviderHealthState.
Proof. solve_decision. Defined.

Inductive DataEntitlementState :=
  | DE_UNKNOWN | DISABLED | REVIEW_REQUIRED | BLOCKED | AUTHORIZED | EXPIRED | DENIED | LOCAL_TEST_ONLY.
#[export] Instance DataEntitlementState_eq_dec : EqDecision DataEntitlementState.
Proof. solve_decision. Defined.

Definition DataEntitlementState_value (s : DataEntitlementState) : pystr :=
  str match s with
      | DE_UNKNOWN => "UNKNOWN" | DISABLED => "DISABLED" | REVIEW_REQUIRED => "REVIEW_REQUIRED"
      | BLOCKED => "BLOCKED" | AUTHORIZED => "AUTHORIZED" | EXPIRED => "EXPIRED" | DENIED => "DENIED"
      | LOCAL_TEST_ONLY => "LOCAL_TEST_ONLY"
      end.

Inductive ResumeMode := VERIFIED_RANGE | COMPLETE_OBJECT_RESTART.
#[export] Instance ResumeMode_eq_dec : EqDecision ResumeMode.
Proof. solve_decision. Defined.

Definition ResumeMode_value (m : ResumeMode) : pystr :=
  str match m with VERIFIED_RANGE => "VERIFIED_RANGE" | COMPLETE_OBJECT_RESTART => "COMPLETE_OBJECT_RESTART" end.

(** ** Checks *)

Definition fetch_error {A} (code : FetchErrorCode) (msg : string) : res A := raise (FetchContractError code) msg.
Definition fetch_when (b : bool) (code : FetchErrorCode) (msg : string) : res unit :=
  raise_when b (FetchContractError code) msg.

(** The code that an exception carries when [except FetchContractError] catches it. *)
Definition fetch_code (e : exn) : option FetchErrorCode :=
  match exn_cls e with
  | FetchContractError c | ProviderFetchError c _ _ => Some c
  | _ => None
  end.

(** [_IDENTIFIER]: [^[a-z][a-z0-9_-]{2,127}$] *)
Definition identifier_char (c : Z) : bool := is_lower c || is_decimal c || (c =? 95) || (c =? 45).
Definition is_identifier (s : pystr) : bool :=
  match s with
  | c :: rest => is_lower c && forallb identifier_char rest && (2 <=? Z.of_nat (length rest))
                 && (Z.of_nat (length rest) <=? 127)
  | [] => false
  end.

(** [_SYMBOL]: [^[A-Z][A-Z0-9]*(?:[.-][A-Z0-9]+)?$] *)
Definition symbol_char (c : Z) : bool := is_upper c || is_decimal c.
Definition symbol_mark (c : Z) : bool := (c =? 46) || (c =? 45).
Fixpoint symbol_rest (s : pystr) : bool :=
  match s with
  | [] => true
  | c :: rest => if symbol_mark c then negb (bool_decide (rest = [])) && forallb symbol_char rest
                 else symbol_char c && symbol_rest rest
  end.
Definition is_symbol (s : pystr) : bool :=
  match s with c :: rest => is_upper c && symbol_rest rest | [] => false end.

(** [_SHA256]: [^[0-9a-f]{64}$], and not all zeros *)
Definition zero_digest : pystr := replicate 64 48.
Definition is_sha256 (s : pystr) : bool :=
  (Z.of_nat (length s) =? 64) && forallb is_hex_digit s && negb (bool_decide (s = zero_digest)).

(** [_require_identifier] *)
Definition require_identifier (s : pystr) : res unit :=
  fetch_when (negb (is_identifier s)) FE_INVALID_REQUEST "must be a lowercase bounded identifier".

(** [_require_sha256] *)
Definition require_sha256 (s : pystr) : res unit :=
  fetch_when (negb (is_sha256 s)) FE_INVALID_REQUEST "must be a nonzero lowercase SHA-256 digest".

(** [_require_byte_count] *)
Definition require_byte_count (positive : bool) (v : Z) : res unit :=
  fetch_when ((v <? (if positive then 1 else 0)) || (MAX_BYTES <? v)) FE_INVALID_REQUEST
    "is outside the signed 64-bit byte range".

(** [_checked_sum] *)
Fixpoint checked_sum_from (total : Z) (values : list Z) : res Z :=
  match values with
  | [] => Ok total
  | v :: rest =>
      do! require_byte_count false v in
      do! fetch_when (MAX_BYTES - total <? v) FE_INVALID_REQUEST "signed 64-bit byte calculation overflow" in
      checked_sum_from (total + v) rest
  end.
Definition checked_sum : list Z -> res Z := checked_sum_from 0.

(** [_utc_nanoseconds] *)
Definition utc_nanoseconds (t : datetime) : res Z :=
  do! fetch_when (negb (bool_decide (dt_offset t = Some 0))) FE_INVALID_REQUEST "timestamp must be explicitly UTC" in
  Ok (moment_ns t 0).

(** [_date_range] *)
Definition date_range (first last : date) : res (list date) :=
  let days := toordinal last - toordinal first + 1 in
  do! fetch_when ((days <? 1) || (MAX_FETCH_DAYS <? days)) FE_INVALID_REQUEST
        "date range must contain 1 through 3660 days" in
  Ok (days_from (Z.to_nat days) first).

(** Bounded text: [not value or "\x00" in value or len(value.encode("utf-8")) > maximum] *)
Definition malformed_text (maximum : Z) (s : pystr) : res bool :=
  if bool_decide (s = []) || existsb (Z.eqb 0) s then Ok true
  else let! encoded := utf8_encode s in Ok (maximum <? Z.of_nat (length encoded)).

(** [_safe_locator] *)
Definition safe_locator (s : pystr) : res unit :=
  let msg := "source locator must be bounded and contain no credentials or query"%string in
  if bool_decide (s = []) then fetch_error FE_INVALID_REQUEST msg
  else
    let! encoded := utf8_encode s in
    fetch_when ((MAX_LOCATOR_BYTES <? Z.of_nat (length encoded))
                || existsb (fun c => (c =? 0) || (c =? 63) || (c =? 35) || (c =? 64)) s) FE_INVALID_REQUEST msg.

(** ** Entitlements *)

Record DataEntitlement := {
  en_source_id : pystr;
  en_dataset_id : pystr;
  en_state : DataEntitlementState;
  en_network_access_authorized : bool;
  en_policy_sha256 : option pystr;
  en_approval_record_sha256 : option pystr;
  en_expires_at_utc : option datetime;
}.

Definition DataEntitlement_post_init (e : DataEntitlement) : res unit :=
  do! require_identifier (en_source_id e) in
  do! require_identifier (en_dataset_id e) in
  if bool_decide (en_state e = AUTHORIZED) then
    do! fetch_when (negb (en_network_access_authorized e)) UNAUTHORIZED
          "authorized remote entitlement lacks network authority" in
    match en_policy_sha256 e, en_approval_record_sha256 e with
    | Some policy, Some approval =>
        do! require_sha256 policy in
        do! require_sha256 approval in
        match en_expires_at_utc e with
        | Some {| dt_offset := Some offset |} =>
            fetch_when (negb (offset =? 0)) UNAUTHORIZED "entitlement expiry must be UTC"
        | _ => fetch_error UNAUTHORIZED "authorized remote entitlement lacks a UTC expiry"
        end
    | _, _ => fetch_error UNAUTHORIZED "authorized remote entitlement lacks immutable evidence"
    end
  else fetch_when (en_network_access_authorized e) UNAUTHORIZED
         "non-authorized entitlement cannot grant network access".

(** Comparison of two moments; a naive one cannot be compared with an aware one. *)
Definition later (a b : datetime) : res bool :=
  match dt_offset a, dt_offset b with
  | Some x, Some y => Ok (moment_ns b y <? moment_ns a x)
  | None, None => Ok (moment_ns b 0 <? moment_ns a 0)
  | _, _ => raise TypeError "can't compare offset-naive and offset-aware datetimes"
  end.

(** [DataEntitlement.permits] *)
Definition permits (e : DataEntitlement) (remote : bool) (now : datetime) : res bool :=
  if negb remote then Ok (bool_decide (en_state e = LOCAL_TEST_ONLY))
  else if bool_decide (en_state e = AUTHORIZED) && en_network_access_authorized e then
    match en_expires_at_utc e with
    | Some expiry => later expiry now
    | None => Ok false
    end
  else Ok false.

Definition optional_text : option pystr -> json := optional JStr.

Definition entitlement_dict (e : DataEntitlement) : json :=
  JObj [(str "approval_record_sha256", optional_text (en_approval_record_sha256 e));
        (str "dataset_id", JStr (en_dataset_id e));
        (str "expires_at_utc", optional (fun t => JStr (replace_all (str "+00:00") (str "Z") (datetime_isoformat t)))
                                 (en_expires_at_utc e));
        (str "network_access_authorized", JBool (en_network_access_authorized e));
        (str "policy_sha256", optional_text (en_policy_sha256 e));
        (str "source_id", JStr (en_source_id e));
        (str "state", JStr (DataEntitlementState_value (en_state e)))].

(** ** Rate and retry policies *)

Record RateLimitPolicy := {
  requests_per_window : Z;
  window_ns : Z;
  maximum_wait_ns : Z;
}.
Definition default_rate_limit : RateLimitPolicy :=
  {| requests_per_window := 10; window_ns := 1000000000; maximum_wait_ns := 60000000000 |}.

Definition RateLimitPolicy_post_init (p : RateLimitPolicy) : res unit :=
  do! res_iter (require_byte_count true) [requests_per_window p; window_ns p; maximum_wait_ns p] in
  fetch_when (MAX_REQUEST_RATE <? requests_per_window p) FE_INVALID_REQUEST "request rate exceeds policy bound".

(** [RateLimitPolicy.minimum_interval_ns] *)
Definition minimum_interval_ns (p : RateLimitPolicy) : Z := Z.max 1 (window_ns p / requests_per_window p).

Definition rate_limit_dict (p : RateLimitPolicy) : json :=
  JObj [(str "maximum_wait_ns", JInt (maximum_wait_ns p));
        (str "requests_per_window", JInt (requests_per_window p));
        (str "window_ns", JInt (window_ns p))].

Record RetryPolicy := {
  maximum_attempts : Z;
  base_delay_ns : Z;
  maximum_delay_ns : Z;
  maximum_jitter_ns : Z;
  retry_seed : Z;
}.
Definition default_retry : RetryPolicy :=
  {| maximum_attempts := 3; base_delay_ns := 10000000; maximum_delay_ns := 2000000000;
     maximum_jitter_ns := 5000000; retry_seed := DEFAULT_INGESTION_SEED |}.

Definition RetryPolicy_post_init (p : RetryPolicy) : res unit :=
  do! fetch_when (negb ((1 <=? maximum_attempts p) && (maximum_attempts p <=? MAX_RETRY_ATTEMPTS)))
        FE_INVALID_REQUEST "maximum_attempts must be between 1 and 16" in
  do! res_iter (require_byte_count false) [base_delay_ns p; maximum_delay_ns p; maximum_jitter_ns p] in
  fetch_when (maximum_delay_ns p <? base_delay_ns p) FE_INVALID_REQUEST "base retry delay exceeds maximum delay".

(** [text.encode("ascii")] *)
Definition ascii_encode (s : pystr) : res pybytes :=
  if forallb is_ascii s then Ok s else raise UnicodeError "'ascii' codec can't encode character".

(** [int.from_bytes(b, "big")] *)
Definition int_from_bytes (b : pybytes) : Z := foldl (fun acc x => acc * 256 + x) 0 b.

(** [RetryPolicy.delay_ns] *)
Definition delay_ns (p : RetryPolicy) (attempt : Z) (object_id : pystr) : res Z :=
  do! fetch_when ((attempt <? 1) || (maximum_attempts p <=? attempt)) FE_INVALID_REQUEST
        "retry attempt is outside the configured budget" in
  let exponential := Z.min (maximum_delay_ns p) (base_delay_ns p * Z.shiftl 1 (Z.min (attempt - 1) 62)) in
  let! seed := int_str (retry_seed p) in
  let! number := int_str attempt in
  let! text := ascii_encode (seed ++ 58 :: object_id ++ 58 :: number) in
  let jitter := if maximum_jitter_ns p =? 0 then 0
                else int_from_bytes (take 8 (sha256 text)) mod (maximum_jitter_ns p + 1) in
  Ok (Z.min (maximum_delay_ns p) (exponential + jitter)).

Definition retry_dict (p : RetryPolicy) : json :=
  JObj [(str "base_delay_ns", JInt (base_delay_ns p));
        (str "deterministic_seed", JInt (retry_seed p));
        (str "maximum_attempts", JInt (maximum_attempts p));
        (str "maximum_delay_ns", JInt (maximum_delay_ns p));
        (str "maximum_jitter_ns", JInt (maximum_jitter_ns p))].

(** [_RateLimiter.acquire], from the next free instant, for the readings of the clock
    before and after the wait.  The result is the next free instant and the time slept. *)
Definition rate_acquire (p : RateLimitPolicy) (next_ns before after : Z) : res (Z * Z) :=
  let wait := Z.max (next_ns - before) 0 in
  do! fetch_when (maximum_wait_ns p <? wait) RATE_LIMITED "rate-limit wait exceeds the configured bound" in
  let now := if wait =? 0 then before else after in
  Ok (Z.max now next_ns + minimum_interval_ns p, wait).

(** ** Requests *)

Record FetchRequest := {
  fr_request_id : pystr;
  fr_provider_id : pystr;
  fr_dataset_id : pystr;
  fr_start_date : date;
  fr_end_date : date;
  fr_tickers : list pystr;
  fr_universe_snapshot_sha256 : pystr;
  fr_execute : bool;
  fr_maximum_object_bytes : Z;
  fr_maximum_total_bytes : Z;
  fr_maximum_concurrency : Z;
  fr_chunk_bytes : Z;
  fr_request_timeout_ns : Z;
  fr_deterministic_seed : Z;
}.

Definition FetchRequest_post_init (r : FetchRequest) : res unit :=
  do! res_iter require_identifier [fr_request_id r; fr_provider_id r; fr_dataset_id r] in
  do! date_range (fr_start_date r) (fr_end_date r) in
  do! fetch_when (bool_decide (fr_tickers r = []) || (MAX_FETCH_TICKERS <? Z.of_nat (length (fr_tickers r))))
        FE_INVALID_REQUEST "ticker filter is empty or too large" in
  do! fetch_when (negb (bool_decide (NoDup (fr_tickers r)))) FE_INVALID_REQUEST "ticker filter contains duplicates" in
  do! fetch_when (negb (forallb is_symbol (fr_tickers r))) FE_INVALID_REQUEST "ticker filter is malformed" in
  do! require_sha256 (fr_universe_snapshot_sha256 r) in
  do! res_iter (require_byte_count true)
        [fr_maximum_object_bytes r; fr_maximum_total_bytes r; fr_chunk_bytes r; fr_request_timeout_ns r] in
  do! fetch_when (MAX_PROVIDER_TIMEOUT_NS <? fr_request_timeout_ns r) FE_INVALID_REQUEST
        "request_timeout_ns exceeds the implementation bound" in
  do! fetch_when (Z.min MAX_CHUNK_BYTES (fr_maximum_object_bytes r) <? fr_chunk_bytes r) FE_INVALID_REQUEST
        "chunk_bytes exceeds the object or implementation bound" in
  fetch_when (negb ((1 <=? fr_maximum_concurrency r) && (fr_maximum_concurrency r <=? MAX_CONCURRENCY)))
    FE_INVALID_REQUEST "maximum_concurrency must be between 1 and 32".

Definition fetch_request_dict (r : FetchRequest) : json :=
  JObj [(str "chunk_bytes_decimal", JInt (fr_chunk_bytes r));
        (str "dataset_id", JStr (fr_dataset_id r));
        (str "deterministic_seed", JInt (fr_deterministic_seed r));
        (str "end_date", iso_json (fr_end_date r));
        (str "execute", JBool (fr_execute r));
        (str "maximum_concurrency", JInt (fr_maximum_concurrency r));
        (str "maximum_object_bytes_decimal", JInt (fr_maximum_object_bytes r));
        (str "maximum_total_bytes_decimal", JInt (fr_maximum_total_bytes r));
        (str "provider_id", JStr (fr_provider_id r));
        (str "request_id", JStr (fr_request_id r));
        (str "request_timeout_ns", JInt (fr_request_timeout_ns r));
        (str "start_date", iso_json (fr_start_date r));
        (str "tickers", JArr (map JStr (fr_tickers r)));
        (str "universe_snapshot_sha256", JStr (fr_universe_snapshot_sha256 r))].

(** ** Source objects *)

Record SourceObject := {
  so_provider_id : pystr;
  so_dataset_id : pystr;
  so_source_version : pystr;
  so_locator : pystr;
  so_version_id : pystr;
  so_coverage_date : date;
  so_tickers : list pystr;
  so_estimated_size_bytes : Z;
  so_expected_sha256 : option pystr;
  so_record_count : Z;
  so_schema_name : pystr;
  so_schema_version : pystr;
  so_content_format : pystr;
  so_times : ManifestTimeRange;
  so_resume_mode : ResumeMode;
  so_lineage : ManifestLineage;
}.
#[export] Instance ManifestTimeRange_eq_dec : EqDecision ManifestTimeRange.
Proof. solve_decision. Defined.
#[export] Instance ManifestLineage_eq_dec : EqDecision ManifestLineage.
Proof. solve_decision. Defined.
#[export] Instance SourceObject_eq_dec : EqDecision SourceObject.
Proof. solve_decision. Defined.

Definition SourceObject_post_init (s : SourceObject) : res unit :=
  do! require_identifier (so_provider_id s) in
  do! require_identifier (so_dataset_id s) in
  do! safe_locator (so_locator s) in
  do! res_iter (fun text => let! bad := malformed_text MAX_METADATA_TEXT_BYTES text in
                            fetch_when bad FE_INVALID_REQUEST "is malformed")
        [so_source_version s; so_version_id s; so_schema_name s; so_schema_version s; so_content_format s] in
  do! fetch_when (bool_decide (so_tickers s = []) || negb (bool_decide (NoDup (so_tickers s)))) FE_INVALID_REQUEST
        "source-object ticker coverage must be nonempty and unique" in
  do! fetch_when (negb (forallb is_symbol (so_tickers s))) FE_INVALID_REQUEST
        "source-object ticker coverage is malformed" in
  do! require_byte_count true (so_estimated_size_bytes s) in
  do! require_byte_count false (so_record_count s) in
  optional_check require_sha256 (so_expected_sha256 s).

Definition source_dict (s : SourceObject) : json :=
  JObj [(str "content_format", JStr (so_content_format s));
        (str "coverage_date", iso_json (so_coverage_date s));
        (str "dataset_id", JStr (so_dataset_id s));
        (str "estimated_size_bytes_decimal", JInt (so_estimated_size_bytes s));
        (str "expected_sha256", optional_text (so_expected_sha256 s));
        (str "lineage", lineage_dict (so_lineage s));
        (str "locator", JStr (so_locator s));
        (str "provider_id", JStr (so_provider_id s));
        (str "record_count", JInt (so_record_count s));
        (str "resume_mode", JStr (ResumeMode_value (so_resume_mode s)));
        (str "schema_name", JStr (so_schema_name s));
        (str "schema_version", JStr (so_schema_version s));
        (str "source_version", JStr (so_source_version s));
        (str "tickers", JArr (map JStr (so_tickers s)));
        (str "times", times_dict (so_times s));
        (str "version_id", JStr (so_version_id s))].

(** [SourceObject.object_id] *)
Definition object_id (s : SourceObject) : res pystr :=
  let! digest := canonical_digest (source_dict s) in Ok (str "object-" ++ digest).

Record ProviderChunk := {
  pc_offset : Z;
  pc_data : pybytes;
  pc_total_size_bytes : Z;
  pc_version_id : pystr;
  pc_complete : bool;
}.

(** ** Checkpoints *)

Record DownloadCheckpoint := {
  dc_plan_id : pystr;
  dc_request_id : pystr;
  dc_object_id : pystr;
  dc_provider_id : pystr;
  dc_dataset_id : pystr;
  dc_locator_sha256 : pystr;
  dc_version_id : pystr;
  dc_expected_size_bytes : Z;
  dc_completed_bytes : Z;
  dc_prefix_sha256 : pystr;
  dc_attempts : Z;
  dc_sequence : Z;
  dc_schema_version : pystr;
}.
#[export] Instance DownloadCheckpoint_eq_dec : EqDecision DownloadCheckpoint.
Proof. solve_decision. Defined.

(** What the tests of [__post_init__] do with a value of another type: a pattern cannot
    be matched against it, it has no string method, or it is rejected by the test. *)
Definition digest_of (v : json) : res pystr :=
  match v with
  | JStr s => do! require_sha256 s in Ok s
  | _ => raise TypeError "expected string or bytes-like object"
  end.
Definition identifier_of (v : json) : res pystr :=
  match v with
  | JStr s => do! require_identifier s in Ok s
  | _ => fetch_error FE_INVALID_REQUEST "must be a lowercase bounded identifier"
  end.
Definition object_id_of (v : json) : res pystr :=
  match v with
  | JStr s =>
      do! fetch_when (negb (startswith (str "object-") s)) CHECKPOINT_CORRUPT "checkpoint object_id is malformed" in
      do! require_sha256 (drop 7 s) in Ok s
  | _ => raise AttributeError "object has no attribute 'startswith'"
  end.
Definition byte_count_of (v : json) : res Z :=
  match v with
  | JInt n => do! require_byte_count false n in Ok n
  | _ => fetch_error FE_INVALID_REQUEST "is outside the signed 64-bit byte range"
  end.

(** [not value] of a value that is no string. *)
Definition falsy (v : json) : bool :=
  match v with
  | JNull | JBool false | JInt 0 | JArr [] | JObj [] => true
  | _ => false
  end.
Definition version_id_of (v : json) : res pystr :=
  let msg := "checkpoint version_id is malformed"%string in
  match v with
  | JStr s =>
      if bool_decide (s = []) then fetch_error CHECKPOINT_CORRUPT msg
      else let! encoded := utf8_encode s in
           do! fetch_when (MAX_METADATA_TEXT_BYTES <? Z.of_nat (length encoded)) CHECKPOINT_CORRUPT msg in Ok s
  | _ => if falsy v then fetch_error CHECKPOINT_CORRUPT msg
         else raise AttributeError "object has no attribute 'encode'"
  end.

(** [DownloadCheckpoint.__post_init__], on the members of a payload. *)
Definition checkpoint_of (m : list (pystr * json)) : res DownloadCheckpoint :=
  let! plan_id := rbind (jget (str "plan_id") m) digest_of in
  let! request_id := rbind (jget (str "request_id") m) identifier_of in
  let! object_id := rbind (jget (str "object_id") m) object_id_of in
  let! provider_id := rbind (jget (str "provider_id") m) identifier_of in
  let! dataset_id := rbind (jget (str "dataset_id") m) identifier_of in
  let! locator_sha256 := rbind (jget (str "locator_sha256") m) digest_of in
  let! prefix_sha256 := rbind (jget (str "prefix_sha256") m) digest_of in
  let! expected := rbind (jget (str "expected_size_bytes_decimal") m) byte_count_of in
  let! completed := rbind (jget (str "completed_bytes_decimal") m) byte_count_of in
  let! attempts := rbind (jget (str "attempts") m) byte_count_of in
  let! sequence := rbind (jget (str "sequence") m) byte_count_of in
  do! fetch_when (expected <? completed) CHECKPOINT_CORRUPT "checkpoint completion exceeds expected size" in
  let! version_id := rbind (jget (str "version_id") m) version_id_of in
  do! fetch_when (negb (member_is (str "schema_version") INGESTION_SCHEMA_VERSION m)) CHECKPOINT_CORRUPT
        "checkpoint schema version is unsupported" in
  Ok {| dc_plan_id := plan_id; dc_request_id := request_id; dc_object_id := object_id;
        dc_provider_id := provider_id; dc_dataset_id := dataset_id; dc_locator_sha256 := locator_sha256;
        dc_version_id := version_id; dc_expected_size_bytes := expected; dc_completed_bytes := completed;
        dc_prefix_sha256 := prefix_sha256; dc_attempts := attempts; dc_sequence := sequence;
        dc_schema_version := INGESTION_SCHEMA_VERSION |}.

(** [DownloadCheckpoint.to_payload] *)
Definition checkpoint_payload (c : DownloadCheckpoint) : list (pystr * json) :=
  [(str "attempts", JInt (dc_attempts c));
   (str "completed_bytes_decimal", JInt (dc_completed_bytes c));
   (str "dataset_id", JStr (dc_dataset_id c));
   (str "expected_size_bytes_decimal", JInt (dc_expected_size_bytes c));
   (str "locator_sha256", JStr (dc_locator_sha256 c));
   (str "object_id", JStr (dc_object_id c));
   (str "plan_id", JStr (dc_plan_id c));
   (str "prefix_sha256", JStr (dc_prefix_sha256 c));
   (str "provider_id", JStr (dc_provider_id c));
   (str "request_id", JStr (dc_request_id c));
   (str "schema_version", JStr (dc_schema_version c));
   (str "sequence", JInt (dc_sequence c));
   (str "version_id", JStr (dc_version_id c))].

(** The constructor of a checkpoint. *)
Definition new_checkpoint (c : DownloadCheckpoint) : res DownloadCheckpoint := checkpoint_of (checkpoint_payload c).

Definition checkpoint_key : pystr := str "checkpoint_sha256".

(** [DownloadCheckpoint.encode] *)
Definition encode_checkpoint (c : DownloadCheckpoint) : res pybytes :=
  let payload := checkpoint_payload c in
  let! digest := canonical_digest (JObj payload) in
  let! text := dumps (JObj ((checkpoint_key, JStr digest) :: payload)) in
  Ok (text ++ [10]).

Definition checkpoint_fields : list string :=
  ["attempts"; "checkpoint_sha256"; "completed_bytes_decimal"; "dataset_id"; "expected_size_bytes_decimal";
   "locator_sha256"; "object_id"; "plan_id"; "prefix_sha256"; "provider_id"; "request_id"; "schema_version";
   "sequence"; "version_id"]%string.

(** [DownloadCheckpoint.decode] *)
Definition decode_checkpoint (encoded : pybytes) : res DownloadCheckpoint :=
  do! fetch_when (bool_decide (encoded = []) || (MAX_CHECKPOINT_BYTES <? Z.of_nat (length encoded))) CHECKPOINT_CORRUPT
        "checkpoint size is outside its bound" in
  let! value := try_except (loads_bytes encoded) [UnicodeError; JSONDecodeError]
                  (fun _ => fetch_error CHECKPOINT_CORRUPT "checkpoint is not valid JSON") in
  match value with
  | JObj m =>
      do! fetch_when (negb (keys_are m checkpoint_fields)) CHECKPOINT_CORRUPT
            "checkpoint fields do not match the contract" in
      let! supplied := jget checkpoint_key m in
      let payload := pop_key checkpoint_key m in
      do! raise_when (has_float (JObj payload)) Undescribed "payload holds a float" in
      let! digest := canonical_digest (JObj payload) in
      do! fetch_when (match supplied with JStr s => negb (bool_decide (s = digest)) | _ => true end) CHECKPOINT_CORRUPT
            "checkpoint SHA-256 does not match its payload" in
      try_except (checkpoint_of payload) [AttributeError; TypeError; ValueError]
        (fun _ => fetch_error CHECKPOINT_CORRUPT "checkpoint field types are invalid")
  | _ => fetch_error CHECKPOINT_CORRUPT "checkpoint must be a JSON object"
  end.

(** ** Plans and results *)

Record FetchPlan := {
  fp_request : FetchRequest;
  fp_objects : list SourceObject;
  fp_duplicate_object_count : Z;
  fp_total_estimated_bytes : Z;
  fp_storage_request : StorageRequest;
  fp_admission : AdmissionDecision;
  fp_rate_limit : RateLimitPolicy;
  fp_retry : RetryPolicy;
  fp_provider_health : ProviderHealthState;
  fp_entitlement : DataEntitlement;
}.

(** [FetchPlan.plan_id] *)
Definition plan_id (p : FetchPlan) : res pystr :=
  canonical_digest (JObj
    [(str "entitlement", entitlement_dict (fp_entitlement p));
     (str "objects", JArr (map source_dict (fp_objects p)));
     (str "rate_limit", rate_limit_dict (fp_rate_limit p));
     (str "request", fetch_request_dict (fp_request p));
     (str "retry", retry_dict (fp_retry p));
     (str "schema_version", JStr INGESTION_SCHEMA_VERSION);
     (str "storage_request", request_dict (fp_storage_request p))]).

Record ObjectFetchResult := {
  of_object_id : pystr;
  of_status : FetchStatus;
  of_bytes_received : Z;
  of_attempts : Z;
  of_retry_delays_ns : list Z;
  of_object_sha256 : option pystr;
  of_storage_path : option pystr;
  of_manifest_id : option pystr;
  of_checkpoint_path : option pystr;
  of_quarantine_path : option pystr;
  of_error_code : option FetchErrorCode;
}.

Record FetchResult := {
  ft_plan_id : pystr;
  ft_request_id : pystr;
  ft_status : FetchStatus;
  ft_objects : list ObjectFetchResult;
  ft_network_access_performed : bool;
  ft_deterministic_seed : Z;
}.

(** [FetchResult.bytes_received] *)
Definition bytes_received (r : FetchResult) : Z := sum_of of_bytes_received (ft_objects r).

(** ** Valid checkpoints *)

Definition digest_text (s : pystr) : Prop := is_sha256 s = true.
Definition counted (n : Z) : Prop := 0 <= n <= MAX_BYTES.

Record checkpoint_ok (c : DownloadCheckpoint) : Prop := {
  ck_plan : digest_text (dc_plan_id c);
  ck_request : is_identifier (dc_request_id c) = true;
  ck_object : exists d, dc_object_id c = str "object-" ++ d /\ digest_text d;
  ck_provider : is_identifier (dc_provider_id c) = true;
  ck_dataset : is_identifier (dc_dataset_id c) = true;
  ck_locator : digest_text (dc_locator_sha256 c);
  ck_prefix : digest_text (dc_prefix_sha256 c);
  ck_expected : counted (dc_expected_size_bytes c);
  ck_completed : 0 <= dc_completed_bytes c <= dc_expected_size_bytes c;
  ck_attempts : counted (dc_attempts c);
  ck_sequence : counted (dc_sequence c);
  ck_version : dc_version_id c <> [] /\
    exists b, utf8_encode (dc_version_id c) = Ok b /\ Z.of_nat (length b) <= MAX_METADATA_TEXT_BYTES;
  ck_schema : dc_schema_version c = INGESTION_SCHEMA_VERSION;
}.

Lemma fetch_when_ok b code msg u : fetch_when b code msg = Ok u <-> b = false.
Proof. unfold fetch_when. destruct b; cbn; [done|]. by destruct u. Qed.

Lemma counted_ok v : require_byte_count false v = Ok tt <-> counted v.
Proof. unfold require_byte_count, counted. rewrite fetch_when_ok, orb_false_iff. lia. Qed.

Lemma positive_count_ok v : require_byte_count true v = Ok tt <-> 1 <= v <= MAX_BYTES.
Proof. unfold require_byte_count. rewrite fetch_when_ok, orb_false_iff. lia. Qed.

Lemma require_sha256_ok s : require_sha256 s = Ok tt <-> digest_text s.
Proof. unfold require_sha256, digest_text. rewrite fetch_when_ok. by destruct (is_sha256 s). Qed.

Lemma require_identifier_ok s : require_identifier s = Ok tt <-> is_identifier s = true.
Proof. unfold require_identifier. rewrite fetch_when_ok. by destruct (is_identifier s). Qed.

Lemma digest_of_ok v s : digest_of v = Ok s <-> v = JStr s /\ digest_text s.
Proof.
  rewrite <- require_sha256_ok. split.
  - destruct v as [| | | |t| |]; try done. by intros ([] & H & [= ->])%rbind_ok.
  - intros [-> H]. cbn. by rewrite H.
Qed.

Lemma identifier_of_ok v s : identifier_of v = Ok s <-> v = JStr s /\ is_identifier s = true.
Proof.
  rewrite <- require_identifier_ok. split.
  - destruct v as [| | | |t| |]; try done. by intros ([] & H & [= ->])%rbind_ok.
  - intros [-> H]. cbn. by rewrite H.
Qed.

Lemma byte_count_of_ok v n : byte_count_of v = Ok n <-> v = JInt n /\ counted n.
Proof.
  rewrite <- counted_ok. split.
  - destruct v as [| |k| | | |]; try done. by intros ([] & H & [= ->])%rbind_ok.
  - intros [-> H]. cbn. by rewrite H.
Qed.

Lemma startswith_drop p s : startswith p s = true -> s = p ++ drop (length p) s.
Proof.
  revert s. induction p as [|a p IH]; intros [|b s]; cbn; try done. intros [->%Z.eqb_eq H]%andb_prop.
  f_equal. by apply IH.
Qed.

Lemma startswith_same p s : startswith p (p ++ s) = true.
Proof. induction p as [|a p IH]; cbn; [done|]. by rewrite Z.eqb_refl. Qed.

Lemma object_id_of_ok v s : object_id_of v = Ok s <-> v = JStr s /\ exists d, s = str "object-" ++ d /\ digest_text d.
Proof.
  split.
  - destruct v as [| | | |t| |]; try done. unfold object_id_of. intros ([] & H1 & H)%rbind_ok.
    apply rbind_ok in H as ([] & H2%require_sha256_ok & [= ->]). apply fetch_when_ok, negb_false_iff in H1.
    split; [done|]. exists (drop 7 s). split; [by apply startswith_drop in H1 | done].
  - intros (-> & d & -> & H%require_sha256_ok). unfold object_id_of. rewrite startswith_same. cbn [negb fetch_when raise_when rbind].
    change (drop 7 (str "object-" ++ d)) with d. by rewrite H.
Qed.

Lemma version_id_of_ok v s :
  version_id_of v = Ok s <->
  v = JStr s /\ s <> [] /\ exists b, utf8_encode s = Ok b /\ Z.of_nat (length b) <= MAX_METADATA_TEXT_BYTES.
Proof.
  split.
  - destruct v as [|[]| | |t|[]|[]]; try done; unfold version_id_of.
    + by destruct n.
    + case_bool_decide as Hs; [done|]. intros (b & Hb & H)%rbind_ok. apply rbind_ok in H as (? & Hl%fetch_when_ok & [= ->]).
      split; [done|]. split; [done|]. exists b. split; [done | lia].
  - intros (-> & Hs & b & Hb & Hl). unfold version_id_of. rewrite bool_decide_eq_false_2 by done.
    eapply rbind_step; [exact Hb|]. eapply rbind_step; [apply raise_when_false; lia | done].
Qed.

(** What the constructor accepts is valid; members of a valid checkpoint give it back. *)
Lemma checkpoint_of_inv m c : checkpoint_of m = Ok c -> checkpoint_ok c.
Proof.
  unfold checkpoint_of. intros H.
  do 11 (let F := fresh "F" in apply rbind_ok in H; destruct H as (? & F & H); apply rbind_ok in F; destruct F as (? & _ & F)).
  apply rbind_ok in H; destruct H as (? & Hle%fetch_when_ok & H). apply rbind_ok in H as (? & Fv & H). apply rbind_ok in Fv as (? & _ & Fv).
  apply rbind_ok in H as (? & _ & [= <-]).
  rewrite digest_of_ok in *. rewrite identifier_of_ok in *. rewrite byte_count_of_ok in *.
  rewrite object_id_of_ok in *. rewrite version_id_of_ok in *.
  destruct_and?. unfold counted in *. by constructor; cbn; try lia.
Qed.

Lemma checkpoint_of_members m c :
  (forall k v, (k, v) ∈ checkpoint_payload c -> jget k m = Ok v) -> checkpoint_ok c -> checkpoint_of m = Ok c.
Proof.
  intros Hm []. unfold checkpoint_of, counted in *.
  assert (forall {A} (f : json -> res A) k v a, (str k, v) ∈ checkpoint_payload c -> f v = Ok a ->
            rbind (jget (str k) m) f = Ok a) as Hget.
  { intros A f k v a Hin Hf. eapply rbind_step; [by apply Hm | done]. }
  do 7 (eapply rbind_step;
        [eapply Hget; [unfold checkpoint_payload; find_member | first [by apply digest_of_ok | by apply identifier_of_ok | by apply object_id_of_ok]]|]).
  do 4 (eapply rbind_step;
        [eapply Hget; [unfold checkpoint_payload; find_member | apply byte_count_of_ok; unfold counted; split; [reflexivity | lia]]|]).
  eapply rbind_step; [apply raise_when_false; lia|].
  eapply rbind_step; [eapply Hget; [unfold checkpoint_payload; find_member | by apply version_id_of_ok]|].
  eapply rbind_step; [apply raise_when_false; unfold member_is; rewrite (Hm _ (JStr (dc_schema_version c)));
    [by rewrite ck_schema0, bool_decide_eq_true_2 | unfold checkpoint_payload; find_member]|].
  rewrite <- ck_schema0. by destruct c.
Qed.

(** ** Documents of checkpoints *)

Lemma digest_text_hex s : digest_text s -> Forall hexc s /\ length s = 64%nat.
Proof.
  unfold digest_text, is_sha256. intros [[Hl Hh]%andb_prop _]%andb_prop. split; [|lia].
  apply Forall_forall. intros c Hc%list_elem_of_In. rewrite forallb_forall in Hh. apply Hh in Hc.
  unfold is_hex_digit, is_digit, hexc in *. lia.
Qed.

Lemma digest_bounded s : digest_text s -> bounded_by 64 s.
Proof. intros [H Hl]%digest_text_hex. apply hexc_bounded; [done | lia]. Qed.

Lemma identifier_chars s : is_identifier s = true -> Forall unescaped s /\ Z.of_nat (length s) <= 128.
Proof.
  destruct s as [|c s]; [done|]. cbn [is_identifier]. rewrite !andb_true_iff. intros [[[Hc Hs] _] Hl]. split; [|cbn [length]; lia].
  assert (forall x, identifier_char x = true -> unescaped x) as Hx.
  { intros x. unfold identifier_char, is_lower, is_decimal, in_range, unescaped. lia. }
  apply Forall_cons. split; [apply Hx; unfold identifier_char; by rewrite Hc|].
  apply Forall_forall. intros x Hin%list_elem_of_In. apply Hx. rewrite forallb_forall in Hs. by apply Hs.
Qed.

Lemma unescaped_text s : Forall unescaped s -> text_ok s.
Proof. intros H. apply ascii_text. eapply Forall_impl; [exact H|]. unfold unescaped. intros c Hc. lia. Qed.

Lemma identifier_bounded s : is_identifier s = true -> bounded_by 128 s.
Proof. intros [H Hl]%identifier_chars. split; [by apply unescaped_text|]. rewrite length_dumps_str by done. lia. Qed.

Lemma object_id_bounded d : digest_text d -> bounded_by 71 (str "object-" ++ d).
Proof.
  intros [H Hl]%digest_text_hex. assert (Forall unescaped (str "object-" ++ d)) as Hu.
  { apply Forall_app. split; [apply (bool_decide_unpack _); by vm_compute | by apply hexc_unescaped]. }
  split; [by apply unescaped_text|]. rewrite length_dumps_str by done. rewrite length_app, Hl.
  change (length (str "object-")) with 7%nat. lia.
Qed.

Lemma checkpoint_texts c :
  checkpoint_ok c ->
  bounded_by 64 (dc_plan_id c) /\ bounded_by 128 (dc_request_id c) /\ bounded_by 71 (dc_object_id c)
  /\ bounded_by 128 (dc_provider_id c) /\ bounded_by 128 (dc_dataset_id c) /\ bounded_by 64 (dc_locator_sha256 c)
  /\ bounded_by 64 (dc_prefix_sha256 c) /\ bounded_by 160 (dc_version_id c) /\ bounded_by 5 (dc_schema_version c).
Proof.
  intros []. destruct ck_object0 as (d & -> & Hd). destruct ck_version0 as (_ & b & Hb & Hl).
  split_and!; auto using digest_bounded, identifier_bounded, object_id_bounded.
  - split; [by eapply utf8_encode_text_ok|]. apply dumps_str_length in Hb. unfold MAX_METADATA_TEXT_BYTES in Hl. lia.
  - rewrite ck_schema0. split; [apply str_text_ok | by vm_compute].
Qed.

Lemma checkpoint_payload_ok c : checkpoint_ok c -> json_ok (JObj (checkpoint_payload c)).
Proof.
  intros H%checkpoint_texts. destruct_and! H. unfold checkpoint_payload. literal_object; eauto using bounded_json; done.
Qed.

Lemma counted_printable n : counted n -> (Z.abs n <? 2 ^ 4300) = true.
Proof.
  unfold counted, MAX_BYTES. intros H. apply Z.ltb_lt. rewrite Z.abs_eq by lia. apply Z.le_lt_trans with (2 ^ 63); [lia|].
  by apply Z.pow_lt_mono_r.
Qed.

Lemma checkpoint_printable c : checkpoint_ok c -> ints_printable (JObj (checkpoint_payload c)) = true.
Proof.
  intros []. unfold checkpoint_payload. cbn [ints_printable forallb snd].
  rewrite !counted_printable by (unfold counted in *; lia). done.
Qed.

(** The document of a checkpoint with its digest. *)
Definition checkpoint_document (c : DownloadCheckpoint) (digest : pystr) : list (pystr * json) :=
  (checkpoint_key, JStr digest) :: checkpoint_payload c.

Lemma checkpoint_document_ok c d : checkpoint_ok c -> Forall hexc d -> json_ok (JObj (checkpoint_document c d)).
Proof.
  intros Hc Hd. apply checkpoint_payload_ok, json_ok_obj in Hc as [_ Hp]. apply json_ok_obj. unfold checkpoint_document.
  split; [unfold checkpoint_payload; nodup_keys|]. apply Forall_cons. split; [|exact Hp].
  split; [apply str_text_ok | by apply hexc_text_ok].
Qed.

Lemma checkpoint_document_size c d :
  checkpoint_ok c -> Forall hexc d -> length d = 64%nat -> json_size (JObj (checkpoint_document c d)) <= 8000.
Proof.
  intros Hc Hd Hl. pose proof (checkpoint_texts c Hc) as H. destruct Hc. unfold bounded_by in H. destruct_and! H.
  assert (Z.of_nat (length (dumps_str d)) = 66) as Hx by (rewrite length_dumps_str by (by apply hexc_unescaped); lia).
  assert (counted (dc_completed_bytes c)) as Hcc by (unfold counted in *; lia).
  apply log2_bound in ck_expected0, ck_attempts0, ck_sequence0, Hcc.
  unfold checkpoint_document, checkpoint_payload. cbn [json_size sum_of foldr fst snd]. key_sizes.
  change (Z.of_nat (length (dumps_str checkpoint_key))) with 19. lia.
Qed.

(** Every valid checkpoint has an encoding within the bound, which reads back as itself. *)
Lemma encode_checkpoint_ok c :
  checkpoint_ok c ->
  exists b, encode_checkpoint c = Ok b /\ 0 < Z.of_nat (length b) <= MAX_CHECKPOINT_BYTES /\ decode_checkpoint b = Ok c.
Proof.
  intros Hc. destruct (canonical_digest_total _ (checkpoint_printable c Hc)) as [d Hd].
  destruct (canonical_digest_hex _ _ Hd) as [Hhex Hlen].
  assert (ints_printable (JObj (checkpoint_document c d)) = true) as Hpr.
  { unfold checkpoint_document. cbn [ints_printable forallb snd]. exact (checkpoint_printable c Hc). }
  destruct (dumps_total _ Hpr) as [t Ht]. exists (t ++ [10]).
  assert (Z.of_nat (length (t ++ [10])) <= 8001) as Hsize.
  { rewrite length_app. cbn [length]. pose proof (dumps_size _ _ Ht). pose proof (checkpoint_document_size c d Hc Hhex Hlen). lia. }
  unfold MAX_CHECKPOINT_BYTES. split; [|split].
  - unfold encode_checkpoint. eapply rbind_step; [exact Hd|]. by eapply rbind_step; [exact Ht|].
  - rewrite length_app in *. cbn [length] in *. lia.
  - unfold decode_checkpoint. eapply rbind_step.
    { apply raise_when_false. rewrite bool_decide_eq_false_2 by (by destruct t). unfold MAX_CHECKPOINT_BYTES. lia. }
    eapply rbind_step; [apply try_except_ok, loads_bytes_line; [by apply checkpoint_document_ok | exact Ht]|].
    rewrite norm_obj_members. cbv beta iota.
    eapply rbind_step; [apply raise_when_false; by rewrite keys_norm by (cbn [map fst]; vm_compute; reflexivity)|].
    eapply rbind_step; [unfold checkpoint_document, checkpoint_payload; get_field; reflexivity|].
    rewrite pop_key_norm.
    assert (pop_key checkpoint_key (checkpoint_document c d) = checkpoint_payload c) as -> by reflexivity.
    eapply rbind_step.
    { apply raise_when_false. rewrite <- norm_obj_members. by apply ok_no_float, norm_ok, checkpoint_payload_ok. }
    eapply rbind_step; [rewrite canonical_digest_norm; exact Hd|]. cbn [norm].
    eapply rbind_step; [apply raise_when_false; by rewrite bool_decide_eq_true_2|].
    apply try_except_ok, checkpoint_of_members; [|done]. intros k v Hin.
    assert (NoDup (map fst (checkpoint_payload c))) as Hnd by (unfold checkpoint_payload; nodup_keys).
    assert (norm v = v) as <-.
    { clear -Hin. unfold checkpoint_payload in Hin. repeat (apply elem_of_cons in Hin as [[= -> ->]|Hin]; [done|]).
      by apply not_elem_of_nil in Hin. }
    apply jget_norm; [done|]. by apply jget_elem.
Qed.

Lemma decode_checkpoint_ok b c :
  decode_checkpoint b = Ok c ->
  checkpoint_ok c /\ Z.of_nat (length b) <= MAX_CHECKPOINT_BYTES
  /\ exists m d, loads_bytes b = Ok (JObj m) /\ jget checkpoint_key m = Ok (JStr d)
       /\ canonical_digest (JObj (pop_key checkpoint_key m)) = Ok d /\ checkpoint_of (pop_key checkpoint_key m) = Ok c.
Proof.
  unfold decode_checkpoint. intros (? & Hl%fetch_when_ok & H)%rbind_ok. apply rbind_ok in H as (v & Hv & H).
  destruct v as [| | | | | |m]; try done. apply rbind_ok in H as (? & _ & H). apply rbind_ok in H as (s & Hs & H).
  apply rbind_ok in H as (? & _ & H). apply rbind_ok in H as (d & Hd & H). apply rbind_ok in H as (? & He%fetch_when_ok & H).
  destruct s as [| | | |s| |]; try done. apply negb_false_iff, bool_decide_eq_true in He as ->.
  assert (checkpoint_of (pop_key checkpoint_key m) = Ok c) as Hc.
  { unfold try_except in H. destruct (checkpoint_of _) as [c'|e]; [by injection H as ->|]. by destruct (caught_by e _). }
  split; [by eapply checkpoint_of_inv|]. apply orb_false_iff in Hl as [_ Hl]. split; [lia|]. exists m, d.
  split; [|done]. unfold try_except in Hv. destruct (loads_bytes b) as [v'|e]; [by injection Hv as ->|]. by destruct (caught_by e _).
Qed.

(** ** Retry delays *)

Lemma shiftl_one k : 0 <= k -> Z.shiftl 1 k = 2 ^ k.
Proof. intros H. rewrite Z.shiftl_mul_pow2 by done. lia. Qed.

Lemma int_str_ascii n s : int_str n = Ok s -> forallb is_ascii s = true.
Proof.
  intros H%printable_int. apply forallb_forall. intros c Hc%list_elem_of_In. unfold printable in H.
  rewrite Forall_forall in H. apply H in Hc. unfold is_ascii. lia.
Qed.

Lemma retry_policy_ok p :
  RetryPolicy_post_init p = Ok tt ->
  1 <= maximum_attempts p <= MAX_RETRY_ATTEMPTS /\ counted (maximum_delay_ns p) /\ counted (maximum_jitter_ns p)
  /\ 0 <= base_delay_ns p <= maximum_delay_ns p.
Proof.
  unfold RetryPolicy_post_init. intros ([] & H1%fetch_when_ok & H)%rbind_ok.
  apply rbind_ok in H as ([] & H2%res_iter_ok & H3%fetch_when_ok).
  rewrite !Forall_cons in H2. destruct H2 as (Ha%counted_ok & Hb%counted_ok & Hc%counted_ok & _).
  unfold counted in *. lia.
Qed.

(** ** The rate limiter *)

(** A run of granted requests, with the instants at which they start: from the next free
    instant [next] to [next'].  A wait lasts at least as long as was asked for. *)
Inductive grants (p : RateLimitPolicy) : Z -> list Z -> Z -> Prop :=
  | grants_none next : grants p next [] next
  | grants_one next before after next1 wait starts next' :
      rate_acquire p next before after = Ok (next1, wait) -> (wait = 0 \/ before + wait <= after) ->
      grants p next1 starts next' -> grants p next ((if wait =? 0 then before else after) :: starts) next'.

(** The starts in the window from [t] to [u]. *)
Definition starts_within (t u : Z) (starts : list Z) : Z :=
  Z.of_nat (length (List.filter (fun s => (t <=? s) && (s <? u)) starts)).

Lemma interval_pos p : 1 <= minimum_interval_ns p.
Proof. unfold minimum_interval_ns. lia. Qed.

Lemma grant_start p next before after next1 wait :
  rate_acquire p next before after = Ok (next1, wait) -> (wait = 0 \/ before + wait <= after) ->
  let start := if wait =? 0 then before else after in
  next <= start /\ next1 = start + minimum_interval_ns p /\ 0 <= wait <= maximum_wait_ns p.
Proof.
  unfold rate_acquire. intros ([] & H%fetch_when_ok & [= <- <-])%rbind_ok Hw. cbv zeta.
  destruct (Z.eqb_spec (Z.max (next - before) 0) 0) as [E|E]; lia.
Qed.

Lemma grants_count p next starts next' t u :
  grants p next starts next' ->
  starts_within t u starts * minimum_interval_ns p
  <= Z.max 0 (u - Z.max t next + minimum_interval_ns p - 1).
Proof.
  pose proof (interval_pos p) as Hi. unfold starts_within.
  induction 1 as [next|next before after next1 wait starts next' Ha Hw _ IH]; [cbn; lia|].
  destruct (grant_start _ _ _ _ _ _ Ha Hw) as (Hs & -> & _). set (s := if wait =? 0 then before else after) in *.
  cbn [List.filter]. destruct ((t <=? s) && (s <? u)) eqn:E; cbn [length]; nia.
Qed.

(** ** Properties *)

(** Checkpoints round trip and authenticate.  A checkpoint that the constructor accepts
    has an encoding within the size bound that decodes to it; and whatever bytes decode, the
    checkpoint satisfies every check of the constructor and the bytes name the digest of the
    members it was made from. *)
Theorem checkpoint_codec_exact c :
  new_checkpoint c = Ok c ->
  (exists b, encode_checkpoint c = Ok b /\ 0 < Z.of_nat (length b) <= MAX_CHECKPOINT_BYTES
             /\ decode_checkpoint b = Ok c)
  /\ forall b c', decode_checkpoint b = Ok c' ->
       new_checkpoint c' = Ok c' /\ Z.of_nat (length b) <= MAX_CHECKPOINT_BYTES
       /\ exists m d, loads_bytes b = Ok (JObj m) /\ jget checkpoint_key m = Ok (JStr d)
            /\ canonical_digest (JObj (pop_key checkpoint_key m)) = Ok d.
Proof.
  intros H%checkpoint_of_inv. split; [by apply encode_checkpoint_ok|].
  intros b c' (Hok & Hl & m & d & H1 & H2 & H3 & _)%decode_checkpoint_ok. split; [|eauto 6].
  apply checkpoint_of_members; [|done]. intros k v Hin. apply jget_elem; [|done]. unfold checkpoint_payload. nodup_keys.
Qed.

Definition example_checkpoint : DownloadCheckpoint :=
  let digest := replicate 64 97 in
  {| dc_plan_id := digest; dc_request_id := str "fetch-1"; dc_object_id := str "object-" ++ digest;
     dc_provider_id := str "mock"; dc_dataset_id := str "minute-bars"; dc_locator_sha256 := digest;
     dc_version_id := str "v1"; dc_expected_size_bytes := 10; dc_completed_bytes := 4; dc_prefix_sha256 := digest;
     dc_attempts := 2; dc_sequence := 3; dc_schema_version := INGESTION_SCHEMA_VERSION |}.

Lemma checkpoint_codec_exact_witness :
  new_checkpoint example_checkpoint = Ok example_checkpoint
  /\ exists b, encode_checkpoint example_checkpoint = Ok b /\ decode_checkpoint b = Ok example_checkpoint.
Proof.
  assert (H : new_checkpoint example_checkpoint = Ok example_checkpoint) by (vm_compute; reflexivity).
  split; [exact H|]. destruct (checkpoint_codec_exact example_checkpoint H) as [(b & Hb & _ & Hd) _]. exists b. split; assumption.
Defined.

(** Retry delays are bounded.  For a valid policy and an attempt within the budget, the
    delay exists, is at most the maximum delay and at least the capped exponential of the
    attempt, and exceeds it by at most the maximum jitter; outside the budget the call is
    refused. *)
Theorem retry_delay_bounds p attempt object_id :
  RetryPolicy_post_init p = Ok tt -> forallb is_ascii object_id = true -> Z.abs (retry_seed p) < 2 ^ 4300 ->
  (1 <= attempt < maximum_attempts p ->
   exists d, delay_ns p attempt object_id = Ok d
     /\ Z.min (maximum_delay_ns p) (base_delay_ns p * 2 ^ (attempt - 1)) <= d <= maximum_delay_ns p
     /\ d <= base_delay_ns p * 2 ^ (attempt - 1) + maximum_jitter_ns p)
  /\ (attempt < 1 \/ maximum_attempts p <= attempt ->
      exists msg, delay_ns p attempt object_id = fetch_error FE_INVALID_REQUEST msg).
Proof.
  intros Hp Ho Hs. destruct (retry_policy_ok p Hp) as (Ha & Hd & Hj & Hb). unfold MAX_RETRY_ATTEMPTS, counted in *. split.
  - intros Hn. unfold delay_ns. rewrite (Z.min_l (attempt - 1) 62) by lia. rewrite shiftl_one by lia.
    destruct (int_str_ok _ Hs) as [seed Hseed].
    destruct (int_str_ok attempt) as [number Hnumber].
    { rewrite Z.abs_eq by lia. apply Z.lt_le_trans with (2 ^ 5); [lia|]. by apply Z.pow_le_mono_r. }
    eexists. split.
    { eapply rbind_step; [apply raise_when_false; lia|]. eapply rbind_step; [exact Hseed|]. eapply rbind_step; [exact Hnumber|].
      eapply rbind_step; [|reflexivity]. unfold ascii_encode.
      rewrite forallb_app. cbn [forallb]. rewrite forallb_app. cbn [forallb].
      rewrite Ho. apply int_str_ascii in Hseed, Hnumber. by rewrite Hseed, Hnumber. }
    pose proof (Z.pow_pos_nonneg 2 (attempt - 1)). assert (0 <= base_delay_ns p * 2 ^ (attempt - 1)) by nia.
    destruct (Z.eqb_spec (maximum_jitter_ns p) 0) as [E|E]; [lia|].
    pose proof (Z.mod_pos_bound (int_from_bytes (take 8 (sha256 (seed ++ 58 :: object_id ++ 58 :: number)))) (maximum_jitter_ns p + 1)).
    lia.
  - intros Hn. unfold delay_ns, fetch_when. eexists. replace ((attempt <? 1) || (maximum_attempts p <=? attempt)) with true by lia. reflexivity.
Qed.

Lemma retry_delay_bounds_witness :
  exists d, delay_ns default_retry 2 (str "object-1") = Ok d /\ 20000000 <= d <= 25000000.
Proof.
  assert (Hp : RetryPolicy_post_init default_retry = Ok tt) by reflexivity.
  assert (Hs : Z.abs (retry_seed default_retry) < 2 ^ 4300) by (vm_compute; reflexivity).
  assert (Ha : 1 <= 2 < maximum_attempts default_retry) by (vm_compute; split; [discriminate | reflexivity]).
  destruct (proj1 (retry_delay_bounds default_retry 2 (str "object-1") Hp eq_refl Hs) Ha) as (d & Hd & [Hl _] & Hu).
  exists d. split; [exact Hd|]. split; [exact Hl | exact Hu].
Defined.

(** The rate limiter spaces requests.  When waits last as long as they were asked to,
    consecutive granted requests start at least the minimum interval apart: in every window
    there are at most its length over that interval, rounded up, and when the rate divides
    the window of the policy there are at most [requests_per_window] of them in a window.  No
    granted request waits longer than the policy allows. *)
Theorem rate_limiter_spacing p next starts next' t length :
  RateLimitPolicy_post_init p = Ok tt -> grants p next starts next' -> 0 < length ->
  starts_within t (t + length) starts * minimum_interval_ns p <= length + minimum_interval_ns p - 1
  /\ (window_ns p mod requests_per_window p = 0 ->
      starts_within t (t + window_ns p) starts <= requests_per_window p).
Proof.
  intros Hp Hg Hl. pose proof (interval_pos p) as Hi.
  assert (1 <= requests_per_window p /\ 1 <= window_ns p) as [Hr Hw].
  { unfold RateLimitPolicy_post_init in Hp. apply rbind_ok in Hp as ([] & H%res_iter_ok & _).
    rewrite !Forall_cons, !positive_count_ok in H. lia. }
  pose proof (grants_count p next starts next' t (t + length) Hg).
  pose proof (grants_count p next starts next' t (t + window_ns p) Hg) as Hc.
  split; [lia|]. intros Hm. assert (minimum_interval_ns p = window_ns p / requests_per_window p) as E.
  { unfold minimum_interval_ns. apply Z.max_r. apply Z.div_le_lower_bound; [lia|].
    apply Z.mod_divide in Hm; [|lia]. destruct Hm as [k Hk]. assert (1 <= k) by nia. nia. }
  assert (window_ns p = requests_per_window p * minimum_interval_ns p) as Ew.
  { rewrite E. rewrite (Z.div_mod (window_ns p) (requests_per_window p)) at 1 by lia. lia. }
  nia.
Qed.

Definition three_per_ten : RateLimitPolicy := {| requests_per_window := 3; window_ns := 10; maximum_wait_ns := 10 |}.

Lemma four_granted : grants three_per_ten 0 [0; 3; 6; 9] 12.
Proof.
  change [0; 3; 6; 9] with
    [if 0 =? 0 then 0 else 0; if 3 =? 0 then 0 else 3; if 3 =? 0 then 3 else 6; if 3 =? 0 then 6 else 9].
  do 4 (eapply grants_one; [reflexivity | lia|]). apply grants_none.
Qed.

Lemma rate_limiter_spacing_witness : starts_within 0 (0 + 20) [0; 3; 6; 9] * 3 <= 20 + 3 - 1.
Proof.
  assert (Hp : RateLimitPolicy_post_init three_per_ten = Ok tt) by reflexivity.
  exact (proj1 (rate_limiter_spacing three_per_ten 0 [0; 3; 6; 9] 12 0 20 Hp four_granted eq_refl)).
Defined.

(** The interval is not conservative when the rate does not divide the window: a policy of
    three requests in ten nanoseconds grants four in one window. *)
Lemma rate_limit_exceeded :
  RateLimitPolicy_post_init three_per_ten = Ok tt /\ grants three_per_ten 0 [0; 3; 6; 9] 12
  /\ starts_within 0 (0 + window_ns three_per_ten) [0; 3; 6; 9] = 4 /\ requests_per_window three_per_ten = 3.
Proof. split; [reflexivity|]. split; [exact four_granted | by vm_compute]. Qed.
