(* ===== verification/Coordinator.v ===== *)
(** * The ingestion coordinator

    Models [IngestionCoordinator] of [python/research/aegis_mx_research/ingestion.py]:
    planning a fetch, executing it under one storage lease, and the download of one object
    with its retries, checkpoints, quarantine and publication, over the repository of
    [Repository.v].  The class [DataProvider] is the protocol of a provider; [P] is the
    type of the provider's mutable state.

    Readings of the monotonic clock and of the shutdown signal are sequences, consumed one
    by one.  The workers of a batch run one after another, in an order that [worker_order]
    gives; interleavings of the steps of two workers are not modelled. *)

From S2P Require Import Prelude PyText Json Sha256 PyDateTime ReferenceDocuments Storage Manifests FileSystem Repository.
From S2P Require Import Ingestion.

Open Scope Z_scope.

(** The protocol [DataProvider].  A credential is the text of its secret value. *)
Class DataProvider (P : Type) := {
  provider_id : P -> pystr;
  provider_dataset_id : P -> pystr;
  provider_remote : P -> bool;
  credential_reference : P -> option pystr;
  provider_health : P -> res ProviderHealthState;
  provider_plan : FetchRequest -> M P (list SourceObject);
  fetch_range : SourceObject -> Z -> Z -> Z -> option pystr -> M P ProviderChunk;
  validate_payload : SourceObject -> pybytes -> M P Z;
}.

Record IngestionCoordinator := {
  ic_repository : DataRepository;
  ic_entitlement : DataEntitlement;
  ic_rate_limit : RateLimitPolicy;
  ic_retry : RetryPolicy;
  ic_credential_provider : option (pystr -> res (option pystr));
}.

(** What the process observes of its surroundings. *)
Record Environment := {
  monotonic_ns : nat -> Z;
  shutdown_requested : nat -> bool;
  utc_now : datetime;
  resolve_path : path -> res path;
  worker_order : list nat -> list nat;
}.

(** The state of a coordinator and of everything it acts on. *)
Record Process (P : Type) := {
  pr_world : W;
  pr_provider : P;
  (** [_RateLimiter._next_ns] *)
  pr_next_ns : Z;
  (** readings taken of the clock and of the shutdown signal *)
  pr_clock : nat;
  pr_polls : nat;
  (** the times slept, in nanoseconds, the last first *)
  pr_slept : list Z;
}.
Arguments pr_world {P}. Arguments pr_provider {P}. Arguments pr_next_ns {P}. Arguments pr_clock {P}.
Arguments pr_polls {P}. Arguments pr_slept {P}.

(** ** Files of a download *)

Definition checkpoint_path (object : pystr) : path := [str "tmp"; str "checkpoints"; object ++ str ".json"].
Definition checkpoint_new_path (object : pystr) : path := [str "tmp"; str "checkpoints"; object ++ str ".new"].
Definition staged_path (object : pystr) : path := [str "tmp"; str "downloads"; object ++ str ".partial"].
Definition slash (a b : pystr) : pystr := a ++ 47 :: b.

(** [_raw_relative] *)
Definition raw_relative (s : SourceObject) (digest : pystr) : pystr :=
  slash (str "raw") (slash (so_provider_id s) (slash (so_dataset_id s) (digest ++ str ".bin"))).

(** [_read_bounded] *)
Definition read_bounded (f : filesystem) (p : path) (maximum_bytes : Z) : res pybytes :=
  let! status := lstat f p in
  do! fetch_when (bool_decide (st_type status = S_IFLNK) || negb (bool_decide (st_type status = S_IFREG))
                  || negb (st_nlink status =? 1) || (maximum_bytes <? st_size status)) CHECKPOINT_CORRUPT
        "staged or checkpoint file failed integrity bounds" in
  read_file f p.

(** [_append_staged] *)
Definition append_staged (p : path) (payload : pybytes) : RM unit :=
  i <~ sys_open_append p ;; sys_append i payload ;;~ sys_fsync.

(** [_rewrite_staged] *)
Definition rewrite_staged (p : path) : RM unit := sys_open_truncate p ;;~ sys_fsync.

(** [_save_checkpoint] *)
Definition save_checkpoint (object : pystr) (c : DownloadCheckpoint) : RM unit :=
  here <~ look (fun f => present f (checkpoint_new_path object)) ;;
  if here : bool then
    st_lift (fetch_error CHECKPOINT_CORRUPT "stale checkpoint publication file requires review")
  else
    i <~ sys_create (checkpoint_new_path object) ;;
    encoded <~ st_lift (encode_checkpoint c) ;;
    sys_append i encoded ;;~
    sys_fsync ;;~
    sys_replace (checkpoint_new_path object) (checkpoint_path object) ;;~
    sync_directory (parent_of (checkpoint_path object)).

(** [_remove_checkpoint] *)
Definition remove_checkpoint (object : pystr) : RM unit :=
  removed <~ st_try (sys_unlink (checkpoint_path object) ;;~ st_ret true) [FileNotFoundError] (fun _ => st_ret false) ;;
  if removed : bool then sync_directory (parent_of (checkpoint_path object)) else st_ret tt.

(** ** Checkpoints and manifests of a source *)

(** [_checkpoint] *)
Definition make_checkpoint (plan : FetchPlan) (s : SourceObject) (payload : pybytes) (attempts sequence : Z)
    : res DownloadCheckpoint :=
  let! plan_identity := plan_id plan in
  let! object := object_id s in
  let! locator := utf8_encode (so_locator s) in
  new_checkpoint
    {| dc_plan_id := plan_identity; dc_request_id := fr_request_id (fp_request plan); dc_object_id := object;
       dc_provider_id := so_provider_id s; dc_dataset_id := so_dataset_id s;
       dc_locator_sha256 := sha256_hex locator; dc_version_id := so_version_id s;
       dc_expected_size_bytes := so_estimated_size_bytes s; dc_completed_bytes := Z.of_nat (length payload);
       dc_prefix_sha256 := sha256_hex payload; dc_attempts := attempts; dc_sequence := sequence;
       dc_schema_version := INGESTION_SCHEMA_VERSION |}.

(** [_validate_checkpoint] *)
Definition validate_checkpoint (plan : FetchPlan) (s : SourceObject) (c : DownloadCheckpoint) (payload : pybytes)
    : res unit :=
  let! plan_identity := plan_id plan in
  let! object := object_id s in
  let! locator := utf8_encode (so_locator s) in
  fetch_when (negb (bool_decide (dc_plan_id c = plan_identity)
                    && bool_decide (dc_request_id c = fr_request_id (fp_request plan))
                    && bool_decide (dc_object_id c = object)
                    && bool_decide (dc_provider_id c = so_provider_id s)
                    && bool_decide (dc_dataset_id c = so_dataset_id s)
                    && bool_decide (dc_locator_sha256 c = sha256_hex locator)
                    && bool_decide (dc_version_id c = so_version_id s)
                    && (dc_expected_size_bytes c =? so_estimated_size_bytes s)
                    && (dc_completed_bytes c =? Z.of_nat (length payload))
                    && bool_decide (dc_prefix_sha256 c = sha256_hex payload))) CHECKPOINT_CORRUPT
    "checkpoint does not match the staged object and fetch plan".

(** [_manifest] *)
Definition make_manifest (self : IngestionCoordinator) (plan : FetchPlan) (s : SourceObject)
    (storage : pystr) (digest : pystr) (records : Z) : res DataManifest :=
  let! version := canonical_digest (JObj [(str "entitlement", entitlement_dict (ic_entitlement self));
                                          (str "provider_source_version", JStr (so_source_version s))]) in
  let! object := object_id s in
  let m := {| source_name := so_provider_id s; source_version := version; source_object_id := object;
              sm_common := {| lineage := so_lineage s; object_sha256 := digest; record_count := records;
                              schema_name := so_schema_name s; mf_schema_version := so_schema_version s;
                              size_bytes := so_estimated_size_bytes s; storage_path := storage;
                              times := so_times s;
                              universe_snapshot_digest := fr_universe_snapshot_sha256 (fp_request plan) |} |} in
  do! SourceManifest_post_init m in
  Ok (Source m).

(** [_validate_chunk]; the result is the code of the error. *)
Definition validate_chunk (plan : FetchPlan) (s : SourceObject) (chunk : ProviderChunk) (offset : Z)
    : option FetchErrorCode :=
  let reached := offset + Z.of_nat (length (pc_data chunk)) in
  if negb (pc_offset chunk =? offset) then Some PARTIAL_RESPONSE
  else if negb (bool_decide (pc_version_id chunk = so_version_id s)) then Some OBJECT_CHANGED
  else if negb (pc_total_size_bytes chunk =? so_estimated_size_bytes s)
          || (fr_maximum_object_bytes (fp_request plan) <? pc_total_size_bytes chunk)
          || (pc_total_size_bytes chunk <? reached) then Some OBJECT_TOO_LARGE
  else if bool_decide (pc_data chunk = []) then Some PARTIAL_RESPONSE
  else if negb (Bool.eqb (pc_complete chunk) (reached =? pc_total_size_bytes chunk)) then Some PARTIAL_RESPONSE
  else None.

(** [_open_or_create_checkpoint] *)
Definition open_or_create_checkpoint (plan : FetchPlan) (s : SourceObject) (object : pystr) (resume : bool)
    : RM (DownloadCheckpoint * pybytes) :=
  saved <~ look (fun f => exists_path f (checkpoint_path object)) ;;
  staged <~ look (fun f => exists_path f (staged_path object)) ;;
  if (saved : bool) || (staged : bool) then
    if negb resume || negb saved || negb staged
    then st_lift (fetch_error CHECKPOINT_CORRUPT "partial object requires an explicit verified resume")
    else
      look (fun f =>
        let! encoded := read_bounded f (checkpoint_path object) MAX_CHECKPOINT_BYTES in
        let! checkpoint := decode_checkpoint encoded in
        let! payload := read_bounded f (staged_path object) (so_estimated_size_bytes s) in
        do! validate_checkpoint plan s checkpoint payload in
        Ok (checkpoint, payload))
  else
    rewrite_staged (staged_path object) ;;~
    checkpoint <~ st_lift (make_checkpoint plan s [] 0 0) ;;
    save_checkpoint object checkpoint ;;~
    st_ret (checkpoint, []).

(** ** Results *)

(** [_failed] *)
Definition failed (object : pystr) (code : FetchErrorCode) (received attempts : Z) (delays : list Z) : ObjectFetchResult :=
  {| of_object_id := object; of_status := FAILED; of_bytes_received := received; of_attempts := attempts;
     of_retry_delays_ns := delays; of_object_sha256 := None; of_storage_path := None; of_manifest_id := None;
     of_checkpoint_path := Some (posix (checkpoint_path object)); of_quarantine_path := None;
     of_error_code := Some code |}.

Definition stopped (object : pystr) (received attempts : Z) (delays : list Z) (checkpoint : option pystr) : ObjectFetchResult :=
  {| of_object_id := object; of_status := STOPPED; of_bytes_received := received; of_attempts := attempts;
     of_retry_delays_ns := delays; of_object_sha256 := None; of_storage_path := None; of_manifest_id := None;
     of_checkpoint_path := checkpoint; of_quarantine_path := None; of_error_code := Some SHUTDOWN |}.

Definition stored (object : pystr) (status : FetchStatus) (received attempts : Z) (delays : list Z)
    (digest storage manifest : pystr) : ObjectFetchResult :=
  {| of_object_id := object; of_status := status; of_bytes_received := received; of_attempts := attempts;
     of_retry_delays_ns := delays; of_object_sha256 := Some digest; of_storage_path := Some storage;
     of_manifest_id := Some manifest; of_checkpoint_path := None; of_quarantine_path := None; of_error_code := None |}.

Definition no_faults (s : PublicationStage) : res unit := Ok tt.

(** [except StorageError] *)
Definition on_storage_error {A} (m : RM A) (h : RM A) : RM A := fun w =>
  match m w with
  | (w', Err (Exn (StorageError _) _)) => h w'
  | r => r
  end.

Definition quarantine_relative (s : SourceObject) (object : pystr) (code : FetchErrorCode) (digest : pystr) : pystr :=
  slash (str "quarantine") (slash (so_provider_id s)
    (slash object (lower (FetchErrorCode_value code) ++ 45 :: digest ++ str ".bin"))).

(** [_quarantine] *)
Definition quarantine (self : IngestionCoordinator) (s : SourceObject) (object : pystr) (code : FetchErrorCode)
    (lease : nat) (attempts : Z) (delays : list Z) : RM ObjectFetchResult :=
  payload <~ look (fun f => read_bounded f (staged_path object) (so_estimated_size_bytes s)) ;;
  let received := Z.of_nat (length payload) in
  let digest := sha256_hex payload in
  let target := quarantine_relative s object code digest in
  on_storage_error
    (publish_staged_object (ic_repository self) (posix (staged_path object)) target digest received lease ;;~
     remove_checkpoint object ;;~
     st_ret {| of_object_id := object; of_status := QUARANTINED; of_bytes_received := received; of_attempts := attempts;
               of_retry_delays_ns := delays; of_object_sha256 := Some digest; of_storage_path := None;
               of_manifest_id := None; of_checkpoint_path := None; of_quarantine_path := Some target;
               of_error_code := Some code |})
    (st_ret (failed object FE_IO_FAILURE received attempts delays)).

(** [_existing_result] *)
Definition existing_result (self : IngestionCoordinator) (plan : FetchPlan) (s : SourceObject) (object digest : pystr)
    (lease : nat) : RM (option ObjectFetchResult) :=
  let storage := raw_relative s digest in
  here <~ look (fun f => exists_path f (path_parts storage)) ;;
  if negb here then st_ret None
  else
    manifest <~ st_lift (make_manifest self plan s storage digest (so_record_count s)) ;;
    on_storage_error (publish_manifest (ic_repository self) manifest lease no_faults ;;~ st_ret tt)
      (st_lift (fetch_error FE_IO_FAILURE "existing object or source manifest failed verification")) ;;~
    remove_checkpoint object ;;~
    identity <~ st_lift (manifest_id manifest) ;;
    st_ret (Some (stored object ALREADY_PRESENT 0 0 [] digest storage identity)).

(** ** The process *)

Section coordinator.
Context {P : Type} `{!DataProvider P}.
Variable self : IngestionCoordinator.
Variable env : Environment.

Notation IM := (M (Process P)).

Definition set_world (w : W) (s : Process P) : Process P :=
  {| pr_world := w; pr_provider := pr_provider s; pr_next_ns := pr_next_ns s; pr_clock := pr_clock s;
     pr_polls := pr_polls s; pr_slept := pr_slept s |}.
Definition set_provider (p : P) (s : Process P) : Process P :=
  {| pr_world := pr_world s; pr_provider := p; pr_next_ns := pr_next_ns s; pr_clock := pr_clock s;
     pr_polls := pr_polls s; pr_slept := pr_slept s |}.
Definition set_limiter (next : Z) (clock : nat) (slept : list Z) (s : Process P) : Process P :=
  {| pr_world := pr_world s; pr_provider := pr_provider s; pr_next_ns := next; pr_clock := clock;
     pr_polls := pr_polls s; pr_slept := slept |}.
Definition count_poll (s : Process P) : Process P :=
  {| pr_world := pr_world s; pr_provider := pr_provider s; pr_next_ns := pr_next_ns s; pr_clock := pr_clock s;
     pr_polls := S (pr_polls s); pr_slept := pr_slept s |}.

Definition on_world {A} (m : RM A) : IM A := fun s => let '(w, r) := m (pr_world s) in (set_world w s, r).
Definition on_provider {A} (m : M P A) : IM A := fun s => let '(p, r) := m (pr_provider s) in (set_provider p s, r).

(** [shutdown.requested] *)
Definition poll_shutdown : IM bool := fun s => (count_poll s, Ok (shutdown_requested env (pr_polls s))).

(** [_sleep] *)
Definition sleep (ns : Z) : IM unit :=
  st_put (fun s => set_limiter (pr_next_ns s) (pr_clock s) (ns :: pr_slept s) s).

(** [_RateLimiter.acquire] *)
Definition acquire : IM unit := fun s =>
  let before := monotonic_ns env (pr_clock s) in
  let after := monotonic_ns env (S (pr_clock s)) in
  match rate_acquire (ic_rate_limit self) (pr_next_ns s) before after with
  | Err e => (set_limiter (pr_next_ns s) (S (pr_clock s)) (pr_slept s) s, Err e)
  | Ok (next, wait) =>
      if wait =? 0 then (set_limiter next (S (pr_clock s)) (pr_slept s) s, Ok tt)
      else (set_limiter next (S (S (pr_clock s))) (wait :: pr_slept s) s, Ok tt)
  end.

(** The variables of the download of one object. *)
Record Download := {
  dl_payload : pybytes;
  dl_attempts : Z;
  dl_sequence : Z;
  dl_delays : list Z;
  dl_accessed : bool;
}.

(** [offset] is the number of bytes received. *)
Definition dl_offset (d : Download) : Z := Z.of_nat (length (dl_payload d)).

(** One attempt: the request slot and the request itself. *)
Definition request_range (plan : FetchPlan) (src : SourceObject) (credential : option pystr) (d : Download)
    : IM (Download * (exn + ProviderChunk)) := fun s =>
  match acquire s with
  | (s, Err e) => (s, Ok (d, inl e))
  | (s, Ok _) =>
      let d := {| dl_payload := dl_payload d; dl_attempts := dl_attempts d; dl_sequence := dl_sequence d;
                  dl_delays := dl_delays d; dl_accessed := dl_accessed d || provider_remote (pr_provider s) |} in
      match on_provider (fetch_range src (dl_offset d) (fr_chunk_bytes (fp_request plan))
                           (fr_request_timeout_ns (fp_request plan)) credential) s with
      | (s, Ok chunk) => (s, Ok (d, inr chunk))
      | (s, Err e) => (s, Ok (d, inl e))
      end
  end.

(** The [for] loop over the attempts of one range, from the attempt [k] with [n] left; the
    result is a chunk or the code of the terminal error. *)
Fixpoint attempt_range (n : nat) (k : Z) (plan : FetchPlan) (src : SourceObject) (object : pystr)
    (credential : option pystr) (d : Download) : IM (Download * (FetchErrorCode + ProviderChunk)) :=
  match n with
  | O => st_ret (d, inl RETRY_EXHAUSTED)
  | S n =>
      answer <~ request_range plan src credential
        {| dl_payload := dl_payload d; dl_attempts := dl_attempts d + 1; dl_sequence := dl_sequence d;
           dl_delays := dl_delays d; dl_accessed := dl_accessed d |} ;;
      let '(d, r) := answer in
      match r with
      | inr chunk => st_ret (d, inr chunk)
      | inl (Exn (ProviderFetchError code retryable retry_after_ns) _) =>
          if negb retryable || (k =? maximum_attempts (ic_retry self)) then st_ret (d, inl code)
          else
            own <~ st_lift (delay_ns (ic_retry self) k object) ;;
            let delay := Z.max own retry_after_ns in
            if maximum_delay_ns (ic_retry self) <? delay then st_ret (d, inl RETRY_EXHAUSTED)
            else
              sleep delay ;;~
              let d := {| dl_payload := dl_payload d; dl_attempts := dl_attempts d; dl_sequence := dl_sequence d + 1;
                          dl_delays := dl_delays d ++ [delay]; dl_accessed := dl_accessed d |} in
              checkpoint <~ st_lift (make_checkpoint plan src (dl_payload d) (dl_attempts d) (dl_sequence d)) ;;
              on_world (save_checkpoint object checkpoint) ;;~
              attempt_range n (k + 1) plan src object credential d
      | inl (Exn (FetchContractError code) _) => st_ret (d, inl code)
      | inl _ => st_ret (d, inl FE_IO_FAILURE)
      end
  end.

(** The handling of one validated or rejected chunk. *)
Definition reject_chunk (src : SourceObject) (object : pystr) (code : FetchErrorCode) (lease : nat) (d : Download)
    : RM ObjectFetchResult :=
  some <~ look (fun f =>
    let! here := exists_path f (staged_path object) in
    if negb here then Ok false
    else let! status := lstat f (staged_path object) in Ok (negb (st_size status =? 0))) ;;
  if some : bool then quarantine self src object code lease (dl_attempts d) (dl_delays d)
  else st_ret (failed object code 0 (dl_attempts d) (dl_delays d)).

Definition accept_chunk (plan : FetchPlan) (src : SourceObject) (object : pystr) (chunk : ProviderChunk) (d : Download)
    : RM Download :=
  append_staged (staged_path object) (pc_data chunk) ;;~
  let d := {| dl_payload := dl_payload d ++ pc_data chunk; dl_attempts := dl_attempts d;
              dl_sequence := dl_sequence d + 1; dl_delays := dl_delays d; dl_accessed := dl_accessed d |} in
  checkpoint <~ st_lift (make_checkpoint plan src (dl_payload d) (dl_attempts d) (dl_sequence d)) ;;
  save_checkpoint object checkpoint ;;~
  st_ret d.

(** The [while] loop; the result is the completed download or an early return.  Every
    iteration receives at least one byte, so that the size of the object is fuel enough. *)
Fixpoint download (fuel : nat) (plan : FetchPlan) (src : SourceObject) (object : pystr) (lease : nat)
    (credential : option pystr) (d : Download) : IM (ObjectFetchResult * bool + Download) :=
  if negb (dl_offset d <? so_estimated_size_bytes src) then st_ret (inr d)
  else match fuel with
  | O => st_lift (raise Undescribed "fuel of the download")
  | S fuel =>
      stop <~ poll_shutdown ;;
      if stop : bool then
        st_ret (inl (stopped object (dl_offset d) (dl_attempts d) (dl_delays d) (Some (posix (checkpoint_path object))),
                     dl_accessed d))
      else
        answer <~ attempt_range (Z.to_nat (maximum_attempts (ic_retry self))) 1 plan src object credential d ;;
        let '(d, r) := answer in
        match r with
        | inl code => st_ret (inl (failed object code (dl_offset d) (dl_attempts d) (dl_delays d), dl_accessed d))
        | inr chunk =>
            match validate_chunk plan src chunk (dl_offset d) with
            | Some code =>
                result <~ on_world (reject_chunk src object code lease d) ;;
                st_ret (inl (result, dl_accessed d))
            | None =>
                d <~ on_world (accept_chunk plan src object chunk d) ;;
                download fuel plan src object lease credential d
            end
        end
  end.

(** The end of [_fetch_one]: the checks of the whole object and its publication. *)
Definition check_payload (src : SourceObject) (digest payload : pybytes) : IM Z :=
  st_lift (match so_expected_sha256 src with
           | Some expected => fetch_when (negb (bool_decide (digest = expected))) FE_HASH_MISMATCH
                                "source object SHA-256 does not match the plan"
           | None => Ok tt
           end) ;;~
  records <~ on_provider (validate_payload src payload) ;;
  st_lift (fetch_when (negb (records =? so_record_count src)) MALFORMED_OBJECT
             "validated record count does not match the plan") ;;~
  st_ret records.

Definition publish_object (plan : FetchPlan) (src : SourceObject) (object digest : pystr) (records : Z) (lease : nat)
    (d : Download) : RM ObjectFetchResult :=
  let received := dl_offset d in
  let storage := raw_relative src digest in
  published <~ on_storage_error
    (publish_staged_object (ic_repository self) (posix (staged_path object)) storage digest received lease ;;~
     manifest <~ st_lift (make_manifest self plan src storage digest records) ;;
     publish_manifest (ic_repository self) manifest lease no_faults ;;~
     remove_checkpoint object ;;~
     st_ret (Some manifest))
    (st_ret None) ;;
  match published with
  | Some manifest =>
      identity <~ st_lift (manifest_id manifest) ;;
      st_ret (stored object COMPLETED received (dl_attempts d) (dl_delays d) digest storage identity)
  | None => st_ret (failed object FE_IO_FAILURE received (dl_attempts d) (dl_delays d))
  end.

Definition complete (plan : FetchPlan) (src : SourceObject) (object : pystr) (lease : nat) (d : Download)
    : IM ObjectFetchResult := fun s =>
  let digest := sha256_hex (dl_payload d) in
  match check_payload src digest (dl_payload d) s with
  | (s, Ok records) => on_world (publish_object plan src object digest records lease d) s
  | (s, Err e) =>
      match fetch_code e with
      | Some code => on_world (quarantine self src object code lease (dl_attempts d) (dl_delays d)) s
      | None => (s, Err e)
      end
  end.

(** The start of a download: [_open_or_create_checkpoint], and the restart of an object
    that cannot be resumed within. *)
Definition begin_download (plan : FetchPlan) (src : SourceObject) (object : pystr) (resume : bool)
    : RM (FetchErrorCode + Download) := fun w =>
  match open_or_create_checkpoint plan src object resume w with
  | (w, Err e) => match fetch_code e with Some code => (w, Ok (inl code)) | None => (w, Err e) end
  | (w, Ok (checkpoint, payload)) =>
      let d := {| dl_payload := payload; dl_attempts := dc_attempts checkpoint; dl_sequence := dc_sequence checkpoint;
                  dl_delays := []; dl_accessed := false |} in
      (if bool_decide (so_resume_mode src = COMPLETE_OBJECT_RESTART) && negb (dc_completed_bytes checkpoint =? 0) then
         rewrite_staged (staged_path object) ;;~
         let d := {| dl_payload := []; dl_attempts := dl_attempts d; dl_sequence := dl_sequence d + 1;
                     dl_delays := []; dl_accessed := false |} in
         checkpoint <~ st_lift (make_checkpoint plan src [] (dl_attempts d) (dl_sequence d)) ;;
         save_checkpoint object checkpoint ;;~
         st_ret (inr d)
       else st_ret (inr d)) w
  end.

(** [_fetch_one] *)
Definition fetch_one (plan : FetchPlan) (src : SourceObject) (lease : nat) (credential : option pystr) (resume : bool)
    : IM (ObjectFetchResult * bool) :=
  object <~ st_lift (object_id src) ;;
  on_world (mkdirs (parent_of (checkpoint_path object))) ;;~
  on_world (mkdirs (parent_of (staged_path object))) ;;~
  present <~ match so_expected_sha256 src with
             | None => st_ret None
             | Some digest => on_world (existing_result self plan src object digest lease)
             end ;;
  match present with
  | Some result => st_ret (result, false)
  | None =>
      started <~ on_world (begin_download plan src object resume) ;;
      match started with
      | inl code => st_ret (failed object code 0 0 [], false)
      | inr d =>
          ended <~ download (Z.to_nat (so_estimated_size_bytes src)) plan src object lease credential d ;;
          match ended with
          | inl early => st_ret early
          | inr d => result <~ complete plan src object lease d ;; st_ret (result, dl_accessed d)
          end
      end
  end.

(** ** Planning *)

(** The check of one planned object, and its place among the distinct ones. *)
Definition plan_object (request : FetchRequest) (known : list (pystr * SourceObject) * Z) (src : SourceObject)
    : res (list (pystr * SourceObject) * Z) :=
  let '(unique, duplicates) := known in
  do! fetch_when (negb (bool_decide (so_provider_id src = fr_provider_id request))
                  || negb (bool_decide (so_dataset_id src = fr_dataset_id request))
                  || date_ltb (so_coverage_date src) (fr_start_date request)
                  || date_ltb (fr_end_date request) (so_coverage_date src)
                  || negb (forallb (fun t => bool_decide (t ∈ fr_tickers request)) (so_tickers src)))
        PLAN_MISMATCH "provider returned an out-of-scope source object" in
  do! fetch_when (fr_maximum_object_bytes request <? so_estimated_size_bytes src) OBJECT_TOO_LARGE
        "source object exceeds the request size bound" in
  let! object := object_id src in
  match od_get object unique with
  | None => Ok (od_set object src unique, duplicates)
  | Some existing =>
      if bool_decide (existing = src) then Ok (unique, duplicates + 1)
      else fetch_error DUPLICATE_OBJECT "provider returned a conflicting object identity"
  end.

Fixpoint plan_objects (request : FetchRequest) (known : list (pystr * SourceObject) * Z) (l : list SourceObject)
    : res (list (pystr * SourceObject) * Z) :=
  match l with
  | [] => Ok known
  | src :: l => let! known := plan_object request known src in plan_objects request known l
  end.

(** The storage that the objects of a plan need. *)
Definition storage_needs (request : FetchRequest) (objects : list SourceObject) : res (Z * StorageRequest) :=
  let count := Z.of_nat (length objects) in
  let! total := checked_sum (map so_estimated_size_bytes objects) in
  do! fetch_when (fr_maximum_total_bytes request <? total) OBJECT_TOO_LARGE
        "fetch plan exceeds the request total-byte bound" in
  let! manifest_bytes := checked_sum (map (fun _ => MANIFEST_ESTIMATE_BYTES) objects) in
  let! output := checked_sum [total; manifest_bytes] in
  let largest := foldr Z.max 0 (map so_estimated_size_bytes objects) in
  let workers := Z.min (fr_maximum_concurrency request) count in
  let! temporary := checked_sum [largest * workers; MAX_CHECKPOINT_BYTES * workers] in
  let needs := {| operation_id := fr_request_id request; output_bytes := Some output;
                  rq_temporary_bytes := temporary; retry_overhead_bytes := 0 |} in
  do! StorageRequest_post_init needs in
  Ok (total, needs).

(** [IngestionCoordinator.plan] *)
Definition plan_fetch (request : FetchRequest) (quota : QuotaEvidence) : IM FetchPlan :=
  provider <~ st_get pr_provider ;;
  st_lift (fetch_when (negb (bool_decide (fr_provider_id request = provider_id provider))
                       || negb (bool_decide (fr_dataset_id request = provider_dataset_id provider))
                       || negb (bool_decide (fr_provider_id request = en_source_id (ic_entitlement self)))
                       || negb (bool_decide (fr_dataset_id request = en_dataset_id (ic_entitlement self))))
             PLAN_MISMATCH "request, provider, and entitlement identities do not match") ;;~
  health <~ st_lift (provider_health provider) ;;
  st_lift (fetch_when (bool_decide (health = UNAVAILABLE)) PROVIDER_UNAVAILABLE "provider is locally unavailable") ;;~
  on_world (initialize (ic_repository self) (resolve_path env)) ;;~
  raw_objects <~ on_provider (provider_plan request) ;;
  st_lift (fetch_when (bool_decide (raw_objects = [])) SIZE_UNKNOWN
             "provider produced no objects for the requested filters") ;;~
  st_lift (fetch_when (MAX_FETCH_OBJECTS <? Z.of_nat (length raw_objects)) OBJECT_TOO_LARGE
             "provider plan exceeds the object-count bound") ;;~
  known <~ st_lift (plan_objects request ([], 0) raw_objects) ;;
  let objects := map snd (py_sorted (leb_on fst pystr_leb) known.1) in
  needs <~ st_lift (storage_needs request objects) ;;
  admission <~ on_world (estimate (ic_repository self) needs.2 quota) ;;
  st_ret {| fp_request := request; fp_objects := objects; fp_duplicate_object_count := known.2;
            fp_total_estimated_bytes := needs.1; fp_storage_request := needs.2; fp_admission := admission;
            fp_rate_limit := ic_rate_limit self; fp_retry := ic_retry self; fp_provider_health := health;
            fp_entitlement := ic_entitlement self |}.

(** ** Execution *)

(** The credential of a provider that asks for one. *)
Definition find_credential (provider : P) : res (option pystr) :=
  match credential_reference provider with
  | None => Ok None
  | Some reference =>
      match ic_credential_provider self with
      | None => fetch_error CREDENTIAL_UNAVAILABLE "provider requires an external credential interface"
      | Some get =>
          let! credential := get reference in
          match credential with
          | None => fetch_error CREDENTIAL_UNAVAILABLE "provider credential is unavailable"
          | Some secret => Ok (Some secret)
          end
      end
  end.

(** The workers of a batch, in the order in which they run; every one of them runs, and
    their outcomes are kept by their place in the batch. *)
Fixpoint run_workers (plan : FetchPlan) (lease : nat) (credential : option pystr) (resume : bool)
    (batch : list SourceObject) (order : list nat) (s : Process P)
    : Process P * list (nat * res (ObjectFetchResult * bool)) :=
  match order with
  | [] => (s, [])
  | i :: order =>
      match batch !! i with
      | None => run_workers plan lease credential resume batch order s
      | Some src =>
          let '(s, r) := fetch_one plan src lease credential resume s in
          let '(s, rest) := run_workers plan lease credential resume batch order s in
          (s, (i, r) :: rest)
      end
  end.

(** The results of a batch, in the order of submission; the first error is raised. *)
Definition run_batch (plan : FetchPlan) (lease : nat) (credential : option pystr) (resume : bool)
    (batch : list SourceObject) : IM (list (ObjectFetchResult * bool)) := fun s =>
  let indices := List.seq 0 (length batch) in
  let '(s, outcomes) := run_workers plan lease credential resume batch (worker_order env indices) s in
  (s, res_map (fun i => match od_get i outcomes with
                        | Some r => r
                        | None => raise Undescribed "a worker that never ran"
                        end) indices).

(** The [for] loop over the batches. *)
Fixpoint run_batches (fuel : nat) (plan : FetchPlan) (lease : nat) (credential : option pystr) (resume : bool)
    (objects : list SourceObject) : IM (list (ObjectFetchResult * bool)) :=
  match fuel, objects with
  | _, [] => st_ret []
  | O, _ => st_lift (raise Undescribed "fuel of the batches")
  | S fuel, _ =>
      stop <~ poll_shutdown ;;
      if stop : bool then st_ret []
      else
        let width := Z.to_nat (fr_maximum_concurrency (fp_request plan)) in
        results <~ run_batch plan lease credential resume (take width objects) ;;
        rest <~ run_batches fuel plan lease credential resume (drop width objects) ;;
        st_ret (results ++ rest)
  end.

(** [with lease:] *)
Definition with_lease {A} (lease : nat) (m : IM A) : IM A :=
  on_world (enter_lease lease) ;;~
  fun s => match m s with
           | (s, r) => match on_world (close_lease lease) s with
                       | (s, Ok _) => (s, r)
                       | (s, Err e) => (s, Err e)
                       end
           end.

(** The status of an operation. *)
Definition overall_status (statuses : list FetchStatus) : FetchStatus :=
  if forallb (fun x => bool_decide (x = COMPLETED) || bool_decide (x = ALREADY_PRESENT)) statuses then COMPLETED
  else if bool_decide (STOPPED ∈ statuses) then STOPPED
  else if forallb (fun x => bool_decide (x = FAILED)) statuses then FAILED
  else PARTIAL.

(** The checks of [execute] before anything is fetched; the result is the credential. *)
Definition authorize_execution (plan current : FetchPlan) : IM (option pystr) :=
  provider <~ st_get pr_provider ;;
  st_lift (
    let! planned := plan_id plan in
    let! now_planned := plan_id current in
    do! fetch_when (negb (bool_decide (planned = now_planned))) PLAN_MISMATCH
          "fetch plan no longer matches provider metadata" in
    do! fetch_when (negb (bool_decide (fp_provider_health current = HEALTHY))) PROVIDER_UNAVAILABLE
          "provider health does not permit execution" in
    do! fetch_when (negb (bool_decide (dt_offset (utc_now env) = Some 0))) UNAUTHORIZED
          "authorization clock is not UTC" in
    let! permitted := permits (ic_entitlement self) (provider_remote provider) (utc_now env) in
    do! fetch_when (negb permitted) UNAUTHORIZED "data entitlement does not permit this execution" in
    do! fetch_when (negb (admitted (fp_admission plan))) SIZE_UNKNOWN "fetch plan did not pass storage admission" in
    find_credential provider).

Definition stopped_result (src : SourceObject) : res ObjectFetchResult :=
  let! object := object_id src in Ok (stopped object 0 0 [] None).

(** The result of an operation from those of its objects. *)
Definition assemble_result (plan : FetchPlan) (results : list (ObjectFetchResult * bool)) (stop : bool) : res FetchResult :=
  let done := map fst results in
  let! missing := if negb stop then Ok []
    else
      let! all := res_map stopped_result (fp_objects plan) in
      Ok (List.filter (fun r => negb (bool_decide (of_object_id r ∈ map of_object_id done))) all) in
  let ordered := py_sorted (leb_on of_object_id pystr_leb) (done ++ missing) in
  let! identity := plan_id plan in
  Ok {| ft_plan_id := identity; ft_request_id := fr_request_id (fp_request plan);
        ft_status := overall_status (map of_status ordered); ft_objects := ordered;
        ft_network_access_performed := existsb snd results;
        ft_deterministic_seed := fr_deterministic_seed (fp_request plan) |}.

(** [IngestionCoordinator.execute] *)
Definition execute (plan : FetchPlan) (quota : QuotaEvidence) (resume : bool) : IM FetchResult :=
  if negb (fr_execute (fp_request plan)) then
    identity <~ st_lift (plan_id plan) ;;
    st_ret {| ft_plan_id := identity; ft_request_id := fr_request_id (fp_request plan); ft_status := PLANNED;
              ft_objects := []; ft_network_access_performed := false;
              ft_deterministic_seed := fr_deterministic_seed (fp_request plan) |}
  else
    current <~ plan_fetch (fp_request plan) quota ;;
    credential <~ authorize_execution plan current ;;
    results <~ (fun s =>
      match (lease <~ on_world (acquire_admission (ic_repository self) (fp_storage_request plan) quota) ;;
             with_lease lease
               (run_batches (length (fp_objects plan)) plan lease credential resume (fp_objects plan))) s with
      | (s, Err (Exn (StorageError _) _)) => (s, fetch_error FE_IO_FAILURE "storage operation failed")
      | r => r
      end) ;;
    stop <~ poll_shutdown ;;
    st_lift (assemble_result plan results stop).
End coordinator.
