(* ===== verification/IngestionProviders.v ===== *)
(** * Providers of the ingestion framework

    Models the credential boundary and two of the providers of
    [python/research/aegis_mx_research/ingestion.py]: [SyntheticMinuteBarProvider], which
    generates deterministic minute bars, and [DeterministicMockHttpS3Provider], a scripted
    remote provider.  Both are instances of [DataProvider]. *)

From S2P Require Import Prelude PyText Json Sha256 PyDateTime ReferenceDocuments Storage Manifests FileSystem Repository.
From S2P Require Import Ingestion Coordinator.

Open Scope Z_scope.

(** ** Credentials *)

Definition MAX_CREDENTIAL_BYTES : Z := 16384.

(** [SecretValue.__init__]; the value is its text. *)
Definition new_secret (value : pystr) : res pystr :=
  let! bad := malformed_text MAX_CREDENTIAL_BYTES value in
  do! fetch_when bad CREDENTIAL_UNAVAILABLE "credential value is absent or malformed" in
  Ok value.

(** [[A-Z][A-Z0-9_]{2,127}] *)
Definition is_variable (s : pystr) : bool :=
  match s with
  | [] => false
  | c :: rest => is_upper c && forallb (fun c => is_upper c || is_digit c || (c =? 95)) rest
                 && Nat.leb 2 (length rest) && Nat.leb (length rest) 127
  end.

(** [EnvironmentCredentialProvider.get] *)
Definition environment_credential (environment : list (pystr * pystr)) (allowed_prefix reference : pystr)
    : res (option pystr) :=
  do! fetch_when (negb (bool_decide (allowed_prefix `prefix_of` reference)) || negb (is_variable reference))
        CREDENTIAL_UNAVAILABLE "credential reference is outside the allowlist" in
  match od_get reference environment with
  | None => Ok None
  | Some value => let! secret := new_secret value in Ok (Some secret)
  end.

(** ** Synthetic minute bars *)

(** [datetime.combine(coverage_date, time(14, 30), tzinfo=UTC)] *)
Definition fixture_start (d : date) : datetime :=
  {| dt_date := d; dt_second := 14 * 3600 + 30 * 60; dt_microsecond := 0; dt_offset := Some 0 |}.

(** [_fixture_time_range] *)
Definition fixture_time_range (coverage_date : date) : res ManifestTimeRange :=
  let! start := utc_nanoseconds (fixture_start coverage_date) in
  let last := start + 389 * 60000000000 in
  let t := {| event_time_min_ns := start; event_time_max_ns := last; publication_time_min_ns := start;
              publication_time_max_ns := last; receive_time_min_ns := start; receive_time_max_ns := last;
              processing_time_min_ns := start; processing_time_max_ns := last; revision_time_min_ns := start;
              revision_time_max_ns := last |} in
  do! ManifestTimeRange_post_init t in
  Ok t.

Definition minute_line (ticker : pystr) (event opening high low closing volume : Z) : json :=
  JObj [(str "close_ticks", JInt closing); (str "event_time_ns", JInt event); (str "high_ticks", JInt high);
        (str "low_ticks", JInt low); (str "open_ticks", JInt opening); (str "quantity_units", JInt volume);
        (str "symbol", JStr ticker)].

(** The [for] loop of [_synthetic_payload], with [n] minutes left from the minute [k]; the
    result is the list of lines. *)
Fixpoint synthetic_lines (n : nat) (k : Z) (ticker : pystr) (start_ns state price : Z) : res (list pybytes) :=
  match n with
  | O => Ok []
  | S n =>
      let state := Z.land (state * 6364136223846793005 + 1) (2 ^ 64 - 1) in
      let change := Z.shiftr state 32 mod 7 - 3 in
      let opening := price in
      let closing := Z.max 1 (opening + change) in
      let high := Z.max opening closing + Z.shiftr state 40 mod 3 in
      let low := Z.max 1 (Z.min opening closing - Z.shiftr state 44 mod 3) in
      let volume := 100 + Z.shiftr state 16 mod 9901 in
      let! line := dumps (minute_line ticker (start_ns + k * 60000000000) opening high low closing volume) in
      let! rest := synthetic_lines n (k + 1) ticker start_ns state closing in
      Ok ((line ++ [10]) :: rest)
  end.

(** [_synthetic_payload] *)
Definition synthetic_payload (ticker : pystr) (session : date) (seed : Z) : res pybytes :=
  let! seed_text := int_str seed in
  let! text := utf8_encode (seed_text ++ 58 :: ticker ++ 58 :: isoformat session) in
  let state := int_from_bytes (take 8 (sha256 text)) in
  let price := 5000 + state mod 50000 in
  let! times := fixture_time_range session in
  let! lines := synthetic_lines 390 0 ticker (event_time_min_ns times) state price in
  Ok (concat lines).

(** [int(text)] of plain decimal text; the other forms that it accepts are not described. *)
Definition int_of_text (s : pystr) : res Z :=
  let digits ds := bool_decide (ds <> []) && forallb is_digit ds && (Z.of_nat (length ds) <=? 4300) in
  match s with
  | 45 :: ds => if digits ds then Ok (- dec_val ds) else raise Undescribed "other integer text"
  | ds => if digits ds then Ok (dec_val ds) else raise Undescribed "other integer text"
  end.

(** [s.removeprefix(prefix)] *)
Definition removeprefix (prefix s : pystr) : pystr :=
  if bool_decide (prefix `prefix_of` s) then drop (length prefix) s else s.

(** [payload.splitlines()] of bytes: lines end at LF, CR or CR LF. *)
Fixpoint split_bytes (line : pybytes) (b : pybytes) : list pybytes :=
  match b with
  | [] => match line with [] => [] | _ => [rev line] end
  | 13 :: 10 :: b => rev line :: split_bytes [] b
  | c :: b => if (c =? 10) || (c =? 13) then rev line :: split_bytes [] b else split_bytes (c :: line) b
  end.
Definition splitlines (b : pybytes) : list pybytes := split_bytes [] b.

Record SyntheticMinuteBarProvider := {
  sy_dataset_id : pystr;
  sy_provider_id : pystr;
  sy_remote : bool;
  sy_credential_reference : option pystr;
}.
Definition default_synthetic : SyntheticMinuteBarProvider :=
  {| sy_dataset_id := str "synthetic-minute-bars"; sy_provider_id := str "synthetic-minute-bars"; sy_remote := false;
     sy_credential_reference := None |}.

(** The object of one ticker and session. *)
Definition synthetic_object (self : SyntheticMinuteBarProvider) (seed : Z) (session : date) (ticker : pystr)
    : res SourceObject :=
  let! payload := synthetic_payload ticker session seed in
  let! seed_text := int_str seed in
  let! times := fixture_time_range session in
  let s := {| so_provider_id := sy_provider_id self; so_dataset_id := sy_dataset_id self;
              so_source_version := str "synthetic-minute-v1"; so_locator := ticker ++ 47 :: isoformat session ++ str ".jsonl";
              so_version_id := str "seed-" ++ seed_text; so_coverage_date := session; so_tickers := [ticker];
              so_estimated_size_bytes := Z.of_nat (length payload); so_expected_sha256 := Some (sha256_hex payload);
              so_record_count := 390; so_schema_name := str "synthetic-minute-bars-jsonl";
              so_schema_version := str "1.0.0"; so_content_format := str "application/x-ndjson"; so_times := times;
              so_resume_mode := VERIFIED_RANGE; so_lineage := no_lineage |} in
  do! SourceObject_post_init s in
  Ok s.

(** [SyntheticMinuteBarProvider.plan] *)
Definition synthetic_plan (self : SyntheticMinuteBarProvider) (request : FetchRequest) : res (list SourceObject) :=
  do! fetch_when (negb (bool_decide (fr_provider_id request = sy_provider_id self))
                  || negb (bool_decide (fr_dataset_id request = sy_dataset_id self)))
        PLAN_MISMATCH "request does not match the synthetic provider" in
  let! days := date_range (fr_start_date request) (fr_end_date request) in
  let! objects := res_map (fun session =>
    if SATURDAY_INDEX <=? weekday session then Ok []
    else res_map (synthetic_object self (fr_deterministic_seed request) session) (fr_tickers request)) days in
  Ok (concat objects).

(** The bytes from [offset], at most [maximum_bytes] of them: [payload[offset : offset + maximum_bytes]]
    for an offset and a bound that are not negative. *)
Definition byte_range (payload : pybytes) (offset maximum_bytes : Z) : pybytes :=
  take (Z.to_nat maximum_bytes) (drop (Z.to_nat offset) payload).

(** [SyntheticMinuteBarProvider.fetch_range] *)
Definition synthetic_fetch (source : SourceObject) (offset maximum_bytes : Z) (credential : option pystr)
    : res ProviderChunk :=
  do! fetch_when (bool_decide (credential <> None)) FE_INVALID_REQUEST "synthetic provider does not accept a credential" in
  match so_tickers source with
  | [] => raise IndexError "tuple index out of range"
  | ticker :: _ =>
      let! seed := int_of_text (removeprefix (str "seed-") (so_version_id source)) in
      let! payload := synthetic_payload ticker (so_coverage_date source) seed in
      let body := byte_range payload offset maximum_bytes in
      Ok {| pc_offset := offset; pc_data := body; pc_total_size_bytes := Z.of_nat (length payload);
            pc_version_id := so_version_id source;
            pc_complete := offset + Z.of_nat (length body) =? Z.of_nat (length payload) |}
  end.

(** The check of one line; text that is not JSON is malformed, and a document that is no
    object has no [get]. *)
Definition check_line (tickers : list pystr) (line : pybytes) : res unit :=
  match loads_bytes line with
  | Err (Exn JSONDecodeError _) => fetch_error MALFORMED_OBJECT "synthetic object contains malformed JSON"
  | Err e => Err e
  | Ok (JObj m) =>
      fetch_when (negb (match od_get (str "symbol") m with
                        | Some (JStr s) => bool_decide (s ∈ tickers)
                        | _ => false
                        end)) MALFORMED_OBJECT "synthetic object contains an out-of-scope ticker"
  | Ok _ => raise AttributeError "get"
  end.

(** [SyntheticMinuteBarProvider.validate_payload] *)
Definition synthetic_validate (source : SourceObject) (payload : pybytes) : res Z :=
  let lines := splitlines payload in
  let count := Z.of_nat (length lines) in
  do! fetch_when (negb (count =? so_record_count source)) MALFORMED_OBJECT
        "synthetic object has an unexpected record count" in
  do! res_iter (check_line (so_tickers source)) lines in
  Ok count.

#[export] Instance synthetic_provider : DataProvider SyntheticMinuteBarProvider := {
  provider_id := sy_provider_id;
  provider_dataset_id := sy_dataset_id;
  provider_remote := sy_remote;
  credential_reference := sy_credential_reference;
  provider_health := fun _ => Ok HEALTHY;
  provider_plan := fun request self => (self, synthetic_plan self request);
  fetch_range := fun source offset maximum_bytes _ credential self => (self, synthetic_fetch source offset maximum_bytes credential);
  validate_payload := fun source payload self => (self, synthetic_validate source payload);
}.

(** ** The scripted remote provider *)

Inductive MockFailure :=
  | MF_SUCCESS | MF_TIMEOUT | MF_RATE_LIMIT | MF_PARTIAL_RESPONSE | MF_CHANGED_OBJECT | MF_OVERSIZED_OBJECT
  | MF_BAD_OFFSET | MF_EMPTY_RESPONSE | MF_BAD_COMPLETION | MF_NONRETRYABLE.
#[export] Instance MockFailure_eq_dec : EqDecision MockFailure.
Proof. solve_decision. Defined.

Record MockObject := {
  mo_locator : pystr;
  mo_coverage_date : date;
  mo_tickers : list pystr;
  mo_payload : pybytes;
  mo_times : ManifestTimeRange;
  mo_version_id : pystr;
  mo_record_count : Z;
  mo_expected_sha256_override : option pystr;
  mo_omit_expected_sha256 : bool;
  mo_malformed : bool;
  mo_resume_mode : ResumeMode;
  mo_validated_record_count_override : option Z;
  mo_lineage : ManifestLineage;
}.

(** [on_fetch] is code of the caller; it may raise. *)
Record DeterministicMockHttpS3Provider := {
  mk_provider_id : pystr;
  mk_dataset_id : pystr;
  mk_credential_reference : option pystr;
  mk_objects : list MockObject;
  mk_failures : list (pystr * list MockFailure);
  mk_calls : list (pystr * Z);
  mk_on_fetch : option (pystr -> Z -> res unit);
  mk_duplicate_first_object : bool;
}.

(** [_by_locator]: the last object of a locator. *)
Definition by_locator (self : DeterministicMockHttpS3Provider) (locator : pystr) : res MockObject :=
  match List.find (fun item => bool_decide (mo_locator item = locator)) (rev (mk_objects self)) with
  | Some item => Ok item
  | None => raise KeyError "locator"
  end.

(** [value or default] of text and of a count *)
Definition text_or (o : option pystr) (d : pystr) : pystr :=
  match o with Some (c :: s) => c :: s | _ => d end.
Definition count_or (o : option Z) (d : Z) : Z :=
  match o with Some n => if n =? 0 then d else n | None => d end.

(** [_source] *)
Definition mock_source (self : DeterministicMockHttpS3Provider) (item : MockObject) : res SourceObject :=
  let s := {| so_provider_id := mk_provider_id self; so_dataset_id := mk_dataset_id self;
              so_source_version := str "deterministic-mock-v1"; so_locator := mo_locator item;
              so_version_id := mo_version_id item; so_coverage_date := mo_coverage_date item;
              so_tickers := mo_tickers item; so_estimated_size_bytes := Z.of_nat (length (mo_payload item));
              so_expected_sha256 := if mo_omit_expected_sha256 item then None
                                    else Some (text_or (mo_expected_sha256_override item) (sha256_hex (mo_payload item)));
              so_record_count := mo_record_count item; so_schema_name := str "mock-object";
              so_schema_version := str "1.0.0"; so_content_format := str "application/octet-stream";
              so_times := mo_times item; so_resume_mode := mo_resume_mode item; so_lineage := mo_lineage item |} in
  do! SourceObject_post_init s in
  Ok s.

(** [DeterministicMockHttpS3Provider.plan] *)
Definition mock_plan (self : DeterministicMockHttpS3Provider) (request : FetchRequest) : res (list SourceObject) :=
  do! fetch_when (negb (bool_decide (fr_provider_id request = mk_provider_id self))
                  || negb (bool_decide (fr_dataset_id request = mk_dataset_id self)))
        PLAN_MISMATCH "request does not match mock provider" in
  let! planned := res_map (mock_source self)
    (List.filter (fun item => negb (date_ltb (mo_coverage_date item) (fr_start_date request))
                              && negb (date_ltb (fr_end_date request) (mo_coverage_date item))
                              && existsb (fun t => bool_decide (t ∈ mo_tickers item)) (fr_tickers request))
       (mk_objects self)) in
  match planned with
  | first :: _ => Ok (if mk_duplicate_first_object self then first :: planned else planned)
  | [] => Ok []
  end.

(** The count of the call and the next outcome of the script. *)
Definition next_call (locator : pystr) (self : DeterministicMockHttpS3Provider)
    : DeterministicMockHttpS3Provider * Z * option MockFailure :=
  let number := match od_get locator (mk_calls self) with Some n => n | None => 0 end + 1 in
  let script := match od_get locator (mk_failures self) with Some l => l | None => [] end in
  ({| mk_provider_id := mk_provider_id self; mk_dataset_id := mk_dataset_id self;
      mk_credential_reference := mk_credential_reference self; mk_objects := mk_objects self;
      mk_failures := match script with
                     | _ :: rest => od_set locator rest (mk_failures self)
                     | [] => mk_failures self
                     end;
      mk_calls := od_set locator number (mk_calls self); mk_on_fetch := mk_on_fetch self;
      mk_duplicate_first_object := mk_duplicate_first_object self |}, number, head script).

Definition provider_error {A} (code : FetchErrorCode) (retryable : bool) (retry_after_ns : Z) (msg : string) : res A :=
  raise (ProviderFetchError code retryable retry_after_ns) msg.

(** The answer to a request. *)
Definition mock_answer (self : DeterministicMockHttpS3Provider) (source : SourceObject) (offset maximum_bytes : Z)
    (failure : option MockFailure) : res ProviderChunk :=
  match failure with
  | Some MF_TIMEOUT => provider_error TIMEOUT true 0 "mock timeout"
  | Some MF_RATE_LIMIT => provider_error RATE_LIMITED true 1 "mock rate limit"
  | Some MF_PARTIAL_RESPONSE => provider_error PARTIAL_RESPONSE true 0 "mock partial response"
  | Some MF_NONRETRYABLE => provider_error OBJECT_CHANGED false 0 "mock nonretryable failure"
  | _ =>
      let! item := by_locator self (so_locator source) in
      let size := Z.of_nat (length (mo_payload item)) in
      let body := if bool_decide (failure = Some MF_EMPTY_RESPONSE) then []
                  else byte_range (mo_payload item) offset maximum_bytes in
      Ok {| pc_offset := if bool_decide (failure = Some MF_BAD_OFFSET) then offset + 1 else offset;
            pc_data := body;
            pc_total_size_bytes := if bool_decide (failure = Some MF_OVERSIZED_OBJECT) then size + 1 else size;
            pc_version_id := if bool_decide (failure = Some MF_CHANGED_OBJECT)
                             then mo_version_id item ++ str "-changed" else mo_version_id item;
            pc_complete := negb (Bool.eqb (offset + Z.of_nat (length body) =? size)
                                          (bool_decide (failure = Some MF_BAD_COMPLETION))) |}
  end.

(** [DeterministicMockHttpS3Provider.fetch_range] *)
Definition mock_fetch (source : SourceObject) (offset maximum_bytes : Z)
    : M DeterministicMockHttpS3Provider ProviderChunk := fun self =>
  let '(self, number, failure) := next_call (so_locator source) self in
  (self, do! match mk_on_fetch self with Some f => f (so_locator source) number | None => Ok tt end in
         mock_answer self source offset maximum_bytes failure).

(** [DeterministicMockHttpS3Provider.validate_payload] *)
Definition mock_validate (self : DeterministicMockHttpS3Provider) (source : SourceObject) : res Z :=
  let! item := by_locator self (so_locator source) in
  do! fetch_when (mo_malformed item) MALFORMED_OBJECT "mock object failed structural validation" in
  Ok (count_or (mo_validated_record_count_override item) (mo_record_count item)).

#[export] Instance mock_provider : DataProvider DeterministicMockHttpS3Provider := {
  provider_id := mk_provider_id;
  provider_dataset_id := mk_dataset_id;
  provider_remote := fun _ => true;
  credential_reference := mk_credential_reference;
  provider_health := fun _ => Ok HEALTHY;
  provider_plan := fun request self => (self, mock_plan self request);
  fetch_range := fun source offset maximum_bytes _ _ => mock_fetch source offset maximum_bytes;
  validate_payload := fun source _ self => (self, mock_validate self source);
}.
