(* ===== verification/CoordinatorSafety.v ===== *)
(** * What a download does to the data root

    Whatever the provider answers and wherever input/output fails, the download of an
    object changes no published file; while it runs, the staged bytes and the checkpoint
    agree, so that a stopped download can be resumed; and an object that is reported as
    stored is there, with the digest, the size and the manifest that were reported. *)

From S2P Require Import Prelude PyText Json Sha256 PyDateTime ReferenceDocuments Storage Manifests FileSystem Repository.
From S2P Require Import RepositoryHistory RepositoryInventory RepositoryPublication RepositoryVerify Ingestion Coordinator.

Open Scope Z_scope.

(** ** Names that a step may change *)

(** Files at names outside [T] keep their inode, their bytes and, when they have only one,
    their single link. *)
Definition untouched (T : path -> Prop) (f f' : filesystem) : Prop :=
  forall q i x, ~ T q -> nodes f !! q = Some (Regular i) -> inodes f !! i = Some x ->
    nodes f' !! q = Some (Regular i)
    /\ exists x', inodes f' !! i = Some x' /\ ino_bytes x' = ino_bytes x /\ (ino_nlink x = 1 -> ino_nlink x' = 1).

#[export] Instance untouched_preorder T : PreOrder (untouched T).
Proof.
  split.
  - intros f q i x _ Hn Hx. eauto.
  - intros f g h H1 H2 q i x HT Hn Hx. destruct (H1 q i x HT Hn Hx) as (Hn' & y & Hy & Hb & Hl).
    destruct (H2 q i y HT Hn' Hy) as (Hn'' & z & Hz & Hb' & Hl'). split; [done|]. exists z. split_and!; [done | congruence | auto].
Qed.

Lemma untouched_more (T U : path -> Prop) f f' : (forall q, T q -> U q) -> untouched T f f' -> untouched U f f'.
Proof. intros HT H q i x Hq. apply H. auto. Qed.

Lemma untouched_keeps (T P : path -> Prop) f f' : (forall q, P q -> ~ T q) -> untouched T f f' -> keeps P f f'.
Proof. intros HP H q i x Hq Hn Hx. destruct (H q i x (HP q Hq) Hn Hx) as (Hn' & x' & Hx' & Hb & _). eauto. Qed.

Lemma untouched_holds (T : path -> Prop) f f' q b : ~ T q -> untouched T f f' -> holds f q b -> holds f' q b.
Proof.
  intros HT H (i & x & Hn & Hx & <- & Hl). destruct (H q i x HT Hn Hx) as (Hn' & x' & Hx' & Hb & Hl').
  exists i, x'. split_and!; auto.
Qed.

(** The only name of a file that is held under it. *)
Lemma held_name f p q b i :
  wf f -> holds f p b -> nodes f !! p = Some (Regular i) -> nodes f !! q = Some (Regular i) -> q = p.
Proof.
  intros Hwf (j & x & Hn & Hx & _ & Hl) Hp Hq. assert (j = i) as -> by congruence. by eapply (single_link f q p i x).
Qed.

Lemma append_held i data (w : W) p b :
  wf (fs w) -> holds (fs w) p b -> nodes (fs w) !! p = Some (Regular i) ->
  let r := sys_append i data w in
  wf (fs r.1) /\ untouched (eq p) (fs w) (fs r.1) /\ (r.2 = Ok tt -> holds (fs r.1) p (b ++ data)).
Proof.
  intros Hwf Hh Hp. destruct (append_effect i data w Hwf) as (H1 & H2 & H3 & H4). cbv zeta. split; [done|]. split.
  - intros q j x HT Hq Hx. rewrite H2. split; [done|]. exists x. split; [|done]. rewrite H3; [done|].
    intros ->. apply HT. symmetry. eapply (held_name (fs w)); eassumption.
  - intros Hr. destruct Hh as (j & x & Hn & Hx & <- & Hl). assert (j = i) as -> by congruence.
    destruct (H4 x Hx) as (n & x' & Hx' & Hb & Hl' & Hlen). exists i, x'. rewrite H2.
    split_and!; [done | done | | congruence]. rewrite Hb, Hlen by done. f_equal. apply firstn_all.
Qed.

Lemma append_staged_spec p data (w : W) b :
  wf (fs w) -> holds (fs w) p b ->
  let r := append_staged p data w in
  wf (fs r.1) /\ untouched (eq p) (fs w) (fs r.1) /\ (r.2 = Ok tt -> holds (fs r.1) p (b ++ data)).
Proof.
  intros Hwf Hh. unfold append_staged, st_bind, sys_open_append.
  match goal with |- context [change ?g w] => destruct (change_cases g w) as [[Hf [e He]] | (f & i & H & Hr & Hf)] end;
    destruct (change _ w) as [w1 r1]; cbn [fst snd] in *; subst r1.
  - cbv zeta. cbn [fst snd]. rewrite Hf. by split_and!.
  - apply rbind_ok in H as (n & Hn%lookup_node_some & H). destruct n as [|i'| |]; try done. injection H as <- <-.
    destruct (append_held i' data w1 p b) as (H1 & H2 & H3); [by rewrite Hf.. |]. rewrite Hf in H2.
    destruct (sys_append i' data w1) as [w2 [[]|e2]]; cbn [fst snd] in *; [|by split_and!].
    pose proof (fsync_fs w2) as Hs. destruct (sys_fsync w2) as [w3 r3]. cbn [fst snd] in *. rewrite Hs. split_and!; auto.
Qed.

(** A new, empty file. *)
Lemma new_file_tree f p d :
  wf f -> p <> [] -> nodes f !! parent_of p = Some (Directory d) -> nodes f !! p = None ->
  let x := {| ino_bytes := []; ino_nlink := 1; ino_device := parent_device f p; ino_blocks := 0 |} in
  let f' := set_node p (Regular (next_ino f)) (new_inode x f) in
  wf f' /\ untouched (eq p) f f' /\ holds f' p [].
Proof.
  intros Hwf Hp Hd Hn x f'.
  set (w := {| fs := f; faults := []; blocks_of := fun _ => 0; lock_owner := None; next_descriptor := 0; objects := [] |} : W).
  assert (sys_create p w = (set_fs f' w, Ok (next_ino f))) as E.
  { unfold sys_create. by erewrite change_quiet; [| |by rewrite (free_name_ok _ p d)]. }
  destruct (create_step p w _ _ Hwf E) as (_ & _ & Hwf' & Hnodes & y & Hino & Hb & Hl). cbn [fs set_fs w] in *. split; [done|]. split.
  - intros q i z HT Hq Hz. rewrite Hnodes, Hino. split; [by rewrite lookup_insert_ne|]. exists z. split; [|done].
    rewrite lookup_insert_ne; [done|]. intros <-. by apply (fresh_unreferenced f q).
  - exists (next_ino f), y. rewrite Hnodes, Hino, !lookup_insert_eq. by split_and!.
Qed.

Lemma rewrite_staged_spec p (w : W) :
  wf (fs w) -> p <> [] -> nodes (fs w) !! p = None \/ (exists b, holds (fs w) p b) ->
  let r := rewrite_staged p w in
  wf (fs r.1) /\ untouched (eq p) (fs w) (fs r.1) /\ (r.2 = Ok tt -> holds (fs r.1) p []).
Proof.
  intros Hwf Hp Hh. unfold rewrite_staged, st_bind, sys_open_truncate.
  match goal with |- context [change ?g w] => destruct (change_cases g w) as [[Hf [e He]] | (f & u & H & Hr & Hf)] end;
    destruct (change _ w) as [w1 r1]; cbn [fst snd] in *; subst r1; [cbv zeta; cbn [fst snd]; rewrite Hf; by split_and!|].
  assert (wf f /\ untouched (eq p) (fs w) f /\ holds f p []) as (H1 & H2 & H3).
  { apply rbind_ok in H as ([] & Ha & H). destruct Hh as [Hn | [b Hb]].
    - rewrite Hn in H. injection H as <- _. apply path_snoc in Hp as (q & name & ->).
      rewrite ancestors_snoc in Ha. apply res_iter_ok, Forall_app in Ha as [_ Ha]. rewrite Forall_singleton, enter_ok in Ha.
      destruct Ha as [d Hd]. apply (new_file_tree _ _ d); [done | by destruct q | by rewrite parent_of_snoc | done].
    - pose proof Hb as (i & x & Hn & Hx & _ & Hl). rewrite Hn in H. injection H as <- _. split; [|split].
      + apply wf_update_inode; [done|]. intros y Hy. exact (wf_links _ Hwf _ _ Hy).
      + intros q j y HT Hq Hy. split; [done|]. exists y. split; [|done]. cbn. rewrite lookup_alter_ne; [done|].
        intros ->. apply HT. symmetry. eapply (held_name (fs w)); eassumption.
      + exists i, (set_bytes (fun _ => 0) [] x). cbn. rewrite lookup_alter_eq, Hx. by split_and!. }
  pose proof (fsync_fs w1) as Hs. destruct (sys_fsync w1) as [w3 r3]. cbn [fst snd] in *. rewrite Hs, Hf. by split_and!.
Qed.

(** Moving a held file over another name. *)
Lemma replace_held source target (w : W) b :
  wf (fs w) -> source <> target -> holds (fs w) source b ->
  let r := sys_replace source target w in
  wf (fs r.1) /\ untouched (fun q => q = source \/ q = target) (fs w) (fs r.1)
  /\ (r.2 = Ok tt -> holds (fs r.1) target b).
Proof.
  intros Hwf Hne Hh. destruct (safe_replace (fun _ => False) source target (fun H => H) (fun H => H) w Hwf) as [Hwf' _].
  cbv zeta. split; [done|]. clear Hwf'. unfold sys_replace.
  match goal with |- context [change ?g w] => destruct (change_cases g w) as [[Hf [e He]] | (f & [] & H & Hr & Hf)] end.
  { rewrite Hf, He. by split. }
  rewrite Hf. clear Hf. destruct Hh as (i & x & Hn & Hx & Hb & Hl).
  apply rbind_ok in H as (n & Hn'%lookup_node_some & H). apply rbind_ok in H as ([] & _ & H).
  assert (n = Regular i) as -> by congruence.
  assert (forall g, (forall j y, inodes (fs w) !! j = Some y -> exists y', inodes g !! j = Some y' /\ ino_bytes y' = ino_bytes y
                       /\ (y' = y \/ nodes (fs w) !! target = Some (Regular j))) ->
            nodes g = nodes (fs w) -> inodes g !! i = inodes (fs w) !! i -> f = set_node target (Regular i) (remove_node source g) ->
            untouched (fun q => q = source \/ q = target) (fs w) f /\ (Ok tt = Ok tt -> holds f target b)) as Hstep.
  { intros g Hg Hng Hgi ->. split.
    - intros q j y HT Hq Hy. cbn. rewrite lookup_insert_ne by (intros ->; auto). rewrite lookup_delete_ne by (intros ->; auto).
      rewrite Hng. split; [done|]. destruct (Hg j y Hy) as (y' & Hy' & Hb' & Hcase). exists y'. split_and!; [done..|].
      intros Hy1. destruct Hcase as [-> | Hj]; [done|]. exfalso. apply HT. right. by eapply (single_link (fs w) q target j y).
    - intros _. exists i, x. cbn. rewrite lookup_insert_eq, Hgi. by split_and!. }
  rewrite Hr. destruct (nodes (fs w) !! target) as [old|] eqn:Ht.
  2:{ injection H as <-. apply (Hstep (fs w)); try done. intros j y Hy. exists y. auto. }
  assert (Regular i <> old) as Hio.
  { intros <-. apply Hne. by eapply (single_link (fs w) source target i x). }
  destruct old as [d|j| |d]; [done| | |].
  - rewrite bool_decide_eq_false_2 in H by done. injection H as <-.
    apply (Hstep (update_inode j (add_links (-1)) (fs w))); try done.
    + intros k y Hy. cbn. destruct (decide (k = j)) as [->|Hk].
      * rewrite lookup_alter_eq, Hy. eexists. split; [reflexivity|]. auto.
      * rewrite lookup_alter_ne by done. eauto.
    + cbn. rewrite lookup_alter_ne; [done|]. congruence.
  - rewrite bool_decide_eq_false_2 in H by done. injection H as <-. apply (Hstep (fs w)); try done. intros k y Hy. exists y. auto.
  - rewrite bool_decide_eq_false_2 in H by done. injection H as <-. apply (Hstep (fs w)); try done. intros k y Hy. exists y. auto.
Qed.

(** The two names of a checkpoint. *)
Definition checkpoint_names (object : pystr) (q : path) : Prop :=
  q = checkpoint_new_path object \/ q = checkpoint_path object.

Lemma checkpoint_paths_differ object : checkpoint_new_path object <> checkpoint_path object.
Proof.
  unfold checkpoint_new_path, checkpoint_path. intros [= H]. apply app_inv_head in H. by vm_compute in H.
Qed.

Lemma save_checkpoint_spec object c (w w' : W) r :
  wf (fs w) -> save_checkpoint object c w = (w', r) ->
  wf (fs w') /\ untouched (checkpoint_names object) (fs w) (fs w')
  /\ (r = Ok tt -> exists b, encode_checkpoint c = Ok b /\ holds (fs w') (checkpoint_path object) b).
Proof.
  intros Hwf H. set (new := checkpoint_new_path object) in *. unfold save_checkpoint, st_bind at 1, look at 1 in H. fold new in H.
  destruct (present (fs w) new) as [[]|e]; [by injection H as <- <- | | by injection H as <- <-].
  unfold st_bind at 1 in H. destruct (sys_create new w) as [w1 [i|e]] eqn:E.
  2:{ injection H as <- <-. rewrite (create_failed _ w w1 e E). by split_and!. }
  destruct (create_step new w w1 i Hwf E) as (-> & Hn & Hwf1 & Hnodes & x & Hino & Hb & Hl).
  assert (holds (fs w1) new []) as Hh1.
  { exists (next_ino (fs w)), x. rewrite Hnodes, Hino, !lookup_insert_eq. by split_and!. }
  assert (untouched (eq new) (fs w) (fs w1)) as Hu1.
  { intros q j y HT Hq Hy. rewrite Hnodes, Hino. split; [by rewrite lookup_insert_ne|]. exists y. split; [|done].
    rewrite lookup_insert_ne; [done|]. intros <-. by apply (fresh_unreferenced (fs w) q). }
  assert (untouched (checkpoint_names object) (fs w) (fs w1)) as Hu1' by (eapply untouched_more; [|exact Hu1]; intros q <-; by left).
  unfold st_bind at 1, st_lift in H. destruct (encode_checkpoint c) as [b|e]; [|by injection H as <- <-].
  destruct (append_held (next_ino (fs w)) b w1 new [] Hwf1 Hh1) as (Hwf2 & Hu2 & Hh2); [by rewrite Hnodes, lookup_insert_eq|].
  unfold st_bind at 1 in H. destruct (sys_append _ b w1) as [w2 r2]. cbn [fst snd] in *.
  assert (untouched (checkpoint_names object) (fs w) (fs w2)) as Hu2'.
  { etrans; [exact Hu1'|]. eapply untouched_more; [|exact Hu2]. intros q <-. by left. }
  destruct r2 as [[]|e2]; [|by injection H as <- <-]. specialize (Hh2 eq_refl).
  unfold st_bind at 1 in H. pose proof (fsync_fs w2) as Hs. destruct (sys_fsync w2) as [w3 [[]|e3]]; cbn [fst] in Hs;
    [|injection H as <- <-; rewrite Hs; by split_and!].
  destruct (replace_held new (checkpoint_path object) w3 b) as (Hwf4 & Hu4 & Hh4);
    [by rewrite Hs | apply checkpoint_paths_differ | by rewrite Hs|]. rewrite Hs in Hu4.
  unfold st_bind in H. destruct (sys_replace new _ w3) as [w4 r4]. cbn [fst snd] in *.
  assert (untouched (checkpoint_names object) (fs w) (fs w4)) as Hu4' by (etrans; [exact Hu2' | exact Hu4]).
  destruct r4 as [[]|e4]; [|by injection H as <- <-]. specialize (Hh4 eq_refl).
  pose proof (sync_directory_fs (parent_of (checkpoint_path object)) w4) as Hd. rewrite H in Hd. cbn [fst] in Hd. rewrite Hd.
  split_and!; eauto.
Qed.

Lemma drop_name_untouched f p n :
  wf f -> nodes f !! p = Some n -> untouched (eq p) f (drop_name p n f).
Proof.
  intros Hwf Hp q i x HT Hq Hx. unfold drop_name. cbn. rewrite lookup_delete_ne by done.
  destruct n as [d|j| |d]; cbn; [eauto 6 | | eauto 6 | eauto 6]. split; [done|]. destruct (decide (i = j)) as [->|Hne].
  - rewrite lookup_alter_eq, Hx. eexists. split; [reflexivity|]. split; [done|]. intros Hl. exfalso. apply HT.
    by eapply (single_link f p q j x).
  - rewrite lookup_alter_ne by done. eauto.
Qed.

Lemma remove_checkpoint_spec object (w w' : W) r :
  wf (fs w) -> remove_checkpoint object w = (w', r) ->
  wf (fs w') /\ untouched (eq (checkpoint_path object)) (fs w) (fs w').
Proof.
  intros Hwf H. set (p := checkpoint_path object) in *. unfold remove_checkpoint in H. fold p in H.
  unfold st_bind at 1, st_try, st_bind at 1 in H.
  destruct (safe_unlink (fun _ => False) p (fun H => H) w Hwf) as [Hwf' _].
  destruct (unlink_cases p w) as [[Hf [e He]] | (Hr & n & Hn & Hf)]; destruct (sys_unlink p w) as [w1 r1];
    cbn [fst snd] in *; subst r1.
  - destruct (caught_by e _); injection H as <- <-; rewrite Hf; by split.
  - unfold st_ret in H. pose proof (sync_directory_fs (parent_of p) w1) as Hs. rewrite H in Hs. cbn [fst] in Hs. rewrite Hs.
    split; [done|]. rewrite Hf. by apply drop_name_untouched.
Qed.

(** ** Triples *)

(** The tree that a state contains. *)
Class HasTree (S : Type) := tree_of : S -> filesystem.
#[export] Instance world_tree : HasTree W := fs.
#[export] Instance process_tree {P} : HasTree (Process P) := fun s => fs (pr_world s).

(** From a well-formed tree that satisfies [pre], every run ends in a well-formed tree in
    which published files are as they were; and one that returns [a] satisfies [post a]. *)
Definition triple {S A} `{!HasTree S} (pre : filesystem -> Prop) (m : M S A) (post : A -> filesystem -> Prop) : Prop :=
  forall s, wf (tree_of s) -> pre (tree_of s) ->
    wf (tree_of (m s).1) /\ keeps published (tree_of s) (tree_of (m s).1)
    /\ forall a, (m s).2 = Ok a -> post a (tree_of (m s).1).

Section rules.
Context {S : Type} `{!HasTree S}.

Lemma triple_bind {A B} pre mid post (m : M S A) (k : A -> M S B) :
  triple pre m mid -> (forall a, triple (mid a) (k a) post) -> triple pre (st_bind m k) post.
Proof.
  intros Hm Hk s Hwf Hpre. destruct (Hm s Hwf Hpre) as (H1 & H2 & H3). unfold st_bind.
  destruct (m s) as [s1 [a|e]]; cbn [fst snd] in *; [|by split_and!].
  destruct (Hk a s1 H1 (H3 a eq_refl)) as (H4 & H5 & H6). split_and!; [done | by etrans | done].
Qed.

Lemma triple_conseq {A} (pre pre' : filesystem -> Prop) (post post' : A -> filesystem -> Prop) (m : M S A) :
  triple pre' m post' -> (forall f, pre f -> pre' f) -> (forall a f, post' a f -> post a f) -> triple pre m post.
Proof. intros Hm H1 H2 s Hwf Hpre. destruct (Hm s Hwf (H1 _ Hpre)) as (? & ? & ?). split_and!; auto. Qed.

(** A run that leaves the tree alone. *)
Lemma triple_same {A} (pre : filesystem -> Prop) (post : A -> filesystem -> Prop) (m : M S A) :
  (forall s, tree_of (m s).1 = tree_of s) -> (forall s a, pre (tree_of s) -> (m s).2 = Ok a -> post a (tree_of s)) ->
  triple pre m post.
Proof. intros H1 H2 s Hwf Hpre. rewrite H1. split_and!; [done | reflexivity | eauto]. Qed.

Lemma triple_ret {A} (pre : filesystem -> Prop) (post : A -> filesystem -> Prop) (a : A) :
  (forall f, pre f -> post a f) -> triple pre (st_ret (S := S) a) post.
Proof. intros H. apply triple_same; [done|]. cbn. intros s b Hp [= <-]. auto. Qed.

Lemma triple_lift {A} (pre : filesystem -> Prop) (r : res A) :
  triple pre (st_lift (S := S) r) (fun a f => r = Ok a /\ pre f).
Proof. apply triple_same; [done|]. cbn. by intros s a Hp ->. Qed.

Lemma triple_if {A} pre (b : bool) (m k : M S A) post :
  (b = true -> triple pre m post) -> (b = false -> triple pre k post) -> triple pre (if b then m else k) post.
Proof. destruct b; auto. Qed.

Lemma triple_assume {A} (H : Prop) pre (m : M S A) post : (H -> triple pre m post) -> triple (fun f => H /\ pre f) m post.
Proof. intros Hm s Hwf [Hh Hpre]. by apply Hm. Qed.
End rules.

Lemma triple_look {A} (pre : filesystem -> Prop) (g : filesystem -> res A) :
  triple pre (look g : RM A) (fun a f => g f = Ok a /\ pre f).
Proof. apply triple_same; [done|]. intros s a Hp Ha. by split. Qed.

Lemma triple_safe {A} pre (m : RM A) : safe published m -> triple pre m (fun _ _ => True).
Proof. intros H w Hwf _. destruct (H w Hwf). by split_and!. Qed.

(** A step that touches only unpublished names. *)
Lemma triple_touch {A} (T : path -> Prop) (pre : filesystem -> Prop) (m : RM A) (post : A -> filesystem -> Prop) :
  (forall q, published q -> ~ T q) ->
  (forall w w' r, wf (fs w) -> pre (fs w) -> m w = (w', r) ->
     wf (fs w') /\ untouched T (fs w) (fs w') /\ (forall a, r = Ok a -> post a (fs w'))) ->
  triple pre m post.
Proof.
  intros HT H w Hwf Hpre. destruct (m w) as [w' r] eqn:E. destruct (H w w' r Hwf Hpre E) as (H1 & H2 & H3).
  split_and!; [done | by eapply untouched_keeps | done].
Qed.

Lemma triple_on_world {P A} pre (m : RM A) post :
  triple pre m post -> triple pre (on_world m : M (Process P) A) post.
Proof.
  intros H s Hwf Hpre. destruct (H (pr_world s) Hwf Hpre) as (H1 & H2 & H3). unfold on_world.
  destruct (m (pr_world s)) as [w r]. by split_and!.
Qed.

Lemma triple_on_provider {P A} (pre : filesystem -> Prop) (m : M P A) :
  triple pre (on_provider m : M (Process P) A) (fun a f => (exists p p', m p = (p', Ok a)) /\ pre f).
Proof.
  apply triple_same; intros s; unfold on_provider; destruct (m (pr_provider s)) as [p r] eqn:E; [done|].
  cbn. intros a Hp ->. split; [by eexists _, _ | done].
Qed.

Lemma tmp_untouched (T : path -> Prop) : (forall q, T q -> exists rest, q = str "tmp" :: rest) -> forall q, published q -> ~ T q.
Proof. intros HT q Hq [rest ->]%HT. by apply tmp_not_published in Hq. Qed.

Lemma on_storage_error_triple {A} pre (m h : RM A) post :
  triple pre m post -> triple (fun _ => True) h post -> triple pre (on_storage_error m h) post.
Proof.
  intros Hm Hh w Hwf Hpre. destruct (Hm w Hwf Hpre) as (H1 & H2 & H3). unfold on_storage_error.
  destruct (m w) as [w' r]; cbn [fst snd] in *. destruct r as [a|[[] msg]]; try by split_and!.
  destruct (Hh w' H1 I) as (H4 & H5 & H6). split_and!; [done | by etrans | done].
Qed.

Lemma triple_mkdirs p pre :
  (forall f f', pre f -> grows p f f' -> pre f') -> triple pre (mkdirs p : RM unit) (fun _ => pre).
Proof.
  intros Hg w Hwf Hpre. destruct (safe_mkdirs published p w Hwf) as [H1 H2]. split_and!; [done..|].
  intros _ _. eapply Hg; [exact Hpre|]. apply mkdirs_grows.
Qed.

(** ** Checkpoints of a download *)

Lemma payload_get x k v : (str k, v) ∈ checkpoint_payload x -> jget (str k) (checkpoint_payload x) = Ok v.
Proof. intros H. apply jget_elem; [|done]. unfold checkpoint_payload. nodup_keys. Qed.

Ltac read_member H :=
  match type of H with
  | rbind (rbind (jget (str ?k) (checkpoint_payload ?x)) _) _ = _ =>
      let G := fresh in
      epose proof (payload_get x k _ ltac:(unfold checkpoint_payload; find_member)) as G; rewrite G in H; clear G;
      apply rbind_ok in H; let F := fresh in destruct H as (? & F & H); cbn [rbind] in F;
      first [apply digest_of_ok in F | apply identifier_of_ok in F | apply object_id_of_ok in F
            | apply byte_count_of_ok in F | apply version_id_of_ok in F];
      destruct F as [[= <-] _]
  end.

(** A constructor returns the checkpoint that it was given. *)
Lemma new_checkpoint_same x c : new_checkpoint x = Ok c -> c = x /\ checkpoint_ok x.
Proof.
  intros H. pose proof (checkpoint_of_inv _ _ H) as Hok. assert (c = x) as ->; [|done].
  unfold new_checkpoint, checkpoint_of in H. do 11 read_member H.
  apply rbind_ok in H as ([] & _ & H). read_member H. apply rbind_ok in H as ([] & Hs & [= <-]).
  apply fetch_when_ok, negb_false_iff in Hs. unfold member_is in Hs.
  rewrite (payload_get x "schema_version" (JStr (dc_schema_version x))) in Hs by (unfold checkpoint_payload; find_member).
  apply bool_decide_eq_true in Hs. rewrite <- Hs. by destruct x.
Qed.

Lemma make_checkpoint_valid plan src payload attempts sequence c :
  make_checkpoint plan src payload attempts sequence = Ok c ->
  checkpoint_ok c /\ validate_checkpoint plan src c payload = Ok tt /\ dc_completed_bytes c = Z.of_nat (length payload)
  /\ dc_attempts c = attempts /\ dc_sequence c = sequence.
Proof.
  unfold make_checkpoint. intros (pid & Hp & H)%rbind_ok. apply rbind_ok in H as (object & Ho & H).
  apply rbind_ok in H as (locator & Hl & [-> Hok]%new_checkpoint_same). split; [done|]. split; [|done].
  unfold validate_checkpoint. eapply rbind_step; [exact Hp|]. eapply rbind_step; [exact Ho|]. eapply rbind_step; [exact Hl|].
  apply raise_when_false. cbn. by rewrite !bool_decide_eq_true_2, !Z.eqb_refl.
Qed.

Section download.
Context {P : Type} `{!DataProvider P}.
Variable self : IngestionCoordinator.
Variable env : Environment.
Variable plan : FetchPlan.
Variable src : SourceObject.
Variable object : pystr.

(** The checkpoint on disk authenticates [payload]. *)
Definition saved (payload : pybytes) (f : filesystem) : Prop :=
  exists c b, holds f (checkpoint_path object) b /\ Z.of_nat (length b) <= MAX_CHECKPOINT_BYTES
    /\ decode_checkpoint b = Ok c /\ validate_checkpoint plan src c payload = Ok tt.

(** The staged file holds [payload], within the size of the object, and so says the
    checkpoint. *)
Definition resumable (payload : pybytes) (f : filesystem) : Prop :=
  holds f (staged_path object) payload /\ Z.of_nat (length payload) <= so_estimated_size_bytes src /\ saved payload f.

Lemma staged_names q : eq (staged_path object) q -> exists rest, q = str "tmp" :: rest.
Proof. intros <-. by eexists. Qed.
Lemma checkpoint_names_tmp q : checkpoint_names object q -> exists rest, q = str "tmp" :: rest.
Proof. intros [-> | ->]; by eexists. Qed.
Lemma checkpoint_path_tmp q : eq (checkpoint_path object) q -> exists rest, q = str "tmp" :: rest.
Proof. intros <-. by eexists. Qed.

Lemma staged_not_checkpoint : ~ checkpoint_names object (staged_path object).
Proof. intros [H | H]; by vm_compute in H. Qed.

Lemma save_triple payload attempts sequence c :
  make_checkpoint plan src payload attempts sequence = Ok c ->
  Z.of_nat (length payload) <= so_estimated_size_bytes src ->
  triple (fun f => holds f (staged_path object) payload) (save_checkpoint object c) (fun _ => resumable payload).
Proof.
  intros (Hok & Hv & _)%make_checkpoint_valid Hlen.
  apply (triple_touch (checkpoint_names object)); [apply tmp_untouched, checkpoint_names_tmp|].
  intros w w' r Hwf Hpre H. destruct (save_checkpoint_spec object c w w' r Hwf H) as (H1 & H2 & H3). split_and!; [done..|].
  intros [] Hr. destruct (H3 Hr) as (b & Hb & Hh). split; [|split; [done|]].
  - eapply untouched_holds; [apply staged_not_checkpoint | exact H2 | exact Hpre].
  - destruct (encode_checkpoint_ok c Hok) as (b' & Hb' & Hl & Hd). assert (b' = b) as -> by congruence.
    exists c, b. split_and!; [done | lia | done | done].
Qed.

(** Saving a checkpoint that was just made. *)
Lemma make_save_triple payload attempts sequence :
  Z.of_nat (length payload) <= so_estimated_size_bytes src ->
  triple (fun f => holds f (staged_path object) payload)
    (st_bind (st_lift (make_checkpoint plan src payload attempts sequence)) (save_checkpoint object))
    (fun _ => resumable payload).
Proof.
  intros Hlen. eapply triple_bind; [apply triple_lift|]. intros c. cbv beta. apply triple_assume. intros Hc. by eapply save_triple.
Qed.

Lemma append_triple payload data :
  triple (fun f => holds f (staged_path object) payload) (append_staged (staged_path object) data)
    (fun _ f => holds f (staged_path object) (payload ++ data)).
Proof.
  apply (triple_touch (eq (staged_path object))); [apply tmp_untouched, staged_names|].
  intros w w' r Hwf Hpre H. destruct (append_staged_spec (staged_path object) data w payload Hwf Hpre) as (H1 & H2 & H3).
  rewrite H in *. split_and!; [done..|]. intros [] Hr. auto.
Qed.

Lemma rewrite_triple :
  triple (fun f => nodes f !! staged_path object = None \/ exists b, holds f (staged_path object) b)
    (rewrite_staged (staged_path object)) (fun _ f => holds f (staged_path object) []).
Proof.
  apply (triple_touch (eq (staged_path object))); [apply tmp_untouched, staged_names|].
  intros w w' r Hwf Hpre H. destruct (rewrite_staged_spec (staged_path object) w Hwf) as (H1 & H2 & H3); [done | done|].
  rewrite H in *. split_and!; [done..|]. intros [] Hr. auto.
Qed.

Notation IM := (M (Process P)).

Lemma acquire_tree (s : Process P) : pr_world (acquire self env s).1 = pr_world s.
Proof. unfold acquire. destruct (rate_acquire _ _ _ _) as [[next wait]|e]; [|done]. by destruct (wait =? 0). Qed.

Lemma request_triple credential d (pre : filesystem -> Prop) :
  triple pre (request_range self env plan src credential d : IM _)
    (fun a f => dl_payload a.1 = dl_payload d /\ pre f).
Proof.
  apply triple_same; intros s; unfold request_range; pose proof (acquire_tree s) as Ha;
    destruct (acquire self env s) as [s1 [[]|e]]; cbn [fst snd] in *; unfold tree_of, process_tree.
  - unfold on_provider. destruct (fetch_range _ _ _ _ _ _) as [p [chunk|e]]; cbn; by rewrite Ha.
  - by rewrite Ha.
  - unfold on_provider. destruct (fetch_range _ _ _ _ _ _) as [p [chunk|e]]; cbn; intros a Hp [= <-]; done.
  - intros a Hp [= <-]. done.
Qed.

Lemma attempt_triple credential n : forall k d,
  triple (resumable (dl_payload d)) (attempt_range self env n k plan src object credential d : IM _)
    (fun a f => dl_payload a.1 = dl_payload d /\ resumable (dl_payload d) f).
Proof.
  induction n as [|n IH]; intros k d; cbn [attempt_range]; [by apply triple_ret|].
  eapply triple_bind; [apply request_triple|]. intros [d' r]. cbn [fst dl_payload]. apply triple_assume. intros Hd.
  assert (forall x : FetchErrorCode + ProviderChunk, triple (resumable (dl_payload d)) (st_ret (d', x) : IM _)
            (fun a f => dl_payload a.1 = dl_payload d /\ resumable (dl_payload d) f)) as Hret by (intros x; by apply triple_ret).
  destruct r as [[cls msg]|chunk]; [|apply Hret]. destruct cls; try apply Hret.
  apply triple_if; intros _; [apply Hret|]. eapply triple_bind; [apply triple_lift|]. intros own. cbv beta.
  apply triple_assume. intros _. apply triple_if; intros _; [apply Hret|].
  eapply (triple_bind _ (fun _ => resumable (dl_payload d))); [by apply triple_same|]. intros _.
  eapply triple_bind; [apply triple_lift|]. intros c. cbv beta. apply triple_assume. intros Hc.
  cbn [dl_payload dl_attempts dl_sequence] in Hc. rewrite Hd in Hc.
  eapply triple_bind.
  - apply triple_on_world. intros w Hwf Hpre. destruct Hpre as (Hh & Hl & Hs).
    exact (save_triple _ _ _ _ Hc Hl w Hwf Hh).
  - intros []. eapply triple_conseq; [apply IH | | ]; cbn [dl_payload]; rewrite Hd; auto.
Qed.

Lemma accept_triple chunk d :
  dl_offset d + Z.of_nat (length (pc_data chunk)) <= so_estimated_size_bytes src ->
  triple (resumable (dl_payload d)) (accept_chunk plan src object chunk d)
    (fun d' f => dl_payload d' = dl_payload d ++ pc_data chunk /\ resumable (dl_payload d') f).
Proof.
  intros Hl. unfold accept_chunk. eapply triple_bind.
  - eapply triple_conseq; [apply (append_triple (dl_payload d)) | by intros f [? _] | by intros a f H; exact H].
  - intros []. cbv beta zeta. cbn [dl_payload dl_attempts dl_sequence]. eapply triple_bind; [apply triple_lift|].
    intros c. cbv beta. apply triple_assume. intros Hc. eapply triple_bind; [eapply save_triple; [exact Hc|]|].
    + rewrite length_app. unfold dl_offset in Hl. lia.
    + intros []. apply triple_ret. by intros f H.
Qed.

(** What a quarantined object is. *)
Definition quarantined (r : ObjectFetchResult) (f : filesystem) : Prop :=
  of_status r = FAILED
  \/ of_status r = QUARANTINED
     /\ exists digest target, of_object_sha256 r = Some digest /\ of_quarantine_path r = Some target
          /\ published (path_parts target)
          /\ names_file f (path_parts target) (object_bytes digest (of_bytes_received r)).

Lemma publish_triple staged final sha size lease (pre : filesystem -> Prop) :
  triple pre (publish_staged_object (ic_repository self) staged final sha size lease)
    (fun _ f => names_file f (path_parts final) (object_bytes sha size) /\ published (path_parts final)).
Proof.
  intros w Hwf _. destruct (safe_publish_staged (ic_repository self) staged final sha size lease w Hwf) as [H1 H2].
  split_and!; [done..|]. intros a Ha.
  assert (exists p q, validate_relative_path staged (Some [str "tmp"]) = Ok p
            /\ validate_relative_path final (Some OBJECT_AREAS) = Ok q) as (p & q & Hp & Hq).
  { unfold publish_staged_object, st_bind at 1 in Ha.
    destruct (require_lease_cases (ic_repository self) lease "object publication requires an active admission lease" w)
      as [[e E] | (x & _ & E)]; rewrite E in Ha; [done|].
    unfold st_bind, look in Ha. destruct (check_staged _ _ _ _ _) as [[p q]|e] eqn:Hc; [|done].
    apply check_staged_ok in Hc as (Hp & Hq & _). eauto. }
  destruct (publish_staged_whole (ic_repository self) w staged final sha size lease p q Hwf Hp Hq) as [Hok _].
  destruct (Hok a Ha) as (-> & Hf & _). pose proof (relative_path_ok _ _ _ Hq) as [_ ->]. split; [done|].
  destruct (area_path _ _ _ Hq) as (area & t & E & Harea). exists area, t. split; [done|]. by right.
Qed.

(** Published files stay what they are. *)
Lemma names_file_kept f f' q Q : published q -> keeps published f f' -> names_file f q Q -> names_file f' q Q.
Proof.
  intros Hq Hk (i & x & Hn & Hx & HQ). destruct (Hk q i x Hq Hn Hx) as (Hn' & x' & Hx' & Hb). exists i, x'.
  split_and!; [done..|]. by rewrite Hb.
Qed.

Lemma triple_keep {S A} `{!HasTree S} q Q (m : M S A) :
  triple (fun _ => True) m (fun _ _ => True) ->
  triple (fun f => names_file f q Q /\ published q) m (fun _ f => names_file f q Q /\ published q).
Proof.
  intros Hm s Hwf [Hf Hq]. destruct (Hm s Hwf I) as (H1 & H2 & _). split_and!; [done..|]. intros _ _.
  split; [|done]. by eapply names_file_kept.
Qed.

Lemma remove_triple : triple (fun _ => True) (remove_checkpoint object) (fun _ _ => True).
Proof.
  apply (triple_touch (eq (checkpoint_path object))); [apply tmp_untouched, checkpoint_path_tmp|].
  intros w w' r Hwf _ H. destruct (remove_checkpoint_spec object w w' r Hwf H). by split_and!.
Qed.

Lemma quarantine_triple code lease attempts delays :
  triple (fun _ => True) (quarantine self src object code lease attempts delays) quarantined.
Proof.
  unfold quarantine. eapply (triple_bind _ (fun _ _ => True)); [by apply triple_same|]. intros payload.
  apply on_storage_error_triple.
  - eapply triple_bind; [apply publish_triple|]. intros final. eapply triple_bind; [apply triple_keep, remove_triple|].
    intros []. apply triple_ret. intros f [Hf Hp]. right. cbn. split; [done|]. by eexists _, _.
  - apply triple_ret. intros f _. by left.
Qed.

Lemma reject_triple code lease d : triple (fun _ => True) (reject_chunk self src object code lease d) quarantined.
Proof.
  unfold reject_chunk. eapply (triple_bind _ (fun _ _ => True)); [by apply triple_same|]. intros some.
  apply triple_if; intros _; [apply quarantine_triple | apply triple_ret; by left].
Qed.

(** A publication that returns: the object was verified and the manifest is there. *)
Lemma prepare_outcome m lease (w w' : W) r :
  prepare_manifest_publication (ic_repository self) m lease w = (w', r) ->
  w' = w /\ forall encoded, r = Ok encoded -> encode_manifest m = Ok encoded /\ verify_manifest_object (fs w) m = Ok tt.
Proof.
  unfold prepare_manifest_publication, st_bind at 1.
  destruct (require_lease_cases (ic_repository self) lease "manifest publication requires an active admission lease" w)
    as [[e Er] | (x & _ & Er)]; rewrite Er; [by intros [= <- <-]|].
  unfold st_bind, st_lift. destruct (encode_manifest m) as [b|e]; [|by intros [= <- <-]]. unfold look. intros [= <- <-].
  split; [done|]. intros encoded H. apply rbind_ok in H as ([] & _ & H). apply rbind_ok in H as ([] & Hv & H).
  apply rbind_ok in H as ([] & _ & [= <-]). done.
Qed.

Lemma publish_manifest_returns m lease (w : W) q :
  wf (fs w) -> (publish_manifest (ic_repository self) m lease no_faults w).2 = Ok q ->
  exists identity encoded, manifest_id m = Ok identity /\ encode_manifest m = Ok encoded
    /\ verify_manifest_object (fs w) m = Ok tt
    /\ names_file (fs (publish_manifest (ic_repository self) m lease no_faults w).1)
         (stored_path (manifest_kind m) identity) (eq encoded).
Proof.
  intros Hwf Hr. assert (exists identity encoded, manifest_id m = Ok identity /\ encode_manifest m = Ok encoded
    /\ verify_manifest_object (fs w) m = Ok tt) as (identity & encoded & Hid & He & Hv).
  { unfold publish_manifest, st_bind at 1 in Hr. destruct (prepare_manifest_publication _ m lease w) as [w0 r0] eqn:E0.
    apply prepare_outcome in E0 as [-> H0]. destruct r0 as [encoded|e]; [|done]. destruct (H0 encoded eq_refl) as [He Hv].
    unfold st_bind at 1, st_lift, manifest_path in Hr. destruct (manifest_id m) as [identity|e]; [|done]. eauto. }
  exists identity, encoded. split_and!; [done..|]. destruct (manifest_names m identity Hid) as (Hpath & _ & _).
  set (p := stored_path (manifest_kind m) identity) in *. destruct (nodes (fs w) !! p) as [n|] eqn:Hn.
  - unfold publish_manifest, st_bind at 1 in Hr. unfold publish_manifest, st_bind at 1.
    destruct (prepare_manifest_publication _ m lease w) as [w0 r0] eqn:E0. apply prepare_outcome in E0 as [-> H0].
    destruct r0 as [b|e]; [|done]. destruct (H0 b eq_refl) as [He' _]. assert (b = encoded) as -> by congruence.
    rewrite Hpath in *. rewrite quiet_lift in *. unfold st_bind at 1 in Hr. unfold st_bind at 1.
    pose proof (mkdirs_grows (parent_of p) w) as Hg. destruct (safe_mkdirs (fun _ => True) (parent_of p) w Hwf) as [Hwf1 _].
    destruct (mkdirs (parent_of p) w) as [w1 [[]|e1]]; cbn [fst] in *; [|done].
    assert (nodes (fs w1) !! p = Some n) as Hn1 by (destruct Hg as (_ & _ & Hsub & _); by eapply lookup_weaken).
    unfold st_bind at 1, look at 1 in Hr. unfold st_bind at 1, look at 1. destruct (assert_safe_path _ _) as [[]|e2]; [|done].
    unfold check_existing_manifest, st_bind, look in Hr. unfold check_existing_manifest, st_bind, look.
    destruct (present (fs w1) p) as [[]|e3] eqn:Hp; [| |done].
    + destruct (rbind _ _) as [[]|e4] eqn:Hd; [| |done].
      * apply rbind_ok in Hd as (data & [Hh _]%read_secure_ok & Hd). case_bool_decide; [|done]. subst data.
        destruct Hh as (i & x & Hi & Hx & Hb & _). exists i, x. by split_and!.
      * apply rbind_ok in Hd as (data & _ & Hd). by case_bool_decide.
    + apply present_false in Hp; [congruence | done].
  - destruct (publish_manifest_whole (ic_repository self) w m lease no_faults encoded identity Hwf He Hid Hn) as [Hok _].
    by destruct (Hok q Hr) as (_ & H & _).
Qed.

Lemma stored_path_published kind identity : published (stored_path kind identity).
Proof. exists (str "manifests"), [kind; identity ++ str ".json"]. split; [done|]. apply list_elem_of_here. Qed.

(** A manifest and its object in the tree. *)
Definition manifested (m : DataManifest) (f : filesystem) : Prop :=
  exists identity encoded, manifest_id m = Ok identity /\ encode_manifest m = Ok encoded
    /\ names_file f (stored_path (manifest_kind m) identity) (eq encoded)
    /\ published (path_parts (storage_path (common m)))
    /\ names_file f (path_parts (storage_path (common m))) (object_bytes (object_sha256 (common m)) (size_bytes (common m))).

Lemma manifested_kept m f f' : keeps published f f' -> manifested m f -> manifested m f'.
Proof.
  intros Hk (identity & encoded & H1 & H2 & H3 & H4 & H5). exists identity, encoded. split_and!; try done.
  - eapply names_file_kept; [apply stored_path_published | done | done].
  - by eapply names_file_kept.
Qed.

Lemma publish_manifest_triple m lease (pre : filesystem -> Prop) :
  triple pre (publish_manifest (ic_repository self) m lease no_faults) (fun _ => manifested m).
Proof.
  intros w Hwf _. destruct (safe_publish_manifest (ic_repository self) m lease no_faults w Hwf) as [H1 H2].
  split_and!; [done..|]. intros q Hq. destruct (publish_manifest_returns m lease w q Hwf Hq) as (identity & encoded & Hid & He & Hv & Hf).
  apply verified_object in Hv as (p & b & Hp & Hh & Hlen & Hsha). pose proof (relative_path_ok _ _ _ Hp) as [_ ->].
  destruct (area_path _ _ _ Hp) as (area & t & E & Harea).
  assert (published (path_parts (storage_path (common m)))) as Hpub by (exists area, t; split; [done | by right]).
  exists identity, encoded. split_and!; try done. eapply names_file_kept; [done | exact H2|].
  destruct Hh as (i & x & Hn & Hx & <- & _). by exists i, x.
Qed.

Lemma triple_manifested {S A} `{!HasTree S} mf (m : M S A) :
  triple (fun _ => True) m (fun _ _ => True) -> triple (manifested mf) m (fun _ => manifested mf).
Proof.
  intros Hm s Hwf Hf. destruct (Hm s Hwf I) as (H1 & H2 & _). split_and!; [done..|]. intros _ _. by eapply manifested_kept.
Qed.

(** What an object that is reported as stored is. *)
Definition object_stored (r : ObjectFetchResult) (digest : pystr) (f : filesystem) : Prop :=
  exists m identity,
    make_manifest self plan src (raw_relative src digest) digest (so_record_count src) = Ok m
    /\ manifest_id m = Ok identity /\ of_object_sha256 r = Some digest
    /\ of_storage_path r = Some (raw_relative src digest) /\ of_manifest_id r = Some identity /\ manifested m f.

Lemma publish_object_triple digest records lease d :
  records = so_record_count src ->
  triple (fun _ => True) (publish_object self plan src object digest records lease d)
    (fun r f => of_status r = FAILED
       \/ of_status r = COMPLETED /\ of_bytes_received r = dl_offset d /\ object_stored r digest f).
Proof.
  intros ->. unfold publish_object.
  eapply (triple_bind _ (fun o f => forall m, o = Some m ->
            make_manifest self plan src (raw_relative src digest) digest (so_record_count src) = Ok m /\ manifested m f)).
  - apply on_storage_error_triple; [|by apply triple_ret].
    eapply triple_bind; [apply publish_triple|]. intros final. eapply triple_bind; [apply triple_lift|]. intros m. cbv beta.
    apply triple_assume. intros Hm. eapply triple_bind; [apply publish_manifest_triple|]. intros q. cbv beta.
    eapply triple_bind; [apply triple_manifested, remove_triple|]. intros []. apply triple_ret. by intros f Hf ? [= <-].
  - intros [m|]; [|apply triple_ret; by left]. eapply triple_bind; [apply triple_lift|].
    intros identity. cbv beta. apply triple_assume. intros Hid. apply triple_ret. intros f Hf. right. cbn.
    destruct (Hf m eq_refl) as [Hm Hf']. split; [done|]. split; [done|]. by exists m, identity.
Qed.

(** The provider accepted the bytes as this number of records. *)
Definition validated (payload : pybytes) : Prop :=
  exists p p' : P, validate_payload src payload p = (p', Ok (so_record_count src)).

Lemma check_payload_triple digest payload (pre : filesystem -> Prop) :
  triple pre (check_payload src digest payload : IM Z)
    (fun records f => records = so_record_count src /\ validated payload
       /\ (forall e, so_expected_sha256 src = Some e -> digest = e) /\ pre f).
Proof.
  unfold check_payload. eapply triple_bind; [apply triple_lift|]. intros []. cbv beta. apply triple_assume. intros He.
  eapply triple_bind; [apply triple_on_provider|]. intros records. cbv beta. apply triple_assume. intros (p & p' & Hp).
  eapply triple_bind; [apply triple_lift|]. intros []. cbv beta. apply triple_assume. intros Hr%fetch_when_ok.
  apply negb_false_iff, Z.eqb_eq in Hr. subst records. apply triple_ret. intros f Hf. split_and!; [done | by exists p, p' | | done].
  intros e Ee. rewrite Ee in He. apply fetch_when_ok, negb_false_iff, bool_decide_eq_true in He. done.
Qed.

(** The end of a download: quarantined, failed, or stored with everything checked. *)
Definition completed (r : ObjectFetchResult) (f : filesystem) : Prop :=
  of_status r = COMPLETED
  /\ exists payload, of_bytes_received r = Z.of_nat (length payload)
       /\ Z.of_nat (length payload) = so_estimated_size_bytes src /\ validated payload
       /\ (forall e, so_expected_sha256 src = Some e -> sha256_hex payload = e)
       /\ object_stored r (sha256_hex payload) f.

Lemma complete_triple lease d (pre : filesystem -> Prop) :
  dl_offset d = so_estimated_size_bytes src ->
  triple pre (complete self plan src object lease d : IM _) (fun r f => quarantined r f \/ completed r f).
Proof.
  intros Hd s Hwf Hpre. unfold complete. set (digest := sha256_hex (dl_payload d)).
  destruct (check_payload_triple digest (dl_payload d) pre s Hwf Hpre) as (H1 & H2 & H3).
  destruct (check_payload src digest (dl_payload d) s) as [s1 [records|e]]; cbn [fst snd] in *.
  - destruct (H3 records eq_refl) as (Hr & Hv & He & _).
    destruct (triple_on_world (P := P) _ _ _ (publish_object_triple digest records lease d Hr) s1 H1 I) as (H4 & H5 & H6).
    split_and!; [done | by etrans|]. intros r [Hf | (Hs & Hb & Ho)]%H6; [by left; left|]. right. split; [done|].
    exists (dl_payload d). by split_and!.
  - destruct (fetch_code e) as [code|]; [|by split_and!].
    destruct (triple_on_world (P := P) _ _ _ (quarantine_triple code lease (dl_attempts d) (dl_delays d)) s1 H1 I) as (H4 & H5 & H6).
    split_and!; [done | by etrans|]. intros r Hr%H6. by left.
Qed.

Lemma existing_triple digest lease :
  triple (fun _ => True) (existing_result self plan src object digest lease)
    (fun o f => forall r, o = Some r -> of_status r = ALREADY_PRESENT /\ object_stored r digest f).
Proof.
  unfold existing_result. eapply (triple_bind _ (fun _ _ => True)); [by apply triple_same|]. intros here.
  apply triple_if; intros _; [by apply triple_ret|]. eapply triple_bind; [apply triple_lift|]. intros m. cbv beta.
  apply triple_assume. intros Hm. eapply (triple_bind _ (fun _ => manifested m)).
  - apply on_storage_error_triple; [|by apply triple_same].
    eapply triple_bind; [apply publish_manifest_triple|]. intros q. by apply triple_ret.
  - intros []. eapply triple_bind; [apply triple_manifested, remove_triple|]. intros []. eapply triple_bind; [apply triple_lift|].
    intros identity. cbv beta. apply triple_assume. intros Hid. apply triple_ret. intros f Hf r [= <-]. cbn. split; [done|].
    by exists m, identity.
Qed.

(** ** The start of a download *)

Lemma read_bounded_ok f p n b : read_bounded f p n = Ok b -> holds f p b /\ Z.of_nat (length b) <= n.
Proof.
  unfold read_bounded, lstat. intros (st & Hst & H)%rbind_ok. apply rbind_ok in Hst as (nd & Hnd%lookup_node_some & Hst).
  apply rbind_ok in H as ([] & Hc%fetch_when_ok & (i & x & Hn & Hx & <-)%read_file_some). bprop.
  assert (nd = Regular i) as -> by congruence. rewrite (node_status_regular f i x Hx) in Hst. injection Hst as <-. cbn in *.
  split; [|lia]. exists i, x. split_and!; [done..|]. lia.
Qed.

Lemma read_bounded_holds f p n b : wf f -> holds f p b -> Z.of_nat (length b) <= n -> read_bounded f p n = Ok b.
Proof.
  intros Hwf (i & x & Hn & Hx & <- & Hl) Hb. unfold read_bounded, lstat. rewrite (proj2 (lookup_node_ok f p _ Hwf) Hn).
  cbn [rbind]. rewrite (node_status_regular f i x Hx). cbn [rbind]. eapply rbind_step.
  - apply raise_when_false. cbn [st_type st_nlink st_size]. rewrite Hl. cbn. by apply Z.ltb_ge.
  - by apply (read_file_ok f p i x).
Qed.

Lemma exists_path_false f p : wf f -> exists_path f p = Ok false -> nodes f !! p = None.
Proof.
  unfold exists_path. intros Hwf H. destruct (nodes f !! p) as [n|] eqn:E; [|done].
  rewrite (proj2 (lookup_node_ok f p n Hwf)) in H by done. by destruct n.
Qed.

Lemma exists_path_holds f p b : wf f -> holds f p b -> exists_path f p = Ok true.
Proof.
  intros Hwf (i & x & Hn & _). unfold exists_path. by rewrite (proj2 (lookup_node_ok f p _ Hwf) Hn).
Qed.

Lemma open_triple resume :
  0 <= so_estimated_size_bytes src ->
  triple (fun _ => True) (open_or_create_checkpoint plan src object resume)
    (fun a f => dc_completed_bytes a.1 = Z.of_nat (length a.2) /\ resumable a.2 f).
Proof.
  intros Hsize. unfold open_or_create_checkpoint. eapply triple_bind; [apply triple_look|]. intros saved0. cbv beta.
  eapply triple_bind; [apply triple_look|]. intros staged. cbv beta. destruct (saved0 || staged) eqn:E.
  - apply triple_if; intros _; [by apply triple_same|]. apply triple_same; [done|]. intros w [checkpoint payload] _ H. cbn in H.
    apply rbind_ok in H as (encoded & [Hh Hl]%read_bounded_ok & H). apply rbind_ok in H as (c & Hc & H).
    apply rbind_ok in H as (b & [Hb Hlen]%read_bounded_ok & H). apply rbind_ok in H as ([] & Hv & [= -> ->]). cbn. split.
    + unfold validate_checkpoint in Hv. do 3 apply rbind_ok in Hv as (? & _ & Hv). apply fetch_when_ok, negb_false_iff in Hv.
      repeat (apply andb_true_iff in Hv as [Hv ?]). by apply Z.eqb_eq.
    + split; [done|]. split; [done|]. by exists checkpoint, encoded.
  - apply orb_false_iff in E as [-> ->].
    eapply (triple_bind _ (fun _ f => holds f (staged_path object) [])).
    + intros w Hwf (H1 & _ & _). apply (rewrite_triple w Hwf). left. by eapply exists_path_false.
    + intros []. eapply triple_bind; [apply triple_lift|]. intros c. cbv beta. apply triple_assume. intros Hc.
      eapply triple_bind; [eapply save_triple; [exact Hc | done]|]. intros []. apply triple_ret. intros f Hf. split; [|done].
      by apply make_checkpoint_valid in Hc as (_ & _ & ? & _).
Qed.

Lemma begin_triple resume :
  0 <= so_estimated_size_bytes src ->
  triple (fun _ => True) (begin_download plan src object resume)
    (fun a f => forall d, a = inr d -> resumable (dl_payload d) f).
Proof.
  intros Hsize w Hwf _. unfold begin_download. destruct (open_triple resume Hsize w Hwf I) as (H1 & H2 & H3).
  destruct (open_or_create_checkpoint plan src object resume w) as [w1 [[c payload]|e]]; cbn [fst snd] in *.
  2:{ destruct (fetch_code e); (split_and!; [done..|]); by intros a [= <-]. }
  destruct (H3 _ eq_refl) as [_ Hr]. cbn [fst snd] in Hr.
  match goal with |- context [(if ?b then ?m else ?k) w1] => set (cond := b); set (m1 := m); set (k1 := k) end.
  assert (triple (resumable payload) (if cond then m1 else k1) (fun a f => forall d, a = inr d -> resumable (dl_payload d) f)) as Ht.
  { apply triple_if; intros _.
    - unfold m1. eapply (triple_bind _ (fun _ f => holds f (staged_path object) [])).
      + eapply triple_conseq; [apply rewrite_triple | intros f [Hf _]; right; by exists payload | done].
      + intros []. eapply triple_bind; [apply triple_lift|]. intros c'. cbv beta. apply triple_assume. intros Hc.
        eapply triple_bind; [eapply save_triple; [exact Hc | done]|]. intros []. apply triple_ret. by intros f Hf d [= <-].
    - apply triple_ret. by intros f Hf d [= <-]. }
  destruct (Ht w1 H1 Hr) as (H4 & H5 & H6). split_and!; [done | by etrans | done].
Qed.

(** ** The loop *)

(** A chunk that is accepted lies at the offset, within the object, and is not empty. *)
Lemma validate_chunk_none chunk offset :
  validate_chunk plan src chunk offset = None ->
  pc_offset chunk = offset /\ pc_data chunk <> []
  /\ offset + Z.of_nat (length (pc_data chunk)) <= so_estimated_size_bytes src
  /\ pc_version_id chunk = so_version_id src.
Proof.
  unfold validate_chunk. cbv zeta. intros H. repeat case_match; try done. bprop.
  split_and!; [lia | done | lia | done].
Qed.

(** A stopped download, and what it leaves. *)
Definition stopped_whole (r : ObjectFetchResult) (f : filesystem) : Prop :=
  of_status r = STOPPED
  /\ exists payload, of_bytes_received r = Z.of_nat (length payload) /\ resumable payload f.

Lemma download_triple lease credential fuel : forall d,
  triple (resumable (dl_payload d)) (download self env fuel plan src object lease credential d : IM _)
    (fun a f => match a with
                | inl (r, _) => quarantined r f \/ stopped_whole r f
                | inr d => resumable (dl_payload d) f /\ dl_offset d = so_estimated_size_bytes src
                end).
Proof.
  induction fuel as [|fuel IH]; intros d; cbn [download]; destruct (dl_offset d <? so_estimated_size_bytes src) eqn:E; cbn [negb].
  1: { by apply triple_same. }
  1, 3: apply triple_ret; intros f Hf; split; [done|]; apply Z.ltb_ge in E; destruct Hf as (_ & Hl & _); unfold dl_offset in *; lia.
  eapply (triple_bind _ (fun _ => resumable (dl_payload d))); [by apply triple_same|]. intros stop.
  apply triple_if; intros _.
  { apply triple_ret. intros f Hf. right. split; [done|]. by exists (dl_payload d). }
  eapply triple_bind; [apply attempt_triple|]. intros [d' r]. cbn [fst]. apply triple_assume. intros Hd. rewrite <- Hd.
  destruct r as [code|chunk]; [apply triple_ret; intros f _; left; by left|].
  destruct (validate_chunk plan src chunk (dl_offset d')) as [code|] eqn:Hv.
  - eapply triple_bind; [apply triple_on_world|].
    + eapply triple_conseq; [apply reject_triple | done | intros a f H; exact H].
    + intros result. apply triple_ret. auto.
  - apply validate_chunk_none in Hv as (_ & _ & Hl & _). eapply triple_bind; [apply triple_on_world, accept_triple, Hl|].
    intros d''. cbv beta. apply triple_assume. intros _. apply IH.
Qed.

(** What the fetch of an object can return. *)
Definition fetch_outcome (r : ObjectFetchResult) (f : filesystem) : Prop :=
  quarantined r f \/ stopped_whole r f \/ completed r f
  \/ of_status r = ALREADY_PRESENT
     /\ exists digest, so_expected_sha256 src = Some digest /\ object_stored r digest f.

Lemma fetch_one_triple lease credential resume :
  object_id src = Ok object -> 0 <= so_estimated_size_bytes src ->
  triple (fun _ => True) (fetch_one self env plan src lease credential resume : IM _) (fun a => fetch_outcome a.1).
Proof.
  intros Ho Hsize. unfold fetch_one. eapply triple_bind; [apply triple_lift|]. intros o. cbv beta.
  apply triple_assume. rewrite Ho. intros [= <-].
  eapply (triple_bind _ (fun _ _ => True)); [apply triple_on_world, triple_mkdirs; done|]. intros [].
  eapply (triple_bind _ (fun _ _ => True)); [apply triple_on_world, triple_mkdirs; done|]. intros [].
  eapply (triple_bind _ (fun o f => forall r, o = Some r -> of_status r = ALREADY_PRESENT
            /\ exists digest, so_expected_sha256 src = Some digest /\ object_stored r digest f)).
  { destruct (so_expected_sha256 src) as [digest|]; [|by apply triple_ret]. apply triple_on_world.
    eapply triple_conseq; [apply existing_triple | done|]. cbv beta. intros o f H r Hr. destruct (H r Hr). eauto. }
  intros [result|]; [apply triple_ret; intros f H; right; right; right; by apply H|].
  eapply triple_bind; [apply triple_on_world; eapply triple_conseq; [by apply (begin_triple resume) | done | intros a f H; exact H]|].
  intros [code|d]; cbv beta; [apply triple_ret; intros f _; left; by left|].
  eapply triple_bind; [eapply triple_conseq; [apply (download_triple lease credential) | intros f H; by apply H | intros a f H; exact H]|].
  intros [[r a]|d']; cbv beta.
  - apply triple_ret. intros f [H|H]; [by left | by right; left].
  - eapply triple_conseq; [apply (triple_assume (dl_offset d' = so_estimated_size_bytes src)) | intros f [? ?]; split; eassumption | intros a f H; exact H].
    intros Hd. eapply triple_bind; [by apply (complete_triple lease d' (resumable (dl_payload d')))|].
    intros result. apply triple_ret. intros f [H|H]; [by left | by right; right; left].
Qed.
End download.
