(* ===== verification/CoordinatorExecution.v ===== *)
(** * Executions of the coordinator

    The download loop ends, with a bounded number of requests; a stopped download is
    resumed from the bytes it had received; and an execution keeps published files,
    reports only what it stored, and gives the storage lock back. *)

From S2P Require Import Prelude PyText Json Sha256 PyDateTime ReferenceDocuments Storage Manifests FileSystem Repository.
From S2P Require Import RepositoryHistory RepositoryInventory RepositoryPublication RepositoryVerify Ingestion Coordinator.
From S2P Require Import IngestionProviders CoordinatorSafety.

Open Scope Z_scope.

(** ** Values that a run can return *)

Definition returns {S A} (m : M S A) (Q : A -> Prop) : Prop := forall s s' a, m s = (s', Ok a) -> Q a.

Section returns_rules.
Context {S : Type}.

Lemma returns_bind {A B} (m : M S A) (k : A -> M S B) R Q :
  returns m R -> (forall a, R a -> returns (k a) Q) -> returns (st_bind m k) Q.
Proof.
  intros Hm Hk s s' b. unfold st_bind. destruct (m s) as [s1 [a|e]] eqn:E; [|done]. by apply Hk, (Hm s s1).
Qed.

Lemma returns_any {A} (m : M S A) : returns m (fun _ => True).
Proof. by intros s s' a _. Qed.

Lemma returns_after {A B} (m : M S A) (k : A -> M S B) Q : (forall a, returns (k a) Q) -> returns (st_bind m k) Q.
Proof. intros H. eapply returns_bind; [apply returns_any|]. auto. Qed.

Lemma returns_ret {A} (a : A) (Q : A -> Prop) : Q a -> returns (st_ret (S := S) a) Q.
Proof. by intros H s s' b [= _ <-]. Qed.

Lemma returns_if {A} (b : bool) (m k : M S A) Q : returns m Q -> returns k Q -> returns (if b then m else k) Q.
Proof. by destruct b. Qed.
End returns_rules.

Lemma returns_on_world {P A} (m : RM A) Q : returns m Q -> returns (on_world m : M (Process P) A) Q.
Proof. intros H s s' a. unfold on_world. destruct (m (pr_world s)) as [w r] eqn:E. intros [= _ ->]. by eapply H. Qed.

Lemma returns_storage_error {A} (m h : RM A) Q : returns m Q -> returns h Q -> returns (on_storage_error m h) Q.
Proof.
  intros Hm Hh w w' a. unfold on_storage_error. destruct (m w) as [w1 r] eqn:E.
  destruct r as [b|[c msg]]; [intros [= _ <-]; by eapply Hm|]. destruct c; try done. by apply Hh.
Qed.

(** ** The download loop *)

Section loop.
Context {P : Type} `{!DataProvider P}.
Variable self : IngestionCoordinator.
Variable env : Environment.
Variable plan : FetchPlan.
Variable src : SourceObject.
Variable object : pystr.
Variable lease : nat.
Variable credential : option pystr.

Notation IM := (M (Process P)).

Lemma request_returns d :
  returns (request_range self env plan src credential d : IM _)
    (fun a => dl_payload a.1 = dl_payload d /\ dl_attempts a.1 = dl_attempts d).
Proof.
  intros s s' a. unfold request_range. destruct (acquire self env s) as [s1 [[]|e]]; [|by intros [= _ <-]].
  destruct (on_provider _ s1) as [s2 [chunk|e]]; by intros [= _ <-].
Qed.

(** The attempts of one range. *)
Lemma attempt_returns n : forall k d,
  returns (attempt_range self env n k plan src object credential d : IM _)
    (fun a => dl_payload a.1 = dl_payload d /\ dl_attempts d <= dl_attempts a.1 <= dl_attempts d + Z.of_nat n).
Proof.
  induction n as [|n IH]; intros k d; cbn [attempt_range]; [apply returns_ret; cbn [fst]; split; [done | lia]|].
  eapply returns_bind; [apply request_returns|]. intros [d' r] [Hp Ha]. cbn [fst dl_payload dl_attempts] in *.
  assert (forall x, returns (st_ret (d', x) : IM (Download * (FetchErrorCode + ProviderChunk)))
            (fun a => dl_payload a.1 = dl_payload d /\ dl_attempts d <= dl_attempts a.1 <= dl_attempts d + Z.of_nat (S n)))
    as Hret by (intros x; apply returns_ret; cbn [fst]; split; [done | lia]).
  destruct r as [[c msg]|chunk]; [|apply Hret]. destruct c; try apply Hret.
  apply returns_if; [apply Hret|]. apply returns_after. intros own. apply returns_if; [apply Hret|].
  do 3 (apply returns_after; intros ?). intros s1 s2 x H%IH. cbn [dl_payload dl_attempts] in H.
  destruct H as [H1 H2]. split; [congruence | lia].
Qed.

Lemma accept_returns chunk d :
  returns (accept_chunk plan src object chunk d)
    (fun d' => dl_payload d' = dl_payload d ++ pc_data chunk /\ dl_attempts d' = dl_attempts d).
Proof. unfold accept_chunk. do 3 (apply returns_after; intros ?). by apply returns_ret. Qed.

Lemma quarantine_returns code attempts delays :
  returns (quarantine self src object code lease attempts delays)
    (fun r => of_attempts r = attempts /\ of_bytes_received r <= so_estimated_size_bytes src).
Proof.
  unfold quarantine. eapply (returns_bind _ _ (fun payload => Z.of_nat (length payload) <= so_estimated_size_bytes src)).
  - intros w w' payload [= _ H]. by apply read_bounded_ok in H as [_ H].
  - intros payload Hl. apply returns_storage_error; [do 2 (apply returns_after; intros ?)|]; by apply returns_ret.
Qed.

Lemma reject_returns code d :
  0 <= so_estimated_size_bytes src ->
  returns (reject_chunk self src object code lease d)
    (fun r => of_attempts r = dl_attempts d /\ of_bytes_received r <= so_estimated_size_bytes src).
Proof.
  intros Hs. unfold reject_chunk. apply returns_after. intros some. apply returns_if; [apply quarantine_returns | by apply returns_ret].
Qed.

(** The bytes that a download still needs. *)
Definition missing_bytes (d : Download) : Z := so_estimated_size_bytes src - dl_offset d.

Lemma missing_shrinks chunk d d' :
  validate_chunk plan src chunk (dl_offset d) = None -> dl_payload d' = dl_payload d ++ pc_data chunk ->
  0 <= missing_bytes d' < missing_bytes d.
Proof.
  intros (_ & Hne & Hl & _)%validate_chunk_none Hd. unfold missing_bytes, dl_offset in *. rewrite Hd, length_app.
  destruct (pc_data chunk); [done|]. cbn [length] in *. lia.
Qed.

(** More fuel than missing bytes changes nothing. *)
Lemma download_fuel n : forall m d s,
  missing_bytes d <= Z.of_nat n -> missing_bytes d <= Z.of_nat m ->
  download self env n plan src object lease credential d s = download self env m plan src object lease credential d s.
Proof.
  induction n as [|n IH]; intros m d s Hn Hm; destruct m as [|m]; cbn [download]; unfold missing_bytes in *;
    destruct (dl_offset d <? so_estimated_size_bytes src) eqn:E; cbn [negb]; try done; apply Z.ltb_lt in E; try lia.
  unfold st_bind. destruct (poll_shutdown env s) as [s1 [stop|e]]; [|done]. destruct stop; [done|].
  destruct (attempt_range _ _ _ _ _ _ _ _ d s1) as [s2 [[d2 r]|e]] eqn:Ea; [|done].
  apply attempt_returns in Ea as [Hp _]. cbn [fst] in Hp. destruct r as [code|chunk]; [done|].
  destruct (validate_chunk plan src chunk (dl_offset d2)) as [code|] eqn:Ev; [done|].
  destruct (on_world _ s2) as [s3 [d3|e]] eqn:Ec; [|done].
  apply (returns_on_world _ _ (accept_returns chunk d2)) in Ec as [Hd _].
  pose proof (missing_shrinks _ _ _ Ev Hd) as Hs. unfold missing_bytes, dl_offset in *. rewrite Hp in Hs. apply IH; lia.
Qed.

(** The requests of a download, and the bytes it receives. *)
Definition within (d : Download) (a : ObjectFetchResult * bool + Download) : Prop :=
  let most := dl_attempts d + Z.max 0 (maximum_attempts (ic_retry self)) * missing_bytes d in
  match a with
  | inl (r, _) => of_attempts r <= most /\ of_bytes_received r <= so_estimated_size_bytes src
  | inr d' => dl_attempts d' <= most /\ dl_offset d' = so_estimated_size_bytes src
  end.

Lemma within_room d :
  0 <= dl_offset d <= so_estimated_size_bytes src ->
  dl_attempts d <= dl_attempts d + Z.max 0 (maximum_attempts (ic_retry self)) * missing_bytes d.
Proof. unfold missing_bytes. nia. Qed.

Lemma download_within fuel : forall d,
  0 <= dl_offset d <= so_estimated_size_bytes src ->
  returns (download self env fuel plan src object lease credential d : IM _) (within d).
Proof.
  induction fuel as [|fuel IH]; intros d Hd; cbn [download]; destruct (dl_offset d <? so_estimated_size_bytes src) eqn:E; cbn [negb];
    (apply Z.ltb_lt in E || apply Z.ltb_ge in E); try done;
    try (apply returns_ret; unfold within; pose proof (within_room d); lia).
  apply returns_after. intros stop. apply returns_if.
  { apply returns_ret. unfold within. pose proof (within_room d). cbn. lia. }
  eapply returns_bind; [apply attempt_returns|]. intros [d2 r] [Hp Ha]. cbn [fst] in *.
  assert (dl_offset d2 = dl_offset d) as Ho by (unfold dl_offset; by rewrite Hp).
  assert (dl_attempts d2 <= dl_attempts d + Z.max 0 (maximum_attempts (ic_retry self)) * missing_bytes d) as Hm.
  { unfold missing_bytes. rewrite ZifyInst.of_nat_to_nat_eq in Ha. nia. }
  destruct r as [code|chunk]; [apply returns_ret; unfold within; cbn; lia|].
  destruct (validate_chunk plan src chunk (dl_offset d2)) as [code|] eqn:Ev.
  - eapply returns_bind; [apply returns_on_world, reject_returns; lia|]. intros result [Hr1 Hr2]. apply returns_ret. cbn. lia.
  - eapply returns_bind; [apply returns_on_world, accept_returns|]. intros d3 [H3 H4].
    pose proof (missing_shrinks _ _ _ Ev H3) as Hs. intros s s' a Hrun. apply IH in Hrun; [|unfold missing_bytes, dl_offset in *; lia].
    assert (missing_bytes d2 = missing_bytes d) as E2 by (unfold missing_bytes; lia). rewrite E2 in Hs.
    rewrite ZifyInst.of_nat_to_nat_eq in Ha. unfold within in *. destruct a as [[r ?]|d']; nia.
Qed.
End loop.

(** ** What an execution reports *)

Section execution.
Context {P : Type} `{!DataProvider P}.
Variable self : IngestionCoordinator.
Variable env : Environment.
Variable plan : FetchPlan.

Notation IM := (M (Process P)).

(** What a report says of the tree: an object that is stored or was there has its bytes,
    which the provider validated when they were fetched, and its manifest; a quarantined
    one has its bytes. *)
Definition durable (src : SourceObject) (r : ObjectFetchResult) (f : filesystem) : Prop :=
  (of_status r = COMPLETED \/ of_status r = ALREADY_PRESENT ->
     exists digest, object_stored self plan src r digest f
       /\ (forall e, so_expected_sha256 src = Some e -> digest = e))
  /\ (of_status r = COMPLETED ->
      exists payload, of_object_sha256 r = Some (sha256_hex payload) /\ validated (P := P) src payload
        /\ of_bytes_received r = Z.of_nat (length payload) /\ Z.of_nat (length payload) = so_estimated_size_bytes src)
  /\ (of_status r = QUARANTINED -> quarantined r f).

Lemma durable_kept src r f f' : keeps published f f' -> durable src r f -> durable src r f'.
Proof.
  intros Hk (H1 & H2 & H3). split; [|split; [done|]].
  - intros Hs. destruct (H1 Hs) as (digest & (m & identity & A1 & A2 & A3 & A4 & A5 & A6) & He). exists digest. split; [|done].
    exists m, identity. split_and!; try done. by eapply manifested_kept.
  - intros Hs. destruct (H3 Hs) as [H | (H & digest & target & B1 & B2 & B3 & B4)]; [by left|]. right. split; [done|].
    exists digest, target. split_and!; try done. by eapply names_file_kept.
Qed.

Lemma outcome_durable src object r f :
  fetch_outcome (P := P) self plan src object r f -> durable src r f.
Proof.
  unfold fetch_outcome, durable. intros [H | [[H _] | [(H & payload & H1 & H2 & H3 & H4 & H5) | (H & digest & He & Ho)]]].
  - split; [|split; [|done]].
    + destruct H as [-> | [-> _]]; by intros [|].
    + by destruct H as [-> | [-> _]].
  - rewrite H. split; [by intros [|] | by split].
  - rewrite H. split; [|split; [|done]]; intros _.
    + exists (sha256_hex payload). done.
    + exists payload. destruct H5 as (m & identity & _ & _ & H5 & _). done.
  - rewrite H. split; [|by split]. intros _. exists digest. split; [done|]. rewrite He. by intros e [= <-].
Qed.

Lemma fetch_durable src lease credential resume :
  0 <= so_estimated_size_bytes src ->
  triple (fun _ => True) (fetch_one self env plan src lease credential resume : IM _) (fun a => durable src a.1).
Proof.
  intros Hs. destruct (object_id src) as [object|e] eqn:Ho.
  - eapply triple_conseq; [by eapply fetch_one_triple | done|]. intros a f. apply outcome_durable.
  - intros s Hwf _. unfold fetch_one, st_bind at 1, st_lift. rewrite Ho. split_and!; [done | reflexivity | done].
Qed.

(** Facts that later steps keep. *)
Lemma triple_stable {A} (Q : filesystem -> Prop) pre (m : IM A) post :
  (forall f f', keeps published f f' -> Q f -> Q f') -> triple pre m post ->
  triple (fun f => pre f /\ Q f) m (fun a f => post a f /\ Q f).
Proof. intros HQ Hm s Hwf [Hp Hq]. destruct (Hm s Hwf Hp) as (H1 & H2 & H3). split_and!; [done..|]. eauto. Qed.

Definition all_durable (objects : list SourceObject) (results : list (ObjectFetchResult * bool)) (f : filesystem) : Prop :=
  Forall (fun a => exists src, src ∈ objects /\ durable src a.1 f) results.

Lemma all_durable_kept objects results f f' :
  keeps published f f' -> all_durable objects results f -> all_durable objects results f'.
Proof.
  intros Hk H. eapply Forall_impl; [exact H|]. intros a (src & Hin & Hd). exists src. split; [done|]. by eapply durable_kept.
Qed.

Definition sizes_known (objects : list SourceObject) : Prop := Forall (fun src => 0 <= so_estimated_size_bytes src) objects.

Lemma workers_durable lease credential resume batch order : sizes_known batch -> forall (s s' : Process P) outcomes,
  wf (tree_of s) -> run_workers self env plan lease credential resume batch order s = (s', outcomes) ->
  wf (tree_of s') /\ keeps published (tree_of s) (tree_of s')
  /\ Forall (fun o => forall a, o.2 = Ok a -> exists src, src ∈ batch /\ durable src a.1 (tree_of s')) outcomes.
Proof.
  intros Hb. induction order as [|i order IH]; intros s s' outcomes Hwf; cbn [run_workers].
  { intros [= <- <-]. split_and!; [done | reflexivity | by apply Forall_nil_2]. }
  destruct (batch !! i) as [src|] eqn:Hi; [|by apply IH].
  assert (src ∈ batch) as Hin by (by eapply list_elem_of_lookup_2).
  destruct (fetch_durable src lease credential resume (proj1 (Forall_forall _ _) Hb src Hin) s Hwf I) as (H1 & H2 & H3).
  destruct (fetch_one _ _ _ _ _ _ _ s) as [s1 r]. cbn [fst snd] in *.
  destruct (run_workers _ _ _ _ _ _ _ order s1) as [s2 rest] eqn:E. intros [= <- <-].
  destruct (IH s1 s2 rest H1 E) as (H4 & H5 & H6). split_and!; [done | by etrans|]. apply Forall_cons_2; [|done].
  cbn. intros a Ha. exists src. split; [done|]. eapply durable_kept; [exact H5 | auto].
Qed.

Lemma batch_durable lease credential resume batch :
  sizes_known batch ->
  triple (fun _ => True) (run_batch self env plan lease credential resume batch : IM _) (all_durable batch).
Proof.
  intros Hb s Hwf _. unfold run_batch. destruct (run_workers _ _ _ _ _ _ _ _ s) as [s1 outcomes] eqn:E.
  destruct (workers_durable _ _ _ _ _ Hb _ _ _ Hwf E) as (H1 & H2 & H3). cbn [fst snd]. split_and!; [done..|].
  intros results Hr. apply Forall_forall. intros a Ha. apply res_map_ok in Hr.
  apply list_elem_of_lookup in Ha as [k Hk]. destruct (Forall2_lookup_r _ _ _ _ _ Hr Hk) as (i & _ & Hi).
  destruct (od_get i outcomes) as [r|] eqn:Eo; [|done]. apply od_get_elem in Eo. rewrite Forall_forall in H3.
  exact (H3 _ Eo a Hi).
Qed.

Lemma batches_durable lease credential resume fuel : forall objects,
  sizes_known objects ->
  triple (fun _ => True) (run_batches self env fuel plan lease credential resume objects : IM _) (all_durable objects).
Proof.
  induction fuel as [|fuel IH]; intros objects Hb; (destruct objects as [|o l]; [apply triple_ret; intros; by apply Forall_nil_2|]).
  - by apply triple_same.
  - cbn [run_batches]. set (objects := o :: l) in *. set (width := Z.to_nat _).
    eapply (triple_bind _ (fun _ _ => True)); [by apply triple_same|]. intros stop.
    apply triple_if; intros _; [apply triple_ret; intros; by apply Forall_nil_2|].
    eapply triple_bind; [apply batch_durable; by apply Forall_take|]. intros results. cbv beta.
    eapply triple_bind.
    + eapply triple_conseq; [apply (triple_stable (all_durable (take width objects) results));
        [intros f f'; apply all_durable_kept | apply (IH (drop width objects)); by apply Forall_drop] | by intros f H; split
        | intros a f H; exact H].
    + intros rest. apply triple_ret. intros f [H1 H2]. apply Forall_app_2.
      * eapply Forall_impl; [exact H2|]. intros a (src & Hin & Hd). exists src. split; [|done].
        rewrite <- (take_drop width objects), elem_of_app. by left.
      * eapply Forall_impl; [exact H1|]. intros a (src & Hin & Hd). exists src. split; [|done].
        rewrite <- (take_drop width objects), elem_of_app. by right.
Qed.
End execution.

(** ** The storage lock *)

#[export] Hint Extern 1 (unfenced (sys_open_append _)) => apply unfenced_change : unfenced.
#[export] Hint Extern 1 (unfenced (sys_open_truncate _)) => apply unfenced_change : unfenced.
#[export] Hint Resolve unfenced_mkdirs unfenced_publish_staged unfenced_publish_manifest unfenced_initialize : unfenced.

Lemma unfenced_storage_error {A} (m h : RM A) : unfenced m -> unfenced h -> unfenced (on_storage_error m h).
Proof.
  intros Hm Hh w. unfold on_storage_error. pose proof (Hm w) as H. destruct (m w) as [w1 [a|[c msg]]]; [done|].
  destruct c; try done. etrans; [exact H | apply Hh].
Qed.

Lemma unfenced_save object c : unfenced (save_checkpoint object c).
Proof. unfold save_checkpoint, sync_directory. prove_unfenced. Qed.
Lemma unfenced_remove object : unfenced (remove_checkpoint object).
Proof. unfold remove_checkpoint, sync_directory. prove_unfenced. Qed.
Lemma unfenced_rewrite p : unfenced (rewrite_staged p).
Proof. unfold rewrite_staged. prove_unfenced. Qed.
Lemma unfenced_append_staged p b : unfenced (append_staged p b).
Proof. unfold append_staged. prove_unfenced. Qed.
#[export] Hint Resolve unfenced_storage_error unfenced_save unfenced_remove unfenced_rewrite unfenced_append_staged : unfenced.

Lemma unfenced_quarantine self src object code lease attempts delays :
  unfenced (quarantine self src object code lease attempts delays).
Proof. unfold quarantine. apply unfenced_bind; [|intros ?]; [|apply unfenced_storage_error]; prove_unfenced. Qed.
Lemma unfenced_open plan src object resume : unfenced (open_or_create_checkpoint plan src object resume).
Proof. unfold open_or_create_checkpoint. prove_unfenced. Qed.
#[export] Hint Resolve unfenced_quarantine unfenced_open : unfenced.

Lemma unfenced_reject self src object code lease d : unfenced (reject_chunk self src object code lease d).
Proof. unfold reject_chunk. prove_unfenced. Qed.
Lemma unfenced_accept plan src object chunk d : unfenced (accept_chunk plan src object chunk d).
Proof. unfold accept_chunk. prove_unfenced. Qed.
Lemma unfenced_publish_object self plan src object digest records lease d :
  unfenced (publish_object self plan src object digest records lease d).
Proof.
  unfold publish_object. apply unfenced_bind; [apply unfenced_storage_error; prove_unfenced|]. intros [m|]; prove_unfenced.
Qed.
Lemma unfenced_begin plan src object resume : unfenced (begin_download plan src object resume).
Proof.
  intros w. unfold begin_download. pose proof (unfenced_open plan src object resume w) as H.
  destruct (open_or_create_checkpoint _ _ _ _ w) as [w1 [[c payload]|e]]; [|by destruct (fetch_code e)].
  etrans; [exact H|]. match goal with |- same_fence _ (?m w1).1 => assert (unfenced m) as Hm by prove_unfenced; apply Hm end.
Qed.
Lemma unfenced_existing self plan src object digest lease : unfenced (existing_result self plan src object digest lease).
Proof. unfold existing_result. prove_unfenced. Qed.
#[export] Hint Resolve unfenced_reject unfenced_accept unfenced_publish_object unfenced_begin unfenced_existing : unfenced.

Section lock.
Context {P : Type} `{!DataProvider P}.
Variable self : IngestionCoordinator.
Variable env : Environment.
Variable plan : FetchPlan.

Notation IM := (M (Process P)).

(** A computation of the process that leaves the lock and the leases alone. *)
Definition lockless {A} (m : IM A) : Prop := forall s, same_fence (pr_world s) (pr_world (m s).1).

Lemma lockless_pure {A} (m : IM A) : (forall s, pr_world (m s).1 = pr_world s) -> lockless m.
Proof. intros H s. by rewrite H. Qed.
Lemma lockless_bind {A B} (m : IM A) (k : A -> IM B) : lockless m -> (forall a, lockless (k a)) -> lockless (st_bind m k).
Proof.
  intros Hm Hk s. unfold st_bind. pose proof (Hm s) as H. destruct (m s) as [s' [a|e]]; [|done].
  etrans; [exact H | apply Hk].
Qed.
Lemma lockless_on_world {A} (m : RM A) : unfenced m -> lockless (on_world m).
Proof. intros H s. unfold on_world. specialize (H (pr_world s)). by destruct (m (pr_world s)). Qed.
Lemma lockless_on_provider {A} (m : M P A) : lockless (on_provider m).
Proof. apply lockless_pure. intros s. unfold on_provider. by destruct (m (pr_provider s)). Qed.

Ltac lockless_pure := by apply lockless_pure.

Lemma lockless_request src credential d : lockless (request_range self env plan src credential d).
Proof.
  apply lockless_pure. intros s. unfold request_range. pose proof (acquire_tree self env s) as Ha.
  destruct (acquire self env s) as [s1 [[]|e]]; cbn [fst] in *; [|done].
  unfold on_provider. by destruct (fetch_range _ _ _ _ _ _) as [p [chunk|e]].
Qed.

Lemma lockless_attempt src object credential n : forall k d, lockless (attempt_range self env n k plan src object credential d).
Proof.
  induction n as [|n IH]; intros k d; cbn [attempt_range]; [lockless_pure|].
  apply lockless_bind; [apply lockless_request|]. intros [d' [[c msg]|chunk]]; [|lockless_pure]. destruct c; try lockless_pure.
  destruct (_ || _); [lockless_pure|]. apply lockless_bind; [lockless_pure|]. intros own.
  destruct (_ <? _); [lockless_pure|]. do 2 (apply lockless_bind; [lockless_pure|]; intros ?).
  apply lockless_bind; [apply lockless_on_world; auto with unfenced | intros ?; apply IH].
Qed.

Lemma lockless_download src object lease credential fuel : forall d,
  lockless (download self env fuel plan src object lease credential d).
Proof.
  induction fuel as [|fuel IH]; intros d; cbn [download]; destruct (negb _); try lockless_pure.
  apply lockless_bind; [lockless_pure|]. intros stop. destruct stop; [lockless_pure|].
  apply lockless_bind; [apply lockless_attempt|]. intros [d' [code|chunk]]; [lockless_pure|].
  destruct (validate_chunk _ _ _ _); (apply lockless_bind; [apply lockless_on_world; auto with unfenced|]; intros ?);
    [lockless_pure | apply IH].
Qed.

Lemma lockless_complete src object lease d : lockless (complete self plan src object lease d).
Proof.
  intros s. unfold complete. assert (lockless (check_payload src (sha256_hex (dl_payload d)) (dl_payload d))) as Hc.
  { unfold check_payload. apply lockless_bind; [lockless_pure|]. intros ?. apply lockless_bind; [apply lockless_on_provider|].
    intros ?. apply lockless_bind; [lockless_pure|]. intros ?. lockless_pure. }
  specialize (Hc s). destruct (check_payload _ _ _ s) as [s1 [records|e]]; cbn [fst] in *.
  - etrans; [exact Hc|]. apply lockless_on_world. auto with unfenced.
  - destruct (fetch_code e); [|done]. etrans; [exact Hc|]. apply lockless_on_world. auto with unfenced.
Qed.

Lemma lockless_fetch_one src lease credential resume : lockless (fetch_one self env plan src lease credential resume).
Proof.
  unfold fetch_one. apply lockless_bind; [lockless_pure|]. intros object.
  do 2 (apply lockless_bind; [apply lockless_on_world; auto with unfenced|]; intros ?).
  apply lockless_bind.
  { destruct (so_expected_sha256 src); [apply lockless_on_world; auto with unfenced | lockless_pure]. }
  intros [result|]; [lockless_pure|]. apply lockless_bind; [apply lockless_on_world; auto with unfenced|].
  intros [code|d]; [lockless_pure|]. apply lockless_bind; [apply lockless_download|]. intros [early|d']; [lockless_pure|].
  apply lockless_bind; [apply lockless_complete|]. intros result. lockless_pure.
Qed.

Lemma lockless_workers lease credential resume batch order : forall s,
  same_fence (pr_world s) (pr_world (run_workers self env plan lease credential resume batch order s).1).
Proof.
  induction order as [|i order IH]; intros s; cbn [run_workers]; [reflexivity|]. destruct (batch !! i) as [src|]; [|apply IH].
  pose proof (lockless_fetch_one src lease credential resume s) as H. destruct (fetch_one _ _ _ _ _ _ _ s) as [s1 r].
  specialize (IH s1). destruct (run_workers _ _ _ _ _ _ _ order s1) as [s2 rest]. by etrans.
Qed.

Lemma lockless_batches lease credential resume fuel : forall objects,
  lockless (run_batches self env fuel plan lease credential resume objects).
Proof.
  induction fuel as [|fuel IH]; intros [|o l]; try lockless_pure. cbn [run_batches]. set (objects := o :: l).
  apply lockless_bind; [lockless_pure|]. intros stop. destruct stop; [lockless_pure|].
  apply lockless_bind; [|intros results; apply lockless_bind; [apply IH | intros rest; lockless_pure]].
  intros s. unfold run_batch. pose proof (lockless_workers lease credential resume (take (Z.to_nat (fr_maximum_concurrency (fp_request plan))) objects)
    (worker_order env (List.seq 0 (length (take (Z.to_nat (fr_maximum_concurrency (fp_request plan))) objects)))) s) as H.
  by destruct (run_workers _ _ _ _ _ _ _ _ s).
Qed.
End lock.

(** ** Executions *)

Lemma safe_estimate self request quota : safe published (estimate self request quota).
Proof. apply safe_bind; [apply safe_acquire_lock|]. intros d. apply safe_finally; [apply safe_look | apply safe_release_lock]. Qed.

Lemma safe_enter l : safe published (enter_lease l).
Proof. apply safe_bind; [apply safe_get_lease|]. intros x. apply safe_if; [apply safe_raise_storage | apply safe_ret]. Qed.

Section executions.
Context {P : Type} `{!DataProvider P}.
Variable self : IngestionCoordinator.
Variable env : Environment.

Notation IM := (M (Process P)).
Notation anything := (fun _ : filesystem => True).

Lemma triple_step {A B} (m : IM A) (k : A -> IM B) post :
  triple anything m (fun _ _ => True) -> (forall a, triple anything (k a) post) -> triple anything (st_bind m k) post.
Proof. apply triple_bind. Qed.

Lemma triple_world {A} (m : RM A) : safe published m -> triple anything (on_world m : IM A) (fun _ _ => True).
Proof. intros H. by apply triple_on_world, triple_safe. Qed.

Lemma plan_fetch_triple request quota :
  triple anything (plan_fetch self env request quota : IM _) (fun _ _ => True).
Proof.
  unfold plan_fetch. do 4 (apply triple_step; [by apply triple_same|]; intros ?).
  apply triple_step; [apply triple_world, safe_initialize|]. intros ?.
  apply triple_step; [apply triple_same; [|done]; intros s; unfold on_provider; by destruct (provider_plan _ _)|]. intros ?.
  do 4 (apply triple_step; [by apply triple_same|]; intros ?).
  apply triple_step; [apply triple_world, safe_estimate|]. intros ?. by apply triple_ret.
Qed.

Lemma with_lease_triple {A} lease (m : IM A) post :
  (forall a f f', keeps published f f' -> post a f -> post a f') ->
  triple anything m post -> triple anything (with_lease lease m) post.
Proof.
  intros Hpost Hm. unfold with_lease. apply triple_step; [apply triple_world, safe_enter|]. intros _ s Hwf _.
  destruct (Hm s Hwf I) as (H1 & H2 & H3). destruct (m s) as [s1 r]; cbn [fst snd] in *.
  destruct (triple_world _ (safe_close_lease lease) s1 H1 I) as (H4 & H5 & _).
  destruct (on_world (close_lease lease) s1) as [s2 [[]|e]]; cbn [fst snd] in *; (split_and!; [done | by etrans|]); [|done].
  intros a Ha. eapply Hpost; [exact H5 | auto].
Qed.

(** Every object that an execution reports on is one of the plan, and what is said of it
    holds of the tree. *)
Definition reported (plan : FetchPlan) (result : FetchResult) (f : filesystem) : Prop :=
  Forall (fun r => exists src, src ∈ fp_objects plan /\ durable (P := P) self plan src r f) (ft_objects result).

Lemma assemble_reported plan results stop result f :
  all_durable (P := P) self plan (fp_objects plan) results f -> assemble_result plan results stop = Ok result ->
  reported plan result f.
Proof.
  intros Hd. unfold assemble_result. intros (missing & Hm & H)%rbind_ok. apply rbind_ok in H as (identity & _ & [= <-]).
  apply Forall_forall. cbn. intros r Hr. rewrite elem_of_py_sorted, elem_of_app in Hr. destruct Hr as [Hr|Hr].
  - apply list_elem_of_fmap in Hr as (a & -> & Ha). unfold all_durable in Hd. rewrite Forall_forall in Hd. by apply Hd.
  - destruct stop; cbn [negb] in Hm; [|injection Hm as <-; by apply not_elem_of_nil in Hr].
    apply rbind_ok in Hm as (all & Hall & [= <-]). apply list_elem_of_In, List.filter_In in Hr as [Hr _].
    apply list_elem_of_In in Hr. apply res_map_ok in Hall. apply list_elem_of_lookup in Hr as [k Hk].
    destruct (Forall2_lookup_r _ _ _ _ _ Hall Hk) as (src & Hs & Hr). exists src.
    split; [by eapply list_elem_of_lookup_2|]. apply rbind_ok in Hr as (object & _ & [= <-]).
    unfold durable. cbn. split; [by intros [|] | by split].
Qed.

Lemma execute_triple plan quota resume :
  sizes_known (fp_objects plan) ->
  triple anything (execute self env plan quota resume : IM _) (reported plan).
Proof.
  intros Hs. unfold execute. apply triple_if; intros _.
  { apply triple_step; [by apply triple_same|]. intros identity. apply triple_ret. intros f _. by apply Forall_nil_2. }
  apply triple_step; [apply plan_fetch_triple|]. intros current. apply triple_step; [by apply triple_same|]. intros credential.
  eapply (triple_bind _ (fun results => all_durable self plan (fp_objects plan) results)).
  - intros s Hwf _.
    assert (triple anything (lease <~ on_world (acquire_admission (ic_repository self) (fp_storage_request plan) quota) ;;
             with_lease lease
               (run_batches self env (length (fp_objects plan)) plan lease credential resume (fp_objects plan)) : IM _)
             (fun results => all_durable self plan (fp_objects plan) results)) as Ht.
    { apply triple_step; [apply triple_world, safe_acquire_admission|]. intros lease. apply with_lease_triple.
      - intros a f f'. apply all_durable_kept.
      - by apply batches_durable. }
    destruct (Ht s Hwf I) as (H1 & H2 & H3). destruct (st_bind _ _ s) as [s1 [a|[c msg]]]; cbn [fst snd] in *; [by split_and!|].
    destruct c; by split_and!.
  - intros results. eapply (triple_bind _ (fun _ => all_durable self plan (fp_objects plan) results)); [by apply triple_same|].
    intros stop. apply triple_same; [done|]. intros s result Hp Hr. exact (assemble_reported plan results stop result _ Hp Hr).
Qed.
End executions.

(** ** The lock after an execution *)

Lemma locked_owner {A} (m : Z -> RM A) w :
  fenced w -> (forall d, unfenced (m d)) ->
  lock_owner (st_bind acquire_lock (fun d => st_finally (m d) (release_lock d)) w).1 = lock_owner w.
Proof.
  intros Hf Hm. unfold st_bind. destruct (acquire_lock w) as [w1 [d|e]] eqn:E.
  2:{ by apply (acquire_lock_failed w w1 e Hf E). }
  destruct (acquire_lock_ok w w1 d Hf E) as (_ & _ & _ & Hn & Hl & _). unfold st_finally.
  destruct (Hm d w1) as (Hl1 & _). destruct (m d w1) as [w2 r]. cbn [fst] in *.
  destruct (release_lock_effect d w2) as (Hl2 & _). destruct (release_lock d w2) as [w3 [[]|]]; cbn in *;
    by rewrite Hl2, Hl1, Hl, bool_decide_eq_true_2.
Qed.

Lemma admission_lock self request quota w w' r :
  fenced w -> acquire_admission self request quota w = (w', r) ->
  match r with
  | Ok l => lock_owner w = None /\ active_at w' l
  | Err _ => lock_owner w' = lock_owner w
  end.
Proof.
  intros Hf. unfold acquire_admission, st_bind at 1. destruct (acquire_lock w) as [w1 [d|e]] eqn:E.
  2:{ intros [= <- <-]. by apply (acquire_lock_failed w w1 e Hf E). }
  destruct (acquire_lock_ok w w1 d Hf E) as (_ & _ & _ & Hn & Hl & Hd).
  destruct (release_lock_effect d w1) as (Hl2 & _ & _ & Hr2). rewrite Hl, bool_decide_eq_true_2 in Hl2 by done.
  assert (forall e : exn, (release_lock d ;;~ st_raise (A := nat) e) w1 = (w', r) ->
            match r with Ok l => lock_owner w = None /\ active_at w' l | Err _ => lock_owner w' = lock_owner w end) as Hrel.
  { intros e. unfold st_bind. destruct (release_lock d w1) as [w2 [[]|]]; [|done]. cbn in *. intros [= <- <-]. congruence. }
  destruct (repository_admission _ _ _ _) as [decision|e]; [|apply Hrel]. destruct (negb _); [apply Hrel|].
  intros [= <- <-]. split; [done|]. exists {| lease_root := root self; lease_descriptor := d; lease_decision := decision |}.
  cbn. rewrite lookup_app_r, Nat.sub_diag by done. split; [done|]. unfold active. cbn. apply Z.leb_le. lia.
Qed.

Lemma close_active l w : fenced w -> active_at w l -> lock_owner (close_lease l w).1 = None.
Proof.
  intros Hf (x & Hx & Ha). unfold close_lease, st_bind at 1, get_lease. rewrite Hx, Ha. cbn [negb].
  unfold st_bind, st_put. set (w1 := set_objects _ w).
  destruct (release_lock_effect (lease_descriptor x) w1) as (Hl & _ & _ & Hr). change (lock_owner w1) with (lock_owner w) in Hl.
  by rewrite Hl, (fence_owner w Hf l x Hx Ha), bool_decide_eq_true_2.
Qed.

(** The writer fence holds and the lock has the owner it had before. *)
Definition lock_restored (w w' : W) : Prop := fenced w' /\ lock_owner w' = lock_owner w.

Section releases.
Context {P : Type} `{!DataProvider P}.
Variable self : IngestionCoordinator.
Variable env : Environment.

Notation IM := (M (Process P)).

Definition relocks {A} (m : IM A) : Prop := forall s, fenced (pr_world s) -> lock_restored (pr_world s) (pr_world (m s).1).

Lemma relocks_lockless {A} (m : IM A) : lockless m -> relocks m.
Proof. intros H s Hf. pose proof (H s) as [Hl ?]. split; [by eapply fenced_same, Hf | done]. Qed.

Lemma relocks_bind {A B} (m : IM A) (k : A -> IM B) : relocks m -> (forall a, relocks (k a)) -> relocks (st_bind m k).
Proof.
  intros Hm Hk s Hf. destruct (Hm s Hf) as [H1 H2]. unfold st_bind. destruct (m s) as [s1 [a|e]]; cbn [fst] in *; [|done].
  destruct (Hk a s1 H1) as [H3 H4]. split; [done | congruence].
Qed.

Lemma relocks_pure {A} (m : IM A) : (forall s, pr_world (m s).1 = pr_world s) -> relocks m.
Proof. intros H. by apply relocks_lockless, lockless_pure. Qed.

Lemma relocks_estimate request quota : relocks (on_world (estimate (ic_repository self) request quota) : IM _).
Proof.
  intros s Hf. assert (forall d : Z, unfenced (look (repository_admission (ic_repository self) request quota))) as Hu
    by (intros d; by apply unfenced_pure).
  pose proof (locked_fenced (fun _ => look (repository_admission (ic_repository self) request quota)) (pr_world s) Hf Hu) as H1.
  pose proof (locked_owner (fun _ => look (repository_admission (ic_repository self) request quota)) (pr_world s) Hf Hu) as H2.
  unfold on_world, estimate. by destruct (st_bind acquire_lock _ (pr_world s)).
Qed.

Lemma relocks_plan_fetch request quota : relocks (plan_fetch self env request quota : IM _).
Proof.
  unfold plan_fetch. do 4 (apply relocks_bind; [by apply relocks_pure|]; intros ?).
  apply relocks_bind; [apply relocks_lockless, lockless_on_world, unfenced_initialize|]. intros ?.
  apply relocks_bind; [apply relocks_lockless, lockless_on_provider|]. intros ?.
  do 4 (apply relocks_bind; [by apply relocks_pure|]; intros ?).
  apply relocks_bind; [apply relocks_estimate|]. intros ?. by apply relocks_pure.
Qed.

Lemma relocks_leased {A} request quota (m : nat -> IM A) :
  (forall lease, lockless (m lease)) ->
  relocks (lease <~ on_world (acquire_admission (ic_repository self) request quota) ;; with_lease lease (m lease)).
Proof.
  intros Hm s Hf. set (k := fun lease => with_lease lease (m lease)). unfold st_bind, on_world.
  pose proof (fenced_acquire_admission (ic_repository self) request quota _ Hf) as Hf1.
  destruct (acquire_admission _ _ _ (pr_world s)) as [w1 r] eqn:E. apply (admission_lock _ _ _ _ _ _ Hf) in E. cbn [fst] in Hf1.
  destruct r as [lease|e]; [|done]. destruct E as [Hn Ha]. unfold lock_restored. rewrite Hn. clear Hn. unfold k, with_lease, st_bind, on_world.
  cbn [pr_world set_world].
  assert (enter_lease lease w1 = (w1, Ok lease)) as ->.
  { destruct Ha as (x & Hx & Hx'). unfold enter_lease, st_bind, get_lease. by rewrite Hx, Hx'. }
  set (s1 := set_world w1 (set_world w1 s)). destruct (Hm lease s1) as (Hl & Ho & Hd).
  destruct (m lease s1) as [s2 r]. cbn [fst pr_world set_world s1] in *.
  assert (fenced (pr_world s2)) as Hf2 by (eapply fenced_same; [|exact Hf1]; by split_and!).
  assert (active_at (pr_world s2) lease) as Ha2 by (unfold active_at; by rewrite Ho).
  pose proof (fenced_close_lease lease _ Hf2) as Hf3. pose proof (close_active lease _ Hf2 Ha2) as Hl3.
  destruct (close_lease lease (pr_world s2)) as [w3 [[]|e]]; by split.
Qed.

Lemma execute_relocks plan quota resume : relocks (execute self env plan quota resume : IM _).
Proof.
  unfold execute. destruct (negb _); [apply relocks_bind; [by apply relocks_pure|]; intros ?; by apply relocks_pure|].
  apply relocks_bind; [apply relocks_plan_fetch|]. intros current. apply relocks_bind; [by apply relocks_pure|]. intros credential.
  apply relocks_bind; [|intros results; apply relocks_bind; [by apply relocks_pure | intros stop; by apply relocks_pure]].
  intros s Hf. pose proof (relocks_leased (fp_storage_request plan) quota
    (fun lease => run_batches self env (length (fp_objects plan)) plan lease credential resume (fp_objects plan))
    (fun lease => lockless_batches self env plan lease credential resume _ _) s Hf) as H.
  cbv beta in H. destruct (st_bind _ _ s) as [s1 [a|[c msg]]]; [done|]. by destruct c.
Qed.
End releases.

(** ** Stopping and resuming *)

(** What [p] names in [f], it still names in [f'], with the same bytes. *)
Definition still_holds (f f' : filesystem) (p : path) : Prop := forall b, holds f p b -> holds f' p b.

(** A resumable download is reopened as long as its two files are there. *)
Lemma resumable_opens plan src object payload f :
  resumable plan src object payload f ->
  exists c, dc_completed_bytes c = Z.of_nat (length payload) /\ dc_prefix_sha256 c = sha256_hex payload
    /\ forall w, wf (fs w) -> still_holds f (fs w) (staged_path object) -> still_holds f (fs w) (checkpoint_path object) ->
         open_or_create_checkpoint plan src object true w = (w, Ok (c, payload)).
Proof.
  intros (Hs & Hl & c & b & Hc & Hb & Hd & Hv). exists c.
  assert (dc_completed_bytes c = Z.of_nat (length payload) /\ dc_prefix_sha256 c = sha256_hex payload) as [H1 H2].
  { unfold validate_checkpoint in Hv. do 3 apply rbind_ok in Hv as (? & _ & Hv). apply fetch_when_ok in Hv. bprop. split; [lia | done]. }
  split_and!; [done | done |]. intros w Hwf Ks Kc. apply Ks in Hs. apply Kc in Hc.
  unfold open_or_create_checkpoint, st_bind, look.
  rewrite (exists_path_holds _ _ _ Hwf Hc), (exists_path_holds _ _ _ Hwf Hs). cbn [orb negb].
  rewrite (read_bounded_holds _ _ _ _ Hwf Hc Hb). cbn [rbind]. rewrite Hd. cbn [rbind].
  rewrite (read_bounded_holds _ _ _ _ Hwf Hs Hl). cbn [rbind]. by rewrite Hv.
Qed.

(** Making directories that are there changes nothing. *)
Lemma mkdirs_present p q b (w : W) :
  wf (fs w) -> faults w = [] -> holds (fs w) q b -> q <> [] -> p = parent_of q -> p <> [] -> mkdirs p w = (w, Ok tt).
Proof.
  intros Hwf Hq (i & x & Hn & _) Hne -> Hp. destruct (wf_parent _ Hwf q _ Hn Hne) as [d Hd].
  revert Hd Hp. generalize (parent_of q). intros p Hd Hp. unfold mkdirs.
  destruct (rev p) as [|y l] eqn:E; [by rewrite <- (rev_involutive p), E in Hp|]. cbn [mkdir_parents].
  rewrite <- E, rev_involutive. rewrite (mkdir_exists p w d) by done. cbn [caught_by raise exn_cls].
  rewrite bool_decide_eq_false_2 by done. cbn [existsb]. by rewrite (is_dir_ok (fs w) p d) by done.
Qed.

(** The object of a source is not in the repository. *)
Definition not_stored (src : SourceObject) (f : filesystem) : Prop :=
  forall digest, so_expected_sha256 src = Some digest -> exists_path f (path_parts (raw_relative src digest)) = Ok false.

Section resuming.
Context {P : Type} `{!DataProvider P}.
Variable self : IngestionCoordinator.
Variable env : Environment.

(** The rest of a fetch that has received [dl_payload d]. *)
Definition fetch_from (plan : FetchPlan) (src : SourceObject) (object : pystr) (lease : nat) (credential : option pystr)
    (d : Download) : M (Process P) (ObjectFetchResult * bool) :=
  ended <~ download self env (Z.to_nat (so_estimated_size_bytes src)) plan src object lease credential d ;;
  match ended with
  | inl early => st_ret early
  | inr d => result <~ complete self plan src object lease d ;; st_ret (result, dl_accessed d)
  end.

Lemma set_world_idem (s : Process P) : set_world (pr_world s) s = s.
Proof. by destruct s. Qed.

(** A fetch that reopens its checkpoint goes on from its bytes. *)
Lemma fetch_one_resumes plan src object lease credential c payload bs bc (s : Process P) :
  object_id src = Ok object -> so_resume_mode src = VERIFIED_RANGE ->
  wf (fs (pr_world s)) -> faults (pr_world s) = [] -> not_stored src (fs (pr_world s)) ->
  holds (fs (pr_world s)) (staged_path object) bs -> holds (fs (pr_world s)) (checkpoint_path object) bc ->
  open_or_create_checkpoint plan src object true (pr_world s) = (pr_world s, Ok (c, payload)) ->
  fetch_one self env plan src lease credential true s
  = fetch_from plan src object lease credential
      {| dl_payload := payload; dl_attempts := dc_attempts c; dl_sequence := dc_sequence c; dl_delays := [];
         dl_accessed := false |} s.
Proof.
  intros Ho Hm Hwf Hq Hn Hs Hc E. unfold fetch_one. unfold st_bind at 1, st_lift at 1. rewrite Ho.
  assert (forall p q b, p = parent_of q -> q <> [] -> p <> [] -> holds (fs (pr_world s)) q b ->
            on_world (mkdirs p) s = (s, Ok tt)) as Hmk.
  { intros p q b Hp Hne Hp0 Hh. unfold on_world. rewrite (mkdirs_present p q b) by done. by rewrite set_world_idem. }
  unfold st_bind at 1. rewrite (Hmk _ (checkpoint_path object) bc) by done.
  unfold st_bind at 1. rewrite (Hmk _ (staged_path object) bs) by done.
  assert ((match so_expected_sha256 src with
           | None => st_ret None
           | Some digest => on_world (existing_result self plan src object digest lease)
           end : M (Process P) _) s = (s, Ok None)) as Hx.
  { destruct (so_expected_sha256 src) as [digest|] eqn:Ed; [|done]. unfold on_world, existing_result, st_bind at 1, look.
    rewrite (Hn digest Ed). cbn [negb]. unfold st_ret. by rewrite set_world_idem. }
  unfold st_bind at 1. rewrite Hx. unfold st_bind at 1. unfold on_world at 1, begin_download. rewrite E, Hm.
  rewrite bool_decide_eq_false_2 by done. cbn [andb]. unfold st_ret at 1. by rewrite set_world_idem.
Qed.

(** An object that cannot be resumed within starts again. *)
Lemma begin_restarts plan src object c payload w w' d :
  so_resume_mode src = COMPLETE_OBJECT_RESTART -> dc_completed_bytes c = Z.of_nat (length payload) ->
  open_or_create_checkpoint plan src object true w = (w, Ok (c, payload)) ->
  begin_download plan src object true w = (w', Ok (inr d)) -> dl_payload d = [].
Proof.
  intros Hm Hc E H. unfold begin_download in H. rewrite E, Hm, bool_decide_eq_true_2 in H by done. cbn [andb] in H.
  destruct (Z.eqb_spec (dc_completed_bytes c) 0) as [Hz|Hz]; cbn [negb] in H.
  - injection H as _ <-. cbn. rewrite Hc in Hz. by destruct payload.
  - unfold st_bind at 1 in H. destruct (rewrite_staged _ _) as [w1 [[]|e]]; [|done].
    unfold st_bind at 1, st_lift at 1 in H. destruct (make_checkpoint _ _ _ _ _) as [k|e]; [|done].
    unfold st_bind in H. destruct (save_checkpoint _ _ _) as [w2 [[]|e]]; [|done]. by injection H as _ <-.
Qed.
End resuming.

(** ** An example *)

(** A scripted provider of one object whose first request times out. *)
Definition mock_times : ManifestTimeRange :=
  {| event_time_min_ns := 1; event_time_max_ns := 2; publication_time_min_ns := 1; publication_time_max_ns := 2;
     receive_time_min_ns := 3; receive_time_max_ns := 3; processing_time_min_ns := 4; processing_time_max_ns := 4;
     revision_time_min_ns := 2; revision_time_max_ns := 4 |}.
Definition mock_item : MockObject :=
  {| mo_locator := str "bars/a.bin"; mo_coverage_date := Date 2024 1 2; mo_tickers := [str "AAPL"];
     mo_payload := [7; 8; 9]; mo_times := mock_times; mo_version_id := str "mock-version-1"; mo_record_count := 1;
     mo_expected_sha256_override := None; mo_omit_expected_sha256 := false; mo_malformed := false;
     mo_resume_mode := VERIFIED_RANGE; mo_validated_record_count_override := None; mo_lineage := no_lineage |}.
Definition scripted (script : list MockFailure) : DeterministicMockHttpS3Provider :=
  {| mk_provider_id := str "mock-s3"; mk_dataset_id := str "minute-bars"; mk_credential_reference := None;
     mk_objects := [mock_item]; mk_failures := [(str "bars/a.bin", script)]; mk_calls := []; mk_on_fetch := None;
     mk_duplicate_first_object := false |}.
Definition mock_request : FetchRequest :=
  {| fr_request_id := str "fetch-1"; fr_provider_id := str "mock-s3"; fr_dataset_id := str "minute-bars";
     fr_start_date := Date 2024 1 1; fr_end_date := Date 2024 1 5; fr_tickers := [str "AAPL"];
     fr_universe_snapshot_sha256 := replicate 64 97; fr_execute := true; fr_maximum_object_bytes := 1000;
     fr_maximum_total_bytes := 10000; fr_maximum_concurrency := 2; fr_chunk_bytes := 2;
     fr_request_timeout_ns := 1000; fr_deterministic_seed := 7 |}.
Definition mock_entitlement : DataEntitlement :=
  {| en_source_id := str "mock-s3"; en_dataset_id := str "minute-bars"; en_state := AUTHORIZED;
     en_network_access_authorized := true; en_policy_sha256 := Some (replicate 64 98);
     en_approval_record_sha256 := Some (replicate 64 99);
     en_expires_at_utc := Some {| dt_date := Date 2030 1 1; dt_second := 0; dt_microsecond := 0; dt_offset := Some 0 |} |}.
Definition mock_coordinator : IngestionCoordinator :=
  {| ic_repository := example_repository; ic_entitlement := mock_entitlement; ic_rate_limit := default_rate_limit;
     ic_retry := default_retry; ic_credential_provider := None |}.
Definition mock_environment (stop : nat -> bool) : Environment :=
  {| monotonic_ns := fun n => Z.of_nat n * 1000000000; shutdown_requested := stop;
     utc_now := {| dt_date := Date 2026 1 1; dt_second := 0; dt_microsecond := 0; dt_offset := Some 0 |};
     resolve_path := fun p => Ok p; worker_order := fun l => l |}.
Definition fresh_world : W :=
  {| fs := {| nodes := {[ [] := Directory 7 ]}; inodes := ∅; next_ino := 0 |}; faults := [];
     blocks_of := fun b => Z.of_nat (length b); lock_owner := None; next_descriptor := 3; objects := [] |}.
Definition process_of (w : W) (p : DeterministicMockHttpS3Provider) : Process DeterministicMockHttpS3Provider :=
  {| pr_world := w; pr_provider := p; pr_next_ns := 0; pr_clock := 0; pr_polls := 0; pr_slept := [] |}.
Definition never (n : nat) : bool := false.

(** ** Authorization *)

Section authorization.
Context {P : Type} `{!DataProvider P}.
Variable self : IngestionCoordinator.
Variable env : Environment.

(** The credential that a provider asks for is the one that the configured source of
    credentials returns for its reference; without a reference there is none. *)
Definition credential_found (provider : P) (credential : option pystr) : Prop :=
  match credential_reference provider with
  | None => credential = None
  | Some reference => exists get secret,
      ic_credential_provider self = Some get /\ get reference = Ok (Some secret) /\ credential = Some secret
  end.

(** What must hold before anything is fetched: the plan is still the one of the provider's
    metadata, the provider is healthy, the entitlement permits the execution at this
    instant, storage was admitted when planning, and the credential was found. *)
Definition authorized (plan current : FetchPlan) (provider : P) (credential : option pystr) : Prop :=
  (exists identity, plan_id plan = Ok identity /\ plan_id current = Ok identity)
  /\ fp_provider_health current = HEALTHY /\ dt_offset (utc_now env) = Some 0
  /\ permits (ic_entitlement self) (provider_remote provider) (utc_now env) = Ok true
  /\ admitted (fp_admission plan) = true
  /\ credential_found provider credential.

Lemma authorize_ok plan current s s' credential :
  authorize_execution self env plan current s = (s', Ok credential) ->
  s' = s /\ authorized plan current (pr_provider s) credential.
Proof.
  unfold authorize_execution, st_bind, st_get, st_lift. intros [= <- H]. split; [done|].
  apply rbind_ok in H as (planned & Hp & H). apply rbind_ok in H as (now & Hn & H).
  apply rbind_ok in H as ([] & H1%fetch_when_ok & H). apply rbind_ok in H as ([] & H2%fetch_when_ok & H).
  apply rbind_ok in H as ([] & H3%fetch_when_ok & H). apply rbind_ok in H as (permitted & Hpm & H).
  apply rbind_ok in H as ([] & H4%fetch_when_ok & H). apply rbind_ok in H as ([] & H5%fetch_when_ok & H).
  bprop. subst. split_and!; try done; [by exists now|]. unfold find_credential in H. unfold credential_found.
  destruct (credential_reference (pr_provider s)) as [reference|]; [|by injection H as <-].
  destruct (ic_credential_provider self) as [get|]; [|done]. apply rbind_ok in H as ([secret|] & Hg & H); [|done].
  injection H as <-. eauto.
Qed.

(** The repository admits the storage that the plan needs, in the state in which the
    execution found it, and gave out a lease for it. *)
Definition storage_leased (plan : FetchPlan) (quota : QuotaEvidence) (s1 s2 : Process P) (lease : nat) : Prop :=
  on_world (acquire_admission (ic_repository self) (fp_storage_request plan) quota) s1 = (s2, Ok lease)
  /\ pr_provider s2 = pr_provider s1 /\ fs (pr_world s2) = fs (pr_world s1)
  /\ exists decision, repository_admission (ic_repository self) (fp_storage_request plan) quota (fs (pr_world s1)) = Ok decision
       /\ admitted decision = true.

(** The fetches of a plan under a lease and a credential, and their result. *)
Definition run_leased (plan : FetchPlan) (resume : bool) (credential : option pystr) (lease : nat) : M (Process P) FetchResult :=
  results <~ (fun s =>
    match with_lease lease
            (run_batches self env (length (fp_objects plan)) plan lease credential resume (fp_objects plan)) s with
    | (s, Err (Exn (StorageError _) _)) => (s, fetch_error FE_IO_FAILURE "storage operation failed")
    | r => r
    end) ;;
  stop <~ poll_shutdown env ;;
  st_lift (assemble_result plan results stop).

(** The end of an execution that fetched nothing: since the planning, the provider was not
    called and no file changed, and it raises. *)
Definition refused (plan : FetchPlan) (quota : QuotaEvidence) (s s' : Process P) (r : res FetchResult) : Prop :=
  let s1 := (plan_fetch self env (fp_request plan) quota s).1 in
  pr_provider s' = pr_provider s1 /\ fs (pr_world s') = fs (pr_world s1) /\ exists e, r = Err e.

Lemma acquire_lock_same (w : W) : fs (acquire_lock w).1 = fs w.
Proof.
  unfold acquire_lock. destruct (lookup_node _ _) as [n|e]; [|by destruct (caught_by e _)].
  destruct n; try done; destruct (node_status _ _) as [st|]; try done; destruct (_ || _); try done; by destruct (lock_owner w).
Qed.

Lemma acquire_admission_cases repo request quota (w w' : W) r :
  acquire_admission repo request quota w = (w', r) ->
  fs w' = fs w /\ forall lease, r = Ok lease ->
    exists decision, repository_admission repo request quota (fs w) = Ok decision /\ admitted decision = true.
Proof.
  unfold acquire_admission, st_bind at 1. pose proof (acquire_lock_same w) as Ef.
  destruct (acquire_lock w) as [w1 [d|e]] eqn:E; cbn [fst] in Ef.
  - rewrite Ef.
    assert (forall w, fs (release_lock d w).1 = fs w) as Hrel by (intros w2; unfold release_lock; cbn; by case_bool_decide).
    specialize (Hrel w1). destruct (repository_admission _ _ _ _) as [decision|e].
    + destruct (admitted decision) eqn:Ea; cbn [negb].
      * intros [= <- <-]. split; [done|]. eauto.
      * unfold st_bind. destruct (release_lock d w1) as [w2 [[]|e]]; intros [= <- <-]; cbn in Hrel; split; congruence || done.
    + unfold st_bind. destruct (release_lock d w1) as [w2 [[]|e2]]; intros [= <- <-]; cbn in Hrel; split; congruence || done.
  - intros [= <- <-]. done.
Qed.

Lemma execute_cases plan quota resume s s' r :
  fr_execute (fp_request plan) = true -> execute self env plan quota resume s = (s', r) ->
  (exists s1 current credential s2 lease, plan_fetch self env (fp_request plan) quota s = (s1, Ok current)
     /\ authorized plan current (pr_provider s1) credential /\ storage_leased plan quota s1 s2 lease
     /\ run_leased plan resume credential lease s2 = (s', r))
  \/ refused plan quota s s' r.
Proof.
  intros He. unfold execute. rewrite He. cbn [negb]. unfold st_bind at 1, refused. cbv zeta.
  destruct (plan_fetch self env (fp_request plan) quota s) as [s1 [current|e]]; [|intros [= <- <-]; right; eauto].
  cbn [fst]. unfold st_bind at 1. destruct (authorize_execution self env plan current s1) as [s2 [credential|e]] eqn:E.
  2:{ intros [= <- <-]. right. unfold authorize_execution, st_bind, st_get, st_lift in E. injection E as <- _. eauto. }
  apply authorize_ok in E as [-> Ha]. unfold st_bind at 1. unfold st_bind at 1.
  destruct (on_world (acquire_admission _ _ _) s1) as [s2 a] eqn:Eq.
  assert (pr_provider s2 = pr_provider s1 /\ fs (pr_world s2) = fs (pr_world s1) /\ forall lease, a = Ok lease ->
            exists decision, repository_admission (ic_repository self) (fp_storage_request plan) quota (fs (pr_world s1)) = Ok decision
              /\ admitted decision = true) as (Hp & Hf & Had).
  { unfold on_world in Eq. destruct (acquire_admission _ _ _ (pr_world s1)) as [w2 a'] eqn:Ew. injection Eq as <- <-.
    split; [done|]. by apply acquire_admission_cases in Ew. }
  destruct a as [lease|[cls msg]].
  - intros H. left. exists s1, current, credential, s2, lease. split_and!; [done | done | split_and!; eauto|].
    rewrite <- H. reflexivity.
  - intros H. right. destruct cls; injection H as <- <-; split_and!; eauto.
Qed.
End authorization.

(** ** Properties *)

(** C23: an execution tells the truth.  Whatever the provider answers, wherever input/output
    fails and in whatever order the workers of a batch run, an execution changes no
    published file and leaves the tree well formed; and every object it reports as
    completed or already present is an object of the plan whose bytes, with the expected
    digest and size, and whose manifest are in the repository at the end; completed bytes
    were validated by the provider; quarantined bytes are where the report says. *)
Theorem execution_sound `{!DataProvider P} self env plan quota resume (s s' : Process P) r :
  wf (fs (pr_world s)) -> sizes_known (fp_objects plan) -> execute self env plan quota resume s = (s', r) ->
  wf (fs (pr_world s')) /\ keeps published (fs (pr_world s)) (fs (pr_world s'))
  /\ forall result, r = Ok result -> reported (P := P) self plan result (fs (pr_world s')).
Proof.
  intros Hwf Hs E. destruct (execute_triple self env plan quota resume Hs s Hwf I) as (H1 & H2 & H3). rewrite E in *. done.
Qed.

(** An execution gives the storage lock back.  When leases and lock agree at the start,
    they do at the end, and the lock has the owner it had: an execution that ran, failed or
    was refused leaves no lease behind. *)
Theorem execution_releases_lock `{!DataProvider P} self env plan quota resume (s s' : Process P) r :
  fenced (pr_world s) -> execute self env plan quota resume s = (s', r) ->
  lock_restored (pr_world s) (pr_world s') /\ (lock_owner (pr_world s) = None -> idle (pr_world s')).
Proof.
  intros Hf E. destruct (execute_relocks self env plan quota resume s Hf) as [H1 H2]. rewrite E in *. cbn [fst] in *.
  split; [done|]. intros Hn. apply owner_none_idle; congruence.
Qed.

(** C27: nothing is fetched without authorization.  A dry run changes nothing and reports
    nothing.  Otherwise, either the plan is the one of the provider's metadata, the provider
    is healthy, the entitlement permits the execution now, the plan had been admitted, the
    repository admits its storage now and gave a lease for it, the credential is the one the
    configured source returned, and the rest of the execution runs under that lease with
    that credential; or the execution raises, and since the planning it has neither called
    the provider nor changed a file. *)
Theorem execution_authorized `{!DataProvider P} self env plan quota resume (s s' : Process P) r :
  execute self env plan quota resume s = (s', r) ->
  if fr_execute (fp_request plan)
  then (exists s1 current credential s2 lease, plan_fetch self env (fp_request plan) quota s = (s1, Ok current)
          /\ authorized self env plan current (pr_provider s1) credential /\ storage_leased self plan quota s1 s2 lease
          /\ run_leased self env plan resume credential lease s2 = (s', r))
       \/ refused self env plan quota s s' r
  else s' = s /\ forall result, r = Ok result -> ft_status result = PLANNED /\ ft_objects result = [].
Proof.
  intros E. destruct (fr_execute (fp_request plan)) eqn:He; [by eapply execute_cases|].
  unfold execute in E. rewrite He in E. cbn [negb] in E. unfold st_bind, st_lift, st_ret in E.
  destruct (plan_id plan); injection E as <- <-; (split; [done|]); [|done]. by intros result [= <-].
Qed.

(** C25: downloads end.  For an object of known size, the loop makes at most one iteration
    per missing byte, so that any fuel from their number on gives the same run; and a
    download that returns made at most [maximum_attempts] requests per missing byte and
    received no more than the object. *)
Theorem download_bounded `{!DataProvider P} self env plan src object lease credential d (s s' : Process P) fuel a :
  0 <= dl_offset d <= so_estimated_size_bytes src -> missing_bytes src d <= Z.of_nat fuel ->
  (forall more, (fuel <= more)%nat ->
     download self env more plan src object lease credential d s = download self env fuel plan src object lease credential d s)
  /\ (download self env fuel plan src object lease credential d s = (s', Ok a) -> within self src d a).
Proof.
  intros Hd Hf. split; [|by apply download_within]. intros more Hm. apply download_fuel; lia.
Qed.


(** ** Witnesses *)

Definition mock_object : SourceObject := Eval vm_compute in
  match mock_source (scripted []) mock_item with
  | Ok s => s
  | Err _ => {| so_provider_id := []; so_dataset_id := []; so_source_version := []; so_locator := []; so_version_id := [];
                so_coverage_date := Date 1 1 1; so_tickers := []; so_estimated_size_bytes := 0; so_expected_sha256 := None;
                so_record_count := 0; so_schema_name := []; so_schema_version := []; so_content_format := [];
                so_times := mock_times; so_resume_mode := VERIFIED_RANGE; so_lineage := no_lineage |}
  end.
Definition mock_plan_of (objects : list SourceObject) : FetchPlan :=
  let needs := {| operation_id := str "fetch-1"; output_bytes := Some 4099; rq_temporary_bytes := 65539;
                  retry_overhead_bytes := 0 |} in
  {| fp_request := mock_request; fp_objects := objects; fp_duplicate_object_count := 0; fp_total_estimated_bytes := 3;
     fp_storage_request := needs;
     fp_admission := {| admitted := true; reasons := []; ad_request := needs; ad_usage := sample_usage;
                        ad_quota := sample_quota; effective_quota_limit_bytes := None; projected_root_peak_bytes := None;
                        projected_temporary_peak_bytes := None; projected_quota_used_bytes := None;
                        projected_filesystem_free_bytes := None; ad_policy_sha256 := [] |};
     fp_rate_limit := default_rate_limit; fp_retry := default_retry; fp_provider_health := HEALTHY;
     fp_entitlement := mock_entitlement |}.

Lemma fresh_wf : wf (fs fresh_world).
Proof. apply wfb_wf. vm_compute. reflexivity. Qed.

Lemma fresh_fenced : fenced fresh_world.
Proof. constructor; cbn; [done | by intros l l' (x & Hx & _) | done | lia]. Qed.

Lemma mock_sizes : sizes_known (fp_objects (mock_plan_of [mock_object])).
Proof. repeat apply Forall_cons_2; [vm_compute; discriminate | apply Forall_nil_2]. Qed.

Lemma execution_sound_witness :
  let s := process_of fresh_world (scripted [MF_TIMEOUT]) in
  let plan := mock_plan_of [mock_object] in
  let run := execute mock_coordinator (mock_environment never) plan sample_quota true s in
  wf (fs (pr_world run.1)) /\ keeps published (fs (pr_world s)) (fs (pr_world run.1))
  /\ forall result, run.2 = Ok result ->
       reported (P := DeterministicMockHttpS3Provider) mock_coordinator plan result (fs (pr_world run.1)).
Proof.
  intros s plan run. exact (execution_sound mock_coordinator (mock_environment never) plan sample_quota true s run.1 run.2
    fresh_wf mock_sizes (surjective_pairing run)).
Defined.

Lemma execution_releases_lock_witness :
  let s := process_of fresh_world (scripted [MF_TIMEOUT]) in
  let run := execute mock_coordinator (mock_environment never) (mock_plan_of [mock_object]) sample_quota true s in
  fenced (pr_world run.1) /\ idle (pr_world run.1).
Proof.
  intros s run. destruct (execution_releases_lock mock_coordinator (mock_environment never) (mock_plan_of [mock_object])
    sample_quota true s run.1 run.2 fresh_fenced (surjective_pairing run)) as ((H1 & _) & H2).
  split; [exact H1 | exact (H2 eq_refl)].
Defined.

(** An execution of the plan that the planning gives is authorized; it is then asked to stop. *)
Definition mock_process : Process DeterministicMockHttpS3Provider := process_of fresh_world (scripted []).
Definition planned : FetchPlan :=
  match (plan_fetch mock_coordinator (mock_environment (fun _ => true)) mock_request sample_quota mock_process).2 with
  | Ok plan => plan
  | Err _ => mock_plan_of []
  end.
Definition succeeds {A} (r : res A) : bool := match r with Ok _ => true | Err _ => false end.

Lemma execution_authorized_witness :
  exists s1 current credential s2 lease,
    authorized mock_coordinator (mock_environment (fun _ => true)) planned current (pr_provider s1) credential
    /\ storage_leased mock_coordinator planned sample_quota s1 s2 lease.
Proof.
  assert (Hr : succeeds (execute mock_coordinator (mock_environment (fun _ => true)) planned sample_quota true mock_process).2
               = true) by (vm_compute; reflexivity).
  assert (He : fr_execute (fp_request planned) = true) by (vm_compute; reflexivity).
  destruct (execute mock_coordinator (mock_environment (fun _ => true)) planned sample_quota true mock_process) as [s' r] eqn:E.
  pose proof (execution_authorized mock_coordinator (mock_environment (fun _ => true)) planned sample_quota true mock_process
    s' r E) as H. rewrite He in H.
  destruct H as [(s1 & current & credential & s2 & lease & _ & Ha & Hl & _) | (_ & _ & e & H)].
  - exists s1, current, credential, s2, lease. exact (conj Ha Hl).
  - rewrite H in Hr. discriminate Hr.
Defined.

Definition nothing_received : Download :=
  {| dl_payload := []; dl_attempts := 0; dl_sequence := 0; dl_delays := []; dl_accessed := false |}.

Lemma download_bounded_witness :
  let s := process_of fresh_world (scripted [MF_NONRETRYABLE]) in
  exists r, (download mock_coordinator (mock_environment never) 3 (mock_plan_of []) mock_object (str "object") 0 None
               nothing_received s).2 = Ok (inl r)
    /\ within mock_coordinator mock_object nothing_received (inl r).
Proof.
  intros s. set (run := download mock_coordinator (mock_environment never) 3 (mock_plan_of []) mock_object (str "object") 0 None
    nothing_received s).
  assert (Hr : exists r, run.2 = Ok (inl r)) by (eexists; vm_compute; reflexivity). destruct Hr as [r Hr].
  exists r. split; [exact Hr|].
  assert (Hd : 0 <= dl_offset nothing_received <= so_estimated_size_bytes mock_object) by (vm_compute; split; discriminate).
  assert (Hf : missing_bytes mock_object nothing_received <= Z.of_nat 3) by (vm_compute; discriminate).
  assert (E : run = (run.1, Ok (inl r))) by (rewrite <- Hr; apply surjective_pairing).
  exact (proj2 (download_bounded mock_coordinator (mock_environment never) (mock_plan_of []) mock_object (str "object") 0 None
    nothing_received s run.1 3 (inl r) Hd Hf) E).
Defined.

(** A shutdown is requested before the first byte. *)
Definition stopped_run : Process DeterministicMockHttpS3Provider * res (ObjectFetchResult * bool) :=
  fetch_one mock_coordinator (mock_environment (fun _ => true)) (mock_plan_of []) mock_object 0 None false
    (process_of fresh_world (scripted [])).
Definition reports (status : FetchStatus) (r : res (ObjectFetchResult * bool)) : bool :=
  match r with Ok (r, _) => bool_decide (of_status r = status) | Err _ => false end.
Definition mock_object_id : pystr := Eval vm_compute in match object_id mock_object with Ok o => o | Err _ => [] end.

