(* ===== verification/CoordinatorLiveness.v ===== *)
(** * Downloads succeed

    When a provider serves an object faithfully, input/output does not fail and no shutdown
    is requested, the fetch of that object into a repository that has room for its names
    completes: every chunk is accepted, every checkpoint is saved, the bytes are published
    under their digest and the manifest beside them. *)

From S2P Require Import Prelude PyText Json Sha256 PyDateTime ReferenceDocuments Storage Manifests FileSystem Repository.
From S2P Require Import RepositoryHistory RepositoryInventory RepositoryPublication RepositoryVerify Ingestion Coordinator.
From S2P Require Import IngestionProviders CoordinatorSafety CoordinatorExecution.

Open Scope Z_scope.

(** ** Steps without failures *)

(** Names outside [T] keep their nodes. *)
Definition frame (T : path -> Prop) (f f' : filesystem) : Prop := forall q, ~ T q -> nodes f' !! q = nodes f !! q.

#[export] Instance frame_preorder T : PreOrder (frame T).
Proof. split; [by intros f q | intros f g h H1 H2 q Hq; rewrite H2, H1 by done; done]. Qed.

Lemma frame_more (T U : path -> Prop) f f' : (forall q, T q -> U q) -> frame T f f' -> frame U f f'.
Proof. intros H Hf q Hq. apply Hf. auto. Qed.

Lemma set_faults_same (w : W) : faults w = [] -> set_faults [] w = w.
Proof. destruct w. cbn. by intros ->. Qed.

Lemma quiet_fsync (w : W) : faults w = [] -> sys_fsync w = (w, Ok tt).
Proof. intros H. unfold sys_fsync, sys. by rewrite H. Qed.

Lemma quiet_append_staged p b data (w : W) :
  wf (fs w) -> faults w = [] -> holds (fs w) p b ->
  exists f', append_staged p data w = (set_fs f' w, Ok tt) /\ wf f' /\ holds f' p (b ++ data)
    /\ nodes f' = nodes (fs w) /\ untouched (eq p) (fs w) f'.
Proof.
  intros Hwf Hq Hh. pose proof Hh as (i & x & Hn & Hx & _ & _).
  assert (append_staged p data w = (set_fs (update_inode i (fun x => set_bytes (blocks_of w) (ino_bytes x ++ take (length data) data) x)
                                              (fs w)) w, Ok tt)) as E.
  { unfold append_staged. erewrite st_bind_ok; [|unfold sys_open_append; apply change_quiet; [done|];
      rewrite (proj2 (lookup_node_ok _ p _ Hwf) Hn); reflexivity]. rewrite set_fs_idem.
    erewrite st_bind_ok; [|unfold sys_append; rewrite Hq; reflexivity].
    rewrite set_faults_same by done. by apply quiet_fsync. }
  destruct (append_staged_spec p data w b Hwf Hh) as (H1 & H2 & H3). rewrite E in *. cbn [fst snd fs set_fs] in *.
  eexists. split_and!; [reflexivity | done | by apply H3 | done | done].
Qed.

Lemma quiet_rewrite p d (w : W) :
  wf (fs w) -> faults w = [] -> p <> [] -> nodes (fs w) !! parent_of p = Some (Directory d) -> nodes (fs w) !! p = None ->
  exists f', rewrite_staged p w = (set_fs f' w, Ok tt) /\ wf f' /\ holds f' p [] /\ frame (eq p) (fs w) f'.
Proof.
  intros Hwf Hq Hp Hd Hn. pose proof (free_name_ok _ _ _ Hwf Hp Hd Hn) as Hf. apply rbind_ok in Hf as ([] & Ha & _).
  assert (rewrite_staged p w = (set_fs (set_node p (Regular (next_ino (fs w)))
    (new_inode {| ino_bytes := []; ino_nlink := 1; ino_device := parent_device (fs w) p; ino_blocks := 0 |} (fs w))) w, Ok tt)) as E.
  { unfold rewrite_staged. erewrite st_bind_ok; [|unfold sys_open_truncate; apply change_quiet; [done|]; rewrite Ha, Hn; reflexivity].
    by apply quiet_fsync. }
  destruct (rewrite_staged_spec p w Hwf Hp (or_introl Hn)) as (H1 & H2 & H3). rewrite E in *. cbn [fst snd fs set_fs] in *.
  eexists. split_and!; [reflexivity | done | by apply H3|]. intros q Hq'. cbn. by rewrite lookup_insert_ne.
Qed.

(** Moving a held file over a free name, or over another file. *)
Lemma quiet_replace source target b d (w : W) :
  wf (fs w) -> faults w = [] -> source <> target -> holds (fs w) source b -> target <> [] ->
  nodes (fs w) !! parent_of target = Some (Directory d) ->
  nodes (fs w) !! target = None \/ (exists b', holds (fs w) target b') ->
  exists f', sys_replace source target w = (set_fs f' w, Ok tt) /\ wf f' /\ nodes f' !! source = None
    /\ frame (fun q => q = source \/ q = target) (fs w) f'.
Proof.
  intros Hwf Hq Hne Hh Ht0 Hd Ht. pose proof Hh as (i & x & Hn & Hx & _ & Hl).
  assert (res_iter (enter (fs w)) (ancestors target) = Ok tt) as Ha.
  { apply path_snoc in Ht0 as (r & y & ->). rewrite parent_of_snoc in Hd. rewrite ancestors_snoc. apply res_iter_ok, Forall_app. split.
    - apply res_iter_ok with (u := tt). apply ancestors_entered; eauto.
    - apply Forall_singleton, enter_ok. eauto. }
  assert (exists f', sys_replace source target w = (set_fs f' w, Ok tt) /\ nodes f' = <[target := Regular i]> (delete source (nodes (fs w))))
    as (f' & E & Hf').
  { unfold sys_replace. destruct Ht as [Ht | (b' & j & y & Ht & Hy & _)].
    - eexists. split; [apply change_quiet; [done|]; rewrite (proj2 (lookup_node_ok _ source _ Hwf) Hn); cbn [rbind];
        rewrite Ha; cbn [rbind]; rewrite Ht; reflexivity | done].
    - assert (Regular i <> Regular j) as Hij by (intros [= <-]; apply Hne; by eapply (single_link (fs w) source target i x)).
      eexists. split; [apply change_quiet; [done|]; rewrite (proj2 (lookup_node_ok _ source _ Hwf) Hn); cbn [rbind];
        rewrite Ha; cbn [rbind]; rewrite Ht, bool_decide_eq_false_2 by done; reflexivity | done]. }
  destruct (replace_held source target w b Hwf Hne Hh) as (H1 & _ & _). rewrite E in H1. cbn [fst fs set_fs] in H1.
  exists f'. split_and!; [done | done | |].
  - rewrite Hf', lookup_insert_ne by done. apply lookup_delete_eq.
  - intros q Hq'. rewrite Hf', lookup_insert_ne, lookup_delete_ne; [done | |]; intros ->; apply Hq'; auto.
Qed.

Lemma quiet_save object c b d (w : W) :
  wf (fs w) -> faults w = [] -> nodes (fs w) !! parent_of (checkpoint_path object) = Some (Directory d) ->
  nodes (fs w) !! checkpoint_new_path object = None ->
  nodes (fs w) !! checkpoint_path object = None \/ (exists b', holds (fs w) (checkpoint_path object) b') ->
  encode_checkpoint c = Ok b ->
  exists f', save_checkpoint object c w = (set_fs f' w, Ok tt) /\ wf f' /\ nodes f' !! checkpoint_new_path object = None
    /\ holds f' (checkpoint_path object) b /\ frame (checkpoint_names object) (fs w) f'
    /\ untouched (checkpoint_names object) (fs w) f'.
Proof.
  intros Hwf Hq Hd Hn Ht He. set (new := checkpoint_new_path object) in *. set (p := checkpoint_path object) in *.
  assert (parent_of new = parent_of p) as Hpar by done.
  assert (exists f', save_checkpoint object c w = (set_fs f' w, Ok tt) /\ nodes f' !! new = None
            /\ frame (checkpoint_names object) (fs w) f') as (f' & E & Hn' & Hf').
  { unfold save_checkpoint. fold new p. unfold st_bind at 1, look at 1.
    rewrite (present_parent (fs w) new d) by (done || by rewrite Hpar).
    destruct (quiet_create new b w d) as (f1 & Hc & Hwf1 & Hh1 & Hnodes & Hino); [done | done | done | by rewrite Hpar | done|].
    unfold create_exclusive_file, st_bind in Hc. unfold st_bind at 1.
    destruct (sys_create new w) as [w1 [i|e1]]; [|done]. rewrite He, quiet_lift. unfold st_bind at 1.
    destruct (sys_append i b w1) as [w2 [[]|e2]]; [|done]. rewrite (st_bind_ok _ _ _ _ _ Hc).
    assert (frame (eq new) (fs w) f1) as Hf1 by (intros q Hq'; by rewrite Hnodes, lookup_insert_ne).
    assert (p <> new) as Hpn by (intros E; by apply (checkpoint_paths_differ object)).
    assert (nodes f1 !! parent_of p = Some (Directory d)) as Hd1 by (rewrite Hf1; [done|]; intros E; rewrite <- E in Hd; congruence).
    destruct (quiet_replace new p b d (set_fs f1 w)) as (f2 & Hr & Hwf2 & Hn2 & Hf2); [done | done | done | done | done | done | |].
    - cbn [fs set_fs]. destruct Ht as [Ht | (b' & j & y & Ht & Hy & Hb & Hl)].
      + left. by rewrite Hf1.
      + right. exists b', j, y. rewrite Hf1 by done. split_and!; try done. rewrite Hino; [done|]. intros ->.
        by apply (fresh_unreferenced (fs w) p).
    - rewrite (st_bind_ok _ _ _ _ _ Hr). exists f2. cbn [fs set_fs] in Hf2.
      split; [|split; [done|]].
      + apply (quiet_sync _ _ d); [done | done|]. cbn [fs set_fs]. rewrite Hf2; [done|].
        intros [E | E]; [rewrite E in Hd1; rewrite Hnodes, lookup_insert_eq in Hd1; done | by vm_compute in E].
      + etrans; [eapply frame_more, Hf1; intros q <-; by left | exact Hf2]. }
  destruct (save_checkpoint_spec object c w _ _ Hwf E) as (H1 & H2 & H3). cbn [fs set_fs] in *.
  destruct (H3 eq_refl) as (b' & Hb' & Hh). assert (b' = b) as -> by congruence. exists f'. by split_and!.
Qed.

Lemma quiet_remove object i (w : W) :
  wf (fs w) -> faults w = [] -> nodes (fs w) !! checkpoint_path object = Some (Regular i) ->
  exists f', remove_checkpoint object w = (set_fs f' w, Ok tt) /\ wf f'.
Proof.
  intros Hwf Hq Hn. set (p := checkpoint_path object) in *. destruct (wf_parent _ Hwf p _ Hn) as [d Hd]; [done|].
  assert (wf (drop_name p (Regular i) (fs w))) as Hwf' by (by apply wf_drop_name).
  exists (drop_name p (Regular i) (fs w)). split; [|done]. unfold remove_checkpoint. fold p.
  unfold st_bind at 1, st_try. rewrite (st_bind_ok _ _ _ _ _ (quiet_unlink p w i Hwf Hq Hn)). cbn [st_ret].
  apply (quiet_sync _ _ d); [done | done|]. tree. rewrite lookup_delete_ne; [done|]. intros E. by vm_compute in E.
Qed.

(** ** Digests and paths *)

Lemma sha_digest_text b : sha256_hex b <> zero_digest -> digest_text (sha256_hex b).
Proof.
  intros Hz. unfold digest_text, is_sha256. pose proof (bytes_hex_hexc _ (sha256_range b)) as Hh.
  assert (length (sha256_hex b) = 64%nat) as Hl.
  { unfold sha256_hex. by rewrite length_bytes_hex, length_sha256. }
  rewrite Hl, bool_decide_eq_false_2 by done. rewrite andb_true_r. apply andb_true_iff. split; [done|].
  apply forallb_forall. intros c Hc%list_elem_of_In. unfold sha256_hex in Hc. rewrite Forall_forall in Hh. apply Hh in Hc.
  unfold hexc, is_hex_digit, is_digit in *. lia.
Qed.

Lemma split_join parts : parts <> [] -> Forall (fun p => 47 ∉ p) parts -> split_char 47 (join 47 parts) = parts.
Proof.
  induction parts as [|p parts IH]; [done|]. intros _ Hp. apply Forall_cons in Hp as [Hp Hps].
  assert (forall t ws, 47 ∉ p -> split_char 47 t = ws -> split_char 47 (p ++ 47 :: t) = p :: ws) as Hsep.
  { clear. intros t ws. induction p as [|c p IH]; cbn [app split_char]; intros Hp H; [by rewrite H|].
    rewrite not_elem_of_cons in Hp. destruct Hp as [Hc Hp]. rewrite (proj2 (Z.eqb_neq c 47)) by congruence. by rewrite IH. }
  destruct parts as [|q parts].
  - cbn [join]. clear -Hp. induction p as [|c p IH]; [done|]. rewrite not_elem_of_cons in Hp. destruct Hp as [Hc Hp].
    cbn [split_char]. rewrite (proj2 (Z.eqb_neq c 47)) by congruence. by rewrite IH.
  - rewrite join_cons. apply Hsep; [done|]. by apply IH.
Qed.

(** A path of plain components is what its text names. *)
Definition plain_part (p : pystr) : Prop := p <> [] /\ p <> [46] /\ p <> str ".." /\ Forall (fun c => 0 < c < 128 /\ c <> 47 /\ c <> 92) p.

Lemma plain_relative area rest areas :
  area ∈ areas -> Forall plain_part (area :: rest) -> Z.of_nat (length (join 47 (area :: rest))) <= MAX_PATH_BYTES ->
  validate_relative_path (posix (area :: rest)) (Some areas) = Ok (area :: rest).
Proof.
  intros Ha Hp Hl. unfold posix. set (text := join 47 (area :: rest)) in *.
  assert (Forall (fun c => 0 < c < 128 /\ c <> 92) text) as Ht.
  { unfold text. clear -Hp. induction Hp as [|p l (_ & _ & _ & Hp) Hl IH]; [done|].
    assert (Forall (fun c => 0 < c < 128 /\ c <> 92) p) as Hp' by (eapply Forall_impl; [exact Hp|]; cbv beta; intros c; lia).
    destruct l as [|q l]; [done|]. rewrite join_cons. apply Forall_app_2; [done|]. apply Forall_cons_2; [lia | done]. }
  assert (path_parts text = area :: rest) as Hparts.
  { unfold path_parts, text. rewrite split_join; [|done|].
    - clear -Hp. induction Hp as [|p l (H1 & H2 & _) Hl IH]; [done|]. cbn [List.filter].
      rewrite !bool_decide_eq_false_2 by done. cbn [negb andb]. by rewrite IH.
    - eapply Forall_impl; [exact Hp|]. intros p (_ & _ & _ & H) Hin. rewrite Forall_forall in H. apply H in Hin. lia. }
  assert (text <> []) as Hne by (intros E; rewrite E in Hparts; done).
  assert (forall k, k <> 92 \/ k = 92 -> k = 0 \/ k = 92 -> existsb (Z.eqb k) text = false) as Hex.
  { intros k _ Hk. apply not_true_is_false. intros (c & Hc & E)%existsb_exists. apply list_elem_of_In in Hc.
    rewrite Forall_forall in Ht. apply Ht in Hc. lia. }
  unfold validate_relative_path. rewrite bool_decide_eq_false_2 by done. rewrite !Hex by lia. cbn [orb].
  rewrite utf8_encode_ascii by (eapply Forall_impl; [exact Ht|]; cbv beta; intros c; lia). cbn [rbind].
  rewrite (proj2 (Z.ltb_ge _ _)) by done. rewrite Hparts.
  assert (is_absolute text = false) as ->.
  { destruct Hp as [|p l (Hp0 & _ & _ & Hp) _]; [done|]. destruct p as [|c p]; [done|].
    apply Forall_cons in Hp as [Hc _]. unfold text. destruct l; cbn; apply Z.eqb_neq; lia. }
  assert (existsb (fun p => bool_decide (p = str "..")) (area :: rest) = false) as ->.
  { apply not_true_is_false. intros (p & Hin & E%bool_decide_eq_true)%existsb_exists. apply list_elem_of_In in Hin.
    rewrite Forall_forall in Hp. apply Hp in Hin as (_ & _ & H & _). done. }
  cbn [orb storage_when raise_when rbind]. rewrite bool_decide_eq_true_2 by done. done.
Qed.

Lemma staged_relative object d :
  object = str "object-" ++ d -> Forall hexc d -> length d = 64%nat ->
  validate_relative_path (posix (staged_path object)) (Some [str "tmp"]) = Ok (staged_path object).
Proof.
  intros -> Hd Hl. apply plain_relative; [apply list_elem_of_here| |].
  - assert (forall p, bool_decide (Forall (fun c => 0 < c < 128 /\ c <> 47 /\ c <> 92) p) = true -> p <> [] -> p <> [46] ->
      p <> str ".." -> plain_part p) as Hstr by (intros p Hp%bool_decide_eq_true ? ? ?; by split_and!).
    repeat apply Forall_cons_2; [by apply Hstr; vm_compute | by apply Hstr; vm_compute | | apply Forall_nil_2].
    split_and!; try done. apply Forall_app_2; [|apply (bool_decide_unpack _); by vm_compute].
    apply Forall_app_2; [apply (bool_decide_unpack _); by vm_compute|].
    eapply Forall_impl; [exact Hd|]. unfold hexc. cbv beta. intros c. lia.
  - unfold staged_path. rewrite !join_cons. cbn [join]. rewrite !length_app. cbn [length]. rewrite !length_app. cbn [length].
    rewrite !length_app, Hl. by vm_compute.
Qed.

(** ** Faithful providers *)

(** The chunk of [payload] at an offset. *)
Definition chunk_at (plan : FetchPlan) (src : SourceObject) (payload : pybytes) (offset : Z) : ProviderChunk :=
  let body := byte_range payload offset (fr_chunk_bytes (fp_request plan)) in
  {| pc_offset := offset; pc_data := body; pc_total_size_bytes := Z.of_nat (length payload);
     pc_version_id := so_version_id src;
     pc_complete := offset + Z.of_nat (length body) =? Z.of_nat (length payload) |}.

(** In the states of [inv] a provider answers every range of [src] with the bytes of
    [payload], and accepts the whole. *)
Record serves {P} `{!DataProvider P} (plan : FetchPlan) (src : SourceObject) (payload : pybytes) (credential : option pystr)
    (inv : P -> Prop) : Prop := {
  serve_range : forall p offset, inv p -> 0 <= offset < Z.of_nat (length payload) ->
    exists p', fetch_range src offset (fr_chunk_bytes (fp_request plan)) (fr_request_timeout_ns (fp_request plan)) credential p
               = (p', Ok (chunk_at plan src payload offset)) /\ inv p';
  serve_valid : forall p, inv p -> exists p', validate_payload src payload p = (p', Ok (so_record_count src)) /\ inv p';
}.

(** An object that can be checkpointed and described: valid metadata of the bytes, a plan
    with an identity, and no digest that the contract takes for missing. *)
Record fetchable (plan : FetchPlan) (src : SourceObject) (payload : pybytes) (object : pystr) : Prop := {
  fb_source : SourceObject_post_init src = Ok tt;
  fb_size : so_estimated_size_bytes src = Z.of_nat (length payload);
  fb_room : so_estimated_size_bytes src <= fr_maximum_object_bytes (fp_request plan);
  fb_chunk : 1 <= fr_chunk_bytes (fp_request plan);
  fb_request : is_identifier (fr_request_id (fp_request plan)) = true;
  fb_plan : exists identity, plan_id plan = Ok identity /\ identity <> zero_digest;
  fb_object : object_id src = Ok object /\ object <> str "object-" ++ zero_digest;
  fb_locator : forall b, utf8_encode (so_locator src) = Ok b -> sha256_hex b <> zero_digest;
  fb_prefix : forall b, b `prefix_of` payload -> sha256_hex b <> zero_digest;
  fb_expected : forall e, so_expected_sha256 src = Some e -> e = sha256_hex payload;
}.

Lemma canonical_digest_sha v d : canonical_digest v = Ok d -> exists b, d = sha256_hex b.
Proof. unfold canonical_digest. intros (b & _ & [= <-])%rbind_ok. eauto. Qed.

Section fetchable.
Variable plan : FetchPlan.
Variable src : SourceObject.
Variable payload : pybytes.
Variable object : pystr.
Hypothesis Hfetch : fetchable plan src payload object.

Lemma object_shape : exists d, object = str "object-" ++ d /\ digest_text d.
Proof.
  destruct (fb_object _ _ _ _ Hfetch) as [H Hz]. unfold object_id in H. apply rbind_ok in H as (d & Hd & [= <-]).
  exists d. split; [done|]. apply canonical_digest_sha in Hd as [b ->]. apply sha_digest_text. intros E. rewrite E in Hz. done.
Qed.

Lemma source_facts :
  is_identifier (so_provider_id src) = true /\ is_identifier (so_dataset_id src) = true
  /\ (exists b, utf8_encode (so_locator src) = Ok b)
  /\ (so_version_id src <> [] /\ exists b, utf8_encode (so_version_id src) = Ok b /\ Z.of_nat (length b) <= MAX_METADATA_TEXT_BYTES)
  /\ 1 <= so_estimated_size_bytes src <= MAX_BYTES.
Proof.
  pose proof (fb_source _ _ _ _ Hfetch) as H. unfold SourceObject_post_init in H.
  apply rbind_ok in H as ([] & H1%require_identifier_ok & H). apply rbind_ok in H as ([] & H2%require_identifier_ok & H).
  apply rbind_ok in H as ([] & H3 & H). apply rbind_ok in H as ([] & H4%res_iter_ok & H).
  do 2 (apply rbind_ok in H as ([] & _ & H)). apply rbind_ok in H as ([] & H5%positive_count_ok & _).
  split_and!; try done; try lia.
  - unfold safe_locator in H3. destruct (utf8_encode (so_locator src)) as [b|e] eqn:E; [eauto|].
    exfalso. repeat case_match; done.
  - apply Forall_cons in H4 as [_ H4]. apply Forall_cons in H4 as [H4 _]. apply rbind_ok in H4 as (bad & Hb & Hbad%fetch_when_ok).
    unfold malformed_text in Hb. subst bad. case_match eqn:E; [done|]. apply orb_false_iff in E as [E _]. by bprop.
  - apply Forall_cons in H4 as [_ H4]. apply Forall_cons in H4 as [H4 _]. apply rbind_ok in H4 as (bad & Hb & Hbad%fetch_when_ok).
    unfold malformed_text in Hb. subst bad. case_match; [done|]. apply rbind_ok in Hb as (b & Hb & [= Hl]). exists b. split; [done | lia].
Qed.

(** Every prefix of the bytes has a checkpoint. *)
Lemma checkpoint_made prefix attempts sequence :
  prefix `prefix_of` payload -> counted attempts -> counted sequence ->
  exists c b, make_checkpoint plan src prefix attempts sequence = Ok c /\ encode_checkpoint c = Ok b.
Proof.
  intros Hp Ha Hs. destruct source_facts as (H1 & H2 & (locator & Hl) & H4 & H5). destruct object_shape as (d & Ho & Hd).
  destruct (fb_plan _ _ _ _ Hfetch) as (identity & Hi & Hz). pose proof (fb_size _ _ _ _ Hfetch) as Hsize.
  destruct (fb_object _ _ _ _ Hfetch) as [Hoid _].
  assert (digest_text identity) as Hid.
  { unfold plan_id in Hi. apply canonical_digest_sha in Hi as [b ->]. by apply sha_digest_text. }
  unfold make_checkpoint. rewrite Hi. cbn [rbind]. rewrite Hoid. cbn [rbind]. rewrite Hl. cbn [rbind].
  match goal with |- context [new_checkpoint ?x] => set (c := x) end.
  assert (checkpoint_ok c) as Hok.
  { apply prefix_length in Hp as Hlen. constructor; cbn; try done.
    - exact (fb_request _ _ _ _ Hfetch).
    - by exists d.
    - apply sha_digest_text. by apply (fb_locator _ _ _ _ Hfetch).
    - apply sha_digest_text. by apply (fb_prefix _ _ _ _ Hfetch).
    - unfold counted. lia.
    - lia. }
  destruct (encode_checkpoint_ok c Hok) as (b & Hb & _). exists c, b. split; [|done].
  apply checkpoint_of_members; [|done]. intros k v Hin. apply jget_elem; [|done]. unfold checkpoint_payload. nodup_keys.
Qed.

(** The chunk at the end of a proper prefix is accepted and is the next part. *)
Lemma next_chunk prefix :
  prefix `prefix_of` payload -> Z.of_nat (length prefix) < so_estimated_size_bytes src ->
  let chunk := chunk_at plan src payload (Z.of_nat (length prefix)) in
  validate_chunk plan src chunk (Z.of_nat (length prefix)) = None
  /\ (prefix ++ pc_data chunk) `prefix_of` payload.
Proof.
  intros [rest ->] Hlt chunk. pose proof (fb_size _ _ _ _ Hfetch) as Hsize. pose proof (fb_room _ _ _ _ Hfetch) as Hroom.
  pose proof (fb_chunk _ _ _ _ Hfetch) as Hchunk.
  assert (pc_data chunk = take (Z.to_nat (fr_chunk_bytes (fp_request plan))) rest) as Hdata.
  { cbn. unfold byte_range. rewrite Nat2Z.id, drop_app_length. done. }
  rewrite length_app in *. split.
  - unfold validate_chunk. cbn [pc_offset pc_version_id pc_total_size_bytes pc_complete chunk chunk_at].
    change (byte_range _ _ _) with (pc_data chunk). rewrite Hdata, Z.eqb_refl, bool_decide_eq_true_2 by done. cbn [negb].
    rewrite length_app, length_take.
    assert (rest <> []) as Hrest by (intros ->; cbn in *; lia).
    assert (take (Z.to_nat (fr_chunk_bytes (fp_request plan))) rest <> []) as Hne.
    { destruct rest; [done|]. destruct (Z.to_nat (fr_chunk_bytes (fp_request plan))) eqn:E; [lia | done]. }
    rewrite (bool_decide_eq_false_2 _ Hne), Bool.eqb_reflx. cbn [negb].
    assert (forall a b c : bool, a = false -> b = false -> c = false -> a || b || c = false) as Hor by (by intros [] [] []).
    rewrite Hor; [done | by apply negb_false_iff, Z.eqb_eq | by apply Z.ltb_ge; rewrite <- Hsize | apply Z.ltb_ge; lia].
  - rewrite Hdata. apply prefix_app. apply prefix_take.
Qed.
End fetchable.

(** ** Free paths *)

Lemma ready_prefix f q r :
  ready_for f q -> r `prefix_of` q -> nodes f !! r = None \/ exists d, nodes f !! r = Some (Directory d).
Proof.
  intros ([d Hd] & Hway & Hn) Hr. destruct (decide (r = [])) as [->|Hr0]; [right; eauto|].
  destruct (decide (r = q)) as [->|Hrq]; [by left|]. apply Hway; [|done].
  destruct (decide (q = [])) as [->|Hq]; [by apply prefix_nil_inv in Hr|]. apply path_snoc in Hq as (p & n & ->).
  rewrite parent_of_snoc. by apply prefix_snoc in Hr as [? | ?].
Qed.

Lemma lookup_ready f q :
  wf f -> ready_for f q -> lookup_node f q = raise FileNotFoundError "no such file or directory".
Proof.
  intros Hwf Hready. unfold lookup_node. destruct (enter_way f (ancestors q)) as [H | H].
  - apply Forall_forall. intros r Hr%prefix_ancestor. by eapply ready_prefix.
  - rewrite H. cbn [rbind]. destruct Hready as (_ & _ & ->). done.
  - by rewrite H.
Qed.

Lemma ready_absent f q : wf f -> ready_for f q -> exists_path f q = Ok false.
Proof. intros Hwf H. unfold exists_path. by rewrite (lookup_ready f q Hwf H). Qed.

Lemma ready_shorter f q r : ready_for f q -> r `prefix_of` q -> nodes f !! r = None -> ready_for f r.
Proof.
  intros Hq Hr Hn. pose proof Hq as (Hroot & _ & _). split_and!; [done | | done]. intros p Hp Hp0.
  eapply ready_prefix; [exact Hq|]. etrans; [exact Hp|]. etrans; [|exact Hr]. unfold parent_of. apply prefix_take.
Qed.

Lemma ready_safe f q : wf f -> ready_for f q -> assert_safe_path f q = Ok tt.
Proof.
  intros Hwf Hq. unfold assert_safe_path. apply res_iter_ok, Forall_forall. intros r Hr%steps_prefix.
  destruct (ready_prefix f q r Hq Hr) as [Hn | [d Hd]].
  - unfold present. rewrite (lookup_ready f r Hwf); [done | by eapply ready_shorter].
  - unfold present, lstat. rewrite (proj2 (lookup_node_ok f r _ Hwf) Hd). done.
Qed.

(** A path stays free when the names on the way to it stay as they are. *)
Lemma ready_same f f' q :
  ready_for f q -> (exists d, nodes f' !! [] = Some (Directory d)) ->
  (forall r, r `prefix_of` q -> r <> [] -> nodes f' !! r = nodes f !! r) -> q <> [] -> ready_for f' q.
Proof.
  intros (_ & Hway & Hn) Hroot Hsame Hq. split_and!; [done | | by rewrite Hsame].
  intros r Hr Hr0. rewrite Hsame; [by apply Hway | | done]. etrans; [exact Hr|]. apply prefix_take.
Qed.

(** Components of a path: its prefixes start with the same one. *)
Lemma prefix_head (r : path) a t : r `prefix_of` a :: t -> r <> [] -> exists t', r = a :: t'.
Proof. intros Hr Hne. destruct r as [|b r]; [done|]. apply prefix_cons_inv_1 in Hr as ->. eauto. Qed.

Lemma grows_same f f' p b t a s :
  grows p f f' -> p = b :: t -> a <> b -> forall r, r `prefix_of` a :: s -> r <> [] -> nodes f' !! r = nodes f !! r.
Proof.
  intros (_ & _ & Hsub & Hnew) -> Hab r Hr Hr0. destruct (nodes f !! r) as [n|] eqn:E; [by eapply lookup_weaken|].
  destruct (nodes f' !! r) as [n|] eqn:E'; [|done]. destruct (Hnew r n E' E) as [_ Hp].
  apply prefix_head in Hr as [r1 ->]; [|done]. apply prefix_cons_inv_1 in Hp. done.
Qed.

Lemma adds_same f f' p q b t c u a s :
  adds p q f f' -> p = b :: t -> q = c :: u -> u <> [] -> a <> b -> a <> c ->
  forall r, r `prefix_of` a :: s -> r <> [] -> nodes f' !! r = nodes f !! r.
Proof.
  intros [H1 H2] -> -> Hu Hab Hac r Hr Hr0. apply prefix_head in Hr as [r1 ->]; [|done].
  destruct (nodes f !! (a :: r1)) as [n|] eqn:E; [apply H1; congruence|]. apply H2; [congruence | | done].
  apply path_snoc in Hu as (v & y & ->). change (c :: v ++ [y]) with ((c :: v) ++ [y]). rewrite parent_of_snoc.
  intros Hp. apply prefix_cons_inv_1 in Hp. done.
Qed.

(** ** The loop *)

Section loop.
Context {P : Type} `{!DataProvider P}.
Variable self : IngestionCoordinator.
Variable env : Environment.
Variable plan : FetchPlan.
Variable src : SourceObject.
Variable payload : pybytes.
Variable object : pystr.
Variable credential : option pystr.
Variable inv : P -> Prop.
Variable w0 : W.

(** Nothing asks to stop, requests come no faster than the rate limit, and at least one
    attempt is allowed. *)
Record undisturbed : Prop := {
  un_stop : forall n, shutdown_requested env n = false;
  un_clock : forall n, monotonic_ns env n + minimum_interval_ns (ic_rate_limit self) <= monotonic_ns env (S n);
  un_wait : 0 <= maximum_wait_ns (ic_rate_limit self);
  un_retry : 1 <= maximum_attempts (ic_retry self);
}.

Hypothesis Hserve : serves plan src payload credential inv.
Hypothesis Hfetch : fetchable plan src payload object.
Hypothesis Hcalm : undisturbed.
Hypothesis Hquiet : faults w0 = [].

Definition in_step (s : Process P) : Prop := inv (pr_provider s) /\ pr_next_ns s <= monotonic_ns env (pr_clock s).

Definition download_names (q : path) : Prop := q = staged_path object \/ checkpoint_names object q.

(** The tree during the download [d], from the tree [f0] with the directories. *)
Record downloading (f0 : filesystem) (d : Download) (f : filesystem) : Prop := {
  dn_wf : wf f;
  dn_frame : frame download_names f0 f;
  dn_staged : holds f (staged_path object) (dl_payload d);
  dn_new : nodes f !! checkpoint_new_path object = None;
  dn_saved : exists b, holds f (checkpoint_path object) b;
  dn_prefix : dl_payload d `prefix_of` payload;
  dn_attempts : 0 <= dl_attempts d <= dl_offset d;
  dn_sequence : 0 <= dl_sequence d <= dl_offset d;
}.

Lemma parent_outside : ~ download_names (parent_of (checkpoint_path object)).
Proof. intros [H | [H | H]]; by vm_compute in H. Qed.

Lemma size_counted : Z.of_nat (length payload) <= MAX_BYTES.
Proof. destruct (source_facts plan src payload object Hfetch) as (_ & _ & _ & _ & H). rewrite (fb_size _ _ _ _ Hfetch) in H. lia. Qed.

Lemma acquire_in_step (s : Process P) :
  in_step s -> exists s', acquire self env s = (s', Ok tt) /\ pr_world s' = pr_world s /\ in_step s'.
Proof.
  intros [Hi Hn]. unfold acquire, rate_acquire. pose proof (un_wait Hcalm) as Hw. pose proof (un_clock Hcalm (pr_clock s)) as Hc.
  rewrite (Z.max_r (pr_next_ns s - monotonic_ns env (pr_clock s)) 0) by lia.
  assert (fetch_when (maximum_wait_ns (ic_rate_limit self) <? 0) RATE_LIMITED "rate-limit wait exceeds the configured bound" = Ok tt)
    as -> by (apply raise_when_false; lia).
  cbn [rbind Z.eqb]. eexists. split; [reflexivity|]. split; [done|]. split; [done|]. cbn. lia.
Qed.

Lemma attempt_in_step d f (s : Process P) :
  in_step s -> pr_world s = set_fs f w0 -> 0 <= dl_offset d < Z.of_nat (length payload) ->
  exists s' d', attempt_range self env (Z.to_nat (maximum_attempts (ic_retry self))) 1 plan src object credential d s
      = (s', Ok (d', inr (chunk_at plan src payload (dl_offset d))))
    /\ pr_world s' = set_fs f w0 /\ in_step s' /\ dl_payload d' = dl_payload d /\ dl_attempts d' = dl_attempts d + 1
    /\ dl_sequence d' = dl_sequence d.
Proof.
  intros Hs Hw Ho. pose proof (un_retry Hcalm) as Hr. destruct (Z.to_nat (maximum_attempts (ic_retry self))) as [|n] eqn:En; [lia|].
  cbn [attempt_range]. unfold st_bind at 1, request_range.
  destruct (acquire_in_step s Hs) as (s1 & -> & Hw1 & [Hi Hn]).
  destruct (serve_range _ _ _ _ _ Hserve (pr_provider s1) (dl_offset d) Hi Ho) as (p' & Hf & Hi'). unfold on_provider.
  cbn [dl_payload dl_offset] in *. change (dl_offset _) with (dl_offset d) at 1. rewrite Hf.
  eexists _, _. split; [reflexivity|]. split; [cbn; congruence|]. split; [by split | done].
Qed.

Lemma chunk_grows chunk d :
  validate_chunk plan src chunk (dl_offset d) = None ->
  Z.of_nat (length (dl_payload d ++ pc_data chunk)) = dl_offset d + Z.of_nat (length (pc_data chunk))
  /\ 0 < Z.of_nat (length (pc_data chunk)).
Proof.
  intros (_ & Hne & _)%validate_chunk_none. rewrite length_app. unfold dl_offset. destruct (pc_data chunk); [done|]. cbn [length]. lia.
Qed.

Lemma accept_in_step f0 dir d d2 f :
  nodes f0 !! parent_of (checkpoint_path object) = Some (Directory dir) -> downloading f0 d f ->
  dl_payload d2 = dl_payload d -> dl_attempts d2 = dl_attempts d + 1 -> dl_sequence d2 = dl_sequence d ->
  dl_offset d < so_estimated_size_bytes src ->
  exists f' d', accept_chunk plan src object (chunk_at plan src payload (dl_offset d)) d2 (set_fs f w0) = (set_fs f' w0, Ok d')
    /\ downloading f0 d' f' /\ dl_offset d < dl_offset d'.
Proof.
  intros Hdir [H1 H2 H3 H4 [b0 H5] H6 H7 H8] E1 E2 E3 Hlt. set (chunk := chunk_at plan src payload (dl_offset d)).
  destruct (next_chunk plan src payload object Hfetch (dl_payload d) H6 Hlt) as [Hv Hp]. fold (dl_offset d) in Hv, Hp. fold chunk in Hv, Hp.
  destruct (chunk_grows chunk d Hv) as [Hl Hpos]. pose proof (prefix_length _ _ Hp) as Hlen. pose proof size_counted as Hmax.
  destruct (quiet_append_staged (staged_path object) (dl_payload d) (pc_data chunk) (set_fs f w0) H1 Hquiet H3)
    as (f1 & Ea & Hwf1 & Hh1 & Hn1 & Hu1). cbn [fs set_fs] in Hn1, Hu1. change (set_fs f1 (set_fs f w0)) with (set_fs f1 w0) in Ea.
  set (d3 := {| dl_payload := dl_payload d2 ++ pc_data chunk; dl_attempts := dl_attempts d2; dl_sequence := dl_sequence d2 + 1;
                dl_delays := dl_delays d2; dl_accessed := dl_accessed d2 |}).
  destruct (checkpoint_made plan src payload object Hfetch (dl_payload d3) (dl_attempts d3) (dl_sequence d3)) as (c & b & Hc & Hb);
    [cbn; by rewrite E1 | unfold counted; cbn; lia | unfold counted; cbn; lia |].
  assert (holds f1 (checkpoint_path object) b0) as H5'.
  { eapply untouched_holds; [|exact Hu1 | exact H5]. intros E. by vm_compute in E. }
  destruct (quiet_save object c b dir (set_fs f1 w0)) as (f2 & Es & Hwf2 & Hnew2 & Hh2 & Hf2 & Hu2); [done | done | | | | done|].
  { cbn [fs set_fs]. rewrite Hn1, H2; [done | apply parent_outside]. }
  { cbn [fs set_fs]. by rewrite Hn1. }
  { right. by exists b0. }
  cbn [fs set_fs] in *. change (set_fs f2 (set_fs f1 w0)) with (set_fs f2 w0) in Es.
  exists f2, d3. split_and!.
  - unfold accept_chunk. rewrite (st_bind_ok _ _ _ _ _ Ea). fold d3. cbv zeta. rewrite Hc, quiet_lift.
    rewrite (st_bind_ok _ _ _ _ _ Es). done.
  - constructor; cbn [dl_payload dl_attempts dl_sequence d3]; unfold dl_offset; cbn [dl_payload d3]; rewrite ?E1, ?E2, ?E3; try lia; try done.
    + etrans; [exact H2|]. etrans; [|eapply frame_more, Hf2; intros q Hq; by right]. intros q _. by rewrite Hn1.
    + eapply untouched_holds; [apply staged_not_checkpoint | exact Hu2 | exact Hh1].
    + by exists b.
  - unfold dl_offset at 2. cbn [d3 dl_payload]. rewrite E1. lia.
Qed.

Lemma download_in_step f0 dir lease fuel : forall d f (s : Process P),
  nodes f0 !! parent_of (checkpoint_path object) = Some (Directory dir) -> downloading f0 d f ->
  in_step s -> pr_world s = set_fs f w0 -> missing_bytes src d <= Z.of_nat fuel ->
  exists s' f' d', download self env fuel plan src object lease credential d s = (s', Ok (inr d'))
    /\ pr_world s' = set_fs f' w0 /\ in_step s' /\ downloading f0 d' f' /\ dl_payload d' = payload.
Proof.
  induction fuel as [|fuel IH]; intros d f s Hdir Hd Hs Hw Hf; cbn [download];
    pose proof (prefix_length _ _ (dn_prefix _ _ _ Hd)) as Hlen; pose proof (fb_size _ _ _ _ Hfetch) as Hsize;
    destruct (dl_offset d <? so_estimated_size_bytes src) eqn:E; cbn [negb];
    assert (dl_offset d = Z.of_nat (length (dl_payload d))) as Hoff by done; unfold missing_bytes in *;
    (apply Z.ltb_lt in E || apply Z.ltb_ge in E); try lia.
  1, 3: exists s, f, d; split_and!; try done; apply prefix_length_eq; [exact (dn_prefix _ _ _ Hd) | rewrite Hsize in E; lia].
  unfold st_bind at 1, poll_shutdown. rewrite (un_stop Hcalm).
  destruct (attempt_in_step d f (count_poll s)) as (s1 & d2 & Ea & Hw1 & Hs1 & E1 & E2 & E3); [done | done | lia|].
  rewrite (st_bind_ok _ _ _ _ _ Ea). cbv beta iota.
  destruct (next_chunk plan src payload object Hfetch (dl_payload d) (dn_prefix _ _ _ Hd) E) as [Hv _].
  replace (dl_offset d2) with (dl_offset d) by (unfold dl_offset; by rewrite E1). fold (dl_offset d) in Hv. rewrite Hv.
  destruct (accept_in_step f0 dir d d2 f Hdir Hd E1 E2 E3 E) as (f2 & d3 & Ec & Hd3 & Hlt).
  unfold st_bind at 1, on_world. rewrite Hw1, Ec.
  apply (IH d3 f2); [done | done | done | done | lia].
Qed.
End loop.

(** ** Publication *)

(** The repository describes the object: its manifest is valid and has an identity and an
    encoding within the budget of the lease. *)
Record describable (self : IngestionCoordinator) (plan : FetchPlan) (src : SourceObject) (payload : pybytes) (w : W) (lease : nat)
    (m : DataManifest) (identity encoded : pystr) : Prop := {
  ds_manifest : make_manifest self plan src (raw_relative src (sha256_hex payload)) (sha256_hex payload) (so_record_count src) = Ok m;
  ds_times : ManifestTimeRange_post_init (so_times src) = Ok tt;
  ds_lineage : ManifestLineage_post_init (so_lineage src) = Ok tt;
  ds_identity : manifest_id m = Ok identity;
  ds_encoded : encode_manifest m = Ok encoded;
  ds_lease : exists x budget, usable_lease (ic_repository self) w lease x
    /\ output_bytes (ad_request (lease_decision x)) = Some budget /\ Z.of_nat (length encoded) <= budget;
}.

(** The repository has room: directories or nothing on the way to the names of the
    download, of the object and of the manifest, and none of these names taken. *)
Record roomy (src : SourceObject) (payload : pybytes) (object identity : pystr) (f : filesystem) : Prop := {
  rm_checkpoint : ready_for f (checkpoint_path object);
  rm_new : nodes f !! checkpoint_new_path object = None;
  rm_staged : ready_for f (staged_path object);
  rm_raw : ready_for f (path_parts (raw_relative src (sha256_hex payload)));
  rm_manifest : ready_for f (stored_path source_prefix identity);
  rm_temporary : nodes f !! temporary_manifest identity = None;
}.

Section publication.
Variable self : IngestionCoordinator.
Variable plan : FetchPlan.
Variable src : SourceObject.
Variable payload : pybytes.
Variable object : pystr.
Variable w0 : W.
Variable lease : nat.
Variable m : DataManifest.
Variables identity encoded : pystr.

Hypothesis Hfetch : fetchable plan src payload object.
Hypothesis Hquiet : faults w0 = [].
Hypothesis Hdesc : describable self plan src payload w0 lease m identity encoded.

Notation digest := (sha256_hex payload).
Notation raw_text := (raw_relative src (sha256_hex payload)).
Notation raw := (path_parts (raw_relative src (sha256_hex payload))).

Lemma manifest_facts :
  manifest_valid m /\ manifest_kind m = source_prefix /\ (forall p, m <> Partition p)
  /\ storage_path (common m) = raw_text /\ object_sha256 (common m) = digest /\ size_bytes (common m) = so_estimated_size_bytes src
  /\ validate_relative_path raw_text (Some OBJECT_AREAS) = Ok raw /\ validate_sha256 digest = Ok tt
  /\ validate_byte_count (so_estimated_size_bytes src) = Ok tt.
Proof.
  pose proof (ds_manifest _ _ _ _ _ _ _ _ _ Hdesc) as H. unfold make_manifest in H.
  apply rbind_ok in H as (version & _ & H). apply rbind_ok in H as (oid & _ & H). cbv zeta in H.
  apply rbind_ok in H as ([] & Hv & [= <-]). pose proof Hv as Hv'. unfold SourceManifest_post_init in Hv'.
  do 3 (apply rbind_ok in Hv' as ([] & _ & Hv')). cbn [sm_common] in Hv'. unfold validate_manifest_common in Hv'.
  apply rbind_ok in Hv' as (parts & Hp & Hv'). apply rbind_ok in Hv' as ([] & Hs & Hv').
  do 3 (apply rbind_ok in Hv' as ([] & _ & Hv')). apply storage_as_ok in Hv'. apply rbind_ok in Hv' as ([] & Hb & _).
  cbn [storage_path object_sha256 size_bytes] in *. pose proof (relative_path_ok _ _ _ Hp) as [_ ->]. split_and!; try done.
  split; [exact (ds_times _ _ _ _ _ _ _ _ _ Hdesc)|]. split; [exact (ds_lineage _ _ _ _ _ _ _ _ _ Hdesc) | done].
Qed.

Lemma identifier_plain s : is_identifier s = true -> plain_part s /\ Z.of_nat (length s) <= 128.
Proof.
  destruct s as [|c s]; [done|]. cbn [is_identifier]. rewrite !andb_true_iff. intros [[[Hc Hs] _] Hl].
  assert (Forall (fun c => 0 < c < 128 /\ c <> 46 /\ c <> 47 /\ c <> 92) (c :: s)) as H.
  { apply Forall_cons_2; [unfold is_lower, in_range in Hc; lia|]. apply Forall_forall. intros x Hx%list_elem_of_In. rewrite forallb_forall in Hs. apply Hs in Hx.
    unfold identifier_char, is_lower, is_decimal, in_range, is_digit in Hx. lia. }
  split; [|cbn [length]; lia]. split_and!; try done.
  - intros E. rewrite E in H. apply Forall_cons in H as [H _]. lia.
  - intros E. rewrite E in H. apply Forall_cons in H as [H _]. vm_compute in H. lia.
  - eapply Forall_impl; [exact H|]. cbv beta. lia.
Qed.

(** The path of the object in the repository. *)
Lemma raw_shape : raw = [str "raw"; so_provider_id src; so_dataset_id src; digest ++ str ".bin"].
Proof.
  destruct (source_facts plan src payload object Hfetch) as ([Hp Hpl]%identifier_plain & [Hd Hdl]%identifier_plain & _).
  destruct (digest_text_hex digest) as [Hh Hl]; [apply sha_digest_text, (fb_prefix _ _ _ _ Hfetch); reflexivity|].
  set (parts := [str "raw"; so_provider_id src; so_dataset_id src; digest ++ str ".bin"]).
  assert (raw_text = posix parts) as -> by reflexivity.
  assert (validate_relative_path (posix parts) (Some OBJECT_AREAS) = Ok parts) as H.
  { apply plain_relative; [apply (bool_decide_unpack _); by vm_compute| |].
    - repeat apply Forall_cons_2; [ | done | done | | apply Forall_nil_2].
      + split_and!; try done. apply (bool_decide_unpack _). by vm_compute.
      + assert (digest <> []) as Hne by (intros E; by rewrite E in Hl).
        assert (forall t, digest ++ str ".bin" = t -> (length t = 68)%nat) as Hlen by (intros t <-; by rewrite length_app, Hl).
        split_and!; [intros E%Hlen; done | intros E%Hlen; done | intros E%Hlen; done|].
        apply Forall_app_2; [|apply (bool_decide_unpack _); by vm_compute].
        eapply Forall_impl; [exact Hh|]. unfold hexc. cbv beta. lia.
    - rewrite !join_cons. cbn [join]. rewrite !length_app. cbn [length]. rewrite !length_app. cbn [length]. rewrite !length_app. cbn [length]. rewrite length_app, Hl.
      change MAX_PATH_BYTES with 512. change (length (str "raw")) with 3%nat. change (length (str ".bin")) with 4%nat. lia. }
  by apply relative_path_ok in H as [_ <-].
Qed.

Lemma digest_not_zero : digest_text digest.
Proof. apply sha_digest_text, (fb_prefix _ _ _ _ Hfetch). reflexivity. Qed.

Lemma payload_nonempty : payload <> [] /\ Z.of_nat (length payload) = so_estimated_size_bytes src.
Proof.
  destruct (source_facts plan src payload object Hfetch) as (_ & _ & _ & _ & H). pose proof (fb_size _ _ _ _ Hfetch) as Hs.
  split; [|done]. intros ->. cbn in Hs. lia.
Qed.

Lemma check_staged_ready f :
  wf f -> holds f (staged_path object) payload -> ready_for f raw ->
  check_staged f (posix (staged_path object)) raw_text digest (so_estimated_size_bytes src) = Ok (staged_path object, raw).
Proof.
  intros Hwf Hh Hr. destruct manifest_facts as (_ & _ & _ & _ & _ & _ & Hp & Hs & Hb). destruct payload_nonempty as [Hne Hlen].
  destruct (object_shape plan src payload object Hfetch) as (d & Ho & Hd). destruct (digest_text_hex d Hd) as [Hx Hl].
  unfold check_staged. eapply rbind_step; [by apply (staged_relative object d)|]. eapply rbind_step; [exact Hp|].
  eapply rbind_step; [exact Hs|]. eapply rbind_step; [exact Hb|].
  eapply rbind_step; [destruct Hh as (i & x & Hn & _); by eapply (assert_safe_ok f _ (Regular i))|].
  eapply rbind_step; [by apply ready_safe|].
  destruct (regular_file_holds f (staged_path object) payload false Hwf Hh) as (st & Hst & Hsz); [done|].
  eapply rbind_step; [exact Hst|]. eapply rbind_step; [apply raise_when_false, negb_false_iff, Z.eqb_eq; congruence|].
  eapply rbind_step; [by apply hash_secure_holds|].
  eapply rbind_step; [apply raise_when_false, negb_false_iff; by apply bool_decide_eq_true_2 | done].
Qed.

Lemma verify_published f : wf f -> holds f raw payload -> verify_manifest_object f m = Ok tt.
Proof.
  intros Hwf Hh. destruct manifest_facts as (_ & _ & _ & E1 & E2 & E3 & Hp & _ & _). destruct payload_nonempty as [Hne Hlen].
  unfold verify_manifest_object, object_path. rewrite E1. eapply rbind_step.
  - eapply rbind_step; [exact Hp|]. eapply rbind_step; [|done]. destruct Hh as (i & x & Hn & _). by eapply (assert_safe_ok f _ (Regular i)).
  - destruct (regular_file_holds f raw payload false Hwf Hh) as (st & Hst & Hsz); [done|]. eapply rbind_step; [exact Hst|].
    eapply rbind_step; [apply raise_when_false, negb_false_iff, Z.eqb_eq; congruence|].
    eapply rbind_step; [by apply hash_secure_holds|]. apply raise_when_false, negb_false_iff. by apply bool_decide_eq_true_2.
Qed.

(** Published object, published manifest, no checkpoint. *)
Lemma publish_object_done f d dt :
  wf f -> holds f (staged_path object) payload -> (exists b, holds f (checkpoint_path object) b) ->
  nodes f !! [str "tmp"] = Some (Directory dt) -> ready_for f raw -> ready_for f (stored_path source_prefix identity) ->
  nodes f !! temporary_manifest identity = None -> dl_payload d = payload ->
  exists f', publish_object self plan src object digest (so_record_count src) lease d (set_fs f w0)
    = (set_fs f' w0, Ok (stored object COMPLETED (so_estimated_size_bytes src) (dl_attempts d) (dl_delays d) digest raw_text identity)).
Proof.
  intros Hwf Hh (bc & ic & xc & Hc & _) Hdt Hraw Hman Htmp Hd.
  destruct manifest_facts as (Hv & Hkind & Hpart & E1 & E2 & E3 & Hp & _). destruct payload_nonempty as [Hne Hlen].
  destruct (ds_lease _ _ _ _ _ _ _ _ _ Hdesc) as (x & budget & Hlease & Hbudget & Hfits).
  assert (dl_offset d = so_estimated_size_bytes src) as Hoff by (unfold dl_offset; by rewrite Hd).
  destruct (publish_staged_quiet (ic_repository self) (set_fs f w0) (posix (staged_path object)) raw_text digest
    (so_estimated_size_bytes src) lease x (staged_path object) raw Hwf Hquiet Hlease (check_staged_ready f Hwf Hh Hraw) Hraw)
    as (f1 & b & Ep & Hwf1 & Hb & _ & _ & Hh1 & _ & Hadds). cbn [fs set_fs] in *.
  assert (b = payload) as ->. { destruct Hb as (i & y & Hi & Hy & <- & _), Hh as (i' & y' & Hi' & Hy' & <- & _). congruence. }
  change (set_fs f1 (set_fs f w0)) with (set_fs f1 w0) in Ep.
  assert (forall r n, r <> staged_path object -> nodes f !! r = Some n -> nodes f1 !! r = Some n) as Hkeep by apply Hadds.
  assert (ready_for f1 (stored_path source_prefix identity)) as Hman1.
  { destruct (proj1 Hman) as [dr Hroot].
    eapply (ready_same f); [done | by exists dr; apply Hkeep | | done]. intros r Hr Hr0.
    eapply (adds_same f f1 _ _ _ _ _ _ (str "manifests")); [exact Hadds | reflexivity | apply raw_shape | done | done | done | exact Hr | done]. }
  assert (nodes f1 !! temporary_manifest identity = None) as Htmp1.
  { apply Hadds; [rewrite raw_shape; done | | done]. rewrite raw_shape. intros H. by apply prefix_cons_inv_1 in H. }
  assert (publishable (ic_repository self) (set_fs f1 w0) m lease encoded) as Hpub.
  { exists x, budget. split_and!; try done; [exact (ds_encoded _ _ _ _ _ _ _ _ _ Hdesc) | by apply verify_published|].
    intros p Hm. by destruct (Hpart p). }
  rewrite <- Hkind in Hman1.
  destruct (publish_manifest_quiet (ic_repository self) (set_fs f1 w0) m lease encoded identity dt Hwf1 Hquiet Hv Hpub
    (ds_identity _ _ _ _ _ _ _ _ _ Hdesc) Hman1) as (f2 & Em & Hwf2 & _ & _ & [Hkeep2 _] & _); [by apply Hkeep | done|].
  cbn [fs set_fs] in *. change (set_fs f2 (set_fs f1 w0)) with (set_fs f2 w0) in Em.
  destruct (quiet_remove object ic (set_fs f2 w0) Hwf2 Hquiet) as (f3 & Er & Hwf3).
  { cbn [fs set_fs]. apply Hkeep2; [by intros E; vm_compute in E|]. apply Hkeep; [by intros E; vm_compute in E | done]. }
  change (set_fs f3 (set_fs f2 w0)) with (set_fs f3 w0) in Er.
  exists f3. unfold publish_object. cbv zeta. rewrite Hoff. unfold st_bind at 1.
  match goal with |- context [on_storage_error ?k _ _] => assert (k (set_fs f w0) = (set_fs f3 w0, Ok (Some m))) as Ek end.
  { rewrite (st_bind_ok _ _ _ _ _ Ep), (ds_manifest _ _ _ _ _ _ _ _ _ Hdesc), quiet_lift.
    change no_faults with (fun _ : PublicationStage => Ok tt). rewrite (st_bind_ok _ _ _ _ _ Em), (st_bind_ok _ _ _ _ _ Er). done. }
  unfold on_storage_error. rewrite Ek, (ds_identity _ _ _ _ _ _ _ _ _ Hdesc), quiet_lift. done.
Qed.
End publication.

(** ** The whole fetch *)

Lemma ready_grows f f' p q : ready_for f q -> grows p f f' -> ~ q `prefix_of` p -> ready_for f' q.
Proof.
  intros Hq (_ & _ & Hsub & Hnew) Hp. pose proof Hq as ((d & Hd) & Hway & Hn). split_and!.
  - exists d. by eapply lookup_weaken.
  - intros r Hr Hr0. destruct (Hway r Hr Hr0) as [Hrn | [d' Hd']]; [|right; exists d'; by eapply lookup_weaken].
    destruct (nodes f' !! r) as [n|] eqn:E; [|by left]. right. destruct (Hnew r n E Hrn) as [[d' ->] _]. eauto.
  - destruct (nodes f' !! q) as [n|] eqn:E; [|done]. destruct (Hnew q n E Hn) as [_ ?]. done.
Qed.

Lemma roomy_grows src payload object identity f f' p :
  roomy src payload object identity f -> grows p f f' ->
  ~ checkpoint_path object `prefix_of` p -> ~ checkpoint_new_path object `prefix_of` p -> ~ staged_path object `prefix_of` p ->
  ~ path_parts (raw_relative src (sha256_hex payload)) `prefix_of` p -> ~ stored_path source_prefix identity `prefix_of` p ->
  ~ temporary_manifest identity `prefix_of` p -> roomy src payload object identity f'.
Proof.
  intros [H1 H2 H3 H4 H5 H6] Hg P1 P2 P3 P4 P5 P6.
  assert (forall q, nodes f !! q = None -> ~ q `prefix_of` p -> nodes f' !! q = None) as Hnone.
  { destruct Hg as (_ & _ & _ & Hnew). intros q Hq Hp. destruct (nodes f' !! q) as [n|] eqn:E; [|done].
    by destruct (Hnew q n E Hq) as [_ ?]. }
  constructor; try (by eapply ready_grows); by apply Hnone.
Qed.

Section fetch.
Context {P : Type} `{!DataProvider P}.
Variable self : IngestionCoordinator.
Variable env : Environment.
Variable plan : FetchPlan.
Variable src : SourceObject.
Variable payload : pybytes.
Variable object : pystr.
Variable credential : option pystr.
Variable inv : P -> Prop.
Variable w0 : W.
Variable lease : nat.
Variable m : DataManifest.
Variables identity encoded : pystr.

Hypothesis Hserve : serves plan src payload credential inv.
Hypothesis Hfetch : fetchable plan src payload object.
Hypothesis Hcalm : undisturbed self env.
Hypothesis Hquiet : faults w0 = [].
Hypothesis Hdesc : describable self plan src payload w0 lease m identity encoded.

Notation digest := (sha256_hex payload).
Notation raw_text := (raw_relative src (sha256_hex payload)).
Notation raw := (path_parts (raw_relative src (sha256_hex payload))).

(** The directories of a download. *)
Lemma directories_made f :
  wf f -> roomy src payload object identity f ->
  exists f' dc ds, (mkdirs (parent_of (checkpoint_path object)) ;;~ mkdirs (parent_of (staged_path object))) (set_fs f w0)
      = (set_fs f' w0, Ok tt)
    /\ (exists f1, mkdirs (parent_of (checkpoint_path object)) (set_fs f w0) = (set_fs f1 w0, Ok tt)
                   /\ mkdirs (parent_of (staged_path object)) (set_fs f1 w0) = (set_fs f' w0, Ok tt))
    /\ wf f' /\ roomy src payload object identity f'
    /\ nodes f' !! parent_of (checkpoint_path object) = Some (Directory dc)
    /\ nodes f' !! parent_of (staged_path object) = Some (Directory ds).
Proof.
  intros Hwf Hroom.
  assert (forall t, ~ [str "raw"; so_provider_id src; so_dataset_id src; digest ++ str ".bin"] `prefix_of` str "tmp" :: t) as Hraw
    by (intros t H; by apply prefix_cons_inv_1 in H).
  destruct (quiet_mkdirs (checkpoint_path object) (set_fs f w0) Hwf Hquiet) as (f1 & dc & E1 & Hwf1 & Hg1 & Hd1 & _); [done | apply Hroom|].
  cbn [fs set_fs] in *. change (set_fs f1 (set_fs f w0)) with (set_fs f1 w0) in E1.
  assert (roomy src payload object identity f1) as Hroom1.
  { eapply roomy_grows; [exact Hroom | exact Hg1 | ..]; try (intros H; apply prefix_length in H; cbn in H; lia).
    - rewrite (raw_shape plan src payload object Hfetch). apply Hraw.
    - intros H. apply prefix_cons_inv_2, prefix_cons_inv_1 in H. apply (f_equal (fun l => last l)) in H. rewrite last_app in H. done. }
  destruct (quiet_mkdirs (staged_path object) (set_fs f1 w0) Hwf1 Hquiet) as (f2 & ds & E2 & Hwf2 & Hg2 & Hd2 & _); [done | apply Hroom1|].
  cbn [fs set_fs] in *. change (set_fs f2 (set_fs f1 w0)) with (set_fs f2 w0) in E2.
  exists f2, dc, ds. split_and!; [by rewrite (st_bind_ok _ _ _ _ _ E1) | by exists f1 | done | | | done].
  - eapply roomy_grows; [exact Hroom1 | exact Hg2 | ..]; try (intros H; apply prefix_length in H; cbn in H; lia).
    + rewrite (raw_shape plan src payload object Hfetch). apply Hraw.
    + intros H. apply prefix_cons_inv_2, prefix_cons_inv_1 in H. apply (f_equal (fun l => last l)) in H. rewrite last_app in H. done.
  - destruct Hg2 as (_ & _ & Hsub & _). by eapply lookup_weaken.
Qed.

(** A new download starts empty. *)
Lemma begin_new resume f dc ds :
  wf f -> roomy src payload object identity f ->
  nodes f !! parent_of (checkpoint_path object) = Some (Directory dc) -> nodes f !! parent_of (staged_path object) = Some (Directory ds) ->
  exists f' d, begin_download plan src object resume (set_fs f w0) = (set_fs f' w0, Ok (inr d))
    /\ downloading payload object f d f'.
Proof.
  intros Hwf Hroom Hdc Hds. unfold begin_download, open_or_create_checkpoint, st_bind at 1 2, look at 1 2. cbn [fs set_fs].
  rewrite (ready_absent f _ Hwf (rm_checkpoint _ _ _ _ _ Hroom)), (ready_absent f _ Hwf (rm_staged _ _ _ _ _ Hroom)). cbn [orb].
  destruct (quiet_rewrite (staged_path object) ds (set_fs f w0)) as (f1 & E1 & Hwf1 & Hh1 & Hf1);
    [done | done | done | done | apply (rm_staged _ _ _ _ _ Hroom)|]. cbn [fs set_fs] in *.
  change (set_fs f1 (set_fs f w0)) with (set_fs f1 w0) in E1.
  destruct (checkpoint_made plan src payload object Hfetch [] 0 0) as (c & b & Hc & Hb);
    [apply prefix_nil | by vm_compute | by vm_compute |].
  assert (forall q, q <> staged_path object -> nodes f1 !! q = nodes f !! q) as Hsame by (intros q Hq; apply Hf1; congruence).
  destruct (quiet_save object c b dc (set_fs f1 w0)) as (f2 & E2 & Hwf2 & Hn2 & Hh2 & Hf2 & Hu2); [done | done | | | | done|].
  { cbn [fs set_fs]. rewrite Hsame; [done|]. intros E. by vm_compute in E. }
  { cbn [fs set_fs]. rewrite Hsame; [apply (rm_new _ _ _ _ _ Hroom)|]. intros E. by vm_compute in E. }
  { left. cbn [fs set_fs]. rewrite Hsame; [apply (rm_checkpoint _ _ _ _ _ Hroom)|]. intros E. by vm_compute in E. }
  cbn [fs set_fs] in *. change (set_fs f2 (set_fs f1 w0)) with (set_fs f2 w0) in E2.
  pose proof (make_checkpoint_valid _ _ _ _ _ _ Hc) as (_ & _ & Hcb & Hca & Hcs).
  rewrite (st_bind_ok _ _ _ _ _ E1), Hc, quiet_lift, (st_bind_ok _ _ _ _ _ E2). cbn [st_ret]. rewrite Hcb. cbn [length Z.of_nat Z.eqb negb].
  rewrite andb_false_r. eexists f2, _. split; [reflexivity|].
  constructor; cbn [dl_payload dl_attempts dl_sequence dl_offset]; unfold dl_offset; cbn; try done; try lia.
  - etrans; [eapply frame_more, Hf1; intros q <-; by left | eapply frame_more, Hf2; intros q Hq; by right].
  - eapply untouched_holds; [apply staged_not_checkpoint | exact Hu2 | exact Hh1].
  - by exists b.
  - apply prefix_nil.
Qed.

Lemma not_present f (s : Process P) :
  wf f -> roomy src payload object identity f -> pr_world s = set_fs f w0 ->
  exists s', (match so_expected_sha256 src with
              | None => st_ret None
              | Some e => on_world (existing_result self plan src object e lease)
              end : M (Process P) (option ObjectFetchResult)) s = (s', Ok None)
    /\ pr_world s' = set_fs f w0 /\ (in_step env inv s -> in_step env inv s').
Proof.
  intros Hwf Hroom Hw. destruct (so_expected_sha256 src) as [e|] eqn:E; [|by exists s].
  rewrite (fb_expected _ _ _ _ Hfetch e E). unfold on_world, existing_result, st_bind, look. rewrite Hw. cbn [fs set_fs].
  rewrite (ready_absent f _ Hwf (rm_raw _ _ _ _ _ Hroom)). cbn [negb st_ret]. eexists. split; [reflexivity|]. done.
Qed.

Lemma complete_done f0 f d dt (s : Process P) :
  roomy src payload object identity f0 -> nodes f0 !! [str "tmp"] = Some (Directory dt) ->
  downloading payload object f0 d f -> dl_payload d = payload -> pr_world s = set_fs f w0 -> in_step env inv s ->
  exists s', complete self plan src object lease d s
    = (s', Ok (stored object COMPLETED (so_estimated_size_bytes src) (dl_attempts d) (dl_delays d) digest raw_text identity)).
Proof.
  intros Hroom Hdt [H1 H2 H3 H4 H5 _ _ _] Hd Hw [Hi _]. unfold complete. rewrite Hd in *.
  destruct (serve_valid _ _ _ _ _ Hserve (pr_provider s) Hi) as (p' & Hv & _).
  assert (check_payload src digest payload s = (set_provider p' s, Ok (so_record_count src))) as ->.
  { unfold check_payload. erewrite st_bind_ok; [|unfold st_lift; destruct (so_expected_sha256 src) as [e|] eqn:E;
      [rewrite (fb_expected _ _ _ _ Hfetch e E); unfold fetch_when; rewrite bool_decide_eq_true_2 by done; reflexivity | reflexivity]].
    erewrite st_bind_ok; [|unfold on_provider; rewrite Hv; reflexivity].
    erewrite st_bind_ok; [|unfold st_lift, fetch_when; rewrite Z.eqb_refl; reflexivity]. done. }
  assert (forall q, ~ download_names object q -> nodes f !! q = nodes f0 !! q) as Hsame by exact H2.
  assert (forall a t, a <> str "tmp" -> ready_for f0 (a :: t) -> ready_for f (a :: t)) as Hready.
  { intros a t Ha Hr. eapply (ready_same f0); [done | destruct (proj1 Hr) as [dr Hdr]; exists dr; rewrite Hsame; [done|] | | done].
    - intros [E | [E | E]]; done.
    - intros r Hp Hr0. apply Hsame. apply prefix_head in Hp as [t' ->]; [|done]. intros [E | [E | E]]; by injection E. }
  destruct (publish_object_done self plan src payload object w0 lease m identity encoded Hfetch Hquiet Hdesc f d dt) as (f' & Ep).
  - done.
  - done.
  - done.
  - rewrite Hsame; [done|]. intros [E | [E | E]]; by vm_compute in E.
  - rewrite (raw_shape plan src payload object Hfetch) in *. apply Hready; [done|].
    rewrite <- (raw_shape plan src payload object Hfetch). apply (rm_raw _ _ _ _ _ Hroom).
  - apply Hready; [done | apply (rm_manifest _ _ _ _ _ Hroom)].
  - rewrite Hsame; [apply (rm_temporary _ _ _ _ _ Hroom)|]. intros [E | [E | E]]; by vm_compute in E.
  - done.
  - unfold on_world. cbn [pr_world set_provider]. rewrite Hw, Ep. eexists. reflexivity.
Qed.

Lemma fetch_completes resume (s : Process P) :
  pr_world s = w0 -> wf (fs w0) -> roomy src payload object identity (fs w0) -> in_step env inv s ->
  exists s' attempts delays accessed, fetch_one self env plan src lease credential resume s
    = (s', Ok (stored object COMPLETED (so_estimated_size_bytes src) attempts delays digest raw_text identity, accessed)).
Proof.
  intros Hw Hwf Hroom Hs. destruct (directories_made (fs w0) Hwf Hroom) as (f & dc & ds & _ & (f1 & E1 & E2) & Hwf' & Hroom' & Hdc & Hds).
  rewrite set_fs_idem in E1. destruct (fb_object _ _ _ _ Hfetch) as [Ho _].
  unfold fetch_one. unfold st_bind at 1, st_lift. rewrite Ho. unfold st_bind at 1, on_world at 1. rewrite Hw, E1.
  unfold st_bind at 1, on_world at 1. cbn [pr_world set_world]. rewrite E2.
  match goal with |- context [st_bind _ _ ?s2] => set (s2' := s2) end.
  destruct (not_present f s2' Hwf' Hroom' eq_refl) as (s3 & E3 & Hw3 & Hs3). rewrite (st_bind_ok _ _ _ _ _ E3). cbv beta iota.
  assert (in_step env inv s3) as Hs3' by (by apply Hs3). clear Hs3.
  destruct (begin_new resume f dc ds Hwf' Hroom' Hdc Hds) as (f4 & d & E4 & Hd).
  unfold st_bind at 1, on_world at 1. rewrite Hw3, E4.
  destruct (download_in_step self env plan src payload object credential inv w0 Hserve Hfetch Hcalm Hquiet f dc lease
    (Z.to_nat (so_estimated_size_bytes src)) d f4 (set_world (set_fs f4 w0) s3)) as (s5 & f5 & d5 & E5 & Hw5 & Hs5 & Hd5 & Hp5);
    [done | done | done | done | unfold missing_bytes, dl_offset; lia|].
  rewrite (st_bind_ok _ _ _ _ _ E5). cbv beta iota.
  destruct (prefix_directory f (parent_of (checkpoint_path object)) [str "tmp"] dc Hwf' Hdc) as [dt Hdt]; [by eexists [_]|].
  destruct (complete_done f f5 d5 dt s5 Hroom' Hdt Hd5 Hp5 Hw5 Hs5) as (s6 & E6).
  rewrite (st_bind_ok _ _ _ _ _ E6). eexists _, _, _, _. reflexivity.
Qed.
End fetch.

(** C26: downloads succeed.  When the provider serves the object faithfully, input/output does
    not fail, no shutdown is requested and requests keep to the rate limit, the fetch of a
    valid object into a repository with room for it, under an active lease whose budget
    covers the manifest, reports the object as completed: stored at the path of its digest,
    with the manifest that describes it. *)
Theorem faithful_fetch_completes `{!DataProvider P} self env plan src payload object credential (inv : P -> Prop) lease m
    identity encoded resume (s : Process P) :
  serves plan src payload credential inv -> fetchable plan src payload object -> undisturbed self env ->
  describable self plan src payload (pr_world s) lease m identity encoded ->
  wf (fs (pr_world s)) -> faults (pr_world s) = [] -> roomy src payload object identity (fs (pr_world s)) -> in_step env inv s ->
  exists s' attempts delays accessed, fetch_one self env plan src lease credential resume s
    = (s', Ok (stored object COMPLETED (so_estimated_size_bytes src) attempts delays (sha256_hex payload)
                 (raw_relative src (sha256_hex payload)) identity, accessed)).
Proof.
  intros Hserve Hfetch Hcalm Hdesc Hwf Hquiet Hroom Hs.
  exact (fetch_completes self env plan src payload object credential inv (pr_world s) lease m identity encoded
    Hserve Hfetch Hcalm Hquiet Hdesc resume s eq_refl Hwf Hroom Hs).
Qed.

(** ** Witness *)

(** The scripted provider without failures left for a locator, and with an item for it. *)
Definition well_behaved (item : MockObject) (p : DeterministicMockHttpS3Provider) : Prop :=
  by_locator p (mo_locator item) = Ok item /\ mk_on_fetch p = None
  /\ (od_get (mo_locator item) (mk_failures p) = None \/ od_get (mo_locator item) (mk_failures p) = Some []).

(** The scripted provider serves the payload of every well-formed item. *)
Lemma mock_serves plan src item credential :
  so_locator src = mo_locator item -> so_version_id src = mo_version_id item -> so_record_count src = mo_record_count item ->
  mo_malformed item = false -> mo_validated_record_count_override item = None ->
  serves plan src (mo_payload item) credential (well_behaved item).
Proof.
  intros Hl Hv Hr Hm Ho. constructor.
  - intros p offset (Hi & Hf & Hs) _. exists (next_call (mo_locator item) p).1.1.
    cbn [fetch_range mock_provider]. unfold mock_fetch. rewrite Hl.
    assert (match od_get (mo_locator item) (mk_failures p) with Some l => l | None => [] end = []) as Hn
      by (destruct Hs as [-> | ->]; done).
    unfold next_call. rewrite Hn. cbn. rewrite Hf. split; [|by split_and!]. cbn [rbind].
    unfold mock_answer. rewrite Hl. unfold by_locator in *. cbn [mk_objects]. rewrite Hi. cbn [rbind].
    unfold chunk_at. rewrite Hv, !bool_decide_eq_false_2 by done. by destruct (_ =? _).
  - intros p (Hi & Hf & Hs). exists p. split; [|by split_and!]. cbn [validate_payload mock_provider]. unfold mock_validate.
    rewrite Hl, Hi. cbn [rbind]. rewrite Hm, Ho. cbn. by rewrite Hr.
Qed.

(** A repository that holds nothing has room for everything. *)
Lemma bare_ready f d q : nodes f = {[ [] := Directory d ]} -> q <> [] -> ready_for f q.
Proof.
  intros Hf Hq. split; [exists d; by rewrite Hf|]. split; [|by rewrite Hf, lookup_singleton_ne].
  intros p _ Hp. rewrite Hf, lookup_singleton_ne by done. by left.
Qed.

Lemma bare_roomy src payload object identity f d :
  nodes f = {[ [] := Directory d ]} -> path_parts (raw_relative src (sha256_hex payload)) <> [] ->
  roomy src payload object identity f.
Proof. intros Hf Hp. constructor; try (by apply (bare_ready f d)); by rewrite Hf, lookup_singleton_ne. Qed.

(** An empty repository, a lease handed out. *)
Definition lent_world : W := set_objects (objects leased_world) (set_lock (Some 2) fresh_world).

(** The manifest of an object, its identity and its encoding, when the encoding fits. *)
Definition described (self : IngestionCoordinator) (plan : FetchPlan) (src : SourceObject) (payload : pybytes) (budget : Z)
    : option (DataManifest * pystr * pystr) :=
  match make_manifest self plan src (raw_relative src (sha256_hex payload)) (sha256_hex payload) (so_record_count src) with
  | Ok m => match manifest_id m, encode_manifest m with
            | Ok identity, Ok encoded => if Z.of_nat (length encoded) <=? budget then Some (m, identity, encoded) else None
            | _, _ => None
            end
  | Err _ => None
  end.

Lemma described_describable self plan src payload w lease x budget m identity encoded :
  ManifestTimeRange_post_init (so_times src) = Ok tt -> ManifestLineage_post_init (so_lineage src) = Ok tt ->
  usable_lease (ic_repository self) w lease x -> output_bytes (ad_request (lease_decision x)) = Some budget ->
  described self plan src payload budget = Some (m, identity, encoded) ->
  describable self plan src payload w lease m identity encoded.
Proof.
  intros Ht Hl Hx Hb Hd. unfold described in Hd.
  destruct (make_manifest _ _ _ _ _ _) as [m'|] eqn:Em; [|done]. destruct (manifest_id m') as [i|] eqn:Ei; [|done].
  destruct (encode_manifest m') as [e|] eqn:Ee; [|done]. destruct (_ <=? _) eqn:E; [|done]. injection Hd as -> -> ->.
  constructor; try done. exists x, budget. split_and!; [done..|lia].
Qed.

Lemma mock_undisturbed : undisturbed mock_coordinator (mock_environment never).
Proof.
  constructor; [done | | vm_compute; discriminate..]. intros n. cbn [monotonic_ns mock_environment].
  assert (minimum_interval_ns (ic_rate_limit mock_coordinator) <= 1000000000) by (vm_compute; discriminate). lia.
Qed.

Lemma mock_fetchable : fetchable (mock_plan_of []) mock_object (mo_payload mock_item) mock_object_id.
Proof.
  assert (bool_decide (Forall (fun k => sha256_hex (take k [7; 8; 9]) <> zero_digest) (seq 0 4)) = true) as Hk by (by vm_compute).
  apply bool_decide_eq_true in Hk.
  constructor.
  - vm_compute. reflexivity.
  - vm_compute. reflexivity.
  - vm_compute. discriminate.
  - vm_compute. discriminate.
  - vm_compute. reflexivity.
  - eexists. split; [vm_compute; reflexivity | vm_compute; discriminate].
  - split; vm_compute; [reflexivity | discriminate].
  - assert (exists b, utf8_encode (so_locator mock_object) = Ok b /\ sha256_hex b <> zero_digest) as (b0 & E & Hb0)
      by (eexists; split; [vm_compute; reflexivity | vm_compute; discriminate]).
    intros b Hb. rewrite E in Hb. by injection Hb as <-.
  - intros b [k Hb]. change ([7; 8; 9] = b ++ k) in Hb. rewrite <- (take_app_length b k). rewrite <- Hb.
    rewrite Forall_forall in Hk. apply Hk, elem_of_seq. apply (f_equal length) in Hb. rewrite length_app in Hb.
    cbn [length] in Hb. lia.
  - assert (so_expected_sha256 mock_object = Some (sha256_hex (mo_payload mock_item))) as E by (vm_compute; reflexivity).
    intros e He. rewrite E in He. by injection He as <-.
Qed.

Lemma faithful_fetch_completes_witness :
  exists s' attempts delays accessed identity,
    fetch_one mock_coordinator (mock_environment never) (mock_plan_of []) mock_object 0 None true
      (process_of lent_world (scripted []))
    = (s', Ok (stored mock_object_id COMPLETED (so_estimated_size_bytes mock_object) attempts delays (sha256_hex [7; 8; 9])
                 (raw_relative mock_object (sha256_hex [7; 8; 9])) identity, accessed)).
Proof.
  assert (Hl : exists x, usable_lease example_repository lent_world 0 x
                 /\ output_bytes (ad_request (lease_decision x)) = Some 1000000)
    by (eexists; split; [split; [reflexivity | split; reflexivity] | reflexivity]).
  destruct Hl as (x & Hx & Hb).
  assert (Hs : is_Some (described mock_coordinator (mock_plan_of []) mock_object [7; 8; 9] 1000000))
    by (eexists; vm_compute; reflexivity).
  destruct Hs as [[[m identity] encoded] Hd].
  assert (Ht : ManifestTimeRange_post_init (so_times mock_object) = Ok tt) by (vm_compute; reflexivity).
  assert (Hn : ManifestLineage_post_init (so_lineage mock_object) = Ok tt) by (vm_compute; reflexivity).
  assert (Hp : path_parts (raw_relative mock_object (sha256_hex [7; 8; 9])) <> []) by (vm_compute; discriminate).
  assert (Hw : well_behaved mock_item (scripted [])) by (split; [vm_compute; reflexivity | split; [reflexivity | right; vm_compute; reflexivity]]).
  assert (H0 : 0 <= monotonic_ns (mock_environment never) 0) by (vm_compute; discriminate).
  destruct (faithful_fetch_completes mock_coordinator (mock_environment never) (mock_plan_of []) mock_object [7; 8; 9]
    mock_object_id None (well_behaved mock_item) 0 m identity encoded true (process_of lent_world (scripted []))
    (mock_serves (mock_plan_of []) mock_object mock_item None eq_refl eq_refl eq_refl eq_refl eq_refl) mock_fetchable mock_undisturbed
    (described_describable mock_coordinator (mock_plan_of []) mock_object [7; 8; 9] lent_world 0 x 1000000 _ _ _ Ht Hn Hx Hb Hd) fresh_wf eq_refl
    (bare_roomy mock_object [7; 8; 9] mock_object_id identity (fs lent_world) 7 eq_refl Hp) (conj Hw H0)) as (s' & attempts & delays & accessed & E).
  exists s', attempts, delays, accessed, identity. exact E.
Defined.
