(* ===== verification/ForecastEvaluation.v ===== *)
(** * Walk-forward evaluation

    Models [python/model_serving/aegis_mx_timeseries/evaluation.py]: the
    validation of an evaluation series, the walk-forward loop that scores every
    baseline on growing prefixes, and the dataset digest.  A Python dict keyed by
    target is an insertion-ordered association list. *)

From S2P Require Import Prelude PyText Json Sha256 ForecastDomain ForecastAdapters.
Open Scope Z_scope.

Definition MINIMUM_EVALUATION_HISTORY : Z := 4.
Definition MINIMUM_SEASONAL_PERIOD : Z := 2.
Definition MAXIMUM_SEASONAL_PERIOD : Z := 256.
Definition REQUIRED_EVALUATION_TARGETS : list ForecastTarget :=
  [RETURN; REALIZED_VOLATILITY; VOLUME; SPREAD].

(** [_BASELINES_BY_TARGET] *)
Definition BASELINES_BY_TARGET (t : ForecastTarget) : res (list BaselineKind) :=
  match t with
  | RETURN | VOLUME | SPREAD =>
      Ok [LAST_VALUE; SEASONAL_NAIVE; ARIMA_COMPATIBLE; GRADIENT_BOOSTING; COMPACT_TEMPORAL]
  | REALIZED_VOLATILITY =>
      Ok [LAST_VALUE; SEASONAL_NAIVE; GARCH_COMPATIBLE; GRADIENT_BOOSTING; COMPACT_TEMPORAL]
  | _ => raise KeyError "target"
  end.

Record EvaluationSeries := {
  es_target : ForecastTarget;
  es_points : list TimeSeriesPoint;
  es_seasonal_period : Z;
}.

Record BaselineMetric := {
  bm_baseline : BaselineKind;
  mean_absolute_error : Z;
  root_mean_squared_error : Z;
}.

Record TargetEvaluation := {
  te_target : ForecastTarget;
  sample_count : Z;
  te_metrics : list BaselineMetric;
}.

Record WalkForwardReport := {
  wf_targets : list TargetEvaluation;
  wf_dataset_sha256 : pystr;
  wf_seed : Z;
  wf_point_in_time : bool;
  wf_economic_value_claim : bool;
}.

(** ** Validation *)

(** The loop of [_validate_series]. *)
Fixpoint points_loop (previous_event previous_availability : Z) (l : list TimeSeriesPoint)
    : res unit :=
  match l with
  | [] => Ok tt
  | p :: t =>
      do! raise_when (pt_event_time p <=? previous_event) ValueError
            "evaluation event timestamps must be strictly increasing" in
      do! raise_when ((pt_available p <=? 0) || (pt_available p <? previous_availability))
            ValueError "evaluation series violates point-in-time availability ordering" in
      points_loop (pt_event_time p) (pt_available p) t
  end.

Definition validate_series (s : EvaluationSeries) (minimum_history : Z) : res unit :=
  do! raise_when (negb (bool_decide (es_target s ∈ REQUIRED_EVALUATION_TARGETS))) ValueError
        "walk-forward evaluation target is unsupported" in
  do! raise_when (negb ((MINIMUM_SEASONAL_PERIOD <=? es_seasonal_period s)
                        && (es_seasonal_period s <=? MAXIMUM_SEASONAL_PERIOD))) ValueError
        "evaluation seasonal period is outside the supported bound" in
  do! raise_when (Z.of_nat (length (es_points s)) <=? minimum_history) ValueError
        "evaluation series has insufficient history" in
  points_loop 0 0 (es_points s).

(** ** The dataset digest *)

Definition point_row (p : TimeSeriesPoint) : json :=
  JArr [JInt (pt_event_time p); JInt (pt_available p); JInt (pt_value p)].

Definition dataset_payload (d : list (ForecastTarget * EvaluationSeries)) : json :=
  JObj (map (fun ts => (ForecastTarget_name ts.1, JArr (map point_row (es_points ts.2))))
          (py_sorted (leb_on (fun ts => ForecastTarget_value ts.1) Z.leb) d)).

(** [_dataset_digest] *)
Definition dataset_digest (d : list (ForecastTarget * EvaluationSeries)) : res pystr :=
  let! encoded := dumps (dataset_payload d) in Ok (sha256_hex encoded).

(** ** The walk-forward loop *)

(** One split: the error of the prediction from the prefix. *)
Definition split_error (b : BaselineKind) (s : EvaluationSeries) (horizon_steps split : Z)
    : res Z :=
  let prefix := take (Z.to_nat split) (es_points s) in
  let! newest := py_index prefix (-1) in
  let cutoff := pt_available newest in
  do! raise_when (existsb (fun p => cutoff <? pt_available p) prefix) ValueError
        "walk-forward split contains point-in-time leakage" in
  let! prediction := baseline_point b (es_target s) (map pt_value prefix) (es_seasonal_period s) in
  let! outcome := py_index (es_points s) (split + horizon_steps - 1) in
  Ok (prediction - pt_value outcome).

(** [range(start, stop)] *)
Definition py_range (start stop : Z) : list Z :=
  map (fun n => start + Z.of_nat n) (List.seq 0 (Z.to_nat (stop - start))).

(** The accumulators of the loop over the splits. *)
Fixpoint error_loop (b : BaselineKind) (s : EvaluationSeries) (horizon_steps : Z)
    (splits : list Z) (absolute_error squared_error : Z) : res (Z * Z) :=
  match splits with
  | [] => Ok (absolute_error, squared_error)
  | split :: t =>
      let! error := split_error b s horizon_steps split in
      error_loop b s horizon_steps t (absolute_error + Z.abs error) (squared_error + error * error)
  end.

Definition baseline_metric (s : EvaluationSeries) (minimum_history horizon_steps samples : Z)
    (b : BaselineKind) : res BaselineMetric :=
  let! e := error_loop b s horizon_steps
    (py_range minimum_history (Z.of_nat (length (es_points s)) - horizon_steps + 1)) 0 0 in
  Ok {| bm_baseline := b; mean_absolute_error := e.1 / samples;
        root_mean_squared_error := Z.sqrt (e.2 / samples) |}.

(** The body of the loop over the targets. *)
Definition evaluate_target (d : list (ForecastTarget * EvaluationSeries))
    (minimum_history horizon_steps : Z) (t : ForecastTarget) : res TargetEvaluation :=
  let! s := match od_get t d with Some s => Ok s | None => raise KeyError "target" end in
  do! raise_when (negb (bool_decide (es_target s = t))) ValueError
        "evaluation series key and target do not agree" in
  do! validate_series s minimum_history in
  let samples := Z.of_nat (length (es_points s)) - minimum_history - horizon_steps + 1 in
  do! raise_when (samples <=? 0) ValueError
        "evaluation series is too short for the requested horizon" in
  let! baselines := BASELINES_BY_TARGET t in
  let! metrics := res_map (baseline_metric s minimum_history horizon_steps samples) baselines in
  Ok {| te_target := t; sample_count := samples; te_metrics := metrics |}.

Definition same_keys (l k : list ForecastTarget) : bool :=
  forallb (fun t => bool_decide (t ∈ k)) l && forallb (fun t => bool_decide (t ∈ l)) k.

Definition compare_baselines_walk_forward (d : list (ForecastTarget * EvaluationSeries))
    (minimum_history horizon_steps seed : Z) : res WalkForwardReport :=
  do! raise_when (negb (same_keys (map fst d) REQUIRED_EVALUATION_TARGETS)) ValueError
        "every required evaluation target must be supplied exactly once" in
  do! raise_when ((minimum_history <? MINIMUM_EVALUATION_HISTORY) || (horizon_steps <=? 0)
                  || (seed <=? 0)) ValueError "walk-forward configuration is invalid" in
  let! reports := res_map (evaluate_target d minimum_history horizon_steps)
                    REQUIRED_EVALUATION_TARGETS in
  let! digest := dataset_digest d in
  Ok {| wf_targets := reports; wf_dataset_sha256 := digest; wf_seed := seed;
        wf_point_in_time := true; wf_economic_value_claim := false |}.

(** ** Valid series *)

Record series_valid (s : EvaluationSeries) (minimum_history : Z) : Prop := {
  sv_target : es_target s ∈ REQUIRED_EVALUATION_TARGETS;
  sv_period : MINIMUM_SEASONAL_PERIOD <= es_seasonal_period s <= MAXIMUM_SEASONAL_PERIOD;
  sv_length : minimum_history < Z.of_nat (length (es_points s));
  sv_positive : Forall (fun p => 0 < pt_event_time p /\ 0 < pt_available p) (es_points s);
  sv_events : StronglySorted (fun p q => pt_event_time p < pt_event_time q) (es_points s);
  sv_available : StronglySorted (fun p q => pt_available p <= pt_available q) (es_points s);
}.

Lemma points_loop_ok l : forall e a u,
  points_loop e a l = Ok u <->
  Forall (fun p => e < pt_event_time p /\ 0 < pt_available p /\ a <= pt_available p) l /\
  StronglySorted (fun p q => pt_event_time p < pt_event_time q) l /\
  StronglySorted (fun p q => pt_available p <= pt_available q) l.
Proof.
  induction l as [|p l IH]; intros e a u; cbn [points_loop].
  { split; [intros _; repeat constructor | by destruct u]. }
  split.
  - intros H. apply rbind_ok in H as ([] & H1 & H). apply rbind_ok in H as ([] & H2 & H).
    apply raise_when_ok in H1, H2. bprop. apply IH in H as (Hf & He & Ha). repeat split.
    + constructor; [lia|]. eapply Forall_impl; [exact Hf|]. cbn. intros q Hq. lia.
    + constructor; [done|]. eapply Forall_impl; [exact Hf|]. cbn. intros q Hq. lia.
    + constructor; [done|]. eapply Forall_impl; [exact Hf|]. cbn. intros q Hq. lia.
  - intros (Hf & [He1 He2]%StronglySorted_inv & [Ha1 Ha2]%StronglySorted_inv).
    apply Forall_cons in Hf as [Hp Hf]. rewrite !raise_when_false by lia. cbn [rbind].
    apply IH. split; [|done]. rewrite Forall_forall in *. intros q Hq.
    specialize (He2 q Hq). specialize (Ha2 q Hq). specialize (Hf q Hq). cbn in *. lia.
Qed.

Lemma validate_series_ok s m u : validate_series s m = Ok u <-> series_valid s m.
Proof.
  unfold validate_series. split.
  - intros H. apply rbind_ok in H as ([] & H1 & H). apply rbind_ok in H as ([] & H2 & H).
    apply rbind_ok in H as ([] & H3 & H). apply raise_when_ok in H1, H2, H3. bprop.
    apply points_loop_ok in H as (Hf & He & Ha). split; try done; try lia.
    eapply Forall_impl; [exact Hf|]. cbn. intros p Hp. lia.
  - intros [H1 H2 H3 Hf He Ha]. rewrite bool_decide_eq_true_2 by done. cbn [negb raise_when rbind].
    rewrite !raise_when_false by lia. cbn [rbind]. apply points_loop_ok. split; [|done].
    eapply Forall_impl; [exact Hf|]. cbn. intros p Hp. lia.
Qed.

(** A valid series never trips the leakage check of a split. *)
Lemma prefix_available s m n p newest :
  series_valid s m -> last (take n (es_points s)) = Some newest -> p ∈ take n (es_points s) ->
  pt_available p <= pt_available newest.
Proof.
  intros Hs Hl Hp. pose proof (sv_available _ _ Hs) as Ha.
  rewrite <- (take_drop n (es_points s)) in Ha. apply StronglySorted_app in Ha as (_ & Ha & _).
  apply last_Some in Hl as [l' Hl]. rewrite Hl in *.
  apply elem_of_app in Hp as [Hp | ->%list_elem_of_singleton]; [|done].
  exact (strongly_sorted_last _ _ _ _ Ha Hp).
Qed.

Lemma py_index_newest {A} (l : list A) x : last l = Some x -> py_index l (-1) = Ok x.
Proof.
  intros Hl. assert (Hlen : (1 <= length l)%nat) by (destruct l; [done | simpl; lia]).
  unfold py_index. rewrite (proj2 (Z.ltb_lt (-1) 0)), (proj2 (Z.ltb_ge _ 0)) by lia.
  replace (Z.to_nat (-1 + Z.of_nat (length l))) with (Nat.pred (length l)) by lia.
  by rewrite <- last_lookup, Hl.
Qed.

(** ** The errors of a walk *)

Section walk.
Context (s : EvaluationSeries) (m h : Z).
Context (Hs : series_valid s m) (Hm : MINIMUM_EVALUATION_HISTORY <= m) (Hh : 0 < h).
Context (Hp : es_seasonal_period s <= m).

(** A split inside the walk yields the error of the baseline on the prefix. *)
Lemma split_error_ok b split :
  m <= split <= Z.of_nat (length (es_points s)) - h ->
  exists point outcome,
    baseline_point b (es_target s) (map pt_value (take (Z.to_nat split) (es_points s)))
      (es_seasonal_period s) = Ok point /\
    es_points s !! Z.to_nat (split + h - 1) = Some outcome /\
    split_error b s h split = Ok (point - pt_value outcome).
Proof using Hs Hm Hh Hp.
  intros Hsp. unfold MINIMUM_EVALUATION_HISTORY in Hm.
  assert (Hlen : length (take (Z.to_nat split) (es_points s)) = Z.to_nat split)
    by (rewrite length_take; lia).
  destruct (last (take (Z.to_nat split) (es_points s))) as [newest|] eqn:El.
  2: { apply last_None in El. rewrite El in Hlen. simpl in Hlen. lia. }
  pose proof (sv_period _ _ Hs) as Hper. unfold MINIMUM_SEASONAL_PERIOD in Hper.
  destruct (baseline_raw_ok b (map pt_value (take (Z.to_nat split) (es_points s)))
    (es_seasonal_period s)) as [z Hz]; [rewrite length_map; lia..|].
  destruct (lookup_lt_is_Some_2 (es_points s) (Z.to_nat (split + h - 1))) as [outcome Ho]; [lia|].
  exists (clamp_target (es_target s) z), outcome.
  assert (Hb : baseline_point b (es_target s) (map pt_value (take (Z.to_nat split) (es_points s)))
    (es_seasonal_period s) = Ok (clamp_target (es_target s) z)).
  { unfold baseline_point. rewrite length_map, Hlen, raise_when_false.
    - cbn [rbind]. by rewrite Hz.
    - unfold MIN_BASELINE_HISTORY. apply Z.ltb_ge. lia. }
  split; [done|]. split; [done|]. unfold split_error. rewrite (py_index_newest _ _ El). cbn [rbind].
  rewrite raise_when_false.
  - cbn [rbind]. rewrite Hb. cbn [rbind]. unfold py_index.
    assert (Hneg : (split + h - 1 <? 0) = false) by (apply Z.ltb_ge; lia).
    rewrite Hneg, Hneg. by rewrite Ho.
  - apply not_true_iff_false. intros (p & Hin & Hc)%existsb_exists.
    apply list_elem_of_In in Hin. pose proof (prefix_available _ _ _ _ _ Hs El Hin). lia.
Qed.
End walk.

Lemma py_range_bounds a b x : x ∈ py_range a b <-> a <= x < b.
Proof.
  unfold py_range. rewrite list_elem_of_In, in_map_iff. split.
  - intros (n & <- & Hn). apply in_seq in Hn. lia.
  - intros Hx. exists (Z.to_nat (x - a)). split; [lia|]. apply in_seq. lia.
Qed.

Lemma length_py_range a b : length (py_range a b) = Z.to_nat (b - a).
Proof. unfold py_range. by rewrite length_map, length_seq. Qed.

Fixpoint sum_abs (l : list Z) : Z :=
  match l with [] => 0 | e :: t => Z.abs e + sum_abs t end.
Fixpoint sum_sq (l : list Z) : Z :=
  match l with [] => 0 | e :: t => e * e + sum_sq t end.

(** The accumulators are the sums over the errors of the splits. *)
Lemma error_loop_errors b s h splits : forall es a q,
  res_map (split_error b s h) splits = Ok es ->
  error_loop b s h splits a q = Ok (a + sum_abs es, q + sum_sq es).
Proof.
  induction splits as [|x l IH]; intros es a q H; cbn [error_loop res_map] in *.
  { injection H as <-. cbn. by rewrite !Z.add_0_r. }
  apply rbind_ok in H as (e & He & H). apply rbind_ok in H as (es' & Hes & [= <-]).
  rewrite He. cbn [rbind]. rewrite (IH es' _ _ Hes). cbn [sum_abs sum_sq]. do 2 f_equal; lia.
Qed.

Lemma sum_abs_nonneg l : 0 <= sum_abs l.
Proof. induction l as [|e l IH]; cbn [sum_abs]; lia. Qed.

Lemma sum_sq_nonneg l : 0 <= sum_sq l.
Proof. induction l as [|e l IH]; cbn [sum_sq]; nia. Qed.

(** Cauchy-Schwarz on the errors. *)
Lemma sums_cauchy l : sum_abs l * sum_abs l <= Z.of_nat (length l) * sum_sq l.
Proof.
  induction l as [|e l IH]; [done|]. cbn [sum_abs sum_sq length]. rewrite Nat2Z.inj_succ.
  pose proof (sum_abs_nonneg l) as Ha. pose proof (sum_sq_nonneg l) as Hq.
  set (A := sum_abs l) in *. set (Q := sum_sq l) in *. set (n := Z.of_nat (length l)) in *.
  assert (Hn : 0 <= n) by lia. clearbody A Q n.
  assert (Habs : Z.abs e * Z.abs e = e * e) by (destruct (Z.abs_eq_or_opp e) as [-> | ->]; ring).
  set (x := Z.abs e) in *. assert (Hx : 0 <= x) by apply Z.abs_nonneg. clearbody x.
  rewrite <- Habs. destruct (Z.eq_dec n 0) as [->|Hn0]; [assert (A = 0) by nia; subst; nia|].
  assert (H2 : 2 * x * A <= n * (x * x) + Q).
  { apply (Z.mul_le_mono_pos_l _ _ n); [lia|].
    pose proof (Z.square_nonneg (n * x - A)). lia. }
  lia.
Qed.

Lemma mean_bounds l n :
  Z.of_nat (length l) = n -> 0 < n ->
  0 <= sum_abs l / n <= Z.sqrt (sum_sq l / n).
Proof.
  intros Hl Hn. pose proof (sums_cauchy l) as Hc. rewrite Hl in Hc.
  pose proof (sum_abs_nonneg l) as Ha. pose proof (sum_sq_nonneg l) as Hq.
  set (A := sum_abs l) in *. set (Q := sum_sq l) in *. clearbody A Q.
  assert (H0 : 0 <= A / n) by (apply Z.div_pos; lia). split; [done|].
  apply Z.sqrt_le_square; [apply Z.div_pos; lia | done |].
  apply Z.div_le_lower_bound; [done|].
  pose proof (Z.mul_div_le A n Hn) as Hd. set (a := A / n) in *. clearbody a.
  apply (Z.mul_le_mono_pos_l _ _ n); [lia|].
  assert (n * a * (n * a) <= A * A) by (apply Z.mul_le_mono_nonneg; lia). lia.
Qed.

(** ** What a report says *)

(** The splits of a walk and the errors of a baseline on them. *)
Definition splits_of (s : EvaluationSeries) (m h : Z) : list Z :=
  py_range m (Z.of_nat (length (es_points s)) - h + 1).
Definition walk_errors (s : EvaluationSeries) (m h : Z) (b : BaselineKind) : res (list Z) :=
  res_map (split_error b s h) (splits_of s m h).

(** [e] is the error at [split] of the prediction from the points before it, all
    available when the newest of them was, against a strictly later point. *)
Definition honest_error (b : BaselineKind) (s : EvaluationSeries) (h split e : Z) : Prop :=
  exists prefix newest rest point outcome,
    es_points s = prefix ++ newest :: rest /\ Z.of_nat (length prefix) + 1 = split /\
    baseline_point b (es_target s) (map pt_value (prefix ++ [newest])) (es_seasonal_period s)
      = Ok point /\
    es_points s !! Z.to_nat (split + h - 1) = Some outcome /\
    Forall (fun p => pt_available p <= pt_available newest /\
                     pt_event_time p < pt_event_time outcome) (prefix ++ [newest]) /\
    e = point - pt_value outcome.

Record metric_of (s : EvaluationSeries) (m h : Z) (x : BaselineMetric) : Prop := {
  mo_errors : exists es,
    Forall2 (honest_error (bm_baseline x) s h) (splits_of s m h) es /\
    mean_absolute_error x = sum_abs es / Z.of_nat (length es) /\
    root_mean_squared_error x = Z.sqrt (sum_sq es / Z.of_nat (length es));
  mo_bounds : 0 <= mean_absolute_error x <= root_mean_squared_error x;
}.

Record dataset_valid (d : list (ForecastTarget * EvaluationSeries)) (m h seed : Z) : Prop := {
  dv_keys : same_keys (map fst d) REQUIRED_EVALUATION_TARGETS = true;
  dv_config : MINIMUM_EVALUATION_HISTORY <= m /\ 0 < h /\ 0 < seed;
  dv_series : Forall (fun t => exists s, od_get t d = Some s /\ es_target s = t /\
    series_valid s m /\ m + h <= Z.of_nat (length (es_points s)) /\ es_seasonal_period s <= m)
    REQUIRED_EVALUATION_TARGETS;
  dv_digest : exists digest, dataset_digest d = Ok digest;
}.

Section report.
Context (s : EvaluationSeries) (m h : Z).
Context (Hs : series_valid s m) (Hm : MINIMUM_EVALUATION_HISTORY <= m) (Hh : 0 < h).

Lemma split_honest b split :
  es_seasonal_period s <= m -> m <= split <= Z.of_nat (length (es_points s)) - h ->
  exists e, split_error b s h split = Ok e /\ honest_error b s h split e.
Proof using Hs Hm Hh.
  intros Hp Hsp. destruct (split_error_ok s m h Hs Hm Hh Hp b split Hsp) as (point & outcome & Hb & Ho & He).
  exists (point - pt_value outcome). split; [done|]. unfold MINIMUM_EVALUATION_HISTORY in Hm.
  set (n := Z.to_nat split) in *.
  destruct (last (take n (es_points s))) as [newest|] eqn:El.
  2: { apply last_None in El. apply (f_equal length) in El. rewrite length_take in El. simpl in El. lia. }
  pose proof (prefix_available s m n) as Hav. apply last_Some in El as [prefix El].
  exists prefix, newest, (drop n (es_points s)), point, outcome.
  assert (Hlen : length (take n (es_points s)) = n) by (rewrite length_take; lia).
  rewrite El in Hlen. rewrite length_app in Hlen. simpl in Hlen.
  split; [rewrite <- (take_drop n (es_points s)) at 1; rewrite El, <- app_assoc; done|].
  split; [lia|]. rewrite <- El. split; [done|]. split; [done|]. split; [|done].
  apply Forall_forall. intros p Hin. split.
  - apply (Hav p newest Hs); [rewrite El; apply last_snoc | done].
  - apply list_elem_of_lookup_1 in Hin as [i Hi]. apply lookup_take_Some in Hi as [Hi Hlt].
    apply (strongly_sorted_nth _ _ i (Z.to_nat (split + h - 1)) _ _ (sv_events _ _ Hs));
      [lia | done | done].
Qed.

Lemma walk_errors_ok b :
  es_seasonal_period s <= m -> exists es, walk_errors s m h b = Ok es /\
    Forall2 (honest_error b s h) (splits_of s m h) es.
Proof using Hs Hm Hh.
  intros Hp. apply res_map_exists. intros split Hin%py_range_bounds. apply split_honest; [done | lia].
Qed.

Lemma baseline_metric_ok b samples :
  es_seasonal_period s <= m -> samples = Z.of_nat (length (es_points s)) - m - h + 1 -> 0 < samples ->
  exists x, baseline_metric s m h samples b = Ok x /\ bm_baseline x = b /\ metric_of s m h x.
Proof using Hs Hm Hh.
  intros Hp Hn Hpos. destruct (walk_errors_ok b Hp) as (es & He & Hf).
  unfold baseline_metric. unfold walk_errors, splits_of in He.
  rewrite (error_loop_errors _ _ _ _ _ 0 0 He). cbn [rbind fst snd]. eexists. split; [done|].
  split; [done|]. rewrite !Z.add_0_l.
  assert (Hlen : Z.of_nat (length es) = samples).
  { apply Forall2_length in Hf. unfold splits_of in Hf. rewrite length_py_range in Hf. lia. }
  split; cbn; [|by apply mean_bounds]. exists es. by rewrite Hlen.
Qed.
End report.

Definition target_report (d : list (ForecastTarget * EvaluationSeries)) (m h : Z)
    (t : ForecastTarget) (r : TargetEvaluation) : Prop :=
  exists s baselines, od_get t d = Some s /\ BASELINES_BY_TARGET t = Ok baselines /\
    te_target r = t /\ map bm_baseline (te_metrics r) = baselines /\
    sample_count r = Z.of_nat (length (splits_of s m h)) /\ 0 < sample_count r /\
    Forall (metric_of s m h) (te_metrics r).

Lemma evaluate_target_ok d m h t s :
  MINIMUM_EVALUATION_HISTORY <= m -> 0 < h -> t ∈ REQUIRED_EVALUATION_TARGETS ->
  od_get t d = Some s -> es_target s = t -> series_valid s m ->
  m + h <= Z.of_nat (length (es_points s)) -> es_seasonal_period s <= m ->
  exists r, evaluate_target d m h t = Ok r /\ target_report d m h t r.
Proof.
  intros Hm Hh Ht Hg Et Hs Hlen Hp. unfold evaluate_target. rewrite Hg. cbn [rbind].
  rewrite bool_decide_eq_true_2 by done. cbn [negb raise_when rbind].
  rewrite (proj2 (validate_series_ok s m tt) Hs). cbn [rbind].
  rewrite raise_when_false by lia. cbn [rbind].
  assert (Hb : exists bs, BASELINES_BY_TARGET t = Ok bs).
  { repeat (apply elem_of_cons in Ht as [-> | Ht]; [eexists; reflexivity|]). by apply elem_of_nil in Ht. }
  destruct Hb as [bs Hbs]. rewrite Hbs. cbn [rbind].
  destruct (res_map_exists (baseline_metric s m h (Z.of_nat (length (es_points s)) - m - h + 1))
    (fun b x => bm_baseline x = b /\ metric_of s m h x) bs) as (xs & Hx & Hf).
  { intros b _. apply (baseline_metric_ok s m h Hs Hm Hh); [done | done | lia]. }
  rewrite Hx. cbn [rbind]. eexists. split; [done|]. exists s, bs. cbn.
  repeat (split; [done|]). split; [|split].
  - clear -Hf. induction Hf as [|b x bs xs [E _] _ IH]; cbn; [done | by rewrite E, IH].
  - unfold splits_of. rewrite length_py_range. lia.
  - split; [lia|]. clear -Hf. induction Hf as [|b x bs xs [_ E] _ IH]; by constructor.
Qed.

Lemma baseline_needs_period b t values period z :
  baseline_point b t values period = Ok z -> period <= Z.of_nat (length values).
Proof.
  unfold baseline_point. intros H. apply rbind_ok in H as ([] & H & _). apply raise_when_ok in H. lia.
Qed.

Lemma evaluate_target_valid d m h t r :
  MINIMUM_EVALUATION_HISTORY <= m -> 0 < h -> evaluate_target d m h t = Ok r ->
  exists s, od_get t d = Some s /\ es_target s = t /\ series_valid s m /\
    m + h <= Z.of_nat (length (es_points s)) /\ es_seasonal_period s <= m.
Proof.
  intros Hm Hh H. unfold evaluate_target in H.
  apply rbind_ok in H as (s & Hg & H). destruct (od_get t d) as [s'|] eqn:Eg; [|done]. injection Hg as ->.
  apply rbind_ok in H as ([] & H1 & H). apply raise_when_ok in H1. bprop.
  apply rbind_ok in H as ([] & H2 & H). apply validate_series_ok in H2.
  apply rbind_ok in H as ([] & H3 & H). apply raise_when_ok in H3.
  apply rbind_ok in H as (bs & Hb & H). apply rbind_ok in H as (xs & Hx & _).
  exists s. repeat (split; [done|]). split; [lia|].
  assert (Hbs : exists b bs', bs = b :: bs') by (destruct t; inversion Hb; eauto).
  destruct Hbs as (b & bs' & ->). cbn [res_map] in Hx. apply rbind_ok in Hx as (x & Hx & _).
  unfold baseline_metric in Hx. apply rbind_ok in Hx as (e & He & _).
  assert (Hr : exists l, py_range m (Z.of_nat (length (es_points s)) - h + 1) = m :: l).
  { unfold py_range. destruct (Z.to_nat _) as [|n] eqn:En; [lia|]. cbn.
    rewrite Z.add_0_r. eauto. }
  destruct Hr as [l Hr]. rewrite Hr in He. cbn [error_loop] in He.
  apply rbind_ok in He as (e0 & He & _). unfold split_error in He.
  apply rbind_ok in He as (newest & _ & He). apply rbind_ok in He as ([] & _ & He).
  apply rbind_ok in He as (z & Hz & _). apply baseline_needs_period in Hz.
  rewrite length_map, length_take in Hz. unfold MINIMUM_EVALUATION_HISTORY in Hm. lia.
Qed.

(** ** Extending a series *)

Lemma range_shift a b n : forall i j, a + Z.of_nat i = b + Z.of_nat j ->
  map (fun k => a + Z.of_nat k) (List.seq i n) = map (fun k => b + Z.of_nat k) (List.seq j n).
Proof.
  induction n as [|n IH]; intros i j H; cbn [List.seq map]; [done|]. f_equal; [done | apply IH; lia].
Qed.

Lemma py_range_app a b c : a <= b <= c -> py_range a c = py_range a b ++ py_range b c.
Proof.
  intros H. unfold py_range.
  replace (Z.to_nat (c - a)) with (Z.to_nat (b - a) + Z.to_nat (c - b))%nat by lia.
  rewrite seq_app, map_app. f_equal. cbn [Nat.add].
  apply range_shift. lia.
Qed.

Definition extended (s : EvaluationSeries) (more : list TimeSeriesPoint) : EvaluationSeries :=
  {| es_target := es_target s; es_points := es_points s ++ more;
     es_seasonal_period := es_seasonal_period s |}.

Lemma split_error_extended s more b h split :
  0 <= split -> 0 < h -> split + h <= Z.of_nat (length (es_points s)) ->
  split_error b (extended s more) h split = split_error b s h split.
Proof.
  intros H0 Hh Hlen. unfold split_error. cbn [extended es_points es_target es_seasonal_period].
  rewrite take_app_le by lia. unfold py_index at 2 4.
  rewrite (proj2 (Z.ltb_ge (split + h - 1) 0)) by lia. by rewrite lookup_app_l by lia.
Qed.

(** ** Sample dataset *)

Definition eval_point (n : nat) : TimeSeriesPoint :=
  {| pt_event_time := Z.of_nat n + 1; pt_available := Z.of_nat n + 5;
     pt_value := 100 + 3 * (Z.of_nat n) |}.
Definition eval_series (t : ForecastTarget) : EvaluationSeries :=
  {| es_target := t; es_points := map eval_point (List.seq 0 12); es_seasonal_period := 4 |}.
Definition eval_dataset : list (ForecastTarget * EvaluationSeries) :=
  map (fun t => (t, eval_series t)) [SPREAD; VOLUME; RETURN; REALIZED_VOLATILITY].

Example eval_sample :
  match compare_baselines_walk_forward eval_dataset 6 2 1 with
  | Ok r => map sample_count (wf_targets r) = [5; 5; 5; 5] /\
            map (map mean_absolute_error) (map te_metrics (wf_targets r))
            = [[6; 15; 3; 5; 9]; [6; 15; 124; 5; 9]; [6; 15; 3; 5; 9]; [6; 15; 3; 5; 9]]
  | Err _ => False
  end.
Proof. vm_compute. split; reflexivity. Qed.

(** ** Properties *)

(** The walk-forward evaluation is honest and total.  It reports exactly on
    valid datasets: the four targets, each series ordered by event and by
    availability and long enough, and the seasonal period within the minimum
    history.  Each metric is the floored mean of the errors of every split, where
    a prediction uses only points that were available when the newest of them was
    and is scored against a strictly later point; the leakage guard never fires.
    The mean absolute error never exceeds the root mean squared error. *)
Theorem walk_forward_exact d m h seed :
  (dataset_valid d m h seed ->
     exists r, compare_baselines_walk_forward d m h seed = Ok r /\
       Forall2 (target_report d m h) REQUIRED_EVALUATION_TARGETS (wf_targets r) /\
       dataset_digest d = Ok (wf_dataset_sha256 r) /\ wf_seed r = seed) /\
  (~ dataset_valid d m h seed ->
     exists e, compare_baselines_walk_forward d m h seed = Err e).
Proof.
  split.
  - intros [Hk (Hm & Hh & Hseed) Hser [digest Hd]]. unfold compare_baselines_walk_forward.
    rewrite Hk. cbn [negb raise_when rbind]. rewrite raise_when_false by lia. cbn [rbind].
    destruct (res_map_exists (evaluate_target d m h) (target_report d m h)
      REQUIRED_EVALUATION_TARGETS) as (rs & Hrs & Hf).
    { intros t Ht. rewrite Forall_forall in Hser.
      destruct (Hser t Ht) as (s & ? & ? & ? & ? & ?). by apply (evaluate_target_ok d m h t s). }
    rewrite Hrs, Hd. cbn [rbind]. eauto.
  - intros Hn. destruct (compare_baselines_walk_forward d m h seed) as [r|e] eqn:E; [|eauto].
    destruct Hn. unfold compare_baselines_walk_forward in E.
    apply rbind_ok in E as ([] & H1 & E). apply rbind_ok in E as ([] & H2 & E).
    apply raise_when_ok in H1, H2. bprop.
    apply rbind_ok in E as (rs & Hrs & E). apply rbind_ok in E as (digest & Hd & _).
    split; [done | lia | | eauto]. apply Forall_forall. intros t [n Hn]%list_elem_of_lookup_1.
    apply res_map_ok in Hrs. destruct (Forall2_lookup_l _ _ _ _ _ Hrs Hn) as (r' & _ & Hr).
    apply (evaluate_target_valid d m h t r'); [lia | lia | done].
Qed.

Lemma walk_forward_exact_witness :
  exists r, compare_baselines_walk_forward eval_dataset 6 2 1 = Ok r /\
    Forall2 (target_report eval_dataset 6 2) REQUIRED_EVALUATION_TARGETS (wf_targets r).
Proof.
  destruct (walk_forward_exact eval_dataset 6 2 1) as [H _].
  destruct H as (r & Hr & Hf & _).
  - split.
    + vm_compute. reflexivity.
    + vm_compute. repeat split; discriminate.
    + repeat (apply Forall_cons; split); [..|apply Forall_nil_2];
        (eexists; split; [vm_compute; reflexivity|]; split; [reflexivity|];
         split; [apply (validate_series_ok _ 6 tt); vm_compute; reflexivity|];
         split; vm_compute; discriminate).
    + eexists. vm_compute. reflexivity.
  - exists r. split; [exact Hr | exact Hf].
Defined.

(** Later observations never change an earlier score.  When a series is
    extended, the errors of the extended walk are the errors of the original walk
    followed by those of the new splits, for every baseline. *)
Theorem walk_forward_append_only s more m h b es es' :
  MINIMUM_EVALUATION_HISTORY <= m -> 0 < h ->
  m + h <= Z.of_nat (length (es_points s)) + 1 ->
  walk_errors s m h b = Ok es -> walk_errors (extended s more) m h b = Ok es' ->
  exists new, es' = es ++ new /\ length new = length more.
Proof.
  unfold MINIMUM_EVALUATION_HISTORY. intros Hm Hh Hlen H H'.
  unfold walk_errors, splits_of in H'. cbn [extended es_points] in H'. rewrite length_app in H'.
  rewrite (py_range_app m (Z.of_nat (length (es_points s)) - h + 1)) in H' by lia.
  apply res_map_ok in H'. apply Forall2_app_inv_l in H' as (es1 & new & H1 & H2 & ->).
  exists new. split.
  - f_equal. apply res_map_ok in H1. unfold walk_errors in H.
    assert (E : res_map (split_error b (extended s more) h) (splits_of s m h)
              = res_map (split_error b s h) (splits_of s m h)).
    { assert (Hb : Forall (fun x => 0 <= x /\ x + h <= Z.of_nat (length (es_points s)))
        (splits_of s m h)) by (apply Forall_forall; intros x Hx%py_range_bounds; lia).
      clear -Hb Hh. induction Hb as [|x l [Hx0 Hx1] _ IH]; cbn [res_map]; [done|].
      rewrite split_error_extended by lia. by rewrite IH. }
    fold (splits_of s m h) in H1. rewrite E, H in H1. by injection H1 as <-.
  - apply Forall2_length in H2. rewrite length_py_range in H2. lia.
Qed.

Lemma walk_forward_append_only_witness :
  exists es es' new, walk_errors (eval_series VOLUME) 6 2 ARIMA_COMPATIBLE = Ok es /\
    walk_errors (extended (eval_series VOLUME) [eval_point 40]) 6 2 ARIMA_COMPATIBLE = Ok es' /\
    es' = es ++ new.
Proof.
  destruct (walk_errors (eval_series VOLUME) 6 2 ARIMA_COMPATIBLE) as [es|e] eqn:E;
    [|vm_compute in E; discriminate E].
  destruct (walk_errors (extended (eval_series VOLUME) [eval_point 40]) 6 2 ARIMA_COMPATIBLE)
    as [es'|e] eqn:E'; [|vm_compute in E'; discriminate E'].
  destruct (walk_forward_append_only (eval_series VOLUME) [eval_point 40] 6 2 ARIMA_COMPATIBLE
    es es') as (new & Hn & _).
  - vm_compute. discriminate.
  - reflexivity.
  - vm_compute. discriminate.
  - exact E.
  - exact E'.
  - exists es, es', new. split; [reflexivity|]. split; [reflexivity | exact Hn].
Defined.
