(* ===== verification/TransportSecurity.v ===== *)
(** * Transport security

    Models [python/model_serving/aegis_mx_timeseries/transport_security.py]:
    service identities and permissions, the authorization policy, mounted
    secrets, the rotation of the TLS context and the rate limiter.  The file
    system, the TLS context builder and the clock are inputs: [fs n] is the file
    system at the [n]-th access, since mounted files may change between any two.
    The locks make each operation a single step. *)

From S2P Require Import Prelude PyText Sha256.
Open Scope Z_scope.

Definition NANOSECONDS_PER_SECOND : Z := 1000000000.
Definition MAX_SECRET_BYTES : Z := 2 ^ 20.
Definition MAX_IDENTITY_BINDINGS : Z := 256.
Definition MAX_RATE_PER_SECOND : Z := 100000.
Definition MAX_BURST : Z := 100000.

(** ** Names *)

(** [[first][rest]{0,n}], the whole string. *)
Definition matches_label (first rest : Z -> bool) (n : nat) (s : pystr) : bool :=
  match s with
  | [] => false
  | c :: t => first c && forallb rest t && (length t <=? n)%nat
  end.

(** [_SECRET_NAME] *)
Definition secret_name : pystr -> bool :=
  matches_label (fun c => is_upper c || is_lower c || is_decimal c)
    (fun c => is_upper c || is_lower c || is_decimal c
              || (c =? 95) || (c =? 46) || (c =? 45)) 127.

Definition identity_label : nat -> pystr -> bool :=
  matches_label (fun c => is_lower c || is_decimal c)
    (fun c => is_lower c || is_decimal c || (c =? 45)).

(** [_SPIFFE_ID]: the trust domain, then two labels. *)
Definition spiffe_prefix : pystr := str "spiffe://aegis-mx/".
Definition spiffe_id (s : pystr) : bool :=
  startswith spiffe_prefix s &&
  match partition_char 47 (drop (length spiffe_prefix) s) with
  | (namespace, Some service) => identity_label 31 namespace && identity_label 63 service
  | (_, None) => false
  end.

(** ** Identities and permissions *)

Inductive ServicePermission := READ_STATUS | READ_METRICS | FORECAST | BUILD_CONTEXT.
#[export] Instance ServicePermission_eq_dec : EqDecision ServicePermission.
Proof. solve_decision. Defined.
#[export] Instance ServicePermission_countable : Countable ServicePermission.
Proof.
  refine (inj_countable (fun p => match p with READ_STATUS => 0%nat | READ_METRICS => 1%nat
                                  | FORECAST => 2%nat | BUILD_CONTEXT => 3%nat end)
    (fun n => match n with 0%nat => Some READ_STATUS | 1%nat => Some READ_METRICS
              | 2%nat => Some FORECAST | 3%nat => Some BUILD_CONTEXT | _ => None end) _).
  by intros [].
Defined.

(** [ServicePermission(value)] *)
Definition ServicePermission_of (s : pystr) : res ServicePermission :=
  if bool_decide (s = str "read_status") then Ok READ_STATUS
  else if bool_decide (s = str "read_metrics") then Ok READ_METRICS
  else if bool_decide (s = str "forecast") then Ok FORECAST
  else if bool_decide (s = str "build_context") then Ok BUILD_CONTEXT
  else raise ValueError "not a valid ServicePermission".

Record ServiceIdentity := { uri : pystr }.
#[export] Instance ServiceIdentity_eq_dec : EqDecision ServiceIdentity.
Proof. solve_decision. Defined.

Definition new_identity (s : pystr) : res ServiceIdentity :=
  do! raise_when (negb (spiffe_id s)) ValueError
        "service identity is outside the Aegis-MX trust domain" in
  Ok {| uri := s |}.

Record IdentityBinding := {
  ib_identity : ServiceIdentity;
  ib_permissions : gset ServicePermission;
}.

Definition new_binding (i : ServiceIdentity) (ps : gset ServicePermission) : res IdentityBinding :=
  do! raise_when (bool_decide (ps = ∅)) ValueError
        "identity binding must grant at least one permission" in
  Ok {| ib_identity := i; ib_permissions := ps |}.

Definition permission_for_request (method path : pystr) : res ServicePermission :=
  if bool_decide (method = str "GET") && bool_decide (path = str "/metrics")
  then Ok READ_METRICS
  else if bool_decide (method = str "GET")
          && bool_decide (path ∈ map str ["/healthz"; "/readyz"; "/version"; "/configuration"]%string)
  then Ok READ_STATUS
  else if bool_decide (method = str "POST") && bool_decide (path = str "/v1/forecast")
  then Ok FORECAST
  else if bool_decide (method = str "POST") && bool_decide (path = str "/v1/context")
  then Ok BUILD_CONTEXT
  else raise TransportSecurityError "request has no authorized service capability".

(** A value inside the mapping that [getpeercert] returns. *)
Inductive cert_value := CStr (s : pystr) | CTuple (l : list cert_value) | COther.
Notation certificate := (list (pystr * cert_value)) (only parsing).

(** The guard of the loop: a pair of [URI] and a [spiffe] text. *)
Definition spiffe_name (v : cert_value) : option pystr :=
  match v with
  | CTuple [CStr k; CStr s] =>
      if bool_decide (k = str "URI") && startswith (str "spiffe://") s then Some s else None
  | _ => None
  end.

(** The loop of [peer_service_identity]. *)
Fixpoint peer_identities (l : list cert_value) : res (list ServiceIdentity) :=
  match l with
  | [] => Ok []
  | v :: t =>
      match spiffe_name v with
      | Some s =>
          let! i := try_except (new_identity s) [ValueError]
                      (fun e => raise TransportSecurityError (exn_msg e)) in
          let! rest := peer_identities t in
          Ok (i :: rest)
      | None => peer_identities t
      end
  end.

Definition peer_service_identity (c : certificate) : res ServiceIdentity :=
  match od_get (str "subjectAltName") c with
  | Some (CTuple names) =>
      let! ids := peer_identities names in
      match ids with
      | [i] => Ok i
      | _ => raise TransportSecurityError
               "peer certificate must contain exactly one Aegis-MX service identity"
      end
  | _ => raise TransportSecurityError "peer certificate has no subject alternative names"
  end.

Definition require_peer_service_identity (c : certificate) (expected : ServiceIdentity)
    : res ServiceIdentity :=
  let! actual := peer_service_identity c in
  do! raise_when (negb (bool_decide (actual = expected))) TransportSecurityError
        "peer service identity does not match the expected endpoint" in
  Ok actual.

(** ** The policy *)

Notation policy := (list (pystr * gset ServicePermission)) (only parsing).

(** [IdentityPolicy.__init__] *)
Definition new_policy (bindings : list IdentityBinding) : res policy :=
  do! raise_when (bool_decide (bindings = [])
                  || (MAX_IDENTITY_BINDINGS <? Z.of_nat (length bindings))) ValueError
        "identity binding count is invalid" in
  let d := foldl (fun d b => od_set (uri (ib_identity b)) (ib_permissions b) d) [] bindings in
  do! raise_when (negb (Z.of_nat (length d) =? Z.of_nat (length bindings))) ValueError
        "duplicate service identity binding" in
  Ok d.

(** [IdentityPolicy.authorize] *)
Definition authorize (p : policy) (c : certificate) (method path : pystr) : res ServiceIdentity :=
  let! identity := peer_service_identity c in
  let! required := permission_for_request method path in
  do! raise_when (negb (bool_decide (required ∈ default ∅ (od_get (uri identity) p))))
        TransportSecurityError "service identity is not authorized for this operation" in
  Ok identity.

(** The body of the loop of [parse_identity_bindings]. *)
Definition parse_binding (value : pystr) : res IdentityBinding :=
  match partition_char 61 value with
  | (_, None) => raise ValueError "client identity binding is malformed"
  | (identity_text, Some raw) =>
      let! permissions := try_except
        (res_map ServicePermission_of
           (List.filter (fun item => negb (bool_decide (item = []))) (split_char 44 raw)))
        [ValueError]
        (fun _ => raise ValueError "client identity binding contains an invalid permission") in
      let! identity := new_identity identity_text in
      new_binding identity (list_to_set permissions)
  end.

Definition parse_identity_bindings (values : list pystr) : res (list IdentityBinding) :=
  res_map parse_binding values.

(** ** Mounted secrets *)

Record PyPath := { is_absolute : bool; parts : list pystr }.
#[export] Instance PyPath_eq_dec : EqDecision PyPath.
Proof. solve_decision. Defined.

Record stat_result := { st_mode : Z; st_size : Z }.

(** [stat.S_ISREG] and [stat.S_IMODE] *)
Definition S_ISREG (mode : Z) : bool := Z.land mode (15 * 2 ^ 12) =? 2 ^ 15.
Definition S_IMODE (mode : Z) : Z := Z.land mode (2 ^ 12 - 1).

(** The calls on the file system: [resolve(strict=True)], [is_dir], [stat] and
    [read_bytes], with the exceptions they raise. *)
Record FileSystem := {
  fs_resolve : PyPath -> res PyPath;
  fs_is_dir : PyPath -> bool;
  fs_stat : PyPath -> res stat_result;
  fs_read_bytes : PyPath -> res pybytes;
}.

(** [except OSError as error: raise TransportSecurityError(msg) from error] *)
Definition or_raise {A} (m : res A) (msg : string) : res A :=
  try_except m [OSError] (fun _ => raise TransportSecurityError msg).

(** [path / name] and [path.is_relative_to(root)] *)
Definition joined (p : PyPath) (name : pystr) : PyPath :=
  {| is_absolute := is_absolute p; parts := parts p ++ [name] |}.
Definition is_relative_to (p root : PyPath) : bool :=
  bool_decide (is_absolute p = is_absolute root)
  && bool_decide (take (length (parts root)) (parts p) = parts root).

Record MountedSecretProvider := { sp_root : PyPath; sp_maximum_bytes : Z }.

Definition new_provider (fs : nat -> FileSystem) (root : PyPath) (maximum_bytes : Z)
    : res MountedSecretProvider :=
  do! raise_when (negb (is_absolute root) || (maximum_bytes <=? 0)
                  || (MAX_SECRET_BYTES <? maximum_bytes)) ValueError
        "secret root or byte limit is invalid" in
  let! resolved := or_raise (fs_resolve (fs 0%nat) root) "secret root is unavailable" in
  do! raise_when (negb (fs_is_dir (fs 1%nat) resolved)) TransportSecurityError
        "secret root is not a directory" in
  Ok {| sp_root := resolved; sp_maximum_bytes := maximum_bytes |}.

(** [MountedSecretProvider.path], from the [n]-th access. *)
Definition secret_path (fs : nat -> FileSystem) (n : nat) (p : MountedSecretProvider)
    (name : pystr) (private : bool) : res PyPath :=
  do! raise_when (negb (secret_name name)) TransportSecurityError "secret name is invalid" in
  let! resolved := or_raise (fs_resolve (fs n) (joined (sp_root p) name)) "secret is unavailable" in
  let! info := or_raise (fs_stat (fs (S n)) resolved) "secret is unavailable" in
  do! raise_when (negb (is_relative_to resolved (sp_root p)) || negb (S_ISREG (st_mode info)))
        TransportSecurityError "secret path escapes its mount or is not a regular file" in
  do! raise_when ((st_size info <=? 0) || (sp_maximum_bytes p <? st_size info))
        TransportSecurityError "secret is empty or exceeds its byte limit" in
  do! raise_when (negb (Z.land (S_IMODE (st_mode info)) 18 =? 0)) TransportSecurityError
        "secret is writable outside its owner" in
  do! raise_when (private && negb (Z.land (S_IMODE (st_mode info)) 7 =? 0))
        TransportSecurityError "private secret is world accessible" in
  Ok resolved.

(** [MountedSecretProvider.read] *)
Definition secret_read (fs : nat -> FileSystem) (n : nat) (p : MountedSecretProvider)
    (name : pystr) (private : bool) : res pybytes :=
  let! path := secret_path fs n p name private in
  let! payload := or_raise (fs_read_bytes (fs (n + 2)%nat) path) "secret could not be read" in
  do! raise_when (bool_decide (payload = [])
                  || (sp_maximum_bytes p <? Z.of_nat (length payload)))
        TransportSecurityError "secret changed outside its byte bound" in
  Ok payload.

(** ** TLS rotation *)

Record TLSMaterial := {
  certificate_name : pystr;
  private_key_name : pystr;
  trust_bundle_name : pystr;
  service_identity : ServiceIdentity;
  reload_interval_ns : Z;
}.

Definition TLSMaterial_post_init (m : TLSMaterial) : res unit :=
  do! raise_when (existsb (fun name => negb (secret_name name))
                    [certificate_name m; private_key_name m; trust_bundle_name m]) ValueError
        "TLS material contains an invalid secret name" in
  raise_when (negb ((0 <? reload_interval_ns m)
                    && (reload_interval_ns m <=? 60 * NANOSECONDS_PER_SECOND))) ValueError
    "TLS reload interval is invalid".

Section rotation.
Context {SSLContext : Type}.

Record RotatingTLSContext := {
  rt_provider : MountedSecretProvider;
  rt_material : TLSMaterial;
  rt_context : option SSLContext;
  rt_digest : pybytes;
  rt_next_check_ns : Z;
  rt_generation : Z;
}.

Definition new_rotating (p : MountedSecretProvider) (m : TLSMaterial) : RotatingTLSContext :=
  {| rt_provider := p; rt_material := m; rt_context := None; rt_digest := [];
     rt_next_check_ns := 0; rt_generation := 0 |}.

Definition set_context (c : SSLContext) (digest : pybytes) (r : RotatingTLSContext) :=
  {| rt_provider := rt_provider r; rt_material := rt_material r; rt_context := Some c;
     rt_digest := digest; rt_next_check_ns := rt_next_check_ns r;
     rt_generation := rt_generation r + 1 |}.
Definition set_next_check (t : Z) (r : RotatingTLSContext) :=
  {| rt_provider := rt_provider r; rt_material := rt_material r; rt_context := rt_context r;
     rt_digest := rt_digest r; rt_next_check_ns := t; rt_generation := rt_generation r |}.

(** The material read by one check: paths, trust bundle and digest. *)
Definition read_material (fs : nat -> FileSystem) (p : MountedSecretProvider) (m : TLSMaterial)
    : res (PyPath * PyPath * pybytes * pybytes) :=
  let! cert := secret_path fs 0 p (certificate_name m) false in
  let! key := secret_path fs 2 p (private_key_name m) true in
  let! trust := secret_read fs 4 p (trust_bundle_name m) false in
  let! cert_bytes := secret_read fs 7 p (certificate_name m) false in
  let! key_bytes := secret_read fs 10 p (private_key_name m) true in
  Ok (cert, key, trust, sha256 (cert_bytes ++ key_bytes ++ trust)).

(** [current] at clock reading [now]; [factory] is the context builder. *)
Definition current (factory : PyPath -> PyPath -> pybytes -> res SSLContext)
    (fs : nat -> FileSystem) (now : Z) : M RotatingTLSContext SSLContext :=
  self <~ st_get id ;;
  match rt_context self with
  | Some c =>
      if now <? rt_next_check_ns self then st_ret c else
      m <~ st_lift (read_material fs (rt_provider self) (rt_material self)) ;;
      let '(cert, key, trust, digest) := m in
      if bool_decide (digest = rt_digest self) then
        st_put (set_next_check (now + reload_interval_ns (rt_material self))) ;;~ st_ret c
      else
        c' <~ st_lift (factory cert key trust) ;;
        st_put (set_context c' digest) ;;~
        st_put (set_next_check (now + reload_interval_ns (rt_material self))) ;;~ st_ret c'
  | None =>
      m <~ st_lift (read_material fs (rt_provider self) (rt_material self)) ;;
      let '(cert, key, trust, digest) := m in
      c' <~ st_lift (factory cert key trust) ;;
      st_put (set_context c' digest) ;;~
      st_put (set_next_check (now + reload_interval_ns (rt_material self))) ;;~ st_ret c'
  end.
End rotation.
Arguments RotatingTLSContext : clear implicits.

(** ** The rate limiter *)

Record Bucket := { token_nanos : Z; updated_ns : Z }.

Record IdentityRateLimiter := {
  rl_rate : Z;
  rl_capacity : Z;
  rl_maximum_identities : Z;
  rl_buckets : list (pystr * Bucket);
}.

Definition new_limiter (rate_per_second burst maximum_identities : Z) : res IdentityRateLimiter :=
  do! raise_when (negb ((0 <? rate_per_second) && (rate_per_second <=? MAX_RATE_PER_SECOND))
                  || negb ((0 <? burst) && (burst <=? MAX_BURST))
                  || negb ((0 <? maximum_identities)
                           && (maximum_identities <=? MAX_IDENTITY_BINDINGS))) ValueError
        "rate limiter configuration is invalid" in
  Ok {| rl_rate := rate_per_second; rl_capacity := burst * NANOSECONDS_PER_SECOND;
        rl_maximum_identities := maximum_identities; rl_buckets := [] |}.

Definition set_bucket (i : pystr) (b : Bucket) (l : IdentityRateLimiter) : IdentityRateLimiter :=
  {| rl_rate := rl_rate l; rl_capacity := rl_capacity l;
     rl_maximum_identities := rl_maximum_identities l;
     rl_buckets := od_set i b (rl_buckets l) |}.

(** [allow] at clock reading [now]. *)
Definition allow (i : ServiceIdentity) (now : Z) (l : IdentityRateLimiter)
    : IdentityRateLimiter * bool :=
  let refill (b : Bucket) (l : IdentityRateLimiter) :=
    if now <? updated_ns b then (l, false) else
    let elapsed := now - updated_ns b in
    let tokens := Z.min (rl_capacity l) (token_nanos b + elapsed * rl_rate l) in
    if tokens <? NANOSECONDS_PER_SECOND
    then (set_bucket (uri i) {| token_nanos := tokens; updated_ns := now |} l, false)
    else (set_bucket (uri i)
            {| token_nanos := tokens - NANOSECONDS_PER_SECOND; updated_ns := now |} l, true) in
  match od_get (uri i) (rl_buckets l) with
  | Some b => refill b l
  | None =>
      if rl_maximum_identities l <=? Z.of_nat (length (rl_buckets l)) then (l, false) else
      let b := {| token_nanos := rl_capacity l; updated_ns := now |} in
      refill b (set_bucket (uri i) b l)
  end.

(** ** Identity names *)

Lemma startswith_app p s : startswith p s = true <-> exists t, s = p ++ t.
Proof.
  revert s. induction p as [|c p IH]; intros s; cbn [startswith].
  - split; [intros _; by exists s | done].
  - destruct s as [|d s]; [split; [done | by intros [t ?]]|].
    rewrite andb_true_iff, Z.eqb_eq, IH. split.
    + intros [-> [t ->]]. by exists t.
    + intros [t [= -> ->]]. eauto.
Qed.

Lemma partition_char_spec sep s a o :
  partition_char sep s = (a, o) <->
  sep ∉ a /\ s = match o with Some b => a ++ sep :: b | None => a end.
Proof.
  revert a o. induction s as [|c s IH]; intros a o; cbn [partition_char].
  - split; [intros [= <- <-]; split; [set_solver | done]|].
    intros [_ H]. destruct o; [by destruct a|]. by subst.
  - destruct (Z.eqb_spec c sep) as [->|Hne].
    + split; [intros [= <- <-]; split; [set_solver | done]|]. intros [Ha H].
      destruct a as [|x a].
      * destruct o as [b|]; [|done]. by injection H as ->.
      * destruct Ha. destruct o; injection H as -> _; left.
    + destruct (partition_char sep s) as [a' o'] eqn:E.
      destruct (proj1 (IH a' o') eq_refl) as [Ha' Hs]. split.
      * intros [= <- <-]. split; [set_solver|]. destruct o'; subst; done.
      * intros [Ha H]. destruct a as [|x a].
        { destruct o as [b|]; [injection H as ? _; done | done]. }
        assert (Hx : x = c /\ (a', o') = (a, o)).
        { destruct o; injection H as -> H; (split; [done|]); apply IH; (split; [set_solver | done]). }
        destruct Hx as [-> Hx]. by simplify_eq.
Qed.

(** A service identity: the trust domain and two labels. *)
Definition names_service (s : pystr) : Prop :=
  exists namespace service, s = spiffe_prefix ++ namespace ++ [47] ++ service /\
    identity_label 31 namespace = true /\ identity_label 63 service = true.

Lemma label_no_slash n s : identity_label n s = true -> 47 ∉ s.
Proof.
  unfold identity_label, matches_label. destruct s as [|c t]; [done|]. intros H. bprop.
  intros [<- | Hin]%elem_of_cons; [done|].
  match goal with H : forallb _ t = true |- _ => rewrite forallb_forall in H;
    apply list_elem_of_In in Hin; apply H in Hin; done end.
Qed.

Lemma spiffe_id_spec s : spiffe_id s = true <-> names_service s.
Proof.
  unfold spiffe_id, names_service. split.
  - intros [Hp Hl]%andb_true_split. apply startswith_app in Hp as [t ->].
    rewrite drop_app_length in Hl. destruct (partition_char 47 t) as [a [b|]] eqn:E; [|done].
    apply partition_char_spec in E as [_ ->]. bprop. eauto.
  - intros (a & b & -> & Ha & Hb). apply andb_true_iff. split; [apply startswith_app; eauto|].
    rewrite drop_app_length. rewrite (proj2 (partition_char_spec 47 (a ++ [47] ++ b) a (Some b))).
    + by rewrite Ha, Hb.
    + split; [by eapply label_no_slash | done].
Qed.

(** ** Who a certificate names *)

Lemma new_identity_ok s i : new_identity s = Ok i <-> i = {| uri := s |} /\ names_service s.
Proof.
  unfold new_identity. rewrite <- spiffe_id_spec. split.
  - intros H. apply rbind_ok in H as ([] & H & [= <-]). apply raise_when_ok in H. by bprop.
  - intros [-> H]. by rewrite H.
Qed.

Lemma peer_identities_ok l ids :
  peer_identities l = Ok ids <->
  map uri ids = omap spiffe_name l /\ Forall (fun i => names_service (uri i)) ids.
Proof.
  revert ids. induction l as [|v l IH]; intros ids; cbn [peer_identities omap list_omap].
  { split; [by intros [= <-]|]. intros [H _]. by destruct ids. }
  destruct (spiffe_name v) as [s|] eqn:Ev; [|apply IH]. split.
  - intros H. apply rbind_ok in H as (i & Hi & H). apply rbind_ok in H as (rest & Hr & [= <-]).
    destruct (new_identity s) as [i'|e] eqn:En; [|by cbn in Hi; case_match].
    cbn in Hi. injection Hi as ->. apply new_identity_ok in En as [-> Hn].
    apply IH in Hr as [Hr Hf]. cbn. split; [by rewrite Hr | by constructor].
  - intros [Hm Hf]. destruct ids as [|i rest]; [done|]. cbn in Hm. injection Hm as Hu Hm.
    apply Forall_cons in Hf as [Hn Hf].
    rewrite (proj2 (new_identity_ok s i)); [|split; [destruct i; by cbn in *; subst | by rewrite <- Hu]].
    cbn. rewrite (proj2 (IH rest)) by done. done.
Qed.

Lemma peer_identities_raises l : raises_only TransportSecurityError (peer_identities l).
Proof.
  induction l as [|v l IH]; cbn [peer_identities]; [apply raises_only_ok|].
  case_match; [|done]. apply raises_only_bind.
  - unfold new_identity. destruct (spiffe_id _); cbn; [apply raises_only_ok | apply raises_only_raise].
  - intros i. apply raises_only_bind; [done | intros; apply raises_only_ok].
Qed.

(** The certificate has exactly one SPIFFE name, and it is [i]'s. *)
Definition certifies (c : certificate) (i : ServiceIdentity) : Prop :=
  exists names, od_get (str "subjectAltName") c = Some (CTuple names) /\
    omap spiffe_name names = [uri i] /\ names_service (uri i).

Lemma peer_service_identity_ok c i : peer_service_identity c = Ok i <-> certifies c i.
Proof.
  unfold peer_service_identity, certifies. split.
  - intros H. destruct (od_get _ c) as [[s|names|]|] eqn:Eg; try done.
    apply rbind_ok in H as (ids & Hids & H). apply peer_identities_ok in Hids as [Hm Hf].
    destruct ids as [|j [|k ids]]; try done. injection H as ->. exists names.
    apply Forall_cons in Hf as [Hn _]. by rewrite <- Hm.
  - intros (names & -> & Hn & Hs). rewrite (proj2 (peer_identities_ok names [i])).
    + done.
    + split; [by rewrite Hn | by constructor].
Qed.

Lemma peer_service_identity_raises c : raises_only TransportSecurityError (peer_service_identity c).
Proof.
  unfold peer_service_identity. repeat case_match; try apply raises_only_raise.
  apply raises_only_bind; [apply peer_identities_raises|].
  intros ids. repeat case_match; try apply raises_only_raise. apply raises_only_ok.
Qed.

(** ** The policy is the bindings *)

Definition bound (bs : list IdentityBinding) (u : pystr) (ps : gset ServicePermission) : Prop :=
  exists b, b ∈ bs /\ uri (ib_identity b) = u /\ ib_permissions b = ps.

Lemma policy_fold bs : forall d,
  let d' := foldl (fun d b => od_set (uri (ib_identity b)) (ib_permissions b) d) d bs in
  (length d' <= length d + length bs)%nat /\
  (length d' = (length d + length bs)%nat ->
   forall u ps, od_get u d' = Some ps <-> od_get u d = Some ps \/ bound bs u ps).
Proof.
  induction bs as [|b bs IH]; intros d; cbn [foldl length].
  { split; [lia|]. intros _ u ps. unfold bound. split; [auto|].
    intros [H | (b & Hb & _)]; [done | by apply elem_of_nil in Hb]. }
  set (d1 := od_set (uri (ib_identity b)) (ib_permissions b) d).
  assert (Hl : length d1 = if bool_decide (uri (ib_identity b) ∈ map fst d)
                           then length d else (length d + 1)%nat).
  { rewrite <- (length_map fst d1). unfold d1. rewrite od_set_keys.
    case_bool_decide; rewrite ?length_app, !length_map; done. }
  destruct (IH d1) as [Hle Hget]. split.
  { revert Hl. case_bool_decide; lia. }
  intros Heq u ps. revert Hl. case_bool_decide as Hin; intros Hl; [lia|].
  rewrite Hget by lia. unfold d1. rewrite od_get_set. split.
  - intros [H | (b' & Hb & ?)].
    + case_bool_decide as E; [|by left]. injection H as <-. right. exists b.
      split; [left | done].
    + right. exists b'. split; [by right | done].
  - intros [H | (b' & Hb & Eu & Ep)].
    + left. rewrite bool_decide_eq_false_2; [done|]. intros ->.
      apply od_get_elem in H. apply Hin. by apply (list_elem_of_fmap_2 fst _ (uri (ib_identity b), ps)).
    + apply elem_of_cons in Hb as [-> | Hb]; [|right; by exists b'].
      left. by rewrite bool_decide_eq_true_2, Ep.
Qed.

Lemma new_policy_ok bs p :
  new_policy bs = Ok p -> forall u ps, od_get u p = Some ps <-> bound bs u ps.
Proof.
  unfold new_policy. intros H. apply rbind_ok in H as ([] & _ & H).
  apply rbind_ok in H as ([] & Hl & [= <-]). apply raise_when_ok in Hl. bprop.
  destruct (policy_fold bs []) as [_ Hg]. intros u ps. rewrite Hg by (cbn; lia).
  split; [by intros [H | H] | auto].
Qed.

Lemma permission_raises m q : raises_only TransportSecurityError (permission_for_request m q).
Proof.
  unfold permission_for_request.
  repeat case_match; first [apply raises_only_ok | apply raises_only_raise].
Qed.

(** ** Properties *)

Definition sample_binding : IdentityBinding :=
  {| ib_identity := {| uri := str "spiffe://aegis-mx/research/api-1" |};
     ib_permissions := {[ FORECAST; READ_STATUS ]} |}.
Definition sample_certificate : certificate :=
  [(str "subject", COther);
   (str "subjectAltName",
    CTuple [CTuple [CStr (str "DNS"); CStr (str "api.local")];
            CTuple [CStr (str "URI"); CStr (str "spiffe://aegis-mx/research/api-1")]])].

Lemma authorize_granted bs p c method path :
  new_policy bs = Ok p -> forall i,
  authorize p c method path = Ok i <->
  certifies c i /\ exists required b,
    permission_for_request method path = Ok required /\ b ∈ bs /\
    ib_identity b = i /\ required ∈ ib_permissions b.
Proof.
  intros Hp. pose proof (new_policy_ok bs p Hp) as Hg.
  intros i. unfold authorize. split.
  - intros H. apply rbind_ok in H as (j & Hj & H). apply rbind_ok in H as (required & Hr & H).
    apply rbind_ok in H as ([] & Ha & [= ->]). apply raise_when_ok in Ha. bprop.
    apply peer_service_identity_ok in Hj. split; [done|].
    destruct (od_get (uri i) p) as [ps|] eqn:Eg; [|set_solver].
    apply Hg in Eg as (b & Hb & Eu & <-). exists required, b. repeat split; try done.
    destruct (ib_identity b), i. cbn in Eu. by subst.
  - intros (Hc & required & b & Hr & Hb & Ei & Hin).
    rewrite (proj2 (peer_service_identity_ok c i) Hc). cbn [rbind]. rewrite Hr. cbn [rbind].
    rewrite (proj2 (Hg (uri i) (ib_permissions b))) by (exists b; by rewrite Ei).
    cbn [default]. by rewrite bool_decide_eq_true_2.
Qed.

Lemma authorize_raises p c method path :
  raises_only TransportSecurityError (authorize p c method path).
Proof.
  apply raises_only_bind; [apply peer_service_identity_raises|]. intros j.
  apply raises_only_bind; [apply permission_raises|]. intros required.
  apply raises_only_bind; [apply raises_only_when | intros; apply raises_only_ok].
Qed.

(** Access is granted exactly to bound identities.  With a policy built
    from bindings, a request is authorized as [i] if and only if the verified
    certificate has exactly one SPIFFE name, that name is [i]'s and lies in the
    trust domain, the operation has a capability and a binding of [i] grants it.
    Every other request raises [TransportSecurityError]. *)
Theorem authorize_exact bs p c method path :
  new_policy bs = Ok p ->
  (forall i, authorize p c method path = Ok i <->
     certifies c i /\ exists required b,
       permission_for_request method path = Ok required /\ b ∈ bs /\
       ib_identity b = i /\ required ∈ ib_permissions b) /\
  raises_only TransportSecurityError (authorize p c method path).
Proof.
  intros Hp. split; [by apply authorize_granted | apply authorize_raises].
Qed.

Lemma authorize_exact_witness : exists p,
  new_policy [sample_binding] = Ok p /\
  authorize p sample_certificate (str "POST") (str "/v1/forecast")
    = Ok (ib_identity sample_binding) /\
  raises_only TransportSecurityError
    (authorize p sample_certificate (str "POST") (str "/v1/context")).
Proof.
  destruct (new_policy [sample_binding]) as [p|e] eqn:E; [|vm_compute in E; discriminate E].
  exists p. split; [reflexivity|]. split.
  - apply (proj1 (authorize_exact [sample_binding] p sample_certificate (str "POST")
      (str "/v1/forecast") E)). split.
    + apply peer_service_identity_ok. vm_compute. reflexivity.
    + exists FORECAST, sample_binding. split; [vm_compute; reflexivity|]. split; [left|].
      split; [reflexivity|]. apply elem_of_union_l, elem_of_singleton_2. reflexivity.
  - apply (authorize_exact [sample_binding] p _ _ _ E).
Defined.

(** ** The rate limiter *)

(** How many of the calls made as [u] are allowed, in order. *)
Fixpoint granted (u : pystr) (calls : list (ServiceIdentity * Z)) (l : IdentityRateLimiter) : Z :=
  match calls with
  | [] => 0
  | (i, now) :: t =>
      let (l', ok) := allow i now l in
      (if ok && bool_decide (uri i = u) then 1 else 0) + granted u t l'
  end.

Inductive limiter_reachable (rate burst identities : Z) : IdentityRateLimiter -> Prop :=
  | limiter_new l :
      new_limiter rate burst identities = Ok l -> limiter_reachable rate burst identities l
  | limiter_allow l i now :
      limiter_reachable rate burst identities l ->
      limiter_reachable rate burst identities (allow i now l).1.

Record limiter_inv (rate burst identities : Z) (l : IdentityRateLimiter) : Prop := {
  li_rate : rl_rate l = rate /\ 0 < rate;
  li_capacity : rl_capacity l = burst * NANOSECONDS_PER_SECOND /\ 0 < burst;
  li_identities : rl_maximum_identities l = identities;
  li_buckets : Z.of_nat (length (rl_buckets l)) <= identities;
  li_tokens : forall u b, od_get u (rl_buckets l) = Some b -> 0 <= token_nanos b <= rl_capacity l;
}.

(** Refilling at [now] and taking a token. *)
Definition refilled (l : IdentityRateLimiter) (b : Bucket) (now : Z) : Z :=
  Z.min (rl_capacity l) (token_nanos b + (now - updated_ns b) * rl_rate l).

Lemma allow_bucket i now l b :
  od_get (uri i) (rl_buckets l) = Some b -> updated_ns b <= now ->
  exists b', allow i now l = (set_bucket (uri i) b' l,
                              NANOSECONDS_PER_SECOND <=? refilled l b now) /\
    updated_ns b' = now /\
    token_nanos b' = refilled l b now
      - (if NANOSECONDS_PER_SECOND <=? refilled l b now then NANOSECONDS_PER_SECOND else 0).
Proof.
  intros Hg Hu. unfold allow. rewrite Hg. rewrite (proj2 (Z.ltb_ge now (updated_ns b))) by done.
  fold (refilled l b now). destruct (Z.ltb_spec (refilled l b now) NANOSECONDS_PER_SECOND).
  - rewrite (proj2 (Z.leb_gt _ _)) by done. eexists. split; [done|]. cbn. split; [done | lia].
  - rewrite (proj2 (Z.leb_le _ _)) by done. eexists. split; [done|]. done.
Qed.

Lemma allow_late i now l b :
  od_get (uri i) (rl_buckets l) = Some b -> now < updated_ns b -> allow i now l = (l, false).
Proof. intros Hg Hu. unfold allow. rewrite Hg. by rewrite (proj2 (Z.ltb_lt now _)). Qed.

(** A first call is a call on a full bucket. *)
Lemma allow_first i now l :
  od_get (uri i) (rl_buckets l) = None ->
  Z.of_nat (length (rl_buckets l)) < rl_maximum_identities l ->
  allow i now l =
  allow i now (set_bucket (uri i) {| token_nanos := rl_capacity l; updated_ns := now |} l).
Proof.
  intros Hg Hl. unfold allow at 1. rewrite Hg.
  rewrite (proj2 (Z.leb_gt (rl_maximum_identities l) _)) by done.
  unfold allow. cbn [rl_buckets set_bucket]. rewrite od_get_set.
  by rewrite bool_decide_eq_true_2 by done.
Qed.

Lemma allow_full i now l :
  od_get (uri i) (rl_buckets l) = None ->
  rl_maximum_identities l <= Z.of_nat (length (rl_buckets l)) -> allow i now l = (l, false).
Proof. intros Hg Hl. unfold allow. rewrite Hg. by rewrite (proj2 (Z.leb_le _ _)). Qed.

Section limiter.
Context (rate burst identities : Z).
Local Notation inv := (limiter_inv rate burst identities).

Lemma set_bucket_inv u b l :
  inv l -> 0 <= token_nanos b <= rl_capacity l ->
  (is_Some (od_get u (rl_buckets l)) \/ Z.of_nat (length (rl_buckets l)) < identities) ->
  inv (set_bucket u b l).
Proof using Type.
  intros [Hr Hc Hi Hb Ht] Hbk Hroom. split; cbn; try done.
  - rewrite <- (length_map fst), od_set_keys. case_bool_decide as Hin; [by rewrite length_map|].
    rewrite length_app, length_map. cbn. destruct Hroom as [[x Hx] | ?]; [|lia].
    destruct Hin. apply od_get_elem in Hx. by apply (list_elem_of_fmap_2 fst _ (u, x)).
  - intros u' b'. rewrite od_get_set. case_bool_decide; [by intros [= <-] | apply Ht].
Qed.

Lemma refilled_range l b now :
  inv l -> 0 <= token_nanos b <= rl_capacity l -> updated_ns b <= now ->
  0 <= refilled l b now <= rl_capacity l.
Proof using Type. intros [[Hr Hr'] [Hc Hc'] _ _ _] Hb Hu. unfold refilled. rewrite Hr. nia. Qed.

Lemma allow_inv i now l : inv l -> inv (allow i now l).1.
Proof using Type.
  intros Hi. assert (Hstep : forall l b, inv l -> od_get (uri i) (rl_buckets l) = Some b ->
    inv (allow i now l).1).
  { intros l0 b Hi0 Hg. pose proof (li_tokens _ _ _ _ Hi0 _ _ Hg) as Hb.
    destruct (Z_lt_le_dec now (updated_ns b)) as [Hu|Hu]; [by rewrite (allow_late i now l0 b)|].
    destruct (allow_bucket i now l0 b Hg Hu) as (b' & -> & _ & Hb'). cbn [fst].
    apply set_bucket_inv; [done | | eauto]. pose proof (refilled_range l0 b now Hi0 Hb Hu).
    rewrite Hb'. destruct (Z.leb_spec NANOSECONDS_PER_SECOND (refilled l0 b now)).
    - unfold NANOSECONDS_PER_SECOND in *. lia.
    - lia. }
  destruct (od_get (uri i) (rl_buckets l)) as [b|] eqn:Eg; [by apply (Hstep l b)|].
  destruct (Z_lt_le_dec (Z.of_nat (length (rl_buckets l))) (rl_maximum_identities l)) as [Hl|Hl].
  - rewrite allow_first by done. pose proof (li_identities _ _ _ _ Hi) as Hid.
    apply (Hstep _ {| token_nanos := rl_capacity l; updated_ns := now |}).
    + apply set_bucket_inv; [done | | right; lia]. cbn.
      destruct (li_capacity _ _ _ _ Hi) as [-> ?]. unfold NANOSECONDS_PER_SECOND. lia.
    + cbn. rewrite od_get_set. by rewrite bool_decide_eq_true_2 by done.
  - by rewrite allow_full.
Qed.

Lemma reachable_limiter_inv l : limiter_reachable rate burst identities l -> inv l.
Proof using Type.
  induction 1 as [l H | l i now _ IH]; [|by apply allow_inv].
  unfold new_limiter in H. apply rbind_ok in H as ([] & H & [= <-]). apply raise_when_ok in H.
  split; cbn; try done; unfold NANOSECONDS_PER_SECOND; lia.
Qed.

(** Calls as another identity leave the bucket of [u]. *)
Lemma allow_other i now l u :
  uri i <> u -> od_get u (rl_buckets (allow i now l).1) = od_get u (rl_buckets l).
Proof using Type.
  intros Hne. assert (Hset : forall b l0, od_get u (rl_buckets (set_bucket (uri i) b l0))
    = od_get u (rl_buckets l0)).
  { intros b l0. cbn. rewrite od_get_set. by rewrite bool_decide_eq_false_2. }
  unfold allow. repeat case_match; cbn [fst]; rewrite ?Hset; done.
Qed.

(** Tokens pay for every allowed call. *)
Lemma granted_bucket t1 calls : forall l u b,
  inv l -> od_get u (rl_buckets l) = Some b -> Forall (fun c => c.2 <= t1) calls ->
  updated_ns b <= t1 ->
  granted u calls l * NANOSECONDS_PER_SECOND <= token_nanos b + (t1 - updated_ns b) * rate.
Proof using Type.
  induction calls as [|[i now] calls IH]; intros l u b Hi Hg Ht Hu; cbn [granted].
  { pose proof (li_tokens _ _ _ _ Hi _ _ Hg). destruct (li_rate _ _ _ _ Hi). nia. }
  apply Forall_cons in Ht as [Hnow Ht]. cbn in Hnow.
  pose proof (allow_inv i now l Hi) as Hi'.
  destruct (decide (uri i = u)) as [<-|Hne].
  - destruct (Z_lt_le_dec now (updated_ns b)) as [Hlate|Hle].
    { rewrite (allow_late i now l b) by done. cbn. by apply IH. }
    destruct (allow_bucket i now l b Hg Hle) as (b' & E & Eu & Eb). rewrite E in Hi' |- *.
    cbn [fst] in Hi'. rewrite (bool_decide_eq_true_2 (uri i = uri i)) by done. rewrite andb_true_r.
    assert (IH' := IH (set_bucket (uri i) b' l) (uri i) b' Hi').
    cbn [rl_buckets set_bucket] in IH'. rewrite od_get_set, bool_decide_eq_true_2 in IH' by done.
    specialize (IH' eq_refl Ht). rewrite Eu in IH'. specialize (IH' Hnow). rewrite Eb in IH'.
    assert (Hr : refilled l b now <= token_nanos b + (now - updated_ns b) * rate).
    { unfold refilled. rewrite (proj1 (li_rate _ _ _ _ Hi)). lia. }
    destruct (NANOSECONDS_PER_SECOND <=? refilled l b now); lia.
  - pose proof (allow_other i now l u Hne) as Ho.
    destruct (allow i now l) as [l' ok]. cbn [fst] in *.
    rewrite (bool_decide_eq_false_2 (uri i = u)) by done. rewrite andb_false_r.
    apply IH; [done | by rewrite Ho | done | done].
Qed.

Lemma granted_fresh t0 t1 calls : forall l u,
  inv l -> od_get u (rl_buckets l) = None -> t0 <= t1 -> Forall (fun c => t0 <= c.2 <= t1) calls ->
  granted u calls l * NANOSECONDS_PER_SECOND <= rl_capacity l + (t1 - t0) * rate.
Proof using Type.
  induction calls as [|[i now] calls IH]; intros l u Hi Hg Htt Ht; cbn [granted];
    pose proof (li_rate _ _ _ _ Hi) as [Er Hr];
    pose proof (li_capacity _ _ _ _ Hi) as [Ec Hc]; unfold NANOSECONDS_PER_SECOND in Ec; [nia|].
  apply Forall_cons in Ht as [Hnow Ht]. cbn in Hnow.
  pose proof (allow_inv i now l Hi) as Hi'.
  destruct (decide (uri i = u)) as [<-|Hne].
  - destruct (Z_lt_le_dec (Z.of_nat (length (rl_buckets l))) (rl_maximum_identities l)) as [Hl|Hl].
    + pose proof (li_identities _ _ _ _ Hi) as Hid.
      rewrite allow_first by done.
      set (b0 := {| token_nanos := rl_capacity l; updated_ns := now |}).
      assert (H := granted_bucket t1 ((i, now) :: calls) (set_bucket (uri i) b0 l) (uri i) b0).
      cbn [granted] in H.
      etransitivity; [apply H|].
      * apply set_bucket_inv; [done | cbn; lia | right; lia].
      * cbn. rewrite od_get_set. by rewrite bool_decide_eq_true_2 by done.
      * constructor; [cbn; lia|]. eapply Forall_impl; [exact Ht|]. cbn. intros; lia.
      * cbn. lia.
      * cbn. nia.
    + rewrite allow_full by done. cbn. by apply IH.
  - pose proof (allow_other i now l (u) Hne) as Ho.
    assert (Hcap : rl_capacity (allow i now l).1 = rl_capacity l)
      by (rewrite (proj1 (li_capacity _ _ _ _ Hi')); by rewrite Ec).
    destruct (allow i now l) as [l' ok]. cbn [fst] in *.
    rewrite (bool_decide_eq_false_2 (uri i = u)) by done. rewrite andb_false_r.
    rewrite <- Hcap. apply IH; [done | by rewrite Ho | done | done].
Qed.
(** The same bound holds from any point of a history: a bucket holds at most the burst,
    however long its identity was idle. *)
Lemma granted_window t0 t1 calls : forall l u,
  inv l -> t0 <= t1 -> Forall (fun c => t0 <= c.2 <= t1) calls ->
  granted u calls l * NANOSECONDS_PER_SECOND <= rl_capacity l + (t1 - t0) * rate.
Proof using Type.
  induction calls as [|[i now] calls IH]; intros l u Hi Htt Ht;
    pose proof (li_rate _ _ _ _ Hi) as [Er Hr]; pose proof (li_capacity _ _ _ _ Hi) as [Ec Hc].
  { cbn [granted]. unfold NANOSECONDS_PER_SECOND in *. nia. }
  destruct (od_get u (rl_buckets l)) as [b|] eqn:Hg; [|by apply granted_fresh].
  cbn [granted]. apply Forall_cons in Ht as [Hnow Ht]. cbn in Hnow. pose proof (allow_inv i now l Hi) as Hi'.
  destruct (decide (uri i = u)) as [<-|Hne].
  - destruct (Z_lt_le_dec now (updated_ns b)) as [Hlate|Hle]; [rewrite (allow_late i now l b) by done; cbn; by apply IH|].
    pose proof (refilled_range l b now Hi (li_tokens _ _ _ _ Hi _ _ Hg) Hle) as Hcap.
    destruct (allow_bucket i now l b Hg Hle) as (b' & E & Eu & Eb). rewrite E in Hi' |- *. cbn [fst] in Hi'.
    rewrite (bool_decide_eq_true_2 (uri i = uri i)) by done. rewrite andb_true_r.
    assert (H := granted_bucket t1 calls (set_bucket (uri i) b' l) (uri i) b' Hi').
    cbn [rl_buckets set_bucket] in H. rewrite od_get_set, bool_decide_eq_true_2 in H by done.
    assert (Forall (fun c => c.2 <= t1) calls) as Ht1 by (eapply Forall_impl; [exact Ht|]; cbn; intros; lia).
    specialize (H eq_refl Ht1). rewrite Eu in H. specialize (H ltac:(lia)). rewrite Eb in H.
    assert ((t1 - now) * rate <= (t1 - t0) * rate) by nia.
    destruct (NANOSECONDS_PER_SECOND <=? refilled l b now); lia.
  - assert (Hcap : rl_capacity (allow i now l).1 = rl_capacity l)
      by (rewrite (proj1 (li_capacity _ _ _ _ Hi')); by rewrite Ec).
    destruct (allow i now l) as [l' ok]. cbn [fst] in *.
    rewrite (bool_decide_eq_false_2 (uri i = u)) by done. rewrite andb_false_r.
    rewrite <- Hcap. by apply IH.
Qed.
End limiter.

(** C38: the rate limiter admits no more than its rate and burst.  From every reachable
    limiter, so after any history and however long an identity was idle before, whatever
    the other identities do and whichever way the clock moves inside a window, an identity
    is allowed at most [burst] calls plus [rate] calls per second of the window; the
    limiter never tracks more identities than configured; and a tracked identity that
    waited for one token is allowed. *)
Theorem rate_limiter_bounds rate burst identities l :
  limiter_reachable rate burst identities l ->
  (forall u calls t0 t1, t0 <= t1 -> Forall (fun c => t0 <= c.2 <= t1) calls ->
     granted u calls l * NANOSECONDS_PER_SECOND <= burst * NANOSECONDS_PER_SECOND + (t1 - t0) * rate)
  /\ Z.of_nat (length (rl_buckets l)) <= identities
  /\ (forall i b now, od_get (uri i) (rl_buckets l) = Some b -> updated_ns b <= now ->
        NANOSECONDS_PER_SECOND <= (now - updated_ns b) * rate -> (allow i now l).2 = true).
Proof.
  intros Hl%reachable_limiter_inv. split_and!.
  - intros u calls t0 t1 Htt Hc. rewrite <- (proj1 (li_capacity _ _ _ _ Hl)). by apply (granted_window rate burst identities).
  - apply Hl.
  - intros i b now Hg Hu Hw.
    destruct (allow_bucket i now l b Hg Hu) as (b' & -> & _). cbn. apply Z.leb_le.
    unfold refilled. pose proof (li_tokens _ _ _ _ Hl _ _ Hg).
    destruct (li_rate _ _ _ _ Hl) as [-> _]. destruct (li_capacity _ _ _ _ Hl) as [-> ?]. unfold NANOSECONDS_PER_SECOND in *. lia.
Qed.

(** An identity that spent its burst and was then idle for an hour. *)
Lemma rate_limiter_bounds_witness : exists l0,
  new_limiter 2 3 1 = Ok l0 /\
  granted (str "a") (map (fun n => ({| uri := str "a" |}, 3600000000000 + Z.of_nat n)) (List.seq 0 9))
    (allow {| uri := str "a" |} 0 l0).1 * NANOSECONDS_PER_SECOND <= 3 * NANOSECONDS_PER_SECOND + 9 * 2.
Proof.
  destruct (new_limiter 2 3 1) as [l0|e] eqn:E; [|vm_compute in E; discriminate E].
  exists l0. split; [reflexivity|].
  refine (proj1 (rate_limiter_bounds 2 3 1 (allow {| uri := str "a" |} 0 l0).1 (limiter_allow _ _ _ _ _ _ (limiter_new _ _ _ _ E)))
    (str "a") (map (fun n => ({| uri := str "a" |}, 3600000000000 + Z.of_nat n)) (List.seq 0 9)) 3600000000000 3600000000009 _ _).
  - lia.
  - repeat (apply Forall_cons; split; [cbn; lia|]). apply Forall_nil_2.
Defined.

(** ** Mounted secrets *)

Lemma or_raise_ok {A} (m : res A) msg a : or_raise m msg = Ok a <-> m = Ok a.
Proof.
  unfold or_raise, try_except. destruct m as [x|e]; [done|].
  destruct (caught_by e [OSError]); by split.
Qed.

Lemma land_bits m mask (bits : list Z) :
  (forall n, 0 <= n -> Z.testbit mask n = true <-> n ∈ bits) -> Forall (fun n => 0 <= n) bits ->
  Z.land m mask = 0 <-> Forall (fun n => Z.testbit m n = false) bits.
Proof.
  intros Hm Hb. rewrite Forall_forall. split.
  - intros H n Hn. rewrite Forall_forall in Hb. specialize (Hb n Hn). cbn in Hb.
    apply (f_equal (fun z => Z.testbit z n)) in H. rewrite Z.land_spec, Z.bits_0 in H.
    rewrite (proj2 (Hm n Hb) Hn), andb_true_r in H. done.
  - intros H. apply Z.bits_inj'. intros n Hn. rewrite Z.land_spec, Z.bits_0.
    destruct (Z.testbit mask n) eqn:E; [|apply andb_false_r].
    rewrite (H n); [done | by apply Hm].
Qed.

Lemma mask_bits mask k n :
  0 <= mask < 2 ^ k -> 0 <= n -> Z.testbit mask n = true -> n < k.
Proof.
  intros Hm Hn Ht. destruct (Z_lt_le_dec n k) as [|Hk]; [done|].
  assert (mask < 2 ^ n) by (apply (Z.lt_le_trans _ (2 ^ k)); [lia | apply Z.pow_le_mono_r; lia]).
  destruct (Z.eq_dec mask 0) as [->|]; [by rewrite Z.bits_0 in Ht|].
  rewrite Z.bits_above_log2 in Ht; [done | lia |]. apply Z.log2_lt_pow2; lia.
Qed.

(** The permission bits that the masks 0o022 and 0o007 select. *)
Definition group_other_write : list Z := [1; 4].
Definition world_access : list Z := [0; 1; 2].

Lemma imode_land m mask bits :
  0 <= mask < 2 ^ 5 -> (forall n, 0 <= n < 5 -> Z.testbit mask n = true <-> n ∈ bits) ->
  Forall (fun n => 0 <= n < 5) bits ->
  (Z.land (S_IMODE m) mask =? 0) = true <-> Forall (fun n => Z.testbit m n = false) bits.
Proof.
  intros Hm Hb Hr. rewrite Z.eqb_eq. unfold S_IMODE. rewrite <- Z.land_assoc.
  assert (E : Z.land (2 ^ 12 - 1) mask = mask).
  { rewrite Z.land_comm. change (2 ^ 12 - 1) with (Z.ones 12). rewrite Z.land_ones by lia.
    apply Z.mod_small. lia. }
  rewrite E. apply land_bits.
  - intros n Hn. destruct (Z_lt_le_dec n 5) as [Hlt|Hge]; [by apply Hb|]. split.
    + intros H. pose proof (mask_bits mask 5 n Hm Hn H). lia.
    + intros Hin. rewrite Forall_forall in Hr. specialize (Hr n Hin). cbn in Hr. lia.
  - eapply Forall_impl; [exact Hr|]. cbn. intros; lia.
Qed.

(** Checks the bits of a mask below 2^5 one by one. *)
Ltac mask_cases :=
  intros n Hn; assert (Hc : n = 0 \/ n = 1 \/ n = 2 \/ n = 3 \/ n = 4) by lia;
  destruct Hc as [-> | [-> | [-> | [-> | ->]]]]; (split; intros H);
  first [ reflexivity | discriminate H | set_solver
        | repeat (apply elem_of_cons in H as [H | H]; [discriminate H|]);
          by apply elem_of_nil in H ].

Lemma imode_not_writable m :
  (Z.land (S_IMODE m) 18 =? 0) = true <-> Forall (fun n => Z.testbit m n = false) group_other_write.
Proof.
  apply imode_land; [lia | unfold group_other_write; mask_cases | by repeat constructor].
Qed.

Lemma imode_private m :
  (Z.land (S_IMODE m) 7 =? 0) = true <-> Forall (fun n => Z.testbit m n = false) world_access.
Proof.
  apply imode_land; [lia | unfold world_access; mask_cases | by repeat constructor].
Qed.

Lemma relative_to_spec q root :
  is_relative_to q root = true <->
  is_absolute q = is_absolute root /\ exists tail, parts q = parts root ++ tail.
Proof.
  unfold is_relative_to. rewrite andb_true_iff, !bool_decide_eq_true. split.
  - intros [Ha Ht]. split; [done|]. exists (drop (length (parts root)) (parts q)).
    rewrite <- Ht at 1. by rewrite take_drop.
  - intros [Ha [tail Ht]]. split; [done|]. rewrite Ht. apply take_app_length.
Qed.

(** A file that may be used as a secret. *)
Record secret_file (p : MountedSecretProvider) (q : PyPath) (info : stat_result) (private : bool)
    : Prop := {
  sf_inside : is_absolute q = is_absolute (sp_root p) /\
              exists tail, parts q = parts (sp_root p) ++ tail;
  sf_regular : S_ISREG (st_mode info) = true;
  sf_size : 0 < st_size info <= sp_maximum_bytes p;
  sf_not_writable : Forall (fun n => Z.testbit (st_mode info) n = false) group_other_write;
  sf_private : private = true -> Forall (fun n => Z.testbit (st_mode info) n = false) world_access;
}.

Lemma secret_path_ok fs n p name private q :
  secret_path fs n p name private = Ok q <->
  secret_name name = true /\ fs_resolve (fs n) (joined (sp_root p) name) = Ok q /\
  exists info, fs_stat (fs (S n)) q = Ok info /\ secret_file p q info private.
Proof.
  unfold secret_path. split.
  - intros H. apply rbind_ok in H as ([] & H1 & H). apply rbind_ok in H as (q' & H2 & H).
    apply rbind_ok in H as (info & H3 & H). apply or_raise_ok in H2, H3.
    apply rbind_ok in H as ([] & H4 & H). apply rbind_ok in H as ([] & H5 & H).
    apply rbind_ok in H as ([] & H6 & H). apply rbind_ok in H as ([] & H7 & [= <-]).
    apply raise_when_ok in H1, H4, H5, H6, H7. bprop.
    split; [done|]. split; [done|]. exists info. split; [done|]. split; try done.
    + by apply relative_to_spec.
    + lia.
    + by apply imode_not_writable.
    + intros ->. cbn in H7. bprop. by apply imode_private.
  - intros (H1 & H2 & info & H3 & [H4 H5 H6 H7 H8]). rewrite H1. cbn [negb raise_when rbind].
    rewrite (proj2 (or_raise_ok _ _ _) H2). cbn [rbind].
    rewrite (proj2 (or_raise_ok _ _ _) H3). cbn [rbind].
    rewrite (proj2 (relative_to_spec _ _) H4), H5. cbn [negb orb raise_when rbind].
    rewrite raise_when_false by lia. cbn [rbind].
    rewrite (proj2 (imode_not_writable _) H7). cbn [negb raise_when rbind].
    destruct private; [|done]. rewrite (proj2 (imode_private _)) by auto. done.
Qed.

(** Secrets come only from safe files inside the mount.  A secret is read
    exactly when its name is a plain file name, the resolved path lies under the
    mount root, and the file is regular, within the size limit, not writable by
    group or others and, for a private secret, without any permission for
    others; the bytes returned are within the limit. *)
Theorem secret_read_exact fs n p name private payload :
  secret_read fs n p name private = Ok payload <->
  secret_name name = true /\
  exists q info,
    fs_resolve (fs n) (joined (sp_root p) name) = Ok q /\ fs_stat (fs (S n)) q = Ok info /\
    secret_file p q info private /\ fs_read_bytes (fs (n + 2)%nat) q = Ok payload /\
    0 < Z.of_nat (length payload) <= sp_maximum_bytes p.
Proof.
  unfold secret_read. split.
  - intros H. apply rbind_ok in H as (q & Hq & H). apply rbind_ok in H as (b & Hb & H).
    apply rbind_ok in H as ([] & Hl & [= <-]). apply or_raise_ok in Hb. apply raise_when_ok in Hl.
    apply secret_path_ok in Hq as (Hn & Hr & info & Hs & Hf). split; [done|]. exists q, info.
    repeat (split; [done|]). bprop. assert (length b <> 0%nat) by (by destruct b). lia.
  - intros (Hn & q & info & Hr & Hs & Hf & Hb & Hl).
    rewrite (proj2 (secret_path_ok fs n p name private q)) by eauto. cbn [rbind].
    rewrite (proj2 (or_raise_ok _ _ _) Hb). cbn [rbind].
    rewrite bool_decide_eq_false_2 by (intros ->; cbn in Hl; lia). cbn [orb].
    by rewrite raise_when_false by lia.
Qed.

(** ** Rotation *)

Section rotation_facts.
Context {SSLContext : Type}.
Context (factory : Z -> PyPath -> PyPath -> pybytes -> res SSLContext).
Context (files : Z -> nat -> FileSystem).
Local Notation rotator := (RotatingTLSContext SSLContext).

(** States reached by calls at clock readings [now], with the files and the
    builder of that moment. *)
Inductive rotation_reachable (p : MountedSecretProvider) (m : TLSMaterial) : rotator -> Prop :=
  | rotation_new : rotation_reachable p m (new_rotating p m)
  | rotation_call r now :
      rotation_reachable p m r ->
      rotation_reachable p m (current (factory now) (files now) now r).1.

(** [c] was built at [t0] from material whose digest is [digest]. *)
Definition built_from (p : MountedSecretProvider) (m : TLSMaterial) (c : SSLContext)
    (digest : pybytes) (t0 : Z) : Prop :=
  exists cert key trust, read_material (files t0) p m = Ok (cert, key, trust, digest) /\
    factory t0 cert key trust = Ok c.

(** The material read at [t] has digest [digest]. *)
Definition checked_at (p : MountedSecretProvider) (m : TLSMaterial) (digest : pybytes) (t : Z)
    : Prop :=
  exists cert key trust, read_material (files t) p m = Ok (cert, key, trust, digest).

Definition rotation_inv (p : MountedSecretProvider) (m : TLSMaterial) (r : rotator) : Prop :=
  rt_provider r = p /\ rt_material r = m /\
  match rt_context r with
  | None => rt_generation r = 0
  | Some c => 0 < rt_generation r /\
      exists t0 t, built_from p m c (rt_digest r) t0 /\ checked_at p m (rt_digest r) t /\
        rt_next_check_ns r = t + reload_interval_ns m
  end.

(** What one call does. *)
Lemma current_cases now r :
  let (r', o) := current (factory now) (files now) now r in
  match o with
  | Err _ => r' = r
  | Ok c =>
      (r' = r /\ rt_context r = Some c /\ now < rt_next_check_ns r) \/
      exists cert key trust digest,
        read_material (files now) (rt_provider r) (rt_material r) = Ok (cert, key, trust, digest) /\
        rt_next_check_ns r' = now + reload_interval_ns (rt_material r) /\
        rt_provider r' = rt_provider r /\ rt_material r' = rt_material r /\
        rt_context r' = Some c /\ rt_digest r' = digest /\
        ((rt_context r = Some c /\ rt_digest r = digest /\ rt_generation r' = rt_generation r) \/
         (factory now cert key trust = Ok c /\ rt_generation r' = rt_generation r + 1 /\
          (rt_context r = None \/ rt_digest r <> digest)))
  end.
Proof using Type.
  unfold current, st_bind, st_get, st_lift, st_put, st_ret. cbv beta iota. change (id r) with r.
  destruct (rt_context r) as [c|] eqn:Ec.
  - destruct (Z.ltb_spec now (rt_next_check_ns r)); [by left|].
    destruct (read_material _ _ _) as [[[[cert key] trust] digest]|e] eqn:Em; [|done].
    case_bool_decide as Ed.
    + right. exists cert, key, trust, digest. cbn. repeat (split; [done|]). by left.
    + destruct (factory now cert key trust) as [c'|e] eqn:Ef; [|done].
      right. exists cert, key, trust, digest. repeat (split; [done|]).
      right. auto.
  - destruct (read_material _ _ _) as [[[[cert key] trust] digest]|e] eqn:Em; [|done].
    destruct (factory now cert key trust) as [c'|e] eqn:Ef; [|done].
    right. exists cert, key, trust, digest. repeat (split; [done|]). right. auto.
Qed.

Lemma rotation_reachable_inv p m r : rotation_reachable p m r -> rotation_inv p m r.
Proof using Type.
  induction 1 as [|r now _ IH]; [done|]. pose proof (current_cases now r) as H.
  destruct (current (factory now) (files now) now r) as [r' [c|e]]; cbn [fst]; [|by subst].
  destruct H as [(-> & _) | (cert & key & trust & digest & Hm & Hn & Hp & Hm' & Hc & Hd & H)]; [done|].
  destruct IH as (<- & <- & IH). split; [done|]. split; [done|]. rewrite Hc, Hd.
  assert (Hchk : checked_at (rt_provider r) (rt_material r) digest now) by (exists cert, key, trust; done).
  destruct H as [(Er & Ed & Eg) | (Ef & Eg & _)].
  - rewrite Er in IH. destruct IH as (Hg & t0 & t & Hb & _). rewrite Eg. split; [done|].
    exists t0, now. rewrite <- Ed. split; [done | by rewrite Hn, Ed].
  - split; [destruct (rt_context r); lia|]. exists now, now.
    split; [exists cert, key, trust; done | done].
Qed.
End rotation_facts.

(** TLS material is rotated and fails closed.  Every context that a call
    returns was built from mounted material with some digest, and material with
    that same digest was read at a check less than one reload interval ago (or by
    this call); a call that raises, because a secret is missing, unsafe or cannot
    be loaded, leaves the rotator unchanged; the generation grows by one exactly
    when new material is loaded. *)
Theorem tls_rotation_fails_closed {SSLContext}
    (factory : Z -> PyPath -> PyPath -> pybytes -> res SSLContext) files p m r now :
  rotation_reachable factory files p m r ->
  let (r', o) := current (factory now) (files now) now r in
  match o with
  | Err _ => r' = r
  | Ok c => exists digest t0 t,
      built_from factory files p m c digest t0 /\ checked_at files p m digest t /\
      (t = now \/ now < t + reload_interval_ns m) /\
      rt_generation r' = rt_generation r
        + (if bool_decide (rt_context r <> None /\ rt_digest r = rt_digest r') then 0 else 1)
  end.
Proof.
  intros Hr. apply rotation_reachable_inv in Hr as (<- & <- & Hinv).
  pose proof (current_cases factory files now r) as H.
  destruct (current (factory now) (files now) now r) as [r' [c|e]]; [|done].
  destruct H as [(-> & Hc & Hn) | (cert & key & trust & digest & Hm & Hn & _ & _ & Hc & Hd & H)].
  - rewrite Hc in Hinv. destruct Hinv as (_ & t0 & t & Hb & Hk & Ht). exists (rt_digest r), t0, t.
    split; [done|]. split; [done|]. split; [right; lia|].
    rewrite bool_decide_eq_true_2; [lia | by rewrite Hc].
  - assert (Hk : checked_at files (rt_provider r) (rt_material r) digest now)
      by (exists cert, key, trust; done).
    destruct H as [(Er & Ed & Eg) | (Ef & Eg & Hnew)].
    + rewrite Er in Hinv. destruct Hinv as (_ & t0 & t & Hb & _). exists digest, t0, now.
      split; [by rewrite <- Ed|]. split; [done|]. split; [by left|].
      rewrite bool_decide_eq_true_2; [lia|]. by rewrite Er, Ed, Hd.
    + exists digest, now, now. split; [exists cert, key, trust; done|]. split; [done|].
      split; [by left|]. rewrite bool_decide_eq_false_2; [lia|]. rewrite Hd.
      intros [? ?]. by destruct Hnew.
Qed.

(** A mount whose files never change. *)
Definition sample_root : PyPath := {| is_absolute := true; parts := [str "mnt"] |}.
Definition sample_files (t : Z) (n : nat) : FileSystem :=
  {| fs_resolve := Ok; fs_is_dir := fun _ => true;
     fs_stat := fun _ => Ok {| st_mode := 33152; st_size := 3 |};
     fs_read_bytes := fun _ => Ok [1; 2; 3] |}.
Definition sample_provider : MountedSecretProvider :=
  {| sp_root := sample_root; sp_maximum_bytes := 100 |}.
Definition sample_material : TLSMaterial :=
  {| certificate_name := str "tls.crt"; private_key_name := str "tls.key";
     trust_bundle_name := str "ca.crt"; service_identity := ib_identity sample_binding;
     reload_interval_ns := 10 |}.
Definition sample_factory (t : Z) (cert key : PyPath) (trust : pybytes) : res Z := Ok t.

Lemma tls_rotation_fails_closed_witness :
  exists t, (current (sample_factory 12) (sample_files 12) 12
     (current (sample_factory 5) (sample_files 5) 5
        (new_rotating sample_provider sample_material)).1).2 = Ok 5 /\ 12 < t + 10.
Proof.
  set (r := (current (sample_factory 5) (sample_files 5) 5
     (new_rotating sample_provider sample_material)).1).
  assert (E : (current (sample_factory 12) (sample_files 12) 12 r).2 = Ok 5) by (vm_compute; reflexivity).
  assert (Hr : rotation_reachable sample_factory sample_files sample_provider sample_material r)
    by (apply rotation_call, rotation_new).
  pose proof (tls_rotation_fails_closed sample_factory sample_files sample_provider
    sample_material r 12 Hr) as H.
  destruct (current (sample_factory 12) (sample_files 12) 12 r) as [r' o]. cbn [snd] in E. subst o.
  destruct H as (digest & t0 & t & _ & _ & Ht & _). exists t. split; [reflexivity|].
  destruct Ht as [-> | Ht]; [reflexivity | exact Ht].
Defined.
