(* ===== verification/Contracts.v ===== *)
(** * The model-forecast contract

    Models [build_model_forecast_contract] of
    [python/intelligence/aegis_mx_intelligence/contracts.py]: every check on the
    integers of a forecast, the defaults of an elapsed horizon, and the values
    that are written.  The FlatBuffers library and its generated bindings turn
    those values into bytes; they are the parameter [encode]. *)

From S2P Require Import Prelude PyText Json Sha256 ForecastDomain.
Open Scope Z_scope.

(** ** Enumerations and input *)

Inductive ForecastUnitCode :=
  | RETURN_PPM | VOLATILITY_PPM | VOLUME_UNITS | SPREAD_TICKS | FACTOR_PPM.
#[export] Instance ForecastUnitCode_eq_dec : EqDecision ForecastUnitCode.
Proof. solve_decision. Defined.

Inductive ForecastHorizonUnitCode := ELAPSED_NANOSECONDS | TRADING_MINUTES | TRADING_SESSIONS.
#[export] Instance ForecastHorizonUnitCode_eq_dec : EqDecision ForecastHorizonUnitCode.
Proof. solve_decision. Defined.

Inductive HorizonHaltPolicyCode := HALT_NOT_APPLICABLE | REJECT | PAUSE | COUNT_SCHEDULED.
#[export] Instance HorizonHaltPolicyCode_eq_dec : EqDecision HorizonHaltPolicyCode.
Proof. solve_decision. Defined.

Inductive HorizonSessionEndpointCode := ENDPOINT_NOT_APPLICABLE | REGULAR_SESSION_CLOSE.
#[export] Instance HorizonSessionEndpointCode_eq_dec : EqDecision HorizonSessionEndpointCode.
Proof. solve_decision. Defined.

(** The target codes are those of [ForecastTarget]. *)
Record ModelForecastContractInput := {
  mf_record_id : Identifier128;
  mf_forecast_id : Identifier128;
  mf_session_id : Identifier128;
  mf_model_id : Identifier128;
  mf_model_version : Identifier128;
  mf_instrument_id : Identifier128;
  mf_feature_snapshot_id : Identifier128;
  mf_configuration_version : Identifier128;
  mf_expected_return_ppm : Z;
  mf_return_p10_ppm : Z;
  mf_return_p50_ppm : Z;
  mf_return_p90_ppm : Z;
  mf_probability_down_ppm : Z;
  mf_probability_flat_ppm : Z;
  mf_probability_up_ppm : Z;
  mf_volatility_ppm : Z;
  mf_confidence_ppm : Z;
  mf_calibration_score_ppm : Z;
  mf_data_quality_score_ppm : Z;
  mf_ood_score_ppm : Z;
  mf_horizon_ns : Z;
  mf_as_of_exchange_event_time_ns : Z;
  mf_production_process_monotonic_time_ns : Z;
  mf_expiration_process_monotonic_time_ns : Z;
  mf_has_transaction_cost_estimate : bool;
  mf_estimated_spread_cost_ppm : Z;
  mf_estimated_slippage_cost_ppm : Z;
  mf_estimated_market_impact_ppm : Z;
  mf_estimated_adverse_selection_cost_ppm : Z;
  mf_estimated_fee_cost_ppm : Z;
  mf_forecast_target : ForecastTarget;
  mf_forecast_unit : ForecastUnitCode;
  mf_target_value : Z;
  mf_target_p10 : Z;
  mf_target_p50 : Z;
  mf_target_p90 : Z;
  mf_horizon_unit : ForecastHorizonUnitCode;
  mf_horizon_value : Z;
  mf_horizon_halt_policy : HorizonHaltPolicyCode;
  mf_horizon_session_endpoint : HorizonSessionEndpointCode;
  mf_horizon_calendar_version : option Identifier128;
  mf_target_exchange_event_time_ns : Z;
}.

(** ** Checks *)

Definition check_uint64 (value : Z) (name : string) (positive : bool) : res unit :=
  raise_when (negb (((if positive then 1 else 0) <=? value) && (value <=? 2 ^ 64 - 1)))
    ValueError (name +:+ " is outside its unsigned 64-bit wire range").

Definition check_int64 (value : Z) (name : string) (positive : bool) : res unit :=
  raise_when (negb (((if positive then 1 else - 2 ^ 63) <=? value) && (value <=? 2 ^ 63 - 1)))
    ValueError (name +:+ " is outside its signed 64-bit wire range").

Definition maximum_score : Z := 1000000.
Definition maximum_return : Z := 10000000.

Definition returns_of (d : ModelForecastContractInput) : list Z :=
  [mf_expected_return_ppm d; mf_return_p10_ppm d; mf_return_p50_ppm d; mf_return_p90_ppm d].

Definition check_returns (d : ModelForecastContractInput) : res unit :=
  do! res_iter (fun nv =>
        do! check_int64 nv.2 nv.1 false in
        raise_when (negb ((- maximum_return <=? nv.2) && (nv.2 <=? maximum_return))) ValueError
          "forecast return is outside the v1.3 semantic range")
        (combine ["return_value_0"; "return_value_1"; "return_value_2"; "return_value_3"]%string
           (returns_of d)) in
  raise_when (negb ((mf_return_p10_ppm d <=? mf_return_p50_ppm d)
                    && (mf_return_p50_ppm d <=? mf_return_p90_ppm d))) ValueError
    "forecast quantiles must be monotonic".

Definition scores_of (d : ModelForecastContractInput) : list Z :=
  [mf_probability_down_ppm d; mf_probability_flat_ppm d; mf_probability_up_ppm d;
   mf_confidence_ppm d; mf_calibration_score_ppm d; mf_data_quality_score_ppm d;
   mf_ood_score_ppm d].

Definition check_scores (d : ModelForecastContractInput) : res unit :=
  do! raise_when (existsb (fun s => negb ((0 <=? s) && (s <=? maximum_score))) (scores_of d))
        ValueError "forecast score is outside [0, 1_000_000] PPM" in
  do! raise_when (negb (mf_probability_down_ppm d + mf_probability_flat_ppm d
                        + mf_probability_up_ppm d =? maximum_score)) ValueError
        "directional probabilities must sum to 1_000_000 PPM" in
  do! check_uint64 (mf_volatility_ppm d) "volatility_ppm" false in
  do! raise_when (maximum_return <? mf_volatility_ppm d) ValueError
        "volatility_ppm exceeds the v1.3 semantic range" in
  do! check_uint64 (mf_horizon_ns d) "horizon_ns" true in
  check_int64 (mf_as_of_exchange_event_time_ns d) "as_of_exchange_event_time_ns" true.

(** The horizon's value and target time, with the defaults of an elapsed
    horizon ([x or y]: zero is replaced). *)
Definition resolve_horizon (d : ModelForecastContractInput) : res (Z * Z) :=
  match mf_horizon_unit d with
  | ELAPSED_NANOSECONDS =>
      do! raise_when (negb (bool_decide (mf_horizon_halt_policy d = HALT_NOT_APPLICABLE))
                      || negb (bool_decide (mf_horizon_session_endpoint d
                                            = ENDPOINT_NOT_APPLICABLE))
                      || negb (bool_decide (mf_horizon_calendar_version d = None))) ValueError
            "elapsed horizon cannot carry calendar semantics" in
      Ok (if mf_horizon_value d =? 0 then mf_horizon_ns d else mf_horizon_value d,
          if mf_target_exchange_event_time_ns d =? 0
          then mf_as_of_exchange_event_time_ns d + mf_horizon_ns d
          else mf_target_exchange_event_time_ns d)
  | unit =>
      do! raise_when ((mf_horizon_value d =? 0) || (mf_target_exchange_event_time_ns d =? 0))
            ValueError "trading horizon requires explicit value and target timestamp" in
      do! raise_when (bool_decide (mf_horizon_calendar_version d = None)) ValueError
            "trading horizon requires a calendar version" in
      do! raise_when (bool_decide (mf_horizon_halt_policy d = HALT_NOT_APPLICABLE)) ValueError
            "trading horizon requires an explicit halt policy" in
      do! raise_when (negb (bool_decide (mf_horizon_session_endpoint d =
                        if bool_decide (unit = TRADING_MINUTES)
                        then ENDPOINT_NOT_APPLICABLE else REGULAR_SESSION_CLOSE))) ValueError
            "forecast horizon unit and session endpoint disagree" in
      Ok (mf_horizon_value d, mf_target_exchange_event_time_ns d)
  end.

Definition check_horizon (d : ModelForecastContractInput) : res (Z * Z) :=
  let! vt := resolve_horizon d in
  do! check_uint64 vt.1 "horizon_value" true in
  do! check_int64 vt.2 "target_exchange_event_time_ns" true in
  do! raise_when ((vt.2 <=? mf_as_of_exchange_event_time_ns d)
                  || negb (vt.2 - mf_as_of_exchange_event_time_ns d =? mf_horizon_ns d))
        ValueError "target timestamp and elapsed horizon disagree" in
  Ok vt.

Definition costs_of (d : ModelForecastContractInput) : list Z :=
  [mf_estimated_spread_cost_ppm d; mf_estimated_slippage_cost_ppm d;
   mf_estimated_market_impact_ppm d; mf_estimated_adverse_selection_cost_ppm d;
   mf_estimated_fee_cost_ppm d].

(** [any(values)]: some value is not zero. *)
Definition any_nonzero (l : list Z) : bool := existsb (fun v => negb (v =? 0)) l.

Definition check_lifetime_costs (d : ModelForecastContractInput) : res unit :=
  do! check_uint64 (mf_production_process_monotonic_time_ns d)
        "production_process_monotonic_time_ns" true in
  do! check_uint64 (mf_expiration_process_monotonic_time_ns d)
        "expiration_process_monotonic_time_ns" true in
  do! raise_when (mf_expiration_process_monotonic_time_ns d
                  <=? mf_production_process_monotonic_time_ns d) ValueError
        "forecast expiration must follow production" in
  do! raise_when (existsb (fun c => negb ((0 <=? c) && (c <=? maximum_score))) (costs_of d))
        ValueError "transaction cost is outside [0, 1_000_000] PPM" in
  raise_when (negb (mf_has_transaction_cost_estimate d) && any_nonzero (costs_of d)) ValueError
    "transaction cost fields require the presence flag".

Definition unit_by_target (t : ForecastTarget) : ForecastUnitCode :=
  match t with
  | RETURN => RETURN_PPM | REALIZED_VOLATILITY => VOLATILITY_PPM | VOLUME => VOLUME_UNITS
  | SPREAD => SPREAD_TICKS | MARKET_FACTOR | SECTOR_FACTOR => FACTOR_PPM
  end.

Definition contract_target_bounds (t : ForecastTarget) : Z * Z :=
  match t with
  | RETURN | MARKET_FACTOR | SECTOR_FACTOR => (- maximum_return, maximum_return)
  | REALIZED_VOLATILITY => (0, maximum_return)
  | VOLUME => (0, 1000000000000)
  | SPREAD => (0, 1000000000)
  end.

(** Value, p10, p50 and p90 of the target. *)
Definition target_values (d : ModelForecastContractInput) : list Z :=
  if bool_decide (mf_forecast_target d = RETURN) then returns_of d
  else [mf_target_value d; mf_target_p10 d; mf_target_p50 d; mf_target_p90 d].

Definition check_target (d : ModelForecastContractInput) : res unit :=
  let b := contract_target_bounds (mf_forecast_target d) in
  do! raise_when (negb (bool_decide (unit_by_target (mf_forecast_target d) = mf_forecast_unit d)))
        ValueError "forecast target and unit do not agree" in
  do! raise_when (negb ((nth 1 (target_values d) 0 <=? nth 2 (target_values d) 0)
                        && (nth 2 (target_values d) 0 <=? nth 3 (target_values d) 0)))
        ValueError "target quantiles must be monotonic" in
  do! raise_when (existsb (fun v => negb ((b.1 <=? v) && (v <=? b.2))) (target_values d))
        ValueError "forecast target is outside its semantic range" in
  raise_when (negb (bool_decide (mf_forecast_target d = RETURN))
              && (any_nonzero (returns_of d) || negb (mf_probability_down_ppm d =? 0)
                  || negb (mf_probability_flat_ppm d =? maximum_score)
                  || negb (mf_probability_up_ppm d =? 0))) ValueError
    "non-return forecasts require neutral return fields".

(** What the FlatBuffers builder is given: the input with the horizon and the
    target values resolved. *)
Record ForecastWire := {
  wire_input : ModelForecastContractInput;
  wire_horizon_value : Z;
  wire_target_exchange_event_time_ns : Z;
  wire_target_values : list Z;
}.

Definition validated_forecast (d : ModelForecastContractInput) : res ForecastWire :=
  do! check_returns d in
  do! check_scores d in
  let! vt := check_horizon d in
  do! check_lifetime_costs d in
  do! check_target d in
  Ok {| wire_input := d; wire_horizon_value := vt.1;
        wire_target_exchange_event_time_ns := vt.2; wire_target_values := target_values d |}.

Section contract.
Context (encode : ForecastWire -> pybytes).

Definition build_model_forecast_contract (d : ModelForecastContractInput) : res pybytes :=
  let! w := validated_forecast d in Ok (encode w).
End contract.

(** ** What a valid contract is *)

Definition u64 (positive : bool) (v : Z) : Prop := (if positive then 1 else 0) <= v < 2 ^ 64.
Definition i64_positive (v : Z) : Prop := 0 < v < 2 ^ 63.
Definition ppm (v : Z) : Prop := 0 <= v <= maximum_score.

Record contract_valid (d : ModelForecastContractInput) (value target_time : Z) : Prop := {
  cv_returns : Forall (fun v => - maximum_return <= v <= maximum_return) (returns_of d);
  cv_return_order : mf_return_p10_ppm d <= mf_return_p50_ppm d <= mf_return_p90_ppm d;
  cv_scores : Forall ppm (scores_of d);
  cv_probability : mf_probability_down_ppm d + mf_probability_flat_ppm d
                   + mf_probability_up_ppm d = maximum_score;
  cv_volatility : 0 <= mf_volatility_ppm d <= maximum_return;
  cv_horizon_ns : u64 true (mf_horizon_ns d);
  cv_as_of : i64_positive (mf_as_of_exchange_event_time_ns d);
  cv_resolved : resolve_horizon d = Ok (value, target_time);
  cv_value : u64 true value;
  cv_target_time : i64_positive target_time /\
                   target_time = mf_as_of_exchange_event_time_ns d + mf_horizon_ns d;
  cv_lifetime : u64 true (mf_production_process_monotonic_time_ns d) /\
                u64 true (mf_expiration_process_monotonic_time_ns d) /\
                mf_production_process_monotonic_time_ns d
                < mf_expiration_process_monotonic_time_ns d;
  cv_costs : Forall ppm (costs_of d);
  cv_cost_flag : mf_has_transaction_cost_estimate d = false -> Forall (eq 0) (costs_of d);
  cv_unit : mf_forecast_unit d = unit_by_target (mf_forecast_target d);
  cv_target_order : nth 1 (target_values d) 0 <= nth 2 (target_values d) 0
                    <= nth 3 (target_values d) 0;
  cv_target_range : Forall (fun v => (contract_target_bounds (mf_forecast_target d)).1 <= v
                              <= (contract_target_bounds (mf_forecast_target d)).2)
                      (target_values d);
  cv_neutral : mf_forecast_target d <> RETURN ->
    Forall (eq 0) (returns_of d) /\ mf_probability_down_ppm d = 0 /\
    mf_probability_flat_ppm d = maximum_score /\ mf_probability_up_ppm d = 0;
}.

(** ** The checks decide validity *)

Lemma forall_existsb {A} (f : A -> bool) (P : A -> Prop) l :
  (forall x, f x = true <-> P x) -> existsb (fun x => negb (f x)) l = false <-> Forall P l.
Proof.
  intros H. induction l as [|x l IH]; simpl; [by split|].
  rewrite orb_false_iff, IH, Forall_cons, negb_false_iff, H. done.
Qed.

Lemma check_uint64_ok v name p u : check_uint64 v name p = Ok u <-> u64 p v.
Proof. unfold check_uint64, u64. rewrite raise_when_ok. destruct p; lia. Qed.

Lemma check_int64_ok v name u : check_int64 v name true = Ok u <-> i64_positive v.
Proof. unfold check_int64, i64_positive. rewrite raise_when_ok. lia. Qed.

Lemma check_returns_ok d u :
  check_returns d = Ok u <->
  Forall (fun v => - maximum_return <= v <= maximum_return) (returns_of d) /\
  mf_return_p10_ppm d <= mf_return_p50_ppm d <= mf_return_p90_ppm d.
Proof.
  destruct u. unfold check_returns, returns_of, check_int64. cbn [combine res_iter fst snd].
  rewrite !Forall_cons. unfold maximum_return. split.
  - intros H. inv_ok. bprop. repeat split; try lia. apply Forall_nil_2.
  - intros ((H1 & H2 & H3 & H4 & _) & H5). by pass_guards.
Qed.

Lemma check_scores_ok d u :
  check_scores d = Ok u <->
  Forall ppm (scores_of d) /\
  mf_probability_down_ppm d + mf_probability_flat_ppm d + mf_probability_up_ppm d
  = maximum_score /\
  0 <= mf_volatility_ppm d <= maximum_return /\ u64 true (mf_horizon_ns d) /\
  i64_positive (mf_as_of_exchange_event_time_ns d).
Proof.
  unfold check_scores. rewrite !rbind_ok.
  rewrite <- (forall_existsb (fun s => (0 <=? s) && (s <=? maximum_score)))
    by (unfold ppm; intros; lia). split.
  - intros ([] & H1 & H). apply raise_when_ok in H1.
    apply rbind_ok in H as ([] & H2 & H). apply raise_when_ok in H2.
    apply rbind_ok in H as ([] & H3 & H). apply check_uint64_ok in H3. unfold u64 in H3.
    apply rbind_ok in H as ([] & H4 & H). apply raise_when_ok in H4.
    apply rbind_ok in H as ([] & H5 & H). apply check_uint64_ok in H5.
    apply check_int64_ok in H. repeat split; try done; try apply H5; try apply H; lia.
  - intros (H1 & H2 & H3 & H4 & H5). exists tt. rewrite H1. split; [done|].
    rewrite raise_when_false by lia. cbn [rbind].
    rewrite (proj2 (check_uint64_ok _ _ false tt)) by (unfold u64, maximum_return in *; lia).
    cbn [rbind]. rewrite raise_when_false by lia. cbn [rbind].
    rewrite (proj2 (check_uint64_ok _ _ true tt)) by done. cbn [rbind].
    by apply check_int64_ok.
Qed.

Lemma check_horizon_ok d v t :
  check_horizon d = Ok (v, t) <->
  resolve_horizon d = Ok (v, t) /\ u64 true v /\ i64_positive t /\
  mf_as_of_exchange_event_time_ns d < t /\
  t = mf_as_of_exchange_event_time_ns d + mf_horizon_ns d.
Proof.
  unfold check_horizon. split.
  - intros H. apply rbind_ok in H as ([v' t'] & Hr & H). cbn [fst snd] in H.
    apply rbind_ok in H as ([] & H1 & H). apply check_uint64_ok in H1.
    apply rbind_ok in H as ([] & H2 & H). apply check_int64_ok in H2.
    apply rbind_ok in H as ([] & H3 & H). apply raise_when_ok in H3. simplify_eq.
    split; [done|]. split; [done|]. split; [done|]. lia.
  - intros (Hr & H1 & H2 & H3 & H4). rewrite Hr. cbn [rbind fst snd].
    rewrite (proj2 (check_uint64_ok _ _ true tt)), (proj2 (check_int64_ok _ _ tt)) by done.
    cbn [rbind]. by rewrite raise_when_false by lia.
Qed.

Lemma any_nonzero_false l : any_nonzero l = false <-> Forall (eq 0) l.
Proof. apply (forall_existsb (fun v => v =? 0)). intros v. lia. Qed.

Lemma check_lifetime_costs_ok d u :
  check_lifetime_costs d = Ok u <->
  (u64 true (mf_production_process_monotonic_time_ns d) /\
   u64 true (mf_expiration_process_monotonic_time_ns d) /\
   mf_production_process_monotonic_time_ns d < mf_expiration_process_monotonic_time_ns d) /\
  Forall ppm (costs_of d) /\
  (mf_has_transaction_cost_estimate d = false -> Forall (eq 0) (costs_of d)).
Proof.
  destruct u. unfold check_lifetime_costs. rewrite <- any_nonzero_false.
  rewrite <- (forall_existsb (fun s => (0 <=? s) && (s <=? maximum_score)) ppm (costs_of d))
    by (unfold ppm; intros; lia). split.
  - intros H. apply rbind_ok in H as ([] & H1 & H). apply check_uint64_ok in H1.
    apply rbind_ok in H as ([] & H2 & H). apply check_uint64_ok in H2.
    apply rbind_ok in H as ([] & H3 & H). apply raise_when_ok in H3.
    apply rbind_ok in H as ([] & H4 & H). apply raise_when_ok in H4. apply raise_when_ok in H.
    split; [split; [done|]; split; [done | lia]|]. split; [done|]. intros Hf.
    by rewrite Hf in H.
  - intros ((H1 & H2 & H3) & H4 & H5).
    rewrite !(fun v name => proj2 (check_uint64_ok v name true tt)) by done. cbn [rbind].
    rewrite raise_when_false by lia. cbn [rbind]. rewrite H4. cbn [raise_when rbind].
    apply raise_when_ok. destruct (mf_has_transaction_cost_estimate d); [done|].
    by rewrite H5.
Qed.

Lemma check_target_ok d u :
  check_target d = Ok u <->
  mf_forecast_unit d = unit_by_target (mf_forecast_target d) /\
  nth 1 (target_values d) 0 <= nth 2 (target_values d) 0 <= nth 3 (target_values d) 0 /\
  Forall (fun v => (contract_target_bounds (mf_forecast_target d)).1 <= v
            <= (contract_target_bounds (mf_forecast_target d)).2) (target_values d) /\
  (mf_forecast_target d <> RETURN ->
    Forall (eq 0) (returns_of d) /\ mf_probability_down_ppm d = 0 /\
    mf_probability_flat_ppm d = maximum_score /\ mf_probability_up_ppm d = 0).
Proof.
  destruct u. unfold check_target. rewrite <- any_nonzero_false.
  set (b := contract_target_bounds _).
  rewrite <- (forall_existsb (fun v => (b.1 <=? v) && (v <=? b.2)) _ (target_values d))
    by (intros; lia). split.
  - intros H. apply rbind_ok in H as ([] & H1 & H). apply raise_when_ok in H1. bprop.
    apply rbind_ok in H as ([] & H2 & H). apply raise_when_ok in H2.
    apply rbind_ok in H as ([] & H3 & H). apply raise_when_ok in H3. apply raise_when_ok in H.
    split; [done|]. split; [lia|]. split; [done|]. intros Hne.
    rewrite bool_decide_eq_false_2 in H by done. cbn [negb andb] in H. bprop. repeat split; try done; lia.
  - intros (H1 & H2 & H3 & H4). rewrite bool_decide_eq_true_2 by done. cbn [negb raise_when rbind].
    rewrite raise_when_false by lia. cbn [rbind]. rewrite H3. cbn [raise_when rbind].
    apply raise_when_ok. case_bool_decide as E; [done|]. cbn [negb andb].
    destruct (H4 E) as (-> & -> & -> & ->). done.
Qed.

Lemma validated_forecast_ok d w :
  validated_forecast d = Ok w <->
  contract_valid d (wire_horizon_value w) (wire_target_exchange_event_time_ns w) /\
  wire_input w = d /\ wire_target_values w = target_values d.
Proof.
  unfold validated_forecast. split.
  - intros H. apply rbind_ok in H as ([] & H1 & H). apply check_returns_ok in H1 as [H1 H2].
    apply rbind_ok in H as ([] & H3 & H). apply check_scores_ok in H3 as (H3 & H4 & H5 & H6 & H7).
    apply rbind_ok in H as ([v t] & H8 & H). apply check_horizon_ok in H8 as (H8 & H9 & H10 & _ & H11).
    apply rbind_ok in H as ([] & H12 & H). apply check_lifetime_costs_ok in H12 as (H12 & H13 & H14).
    apply rbind_ok in H as ([] & H15 & H). apply check_target_ok in H15 as (H15 & H16 & H17 & H18).
    simplify_eq. by split.
  - destruct w as [d' v t vs]. cbn [wire_input wire_horizon_value
      wire_target_exchange_event_time_ns wire_target_values].
    intros [[H1 H2 H3 H4 H5 H6 H7 H8 H9 [H10 H11] H12 H13 H14 H15 H16 H17 H18] [-> ->]].
    rewrite (proj2 (check_returns_ok d tt)), (proj2 (check_scores_ok d tt)) by done. cbn [rbind].
    rewrite (proj2 (check_horizon_ok d v t)).
    + cbn [rbind]. rewrite (proj2 (check_lifetime_costs_ok d tt)) by done. cbn [rbind].
      by rewrite (proj2 (check_target_ok d tt)) by done.
    + unfold u64 in H6. repeat (split; [done|]). lia.
Qed.

(** Every refusal is a [ValueError]. *)
Lemma validated_forecast_raises d : raises_only ValueError (validated_forecast d).
Proof.
  unfold validated_forecast, check_returns, check_scores, check_horizon, check_lifetime_costs,
    check_target, check_uint64, check_int64, resolve_horizon.
  repeat first [ apply raises_only_bind; [|intros] | apply raises_only_when
               | apply raises_only_iter; intros | apply raises_only_ok | case_match ].
Qed.

(** ** Properties *)

(** The forecast contract is written exactly for valid forecasts.  The
    builder returns bytes if and only if every semantic constraint holds (ranges,
    ordered quantiles, probabilities that sum to one, an unambiguous horizon, a
    lifetime, costs only with their flag, the target's unit and range, neutral
    return fields for other targets); the bytes then encode that input with the
    resolved horizon and target values, and any other input raises
    [ValueError]. *)
Theorem forecast_contract_exact encode d :
  (forall v t, contract_valid d v t ->
     build_model_forecast_contract encode d
     = Ok (encode {| wire_input := d; wire_horizon_value := v;
                     wire_target_exchange_event_time_ns := t;
                     wire_target_values := target_values d |})) /\
  ((forall v t, ~ contract_valid d v t) ->
     exists msg, build_model_forecast_contract encode d = Err (Exn ValueError msg)).
Proof.
  unfold build_model_forecast_contract. split.
  - intros v t Hv. rewrite (proj2 (validated_forecast_ok d
      {| wire_input := d; wire_horizon_value := v; wire_target_exchange_event_time_ns := t;
         wire_target_values := target_values d |})); done.
  - intros Hinv. pose proof (validated_forecast_raises d) as Hr.
    destruct (validated_forecast d) as [w|[c msg]] eqn:E.
    + apply validated_forecast_ok in E as [E _]. by apply Hinv in E.
    + specialize (Hr _ eq_refl). simpl in Hr. subst c. simpl. eauto.
Qed.
