(* ===== verification/Specialists.v ===== *)
(** * What the event specialists share

    The macroeconomic, earnings and market specialists of
    [python/intelligence/aegis_mx_intelligence] validate their inputs and compute with
    integers by the same small functions, of which each module has its copy: text, digest
    and range checks, division that truncates toward zero, medians and quantiles, and the
    canonical JSON of a dataclass.  They take retained excerpts and derived identifiers
    from [news_types.py].  An exception class is an argument where the modules raise their
    own. *)

From S2P Require Import Prelude PyText Json Sha256 ForecastDomain.
Open Scope Z_scope.

(** ** Checks *)

Definition MAX_INT64 : Z := 2 ^ 63 - 1.
Definition MIN_INT64 : Z := - 2 ^ 63.
Definition SHA256_BYTES : Z := 32.

(** [_bounded_text] *)
Definition bounded_text (value : pystr) (maximum : Z) (name : string) : res unit :=
  if bool_decide (value = []) || bool_decide (0 ∈ value) then raise ValueError (name +:+ " is not bounded text")
  else let! b := utf8_encode value in
       raise_when (maximum <? Z.of_nat (length b)) ValueError (name +:+ " is not bounded text").

(** [_valid_digest] *)
Definition valid_digest (value : pybytes) (name : string) : res unit :=
  raise_when (negb (Z.of_nat (length value) =? SHA256_BYTES) || forallb (Z.eqb 0) value) ValueError
    (name +:+ " must be a nonzero SHA-256 digest").

(** [_int64] *)
Definition int64 (value : Z) (name : string) : res unit :=
  raise_when (negb ((MIN_INT64 <=? value) && (value <=? MAX_INT64))) ValueError
    (name +:+ " is outside the signed 64-bit range").

(** [_positive_timestamp] *)
Definition positive_timestamp (value : Z) (name : string) : res unit :=
  raise_when (value <=? 0) ValueError (name +:+ " must be positive").

(** [len({f(item) for item in l}) == len(l)] *)
Definition unique_by {A B} `{EqDecision B} (f : A -> B) (l : list A) : bool := bool_decide (NoDup (map f l)).

(** [any(f(item) for item in l)] where [f] may raise. *)
Fixpoint res_any {A} (f : A -> res bool) (l : list A) : res bool :=
  match l with
  | [] => Ok false
  | x :: l => let! b := f x in if b : bool then Ok true else res_any f l
  end.

Definition count_if {A} (f : A -> bool) (l : list A) : Z := Z.of_nat (length (List.filter f l)).

(** ** Integer arithmetic *)

(** [_trunc_div] *)
Definition trunc_div (c : exn_class) (numerator denominator : Z) : res Z :=
  do! raise_when (denominator <=? 0) c "deterministic division denominator must be positive" in
  let sign := if numerator <? 0 then -1 else 1 in
  Ok (sign * (Z.abs numerator / denominator)).

(** [_clamp] *)
Definition clamp (value lower upper : Z) : Z := Z.min upper (Z.max lower value).

(** [_median] *)
Definition median (c : exn_class) (values : list Z) : res Z :=
  match values with
  | [] => raise c "median requires at least one value"
  | _ =>
      let ordered := py_sorted Z.leb values in
      let middle := (length ordered / 2)%nat in
      if Nat.odd (length ordered) then Ok (nth middle ordered 0)
      else trunc_div c (nth (middle - 1) ordered 0 + nth middle ordered 0) 2
  end.

(** [_quantile] *)
Definition quantile (c : exn_class) (values : list Z) (percentile : Z) : res Z :=
  do! raise_when (bool_decide (values = []) || negb ((0 <=? percentile) && (percentile <=? 100))) c
        "quantile input is empty or percentile is invalid" in
  let ordered := py_sorted Z.leb values in
  Ok (nth (Z.to_nat ((Z.of_nat (length ordered) - 1) * percentile / 100)) ordered 0).

(** ** Retained excerpts and derived identifiers *)

Record EvidenceExcerpt := {
  ex_excerpt_id : Z;
  ex_start : Z;
  ex_end : Z;
  ex_exact_text : pystr;
}.
#[export] Instance EvidenceExcerpt_eq_dec : EqDecision EvidenceExcerpt.
Proof. solve_decision. Defined.

Definition MAX_EXCERPT_CHARACTERS : Z := 512.

Definition EvidenceExcerpt_post_init (e : EvidenceExcerpt) : res unit :=
  do! raise_when ((ex_excerpt_id e <=? 0) || (ex_start e <? 0) || (ex_end e <=? ex_start e)) ValueError
        "evidence identifier and offsets are invalid" in
  raise_when (MAX_EXCERPT_CHARACTERS <? Z.of_nat (length (ex_exact_text e))) ValueError
    "evidence excerpt exceeds its character bound".

(** A part of a derived identifier: [int.to_bytes] and the length of a part overflow with
    [OverflowError]. *)
Definition news_part_bytes (p : part) : res pybytes :=
  match p with
  | PBytes b => Ok b
  | PStr s => utf8_encode s
  | PInt n =>
      do! raise_when (n <? 0) ValueError "identifier integer parts must be nonnegative" in
      do! raise_when (256 ^ 16 <=? n) OverflowError "int too big to convert" in
      Ok (be_bytes 16 n)
  end.

Definition news_framed (encoded : pybytes) : res pybytes :=
  do! raise_when (256 ^ 4 <=? Z.of_nat (length encoded)) OverflowError "int too big to convert" in
  Ok (be_bytes 4 (Z.of_nat (length encoded)) ++ encoded).

(** [derived_identifier] of [news_types.py] *)
Definition news_derived_identifier (namespace : pystr) (parts : list part) : res Identifier128 :=
  let! n := ascii_encode namespace in
  let! encoded := res_map (fun p => let! b := news_part_bytes p in news_framed b) parts in
  let raw := take 16 (sha256 (n ++ concat encoded)) in
  let h := be_int (take 8 raw) in
  new_identifier (if h =? 0 then 1 else h) (be_int (drop 8 raw)).

(** ** Canonical documents *)

(** [_canonical_value] of the types that the dataclasses use; an enumeration is its name. *)
Definition jtext (s : pystr) : json := JStr s.
Definition jname (s : string) : json := JStr (str s).
Definition jident (i : Identifier128) : json := JStr (id_hex i).
Definition jbytes (b : pybytes) : json := JStr (bytes_hex b).
Definition jlist {A} (f : A -> json) (l : list A) : json := JArr (map f l).
Definition jopt {A} (f : A -> json) (o : option A) : json := match o with Some a => f a | None => JNull end.
Definition jfields (m : list (string * json)) : json := JObj (map (fun kv => (str kv.1, kv.2)) m).

Definition EvidenceExcerpt_document (e : EvidenceExcerpt) : json :=
  jfields [("excerpt_id", JInt (ex_excerpt_id e)); ("start", JInt (ex_start e)); ("end", JInt (ex_end e));
           ("exact_text", jtext (ex_exact_text e))].

(** [_canonical_json_bytes] and the digest of a document. *)
Definition canonical_json_bytes (v : json) : res pybytes := dumps v.
Definition document_sha256 (v : json) : res pybytes := let! b := canonical_json_bytes v in Ok (sha256 b).

(** ** The arithmetic is exact and bounded *)

#[export] Instance leb_order : OrderB Z.leb.
Proof. split; [split|]; intros; lia. Qed.

Lemma trunc_div_quot c n d : 0 < d -> trunc_div c n d = Ok (Z.quot n d).
Proof.
  intros Hd. unfold trunc_div. rewrite raise_when_false by lia. cbn [rbind]. f_equal. rewrite Z.quot_div by lia.
  rewrite (Z.sgn_pos d), (Z.abs_eq d) by lia. destruct (n <? 0) eqn:E; [rewrite Z.sgn_neg by lia; lia|].
  destruct (Z.eq_dec n 0) as [->|]; [by rewrite !Z.div_0_l by lia | rewrite Z.sgn_pos by lia; lia].
Qed.

Lemma trunc_div_value c n d q : trunc_div c n d = Ok q <-> 0 < d /\ q = Z.quot n d.
Proof.
  split.
  - intros H. assert (0 < d) as Hd by (unfold trunc_div in H; inv_ok; lia). split; [done|].
    rewrite trunc_div_quot in H by done. by injection H.
  - intros [Hd ->]. by apply trunc_div_quot.
Qed.

(** A quotient by a positive number stays between bounds that it scales. *)
Lemma quot_between n d lo hi : 0 < d -> lo * d <= n <= hi * d -> lo <= Z.quot n d <= hi.
Proof.
  intros Hd [H1 H2]. rewrite <- (Z.quot_mul lo d), <- (Z.quot_mul hi d) by lia.
  split; apply Z.quot_le_mono; lia.
Qed.

Lemma clamp_between v lo hi : lo <= hi -> lo <= clamp v lo hi <= hi.
Proof. unfold clamp. lia. Qed.

Lemma clamp_inside v lo hi : lo <= v <= hi -> clamp v lo hi = v.
Proof. unfold clamp. lia. Qed.

Lemma nth_between (l : list Z) i lo hi :
  (i < length l)%nat -> Forall (fun v => lo <= v <= hi) l -> lo <= nth i l 0 <= hi.
Proof. intros Hi H. rewrite Forall_forall in H. apply H. rewrite list_elem_of_In. by apply nth_In. Qed.

Lemma length_py_sorted (l : list Z) : length (py_sorted Z.leb l) = length l.
Proof. apply Permutation_length, py_sorted_perm. Qed.

Lemma sorted_between (l : list Z) lo hi :
  Forall (fun v => lo <= v <= hi) l -> Forall (fun v => lo <= v <= hi) (py_sorted Z.leb l).
Proof. intros H. by rewrite py_sorted_perm. Qed.

(** The median of values between two bounds is between them. *)
Lemma median_between c l lo hi :
  l <> [] -> Forall (fun v => lo <= v <= hi) l -> exists m, median c l = Ok m /\ lo <= m <= hi.
Proof.
  intros Hl H. unfold median. destruct l as [|a t] eqn:El; [done|]. rewrite <- El in *. clear Hl.
  assert (0 < length l)%nat by (rewrite El; cbn; lia).
  pose proof (length_py_sorted l) as Hlen. pose proof (sorted_between l lo hi H) as Hs.
  set (s := py_sorted Z.leb l) in *. clearbody s.
  assert (length s / 2 < length s)%nat by (apply Nat.div_lt; lia).
  pose proof (nth_between s (length s / 2) lo hi ltac:(lia) Hs).
  destruct (Nat.odd (length s)); [by eexists|].
  rewrite trunc_div_quot by lia. eexists. split; [done|].
  pose proof (nth_between s (length s / 2 - 1) lo hi ltac:(lia) Hs). apply quot_between; lia.
Qed.

(** The median of a list: the middle one of its values in order, or the mean of the two
    middle ones, truncated toward zero. *)
Definition is_median (l : list Z) (v : Z) : Prop :=
  exists s k, l ≡ₚ s /\ StronglySorted (fun a b => Z.leb a b = true) s
    /\ ((length s = 2 * k + 1 /\ s !! k = Some v)%nat
        \/ exists a c, (length s = 2 * k + 2)%nat /\ s !! k = Some a /\ s !! S k = Some c /\ v = Z.quot (a + c) 2).

Lemma is_median_perm l l' v : l ≡ₚ l' -> is_median l v -> is_median l' v.
Proof. intros H (s & k & Hs & Hv). exists s, k. split; [by rewrite <- H | done]. Qed.

Lemma median_correct c l v : median c l = Ok v -> is_median l v.
Proof.
  unfold median. destruct l as [|a t] eqn:El; [done|]. rewrite <- El. cbv zeta.
  assert (0 < length l)%nat as Hpos by (rewrite El; cbn; lia). clear El.
  pose proof (length_py_sorted l) as Hlen. assert (l ≡ₚ py_sorted Z.leb l) as Hp by (symmetry; apply py_sorted_perm).
  assert (StronglySorted (fun a b => Z.leb a b = true) (py_sorted Z.leb l)) as Hs by (apply py_sorted_sorted; apply _).
  intros H. exists (py_sorted Z.leb l). set (s := py_sorted Z.leb l) in *. clearbody s.
  assert (forall i, (i < length s)%nat -> s !! i = Some (nth i s 0)) as Hnth.
  { intros i Hi. destruct (nth_lookup_or_length s i 0); [done | lia]. }
  pose proof (Nat.div_mod_eq (length s) 2) as Hd. pose proof (Nat.mod_upper_bound (length s) 2 ltac:(lia)) as Hm.
  destruct (Nat.odd (length s)) eqn:Eo.
  - apply Nat.odd_spec in Eo as [k Hk]. exists k. split_and!; [done | done |]. left. split; [lia|].
    assert (length s / 2 = k)%nat as E by lia. rewrite E in H. injection H as <-. apply Hnth. lia.
  - assert (Nat.even (length s) = true) as Ee by (rewrite <- Nat.negb_odd, Eo; done). apply Nat.even_spec in Ee as [k Hk].
    assert (length s / 2 = k)%nat as E by lia. rewrite trunc_div_quot, E in H by lia. injection H as <-.
    destruct k as [|k]; [|exists k; split_and!; [done | done |]; right; exists (nth k s 0), (nth (S k) s 0);
      split_and!; [lia | apply Hnth; lia | apply Hnth; lia | by replace (S k - 1)%nat with k by lia]].
    lia.
Qed.

Lemma quantile_index n p : 0 < n -> 0 <= p <= 100 -> 0 <= (n - 1) * p / 100 <= n - 1.
Proof.
  intros. split; [apply Z.div_pos; nia|]. transitivity ((n - 1) * 100 / 100); [apply Z.div_le_mono; nia|].
  rewrite Z.div_mul by lia. lia.
Qed.

Lemma quantile_between c l p lo hi :
  l <> [] -> 0 <= p <= 100 -> Forall (fun v => lo <= v <= hi) l -> exists q, quantile c l p = Ok q /\ lo <= q <= hi.
Proof.
  intros Hl Hp H. unfold quantile. rewrite bool_decide_eq_false_2 by done. rewrite raise_when_false by lia. cbn [rbind].
  eexists. split; [done|]. apply nth_between; [|by apply sorted_between].
  assert (0 < Z.of_nat (length l)) by (destruct l; [done | cbn; lia]). rewrite length_py_sorted.
  pose proof (quantile_index (Z.of_nat (length l)) p). lia.
Qed.

(** Quantiles are ordered as their percentages. *)
Lemma quantile_mono c l p q a b :
  p <= q -> quantile c l p = Ok a -> quantile c l q = Ok b -> a <= b.
Proof.
  intros Hpq Ha Hb. unfold quantile in *. inv_ok. bprop. set (s := py_sorted Z.leb l).
  assert (0 < Z.of_nat (length s)) as Hn by (unfold s; rewrite length_py_sorted; destruct l; [done | cbn; lia]).
  pose proof (quantile_index _ p Hn ltac:(lia)). pose proof (quantile_index _ q Hn ltac:(lia)).
  assert ((Z.of_nat (length s) - 1) * p / 100 <= (Z.of_nat (length s) - 1) * q / 100) by (apply Z.div_le_mono; nia).
  set (i := Z.to_nat ((Z.of_nat (length s) - 1) * p / 100)) in *. set (j := Z.to_nat ((Z.of_nat (length s) - 1) * q / 100)) in *.
  destruct (decide (i = j)) as [->|]; [lia|].
  destruct (nth_lookup_or_length s i 0) as [Hi|]; [|lia]. destruct (nth_lookup_or_length s j 0) as [Hj|]; [|lia].
  apply Z.leb_le. apply (strongly_sorted_nth (fun a b => Z.leb a b = true) s i j); [apply py_sorted_sorted; apply _ | lia | done | done].
Qed.

(** Three quantiles of values between two bounds. *)
Lemma quantiles_between c l lo hi :
  l <> [] -> Forall (fun v => lo <= v <= hi) l ->
  exists p10 p50 p90, quantile c l 10 = Ok p10 /\ quantile c l 50 = Ok p50 /\ quantile c l 90 = Ok p90
    /\ lo <= p10 <= p50 /\ p50 <= p90 <= hi.
Proof.
  intros Hl H. destruct (quantile_between c l 10 lo hi Hl ltac:(lia) H) as (p10 & E1 & H1).
  destruct (quantile_between c l 50 lo hi Hl ltac:(lia) H) as (p50 & E2 & H2).
  destruct (quantile_between c l 90 lo hi Hl ltac:(lia) H) as (p90 & E3 & H3).
  exists p10, p50, p90. pose proof (quantile_mono c l 10 50 _ _ ltac:(lia) E1 E2).
  pose proof (quantile_mono c l 50 90 _ _ ltac:(lia) E2 E3). split_and!; try done; lia.
Qed.

(** ** Checks that pass *)

Lemma res_any_false {A} (f : A -> res bool) l : res_any f l = Ok false <-> Forall (fun x => f x = Ok false) l.
Proof.
  induction l as [|x l IH]; cbn [res_any]; [by split|]. rewrite Forall_cons, <- IH.
  destruct (f x) as [[]|e]; cbn [rbind]; naive_solver.
Qed.

Lemma unique_by_nodup {A B} `{EqDecision B} (f : A -> B) l : unique_by f l = true <-> NoDup (map f l).
Proof. apply bool_decide_eq_true. Qed.

Lemma count_if_none {A} (f : A -> bool) l : count_if f l = 0 -> Forall (fun x => f x = false) l.
Proof.
  unfold count_if. intros H. apply Forall_forall. intros x Hx. destruct (f x) eqn:E; [|done].
  assert (x ∈ List.filter f l) as Hin by (by apply elem_of_filter_b). destruct (List.filter f l); [by apply elem_of_nil in Hin | cbn in H; lia].
Qed.

Lemma count_if_bound {A} (f : A -> bool) l : 0 <= count_if f l <= Z.of_nat (length l).
Proof. unfold count_if. split; [lia|]. apply inj_le, List.filter_length_le. Qed.

Lemma int64_ok v name u : int64 v name = Ok u <-> MIN_INT64 <= v <= MAX_INT64.
Proof. unfold int64. rewrite raise_when_ok. lia. Qed.

Lemma positive_timestamp_ok v name u : positive_timestamp v name = Ok u <-> 0 < v.
Proof. unfold positive_timestamp. rewrite raise_when_ok. lia. Qed.

Lemma valid_digest_ok v name u :
  valid_digest v name = Ok u <-> length v = 32%nat /\ v <> replicate 32 0.
Proof.
  unfold valid_digest, SHA256_BYTES. rewrite raise_when_ok. split.
  - intros H. bprop. assert (length v = 32%nat) by lia. split; [done|]. intros ->. by vm_compute in H0.
  - intros [Hl Hv]. apply orb_false_iff. split; [lia|]. destruct (forallb (Z.eqb 0) v) eqn:E; [|done]. exfalso. apply Hv.
    rewrite <- Hl. clear -E. induction v as [|x v IH]; [done|]. cbn [forallb] in E. bprop. cbn [length replicate]. f_equal; [lia | by apply IH].
Qed.

(** ** Derived identifiers *)

Lemma be_int_words b : 0 <= be_int (take 8 (take 16 (sha256 b))) < 2 ^ 64 /\ 0 <= be_int (drop 8 (take 16 (sha256 b))) < 2 ^ 64.
Proof.
  assert (Hr : Forall (fun x => 0 <= x < 256) (take 16 (sha256 b))) by (apply Forall_take, sha256_range).
  assert (Hl : length (take 16 (sha256 b)) = 16%nat) by (rewrite length_take, length_sha256; lia).
  set (raw := take 16 (sha256 b)) in *. clearbody raw. split.
  - pose proof (be_int_range (take 8 raw) (Forall_take _ _ _ Hr)) as H. by rewrite length_take, Hl in H.
  - pose proof (be_int_range (drop 8 raw) (Forall_drop _ _ _ Hr)) as H. by rewrite length_drop, Hl in H.
Qed.

(** An identifier is derived whenever its parts can be encoded. *)
Lemma news_identifier_total namespace parts :
  forallb is_ascii namespace = true ->
  Forall (fun p => exists b, news_part_bytes p = Ok b /\ Z.of_nat (length b) < 256 ^ 4) parts ->
  exists i, news_derived_identifier namespace parts = Ok i /\ identifier_ok i.
Proof.
  intros Hn Hp. unfold news_derived_identifier, ascii_encode. rewrite Hn. cbn [negb raise_when rbind].
  destruct (res_map_total (fun p => let! b := news_part_bytes p in news_framed b) parts) as [l ->].
  { eapply Forall_impl; [exact Hp|]. intros p (b & -> & Hb). cbn [rbind]. unfold news_framed. rewrite raise_when_false by lia.
    cbn [rbind]. by eexists. }
  cbn [rbind]. pose proof (be_int_words (namespace ++ concat l)) as [H1 H2].
  set (h := be_int (take 8 _)) in *. set (k := be_int (drop 8 _)) in *. clearbody h k.
  assert (identifier_ok (Id128 (if h =? 0 then 1 else h) k)) as Hi.
  { apply identifier_ok_range. cbn [high low]. destruct (h =? 0) eqn:E; lia. }
  eexists. split; [unfold new_identifier; unfold identifier_ok in Hi; by rewrite Hi | done].
Qed.

Lemma ascii_utf8 s : forallb is_ascii s = true -> utf8_encode s = Ok s.
Proof.
  induction s as [|c s IH]; [done|]. cbn [forallb utf8_encode]. intros H. bprop. rewrite (IH H0). unfold is_ascii in H. bprop.
  unfold utf8_char. rewrite (proj2 (Z.ltb_ge c 0)), (proj2 (Z.ltb_lt c 128)) by lia. done.
Qed.

Lemma id_hex_ascii i : forallb is_ascii (id_hex i) = true.
Proof.
  apply forallb_forall. intros c Hc. apply list_elem_of_In in Hc. unfold id_hex in Hc. apply elem_of_app in Hc.
  unfold is_ascii. destruct Hc as [Hc|Hc]; apply hex_fixed_chars in Hc; lia.
Qed.

Lemma identifier_hex_length i : length (id_hex i) = 32%nat.
Proof. unfold id_hex. by rewrite length_app, !length_hex_fixed. Qed.

Lemma document_sha256_total v : ints_printable v = true -> exists d, document_sha256 v = Ok d /\ length d = 32%nat.
Proof.
  intros H. unfold document_sha256, canonical_json_bytes. destruct (dumps_total v H) as [b ->]. cbn [rbind].
  eexists. split; [done | apply length_sha256].
Qed.
