(* ===== verification/MacroTypes.v ===== *)
(** * Contracts of the macroeconomic specialist

    Models [python/intelligence/aegis_mx_intelligence/macro_types.py]: the calendar event,
    the frozen consensus, the released and prior values, the market response, the input
    bundle with its evidence and point-in-time checks, the result with its exclusivity
    checks, and the canonical document that is hashed.  A frozen dataclass is a record with
    its [_post_init] and its [_document]. *)

From S2P Require Import Prelude PyText Json Sha256 ForecastDomain Specialists.
Open Scope Z_scope.

(** ** Enumerations and bounds *)

Inductive MacroEventType :=
  | CPI | PPI | EMPLOYMENT_REPORT | GDP | RETAIL_SALES | FOMC_DECISION | FEDERAL_RESERVE_STATEMENT
  | TREASURY_AUCTION | PMI.
#[export] Instance MacroEventType_eq_dec : EqDecision MacroEventType.
Proof. solve_decision. Defined.
Definition MacroEventType_name (x : MacroEventType) : string :=
  match x with
  | CPI => "CPI" | PPI => "PPI" | EMPLOYMENT_REPORT => "EMPLOYMENT_REPORT" | GDP => "GDP"
  | RETAIL_SALES => "RETAIL_SALES" | FOMC_DECISION => "FOMC_DECISION"
  | FEDERAL_RESERVE_STATEMENT => "FEDERAL_RESERVE_STATEMENT" | TREASURY_AUCTION => "TREASURY_AUCTION"
  | PMI => "PMI"
  end.

Inductive MacroMetricRole :=
  | HEADLINE | CORE | SUBCOMPONENT.
#[export] Instance MacroMetricRole_eq_dec : EqDecision MacroMetricRole.
Proof. solve_decision. Defined.
Definition MacroMetricRole_name (x : MacroMetricRole) : string :=
  match x with
  | HEADLINE => "HEADLINE" | CORE => "CORE" | SUBCOMPONENT => "SUBCOMPONENT"
  end.

Inductive MacroMetricUnit :=
  | MU_PERCENT_PPM | MU_RATE_BASIS_POINTS | MU_INDEX_MILLI | MU_CURRENCY_MILLIONS | MU_QUANTITY_THOUSANDS
  | MU_RATIO_PPM.
#[export] Instance MacroMetricUnit_eq_dec : EqDecision MacroMetricUnit.
Proof. solve_decision. Defined.
Definition MacroMetricUnit_name (x : MacroMetricUnit) : string :=
  match x with
  | MU_PERCENT_PPM => "PERCENT_PPM" | MU_RATE_BASIS_POINTS => "RATE_BASIS_POINTS"
  | MU_INDEX_MILLI => "INDEX_MILLI" | MU_CURRENCY_MILLIONS => "CURRENCY_MILLIONS"
  | MU_QUANTITY_THOUSANDS => "QUANTITY_THOUSANDS" | MU_RATIO_PPM => "RATIO_PPM"
  end.

Inductive SeasonalAdjustment :=
  | SA_SEASONALLY_ADJUSTED | SA_NOT_SEASONALLY_ADJUSTED | SA_NOT_APPLICABLE.
#[export] Instance SeasonalAdjustment_eq_dec : EqDecision SeasonalAdjustment.
Proof. solve_decision. Defined.
Definition SeasonalAdjustment_name (x : SeasonalAdjustment) : string :=
  match x with
  | SA_SEASONALLY_ADJUSTED => "SEASONALLY_ADJUSTED" | SA_NOT_SEASONALLY_ADJUSTED => "NOT_SEASONALLY_ADJUSTED"
  | SA_NOT_APPLICABLE => "NOT_APPLICABLE"
  end.

Inductive Annualization :=
  | AN_NOT_ANNUALIZED | AN_ANNUALIZED | AN_NOT_APPLICABLE.
#[export] Instance Annualization_eq_dec : EqDecision Annualization.
Proof. solve_decision. Defined.
Definition Annualization_name (x : Annualization) : string :=
  match x with
  | AN_NOT_ANNUALIZED => "NOT_ANNUALIZED" | AN_ANNUALIZED => "ANNUALIZED"
  | AN_NOT_APPLICABLE => "NOT_APPLICABLE"
  end.

Inductive ReleaseCompletenessState :=
  | RC_PARTIAL | RC_COMPLETE.
#[export] Instance ReleaseCompletenessState_eq_dec : EqDecision ReleaseCompletenessState.
Proof. solve_decision. Defined.
Definition ReleaseCompletenessState_name (x : ReleaseCompletenessState) : string :=
  match x with
  | RC_PARTIAL => "PARTIAL" | RC_COMPLETE => "COMPLETE"
  end.

Inductive MacroEventPhase :=
  | PH_SCHEDULED | PH_DELAYED | PH_PARTIAL_RELEASE | PH_RELEASE_COMPLETE | PH_CORRECTED.
#[export] Instance MacroEventPhase_eq_dec : EqDecision MacroEventPhase.
Proof. solve_decision. Defined.
Definition MacroEventPhase_name (x : MacroEventPhase) : string :=
  match x with
  | PH_SCHEDULED => "SCHEDULED" | PH_DELAYED => "DELAYED" | PH_PARTIAL_RELEASE => "PARTIAL_RELEASE"
  | PH_RELEASE_COMPLETE => "RELEASE_COMPLETE" | PH_CORRECTED => "CORRECTED"
  end.

Inductive MacroDecision :=
  | ABSTAIN | PUBLISH.
#[export] Instance MacroDecision_eq_dec : EqDecision MacroDecision.
Proof. solve_decision. Defined.
Definition MacroDecision_name (x : MacroDecision) : string :=
  match x with
  | ABSTAIN => "ABSTAIN" | PUBLISH => "PUBLISH"
  end.

Inductive MacroSourceKind :=
  | SK_OFFICIAL_CALENDAR | SK_CONSENSUS_SNAPSHOT | SK_PRIOR_RELEASE | SK_OFFICIAL_RELEASE | SK_DATA_PROVIDER
  | SK_MARKET_FEATURES | SK_HISTORICAL_SURPRISE.
#[export] Instance MacroSourceKind_eq_dec : EqDecision MacroSourceKind.
Proof. solve_decision. Defined.
Definition MacroSourceKind_name (x : MacroSourceKind) : string :=
  match x with
  | SK_OFFICIAL_CALENDAR => "OFFICIAL_CALENDAR" | SK_CONSENSUS_SNAPSHOT => "CONSENSUS_SNAPSHOT"
  | SK_PRIOR_RELEASE => "PRIOR_RELEASE" | SK_OFFICIAL_RELEASE => "OFFICIAL_RELEASE"
  | SK_DATA_PROVIDER => "DATA_PROVIDER" | SK_MARKET_FEATURES => "MARKET_FEATURES"
  | SK_HISTORICAL_SURPRISE => "HISTORICAL_SURPRISE"
  end.

Inductive MacroSourceQuality :=
  | SQ_UNVERIFIED | SQ_PUBLIC_SECONDARY | SQ_LICENSED_AGGREGATOR | SQ_OFFICIAL_PRIMARY | SQ_SYNTHETIC_REPLAY.
#[export] Instance MacroSourceQuality_eq_dec : EqDecision MacroSourceQuality.
Proof. solve_decision. Defined.
Definition MacroSourceQuality_name (x : MacroSourceQuality) : string :=
  match x with
  | SQ_UNVERIFIED => "UNVERIFIED" | SQ_PUBLIC_SECONDARY => "PUBLIC_SECONDARY"
  | SQ_LICENSED_AGGREGATOR => "LICENSED_AGGREGATOR" | SQ_OFFICIAL_PRIMARY => "OFFICIAL_PRIMARY"
  | SQ_SYNTHETIC_REPLAY => "SYNTHETIC_REPLAY"
  end.

Inductive MacroReasonCode :=
  | MR_NO_RELEASE | MR_DELAYED_RELEASE | MR_PARTIAL_RELEASE | MR_MISSING_REQUIRED_FIELD | MR_MISSING_CONSENSUS
  | MR_INCOMPATIBLE_FIELD | MR_CONFLICTING_PROVIDER_VALUES | MR_LOW_SOURCE_QUALITY | MR_UNAUTHENTICATED_SOURCE
  | MR_MISSING_CROSS_ASSET_GROUP | MR_INSUFFICIENT_HISTORY | MR_CORRECTED_RELEASE | MR_NO_COMPARABLE_SURPRISE
  | MR_INVALID_MARKET_FEATURES | MR_FIELD_NOT_RELEASED.
#[export] Instance MacroReasonCode_eq_dec : EqDecision MacroReasonCode.
Proof. solve_decision. Defined.
Definition MacroReasonCode_name (x : MacroReasonCode) : string :=
  match x with
  | MR_NO_RELEASE => "NO_RELEASE" | MR_DELAYED_RELEASE => "DELAYED_RELEASE"
  | MR_PARTIAL_RELEASE => "PARTIAL_RELEASE" | MR_MISSING_REQUIRED_FIELD => "MISSING_REQUIRED_FIELD"
  | MR_MISSING_CONSENSUS => "MISSING_CONSENSUS" | MR_INCOMPATIBLE_FIELD => "INCOMPATIBLE_FIELD"
  | MR_CONFLICTING_PROVIDER_VALUES => "CONFLICTING_PROVIDER_VALUES"
  | MR_LOW_SOURCE_QUALITY => "LOW_SOURCE_QUALITY" | MR_UNAUTHENTICATED_SOURCE => "UNAUTHENTICATED_SOURCE"
  | MR_MISSING_CROSS_ASSET_GROUP => "MISSING_CROSS_ASSET_GROUP"
  | MR_INSUFFICIENT_HISTORY => "INSUFFICIENT_HISTORY" | MR_CORRECTED_RELEASE => "CORRECTED_RELEASE"
  | MR_NO_COMPARABLE_SURPRISE => "NO_COMPARABLE_SURPRISE"
  | MR_INVALID_MARKET_FEATURES => "INVALID_MARKET_FEATURES" | MR_FIELD_NOT_RELEASED => "FIELD_NOT_RELEASED"
  end.
Definition MacroReasonCode_value (x : MacroReasonCode) : Z :=
  match x with
  | MR_NO_RELEASE => 1 | MR_DELAYED_RELEASE => 2 | MR_PARTIAL_RELEASE => 3 | MR_MISSING_REQUIRED_FIELD => 4
  | MR_MISSING_CONSENSUS => 5 | MR_INCOMPATIBLE_FIELD => 6 | MR_CONFLICTING_PROVIDER_VALUES => 7
  | MR_LOW_SOURCE_QUALITY => 8 | MR_UNAUTHENTICATED_SOURCE => 9 | MR_MISSING_CROSS_ASSET_GROUP => 10
  | MR_INSUFFICIENT_HISTORY => 11 | MR_CORRECTED_RELEASE => 12 | MR_NO_COMPARABLE_SURPRISE => 13
  | MR_INVALID_MARKET_FEATURES => 14 | MR_FIELD_NOT_RELEASED => 15
  end.

Inductive CrossAssetKind :=
  | CK_EQUITY_INDEX_FUTURE | CK_TREASURY_FUTURE | CK_TREASURY_YIELD | CK_FX_PROXY | CK_VOLATILITY_INSTRUMENT
  | CK_SECTOR_ETF.
#[export] Instance CrossAssetKind_eq_dec : EqDecision CrossAssetKind.
Proof. solve_decision. Defined.
Definition CrossAssetKind_name (x : CrossAssetKind) : string :=
  match x with
  | CK_EQUITY_INDEX_FUTURE => "EQUITY_INDEX_FUTURE" | CK_TREASURY_FUTURE => "TREASURY_FUTURE"
  | CK_TREASURY_YIELD => "TREASURY_YIELD" | CK_FX_PROXY => "FX_PROXY"
  | CK_VOLATILITY_INSTRUMENT => "VOLATILITY_INSTRUMENT" | CK_SECTOR_ETF => "SECTOR_ETF"
  end.
Definition CrossAssetKind_value (x : CrossAssetKind) : Z :=
  match x with
  | CK_EQUITY_INDEX_FUTURE => 1 | CK_TREASURY_FUTURE => 2 | CK_TREASURY_YIELD => 3 | CK_FX_PROXY => 4
  | CK_VOLATILITY_INSTRUMENT => 5 | CK_SECTOR_ETF => 6
  end.

Inductive CrossAssetGroup :=
  | CG_EQUITY_INDEX | CG_RATES | CG_FX | CG_VOLATILITY | CG_SECTOR.
#[export] Instance CrossAssetGroup_eq_dec : EqDecision CrossAssetGroup.
Proof. solve_decision. Defined.
Definition CrossAssetGroup_name (x : CrossAssetGroup) : string :=
  match x with
  | CG_EQUITY_INDEX => "EQUITY_INDEX" | CG_RATES => "RATES" | CG_FX => "FX" | CG_VOLATILITY => "VOLATILITY"
  | CG_SECTOR => "SECTOR"
  end.
Definition CrossAssetGroup_value (x : CrossAssetGroup) : Z :=
  match x with
  | CG_EQUITY_INDEX => 1 | CG_RATES => 2 | CG_FX => 3 | CG_VOLATILITY => 4 | CG_SECTOR => 5
  end.

Inductive CrossAssetUnit :=
  | CU_RETURN_PPM | CU_YIELD_CHANGE_BASIS_POINTS.
#[export] Instance CrossAssetUnit_eq_dec : EqDecision CrossAssetUnit.
Proof. solve_decision. Defined.
Definition CrossAssetUnit_name (x : CrossAssetUnit) : string :=
  match x with
  | CU_RETURN_PPM => "RETURN_PPM" | CU_YIELD_CHANGE_BASIS_POINTS => "YIELD_CHANGE_BASIS_POINTS"
  end.

Definition MACRO_SCHEMA_VERSION : pystr := str "1.0.0".
Definition MAX_SOURCES : Z := 48.
Definition MAX_FIELDS : Z := 64.
Definition MAX_OBSERVATIONS : Z := 128.
Definition MAX_PRIOR_VALUES : Z := 64.
Definition MAX_MARKET_OBSERVATIONS : Z := 64.
Definition MAX_HISTORY : Z := 256.
Definition MAX_EVIDENCE_REFERENCES : Z := 16.
Definition MAX_ABSOLUTE_RESPONSE_PPM : Z := 10000000.

(** ** Records *)

Record MacroMetricIdentity := {
  mi_event_type : MacroEventType;
  mi_field_id : pystr;
  mi_role : MacroMetricRole;
  mi_unit : MacroMetricUnit;
  mi_reference_period : pystr;
  mi_seasonal_adjustment : SeasonalAdjustment;
  mi_annualization : Annualization;
}.
#[export] Instance MacroMetricIdentity_eq_dec : EqDecision MacroMetricIdentity.
Proof. solve_decision. Defined.

Definition MacroMetricIdentity_document (x : MacroMetricIdentity) : json :=
  jfields [("event_type", jname (MacroEventType_name (mi_event_type x))); ("field_id", jtext (mi_field_id x));
           ("role", jname (MacroMetricRole_name (mi_role x))); ("unit", jname (MacroMetricUnit_name (mi_unit x)));
           ("reference_period", jtext (mi_reference_period x));
           ("seasonal_adjustment", jname (SeasonalAdjustment_name (mi_seasonal_adjustment x)));
           ("annualization", jname (Annualization_name (mi_annualization x)))].

Definition MacroMetricIdentity_post_init (x : MacroMetricIdentity) : res unit :=
  do! bounded_text (mi_field_id x) 64 "field_id" in
  bounded_text (mi_reference_period x) 32 "reference_period".

Record MacroEvidenceReference := {
  mer_source_id : pystr;
  mer_excerpt_id : Z;
}.
#[export] Instance MacroEvidenceReference_eq_dec : EqDecision MacroEvidenceReference.
Proof. solve_decision. Defined.

Definition MacroEvidenceReference_document (x : MacroEvidenceReference) : json :=
  jfields [("source_id", jtext (mer_source_id x)); ("excerpt_id", JInt (mer_excerpt_id x))].

Definition MacroEvidenceReference_post_init (x : MacroEvidenceReference) : res unit :=
  do! bounded_text (mer_source_id x) 64 "evidence source_id" in
  raise_when (mer_excerpt_id x <=? 0) ValueError "evidence excerpt_id must be positive".

Record MacroSourceEvidence := {
  mse_source_id : pystr;
  mse_source_global_event_id : Identifier128;
  mse_kind : MacroSourceKind;
  mse_quality : MacroSourceQuality;
  mse_authenticated : bool;
  mse_provider_id : pystr;
  mse_document_id : pystr;
  mse_source_content_sha256 : pybytes;
  mse_sanitized_content_sha256 : pybytes;
  mse_publication_wall_clock_utc_ns : Z;
  mse_received_wall_clock_utc_ns : Z;
  mse_excerpts : list EvidenceExcerpt;
}.
#[export] Instance MacroSourceEvidence_eq_dec : EqDecision MacroSourceEvidence.
Proof. solve_decision. Defined.

Definition MacroSourceEvidence_document (x : MacroSourceEvidence) : json :=
  jfields [("source_id", jtext (mse_source_id x)); ("source_global_event_id", jident (mse_source_global_event_id x));
           ("kind", jname (MacroSourceKind_name (mse_kind x)));
           ("quality", jname (MacroSourceQuality_name (mse_quality x))); ("authenticated", JBool (mse_authenticated x));
           ("provider_id", jtext (mse_provider_id x)); ("document_id", jtext (mse_document_id x));
           ("source_content_sha256", jbytes (mse_source_content_sha256 x));
           ("sanitized_content_sha256", jbytes (mse_sanitized_content_sha256 x));
           ("publication_wall_clock_utc_ns", JInt (mse_publication_wall_clock_utc_ns x));
           ("received_wall_clock_utc_ns", JInt (mse_received_wall_clock_utc_ns x));
           ("excerpts", jlist EvidenceExcerpt_document (mse_excerpts x))].

Definition MacroSourceEvidence_post_init (x : MacroSourceEvidence) : res unit :=
  do! bounded_text (mse_source_id x) 64 "source_id" in
  do! bounded_text (mse_provider_id x) 64 "provider_id" in
  do! bounded_text (mse_document_id x) 128 "document_id" in
  do! valid_digest (mse_source_content_sha256 x) "source_content_sha256" in
  do! valid_digest (mse_sanitized_content_sha256 x) "sanitized_content_sha256" in
  do! positive_timestamp (mse_publication_wall_clock_utc_ns x) "publication_wall_clock_utc_ns" in
  do! raise_when (mse_received_wall_clock_utc_ns x <? mse_publication_wall_clock_utc_ns x) ValueError
        "macro source receipt precedes publication" in
  do! raise_when (bool_decide (mse_excerpts x = []) || (MAX_EVIDENCE_REFERENCES <? Z.of_nat (length (mse_excerpts x))))
        ValueError "macro source requires one to sixteen exact excerpts" in
  raise_when (negb (unique_by ex_excerpt_id (mse_excerpts x))) ValueError
    "macro source excerpt identifiers must be unique".

(** [_validate_reference_count] *)
Definition validate_reference_count (references : list MacroEvidenceReference) (owner : string) : res unit :=
  do! raise_when (bool_decide (references = []) || (MAX_EVIDENCE_REFERENCES <? Z.of_nat (length references))) ValueError
        (owner +:+ " requires one to sixteen evidence references") in
  raise_when (negb (unique_by id references)) ValueError (owner +:+ " evidence references must be unique").

Record ExpectedReleaseField := {
  erf_identity : MacroMetricIdentity;
  erf_required : bool;
  erf_positive_surprise_direction : Z;
  erf_forecast_weight_ppm : Z;
  erf_evidence : list MacroEvidenceReference;
}.
#[export] Instance ExpectedReleaseField_eq_dec : EqDecision ExpectedReleaseField.
Proof. solve_decision. Defined.

Definition ExpectedReleaseField_document (x : ExpectedReleaseField) : json :=
  jfields [("identity", MacroMetricIdentity_document (erf_identity x)); ("required", JBool (erf_required x));
           ("positive_surprise_direction", JInt (erf_positive_surprise_direction x));
           ("forecast_weight_ppm", JInt (erf_forecast_weight_ppm x));
           ("evidence", jlist MacroEvidenceReference_document (erf_evidence x))].

Definition ExpectedReleaseField_post_init (x : ExpectedReleaseField) : res unit :=
  do! raise_when (negb (bool_decide (erf_positive_surprise_direction x ∈ [-1; 0; 1]))) ValueError
        "positive_surprise_direction must be -1, 0, or 1" in
  do! raise_when (negb ((0 <=? erf_forecast_weight_ppm x) && (erf_forecast_weight_ppm x <=? PPM))) ValueError
        "forecast_weight_ppm is outside [0, 1,000,000]" in
  validate_reference_count (erf_evidence x) "expected release field".

Record MacroCalendarEvent := {
  mce_calendar_event_id : Identifier128;
  mce_event_type : MacroEventType;
  mce_calendar_version : pystr;
  mce_scheduled_release_wall_clock_utc_ns : Z;
  mce_expected_fields : list ExpectedReleaseField;
}.
#[export] Instance MacroCalendarEvent_eq_dec : EqDecision MacroCalendarEvent.
Proof. solve_decision. Defined.

Definition MacroCalendarEvent_document (x : MacroCalendarEvent) : json :=
  jfields [("calendar_event_id", jident (mce_calendar_event_id x));
           ("event_type", jname (MacroEventType_name (mce_event_type x)));
           ("calendar_version", jtext (mce_calendar_version x));
           ("scheduled_release_wall_clock_utc_ns", JInt (mce_scheduled_release_wall_clock_utc_ns x));
           ("expected_fields", jlist ExpectedReleaseField_document (mce_expected_fields x))].

Definition has_role (role : MacroMetricRole) (x : ExpectedReleaseField) : bool := bool_decide (mi_role (erf_identity x) = role).

Definition MacroCalendarEvent_post_init (x : MacroCalendarEvent) : res unit :=
  do! bounded_text (mce_calendar_version x) 32 "calendar_version" in
  do! positive_timestamp (mce_scheduled_release_wall_clock_utc_ns x) "scheduled_release_wall_clock_utc_ns" in
  do! raise_when (bool_decide (mce_expected_fields x = []) || (MAX_FIELDS <? Z.of_nat (length (mce_expected_fields x)))) ValueError
        "macro calendar requires one to sixty-four expected fields" in
  do! raise_when (negb (unique_by erf_identity (mce_expected_fields x))) ValueError
        "macro calendar expected field identities must be unique" in
  do! raise_when (existsb (fun f => negb (bool_decide (mi_event_type (erf_identity f) = mce_event_type x))) (mce_expected_fields x))
        ValueError "macro calendar field event type mismatch" in
  do! raise_when (negb (count_if (has_role HEADLINE) (mce_expected_fields x) =? 1)
                  || (1 <? count_if (has_role CORE) (mce_expected_fields x))) ValueError
        "macro calendar requires one headline and at most one core field" in
  raise_when (negb (existsb (fun f => erf_required f && has_role HEADLINE f) (mce_expected_fields x))) ValueError
    "macro calendar headline field must be required".

Record MacroConsensusEstimate := {
  mes_identity : MacroMetricIdentity;
  mes_consensus_value : Z;
  mes_dispersion : Z;
  mes_minimum_value : Z;
  mes_maximum_value : Z;
  mes_contributor_count : Z;
  mes_available_wall_clock_utc_ns : Z;
  mes_evidence : list MacroEvidenceReference;
}.
#[export] Instance MacroConsensusEstimate_eq_dec : EqDecision MacroConsensusEstimate.
Proof. solve_decision. Defined.

Definition MacroConsensusEstimate_document (x : MacroConsensusEstimate) : json :=
  jfields [("identity", MacroMetricIdentity_document (mes_identity x)); ("consensus_value", JInt (mes_consensus_value x));
           ("dispersion", JInt (mes_dispersion x)); ("minimum_value", JInt (mes_minimum_value x));
           ("maximum_value", JInt (mes_maximum_value x)); ("contributor_count", JInt (mes_contributor_count x));
           ("available_wall_clock_utc_ns", JInt (mes_available_wall_clock_utc_ns x));
           ("evidence", jlist MacroEvidenceReference_document (mes_evidence x))].

Definition MacroConsensusEstimate_post_init (x : MacroConsensusEstimate) : res unit :=
  do! int64 (mes_consensus_value x) "consensus_value" in
  do! int64 (mes_minimum_value x) "minimum_value" in
  do! int64 (mes_maximum_value x) "maximum_value" in
  do! raise_when ((mes_dispersion x <? 0) || (mes_contributor_count x <=? 0)
                  || negb ((mes_minimum_value x <=? mes_consensus_value x) && (mes_consensus_value x <=? mes_maximum_value x)))
        ValueError "macro consensus distribution or contributor count is invalid" in
  do! positive_timestamp (mes_available_wall_clock_utc_ns x) "consensus available_wall_clock_utc_ns" in
  validate_reference_count (mes_evidence x) "macro consensus".

Record MacroConsensusSnapshot := {
  mcs_snapshot_id : Identifier128;
  mcs_calendar_event_id : Identifier128;
  mcs_frozen_wall_clock_utc_ns : Z;
  mcs_estimates : list MacroConsensusEstimate;
}.
#[export] Instance MacroConsensusSnapshot_eq_dec : EqDecision MacroConsensusSnapshot.
Proof. solve_decision. Defined.

Definition MacroConsensusSnapshot_document (x : MacroConsensusSnapshot) : json :=
  jfields [("snapshot_id", jident (mcs_snapshot_id x)); ("calendar_event_id", jident (mcs_calendar_event_id x));
           ("frozen_wall_clock_utc_ns", JInt (mcs_frozen_wall_clock_utc_ns x));
           ("estimates", jlist MacroConsensusEstimate_document (mcs_estimates x))].

Definition MacroConsensusSnapshot_post_init (x : MacroConsensusSnapshot) : res unit :=
  do! positive_timestamp (mcs_frozen_wall_clock_utc_ns x) "consensus frozen_wall_clock_utc_ns" in
  do! raise_when (MAX_FIELDS <? Z.of_nat (length (mcs_estimates x))) ValueError
        "macro consensus estimate count exceeds its bound" in
  do! raise_when (negb (unique_by mes_identity (mcs_estimates x))) ValueError
        "macro consensus field identities must be unique" in
  raise_when (existsb (fun e => mcs_frozen_wall_clock_utc_ns x <? mes_available_wall_clock_utc_ns e) (mcs_estimates x)) ValueError
    "macro consensus contains an estimate unavailable at freeze time".

(** [MacroConsensusSnapshot.sha256] *)
Definition MacroConsensusSnapshot_sha256 (x : MacroConsensusSnapshot) : res pybytes :=
  document_sha256 (MacroConsensusSnapshot_document x).

Record MacroValueObservation := {
  mvo_identity : MacroMetricIdentity;
  mvo_value : Z;
  mvo_source_id : pystr;
  mvo_evidence : list MacroEvidenceReference;
}.
#[export] Instance MacroValueObservation_eq_dec : EqDecision MacroValueObservation.
Proof. solve_decision. Defined.

Definition MacroValueObservation_document (x : MacroValueObservation) : json :=
  jfields [("identity", MacroMetricIdentity_document (mvo_identity x)); ("value", JInt (mvo_value x));
           ("source_id", jtext (mvo_source_id x)); ("evidence", jlist MacroEvidenceReference_document (mvo_evidence x))].

Definition MacroValueObservation_post_init (x : MacroValueObservation) : res unit :=
  do! int64 (mvo_value x) "macro observed value" in
  do! bounded_text (mvo_source_id x) 64 "macro observation source_id" in
  validate_reference_count (mvo_evidence x) "macro value observation".

Record MacroPriorValue := {
  mpv_identity : MacroMetricIdentity;
  mpv_value_known_before_release : Z;
  mpv_known_available_wall_clock_utc_ns : Z;
  mpv_revised_value_in_release : option Z;
  mpv_evidence : list MacroEvidenceReference;
}.
#[export] Instance MacroPriorValue_eq_dec : EqDecision MacroPriorValue.
Proof. solve_decision. Defined.

Definition MacroPriorValue_document (x : MacroPriorValue) : json :=
  jfields [("identity", MacroMetricIdentity_document (mpv_identity x));
           ("value_known_before_release", JInt (mpv_value_known_before_release x));
           ("known_available_wall_clock_utc_ns", JInt (mpv_known_available_wall_clock_utc_ns x));
           ("revised_value_in_release", jopt JInt (mpv_revised_value_in_release x));
           ("evidence", jlist MacroEvidenceReference_document (mpv_evidence x))].

Definition MacroPriorValue_post_init (x : MacroPriorValue) : res unit :=
  do! int64 (mpv_value_known_before_release x) "prior value known before release" in
  do! match mpv_revised_value_in_release x with
      | Some v => int64 v "revised value in release"
      | None => Ok tt
      end in
  do! positive_timestamp (mpv_known_available_wall_clock_utc_ns x) "prior known_available_wall_clock_utc_ns" in
  validate_reference_count (mpv_evidence x) "macro prior value".

Record MacroActualRelease := {
  mar_revision : Z;
  mar_completeness : ReleaseCompletenessState;
  mar_official_publication_wall_clock_utc_ns : Z;
  mar_receipt_wall_clock_utc_ns : Z;
  mar_observations : list MacroValueObservation;
  mar_prior_values : list MacroPriorValue;
  mar_correction_of_release_sha256 : option pybytes;
}.
#[export] Instance MacroActualRelease_eq_dec : EqDecision MacroActualRelease.
Proof. solve_decision. Defined.

Definition MacroActualRelease_document (x : MacroActualRelease) : json :=
  jfields [("revision", JInt (mar_revision x));
           ("completeness", jname (ReleaseCompletenessState_name (mar_completeness x)));
           ("official_publication_wall_clock_utc_ns", JInt (mar_official_publication_wall_clock_utc_ns x));
           ("receipt_wall_clock_utc_ns", JInt (mar_receipt_wall_clock_utc_ns x));
           ("observations", jlist MacroValueObservation_document (mar_observations x));
           ("prior_values", jlist MacroPriorValue_document (mar_prior_values x));
           ("correction_of_release_sha256", jopt jbytes (mar_correction_of_release_sha256 x))].

Definition MacroActualRelease_post_init (x : MacroActualRelease) : res unit :=
  do! raise_when (mar_revision x <=? 0) ValueError "macro release revision must be positive" in
  do! raise_when (negb (Bool.eqb (mar_revision x =? 1) (bool_decide (mar_correction_of_release_sha256 x = None)))) ValueError
        "only corrected macro revisions require a parent release digest" in
  do! match mar_correction_of_release_sha256 x with
      | Some d => valid_digest d "correction_of_release_sha256"
      | None => Ok tt
      end in
  do! positive_timestamp (mar_official_publication_wall_clock_utc_ns x) "official_publication_wall_clock_utc_ns" in
  do! raise_when (mar_receipt_wall_clock_utc_ns x <? mar_official_publication_wall_clock_utc_ns x) ValueError
        "macro release receipt precedes its official publication" in
  do! raise_when (MAX_OBSERVATIONS <? Z.of_nat (length (mar_observations x))) ValueError
        "macro release observation count exceeds its bound" in
  do! raise_when (MAX_PRIOR_VALUES <? Z.of_nat (length (mar_prior_values x))) ValueError
        "macro release prior-value count exceeds its bound" in
  do! raise_when (negb (unique_by mpv_identity (mar_prior_values x))) ValueError
        "macro prior-value identities must be unique" in
  raise_when (negb (unique_by (fun o => (mvo_source_id o, mvo_identity o)) (mar_observations x))) ValueError
    "a macro source cannot publish duplicate values for one identity".

(** [MacroActualRelease.sha256] *)
Definition MacroActualRelease_sha256 (x : MacroActualRelease) : res pybytes := document_sha256 (MacroActualRelease_document x).

Record CrossAssetObservation := {
  cao_instrument_id : Identifier128;
  cao_kind : CrossAssetKind;
  cao_unit : CrossAssetUnit;
  cao_response_value : Z;
  cao_window_start_wall_clock_utc_ns : Z;
  cao_window_end_wall_clock_utc_ns : Z;
}.
#[export] Instance CrossAssetObservation_eq_dec : EqDecision CrossAssetObservation.
Proof. solve_decision. Defined.

Definition CrossAssetObservation_document (x : CrossAssetObservation) : json :=
  jfields [("instrument_id", jident (cao_instrument_id x)); ("kind", jname (CrossAssetKind_name (cao_kind x)));
           ("unit", jname (CrossAssetUnit_name (cao_unit x))); ("response_value", JInt (cao_response_value x));
           ("window_start_wall_clock_utc_ns", JInt (cao_window_start_wall_clock_utc_ns x));
           ("window_end_wall_clock_utc_ns", JInt (cao_window_end_wall_clock_utc_ns x))].

Definition CrossAssetObservation_post_init (x : CrossAssetObservation) : res unit :=
  do! int64 (cao_response_value x) "cross-asset response_value" in
  do! positive_timestamp (cao_window_start_wall_clock_utc_ns x) "response window_start_wall_clock_utc_ns" in
  do! raise_when (cao_window_end_wall_clock_utc_ns x <=? cao_window_start_wall_clock_utc_ns x) ValueError
        "cross-asset response window is not strictly ordered" in
  do! raise_when (negb (Bool.eqb (bool_decide (cao_kind x = CK_TREASURY_YIELD))
                                 (bool_decide (cao_unit x = CU_YIELD_CHANGE_BASIS_POINTS)))) ValueError
        "only Treasury yields use yield-change basis points" in
  raise_when (bool_decide (cao_unit x = CU_RETURN_PPM) && (MAX_ABSOLUTE_RESPONSE_PPM <? Z.abs (cao_response_value x))) ValueError
    "cross-asset return exceeds its PPM bound".

Record MacroMarketSnapshot := {
  mms_feature_snapshot_id : Identifier128;
  mms_source_id : pystr;
  mms_as_of_exchange_event_time_ns : Z;
  mms_available_wall_clock_utc_ns : Z;
  mms_observations : list CrossAssetObservation;
  mms_valid : bool;
}.
#[export] Instance MacroMarketSnapshot_eq_dec : EqDecision MacroMarketSnapshot.
Proof. solve_decision. Defined.

Definition MacroMarketSnapshot_document (x : MacroMarketSnapshot) : json :=
  jfields [("feature_snapshot_id", jident (mms_feature_snapshot_id x)); ("source_id", jtext (mms_source_id x));
           ("as_of_exchange_event_time_ns", JInt (mms_as_of_exchange_event_time_ns x));
           ("available_wall_clock_utc_ns", JInt (mms_available_wall_clock_utc_ns x));
           ("observations", jlist CrossAssetObservation_document (mms_observations x)); ("valid", JBool (mms_valid x))].

Definition MacroMarketSnapshot_post_init (x : MacroMarketSnapshot) : res unit :=
  do! bounded_text (mms_source_id x) 64 "market snapshot source_id" in
  do! positive_timestamp (mms_as_of_exchange_event_time_ns x) "market as_of_exchange_event_time_ns" in
  do! positive_timestamp (mms_available_wall_clock_utc_ns x) "market available_wall_clock_utc_ns" in
  do! raise_when (bool_decide (mms_observations x = []) || (MAX_MARKET_OBSERVATIONS <? Z.of_nat (length (mms_observations x))))
        ValueError "macro market snapshot requires one to sixty-four observations" in
  raise_when (negb (unique_by (fun o => (cao_instrument_id o, cao_kind o)) (mms_observations x))) ValueError
    "macro market observations must be unique by instrument and kind".

Record HistoricalMacroSurprise := {
  hms_historical_event_id : Identifier128;
  hms_event_type : MacroEventType;
  hms_official_publication_wall_clock_utc_ns : Z;
  hms_available_wall_clock_utc_ns : Z;
  hms_headline_surprise_ppm : Z;
  hms_source_id : pystr;
}.
#[export] Instance HistoricalMacroSurprise_eq_dec : EqDecision HistoricalMacroSurprise.
Proof. solve_decision. Defined.

Definition HistoricalMacroSurprise_document (x : HistoricalMacroSurprise) : json :=
  jfields [("historical_event_id", jident (hms_historical_event_id x));
           ("event_type", jname (MacroEventType_name (hms_event_type x)));
           ("official_publication_wall_clock_utc_ns", JInt (hms_official_publication_wall_clock_utc_ns x));
           ("available_wall_clock_utc_ns", JInt (hms_available_wall_clock_utc_ns x));
           ("headline_surprise_ppm", JInt (hms_headline_surprise_ppm x)); ("source_id", jtext (hms_source_id x))].

Definition HistoricalMacroSurprise_post_init (x : HistoricalMacroSurprise) : res unit :=
  do! positive_timestamp (hms_official_publication_wall_clock_utc_ns x) "historical official_publication_wall_clock_utc_ns" in
  do! raise_when (hms_available_wall_clock_utc_ns x <? hms_official_publication_wall_clock_utc_ns x) ValueError
        "historical macro surprise availability precedes publication" in
  do! int64 (hms_headline_surprise_ppm x) "historical headline_surprise_ppm" in
  bounded_text (hms_source_id x) 64 "historical source_id".

Record MacroInputBundle := {
  mib_session_id : Identifier128;
  mib_target_instrument_id : Identifier128;
  mib_configuration_version : Identifier128;
  mib_calendar : MacroCalendarEvent;
  mib_consensus_snapshot : MacroConsensusSnapshot;
  mib_sources : list MacroSourceEvidence;
  mib_historical_surprises : list HistoricalMacroSurprise;
  mib_as_of_wall_clock_utc_ns : Z;
  mib_production_process_monotonic_time_ns : Z;
  mib_release : option MacroActualRelease;
  mib_market_snapshot : option MacroMarketSnapshot;
  mib_schema_version : pystr;
}.
#[export] Instance MacroInputBundle_eq_dec : EqDecision MacroInputBundle.
Proof. solve_decision. Defined.

Definition MacroInputBundle_document (x : MacroInputBundle) : json :=
  jfields [("session_id", jident (mib_session_id x)); ("target_instrument_id", jident (mib_target_instrument_id x));
           ("configuration_version", jident (mib_configuration_version x));
           ("calendar", MacroCalendarEvent_document (mib_calendar x));
           ("consensus_snapshot", MacroConsensusSnapshot_document (mib_consensus_snapshot x));
           ("sources", jlist MacroSourceEvidence_document (mib_sources x));
           ("historical_surprises", jlist HistoricalMacroSurprise_document (mib_historical_surprises x));
           ("as_of_wall_clock_utc_ns", JInt (mib_as_of_wall_clock_utc_ns x));
           ("production_process_monotonic_time_ns", JInt (mib_production_process_monotonic_time_ns x));
           ("release", jopt MacroActualRelease_document (mib_release x));
           ("market_snapshot", jopt MacroMarketSnapshot_document (mib_market_snapshot x));
           ("schema_version", jtext (mib_schema_version x))].

(** *** Validation of a bundle *)

(** The dictionary of sources by identifier: of equal keys the last wins. *)
Definition source_of (sources : list MacroSourceEvidence) (key : pystr) : option MacroSourceEvidence :=
  List.find (fun s => bool_decide (mse_source_id s = key)) (rev sources).
Definition source_at (sources : list MacroSourceEvidence) (key : pystr) : res MacroSourceEvidence :=
  match source_of sources key with Some s => Ok s | None => raise KeyError "source_id" end.

Definition is_kind (k : MacroSourceKind) (s : MacroSourceEvidence) : bool := bool_decide (mse_kind s = k).

(** [_validate_sources] *)
Definition validate_sources (x : MacroInputBundle) : res unit :=
  do! raise_when (negb (unique_by mse_source_id (mib_sources x))) ValueError "macro source identifiers must be unique" in
  do! raise_when (negb (count_if (is_kind SK_OFFICIAL_CALENDAR) (mib_sources x) =? 1)) ValueError
        "macro input requires exactly one official calendar source" in
  do! raise_when (negb (existsb (is_kind SK_CONSENSUS_SNAPSHOT) (mib_sources x))) ValueError
        "macro input requires a consensus snapshot source" in
  raise_when (negb (count_if (is_kind SK_OFFICIAL_RELEASE) (mib_sources x)
                    =? match mib_release x with Some _ => 1 | None => 0 end)) ValueError
    "macro official release source does not match release presence".

(** [_all_references] *)
Definition all_references (x : MacroInputBundle) : list MacroEvidenceReference :=
  flat_map erf_evidence (mce_expected_fields (mib_calendar x))
  ++ flat_map mes_evidence (mcs_estimates (mib_consensus_snapshot x))
  ++ match mib_release x with
     | Some r => flat_map mvo_evidence (mar_observations r) ++ flat_map mpv_evidence (mar_prior_values r)
     | None => []
     end.

Definition excerpt_index (x : MacroInputBundle) : list (pystr * Z) :=
  flat_map (fun s => map (fun e => (mse_source_id s, ex_excerpt_id e)) (mse_excerpts s)) (mib_sources x).

(** [_validate_evidence_graph] *)
Definition validate_evidence_graph (x : MacroInputBundle) : res unit :=
  let known key := bool_decide (is_Some (source_of (mib_sources x) key)) in
  do! raise_when (existsb (fun r => negb (known (mer_source_id r))
                                    || negb (bool_decide ((mer_source_id r, mer_excerpt_id r) ∈ excerpt_index x)))
                    (all_references x)) ValueError
        "macro evidence reference does not resolve to an exact excerpt" in
  do! raise_when (existsb (fun h => negb (known (hms_source_id h))) (mib_historical_surprises x)) ValueError
        "historical macro surprise source does not resolve" in
  raise_when match mib_market_snapshot x with
             | Some m => match source_of (mib_sources x) (mms_source_id m) with
                         | Some s => negb (is_kind SK_MARKET_FEATURES s)
                         | None => true
                         end
             | None => false
             end ValueError "macro market snapshot source does not resolve to market features".

(** [_validate_calendar_and_consensus] *)
Definition validate_calendar_and_consensus (x : MacroInputBundle) : res unit :=
  let at_source f (r : MacroEvidenceReference) := let! s := source_at (mib_sources x) (mer_source_id r) in Ok (f s : bool) in
  do! raise_when (existsb (fun e => negb (bool_decide (mi_event_type (mes_identity e) = mce_event_type (mib_calendar x))))
                    (mcs_estimates (mib_consensus_snapshot x))) ValueError
        "macro consensus event type differs from calendar" in
  let! b := res_any (at_source (fun s => negb (is_kind SK_OFFICIAL_CALENDAR s)))
              (flat_map erf_evidence (mce_expected_fields (mib_calendar x))) in
  do! raise_when b ValueError "macro expected fields require official calendar evidence" in
  let! b := res_any (at_source (fun s => mcs_frozen_wall_clock_utc_ns (mib_consensus_snapshot x)
                                         <? mse_received_wall_clock_utc_ns s))
              (flat_map mes_evidence (mcs_estimates (mib_consensus_snapshot x))) in
  raise_when b ValueError "macro consensus evidence arrived after the frozen snapshot".

(** [_validate_release_time]; the source of the official release is the first of its kind,
    and [next] raises when there is none. *)
Definition validate_release_time (x : MacroInputBundle) (release : MacroActualRelease) (scheduled : Z) : res unit :=
  let published := mar_official_publication_wall_clock_utc_ns release in
  do! raise_when (published <? scheduled) ValueError "macro official publication precedes its scheduled time" in
  do! raise_when (mib_as_of_wall_clock_utc_ns x <? mar_receipt_wall_clock_utc_ns release) ValueError
        "macro release receipt is after the as-of cutoff" in
  match List.find (is_kind SK_OFFICIAL_RELEASE) (mib_sources x) with
  | None => raise Undescribed "StopIteration"
  | Some official =>
      do! raise_when (negb (mse_publication_wall_clock_utc_ns official =? published)
                      || negb (mse_received_wall_clock_utc_ns official =? mar_receipt_wall_clock_utc_ns release)) ValueError
            "macro release timestamps differ from official-source provenance" in
      do! raise_when (existsb (fun o =>
              match source_of (mib_sources x) (mvo_source_id o) with
              | None => true
              | Some s => negb (is_kind SK_OFFICIAL_RELEASE s || is_kind SK_DATA_PROVIDER s)
                          || (mse_received_wall_clock_utc_ns s <? published)
                          || negb (bool_decide (mi_event_type (mvo_identity o) = mce_event_type (mib_calendar x)))
              end) (mar_observations release)) ValueError
            "macro release observation source, time, or event type is invalid" in
      raise_when (existsb (fun p => (published <=? mpv_known_available_wall_clock_utc_ns p)
                                    || negb (bool_decide (mi_event_type (mpv_identity p) = mce_event_type (mib_calendar x))))
                    (mar_prior_values release)) ValueError
        "macro prior value was not known before the current release"
  end.

(** [_validate_market_time] *)
Definition validate_market_time (x : MacroInputBundle) (release : MacroActualRelease) : res unit :=
  match mib_market_snapshot x with
  | None => Ok tt
  | Some m =>
      let receipt := mar_receipt_wall_clock_utc_ns release in
      raise_when ((mms_available_wall_clock_utc_ns m <? receipt)
                  || (mib_as_of_wall_clock_utc_ns x <? mms_available_wall_clock_utc_ns m)
                  || existsb (fun o => (receipt <=? cao_window_start_wall_clock_utc_ns o)
                                       || (cao_window_end_wall_clock_utc_ns o <? receipt)
                                       || (mms_available_wall_clock_utc_ns m <? cao_window_end_wall_clock_utc_ns o))
                       (mms_observations m)) ValueError
        "macro cross-asset response window or availability is invalid"
  end.

(** [_validate_point_in_time] *)
Definition validate_point_in_time (x : MacroInputBundle) : res unit :=
  let scheduled := mce_scheduled_release_wall_clock_utc_ns (mib_calendar x) in
  do! raise_when (existsb (fun s => mib_as_of_wall_clock_utc_ns x <? mse_received_wall_clock_utc_ns s) (mib_sources x)) ValueError
        "macro source was unavailable at the as-of cutoff" in
  let! b := res_any (fun r => let! s := source_at (mib_sources x) (mer_source_id r) in
                              Ok (scheduled <=? mse_received_wall_clock_utc_ns s))
              (flat_map erf_evidence (mce_expected_fields (mib_calendar x))) in
  do! raise_when b ValueError "macro calendar evidence was not known before scheduled release" in
  do! raise_when (existsb (fun h => negb (bool_decide (hms_event_type h = mce_event_type (mib_calendar x)))
                                    || (scheduled <=? hms_official_publication_wall_clock_utc_ns h)
                                    || (mcs_frozen_wall_clock_utc_ns (mib_consensus_snapshot x)
                                        <? hms_available_wall_clock_utc_ns h))
                    (mib_historical_surprises x)) ValueError
        "historical macro surprise leaks the current or a future event" in
  match mib_release x with
  | None => raise_when (bool_decide (is_Some (mib_market_snapshot x))) ValueError
              "pre-release macro input cannot contain response features"
  | Some release =>
      do! validate_release_time x release scheduled in
      validate_market_time x release
  end.

Definition MacroInputBundle_post_init (x : MacroInputBundle) : res unit :=
  do! raise_when (negb (bool_decide (mib_schema_version x = MACRO_SCHEMA_VERSION))) ValueError
        "unsupported normalized macro schema version" in
  do! positive_timestamp (mib_as_of_wall_clock_utc_ns x) "as_of_wall_clock_utc_ns" in
  do! positive_timestamp (mib_production_process_monotonic_time_ns x) "production_process_monotonic_time_ns" in
  do! raise_when ((MAX_SOURCES <? Z.of_nat (length (mib_sources x)))
                  || (MAX_HISTORY <? Z.of_nat (length (mib_historical_surprises x)))) ValueError
        "macro source or history collection exceeds its bound" in
  do! raise_when (negb (bool_decide (mcs_calendar_event_id (mib_consensus_snapshot x)
                                     = mce_calendar_event_id (mib_calendar x)))) ValueError
        "macro consensus references a different calendar event" in
  do! raise_when (mce_scheduled_release_wall_clock_utc_ns (mib_calendar x)
                  <=? mcs_frozen_wall_clock_utc_ns (mib_consensus_snapshot x)) ValueError
        "macro consensus must freeze before the scheduled release" in
  do! validate_sources x in
  do! validate_evidence_graph x in
  do! validate_calendar_and_consensus x in
  validate_point_in_time x.

(** [MacroInputBundle.sha256] *)
Definition MacroInputBundle_sha256 (x : MacroInputBundle) : res pybytes := document_sha256 (MacroInputBundle_document x).

Record MacroFieldSurprise := {
  mfs_identity : MacroMetricIdentity;
  mfs_actual_value : option Z;
  mfs_consensus_value : option Z;
  mfs_dispersion : option Z;
  mfs_surprise_ppm : option Z;
  mfs_reason : option MacroReasonCode;
}.
#[export] Instance MacroFieldSurprise_eq_dec : EqDecision MacroFieldSurprise.
Proof. solve_decision. Defined.

Definition MacroFieldSurprise_document (x : MacroFieldSurprise) : json :=
  jfields [("identity", MacroMetricIdentity_document (mfs_identity x)); ("actual_value", jopt JInt (mfs_actual_value x));
           ("consensus_value", jopt JInt (mfs_consensus_value x)); ("dispersion", jopt JInt (mfs_dispersion x));
           ("surprise_ppm", jopt JInt (mfs_surprise_ppm x));
           ("reason", jopt (fun x => jname (MacroReasonCode_name x)) (mfs_reason x))].

Record MacroRevisionSurprise := {
  mrs_identity : MacroMetricIdentity;
  mrs_prior_value : Z;
  mrs_revised_value : Z;
  mrs_delta_value : Z;
  mrs_revision_surprise_ppm : Z;
}.
#[export] Instance MacroRevisionSurprise_eq_dec : EqDecision MacroRevisionSurprise.
Proof. solve_decision. Defined.

Definition MacroRevisionSurprise_document (x : MacroRevisionSurprise) : json :=
  jfields [("identity", MacroMetricIdentity_document (mrs_identity x)); ("prior_value", JInt (mrs_prior_value x));
           ("revised_value", JInt (mrs_revised_value x)); ("delta_value", JInt (mrs_delta_value x));
           ("revision_surprise_ppm", JInt (mrs_revision_surprise_ppm x))].

Record CrossAssetResponseFeature := {
  caf_instrument_id : Identifier128;
  caf_kind : CrossAssetKind;
  caf_group : CrossAssetGroup;
  caf_unit : CrossAssetUnit;
  caf_response_value : Z;
  caf_normalized_magnitude_ppm : Z;
}.
#[export] Instance CrossAssetResponseFeature_eq_dec : EqDecision CrossAssetResponseFeature.
Proof. solve_decision. Defined.

Definition CrossAssetResponseFeature_document (x : CrossAssetResponseFeature) : json :=
  jfields [("instrument_id", jident (caf_instrument_id x)); ("kind", jname (CrossAssetKind_name (caf_kind x)));
           ("group", jname (CrossAssetGroup_name (caf_group x))); ("unit", jname (CrossAssetUnit_name (caf_unit x)));
           ("response_value", JInt (caf_response_value x));
           ("normalized_magnitude_ppm", JInt (caf_normalized_magnitude_ppm x))].

Definition CrossAssetResponseFeature_post_init (x : CrossAssetResponseFeature) : res unit :=
  raise_when (negb ((0 <=? caf_normalized_magnitude_ppm x) && (caf_normalized_magnitude_ppm x <=? MAX_ABSOLUTE_RESPONSE_PPM)))
    ValueError "normalized cross-asset response magnitude exceeds its PPM bound".

Record MacroDirectionDistribution := {
  mdd_down_ppm : Z;
  mdd_flat_ppm : Z;
  mdd_up_ppm : Z;
}.
#[export] Instance MacroDirectionDistribution_eq_dec : EqDecision MacroDirectionDistribution.
Proof. solve_decision. Defined.

Definition MacroDirectionDistribution_document (x : MacroDirectionDistribution) : json :=
  jfields [("down_ppm", JInt (mdd_down_ppm x)); ("flat_ppm", JInt (mdd_flat_ppm x)); ("up_ppm", JInt (mdd_up_ppm x))].

Definition MacroDirectionDistribution_post_init (x : MacroDirectionDistribution) : res unit :=
  let values := [mdd_down_ppm x; mdd_flat_ppm x; mdd_up_ppm x] in
  raise_when (existsb (fun v => negb ((0 <=? v) && (v <=? PPM))) values || negb (mdd_down_ppm x + mdd_flat_ppm x + mdd_up_ppm x =? PPM))
    ValueError "macro direction probabilities must sum to 1,000,000 PPM".

Record MacroSpecialistResult := {
  msr_macro_event_id : Identifier128;
  msr_model_id : Identifier128;
  msr_model_version : Identifier128;
  msr_input_sha256 : pybytes;
  msr_consensus_snapshot_sha256 : pybytes;
  msr_release_sha256 : option pybytes;
  msr_revision : Z;
  msr_phase : MacroEventPhase;
  msr_decision : MacroDecision;
  msr_scheduled_release_wall_clock_utc_ns : Z;
  msr_official_publication_wall_clock_utc_ns : option Z;
  msr_receipt_wall_clock_utc_ns : option Z;
  msr_release_delay_ns : option Z;
  msr_headline_surprise : MacroFieldSurprise;
  msr_core_surprise : option MacroFieldSurprise;
  msr_subcomponent_surprises : list MacroFieldSurprise;
  msr_revision_surprises : list MacroRevisionSurprise;
  msr_surprise_percentile_ppm : option Z;
  msr_cross_asset_response_features : list CrossAssetResponseFeature;
  msr_source_quality_score_ppm : Z;
  msr_reason_codes : list MacroReasonCode;
  msr_forecast_id : option Identifier128;
  msr_expected_return_ppm : option Z;
  msr_expected_volatility_ppm : option Z;
  msr_direction : option MacroDirectionDistribution;
  msr_production_process_monotonic_time_ns : Z;
  msr_valid_until_process_monotonic_time_ns : option Z;
  msr_forecast_contract_bytes : option pybytes;
  msr_schema_version : pystr;
}.
#[export] Instance MacroSpecialistResult_eq_dec : EqDecision MacroSpecialistResult.
Proof. solve_decision. Defined.

Definition MacroSpecialistResult_document (x : MacroSpecialistResult) : json :=
  jfields [("macro_event_id", jident (msr_macro_event_id x)); ("model_id", jident (msr_model_id x));
           ("model_version", jident (msr_model_version x)); ("input_sha256", jbytes (msr_input_sha256 x));
           ("consensus_snapshot_sha256", jbytes (msr_consensus_snapshot_sha256 x));
           ("release_sha256", jopt jbytes (msr_release_sha256 x)); ("revision", JInt (msr_revision x));
           ("phase", jname (MacroEventPhase_name (msr_phase x))); ("decision", jname (MacroDecision_name (msr_decision x)));
           ("scheduled_release_wall_clock_utc_ns", JInt (msr_scheduled_release_wall_clock_utc_ns x));
           ("official_publication_wall_clock_utc_ns", jopt JInt (msr_official_publication_wall_clock_utc_ns x));
           ("receipt_wall_clock_utc_ns", jopt JInt (msr_receipt_wall_clock_utc_ns x));
           ("release_delay_ns", jopt JInt (msr_release_delay_ns x));
           ("headline_surprise", MacroFieldSurprise_document (msr_headline_surprise x));
           ("core_surprise", jopt MacroFieldSurprise_document (msr_core_surprise x));
           ("subcomponent_surprises", jlist MacroFieldSurprise_document (msr_subcomponent_surprises x));
           ("revision_surprises", jlist MacroRevisionSurprise_document (msr_revision_surprises x));
           ("surprise_percentile_ppm", jopt JInt (msr_surprise_percentile_ppm x));
           ("cross_asset_response_features", jlist CrossAssetResponseFeature_document (msr_cross_asset_response_features x));
           ("source_quality_score_ppm", JInt (msr_source_quality_score_ppm x));
           ("reason_codes", jlist (fun x => jname (MacroReasonCode_name x)) (msr_reason_codes x));
           ("forecast_id", jopt jident (msr_forecast_id x)); ("expected_return_ppm", jopt JInt (msr_expected_return_ppm x));
           ("expected_volatility_ppm", jopt JInt (msr_expected_volatility_ppm x));
           ("direction", jopt MacroDirectionDistribution_document (msr_direction x));
           ("production_process_monotonic_time_ns", JInt (msr_production_process_monotonic_time_ns x));
           ("valid_until_process_monotonic_time_ns", jopt JInt (msr_valid_until_process_monotonic_time_ns x));
           ("forecast_contract_bytes", jopt jbytes (msr_forecast_contract_bytes x));
           ("schema_version", jtext (msr_schema_version x))].

(** [_validate_release_state] *)
Definition validate_release_state (x : MacroSpecialistResult) : res unit :=
  let has_release := 0 <? msr_revision x in
  do! raise_when (negb (Bool.eqb has_release
                    (bool_decide (is_Some (msr_official_publication_wall_clock_utc_ns x))
                     && bool_decide (is_Some (msr_receipt_wall_clock_utc_ns x))
                     && bool_decide (is_Some (msr_release_delay_ns x)) && bool_decide (is_Some (msr_release_sha256 x)))))
        ValueError "macro result release revision and release fields disagree" in
  do! raise_when (has_release && ((default 0 (msr_receipt_wall_clock_utc_ns x)
                                   <? default 0 (msr_official_publication_wall_clock_utc_ns x))
                                  || (default 0 (msr_release_delay_ns x) <? 0))) ValueError
        "macro result release timing is invalid" in
  raise_when (negb has_release && negb (bool_decide (msr_phase x ∈ [PH_SCHEDULED; PH_DELAYED]))) ValueError
    "macro result without release has an invalid phase".

(** [bytes[4:8]] *)
Definition magic_of (b : pybytes) : pybytes := take 4 (drop 4 b).

(** [_validate_decision_state] *)
Definition validate_decision_state (x : MacroSpecialistResult) : res unit :=
  let present := [bool_decide (is_Some (msr_forecast_id x)); bool_decide (is_Some (msr_expected_return_ppm x));
                  bool_decide (is_Some (msr_expected_volatility_ppm x)); bool_decide (is_Some (msr_direction x));
                  bool_decide (is_Some (msr_valid_until_process_monotonic_time_ns x));
                  bool_decide (is_Some (msr_forecast_contract_bytes x))] in
  match msr_decision x with
  | ABSTAIN => raise_when (existsb id present) ValueError "macro abstention cannot carry forecast values"
  | PUBLISH =>
      do! raise_when (existsb negb present) ValueError "published macro result requires all forecast values" in
      do! raise_when (negb (bool_decide (msr_phase x ∈ [PH_RELEASE_COMPLETE; PH_CORRECTED]))) ValueError
            "published macro result requires a complete release phase" in
      let expected_volatility := default 0 (msr_expected_volatility_ppm x) in
      do! raise_when ((MAX_ABSOLUTE_RESPONSE_PPM <? Z.abs (default 0 (msr_expected_return_ppm x)))
                      || negb ((0 <=? expected_volatility) && (expected_volatility <=? MAX_ABSOLUTE_RESPONSE_PPM))) ValueError
            "published macro return or volatility is outside its PPM bound" in
      do! raise_when (default 0 (msr_valid_until_process_monotonic_time_ns x) <=? msr_production_process_monotonic_time_ns x)
            ValueError "published macro forecast lifetime is invalid" in
      raise_when (negb (bool_decide (magic_of (default [] (msr_forecast_contract_bytes x)) = str "AMCR"))) ValueError
        "published macro result lacks a canonical ModelForecast"
  end.

Definition MacroSpecialistResult_post_init (x : MacroSpecialistResult) : res unit :=
  do! valid_digest (msr_input_sha256 x) "macro result input_sha256" in
  do! valid_digest (msr_consensus_snapshot_sha256 x) "macro result consensus_snapshot_sha256" in
  do! match msr_release_sha256 x with
      | Some d => valid_digest d "macro result release_sha256"
      | None => Ok tt
      end in
  do! raise_when ((msr_revision x <? 0) || negb (bool_decide (msr_schema_version x = MACRO_SCHEMA_VERSION))) ValueError
        "macro result revision or schema version is invalid" in
  do! positive_timestamp (msr_scheduled_release_wall_clock_utc_ns x) "result scheduled_release_wall_clock_utc_ns" in
  do! raise_when (negb ((0 <=? msr_source_quality_score_ppm x) && (msr_source_quality_score_ppm x <=? PPM))) ValueError
        "macro result source quality is outside [0, 1,000,000] PPM" in
  do! raise_when (negb (unique_by id (msr_reason_codes x))) ValueError "macro result reason codes must be unique" in
  do! raise_when match msr_surprise_percentile_ppm x with
                 | Some p => negb ((0 <=? p) && (p <=? PPM))
                 | None => false
                 end ValueError "macro surprise percentile is outside [0, 1,000,000] PPM" in
  do! positive_timestamp (msr_production_process_monotonic_time_ns x) "result production_process_monotonic_time_ns" in
  do! validate_release_state x in
  validate_decision_state x.

(** [MacroSpecialistResult.sha256] *)
Definition MacroSpecialistResult_sha256 (x : MacroSpecialistResult) : res pybytes :=
  document_sha256 (MacroSpecialistResult_document x).

(** ** Validated bundles *)

(** The bundle and the objects that it holds were constructed. *)
Record valid_bundle (b : MacroInputBundle) : Prop := {
  vb_bundle : MacroInputBundle_post_init b = Ok tt;
  vb_sources : Forall (fun s => MacroSourceEvidence_post_init s = Ok tt) (mib_sources b);
  vb_calendar : MacroCalendarEvent_post_init (mib_calendar b) = Ok tt;
  vb_fields : Forall (fun f => ExpectedReleaseField_post_init f = Ok tt) (mce_expected_fields (mib_calendar b));
  vb_consensus : MacroConsensusSnapshot_post_init (mib_consensus_snapshot b) = Ok tt;
  vb_estimates : Forall (fun e => MacroConsensusEstimate_post_init e = Ok tt) (mcs_estimates (mib_consensus_snapshot b));
  vb_release : forall r, mib_release b = Some r -> MacroActualRelease_post_init r = Ok tt
    /\ Forall (fun o => MacroValueObservation_post_init o = Ok tt) (mar_observations r)
    /\ Forall (fun p => MacroPriorValue_post_init p = Ok tt) (mar_prior_values r);
  vb_market : forall m, mib_market_snapshot b = Some m -> MacroMarketSnapshot_post_init m = Ok tt
    /\ Forall (fun o => CrossAssetObservation_post_init o = Ok tt) (mms_observations m);
}.

Lemma existsb_false {A} (f : A -> bool) l : existsb f l = false <-> Forall (fun x => f x = false) l.
Proof.
  induction l as [|x l IH]; cbn [existsb]; [by split|]. by rewrite orb_false_iff, IH, Forall_cons.
Qed.

(** The steps of the construction of a bundle. *)
Lemma bundle_steps b :
  MacroInputBundle_post_init b = Ok tt ->
  mcs_frozen_wall_clock_utc_ns (mib_consensus_snapshot b) < mce_scheduled_release_wall_clock_utc_ns (mib_calendar b)
  /\ 0 < mib_production_process_monotonic_time_ns b
  /\ validate_sources b = Ok tt /\ validate_evidence_graph b = Ok tt /\ validate_calendar_and_consensus b = Ok tt
  /\ validate_point_in_time b = Ok tt.
Proof.
  unfold MacroInputBundle_post_init, positive_timestamp. intros H. inv_ok. split_and!; try done; lia.
Qed.

Lemma valid_sources_nonempty b : valid_bundle b -> mib_sources b <> [].
Proof.
  intros Hv E. destruct (bundle_steps b (vb_bundle b Hv)) as (_ & _ & H & _). unfold validate_sources in H.
  rewrite E in H. by inv_ok.
Qed.

(** What is known of the release of a valid bundle. *)
Lemma valid_release b r : valid_bundle b -> mib_release b = Some r ->
  mce_scheduled_release_wall_clock_utc_ns (mib_calendar b) <= mar_official_publication_wall_clock_utc_ns r
  /\ mar_receipt_wall_clock_utc_ns r <= mib_as_of_wall_clock_utc_ns b
  /\ Forall (fun o => is_Some (source_of (mib_sources b) (mvo_source_id o))) (mar_observations r).
Proof.
  intros Hv Hr. destruct (bundle_steps b (vb_bundle b Hv)) as (_ & _ & _ & _ & _ & H). unfold validate_point_in_time in H.
  inv_ok. rewrite Hr in H. inv_ok. clear - Ha1. rename Ha1 into H. unfold validate_release_time in H. inv_ok.
  destruct (List.find _ _); [|discriminate]. apply rbind_ok in H as ([] & _ & H). apply rbind_ok in H as ([] & Ho & _).
  apply raise_when_ok, existsb_false in Ho. split_and!; [lia..|].
  eapply Forall_impl; [exact Ho|]. cbv beta. intros o. by destruct (source_of _ _).
Qed.
