(* ===== verification/MacroSpecialist.v ===== *)
(** * The macroeconomic release specialist

    Models [python/intelligence/aegis_mx_intelligence/macro_specialist.py]: the surprises of
    a release against the frozen consensus, revisions, percentile, market response and
    source quality, the reasons to abstain, the published forecast, and the processor that
    accepts the revisions of one event.  The encoder of the forecast contract is the
    parameter [encode]. *)

From S2P Require Import Prelude PyText Json Sha256 ForecastDomain Contracts Specialists MacroTypes.
Open Scope Z_scope.

(** ** Configuration *)

Record MacroSpecialistConfig := {
  mc_model_id : Identifier128;
  mc_model_version : Identifier128;
  mc_forecast_ttl_ns : Z;
  mc_forecast_horizon_ns : Z;
  mc_minimum_history_count : Z;
  mc_minimum_source_quality_ppm : Z;
  mc_yield_basis_point_scale_ppm : Z;
  mc_epsilon_percent_ppm : Z;
  mc_epsilon_rate_basis_points : Z;
  mc_epsilon_index_milli : Z;
  mc_epsilon_currency_millions : Z;
  mc_epsilon_quantity_thousands : Z;
  mc_epsilon_ratio_ppm : Z;
  mc_required_cross_asset_groups : list CrossAssetGroup;
}.

(** The epsilons in the order of the source. *)
Definition epsilons (c : MacroSpecialistConfig) : list Z :=
  [mc_epsilon_percent_ppm c; mc_epsilon_rate_basis_points c; mc_epsilon_index_milli c; mc_epsilon_currency_millions c;
   mc_epsilon_quantity_thousands c; mc_epsilon_ratio_ppm c].

Definition MacroSpecialistConfig_post_init (c : MacroSpecialistConfig) : res unit :=
  do! raise_when ((mc_forecast_ttl_ns c <=? 0) || (mc_forecast_horizon_ns c <=? 0)) ValueError
        "macro forecast TTL and horizon must be positive" in
  do! raise_when (mc_minimum_history_count c <=? 0) ValueError "macro minimum_history_count must be positive" in
  do! raise_when (negb ((0 <=? mc_minimum_source_quality_ppm c) && (mc_minimum_source_quality_ppm c <=? PPM))) ValueError
        "macro minimum source quality is outside [0, 1,000,000] PPM" in
  do! raise_when (mc_yield_basis_point_scale_ppm c <=? 0) ValueError
        "yield basis-point normalization scale must be positive" in
  do! raise_when (existsb (fun v => v <=? 0) (epsilons c)) ValueError "macro surprise epsilon values must be positive" in
  raise_when (bool_decide (mc_required_cross_asset_groups c = []) || negb (unique_by id (mc_required_cross_asset_groups c)))
    ValueError "required macro cross-asset groups must be nonempty and unique".

Definition epsilon (c : MacroSpecialistConfig) (unit : MacroMetricUnit) : Z :=
  match unit with
  | MU_PERCENT_PPM => mc_epsilon_percent_ppm c
  | MU_RATE_BASIS_POINTS => mc_epsilon_rate_basis_points c
  | MU_INDEX_MILLI => mc_epsilon_index_milli c
  | MU_CURRENCY_MILLIONS => mc_epsilon_currency_millions c
  | MU_QUANTITY_THOUSANDS => mc_epsilon_quantity_thousands c
  | MU_RATIO_PPM => mc_epsilon_ratio_ppm c
  end.

(** [MacroSpecialistConfig.sha256] *)
Definition config_sha256 (c : MacroSpecialistConfig) : res pystr :=
  let! numbers := res_map int_str
    ([mc_forecast_ttl_ns c; mc_forecast_horizon_ns c; mc_minimum_history_count c; mc_minimum_source_quality_ppm c;
      mc_yield_basis_point_scale_ppm c] ++ epsilons c ++ map CrossAssetGroup_value (mc_required_cross_asset_groups c)) in
  Ok (sha256_hex (join 124 (id_hex (mc_model_id c) :: id_hex (mc_model_version c) :: numbers))).

(** ** Helpers *)

Notation macro_div := (trunc_div MacroEvaluationError).

(** [_scaled_ratio_ppm] *)
Definition scaled_ratio_ppm (numerator denominator : Z) : res Z :=
  let! result := macro_div (numerator * PPM) denominator in
  do! raise_when (negb ((MIN_INT64 <=? result) && (result <=? MAX_INT64))) MacroEvaluationError
        "standardized macro ratio exceeds signed 64-bit output" in
  Ok result.

(** [_ordered_unique]: the set of the reasons in the order of their numbers. *)
Definition ordered_unique (values : list MacroReasonCode) : list MacroReasonCode :=
  py_sorted (leb_on MacroReasonCode_value Z.leb) (remove_dups values).

(** [_same_field_family] *)
Definition same_field_family (l r : MacroMetricIdentity) : bool :=
  bool_decide (mi_event_type l = mi_event_type r) && bool_decide (mi_field_id l = mi_field_id r)
  && bool_decide (mi_role l = mi_role r) && bool_decide (mi_reference_period l = mi_reference_period r)
  && bool_decide (mi_seasonal_adjustment l = mi_seasonal_adjustment r)
  && bool_decide (mi_annualization l = mi_annualization r).

(** [_cross_asset_group] *)
Definition cross_asset_group (k : CrossAssetKind) : CrossAssetGroup :=
  match k with
  | CK_EQUITY_INDEX_FUTURE => CG_EQUITY_INDEX
  | CK_TREASURY_FUTURE | CK_TREASURY_YIELD => CG_RATES
  | CK_FX_PROXY => CG_FX
  | CK_VOLATILITY_INSTRUMENT => CG_VOLATILITY
  | CK_SECTOR_ETF => CG_SECTOR
  end.

(** [_source_quality_score] *)
Definition source_quality_score (s : MacroSourceEvidence) : Z :=
  match mse_quality s with
  | SQ_UNVERIFIED => 0
  | SQ_PUBLIC_SECONDARY => 500000
  | SQ_LICENSED_AGGREGATOR => 800000
  | SQ_OFFICIAL_PRIMARY => PPM
  | SQ_SYNTHETIC_REPLAY => 900000
  end.

Record MacroAnalysis := {
  an_phase : MacroEventPhase;
  an_headline : MacroFieldSurprise;
  an_core : option MacroFieldSurprise;
  an_subcomponents : list MacroFieldSurprise;
  an_revisions : list MacroRevisionSurprise;
  an_percentile : option Z;
  an_features : list CrossAssetResponseFeature;
  an_source_quality : Z;
}.

(** [(headline, *core, *subcomponents)] *)
Definition an_surprises (a : MacroAnalysis) : list MacroFieldSurprise :=
  an_headline a :: match an_core a with Some c => [c] | None => [] end ++ an_subcomponents a.

Definition CRITICAL_REASONS : list MacroReasonCode :=
  [MR_NO_RELEASE; MR_PARTIAL_RELEASE; MR_MISSING_REQUIRED_FIELD; MR_MISSING_CONSENSUS; MR_INCOMPATIBLE_FIELD;
   MR_CONFLICTING_PROVIDER_VALUES; MR_LOW_SOURCE_QUALITY; MR_UNAUTHENTICATED_SOURCE; MR_MISSING_CROSS_ASSET_GROUP;
   MR_INSUFFICIENT_HISTORY; MR_NO_COMPARABLE_SURPRISE; MR_INVALID_MARKET_FEATURES].

(** ** The analysis of a bundle *)

Section specialist.
Variable config : MacroSpecialistConfig.
Variable encode : ForecastWire -> pybytes.

(** [_phase] *)
Definition phase (b : MacroInputBundle) : MacroEventPhase :=
  match mib_release b with
  | None => if mib_as_of_wall_clock_utc_ns b <=? mce_scheduled_release_wall_clock_utc_ns (mib_calendar b)
            then PH_SCHEDULED else PH_DELAYED
  | Some r => if bool_decide (mar_completeness r = RC_PARTIAL) then PH_PARTIAL_RELEASE
              else if 1 <? mar_revision r then PH_CORRECTED else PH_RELEASE_COMPLETE
  end.

Definition failed_surprise (identity : MacroMetricIdentity) (actual : option Z) (reason : MacroReasonCode) : MacroFieldSurprise :=
  {| mfs_identity := identity; mfs_actual_value := actual; mfs_consensus_value := None; mfs_dispersion := None;
     mfs_surprise_ppm := None; mfs_reason := Some reason |}.

(** The observation is of the official release. *)
Definition official_observation (b : MacroInputBundle) (o : MacroValueObservation) : res bool :=
  let! s := source_at (mib_sources b) (mvo_source_id o) in Ok (is_kind SK_OFFICIAL_RELEASE s).

(** [[item for item in observations if item.identity == identity and official]] *)
Fixpoint official_values (b : MacroInputBundle) (identity : MacroMetricIdentity) (l : list MacroValueObservation)
    : res (list Z) :=
  match l with
  | [] => Ok []
  | o :: l =>
      let! keep := if bool_decide (mvo_identity o = identity) then official_observation b o else Ok false in
      let! rest := official_values b identity l in
      Ok (if keep : bool then mvo_value o :: rest else rest)
  end.

(** The end of [_field_surprise]: the comparison with the estimate. *)
Definition against_consensus (b : MacroInputBundle) (field : ExpectedReleaseField) (actual : Z) : res MacroFieldSurprise :=
  let estimates := mcs_estimates (mib_consensus_snapshot b) in
  match List.find (fun e => bool_decide (mes_identity e = erf_identity field)) estimates with
  | None =>
      Ok (failed_surprise (erf_identity field) (Some actual)
            (if existsb (fun e => same_field_family (erf_identity field) (mes_identity e)) estimates
             then MR_INCOMPATIBLE_FIELD else MR_MISSING_CONSENSUS))
  | Some e =>
      let! surprise := scaled_ratio_ppm (actual - mes_consensus_value e)
                         (Z.max (mes_dispersion e) (epsilon config (mi_unit (erf_identity field)))) in
      Ok {| mfs_identity := erf_identity field; mfs_actual_value := Some actual;
            mfs_consensus_value := Some (mes_consensus_value e); mfs_dispersion := Some (mes_dispersion e);
            mfs_surprise_ppm := Some surprise; mfs_reason := None |}
  end.

(** [_field_surprise] *)
Definition field_surprise (b : MacroInputBundle) (field : ExpectedReleaseField) : res MacroFieldSurprise :=
  match mib_release b with
  | None => Ok (failed_surprise (erf_identity field) None MR_NO_RELEASE)
  | Some release =>
      let! official := official_values b (erf_identity field) (mar_observations release) in
      match official with
      | [] =>
          let! incompatible := res_any (fun o => if same_field_family (erf_identity field) (mvo_identity o)
                                                 then official_observation b o else Ok false) (mar_observations release) in
          Ok (failed_surprise (erf_identity field) None
                (if incompatible : bool then MR_INCOMPATIBLE_FIELD
                 else if erf_required field then MR_MISSING_REQUIRED_FIELD else MR_FIELD_NOT_RELEASED))
      | actual :: _ =>
          let matching := map mvo_value (List.filter (fun o => bool_decide (mvo_identity o = erf_identity field))
                                           (mar_observations release)) in
          if 1 <? Z.of_nat (length (remove_dups matching))
          then Ok (failed_surprise (erf_identity field) (Some actual) MR_CONFLICTING_PROVIDER_VALUES)
          else against_consensus b field actual
      end
  end.

Definition surprise_role (role : MacroMetricRole) (s : MacroFieldSurprise) : bool := bool_decide (mi_role (mfs_identity s) = role).

(** [_surprises]; a calendar without a headline is not valid. *)
Definition surprises (b : MacroInputBundle)
    : res (MacroFieldSurprise * option MacroFieldSurprise * list MacroFieldSurprise) :=
  let! values := res_map (field_surprise b) (mce_expected_fields (mib_calendar b)) in
  match List.find (surprise_role HEADLINE) values with
  | None => raise Undescribed "StopIteration"
  | Some headline => Ok (headline, List.find (surprise_role CORE) values, List.filter (surprise_role SUBCOMPONENT) values)
  end.

(** [_revision_surprises] *)
Definition revision_surprise (prior : MacroPriorValue) (revised : Z) : res MacroRevisionSurprise :=
  let known := mpv_value_known_before_release prior in
  let delta := revised - known in
  let! ratio := scaled_ratio_ppm delta (Z.max (Z.abs known) (epsilon config (mi_unit (mpv_identity prior)))) in
  Ok {| mrs_identity := mpv_identity prior; mrs_prior_value := known; mrs_revised_value := revised;
        mrs_delta_value := delta; mrs_revision_surprise_ppm := ratio |}.

Definition revision_surprises (b : MacroInputBundle) : res (list MacroRevisionSurprise) :=
  match mib_release b with
  | None => Ok []
  | Some r => res_map (fun pv => revision_surprise pv.1 pv.2)
                (flat_map (fun p => match mpv_revised_value_in_release p with Some v => [(p, v)] | None => [] end)
                   (mar_prior_values r))
  end.

(** [_surprise_percentile] *)
Definition surprise_percentile (b : MacroInputBundle) (headline : MacroFieldSurprise) : res (option Z) :=
  match mfs_surprise_ppm headline with
  | None => Ok None
  | Some s =>
      let n := Z.of_nat (length (mib_historical_surprises b)) in
      if n <? mc_minimum_history_count config then Ok None
      else let! p := macro_div (count_if (fun h => hms_headline_surprise_ppm h <=? s) (mib_historical_surprises b) * PPM) n in
           Ok (Some p)
  end.

(** [_cross_asset_features] *)
Definition response_feature (o : CrossAssetObservation) : res CrossAssetResponseFeature :=
  let magnitude := match cao_unit o with
                   | CU_RETURN_PPM => Z.abs (cao_response_value o)
                   | CU_YIELD_CHANGE_BASIS_POINTS => Z.abs (cao_response_value o) * mc_yield_basis_point_scale_ppm config
                   end in
  let f := {| caf_instrument_id := cao_instrument_id o; caf_kind := cao_kind o; caf_group := cross_asset_group (cao_kind o);
              caf_unit := cao_unit o; caf_response_value := cao_response_value o;
              caf_normalized_magnitude_ppm := Z.min MAX_ABSOLUTE_RESPONSE_PPM magnitude |} in
  do! CrossAssetResponseFeature_post_init f in Ok f.

Definition feature_key (f : CrossAssetResponseFeature) : list Z :=
  [CrossAssetGroup_value (caf_group f); CrossAssetKind_value (caf_kind f); high (caf_instrument_id f); low (caf_instrument_id f)].

Definition cross_asset_features (b : MacroInputBundle) : res (list CrossAssetResponseFeature) :=
  match mib_market_snapshot b with
  | None => Ok []
  | Some m => let! output := res_map response_feature (mms_observations m) in
              Ok (py_sorted (leb_on feature_key (list_leb Z.leb)) output)
  end.

(** [_source_quality]; [min] of no sources raises [ValueError]. *)
Definition source_quality (b : MacroInputBundle) : res Z :=
  match map source_quality_score (mib_sources b) with
  | [] => raise ValueError "min() iterable argument is empty"
  | x :: l => Ok (foldl Z.min x l)
  end.

(** ** Reasons *)

(** [_phase_reasons] *)
Definition phase_reasons (b : MacroInputBundle) (p : MacroEventPhase) : list MacroReasonCode :=
  match p with
  | PH_SCHEDULED => [MR_NO_RELEASE]
  | PH_DELAYED => [MR_NO_RELEASE; MR_DELAYED_RELEASE]
  | PH_PARTIAL_RELEASE => [MR_PARTIAL_RELEASE]
  | PH_CORRECTED => [MR_CORRECTED_RELEASE]
  | PH_RELEASE_COMPLETE => []
  end
  ++ match mib_release b with
     | Some r => if mce_scheduled_release_wall_clock_utc_ns (mib_calendar b) <? mar_official_publication_wall_clock_utc_ns r
                 then [MR_DELAYED_RELEASE] else []
     | None => []
     end.

(** [_quality_reasons] *)
Definition quality_reasons (b : MacroInputBundle) (a : MacroAnalysis) : list MacroReasonCode :=
  let released := bool_decide (is_Some (mib_release b)) in
  (if released && bool_decide (an_percentile a = None) then [MR_INSUFFICIENT_HISTORY] else [])
  ++ (if an_source_quality a <? mc_minimum_source_quality_ppm config then [MR_LOW_SOURCE_QUALITY] else [])
  ++ (if existsb (fun s => negb (mse_authenticated s)) (mib_sources b) then [MR_UNAUTHENTICATED_SOURCE] else [])
  ++ (if released then
        match mib_market_snapshot b with
        | None => [MR_MISSING_CROSS_ASSET_GROUP]
        | Some m => if mms_valid m then [] else [MR_INVALID_MARKET_FEATURES]
        end
        ++ (if existsb (fun g => negb (bool_decide (g ∈ map caf_group (an_features a)))) (mc_required_cross_asset_groups config)
            then [MR_MISSING_CROSS_ASSET_GROUP] else [])
      else []).

(** [_surprise_reasons] *)
Definition surprise_reasons (b : MacroInputBundle) (a : MacroAnalysis) : list MacroReasonCode :=
  omap mfs_reason (an_surprises a)
  ++ (if bool_decide (is_Some (mib_release b))
         && negb (existsb (fun s => bool_decide (is_Some (mfs_surprise_ppm s))) (an_surprises a))
      then [MR_NO_COMPARABLE_SURPRISE] else []).

(** [_reasons] *)
Definition reasons_of (b : MacroInputBundle) (a : MacroAnalysis) : list MacroReasonCode :=
  ordered_unique (phase_reasons b (an_phase a) ++ surprise_reasons b a ++ quality_reasons b a).

(** ** The forecast *)

(** [_direction_distribution] *)
Definition direction_distribution (signal_ppm : Z) : res MacroDirectionDistribution :=
  let flat := 300000 in
  let directional_mass := PPM - flat in
  let! edge := macro_div (clamp signal_ppm (- PPM) PPM * (directional_mass / 2)) PPM in
  let up := directional_mass / 2 + edge in
  let d := {| mdd_down_ppm := directional_mass - up; mdd_flat_ppm := flat; mdd_up_ppm := up |} in
  do! MacroDirectionDistribution_post_init d in Ok d.

(** [surprise_index[identity]]: of equal identities the last. *)
Definition surprise_at (l : list MacroFieldSurprise) (identity : MacroMetricIdentity) : res MacroFieldSurprise :=
  match List.find (fun s => bool_decide (mfs_identity s = identity)) (rev l) with
  | Some s => Ok s
  | None => raise KeyError "identity"
  end.

(** The sums of [_surprise_signal] over the fields that are left. *)
Fixpoint weigh (l : list MacroFieldSurprise) (fields : list ExpectedReleaseField) (numerator denominator : Z) : res (Z * Z) :=
  match fields with
  | [] => Ok (numerator, denominator)
  | field :: fields =>
      let! s := surprise_at l (erf_identity field) in
      match mfs_surprise_ppm s with
      | Some surprise =>
          if erf_forecast_weight_ppm field =? 0 then weigh l fields numerator denominator
          else weigh l fields
                 (numerator + clamp surprise (- PPM) PPM * erf_forecast_weight_ppm field * erf_positive_surprise_direction field)
                 (denominator + erf_forecast_weight_ppm field)
      | None => weigh l fields numerator denominator
      end
  end.

(** [_surprise_signal] *)
Definition surprise_signal (b : MacroInputBundle) (l : list MacroFieldSurprise) : res Z :=
  let! nd := weigh l (mce_expected_fields (mib_calendar b)) 0 0 in
  do! raise_when (nd.2 <=? 0) MacroEvaluationError "published macro result has no weighted surprise signal" in
  macro_div nd.1 nd.2.

(** [_target_response] *)
Definition target_response (b : MacroInputBundle) : Z :=
  match mib_market_snapshot b with
  | None => 0
  | Some m =>
      match List.find (fun o => bool_decide (cao_instrument_id o = mib_target_instrument_id b)
                                && bool_decide (cao_unit o = CU_RETURN_PPM)) (mms_observations m) with
      | Some o => cao_response_value o
      | None => 0
      end
  end.

Record Publication := {
  pb_forecast_id : Identifier128;
  pb_expected_return : Z;
  pb_expected_volatility : Z;
  pb_direction : MacroDirectionDistribution;
  pb_expiration : Z;
  pb_contract : pybytes;
}.

Definition MAX_UINT64 : Z := 2 ^ 64 - 1.

(** [expected_return] of [_publish_values] *)
Definition expected_return_of (signal response : Z) : res Z :=
  let! q := macro_div (signal * 3 + clamp response (- PPM) PPM) 8 in
  Ok (clamp q (- MAX_ABSOLUTE_RESPONSE_PPM) MAX_ABSOLUTE_RESPONSE_PPM).

(** The [ModelForecastContractInput] of a publication. *)
Definition forecast_input (b : MacroInputBundle) (m : MacroMarketSnapshot) (quality percentile : Z)
    (record_id forecast_id : Identifier128) (expected_return expected_volatility : Z)
    (direction : MacroDirectionDistribution) (expiration : Z) : ModelForecastContractInput :=
  let bound v := clamp v (- MAX_ABSOLUTE_RESPONSE_PPM) MAX_ABSOLUTE_RESPONSE_PPM in
  let lower := bound (expected_return - expected_volatility) in
  let upper := bound (expected_return + expected_volatility) in
  {| mf_record_id := record_id; mf_forecast_id := forecast_id; mf_session_id := mib_session_id b;
     mf_model_id := mc_model_id config; mf_model_version := mc_model_version config;
     mf_instrument_id := mib_target_instrument_id b; mf_feature_snapshot_id := mms_feature_snapshot_id m;
     mf_configuration_version := mib_configuration_version b;
     mf_expected_return_ppm := expected_return; mf_return_p10_ppm := lower; mf_return_p50_ppm := expected_return;
     mf_return_p90_ppm := upper; mf_probability_down_ppm := mdd_down_ppm direction;
     mf_probability_flat_ppm := mdd_flat_ppm direction; mf_probability_up_ppm := mdd_up_ppm direction;
     mf_volatility_ppm := expected_volatility; mf_confidence_ppm := Z.min 750000 quality; mf_calibration_score_ppm := 0;
     mf_data_quality_score_ppm := quality; mf_ood_score_ppm := Z.min PPM (Z.abs (percentile - PPM / 2) * 2);
     mf_horizon_ns := mc_forecast_horizon_ns config;
     mf_as_of_exchange_event_time_ns := mms_as_of_exchange_event_time_ns m;
     mf_production_process_monotonic_time_ns := mib_production_process_monotonic_time_ns b;
     mf_expiration_process_monotonic_time_ns := expiration;
     mf_has_transaction_cost_estimate := false; mf_estimated_spread_cost_ppm := 0; mf_estimated_slippage_cost_ppm := 0;
     mf_estimated_market_impact_ppm := 0; mf_estimated_adverse_selection_cost_ppm := 0; mf_estimated_fee_cost_ppm := 0;
     mf_forecast_target := RETURN; mf_forecast_unit := RETURN_PPM; mf_target_value := expected_return;
     mf_target_p10 := lower; mf_target_p50 := expected_return; mf_target_p90 := upper;
     mf_horizon_unit := ELAPSED_NANOSECONDS; mf_horizon_value := 0; mf_horizon_halt_policy := HALT_NOT_APPLICABLE;
     mf_horizon_session_endpoint := ENDPOINT_NOT_APPLICABLE; mf_horizon_calendar_version := None;
     mf_target_exchange_event_time_ns := 0 |}.

(** [_publish_values] *)
Definition publish_values (b : MacroInputBundle) (a : MacroAnalysis) : res Publication :=
  match mib_market_snapshot b with
  | None => raise MacroEvaluationError "published macro result requires market feature provenance"
  | Some m =>
      let expiration := mib_production_process_monotonic_time_ns b + mc_forecast_ttl_ns config in
      do! raise_when (MAX_UINT64 <? expiration) MacroEvaluationError "macro forecast expiration overflows uint64" in
      let! signal := surprise_signal b (an_surprises a) in
      let! expected_return := expected_return_of signal (target_response b) in
      let! middle := median MacroEvaluationError (map caf_normalized_magnitude_ppm (an_features a)) in
      let expected_volatility := Z.max 1 middle in
      let! direction := direction_distribution (expected_return * 2) in
      let! input := MacroInputBundle_sha256 b in
      let! forecast_id := news_derived_identifier (str "macro-forecast")
                            [PBytes input; PStr (id_hex (mc_model_version config))] in
      let! record_id := news_derived_identifier (str "macro-forecast-record") [PStr (id_hex forecast_id)] in
      match an_percentile a with
      | None => raise MacroEvaluationError "published macro result requires a surprise percentile"
      | Some percentile =>
          let! contract := build_model_forecast_contract encode
            (forecast_input b m (an_source_quality a) percentile record_id forecast_id expected_return expected_volatility
               direction expiration) in
          Ok {| pb_forecast_id := forecast_id; pb_expected_return := expected_return;
                pb_expected_volatility := expected_volatility; pb_direction := direction; pb_expiration := expiration;
                pb_contract := contract |}
      end
  end.

(** ** Evaluation *)

(** The analysis that [evaluate] makes. *)
Definition analyze (b : MacroInputBundle) : res MacroAnalysis :=
  let! s := surprises b in
  let '(headline, core, subcomponents) := s in
  let! revisions := revision_surprises b in
  let! percentile := surprise_percentile b headline in
  let! features := cross_asset_features b in
  let! quality := source_quality b in
  Ok {| an_phase := phase b; an_headline := headline; an_core := core; an_subcomponents := subcomponents;
        an_revisions := revisions; an_percentile := percentile; an_features := features; an_source_quality := quality |}.

(** The result that [evaluate] assembles, before its own checks. *)
Definition result_of (b : MacroInputBundle) (a : MacroAnalysis) (reasons : list MacroReasonCode) (published : option Publication)
    (input consensus : pybytes) (release : option pybytes) : MacroSpecialistResult :=
  {| msr_macro_event_id := mce_calendar_event_id (mib_calendar b); msr_model_id := mc_model_id config;
     msr_model_version := mc_model_version config; msr_input_sha256 := input; msr_consensus_snapshot_sha256 := consensus;
     msr_release_sha256 := release;
     msr_revision := match mib_release b with Some r => mar_revision r | None => 0 end;
     msr_phase := an_phase a;
     msr_decision := if published then PUBLISH else ABSTAIN;
     msr_scheduled_release_wall_clock_utc_ns := mce_scheduled_release_wall_clock_utc_ns (mib_calendar b);
     msr_official_publication_wall_clock_utc_ns := mar_official_publication_wall_clock_utc_ns <$> mib_release b;
     msr_receipt_wall_clock_utc_ns := mar_receipt_wall_clock_utc_ns <$> mib_release b;
     msr_release_delay_ns := (fun r => mar_official_publication_wall_clock_utc_ns r
                                       - mce_scheduled_release_wall_clock_utc_ns (mib_calendar b)) <$> mib_release b;
     msr_headline_surprise := an_headline a; msr_core_surprise := an_core a;
     msr_subcomponent_surprises := an_subcomponents a; msr_revision_surprises := an_revisions a;
     msr_surprise_percentile_ppm := an_percentile a; msr_cross_asset_response_features := an_features a;
     msr_source_quality_score_ppm := an_source_quality a; msr_reason_codes := reasons;
     msr_forecast_id := pb_forecast_id <$> published; msr_expected_return_ppm := pb_expected_return <$> published;
     msr_expected_volatility_ppm := pb_expected_volatility <$> published; msr_direction := pb_direction <$> published;
     msr_production_process_monotonic_time_ns := mib_production_process_monotonic_time_ns b;
     msr_valid_until_process_monotonic_time_ns := pb_expiration <$> published;
     msr_forecast_contract_bytes := pb_contract <$> published; msr_schema_version := MACRO_SCHEMA_VERSION |}.

(** No reason is critical. *)
Definition publishable (reasons : list MacroReasonCode) : bool :=
  negb (existsb (fun r => bool_decide (r ∈ CRITICAL_REASONS)) reasons).

Definition evaluate (b : MacroInputBundle) : res MacroSpecialistResult :=
  let! a := analyze b in
  let reasons := reasons_of b a in
  let! published := if publishable reasons then let! p := publish_values b a in Ok (Some p) else Ok None in
  let! input := MacroInputBundle_sha256 b in
  let! consensus := MacroConsensusSnapshot_sha256 (mib_consensus_snapshot b) in
  let! release := match mib_release b with
                  | Some r => let! d := MacroActualRelease_sha256 r in Ok (Some d)
                  | None => Ok None
                  end in
  let result := result_of b a reasons published input consensus release in
  do! MacroSpecialistResult_post_init result in
  Ok result.

(** [verify_replay] *)
Definition verify_replay (b : MacroInputBundle) (expected_result_sha256 : pybytes) : res MacroSpecialistResult :=
  do! raise_when (negb (Z.of_nat (length expected_result_sha256) =? SHA256_BYTES)) MacroEvaluationError
        "expected macro replay digest must contain 32 bytes" in
  let! result := evaluate b in
  let! digest := MacroSpecialistResult_sha256 result in
  do! raise_when (negb (bool_decide (digest = expected_result_sha256))) MacroEvaluationError
        "macro replay output digest mismatch" in
  Ok result.

(** ** The processor of one event *)

Record FrozenMacroEventProcessor := {
  fp_event_id : Identifier128;
  fp_consensus_sha256 : pybytes;
  fp_latest_revision : Z;
  fp_latest_release_sha256 : option pybytes;
}.

(** [FrozenMacroEventProcessor.__init__] *)
Definition new_processor (initial : MacroInputBundle) : res FrozenMacroEventProcessor :=
  let! d := MacroConsensusSnapshot_sha256 (mib_consensus_snapshot initial) in
  Ok {| fp_event_id := mce_calendar_event_id (mib_calendar initial); fp_consensus_sha256 := d; fp_latest_revision := 0;
        fp_latest_release_sha256 := None |}.

(** The checks of [process] before the evaluation. *)
Definition check_lineage (self : FrozenMacroEventProcessor) (b : MacroInputBundle) : res unit :=
  do! raise_when (negb (bool_decide (mce_calendar_event_id (mib_calendar b) = fp_event_id self))) MacroEvaluationError
        "macro processor received a different calendar event" in
  let! d := MacroConsensusSnapshot_sha256 (mib_consensus_snapshot b) in
  do! raise_when (negb (bool_decide (d = fp_consensus_sha256 self))) MacroEvaluationError
        "frozen macro consensus changed after processor initialization" in
  match mib_release b with
  | None => Ok tt
  | Some r =>
      do! raise_when (mar_revision r <=? fp_latest_revision self) MacroEvaluationError
            "macro processor received a stale release revision" in
      raise_when ((1 <? mar_revision r)
                  && negb (bool_decide (mar_correction_of_release_sha256 r = fp_latest_release_sha256 self)))
        MacroEvaluationError "macro correction does not link to the accepted release"
  end.

(** [process] *)
Definition process (b : MacroInputBundle) : M FrozenMacroEventProcessor MacroSpecialistResult := fun self =>
  match (do! check_lineage self b in evaluate b) with
  | Err e => (self, Err e)
  | Ok result =>
      match mib_release b with
      | None => (self, Ok result)
      | Some r =>
          let self1 := {| fp_event_id := fp_event_id self; fp_consensus_sha256 := fp_consensus_sha256 self;
                          fp_latest_revision := mar_revision r; fp_latest_release_sha256 := fp_latest_release_sha256 self |} in
          match MacroActualRelease_sha256 r with
          | Err e => (self1, Err e)
          | Ok d => ({| fp_event_id := fp_event_id self; fp_consensus_sha256 := fp_consensus_sha256 self;
                        fp_latest_revision := mar_revision r; fp_latest_release_sha256 := Some d |}, Ok result)
          end
      end
  end.
End specialist.

(** ** Surprises of a valid bundle *)

(** The official release carries a value for the field, every provider that has one agrees,
    and the frozen consensus has an estimate of the same identity. *)
Definition comparable (b : MacroInputBundle) (r : MacroActualRelease) (f : ExpectedReleaseField) : Prop :=
  exists o e, o ∈ mar_observations r /\ mvo_identity o = erf_identity f /\ official_observation b o = Ok true
    /\ (forall o', o' ∈ mar_observations r -> mvo_identity o' = erf_identity f -> mvo_value o' = mvo_value o)
    /\ e ∈ mcs_estimates (mib_consensus_snapshot b) /\ mes_identity e = erf_identity f.

(** An optional field of which the official release carries no value, in no unit. *)
Definition unreleased (b : MacroInputBundle) (r : MacroActualRelease) (f : ExpectedReleaseField) : Prop :=
  erf_required f = false
  /\ forall o, o ∈ mar_observations r -> official_observation b o = Ok true ->
       same_field_family (erf_identity f) (mvo_identity o) = false.

(** Every reason that a field gives, except that an optional field was not released. *)
Definition field_failures : list MacroReasonCode :=
  [MR_NO_RELEASE; MR_INCOMPATIBLE_FIELD; MR_MISSING_REQUIRED_FIELD; MR_CONFLICTING_PROVIDER_VALUES; MR_MISSING_CONSENSUS].

Definition in_role (role : MacroMetricRole) (i : MacroMetricIdentity) : bool := bool_decide (mi_role i = role).

Lemma same_family_refl i : same_field_family i i = true.
Proof. unfold same_field_family. by rewrite !bool_decide_eq_true_2. Qed.

Lemma remove_dups_one {A} `{EqDecision A} (l : list A) x :
  x ∈ l -> Z.of_nat (length (remove_dups l)) <= 1 -> forall y, y ∈ l -> y = x.
Proof.
  intros Hx Hl y Hy. apply elem_of_remove_dups in Hx, Hy. destruct (remove_dups l) as [|a [|c k]].
  - by apply elem_of_nil in Hx.
  - apply list_elem_of_singleton in Hx, Hy. by subst.
  - cbn in Hl. lia.
Qed.

Lemma remove_dups_all {A} `{EqDecision A} (l : list A) x :
  (forall y, y ∈ l -> y = x) -> Z.of_nat (length (remove_dups l)) <= 1.
Proof.
  intros H. assert (forall y, y ∈ remove_dups l -> y = x) as H' by (intros y Hy; apply H; by apply elem_of_remove_dups).
  pose proof (NoDup_remove_dups l) as Hn. destruct (remove_dups l) as [|a [|c k]]; [cbn; lia..|].
  exfalso. apply NoDup_cons_1_1 in Hn. apply Hn.
  rewrite (H' a), (H' c); [apply list_elem_of_here | set_solver | set_solver].
Qed.

Lemma find_in {A} (f : A -> bool) l x : List.find f l = Some x -> x ∈ l /\ f x = true.
Proof. intros H. apply find_some in H as [H ?]. split; [by apply list_elem_of_In | done]. Qed.

Lemma find_out {A} (f : A -> bool) l x : List.find f l = None -> x ∈ l -> f x = false.
Proof. intros H Hx. by apply (find_none f l H), list_elem_of_In. Qed.

Section bundle.
Variable config : MacroSpecialistConfig.
Variable encode : ForecastWire -> pybytes.
Variable b : MacroInputBundle.
Hypothesis Hvalid : valid_bundle b.

Lemma official_total r o :
  mib_release b = Some r -> o ∈ mar_observations r -> exists k, official_observation b o = Ok k.
Proof.
  intros Hr Ho. destruct (valid_release b r Hvalid Hr) as (_ & _ & H). rewrite Forall_forall in H. destruct (H o Ho) as [s Hs].
  unfold official_observation, source_at. rewrite Hs. by eexists.
Qed.

(** The official values of an identity. *)
Lemma official_values_ok i l values :
  official_values b i l = Ok values ->
  forall v, v ∈ values <-> exists o, o ∈ l /\ mvo_identity o = i /\ official_observation b o = Ok true /\ mvo_value o = v.
Proof.
  revert values. induction l as [|o l IH]; intros values H v; cbn [official_values] in H.
  { injection H as <-. split; [intros Hv; by apply elem_of_nil in Hv | intros (o & Ho & _); by apply elem_of_nil in Ho]. }
  apply rbind_ok in H as (keep & Hk & H). apply rbind_ok in H as (rest & Hrest & [= <-]). specialize (IH rest Hrest v).
  assert (keep = true <-> mvo_identity o = i /\ official_observation b o = Ok true) as Hkeep.
  { case_bool_decide as Hi; [|injection Hk as <-; naive_solver]. rewrite Hk. naive_solver. }
  destruct keep; [rewrite elem_of_cons|]; rewrite IH; [|naive_solver set_solver].
  split; [intros [->|?]; set_solver | intros (o' & [->|Ho']%elem_of_cons & Ho); [left; naive_solver | right; eauto]].
Qed.

Lemma official_values_total r i l :
  mib_release b = Some r -> (forall o, o ∈ l -> o ∈ mar_observations r) -> exists values, official_values b i l = Ok values.
Proof.
  intros Hr. induction l as [|o l IH]; intros Hl; cbn [official_values]; [by eexists|].
  destruct IH as [rest Hrest]; [set_solver|]. destruct (official_total r o Hr) as [k Hk]; [set_solver|]. rewrite Hrest.
  case_bool_decide; [rewrite Hk|]; cbn [rbind]; by eexists.
Qed.

(** What the comparison with the consensus says. *)
Lemma against_consensus_ok f v s :
  against_consensus config b f v = Ok s ->
  mfs_identity s = erf_identity f
  /\ ((exists e, e ∈ mcs_estimates (mib_consensus_snapshot b) /\ mes_identity e = erf_identity f /\ mfs_reason s = None
         /\ 0 < Z.max (mes_dispersion e) (epsilon config (mi_unit (erf_identity f)))
         /\ mfs_surprise_ppm s = Some (Z.quot ((v - mes_consensus_value e) * PPM)
                                         (Z.max (mes_dispersion e) (epsilon config (mi_unit (erf_identity f))))))
      \/ ((forall e, e ∈ mcs_estimates (mib_consensus_snapshot b) -> mes_identity e <> erf_identity f)
          /\ mfs_surprise_ppm s = None /\ exists c, mfs_reason s = Some c /\ c ∈ field_failures)).
Proof.
  unfold against_consensus. destruct (List.find _ _) as [e|] eqn:E; intros H.
  - apply find_in in E as [He Hi]. bprop. apply rbind_ok in H as (q & Hq & [= <-]). split; [done|]. left. exists e.
    unfold scaled_ratio_ppm in Hq. apply rbind_ok in Hq as (q' & Hq' & Hq). apply trunc_div_value in Hq' as [Hd ->]. inv_ok.
    by split_and!.
  - injection H as <-. split; [done|]. right. split_and!; [|done|].
    + intros e He Hi. pose proof (find_out _ _ e E He) as Hf. by apply bool_decide_eq_false in Hf.
    + eexists. split; [done|]. destruct (existsb _ _); unfold field_failures; set_solver.
Qed.

(** A field is comparable, was not released, or fails with a reason. *)
Lemma field_surprise_cases r f s :
  mib_release b = Some r -> field_surprise config b f = Ok s ->
  mfs_identity s = erf_identity f
  /\ ((mfs_reason s = None /\ is_Some (mfs_surprise_ppm s) /\ comparable b r f)
      \/ (mfs_reason s = Some MR_FIELD_NOT_RELEASED /\ mfs_surprise_ppm s = None /\ unreleased b r f)
      \/ (mfs_surprise_ppm s = None /\ ~ comparable b r f /\ ~ unreleased b r f
          /\ exists c, mfs_reason s = Some c /\ c ∈ field_failures)).
Proof using Hvalid.
  intros Hr H. unfold field_surprise in H. rewrite Hr in H. apply rbind_ok in H as (values & Hv & H).
  pose proof (official_values_ok _ _ _ Hv) as Hin. destruct values as [|v values].
  - apply rbind_ok in H as (inc & Hinc & [= <-]). split; [done|].
    assert (~ comparable b r f) as Hc.
    { intros (o & e & Ho & Hi & Hof & _). apply (elem_of_nil (mvo_value o)), Hin. by exists o. }
    assert (inc = false <-> forall o, o ∈ mar_observations r -> official_observation b o = Ok true ->
              same_field_family (erf_identity f) (mvo_identity o) = false) as Hf.
    { split.
      - intros -> o Ho Hof. apply res_any_false in Hinc. rewrite Forall_forall in Hinc. specialize (Hinc o Ho). cbv beta in Hinc.
        destruct (same_field_family _ _); [congruence | done].
      - intros Hall. destruct inc; [|done]. exfalso. assert (res_any (fun o => if same_field_family (erf_identity f) (mvo_identity o)
          then official_observation b o else Ok false) (mar_observations r) = Ok false) as E; [|congruence].
        apply res_any_false, Forall_forall. intros o Ho. destruct (same_field_family _ _) eqn:E; [|done].
        destruct (official_total r o Hr Ho) as [[] Hk]; [|done]. by rewrite (Hall o Ho Hk) in E. }
    destruct inc.
    + right; right. split_and!; [done | done | | by eexists; split; [done | unfold field_failures; set_solver]].
      intros [_ Hu]. apply Hf in Hu. done.
    + destruct (erf_required f) eqn:Hq.
      * right; right. split_and!; [done | done | | by eexists; split; [done | unfold field_failures; set_solver]].
        intros [Hu _]. congruence.
      * right; left. split_and!; [done | done | split; [done | by apply Hf]].
  - assert (v ∈ v :: values) as Hhead by apply list_elem_of_here. apply Hin in Hhead as (o & Ho & Hi & Hof & Hval).
    assert (~ unreleased b r f) as Hnu.
    { intros [_ Hu]. specialize (Hu o Ho Hof). rewrite Hi, same_family_refl in Hu. done. }
    assert (forall w, w ∈ map mvo_value (List.filter (fun o => bool_decide (mvo_identity o = erf_identity f)) (mar_observations r))
              <-> exists o', o' ∈ mar_observations r /\ mvo_identity o' = erf_identity f /\ mvo_value o' = w) as Hm.
    { intros w. rewrite list_elem_of_fmap. setoid_rewrite elem_of_filter_b. setoid_rewrite bool_decide_eq_true. naive_solver. }
    destruct (1 <? _) eqn:E.
    + injection H as <-. split; [done|]. right; right.
      split_and!; [done | | done | by eexists; split; [done | unfold field_failures; set_solver]].
      intros (o' & e & Ho' & Hi' & _ & Hall & _). apply Z.ltb_lt in E. revert E. apply Z.le_ngt, (remove_dups_all _ (mvo_value o')).
      intros w Hw. apply Hm in Hw as (o2 & ? & ? & <-). by apply Hall.
    + apply Z.ltb_ge in E. destruct (against_consensus_ok _ _ _ H) as [Hid [(e & He & Hie & Hn & _ & Hs) | (Hno & Hs & Hc)]];
        (split; [done|]).
      * left. split_and!; [done | rewrite Hs; by eexists|]. exists o, e. split_and!; try done. intros o' Ho' Hi'.
        apply (remove_dups_one _ _ (proj2 (Hm (mvo_value o)) (ex_intro _ o (conj Ho (conj Hi eq_refl)))) E). apply Hm. by exists o'.
      * right; right. split_and!; try done. intros (o' & e & _ & _ & _ & _ & He & Hie). by apply (Hno e).
Qed.

Lemma field_surprise_identity f s : field_surprise config b f = Ok s -> mfs_identity s = erf_identity f.
Proof using Hvalid.
  intros H. destruct (mib_release b) as [r|] eqn:Hr; [by apply (field_surprise_cases r f s)|].
  unfold field_surprise in H. rewrite Hr in H. by injection H as <-.
Qed.

Lemma surprise_identities fields values :
  res_map (field_surprise config b) fields = Ok values -> map mfs_identity values = map erf_identity fields.
Proof using Hvalid.
  intros H. apply res_map_ok in H. induction H as [|f s fields values H _ IH]; [done|]. cbn. f_equal; [|done].
  by apply field_surprise_identity.
Qed.

Lemma count_if_map {A B} (g : A -> B) (f : B -> bool) l : count_if (fun x => f (g x)) l = count_if f (map g l).
Proof using. unfold count_if. by rewrite filter_map_comm, length_map. Qed.

Lemma count_if_one {A} (f : A -> bool) l x y : count_if f l <= 1 -> x ∈ l -> y ∈ l -> f x = true -> f y = true -> x = y.
Proof using.
  unfold count_if. intros Hl Hx Hy Fx Fy. assert (x ∈ List.filter f l) as Hx' by (by apply elem_of_filter_b).
  assert (y ∈ List.filter f l) as Hy' by (by apply elem_of_filter_b). destruct (List.filter f l) as [|a [|c k]].
  - by apply elem_of_nil in Hx'.
  - apply list_elem_of_singleton in Hx', Hy'. by subst.
  - cbn in Hl. lia.
Qed.

(** The headline, the core and the subcomponents are the surprises of all fields. *)
Lemma surprises_cover h c subs :
  surprises config b = Ok (h, c, subs) ->
  exists values, res_map (field_surprise config b) (mce_expected_fields (mib_calendar b)) = Ok values
    /\ surprise_role HEADLINE h = true
    /\ forall s, s ∈ h :: match c with Some c => [c] | None => [] end ++ subs <-> s ∈ values.
Proof using Hvalid.
  intros H. unfold surprises in H. apply rbind_ok in H as (values & Hv & H). exists values. split; [done|].
  destruct (List.find (surprise_role HEADLINE) values) as [h'|] eqn:Eh; [|discriminate]. injection H as -> <- <-.
  apply find_in in Eh as [Hh Rh]. split; [done|].
  pose proof (vb_calendar b Hvalid) as Hcal. unfold MacroCalendarEvent_post_init, positive_timestamp in Hcal. inv_ok.
  pose proof (surprise_identities _ _ Hv) as Hids.
  assert (forall role, count_if (surprise_role role) values = count_if (has_role role) (mce_expected_fields (mib_calendar b))) as Hcount.
  { intros role. etrans; [apply (count_if_map mfs_identity (in_role role))|].
    rewrite Hids. symmetry. apply (count_if_map erf_identity (in_role role)). }
  bprop. intros s. rewrite elem_of_cons, elem_of_app, elem_of_filter_b. split.
  - intros [->|[Hs|[Hs _]]]; [done | | done]. destruct (List.find (surprise_role CORE) values) as [c|] eqn:Ec.
    + apply list_elem_of_singleton in Hs as ->. by apply find_in in Ec as [? _].
    + by apply elem_of_nil in Hs.
  - intros Hs. destruct (mi_role (mfs_identity s)) eqn:Er.
    + left. apply (count_if_one (surprise_role HEADLINE) values); [rewrite Hcount; lia | done | done | | done].
      unfold surprise_role. by rewrite Er.
    + right; left. assert (surprise_role CORE s = true) as Rs by (unfold surprise_role; by rewrite Er).
      destruct (List.find (surprise_role CORE) values) as [c|] eqn:Ec; [|by rewrite (find_out _ _ s Ec Hs) in Rs].
      apply find_in in Ec as [Hc Rc]. apply list_elem_of_singleton.
      apply (count_if_one (surprise_role CORE) values); [rewrite Hcount; lia | done..].
    + right; right. split; [done|]. unfold surprise_role. by rewrite Er.
Qed.

(** ** When a forecast is published *)

(** What a published forecast rests on: a complete release in which every expected field is
    comparable, or optional and not released; enough history; sources that are all
    authenticated and of the required quality; and a valid market response that covers every
    required group. *)
Record grounded (r : MacroActualRelease) (m : MacroMarketSnapshot) : Prop := {
  gr_release : mib_release b = Some r;
  gr_market : mib_market_snapshot b = Some m;
  gr_complete : mar_completeness r = RC_COMPLETE;
  gr_fields : Forall (fun f => comparable b r f \/ unreleased b r f) (mce_expected_fields (mib_calendar b));
  gr_history : mc_minimum_history_count config <= Z.of_nat (length (mib_historical_surprises b));
  gr_authentic : Forall (fun s => mse_authenticated s = true) (mib_sources b);
  gr_quality : Forall (fun s => mc_minimum_source_quality_ppm config <= source_quality_score s) (mib_sources b);
  gr_valid : mms_valid m = true;
  gr_groups : Forall (fun g => exists o, o ∈ mms_observations m /\ cross_asset_group (cao_kind o) = g)
                (mc_required_cross_asset_groups config);
}.

Lemma publishable_forall l :
  publishable (ordered_unique l) = true <-> Forall (fun r => r ∉ CRITICAL_REASONS) l.
Proof using.
  unfold publishable, ordered_unique. rewrite negb_true_iff, existsb_false, py_sorted_perm, !Forall_forall.
  setoid_rewrite elem_of_remove_dups. setoid_rewrite bool_decide_eq_false. done.
Qed.

Lemma features_groups fs :
  cross_asset_features config b = Ok fs ->
  forall g, g ∈ map caf_group fs <->
    exists m o, mib_market_snapshot b = Some m /\ o ∈ mms_observations m /\ cross_asset_group (cao_kind o) = g.
Proof using.
  intros H g. unfold cross_asset_features in H. destruct (mib_market_snapshot b) as [m|].
  - apply rbind_ok in H as (l & Hl & [= <-]). rewrite list_elem_of_fmap. setoid_rewrite elem_of_py_sorted.
    apply res_map_ok in Hl. assert (map caf_group l = map (fun o => cross_asset_group (cao_kind o)) (mms_observations m)) as E.
    { induction Hl as [|o f os l Hf _ IH]; [done|]. cbn. f_equal; [|done]. unfold response_feature in Hf. by inv_ok. }
    rewrite <- list_elem_of_fmap. change (caf_group <$> l) with (map caf_group l). rewrite E, list_elem_of_fmap. naive_solver.
  - injection H as <-. split; [intros Hg; by apply elem_of_nil in Hg | by intros (? & ? & ? & _)].
Qed.

Lemma foldl_min_ge x l n : n <= foldl Z.min x l <-> n <= x /\ Forall (fun y => n <= y) l.
Proof using.
  revert x. induction l as [|y l IH]; intros x; cbn [foldl]; [by rewrite Forall_nil; naive_solver|].
  rewrite IH, Forall_cons. split; [intros [? ?]; split_and!; [lia | lia | done] | intros (? & ? & ?); split; [lia | done]].
Qed.

Lemma source_quality_ge q n :
  source_quality b = Ok q -> n <= q <-> Forall (fun s => n <= source_quality_score s) (mib_sources b).
Proof using.
  unfold source_quality. destruct (mib_sources b) as [|s l]; cbn [map]; [done|]. intros [= <-].
  rewrite foldl_min_ge, Forall_cons. change (map source_quality_score l) with (source_quality_score <$> l). by rewrite Forall_fmap.
Qed.

Lemma percentile_some h p :
  surprise_percentile config b h = Ok p ->
  p <> None <-> mfs_surprise_ppm h <> None /\ mc_minimum_history_count config <= Z.of_nat (length (mib_historical_surprises b)).
Proof using.
  unfold surprise_percentile. destruct (mfs_surprise_ppm h); [|intros [= <-]; naive_solver].
  destruct (_ <? _) eqn:E; [intros [= <-]; split; [done | lia]|]. intros H. inv_ok. split; [split; [done|lia] | done].
Qed.

(** The parts of an analysis. *)
Record analyzed (a : MacroAnalysis) : Prop := {
  ad_phase : an_phase a = phase b;
  ad_surprises : surprises config b = Ok (an_headline a, an_core a, an_subcomponents a);
  ad_revisions : revision_surprises config b = Ok (an_revisions a);
  ad_percentile : surprise_percentile config b (an_headline a) = Ok (an_percentile a);
  ad_features : cross_asset_features config b = Ok (an_features a);
  ad_quality : source_quality b = Ok (an_source_quality a);
}.

Lemma analyze_ok a : analyze config b = Ok a <-> analyzed a.
Proof using.
  unfold analyze. split.
  - intros H. apply rbind_ok in H as ([[h c] subs] & H1 & H). inv_ok. by constructor.
  - intros [H1 H2 H3 H4 H5 H6]. rewrite H2. cbn [rbind]. rewrite H3. cbn [rbind]. rewrite H4. cbn [rbind].
    rewrite H5. cbn [rbind]. rewrite H6. cbn [rbind]. rewrite <- H1. by destruct a.
Qed.

Lemma analyzed_fields a :
  analyzed a ->
  (forall f, f ∈ mce_expected_fields (mib_calendar b) -> exists s, s ∈ an_surprises a /\ field_surprise config b f = Ok s)
  /\ (forall s, s ∈ an_surprises a -> exists f, f ∈ mce_expected_fields (mib_calendar b) /\ field_surprise config b f = Ok s).
Proof using Hvalid.
  intros Ha. destruct (surprises_cover _ _ _ (ad_surprises a Ha)) as (values & Hv & _ & Hin).
  unfold an_surprises. setoid_rewrite Hin. apply res_map_ok in Hv. split.
  - intros f [i Hi]%list_elem_of_lookup_1. destruct (Forall2_lookup_l _ _ _ _ _ Hv Hi) as (s & Hs & E).
    exists s. split; [by eapply list_elem_of_lookup_2 | done].
  - intros s [i Hi]%list_elem_of_lookup_1. destruct (Forall2_lookup_r _ _ _ _ _ Hv Hi) as (f & Hf & E).
    exists f. split; [by eapply list_elem_of_lookup_2 | done].
Qed.

(** The headline is a required field. *)
Lemma headline_required a f :
  analyzed a -> f ∈ mce_expected_fields (mib_calendar b) -> field_surprise config b f = Ok (an_headline a) ->
  erf_required f = true.
Proof using Hvalid.
  intros Ha Hf Hs. destruct (surprises_cover _ _ _ (ad_surprises a Ha)) as (_ & _ & Hh & _).
  unfold surprise_role in Hh. rewrite (field_surprise_identity f _ Hs) in Hh.
  pose proof (vb_calendar b Hvalid) as Hcal. unfold MacroCalendarEvent_post_init, positive_timestamp in Hcal. inv_ok. bprop.
  apply existsb_exists in Hcal as (g & Hg%list_elem_of_In & Hreq). bprop.
  rewrite (count_if_one (has_role HEADLINE) (mce_expected_fields (mib_calendar b)) f g); try done; [lia|].
  unfold has_role. by apply bool_decide_eq_true.
Qed.

(** The reasons of the fields are not critical exactly when every field is settled. *)
Lemma field_reasons_settled a r :
  analyzed a -> mib_release b = Some r ->
  Forall (fun c => c ∉ CRITICAL_REASONS) (omap mfs_reason (an_surprises a))
  <-> Forall (fun f => comparable b r f \/ unreleased b r f) (mce_expected_fields (mib_calendar b)).
Proof using Hvalid.
  intros Ha Hr. destruct (analyzed_fields a Ha) as [H1 H2]. rewrite !Forall_forall. setoid_rewrite list_elem_of_omap. split.
  - intros H f Hf. destruct (H1 f Hf) as (s & Hs & E).
    destruct (field_surprise_cases r f s Hr E) as [_ [(_ & _ & Hc) | [(_ & _ & Hu) | (_ & _ & _ & c & Hc & Hin)]]]; [by left | by right|].
    exfalso. apply (H c); [by exists s|]. unfold field_failures in Hin. unfold CRITICAL_REASONS. set_solver.
  - intros H c (s & Hs & Hc). destruct (H2 s Hs) as (f & Hf & E). specialize (H f Hf).
    destruct (field_surprise_cases r f s Hr E) as [_ [(Hn & _) | [(Hn & _) | (_ & H3 & H4 & _)]]]; [congruence | | naive_solver].
    replace c with MR_FIELD_NOT_RELEASED by congruence. unfold CRITICAL_REASONS. set_solver.
Qed.

Lemma headline_surprise a r :
  analyzed a -> mib_release b = Some r ->
  Forall (fun f => comparable b r f \/ unreleased b r f) (mce_expected_fields (mib_calendar b)) ->
  is_Some (mfs_surprise_ppm (an_headline a)).
Proof using Hvalid.
  intros Ha Hr H. destruct (analyzed_fields a Ha) as [_ H2]. destruct (H2 (an_headline a)) as (f & Hf & E); [apply list_elem_of_here|].
  pose proof (headline_required a f Ha Hf E) as Hreq. rewrite Forall_forall in H.
  destruct (field_surprise_cases r f _ Hr E) as [_ [(_ & Hs & _) | [(_ & _ & [Hu _]) | (_ & H3 & H4 & _)]]]; [done | congruence|].
  destruct (H f Hf); contradiction.
Qed.

Lemma not_critical l : bool_decide (Forall (fun c => c ∉ CRITICAL_REASONS) l) = true -> Forall (fun c => c ∉ CRITICAL_REASONS) l.
Proof using. apply bool_decide_eq_true. Qed.

Ltac critical H := exfalso; repeat (apply Forall_cons in H as [H _]); apply H; unfold CRITICAL_REASONS; set_solver.

Lemma decision_published a :
  analyzed a -> publishable (reasons_of config b a) = true -> exists r m, grounded r m.
Proof using Hvalid.
  intros Ha H. unfold reasons_of in H. apply publishable_forall in H. rewrite !Forall_app in H. destruct H as (Hp & Hs & Hq).
  rewrite (ad_phase a Ha) in Hp. unfold phase_reasons, phase in Hp.
  destruct (mib_release b) as [r|] eqn:Hr.
  2: { destruct (_ <=? _); apply Forall_app in Hp as [Hp _]; critical Hp. }
  unfold surprise_reasons in Hs. rewrite Forall_app, (field_reasons_settled a r Ha Hr) in Hs. destruct Hs as [Hf _].
  unfold quality_reasons in Hq. rewrite Hr, bool_decide_eq_true_2 in Hq by (by eexists). cbn [andb] in Hq.
  rewrite !Forall_app in Hq. destruct Hq as (Hper & Hqual & Hauth & Hmk & Hgr).
  destruct (mib_market_snapshot b) as [m|] eqn:Hm; [|critical Hmk]. exists r, m. constructor; try done.
  - destruct (mar_completeness r); [|done]. rewrite bool_decide_eq_true_2 in Hp by done. apply Forall_app in Hp as [Hp _]. critical Hp.
  - destruct (decide (an_percentile a = None)) as [E|E]; [rewrite bool_decide_eq_true_2 in Hper by done; critical Hper|].
    by apply (percentile_some _ _ (ad_percentile a Ha)) in E as [_ E].
  - destruct (existsb _ (mib_sources b)) eqn:E; [critical Hauth|]. apply existsb_false in E.
    eapply Forall_impl; [exact E|]. intros s. apply negb_false_iff.
  - destruct (an_source_quality a <? _) eqn:E; [critical Hqual|]. apply (source_quality_ge _ _ (ad_quality a Ha)). lia.
  - destruct (mms_valid m); [done | critical Hmk].
  - destruct (existsb _ (mc_required_cross_asset_groups config)) eqn:E; [critical Hgr|]. apply existsb_false in E.
    eapply Forall_impl; [exact E|]. cbv beta. intros g Hg. bprop. apply (features_groups _ (ad_features a Ha)) in Hg as (m' & o & Hm' & Ho & Hk).
    replace m with m' by congruence. by exists o.
Qed.

Lemma grounded_published a r m : analyzed a -> grounded r m -> publishable (reasons_of config b a) = true.
Proof using Hvalid.
  intros Ha [Hr Hm Hc Hf Hh Hauth Hqual Hval Hg]. unfold reasons_of. apply publishable_forall.
  pose proof (headline_surprise a r Ha Hr Hf) as Hhead. rewrite !Forall_app. split_and!.
  - rewrite (ad_phase a Ha). unfold phase_reasons, phase. rewrite Hr, Hc. rewrite bool_decide_eq_false_2 by done.
    apply not_critical. by destruct (1 <? _), (_ <? _).
  - unfold surprise_reasons. rewrite Forall_app. split; [by apply (field_reasons_settled a r Ha Hr)|].
    cbn [an_surprises existsb]. rewrite (bool_decide_eq_true_2 (is_Some (mfs_surprise_ppm (an_headline a)))) by done.
    cbn [orb negb]. rewrite andb_false_r. apply Forall_nil_2.
  - unfold quality_reasons. rewrite Hr, Hm, Hval. rewrite bool_decide_eq_true_2 by (by eexists). cbn [andb app].
    rewrite bool_decide_eq_false_2. 2: { apply (percentile_some _ _ (ad_percentile a Ha)). split; [by destruct Hhead as [? ->] | done]. }
    assert (mc_minimum_source_quality_ppm config <= an_source_quality a) by (by apply (source_quality_ge _ _ (ad_quality a Ha))).
    rewrite (proj2 (Z.ltb_ge (an_source_quality a) (mc_minimum_source_quality_ppm config))) by lia.
    rewrite (proj2 (existsb_false _ (mib_sources b))), (proj2 (existsb_false _ (mc_required_cross_asset_groups config))).
    + apply Forall_nil_2.
    + eapply Forall_impl; [exact Hg|]. cbv beta. intros g (o & Ho & Hk). apply negb_false_iff, bool_decide_eq_true.
      apply (features_groups _ (ad_features a Ha)). by exists m, o.
    + eapply Forall_impl; [exact Hauth|]. by intros s ->.
Qed.

(** ** The published numbers *)

(** The surprise of a field, its weight and its push on the signal. *)
Definition surprise_of (f : ExpectedReleaseField) : option Z :=
  match field_surprise config b f with Ok s => mfs_surprise_ppm s | Err _ => None end.
Definition weight_of (f : ExpectedReleaseField) : Z := match surprise_of f with Some _ => erf_forecast_weight_ppm f | None => 0 end.
Definition push_of (f : ExpectedReleaseField) : Z :=
  match surprise_of f with
  | Some s => clamp s (- PPM) PPM * erf_forecast_weight_ppm f * erf_positive_surprise_direction f
  | None => 0
  end.

Lemma surprise_at_field a f :
  analyzed a -> f ∈ mce_expected_fields (mib_calendar b) ->
  exists s, surprise_at (an_surprises a) (erf_identity f) = Ok s /\ field_surprise config b f = Ok s.
Proof using Hvalid.
  intros Ha Hf. destruct (analyzed_fields a Ha) as [H1 H2]. destruct (H1 f Hf) as (s & Hs & E). unfold surprise_at.
  destruct (List.find _ _) as [s'|] eqn:Ef.
  - apply find_in in Ef as [Hin Hid]. bprop.
    assert (s' ∈ an_surprises a) as Hs' by (rewrite list_elem_of_In; apply in_rev; by rewrite <- list_elem_of_In).
    destruct (H2 s' Hs') as (f' & Hf' & E'). exists s'. split; [done|].
    pose proof (vb_calendar b Hvalid) as Hcal. unfold MacroCalendarEvent_post_init, positive_timestamp in Hcal. inv_ok. bprop.
    rewrite (NoDup_map_inj erf_identity (mce_expected_fields (mib_calendar b)) f f'); try done; [by apply unique_by_nodup|].
    rewrite <- Hid. by apply field_surprise_identity.
  - exfalso. assert (s ∈ rev (an_surprises a)) as Hin by (rewrite list_elem_of_In; apply in_rev; rewrite rev_involutive; by rewrite <- list_elem_of_In).
    pose proof (find_out _ _ s Ef Hin) as Hno. apply bool_decide_eq_false in Hno. apply Hno. by apply field_surprise_identity.
Qed.

Lemma weigh_exact a fields : analyzed a -> (forall f, f ∈ fields -> f ∈ mce_expected_fields (mib_calendar b)) ->
  forall n d, weigh (an_surprises a) fields n d = Ok (n + sum_of push_of fields, d + sum_of weight_of fields).
Proof using Hvalid.
  intros Ha. induction fields as [|f fields IH]; intros Hin n d; cbn [weigh sum_of foldr]; [by rewrite !Z.add_0_r|].
  destruct (surprise_at_field a f Ha) as (s & -> & E); [set_solver|]. cbn [rbind].
  assert (surprise_of f = mfs_surprise_ppm s) as Es by (unfold surprise_of; by rewrite E).
  unfold push_of at 1, weight_of at 1. rewrite Es. destruct (mfs_surprise_ppm s).
  - destruct (erf_forecast_weight_ppm f =? 0) eqn:Ew; rewrite IH by set_solver; unfold sum_of; [|by rewrite !Z.add_assoc].
    apply Z.eqb_eq in Ew. by rewrite Ew, Z.mul_0_r.
  - rewrite IH by set_solver. unfold sum_of. repeat f_equal; lia.
Qed.

Lemma push_bound f : ExpectedReleaseField_post_init f = Ok tt -> 0 <= weight_of f /\ - (PPM * weight_of f) <= push_of f <= PPM * weight_of f.
Proof using Hvalid.
  unfold ExpectedReleaseField_post_init. intros H. inv_ok. bprop. unfold push_of, weight_of. destruct (surprise_of f) as [s|]; [|lia].
  pose proof (clamp_between s (- PPM) PPM ltac:(unfold PPM; lia)).
  assert (erf_positive_surprise_direction f = -1 \/ erf_positive_surprise_direction f = 0 \/ erf_positive_surprise_direction f = 1)
    as Hd by set_solver. split; [lia|]. destruct Hd as [-> | [-> | ->]]; nia.
Qed.

Lemma sums_bound : let fields := mce_expected_fields (mib_calendar b) in
  - (PPM * sum_of weight_of fields) <= sum_of push_of fields <= PPM * sum_of weight_of fields.
Proof using Hvalid.
  intros fields. pose proof (vb_fields b Hvalid) as H. fold fields in H. induction H as [|f l Hf _ IH]; cbn [sum_of foldr]; [unfold PPM; lia|].
  pose proof (push_bound f Hf). unfold sum_of in *. lia.
Qed.

(** The signal: the weighted mean of the clamped surprises. *)
Definition signal_of : Z :=
  Z.quot (sum_of push_of (mce_expected_fields (mib_calendar b))) (sum_of weight_of (mce_expected_fields (mib_calendar b))).

Lemma surprise_signal_exact a :
  analyzed a ->
  surprise_signal b (an_surprises a)
  = if sum_of weight_of (mce_expected_fields (mib_calendar b)) <=? 0
    then raise MacroEvaluationError "published macro result has no weighted surprise signal" else Ok signal_of.
Proof using Hvalid.
  intros Ha. unfold surprise_signal. rewrite (weigh_exact a _ Ha) by done. cbn [rbind fst snd]. rewrite !Z.add_0_l.
  destruct (_ <=? 0) eqn:E; cbn [raise_when rbind]; [done|]. apply trunc_div_quot. lia.
Qed.

Lemma signal_bound : 0 < sum_of weight_of (mce_expected_fields (mib_calendar b)) -> - PPM <= signal_of <= PPM.
Proof using Hvalid. intros Hd. pose proof sums_bound. apply quot_between; [done|]. cbv zeta in *. lia. Qed.

(** The expected return: three parts of the signal and one of the response. *)
Definition return_of : Z := Z.quot (signal_of * 3 + clamp (target_response b) (- PPM) PPM) 8.

Lemma return_bound : 0 < sum_of weight_of (mce_expected_fields (mib_calendar b)) -> - 500000 <= return_of <= 500000.
Proof using Hvalid.
  intros Hw. pose proof (signal_bound Hw). pose proof (clamp_between (target_response b) (- PPM) PPM ltac:(unfold PPM; lia)).
  unfold return_of. apply quot_between; unfold PPM in *; lia.
Qed.

Lemma expected_return_exact :
  0 < sum_of weight_of (mce_expected_fields (mib_calendar b)) ->
  expected_return_of signal_of (target_response b) = Ok return_of.
Proof using Hvalid.
  intros Hw. pose proof (return_bound Hw). unfold expected_return_of. rewrite trunc_div_quot by lia. cbn [rbind].
  fold return_of. f_equal. apply clamp_inside. unfold MAX_ABSOLUTE_RESPONSE_PPM. lia.
Qed.

(** The directional probabilities of a return: a fixed share for no move, and an edge that
    follows the return. *)
Definition edge_of (r : Z) : Z := Z.quot (r * 2 * 350000) PPM.
Definition direction_of (r : Z) : MacroDirectionDistribution :=
  {| mdd_down_ppm := 350000 - edge_of r; mdd_flat_ppm := 300000; mdd_up_ppm := 350000 + edge_of r |}.

Lemma edge_bound r : - 500000 <= r <= 500000 -> - 350000 <= edge_of r <= 350000.
Proof using. intros Hr. unfold edge_of. apply quot_between; unfold PPM; lia. Qed.

Lemma direction_exact r : - 500000 <= r <= 500000 -> direction_distribution (r * 2) = Ok (direction_of r).
Proof using.
  intros Hr. pose proof (edge_bound r Hr) as He. unfold direction_distribution. cbv zeta.
  rewrite clamp_inside by (unfold PPM; lia). change ((PPM - 300000) / 2) with 350000. change (PPM - 300000) with 700000.
  rewrite trunc_div_quot by (unfold PPM; lia). cbn [rbind]. fold (edge_of r).
  unfold MacroDirectionDistribution_post_init. cbn [mdd_down_ppm mdd_flat_ppm mdd_up_ppm existsb].
  rewrite raise_when_false by (unfold PPM; lia). cbn [rbind]. unfold direction_of.
  replace (700000 - (350000 + edge_of r)) with (350000 - edge_of r) by lia. done.
Qed.

Lemma features_bounded fs :
  cross_asset_features config b = Ok fs ->
  Forall (fun v => 0 <= v <= MAX_ABSOLUTE_RESPONSE_PPM) (map caf_normalized_magnitude_ppm fs)
  /\ forall m, mib_market_snapshot b = Some m -> fs <> [].
Proof using Hvalid.
  intros H. unfold cross_asset_features in H. destruct (mib_market_snapshot b) as [m|] eqn:Hm.
  - apply rbind_ok in H as (l & Hl & [= <-]). apply res_map_ok in Hl.
    assert (Forall (fun f => 0 <= caf_normalized_magnitude_ppm f <= MAX_ABSOLUTE_RESPONSE_PPM) l) as Hb.
    { clear -Hl. induction Hl as [|o f os l Hf _ IH]; constructor; [|done]. unfold response_feature, CrossAssetResponseFeature_post_init in Hf.
      inv_ok. cbn [caf_normalized_magnitude_ppm] in *. lia. }
    split.
    + change (map ?f ?l) with (f <$> l). rewrite Forall_fmap, py_sorted_perm. exact Hb.
    + intros m' _ E. apply (f_equal length) in E. rewrite (Permutation_length (py_sorted_perm _ _)) in E.
      rewrite <- (Forall2_length _ _ _ Hl) in E. destruct (vb_market b Hvalid m Hm) as [Hp _].
      unfold MacroMarketSnapshot_post_init in Hp. inv_ok. bprop. by destruct (mms_observations m).
  - injection H as <-. split; [apply Forall_nil_2 | done].
Qed.

Lemma percentile_bound h p : surprise_percentile config b h = Ok (Some p) -> 0 <= p <= PPM.
Proof using.
  unfold surprise_percentile. destruct (mfs_surprise_ppm h); [|done]. destruct (_ <? _) eqn:E; [done|]. intros H.
  apply rbind_ok in H as (q & Hq & [= ->]). apply trunc_div_value in Hq as [Hn ->].
  pose proof (count_if_bound (fun h => hms_headline_surprise_ppm h <=? z) (mib_historical_surprises b)).
  apply quot_between; [done|]. unfold PPM in *. lia.
Qed.

Lemma quality_bound q : source_quality b = Ok q -> 0 <= q <= PPM.
Proof using.
  intros H. split.
  - apply (source_quality_ge q 0 H). apply Forall_forall. intros s _. unfold source_quality_score, PPM. destruct (mse_quality s); lia.
  - unfold source_quality in H. destruct (mib_sources b) as [|s l]; [done|]. cbn [map] in H. injection H as <-.
    pose proof (proj1 (foldl_min_ge (source_quality_score s) (map source_quality_score l) _) (Z.le_refl _)) as [Hle _].
    etrans; [exact Hle|]. unfold source_quality_score, PPM. destruct (mse_quality s); lia.
Qed.

(** ** The contract of a publication *)

(** The clocks leave room for the horizon and the lifetime of a forecast. *)
Record clocks_fit (m : MacroMarketSnapshot) : Prop := {
  cf_horizon : 0 < mc_forecast_horizon_ns config;
  cf_as_of : 0 < mms_as_of_exchange_event_time_ns m;
  cf_target : mms_as_of_exchange_event_time_ns m + mc_forecast_horizon_ns config < 2 ^ 63;
  cf_production : 0 < mib_production_process_monotonic_time_ns b;
  cf_ttl : 0 < mc_forecast_ttl_ns config;
  cf_expiration : mib_production_process_monotonic_time_ns b + mc_forecast_ttl_ns config < 2 ^ 64;
}.

Lemma forecast_input_valid m quality percentile rid fid r vol :
  clocks_fit m -> - 500000 <= r <= 500000 -> 1 <= vol <= MAX_ABSOLUTE_RESPONSE_PPM ->
  0 <= quality <= PPM -> 0 <= percentile <= PPM ->
  contract_valid (forecast_input config b m quality percentile rid fid r vol (direction_of r)
                    (mib_production_process_monotonic_time_ns b + mc_forecast_ttl_ns config))
    (mc_forecast_horizon_ns config) (mms_as_of_exchange_event_time_ns m + mc_forecast_horizon_ns config).
Proof using.
  intros [H1 H2 H3 H4 H5 H6] Hr Hv Hq Hp. pose proof (edge_bound r Hr) as He.
  unfold MAX_ABSOLUTE_RESPONSE_PPM, PPM in *.
  constructor; unfold target_values, returns_of, scores_of, costs_of, resolve_horizon, forecast_input;
    cbn -[Z.pow edge_of clamp Z.div Z.min Z.abs];
    unfold ppm, u64, i64_positive, maximum_return, maximum_score, clamp, MAX_ABSOLUTE_RESPONSE_PPM, PPM;
    rewrite ?bool_decide_eq_true_2 by done; cbn [nth]; change (1000000 / 2) with 500000;
    try lia; try done; intros; repeat apply Forall_cons_2; try apply Forall_nil_2; cbv beta; lia.
Qed.

Lemma ids_total input :
  length input = 32%nat ->
  exists fid rid, news_derived_identifier (str "macro-forecast") [PBytes input; PStr (id_hex (mc_model_version config))] = Ok fid
    /\ news_derived_identifier (str "macro-forecast-record") [PStr (id_hex fid)] = Ok rid.
Proof using.
  intros Hl. assert (forall i, exists c, news_part_bytes (PStr (id_hex i)) = Ok c /\ Z.of_nat (length c) < 256 ^ 4) as Hid.
  { intros i. exists (id_hex i). cbn [news_part_bytes]. rewrite (ascii_utf8 _ (id_hex_ascii i)), identifier_hex_length. by split. }
  destruct (news_identifier_total (str "macro-forecast") [PBytes input; PStr (id_hex (mc_model_version config))]) as (fid & E & _); [done | |].
  { repeat apply Forall_cons_2; [|apply Hid|apply Forall_nil_2]. exists input. cbn [news_part_bytes]. rewrite Hl. by split. }
  destruct (news_identifier_total (str "macro-forecast-record") [PStr (id_hex fid)]) as (rid & E' & _);
    [done | by apply Forall_cons_2; [apply Hid | apply Forall_nil_2]|]. by exists fid, rid.
Qed.

(** What a publication holds. *)
Record publication_exact (m : MacroMarketSnapshot) (percentile quality vol : Z) (pub : Publication) : Prop := {
  pe_weight : 0 < sum_of weight_of (mce_expected_fields (mib_calendar b));
  pe_return : pb_expected_return pub = return_of;
  pe_volatility : pb_expected_volatility pub = Z.max 1 vol;
  pe_direction : pb_direction pub = direction_of return_of;
  pe_expiration : pb_expiration pub = mib_production_process_monotonic_time_ns b + mc_forecast_ttl_ns config;
  pe_contract : exists rid, build_model_forecast_contract encode
    (forecast_input config b m quality percentile rid (pb_forecast_id pub) return_of (Z.max 1 vol) (direction_of return_of)
       (pb_expiration pub)) = Ok (pb_contract pub);
}.

Lemma publish_values_ok a pub :
  analyzed a -> publish_values config encode b a = Ok pub ->
  exists m percentile vol, mib_market_snapshot b = Some m /\ an_percentile a = Some percentile
    /\ median MacroEvaluationError (map caf_normalized_magnitude_ppm (an_features a)) = Ok vol
    /\ publication_exact m percentile (an_source_quality a) vol pub.
Proof using Hvalid.
  intros Ha H. unfold publish_values in H. destruct (mib_market_snapshot b) as [m|] eqn:Hm; [|done].
  apply rbind_ok in H as ([] & _ & H). rewrite (surprise_signal_exact a Ha) in H.
  destruct (_ <=? 0) eqn:E; [done|]. cbn [rbind] in H. assert (0 < sum_of weight_of (mce_expected_fields (mib_calendar b))) as Hw by lia.
  rewrite (expected_return_exact Hw) in H. cbn [rbind] in H. apply rbind_ok in H as (vol & Hvol & H).
  rewrite (direction_exact _ (return_bound Hw)) in H. cbn [rbind] in H. apply rbind_ok in H as (input & _ & H).
  apply rbind_ok in H as (fid & _ & H). apply rbind_ok in H as (rid & _ & H). destruct (an_percentile a) as [p|]; [|done].
  apply rbind_ok in H as (contract & Hc & [= <-]). exists m, p, vol. split_and!; try done. constructor; try done. by exists rid.
Qed.

Lemma publish_values_total a m percentile :
  analyzed a -> mib_market_snapshot b = Some m -> an_percentile a = Some percentile ->
  0 < sum_of weight_of (mce_expected_fields (mib_calendar b)) -> clocks_fit m ->
  ints_printable (MacroInputBundle_document b) = true ->
  exists pub w, publish_values config encode b a = Ok pub /\ pb_contract pub = encode w.
Proof using Hvalid.
  intros Ha Hm Hp Hw Hc Hd. unfold publish_values. rewrite Hm, raise_when_false by (pose proof (cf_expiration m Hc); unfold MAX_UINT64; lia).
  cbn [rbind]. rewrite (surprise_signal_exact a Ha). rewrite (proj2 (Z.leb_gt _ 0)) by lia. cbn [rbind].
  rewrite (expected_return_exact Hw). cbn [rbind]. destruct (features_bounded _ (ad_features a Ha)) as [Hf Hne].
  destruct (median_between MacroEvaluationError _ _ _ ltac:(intros E; apply (Hne m Hm); by apply map_eq_nil in E) Hf) as (vol & -> & Hvol).
  cbn [rbind]. rewrite (direction_exact _ (return_bound Hw)). cbn [rbind].
  destruct (document_sha256_total _ Hd) as (input & Hi & Hl). unfold MacroInputBundle_sha256. rewrite Hi. cbn [rbind].
  destruct (ids_total input Hl) as (fid & rid & -> & E2). cbn [rbind]. rewrite E2. cbn [rbind]. rewrite Hp.
  pose proof (ad_percentile a Ha) as Hper. rewrite Hp in Hper.
  assert (1 <= Z.max 1 vol <= MAX_ABSOLUTE_RESPONSE_PPM) as Hv by (unfold MAX_ABSOLUTE_RESPONSE_PPM in *; lia).
  pose proof (forecast_input_valid m (an_source_quality a) percentile rid fid return_of (Z.max 1 vol) Hc (return_bound Hw) Hv
    (quality_bound _ (ad_quality a Ha)) (percentile_bound _ _ Hper)) as Hcv.
  unfold build_model_forecast_contract.
  match type of Hcv with contract_valid ?d ?v ?t =>
    rewrite (proj2 (validated_forecast_ok d {| wire_input := d; wire_horizon_value := v; wire_target_exchange_event_time_ns := t;
      wire_target_values := target_values d |})) by done end.
  cbn [rbind]. eexists _, _. split; reflexivity.
Qed.

(** ** Evaluations *)

Lemma evaluate_ok r :
  evaluate config encode b = Ok r ->
  exists a published input consensus release, analyzed a
    /\ r = result_of config b a (reasons_of config b a) published input consensus release
    /\ (publishable (reasons_of config b a) = true -> exists pub, published = Some pub /\ publish_values config encode b a = Ok pub)
    /\ (publishable (reasons_of config b a) = false -> published = None).
Proof using.
  unfold evaluate. intros H. apply rbind_ok in H as (a & Ha & H). apply analyze_ok in Ha.
  apply rbind_ok in H as (published & Hp & H). apply rbind_ok in H as (input & _ & H). apply rbind_ok in H as (consensus & _ & H).
  apply rbind_ok in H as (release & _ & H). apply rbind_ok in H as ([] & _ & [= <-]).
  exists a, published, input, consensus, release. split_and!; try done; intros E; rewrite E in Hp.
  - apply rbind_ok in Hp as (pub & Hpub & [= <-]). by exists pub.
  - by injection Hp.
Qed.

(** ** Totality *)

(** Values whose standardized differences fit in 64 bits at any dispersion. *)
Definition VALUE_LIMIT : Z := 4611686018427.
Definition moderate (v : Z) : Prop := - VALUE_LIMIT <= v <= VALUE_LIMIT.

Lemma ratio_total u v d : moderate u -> moderate v -> 0 < d -> exists q, scaled_ratio_ppm (u - v) d = Ok q.
Proof using.
  intros Hu Hv Hd. unfold scaled_ratio_ppm. rewrite trunc_div_quot by done. cbn [rbind].
  assert (- (2 * VALUE_LIMIT * PPM) <= Z.quot ((u - v) * PPM) d <= 2 * VALUE_LIMIT * PPM).
  { unfold moderate, VALUE_LIMIT, PPM in *. apply quot_between; [done|]. nia. }
  rewrite raise_when_false by (unfold VALUE_LIMIT, PPM, MIN_INT64, MAX_INT64 in *; lia). by eexists.
Qed.

Record moderate_values : Prop := {
  mv_consensus : Forall (fun e => moderate (mes_consensus_value e)) (mcs_estimates (mib_consensus_snapshot b));
  mv_observed : forall r, mib_release b = Some r -> Forall (fun o => moderate (mvo_value o)) (mar_observations r);
  mv_prior : forall r, mib_release b = Some r -> Forall (fun p => moderate (mpv_value_known_before_release p)
               /\ forall v, mpv_revised_value_in_release p = Some v -> moderate v) (mar_prior_values r);
}.

Hypothesis Hconfig : MacroSpecialistConfig_post_init config = Ok tt.

Lemma epsilon_positive u : 0 < epsilon config u.
Proof using Hvalid Hconfig.
  unfold MacroSpecialistConfig_post_init in Hconfig. pose proof Hconfig as H. inv_ok. apply existsb_false in Ha3.
  repeat (apply Forall_cons in Ha3 as [? Ha3]). destruct u; cbn; lia.
Qed.

Lemma field_surprise_total f : moderate_values -> exists s, field_surprise config b f = Ok s.
Proof using Hvalid Hconfig.
  intros Hm. unfold field_surprise. destruct (mib_release b) as [r|] eqn:Hr; [|by eexists].
  destruct (official_values_total r (erf_identity f) (mar_observations r) Hr) as [values Hv]; [done|].
  rewrite Hv. cbn [rbind]. destruct values as [|v values].
  - assert (exists k, res_any (fun o => if same_field_family (erf_identity f) (mvo_identity o)
      then official_observation b o else Ok false) (mar_observations r) = Ok k) as [k ->]; [|by eexists].
    assert (forall o, o ∈ mar_observations r -> exists k, official_observation b o = Ok k) as Ho
      by (intros o; by apply official_total). revert Ho. generalize (mar_observations r). clear. intros l Ho.
    induction l as [|o l IH]; cbn [res_any]; [by eexists|]. destruct (Ho o) as [k Hk]; [set_solver|].
    destruct IH as [j IH]; [intros; apply Ho; set_solver|]. rewrite Hk, IH. destruct (same_field_family _ _), k; cbn; by eexists.
  - destruct (1 <? _); [by eexists|]. unfold against_consensus. destruct (List.find _ _) as [e|] eqn:Ef; [|by eexists].
    apply find_in in Ef as [He _]. pose proof (mv_consensus Hm) as Hc. rewrite Forall_forall in Hc.
    assert (v ∈ v :: values) as Hin by apply list_elem_of_here. apply (official_values_ok _ _ _ Hv) in Hin as (o & Ho & _ & _ & <-).
    pose proof (mv_observed Hm r Hr) as Hobs. rewrite Forall_forall in Hobs. pose proof (epsilon_positive (mi_unit (erf_identity f))).
    destruct (ratio_total (mvo_value o) (mes_consensus_value e) (Z.max (mes_dispersion e) (epsilon config (mi_unit (erf_identity f)))))
      as [q ->]; [by apply Hobs | by apply Hc | lia | by eexists].
Qed.

Lemma surprises_total : moderate_values -> exists t, surprises config b = Ok t.
Proof using Hvalid Hconfig.
  intros Hm. unfold surprises. destruct (res_map_total (field_surprise config b) (mce_expected_fields (mib_calendar b))) as [values Hv].
  { apply Forall_forall. intros f _. by apply field_surprise_total. }
  rewrite Hv. cbn [rbind]. destruct (List.find (surprise_role HEADLINE) values) as [h|] eqn:E; [by eexists|]. exfalso.
  pose proof (vb_calendar b Hvalid) as Hcal. unfold MacroCalendarEvent_post_init, positive_timestamp in Hcal. inv_ok. bprop.
  apply existsb_exists in Hcal as (f & Hf%list_elem_of_In & Hreq). bprop.
  apply res_map_ok in Hv. apply list_elem_of_lookup_1 in Hf as [i Hi]. destruct (Forall2_lookup_l _ _ _ _ _ Hv Hi) as (s & Hs & Es).
  pose proof (find_out _ _ s E (list_elem_of_lookup_2 _ _ _ Hs)) as Hno. unfold surprise_role in Hno.
  rewrite (field_surprise_identity f s Es) in Hno. unfold has_role in *. congruence.
Qed.

Lemma revisions_total : moderate_values -> exists l, revision_surprises config b = Ok l.
Proof using Hvalid Hconfig.
  intros Hm. unfold revision_surprises. destruct (mib_release b) as [r|] eqn:Hr; [|by eexists].
  apply res_map_total, Forall_forall. intros [p v] Hp. rewrite list_elem_of_In, in_flat_map in Hp.
  destruct Hp as (p' & Hp' & Hin). pose proof (mv_prior Hm r Hr) as Hpri. rewrite Forall_forall in Hpri.
  destruct (Hpri p') as [H1 H2]; [by apply list_elem_of_In|].
  destruct (mpv_revised_value_in_release p') as [v'|] eqn:E; [|done]. destruct Hin as [[= <- <-]|[]].
  unfold revision_surprise. cbn [fst snd]. pose proof (epsilon_positive (mi_unit (mpv_identity p'))).
  destruct (ratio_total v' (mpv_value_known_before_release p')
    (Z.max (Z.abs (mpv_value_known_before_release p')) (epsilon config (mi_unit (mpv_identity p'))))) as [q ->];
    [by apply H2 | done | lia|]. cbn [rbind]. by eexists.
Qed.

Lemma percentile_total h : exists p, surprise_percentile config b h = Ok p.
Proof using Hvalid Hconfig.
  unfold surprise_percentile. destruct (mfs_surprise_ppm h); [|by eexists]. destruct (_ <? _) eqn:E; [by eexists|].
  rewrite trunc_div_quot; [by eexists|]. pose proof Hconfig as H. unfold MacroSpecialistConfig_post_init in H. inv_ok. lia.
Qed.

Lemma features_total : exists fs, cross_asset_features config b = Ok fs.
Proof using Hvalid Hconfig.
  unfold cross_asset_features. destruct (mib_market_snapshot b) as [m|]; [|by eexists].
  destruct (res_map_total (response_feature config) (mms_observations m)) as [l ->]; [|by eexists].
  apply Forall_forall. intros o _. unfold response_feature, CrossAssetResponseFeature_post_init. cbn [caf_normalized_magnitude_ppm].
  rewrite raise_when_false; [by eexists|]. pose proof Hconfig as H. unfold MacroSpecialistConfig_post_init in H. inv_ok.
  unfold MAX_ABSOLUTE_RESPONSE_PPM. destruct (cao_unit o); nia.
Qed.

Lemma analyze_total : moderate_values -> exists a, analyzed a.
Proof using Hvalid Hconfig.
  intros Hm. destruct (surprises_total Hm) as [[[h c] subs] H1]. destruct (revisions_total Hm) as [revs H2].
  destruct (percentile_total h) as [p H3]. destruct features_total as [fs H4].
  assert (exists q, source_quality b = Ok q) as [q H5].
  { unfold source_quality. pose proof (valid_sources_nonempty b Hvalid). destruct (mib_sources b); [done|]. by eexists. }
  exists {| an_phase := phase b; an_headline := h; an_core := c; an_subcomponents := subs; an_revisions := revs;
            an_percentile := p; an_features := fs; an_source_quality := q |}. by constructor.
Qed.

(** The digest of a document that is not the reserved one. *)
Definition digested (v : json) : Prop := exists d, document_sha256 v = Ok d /\ d <> replicate 32 0.

Lemma digested_valid v d name : digested v -> document_sha256 v = Ok d -> valid_digest d name = Ok tt.
Proof using.
  intros (d' & E & Hd) H. apply valid_digest_ok. rewrite E in H. injection H as <-. split; [|done].
  unfold document_sha256 in E. inv_ok. apply length_sha256.
Qed.

Lemma reasons_nodup l : NoDup (ordered_unique l).
Proof using. unfold ordered_unique. rewrite py_sorted_perm. apply NoDup_remove_dups. Qed.

(** The release fields of a result agree. *)
Lemma result_release_state a reasons published input consensus release :
  analyzed a -> (is_Some release <-> is_Some (mib_release b)) ->
  validate_release_state (result_of config b a reasons published input consensus release) = Ok tt.
Proof using Hvalid Hconfig.
  intros Ha Hrel. unfold validate_release_state, result_of. cbn [msr_revision msr_official_publication_wall_clock_utc_ns
    msr_receipt_wall_clock_utc_ns msr_release_delay_ns msr_release_sha256 msr_phase]. rewrite (ad_phase a Ha). unfold phase.
  destruct (mib_release b) as [r|] eqn:Hr; cbn [fmap option_fmap option_map default].
  - destruct (vb_release b Hvalid r Hr) as (Hp & _). unfold MacroActualRelease_post_init, positive_timestamp in Hp. inv_ok.
    destruct (valid_release b r Hvalid Hr) as (H1 & _). destruct release; [|destruct (proj2 Hrel ltac:(by eexists)); done].
    rewrite (proj2 (Z.ltb_lt 0 (mar_revision r))) by lia. rewrite !bool_decide_eq_true_2 by (by eexists). cbn [andb Bool.eqb negb].
    rewrite raise_when_false by done. cbn [rbind andb id]. rewrite raise_when_false by lia. by cbn [rbind negb andb].
  - destruct release; [destruct (proj1 Hrel ltac:(by eexists)); done|]. by destruct (_ <=? _).
Qed.

Lemma result_decision_state a published input consensus release :
  analyzed a ->
  (forall pub, published = Some pub -> publishable (reasons_of config b a) = true /\ publish_values config encode b a = Ok pub
     /\ magic_of (pb_contract pub) = str "AMCR") ->
  validate_decision_state (result_of config b a (reasons_of config b a) published input consensus release) = Ok tt.
Proof using Hvalid Hconfig.
  intros Ha Hpub. unfold validate_decision_state, result_of. cbn. destruct published as [pub|]; [|done].
  destruct (Hpub pub eq_refl) as (Hok & Hv & Hmagic). destruct (publish_values_ok a pub Ha Hv) as (m & p & vol & _ & _ & Hvol & Hex).
  pose proof (return_bound (pe_weight _ _ _ _ _ Hex)) as Hret.
  destruct (features_bounded _ (ad_features a Ha)) as [Hf _].
  assert (map caf_normalized_magnitude_ppm (an_features a) <> []) as Hne by (intros E; rewrite E in Hvol; done).
  destruct (median_between MacroEvaluationError _ _ _ Hne Hf) as (vol' & E & Hb). rewrite Hvol in E. injection E as <-.
  cbn [fmap option_fmap option_map]. rewrite !bool_decide_eq_true_2 by (by eexists). cbn [existsb negb orb raise_when rbind].
  rewrite raise_when_false. 2: { apply negb_false_iff, bool_decide_eq_true. rewrite (ad_phase a Ha).
    destruct (decision_published a Ha Hok) as (r & m' & Hg). unfold phase. rewrite (gr_release r m' Hg), (gr_complete r m' Hg).
    rewrite bool_decide_eq_false_2 by done. destruct (1 <? _); set_solver. }
  cbn [rbind default id]. rewrite (pe_return _ _ _ _ _ Hex), (pe_volatility _ _ _ _ _ Hex), (pe_expiration _ _ _ _ _ Hex).
  pose proof Hconfig as Hcf. unfold MacroSpecialistConfig_post_init in Hcf. inv_ok. unfold MAX_ABSOLUTE_RESPONSE_PPM in *.
  rewrite raise_when_false by lia. cbn [rbind]. rewrite raise_when_false by lia. cbn [rbind].
  rewrite raise_when_false; [done|]. by apply negb_false_iff, bool_decide_eq_true.
Qed.
(** The assembled result passes its own checks. *)
Lemma result_passes a published input consensus release :
  analyzed a ->
  (forall pub, published = Some pub -> publishable (reasons_of config b a) = true /\ publish_values config encode b a = Ok pub
     /\ magic_of (pb_contract pub) = str "AMCR") ->
  (is_Some release <-> is_Some (mib_release b)) -> (forall d name, release = Some d -> valid_digest d name = Ok tt) ->
  valid_digest input "macro result input_sha256" = Ok tt ->
  valid_digest consensus "macro result consensus_snapshot_sha256" = Ok tt ->
  MacroSpecialistResult_post_init (result_of config b a (reasons_of config b a) published input consensus release) = Ok tt.
Proof using Hvalid Hconfig.
  intros Ha Hpub Hi Hdig H1 H2. pose proof (result_release_state a (reasons_of config b a) published input consensus release Ha Hi) as Hrs.
  pose proof (result_decision_state a published input consensus release Ha Hpub) as Hds.
  pose proof (quality_bound _ (ad_quality a Ha)) as Hq. pose proof (vb_calendar b Hvalid) as Hcal.
  destruct (bundle_steps b (vb_bundle b Hvalid)) as (_ & Hprod & _).
  unfold MacroCalendarEvent_post_init, positive_timestamp in Hcal. inv_ok. unfold MacroSpecialistResult_post_init.
  set (r := result_of _ _ _ _ _ _ _ _) in *. change (msr_input_sha256 r) with input. change (msr_consensus_snapshot_sha256 r) with consensus.
  rewrite H1, H2, Hrs, Hds. cbn [rbind]. unfold r, result_of, positive_timestamp.
  cbn [msr_revision msr_schema_version msr_scheduled_release_wall_clock_utc_ns msr_source_quality_score_ppm msr_reason_codes
    msr_surprise_percentile_ppm msr_production_process_monotonic_time_ns msr_release_sha256].
  assert (match release with Some d => valid_digest d "macro result release_sha256" | None => Ok tt end = Ok tt) as ->
    by (destruct release; [by apply Hdig | done]).
  cbn [rbind]. rewrite raise_when_false; [cbn [rbind] | rewrite bool_decide_eq_true_2 by done].
  2: { destruct (mib_release b) as [rel|] eqn:Er; [|done]. destruct (vb_release b Hvalid rel Er) as (Hp & _).
       unfold MacroActualRelease_post_init in Hp. inv_ok. cbn [negb]. lia. }
  rewrite raise_when_false by lia. cbn [rbind]. rewrite raise_when_false by lia. cbn [rbind].
  rewrite raise_when_false. 2: { apply negb_false_iff, unique_by_nodup. change (map id ?l) with (id <$> l). rewrite list_fmap_id. apply reasons_nodup. }
  cbn [rbind]. rewrite raise_when_false. 2: { destruct (an_percentile a) as [p|] eqn:Ep; [|done].
    pose proof (ad_percentile a Ha) as Hper. rewrite Ep in Hper. apply percentile_bound in Hper. lia. }
  cbn [rbind]. rewrite raise_when_false by lia. done.
Qed.
End bundle.

(** ** Properties *)

Definition no_forecast (r : MacroSpecialistResult) : Prop :=
  msr_forecast_id r = None /\ msr_expected_return_ppm r = None /\ msr_expected_volatility_ppm r = None /\ msr_direction r = None
  /\ msr_valid_until_process_monotonic_time_ns r = None /\ msr_forecast_contract_bytes r = None.

(** A field with weight was compared with the consensus. *)
Definition weighted (config : MacroSpecialistConfig) (b : MacroInputBundle) : Prop :=
  0 < sum_of (weight_of config b) (mce_expected_fields (mib_calendar b)).

Lemma published_grounded config encode b r :
  valid_bundle b -> evaluate config encode b = Ok r -> msr_decision r = PUBLISH -> exists release m, grounded config b release m.
Proof.
  intros Hv H Hd. destruct (evaluate_ok config encode b r H) as (a & published & input & cs & rel & Ha & -> & _ & Hn).
  destruct (publishable (reasons_of config b a)) eqn:E; [by apply (decision_published config b Hv a Ha) | by rewrite (Hn eq_refl) in Hd].
Qed.

(** C28: strict abstention.  When the evaluation of a valid bundle returns, it publishes a
    forecast exactly when the release is complete, every expected field is comparable (an
    official value, no provider that disagrees, an estimate of the same identity in the
    frozen consensus) or optional and not released, the history is long enough, every source
    is authenticated and of the required quality, a valid market response covers the
    required groups, and some compared field has positive weight.  It abstains exactly when
    one of these but the last fails, and then carries no forecast value and no contract
    bytes; so it never returns for a release that meets all of them but the last. *)
Theorem macro_decision_exact config encode b r :
  valid_bundle b -> evaluate config encode b = Ok r ->
  (msr_decision r = PUBLISH <-> (exists release m, grounded config b release m) /\ weighted config b)
  /\ (msr_decision r = ABSTAIN <-> ~ exists release m, grounded config b release m)
  /\ (msr_decision r = ABSTAIN -> no_forecast r).
Proof.
  intros Hv H. destruct (evaluate_ok config encode b r H) as (a & published & input & cs & rel & Ha & -> & Hp & Hn).
  destruct (publishable (reasons_of config b a)) eqn:E.
  - destruct (Hp eq_refl) as (pub & -> & Hpub). destruct (publish_values_ok config encode b Hv a pub Ha Hpub) as (m & p & vol & _ & _ & _ & Hex).
    pose proof (decision_published config b Hv a Ha E) as Hg. cbn. split_and!; [|naive_solver|done].
    split; [|done]. intros _. split; [done|]. exact (pe_weight _ _ _ _ _ _ _ _ Hex).
  - rewrite (Hn eq_refl). cbn.
    assert (~ exists release m, grounded config b release m) as Hg.
    { intros (release & m & Hg). by rewrite (grounded_published config b Hv a release m Ha Hg) in E. }
    split_and!; [split; [done | naive_solver] | done | done].
Qed.

(** The size of the response of one instrument, in parts per million. *)
Definition response_magnitude (config : MacroSpecialistConfig) (o : CrossAssetObservation) : Z :=
  Z.min MAX_ABSOLUTE_RESPONSE_PPM
    match cao_unit o with
    | CU_RETURN_PPM => Z.abs (cao_response_value o)
    | CU_YIELD_CHANGE_BASIS_POINTS => Z.abs (cao_response_value o) * mc_yield_basis_point_scale_ppm config
    end.

Lemma features_magnitudes config b m fs :
  mib_market_snapshot b = Some m -> cross_asset_features config b = Ok fs ->
  map caf_normalized_magnitude_ppm fs ≡ₚ map (response_magnitude config) (mms_observations m).
Proof.
  intros Hm H. unfold cross_asset_features in H. rewrite Hm in H. apply rbind_ok in H as (l & Hl & [= <-]).
  change (map ?f ?l) with (f <$> l). rewrite py_sorted_perm. apply res_map_ok in Hl.
  assert (caf_normalized_magnitude_ppm <$> l = response_magnitude config <$> mms_observations m) as ->; [|done].
  induction Hl as [|o f os l Hf _ IH]; [done|]. cbn. rewrite IH. f_equal. unfold response_feature in Hf.
  apply rbind_ok in Hf as ([] & _ & [= <-]). done.
Qed.

(** [q] is the least score of the sources of a bundle. *)
Definition least_quality (b : MacroInputBundle) (q : Z) : Prop :=
  (exists s, s ∈ mib_sources b /\ q = source_quality_score s) /\ Forall (fun s => q <= source_quality_score s) (mib_sources b).

Lemma source_quality_least b q : source_quality b = Ok q -> least_quality b q.
Proof.
  intros H. split; [|by apply (source_quality_ge b q q H)]. unfold source_quality in H.
  assert (q ∈ map source_quality_score (mib_sources b)) as (s & -> & Hs)%list_elem_of_fmap; [|eauto].
  destruct (map source_quality_score (mib_sources b)) as [|x l]; [done|]. injection H as <-. clear.
  revert x. induction l as [|y l IH]; intros x; cbn [foldl]; [left|]. specialize (IH (Z.min x y)).
  apply elem_of_cons in IH as [->|IH]; [|set_solver]. destruct (Z.min_spec x y) as [[_ ->]|[_ ->]]; set_solver.
Qed.

(** [p] is the share of the historical surprises that the headline surprise [s] reaches. *)
Definition percentile_of (b : MacroInputBundle) (s p : Z) : Prop :=
  p = Z.quot (count_if (fun h => hms_headline_surprise_ppm h <=? s) (mib_historical_surprises b) * PPM)
        (Z.of_nat (length (mib_historical_surprises b))).

Lemma percentile_exact config b h p :
  surprise_percentile config b h = Ok (Some p) -> exists s, mfs_surprise_ppm h = Some s /\ percentile_of b s p.
Proof.
  unfold surprise_percentile. destruct (mfs_surprise_ppm h) as [s|]; [|done]. destruct (_ <? _); [done|]. intros H.
  apply rbind_ok in H as (q & Hq & [= ->]). apply trunc_div_value in Hq as [_ ->]. by exists s.
Qed.

(** C29: the published forecast.  The expected return is three parts of the weighted mean of
    the clamped surprises and one part of the response of the instrument, divided by eight
    and truncated; it is at most half in absolute value, so that no later clamp changes it.
    The probabilities are a fixed share for no move and an edge that follows the return; the
    volatility is the median size of the market responses, at least one; the quality is the
    least score of the sources, and the percentile the share of historical surprises that
    the headline surprise reaches.  The contract bytes are those that the contract builder
    returns for exactly these numbers. *)
Theorem macro_forecast_exact config encode b r :
  valid_bundle b -> MacroSpecialistConfig_post_init config = Ok tt -> evaluate config encode b = Ok r -> msr_decision r = PUBLISH ->
  exists m s percentile quality vol pub,
    mib_market_snapshot b = Some m
    /\ (mfs_surprise_ppm (msr_headline_surprise r) = Some s /\ percentile_of b s percentile
        /\ msr_surprise_percentile_ppm r = Some percentile)
    /\ (least_quality b quality /\ msr_source_quality_score_ppm r = quality)
    /\ (is_median (map (response_magnitude config) (mms_observations m)) vol /\ 0 <= vol <= MAX_ABSOLUTE_RESPONSE_PPM
        /\ msr_expected_volatility_ppm r = Some (Z.max 1 vol))
    /\ publication_exact config encode b m percentile quality vol pub
    /\ (msr_expected_return_ppm r = Some (return_of config b) /\ - 500000 <= return_of config b <= 500000)
    /\ (msr_direction r = Some (direction_of (return_of config b))
        /\ MacroDirectionDistribution_post_init (direction_of (return_of config b)) = Ok tt)
    /\ msr_forecast_contract_bytes r = Some (pb_contract pub)
    /\ msr_forecast_id r = Some (pb_forecast_id pub).
Proof.
  intros Hv Hc H Hd. destruct (evaluate_ok config encode b r H) as (a & published & input & cs & rel & Ha & -> & Hp & Hn).
  destruct (publishable (reasons_of config b a)) eqn:E; [|by rewrite (Hn eq_refl) in Hd].
  destruct (Hp eq_refl) as (pub & -> & Hpub). destruct (publish_values_ok config encode b Hv a pub Ha Hpub) as (m & p & vol & Hm & Hper & Hvol & Hex).
  pose proof (return_bound config b Hv (pe_weight _ _ _ _ _ _ _ _ Hex)) as Hret.
  destruct (features_bounded config b Hv _ (ad_features config b a Ha)) as [Hf _].
  assert (map caf_normalized_magnitude_ppm (an_features a) <> []) as Hne by (intros En; rewrite En in Hvol; done).
  destruct (median_between MacroEvaluationError _ _ _ Hne Hf) as (vol' & Ev & Hb). rewrite Hvol in Ev. injection Ev as <-.
  pose proof (ad_percentile config b a Ha) as Hp'. rewrite Hper in Hp'. destruct (percentile_exact config b _ _ Hp') as (s & Hs & Hps).
  apply median_correct in Hvol. apply (is_median_perm _ _ _ (features_magnitudes config b m _ Hm (ad_features config b a Ha))) in Hvol.
  pose proof (source_quality_least b _ (ad_quality config b a Ha)) as Hq.
  exists m, s, p, (an_source_quality a), vol, pub. cbn.
  rewrite (pe_return _ _ _ _ _ _ _ _ Hex), (pe_volatility _ _ _ _ _ _ _ _ Hex), (pe_direction _ _ _ _ _ _ _ _ Hex).
  split_and!; try done; try lia. pose proof (direction_exact _ Hret) as Hdir. unfold direction_distribution in Hdir.
  apply rbind_ok in Hdir as (e & _ & Hdir). apply rbind_ok in Hdir as ([] & Hpost & Hdir).
  apply (inj Ok) in Hdir. by rewrite Hdir in Hpost.
Qed.

(** A bundle whose values, digests and clocks the result contract can hold. *)
Record representable (config : MacroSpecialistConfig) (b : MacroInputBundle) : Prop := {
  rp_values : moderate_values b;
  rp_bundle : digested (MacroInputBundle_document b);
  rp_printable : ints_printable (MacroInputBundle_document b) = true;
  rp_consensus : digested (MacroConsensusSnapshot_document (mib_consensus_snapshot b));
  rp_release : forall r, mib_release b = Some r -> digested (MacroActualRelease_document r);
  rp_clocks : forall m, mib_market_snapshot b = Some m -> clocks_fit config b m;
}.

(** The result is assembled whenever there is something to publish or nothing is to be. *)
Lemma evaluate_assembles config encode b a published :
  valid_bundle b -> MacroSpecialistConfig_post_init config = Ok tt -> representable config b -> analyzed config b a ->
  (if publishable (reasons_of config b a) then let! p := publish_values config encode b a in Ok (Some p) else Ok None) = Ok published ->
  (forall pub, published = Some pub -> publishable (reasons_of config b a) = true /\ publish_values config encode b a = Ok pub
     /\ magic_of (pb_contract pub) = str "AMCR") ->
  exists r, evaluate config encode b = Ok r /\ msr_decision r = (if published then PUBLISH else ABSTAIN).
Proof.
  intros Hv Hc [Hmod Hb Hpr Hcs Hrel Hck] Ha Hp Hpub.
  unfold evaluate. rewrite (proj2 (analyze_ok config b a) Ha). cbn [rbind]. rewrite Hp. cbn [rbind].
  destruct Hb as (d1 & E1 & N1). destruct Hcs as (d2 & E2 & N2).
  unfold MacroInputBundle_sha256, MacroConsensusSnapshot_sha256. rewrite E1, E2. cbn [rbind].
  assert (exists release, match mib_release b with Some r => let! d := MacroActualRelease_sha256 r in Ok (Some d) | None => Ok None end = Ok release
    /\ (is_Some release <-> is_Some (mib_release b)) /\ forall d name, release = Some d -> valid_digest d name = Ok tt) as (release & -> & Hi & Hdig).
  { destruct (mib_release b) as [r|]; [|by exists None]. destruct (Hrel r eq_refl) as (d & E & N). unfold MacroActualRelease_sha256.
    rewrite E. cbn [rbind]. exists (Some d). split_and!; [done | by split; intros _; eexists|]. intros d' name [= <-].
    eapply digested_valid; [by exists d | exact E]. }
  cbn [rbind]. eexists. rewrite (result_passes config encode b Hv Hc a published d1 d2 release Ha Hpub Hi Hdig); [done | |].
  - eapply digested_valid; [by exists d1 | exact E1].
  - eapply digested_valid; [by exists d2 | exact E2].
Qed.

(** What is grounded can be published when it is weighted, and is refused when it is not. *)
Lemma grounded_values config encode b a release m :
  valid_bundle b -> representable config b -> analyzed config b a -> grounded config b release m ->
  (weighted config b -> exists pub w, publish_values config encode b a = Ok pub /\ pb_contract pub = encode w)
  /\ (~ weighted config b ->
      publish_values config encode b a = raise MacroEvaluationError "published macro result has no weighted surprise signal").
Proof.
  intros Hv Hrep Ha Hg. pose proof (rp_clocks _ _ Hrep m (gr_market _ _ _ _ Hg)) as Hck. split; intros Hw.
  - pose proof (headline_surprise config b Hv a release Ha (gr_release _ _ _ _ Hg) (gr_fields _ _ _ _ Hg)) as [h Hh].
    assert (an_percentile a <> None) as Hp.
    { apply (percentile_some config b _ _ (ad_percentile config b a Ha)). rewrite Hh. split; [done | apply (gr_history _ _ _ _ Hg)]. }
    destruct (an_percentile a) as [p|] eqn:Ep; [|done].
    exact (publish_values_total config encode b Hv a m p Ha (gr_market _ _ _ _ Hg) Ep Hw Hck (rp_printable _ _ Hrep)).
  - unfold publish_values. rewrite (gr_market _ _ _ _ Hg), raise_when_false by (pose proof (cf_expiration _ _ _ Hck); unfold MAX_UINT64; lia).
    cbn [rbind]. rewrite (surprise_signal_exact config b Hv a Ha). unfold weighted in Hw. by rewrite (proj2 (Z.leb_le _ 0)) by lia.
Qed.

(** C30: the outcome of an evaluation.  For a valid bundle whose values are moderate, whose
    clocks leave room for the horizon and the lifetime and none of whose digests is the
    reserved one, with an encoder that writes contract records: a bundle that meets every
    requirement and has a compared field of positive weight is published; a bundle that
    misses a requirement is answered by an abstention; and a bundle that meets every
    requirement but has no compared field of positive weight raises [MacroEvaluationError].
    No check of the features, of the forecast contract or of the result refuses what the
    specialist computed. *)
Theorem macro_evaluation_total config encode b :
  valid_bundle b -> MacroSpecialistConfig_post_init config = Ok tt -> representable config b ->
  (forall w, magic_of (encode w) = str "AMCR") ->
  ((exists release m, grounded config b release m) -> weighted config b ->
     exists r, evaluate config encode b = Ok r /\ msr_decision r = PUBLISH)
  /\ ((~ exists release m, grounded config b release m) -> exists r, evaluate config encode b = Ok r /\ msr_decision r = ABSTAIN)
  /\ ((exists release m, grounded config b release m) -> ~ weighted config b ->
     evaluate config encode b = raise MacroEvaluationError "published macro result has no weighted surprise signal").
Proof.
  intros Hv Hc Hrep Hmagic. destruct (analyze_total config b Hv Hc (rp_values _ _ Hrep)) as [a Ha]. split_and!.
  - intros (release & m & Hg) Hw. destruct (grounded_values config encode b a release m Hv Hrep Ha Hg) as [Hpub _].
    destruct (Hpub Hw) as (pub & w & Hp & Hwire). pose proof (grounded_published config b Hv a release m Ha Hg) as E.
    apply (evaluate_assembles config encode b a (Some pub) Hv Hc Hrep Ha); rewrite E, Hp; [done|].
    intros pub' [= <-]. rewrite Hwire. by split_and!.
  - intros Hg. assert (publishable (reasons_of config b a) = false) as E.
    { apply not_true_iff_false. intros E. by apply Hg, (decision_published config b Hv a Ha). }
    apply (evaluate_assembles config encode b a None Hv Hc Hrep Ha); [by rewrite E | done].
  - intros (release & m & Hg) Hw. destruct (grounded_values config encode b a release m Hv Hrep Ha Hg) as [_ Hpub].
    unfold evaluate. rewrite (proj2 (analyze_ok config b a) Ha). cbn [rbind].
    by rewrite (grounded_published config b Hv a release m Ha Hg), (Hpub Hw).
Qed.

(** ** Lineage of an event *)

(** The processors that an initial bundle and valid inputs reach, with the releases that
    they accepted. *)
Inductive reached (config : MacroSpecialistConfig) (encode : ForecastWire -> pybytes) (initial : MacroInputBundle)
    : FrozenMacroEventProcessor -> list MacroActualRelease -> Prop :=
  | reached_new self : new_processor initial = Ok self -> reached config encode initial self []
  | reached_step self accepted b : reached config encode initial self accepted -> valid_bundle b ->
      reached config encode initial (process config encode b self).1
        (accepted ++ match (process config encode b self).2, mib_release b with
                     | Ok _, Some r => [r]
                     | _, _ => []
                     end).

(** A correction of a release. *)
Definition corrects (x y : MacroActualRelease) : Prop :=
  mar_revision x < mar_revision y
  /\ exists d, MacroActualRelease_sha256 x = Ok d /\ mar_correction_of_release_sha256 y = Some d.

(** The accepted releases form a chain that ends in what the processor remembers. *)
Record lineage (initial : MacroInputBundle) (self : FrozenMacroEventProcessor) (accepted : list MacroActualRelease) : Prop := {
  li_event : fp_event_id self = mce_calendar_event_id (mib_calendar initial);
  li_consensus : MacroConsensusSnapshot_sha256 (mib_consensus_snapshot initial) = Ok (fp_consensus_sha256 self);
  li_positive : Forall (fun x => 0 < mar_revision x) accepted;
  li_first : forall x, head accepted = Some x -> mar_revision x = 1;
  li_chain : forall i x y, accepted !! i = Some x -> accepted !! S i = Some y -> corrects x y;
  li_latest : match last accepted with
              | None => fp_latest_revision self = 0 /\ fp_latest_release_sha256 self = None
              | Some x => fp_latest_revision self = mar_revision x
                          /\ exists d, MacroActualRelease_sha256 x = Ok d /\ fp_latest_release_sha256 self = Some d
              end;
}.

Lemma process_failed config encode b self e : (process config encode b self).2 = Err e -> (process config encode b self).1 = self.
Proof.
  unfold process. destruct (do! check_lineage self b in evaluate config encode b) as [result|e'] eqn:E; [|done].
  apply rbind_ok in E as ([] & _ & E). unfold evaluate in E. apply rbind_ok in E as (a & _ & E).
  apply rbind_ok in E as (pub & _ & E). apply rbind_ok in E as (input & _ & E). apply rbind_ok in E as (cs & _ & E).
  apply rbind_ok in E as (rel & E & _). destruct (mib_release b) as [r|]; [|done]. by apply rbind_ok in E as (d & -> & _).
Qed.

Lemma process_accepted config encode b self result r :
  (process config encode b self).2 = Ok result -> mib_release b = Some r ->
  check_lineage self b = Ok tt
  /\ exists d, MacroActualRelease_sha256 r = Ok d
       /\ (process config encode b self).1 = {| fp_event_id := fp_event_id self; fp_consensus_sha256 := fp_consensus_sha256 self;
                                                fp_latest_revision := mar_revision r; fp_latest_release_sha256 := Some d |}.
Proof.
  unfold process. destruct (do! check_lineage self b in evaluate config encode b) as [result'|e'] eqn:E; [|done].
  apply rbind_ok in E as ([] & Hc & _). intros H Hr. rewrite Hr in *. split; [done|].
  destruct (MacroActualRelease_sha256 r) as [d|]; [by exists d | done].
Qed.

Lemma process_unreleased config encode b self : mib_release b = None -> (process config encode b self).1 = self.
Proof. unfold process. destruct (do! _ in _); [|done]. by intros ->. Qed.

(** The first release and its link. *)
Lemma lineage_step config encode initial self accepted b :
  lineage initial self accepted -> valid_bundle b ->
  lineage initial (process config encode b self).1
    (accepted ++ match (process config encode b self).2, mib_release b with Ok _, Some r => [r] | _, _ => [] end).
Proof.
  intros Hl Hv. destruct (process config encode b self).2 as [result|e] eqn:E.
  2: { rewrite app_nil_r. by rewrite (process_failed _ _ _ _ _ E). }
  destruct (mib_release b) as [r|] eqn:Hr; [|rewrite app_nil_r; by rewrite (process_unreleased _ _ _ _ Hr)].
  destruct (process_accepted _ _ _ _ _ _ E Hr) as (Hc & d & Hd & ->). destruct Hl as [H1 H2 H0 H3 H4 H5].
  unfold check_lineage in Hc. rewrite Hr in Hc. inv_ok. bprop.
  destruct (vb_release b Hv r Hr) as (Hp & _). unfold MacroActualRelease_post_init in Hp. inv_ok. clear Hp.
  assert (match last accepted with None => mar_revision r = 1 | Some x => corrects x r end) as Hlink.
  { destruct (last accepted) as [x|] eqn:El.
    - apply last_Some_elem_of in El. rewrite Forall_forall in H0. specialize (H0 x El). destruct H5 as (Hrev & dx & Hdx & Hlat). split; [lia|]. exists dx. split; [done|].
      assert (1 < mar_revision r) as Hgt by lia.
      rewrite (proj2 (Z.ltb_lt 1 _) Hgt) in Hc. cbn [andb] in Hc. bprop. congruence.
    - destruct H5 as [Hrev Hnone]. destruct (decide (mar_revision r = 1)) as [|Hne]; [done|]. exfalso.
      rewrite (proj2 (Z.ltb_lt 1 (mar_revision r)) ltac:(lia)) in Hc. cbn [andb] in Hc. bprop.
      rewrite (proj2 (Z.eqb_neq (mar_revision r) 1) Hne) in Ha4. by rewrite bool_decide_eq_true_2 in Ha4 by congruence. }
  constructor; cbn; try done.
  - apply Forall_app_2; [done|]. apply Forall_singleton. lia.
  - intros x Hx. destruct accepted as [|y l]; [|by apply H3]. injection Hx as <-. exact Hlink.
  - intros i x y Hx Hy. destruct (decide (S i < length accepted)%nat) as [Hi|Hi].
    + rewrite lookup_app_l in Hx, Hy by lia. by apply (H4 i).
    + assert (S i = length accepted) as Hi'.
      { apply lookup_lt_Some in Hy. rewrite length_app in Hy. cbn in Hy. lia. }
      rewrite lookup_app_l in Hx by lia. rewrite Hi', lookup_app_r, Nat.sub_diag in Hy by lia. injection Hy as <-.
      assert (last accepted = Some x) as El by (rewrite last_lookup; rewrite <- Hi'; done). by rewrite El in Hlink.
  - rewrite last_snoc. split; [done|]. by exists d.
Qed.

(** C31: revisions of an event.  In every history of a processor, failed inputs included, the
    calendar event and the digest of the frozen consensus never change, the first accepted
    release is revision one, every later one has a larger revision and names the digest of
    its predecessor, and an input that is refused leaves the processor as it was. *)
Theorem macro_processor_lineage config encode initial self accepted :
  reached config encode initial self accepted ->
  lineage initial self accepted
  /\ forall b e, (process config encode b self).2 = Err e -> (process config encode b self).1 = self.
Proof.
  intros H. split; [|intros b e; apply process_failed]. induction H as [self Hn | self accepted b _ IH Hv]; [|by apply lineage_step].
  unfold new_processor in Hn. inv_ok. by constructor.
Qed.

(** ** Example and witnesses *)

Definition example_digest : pybytes := replicate 32 7.
Definition example_source (name : string) (kind : MacroSourceKind) (published received : Z) : MacroSourceEvidence :=
  {| mse_source_id := str name; mse_source_global_event_id := Id128 0 9; mse_kind := kind; mse_quality := SQ_OFFICIAL_PRIMARY;
     mse_authenticated := true; mse_provider_id := str "p"; mse_document_id := str "d"; mse_source_content_sha256 := example_digest;
     mse_sanitized_content_sha256 := example_digest; mse_publication_wall_clock_utc_ns := published;
     mse_received_wall_clock_utc_ns := received;
     mse_excerpts := [{| ex_excerpt_id := 1; ex_start := 0; ex_end := 1; ex_exact_text := str "x" |}] |}.
Definition cites (name : string) : list MacroEvidenceReference := [{| mer_source_id := str name; mer_excerpt_id := 1 |}].
Definition headline_cpi : MacroMetricIdentity :=
  {| mi_event_type := CPI; mi_field_id := str "cpi"; mi_role := HEADLINE; mi_unit := MU_PERCENT_PPM; mi_reference_period := str "2024-01";
     mi_seasonal_adjustment := SA_NOT_APPLICABLE; mi_annualization := AN_NOT_ANNUALIZED |}.
Definition example_calendar (weight : Z) : MacroCalendarEvent :=
  {| mce_calendar_event_id := Id128 0 1; mce_event_type := CPI; mce_calendar_version := str "v1";
     mce_scheduled_release_wall_clock_utc_ns := 1000;
     mce_expected_fields := [{| erf_identity := headline_cpi; erf_required := true; erf_positive_surprise_direction := -1;
                                erf_forecast_weight_ppm := weight; erf_evidence := cites "cal" |}] |}.
Definition example_consensus : MacroConsensusSnapshot :=
  {| mcs_snapshot_id := Id128 0 2; mcs_calendar_event_id := Id128 0 1; mcs_frozen_wall_clock_utc_ns := 900;
     mcs_estimates := [{| mes_identity := headline_cpi; mes_consensus_value := 3000; mes_dispersion := 500; mes_minimum_value := 2000;
                          mes_maximum_value := 4000; mes_contributor_count := 12; mes_available_wall_clock_utc_ns := 800;
                          mes_evidence := cites "con" |}] |}.
Definition example_release (revision value : Z) (parent : option pybytes) : MacroActualRelease :=
  {| mar_revision := revision; mar_completeness := RC_COMPLETE; mar_official_publication_wall_clock_utc_ns := 1000;
     mar_receipt_wall_clock_utc_ns := 1001;
     mar_observations := [{| mvo_identity := headline_cpi; mvo_value := value; mvo_source_id := str "off"; mvo_evidence := cites "off" |}];
     mar_prior_values := []; mar_correction_of_release_sha256 := parent |}.
Definition example_market : MacroMarketSnapshot :=
  {| mms_feature_snapshot_id := Id128 0 3; mms_source_id := str "mkt"; mms_as_of_exchange_event_time_ns := 1002;
     mms_available_wall_clock_utc_ns := 1003;
     mms_observations := [{| cao_instrument_id := Id128 0 4; cao_kind := CK_EQUITY_INDEX_FUTURE; cao_unit := CU_RETURN_PPM;
                             cao_response_value := -1200; cao_window_start_wall_clock_utc_ns := 990;
                             cao_window_end_wall_clock_utc_ns := 1002 |}];
     mms_valid := true |}.
Definition example_bundle (weight revision value : Z) (parent : option pybytes) : MacroInputBundle :=
  {| mib_session_id := Id128 0 5; mib_target_instrument_id := Id128 0 4; mib_configuration_version := Id128 0 6;
     mib_calendar := example_calendar weight; mib_consensus_snapshot := example_consensus;
     mib_sources := [example_source "cal" SK_OFFICIAL_CALENDAR 100 101; example_source "con" SK_CONSENSUS_SNAPSHOT 700 701;
                     example_source "off" SK_OFFICIAL_RELEASE 1000 1001; example_source "mkt" SK_MARKET_FEATURES 1002 1003];
     mib_historical_surprises := [{| hms_historical_event_id := Id128 0 7; hms_event_type := CPI;
                                     hms_official_publication_wall_clock_utc_ns := 50; hms_available_wall_clock_utc_ns := 60;
                                     hms_headline_surprise_ppm := 250000; hms_source_id := str "con" |}];
     mib_as_of_wall_clock_utc_ns := 1010; mib_production_process_monotonic_time_ns := 5000;
     mib_release := Some (example_release revision value parent); mib_market_snapshot := Some example_market;
     mib_schema_version := MACRO_SCHEMA_VERSION |}.
Definition example_config : MacroSpecialistConfig :=
  {| mc_model_id := Id128 0 10; mc_model_version := Id128 0 11; mc_forecast_ttl_ns := 2000000000;
     mc_forecast_horizon_ns := 300000000000; mc_minimum_history_count := 1; mc_minimum_source_quality_ppm := 600000;
     mc_yield_basis_point_scale_ppm := 1000; mc_epsilon_percent_ppm := 1; mc_epsilon_rate_basis_points := 1;
     mc_epsilon_index_milli := 1; mc_epsilon_currency_millions := 1; mc_epsilon_quantity_thousands := 1; mc_epsilon_ratio_ppm := 1;
     mc_required_cross_asset_groups := [CG_EQUITY_INDEX] |}.
Definition example_encode (w : ForecastWire) : pybytes := [0; 0; 0; 0] ++ str "AMCR".

Definition example_input : MacroInputBundle := example_bundle 1000000 1 3200 None.

Ltac checked := repeat (apply Forall_cons_2; [vm_compute; reflexivity|]); apply Forall_nil_2.

Lemma example_bundle_valid weight : 0 <= weight <= PPM -> valid_bundle (example_bundle weight 1 3200 None).
Proof.
  intros Hw. assert (MacroCalendarEvent_post_init (example_calendar weight) = Ok tt) as Hcal by reflexivity.
  assert (ExpectedReleaseField_post_init {| erf_identity := headline_cpi; erf_required := true; erf_positive_surprise_direction := -1;
    erf_forecast_weight_ppm := weight; erf_evidence := cites "cal" |} = Ok tt) as Hf.
  { unfold ExpectedReleaseField_post_init. cbn [erf_positive_surprise_direction erf_forecast_weight_ppm erf_evidence].
    rewrite raise_when_false by reflexivity. cbn [rbind]. rewrite raise_when_false by lia. reflexivity. }
  constructor; cbn [example_bundle mib_sources mib_calendar mib_consensus_snapshot mib_release mib_market_snapshot example_calendar
    mce_expected_fields]; try reflexivity.
  - checked.
  - apply Forall_cons_2; [exact Hf | apply Forall_nil_2].
  - checked.
  - intros r [= <-]. split_and!; [reflexivity | checked | checked].
  - intros m [= <-]. split; [reflexivity | checked].
Qed.

(** The example is published. *)
Lemma example_run : exists r, evaluate example_config example_encode example_input = Ok r /\ msr_decision r = PUBLISH.
Proof.
  assert (match evaluate example_config example_encode example_input with
          | Ok r => bool_decide (msr_decision r = PUBLISH)
          | Err _ => false
          end = true) as H by (vm_compute; reflexivity).
  destruct (evaluate example_config example_encode example_input) as [r|]; [|done]. exists r. split; [done|]. by bprop.
Qed.

(** A complete release whose fields all have weight zero is refused with an exception, not
    with an abstention. *)
Lemma unweighted_release_refused :
  valid_bundle (example_bundle 0 1 3200 None)
  /\ evaluate example_config example_encode (example_bundle 0 1 3200 None)
     = raise MacroEvaluationError "published macro result has no weighted surprise signal".
Proof. split; [apply example_bundle_valid; unfold PPM; lia | vm_compute; reflexivity]. Qed.

Lemma macro_decision_exact_witness : exists release m, grounded example_config example_input release m.
Proof.
  destruct example_run as (r & E & Hd).
  exact (proj1 (proj1 (proj1 (macro_decision_exact example_config example_encode example_input r
    (example_bundle_valid 1000000 ltac:(unfold PPM; lia)) E)) Hd)).
Defined.

Lemma macro_forecast_exact_witness : exists r, evaluate example_config example_encode example_input = Ok r
  /\ msr_expected_return_ppm r = Some (-150150).
Proof.
  destruct example_run as (r & E & Hd). exists r. split; [exact E|].
  assert (Hr : return_of example_config example_input = -150150) by (vm_compute; reflexivity).
  assert (Hc : MacroSpecialistConfig_post_init example_config = Ok tt) by (vm_compute; reflexivity).
  destruct (macro_forecast_exact example_config example_encode example_input r (example_bundle_valid 1000000 ltac:(unfold PPM; lia)) Hc E Hd)
    as (m & s & percentile & quality & vol & pub & _ & _ & _ & _ & _ & [H _] & _). rewrite <- Hr. exact H.
Defined.

Lemma example_digested v : match document_sha256 v with Ok d => negb (bool_decide (d = replicate 32 0)) | Err _ => false end = true -> digested v.
Proof. unfold digested. destruct (document_sha256 v) as [d|]; [|done]. intros H. bprop. by exists d. Qed.

Lemma example_representable : representable example_config example_input.
Proof.
  constructor.
  - constructor.
    + repeat apply Forall_cons_2; [vm_compute; split; discriminate | apply Forall_nil_2].
    + intros r [= <-]. repeat apply Forall_cons_2; [vm_compute; split; discriminate | apply Forall_nil_2].
    + intros r [= <-]. apply Forall_nil_2.
  - apply example_digested. vm_compute. reflexivity.
  - vm_compute. reflexivity.
  - apply example_digested. vm_compute. reflexivity.
  - intros r [= <-]. apply example_digested. vm_compute. reflexivity.
  - intros m [= <-]. constructor; vm_compute; reflexivity.
Qed.

Lemma example_grounded : (exists release m, grounded example_config example_input release m) /\ weighted example_config example_input.
Proof.
  destruct example_run as (r & E & Hd). split; [|vm_compute; reflexivity].
  exact (published_grounded _ _ _ r (example_bundle_valid 1000000 ltac:(unfold PPM; lia)) E Hd).
Qed.

Lemma macro_evaluation_total_witness : exists r, evaluate example_config example_encode example_input = Ok r /\ msr_decision r = PUBLISH.
Proof.
  destruct example_grounded as [Hg Hw].
  refine (proj1 (macro_evaluation_total example_config example_encode example_input (example_bundle_valid 1000000 ltac:(unfold PPM; lia)) _
    example_representable _) Hg Hw); [vm_compute; reflexivity | intros w; reflexivity].
Defined.

(** The processor after the example was accepted. *)
Lemma macro_processor_lineage_witness :
  exists self, lineage example_input self [example_release 1 3200 None] /\ fp_latest_revision self = 1.
Proof.
  assert (Hn : exists self, new_processor example_input = Ok self /\ check_lineage self example_input = Ok tt)
    by (eexists; split; vm_compute; reflexivity).
  destruct Hn as (self & Hn & Hc). destruct example_run as (r & E & _).
  assert (Hok : (process example_config example_encode example_input self).2 = Ok r).
  { unfold process. rewrite Hc. cbn [rbind]. rewrite E. cbn [mib_release example_input example_bundle].
    assert (Hd : exists d, MacroActualRelease_sha256 (example_release 1 3200 None) = Ok d) by (eexists; vm_compute; reflexivity).
    destruct Hd as [d Hd]. rewrite Hd. reflexivity. }
  pose proof (reached_step example_config example_encode example_input self [] example_input (reached_new _ _ _ _ Hn)
    (example_bundle_valid 1000000 ltac:(unfold PPM; lia))) as Hr.
  rewrite Hok in Hr. exists (process example_config example_encode example_input self).1.
  pose proof (proj1 (macro_processor_lineage example_config example_encode example_input _ _ Hr)) as Hl. split; [exact Hl|].
  destruct (li_latest _ _ _ Hl) as [H _]. exact H.
Defined.
