(* ===== verification/EarningsTypes.v ===== *)
(** * Contracts of the earnings specialist

    Models [python/intelligence/aegis_mx_intelligence/earnings_types.py]: metric identities,
    evidence, estimates, guidance, reactions and market features, the bundle that links them
    to retained excerpts and to what was known at the release, and the result. *)

From S2P Require Import Prelude PyText Json Sha256 ForecastDomain Specialists.
Open Scope Z_scope.

(** ** Enumerations and bounds *)

Inductive AccountingBasis :=
  | AB_GAAP | AB_NON_GAAP | AB_NOT_APPLICABLE.
#[export] Instance AccountingBasis_eq_dec : EqDecision AccountingBasis.
Proof. solve_decision. Defined.
Definition AccountingBasis_name (x : AccountingBasis) : string :=
  match x with
  | AB_GAAP => "GAAP" | AB_NON_GAAP => "NON_GAAP" | AB_NOT_APPLICABLE => "NOT_APPLICABLE"
  end.

Inductive EarningsMetricKind :=
  | EK_EPS | EK_REVENUE | EK_GROSS_MARGIN | EK_OPERATING_MARGIN | EK_NET_MARGIN | EK_NET_INCOME
  | EK_FREE_CASH_FLOW | EK_CAPEX | EK_SEGMENT_REVENUE | EK_SEGMENT_OPERATING_INCOME.
#[export] Instance EarningsMetricKind_eq_dec : EqDecision EarningsMetricKind.
Proof. solve_decision. Defined.
Definition EarningsMetricKind_name (x : EarningsMetricKind) : string :=
  match x with
  | EK_EPS => "EPS" | EK_REVENUE => "REVENUE" | EK_GROSS_MARGIN => "GROSS_MARGIN"
  | EK_OPERATING_MARGIN => "OPERATING_MARGIN" | EK_NET_MARGIN => "NET_MARGIN" | EK_NET_INCOME => "NET_INCOME"
  | EK_FREE_CASH_FLOW => "FREE_CASH_FLOW" | EK_CAPEX => "CAPEX" | EK_SEGMENT_REVENUE => "SEGMENT_REVENUE"
  | EK_SEGMENT_OPERATING_INCOME => "SEGMENT_OPERATING_INCOME"
  end.

Inductive EarningsMetricUnit :=
  | EU_CURRENCY_NANOS | EU_CURRENCY_NANOS_PER_SHARE | EU_PPM | EU_QUANTITY_UNITS.
#[export] Instance EarningsMetricUnit_eq_dec : EqDecision EarningsMetricUnit.
Proof. solve_decision. Defined.
Definition EarningsMetricUnit_name (x : EarningsMetricUnit) : string :=
  match x with
  | EU_CURRENCY_NANOS => "CURRENCY_NANOS" | EU_CURRENCY_NANOS_PER_SHARE => "CURRENCY_NANOS_PER_SHARE"
  | EU_PPM => "PPM" | EU_QUANTITY_UNITS => "QUANTITY_UNITS"
  end.

Inductive EarningsSourceKind :=
  | ES_OFFICIAL_EARNINGS_RELEASE | ES_REGULATORY_FILING | ES_CONSENSUS_ESTIMATES | ES_PRIOR_REPORTED_VALUES
  | ES_COMPANY_GUIDANCE | ES_SEGMENT_RESULTS | ES_OPTION_IMPLIED_MOVE | ES_HISTORICAL_REACTION | ES_TRANSCRIPT
  | ES_POST_RELEASE_MARKET_FEATURES.
#[export] Instance EarningsSourceKind_eq_dec : EqDecision EarningsSourceKind.
Proof. solve_decision. Defined.
Definition EarningsSourceKind_name (x : EarningsSourceKind) : string :=
  match x with
  | ES_OFFICIAL_EARNINGS_RELEASE => "OFFICIAL_EARNINGS_RELEASE" | ES_REGULATORY_FILING => "REGULATORY_FILING"
  | ES_CONSENSUS_ESTIMATES => "CONSENSUS_ESTIMATES" | ES_PRIOR_REPORTED_VALUES => "PRIOR_REPORTED_VALUES"
  | ES_COMPANY_GUIDANCE => "COMPANY_GUIDANCE" | ES_SEGMENT_RESULTS => "SEGMENT_RESULTS"
  | ES_OPTION_IMPLIED_MOVE => "OPTION_IMPLIED_MOVE" | ES_HISTORICAL_REACTION => "HISTORICAL_REACTION"
  | ES_TRANSCRIPT => "TRANSCRIPT" | ES_POST_RELEASE_MARKET_FEATURES => "POST_RELEASE_MARKET_FEATURES"
  end.

Inductive EarningsPhase :=
  | EP_PRE_EARNINGS | EP_RELEASE_PROCESSING | EP_PRICE_DISCOVERY | EP_RECOVERY.
#[export] Instance EarningsPhase_eq_dec : EqDecision EarningsPhase.
Proof. solve_decision. Defined.
Definition EarningsPhase_name (x : EarningsPhase) : string :=
  match x with
  | EP_PRE_EARNINGS => "PRE_EARNINGS" | EP_RELEASE_PROCESSING => "RELEASE_PROCESSING"
  | EP_PRICE_DISCOVERY => "PRICE_DISCOVERY" | EP_RECOVERY => "RECOVERY"
  end.

Inductive EarningsReasonCode :=
  | ER_MISSING_CONSENSUS | ER_INCOMPATIBLE_METRIC | ER_MISSING_PRIOR_GUIDANCE | ER_MISSING_FILING
  | ER_MISSING_TRANSCRIPT | ER_MISSING_OPTION_IMPLIED_MOVE | ER_INSUFFICIENT_HISTORY
  | ER_MISSING_POST_RELEASE_FEATURES | ER_CORRECTED_RELEASE | ER_GAAP_NON_GAAP_DIVERGENCE
  | ER_SEGMENT_TOTAL_MISMATCH | ER_MATERIAL_ONE_TIME_ADJUSTMENTS | ER_MISSING_FREE_CASH_FLOW
  | ER_NO_COMPARABLE_METRICS.
#[export] Instance EarningsReasonCode_eq_dec : EqDecision EarningsReasonCode.
Proof. solve_decision. Defined.
Definition EarningsReasonCode_name (x : EarningsReasonCode) : string :=
  match x with
  | ER_MISSING_CONSENSUS => "MISSING_CONSENSUS" | ER_INCOMPATIBLE_METRIC => "INCOMPATIBLE_METRIC"
  | ER_MISSING_PRIOR_GUIDANCE => "MISSING_PRIOR_GUIDANCE" | ER_MISSING_FILING => "MISSING_FILING"
  | ER_MISSING_TRANSCRIPT => "MISSING_TRANSCRIPT"
  | ER_MISSING_OPTION_IMPLIED_MOVE => "MISSING_OPTION_IMPLIED_MOVE"
  | ER_INSUFFICIENT_HISTORY => "INSUFFICIENT_HISTORY"
  | ER_MISSING_POST_RELEASE_FEATURES => "MISSING_POST_RELEASE_FEATURES"
  | ER_CORRECTED_RELEASE => "CORRECTED_RELEASE" | ER_GAAP_NON_GAAP_DIVERGENCE => "GAAP_NON_GAAP_DIVERGENCE"
  | ER_SEGMENT_TOTAL_MISMATCH => "SEGMENT_TOTAL_MISMATCH"
  | ER_MATERIAL_ONE_TIME_ADJUSTMENTS => "MATERIAL_ONE_TIME_ADJUSTMENTS"
  | ER_MISSING_FREE_CASH_FLOW => "MISSING_FREE_CASH_FLOW" | ER_NO_COMPARABLE_METRICS => "NO_COMPARABLE_METRICS"
  end.
Definition EarningsReasonCode_value (x : EarningsReasonCode) : Z :=
  match x with
  | ER_MISSING_CONSENSUS => 1 | ER_INCOMPATIBLE_METRIC => 2 | ER_MISSING_PRIOR_GUIDANCE => 3
  | ER_MISSING_FILING => 4 | ER_MISSING_TRANSCRIPT => 5 | ER_MISSING_OPTION_IMPLIED_MOVE => 6
  | ER_INSUFFICIENT_HISTORY => 7 | ER_MISSING_POST_RELEASE_FEATURES => 8 | ER_CORRECTED_RELEASE => 9
  | ER_GAAP_NON_GAAP_DIVERGENCE => 10 | ER_SEGMENT_TOTAL_MISMATCH => 11 | ER_MATERIAL_ONE_TIME_ADJUSTMENTS => 12
  | ER_MISSING_FREE_CASH_FLOW => 13 | ER_NO_COMPARABLE_METRICS => 14
  end.

Inductive AccountingQualityFlag :=
  | AQ_GAAP_NON_GAAP_DIVERGENCE | AQ_MATERIAL_ONE_TIME_ADJUSTMENTS | AQ_SEGMENT_TOTAL_MISMATCH
  | AQ_MISSING_FREE_CASH_FLOW | AQ_CORRECTED_RELEASE.
#[export] Instance AccountingQualityFlag_eq_dec : EqDecision AccountingQualityFlag.
Proof. solve_decision. Defined.
Definition AccountingQualityFlag_name (x : AccountingQualityFlag) : string :=
  match x with
  | AQ_GAAP_NON_GAAP_DIVERGENCE => "GAAP_NON_GAAP_DIVERGENCE"
  | AQ_MATERIAL_ONE_TIME_ADJUSTMENTS => "MATERIAL_ONE_TIME_ADJUSTMENTS"
  | AQ_SEGMENT_TOTAL_MISMATCH => "SEGMENT_TOTAL_MISMATCH"
  | AQ_MISSING_FREE_CASH_FLOW => "MISSING_FREE_CASH_FLOW" | AQ_CORRECTED_RELEASE => "CORRECTED_RELEASE"
  end.
Definition AccountingQualityFlag_value (x : AccountingQualityFlag) : Z :=
  match x with
  | AQ_GAAP_NON_GAAP_DIVERGENCE => 1 | AQ_MATERIAL_ONE_TIME_ADJUSTMENTS => 2 | AQ_SEGMENT_TOTAL_MISMATCH => 3
  | AQ_MISSING_FREE_CASH_FLOW => 4 | AQ_CORRECTED_RELEASE => 5
  end.

Definition EARNINGS_SCHEMA_VERSION : pystr := str "1.0.0".
Definition EARNINGS_MAX_SOURCES : Z := 32.
Definition MAX_METRICS : Z := 128.
Definition MAX_ESTIMATES : Z := 128.
Definition MAX_GUIDANCE : Z := 64.
Definition MAX_ADJUSTMENTS : Z := 32.
Definition EARNINGS_MAX_HISTORY : Z := 64.
Definition EARNINGS_MAX_EVIDENCE_REFERENCES : Z := 16.
Definition MAX_ABSOLUTE_RETURN_PPM : Z := 10000000.
Definition MAX_VOLATILITY_PPM : Z := 10000000.

(** ** Records *)

Record EarningsMetricIdentity := {
  ei_kind : EarningsMetricKind;
  ei_basis : AccountingBasis;
  ei_unit : EarningsMetricUnit;
  ei_fiscal_period : pystr;
  ei_segment_name : pystr;
}.
#[export] Instance EarningsMetricIdentity_eq_dec : EqDecision EarningsMetricIdentity.
Proof. solve_decision. Defined.

Definition EarningsMetricIdentity_document (x : EarningsMetricIdentity) : json :=
  jfields [("kind", jname (EarningsMetricKind_name (ei_kind x))); ("basis", jname (AccountingBasis_name (ei_basis x)));
           ("unit", jname (EarningsMetricUnit_name (ei_unit x))); ("fiscal_period", jtext (ei_fiscal_period x));
           ("segment_name", jtext (ei_segment_name x))].

Definition is_segment (k : EarningsMetricKind) : bool := bool_decide (k ∈ [EK_SEGMENT_REVENUE; EK_SEGMENT_OPERATING_INCOME]).

Definition EarningsMetricIdentity_post_init (x : EarningsMetricIdentity) : res unit :=
  do! bounded_text (ei_fiscal_period x) 32 "fiscal_period" in
  let named := negb (bool_decide (ei_segment_name x = [])) in
  do! (if named then bounded_text (ei_segment_name x) 64 "segment_name" else Ok tt) in
  raise_when (negb (Bool.eqb (is_segment (ei_kind x)) named)) ValueError
    "segment metrics require a segment and consolidated metrics forbid one".

Record EarningsEvidenceReference := {
  eer_source_id : pystr;
  eer_excerpt_id : Z;
}.
#[export] Instance EarningsEvidenceReference_eq_dec : EqDecision EarningsEvidenceReference.
Proof. solve_decision. Defined.

Definition EarningsEvidenceReference_document (x : EarningsEvidenceReference) : json :=
  jfields [("source_id", jtext (eer_source_id x)); ("excerpt_id", JInt (eer_excerpt_id x))].

Definition EarningsEvidenceReference_post_init (x : EarningsEvidenceReference) : res unit :=
  do! bounded_text (eer_source_id x) 64 "evidence source_id" in
  raise_when (eer_excerpt_id x <=? 0) ValueError "evidence excerpt_id must be positive".

(** [_validate_reference_count] *)
Definition earnings_reference_count (references : list EarningsEvidenceReference) (owner : string) : res unit :=
  do! raise_when (bool_decide (references = []) || (EARNINGS_MAX_EVIDENCE_REFERENCES <? Z.of_nat (length references))) ValueError
        (owner +:+ " requires one to sixteen evidence references") in
  raise_when (negb (unique_by id references)) ValueError (owner +:+ " evidence references must be unique").

Record EarningsSourceEvidence := {
  ese_source_id : pystr;
  ese_source_global_event_id : Identifier128;
  ese_kind : EarningsSourceKind;
  ese_provider_id : pystr;
  ese_document_id : pystr;
  ese_source_content_sha256 : pybytes;
  ese_sanitized_content_sha256 : pybytes;
  ese_publication_wall_clock_utc_ns : Z;
  ese_received_wall_clock_utc_ns : Z;
  ese_excerpts : list EvidenceExcerpt;
}.
#[export] Instance EarningsSourceEvidence_eq_dec : EqDecision EarningsSourceEvidence.
Proof. solve_decision. Defined.

Definition EarningsSourceEvidence_document (x : EarningsSourceEvidence) : json :=
  jfields [("source_id", jtext (ese_source_id x)); ("source_global_event_id", jident (ese_source_global_event_id x));
           ("kind", jname (EarningsSourceKind_name (ese_kind x))); ("provider_id", jtext (ese_provider_id x));
           ("document_id", jtext (ese_document_id x)); ("source_content_sha256", jbytes (ese_source_content_sha256 x));
           ("sanitized_content_sha256", jbytes (ese_sanitized_content_sha256 x));
           ("publication_wall_clock_utc_ns", JInt (ese_publication_wall_clock_utc_ns x));
           ("received_wall_clock_utc_ns", JInt (ese_received_wall_clock_utc_ns x));
           ("excerpts", jlist EvidenceExcerpt_document (ese_excerpts x))].

Definition EarningsSourceEvidence_post_init (x : EarningsSourceEvidence) : res unit :=
  do! bounded_text (ese_source_id x) 64 "source_id" in
  do! bounded_text (ese_provider_id x) 64 "provider_id" in
  do! bounded_text (ese_document_id x) 128 "document_id" in
  do! valid_digest (ese_source_content_sha256 x) "source_content_sha256" in
  do! valid_digest (ese_sanitized_content_sha256 x) "sanitized_content_sha256" in
  do! positive_timestamp (ese_publication_wall_clock_utc_ns x) "publication_wall_clock_utc_ns" in
  do! raise_when (ese_received_wall_clock_utc_ns x <? ese_publication_wall_clock_utc_ns x) ValueError
        "source receipt precedes publication" in
  do! raise_when (bool_decide (ese_excerpts x = []) || (EARNINGS_MAX_EVIDENCE_REFERENCES <? Z.of_nat (length (ese_excerpts x))))
        ValueError "source evidence requires one to sixteen exact excerpts" in
  raise_when (negb (unique_by ex_excerpt_id (ese_excerpts x))) ValueError "source excerpt identifiers must be unique".

Record NormalizedEarningsMetric := {
  nem_identity : EarningsMetricIdentity;
  nem_value : Z;
  nem_evidence : list EarningsEvidenceReference;
}.
#[export] Instance NormalizedEarningsMetric_eq_dec : EqDecision NormalizedEarningsMetric.
Proof. solve_decision. Defined.

Definition NormalizedEarningsMetric_document (x : NormalizedEarningsMetric) : json :=
  jfields [("identity", EarningsMetricIdentity_document (nem_identity x)); ("value", JInt (nem_value x));
           ("evidence", jlist EarningsEvidenceReference_document (nem_evidence x))].

Definition NormalizedEarningsMetric_post_init (x : NormalizedEarningsMetric) : res unit :=
  do! int64 (nem_value x) "metric value" in
  earnings_reference_count (nem_evidence x) "metric".

Record EstimateDistribution := {
  esd_identity : EarningsMetricIdentity;
  esd_consensus_value : Z;
  esd_dispersion : Z;
  esd_minimum_value : Z;
  esd_maximum_value : Z;
  esd_analyst_count : Z;
  esd_available_wall_clock_utc_ns : Z;
  esd_evidence : list EarningsEvidenceReference;
}.
#[export] Instance EstimateDistribution_eq_dec : EqDecision EstimateDistribution.
Proof. solve_decision. Defined.

Definition EstimateDistribution_document (x : EstimateDistribution) : json :=
  jfields [("identity", EarningsMetricIdentity_document (esd_identity x));
           ("consensus_value", JInt (esd_consensus_value x)); ("dispersion", JInt (esd_dispersion x));
           ("minimum_value", JInt (esd_minimum_value x)); ("maximum_value", JInt (esd_maximum_value x));
           ("analyst_count", JInt (esd_analyst_count x));
           ("available_wall_clock_utc_ns", JInt (esd_available_wall_clock_utc_ns x));
           ("evidence", jlist EarningsEvidenceReference_document (esd_evidence x))].

Definition EstimateDistribution_post_init (x : EstimateDistribution) : res unit :=
  do! int64 (esd_consensus_value x) "consensus_value" in
  do! int64 (esd_minimum_value x) "minimum_value" in
  do! int64 (esd_maximum_value x) "maximum_value" in
  do! raise_when ((esd_dispersion x <? 0) || (esd_analyst_count x <=? 0)
                  || negb ((esd_minimum_value x <=? esd_consensus_value x) && (esd_consensus_value x <=? esd_maximum_value x))) ValueError
        "estimate dispersion, analyst count, or value range is invalid" in
  do! positive_timestamp (esd_available_wall_clock_utc_ns x) "estimate available_wall_clock_utc_ns" in
  earnings_reference_count (esd_evidence x) "estimate".

Record GuidanceRange := {
  gui_identity : EarningsMetricIdentity;
  gui_lower_value : Z;
  gui_upper_value : Z;
  gui_evidence : list EarningsEvidenceReference;
}.
#[export] Instance GuidanceRange_eq_dec : EqDecision GuidanceRange.
Proof. solve_decision. Defined.

Definition GuidanceRange_document (x : GuidanceRange) : json :=
  jfields [("identity", EarningsMetricIdentity_document (gui_identity x)); ("lower_value", JInt (gui_lower_value x));
           ("upper_value", JInt (gui_upper_value x));
           ("evidence", jlist EarningsEvidenceReference_document (gui_evidence x))].

Definition GuidanceRange_post_init (x : GuidanceRange) : res unit :=
  do! int64 (gui_lower_value x) "guidance lower_value" in
  do! int64 (gui_upper_value x) "guidance upper_value" in
  do! raise_when (gui_upper_value x <? gui_lower_value x) ValueError "guidance lower_value exceeds upper_value" in
  earnings_reference_count (gui_evidence x) "guidance".

Record OneTimeAdjustment := {
  ota_label : pystr;
  ota_amount_currency_nanos : Z;
  ota_evidence : list EarningsEvidenceReference;
}.
#[export] Instance OneTimeAdjustment_eq_dec : EqDecision OneTimeAdjustment.
Proof. solve_decision. Defined.

Definition OneTimeAdjustment_document (x : OneTimeAdjustment) : json :=
  jfields [("label", jtext (ota_label x)); ("amount_currency_nanos", JInt (ota_amount_currency_nanos x));
           ("evidence", jlist EarningsEvidenceReference_document (ota_evidence x))].

Definition OneTimeAdjustment_post_init (x : OneTimeAdjustment) : res unit :=
  do! bounded_text (ota_label x) 64 "adjustment label" in
  do! int64 (ota_amount_currency_nanos x) "adjustment amount_currency_nanos" in
  earnings_reference_count (ota_evidence x) "adjustment".

Record OptionImpliedMove := {
  oim_absolute_move_ppm : Z;
  oim_available_wall_clock_utc_ns : Z;
  oim_evidence : list EarningsEvidenceReference;
}.
#[export] Instance OptionImpliedMove_eq_dec : EqDecision OptionImpliedMove.
Proof. solve_decision. Defined.

Definition OptionImpliedMove_document (x : OptionImpliedMove) : json :=
  jfields [("absolute_move_ppm", JInt (oim_absolute_move_ppm x));
           ("available_wall_clock_utc_ns", JInt (oim_available_wall_clock_utc_ns x));
           ("evidence", jlist EarningsEvidenceReference_document (oim_evidence x))].

Definition OptionImpliedMove_post_init (x : OptionImpliedMove) : res unit :=
  do! raise_when (negb ((0 <? oim_absolute_move_ppm x) && (oim_absolute_move_ppm x <=? MAX_ABSOLUTE_RETURN_PPM))) ValueError
        "option-implied move is outside its PPM bound" in
  do! positive_timestamp (oim_available_wall_clock_utc_ns x) "option move available_wall_clock_utc_ns" in
  earnings_reference_count (oim_evidence x) "option move".

Record HistoricalEarningsReaction := {
  her_historical_event_id : pystr;
  her_publication_wall_clock_utc_ns : Z;
  her_available_wall_clock_utc_ns : Z;
  her_gap_return_ppm : Z;
  her_realized_volatility_ppm : Z;
  her_price_discovery_duration_ns : Z;
}.
#[export] Instance HistoricalEarningsReaction_eq_dec : EqDecision HistoricalEarningsReaction.
Proof. solve_decision. Defined.

Definition HistoricalEarningsReaction_document (x : HistoricalEarningsReaction) : json :=
  jfields [("historical_event_id", jtext (her_historical_event_id x));
           ("publication_wall_clock_utc_ns", JInt (her_publication_wall_clock_utc_ns x));
           ("available_wall_clock_utc_ns", JInt (her_available_wall_clock_utc_ns x));
           ("gap_return_ppm", JInt (her_gap_return_ppm x));
           ("realized_volatility_ppm", JInt (her_realized_volatility_ppm x));
           ("price_discovery_duration_ns", JInt (her_price_discovery_duration_ns x))].

Definition HistoricalEarningsReaction_post_init (x : HistoricalEarningsReaction) : res unit :=
  do! bounded_text (her_historical_event_id x) 64 "historical_event_id" in
  do! positive_timestamp (her_publication_wall_clock_utc_ns x) "historical publication_wall_clock_utc_ns" in
  do! raise_when (her_available_wall_clock_utc_ns x <? her_publication_wall_clock_utc_ns x) ValueError
        "historical reaction availability precedes publication" in
  do! raise_when (MAX_ABSOLUTE_RETURN_PPM <? Z.abs (her_gap_return_ppm x)) ValueError
        "historical gap return exceeds its PPM bound" in
  do! raise_when (negb ((0 <=? her_realized_volatility_ppm x) && (her_realized_volatility_ppm x <=? MAX_VOLATILITY_PPM))) ValueError
        "historical realized volatility exceeds its PPM bound" in
  positive_timestamp (her_price_discovery_duration_ns x) "historical price_discovery_duration_ns".

Record EarningsMarketFeatures := {
  emf_feature_snapshot_id : Identifier128;
  emf_as_of_exchange_event_time_ns : Z;
  emf_available_wall_clock_utc_ns : Z;
  emf_return_since_release_ppm : Z;
  emf_realized_volatility_ppm : Z;
  emf_is_post_release : bool;
  emf_valid : bool;
}.
#[export] Instance EarningsMarketFeatures_eq_dec : EqDecision EarningsMarketFeatures.
Proof. solve_decision. Defined.

Definition EarningsMarketFeatures_document (x : EarningsMarketFeatures) : json :=
  jfields [("feature_snapshot_id", jident (emf_feature_snapshot_id x));
           ("as_of_exchange_event_time_ns", JInt (emf_as_of_exchange_event_time_ns x));
           ("available_wall_clock_utc_ns", JInt (emf_available_wall_clock_utc_ns x));
           ("return_since_release_ppm", JInt (emf_return_since_release_ppm x));
           ("realized_volatility_ppm", JInt (emf_realized_volatility_ppm x));
           ("is_post_release", JBool (emf_is_post_release x)); ("valid", JBool (emf_valid x))].

Definition EarningsMarketFeatures_post_init (x : EarningsMarketFeatures) : res unit :=
  do! positive_timestamp (emf_as_of_exchange_event_time_ns x) "feature as_of_exchange_event_time_ns" in
  do! positive_timestamp (emf_available_wall_clock_utc_ns x) "feature available_wall_clock_utc_ns" in
  do! raise_when (MAX_ABSOLUTE_RETURN_PPM <? Z.abs (emf_return_since_release_ppm x)) ValueError
        "feature return exceeds its PPM bound" in
  raise_when (negb ((0 <=? emf_realized_volatility_ppm x) && (emf_realized_volatility_ppm x <=? MAX_VOLATILITY_PPM))) ValueError
    "feature realized volatility exceeds its PPM bound".

Record EarningsInputBundle := {
  eib_earnings_event_id : Identifier128;
  eib_session_id : Identifier128;
  eib_instrument_id : Identifier128;
  eib_configuration_version : Identifier128;
  eib_revision : Z;
  eib_as_of_wall_clock_utc_ns : Z;
  eib_production_process_monotonic_time_ns : Z;
  eib_sources : list EarningsSourceEvidence;
  eib_actuals : list NormalizedEarningsMetric;
  eib_consensus : list EstimateDistribution;
  eib_prior_reported_values : list NormalizedEarningsMetric;
  eib_current_guidance : list GuidanceRange;
  eib_prior_guidance : list GuidanceRange;
  eib_one_time_adjustments : list OneTimeAdjustment;
  eib_historical_reactions : list HistoricalEarningsReaction;
  eib_market_features : EarningsMarketFeatures;
  eib_option_implied_move : option OptionImpliedMove;
  eib_correction_of_input_sha256 : option pybytes;
  eib_schema_version : pystr;
}.
#[export] Instance EarningsInputBundle_eq_dec : EqDecision EarningsInputBundle.
Proof. solve_decision. Defined.

Definition EarningsInputBundle_document (x : EarningsInputBundle) : json :=
  jfields [("earnings_event_id", jident (eib_earnings_event_id x)); ("session_id", jident (eib_session_id x));
           ("instrument_id", jident (eib_instrument_id x)); ("configuration_version", jident (eib_configuration_version x));
           ("revision", JInt (eib_revision x)); ("as_of_wall_clock_utc_ns", JInt (eib_as_of_wall_clock_utc_ns x));
           ("production_process_monotonic_time_ns", JInt (eib_production_process_monotonic_time_ns x));
           ("sources", jlist EarningsSourceEvidence_document (eib_sources x));
           ("actuals", jlist NormalizedEarningsMetric_document (eib_actuals x));
           ("consensus", jlist EstimateDistribution_document (eib_consensus x));
           ("prior_reported_values", jlist NormalizedEarningsMetric_document (eib_prior_reported_values x));
           ("current_guidance", jlist GuidanceRange_document (eib_current_guidance x));
           ("prior_guidance", jlist GuidanceRange_document (eib_prior_guidance x));
           ("one_time_adjustments", jlist OneTimeAdjustment_document (eib_one_time_adjustments x));
           ("historical_reactions", jlist HistoricalEarningsReaction_document (eib_historical_reactions x));
           ("market_features", EarningsMarketFeatures_document (eib_market_features x));
           ("option_implied_move", jopt OptionImpliedMove_document (eib_option_implied_move x));
           ("correction_of_input_sha256", jopt jbytes (eib_correction_of_input_sha256 x));
           ("schema_version", jtext (eib_schema_version x))].

(** [_validate_collection_bounds] *)
Definition validate_collection_bounds (x : EarningsInputBundle) : res unit :=
  do! raise_when (bool_decide (eib_actuals x = [])) ValueError "earnings input requires at least one reported actual" in
  do! raise_when (EARNINGS_MAX_SOURCES <? Z.of_nat (length (eib_sources x))) ValueError "earnings sources exceeds its configured bound" in
  do! raise_when (MAX_METRICS <? Z.of_nat (length (eib_actuals x))) ValueError "earnings actuals exceeds its configured bound" in
  do! raise_when (MAX_ESTIMATES <? Z.of_nat (length (eib_consensus x))) ValueError "earnings consensus exceeds its configured bound" in
  do! raise_when (MAX_METRICS <? Z.of_nat (length (eib_prior_reported_values x))) ValueError
        "earnings prior values exceeds its configured bound" in
  do! raise_when (MAX_GUIDANCE <? Z.of_nat (length (eib_current_guidance x))) ValueError
        "earnings current guidance exceeds its configured bound" in
  do! raise_when (MAX_GUIDANCE <? Z.of_nat (length (eib_prior_guidance x))) ValueError
        "earnings prior guidance exceeds its configured bound" in
  do! raise_when (MAX_ADJUSTMENTS <? Z.of_nat (length (eib_one_time_adjustments x))) ValueError
        "earnings adjustments exceeds its configured bound" in
  raise_when (EARNINGS_MAX_HISTORY <? Z.of_nat (length (eib_historical_reactions x))) ValueError
    "earnings history exceeds its configured bound".

Definition is_source (k : EarningsSourceKind) (s : EarningsSourceEvidence) : bool := bool_decide (ese_kind s = k).

(** [source_index] of sources with different identifiers: [get] and indexing. *)
Definition earnings_source (x : EarningsInputBundle) (key : pystr) : option EarningsSourceEvidence :=
  List.find (fun s => bool_decide (ese_source_id s = key)) (eib_sources x).
Definition earnings_source_at (x : EarningsInputBundle) (key : pystr) : res EarningsSourceEvidence :=
  match earnings_source x key with Some s => Ok s | None => raise KeyError "source_id" end.

(** [_validate_sources] *)
Definition validate_earnings_sources (x : EarningsInputBundle) : res unit :=
  do! raise_when (negb (unique_by ese_source_id (eib_sources x))) ValueError "earnings source identifiers must be unique" in
  raise_when (negb (count_if (is_source ES_OFFICIAL_EARNINGS_RELEASE) (eib_sources x) =? 1)) ValueError
    "earnings input requires exactly one official release source".

(** The references of the metrics, estimates, guidance and adjustments. *)
Definition earnings_references (x : EarningsInputBundle) : list EarningsEvidenceReference :=
  flat_map nem_evidence (eib_actuals x) ++ flat_map esd_evidence (eib_consensus x)
  ++ flat_map nem_evidence (eib_prior_reported_values x) ++ flat_map gui_evidence (eib_current_guidance x)
  ++ flat_map gui_evidence (eib_prior_guidance x) ++ flat_map ota_evidence (eib_one_time_adjustments x).

Definition earnings_excerpts (x : EarningsInputBundle) : list (pystr * Z) :=
  flat_map (fun s => map (fun e => (ese_source_id s, ex_excerpt_id e)) (ese_excerpts s)) (eib_sources x).

(** A reference that names no source or no excerpt. *)
Definition dangling (x : EarningsInputBundle) (r : EarningsEvidenceReference) : bool :=
  negb (bool_decide (is_Some (earnings_source x (eer_source_id r))))
  || negb (bool_decide ((eer_source_id r, eer_excerpt_id r) ∈ earnings_excerpts x)).

(** [_validate_evidence_graph] *)
Definition validate_earnings_evidence (x : EarningsInputBundle) : res unit :=
  do! raise_when (existsb (dangling x) (earnings_references x)) ValueError
        "earnings evidence reference does not resolve to an exact excerpt" in
  raise_when match eib_option_implied_move x with
             | Some o => existsb (dangling x) (oim_evidence o)
             | None => false
             end ValueError "option-implied evidence reference does not resolve".

(** [_validate_unique_metric_identities] *)
Definition validate_unique_metric_identities (x : EarningsInputBundle) : res unit :=
  do! raise_when (negb (unique_by nem_identity (eib_actuals x))) ValueError "duplicate actual metric identity" in
  do! raise_when (negb (unique_by esd_identity (eib_consensus x))) ValueError "duplicate consensus metric identity" in
  do! raise_when (negb (unique_by nem_identity (eib_prior_reported_values x))) ValueError "duplicate prior reported metric identity" in
  do! raise_when (negb (unique_by gui_identity (eib_current_guidance x))) ValueError "duplicate current guidance metric identity" in
  raise_when (negb (unique_by gui_identity (eib_prior_guidance x))) ValueError "duplicate prior guidance metric identity".

(** [official_release] *)
Definition official_release (x : EarningsInputBundle) : res EarningsSourceEvidence :=
  match List.find (is_source ES_OFFICIAL_EARNINGS_RELEASE) (eib_sources x) with
  | Some s => Ok s
  | None => raise Undescribed "StopIteration"
  end.

(** The source of a reference was received after the release. *)
Definition received_late (x : EarningsInputBundle) (release_time : Z) (r : EarningsEvidenceReference) : res bool :=
  let! s := earnings_source_at x (eer_source_id r) in Ok (release_time <? ese_received_wall_clock_utc_ns s).

(** [_validate_point_in_time] *)
Definition validate_earnings_times (x : EarningsInputBundle) : res unit :=
  do! raise_when (existsb (fun s => eib_as_of_wall_clock_utc_ns x <? ese_received_wall_clock_utc_ns s) (eib_sources x)
                  || (eib_as_of_wall_clock_utc_ns x <? emf_available_wall_clock_utc_ns (eib_market_features x))) ValueError
        "earnings source or feature was unavailable at the as-of cutoff" in
  let! official := official_release x in
  let release_time := ese_publication_wall_clock_utc_ns official in
  do! raise_when (existsb (fun e => release_time <? esd_available_wall_clock_utc_ns e) (eib_consensus x)) ValueError
        "consensus became available after the official release" in
  let! late := res_any (received_late x release_time) (flat_map esd_evidence (eib_consensus x)) in
  do! raise_when late ValueError "consensus evidence was received after the official release" in
  do! match eib_option_implied_move x with
      | Some o =>
          do! raise_when (release_time <? oim_available_wall_clock_utc_ns o) ValueError
                "option-implied move became available after the official release" in
          let! late := res_any (received_late x release_time) (oim_evidence o) in
          raise_when late ValueError "option-implied evidence was received after the official release"
      | None => Ok tt
      end in
  do! raise_when (existsb (fun h => (release_time <=? her_publication_wall_clock_utc_ns h)
                                    || (release_time <? her_available_wall_clock_utc_ns h)) (eib_historical_reactions x)) ValueError
        "historical reaction leaks the current or a future event" in
  raise_when (emf_is_post_release (eib_market_features x)
              && (emf_available_wall_clock_utc_ns (eib_market_features x) <? release_time)) ValueError
    "post-release features precede the release".

Definition EarningsInputBundle_post_init (x : EarningsInputBundle) : res unit :=
  do! raise_when (negb (bool_decide (eib_schema_version x = EARNINGS_SCHEMA_VERSION))) ValueError
        "unsupported normalized earnings schema version" in
  do! raise_when (eib_revision x <=? 0) ValueError "earnings revision must be positive" in
  do! raise_when (negb (Bool.eqb (eib_revision x =? 1) (bool_decide (eib_correction_of_input_sha256 x = None)))) ValueError
        "only corrected revisions require a parent input digest" in
  do! match eib_correction_of_input_sha256 x with
      | Some d => valid_digest d "correction_of_input_sha256"
      | None => Ok tt
      end in
  do! positive_timestamp (eib_as_of_wall_clock_utc_ns x) "as_of_wall_clock_utc_ns" in
  do! positive_timestamp (eib_production_process_monotonic_time_ns x) "production_process_monotonic_time_ns" in
  do! validate_collection_bounds x in
  do! validate_earnings_sources x in
  do! validate_earnings_evidence x in
  do! validate_unique_metric_identities x in
  validate_earnings_times x.

Definition EarningsInputBundle_sha256 (x : EarningsInputBundle) : res pybytes := document_sha256 (EarningsInputBundle_document x).

Record MetricSurprise := {
  esu_identity : EarningsMetricIdentity;
  esu_actual_value : Z;
  esu_consensus_value : option Z;
  esu_dispersion : option Z;
  esu_surprise_ppm : option Z;
  esu_reason : option EarningsReasonCode;
}.
#[export] Instance MetricSurprise_eq_dec : EqDecision MetricSurprise.
Proof. solve_decision. Defined.

Definition MetricSurprise_document (x : MetricSurprise) : json :=
  jfields [("identity", EarningsMetricIdentity_document (esu_identity x)); ("actual_value", JInt (esu_actual_value x));
           ("consensus_value", jopt JInt (esu_consensus_value x)); ("dispersion", jopt JInt (esu_dispersion x));
           ("surprise_ppm", jopt JInt (esu_surprise_ppm x));
           ("reason", jopt (fun x => jname (EarningsReasonCode_name x)) (esu_reason x))].

Record GuidanceChange := {
  egc_identity : EarningsMetricIdentity;
  egc_current_midpoint : Z;
  egc_prior_midpoint : option Z;
  egc_delta_value : option Z;
  egc_change_ppm : option Z;
  egc_reason : option EarningsReasonCode;
}.
#[export] Instance GuidanceChange_eq_dec : EqDecision GuidanceChange.
Proof. solve_decision. Defined.

Definition GuidanceChange_document (x : GuidanceChange) : json :=
  jfields [("identity", EarningsMetricIdentity_document (egc_identity x));
           ("current_midpoint", JInt (egc_current_midpoint x)); ("prior_midpoint", jopt JInt (egc_prior_midpoint x));
           ("delta_value", jopt JInt (egc_delta_value x)); ("change_ppm", jopt JInt (egc_change_ppm x));
           ("reason", jopt (fun x => jname (EarningsReasonCode_name x)) (egc_reason x))].

Record DirectionDistribution := {
  edd_down_ppm : Z;
  edd_flat_ppm : Z;
  edd_up_ppm : Z;
}.
#[export] Instance DirectionDistribution_eq_dec : EqDecision DirectionDistribution.
Proof. solve_decision. Defined.

Definition DirectionDistribution_document (x : DirectionDistribution) : json :=
  jfields [("down_ppm", JInt (edd_down_ppm x)); ("flat_ppm", JInt (edd_flat_ppm x)); ("up_ppm", JInt (edd_up_ppm x))].

Definition DirectionDistribution_post_init (x : DirectionDistribution) : res unit :=
  let values := [edd_down_ppm x; edd_flat_ppm x; edd_up_ppm x] in
  raise_when (existsb (fun v => negb ((0 <=? v) && (v <=? PPM))) values
              || negb (edd_down_ppm x + edd_flat_ppm x + edd_up_ppm x =? PPM)) ValueError
    "direction probabilities must be bounded and sum to 1,000,000 PPM".

Record ExpectedGapRange := {
  egr_lower_return_ppm : Z;
  egr_center_return_ppm : Z;
  egr_upper_return_ppm : Z;
}.
#[export] Instance ExpectedGapRange_eq_dec : EqDecision ExpectedGapRange.
Proof. solve_decision. Defined.

Definition ExpectedGapRange_document (x : ExpectedGapRange) : json :=
  jfields [("lower_return_ppm", JInt (egr_lower_return_ppm x)); ("center_return_ppm", JInt (egr_center_return_ppm x));
           ("upper_return_ppm", JInt (egr_upper_return_ppm x))].

Definition ExpectedGapRange_post_init (x : ExpectedGapRange) : res unit :=
  raise_when (negb ((- MAX_ABSOLUTE_RETURN_PPM <=? egr_lower_return_ppm x) && (egr_lower_return_ppm x <=? egr_center_return_ppm x)
                    && (egr_center_return_ppm x <=? egr_upper_return_ppm x) && (egr_upper_return_ppm x <=? MAX_ABSOLUTE_RETURN_PPM)))
    ValueError "expected gap range is unordered or outside its PPM bound".

Record EarningsSpecialistResult := {
  esr_earnings_event_id : Identifier128;
  esr_forecast_id : Identifier128;
  esr_model_id : Identifier128;
  esr_model_version : Identifier128;
  esr_input_sha256 : pybytes;
  esr_revision : Z;
  esr_phase : EarningsPhase;
  esr_surprises : list MetricSurprise;
  esr_guidance_changes : list GuidanceChange;
  esr_accounting_quality_flags : list AccountingQualityFlag;
  esr_materiality_ppm : Z;
  esr_direction : DirectionDistribution;
  esr_expected_return_ppm : Z;
  esr_expected_volatility_ppm : Z;
  esr_expected_gap : ExpectedGapRange;
  esr_estimated_price_discovery_duration_ns : Z;
  esr_uncertainty_ppm : Z;
  esr_reason_codes : list EarningsReasonCode;
  esr_production_process_monotonic_time_ns : Z;
  esr_valid_until_process_monotonic_time_ns : Z;
  esr_forecast_contract_bytes : pybytes;
  esr_schema_version : pystr;
}.
#[export] Instance EarningsSpecialistResult_eq_dec : EqDecision EarningsSpecialistResult.
Proof. solve_decision. Defined.

Definition EarningsSpecialistResult_document (x : EarningsSpecialistResult) : json :=
  jfields [("earnings_event_id", jident (esr_earnings_event_id x)); ("forecast_id", jident (esr_forecast_id x));
           ("model_id", jident (esr_model_id x)); ("model_version", jident (esr_model_version x));
           ("input_sha256", jbytes (esr_input_sha256 x)); ("revision", JInt (esr_revision x));
           ("phase", jname (EarningsPhase_name (esr_phase x)));
           ("surprises", jlist MetricSurprise_document (esr_surprises x));
           ("guidance_changes", jlist GuidanceChange_document (esr_guidance_changes x));
           ("accounting_quality_flags", jlist (fun x => jname (AccountingQualityFlag_name x)) (esr_accounting_quality_flags x));
           ("materiality_ppm", JInt (esr_materiality_ppm x));
           ("direction", DirectionDistribution_document (esr_direction x));
           ("expected_return_ppm", JInt (esr_expected_return_ppm x));
           ("expected_volatility_ppm", JInt (esr_expected_volatility_ppm x));
           ("expected_gap", ExpectedGapRange_document (esr_expected_gap x));
           ("estimated_price_discovery_duration_ns", JInt (esr_estimated_price_discovery_duration_ns x));
           ("uncertainty_ppm", JInt (esr_uncertainty_ppm x));
           ("reason_codes", jlist (fun x => jname (EarningsReasonCode_name x)) (esr_reason_codes x));
           ("production_process_monotonic_time_ns", JInt (esr_production_process_monotonic_time_ns x));
           ("valid_until_process_monotonic_time_ns", JInt (esr_valid_until_process_monotonic_time_ns x));
           ("forecast_contract_bytes", jbytes (esr_forecast_contract_bytes x));
           ("schema_version", jtext (esr_schema_version x))].

(** [bytes[4:8]] *)
Definition earnings_magic (b : pybytes) : pybytes := take 4 (drop 4 b).

Definition EarningsSpecialistResult_post_init (x : EarningsSpecialistResult) : res unit :=
  do! valid_digest (esr_input_sha256 x) "earnings result input_sha256" in
  do! raise_when ((esr_revision x <=? 0) || negb (bool_decide (esr_schema_version x = EARNINGS_SCHEMA_VERSION))) ValueError
        "earnings result revision or schema version is invalid" in
  do! raise_when (negb ((0 <=? esr_materiality_ppm x) && (esr_materiality_ppm x <=? PPM))) ValueError
        "materiality_ppm is outside [0, 1,000,000] PPM" in
  do! raise_when (negb ((0 <=? esr_uncertainty_ppm x) && (esr_uncertainty_ppm x <=? PPM))) ValueError
        "uncertainty_ppm is outside [0, 1,000,000] PPM" in
  do! raise_when (MAX_ABSOLUTE_RETURN_PPM <? Z.abs (esr_expected_return_ppm x)) ValueError "expected return exceeds its PPM bound" in
  do! raise_when (negb ((0 <=? esr_expected_volatility_ppm x) && (esr_expected_volatility_ppm x <=? MAX_VOLATILITY_PPM))) ValueError
        "expected volatility exceeds its PPM bound" in
  do! raise_when (esr_estimated_price_discovery_duration_ns x <=? 0) ValueError "price-discovery duration must be positive" in
  do! raise_when ((esr_production_process_monotonic_time_ns x <=? 0)
                  || (esr_valid_until_process_monotonic_time_ns x <=? esr_production_process_monotonic_time_ns x)) ValueError
        "earnings result monotonic lifetime is invalid" in
  do! raise_when (negb (bool_decide (earnings_magic (esr_forecast_contract_bytes x) = str "AMCR"))) ValueError
        "earnings result lacks a canonical ModelForecast contract" in
  raise_when (negb (unique_by id (esr_reason_codes x)) || negb (unique_by id (esr_accounting_quality_flags x))) ValueError
    "earnings result reasons and quality flags must be unique".

Definition EarningsSpecialistResult_sha256 (x : EarningsSpecialistResult) : res pybytes :=
  document_sha256 (EarningsSpecialistResult_document x).

