(* ===== verification/EarningsSpecialist.v ===== *)
(** * The earnings specialist

    Models [python/intelligence/aegis_mx_intelligence/earnings_specialist.py]: surprises and
    guidance changes of exactly comparable metrics, accounting-quality flags, the forecast, and
    the lifecycle of an earnings event with its hooks.  The encoder of the forecast contract is
    the parameter [encode]. *)

From S2P Require Import Prelude PyText Json Sha256 ForecastDomain Contracts Specialists EarningsTypes.
Open Scope Z_scope.

Definition MAX_HOOKS : Z := 16.
Definition MAX_TRANSITIONS : Z := 32.

Notation earnings_div := (trunc_div EarningsEvaluationError).
Notation earnings_median := (median EarningsEvaluationError).

(** ** Configuration *)

Record EarningsSpecialistConfig := {
  ec_model_id : Identifier128;
  ec_model_version : Identifier128;
  ec_forecast_ttl_ns : Z;
  ec_default_discovery_duration_ns : Z;
  ec_minimum_discovery_duration_ns : Z;
  ec_maximum_discovery_duration_ns : Z;
  ec_minimum_history_count : Z;
  ec_gaap_divergence_threshold_ppm : Z;
  ec_adjustment_materiality_threshold_ppm : Z;
  ec_segment_mismatch_threshold_ppm : Z;
  ec_epsilon_currency_nanos : Z;
  ec_epsilon_currency_nanos_per_share : Z;
  ec_epsilon_ppm : Z;
  ec_epsilon_quantity_units : Z;
}.

Definition EarningsSpecialistConfig_post_init (c : EarningsSpecialistConfig) : res unit :=
  do! raise_when (existsb (fun v => v <=? 0) [ec_forecast_ttl_ns c; ec_default_discovery_duration_ns c;
                    ec_minimum_discovery_duration_ns c; ec_maximum_discovery_duration_ns c]) ValueError
        "earnings forecast and discovery durations must be positive" in
  do! raise_when (negb ((ec_minimum_discovery_duration_ns c <=? ec_default_discovery_duration_ns c)
                        && (ec_default_discovery_duration_ns c <=? ec_maximum_discovery_duration_ns c))) ValueError
        "default price-discovery duration is outside configured bounds" in
  do! raise_when (ec_minimum_history_count c <=? 0) ValueError "minimum_history_count must be positive" in
  do! raise_when (existsb (fun v => negb ((0 <=? v) && (v <=? PPM))) [ec_gaap_divergence_threshold_ppm c;
                    ec_adjustment_materiality_threshold_ppm c; ec_segment_mismatch_threshold_ppm c]) ValueError
        "earnings quality thresholds must be within [0, 1,000,000] PPM" in
  raise_when (existsb (fun v => v <=? 0) [ec_epsilon_currency_nanos c; ec_epsilon_currency_nanos_per_share c; ec_epsilon_ppm c;
                ec_epsilon_quantity_units c]) ValueError
    "earnings surprise epsilon values must be positive".

(** [EarningsSpecialistConfig.epsilon] *)
Definition earnings_epsilon (c : EarningsSpecialistConfig) (unit : EarningsMetricUnit) : Z :=
  match unit with
  | EU_CURRENCY_NANOS => ec_epsilon_currency_nanos c
  | EU_CURRENCY_NANOS_PER_SHARE => ec_epsilon_currency_nanos_per_share c
  | EU_PPM => ec_epsilon_ppm c
  | EU_QUANTITY_UNITS => ec_epsilon_quantity_units c
  end.

(** [EarningsSpecialistConfig.sha256] *)
Definition EarningsSpecialistConfig_sha256 (c : EarningsSpecialistConfig) : res pystr :=
  let! numbers := res_map int_str
    [ec_forecast_ttl_ns c; ec_default_discovery_duration_ns c; ec_minimum_discovery_duration_ns c;
     ec_maximum_discovery_duration_ns c; ec_minimum_history_count c; ec_gaap_divergence_threshold_ppm c;
     ec_adjustment_materiality_threshold_ppm c; ec_segment_mismatch_threshold_ppm c; ec_epsilon_currency_nanos c;
     ec_epsilon_currency_nanos_per_share c; ec_epsilon_ppm c; ec_epsilon_quantity_units c] in
  Ok (sha256_hex (join 124 (id_hex (ec_model_id c) :: id_hex (ec_model_version c) :: numbers))).

(** ** Helpers *)

(** [_scaled_ratio_ppm] *)
Definition earnings_ratio_ppm (numerator denominator : Z) : res Z :=
  let! result := earnings_div (numerator * PPM) denominator in
  do! raise_when (negb ((MIN_INT64 <=? result) && (result <=? MAX_INT64))) EarningsEvaluationError
        "standardized earnings ratio exceeds signed 64-bit output" in
  Ok result.

(** [_midpoint] *)
Definition midpoint (g : GuidanceRange) : res Z :=
  let! half := earnings_div (gui_upper_value g - gui_lower_value g) 2 in Ok (gui_lower_value g + half).

(** [_ordered_unique]: the set of the values in the order of their numbers. *)
Definition ordered_set {A} `{EqDecision A} (number : A -> Z) (values : list A) : list A :=
  py_sorted (leb_on number Z.leb) (remove_dups values).

(** [_same_metric_family] *)
Definition same_metric_family (l r : EarningsMetricIdentity) : bool :=
  bool_decide (ei_kind l = ei_kind r) && bool_decide (ei_fiscal_period l = ei_fiscal_period r)
  && bool_decide (ei_segment_name l = ei_segment_name r).

(** [{item.identity: item for item in l}.get(key)]: of equal identities the last. *)
Definition last_with {A} (identity : A -> EarningsMetricIdentity) (key : EarningsMetricIdentity) (l : list A) : option A :=
  List.find (fun x => bool_decide (identity x = key)) (rev l).

(** [_strongest]: the first value with the greatest [(abs(value), value)]. *)
Definition weaker (a b : Z) : bool := (Z.abs a <? Z.abs b) || ((Z.abs a =? Z.abs b) && (a <? b)).
Definition strongest (values : list Z) : Z :=
  match values with
  | [] => 0
  | v :: l => foldl (fun best x => if weaker best x then x else best) v l
  end.

(** The values that are not [None]. *)
Definition present_values {A} (f : A -> option Z) (l : list A) : list Z :=
  flat_map (fun x => match f x with Some v => [v] | None => [] end) l.

Section specialist.
Variable config : EarningsSpecialistConfig.
Variable encode : ForecastWire -> pybytes.

(** ** Surprises and guidance *)

(** The assessment of one actual value. *)
Definition metric_surprise (b : EarningsInputBundle) (actual : NormalizedEarningsMetric) : res MetricSurprise :=
  match last_with esd_identity (nem_identity actual) (eib_consensus b) with
  | Some estimate =>
      let denominator := Z.max (esd_dispersion estimate) (earnings_epsilon config (ei_unit (nem_identity actual))) in
      let! ratio := earnings_ratio_ppm (nem_value actual - esd_consensus_value estimate) denominator in
      Ok {| esu_identity := nem_identity actual; esu_actual_value := nem_value actual;
            esu_consensus_value := Some (esd_consensus_value estimate); esu_dispersion := Some (esd_dispersion estimate);
            esu_surprise_ppm := Some ratio; esu_reason := None |}
  | None =>
      let incompatible := existsb (fun e => same_metric_family (nem_identity actual) (esd_identity e)) (eib_consensus b) in
      Ok {| esu_identity := nem_identity actual; esu_actual_value := nem_value actual; esu_consensus_value := None;
            esu_dispersion := None; esu_surprise_ppm := None;
            esu_reason := Some (if incompatible then ER_INCOMPATIBLE_METRIC else ER_MISSING_CONSENSUS) |}
  end.

(** [_surprises] *)
Definition metric_surprises (b : EarningsInputBundle) : res (list MetricSurprise) := res_map (metric_surprise b) (eib_actuals b).

(** The change of one guidance. *)
Definition guidance_change (b : EarningsInputBundle) (current : GuidanceRange) : res GuidanceChange :=
  let! current_midpoint := midpoint current in
  match last_with gui_identity (gui_identity current) (eib_prior_guidance b) with
  | None => Ok {| egc_identity := gui_identity current; egc_current_midpoint := current_midpoint; egc_prior_midpoint := None;
                  egc_delta_value := None; egc_change_ppm := None; egc_reason := Some ER_MISSING_PRIOR_GUIDANCE |}
  | Some prior =>
      let! prior_midpoint := midpoint prior in
      let delta := current_midpoint - prior_midpoint in
      let! ratio := earnings_ratio_ppm delta (Z.max (Z.abs prior_midpoint) (earnings_epsilon config (ei_unit (gui_identity current)))) in
      Ok {| egc_identity := gui_identity current; egc_current_midpoint := current_midpoint;
            egc_prior_midpoint := Some prior_midpoint; egc_delta_value := Some delta; egc_change_ppm := Some ratio;
            egc_reason := None |}
  end.

(** [_guidance_changes] *)
Definition guidance_changes (b : EarningsInputBundle) : res (list GuidanceChange) :=
  res_map (guidance_change b) (eib_current_guidance b).

(** ** Accounting quality *)

Definition actual_index (b : EarningsInputBundle) : list (EarningsMetricIdentity * NormalizedEarningsMetric) :=
  foldl (fun d m => od_set (nem_identity m) m d) [] (eib_actuals b).

(** One iteration of [_has_gaap_divergence]; [EarningsMetricIdentity] validates. *)
Definition gaap_diverges (index : list (EarningsMetricIdentity * NormalizedEarningsMetric))
    (entry : EarningsMetricIdentity * NormalizedEarningsMetric) : res bool :=
  let '(identity, gaap) := entry in
  if negb (bool_decide (ei_basis identity = AB_GAAP)) then Ok false
  else
    let non_gaap_identity := {| ei_kind := ei_kind identity; ei_basis := AB_NON_GAAP; ei_unit := ei_unit identity;
                                ei_fiscal_period := ei_fiscal_period identity; ei_segment_name := ei_segment_name identity |} in
    do! EarningsMetricIdentity_post_init non_gaap_identity in
    match od_get non_gaap_identity index with
    | None => Ok false
    | Some non_gaap =>
        let! ratio := earnings_ratio_ppm (nem_value non_gaap - nem_value gaap)
                        (Z.max (Z.abs (nem_value gaap)) (earnings_epsilon config (ei_unit identity))) in
        Ok (ec_gaap_divergence_threshold_ppm config <=? Z.abs ratio)
    end.

(** [_has_gaap_divergence] *)
Definition has_gaap_divergence (b : EarningsInputBundle) : res bool := res_any (gaap_diverges (actual_index b)) (actual_index b).

Definition gaap_metric (k : EarningsMetricKind) (m : NormalizedEarningsMetric) : bool :=
  bool_decide (ei_kind (nem_identity m) = k) && bool_decide (ei_basis (nem_identity m) = AB_GAAP).

(** [_consolidated_revenue] *)
Definition consolidated_revenue (b : EarningsInputBundle) : option NormalizedEarningsMetric :=
  List.find (gaap_metric EK_REVENUE) (eib_actuals b).

(** [_adjustments_are_material] *)
Definition adjustments_are_material (b : EarningsInputBundle) (revenue : option NormalizedEarningsMetric) : res bool :=
  match revenue with
  | None => Ok false
  | Some r =>
      if bool_decide (eib_one_time_adjustments b = []) then Ok false
      else
        let total := sum_of (fun a => Z.abs (ota_amount_currency_nanos a)) (eib_one_time_adjustments b) in
        let! ratio := earnings_ratio_ppm total (Z.max (Z.abs (nem_value r)) (earnings_epsilon config EU_CURRENCY_NANOS)) in
        Ok (ec_adjustment_materiality_threshold_ppm config <=? Z.abs ratio)
  end.

(** [_segments_mismatch] *)
Definition segments_mismatch (b : EarningsInputBundle) (revenue : option NormalizedEarningsMetric) : res bool :=
  match revenue with
  | None => Ok false
  | Some r =>
      let segments := List.filter (gaap_metric EK_SEGMENT_REVENUE) (eib_actuals b) in
      if bool_decide (segments = []) then Ok false
      else
        let! ratio := earnings_ratio_ppm (sum_of nem_value segments - nem_value r)
                        (Z.max (Z.abs (nem_value r)) (earnings_epsilon config EU_CURRENCY_NANOS)) in
        Ok (ec_segment_mismatch_threshold_ppm config <=? Z.abs ratio)
  end.

(** [_quality_flags] *)
Definition quality_flags (b : EarningsInputBundle) : res (list AccountingQualityFlag) :=
  let revenue := consolidated_revenue b in
  let! divergence := has_gaap_divergence b in
  let! material := adjustments_are_material b revenue in
  let! mismatch := segments_mismatch b revenue in
  Ok (ordered_set AccountingQualityFlag_value
    ((if 1 <? eib_revision b then [AQ_CORRECTED_RELEASE] else [])
     ++ (if divergence : bool then [AQ_GAAP_NON_GAAP_DIVERGENCE] else [])
     ++ (if material : bool then [AQ_MATERIAL_ONE_TIME_ADJUSTMENTS] else [])
     ++ (if mismatch : bool then [AQ_SEGMENT_TOTAL_MISMATCH] else [])
     ++ (if existsb (fun m => bool_decide (ei_kind (nem_identity m) = EK_FREE_CASH_FLOW)) (eib_actuals b) then []
         else [AQ_MISSING_FREE_CASH_FLOW]))).

(** ** Reasons *)

(** [flag_reasons], where it has the flag. *)
Definition flag_reason (f : AccountingQualityFlag) : list EarningsReasonCode :=
  match f with
  | AQ_GAAP_NON_GAAP_DIVERGENCE => [ER_GAAP_NON_GAAP_DIVERGENCE]
  | AQ_MATERIAL_ONE_TIME_ADJUSTMENTS => [ER_MATERIAL_ONE_TIME_ADJUSTMENTS]
  | AQ_SEGMENT_TOTAL_MISMATCH => [ER_SEGMENT_TOTAL_MISMATCH]
  | AQ_MISSING_FREE_CASH_FLOW => [ER_MISSING_FREE_CASH_FLOW]
  | AQ_CORRECTED_RELEASE => []
  end.

Definition reason_list (r : option EarningsReasonCode) : list EarningsReasonCode := match r with Some c => [c] | None => [] end.

(** [_reason_codes] *)
Definition earnings_reasons (b : EarningsInputBundle) (surprises : list MetricSurprise) (guidance : list GuidanceChange)
    (flags : list AccountingQualityFlag) : list EarningsReasonCode :=
  let lacks k := negb (existsb (is_source k) (eib_sources b)) in
  ordered_set EarningsReasonCode_value
    (flat_map (fun s => reason_list (esu_reason s)) surprises
     ++ flat_map (fun g => reason_list (egc_reason g)) guidance
     ++ (if lacks ES_REGULATORY_FILING then [ER_MISSING_FILING] else [])
     ++ (if lacks ES_TRANSCRIPT then [ER_MISSING_TRANSCRIPT] else [])
     ++ (if bool_decide (eib_option_implied_move b = None) then [ER_MISSING_OPTION_IMPLIED_MOVE] else [])
     ++ (if Z.of_nat (length (eib_historical_reactions b)) <? ec_minimum_history_count config then [ER_INSUFFICIENT_HISTORY] else [])
     ++ (if emf_is_post_release (eib_market_features b) then [] else [ER_MISSING_POST_RELEASE_FEATURES])
     ++ (if 1 <? eib_revision b then [ER_CORRECTED_RELEASE] else [])
     ++ flat_map flag_reason flags
     ++ (if existsb (fun s => bool_decide (is_Some (esu_surprise_ppm s))) surprises then [] else [ER_NO_COMPARABLE_METRICS])).

(** ** Signals *)

(** The change of one actual value since its prior report, if it has one. *)
Definition prior_change (b : EarningsInputBundle) (actual : NormalizedEarningsMetric) : res (list Z) :=
  match last_with nem_identity (nem_identity actual) (eib_prior_reported_values b) with
  | None => Ok []
  | Some prior =>
      let! ratio := earnings_ratio_ppm (nem_value actual - nem_value prior)
                      (Z.max (Z.abs (nem_value prior)) (earnings_epsilon config (ei_unit (nem_identity actual)))) in
      Ok [ratio]
  end.

(** [_prior_change_signal] *)
Definition prior_change_signal (b : EarningsInputBundle) : res Z :=
  let! changes := res_map (prior_change b) (eib_actuals b) in Ok (strongest (concat changes)).

(** [_materiality] *)
Definition materiality (b : EarningsInputBundle) (surprises : list MetricSurprise) (guidance : list GuidanceChange) : res Z :=
  let surprise := Z.abs (strongest (present_values esu_surprise_ppm surprises)) in
  let guidance_change := Z.abs (strongest (present_values egc_change_ppm guidance)) in
  let! surprise_component := earnings_div (Z.min surprise (3 * PPM)) 3 in
  let guidance_component := Z.min guidance_change PPM in
  let option_component := match eib_option_implied_move b with
                          | None => 0
                          | Some o => Z.min PPM (oim_absolute_move_ppm o * 5)
                          end in
  earnings_div (surprise_component * 50 + guidance_component * 30 + option_component * 20) 100.

(** [_direction_signal] *)
Definition direction_signal (b : EarningsInputBundle) (surprises : list MetricSurprise) (guidance : list GuidanceChange) : res Z :=
  let surprise := strongest (present_values esu_surprise_ppm surprises) in
  let guidance_change := strongest (present_values egc_change_ppm guidance) in
  let! prior := prior_change_signal b in
  let m := eib_market_features b in
  let post_release := if emf_is_post_release m then emf_return_since_release_ppm m else 0 in
  let weighted := clamp surprise (- PPM) PPM * 50 + clamp guidance_change (- PPM) PPM * 25 + clamp prior (- PPM) PPM * 10
                  + clamp post_release (- PPM) PPM * 15 in
  let! q := earnings_div weighted 100 in
  Ok (clamp q (- PPM) PPM).

(** [_direction_distribution] *)
Definition earnings_direction (signal_ppm uncertainty_ppm : Z) : res DirectionDistribution :=
  let! quarter := earnings_div uncertainty_ppm 4 in
  let flat := 250000 + quarter in
  let directional_mass := PPM - flat in
  let! edge := earnings_div (signal_ppm * (directional_mass / 2)) PPM in
  let up := directional_mass / 2 + edge in
  let d := {| edd_down_ppm := directional_mass - up; edd_flat_ppm := flat; edd_up_ppm := up |} in
  do! DirectionDistribution_post_init d in Ok d.

Definition option_moves (b : EarningsInputBundle) : list Z :=
  match eib_option_implied_move b with Some o => [oim_absolute_move_ppm o] | None => [] end.

(** [_expected_volatility] *)
Definition expected_volatility (b : EarningsInputBundle) (materiality_ppm : Z) : res Z :=
  let values := List.filter (fun v => 0 <? v) (map her_realized_volatility_ppm (eib_historical_reactions b)) ++ option_moves b
                ++ (if 0 <? emf_realized_volatility_ppm (eib_market_features b)
                    then [emf_realized_volatility_ppm (eib_market_features b)] else []) in
  let! baseline := match values with [] => Ok (Z.max 1 (materiality_ppm / 2)) | _ => earnings_median values end in
  let! adjusted := earnings_div (baseline * (500000 + materiality_ppm)) PPM in
  Ok (clamp adjusted 0 MAX_VOLATILITY_PPM).

(** [_gap_range] *)
Definition gap_range (b : EarningsInputBundle) (expected_return_ppm expected_volatility_ppm : Z) : res ExpectedGapRange :=
  let candidates := map (fun h => Z.abs (her_gap_return_ppm h)) (eib_historical_reactions b) ++ option_moves b
                    ++ [Z.max 1 (expected_volatility_ppm / 2)] in
  let! magnitude := earnings_median candidates in
  let bound v := clamp v (- MAX_ABSOLUTE_RETURN_PPM) MAX_ABSOLUTE_RETURN_PPM in
  let g := {| egr_lower_return_ppm := bound (expected_return_ppm - magnitude); egr_center_return_ppm := expected_return_ppm;
              egr_upper_return_ppm := bound (expected_return_ppm + magnitude) |} in
  do! ExpectedGapRange_post_init g in Ok g.

(** [_discovery_duration] *)
Definition discovery_duration (b : EarningsInputBundle) (materiality_ppm : Z) : res Z :=
  let durations := map her_price_discovery_duration_ns (eib_historical_reactions b) in
  let! baseline := if ec_minimum_history_count config <=? Z.of_nat (length durations) then earnings_median durations
                   else Ok (ec_default_discovery_duration_ns config) in
  let! adjusted := earnings_div (baseline * (500000 + materiality_ppm)) PPM in
  Ok (clamp adjusted (ec_minimum_discovery_duration_ns config) (ec_maximum_discovery_duration_ns config)).

(** ** Evaluation *)

(** What [evaluate] computes before the forecast. *)
Record EarningsAnalysis := {
  ea_surprises : list MetricSurprise;
  ea_guidance : list GuidanceChange;
  ea_flags : list AccountingQualityFlag;
  ea_reasons : list EarningsReasonCode;
  ea_uncertainty : Z;
  ea_materiality : Z;
  ea_expected_return : Z;
  ea_direction : DirectionDistribution;
  ea_volatility : Z;
  ea_gap : ExpectedGapRange;
  ea_duration : Z;
}.

Definition analyze_earnings (b : EarningsInputBundle) : res EarningsAnalysis :=
  let! surprises := metric_surprises b in
  let! guidance := guidance_changes b in
  let! flags := quality_flags b in
  let reasons := earnings_reasons b surprises guidance flags in
  let uncertainty := Z.min 950000 (100000 + Z.of_nat (length reasons) * 60000) in
  let! material := materiality b surprises guidance in
  let! signal := direction_signal b surprises guidance in
  let! expected_return := earnings_div signal 2 in
  let! direction := earnings_direction signal uncertainty in
  let! volatility := expected_volatility b material in
  let! gap := gap_range b expected_return volatility in
  let! duration := discovery_duration b material in
  Ok {| ea_surprises := surprises; ea_guidance := guidance; ea_flags := flags; ea_reasons := reasons;
        ea_uncertainty := uncertainty; ea_materiality := material; ea_expected_return := expected_return;
        ea_direction := direction; ea_volatility := volatility; ea_gap := gap; ea_duration := duration |}.

(** The [ModelForecastContractInput] of [evaluate]. *)
Definition earnings_forecast (b : EarningsInputBundle) (a : EarningsAnalysis) (record_id forecast_id : Identifier128)
    (expiration : Z) : ModelForecastContractInput :=
  let g := ea_gap a in
  {| mf_record_id := record_id; mf_forecast_id := forecast_id; mf_session_id := eib_session_id b;
     mf_model_id := ec_model_id config; mf_model_version := ec_model_version config; mf_instrument_id := eib_instrument_id b;
     mf_feature_snapshot_id := emf_feature_snapshot_id (eib_market_features b);
     mf_configuration_version := eib_configuration_version b;
     mf_expected_return_ppm := ea_expected_return a; mf_return_p10_ppm := egr_lower_return_ppm g;
     mf_return_p50_ppm := egr_center_return_ppm g; mf_return_p90_ppm := egr_upper_return_ppm g;
     mf_probability_down_ppm := edd_down_ppm (ea_direction a); mf_probability_flat_ppm := edd_flat_ppm (ea_direction a);
     mf_probability_up_ppm := edd_up_ppm (ea_direction a); mf_volatility_ppm := ea_volatility a;
     mf_confidence_ppm := PPM - ea_uncertainty a; mf_calibration_score_ppm := 0;
     mf_data_quality_score_ppm := PPM - ea_uncertainty a; mf_ood_score_ppm := ea_uncertainty a;
     mf_horizon_ns := ea_duration a;
     mf_as_of_exchange_event_time_ns := emf_as_of_exchange_event_time_ns (eib_market_features b);
     mf_production_process_monotonic_time_ns := eib_production_process_monotonic_time_ns b;
     mf_expiration_process_monotonic_time_ns := expiration;
     mf_has_transaction_cost_estimate := false; mf_estimated_spread_cost_ppm := 0; mf_estimated_slippage_cost_ppm := 0;
     mf_estimated_market_impact_ppm := 0; mf_estimated_adverse_selection_cost_ppm := 0; mf_estimated_fee_cost_ppm := 0;
     mf_forecast_target := RETURN; mf_forecast_unit := RETURN_PPM; mf_target_value := ea_expected_return a;
     mf_target_p10 := egr_lower_return_ppm g; mf_target_p50 := egr_center_return_ppm g;
     mf_target_p90 := egr_upper_return_ppm g;
     mf_horizon_unit := ELAPSED_NANOSECONDS; mf_horizon_value := 0; mf_horizon_halt_policy := HALT_NOT_APPLICABLE;
     mf_horizon_session_endpoint := ENDPOINT_NOT_APPLICABLE; mf_horizon_calendar_version := None;
     mf_target_exchange_event_time_ns := 0 |}.

(** The result that [evaluate] assembles, before its own checks. *)
Definition earnings_result (b : EarningsInputBundle) (a : EarningsAnalysis) (input : pybytes) (forecast_id : Identifier128)
    (expiration : Z) (contract : pybytes) : EarningsSpecialistResult :=
  {| esr_earnings_event_id := eib_earnings_event_id b; esr_forecast_id := forecast_id; esr_model_id := ec_model_id config;
     esr_model_version := ec_model_version config; esr_input_sha256 := input; esr_revision := eib_revision b;
     esr_phase := if emf_is_post_release (eib_market_features b) then EP_PRICE_DISCOVERY else EP_RELEASE_PROCESSING;
     esr_surprises := ea_surprises a; esr_guidance_changes := ea_guidance a; esr_accounting_quality_flags := ea_flags a;
     esr_materiality_ppm := ea_materiality a; esr_direction := ea_direction a; esr_expected_return_ppm := ea_expected_return a;
     esr_expected_volatility_ppm := ea_volatility a; esr_expected_gap := ea_gap a;
     esr_estimated_price_discovery_duration_ns := ea_duration a; esr_uncertainty_ppm := ea_uncertainty a;
     esr_reason_codes := ea_reasons a;
     esr_production_process_monotonic_time_ns := eib_production_process_monotonic_time_ns b;
     esr_valid_until_process_monotonic_time_ns := expiration; esr_forecast_contract_bytes := contract;
     esr_schema_version := EARNINGS_SCHEMA_VERSION |}.

(** [evaluate] *)
Definition earnings_evaluate (b : EarningsInputBundle) : res EarningsSpecialistResult :=
  do! raise_when (negb (emf_valid (eib_market_features b))) EarningsEvaluationError
        "invalid market features fail the earnings specialist closed" in
  let expiration := eib_production_process_monotonic_time_ns b + ec_forecast_ttl_ns config in
  do! raise_when (2 ^ 64 - 1 <? expiration) EarningsEvaluationError "earnings forecast expiration overflows uint64" in
  let! a := analyze_earnings b in
  let! input := EarningsInputBundle_sha256 b in
  let! forecast_id := news_derived_identifier (str "earnings-forecast") [PBytes input; PStr (id_hex (ec_model_version config))] in
  let! record_id := news_derived_identifier (str "earnings-forecast-record") [PStr (id_hex forecast_id)] in
  let! contract := build_model_forecast_contract encode (earnings_forecast b a record_id forecast_id expiration) in
  let r := earnings_result b a input forecast_id expiration contract in
  do! EarningsSpecialistResult_post_init r in Ok r.

(** [verify_replay] *)
Definition earnings_verify_replay (b : EarningsInputBundle) (expected : pybytes) : res EarningsSpecialistResult :=
  do! raise_when (negb (Z.of_nat (length expected) =? SHA256_BYTES)) EarningsEvaluationError
        "expected replay digest must contain 32 bytes" in
  let! result := earnings_evaluate b in
  let! digest := EarningsSpecialistResult_sha256 result in
  do! raise_when (negb (bool_decide (digest = expected))) EarningsEvaluationError "earnings replay output digest mismatch" in
  Ok result.
End specialist.

(** ** The lifecycle of an event *)

Record EarningsLifecycleTransition := {
  lt_earnings_event_id : Identifier128;
  lt_revision : Z;
  lt_previous_phase : EarningsPhase;
  lt_next_phase : EarningsPhase;
  lt_transition_process_monotonic_time_ns : Z;
}.

(** [approve_transition] of a hook answers without side effects, or raises. *)
Definition EarningsLifecycleHook : Type := EarningsLifecycleTransition -> res bool.

Record EarningsEventLifecycle := {
  el_hooks : list EarningsLifecycleHook;
  el_phase : EarningsPhase;
  el_event_id : option Identifier128;
  el_revision : Z;
  el_history : list EarningsLifecycleTransition;
}.

(** [EarningsEventLifecycle.__init__] *)
Definition new_lifecycle (hooks : list EarningsLifecycleHook) : res EarningsEventLifecycle :=
  do! raise_when (MAX_HOOKS <? Z.of_nat (length hooks)) ValueError "earnings lifecycle hook count exceeds its bound" in
  Ok {| el_hooks := hooks; el_phase := EP_PRE_EARNINGS; el_event_id := None; el_revision := 0; el_history := [] |}.

(** [all(hook.approve_transition(transition) for hook in self._hooks)] *)
Fixpoint approved (hooks : list EarningsLifecycleHook) (t : EarningsLifecycleTransition) : res bool :=
  match hooks with
  | [] => Ok true
  | h :: l => let! ok := h t in if ok : bool then approved l t else Ok false
  end.

(** [_transition] *)
Definition transition (event_id : Identifier128) (revision : Z) (next_phase : EarningsPhase) (now_ns : Z)
    : M EarningsEventLifecycle unit := fun self =>
  let t := {| lt_earnings_event_id := event_id; lt_revision := revision; lt_previous_phase := el_phase self;
              lt_next_phase := next_phase; lt_transition_process_monotonic_time_ns := now_ns |} in
  match (do! raise_when (now_ns <=? 0) EarningsEvaluationError "lifecycle transition time must be positive" in
         do! raise_when (MAX_TRANSITIONS <=? Z.of_nat (length (el_history self))) EarningsEvaluationError
               "earnings lifecycle transition history is full" in
         let! ok := approved (el_hooks self) t in
         raise_when (negb ok) EarningsEvaluationError "earnings lifecycle hook rejected the transition") with
  | Err e => (self, Err e)
  | Ok _ => ({| el_hooks := el_hooks self; el_phase := next_phase; el_event_id := Some event_id; el_revision := revision;
                el_history := el_history self ++ [t] |}, Ok tt)
  end.

(** [accept_release] *)
Definition accept_release (result : EarningsSpecialistResult) : M EarningsEventLifecycle unit := fun self =>
  let first_release := bool_decide (el_phase self = EP_PRE_EARNINGS) && (esr_revision result =? 1) in
  let correction := (el_revision self <? esr_revision result)
                    && bool_decide (el_event_id self = Some (esr_earnings_event_id result))
                    && bool_decide (el_phase self ∈ [EP_RELEASE_PROCESSING; EP_PRICE_DISCOVERY; EP_RECOVERY]) in
  if negb first_release && negb correction
  then (self, raise EarningsEvaluationError "release is stale or invalid for the current earnings phase")
  else transition (esr_earnings_event_id result) (esr_revision result) EP_RELEASE_PROCESSING
         (esr_production_process_monotonic_time_ns result) self.

(** [begin_price_discovery] *)
Definition begin_price_discovery (result : EarningsSpecialistResult) : M EarningsEventLifecycle unit := fun self =>
  if negb (bool_decide (el_phase self = EP_RELEASE_PROCESSING)) || negb (bool_decide (esr_phase result = EP_PRICE_DISCOVERY))
     || negb (bool_decide (el_event_id self = Some (esr_earnings_event_id result)))
     || negb (el_revision self =? esr_revision result)
  then (self, raise EarningsEvaluationError "price discovery requires matching post-release specialist output")
  else transition (esr_earnings_event_id result) (esr_revision result) EP_PRICE_DISCOVERY
         (esr_production_process_monotonic_time_ns result) self.

(** [complete_price_discovery] *)
Definition complete_price_discovery (result : EarningsSpecialistResult) (now_monotonic_time_ns : Z)
    : M EarningsEventLifecycle bool := fun self =>
  if negb (bool_decide (el_phase self = EP_PRICE_DISCOVERY))
     || negb (bool_decide (el_event_id self = Some (esr_earnings_event_id result)))
     || negb (el_revision self =? esr_revision result)
  then (self, raise EarningsEvaluationError "recovery requires matching active price-discovery output")
  else
    let elapsed := now_monotonic_time_ns - esr_production_process_monotonic_time_ns result in
    if elapsed <? esr_estimated_price_discovery_duration_ns result then (self, Ok false)
    else match transition (esr_earnings_event_id result) (esr_revision result) EP_RECOVERY now_monotonic_time_ns self with
         | (self, Err e) => (self, Err e)
         | (self, Ok _) => (self, Ok true)
         end.

(** [reset] *)
Definition reset (now_monotonic_time_ns : Z) : M EarningsEventLifecycle unit := fun self =>
  match el_event_id self with
  | Some event_id =>
      if negb (bool_decide (el_phase self = EP_RECOVERY))
      then (self, raise EarningsEvaluationError "earnings lifecycle reset requires RECOVERY")
      else match transition event_id (el_revision self) EP_PRE_EARNINGS now_monotonic_time_ns self with
           | (self, Err e) => (self, Err e)
           | (self, Ok _) => ({| el_hooks := el_hooks self; el_phase := el_phase self; el_event_id := None; el_revision := 0;
                                 el_history := el_history self |}, Ok tt)
           end
  | None => (self, raise EarningsEvaluationError "earnings lifecycle reset requires RECOVERY")
  end.

(** ** Histories of a lifecycle *)

(** The transitions that an event may make from its event identifier and revision: it starts
    with revision one, a correction of the same event has a larger revision and reopens release
    processing, and discovery, recovery and the end keep the revision. *)
Definition legal (event : option Identifier128) (revision : Z) (t : EarningsLifecycleTransition) : Prop :=
  match lt_previous_phase t, lt_next_phase t with
  | EP_PRE_EARNINGS, EP_RELEASE_PROCESSING => lt_revision t = 1
  | EP_RELEASE_PROCESSING, EP_RELEASE_PROCESSING | EP_PRICE_DISCOVERY, EP_RELEASE_PROCESSING
  | EP_RECOVERY, EP_RELEASE_PROCESSING => event = Some (lt_earnings_event_id t) /\ revision < lt_revision t
  | EP_RELEASE_PROCESSING, EP_PRICE_DISCOVERY | EP_PRICE_DISCOVERY, EP_RECOVERY
  | EP_RECOVERY, EP_PRE_EARNINGS => event = Some (lt_earnings_event_id t) /\ revision = lt_revision t
  | _, _ => False
  end.

(** The histories of legal transitions that every hook approved, with the phase, event and
    revision in which they end. *)
Inductive history_runs (hooks : list EarningsLifecycleHook)
    : list EarningsLifecycleTransition -> EarningsPhase -> option Identifier128 -> Z -> Prop :=
  | runs_nil : history_runs hooks [] EP_PRE_EARNINGS None 0
  | runs_snoc l event revision t :
      history_runs hooks l (lt_previous_phase t) event revision -> legal event revision t ->
      Forall (fun h => h t = Ok true) hooks -> 0 < lt_transition_process_monotonic_time_ns t ->
      history_runs hooks (l ++ [t]) (lt_next_phase t)
        (if bool_decide (lt_next_phase t = EP_PRE_EARNINGS) then None else Some (lt_earnings_event_id t))
        (if bool_decide (lt_next_phase t = EP_PRE_EARNINGS) then 0 else lt_revision t).

(** The lifecycles that operations reach, refused ones included. *)
Inductive lifecycle_reached (hooks : list EarningsLifecycleHook) : EarningsEventLifecycle -> Prop :=
  | lr_new self : new_lifecycle hooks = Ok self -> lifecycle_reached hooks self
  | lr_release r self : lifecycle_reached hooks self -> lifecycle_reached hooks (accept_release r self).1
  | lr_discovery r self : lifecycle_reached hooks self -> lifecycle_reached hooks (begin_price_discovery r self).1
  | lr_recovery r now self : lifecycle_reached hooks self -> lifecycle_reached hooks (complete_price_discovery r now self).1
  | lr_reset now self : lifecycle_reached hooks self -> lifecycle_reached hooks (reset now self).1.

Record lifecycle_inv (hooks : list EarningsLifecycleHook) (self : EarningsEventLifecycle) : Prop := {
  lv_hooks : el_hooks self = hooks /\ Z.of_nat (length hooks) <= MAX_HOOKS;
  lv_bounded : Z.of_nat (length (el_history self)) <= MAX_TRANSITIONS;
  lv_history : history_runs hooks (el_history self) (el_phase self) (el_event_id self) (el_revision self);
}.

Lemma approved_forall hooks t : approved hooks t = Ok true <-> Forall (fun h => h t = Ok true) hooks.
Proof.
  induction hooks as [|h l IH]; cbn [approved]; [by split; [intros; apply Forall_nil_2|]|].
  rewrite Forall_cons, <- IH. destruct (h t) as [[]|e]; cbn [rbind]; naive_solver.
Qed.

(** A transition either leaves the lifecycle as it was or appends the transition. *)
Lemma transition_spec event revision next now self :
  let t := {| lt_earnings_event_id := event; lt_revision := revision; lt_previous_phase := el_phase self; lt_next_phase := next;
              lt_transition_process_monotonic_time_ns := now |} in
  (exists e, transition event revision next now self = (self, Err e))
  \/ (0 < now /\ Z.of_nat (length (el_history self)) < MAX_TRANSITIONS /\ Forall (fun h => h t = Ok true) (el_hooks self)
      /\ transition event revision next now self
         = ({| el_hooks := el_hooks self; el_phase := next; el_event_id := Some event; el_revision := revision;
               el_history := el_history self ++ [t] |}, Ok tt)).
Proof.
  intros t. unfold transition. fold t. match goal with |- context [match ?m with Ok _ => _ | Err _ => _ end] => destruct m as [u|e] eqn:E end;
    [right | left; by exists e]. inv_ok. destruct a1; [|done]. split_and!; [lia | lia | by apply approved_forall | done].
Qed.

Lemma transition_inv hooks event revision next now self :
  lifecycle_inv hooks self -> next <> EP_PRE_EARNINGS ->
  legal (el_event_id self) (el_revision self)
    {| lt_earnings_event_id := event; lt_revision := revision; lt_previous_phase := el_phase self; lt_next_phase := next;
       lt_transition_process_monotonic_time_ns := now |} ->
  lifecycle_inv hooks (transition event revision next now self).1.
Proof.
  intros [[Hh Hn] Hb Hr] Hnext Hl. destruct (transition_spec event revision next now self) as [[e ->] | (Ht & Hroom & Hok & ->)]; [done|].
  cbn [fst]. set (t := {| lt_earnings_event_id := event |}) in *. constructor; cbn [el_hooks el_history el_phase el_event_id el_revision].
  - done.
  - rewrite length_app. cbn [length]. lia.
  - pose proof (runs_snoc hooks (el_history self) (el_event_id self) (el_revision self) t Hr Hl) as Hs.
    cbn [t lt_next_phase lt_earnings_event_id lt_revision lt_transition_process_monotonic_time_ns] in Hs.
    rewrite !bool_decide_eq_false_2 in Hs by done. apply Hs; [by rewrite <- Hh | done].
Qed.

Lemma accept_release_inv hooks r self : lifecycle_inv hooks self -> lifecycle_inv hooks (accept_release r self).1.
Proof.
  intros Hi. unfold accept_release. destruct (negb _ && negb _) eqn:E; [done|].
  apply transition_inv; [done | done|]. apply andb_false_iff in E. unfold legal. cbn [lt_previous_phase lt_next_phase lt_revision lt_earnings_event_id].
  destruct E as [E%negb_false_iff | E%negb_false_iff]; bprop.
  - rewrite H. lia.
  - destruct (el_phase self); [set_solver | split; [done | lia]..].
Qed.

Lemma begin_price_discovery_inv hooks r self : lifecycle_inv hooks self -> lifecycle_inv hooks (begin_price_discovery r self).1.
Proof.
  intros Hi. unfold begin_price_discovery. destruct (_ || _) eqn:E; [done|]. bprop.
  apply transition_inv; [done | done|]. unfold legal. cbn [lt_previous_phase lt_next_phase lt_revision lt_earnings_event_id].
  rewrite H. split; [done | lia].
Qed.

Lemma complete_price_discovery_inv hooks r now self :
  lifecycle_inv hooks self -> lifecycle_inv hooks (complete_price_discovery r now self).1.
Proof.
  intros Hi. unfold complete_price_discovery. destruct (_ || _) eqn:E; [done|]. bprop. destruct (_ <? _); [done|].
  assert (lifecycle_inv hooks (transition (esr_earnings_event_id r) (esr_revision r) EP_RECOVERY now self).1) as Ht.
  { apply transition_inv; [done | done|]. unfold legal. cbn [lt_previous_phase lt_next_phase lt_revision lt_earnings_event_id].
    rewrite H. split; [done | lia]. }
  by destruct (transition _ _ _ _ self) as [self' [u|e]].
Qed.

Lemma reset_inv hooks now self : lifecycle_inv hooks self -> lifecycle_inv hooks (reset now self).1.
Proof.
  intros Hi. unfold reset. destruct (el_event_id self) as [event|] eqn:Ev; [|done]. destruct (negb _) eqn:E; [done|].
  apply negb_false_iff, bool_decide_eq_true in E.
  destruct (transition_spec event (el_revision self) EP_PRE_EARNINGS now self) as [[e ->] | (Ht & Hroom & Hok & ->)]; [done|].
  destruct Hi as [[Hh Hn] Hb Hr]. cbn [fst el_hooks el_phase el_history]. set (t := {| lt_earnings_event_id := event |}) in *.
  constructor; cbn [el_hooks el_history el_phase el_event_id el_revision]; [done | rewrite length_app; cbn [length]; lia |].
  assert (legal (el_event_id self) (el_revision self) t) as Hl by (unfold legal, t; cbn; by rewrite E, Ev).
  pose proof (runs_snoc hooks (el_history self) (el_event_id self) (el_revision self) t Hr Hl) as Hs.
  apply Hs; [by rewrite <- Hh | done].
Qed.

(** An operation that raises, or that answers that discovery goes on, changes nothing. *)
Lemma transition_failed event revision next now self e :
  (transition event revision next now self).2 = Err e -> (transition event revision next now self).1 = self.
Proof. destruct (transition_spec event revision next now self) as [[e' ->] | (_ & _ & _ & ->)]; done. Qed.

Definition unchanged_on_failure {A} (m : M EarningsEventLifecycle A) : Prop :=
  forall self e, (m self).2 = Err e -> (m self).1 = self.

Lemma accept_release_failed r : unchanged_on_failure (accept_release r).
Proof. intros self e. unfold accept_release. destruct (_ && _); [done | apply transition_failed]. Qed.

Lemma begin_price_discovery_failed r : unchanged_on_failure (begin_price_discovery r).
Proof. intros self e. unfold begin_price_discovery. destruct (_ || _); [done | apply transition_failed]. Qed.

Lemma complete_price_discovery_failed r now : unchanged_on_failure (complete_price_discovery r now).
Proof.
  intros self e. unfold complete_price_discovery. destruct (_ || _); [done|]. destruct (_ <? _); [done|].
  pose proof (transition_failed (esr_earnings_event_id r) (esr_revision r) EP_RECOVERY now self) as Ht.
  destruct (transition _ _ _ _ self) as [self' [u|e']]; [done|]. intros _. by apply (Ht e').
Qed.

Lemma reset_failed now : unchanged_on_failure (reset now).
Proof.
  intros self e. unfold reset. destruct (el_event_id self) as [event|]; [|done]. destruct (negb _); [done|].
  pose proof (transition_failed event (el_revision self) EP_PRE_EARNINGS now self) as Ht.
  destruct (transition _ _ _ _ self) as [self' [u|e']]; [done|]. intros _. by apply (Ht e').
Qed.

(** C33: the lifecycle of an event.  In every history of a lifecycle, refused operations
    included, the phase, event and revision are those in which a sequence of legal transitions
    ends, each approved by every hook and at a positive time; the history is bounded.  An
    operation that raises changes nothing, and recovery begins only when the estimated
    duration has passed since the result was produced. *)
Theorem earnings_lifecycle_sound hooks self :
  lifecycle_reached hooks self ->
  lifecycle_inv hooks self
  /\ (forall r, unchanged_on_failure (accept_release r) /\ unchanged_on_failure (begin_price_discovery r))
  /\ (forall r now, unchanged_on_failure (complete_price_discovery r now) /\ unchanged_on_failure (reset now))
  /\ forall r now, (complete_price_discovery r now self).2 = Ok true ->
       el_phase self = EP_PRICE_DISCOVERY
       /\ esr_production_process_monotonic_time_ns r + esr_estimated_price_discovery_duration_ns r <= now.
Proof.
  intros H. split_and!.
  - induction H; [|by apply accept_release_inv | by apply begin_price_discovery_inv | by apply complete_price_discovery_inv | by apply reset_inv].
    unfold new_lifecycle in H. inv_ok. constructor; cbn; [split; [done | lia] | done | constructor].
  - intros r. split; [apply accept_release_failed | apply begin_price_discovery_failed].
  - intros r now. split; [apply complete_price_discovery_failed | apply reset_failed].
  - intros r now. unfold complete_price_discovery. destruct (_ || _) eqn:E; [done|]. bprop. destruct (_ <? _) eqn:E2; [done|].
    intros _. split; [done | lia].
Qed.

(** A lifecycle whose history is full makes no further transition, also not to its end. *)
Lemma full_lifecycle_stays self now :
  MAX_TRANSITIONS <= Z.of_nat (length (el_history self)) -> (reset now self).1 = self.
Proof.
  intros Hf. unfold reset. destruct (el_event_id self) as [event|]; [|done]. destruct (negb _); [done|].
  destruct (transition_spec event (el_revision self) EP_PRE_EARNINGS now self) as [[e ->] | (_ & Hroom & _)]; [done | lia].
Qed.

(** ** Valid bundles of moderate values *)

(** The bundle and the objects that it holds were constructed. *)
Record valid_earnings (b : EarningsInputBundle) : Prop := {
  ve_bundle : EarningsInputBundle_post_init b = Ok tt;
  ve_identities : Forall (fun m => EarningsMetricIdentity_post_init (nem_identity m) = Ok tt) (eib_actuals b);
  ve_guidance : Forall (fun g => GuidanceRange_post_init g = Ok tt) (eib_current_guidance b ++ eib_prior_guidance b);
  ve_option : forall o, eib_option_implied_move b = Some o -> OptionImpliedMove_post_init o = Ok tt;
  ve_history : Forall (fun h => HistoricalEarningsReaction_post_init h = Ok tt) (eib_historical_reactions b);
  ve_features : EarningsMarketFeatures_post_init (eib_market_features b) = Ok tt;
}.

(** Values whose ratios in parts per million fit a signed 64-bit integer. *)
Definition EARNINGS_LIMIT : Z := 4611686018427.
Definition modest (v : Z) : Prop := - EARNINGS_LIMIT <= v <= EARNINGS_LIMIT.

Record modest_values (b : EarningsInputBundle) : Prop := {
  mv_actuals : Forall (fun m => modest (nem_value m)) (eib_actuals b);
  mv_consensus : Forall (fun e => modest (esd_consensus_value e)) (eib_consensus b);
  mv_priors : Forall (fun m => modest (nem_value m)) (eib_prior_reported_values b);
  mv_guidance : Forall (fun g => modest (gui_lower_value g) /\ modest (gui_upper_value g)) (eib_current_guidance b ++ eib_prior_guidance b);
  mv_adjustments : sum_of (fun a => Z.abs (ota_amount_currency_nanos a)) (eib_one_time_adjustments b) <= EARNINGS_LIMIT;
  mv_segments : modest (sum_of nem_value (List.filter (gaap_metric EK_SEGMENT_REVENUE) (eib_actuals b)));
}.

Lemma earnings_epsilon_positive config unit : EarningsSpecialistConfig_post_init config = Ok tt -> 0 < earnings_epsilon config unit.
Proof. unfold EarningsSpecialistConfig_post_init. intros H. inv_ok. cbn [existsb] in *. bprop. destruct unit; cbn; lia. Qed.

Lemma earnings_ratio_total n d :
  - 2 * EARNINGS_LIMIT <= n <= 2 * EARNINGS_LIMIT -> 0 < d -> earnings_ratio_ppm n d = Ok (Z.quot (n * PPM) d).
Proof.
  intros Hn Hd. unfold earnings_ratio_ppm. rewrite trunc_div_quot by done. cbn [rbind].
  assert (MIN_INT64 <= Z.quot (n * PPM) d <= MAX_INT64); [|by rewrite raise_when_false by lia].
  apply quot_between; [done|]. unfold EARNINGS_LIMIT, PPM, MIN_INT64, MAX_INT64 in *. nia.
Qed.

Lemma last_with_some {A} (f : A -> EarningsMetricIdentity) k l x :
  NoDup (map f l) -> last_with f k l = Some x <-> x ∈ l /\ f x = k.
Proof.
  intros Hn. unfold last_with. split.
  - intros E. apply find_some in E as [Hp%in_rev%list_elem_of_In Hid]. by apply bool_decide_eq_true in Hid.
  - intros [Hx Hk]. destruct (List.find _ _) as [y|] eqn:E.
    + apply find_some in E as [Hp%in_rev%list_elem_of_In Hid]. apply bool_decide_eq_true in Hid. f_equal.
      apply (NoDup_map_inj f l); [done..|congruence].
    + exfalso. assert (In x (rev l)) as Hr by (by apply -> in_rev; apply list_elem_of_In).
      pose proof (find_none _ _ E x Hr) as Hno. apply bool_decide_eq_false in Hno. done.
Qed.

Lemma last_with_none {A} (f : A -> EarningsMetricIdentity) k l : last_with f k l = None <-> Forall (fun x => f x <> k) l.
Proof.
  unfold last_with. rewrite Forall_forall. split.
  - intros E x Hx. pose proof (find_none _ _ E x ltac:(apply -> in_rev; by apply list_elem_of_In)) as H. by apply bool_decide_eq_false in H.
  - intros H. destruct (List.find _ _) as [y|] eqn:E; [|done]. apply find_some in E as [Hp%in_rev%list_elem_of_In Hid].
    apply bool_decide_eq_true in Hid. by destruct (H y Hp).
Qed.

Lemma valid_unique b : valid_earnings b ->
  NoDup (map esd_identity (eib_consensus b)) /\ NoDup (map nem_identity (eib_prior_reported_values b))
  /\ NoDup (map gui_identity (eib_prior_guidance b)) /\ eib_actuals b <> [].
Proof.
  intros Hv. pose proof (ve_bundle b Hv) as H. unfold EarningsInputBundle_post_init in H. inv_ok.
  unfold validate_unique_metric_identities in Ha8. unfold validate_collection_bounds in Ha5. inv_ok. bprop.
  split_and!; by try apply unique_by_nodup.
Qed.

(** ** Exact surprises and guidance changes *)

(** A surprise compares an actual value with the estimate of exactly its identity, and with
    nothing if there is none. *)
Record surprise_exact (config : EarningsSpecialistConfig) (b : EarningsInputBundle) (m : NormalizedEarningsMetric) (s : MetricSurprise) : Prop := {
  sx_identity : esu_identity s = nem_identity m /\ esu_actual_value s = nem_value m;
  sx_compared : forall e, e ∈ eib_consensus b -> esd_identity e = nem_identity m ->
    esu_surprise_ppm s = Some (Z.quot ((nem_value m - esd_consensus_value e) * PPM)
                                 (Z.max (esd_dispersion e) (earnings_epsilon config (ei_unit (nem_identity m)))))
    /\ esu_reason s = None;
  sx_missing : Forall (fun e => esd_identity e <> nem_identity m) (eib_consensus b) ->
    esu_surprise_ppm s = None
    /\ (esu_reason s = Some ER_INCOMPATIBLE_METRIC \/ esu_reason s = Some ER_MISSING_CONSENSUS)
    /\ (esu_reason s = Some ER_INCOMPATIBLE_METRIC <->
        Exists (fun e => same_metric_family (nem_identity m) (esd_identity e) = true) (eib_consensus b));
}.

Lemma existsb_exists_iff {A} (f : A -> bool) l : existsb f l = true <-> Exists (fun x => f x = true) l.
Proof. rewrite existsb_exists, Exists_exists. by setoid_rewrite list_elem_of_In. Qed.

Lemma res_map_forall2 {A B} (f : A -> res B) (P : A -> B -> Prop) l :
  (forall x, x ∈ l -> exists y, f x = Ok y /\ P x y) -> exists ys, res_map f l = Ok ys /\ Forall2 P l ys.
Proof.
  induction l as [|x l IH]; intros H; cbn [res_map]; [by exists []|].
  destruct (H x) as (y & -> & Hy); [set_solver|]. destruct IH as (ys & -> & Hys); [set_solver|]. cbn [rbind].
  exists (y :: ys). split; [done | by constructor].
Qed.

Lemma res_any_total {A} (f : A -> res bool) l : (forall x, x ∈ l -> exists k, f x = Ok k) -> exists k, res_any f l = Ok k.
Proof.
  induction l as [|x l IH]; intros H; cbn [res_any]; [by eexists|]. destruct (H x) as [k ->]; [set_solver|]. cbn [rbind].
  destruct k; [by eexists | apply IH; set_solver].
Qed.

Lemma median_total c l : l <> [] -> exists m, median c l = Ok m.
Proof.
  intros Hl. destruct (median_between c l (foldr Z.min 0 l) (foldr Z.max 0 l) Hl) as (m & E & _); [|by exists m].
  apply Forall_forall. intros x Hx. clear Hl. induction l as [|y l IH]; [by apply elem_of_nil in Hx|]. cbn [foldr].
  apply elem_of_cons in Hx as [-> | Hx]; [lia|]. specialize (IH Hx). lia.
Qed.

Lemma od_set_elem {K V} `{EqDecision K} (k k' : K) (v v' : V) l : (k', v') ∈ od_set k v l -> (k' = k /\ v' = v) \/ (k', v') ∈ l.
Proof.
  induction l as [|[i w] l IH]; cbn [od_set]; [set_solver|]. case_bool_decide as Hk; [|set_solver].
  rewrite !elem_of_cons. intros [[= -> ->] | H]; [left; by split | by right; right].
Qed.

Section analysis.
Variable config : EarningsSpecialistConfig.
Variable b : EarningsInputBundle.
Hypothesis Hc : EarningsSpecialistConfig_post_init config = Ok tt.
Hypothesis Hv : valid_earnings b.
Hypothesis Hm : modest_values b.

Lemma metric_surprise_total m : m ∈ eib_actuals b -> exists s, metric_surprise config b m = Ok s /\ surprise_exact config b m s.
Proof using Hc Hv Hm.
  intros Hin. destruct (valid_unique b Hv) as (Hu & _). unfold metric_surprise.
  destruct (last_with _ _ _) as [e|] eqn:E.
  - apply last_with_some in E as [He Hid]; [|done]. pose proof (earnings_epsilon_positive config (ei_unit (nem_identity m)) Hc).
    pose proof (mv_actuals b Hm) as Ha. pose proof (mv_consensus b Hm) as Hcs. rewrite Forall_forall in Ha. rewrite Forall_forall in Hcs.
    specialize (Ha m Hin). specialize (Hcs e He). unfold modest in *.
    rewrite earnings_ratio_total by lia. cbn [rbind]. eexists. split; [done|]. constructor; cbn; [done | |].
    + intros e' He' Hid'. rewrite (NoDup_map_inj esd_identity (eib_consensus b) e e') by congruence. done.
    + intros Hno. rewrite Forall_forall in Hno. by destruct (Hno e He).
  - apply last_with_none in E. eexists. split; [done|]. constructor; cbn; [done | |].
    + intros e He Hid. rewrite Forall_forall in E. by destruct (E e He).
    + intros _. split; [done|]. rewrite <- existsb_exists_iff. destruct (existsb _ _); naive_solver.
Qed.

(** The middle of guidance lies in its range. *)
Lemma midpoint_total g : g ∈ eib_current_guidance b ++ eib_prior_guidance b ->
  exists v, midpoint g = Ok v /\ gui_lower_value g <= v <= gui_upper_value g /\ modest v.
Proof using Hv Hm.
  intros Hg. pose proof (ve_guidance b Hv) as Hok. rewrite Forall_forall in Hok. specialize (Hok g Hg).
  pose proof (mv_guidance b Hm) as Hmod. rewrite Forall_forall in Hmod. destruct (Hmod g Hg) as [H1 H2].
  unfold GuidanceRange_post_init in Hok. inv_ok. unfold midpoint. rewrite trunc_div_quot by done. cbn [rbind].
  assert (0 <= Z.quot (gui_upper_value g - gui_lower_value g) 2 <= gui_upper_value g - gui_lower_value g) by (apply quot_between; lia).
  unfold modest in *. eexists. split; [done|]. lia.
Qed.

(** A guidance change compares the middle with that of the prior guidance of exactly its
    identity, and with nothing if there is none. *)
Record guidance_exact (g : GuidanceRange) (c : GuidanceChange) : Prop := {
  gx_identity : egc_identity c = gui_identity g /\ gui_lower_value g <= egc_current_midpoint c <= gui_upper_value g;
  gx_compared : forall p, p ∈ eib_prior_guidance b -> gui_identity p = gui_identity g ->
    exists v, egc_prior_midpoint c = Some v /\ gui_lower_value p <= v <= gui_upper_value p
      /\ egc_change_ppm c = Some (Z.quot ((egc_current_midpoint c - v) * PPM)
                                   (Z.max (Z.abs v) (earnings_epsilon config (ei_unit (gui_identity g)))))
      /\ egc_reason c = None;
  gx_missing : Forall (fun p => gui_identity p <> gui_identity g) (eib_prior_guidance b) ->
    egc_change_ppm c = None /\ egc_reason c = Some ER_MISSING_PRIOR_GUIDANCE;
}.

Lemma guidance_change_total g : g ∈ eib_current_guidance b -> exists c, guidance_change config b g = Ok c /\ guidance_exact g c.
Proof using Hc Hv Hm.
  intros Hg. destruct (valid_unique b Hv) as (_ & _ & Hu & _). unfold guidance_change.
  destruct (midpoint_total g) as (v & -> & Hv1 & Hv2); [set_solver|]. cbn [rbind]. destruct (last_with _ _ _) as [p|] eqn:E.
  - apply last_with_some in E as [Hp Hid]; [|done]. destruct (midpoint_total p) as (w & -> & Hw1 & Hw2); [set_solver|]. cbn [rbind].
    pose proof (earnings_epsilon_positive config (ei_unit (gui_identity g)) Hc). unfold modest in *. rewrite earnings_ratio_total by lia. cbn [rbind].
    eexists. split; [done|]. constructor; cbn; [done | |].
    + intros p' Hp' Hid'. rewrite <- (NoDup_map_inj gui_identity (eib_prior_guidance b) p p') by congruence. by exists w.
    + intros Hno. rewrite Forall_forall in Hno. by destruct (Hno p Hp).
  - apply last_with_none in E. eexists. split; [done|]. constructor; cbn; [done | |done].
    intros p Hp Hid. rewrite Forall_forall in E. by destruct (E p Hp).
Qed.

(** ** The other parts of the analysis return *)

Lemma actual_index_entries k m : (k, m) ∈ actual_index b -> m ∈ eib_actuals b /\ k = nem_identity m.
Proof using b.
  clear Hc Hv Hm config. unfold actual_index. assert (forall l d, (forall k m, (k, m) ∈ d -> m ∈ eib_actuals b /\ k = nem_identity m) ->
    (forall m, m ∈ l -> m ∈ eib_actuals b) ->
    (k, m) ∈ foldl (fun d m => od_set (nem_identity m) m d) d l -> m ∈ eib_actuals b /\ k = nem_identity m) as H.
  { induction l as [|x l IH]; intros d Hd Hl Hin; cbn [foldl] in Hin; [by apply Hd|]. eapply IH; [| |exact Hin]; [|set_solver].
    intros k' m' Hk. apply od_set_elem in Hk as [[-> ->] | Hk]; [split; [set_solver | done] | by apply Hd]. }
  apply H; [set_solver | done].
Qed.

Lemma gaap_diverges_total entry : entry ∈ actual_index b -> exists k, gaap_diverges config (actual_index b) entry = Ok k.
Proof using Hc Hv Hm.
  destruct entry as [i m]. intros Hin. apply actual_index_entries in Hin as [Hi ->]. unfold gaap_diverges.
  destruct (negb _); [by eexists|]. pose proof (ve_identities b Hv) as Hid. rewrite Forall_forall in Hid. specialize (Hid m Hi).
  assert (EarningsMetricIdentity_post_init {| ei_kind := ei_kind (nem_identity m); ei_basis := AB_NON_GAAP; ei_unit := ei_unit (nem_identity m);
    ei_fiscal_period := ei_fiscal_period (nem_identity m); ei_segment_name := ei_segment_name (nem_identity m) |} = Ok tt) as -> by exact Hid.
  cbn [rbind]. destruct (od_get _ _) as [m'|] eqn:E; [|by eexists]. apply od_get_elem, actual_index_entries in E as [Hi' _].
  pose proof (mv_actuals b Hm) as Ha. rewrite Forall_forall in Ha. pose proof (Ha m Hi). pose proof (Ha m' Hi').
  pose proof (earnings_epsilon_positive config (ei_unit (nem_identity m)) Hc). unfold modest in *.
  rewrite earnings_ratio_total by lia. by eexists.
Qed.

Lemma revenue_modest r : consolidated_revenue b = Some r -> modest (nem_value r).
Proof using Hm.
  intros E. apply find_some in E as [Hr%list_elem_of_In _]. pose proof (mv_actuals b Hm) as Ha. rewrite Forall_forall in Ha. by apply Ha.
Qed.

Lemma quality_flags_total : exists flags, quality_flags config b = Ok flags.
Proof using Hc Hv Hm.
  unfold quality_flags, has_gaap_divergence.
  destruct (res_any_total (gaap_diverges config (actual_index b)) (actual_index b) gaap_diverges_total) as [d ->]. cbn [rbind].
  pose proof (earnings_epsilon_positive config EU_CURRENCY_NANOS Hc) as He. pose proof revenue_modest as Hr.
  pose proof (mv_adjustments b Hm) as Had. pose proof (mv_segments b Hm) as Hsg.
  assert (0 <= sum_of (fun a => Z.abs (ota_amount_currency_nanos a)) (eib_one_time_adjustments b)) as Hpos
    by (unfold sum_of; clear; induction (eib_one_time_adjustments b); cbn [foldr]; lia).
  unfold adjustments_are_material, segments_mismatch, modest, EARNINGS_LIMIT in *.
  destruct (consolidated_revenue b) as [r|]; cbn [rbind]; [|by eexists]. specialize (Hr r eq_refl).
  case_bool_decide; cbn [rbind]; [|rewrite earnings_ratio_total by (unfold EARNINGS_LIMIT; lia); cbn [rbind]];
    (case_bool_decide; cbn [rbind]; [|rewrite earnings_ratio_total by (unfold EARNINGS_LIMIT; lia); cbn [rbind]]; by eexists).
Qed.

Lemma prior_change_total m : m ∈ eib_actuals b -> exists l, prior_change config b m = Ok l.
Proof using Hc Hv Hm.
  intros Hin. destruct (valid_unique b Hv) as (_ & Hu & _). unfold prior_change. destruct (last_with _ _ _) as [p|] eqn:E; [|by eexists].
  apply last_with_some in E as [Hp _]; [|done]. pose proof (earnings_epsilon_positive config (ei_unit (nem_identity m)) Hc).
  pose proof (mv_actuals b Hm) as Ha. pose proof (mv_priors b Hm) as Hpr. rewrite Forall_forall in Ha. rewrite Forall_forall in Hpr.
  specialize (Ha m Hin). specialize (Hpr p Hp). unfold modest in *. rewrite earnings_ratio_total by lia. by eexists.
Qed.

Lemma direction_signal_total s g : exists v, direction_signal config b s g = Ok v /\ - PPM <= v <= PPM.
Proof using Hc Hv Hm.
  unfold direction_signal, prior_change_signal.
  destruct (res_map_forall2 (prior_change config b) (fun _ _ => True) (eib_actuals b)) as (l & -> & _).
  { intros m Hin. destruct (prior_change_total m Hin) as [k Hk]. by exists k. }
  cbn [rbind]. rewrite trunc_div_quot by done. cbn [rbind]. eexists. split; [done|]. apply clamp_between. by unfold PPM.
Qed.

Lemma materiality_total s g : exists v, materiality b s g = Ok v /\ 0 <= v <= PPM.
Proof using Hv.
  unfold materiality. rewrite trunc_div_quot by done. cbn [rbind]. set (x := Z.quot _ 3).
  assert (0 <= x <= PPM) by (apply quot_between; unfold PPM; lia). rewrite trunc_div_quot by done.
  assert (0 <= match eib_option_implied_move b with Some o => Z.min PPM (oim_absolute_move_ppm o * 5) | None => 0 end <= PPM).
  { destruct (eib_option_implied_move b) as [o|] eqn:E; [|unfold PPM; lia]. pose proof (ve_option b Hv o E) as Ho.
    unfold OptionImpliedMove_post_init in Ho. inv_ok. unfold PPM. lia. }
  eexists. split; [done|]. apply quot_between; [done|]. unfold PPM in *. lia.
Qed.

(** The moves and volatilities that the bundle knows. *)
Lemma option_moves_bound : Forall (fun v => 0 <= v <= MAX_ABSOLUTE_RETURN_PPM) (option_moves b).
Proof using Hv.
  unfold option_moves. destruct (eib_option_implied_move b) as [o|] eqn:E; [|apply Forall_nil_2]. pose proof (ve_option b Hv o E) as Ho.
  unfold OptionImpliedMove_post_init in Ho. inv_ok. apply Forall_singleton. lia.
Qed.

Lemma expected_volatility_total m : 0 <= m <= PPM -> exists v, expected_volatility b m = Ok v /\ 0 <= v <= MAX_VOLATILITY_PPM.
Proof using Hv.
  intros Hr. unfold expected_volatility. set (values := List.filter _ _ ++ _).
  assert (exists k, match values with [] => Ok (Z.max 1 (m / 2)) | _ => earnings_median values end = Ok k) as [k ->].
  { destruct values as [|x l]; [by eexists|]. apply median_total. done. }
  cbn [rbind]. rewrite trunc_div_quot by done. cbn [rbind]. eexists. split; [done|]. apply clamp_between. done.
Qed.

Lemma gap_range_total r v :
  - 500000 <= r <= 500000 -> 0 <= v <= MAX_VOLATILITY_PPM ->
  exists g, gap_range b r v = Ok g /\ ExpectedGapRange_post_init g = Ok tt /\ egr_center_return_ppm g = r.
Proof using Hv.
  intros Hr Hvol. unfold gap_range.
  destruct (median_between EarningsEvaluationError (map (fun h => Z.abs (her_gap_return_ppm h)) (eib_historical_reactions b) ++ option_moves b
    ++ [Z.max 1 (v / 2)]) 0 MAX_ABSOLUTE_RETURN_PPM) as (m & -> & Hmag).
  - by destruct (map _ _), (option_moves b).
  - rewrite !Forall_app. split_and!; [|apply option_moves_bound | apply Forall_singleton].
    + change (map ?f ?l) with (f <$> l). apply Forall_fmap. eapply Forall_impl; [apply (ve_history b Hv)|]. cbv beta. intros h Hh.
      unfold HistoricalEarningsReaction_post_init in Hh. inv_ok. cbn. lia.
    + assert (0 <= v / 2 <= MAX_VOLATILITY_PPM) by (split; [apply Z.div_pos; lia | apply Z.div_le_upper_bound; lia]).
      unfold MAX_VOLATILITY_PPM, MAX_ABSOLUTE_RETURN_PPM in *. lia.
  - cbn [rbind]. set (g := {| egr_center_return_ppm := r |}).
    assert (ExpectedGapRange_post_init g = Ok tt) as Hg.
    { unfold ExpectedGapRange_post_init, g. cbn. apply raise_when_false. unfold clamp, MAX_ABSOLUTE_RETURN_PPM in *. lia. }
    rewrite Hg. by exists g.
Qed.

Lemma discovery_duration_total m : 0 <= m <= PPM -> exists d, discovery_duration config b m = Ok d
  /\ ec_minimum_discovery_duration_ns config <= d <= ec_maximum_discovery_duration_ns config.
Proof using Hc.
  intros Hr. unfold discovery_duration. pose proof Hc as H. unfold EarningsSpecialistConfig_post_init in H. inv_ok.
  assert (exists k, (if ec_minimum_history_count config <=? Z.of_nat (length (map her_price_discovery_duration_ns (eib_historical_reactions b)))
    then earnings_median (map her_price_discovery_duration_ns (eib_historical_reactions b)) else Ok (ec_default_discovery_duration_ns config)) = Ok k)
    as [k ->].
  { destruct (ec_minimum_history_count config <=? Z.of_nat _) eqn:E; [|by eexists]. apply median_total. intros En. rewrite En in E. change (Z.of_nat _) with 0 in E. congruence. }
  cbn [rbind]. rewrite trunc_div_quot by done. cbn [rbind]. eexists. split; [done|]. apply clamp_between. lia.
Qed.
End analysis.

(** The probabilities leave at least a quarter for no move. *)
Lemma earnings_direction_total signal u :
  - PPM <= signal <= PPM -> 0 <= u <= PPM ->
  exists d, earnings_direction signal u = Ok d /\ DirectionDistribution_post_init d = Ok tt /\ edd_flat_ppm d = 250000 + Z.quot u 4.
Proof.
  intros Hs Hu. unfold earnings_direction. rewrite trunc_div_quot by done. cbn [rbind].
  assert (0 <= Z.quot u 4 <= 250000) as Hq by (apply quot_between; unfold PPM in *; lia). set (q := Z.quot u 4) in *. clearbody q.
  rewrite trunc_div_quot by done. cbn [rbind]. set (half := (PPM - (250000 + q)) / 2).
  assert (0 <= 2 * half <= PPM - (250000 + q)) as Hh.
  { unfold half. split; [|apply Z.mul_div_le; lia]. assert (0 <= (PPM - (250000 + q)) / 2) by (apply Z.div_pos; unfold PPM; lia). lia. }
  assert (- half <= Z.quot (signal * half) PPM <= half) as He by (apply quot_between; [done|]; nia).
  set (d := {| edd_flat_ppm := 250000 + q |}). assert (DirectionDistribution_post_init d = Ok tt) as Hd.
  { unfold DirectionDistribution_post_init, d. cbn [existsb edd_down_ppm edd_flat_ppm edd_up_ppm]. apply raise_when_false. unfold PPM in *. lia. }
  rewrite Hd. by exists d.
Qed.

(** There are fourteen reasons, so that the uncertainty never reaches its cap. *)
Definition all_reasons : list EarningsReasonCode :=
  [ER_MISSING_CONSENSUS; ER_INCOMPATIBLE_METRIC; ER_MISSING_PRIOR_GUIDANCE; ER_MISSING_FILING; ER_MISSING_TRANSCRIPT;
   ER_MISSING_OPTION_IMPLIED_MOVE; ER_INSUFFICIENT_HISTORY; ER_MISSING_POST_RELEASE_FEATURES; ER_CORRECTED_RELEASE;
   ER_GAAP_NON_GAAP_DIVERGENCE; ER_SEGMENT_TOTAL_MISMATCH; ER_MATERIAL_ONE_TIME_ADJUSTMENTS; ER_MISSING_FREE_CASH_FLOW;
   ER_NO_COMPARABLE_METRICS].

Lemma ordered_set_nodup {A} `{EqDecision A} (number : A -> Z) l : NoDup (ordered_set number l).
Proof. unfold ordered_set. rewrite py_sorted_perm. apply NoDup_remove_dups. Qed.

Lemma ordered_set_elem {A} `{EqDecision A} (number : A -> Z) l x : x ∈ ordered_set number l <-> x ∈ l.
Proof. unfold ordered_set. rewrite py_sorted_perm. apply elem_of_remove_dups. Qed.

Lemma reason_count (l : list EarningsReasonCode) : NoDup l -> Z.of_nat (length l) <= 14.
Proof.
  intros Hn. assert (length l <= length all_reasons)%nat; [|cbn in *; lia]. apply submseteq_length, NoDup_submseteq; [done|].
  intros x _. destruct x; unfold all_reasons; set_solver.
Qed.

(** ** The evaluation *)

(** What an analysis says. *)
Record analysis_sound (config : EarningsSpecialistConfig) (b : EarningsInputBundle) (a : EarningsAnalysis) : Prop := {
  ax_surprises : Forall2 (surprise_exact config b) (eib_actuals b) (ea_surprises a);
  ax_guidance : Forall2 (guidance_exact config b) (eib_current_guidance b) (ea_guidance a);
  ax_flags : NoDup (ea_flags a);
  ax_reasons : ea_reasons a = earnings_reasons config b (ea_surprises a) (ea_guidance a) (ea_flags a);
  ax_uncertainty : ea_uncertainty a = 100000 + 60000 * Z.of_nat (length (ea_reasons a)) /\ ea_uncertainty a <= 940000;
  ax_materiality : 0 <= ea_materiality a <= PPM;
  ax_return : - 500000 <= ea_expected_return a <= 500000;
  ax_direction : DirectionDistribution_post_init (ea_direction a) = Ok tt
    /\ edd_flat_ppm (ea_direction a) = 250000 + Z.quot (ea_uncertainty a) 4;
  ax_volatility : 0 <= ea_volatility a <= MAX_VOLATILITY_PPM;
  ax_gap : ExpectedGapRange_post_init (ea_gap a) = Ok tt /\ egr_center_return_ppm (ea_gap a) = ea_expected_return a;
  ax_duration : ec_minimum_discovery_duration_ns config <= ea_duration a <= ec_maximum_discovery_duration_ns config;
}.

Lemma quality_flags_nodup config b flags : quality_flags config b = Ok flags -> NoDup flags.
Proof. unfold quality_flags. intros H. inv_ok. apply ordered_set_nodup. Qed.

Lemma analyze_earnings_total config b :
  EarningsSpecialistConfig_post_init config = Ok tt -> valid_earnings b -> modest_values b ->
  exists a, analyze_earnings config b = Ok a /\ analysis_sound config b a.
Proof.
  intros Hc Hv Hm. unfold analyze_earnings, metric_surprises, guidance_changes.
  destruct (res_map_forall2 _ _ _ (metric_surprise_total config b Hc Hv Hm)) as (surprises & -> & Hs). cbn [rbind].
  destruct (res_map_forall2 _ _ _ (guidance_change_total config b Hc Hv Hm)) as (guidance & -> & Hg). cbn [rbind].
  destruct (quality_flags_total config b Hc Hv Hm) as [flags Ef]. rewrite Ef. cbn [rbind].
  set (reasons := earnings_reasons config b surprises guidance flags).
  pose proof (reason_count reasons (ordered_set_nodup _ _)) as Hn. set (u := Z.min 950000 _).
  assert (u = 100000 + 60000 * Z.of_nat (length reasons) /\ 0 <= u <= 940000) as [Eu Hu] by (unfold u; lia). clearbody u.
  destruct (materiality_total b Hv surprises guidance) as (m & -> & Hmat). cbn [rbind].
  destruct (direction_signal_total config b Hc Hv Hm surprises guidance) as (signal & -> & Hsig). cbn [rbind].
  rewrite trunc_div_quot by done. cbn [rbind].
  assert (- 500000 <= Z.quot signal 2 <= 500000) as Hret by (apply quot_between; unfold PPM in *; lia).
  destruct (earnings_direction_total signal u Hsig) as (d & -> & Hd); [unfold PPM; lia|]. cbn [rbind].
  destruct (expected_volatility_total b Hv m Hmat) as (v & -> & Hvol). cbn [rbind].
  destruct (gap_range_total b Hv (Z.quot signal 2) v Hret Hvol) as (g & -> & Hgap). cbn [rbind].
  destruct (discovery_duration_total config b Hc m Hmat) as (t & -> & Ht). cbn [rbind].
  eexists. split; [done|]. constructor; cbn; try done; [by apply (quality_flags_nodup config b) | lia].
Qed.

(** The clocks leave room for the lifetime and for the longest discovery, and the document has
    a digest that is not the reserved one. *)
Record earnings_evaluable (config : EarningsSpecialistConfig) (encode : ForecastWire -> pybytes) (b : EarningsInputBundle) : Prop := {
  ee_expiration : eib_production_process_monotonic_time_ns b + ec_forecast_ttl_ns config < 2 ^ 64;
  ee_target : emf_as_of_exchange_event_time_ns (eib_market_features b) + ec_maximum_discovery_duration_ns config <= MAX_INT64;
  ee_document : exists d, EarningsInputBundle_sha256 b = Ok d /\ length d = 32%nat /\ d <> replicate 32 0;
  ee_magic : forall w, earnings_magic (encode w) = str "AMCR";
}.

Lemma config_times config : EarningsSpecialistConfig_post_init config = Ok tt ->
  0 < ec_forecast_ttl_ns config /\ 0 < ec_minimum_discovery_duration_ns config.
Proof. unfold EarningsSpecialistConfig_post_init. intros H. inv_ok. cbn [existsb] in *. bprop. lia. Qed.

Lemma bundle_times b : valid_earnings b -> 0 < eib_revision b /\ 0 < eib_production_process_monotonic_time_ns b
  /\ 0 < emf_as_of_exchange_event_time_ns (eib_market_features b).
Proof.
  intros Hv. pose proof (ve_bundle b Hv) as H. unfold EarningsInputBundle_post_init in H. pose proof (ve_features b Hv) as Hf.
  unfold EarningsMarketFeatures_post_init in Hf. inv_ok.
  repeat match goal with H : positive_timestamp _ _ = Ok _ |- _ => apply positive_timestamp_ok in H end. lia.
Qed.

Lemma earnings_forecast_valid config encode b a rid fid :
  EarningsSpecialistConfig_post_init config = Ok tt -> valid_earnings b -> earnings_evaluable config encode b -> analysis_sound config b a ->
  contract_valid (earnings_forecast config b a rid fid (eib_production_process_monotonic_time_ns b + ec_forecast_ttl_ns config))
    (ea_duration a) (emf_as_of_exchange_event_time_ns (eib_market_features b) + ea_duration a).
Proof.
  intros Hc Hv [He Ht _ _] [_ _ _ _ [Eu Hu] _ Hr [Hd _] Hvol [Hg Eg] Hdur].
  destruct (config_times config Hc) as [Hc1 Hc2]. destruct (bundle_times b Hv) as (_ & Hp & Ha).
  unfold DirectionDistribution_post_init in Hd. unfold ExpectedGapRange_post_init in Hg. inv_ok. cbn [existsb] in Hd. bprop.
  unfold MAX_ABSOLUTE_RETURN_PPM, MAX_VOLATILITY_PPM, MAX_INT64, PPM in *.
  constructor; unfold target_values, returns_of, scores_of, costs_of, resolve_horizon, earnings_forecast; cbn -[Z.pow];
    unfold ppm, u64, i64_positive, maximum_return, maximum_score, PPM; rewrite ?bool_decide_eq_true_2 by done; cbn [nth];
    try done; try lia; intros; repeat apply Forall_cons_2; try apply Forall_nil_2; cbv beta; lia.
Qed.

Lemma earnings_ids_total config input :
  length input = 32%nat ->
  exists fid rid, news_derived_identifier (str "earnings-forecast") [PBytes input; PStr (id_hex (ec_model_version config))] = Ok fid
    /\ news_derived_identifier (str "earnings-forecast-record") [PStr (id_hex fid)] = Ok rid.
Proof.
  intros Hl. assert (forall i, exists c, news_part_bytes (PStr (id_hex i)) = Ok c /\ Z.of_nat (length c) < 256 ^ 4) as Hid.
  { intros i. exists (id_hex i). cbn [news_part_bytes]. rewrite (ascii_utf8 _ (id_hex_ascii i)), identifier_hex_length. by split. }
  destruct (news_identifier_total (str "earnings-forecast") [PBytes input; PStr (id_hex (ec_model_version config))]) as (fid & E & _); [done | |].
  { repeat apply Forall_cons_2; [|apply Hid|apply Forall_nil_2]. exists input. cbn [news_part_bytes]. rewrite Hl. by split. }
  destruct (news_identifier_total (str "earnings-forecast-record") [PStr (id_hex fid)]) as (rid & E' & _);
    [done | by apply Forall_cons_2; [apply Hid | apply Forall_nil_2]|]. by exists fid, rid.
Qed.

(** What the result of an evaluation says. *)
Record earnings_sound (config : EarningsSpecialistConfig) (b : EarningsInputBundle) (r : EarningsSpecialistResult) : Prop := {
  en_surprises : Forall2 (surprise_exact config b) (eib_actuals b) (esr_surprises r);
  en_guidance : Forall2 (guidance_exact config b) (eib_current_guidance b) (esr_guidance_changes r);
  en_comparable : ER_NO_COMPARABLE_METRICS ∈ esr_reason_codes r <->
    forall m e, m ∈ eib_actuals b -> e ∈ eib_consensus b -> esd_identity e <> nem_identity m;
  en_uncertainty : esr_uncertainty_ppm r = 100000 + 60000 * Z.of_nat (length (esr_reason_codes r)) /\ esr_uncertainty_ppm r <= 940000;
  en_return : - 500000 <= esr_expected_return_ppm r <= 500000;
  en_direction : edd_down_ppm (esr_direction r) + edd_flat_ppm (esr_direction r) + edd_up_ppm (esr_direction r) = PPM
    /\ 250000 <= edd_flat_ppm (esr_direction r) /\ 0 <= edd_down_ppm (esr_direction r) /\ 0 <= edd_up_ppm (esr_direction r);
  en_gap : egr_lower_return_ppm (esr_expected_gap r) <= esr_expected_return_ppm r <= egr_upper_return_ppm (esr_expected_gap r);
  en_duration : ec_minimum_discovery_duration_ns config <= esr_estimated_price_discovery_duration_ns r
                <= ec_maximum_discovery_duration_ns config;
  en_phase : esr_phase r = EP_PRICE_DISCOVERY <-> emf_is_post_release (eib_market_features b) = true;
  en_checked : EarningsSpecialistResult_post_init r = Ok tt;
}.

Lemma surprise_decided config b m s : surprise_exact config b m s ->
  esu_reason s <> Some ER_NO_COMPARABLE_METRICS
  /\ (is_Some (esu_surprise_ppm s) <-> exists e, e ∈ eib_consensus b /\ esd_identity e = nem_identity m).
Proof.
  intros [_ H1 H2]. destruct (decide (Forall (fun e => esd_identity e <> nem_identity m) (eib_consensus b))) as [Hno|Hyes].
  - destruct (H2 Hno) as (E & Hr & _). rewrite E. split; [naive_solver|]. rewrite is_Some_alt. split; [done|].
    intros (e & He & Hid). rewrite Forall_forall in Hno. by destruct (Hno e He).
  - apply not_Forall_Exists in Hyes; [|apply _]. apply Exists_exists in Hyes as (e & He & Hid). apply dec_stable in Hid.
    destruct (H1 e He Hid) as [E Hr]. rewrite E, Hr. split; [done|]. split; [by exists e | by eexists].
Qed.

Lemma guidance_decided config b g c : guidance_exact config b g c -> egc_reason c <> Some ER_NO_COMPARABLE_METRICS.
Proof.
  intros [_ H1 H2]. destruct (decide (Forall (fun p => gui_identity p <> gui_identity g) (eib_prior_guidance b))) as [Hno|Hyes].
  - by destruct (H2 Hno) as [_ ->].
  - apply not_Forall_Exists in Hyes; [|apply _]. apply Exists_exists in Hyes as (p & Hp & Hid). apply dec_stable in Hid.
    by destruct (H1 p Hp Hid) as (v & _ & _ & _ & ->).
Qed.

Lemma reason_list_elem r c : c ∈ reason_list r <-> r = Some c.
Proof. destruct r; cbn; set_solver. Qed.

Lemma not_in_reasons {A} (f : A -> option EarningsReasonCode) l c :
  Forall (fun x => f x <> Some c) l -> c ∉ flat_map (fun x => reason_list (f x)) l.
Proof.
  intros H Hin. apply list_elem_of_In, in_flat_map in Hin as (x & Hx & Hr). rewrite Forall_forall in H.
  apply (H x); [by apply list_elem_of_In | by apply reason_list_elem, list_elem_of_In].
Qed.

(** The result lists that nothing is comparable exactly when no actual value has an estimate
    of its identity. *)
Lemma comparable_reason config b surprises guidance flags :
  Forall2 (surprise_exact config b) (eib_actuals b) surprises -> Forall2 (guidance_exact config b) (eib_current_guidance b) guidance ->
  ER_NO_COMPARABLE_METRICS ∈ earnings_reasons config b surprises guidance flags <->
  forall m e, m ∈ eib_actuals b -> e ∈ eib_consensus b -> esd_identity e <> nem_identity m.
Proof.
  intros Hs Hg. unfold earnings_reasons. rewrite ordered_set_elem, !elem_of_app.
  assert (ER_NO_COMPARABLE_METRICS ∉ flat_map (fun s => reason_list (esu_reason s)) surprises) as N1.
  { apply not_in_reasons. clear Hg. induction Hs as [|m s l k Hx _ IH]; [apply Forall_nil_2|]. apply Forall_cons_2; [|done].
    by apply (surprise_decided config b m). }
  assert (ER_NO_COMPARABLE_METRICS ∉ flat_map (fun g => reason_list (egc_reason g)) guidance) as N2.
  { apply not_in_reasons. clear Hs N1. induction Hg as [|m s l k Hx _ IH]; [apply Forall_nil_2|]. apply Forall_cons_2; [|done].
    by apply (guidance_decided config b m). }
  assert (ER_NO_COMPARABLE_METRICS ∉ flat_map flag_reason flags) as N3.
  { intros H. apply list_elem_of_In, in_flat_map in H as (f & _ & H). apply list_elem_of_In in H. destruct f; cbn in H; set_solver. }
  assert (existsb (fun s => bool_decide (is_Some (esu_surprise_ppm s))) surprises = true <->
    exists m e, m ∈ eib_actuals b /\ e ∈ eib_consensus b /\ esd_identity e = nem_identity m) as Hex.
  { rewrite existsb_exists_iff. clear N1. induction Hs as [|m s l k Hx _ IH].
    - rewrite Exists_nil. split; [done|]. intros (m & e & Hm & _). by apply elem_of_nil in Hm.
    - rewrite Exists_cons, IH, bool_decide_eq_true, (proj2 (surprise_decided config b m s Hx)). setoid_rewrite elem_of_cons. naive_solver. }
  destruct (existsb _ surprises).
  - split; [|intros H; destruct (proj1 Hex eq_refl) as (m & e & Hm & He & Hid); by destruct (H m e)].
    intros Hin. exfalso. destruct Hin as [Hin|[Hin|[Hin|[Hin|[Hin|[Hin|[Hin|[Hin|[Hin|Hin]]]]]]]]]; try done;
      repeat match type of Hin with context [if ?c then _ else _] => destruct c end;
      first [by apply elem_of_nil in Hin | by apply list_elem_of_singleton in Hin].
  - split; [|intros _; do 9 right; by apply list_elem_of_singleton]. intros _ m e Hm He Hid. assert (false = true) by (apply Hex; by exists m, e). done.
Qed.

(** C32: the evaluation of earnings.  Take a valid bundle of modest values whose clocks leave
    room for the lifetime and the longest discovery and whose digest is not the reserved one,
    and an encoder that writes contract records.  When its market features are marked
    invalid the evaluation raises [EarningsEvaluationError]; otherwise it returns.  Every
    actual value is compared with the estimate of exactly its identity (kind, basis, unit,
    period and segment) and with nothing else, and so is guidance with prior guidance; the
    uncertainty counts the reasons and never reaches its cap; the expected return is at most
    half, the probabilities sum to one with at least a quarter for no move, the gap contains
    the return, and the discovery duration respects the configuration. *)
Theorem earnings_evaluation_exact config encode b :
  EarningsSpecialistConfig_post_init config = Ok tt -> valid_earnings b -> modest_values b -> earnings_evaluable config encode b ->
  if emf_valid (eib_market_features b)
  then exists r, earnings_evaluate config encode b = Ok r /\ earnings_sound config b r
  else earnings_evaluate config encode b
       = raise EarningsEvaluationError "invalid market features fail the earnings specialist closed".
Proof.
  intros Hc Hv Hm He. destruct (emf_valid (eib_market_features b)) eqn:Ev; [|unfold earnings_evaluate; by rewrite Ev].
  destruct (analyze_earnings_total config b Hc Hv Hm) as (a & Ea & Ha).
  destruct (ee_document _ _ _ He) as (d & Ed & Hd1 & Hd2). destruct (earnings_ids_total config d Hd1) as (fid & rid & E1 & E2).
  pose proof (earnings_forecast_valid config encode b a rid fid Hc Hv He Ha) as Hf.
  destruct (config_times config Hc) as [Hc1 Hc2]. destruct (bundle_times b Hv) as (Hrev & Hp & _).
  pose proof (ee_expiration _ _ _ He). unfold earnings_evaluate. rewrite Ev. cbn [negb raise_when rbind].
  rewrite raise_when_false by lia. cbn [rbind]. rewrite Ea. cbn [rbind]. rewrite Ed. cbn [rbind]. rewrite E1. cbn [rbind]. rewrite E2. cbn [rbind].
  unfold build_model_forecast_contract.
  match type of Hf with contract_valid ?d ?v ?t =>
    rewrite (proj2 (validated_forecast_ok d {| wire_input := d; wire_horizon_value := v; wire_target_exchange_event_time_ns := t;
      wire_target_values := target_values d |})) by done end.
  cbn [rbind]. set (contract := encode _). set (r := earnings_result _ _ _ _ _ _ _).
  destruct Ha as [H1 H2 H3 H4 [H5 H5'] H6 H7 [H8 H8'] H9 [H10 H10'] H11].
  assert (EarningsSpecialistResult_post_init r = Ok tt) as Hr.
  { unfold EarningsSpecialistResult_post_init, r, earnings_result. cbn -[unique_by earnings_magic raise_when].
    rewrite (proj2 (valid_digest_ok d _ tt)) by done. cbn [rbind]. unfold PPM, MAX_ABSOLUTE_RETURN_PPM, MAX_VOLATILITY_PPM in *.
    rewrite (proj2 (unique_by_nodup id (ea_reasons a))), (proj2 (unique_by_nodup id (ea_flags a)));
      [|by change (map id ?l) with (id <$> l); rewrite list_fmap_id | change (map id ?l) with (id <$> l); rewrite list_fmap_id, H4; apply ordered_set_nodup].
    unfold contract. rewrite (ee_magic _ _ _ He). rewrite !bool_decide_eq_true_2 by done.
    repeat (rewrite raise_when_false by lia; cbn [rbind]). done. }
  rewrite Hr. cbn [rbind]. exists r. split; [done|]. unfold DirectionDistribution_post_init in H8. unfold ExpectedGapRange_post_init in H10.
  inv_ok. cbn [existsb] in H8. bprop. assert (0 <= Z.quot (ea_uncertainty a) 4) by (apply Z.quot_pos; lia).
  constructor; cbn; try done; try lia.
  - rewrite H4. by apply comparable_reason.
  - by destruct (emf_is_post_release _).
Qed.

(** ** Examples and witnesses *)

Definition earnings_source_example (name : string) (kind : EarningsSourceKind) (published received : Z) : EarningsSourceEvidence :=
  {| ese_source_id := str name; ese_source_global_event_id := Id128 0 9; ese_kind := kind; ese_provider_id := str "p";
     ese_document_id := str "d"; ese_source_content_sha256 := replicate 32 7; ese_sanitized_content_sha256 := replicate 32 7;
     ese_publication_wall_clock_utc_ns := published; ese_received_wall_clock_utc_ns := received;
     ese_excerpts := [{| ex_excerpt_id := 1; ex_start := 0; ex_end := 1; ex_exact_text := str "x" |}] |}.
Definition refers (name : string) : list EarningsEvidenceReference := [{| eer_source_id := str name; eer_excerpt_id := 1 |}].
Definition metric_id (kind : EarningsMetricKind) (basis : AccountingBasis) (unit : EarningsMetricUnit) : EarningsMetricIdentity :=
  {| ei_kind := kind; ei_basis := basis; ei_unit := unit; ei_fiscal_period := str "2024Q1"; ei_segment_name := [] |}.
Definition gaap_eps : EarningsMetricIdentity := metric_id EK_EPS AB_GAAP EU_CURRENCY_NANOS_PER_SHARE.
Definition adjusted_eps : EarningsMetricIdentity := metric_id EK_EPS AB_NON_GAAP EU_CURRENCY_NANOS_PER_SHARE.
Definition gaap_revenue : EarningsMetricIdentity := metric_id EK_REVENUE AB_GAAP EU_CURRENCY_NANOS.

(** Reported earnings per share on both bases, of which only the GAAP value has an estimate,
    and revenue with an estimate of another basis. *)
Definition example_earnings : EarningsInputBundle :=
  {| eib_earnings_event_id := Id128 0 1; eib_session_id := Id128 0 2; eib_instrument_id := Id128 0 3;
     eib_configuration_version := Id128 0 4; eib_revision := 1; eib_as_of_wall_clock_utc_ns := 1010;
     eib_production_process_monotonic_time_ns := 5000;
     eib_sources := [earnings_source_example "off" ES_OFFICIAL_EARNINGS_RELEASE 1000 1001;
                     earnings_source_example "con" ES_CONSENSUS_ESTIMATES 900 901];
     eib_actuals := [{| nem_identity := gaap_eps; nem_value := 1200; nem_evidence := refers "off" |};
                     {| nem_identity := adjusted_eps; nem_value := 1500; nem_evidence := refers "off" |};
                     {| nem_identity := gaap_revenue; nem_value := 90000; nem_evidence := refers "off" |}];
     eib_consensus := [{| esd_identity := gaap_eps; esd_consensus_value := 1000; esd_dispersion := 400; esd_minimum_value := 800;
                          esd_maximum_value := 1300; esd_analyst_count := 9; esd_available_wall_clock_utc_ns := 950;
                          esd_evidence := refers "con" |};
                       {| esd_identity := metric_id EK_REVENUE AB_NON_GAAP EU_CURRENCY_NANOS; esd_consensus_value := 80000;
                          esd_dispersion := 400; esd_minimum_value := 80000; esd_maximum_value := 80000; esd_analyst_count := 9;
                          esd_available_wall_clock_utc_ns := 950; esd_evidence := refers "con" |}];
     eib_prior_reported_values := [{| nem_identity := gaap_eps; nem_value := 1100; nem_evidence := refers "con" |}];
     eib_current_guidance := [{| gui_identity := gaap_revenue; gui_lower_value := 90000; gui_upper_value := 99000; gui_evidence := refers "off" |}];
     eib_prior_guidance := [{| gui_identity := gaap_revenue; gui_lower_value := 80000; gui_upper_value := 90000; gui_evidence := refers "con" |}];
     eib_one_time_adjustments := [];
     eib_historical_reactions := [{| her_historical_event_id := str "h"; her_publication_wall_clock_utc_ns := 100;
       her_available_wall_clock_utc_ns := 200; her_gap_return_ppm := -30000; her_realized_volatility_ppm := 45000;
       her_price_discovery_duration_ns := 900 |}];
     eib_market_features := {| emf_feature_snapshot_id := Id128 0 5; emf_as_of_exchange_event_time_ns := 1002;
       emf_available_wall_clock_utc_ns := 1003; emf_return_since_release_ppm := 12000; emf_realized_volatility_ppm := 20000;
       emf_is_post_release := true; emf_valid := true |};
     eib_option_implied_move := None; eib_correction_of_input_sha256 := None; eib_schema_version := EARNINGS_SCHEMA_VERSION |}.
Definition example_earnings_config : EarningsSpecialistConfig :=
  {| ec_model_id := Id128 0 10; ec_model_version := Id128 0 11; ec_forecast_ttl_ns := 2000; ec_default_discovery_duration_ns := 600;
     ec_minimum_discovery_duration_ns := 60; ec_maximum_discovery_duration_ns := 6000; ec_minimum_history_count := 1;
     ec_gaap_divergence_threshold_ppm := 150000; ec_adjustment_materiality_threshold_ppm := 100000;
     ec_segment_mismatch_threshold_ppm := 50000; ec_epsilon_currency_nanos := 1; ec_epsilon_currency_nanos_per_share := 1;
     ec_epsilon_ppm := 1; ec_epsilon_quantity_units := 1 |}.
Definition example_earnings_encode (w : ForecastWire) : pybytes := [0; 0; 0; 0] ++ str "AMCR".

Ltac each_checked := repeat (apply Forall_cons_2; [vm_compute; reflexivity|]); apply Forall_nil_2.
Ltac each_modest := repeat (apply Forall_cons_2; [vm_compute; repeat split; discriminate|]); apply Forall_nil_2.

Lemma earnings_evaluation_exact_witness : exists r,
  earnings_evaluate example_earnings_config example_earnings_encode example_earnings = Ok r
  /\ earnings_sound example_earnings_config example_earnings r.
Proof.
  apply (earnings_evaluation_exact example_earnings_config example_earnings_encode example_earnings).
  - vm_compute. reflexivity.
  - constructor; [vm_compute; reflexivity | each_checked | each_checked | discriminate | each_checked | vm_compute; reflexivity].
  - constructor; [each_modest.. | vm_compute; discriminate | vm_compute; split; discriminate].
  - constructor; [vm_compute; reflexivity | vm_compute; discriminate | | reflexivity].
    assert (H : match EarningsInputBundle_sha256 example_earnings with
                | Ok d => Nat.eqb (length d) 32 && negb (bool_decide (d = replicate 32 0)) | Err _ => false end = true) by (vm_compute; reflexivity).
    destruct (EarningsInputBundle_sha256 example_earnings) as [d|]; [|discriminate]. bprop. exists d.
    split; [reflexivity | split; [apply Nat.eqb_eq; assumption | assumption]].
Defined.

(** The example enters release processing and then, its features being of after the release,
    price discovery. *)
Lemma earnings_lifecycle_sound_witness : exists self, lifecycle_inv [fun t => Ok (0 <? lt_revision t)] self
  /\ el_phase self = EP_PRICE_DISCOVERY /\ length (el_history self) = 2%nat.
Proof.
  destruct (earnings_evaluate example_earnings_config example_earnings_encode example_earnings) as [r|e] eqn:Er;
    [|vm_compute in Er; discriminate].
  assert (Hr : esr_revision r = 1 /\ esr_phase r = EP_PRICE_DISCOVERY /\ esr_production_process_monotonic_time_ns r = 5000).
  { assert (Hb : match earnings_evaluate example_earnings_config example_earnings_encode example_earnings with
      | Ok r => (esr_revision r =? 1) && bool_decide (esr_phase r = EP_PRICE_DISCOVERY) && (esr_production_process_monotonic_time_ns r =? 5000)
      | Err _ => false end = true) by (vm_compute; reflexivity). rewrite Er in Hb. bprop. split; [lia | split; [assumption | lia]]. }
  destruct Hr as (H1 & H2 & H3).
  set (start := {| el_hooks := [fun t => Ok (0 <? lt_revision t)]; el_phase := EP_PRE_EARNINGS; el_event_id := None; el_revision := 0; el_history := [] |}).
  exists (begin_price_discovery r (accept_release r start).1).1. split.
  - apply (earnings_lifecycle_sound [fun t => Ok (0 <? lt_revision t)]). apply lr_discovery, lr_release, lr_new. reflexivity.
  - unfold accept_release, begin_price_discovery, transition. cbn. rewrite !H1, !H2, !H3. cbn. rewrite !bool_decide_eq_true_2 by reflexivity. cbn. split; reflexivity.
Defined.
