(* ===== verification/MarketTypes.v ===== *)
(** * Contracts of the market specialists

    Models [python/intelligence/aegis_mx_intelligence/market_specialists_types.py]: provenance,
    symbol policy and context, the inputs and estimates of the rebalance, auction and
    hidden-liquidity specialists, and the result that either abstains or carries an estimate
    and a forecast. *)

From S2P Require Import Prelude PyText Json Sha256 ForecastDomain Specialists.
Open Scope Z_scope.

(** ** Enumerations and checks *)

Inductive SpecialistKind :=
  | INDEX_REBALANCE | AUCTION | HIDDEN_LIQUIDITY.
#[export] Instance SpecialistKind_eq_dec : EqDecision SpecialistKind.
Proof. solve_decision. Defined.
Definition SpecialistKind_name (x : SpecialistKind) : string :=
  match x with
  | INDEX_REBALANCE => "INDEX_REBALANCE" | AUCTION => "AUCTION" | HIDDEN_LIQUIDITY => "HIDDEN_LIQUIDITY"
  end.
Definition SpecialistKind_value (x : SpecialistKind) : Z :=
  match x with
  | INDEX_REBALANCE => 1 | AUCTION => 2 | HIDDEN_LIQUIDITY => 3
  end.

Inductive SpecialistDecision :=
  | SD_ABSTAIN | SD_PUBLISH.
#[export] Instance SpecialistDecision_eq_dec : EqDecision SpecialistDecision.
Proof. solve_decision. Defined.
Definition SpecialistDecision_name (x : SpecialistDecision) : string :=
  match x with
  | SD_ABSTAIN => "ABSTAIN" | SD_PUBLISH => "PUBLISH"
  end.

Inductive SpecialistReasonCode :=
  | SR_SYMBOL_DISABLED | SR_LOW_DATA_QUALITY | SR_UNAUTHENTICATED_SOURCE | SR_MISSING_PROVENANCE
  | SR_INSUFFICIENT_HISTORY | SR_STALE_INPUT | SR_INVALID_REBALANCE_STATE | SR_INVALID_AUCTION_STATE
  | SR_INSUFFICIENT_LIQUIDITY_EVIDENCE | SR_ASSUMPTION_LIMITED | SR_REBALANCE_ACTIVE.
#[export] Instance SpecialistReasonCode_eq_dec : EqDecision SpecialistReasonCode.
Proof. solve_decision. Defined.
Definition SpecialistReasonCode_name (x : SpecialistReasonCode) : string :=
  match x with
  | SR_SYMBOL_DISABLED => "SYMBOL_DISABLED" | SR_LOW_DATA_QUALITY => "LOW_DATA_QUALITY"
  | SR_UNAUTHENTICATED_SOURCE => "UNAUTHENTICATED_SOURCE" | SR_MISSING_PROVENANCE => "MISSING_PROVENANCE"
  | SR_INSUFFICIENT_HISTORY => "INSUFFICIENT_HISTORY" | SR_STALE_INPUT => "STALE_INPUT"
  | SR_INVALID_REBALANCE_STATE => "INVALID_REBALANCE_STATE"
  | SR_INVALID_AUCTION_STATE => "INVALID_AUCTION_STATE"
  | SR_INSUFFICIENT_LIQUIDITY_EVIDENCE => "INSUFFICIENT_LIQUIDITY_EVIDENCE"
  | SR_ASSUMPTION_LIMITED => "ASSUMPTION_LIMITED" | SR_REBALANCE_ACTIVE => "REBALANCE_ACTIVE"
  end.
Definition SpecialistReasonCode_value (x : SpecialistReasonCode) : Z :=
  match x with
  | SR_SYMBOL_DISABLED => 1 | SR_LOW_DATA_QUALITY => 2 | SR_UNAUTHENTICATED_SOURCE => 3
  | SR_MISSING_PROVENANCE => 4 | SR_INSUFFICIENT_HISTORY => 5 | SR_STALE_INPUT => 6
  | SR_INVALID_REBALANCE_STATE => 7 | SR_INVALID_AUCTION_STATE => 8 | SR_INSUFFICIENT_LIQUIDITY_EVIDENCE => 9
  | SR_ASSUMPTION_LIMITED => 10 | SR_REBALANCE_ACTIVE => 11
  end.

Inductive ProvenanceKind :=
  | PK_PROVIDER_ANNOUNCEMENT | PK_INDEX_REFERENCE | PK_ETF_DATA | PK_HISTORICAL_AUCTION | PK_AUCTION_FEED
  | PK_VOLUME_FORECAST | PK_REBALANCE_STATE | PK_ORDER_BOOK | PK_EXECUTION_FEED | PK_VENUE_BEHAVIOR
  | PK_SYNTHETIC_REPLAY.
#[export] Instance ProvenanceKind_eq_dec : EqDecision ProvenanceKind.
Proof. solve_decision. Defined.
Definition ProvenanceKind_name (x : ProvenanceKind) : string :=
  match x with
  | PK_PROVIDER_ANNOUNCEMENT => "PROVIDER_ANNOUNCEMENT" | PK_INDEX_REFERENCE => "INDEX_REFERENCE"
  | PK_ETF_DATA => "ETF_DATA" | PK_HISTORICAL_AUCTION => "HISTORICAL_AUCTION"
  | PK_AUCTION_FEED => "AUCTION_FEED" | PK_VOLUME_FORECAST => "VOLUME_FORECAST"
  | PK_REBALANCE_STATE => "REBALANCE_STATE" | PK_ORDER_BOOK => "ORDER_BOOK"
  | PK_EXECUTION_FEED => "EXECUTION_FEED" | PK_VENUE_BEHAVIOR => "VENUE_BEHAVIOR"
  | PK_SYNTHETIC_REPLAY => "SYNTHETIC_REPLAY"
  end.

Inductive PassiveFlowAssumption :=
  | UNKNOWN_BOUNDED_TRACKING | FULL_WEIGHT_DELTA_AT_CLOSE | PARTIAL_TRACKING_AT_CLOSE.
#[export] Instance PassiveFlowAssumption_eq_dec : EqDecision PassiveFlowAssumption.
Proof. solve_decision. Defined.
Definition PassiveFlowAssumption_name (x : PassiveFlowAssumption) : string :=
  match x with
  | UNKNOWN_BOUNDED_TRACKING => "UNKNOWN_BOUNDED_TRACKING"
  | FULL_WEIGHT_DELTA_AT_CLOSE => "FULL_WEIGHT_DELTA_AT_CLOSE"
  | PARTIAL_TRACKING_AT_CLOSE => "PARTIAL_TRACKING_AT_CLOSE"
  end.

Inductive AuctionAllocationAssumption :=
  | QUEUE_PRIORITY_UNKNOWN | PRO_RATA_APPROXIMATION.
#[export] Instance AuctionAllocationAssumption_eq_dec : EqDecision AuctionAllocationAssumption.
Proof. solve_decision. Defined.
Definition AuctionAllocationAssumption_name (x : AuctionAllocationAssumption) : string :=
  match x with
  | QUEUE_PRIORITY_UNKNOWN => "QUEUE_PRIORITY_UNKNOWN" | PRO_RATA_APPROXIMATION => "PRO_RATA_APPROXIMATION"
  end.

Inductive HiddenLiquidityAssumption :=
  | REPLENISHMENT_IS_INFERENTIAL.
#[export] Instance HiddenLiquidityAssumption_eq_dec : EqDecision HiddenLiquidityAssumption.
Proof. solve_decision. Defined.
Definition HiddenLiquidityAssumption_name (x : HiddenLiquidityAssumption) : string :=
  match x with
  | REPLENISHMENT_IS_INFERENTIAL => "REPLENISHMENT_IS_INFERENTIAL"
  end.

Inductive BookSide :=
  | BID | ASK.
#[export] Instance BookSide_eq_dec : EqDecision BookSide.
Proof. solve_decision. Defined.
Definition BookSide_name (x : BookSide) : string :=
  match x with
  | BID => "BID" | ASK => "ASK"
  end.

Definition MARKET_SPECIALISTS_SCHEMA_VERSION : pystr := str "1.0.0".
Definition MAX_COLLECTION_SIZE : Z := 4096.
Definition MAX_ABSOLUTE_IMPACT_PPM : Z := 10000000.

(** [_bounded_text] of this module: ASCII. *)
Definition bounded_ascii (value : pystr) (maximum : Z) (name : string) : res unit :=
  if bool_decide (value = []) || bool_decide (0 ∈ value) then raise ValueError (name +:+ " must be nonempty bounded ASCII without NUL")
  else let! b := ascii_encode value in
       raise_when (maximum <? Z.of_nat (length b)) ValueError (name +:+ " must be nonempty bounded ASCII without NUL").

(** [_positive], [_nonnegative], [_ppm] and [_impact] *)
Definition check_positive (value : Z) (name : string) : res unit :=
  raise_when (negb ((0 <? value) && (value <=? MAX_INT64))) ValueError (name +:+ " must be a positive signed 64-bit integer").
Definition check_nonnegative (value : Z) (name : string) : res unit :=
  raise_when (negb ((0 <=? value) && (value <=? MAX_INT64))) ValueError (name +:+ " must be a nonnegative signed 64-bit integer").
Definition check_ppm (value : Z) (name : string) : res unit :=
  raise_when (negb ((0 <=? value) && (value <=? PPM))) ValueError (name +:+ " is outside [0, 1,000,000] PPM").
Definition check_impact (value : Z) (name : string) : res unit :=
  raise_when (negb ((- MAX_ABSOLUTE_IMPACT_PPM <=? value) && (value <=? MAX_ABSOLUTE_IMPACT_PPM))) ValueError
    (name +:+ " exceeds the bounded impact PPM range").

(** ** Records *)

Record ProvenanceRecord := {
  pr_source_id : pystr;
  pr_source_event_id : Identifier128;
  pr_kind : ProvenanceKind;
  pr_content_sha256 : pybytes;
  pr_received_wall_clock_utc_ns : Z;
  pr_data_quality_score_ppm : Z;
  pr_authenticated : bool;
  pr_event_wall_clock_utc_ns : option Z;
  pr_exchange_event_time_ns : option Z;
}.
#[export] Instance ProvenanceRecord_eq_dec : EqDecision ProvenanceRecord.
Proof. solve_decision. Defined.

Definition ProvenanceRecord_document (x : ProvenanceRecord) : json :=
  jfields [("source_id", jtext (pr_source_id x)); ("source_event_id", jident (pr_source_event_id x));
           ("kind", jname (ProvenanceKind_name (pr_kind x))); ("content_sha256", jbytes (pr_content_sha256 x));
           ("received_wall_clock_utc_ns", JInt (pr_received_wall_clock_utc_ns x));
           ("data_quality_score_ppm", JInt (pr_data_quality_score_ppm x)); ("authenticated", JBool (pr_authenticated x));
           ("event_wall_clock_utc_ns", jopt JInt (pr_event_wall_clock_utc_ns x));
           ("exchange_event_time_ns", jopt JInt (pr_exchange_event_time_ns x))].

Definition ProvenanceRecord_post_init (x : ProvenanceRecord) : res unit :=
  do! bounded_ascii (pr_source_id x) 64 "provenance source_id" in
  do! valid_digest (pr_content_sha256 x) "provenance content_sha256" in
  do! check_positive (pr_received_wall_clock_utc_ns x) "provenance received_wall_clock_utc_ns" in
  do! check_ppm (pr_data_quality_score_ppm x) "provenance data quality" in
  do! raise_when (bool_decide (pr_event_wall_clock_utc_ns x = None) && bool_decide (pr_exchange_event_time_ns x = None)) ValueError
        "provenance requires an event wall or exchange timestamp" in
  do! match pr_event_wall_clock_utc_ns x with
      | Some t => do! check_positive t "provenance event_wall_clock_utc_ns" in
                  raise_when (pr_received_wall_clock_utc_ns x <? t) ValueError "provenance event wall time follows receipt"
      | None => Ok tt
      end in
  match pr_exchange_event_time_ns x with
  | Some t => check_positive t "provenance exchange_event_time_ns"
  | None => Ok tt
  end.

Record SymbolPolicySnapshot := {
  sp_policy_id : Identifier128;
  sp_configuration_version : Identifier128;
  sp_effective_wall_clock_utc_ns : Z;
  sp_disabled_instrument_ids : list Identifier128;
  sp_reason_code : pystr;
}.
#[export] Instance SymbolPolicySnapshot_eq_dec : EqDecision SymbolPolicySnapshot.
Proof. solve_decision. Defined.

Definition SymbolPolicySnapshot_document (x : SymbolPolicySnapshot) : json :=
  jfields [("policy_id", jident (sp_policy_id x)); ("configuration_version", jident (sp_configuration_version x));
           ("effective_wall_clock_utc_ns", JInt (sp_effective_wall_clock_utc_ns x));
           ("disabled_instrument_ids", jlist jident (sp_disabled_instrument_ids x));
           ("reason_code", jtext (sp_reason_code x))].

Definition SymbolPolicySnapshot_post_init (x : SymbolPolicySnapshot) : res unit :=
  do! check_positive (sp_effective_wall_clock_utc_ns x) "symbol policy effective_wall_clock_utc_ns" in
  do! bounded_ascii (sp_reason_code x) 64 "symbol policy reason_code" in
  raise_when (negb (unique_by id (sp_disabled_instrument_ids x))) ValueError
    "symbol policy disabled instruments must be unique".

Definition is_disabled (x : SymbolPolicySnapshot) (instrument : Identifier128) : bool :=
  bool_decide (instrument ∈ sp_disabled_instrument_ids x).

Definition SymbolPolicySnapshot_sha256 (x : SymbolPolicySnapshot) : res pybytes := document_sha256 (SymbolPolicySnapshot_document x).

Record SpecialistContext := {
  sc_event_id : Identifier128;
  sc_session_id : Identifier128;
  sc_instrument_id : Identifier128;
  sc_feature_snapshot_id : Identifier128;
  sc_configuration_version : Identifier128;
  sc_as_of_wall_clock_utc_ns : Z;
  sc_as_of_exchange_event_time_ns : Z;
  sc_production_process_monotonic_time_ns : Z;
  sc_data_quality_score_ppm : Z;
  sc_provenance : list ProvenanceRecord;
  sc_symbol_policy : SymbolPolicySnapshot;
}.
#[export] Instance SpecialistContext_eq_dec : EqDecision SpecialistContext.
Proof. solve_decision. Defined.

Definition SpecialistContext_document (x : SpecialistContext) : json :=
  jfields [("event_id", jident (sc_event_id x)); ("session_id", jident (sc_session_id x));
           ("instrument_id", jident (sc_instrument_id x)); ("feature_snapshot_id", jident (sc_feature_snapshot_id x));
           ("configuration_version", jident (sc_configuration_version x));
           ("as_of_wall_clock_utc_ns", JInt (sc_as_of_wall_clock_utc_ns x));
           ("as_of_exchange_event_time_ns", JInt (sc_as_of_exchange_event_time_ns x));
           ("production_process_monotonic_time_ns", JInt (sc_production_process_monotonic_time_ns x));
           ("data_quality_score_ppm", JInt (sc_data_quality_score_ppm x));
           ("provenance", jlist ProvenanceRecord_document (sc_provenance x));
           ("symbol_policy", SymbolPolicySnapshot_document (sc_symbol_policy x))].

Definition SpecialistContext_post_init (x : SpecialistContext) : res unit :=
  do! check_positive (sc_as_of_wall_clock_utc_ns x) "context as_of_wall_clock_utc_ns" in
  do! check_positive (sc_as_of_exchange_event_time_ns x) "context as_of_exchange_event_time_ns" in
  do! check_positive (sc_production_process_monotonic_time_ns x) "context production_process_monotonic_time_ns" in
  do! check_ppm (sc_data_quality_score_ppm x) "context data quality" in
  do! raise_when (MAX_COLLECTION_SIZE <? Z.of_nat (length (sc_provenance x))) ValueError
        "specialist provenance collection exceeds its bound" in
  do! raise_when (negb (unique_by pr_source_id (sc_provenance x))) ValueError
        "specialist provenance source identifiers must be unique" in
  do! raise_when (existsb (fun p => sc_as_of_wall_clock_utc_ns x <? pr_received_wall_clock_utc_ns p) (sc_provenance x)) ValueError
        "specialist provenance was unavailable at the as-of cutoff" in
  raise_when ((sc_as_of_wall_clock_utc_ns x <? sp_effective_wall_clock_utc_ns (sc_symbol_policy x))
              || negb (bool_decide (sp_configuration_version (sc_symbol_policy x) = sc_configuration_version x))) ValueError
    "symbol policy is not effective for the specialist context".

(** [require_sources] *)
Definition require_sources (x : SpecialistContext) (source_ids : list pystr) : res unit :=
  raise_when (existsb (fun s => negb (bool_decide (s ∈ map pr_source_id (sc_provenance x)))) source_ids) ValueError
    "specialist input source does not resolve to provenance".

Record SignedIntRange := {
  sr_lower : Z;
  sr_upper : Z;
}.
#[export] Instance SignedIntRange_eq_dec : EqDecision SignedIntRange.
Proof. solve_decision. Defined.

Definition SignedIntRange_document (x : SignedIntRange) : json :=
  jfields [("lower", JInt (sr_lower x)); ("upper", JInt (sr_upper x))].

Definition SignedIntRange_post_init (x : SignedIntRange) : res unit :=
  do! int64 (sr_lower x) "signed range lower" in
  do! int64 (sr_upper x) "signed range upper" in
  raise_when (sr_upper x <? sr_lower x) ValueError "signed range lower exceeds upper".

Record QuantityRange := {
  qr_lower_quantity : Z;
  qr_upper_quantity : Z;
}.
#[export] Instance QuantityRange_eq_dec : EqDecision QuantityRange.
Proof. solve_decision. Defined.

Definition QuantityRange_document (x : QuantityRange) : json :=
  jfields [("lower_quantity", JInt (qr_lower_quantity x)); ("upper_quantity", JInt (qr_upper_quantity x))].

Definition QuantityRange_post_init (x : QuantityRange) : res unit :=
  do! check_nonnegative (qr_lower_quantity x) "quantity range lower" in
  do! check_nonnegative (qr_upper_quantity x) "quantity range upper" in
  raise_when (qr_upper_quantity x <? qr_lower_quantity x) ValueError "quantity range lower exceeds upper".

Record DistributionPpm := {
  dp_p10 : Z;
  dp_p50 : Z;
  dp_p90 : Z;
}.
#[export] Instance DistributionPpm_eq_dec : EqDecision DistributionPpm.
Proof. solve_decision. Defined.

Definition DistributionPpm_document (x : DistributionPpm) : json :=
  jfields [("p10", JInt (dp_p10 x)); ("p50", JInt (dp_p50 x)); ("p90", JInt (dp_p90 x))].

Definition DistributionPpm_post_init (x : DistributionPpm) : res unit :=
  do! check_impact (dp_p10 x) "distribution p10" in
  do! check_impact (dp_p50 x) "distribution p50" in
  do! check_impact (dp_p90 x) "distribution p90" in
  raise_when (negb ((dp_p10 x <=? dp_p50 x) && (dp_p50 x <=? dp_p90 x))) ValueError "distribution PPM quantiles are not ordered".

Record IndexRebalanceAnnouncement := {
  ra_source_id : pystr;
  ra_index_id : pystr;
  ra_revision : Z;
  ra_announcement_wall_clock_utc_ns : Z;
  ra_effective_auction_wall_clock_utc_ns : Z;
  ra_old_weight_ppm : Z;
  ra_new_weight_ppm : Z;
  ra_float_adjusted_shares : Z;
  ra_estimated_tracking_assets_currency_nanos : Z;
  ra_tracking_assets_uncertainty_ppm : Z;
  ra_passive_participation_lower_ppm : Z;
  ra_passive_participation_upper_ppm : Z;
}.
#[export] Instance IndexRebalanceAnnouncement_eq_dec : EqDecision IndexRebalanceAnnouncement.
Proof. solve_decision. Defined.

Definition IndexRebalanceAnnouncement_document (x : IndexRebalanceAnnouncement) : json :=
  jfields [("source_id", jtext (ra_source_id x)); ("index_id", jtext (ra_index_id x)); ("revision", JInt (ra_revision x));
           ("announcement_wall_clock_utc_ns", JInt (ra_announcement_wall_clock_utc_ns x));
           ("effective_auction_wall_clock_utc_ns", JInt (ra_effective_auction_wall_clock_utc_ns x));
           ("old_weight_ppm", JInt (ra_old_weight_ppm x)); ("new_weight_ppm", JInt (ra_new_weight_ppm x));
           ("float_adjusted_shares", JInt (ra_float_adjusted_shares x));
           ("estimated_tracking_assets_currency_nanos", JInt (ra_estimated_tracking_assets_currency_nanos x));
           ("tracking_assets_uncertainty_ppm", JInt (ra_tracking_assets_uncertainty_ppm x));
           ("passive_participation_lower_ppm", JInt (ra_passive_participation_lower_ppm x));
           ("passive_participation_upper_ppm", JInt (ra_passive_participation_upper_ppm x))].

Definition IndexRebalanceAnnouncement_post_init (x : IndexRebalanceAnnouncement) : res unit :=
  do! bounded_ascii (ra_source_id x) 64 "rebalance announcement source_id" in
  do! bounded_ascii (ra_index_id x) 64 "rebalance index_id" in
  do! raise_when (ra_revision x <=? 0) ValueError "rebalance announcement revision must be positive" in
  do! check_positive (ra_announcement_wall_clock_utc_ns x) "rebalance announcement_wall_clock_utc_ns" in
  do! check_positive (ra_effective_auction_wall_clock_utc_ns x) "rebalance effective_auction_wall_clock_utc_ns" in
  do! raise_when (ra_effective_auction_wall_clock_utc_ns x <=? ra_announcement_wall_clock_utc_ns x) ValueError
        "rebalance effective auction must follow announcement" in
  do! check_ppm (ra_old_weight_ppm x) "old index weight" in
  do! check_ppm (ra_new_weight_ppm x) "new index weight" in
  do! check_ppm (ra_tracking_assets_uncertainty_ppm x) "tracking assets uncertainty" in
  do! check_ppm (ra_passive_participation_lower_ppm x) "passive participation lower" in
  do! check_ppm (ra_passive_participation_upper_ppm x) "passive participation upper" in
  do! check_positive (ra_float_adjusted_shares x) "float_adjusted_shares" in
  do! check_positive (ra_estimated_tracking_assets_currency_nanos x) "estimated_tracking_assets_currency_nanos" in
  raise_when (ra_passive_participation_upper_ppm x <? ra_passive_participation_lower_ppm x) ValueError
    "passive participation lower exceeds upper".

Record EtfRebalanceContext := {
  et_source_id : pystr;
  et_reference_price_currency_nanos : Z;
  et_etf_net_assets_currency_nanos : Z;
  et_etf_net_flow_currency_nanos : Z;
  et_average_daily_volume_shares : Z;
  et_forecast_closing_auction_volume_shares : Z;
}.
#[export] Instance EtfRebalanceContext_eq_dec : EqDecision EtfRebalanceContext.
Proof. solve_decision. Defined.

Definition EtfRebalanceContext_document (x : EtfRebalanceContext) : json :=
  jfields [("source_id", jtext (et_source_id x));
           ("reference_price_currency_nanos", JInt (et_reference_price_currency_nanos x));
           ("etf_net_assets_currency_nanos", JInt (et_etf_net_assets_currency_nanos x));
           ("etf_net_flow_currency_nanos", JInt (et_etf_net_flow_currency_nanos x));
           ("average_daily_volume_shares", JInt (et_average_daily_volume_shares x));
           ("forecast_closing_auction_volume_shares", JInt (et_forecast_closing_auction_volume_shares x))].

Definition EtfRebalanceContext_post_init (x : EtfRebalanceContext) : res unit :=
  do! bounded_ascii (et_source_id x) 64 "ETF source_id" in
  do! check_positive (et_reference_price_currency_nanos x) "ETF reference price" in
  do! check_positive (et_etf_net_assets_currency_nanos x) "ETF net assets" in
  do! int64 (et_etf_net_flow_currency_nanos x) "ETF net flow" in
  do! check_positive (et_average_daily_volume_shares x) "ETF average daily volume" in
  check_positive (et_forecast_closing_auction_volume_shares x) "ETF forecast closing auction volume".

Record HistoricalRebalanceAuction := {
  hr_source_id : pystr;
  hr_event_wall_clock_utc_ns : Z;
  hr_available_wall_clock_utc_ns : Z;
  hr_passive_demand_shares : Z;
  hr_auction_volume_shares : Z;
  hr_realized_impact_ppm : Z;
  hr_reversed_within_window : bool;
}.
#[export] Instance HistoricalRebalanceAuction_eq_dec : EqDecision HistoricalRebalanceAuction.
Proof. solve_decision. Defined.

Definition HistoricalRebalanceAuction_document (x : HistoricalRebalanceAuction) : json :=
  jfields [("source_id", jtext (hr_source_id x)); ("event_wall_clock_utc_ns", JInt (hr_event_wall_clock_utc_ns x));
           ("available_wall_clock_utc_ns", JInt (hr_available_wall_clock_utc_ns x));
           ("passive_demand_shares", JInt (hr_passive_demand_shares x));
           ("auction_volume_shares", JInt (hr_auction_volume_shares x));
           ("realized_impact_ppm", JInt (hr_realized_impact_ppm x));
           ("reversed_within_window", JBool (hr_reversed_within_window x))].

Definition HistoricalRebalanceAuction_post_init (x : HistoricalRebalanceAuction) : res unit :=
  do! bounded_ascii (hr_source_id x) 64 "historical rebalance source_id" in
  do! check_positive (hr_event_wall_clock_utc_ns x) "historical rebalance event time" in
  do! check_positive (hr_available_wall_clock_utc_ns x) "historical rebalance available time" in
  do! raise_when (hr_available_wall_clock_utc_ns x <? hr_event_wall_clock_utc_ns x) ValueError
        "historical rebalance availability precedes its event" in
  do! int64 (hr_passive_demand_shares x) "historical passive demand" in
  do! check_positive (hr_auction_volume_shares x) "historical auction volume" in
  check_impact (hr_realized_impact_ppm x) "historical realized impact".

Record RebalanceInputBundle := {
  rb_context : SpecialistContext;
  rb_announcement : IndexRebalanceAnnouncement;
  rb_etf : EtfRebalanceContext;
  rb_history : list HistoricalRebalanceAuction;
  rb_assumption : PassiveFlowAssumption;
  rb_schema_version : pystr;
}.
#[export] Instance RebalanceInputBundle_eq_dec : EqDecision RebalanceInputBundle.
Proof. solve_decision. Defined.

Definition RebalanceInputBundle_document (x : RebalanceInputBundle) : json :=
  jfields [("context", SpecialistContext_document (rb_context x));
           ("announcement", IndexRebalanceAnnouncement_document (rb_announcement x));
           ("etf", EtfRebalanceContext_document (rb_etf x));
           ("history", jlist HistoricalRebalanceAuction_document (rb_history x));
           ("assumption", jname (PassiveFlowAssumption_name (rb_assumption x)));
           ("schema_version", jtext (rb_schema_version x))].

Definition RebalanceInputBundle_post_init (x : RebalanceInputBundle) : res unit :=
  do! raise_when (negb (bool_decide (rb_schema_version x = MARKET_SPECIALISTS_SCHEMA_VERSION))) ValueError
        "unsupported rebalance input schema version" in
  do! raise_when (MAX_COLLECTION_SIZE <? Z.of_nat (length (rb_history x))) ValueError "rebalance history exceeds its bound" in
  do! require_sources (rb_context x)
        (ra_source_id (rb_announcement x) :: et_source_id (rb_etf x) :: map hr_source_id (rb_history x)) in
  raise_when ((sc_as_of_wall_clock_utc_ns (rb_context x) <? ra_announcement_wall_clock_utc_ns (rb_announcement x))
              || existsb (fun h => sc_as_of_wall_clock_utc_ns (rb_context x) <? hr_available_wall_clock_utc_ns h) (rb_history x))
    ValueError "rebalance input was unavailable at the as-of cutoff".

Record RebalanceEstimate := {
  re_assumption : PassiveFlowAssumption;
  re_passive_flow_currency_nanos : SignedIntRange;
  re_timing_start_wall_clock_utc_ns : Z;
  re_timing_end_wall_clock_utc_ns : Z;
  re_auction_demand_shares : SignedIntRange;
  re_price_impact_distribution_ppm : DistributionPpm;
  re_reversal_probability_ppm : Z;
  re_uncertainty_ppm : Z;
}.
#[export] Instance RebalanceEstimate_eq_dec : EqDecision RebalanceEstimate.
Proof. solve_decision. Defined.

Definition RebalanceEstimate_document (x : RebalanceEstimate) : json :=
  jfields [("assumption", jname (PassiveFlowAssumption_name (re_assumption x)));
           ("passive_flow_currency_nanos", SignedIntRange_document (re_passive_flow_currency_nanos x));
           ("timing_start_wall_clock_utc_ns", JInt (re_timing_start_wall_clock_utc_ns x));
           ("timing_end_wall_clock_utc_ns", JInt (re_timing_end_wall_clock_utc_ns x));
           ("auction_demand_shares", SignedIntRange_document (re_auction_demand_shares x));
           ("price_impact_distribution_ppm", DistributionPpm_document (re_price_impact_distribution_ppm x));
           ("reversal_probability_ppm", JInt (re_reversal_probability_ppm x));
           ("uncertainty_ppm", JInt (re_uncertainty_ppm x))].

Definition RebalanceEstimate_post_init (x : RebalanceEstimate) : res unit :=
  do! check_positive (re_timing_start_wall_clock_utc_ns x) "rebalance timing start" in
  do! check_positive (re_timing_end_wall_clock_utc_ns x) "rebalance timing end" in
  do! raise_when (re_timing_end_wall_clock_utc_ns x <=? re_timing_start_wall_clock_utc_ns x) ValueError
        "rebalance timing window is not increasing" in
  do! check_ppm (re_reversal_probability_ppm x) "rebalance reversal probability" in
  check_ppm (re_uncertainty_ppm x) "rebalance uncertainty".

Record AuctionSnapshot := {
  as_source_id : pystr;
  as_venue_id : Identifier128;
  as_signed_imbalance_quantity : Z;
  as_paired_quantity : Z;
  as_indicative_match_price_currency_nanos : Z;
  as_reference_price_currency_nanos : Z;
  as_cutoff_wall_clock_utc_ns : Z;
  as_time_to_cutoff_ns : Z;
}.
#[export] Instance AuctionSnapshot_eq_dec : EqDecision AuctionSnapshot.
Proof. solve_decision. Defined.

Definition AuctionSnapshot_document (x : AuctionSnapshot) : json :=
  jfields [("source_id", jtext (as_source_id x)); ("venue_id", jident (as_venue_id x));
           ("signed_imbalance_quantity", JInt (as_signed_imbalance_quantity x));
           ("paired_quantity", JInt (as_paired_quantity x));
           ("indicative_match_price_currency_nanos", JInt (as_indicative_match_price_currency_nanos x));
           ("reference_price_currency_nanos", JInt (as_reference_price_currency_nanos x));
           ("cutoff_wall_clock_utc_ns", JInt (as_cutoff_wall_clock_utc_ns x));
           ("time_to_cutoff_ns", JInt (as_time_to_cutoff_ns x))].

Definition AuctionSnapshot_post_init (x : AuctionSnapshot) : res unit :=
  do! bounded_ascii (as_source_id x) 64 "auction snapshot source_id" in
  do! int64 (as_signed_imbalance_quantity x) "auction signed imbalance" in
  do! check_nonnegative (as_paired_quantity x) "auction paired quantity" in
  do! check_positive (as_indicative_match_price_currency_nanos x) "auction indicative match price" in
  do! check_positive (as_reference_price_currency_nanos x) "auction reference price" in
  do! check_positive (as_cutoff_wall_clock_utc_ns x) "auction cutoff wall time" in
  check_positive (as_time_to_cutoff_ns x) "auction time_to_cutoff_ns".

Record HistoricalAuctionBehavior := {
  ha_source_id : pystr;
  ha_available_wall_clock_utc_ns : Z;
  ha_signed_imbalance_quantity : Z;
  ha_paired_quantity : Z;
  ha_auction_volume_quantity : Z;
  ha_clearing_return_ppm : Z;
  ha_eligible_fill_probability_ppm : Z;
}.
#[export] Instance HistoricalAuctionBehavior_eq_dec : EqDecision HistoricalAuctionBehavior.
Proof. solve_decision. Defined.

Definition HistoricalAuctionBehavior_document (x : HistoricalAuctionBehavior) : json :=
  jfields [("source_id", jtext (ha_source_id x)); ("available_wall_clock_utc_ns", JInt (ha_available_wall_clock_utc_ns x));
           ("signed_imbalance_quantity", JInt (ha_signed_imbalance_quantity x));
           ("paired_quantity", JInt (ha_paired_quantity x));
           ("auction_volume_quantity", JInt (ha_auction_volume_quantity x));
           ("clearing_return_ppm", JInt (ha_clearing_return_ppm x));
           ("eligible_fill_probability_ppm", JInt (ha_eligible_fill_probability_ppm x))].

Definition HistoricalAuctionBehavior_post_init (x : HistoricalAuctionBehavior) : res unit :=
  do! bounded_ascii (ha_source_id x) 64 "historical auction source_id" in
  do! check_positive (ha_available_wall_clock_utc_ns x) "historical auction available_wall_clock_utc_ns" in
  do! int64 (ha_signed_imbalance_quantity x) "historical auction imbalance" in
  do! check_nonnegative (ha_paired_quantity x) "historical paired quantity" in
  do! check_positive (ha_auction_volume_quantity x) "historical auction volume" in
  do! check_impact (ha_clearing_return_ppm x) "historical clearing return" in
  check_ppm (ha_eligible_fill_probability_ppm x) "historical fill probability".

Record AuctionVolumeForecast := {
  av_source_id : pystr;
  av_forecast_quantity : Z;
  av_confidence_ppm : Z;
  av_available_wall_clock_utc_ns : Z;
}.
#[export] Instance AuctionVolumeForecast_eq_dec : EqDecision AuctionVolumeForecast.
Proof. solve_decision. Defined.

Definition AuctionVolumeForecast_document (x : AuctionVolumeForecast) : json :=
  jfields [("source_id", jtext (av_source_id x)); ("forecast_quantity", JInt (av_forecast_quantity x));
           ("confidence_ppm", JInt (av_confidence_ppm x));
           ("available_wall_clock_utc_ns", JInt (av_available_wall_clock_utc_ns x))].

Definition AuctionVolumeForecast_post_init (x : AuctionVolumeForecast) : res unit :=
  do! bounded_ascii (av_source_id x) 64 "auction volume source_id" in
  do! check_positive (av_forecast_quantity x) "auction forecast quantity" in
  do! check_ppm (av_confidence_ppm x) "auction volume confidence" in
  check_positive (av_available_wall_clock_utc_ns x) "auction volume available_wall_clock_utc_ns".

Record RebalanceAuctionState := {
  rs_source_id : pystr;
  rs_active : bool;
  rs_demand_shares : SignedIntRange;
  rs_uncertainty_ppm : Z;
}.
#[export] Instance RebalanceAuctionState_eq_dec : EqDecision RebalanceAuctionState.
Proof. solve_decision. Defined.

Definition RebalanceAuctionState_document (x : RebalanceAuctionState) : json :=
  jfields [("source_id", jtext (rs_source_id x)); ("active", JBool (rs_active x));
           ("demand_shares", SignedIntRange_document (rs_demand_shares x));
           ("uncertainty_ppm", JInt (rs_uncertainty_ppm x))].

Definition RebalanceAuctionState_post_init (x : RebalanceAuctionState) : res unit :=
  do! bounded_ascii (rs_source_id x) 64 "rebalance state source_id" in
  do! check_ppm (rs_uncertainty_ppm x) "rebalance state uncertainty" in
  raise_when (negb (rs_active x)
              && (negb (sr_lower (rs_demand_shares x) =? 0) || negb (sr_upper (rs_demand_shares x) =? 0))) ValueError
    "inactive rebalance state cannot carry demand".

Record AuctionInputBundle := {
  ab_context : SpecialistContext;
  ab_snapshot : AuctionSnapshot;
  ab_history : list HistoricalAuctionBehavior;
  ab_volume_forecast : AuctionVolumeForecast;
  ab_rebalance_state : RebalanceAuctionState;
  ab_assumption : AuctionAllocationAssumption;
  ab_schema_version : pystr;
}.
#[export] Instance AuctionInputBundle_eq_dec : EqDecision AuctionInputBundle.
Proof. solve_decision. Defined.

Definition AuctionInputBundle_document (x : AuctionInputBundle) : json :=
  jfields [("context", SpecialistContext_document (ab_context x)); ("snapshot", AuctionSnapshot_document (ab_snapshot x));
           ("history", jlist HistoricalAuctionBehavior_document (ab_history x));
           ("volume_forecast", AuctionVolumeForecast_document (ab_volume_forecast x));
           ("rebalance_state", RebalanceAuctionState_document (ab_rebalance_state x));
           ("assumption", jname (AuctionAllocationAssumption_name (ab_assumption x)));
           ("schema_version", jtext (ab_schema_version x))].

Definition AuctionInputBundle_post_init (x : AuctionInputBundle) : res unit :=
  do! raise_when (negb (bool_decide (ab_schema_version x = MARKET_SPECIALISTS_SCHEMA_VERSION))) ValueError
        "unsupported auction input schema version" in
  do! raise_when (MAX_COLLECTION_SIZE <? Z.of_nat (length (ab_history x))) ValueError "auction history exceeds its bound" in
  do! require_sources (ab_context x)
        (as_source_id (ab_snapshot x) :: av_source_id (ab_volume_forecast x) :: rs_source_id (ab_rebalance_state x)
         :: map ha_source_id (ab_history x)) in
  do! raise_when (negb (as_cutoff_wall_clock_utc_ns (ab_snapshot x) - sc_as_of_wall_clock_utc_ns (ab_context x)
                        =? as_time_to_cutoff_ns (ab_snapshot x))) ValueError
        "auction time_to_cutoff differs from wall-clock cutoff" in
  raise_when ((sc_as_of_wall_clock_utc_ns (ab_context x) <? av_available_wall_clock_utc_ns (ab_volume_forecast x))
              || existsb (fun h => sc_as_of_wall_clock_utc_ns (ab_context x) <? ha_available_wall_clock_utc_ns h) (ab_history x))
    ValueError "auction input was unavailable at the as-of cutoff".

Record ClearingPriceDistribution := {
  cp_p10_currency_nanos : Z;
  cp_p50_currency_nanos : Z;
  cp_p90_currency_nanos : Z;
}.
#[export] Instance ClearingPriceDistribution_eq_dec : EqDecision ClearingPriceDistribution.
Proof. solve_decision. Defined.

Definition ClearingPriceDistribution_document (x : ClearingPriceDistribution) : json :=
  jfields [("p10_currency_nanos", JInt (cp_p10_currency_nanos x)); ("p50_currency_nanos", JInt (cp_p50_currency_nanos x));
           ("p90_currency_nanos", JInt (cp_p90_currency_nanos x))].

Definition ClearingPriceDistribution_post_init (x : ClearingPriceDistribution) : res unit :=
  do! check_positive (cp_p10_currency_nanos x) "clearing price p10" in
  do! check_positive (cp_p50_currency_nanos x) "clearing price p50" in
  do! check_positive (cp_p90_currency_nanos x) "clearing price p90" in
  raise_when (negb ((cp_p10_currency_nanos x <=? cp_p50_currency_nanos x) && (cp_p50_currency_nanos x <=? cp_p90_currency_nanos x)))
    ValueError "clearing price quantiles are not ordered".

Record AuctionEstimate := {
  ae_assumption : AuctionAllocationAssumption;
  ae_clearing_price_distribution : ClearingPriceDistribution;
  ae_fill_probability_ppm : Z;
  ae_recommended_participation_cap_quantity : Z;
  ae_uncertainty_ppm : Z;
}.
#[export] Instance AuctionEstimate_eq_dec : EqDecision AuctionEstimate.
Proof. solve_decision. Defined.

Definition AuctionEstimate_document (x : AuctionEstimate) : json :=
  jfields [("assumption", jname (AuctionAllocationAssumption_name (ae_assumption x)));
           ("clearing_price_distribution", ClearingPriceDistribution_document (ae_clearing_price_distribution x));
           ("fill_probability_ppm", JInt (ae_fill_probability_ppm x));
           ("recommended_participation_cap_quantity", JInt (ae_recommended_participation_cap_quantity x));
           ("uncertainty_ppm", JInt (ae_uncertainty_ppm x))].

Definition AuctionEstimate_post_init (x : AuctionEstimate) : res unit :=
  do! check_ppm (ae_fill_probability_ppm x) "auction fill probability" in
  do! check_nonnegative (ae_recommended_participation_cap_quantity x) "auction recommended participation cap" in
  check_ppm (ae_uncertainty_ppm x) "auction uncertainty".

Record DisplayedDepthObservation := {
  dd_source_id : pystr;
  dd_price_ticks : Z;
  dd_side : BookSide;
  dd_displayed_quantity : Z;
  dd_exchange_event_time_ns : Z;
}.
#[export] Instance DisplayedDepthObservation_eq_dec : EqDecision DisplayedDepthObservation.
Proof. solve_decision. Defined.

Definition DisplayedDepthObservation_document (x : DisplayedDepthObservation) : json :=
  jfields [("source_id", jtext (dd_source_id x)); ("price_ticks", JInt (dd_price_ticks x));
           ("side", jname (BookSide_name (dd_side x))); ("displayed_quantity", JInt (dd_displayed_quantity x));
           ("exchange_event_time_ns", JInt (dd_exchange_event_time_ns x))].

Definition DisplayedDepthObservation_post_init (x : DisplayedDepthObservation) : res unit :=
  do! bounded_ascii (dd_source_id x) 64 "displayed depth source_id" in
  do! check_positive (dd_price_ticks x) "displayed depth price_ticks" in
  do! check_nonnegative (dd_displayed_quantity x) "displayed depth quantity" in
  check_positive (dd_exchange_event_time_ns x) "displayed depth exchange event time".

Record LiquidityExecution := {
  le_source_id : pystr;
  le_price_ticks : Z;
  le_resting_side : BookSide;
  le_executed_quantity : Z;
  le_exchange_event_time_ns : Z;
}.
#[export] Instance LiquidityExecution_eq_dec : EqDecision LiquidityExecution.
Proof. solve_decision. Defined.

Definition LiquidityExecution_document (x : LiquidityExecution) : json :=
  jfields [("source_id", jtext (le_source_id x)); ("price_ticks", JInt (le_price_ticks x));
           ("resting_side", jname (BookSide_name (le_resting_side x)));
           ("executed_quantity", JInt (le_executed_quantity x));
           ("exchange_event_time_ns", JInt (le_exchange_event_time_ns x))].

Definition LiquidityExecution_post_init (x : LiquidityExecution) : res unit :=
  do! bounded_ascii (le_source_id x) 64 "liquidity execution source_id" in
  do! check_positive (le_price_ticks x) "liquidity execution price_ticks" in
  do! check_positive (le_executed_quantity x) "liquidity executed quantity" in
  check_positive (le_exchange_event_time_ns x) "execution exchange event time".

Record ReplenishmentObservation := {
  ro_source_id : pystr;
  ro_price_ticks : Z;
  ro_side : BookSide;
  ro_replenished_quantity : Z;
  ro_delay_ns : Z;
  ro_exchange_event_time_ns : Z;
}.
#[export] Instance ReplenishmentObservation_eq_dec : EqDecision ReplenishmentObservation.
Proof. solve_decision. Defined.

Definition ReplenishmentObservation_document (x : ReplenishmentObservation) : json :=
  jfields [("source_id", jtext (ro_source_id x)); ("price_ticks", JInt (ro_price_ticks x));
           ("side", jname (BookSide_name (ro_side x))); ("replenished_quantity", JInt (ro_replenished_quantity x));
           ("delay_ns", JInt (ro_delay_ns x)); ("exchange_event_time_ns", JInt (ro_exchange_event_time_ns x))].

Definition ReplenishmentObservation_post_init (x : ReplenishmentObservation) : res unit :=
  do! bounded_ascii (ro_source_id x) 64 "replenishment source_id" in
  do! check_positive (ro_price_ticks x) "replenishment price_ticks" in
  do! check_positive (ro_replenished_quantity x) "replenished quantity" in
  do! check_nonnegative (ro_delay_ns x) "replenishment delay_ns" in
  check_positive (ro_exchange_event_time_ns x) "replenishment exchange event time".

Record PartialFillSequence := {
  pf_source_id : pystr;
  pf_price_ticks : Z;
  pf_side : BookSide;
  pf_initial_displayed_quantity : Z;
  pf_cumulative_executed_quantity : Z;
  pf_replenishment_count : Z;
  pf_duration_ns : Z;
}.
#[export] Instance PartialFillSequence_eq_dec : EqDecision PartialFillSequence.
Proof. solve_decision. Defined.

Definition PartialFillSequence_document (x : PartialFillSequence) : json :=
  jfields [("source_id", jtext (pf_source_id x)); ("price_ticks", JInt (pf_price_ticks x));
           ("side", jname (BookSide_name (pf_side x)));
           ("initial_displayed_quantity", JInt (pf_initial_displayed_quantity x));
           ("cumulative_executed_quantity", JInt (pf_cumulative_executed_quantity x));
           ("replenishment_count", JInt (pf_replenishment_count x)); ("duration_ns", JInt (pf_duration_ns x))].

Definition PartialFillSequence_post_init (x : PartialFillSequence) : res unit :=
  do! bounded_ascii (pf_source_id x) 64 "partial fill source_id" in
  do! check_positive (pf_price_ticks x) "partial fill price_ticks" in
  do! check_positive (pf_initial_displayed_quantity x) "initial displayed quantity" in
  do! check_positive (pf_cumulative_executed_quantity x) "cumulative executed quantity" in
  do! check_nonnegative (pf_replenishment_count x) "partial fill replenishment count" in
  check_positive (pf_duration_ns x) "partial fill duration_ns".

Record VenueBehaviorPrior := {
  vp_source_id : pystr;
  vp_venue_id : Identifier128;
  vp_baseline_replenishment_probability_ppm : Z;
  vp_false_positive_probability_ppm : Z;
  vp_typical_displayed_quantity : Z;
  vp_maximum_latent_multiple_ppm : Z;
}.
#[export] Instance VenueBehaviorPrior_eq_dec : EqDecision VenueBehaviorPrior.
Proof. solve_decision. Defined.

Definition VenueBehaviorPrior_document (x : VenueBehaviorPrior) : json :=
  jfields [("source_id", jtext (vp_source_id x)); ("venue_id", jident (vp_venue_id x));
           ("baseline_replenishment_probability_ppm", JInt (vp_baseline_replenishment_probability_ppm x));
           ("false_positive_probability_ppm", JInt (vp_false_positive_probability_ppm x));
           ("typical_displayed_quantity", JInt (vp_typical_displayed_quantity x));
           ("maximum_latent_multiple_ppm", JInt (vp_maximum_latent_multiple_ppm x))].

Definition VenueBehaviorPrior_post_init (x : VenueBehaviorPrior) : res unit :=
  do! bounded_ascii (vp_source_id x) 64 "venue behavior source_id" in
  do! check_ppm (vp_baseline_replenishment_probability_ppm x) "venue baseline replenishment probability" in
  do! check_ppm (vp_false_positive_probability_ppm x) "venue false-positive probability" in
  do! check_positive (vp_typical_displayed_quantity x) "venue typical displayed quantity" in
  raise_when (vp_maximum_latent_multiple_ppm x <? PPM) ValueError "venue maximum latent multiple must be at least one".

Record PriceImpactObservation := {
  pi_source_id : pystr;
  pi_resting_side : BookSide;
  pi_executed_quantity : Z;
  pi_signed_impact_ppm : Z;
  pi_horizon_ns : Z;
  pi_exchange_event_time_ns : Z;
}.
#[export] Instance PriceImpactObservation_eq_dec : EqDecision PriceImpactObservation.
Proof. solve_decision. Defined.

Definition PriceImpactObservation_document (x : PriceImpactObservation) : json :=
  jfields [("source_id", jtext (pi_source_id x)); ("resting_side", jname (BookSide_name (pi_resting_side x)));
           ("executed_quantity", JInt (pi_executed_quantity x)); ("signed_impact_ppm", JInt (pi_signed_impact_ppm x));
           ("horizon_ns", JInt (pi_horizon_ns x)); ("exchange_event_time_ns", JInt (pi_exchange_event_time_ns x))].

Definition PriceImpactObservation_post_init (x : PriceImpactObservation) : res unit :=
  do! bounded_ascii (pi_source_id x) 64 "price impact source_id" in
  do! check_positive (pi_executed_quantity x) "price impact executed quantity" in
  do! check_impact (pi_signed_impact_ppm x) "observed price impact" in
  do! check_positive (pi_horizon_ns x) "price impact horizon_ns" in
  check_positive (pi_exchange_event_time_ns x) "price impact exchange event time".

Record HiddenLiquidityInputBundle := {
  hb_context : SpecialistContext;
  hb_venue_id : Identifier128;
  hb_candidate_price_ticks : Z;
  hb_candidate_side : BookSide;
  hb_displayed_depth : list DisplayedDepthObservation;
  hb_executions : list LiquidityExecution;
  hb_replenishments : list ReplenishmentObservation;
  hb_partial_fill_sequences : list PartialFillSequence;
  hb_price_impacts : list PriceImpactObservation;
  hb_venue_behavior : VenueBehaviorPrior;
  hb_assumption : HiddenLiquidityAssumption;
  hb_schema_version : pystr;
}.
#[export] Instance HiddenLiquidityInputBundle_eq_dec : EqDecision HiddenLiquidityInputBundle.
Proof. solve_decision. Defined.

Definition HiddenLiquidityInputBundle_document (x : HiddenLiquidityInputBundle) : json :=
  jfields [("context", SpecialistContext_document (hb_context x)); ("venue_id", jident (hb_venue_id x));
           ("candidate_price_ticks", JInt (hb_candidate_price_ticks x));
           ("candidate_side", jname (BookSide_name (hb_candidate_side x)));
           ("displayed_depth", jlist DisplayedDepthObservation_document (hb_displayed_depth x));
           ("executions", jlist LiquidityExecution_document (hb_executions x));
           ("replenishments", jlist ReplenishmentObservation_document (hb_replenishments x));
           ("partial_fill_sequences", jlist PartialFillSequence_document (hb_partial_fill_sequences x));
           ("price_impacts", jlist PriceImpactObservation_document (hb_price_impacts x));
           ("venue_behavior", VenueBehaviorPrior_document (hb_venue_behavior x));
           ("assumption", jname (HiddenLiquidityAssumption_name (hb_assumption x)));
           ("schema_version", jtext (hb_schema_version x))].

(** The sources of the venue prior and of the observations. *)
Definition liquidity_sources (x : HiddenLiquidityInputBundle) : list pystr :=
  vp_source_id (hb_venue_behavior x) :: map dd_source_id (hb_displayed_depth x) ++ map le_source_id (hb_executions x)
  ++ map ro_source_id (hb_replenishments x) ++ map pf_source_id (hb_partial_fill_sequences x)
  ++ map pi_source_id (hb_price_impacts x).

(** An observation at another price or side than the candidate's. *)
Definition misplaced (x : HiddenLiquidityInputBundle) (price : Z) (side : BookSide) : bool :=
  negb (price =? hb_candidate_price_ticks x) || negb (bool_decide (side = hb_candidate_side x)).

Definition HiddenLiquidityInputBundle_post_init (x : HiddenLiquidityInputBundle) : res unit :=
  do! raise_when (negb (bool_decide (hb_schema_version x = MARKET_SPECIALISTS_SCHEMA_VERSION))) ValueError
        "unsupported hidden-liquidity input schema version" in
  do! check_positive (hb_candidate_price_ticks x) "hidden-liquidity candidate price" in
  do! raise_when (existsb (fun n => MAX_COLLECTION_SIZE <? Z.of_nat n)
                    [length (hb_displayed_depth x); length (hb_executions x); length (hb_replenishments x);
                     length (hb_partial_fill_sequences x); length (hb_price_impacts x)]) ValueError
        "hidden-liquidity observation collection exceeds its bound" in
  do! require_sources (hb_context x) (liquidity_sources x) in
  do! raise_when (negb (bool_decide (vp_venue_id (hb_venue_behavior x) = hb_venue_id x))) ValueError
        "hidden-liquidity venue prior references a different venue" in
  raise_when (existsb (fun o => misplaced x (dd_price_ticks o) (dd_side o)) (hb_displayed_depth x)
              || existsb (fun o => misplaced x (le_price_ticks o) (le_resting_side o)) (hb_executions x)
              || existsb (fun o => misplaced x (ro_price_ticks o) (ro_side o)) (hb_replenishments x)
              || existsb (fun o => misplaced x (pf_price_ticks o) (pf_side o)) (hb_partial_fill_sequences x)
              || existsb (fun o => negb (bool_decide (pi_resting_side o = hb_candidate_side x))) (hb_price_impacts x)) ValueError
    "hidden-liquidity observations do not match candidate price and side".

Record HiddenLiquidityEstimate := {
  he_assumption : HiddenLiquidityAssumption;
  he_iceberg_probability_ppm : Z;
  he_latent_size_range : QuantityRange;
  he_support_resistance_persistence_ppm : Z;
  he_confidence_ppm : Z;
}.
#[export] Instance HiddenLiquidityEstimate_eq_dec : EqDecision HiddenLiquidityEstimate.
Proof. solve_decision. Defined.

Definition HiddenLiquidityEstimate_document (x : HiddenLiquidityEstimate) : json :=
  jfields [("assumption", jname (HiddenLiquidityAssumption_name (he_assumption x)));
           ("iceberg_probability_ppm", JInt (he_iceberg_probability_ppm x));
           ("latent_size_range", QuantityRange_document (he_latent_size_range x));
           ("support_resistance_persistence_ppm", JInt (he_support_resistance_persistence_ppm x));
           ("confidence_ppm", JInt (he_confidence_ppm x))].

Definition HiddenLiquidityEstimate_post_init (x : HiddenLiquidityEstimate) : res unit :=
  do! check_ppm (he_iceberg_probability_ppm x) "iceberg probability" in
  do! check_ppm (he_support_resistance_persistence_ppm x) "support/resistance persistence" in
  check_ppm (he_confidence_ppm x) "hidden-liquidity confidence".

(** ** Results *)

Section result.
Context {T : Type}.
Variable estimate_document : T -> json.

Record SpecialistResult := {
  rt_specialist_kind : SpecialistKind;
  rt_event_id : Identifier128;
  rt_instrument_id : Identifier128;
  rt_model_id : Identifier128;
  rt_model_version : Identifier128;
  rt_input_sha256 : pybytes;
  rt_symbol_policy_sha256 : pybytes;
  rt_decision : SpecialistDecision;
  rt_reason_codes : list SpecialistReasonCode;
  rt_data_quality_score_ppm : Z;
  rt_uncertainty_ppm : Z;
  rt_estimate : option T;
  rt_production_process_monotonic_time_ns : Z;
  rt_forecast_id : option Identifier128;
  rt_valid_until_process_monotonic_time_ns : option Z;
  rt_forecast_contract_bytes : option pybytes;
  rt_schema_version : pystr;
}.

Definition SpecialistResult_document (x : SpecialistResult) : json :=
  jfields [("specialist_kind", jname (SpecialistKind_name (rt_specialist_kind x))); ("event_id", jident (rt_event_id x));
           ("instrument_id", jident (rt_instrument_id x)); ("model_id", jident (rt_model_id x));
           ("model_version", jident (rt_model_version x)); ("input_sha256", jbytes (rt_input_sha256 x));
           ("symbol_policy_sha256", jbytes (rt_symbol_policy_sha256 x));
           ("decision", jname (SpecialistDecision_name (rt_decision x)));
           ("reason_codes", jlist (fun x => jname (SpecialistReasonCode_name x)) (rt_reason_codes x));
           ("data_quality_score_ppm", JInt (rt_data_quality_score_ppm x)); ("uncertainty_ppm", JInt (rt_uncertainty_ppm x));
           ("estimate", jopt estimate_document (rt_estimate x));
           ("production_process_monotonic_time_ns", JInt (rt_production_process_monotonic_time_ns x));
           ("forecast_id", jopt jident (rt_forecast_id x));
           ("valid_until_process_monotonic_time_ns", jopt JInt (rt_valid_until_process_monotonic_time_ns x));
           ("forecast_contract_bytes", jopt jbytes (rt_forecast_contract_bytes x));
           ("schema_version", jtext (rt_schema_version x))].

(** [bytes[4:8]] *)
Definition forecast_magic (b : pybytes) : pybytes := take 4 (drop 4 b).

Definition SpecialistResult_post_init (x : SpecialistResult) : res unit :=
  do! valid_digest (rt_input_sha256 x) "specialist input_sha256" in
  do! valid_digest (rt_symbol_policy_sha256 x) "specialist symbol_policy_sha256" in
  do! raise_when (negb (bool_decide (rt_schema_version x = MARKET_SPECIALISTS_SCHEMA_VERSION))) ValueError
        "unsupported specialist result schema version" in
  do! check_ppm (rt_data_quality_score_ppm x) "specialist result data quality" in
  do! check_ppm (rt_uncertainty_ppm x) "specialist result uncertainty" in
  do! check_positive (rt_production_process_monotonic_time_ns x) "specialist result production_process_monotonic_time_ns" in
  do! raise_when (negb (unique_by id (rt_reason_codes x))) ValueError "specialist result reason codes must be unique" in
  let present := [bool_decide (is_Some (rt_forecast_id x)); bool_decide (is_Some (rt_valid_until_process_monotonic_time_ns x));
                  bool_decide (is_Some (rt_forecast_contract_bytes x))] in
  let estimated := match rt_estimate x with Some _ => true | None => false end in
  match rt_decision x with
  | SD_ABSTAIN => raise_when (estimated || existsb id present) ValueError
                    "specialist abstention cannot carry estimate or forecast fields"
  | SD_PUBLISH =>
      do! raise_when (negb estimated || existsb negb present) ValueError
            "published specialist result requires estimate and forecast fields" in
      let valid_until := default 0 (rt_valid_until_process_monotonic_time_ns x) in
      do! check_positive valid_until "specialist forecast valid-until monotonic time" in
      do! raise_when (valid_until <=? rt_production_process_monotonic_time_ns x) ValueError
            "published specialist forecast lifetime is invalid" in
      raise_when (negb (bool_decide (forecast_magic (default [] (rt_forecast_contract_bytes x)) = str "AMCR"))) ValueError
        "published specialist result lacks a canonical ModelForecast"
  end.

(** [SpecialistResult.sha256] *)
Definition SpecialistResult_sha256 (x : SpecialistResult) : res pybytes := document_sha256 (SpecialistResult_document x).
End result.
Arguments SpecialistResult : clear implicits.
