(* ===== verification/MarketSpecialists.v ===== *)
(** * The market specialists

    Models [python/intelligence/aegis_mx_intelligence/market_specialists.py]: the reasons to
    abstain that the specialists share, the published forecast, and the estimates of the
    rebalance, auction and hidden-liquidity specialists.  The encoder of the forecast contract
    is the parameter [encode]. *)

From S2P Require Import Prelude PyText Json Sha256 ForecastDomain Contracts Specialists MarketTypes.
Open Scope Z_scope.

Notation market_div := (trunc_div MarketSpecialistEvaluationError).
Notation market_median := (median MarketSpecialistEvaluationError).
Notation market_quantile := (quantile MarketSpecialistEvaluationError).

(** ** Reasons and quality *)

(** [_ordered_reasons]: the set of the reasons in the order of their numbers. *)
Definition ordered_reasons (values : list SpecialistReasonCode) : list SpecialistReasonCode :=
  py_sorted (leb_on SpecialistReasonCode_value Z.leb) (remove_dups values).

(** [_effective_quality] *)
Definition effective_quality (c : SpecialistContext) : Z :=
  match sc_provenance c with
  | [] => 0
  | l => foldl Z.min (sc_data_quality_score_ppm c) (map pr_data_quality_score_ppm l)
  end.

(** [_common_reasons] *)
Definition common_reasons (c : SpecialistContext) (minimum_data_quality_ppm : Z) : list SpecialistReasonCode :=
  (if is_disabled (sc_symbol_policy c) (sc_instrument_id c) then [SR_SYMBOL_DISABLED] else [])
  ++ (if bool_decide (sc_provenance c = []) then [SR_MISSING_PROVENANCE] else [])
  ++ (if effective_quality c <? minimum_data_quality_ppm then [SR_LOW_DATA_QUALITY] else [])
  ++ (if existsb (fun p => negb (pr_authenticated p)) (sc_provenance c) then [SR_UNAUTHENTICATED_SOURCE] else []).

(** [source_index[source_id]]: of equal identifiers the last. *)
Definition provenance_at (c : SpecialistContext) (source_id : pystr) : res ProvenanceRecord :=
  match List.find (fun p => bool_decide (pr_source_id p = source_id)) (rev (sc_provenance c)) with
  | Some p => Ok p
  | None => raise KeyError "source_id"
  end.

(** The source of an input was received longer ago than allowed; the sources of an input
    are in its provenance. *)
Definition stale (c : SpecialistContext) (maximum_age : Z) (source_id : pystr) : res bool :=
  let! p := provenance_at c source_id in
  Ok (maximum_age <? sc_as_of_wall_clock_utc_ns c - pr_received_wall_clock_utc_ns p).

(** [reasons - informational] is empty. *)
Definition only_informational (informational reasons : list SpecialistReasonCode) : bool :=
  forallb (fun r => bool_decide (r ∈ informational)) reasons.

(** ** Configuration *)

Record BaseConfig := {
  bc_model_id : Identifier128;
  bc_model_version : Identifier128;
  bc_forecast_ttl_ns : Z;
  bc_forecast_horizon_ns : Z;
  bc_minimum_data_quality_ppm : Z;
}.

(** [_BaseConfig.validate] *)
Definition BaseConfig_validate (c : BaseConfig) : res unit :=
  do! raise_when (negb ((0 <? bc_forecast_ttl_ns c) && (bc_forecast_ttl_ns c <=? MAX_INT64))
                  || negb ((0 <? bc_forecast_horizon_ns c) && (bc_forecast_horizon_ns c <=? MAX_INT64))) ValueError
        "specialist forecast TTL and horizon must be positive int64 values" in
  raise_when (negb ((0 <=? bc_minimum_data_quality_ppm c) && (bc_minimum_data_quality_ppm c <=? PPM))) ValueError
    "specialist minimum data quality is outside PPM bounds".

(** [_BaseConfig.sha256] *)
Definition BaseConfig_sha256 (c : BaseConfig) (values : list Z) : res pystr :=
  let! numbers := res_map int_str ([bc_forecast_ttl_ns c; bc_forecast_horizon_ns c; bc_minimum_data_quality_ppm c] ++ values) in
  Ok (sha256_hex (join 124 (id_hex (bc_model_id c) :: id_hex (bc_model_version c) :: numbers))).

(** The fields that the configurations of the specialists have in common are those of their
    [base]. *)
Record IndexRebalanceSpecialistConfig := {
  ir_base : BaseConfig;
  ir_minimum_history_count : Z;
  ir_maximum_etf_input_age_ns : Z;
  ir_timing_window_before_ns : Z;
  ir_timing_window_after_ns : Z;
}.
Definition IndexRebalanceSpecialistConfig_post_init (c : IndexRebalanceSpecialistConfig) : res unit :=
  do! BaseConfig_validate (ir_base c) in
  do! raise_when ((ir_minimum_history_count c <=? 0) || (ir_maximum_etf_input_age_ns c <=? 0)) ValueError
        "rebalance history count and ETF input age must be positive" in
  raise_when ((ir_timing_window_before_ns c <=? 0) || (ir_timing_window_after_ns c <=? 0)) ValueError
    "rebalance timing windows must be positive".
Definition IndexRebalanceSpecialistConfig_sha256 (c : IndexRebalanceSpecialistConfig) : res pystr :=
  BaseConfig_sha256 (ir_base c) [ir_minimum_history_count c; ir_maximum_etf_input_age_ns c; ir_timing_window_before_ns c;
                                 ir_timing_window_after_ns c].

Record AuctionSpecialistConfig := {
  ac_base : BaseConfig;
  ac_minimum_history_count : Z;
  ac_maximum_input_age_ns : Z;
  ac_maximum_participation_ppm : Z;
}.
Definition AuctionSpecialistConfig_post_init (c : AuctionSpecialistConfig) : res unit :=
  do! BaseConfig_validate (ac_base c) in
  do! raise_when ((ac_minimum_history_count c <=? 0) || (ac_maximum_input_age_ns c <=? 0)) ValueError
        "auction history count and maximum input age must be positive" in
  raise_when (negb ((0 <? ac_maximum_participation_ppm c) && (ac_maximum_participation_ppm c <=? PPM))) ValueError
    "auction maximum participation is outside PPM bounds".
Definition AuctionSpecialistConfig_sha256 (c : AuctionSpecialistConfig) : res pystr :=
  BaseConfig_sha256 (ac_base c) [ac_minimum_history_count c; ac_maximum_input_age_ns c; ac_maximum_participation_ppm c].

Record HiddenLiquiditySpecialistConfig := {
  hc_base : BaseConfig;
  hc_minimum_evidence_count : Z;
  hc_maximum_input_age_ns : Z;
}.
Definition HiddenLiquiditySpecialistConfig_post_init (c : HiddenLiquiditySpecialistConfig) : res unit :=
  do! BaseConfig_validate (hc_base c) in
  raise_when ((hc_minimum_evidence_count c <=? 0) || (hc_maximum_input_age_ns c <=? 0)) ValueError
    "hidden-liquidity evidence count and age must be positive".
Definition HiddenLiquiditySpecialistConfig_sha256 (c : HiddenLiquiditySpecialistConfig) : res pystr :=
  BaseConfig_sha256 (hc_base c) [hc_minimum_evidence_count c; hc_maximum_input_age_ns c].

(** ** Results *)

Section specialists.
Variable encode : ForecastWire -> pybytes.

(** The contract input of [_forecast]. *)
Definition forecast_wire (c : SpecialistContext) (config : BaseConfig) (record_id forecast_id : Identifier128)
    (expected_return : Z) (d : DistributionPpm) (confidence uncertainty : Z) : ModelForecastContractInput :=
  let strength := Z.min 500000 (Z.abs expected_return * 5) in
  {| mf_record_id := record_id; mf_forecast_id := forecast_id; mf_session_id := sc_session_id c;
     mf_model_id := bc_model_id config; mf_model_version := bc_model_version config; mf_instrument_id := sc_instrument_id c;
     mf_feature_snapshot_id := sc_feature_snapshot_id c; mf_configuration_version := sc_configuration_version c;
     mf_expected_return_ppm := expected_return; mf_return_p10_ppm := dp_p10 d; mf_return_p50_ppm := dp_p50 d;
     mf_return_p90_ppm := dp_p90 d;
     mf_probability_down_ppm := if expected_return <? 0 then strength else 0;
     mf_probability_flat_ppm := if expected_return =? 0 then PPM else PPM - strength;
     mf_probability_up_ppm := if 0 <? expected_return then strength else 0;
     mf_volatility_ppm := Z.max 1 ((dp_p90 d - dp_p10 d) / 2); mf_confidence_ppm := confidence; mf_calibration_score_ppm := 0;
     mf_data_quality_score_ppm := effective_quality c; mf_ood_score_ppm := uncertainty;
     mf_horizon_ns := bc_forecast_horizon_ns config;
     mf_as_of_exchange_event_time_ns := sc_as_of_exchange_event_time_ns c;
     mf_production_process_monotonic_time_ns := sc_production_process_monotonic_time_ns c;
     mf_expiration_process_monotonic_time_ns := sc_production_process_monotonic_time_ns c + bc_forecast_ttl_ns config;
     mf_has_transaction_cost_estimate := false; mf_estimated_spread_cost_ppm := 0; mf_estimated_slippage_cost_ppm := 0;
     mf_estimated_market_impact_ppm := 0; mf_estimated_adverse_selection_cost_ppm := 0; mf_estimated_fee_cost_ppm := 0;
     mf_forecast_target := RETURN; mf_forecast_unit := RETURN_PPM; mf_target_value := expected_return;
     mf_target_p10 := dp_p10 d; mf_target_p50 := dp_p50 d; mf_target_p90 := dp_p90 d;
     mf_horizon_unit := ELAPSED_NANOSECONDS; mf_horizon_value := 0; mf_horizon_halt_policy := HALT_NOT_APPLICABLE;
     mf_horizon_session_endpoint := ENDPOINT_NOT_APPLICABLE; mf_horizon_calendar_version := None;
     mf_target_exchange_event_time_ns := 0 |}.

(** [_forecast] *)
Definition forecast (specialist : SpecialistKind) (c : SpecialistContext) (input_sha256 : pybytes) (config : BaseConfig)
    (expected_return : Z) (d : DistributionPpm) (confidence uncertainty : Z) : res (Identifier128 * Z * pybytes) :=
  let! forecast_id := news_derived_identifier (str "market-specialist-forecast")
    [PInt (SpecialistKind_value specialist); PBytes input_sha256; PStr (id_hex (bc_model_version config))] in
  let! record_id := news_derived_identifier (str "market-specialist-record") [PStr (id_hex forecast_id)] in
  let! contract := build_model_forecast_contract encode
    (forecast_wire c config record_id forecast_id expected_return d confidence uncertainty) in
  Ok (forecast_id, sc_production_process_monotonic_time_ns c + bc_forecast_ttl_ns config, contract).

(** [_abstention] *)
Definition abstention {T} (specialist : SpecialistKind) (c : SpecialistContext) (input_sha256 : pybytes) (config : BaseConfig)
    (reasons : list SpecialistReasonCode) : res (SpecialistResult T) :=
  let! policy := SymbolPolicySnapshot_sha256 (sc_symbol_policy c) in
  let r := {| rt_specialist_kind := specialist; rt_event_id := sc_event_id c; rt_instrument_id := sc_instrument_id c;
              rt_model_id := bc_model_id config; rt_model_version := bc_model_version config; rt_input_sha256 := input_sha256;
              rt_symbol_policy_sha256 := policy; rt_decision := SD_ABSTAIN; rt_reason_codes := ordered_reasons reasons;
              rt_data_quality_score_ppm := effective_quality c; rt_uncertainty_ppm := PPM; rt_estimate := None;
              rt_production_process_monotonic_time_ns := sc_production_process_monotonic_time_ns c; rt_forecast_id := None;
              rt_valid_until_process_monotonic_time_ns := None; rt_forecast_contract_bytes := None;
              rt_schema_version := MARKET_SPECIALISTS_SCHEMA_VERSION |} in
  do! SpecialistResult_post_init r in Ok r.

(** [_published] *)
Definition published {T} (specialist : SpecialistKind) (c : SpecialistContext) (input_sha256 : pybytes) (config : BaseConfig)
    (reasons : list SpecialistReasonCode) (uncertainty : Z) (estimate : T) (d : DistributionPpm) : res (SpecialistResult T) :=
  let confidence := Z.min (effective_quality c) (PPM - uncertainty) in
  let! f := forecast specialist c input_sha256 config (dp_p50 d) d confidence uncertainty in
  let '(forecast_id, expiration, contract) := f in
  let! policy := SymbolPolicySnapshot_sha256 (sc_symbol_policy c) in
  let r := {| rt_specialist_kind := specialist; rt_event_id := sc_event_id c; rt_instrument_id := sc_instrument_id c;
              rt_model_id := bc_model_id config; rt_model_version := bc_model_version config; rt_input_sha256 := input_sha256;
              rt_symbol_policy_sha256 := policy; rt_decision := SD_PUBLISH; rt_reason_codes := ordered_reasons reasons;
              rt_data_quality_score_ppm := effective_quality c; rt_uncertainty_ppm := uncertainty; rt_estimate := Some estimate;
              rt_production_process_monotonic_time_ns := sc_production_process_monotonic_time_ns c;
              rt_forecast_id := Some forecast_id; rt_valid_until_process_monotonic_time_ns := Some expiration;
              rt_forecast_contract_bytes := Some contract; rt_schema_version := MARKET_SPECIALISTS_SCHEMA_VERSION |} in
  do! SpecialistResult_post_init r in Ok r.

(** [_verify_replay] *)
Definition verify_result {T} (document : T -> json) (result : SpecialistResult T) (expected : pybytes) : res (SpecialistResult T) :=
  do! raise_when (negb (Z.of_nat (length expected) =? SHA256_BYTES)) MarketSpecialistEvaluationError
        "expected specialist replay digest must contain 32 bytes" in
  let! digest := SpecialistResult_sha256 document result in
  do! raise_when (negb (bool_decide (digest = expected))) MarketSpecialistEvaluationError
        "market specialist replay output digest mismatch" in
  Ok result.

(** A [DistributionPpm] of three quantiles. *)
Definition quantiles (samples : list Z) : res DistributionPpm :=
  let! p10 := market_quantile samples 10 in
  let! p50 := market_quantile samples 50 in
  let! p90 := market_quantile samples 90 in
  let d := {| dp_p10 := p10; dp_p50 := p50; dp_p90 := p90 |} in
  do! DistributionPpm_post_init d in Ok d.

(** The share of a volume, at most one. *)
Definition participation (quantity volume : Z) : res Z :=
  let! q := market_div (Z.abs quantity * PPM) volume in Ok (Z.min PPM q).

(** ** Index rebalances *)

(** [_signed_range] *)
Definition signed_range (lower upper sign : Z) : res SignedIntRange :=
  let r := if sign <? 0 then {| sr_lower := - upper; sr_upper := - lower |} else {| sr_lower := lower; sr_upper := upper |} in
  do! SignedIntRange_post_init r in Ok r.

Definition rebalance_reasons (config : IndexRebalanceSpecialistConfig) (b : RebalanceInputBundle) : res (list SpecialistReasonCode) :=
  let! old := stale (rb_context b) (ir_maximum_etf_input_age_ns config) (et_source_id (rb_etf b)) in
  Ok (common_reasons (rb_context b) (bc_minimum_data_quality_ppm (ir_base config))
      ++ (if Z.of_nat (length (rb_history b)) <? ir_minimum_history_count config then [SR_INSUFFICIENT_HISTORY] else [])
      ++ (if old : bool then [SR_STALE_INPUT] else [])
      ++ (if bool_decide (rb_assumption b = UNKNOWN_BOUNDED_TRACKING) then [SR_ASSUMPTION_LIMITED] else [])).

(** The uncertainty of a rebalance estimate. *)
Definition rebalance_uncertainty (b : RebalanceInputBundle) : res Z :=
  let! share := market_div PPM (Z.of_nat (length (rb_history b)) + 1) in
  let u := Z.max (Z.max (ra_tracking_assets_uncertainty_ppm (rb_announcement b)) (PPM - effective_quality (rb_context b))) share in
  Ok (if bool_decide (rb_assumption b = UNKNOWN_BOUNDED_TRACKING) then Z.max u 250000 else u).

(** A flow bound: the base flow scaled by the uncertainty and by a participation. *)
Definition scaled_flow (base_flow factor share : Z) : res Z :=
  let! inner := market_div (base_flow * factor) PPM in market_div (inner * share) PPM.

(** One sample of the impact at the current participation. *)
Definition impact_sample (sign current : Z) (h : HistoricalRebalanceAuction) : res Z :=
  let! share := participation (hr_passive_demand_shares h) (hr_auction_volume_shares h) in
  let! magnitude := market_div (Z.abs (hr_realized_impact_ppm h) * current) (Z.max 1 share) in
  Ok (sign * Z.min PPM magnitude).

(** The estimate of [IndexRebalanceSpecialist.evaluate], with its uncertainty. *)
Definition rebalance_estimate (config : IndexRebalanceSpecialistConfig) (b : RebalanceInputBundle) : res (RebalanceEstimate * Z) :=
  let a := rb_announcement b in
  let weight_delta := ra_new_weight_ppm a - ra_old_weight_ppm a in
  let sign := if weight_delta <? 0 then -1 else 1 in
  let! flow := market_div (weight_delta * ra_estimated_tracking_assets_currency_nanos a) PPM in
  let base_flow := Z.abs flow in
  let! uncertainty := rebalance_uncertainty b in
  let! lower_flow := scaled_flow base_flow (PPM - uncertainty) (ra_passive_participation_lower_ppm a) in
  let! upper := scaled_flow base_flow (PPM + uncertainty) (ra_passive_participation_upper_ppm a) in
  let upper_flow := Z.min MAX_INT64 upper in
  let! flow_range := signed_range lower_flow upper_flow sign in
  let price := et_reference_price_currency_nanos (rb_etf b) in
  let! shares := res_map (fun h => participation (hr_passive_demand_shares h) (hr_auction_volume_shares h)) (rb_history b) in
  let! historical := market_median shares in
  let! demand_lower := market_div (lower_flow / price * historical) PPM in
  let! demand_upper := market_div (upper_flow / price * historical) PPM in
  let! demand_range := signed_range demand_lower demand_upper sign in
  let! current := participation (Z.max (Z.abs (sr_lower demand_range)) (Z.abs (sr_upper demand_range)))
                    (et_forecast_closing_auction_volume_shares (rb_etf b)) in
  let! samples := res_map (impact_sample sign current) (rb_history b) in
  let! impact := quantiles samples in
  let! reversal := market_div (count_if hr_reversed_within_window (rb_history b) * PPM) (Z.of_nat (length (rb_history b))) in
  let estimate :=
    {| re_assumption := rb_assumption b; re_passive_flow_currency_nanos := flow_range;
       re_timing_start_wall_clock_utc_ns := ra_effective_auction_wall_clock_utc_ns a - ir_timing_window_before_ns config;
       re_timing_end_wall_clock_utc_ns := ra_effective_auction_wall_clock_utc_ns a + ir_timing_window_after_ns config;
       re_auction_demand_shares := demand_range; re_price_impact_distribution_ppm := impact;
       re_reversal_probability_ppm := reversal; re_uncertainty_ppm := uncertainty |} in
  do! RebalanceEstimate_post_init estimate in
  Ok (estimate, uncertainty).

(** [IndexRebalanceSpecialist.evaluate] *)
Definition rebalance_evaluate (config : IndexRebalanceSpecialistConfig) (b : RebalanceInputBundle)
    : res (SpecialistResult RebalanceEstimate) :=
  let! reasons := rebalance_reasons config b in
  if only_informational [SR_ASSUMPTION_LIMITED] reasons then
    let! eu := rebalance_estimate config b in
    let! input := document_sha256 (RebalanceInputBundle_document b) in
    published INDEX_REBALANCE (rb_context b) input (ir_base config) reasons eu.2 eu.1 (re_price_impact_distribution_ppm eu.1)
  else
    let! input := document_sha256 (RebalanceInputBundle_document b) in
    abstention INDEX_REBALANCE (rb_context b) input (ir_base config) reasons.

(** ** Closing auctions *)

Definition auction_reasons (config : AuctionSpecialistConfig) (b : AuctionInputBundle) : res (list SpecialistReasonCode) :=
  let! old := res_any (stale (ab_context b) (ac_maximum_input_age_ns config))
    [as_source_id (ab_snapshot b); av_source_id (ab_volume_forecast b); rs_source_id (ab_rebalance_state b)] in
  Ok (common_reasons (ab_context b) (bc_minimum_data_quality_ppm (ac_base config))
      ++ (if Z.of_nat (length (ab_history b)) <? ac_minimum_history_count config then [SR_INSUFFICIENT_HISTORY] else [])
      ++ (if old : bool then [SR_STALE_INPUT] else [])
      ++ (if rs_active (ab_rebalance_state b) then [SR_REBALANCE_ACTIVE] else [])
      ++ (if bool_decide (ab_assumption b = QUEUE_PRIORITY_UNKNOWN) then [SR_ASSUMPTION_LIMITED] else [])).

(** The imbalance with the demand of an active rebalance. *)
Definition combined_imbalance (b : AuctionInputBundle) : res Z :=
  let demand := rs_demand_shares (ab_rebalance_state b) in
  let! midpoint := market_div (sr_lower demand + sr_upper demand) 2 in
  Ok (as_signed_imbalance_quantity (ab_snapshot b) + (if rs_active (ab_rebalance_state b) then midpoint else 0)).

(** One sample of the clearing return. *)
Definition return_sample (indicative sign current : Z) (h : HistoricalAuctionBehavior) : res Z :=
  let! share := participation (ha_signed_imbalance_quantity h) (ha_auction_volume_quantity h) in
  let! residual := market_div (Z.abs (ha_clearing_return_ppm h) * current) (Z.max 1 share) in
  Ok (clamp (indicative + sign * residual) (- PPM) PPM).

(** A price at a return. *)
Definition price_at (reference ret : Z) : res Z :=
  let! p := market_div (reference * (PPM + ret)) PPM in Ok (Z.max 1 p).

Definition clearing_prices (reference : Z) (d : DistributionPpm) : res ClearingPriceDistribution :=
  let! p10 := price_at reference (dp_p10 d) in
  let! p50 := price_at reference (dp_p50 d) in
  let! p90 := price_at reference (dp_p90 d) in
  let p := {| cp_p10_currency_nanos := p10; cp_p50_currency_nanos := p50; cp_p90_currency_nanos := p90 |} in
  do! ClearingPriceDistribution_post_init p in Ok p.

(** The estimate of [AuctionSpecialist.evaluate], with its uncertainty and returns. *)
Definition auction_estimate (config : AuctionSpecialistConfig) (b : AuctionInputBundle) : res (AuctionEstimate * Z * DistributionPpm) :=
  let s := ab_snapshot b in
  let volume := av_forecast_quantity (ab_volume_forecast b) in
  let reference := as_reference_price_currency_nanos s in
  let! combined := combined_imbalance b in
  let sign := if combined <? 0 then -1 else 1 in
  let! current := participation combined volume in
  let! indicative := market_div ((as_indicative_match_price_currency_nanos s - reference) * PPM) reference in
  let! samples := res_map (return_sample indicative sign current) (ab_history b) in
  let! returns := quantiles samples in
  let! prices := clearing_prices reference returns in
  let! observable := market_div (as_paired_quantity s * PPM) (as_paired_quantity s + Z.abs combined + 1) in
  let! historical := market_median (map ha_eligible_fill_probability_ppm (ab_history b)) in
  let! fill := market_div (observable + historical) 2 in
  let! allowed := market_div (volume * ac_maximum_participation_ppm config) PPM in
  let! share := market_div PPM (Z.of_nat (length (ab_history b)) + 1) in
  let uncertainty :=
    Z.max (Z.max (Z.max (Z.max (PPM - effective_quality (ab_context b)) (PPM - av_confidence_ppm (ab_volume_forecast b))) share)
             (if rs_active (ab_rebalance_state b) then rs_uncertainty_ppm (ab_rebalance_state b) else 0))
      (if bool_decide (ab_assumption b = QUEUE_PRIORITY_UNKNOWN) then 300000 else 0) in
  let estimate :=
    {| ae_assumption := ab_assumption b; ae_clearing_price_distribution := prices; ae_fill_probability_ppm := fill;
       ae_recommended_participation_cap_quantity := Z.min (as_paired_quantity s) allowed; ae_uncertainty_ppm := uncertainty |} in
  do! AuctionEstimate_post_init estimate in
  Ok (estimate, uncertainty, returns).

(** [AuctionSpecialist.evaluate] *)
Definition auction_evaluate (config : AuctionSpecialistConfig) (b : AuctionInputBundle) : res (SpecialistResult AuctionEstimate) :=
  let! reasons := auction_reasons config b in
  if only_informational [SR_REBALANCE_ACTIVE; SR_ASSUMPTION_LIMITED] reasons then
    let! eur := auction_estimate config b in
    let '(estimate, uncertainty, returns) := eur in
    let! input := document_sha256 (AuctionInputBundle_document b) in
    published AUCTION (ab_context b) input (ac_base config) reasons uncertainty estimate returns
  else
    let! input := document_sha256 (AuctionInputBundle_document b) in
    abstention AUCTION (ab_context b) input (ac_base config) reasons.

(** ** Hidden liquidity *)

Definition evidence_count (b : HiddenLiquidityInputBundle) : Z :=
  Z.of_nat (length (hb_executions b)) + Z.of_nat (length (hb_replenishments b)) + Z.of_nat (length (hb_partial_fill_sequences b)).

Definition liquidity_reasons (config : HiddenLiquiditySpecialistConfig) (b : HiddenLiquidityInputBundle)
    : res (list SpecialistReasonCode) :=
  let! old := res_any (stale (hb_context b) (hc_maximum_input_age_ns config)) (liquidity_sources b) in
  Ok (common_reasons (hb_context b) (bc_minimum_data_quality_ppm (hc_base config))
      ++ (if evidence_count b <? hc_minimum_evidence_count config then [SR_INSUFFICIENT_LIQUIDITY_EVIDENCE] else [])
      ++ (if old : bool then [SR_STALE_INPUT] else [])
      ++ [SR_ASSUMPTION_LIMITED]).

(** The executed quantity beyond what was displayed first. *)
Definition sequence_excess (b : HiddenLiquidityInputBundle) : Z :=
  sum_of (fun s => Z.max 0 (pf_cumulative_executed_quantity s - pf_initial_displayed_quantity s)) (hb_partial_fill_sequences b).

(** [iceberg_probability] of [HiddenLiquiditySpecialist.evaluate]. *)
Definition iceberg_probability (config : HiddenLiquiditySpecialistConfig) (b : HiddenLiquidityInputBundle) : res Z :=
  let displayed := sum_of dd_displayed_quantity (hb_displayed_depth b) in
  let replenished := sum_of ro_replenished_quantity (hb_replenishments b) in
  let! replenishment_ratio := market_div (replenished * PPM) (displayed + replenished + 1) in
  let! sequence_ratio := market_div (sequence_excess b * PPM)
                           (sum_of pf_cumulative_executed_quantity (hb_partial_fill_sequences b) + 1) in
  let! repetition := market_div (Z.of_nat (length (hb_replenishments b)) * PPM) (hc_minimum_evidence_count config) in
  let! raw := market_div (replenishment_ratio * 45 + sequence_ratio * 30 + Z.min PPM repetition * 25) 100 in
  let! half := market_div (vp_baseline_replenishment_probability_ppm (hb_venue_behavior b)) 2 in
  Ok (clamp (raw - half - vp_false_positive_probability_ppm (hb_venue_behavior b)) 0 PPM).

(** The range of the latent size. *)
Definition latent_size (b : HiddenLiquidityInputBundle) : res QuantityRange :=
  let lower := Z.max (Z.max (sum_of ro_replenished_quantity (hb_replenishments b))
                        (sum_of le_executed_quantity (hb_executions b) - sum_of dd_displayed_quantity (hb_displayed_depth b)))
                 (sequence_excess b) in
  let! extra := market_div (vp_typical_displayed_quantity (hb_venue_behavior b)
                            * vp_maximum_latent_multiple_ppm (hb_venue_behavior b)) PPM in
  let q := {| qr_lower_quantity := lower; qr_upper_quantity := Z.min MAX_INT64 (lower + extra) |} in
  do! QuantityRange_post_init q in Ok q.

(** The median of the observed impacts, at most one. *)
Definition impact_magnitude (b : HiddenLiquidityInputBundle) : res Z :=
  match hb_price_impacts b with
  | [] => Ok 0
  | l => let! m := market_median (map (fun i => Z.abs (pi_signed_impact_ppm i)) l) in Ok (Z.min PPM m)
  end.

(** [confidence] of [HiddenLiquiditySpecialist.evaluate]. *)
Definition liquidity_confidence (config : HiddenLiquiditySpecialistConfig) (b : HiddenLiquidityInputBundle) : res Z :=
  let! evidence := market_div (evidence_count b * PPM) (hc_minimum_evidence_count config * 2) in
  let! weighted := market_div (effective_quality (hb_context b) * Z.min PPM evidence) PPM in
  market_div (weighted * (PPM - vp_false_positive_probability_ppm (hb_venue_behavior b))) PPM.

(** The return distribution around the inferred level. *)
Definition liquidity_distribution (side : BookSide) (persistence uncertainty : Z) : res DistributionPpm :=
  let! pull := market_div persistence 20 in
  let expected := (match side with BID => 1 | ASK => -1 end) * Z.min 50000 pull in
  let! spread := market_div uncertainty 20 in
  let width := Z.max 1 spread in
  let d := {| dp_p10 := clamp (expected - width) (- PPM) PPM; dp_p50 := expected; dp_p90 := clamp (expected + width) (- PPM) PPM |} in
  do! DistributionPpm_post_init d in Ok d.

(** The estimate of [HiddenLiquiditySpecialist.evaluate], with its uncertainty. *)
Definition liquidity_estimate (config : HiddenLiquiditySpecialistConfig) (b : HiddenLiquidityInputBundle)
    : res (HiddenLiquidityEstimate * Z) :=
  let! probability := iceberg_probability config b in
  let! magnitude := impact_magnitude b in
  let! persistence := market_div (probability * (PPM - magnitude)) PPM in
  let! confidence := liquidity_confidence config b in
  let! size := latent_size b in
  let estimate := {| he_assumption := hb_assumption b; he_iceberg_probability_ppm := probability; he_latent_size_range := size;
                     he_support_resistance_persistence_ppm := persistence; he_confidence_ppm := confidence |} in
  do! HiddenLiquidityEstimate_post_init estimate in
  Ok (estimate, PPM - confidence).

(** [HiddenLiquiditySpecialist.evaluate] *)
Definition liquidity_evaluate (config : HiddenLiquiditySpecialistConfig) (b : HiddenLiquidityInputBundle)
    : res (SpecialistResult HiddenLiquidityEstimate) :=
  let! reasons := liquidity_reasons config b in
  if only_informational [SR_ASSUMPTION_LIMITED] reasons then
    let! eu := liquidity_estimate config b in
    let! d := liquidity_distribution (hb_candidate_side b) (he_support_resistance_persistence_ppm eu.1) eu.2 in
    let! input := document_sha256 (HiddenLiquidityInputBundle_document b) in
    published HIDDEN_LIQUIDITY (hb_context b) input (hc_base config) reasons eu.2 eu.1 d
  else
    let! input := document_sha256 (HiddenLiquidityInputBundle_document b) in
    abstention HIDDEN_LIQUIDITY (hb_context b) input (hc_base config) reasons.

(** The [verify_replay] methods. *)
Definition rebalance_verify_replay (config : IndexRebalanceSpecialistConfig) (b : RebalanceInputBundle) (expected : pybytes) :=
  let! r := rebalance_evaluate config b in verify_result RebalanceEstimate_document r expected.
Definition auction_verify_replay (config : AuctionSpecialistConfig) (b : AuctionInputBundle) (expected : pybytes) :=
  let! r := auction_evaluate config b in verify_result AuctionEstimate_document r expected.
Definition liquidity_verify_replay (config : HiddenLiquiditySpecialistConfig) (b : HiddenLiquidityInputBundle) (expected : pybytes) :=
  let! r := liquidity_evaluate config b in verify_result HiddenLiquidityEstimate_document r expected.
End specialists.

(** ** What the specialists share *)

(** The context may be used: the instrument is not disabled, and every source is known,
    authenticated and good enough. *)
Record trusted (c : SpecialistContext) (minimum : Z) : Prop := {
  tr_enabled : is_disabled (sc_symbol_policy c) (sc_instrument_id c) = false;
  tr_sources : sc_provenance c <> [];
  tr_quality : minimum <= effective_quality c;
  tr_authentic : Forall (fun p => pr_authenticated p = true) (sc_provenance c);
}.

Definition informative (informational reasons : list SpecialistReasonCode) : Prop := Forall (fun r => r ∈ informational) reasons.

Lemma only_informational_forall informational reasons :
  only_informational informational reasons = true <-> informative informational reasons.
Proof.
  unfold only_informational, informative. rewrite forallb_forall, Forall_forall. setoid_rewrite bool_decide_eq_true.
  by setoid_rewrite list_elem_of_In.
Qed.

Lemma existsb_none {A} (f : A -> bool) l : existsb f l = false <-> Forall (fun x => f x = false) l.
Proof. induction l as [|x l IH]; cbn [existsb]; [by split|]. by rewrite orb_false_iff, IH, Forall_cons. Qed.

Lemma if_informative informational (b : bool) r : r ∉ informational -> informative informational (if b then [r] else []) <-> b = false.
Proof.
  intros Hr. unfold informative. destruct b; [|by split; [|intros; apply Forall_nil_2]]. rewrite Forall_singleton. by split.
Qed.

Lemma if_ignored informational (b : bool) r : r ∈ informational -> informative informational (if b then [r] else []) <-> True.
Proof. intros Hr. unfold informative. destruct b; [by rewrite Forall_singleton | by rewrite Forall_nil]. Qed.

Lemma informative_app informational l k :
  informative informational (l ++ k) <-> informative informational l /\ informative informational k.
Proof. apply Forall_app. Qed.

Lemma common_reasons_trusted informational c minimum :
  (forall r, r ∈ [SR_SYMBOL_DISABLED; SR_MISSING_PROVENANCE; SR_LOW_DATA_QUALITY; SR_UNAUTHENTICATED_SOURCE] -> r ∉ informational) ->
  informative informational (common_reasons c minimum) <-> trusted c minimum.
Proof.
  intros Hi. unfold common_reasons. rewrite !informative_app.
  rewrite (if_informative _ _ SR_SYMBOL_DISABLED), (if_informative _ _ SR_MISSING_PROVENANCE),
    (if_informative _ _ SR_LOW_DATA_QUALITY), (if_informative _ _ SR_UNAUTHENTICATED_SOURCE) by (apply Hi; set_solver).
  rewrite bool_decide_eq_false, Z.ltb_ge, existsb_none. split.
  - intros (H1 & H2 & H3 & H4). constructor; try done. eapply Forall_impl; [exact H4|]. intros p. apply negb_false_iff.
  - intros [H1 H2 H3 H4]. split_and!; try done. eapply Forall_impl; [exact H4|]. by intros p ->.
Qed.

(** The context and its provenance were constructed. *)
Record valid_context (c : SpecialistContext) : Prop := {
  vc_context : SpecialistContext_post_init c = Ok tt;
  vc_provenance : Forall (fun p => ProvenanceRecord_post_init p = Ok tt) (sc_provenance c);
}.

Lemma check_ppm_ok v name u : check_ppm v name = Ok u <-> 0 <= v <= PPM.
Proof. unfold check_ppm. rewrite raise_when_ok. lia. Qed.
Lemma check_positive_ok v name u : check_positive v name = Ok u <-> 0 < v <= MAX_INT64.
Proof. unfold check_positive. rewrite raise_when_ok. lia. Qed.
Lemma check_nonnegative_ok v name u : check_nonnegative v name = Ok u <-> 0 <= v <= MAX_INT64.
Proof. unfold check_nonnegative. rewrite raise_when_ok. lia. Qed.
Lemma check_impact_ok v name u : check_impact v name = Ok u <-> - MAX_ABSOLUTE_IMPACT_PPM <= v <= MAX_ABSOLUTE_IMPACT_PPM.
Proof. unfold check_impact. rewrite raise_when_ok. lia. Qed.

(** [ranges] turns the checks that passed into the ranges that they check. *)
Ltac ranges := inv_ok;
  repeat match goal with
  | H : check_ppm _ _ = Ok _ |- _ => apply check_ppm_ok in H
  | H : check_positive _ _ = Ok _ |- _ => apply check_positive_ok in H
  | H : check_nonnegative _ _ = Ok _ |- _ => apply check_nonnegative_ok in H
  | H : check_impact _ _ = Ok _ |- _ => apply check_impact_ok in H
  | H : int64 _ _ = Ok _ |- _ => apply int64_ok in H
  end.

(** [pass] advances over a check that [lia] shows to pass. *)
Ltac plain_lia := unfold PPM, MAX_INT64, MIN_INT64, MAX_ABSOLUTE_IMPACT_PPM in *; lia.
Ltac pass :=
  first [ rewrite (proj2 (check_ppm_ok _ _ tt)) by plain_lia | rewrite (proj2 (check_positive_ok _ _ tt)) by plain_lia
        | rewrite (proj2 (check_nonnegative_ok _ _ tt)) by plain_lia | rewrite (proj2 (check_impact_ok _ _ tt)) by plain_lia
        | rewrite (proj2 (int64_ok _ _ tt)) by plain_lia | rewrite raise_when_false by plain_lia ]; cbn [rbind].

Lemma foldl_min_bounds x l lo hi : lo <= x <= hi -> Forall (fun y => lo <= y) l -> lo <= foldl Z.min x l <= hi.
Proof. revert x. induction l as [|y l IH]; intros x Hx Hl; [done|]. apply Forall_cons in Hl as [? ?]. cbn. apply IH; [lia | done]. Qed.

Lemma quality_range c : valid_context c -> 0 <= effective_quality c <= PPM.
Proof.
  intros [Hc Hp]. unfold SpecialistContext_post_init in Hc. ranges. unfold effective_quality.
  destruct (sc_provenance c) as [|p l]; [unfold PPM; lia|]. apply foldl_min_bounds; [done|].
  change (map ?f ?l) with (f <$> l). apply Forall_fmap. eapply Forall_impl; [exact Hp|]. cbv beta. intros q Hq.
  unfold ProvenanceRecord_post_init in Hq. ranges. cbn. lia.
Qed.

(** The clocks of the context leave room for the lifetime and the horizon of a forecast. *)
Record clocks_leave_room (c : SpecialistContext) (config : BaseConfig) : Prop := {
  cl_expiration : sc_production_process_monotonic_time_ns c + bc_forecast_ttl_ns config <= MAX_INT64;
  cl_target : sc_as_of_exchange_event_time_ns c + bc_forecast_horizon_ns config <= MAX_INT64;
}.

Definition distribution_ok (d : DistributionPpm) : Prop :=
  - PPM <= dp_p10 d <= dp_p50 d /\ dp_p50 d <= dp_p90 d <= PPM.

Lemma forecast_wire_valid c config rid fid d confidence uncertainty :
  valid_context c -> BaseConfig_validate config = Ok tt -> clocks_leave_room c config -> distribution_ok d ->
  0 <= confidence <= PPM -> 0 <= uncertainty <= PPM ->
  contract_valid (forecast_wire c config rid fid (dp_p50 d) d confidence uncertainty)
    (bc_forecast_horizon_ns config) (sc_as_of_exchange_event_time_ns c + bc_forecast_horizon_ns config).
Proof.
  intros Hc Hcf [H1 H2] [Hd1 Hd2] Hconf Hu. pose proof (quality_range c Hc) as Hq. destruct Hc as [Hc _].
  unfold SpecialistContext_post_init in Hc. unfold BaseConfig_validate in Hcf. ranges. unfold PPM, MAX_INT64 in *.
  assert (0 <= (dp_p90 d - dp_p10 d) / 2 <= 1000000) as Hw.
  { split; [apply Z.div_pos; lia|]. transitivity (2000000 / 2); [apply Z.div_le_mono; lia | done]. }
  constructor; unfold target_values, returns_of, scores_of, costs_of, resolve_horizon, forecast_wire;
    cbn -[Z.pow clamp Z.div Z.min Z.abs Z.max effective_quality Z.ltb Z.eqb];
    unfold ppm, u64, i64_positive, maximum_return, maximum_score, PPM;
    rewrite ?bool_decide_eq_true_2 by done; cbn [nth];
    try done; try lia; intros; repeat apply Forall_cons_2; try apply Forall_nil_2; cbv beta;
    repeat match goal with |- context [if ?b then _ else _] => destruct b eqn:? end; lia.
Qed.

Definition digest_ok (d : pybytes) : Prop := length d = 32%nat /\ d <> replicate 32 0.

(** The document of a value has a digest, and not the reserved one. *)
Definition hashed (v : json) : Prop := exists d, document_sha256 v = Ok d /\ digest_ok d.

Lemma reason_codes_unique l : unique_by id (ordered_reasons l) = true.
Proof.
  apply unique_by_nodup. change (map id ?l) with (id <$> l). rewrite list_fmap_id. unfold ordered_reasons. rewrite py_sorted_perm.
  apply NoDup_remove_dups.
Qed.

Section results.
Variable encode : ForecastWire -> pybytes.
Variable c : SpecialistContext.
Variable config : BaseConfig.
Hypothesis Hcontext : valid_context c.
Hypothesis Hpolicy : hashed (SymbolPolicySnapshot_document (sc_symbol_policy c)).

Lemma abstention_total {T} kind input reasons :
  digest_ok input ->
  exists r : SpecialistResult T, abstention kind c input config reasons = Ok r
    /\ rt_decision r = SD_ABSTAIN /\ rt_reason_codes r = ordered_reasons reasons /\ rt_estimate r = None
    /\ rt_forecast_contract_bytes r = None.
Proof using Hcontext Hpolicy.
  intros Hi. destruct Hpolicy as (d & E & Hd). unfold abstention, SymbolPolicySnapshot_sha256. rewrite E. cbn [rbind].
  pose proof (quality_range c Hcontext) as Hq. destruct Hcontext as [Hc _]. unfold SpecialistContext_post_init in Hc. ranges.
  eexists. split.
  - unfold SpecialistResult_post_init. cbn [rt_input_sha256 rt_symbol_policy_sha256 rt_schema_version rt_data_quality_score_ppm
      rt_uncertainty_ppm rt_production_process_monotonic_time_ns rt_reason_codes rt_decision rt_estimate rt_forecast_id
      rt_valid_until_process_monotonic_time_ns rt_forecast_contract_bytes].
    rewrite (proj2 (valid_digest_ok input _ tt)), (proj2 (valid_digest_ok d _ tt)) by done. cbn [rbind].
    rewrite bool_decide_eq_true_2 by done. cbn [negb raise_when rbind]. do 3 pass. rewrite reason_codes_unique. done.
  - done.
Qed.

Lemma forecast_ids_total kind input :
  digest_ok input ->
  exists fid rid, news_derived_identifier (str "market-specialist-forecast")
      [PInt (SpecialistKind_value kind); PBytes input; PStr (id_hex (bc_model_version config))] = Ok fid
    /\ news_derived_identifier (str "market-specialist-record") [PStr (id_hex fid)] = Ok rid.
Proof using.
  intros [Hl _]. assert (forall i, exists b, news_part_bytes (PStr (id_hex i)) = Ok b /\ Z.of_nat (length b) < 256 ^ 4) as Hid.
  { intros i. exists (id_hex i). cbn [news_part_bytes]. rewrite (ascii_utf8 _ (id_hex_ascii i)), identifier_hex_length. by split. }
  destruct (news_identifier_total (str "market-specialist-forecast")
    [PInt (SpecialistKind_value kind); PBytes input; PStr (id_hex (bc_model_version config))]) as (fid & E & _); [done | |].
  { repeat apply Forall_cons_2; [| |apply Hid|apply Forall_nil_2].
    - exists (be_bytes 16 (SpecialistKind_value kind)). split; [by destruct kind | by rewrite length_be_bytes].
    - exists input. cbn [news_part_bytes]. rewrite Hl. by split. }
  destruct (news_identifier_total (str "market-specialist-record") [PStr (id_hex fid)]) as (rid & E' & _);
    [done | by apply Forall_cons_2; [apply Hid | apply Forall_nil_2]|]. by exists fid, rid.
Qed.

Hypothesis Hconfig : BaseConfig_validate config = Ok tt.
Hypothesis Hroom : clocks_leave_room c config.
Hypothesis Hmagic : forall w, forecast_magic (encode w) = str "AMCR".

Lemma published_total {T} kind input reasons uncertainty (estimate : T) d :
  digest_ok input -> distribution_ok d -> 0 <= uncertainty <= PPM ->
  exists r, published encode kind c input config reasons uncertainty estimate d = Ok r
    /\ rt_decision r = SD_PUBLISH /\ rt_reason_codes r = ordered_reasons reasons /\ rt_estimate r = Some estimate
    /\ rt_uncertainty_ppm r = uncertainty
    /\ exists rid fid, rt_forecast_contract_bytes r = Some (encode
         (let w := forecast_wire c config rid fid (dp_p50 d) d (Z.min (effective_quality c) (PPM - uncertainty)) uncertainty in
          {| wire_input := w; wire_horizon_value := bc_forecast_horizon_ns config;
             wire_target_exchange_event_time_ns := sc_as_of_exchange_event_time_ns c + bc_forecast_horizon_ns config;
             wire_target_values := target_values w |})).
Proof using All.
  intros Hi Hd Hu. pose proof (quality_range c Hcontext) as Hq. unfold published, forecast.
  destruct (forecast_ids_total kind input Hi) as (fid & rid & -> & E2). cbn [rbind]. rewrite E2. cbn [rbind].
  pose proof (forecast_wire_valid c config rid fid d (Z.min (effective_quality c) (PPM - uncertainty)) uncertainty Hcontext Hconfig
    Hroom Hd ltac:(unfold PPM in *; lia) Hu) as Hv. unfold build_model_forecast_contract.
  match type of Hv with contract_valid ?d ?v ?t =>
    rewrite (proj2 (validated_forecast_ok d {| wire_input := d; wire_horizon_value := v; wire_target_exchange_event_time_ns := t;
      wire_target_values := target_values d |})) by done end.
  cbn [rbind]. destruct Hpolicy as (pd & E & Hpd). unfold SymbolPolicySnapshot_sha256. rewrite E. cbn [rbind].
  destruct Hcontext as [Hc _]. unfold SpecialistContext_post_init in Hc. pose proof Hconfig as Hcf. unfold BaseConfig_validate in Hcf.
  pose proof (cl_expiration _ _ Hroom). ranges.
  eexists. split.
  - unfold SpecialistResult_post_init. cbn [rt_input_sha256 rt_symbol_policy_sha256 rt_schema_version rt_data_quality_score_ppm
    rt_uncertainty_ppm rt_production_process_monotonic_time_ns rt_reason_codes rt_decision rt_estimate rt_forecast_id
    rt_valid_until_process_monotonic_time_ns rt_forecast_contract_bytes default].
  rewrite (proj2 (valid_digest_ok input _ tt)), (proj2 (valid_digest_ok pd _ tt)) by done. cbn [rbind].
  rewrite !bool_decide_eq_true_2 by (try done; by eexists). cbn [negb raise_when rbind existsb orb]. do 3 pass.
  rewrite reason_codes_unique. cbn [negb raise_when rbind]. cbn [id]. do 2 pass. by rewrite Hmagic, bool_decide_eq_true_2.
  - split_and!; [done..|]. by eexists _, _.
Qed.
End results.

(** ** Sources *)

(** A source of the context that was received recently enough. *)
Definition fresh (c : SpecialistContext) (maximum_age : Z) (source_id : pystr) : Prop :=
  exists p, p ∈ sc_provenance c /\ pr_source_id p = source_id
    /\ sc_as_of_wall_clock_utc_ns c - pr_received_wall_clock_utc_ns p <= maximum_age.

Lemma stale_fresh c age source sources :
  SpecialistContext_post_init c = Ok tt -> require_sources c sources = Ok tt -> source ∈ sources ->
  exists k, stale c age source = Ok k /\ (k = false <-> fresh c age source).
Proof.
  intros Hc Hs Hin. unfold require_sources in Hs. inv_ok. apply existsb_none in Hs. rewrite Forall_forall in Hs.
  specialize (Hs source Hin). cbv beta in Hs. bprop. apply list_elem_of_fmap in Hs as (p0 & Hp0 & Hin0).
  unfold stale, provenance_at. destruct (List.find _ _) as [p|] eqn:E.
  - apply find_some in E as [Hp%in_rev%list_elem_of_In Hid]. apply bool_decide_eq_true in Hid. cbn [rbind].
    eexists. split; [done|]. rewrite Z.ltb_ge. split; [intros; by exists p|]. intros (q & Hq & Hqid & Hage).
    unfold SpecialistContext_post_init in Hc. inv_ok. apply negb_false_iff, unique_by_nodup in Ha4.
    by rewrite (NoDup_map_inj pr_source_id (sc_provenance c) p q) by congruence.
  - exfalso. assert (In p0 (rev (sc_provenance c))) as Hr by (by apply -> in_rev; apply list_elem_of_In).
    pose proof (find_none _ _ E p0 Hr) as Hno. apply bool_decide_eq_false in Hno. by apply Hno.
Qed.

Lemma any_stale c age sources l :
  SpecialistContext_post_init c = Ok tt -> require_sources c sources = Ok tt -> (forall s, s ∈ l -> s ∈ sources) ->
  exists k, res_any (stale c age) l = Ok k /\ (k = false <-> Forall (fresh c age) l).
Proof.
  intros Hc Hs. induction l as [|s l IH]; intros Hl; cbn [res_any]; [by exists false|].
  destruct (stale_fresh c age s sources Hc Hs) as (k & -> & Hk); [set_solver|].
  destruct IH as (j & IH & Hj); [set_solver|]. cbn [rbind].
  setoid_rewrite Forall_cons. setoid_rewrite <- Hk. setoid_rewrite <- Hj.
  destruct k; [exists true; naive_solver | rewrite IH; exists j; naive_solver].
Qed.

(** ** Distributions *)

Lemma quantiles_total samples lo hi :
  samples <> [] -> - PPM <= lo -> hi <= PPM -> Forall (fun v => lo <= v <= hi) samples ->
  exists d, quantiles samples = Ok d /\ lo <= dp_p10 d <= dp_p50 d /\ dp_p50 d <= dp_p90 d <= hi.
Proof.
  intros Hne Hlo Hhi H. destruct (quantiles_between MarketSpecialistEvaluationError samples lo hi Hne H)
    as (p10 & p50 & p90 & E1 & E2 & E3 & H1 & H2).
  unfold quantiles. rewrite E1. cbn [rbind]. rewrite E2. cbn [rbind]. rewrite E3. cbn [rbind].
  unfold DistributionPpm_post_init. cbn [dp_p10 dp_p50 dp_p90]. do 4 pass. eexists. split; [done|]. cbn [dp_p10 dp_p50 dp_p90]. lia.
Qed.

Lemma participation_total quantity volume : 0 < volume -> exists s, participation quantity volume = Ok s /\ 0 <= s <= PPM.
Proof.
  intros Hv. unfold participation. rewrite trunc_div_quot by done. cbn [rbind]. eexists. split; [done|].
  assert (0 <= Z.quot (Z.abs quantity * PPM) volume) by (apply Z.quot_pos; plain_lia). plain_lia.
Qed.

Lemma div_total n d : 0 < d -> market_div n d = Ok (Z.quot n d).
Proof. apply trunc_div_quot. Qed.

(** ** Rebalances *)

Record valid_rebalance (b : RebalanceInputBundle) : Prop := {
  vr_bundle : RebalanceInputBundle_post_init b = Ok tt;
  vr_context : valid_context (rb_context b);
  vr_announcement : IndexRebalanceAnnouncement_post_init (rb_announcement b) = Ok tt;
  vr_etf : EtfRebalanceContext_post_init (rb_etf b) = Ok tt;
  vr_history : Forall (fun h => HistoricalRebalanceAuction_post_init h = Ok tt) (rb_history b);
}.

(** The sign of the weight change and the flow of all tracking assets. *)
Definition rebalance_sign (b : RebalanceInputBundle) : Z :=
  if ra_new_weight_ppm (rb_announcement b) - ra_old_weight_ppm (rb_announcement b) <? 0 then -1 else 1.
Definition rebalance_flow (b : RebalanceInputBundle) : Z :=
  Z.abs (Z.quot ((ra_new_weight_ppm (rb_announcement b) - ra_old_weight_ppm (rb_announcement b))
                 * ra_estimated_tracking_assets_currency_nanos (rb_announcement b)) PPM).

Definition covers (r : SignedIntRange) (v : Z) : Prop := sr_lower r <= v <= sr_upper r.

(** What a rebalance estimate says: the flow range covers the flow of every participation
    between the announced bounds, in the direction of the weight change; the impact has the
    same direction; probabilities and uncertainty are proportions. *)
Record rebalance_sound (b : RebalanceInputBundle) (e : RebalanceEstimate) : Prop := {
  rn_flow : forall share, ra_passive_participation_lower_ppm (rb_announcement b) <= share
              <= ra_passive_participation_upper_ppm (rb_announcement b) ->
            covers (re_passive_flow_currency_nanos e) (rebalance_sign b * Z.quot (rebalance_flow b * share) PPM);
  rn_demand : sr_lower (re_auction_demand_shares e) <= sr_upper (re_auction_demand_shares e);
  rn_impact : distribution_ok (re_price_impact_distribution_ppm e)
              /\ 0 <= rebalance_sign b * dp_p10 (re_price_impact_distribution_ppm e)
              /\ 0 <= rebalance_sign b * dp_p90 (re_price_impact_distribution_ppm e);
  rn_reversal : 0 <= re_reversal_probability_ppm e <= PPM;
  rn_uncertainty : 0 <= re_uncertainty_ppm e <= PPM;
}.

Lemma quot_mono a b d : 0 < d -> a <= b -> Z.quot a d <= Z.quot b d.
Proof. intros. by apply Z.quot_le_mono. Qed.

Lemma rebalance_flow_bound b : valid_rebalance b -> 0 <= rebalance_flow b <= MAX_INT64.
Proof.
  intros Hv. pose proof (vr_announcement b Hv) as Ha. unfold IndexRebalanceAnnouncement_post_init in Ha. ranges.
  unfold rebalance_flow. set (d := ra_new_weight_ppm _ - _). assert (- PPM <= d <= PPM) by (unfold d; lia).
  assert (- MAX_INT64 <= Z.quot (d * ra_estimated_tracking_assets_currency_nanos (rb_announcement b)) PPM <= MAX_INT64); [|lia].
  apply quot_between; [by unfold PPM|]. clearbody d. unfold PPM, MAX_INT64 in *. nia.
Qed.

Lemma rebalance_uncertainty_total b : valid_rebalance b -> exists u, rebalance_uncertainty b = Ok u /\ 0 <= u <= PPM.
Proof.
  intros Hv. pose proof (vr_announcement b Hv) as Ha. unfold IndexRebalanceAnnouncement_post_init in Ha. ranges.
  pose proof (quality_range _ (vr_context b Hv)). unfold rebalance_uncertainty. rewrite div_total by lia. cbn [rbind].
  assert (0 <= Z.quot PPM (Z.of_nat (length (rb_history b)) + 1) <= PPM) by (apply quot_between; unfold PPM; lia).
  eexists. split; [done|]. case_bool_decide; plain_lia.
Qed.

Lemma scaled_flow_total base factor share : exists f, scaled_flow base factor share = Ok f
  /\ f = Z.quot (Z.quot (base * factor) PPM * share) PPM.
Proof. unfold scaled_flow. rewrite div_total by (by unfold PPM). cbn [rbind]. rewrite div_total by (by unfold PPM). by eexists. Qed.

Lemma quot_PPM v : Z.quot (v * PPM) PPM = v.
Proof. by apply Z.quot_mul. Qed.

(** The bounds of the flow enclose the flow of every participation between them. *)
Lemma flow_bounds base u lo hi :
  0 <= base <= MAX_INT64 -> 0 <= u <= PPM -> 0 <= lo <= hi -> hi <= PPM ->
  let lower := Z.quot (Z.quot (base * (PPM - u)) PPM * lo) PPM in
  let upper := Z.min MAX_INT64 (Z.quot (Z.quot (base * (PPM + u)) PPM * hi) PPM) in
  0 <= lower /\ lower <= upper <= MAX_INT64
  /\ forall share, lo <= share <= hi -> lower <= Z.quot (base * share) PPM <= upper.
Proof.
  intros Hb Hu Hl Hh lower upper. assert (0 < PPM) as HP by (by unfold PPM).
  assert (0 <= Z.quot (base * (PPM - u)) PPM <= base) as H1 by (apply quot_between; nia).
  assert (base <= Z.quot (base * (PPM + u)) PPM) as H2.
  { rewrite <- (quot_PPM base) at 1. apply quot_mono; nia. }
  assert (0 <= lower) by (apply Z.quot_pos; nia).
  assert (forall share, lo <= share <= hi -> lower <= Z.quot (base * share) PPM <= upper) as Hin.
  { intros share Hs. split; [apply quot_mono; nia|]. apply Z.min_glb.
    - transitivity base; [|lia]. rewrite <- (quot_PPM base) at 2. apply quot_mono; nia.
    - apply quot_mono; nia. }
  split; [done|]. split; [|done]. destruct (Hin lo ltac:(lia)) as [? _]. destruct (Hin lo ltac:(lia)) as [_ ?]. unfold upper in *. lia.
Qed.

Lemma signed_range_total lower upper sign :
  0 <= lower <= upper -> upper <= MAX_INT64 -> sign = -1 \/ sign = 1 ->
  exists r, signed_range lower upper sign = Ok r /\ covers r (sr_lower r)
    /\ Z.max (Z.abs (sr_lower r)) (Z.abs (sr_upper r)) = upper
    /\ forall v, lower <= v <= upper -> covers r (sign * v).
Proof.
  intros Hl Hu Hs. unfold signed_range, SignedIntRange_post_init, covers.
  destruct Hs as [-> | ->]; cbn [Z.ltb Z.compare sr_lower sr_upper]; do 3 pass; eexists; (split; [done|]); cbn [sr_lower sr_upper];
    split_and!; intros; lia.
Qed.

Lemma res_map_within {A} (f : A -> res Z) l lo hi :
  (forall x, x ∈ l -> exists v, f x = Ok v /\ lo <= v <= hi) ->
  exists vs, res_map f l = Ok vs /\ length vs = length l /\ Forall (fun v => lo <= v <= hi) vs.
Proof.
  induction l as [|x l IH]; intros H; cbn [res_map]; [by exists []|].
  destruct (H x) as (v & -> & Hv); [set_solver|]. destruct IH as (vs & -> & Hl & Hvs); [set_solver|]. cbn [rbind].
  exists (v :: vs). split_and!; [done | by cbn; rewrite Hl | by apply Forall_cons_2].
Qed.

(** A sample of an impact has the direction of the weight change. *)
Lemma impact_sample_total sign current h :
  HistoricalRebalanceAuction_post_init h = Ok tt -> 0 <= current -> sign = -1 \/ sign = 1 ->
  exists v, impact_sample sign current h = Ok v /\ Z.min 0 (sign * PPM) <= v <= Z.max 0 (sign * PPM).
Proof.
  intros Hh Hc Hs. unfold HistoricalRebalanceAuction_post_init in Hh. ranges. unfold impact_sample.
  destruct (participation_total (hr_passive_demand_shares h) (hr_auction_volume_shares h)) as (s & -> & _); [lia|]. cbn [rbind].
  rewrite div_total by lia. cbn [rbind]. eexists. split; [done|].
  assert (0 <= Z.quot (Z.abs (hr_realized_impact_ppm h) * current) (Z.max 1 s)) by (apply Z.quot_pos; [nia | lia]).
  destruct Hs as [-> | ->]; plain_lia.
Qed.

Lemma demand_bounds lower upper price share :
  0 <= lower <= upper -> upper <= MAX_INT64 -> 0 < price -> 0 <= share <= PPM ->
  0 <= Z.quot (lower / price * share) PPM <= Z.quot (upper / price * share) PPM
  /\ Z.quot (upper / price * share) PPM <= MAX_INT64.
Proof.
  intros Hl Hu Hp Hs. assert (0 <= lower / price) by (apply Z.div_pos; lia).
  assert (lower / price <= upper / price) by (apply Z.div_le_mono; lia).
  assert (upper / price <= upper) by (apply Z.div_le_upper_bound; nia). assert (0 < PPM) by (by unfold PPM). split_and!.
  - apply Z.quot_pos; nia.
  - apply quot_mono; nia.
  - apply (quot_between _ PPM 0); nia.
Qed.

Lemma historical_participation_total b :
  valid_rebalance b -> rb_history b <> [] ->
  exists shares m, res_map (fun h => participation (hr_passive_demand_shares h) (hr_auction_volume_shares h)) (rb_history b) = Ok shares
    /\ market_median shares = Ok m /\ 0 <= m <= PPM.
Proof.
  intros Hv Hne. destruct (res_map_within (fun h => participation (hr_passive_demand_shares h) (hr_auction_volume_shares h)) (rb_history b)
    0 PPM) as (shares & -> & Hlen & Hshares).
  { intros h Hh. pose proof (vr_history b Hv) as Hhist. rewrite Forall_forall in Hhist. specialize (Hhist h Hh).
    unfold HistoricalRebalanceAuction_post_init in Hhist. ranges. apply participation_total. lia. }
  destruct (median_between MarketSpecialistEvaluationError shares 0 PPM) as (m & E & Hm); [by intros ->; destruct (rb_history b) | done |].
  by exists shares, m.
Qed.

Lemma rebalance_sign_unit b : rebalance_sign b = -1 \/ rebalance_sign b = 1.
Proof. unfold rebalance_sign. destruct (_ <? 0); auto. Qed.

Lemma rebalance_impact_total b current :
  valid_rebalance b -> rb_history b <> [] -> 0 <= current ->
  exists samples d, res_map (impact_sample (rebalance_sign b) current) (rb_history b) = Ok samples /\ quantiles samples = Ok d
    /\ distribution_ok d /\ 0 <= rebalance_sign b * dp_p10 d /\ 0 <= rebalance_sign b * dp_p90 d.
Proof.
  intros Hv Hne Hc. pose proof (rebalance_sign_unit b) as Hs.
  edestruct (res_map_within (impact_sample (rebalance_sign b) current) (rb_history b)) as (samples & -> & Hlen & Hsamples).
  { intros h Hh. apply impact_sample_total; [|lia | done]. pose proof (vr_history b Hv) as Hhist. rewrite Forall_forall in Hhist. by apply Hhist. }
  edestruct (quantiles_total samples) as (d & E & Hd); [by intros ->; destruct (rb_history b) | | | exact Hsamples |];
    [destruct Hs as [-> | ->]; plain_lia ..|]. exists samples, d. unfold distribution_ok.
  split_and!; try done; destruct Hs as [Es | Es]; rewrite Es in *; plain_lia.
Qed.

(** The timing window lies within the clock. *)
Definition window_fits (config : IndexRebalanceSpecialistConfig) (b : RebalanceInputBundle) : Prop :=
  ir_timing_window_before_ns config < ra_effective_auction_wall_clock_utc_ns (rb_announcement b)
  /\ ra_effective_auction_wall_clock_utc_ns (rb_announcement b) + ir_timing_window_after_ns config <= MAX_INT64.

Lemma rebalance_estimate_total config b :
  valid_rebalance b -> IndexRebalanceSpecialistConfig_post_init config = Ok tt -> rb_history b <> [] -> window_fits config b ->
  exists e u, rebalance_estimate config b = Ok (e, u) /\ rebalance_sound b e /\ re_uncertainty_ppm e = u.
Proof.
  intros Hv Hc Hne [Hw1 Hw2]. pose proof (rebalance_flow_bound b Hv) as Hflow. destruct (rebalance_uncertainty_total b Hv) as (u & Eu & Hu).
  pose proof (vr_announcement b Hv) as Ha. unfold IndexRebalanceAnnouncement_post_init in Ha. pose proof (vr_etf b Hv) as He.
  unfold EtfRebalanceContext_post_init in He. unfold IndexRebalanceSpecialistConfig_post_init in Hc. ranges.
  unfold rebalance_estimate. rewrite div_total by (by unfold PPM). cbn [rbind]. fold (rebalance_flow b). fold (rebalance_sign b).
  pose proof (rebalance_sign_unit b) as Hs.
  rewrite Eu. cbn [rbind]. edestruct scaled_flow_total as (lower & -> & El). cbn [rbind].
  edestruct scaled_flow_total as (upper & -> & Eup). cbn [rbind].
  destruct (flow_bounds (rebalance_flow b) u (ra_passive_participation_lower_ppm (rb_announcement b))
    (ra_passive_participation_upper_ppm (rb_announcement b)) Hflow Hu) as (H1 & [H2 H3] & Hin); [lia..|].
  rewrite <- El, <- Eup in *. destruct (signed_range_total lower (Z.min MAX_INT64 upper) (rebalance_sign b)) as (fr & -> & Hf1 & _ & Hf2); [lia..|done|].
  cbn [rbind].
  destruct (historical_participation_total b Hv Hne) as (shares & m & -> & Em & Hm). cbn [rbind]. rewrite Em. cbn [rbind].
  rewrite !div_total by (by unfold PPM). cbn [rbind].
  destruct (demand_bounds lower (Z.min MAX_INT64 upper) (et_reference_price_currency_nanos (rb_etf b)) m) as [Hd1 Hd2]; [lia..|].
  edestruct signed_range_total as (dr & -> & Hd3 & _ & _); [exact Hd1 | exact Hd2 | exact Hs |]. cbn [rbind].
  edestruct (participation_total (Z.max (Z.abs (sr_lower dr)) (Z.abs (sr_upper dr)))) as (current & -> & Hcur);
    [shelve|]. cbn [rbind].
  destruct (rebalance_impact_total b current Hv Hne) as (samples & d & -> & Ed & Hd); [lia|]. cbn [rbind]. rewrite Ed. cbn [rbind].
  assert (0 < Z.of_nat (length (rb_history b))) by (destruct (rb_history b); [done | cbn [length]; lia]).
  rewrite div_total by done. cbn [rbind].
  pose proof (count_if_bound hr_reversed_within_window (rb_history b)).
  assert (0 <= Z.quot (count_if hr_reversed_within_window (rb_history b) * PPM) (Z.of_nat (length (rb_history b))) <= PPM)
    by (apply quot_between; plain_lia).
  eexists _, _. split; [|split].
  - unfold RebalanceEstimate_post_init. cbn [re_timing_start_wall_clock_utc_ns re_timing_end_wall_clock_utc_ns re_reversal_probability_ppm
      re_uncertainty_ppm]. repeat pass. reflexivity.
  - constructor; cbn; try lia; try done.
    + intros share Hsh. apply Hf2, Hin. lia.
    + unfold covers in Hd3. lia.
  - done.
  Unshelve. lia.
Qed.

(** ** Decisions *)

(** A result is an answer to [reasons]: it publishes exactly when [publishable], a published
    result has a sound estimate and a contract, an abstention has neither. *)
Record answers {T} (reasons : list SpecialistReasonCode) (publishable : Prop) (sound : T -> Z -> Prop) (r : SpecialistResult T) : Prop := {
  aw_decision : rt_decision r = SD_PUBLISH <-> publishable;
  aw_reasons : rt_reason_codes r = ordered_reasons reasons;
  aw_published : rt_decision r = SD_PUBLISH -> exists e bytes, rt_estimate r = Some e /\ sound e (rt_uncertainty_ppm r)
                 /\ rt_forecast_contract_bytes r = Some bytes;
  aw_abstained : rt_decision r = SD_ABSTAIN -> rt_estimate r = None /\ rt_forecast_contract_bytes r = None;
}.

(** What an evaluation relies on besides its bundle: a configuration that was constructed,
    clocks with room, digests that are not the reserved one, an encoder of contract records. *)
Record evaluable (encode : ForecastWire -> pybytes) (c : SpecialistContext) (config : BaseConfig) (document : json) : Prop := {
  ev_context : valid_context c;
  ev_config : BaseConfig_validate config = Ok tt;
  ev_room : clocks_leave_room c config;
  ev_policy : hashed (SymbolPolicySnapshot_document (sc_symbol_policy c));
  ev_document : hashed document;
  ev_magic : forall w, forecast_magic (encode w) = str "AMCR";
}.

Section decision.
Context {T : Type} (encode : ForecastWire -> pybytes) (kind : SpecialistKind) (c : SpecialistContext) (config : BaseConfig).
Context (document : json) (informational reasons : list SpecialistReasonCode) (publishable : Prop) (sound : T -> Z -> Prop).
Hypothesis Hev : evaluable encode c config document.
Hypothesis Hpub : informative informational reasons <-> publishable.

Lemma abstains (H : only_informational informational reasons = false) :
  exists r : SpecialistResult T, (let! input := document_sha256 document in abstention kind c input config reasons) = Ok r
    /\ answers reasons publishable sound r.
Proof using All.
  destruct Hev as [Hc Hcf Hr Hp (d & -> & Hd) Hm]. cbn [rbind].
  destruct (abstention_total (T := T) c config Hc Hp kind d reasons Hd) as (r & -> & H1 & H2 & H3 & H4).
  exists r. split; [done|]. constructor; [|done|by rewrite H1|done]. rewrite H1, <- Hpub, <- only_informational_forall, H. by split.
Qed.

Lemma publishes e u d (H : only_informational informational reasons = true) :
  distribution_ok d -> 0 <= u <= PPM -> sound e u ->
  exists r : SpecialistResult T, (let! input := document_sha256 document in published encode kind c input config reasons u e d) = Ok r
    /\ answers reasons publishable sound r.
Proof using All.
  intros Hdist Hu Hs. destruct Hev as [Hc Hcf Hr Hp (digest & -> & Hd) Hm]. cbn [rbind].
  destruct (published_total encode c config Hc Hp Hcf Hr Hm kind digest reasons u e d Hd Hdist Hu)
    as (r & -> & H1 & H2 & H3 & H4 & rid & fid & H5).
  exists r. split; [done|]. constructor; [|done| |by rewrite H1].
  - rewrite H1, <- Hpub, <- only_informational_forall, H. by split.
  - intros _. rewrite H4. by eexists _, _.
Qed.
End decision.

(** A rebalance is published when its context is trusted, the history is long enough and the
    ETF input is recent. *)
Definition rebalance_publishable (config : IndexRebalanceSpecialistConfig) (b : RebalanceInputBundle) : Prop :=
  trusted (rb_context b) (bc_minimum_data_quality_ppm (ir_base config))
  /\ ir_minimum_history_count config <= Z.of_nat (length (rb_history b))
  /\ fresh (rb_context b) (ir_maximum_etf_input_age_ns config) (et_source_id (rb_etf b)).

Lemma rebalance_reasons_total config b :
  valid_rebalance b -> exists reasons, rebalance_reasons config b = Ok reasons
    /\ (informative [SR_ASSUMPTION_LIMITED] reasons <-> rebalance_publishable config b).
Proof.
  intros Hv. pose proof (vr_bundle b Hv) as Hb. unfold RebalanceInputBundle_post_init in Hb. inv_ok.
  unfold rebalance_reasons. edestruct (stale_fresh (rb_context b) (ir_maximum_etf_input_age_ns config) (et_source_id (rb_etf b)))
    as (k & -> & Hk); [apply (vc_context _ (vr_context b Hv)) | eassumption | set_solver |]. cbn [rbind].
  eexists. split; [done|]. rewrite !informative_app, common_reasons_trusted by set_solver.
  rewrite (if_informative _ _ SR_INSUFFICIENT_HISTORY), (if_informative _ k), if_ignored by set_solver.
  rewrite Hk, Z.ltb_ge. unfold rebalance_publishable. naive_solver.
Qed.


(** ** Closing auctions *)

Record valid_auction (b : AuctionInputBundle) : Prop := {
  va_bundle : AuctionInputBundle_post_init b = Ok tt;
  va_context : valid_context (ab_context b);
  va_snapshot : AuctionSnapshot_post_init (ab_snapshot b) = Ok tt;
  va_volume : AuctionVolumeForecast_post_init (ab_volume_forecast b) = Ok tt;
  va_state : RebalanceAuctionState_post_init (ab_rebalance_state b) = Ok tt;
  va_history : Forall (fun h => HistoricalAuctionBehavior_post_init h = Ok tt) (ab_history b);
}.

(** What an auction estimate says: the prices are ordered and between one and twice the
    reference price; the cap exceeds neither the paired quantity nor the allowed share of the
    forecast volume; the uncertainty covers what the inputs leave open. *)
Record auction_sound (config : AuctionSpecialistConfig) (b : AuctionInputBundle) (e : AuctionEstimate) : Prop := {
  an_prices : let p := ae_clearing_price_distribution e in
    1 <= cp_p10_currency_nanos p <= cp_p50_currency_nanos p
    /\ cp_p50_currency_nanos p <= cp_p90_currency_nanos p <= 2 * as_reference_price_currency_nanos (ab_snapshot b);
  an_cap : 0 <= ae_recommended_participation_cap_quantity e <= as_paired_quantity (ab_snapshot b)
    /\ ae_recommended_participation_cap_quantity e * PPM
       <= av_forecast_quantity (ab_volume_forecast b) * ac_maximum_participation_ppm config;
  an_fill : 0 <= ae_fill_probability_ppm e <= PPM;
  an_uncertainty : PPM - effective_quality (ab_context b) <= ae_uncertainty_ppm e <= PPM
    /\ PPM - av_confidence_ppm (ab_volume_forecast b) <= ae_uncertainty_ppm e
    /\ (rs_active (ab_rebalance_state b) = true -> rs_uncertainty_ppm (ab_rebalance_state b) <= ae_uncertainty_ppm e);
}.

Lemma return_sample_total indicative sign current h :
  HistoricalAuctionBehavior_post_init h = Ok tt ->
  exists v, return_sample indicative sign current h = Ok v /\ - PPM <= v <= PPM.
Proof.
  intros Hh. unfold HistoricalAuctionBehavior_post_init in Hh. ranges. unfold return_sample.
  destruct (participation_total (ha_signed_imbalance_quantity h) (ha_auction_volume_quantity h)) as (s & -> & _); [lia|].
  cbn [rbind]. rewrite div_total by lia. cbn [rbind]. eexists. split; [done|]. apply clamp_between. by unfold PPM.
Qed.

Lemma price_at_total reference ret : exists p, price_at reference ret = Ok p /\ p = Z.max 1 (Z.quot (reference * (PPM + ret)) PPM).
Proof. unfold price_at. rewrite div_total by (by unfold PPM). by eexists. Qed.

Lemma clearing_prices_total reference d :
  distribution_ok d -> 0 < reference -> 2 * reference <= MAX_INT64 ->
  exists p, clearing_prices reference d = Ok p /\ 1 <= cp_p10_currency_nanos p <= cp_p50_currency_nanos p
    /\ cp_p50_currency_nanos p <= cp_p90_currency_nanos p <= 2 * reference.
Proof.
  intros [H1 H2] Hr Hm. unfold clearing_prices.
  destruct (price_at_total reference (dp_p10 d)) as (p10 & -> & E1). cbn [rbind].
  destruct (price_at_total reference (dp_p50 d)) as (p50 & -> & E2). cbn [rbind].
  destruct (price_at_total reference (dp_p90 d)) as (p90 & -> & E3). cbn [rbind].
  assert (Z.quot (reference * (PPM + dp_p10 d)) PPM <= Z.quot (reference * (PPM + dp_p50 d)) PPM) by (apply quot_mono; plain_lia || nia).
  assert (Z.quot (reference * (PPM + dp_p50 d)) PPM <= Z.quot (reference * (PPM + dp_p90 d)) PPM) by (apply quot_mono; plain_lia || nia).
  assert (Z.quot (reference * (PPM + dp_p90 d)) PPM <= 2 * reference)
    by (apply (quot_between _ PPM 0); [by unfold PPM | nia]).
  unfold ClearingPriceDistribution_post_init. cbn [cp_p10_currency_nanos cp_p50_currency_nanos cp_p90_currency_nanos].
  repeat pass. eexists. split; [done|]. cbn. lia.
Qed.

Lemma combined_imbalance_total b : exists v, combined_imbalance b = Ok v.
Proof. unfold combined_imbalance. rewrite div_total by done. by eexists. Qed.

Lemma auction_returns_total b indicative sign current :
  valid_auction b -> ab_history b <> [] ->
  exists samples d, res_map (return_sample indicative sign current) (ab_history b) = Ok samples /\ quantiles samples = Ok d /\ distribution_ok d.
Proof.
  intros Hv Hne. destruct (res_map_within (return_sample indicative sign current) (ab_history b) (- PPM) PPM)
    as (samples & -> & Hlen & Hsamples).
  { intros h Hh. apply return_sample_total. pose proof (va_history b Hv) as Hhist. rewrite Forall_forall in Hhist. by apply Hhist. }
  destruct (quantiles_total samples (- PPM) PPM) as (d & E & Hd1 & Hd2); [by intros ->; destruct (ab_history b) | plain_lia.. | done |].
  by exists samples, d.
Qed.

Lemma historical_fill_total b :
  valid_auction b -> ab_history b <> [] ->
  exists m, market_median (map ha_eligible_fill_probability_ppm (ab_history b)) = Ok m /\ 0 <= m <= PPM.
Proof.
  intros Hv Hne. apply median_between; [by destruct (ab_history b)|]. change (map ?f ?l) with (f <$> l). apply Forall_fmap.
  eapply Forall_impl; [apply (va_history b Hv)|]. cbv beta. intros h Hh. unfold HistoricalAuctionBehavior_post_init in Hh. ranges. cbn. lia.
Qed.

Lemma auction_estimate_total config b :
  valid_auction b -> AuctionSpecialistConfig_post_init config = Ok tt -> ab_history b <> [] ->
  2 * as_reference_price_currency_nanos (ab_snapshot b) <= MAX_INT64 ->
  exists e u d, auction_estimate config b = Ok (e, u, d) /\ auction_sound config b e /\ ae_uncertainty_ppm e = u /\ distribution_ok d.
Proof.
  intros Hv Hc Hne Href. pose proof (quality_range _ (va_context b Hv)) as Hq.
  pose proof (va_snapshot b Hv) as Hs. unfold AuctionSnapshot_post_init in Hs. pose proof (va_volume b Hv) as Hvol.
  unfold AuctionVolumeForecast_post_init in Hvol. pose proof (va_state b Hv) as Hst. unfold RebalanceAuctionState_post_init in Hst.
  unfold AuctionSpecialistConfig_post_init in Hc. ranges. bprop.
  unfold auction_estimate. destruct (combined_imbalance_total b) as (combined & ->). cbn [rbind].
  destruct (participation_total combined (av_forecast_quantity (ab_volume_forecast b))) as (current & -> & _); [lia|]. cbn [rbind].
  rewrite div_total by lia. cbn [rbind].
  edestruct (auction_returns_total b) as (samples & d & -> & Ed & Hd); [done | done |]. cbn [rbind]. rewrite Ed.
  cbn [rbind]. destruct (clearing_prices_total (as_reference_price_currency_nanos (ab_snapshot b)) d) as (p & -> & Hp); [done | lia | done |].
  cbn [rbind]. rewrite div_total by lia. cbn [rbind].
  destruct (historical_fill_total b) as (m & -> & Hm); [done | done |].
  cbn [rbind]. rewrite !div_total by plain_lia. cbn [rbind].
  set (observable := Z.quot (_ * PPM) (_ + _ + 1)).
  assert (0 <= observable <= PPM) by (apply quot_between; plain_lia).
  assert (0 <= Z.quot (observable + m) 2 <= PPM) by (apply quot_between; lia).
  set (allowed := Z.quot (_ * ac_maximum_participation_ppm config) PPM).
  assert (0 <= allowed /\ allowed * PPM <= av_forecast_quantity (ab_volume_forecast b) * ac_maximum_participation_ppm config) as [Hal1 Hal2].
  { split; [apply Z.quot_pos; plain_lia || nia|]. unfold allowed. rewrite Z.mul_comm. apply Z.mul_quot_le; [nia | by unfold PPM]. }
  assert (0 <= Z.quot PPM (Z.of_nat (length (ab_history b)) + 1) <= PPM) by (apply quot_between; plain_lia).
  eexists _, _, d. split; [|split_and!].
  - unfold AuctionEstimate_post_init. cbn [ae_fill_probability_ppm ae_recommended_participation_cap_quantity ae_uncertainty_ppm].
    pass. pass. rewrite (proj2 (check_ppm_ok _ _ tt)); [reflexivity|]. destruct (rs_active _); case_bool_decide; plain_lia.
  - constructor; cbn; [done | | done |].
    + split; [lia|]. transitivity (allowed * PPM); [|done]. apply Z.mul_le_mono_nonneg_r; plain_lia.
    + split_and!; [| | |intros E; rewrite E]; destruct (rs_active _); case_bool_decide; plain_lia.
  - done.
  - done.
Qed.

(** An auction is published when its context is trusted, the history is long enough and the
    snapshot, the volume forecast and the rebalance state are recent. *)
Definition auction_publishable (config : AuctionSpecialistConfig) (b : AuctionInputBundle) : Prop :=
  trusted (ab_context b) (bc_minimum_data_quality_ppm (ac_base config))
  /\ ac_minimum_history_count config <= Z.of_nat (length (ab_history b))
  /\ Forall (fresh (ab_context b) (ac_maximum_input_age_ns config))
       [as_source_id (ab_snapshot b); av_source_id (ab_volume_forecast b); rs_source_id (ab_rebalance_state b)].

Lemma auction_reasons_total config b :
  valid_auction b -> exists reasons, auction_reasons config b = Ok reasons
    /\ (informative [SR_REBALANCE_ACTIVE; SR_ASSUMPTION_LIMITED] reasons <-> auction_publishable config b).
Proof.
  intros Hv. pose proof (va_bundle b Hv) as Hb. unfold AuctionInputBundle_post_init in Hb. inv_ok. unfold auction_reasons.
  edestruct (any_stale (ab_context b) (ac_maximum_input_age_ns config) (as_source_id (ab_snapshot b) :: av_source_id (ab_volume_forecast b)
    :: rs_source_id (ab_rebalance_state b) :: map ha_source_id (ab_history b))
    [as_source_id (ab_snapshot b); av_source_id (ab_volume_forecast b); rs_source_id (ab_rebalance_state b)])
    as (k & -> & Hk); [apply (vc_context _ (va_context b Hv)) | eassumption | set_solver |]. cbn [rbind].
  eexists. split; [done|]. rewrite !informative_app, common_reasons_trusted by set_solver.
  rewrite (if_informative _ _ SR_INSUFFICIENT_HISTORY), (if_informative _ k), !if_ignored by set_solver.
  rewrite Hk, Z.ltb_ge. unfold auction_publishable. naive_solver.
Qed.


(** ** Hidden liquidity *)

Record valid_liquidity (b : HiddenLiquidityInputBundle) : Prop := {
  vl_bundle : HiddenLiquidityInputBundle_post_init b = Ok tt;
  vl_context : valid_context (hb_context b);
  vl_venue : VenueBehaviorPrior_post_init (hb_venue_behavior b) = Ok tt;
  vl_depth : Forall (fun o => DisplayedDepthObservation_post_init o = Ok tt) (hb_displayed_depth b);
  vl_executions : Forall (fun o => LiquidityExecution_post_init o = Ok tt) (hb_executions b);
  vl_replenishments : Forall (fun o => ReplenishmentObservation_post_init o = Ok tt) (hb_replenishments b);
  vl_sequences : Forall (fun o => PartialFillSequence_post_init o = Ok tt) (hb_partial_fill_sequences b);
  vl_impacts : Forall (fun o => PriceImpactObservation_post_init o = Ok tt) (hb_price_impacts b);
}.

(** The observed quantities fit the range of a quantity. *)
Definition quantities_fit (b : HiddenLiquidityInputBundle) : Prop :=
  sum_of ro_replenished_quantity (hb_replenishments b) <= MAX_INT64
  /\ sum_of le_executed_quantity (hb_executions b) <= MAX_INT64
  /\ sequence_excess b <= MAX_INT64.

(** What a hidden-liquidity estimate says: probabilities are proportions; the level persists
    at most as probably as it exists; the confidence is at most the quality of the data and
    what false positives leave; the latent size is at least every observed excess. *)
Record liquidity_sound (b : HiddenLiquidityInputBundle) (e : HiddenLiquidityEstimate) : Prop := {
  ln_probability : 0 <= he_support_resistance_persistence_ppm e <= he_iceberg_probability_ppm e
    /\ he_iceberg_probability_ppm e <= PPM - vp_false_positive_probability_ppm (hb_venue_behavior b);
  ln_confidence : 0 <= he_confidence_ppm e <= effective_quality (hb_context b)
    /\ he_confidence_ppm e <= PPM - vp_false_positive_probability_ppm (hb_venue_behavior b);
  ln_size : let q := he_latent_size_range e in
    sum_of ro_replenished_quantity (hb_replenishments b) <= qr_lower_quantity q
    /\ sum_of le_executed_quantity (hb_executions b) - sum_of dd_displayed_quantity (hb_displayed_depth b) <= qr_lower_quantity q
    /\ sequence_excess b <= qr_lower_quantity q <= qr_upper_quantity q
    /\ qr_upper_quantity q <= MAX_INT64;
}.

Lemma sum_of_nonneg {A} (f : A -> Z) l : Forall (fun x => 0 <= f x) l -> 0 <= sum_of f l.
Proof. unfold sum_of. induction 1; cbn [foldr]; lia. Qed.

Lemma sum_of_pointwise {A} (f g : A -> Z) l : Forall (fun x => f x <= g x) l -> sum_of f l <= sum_of g l.
Proof. unfold sum_of. induction 1; cbn [foldr]; lia. Qed.

Section quantities.
Variable b : HiddenLiquidityInputBundle.
Hypothesis Hv : valid_liquidity b.

Lemma displayed_nonneg : 0 <= sum_of dd_displayed_quantity (hb_displayed_depth b).
Proof using Hv.
  apply sum_of_nonneg. eapply Forall_impl; [apply (vl_depth b Hv)|]. cbv beta. intros o H.
  unfold DisplayedDepthObservation_post_init in H. ranges. lia.
Qed.

Lemma replenished_nonneg : 0 <= sum_of ro_replenished_quantity (hb_replenishments b).
Proof using Hv.
  apply sum_of_nonneg. eapply Forall_impl; [apply (vl_replenishments b Hv)|]. cbv beta. intros o H.
  unfold ReplenishmentObservation_post_init in H. ranges. lia.
Qed.

Lemma excess_bounds : 0 <= sequence_excess b <= sum_of pf_cumulative_executed_quantity (hb_partial_fill_sequences b).
Proof using Hv.
  unfold sequence_excess. split; [apply sum_of_nonneg, Forall_forall; intros; lia|]. apply sum_of_pointwise.
  eapply Forall_impl; [apply (vl_sequences b Hv)|]. cbv beta. intros o H. unfold PartialFillSequence_post_init in H. ranges. lia.
Qed.

Lemma venue_ranges : 0 <= vp_baseline_replenishment_probability_ppm (hb_venue_behavior b) <= PPM
  /\ 0 <= vp_false_positive_probability_ppm (hb_venue_behavior b) <= PPM
  /\ 0 < vp_typical_displayed_quantity (hb_venue_behavior b) /\ PPM <= vp_maximum_latent_multiple_ppm (hb_venue_behavior b).
Proof using Hv. pose proof (vl_venue b Hv) as H. unfold VenueBehaviorPrior_post_init in H. ranges. bprop. lia. Qed.

Lemma iceberg_probability_total config :
  0 < hc_minimum_evidence_count config ->
  exists p, iceberg_probability config b = Ok p /\ 0 <= p <= PPM - vp_false_positive_probability_ppm (hb_venue_behavior b).
Proof using Hv.
  intros Hm. pose proof displayed_nonneg. pose proof replenished_nonneg. pose proof excess_bounds.
  destruct venue_ranges as (Hb & Hf & _ & _). unfold iceberg_probability.
  rewrite !div_total by (lia || done). cbn [rbind].
  set (rr := Z.quot _ (_ + _ + 1)). assert (0 <= rr <= PPM) by (apply quot_between; plain_lia).
  set (sr := Z.quot (_ * PPM) (_ + 1)). assert (0 <= sr <= PPM) by (apply quot_between; plain_lia).
  set (rep := Z.quot _ (hc_minimum_evidence_count config)). assert (0 <= rep) by (apply Z.quot_pos; plain_lia).
  rewrite !div_total by done. cbn [rbind].
  assert (0 <= Z.quot (rr * 45 + sr * 30 + Z.min PPM rep * 25) 100 <= PPM) by (apply quot_between; plain_lia).
  assert (0 <= Z.quot (vp_baseline_replenishment_probability_ppm (hb_venue_behavior b)) 2) by (apply Z.quot_pos; lia).
  eexists. split; [done|]. unfold clamp. lia.
Qed.

Lemma latent_size_total :
  quantities_fit b -> exists q, latent_size b = Ok q
    /\ sum_of ro_replenished_quantity (hb_replenishments b) <= qr_lower_quantity q
    /\ sum_of le_executed_quantity (hb_executions b) - sum_of dd_displayed_quantity (hb_displayed_depth b) <= qr_lower_quantity q
    /\ sequence_excess b <= qr_lower_quantity q <= qr_upper_quantity q
    /\ qr_upper_quantity q <= MAX_INT64.
Proof using Hv.
  intros (H1 & H2 & H3). pose proof displayed_nonneg. pose proof replenished_nonneg. destruct venue_ranges as (_ & _ & Ht & Hmax).
  unfold latent_size. rewrite div_total by done. cbn [rbind]. set (extra := Z.quot _ PPM).
  assert (0 <= extra) by (apply Z.quot_pos; plain_lia || nia).
  unfold QuantityRange_post_init. cbn [qr_lower_quantity qr_upper_quantity]. repeat pass. eexists. split; [done|].
  cbn [qr_lower_quantity qr_upper_quantity]. lia.
Qed.

Lemma impact_magnitude_total : exists m, impact_magnitude b = Ok m /\ 0 <= m <= PPM.
Proof using Hv.
  pose proof (vl_impacts b Hv) as Hi. unfold impact_magnitude. destruct (hb_price_impacts b) as [|o l] eqn:E; [exists 0; by split|].
  destruct (median_between MarketSpecialistEvaluationError (map (fun i => Z.abs (pi_signed_impact_ppm i)) (o :: l)) 0 MAX_ABSOLUTE_IMPACT_PPM)
    as (m & -> & Hm); [done | |].
  - change (map ?f ?l) with (f <$> l). apply Forall_fmap. eapply Forall_impl; [exact Hi|]. cbv beta. intros i H.
    unfold PriceImpactObservation_post_init in H. ranges. cbn. lia.
  - cbn [rbind]. eexists. split; [done|]. plain_lia.
Qed.

Lemma liquidity_confidence_total config :
  0 < hc_minimum_evidence_count config ->
  exists k, liquidity_confidence config b = Ok k /\ 0 <= k <= effective_quality (hb_context b)
    /\ k <= PPM - vp_false_positive_probability_ppm (hb_venue_behavior b).
Proof using Hv.
  intros Hm. pose proof (quality_range _ (vl_context b Hv)). destruct venue_ranges as (_ & Hf & _ & _). unfold liquidity_confidence.
  rewrite div_total by lia. cbn [rbind]. set (ev := Z.quot _ _). assert (0 <= ev) by (apply Z.quot_pos; [unfold evidence_count; plain_lia | lia]).
  rewrite div_total by done. cbn [rbind]. set (w := Z.quot _ PPM).
  assert (0 <= w <= effective_quality (hb_context b)) by (apply quot_between; [done | plain_lia || nia]).
  rewrite div_total by done. eexists. split; [done|]. split; apply quot_between || apply (quot_between _ PPM 0); done || nia.
Qed.
End quantities.

Lemma liquidity_distribution_total side persistence uncertainty :
  0 <= persistence <= PPM -> 0 <= uncertainty <= PPM ->
  exists d, liquidity_distribution side persistence uncertainty = Ok d /\ distribution_ok d.
Proof.
  intros Hp Hu. unfold liquidity_distribution. rewrite !div_total by done. cbn [rbind].
  assert (0 <= Z.quot persistence 20 <= 50000) by (apply quot_between; plain_lia).
  assert (0 <= Z.quot uncertainty 20 <= 50000) by (apply quot_between; plain_lia).
  set (x := _ * Z.min _ _). assert (- 50000 <= x <= 50000) by (unfold x; destruct side; lia). clearbody x.
  unfold DistributionPpm_post_init. cbn [dp_p10 dp_p50 dp_p90]. unfold clamp. repeat pass. eexists. split; [done|].
  unfold distribution_ok. cbn [dp_p10 dp_p50 dp_p90]. plain_lia.
Qed.

Lemma liquidity_estimate_total config b :
  valid_liquidity b -> HiddenLiquiditySpecialistConfig_post_init config = Ok tt -> quantities_fit b ->
  exists e u, liquidity_estimate config b = Ok (e, u) /\ liquidity_sound b e /\ u = PPM - he_confidence_ppm e.
Proof.
  intros Hv Hc Hq. unfold HiddenLiquiditySpecialistConfig_post_init in Hc. inv_ok. bprop.
  assert (0 < hc_minimum_evidence_count config) as Hm by lia. unfold liquidity_estimate.
  destruct (iceberg_probability_total b Hv config Hm) as (p & -> & Hp). cbn [rbind].
  destruct (impact_magnitude_total b Hv) as (m & -> & Hmag). cbn [rbind]. rewrite div_total by done. cbn [rbind].
  destruct (liquidity_confidence_total b Hv config Hm) as (k & -> & Hk). cbn [rbind].
  destruct (latent_size_total b Hv Hq) as (q & -> & Hsize). cbn [rbind]. destruct (venue_ranges b Hv) as (_ & Hf & _ & _).
  assert (0 <= Z.quot (p * (PPM - m)) PPM <= p) by (apply quot_between; [done | nia]).
  eexists _, _. split; [|split].
  - unfold HiddenLiquidityEstimate_post_init. cbn [he_iceberg_probability_ppm he_support_resistance_persistence_ppm he_confidence_ppm].
    repeat pass. reflexivity.
  - constructor; cbn; [lia | lia | done].
  - done.
Qed.

(** A level is published when its context is trusted, there is enough evidence and every
    source is recent. *)
Definition liquidity_publishable (config : HiddenLiquiditySpecialistConfig) (b : HiddenLiquidityInputBundle) : Prop :=
  trusted (hb_context b) (bc_minimum_data_quality_ppm (hc_base config))
  /\ hc_minimum_evidence_count config <= evidence_count b
  /\ Forall (fresh (hb_context b) (hc_maximum_input_age_ns config)) (liquidity_sources b).

Lemma liquidity_reasons_total config b :
  valid_liquidity b -> exists reasons, liquidity_reasons config b = Ok reasons
    /\ (informative [SR_ASSUMPTION_LIMITED] reasons <-> liquidity_publishable config b).
Proof.
  intros Hv. pose proof (vl_bundle b Hv) as Hb. unfold HiddenLiquidityInputBundle_post_init in Hb. inv_ok. unfold liquidity_reasons.
  edestruct (any_stale (hb_context b) (hc_maximum_input_age_ns config) (liquidity_sources b) (liquidity_sources b))
    as (k & -> & Hk); [apply (vc_context _ (vl_context b Hv)) | eassumption | done |]. cbn [rbind].
  eexists. split; [done|]. rewrite !informative_app, common_reasons_trusted by set_solver.
  rewrite (if_informative _ _ SR_INSUFFICIENT_LIQUIDITY_EVIDENCE), (if_informative _ k), (if_ignored _ true) by set_solver.
  rewrite Hk, Z.ltb_ge. unfold liquidity_publishable. naive_solver.
Qed.


(** ** Examples and witnesses *)

Definition sample_source (name : string) : ProvenanceRecord :=
  {| pr_source_id := str name; pr_source_event_id := Id128 0 21; pr_kind := PK_ORDER_BOOK; pr_content_sha256 := replicate 32 7;
     pr_received_wall_clock_utc_ns := 990; pr_data_quality_score_ppm := 900000; pr_authenticated := true;
     pr_event_wall_clock_utc_ns := Some 980; pr_exchange_event_time_ns := None |}.
Definition sample_context : SpecialistContext :=
  {| sc_event_id := Id128 0 1; sc_session_id := Id128 0 2; sc_instrument_id := Id128 0 3; sc_feature_snapshot_id := Id128 0 4;
     sc_configuration_version := Id128 0 5; sc_as_of_wall_clock_utc_ns := 1000; sc_as_of_exchange_event_time_ns := 995;
     sc_production_process_monotonic_time_ns := 5000; sc_data_quality_score_ppm := 950000;
     sc_provenance := [sample_source "a"; sample_source "b"; sample_source "h"];
     sc_symbol_policy := {| sp_policy_id := Id128 0 6; sp_configuration_version := Id128 0 5; sp_effective_wall_clock_utc_ns := 10;
                            sp_disabled_instrument_ids := [Id128 0 99]; sp_reason_code := str "halted" |} |}.
Definition sample_base : BaseConfig :=
  {| bc_model_id := Id128 0 10; bc_model_version := Id128 0 11; bc_forecast_ttl_ns := 2000; bc_forecast_horizon_ns := 3000;
     bc_minimum_data_quality_ppm := 700000 |}.
Definition sample_encode (w : ForecastWire) : pybytes := [0; 0; 0; 0] ++ str "AMCR".

Definition sample_rebalance : RebalanceInputBundle :=
  {| rb_context := sample_context;
     rb_announcement := {| ra_source_id := str "a"; ra_index_id := str "IDX"; ra_revision := 1; ra_announcement_wall_clock_utc_ns := 500;
       ra_effective_auction_wall_clock_utc_ns := 2000; ra_old_weight_ppm := 5000; ra_new_weight_ppm := 3000;
       ra_float_adjusted_shares := 1000000; ra_estimated_tracking_assets_currency_nanos := 10 ^ 15;
       ra_tracking_assets_uncertainty_ppm := 100000; ra_passive_participation_lower_ppm := 400000;
       ra_passive_participation_upper_ppm := 800000 |};
     rb_etf := {| et_source_id := str "b"; et_reference_price_currency_nanos := 10 ^ 9; et_etf_net_assets_currency_nanos := 10 ^ 15;
       et_etf_net_flow_currency_nanos := -5; et_average_daily_volume_shares := 100000;
       et_forecast_closing_auction_volume_shares := 20000 |};
     rb_history := [{| hr_source_id := str "h"; hr_event_wall_clock_utc_ns := 100; hr_available_wall_clock_utc_ns := 200;
       hr_passive_demand_shares := -4000; hr_auction_volume_shares := 10000; hr_realized_impact_ppm := -15000;
       hr_reversed_within_window := true |}];
     rb_assumption := UNKNOWN_BOUNDED_TRACKING; rb_schema_version := MARKET_SPECIALISTS_SCHEMA_VERSION |}.
Definition sample_rebalance_config : IndexRebalanceSpecialistConfig :=
  {| ir_base := sample_base; ir_minimum_history_count := 1; ir_maximum_etf_input_age_ns := 50; ir_timing_window_before_ns := 100;
     ir_timing_window_after_ns := 100 |}.

Definition sample_auction : AuctionInputBundle :=
  {| ab_context := sample_context;
     ab_snapshot := {| as_source_id := str "a"; as_venue_id := Id128 0 7; as_signed_imbalance_quantity := -300; as_paired_quantity := 9000;
       as_indicative_match_price_currency_nanos := 99 * 10 ^ 7; as_reference_price_currency_nanos := 10 ^ 9;
       as_cutoff_wall_clock_utc_ns := 1600; as_time_to_cutoff_ns := 600 |};
     ab_history := [{| ha_source_id := str "h"; ha_available_wall_clock_utc_ns := 200; ha_signed_imbalance_quantity := 500;
       ha_paired_quantity := 8000; ha_auction_volume_quantity := 10000; ha_clearing_return_ppm := 4000;
       ha_eligible_fill_probability_ppm := 800000 |}];
     ab_volume_forecast := {| av_source_id := str "b"; av_forecast_quantity := 12000; av_confidence_ppm := 700000;
       av_available_wall_clock_utc_ns := 900 |};
     ab_rebalance_state := {| rs_source_id := str "a"; rs_active := true; rs_demand_shares := {| sr_lower := -900; sr_upper := -100 |};
       rs_uncertainty_ppm := 350000 |};
     ab_assumption := QUEUE_PRIORITY_UNKNOWN; ab_schema_version := MARKET_SPECIALISTS_SCHEMA_VERSION |}.
Definition sample_auction_config : AuctionSpecialistConfig :=
  {| ac_base := sample_base; ac_minimum_history_count := 1; ac_maximum_input_age_ns := 50; ac_maximum_participation_ppm := 50000 |}.

Definition sample_liquidity : HiddenLiquidityInputBundle :=
  {| hb_context := sample_context; hb_venue_id := Id128 0 7; hb_candidate_price_ticks := 1234; hb_candidate_side := BID;
     hb_displayed_depth := [{| dd_source_id := str "a"; dd_price_ticks := 1234; dd_side := BID; dd_displayed_quantity := 100;
       dd_exchange_event_time_ns := 970 |}];
     hb_executions := [{| le_source_id := str "b"; le_price_ticks := 1234; le_resting_side := BID; le_executed_quantity := 450;
       le_exchange_event_time_ns := 975 |}];
     hb_replenishments := [{| ro_source_id := str "a"; ro_price_ticks := 1234; ro_side := BID; ro_replenished_quantity := 300;
       ro_delay_ns := 4; ro_exchange_event_time_ns := 978 |}];
     hb_partial_fill_sequences := [{| pf_source_id := str "b"; pf_price_ticks := 1234; pf_side := BID; pf_initial_displayed_quantity := 100;
       pf_cumulative_executed_quantity := 450; pf_replenishment_count := 3; pf_duration_ns := 60 |}];
     hb_price_impacts := [{| pi_source_id := str "b"; pi_resting_side := BID; pi_executed_quantity := 450; pi_signed_impact_ppm := -200;
       pi_horizon_ns := 10; pi_exchange_event_time_ns := 979 |}];
     hb_venue_behavior := {| vp_source_id := str "h"; vp_venue_id := Id128 0 7; vp_baseline_replenishment_probability_ppm := 100000;
       vp_false_positive_probability_ppm := 50000; vp_typical_displayed_quantity := 100; vp_maximum_latent_multiple_ppm := 4000000 |};
     hb_assumption := REPLENISHMENT_IS_INFERENTIAL; hb_schema_version := MARKET_SPECIALISTS_SCHEMA_VERSION |}.
Definition sample_liquidity_config : HiddenLiquiditySpecialistConfig :=
  {| hc_base := sample_base; hc_minimum_evidence_count := 3; hc_maximum_input_age_ns := 50 |}.

Ltac all_checked := repeat (apply Forall_cons_2; [vm_compute; reflexivity|]); apply Forall_nil_2.

Lemma sample_hashed v :
  match document_sha256 v with Ok d => Nat.eqb (length d) 32 && negb (bool_decide (d = replicate 32 0)) | Err _ => false end = true -> hashed v.
Proof. unfold hashed. destruct (document_sha256 v) as [d|]; [|done]. intros H. bprop. exists d. split; [done|]. split; [by apply Nat.eqb_eq | done]. Qed.

Lemma sample_evaluable document : hashed document -> evaluable sample_encode sample_context sample_base document.
Proof.
  intros H. constructor; [split; [vm_compute; reflexivity | all_checked] | vm_compute; reflexivity | | | done | reflexivity].
  - split; vm_compute; discriminate.
  - apply sample_hashed. vm_compute. reflexivity.
Qed.

Definition publishes_sample {T} (m : res (SpecialistResult T)) : bool :=
  match m with Ok r => bool_decide (rt_decision r = SD_PUBLISH) | Err _ => false end.



