(* ===== verification/ForecastService.v ===== *)
(** * The forecast worker and service

    Models [python/model_serving/aegis_mx_timeseries/service.py]: configuration,
    the bounded forecast cache, publication into the contract, the worker with
    its queue, results, deadlines, device and baseline fallback, and the service
    facade.  The monotonic clock and the primary adapter are inputs: [clock n] is
    the [n]-th reading, [primary n] the behaviour of the [n]-th adapter call, and
    [encode] the FlatBuffers encoder; nothing is assumed of the first two. *)

From S2P Require Import Prelude PyText Json Sha256 ForecastDomain ForecastAdapters Contracts.
Open Scope Z_scope.

Definition VERSION : pystr := str "0.2.0".
Definition MAX_RESULT_CAPACITY : Z := 4096.

(** ** Configuration *)

Record ServiceConfig := {
  cfg_configuration_version : Identifier128;
  forecast_ttl_ns : Z;
  maximum_forecast_age_ns : Z;
  cfg_checkpoint_sha256 : option pystr;
  primary_device : AdapterDevice;
  fallback_baseline : option BaselineKind;
  queue_capacity : Z;
  result_capacity : Z;
  maximum_batch : Z;
}.

Definition ServiceConfig_post_init (c : ServiceConfig) : res unit :=
  do! validate_checkpoint_sha256 (cfg_checkpoint_sha256 c) in
  raise_when ((forecast_ttl_ns c <=? 0) || (maximum_forecast_age_ns c <=? 0)
              || (forecast_ttl_ns c <? maximum_forecast_age_ns c)
              || negb ((0 <? queue_capacity c) && (queue_capacity c <=? MAX_RESULT_CAPACITY))
              || negb ((0 <? result_capacity c) && (result_capacity c <=? MAX_RESULT_CAPACITY))
              || negb ((0 <? maximum_batch c) && (maximum_batch c <=? queue_capacity c)))
    ValueError "service capacity or forecast-age configuration is invalid".

Definition AdapterDevice_name (d : AdapterDevice) : pystr :=
  match d with CPU => str "CPU" | GPU => str "GPU" end.

Definition BaselineKind_name (k : BaselineKind) : pystr :=
  match k with
  | LAST_VALUE => str "LAST_VALUE" | SEASONAL_NAIVE => str "SEASONAL_NAIVE"
  | ARIMA_COMPATIBLE => str "ARIMA_COMPATIBLE" | GARCH_COMPATIBLE => str "GARCH_COMPATIBLE"
  | GRADIENT_BOOSTING => str "GRADIENT_BOOSTING" | COMPACT_TEMPORAL => str "COMPACT_TEMPORAL"
  end.

Definition json_opt (o : option pystr) : json :=
  match o with Some s => JStr s | None => JNull end.

Definition config_payload (c : ServiceConfig) : json :=
  JObj [(str "checkpoint_sha256", json_opt (cfg_checkpoint_sha256 c));
        (str "configuration_version", JStr (id_hex (cfg_configuration_version c)));
        (str "fallback_baseline", json_opt (BaselineKind_name <$> fallback_baseline c));
        (str "forecast_ttl_ns", JInt (forecast_ttl_ns c));
        (str "maximum_batch", JInt (maximum_batch c));
        (str "maximum_forecast_age_ns", JInt (maximum_forecast_age_ns c));
        (str "primary_device", JStr (AdapterDevice_name (primary_device c)));
        (str "queue_capacity", JInt (queue_capacity c));
        (str "result_capacity", JInt (result_capacity c))].

(** [ServiceConfig.sha256] *)
Definition config_sha256 (c : ServiceConfig) : res pystr :=
  let! encoded := dumps (config_payload c) in Ok (sha256_hex encoded).

(** ** Requests, publications and results *)

Record ForecastRequest := {
  request_id : Identifier128;
  context : ForecastContext;
  deadline_ns : Z;
}.

Record ForecastCacheKey := {
  ck_context_sha256 : pybytes;
  ck_model_id : Identifier128;
  ck_model_version : Identifier128;
  ck_target : ForecastTarget;
  ck_horizon_ns : Z;
  ck_checkpoint_sha256 : option pystr;
}.
#[export] Instance ForecastCacheKey_eq_dec : EqDecision ForecastCacheKey.
Proof. solve_decision. Defined.

Record PublishedForecast := {
  cache_key : ForecastCacheKey;
  pf_forecast_id : Identifier128;
  pf_target : ForecastTarget;
  pf_horizon_ns : Z;
  pf_point_value : Z;
  pf_quantile_values : Z * Z * Z;
  pf_producer_name : pystr;
  pf_model_id : Identifier128;
  pf_model_version : Identifier128;
  pf_device : AdapterDevice;
  pf_checkpoint_sha256 : option pystr;
  created_ns : Z;
  valid_until_ns : Z;
  contract_bytes : pybytes;
}.

Record WorkerResult := {
  wr_status : WorkerStatus;
  wr_forecasts : list PublishedForecast;
  wr_used_fallback : bool;
  wr_reason : string;
}.

Definition rejected (s : WorkerStatus) (reason : string) : WorkerResult :=
  {| wr_status := s; wr_forecasts := []; wr_used_fallback := false; wr_reason := reason |}.

Record ServiceMetrics := {
  forecast_requests_total : Z;
  queue_rejections_total : Z;
  deadline_misses_total : Z;
  adapter_failures_total : Z;
  gpu_failures_total : Z;
  cpu_fallbacks_total : Z;
  baseline_fallbacks_total : Z;
  cache_hits_total : Z;
  cache_stale_total : Z;
  published_forecasts_total : Z;
}.

Definition no_metrics : ServiceMetrics :=
  {| forecast_requests_total := 0; queue_rejections_total := 0; deadline_misses_total := 0;
     adapter_failures_total := 0; gpu_failures_total := 0; cpu_fallbacks_total := 0;
     baseline_fallbacks_total := 0; cache_hits_total := 0; cache_stale_total := 0;
     published_forecasts_total := 0 |}.

(** ** The cache *)

Record ForecastCache := {
  cache_capacity : Z;
  maximum_age_ns : Z;
  entries : list (ForecastCacheKey * PublishedForecast);
  stale_count : Z;
}.

Definition new_cache (capacity maximum_forecast_age_ns : Z) : res ForecastCache :=
  do! raise_when ((capacity <=? 0) || (maximum_forecast_age_ns <=? 0)) ValueError
        "forecast cache bounds must be positive" in
  Ok {| cache_capacity := capacity; maximum_age_ns := maximum_forecast_age_ns;
        entries := []; stale_count := 0 |}.

Definition set_entries (e : list (ForecastCacheKey * PublishedForecast)) (stale : Z)
    (c : ForecastCache) : ForecastCache :=
  {| cache_capacity := cache_capacity c; maximum_age_ns := maximum_age_ns c;
     entries := e; stale_count := stale |}.

(** [ForecastCache.put] *)
Definition cache_put (f : PublishedForecast) : M ForecastCache unit :=
  st_lift (raise_when ((created_ns f <=? 0) || (valid_until_ns f <=? created_ns f)
                       || bool_decide (contract_bytes f = [])) ValueError
             "published forecast is malformed") ;;~
  st_put (fun c => set_entries (od_store (cache_capacity c) (cache_key f) f (entries c))
                     (stale_count c) c).

(** The entry may be served at [now_ns]. *)
Definition fresh (maximum_age now_ns : Z) (f : PublishedForecast) : bool :=
  negb ((now_ns <? created_ns f) || (valid_until_ns f <? now_ns)
        || (maximum_age <? now_ns - created_ns f)).

(** [ForecastCache.get] *)
Definition cache_get (key : ForecastCacheKey) (now_ns : Z) (c : ForecastCache)
    : ForecastCache * option PublishedForecast :=
  match od_get key (entries c) with
  | None => (c, None)
  | Some f =>
      if fresh (maximum_age_ns c) now_ns f then (c, Some f)
      else (set_entries (od_pop key (entries c)) (stale_count c + 1) c, None)
  end.

(** ** Publication *)

Definition UNIT_CODES (t : ForecastTarget) : ForecastUnitCode :=
  match t with
  | RETURN => RETURN_PPM | REALIZED_VOLATILITY => VOLATILITY_PPM | VOLUME => VOLUME_UNITS
  | SPREAD => SPREAD_TICKS | MARKET_FACTOR => FACTOR_PPM | SECTOR_FACTOR => FACTOR_PPM
  end.

Definition directional_probabilities (point : Z) : Z * Z * Z :=
  if 0 <? point then (300000, 100000, 600000)
  else if point <? 0 then (600000, 100000, 300000)
  else (450000, 100000, 450000).

(** [checkpoint or "zero-shot"] *)
Definition checkpoint_part (c : option pystr) : pystr :=
  match c with Some (x :: t) => x :: t | _ => str "zero-shot" end.

Section service.
Context (encode : ForecastWire -> pybytes).

(** The contract input that [publish] builds. *)
Definition contract_input (ttl : Z) (c : ForecastContext) (a : AdapterResult)
    (f : AdapterForecast) (forecast_id record_id : Identifier128) (now_ns : Z)
    : ModelForecastContractInput :=
  let is_return := bool_decide (target c = RETURN) in
  let '(q0, q1, q2) := af_quantile_values f in
  let '(pd, pf, pu) := if is_return then directional_probabilities (af_point_value f)
                       else (0, 1000000, 0) in
  let volatility := if bool_decide (target c = REALIZED_VOLATILITY) then af_point_value f
                    else Z.min 10000000 (Z.max 0 (q2 - q0)) in
  {| mf_record_id := record_id; mf_forecast_id := forecast_id; mf_session_id := session_id c;
     mf_model_id := ar_model_id a; mf_model_version := ar_model_version a;
     mf_instrument_id := instrument_id c; mf_feature_snapshot_id := feature_snapshot_id c;
     mf_configuration_version := configuration_version c;
     mf_expected_return_ppm := if is_return then af_point_value f else 0;
     mf_return_p10_ppm := if is_return then q0 else 0;
     mf_return_p50_ppm := if is_return then q1 else 0;
     mf_return_p90_ppm := if is_return then q2 else 0;
     mf_probability_down_ppm := pd; mf_probability_flat_ppm := pf;
     mf_probability_up_ppm := pu; mf_volatility_ppm := volatility;
     mf_confidence_ppm := af_confidence_ppm f;
     mf_calibration_score_ppm := af_calibration_score_ppm f;
     mf_data_quality_score_ppm := af_data_quality_score_ppm f;
     mf_ood_score_ppm := af_ood_score_ppm f; mf_horizon_ns := af_horizon_ns f;
     mf_as_of_exchange_event_time_ns := as_of_exchange_event_time_ns c;
     mf_production_process_monotonic_time_ns := now_ns;
     mf_expiration_process_monotonic_time_ns := now_ns + ttl;
     mf_has_transaction_cost_estimate := false; mf_estimated_spread_cost_ppm := 0;
     mf_estimated_slippage_cost_ppm := 0; mf_estimated_market_impact_ppm := 0;
     mf_estimated_adverse_selection_cost_ppm := 0; mf_estimated_fee_cost_ppm := 0;
     mf_forecast_target := target c; mf_forecast_unit := UNIT_CODES (target c);
     mf_target_value := af_point_value f; mf_target_p10 := q0; mf_target_p50 := q1;
     mf_target_p90 := q2; mf_horizon_unit := ELAPSED_NANOSECONDS; mf_horizon_value := 0;
     mf_horizon_halt_policy := HALT_NOT_APPLICABLE;
     mf_horizon_session_endpoint := ENDPOINT_NOT_APPLICABLE;
     mf_horizon_calendar_version := None; mf_target_exchange_event_time_ns := 0 |}.

(** [ForecastPublisher.publish] *)
Definition publish (ttl : Z) (c : ForecastContext) (a : AdapterResult) (f : AdapterForecast)
    (now_ns : Z) : res PublishedForecast :=
  do! validate_for a c in
  let! forecast_identifier := derived_identifier (str "forecast")
    [PBytes (context_sha256 c); PStr (id_hex (ar_model_id a)); PStr (id_hex (ar_model_version a));
     PInt (ForecastTarget_value (target c)); PInt (af_horizon_ns f);
     PStr (checkpoint_part (ar_checkpoint_sha256 a))] in
  let! record_identifier := derived_identifier (str "forecast-record")
    [PStr (id_hex forecast_identifier)] in
  let! contract := build_model_forecast_contract encode
    (contract_input ttl c a f forecast_identifier record_identifier now_ns) in
  Ok {| cache_key := {| ck_context_sha256 := context_sha256 c; ck_model_id := ar_model_id a;
                        ck_model_version := ar_model_version a; ck_target := target c;
                        ck_horizon_ns := af_horizon_ns f;
                        ck_checkpoint_sha256 := ar_checkpoint_sha256 a |};
        pf_forecast_id := forecast_identifier; pf_target := target c;
        pf_horizon_ns := af_horizon_ns f; pf_point_value := af_point_value f;
        pf_quantile_values := af_quantile_values f; pf_producer_name := ar_producer_name a;
        pf_model_id := ar_model_id a; pf_model_version := ar_model_version a;
        pf_device := ar_device a; pf_checkpoint_sha256 := ar_checkpoint_sha256 a;
        created_ns := now_ns; valid_until_ns := now_ns + ttl; contract_bytes := contract |}.

(** ** The worker *)

Record ForecastWorker := {
  w_config : ServiceConfig;
  w_fallback : option ForecastModelAdapter;
  w_requests : list ForecastRequest;
  w_results : list (Identifier128 * WorkerResult);
  w_cache : ForecastCache;
  w_health : ModelHealth;
  w_stopped : bool;
  w_metrics : ServiceMetrics;
  w_clock_reads : nat;            (* clock readings so far *)
  w_adapter_calls : nat;          (* primary adapter calls so far *)
}.

Definition set_requests v w :=
  {| w_config := w_config w; w_fallback := w_fallback w; w_requests := v;
     w_results := w_results w; w_cache := w_cache w; w_health := w_health w;
     w_stopped := w_stopped w; w_metrics := w_metrics w; w_clock_reads := w_clock_reads w;
     w_adapter_calls := w_adapter_calls w |}.
Definition set_results v w :=
  {| w_config := w_config w; w_fallback := w_fallback w; w_requests := w_requests w;
     w_results := v; w_cache := w_cache w; w_health := w_health w;
     w_stopped := w_stopped w; w_metrics := w_metrics w; w_clock_reads := w_clock_reads w;
     w_adapter_calls := w_adapter_calls w |}.
Definition set_cache v w :=
  {| w_config := w_config w; w_fallback := w_fallback w; w_requests := w_requests w;
     w_results := w_results w; w_cache := v; w_health := w_health w;
     w_stopped := w_stopped w; w_metrics := w_metrics w; w_clock_reads := w_clock_reads w;
     w_adapter_calls := w_adapter_calls w |}.
Definition set_health v w :=
  {| w_config := w_config w; w_fallback := w_fallback w; w_requests := w_requests w;
     w_results := w_results w; w_cache := w_cache w; w_health := v;
     w_stopped := w_stopped w; w_metrics := w_metrics w; w_clock_reads := w_clock_reads w;
     w_adapter_calls := w_adapter_calls w |}.
Definition set_stopped v w :=
  {| w_config := w_config w; w_fallback := w_fallback w; w_requests := w_requests w;
     w_results := w_results w; w_cache := w_cache w; w_health := w_health w;
     w_stopped := v; w_metrics := w_metrics w; w_clock_reads := w_clock_reads w;
     w_adapter_calls := w_adapter_calls w |}.
Definition set_metrics v w :=
  {| w_config := w_config w; w_fallback := w_fallback w; w_requests := w_requests w;
     w_results := w_results w; w_cache := w_cache w; w_health := w_health w;
     w_stopped := w_stopped w; w_metrics := v; w_clock_reads := w_clock_reads w;
     w_adapter_calls := w_adapter_calls w |}.
Definition set_counters reads calls w :=
  {| w_config := w_config w; w_fallback := w_fallback w; w_requests := w_requests w;
     w_results := w_results w; w_cache := w_cache w; w_health := w_health w;
     w_stopped := w_stopped w; w_metrics := w_metrics w; w_clock_reads := reads;
     w_adapter_calls := calls |}.

(** Additions to the counters, in the order of [ServiceMetrics]. *)
Definition count (requests rejections misses failures gpu cpu baseline hits stale published : Z)
    (w : ForecastWorker) : ForecastWorker :=
  let m := w_metrics w in
  set_metrics
    {| forecast_requests_total := forecast_requests_total m + requests;
       queue_rejections_total := queue_rejections_total m + rejections;
       deadline_misses_total := deadline_misses_total m + misses;
       adapter_failures_total := adapter_failures_total m + failures;
       gpu_failures_total := gpu_failures_total m + gpu;
       cpu_fallbacks_total := cpu_fallbacks_total m + cpu;
       baseline_fallbacks_total := baseline_fallbacks_total m + baseline;
       cache_hits_total := cache_hits_total m + hits;
       cache_stale_total := cache_stale_total m + stale;
       published_forecasts_total := published_forecasts_total m + published |} w.
Definition count_request := count 1 0 0 0 0 0 0 0 0 0.
Definition count_rejection := count 0 1 0 0 0 0 0 0 0 0.
Definition count_miss := count 0 0 1 0 0 0 0 0 0 0.
Definition count_failure := count 0 0 0 1 0 0 0 0 0 0.
Definition count_gpu := count 0 0 0 0 1 0 0 0 0 0.
Definition count_cpu := count 0 0 0 0 0 1 0 0 0 0.
Definition count_baseline := count 0 0 0 0 0 0 1 0 0 0.
Definition count_hits n := count 0 0 0 0 0 0 0 n 0 0.
Definition count_stale n := count 0 0 0 0 0 0 0 0 n 0.
Definition count_published n := count 0 0 0 0 0 0 0 0 0 n.

(** [ForecastWorker.__init__] *)
Definition new_worker (cfg : ServiceConfig) : res ForecastWorker :=
  let! cache := new_cache (result_capacity cfg * maximum_batch cfg) (maximum_forecast_age_ns cfg) in
  let! digest := config_sha256 cfg in
  let! fallback_id := derived_identifier (str "fallback-model") [PStr digest] in
  let! fallback_version := derived_identifier (str "fallback-version") [PStr digest] in
  let! fallback := match fallback_baseline cfg with
                   | Some k => let! a := BaselineAdapter k fallback_id fallback_version 8 in
                               Ok (Some a)
                   | None => Ok None
                   end in
  Ok {| w_config := cfg; w_fallback := fallback; w_requests := []; w_results := [];
        w_cache := cache; w_health := HEALTHY; w_stopped := false; w_metrics := no_metrics;
        w_clock_reads := 0; w_adapter_calls := 0 |}.

Context (clock : nat -> Z) (primary : nat -> BatchFunction).
Context (primary_id primary_version : Identifier128).

(** [self._clock()] *)
Definition read_clock : M ForecastWorker Z := fun w =>
  (set_counters (S (w_clock_reads w)) (w_adapter_calls w) w, Ok (clock (w_clock_reads w))).

Definition call_primary (contexts : list ForecastContext) (device : AdapterDevice)
    : M ForecastWorker (list AdapterResult) := fun w =>
  (set_counters (w_clock_reads w) (S (w_adapter_calls w)) w,
   primary (w_adapter_calls w) contexts device (cfg_checkpoint_sha256 (w_config w))).

(** [submit] *)
Definition submit (r : ForecastRequest) : M ForecastWorker WorkerStatus :=
  st_put count_request ;;~
  self <~ st_get id ;;
  if w_stopped self then st_ret STOPPED else
  now <~ read_clock ;;
  if (deadline_ns r <=? 0) || (now <=? 0) || (deadline_ns r <? now)
  then st_put count_miss ;;~ st_ret DEADLINE_MISSED
  else if negb (bool_decide (configuration_version (context r)
                             = cfg_configuration_version (w_config self)))
          || (now <? built_process_monotonic_time_ns (context r))
          || existsb (fun q => bool_decide (request_id q = request_id r)) (w_requests self)
          || bool_decide (is_Some (od_get (request_id r) (w_results self)))
  then st_ret INVALID_REQUEST
  else if queue_capacity (w_config self) <=? Z.of_nat (length (w_requests self))
  then st_put count_rejection ;;~ st_ret QUEUE_FULL
  else st_put (set_requests (w_requests self ++ [r])) ;;~ st_ret ACCEPTED.

(** [_store] *)
Definition store_result (i : Identifier128) (x : WorkerResult) (w : ForecastWorker)
    : ForecastWorker :=
  set_results (od_store (result_capacity (w_config w)) i x (w_results w)) w.

Definition primary_cache_key (w : ForecastWorker) (c : ForecastContext) (horizon : Z)
    : ForecastCacheKey :=
  {| ck_context_sha256 := context_sha256 c; ck_model_id := primary_id;
     ck_model_version := primary_version; ck_target := target c; ck_horizon_ns := horizon;
     ck_checkpoint_sha256 := cfg_checkpoint_sha256 (w_config w) |}.

(** The lookups of [_cached], one per horizon. *)
Fixpoint cache_gets (keys : list ForecastCacheKey) (now_ns : Z) (c : ForecastCache)
    : ForecastCache * list (option PublishedForecast) :=
  match keys with
  | [] => (c, [])
  | k :: t => let (c1, o) := cache_get k now_ns c in
              let (c2, os) := cache_gets t now_ns c1 in
              (c2, o :: os)
  end.

(** [_cached] *)
Definition cached (r : ForecastRequest) (now_ns : Z) (w : ForecastWorker)
    : ForecastWorker * option WorkerResult :=
  let (c, os) := cache_gets (map (primary_cache_key w (context r)) (horizons_ns (context r)))
                   now_ns (w_cache w) in
  let w := count_stale (stale_count c - stale_count (w_cache w)) (set_cache c w) in
  if forallb (fun o => bool_decide (is_Some o)) os
  then (count_hits (Z.of_nat (length os)) w,
        Some {| wr_status := COMPLETED; wr_forecasts := omap id os; wr_used_fallback := false;
                wr_reason := "" |})
  else (w, None).

(** [_invoke_fallback] *)
Definition invoke_fallback (contexts : list ForecastContext)
    : M ForecastWorker (list AdapterResult * bool) :=
  st_put count_failure ;;~
  st_put (set_health MH_DEGRADED) ;;~
  fallback <~ st_get w_fallback ;;
  match fallback with
  | None => st_raise (Exn AdapterUnavailableError "primary inference and fallback failed")
  | Some a =>
      st_put count_baseline ;;~
      rs <~ st_lift (forecast_batch a contexts CPU None) ;;
      st_ret (rs, true)
  end.

(** The handler of [AdapterDeviceError] in [_invoke]. *)
Definition invoke_device_error (contexts : list ForecastContext)
    : M ForecastWorker (list AdapterResult * bool) :=
  st_put (set_health MH_DEGRADED) ;;~
  device <~ st_get (fun w => primary_device (w_config w)) ;;
  if negb (bool_decide (device = GPU)) then invoke_fallback contexts else
  st_put count_gpu ;;~
  st_try (st_put count_cpu ;;~
          rs <~ call_primary contexts CPU ;; st_ret (rs, false))
    [AdapterDeviceError; AdapterUnavailableError; ValueError]
    (fun _ => invoke_fallback contexts).

(** [_invoke] *)
Definition invoke (contexts : list ForecastContext)
    : M ForecastWorker (list AdapterResult * bool) := fun w =>
  match (rs <~ call_primary contexts (primary_device (w_config w)) ;; st_ret (rs, false)) w with
  | (w', Ok x) => (w', Ok x)
  | (w', Err e) =>
      if caught_by e [AdapterDeviceError] then invoke_device_error contexts w'
      else if caught_by e [AdapterUnavailableError; ValueError]
      then (st_put (set_health MH_DEGRADED) ;;~ invoke_fallback contexts) w'
      else (w', Err e)
  end.

(** [_active_requests] *)
Fixpoint active_requests (batch : list ForecastRequest) (now_ns : Z) (w : ForecastWorker)
    : ForecastWorker * list ForecastRequest :=
  match batch with
  | [] => (w, [])
  | r :: t =>
      if deadline_ns r <? now_ns then
        active_requests t now_ns
          (store_result (request_id r) (rejected DEADLINE_MISSED "deadline") (count_miss w))
      else
        match cached r now_ns w with
        | (w, Some x) => active_requests t now_ns (store_result (request_id r) x w)
        | (w, None) => let (w, rest) := active_requests t now_ns w in (w, r :: rest)
        end
  end.

(** [_validate_result_batch] *)
Definition validate_result_batch (active : list ForecastRequest) (rs : list AdapterResult)
    : res unit :=
  do! raise_when (negb (Z.of_nat (length rs) =? Z.of_nat (length active)))
        AdapterUnavailableError "adapter batch result count mismatch" in
  res_iter (fun ra => validate_for ra.2 (context ra.1)) (combine active rs).

(** [type(error).__name__] of the errors caught here. *)
Definition error_name (e : exn) : string :=
  match exn_cls e with
  | AdapterDeviceError => "AdapterDeviceError"
  | AdapterUnavailableError => "AdapterUnavailableError"
  | ContractValidationError => "ContractValidationError"
  | JSONDecodeError => "JSONDecodeError"
  | UnicodeError => "UnicodeEncodeError"
  | LeakageDetectedError => "LeakageDetectedError"
  | _ => "ValueError"
  end.

(** [_record_model_failure] *)
Definition record_model_failure (active : list ForecastRequest) (e : exn) (w : ForecastWorker)
    : ForecastWorker :=
  foldl (fun w r => store_result (request_id r) (rejected MODEL_FAILURE (error_name e)) w)
    (set_health FAILED (count_failure w)) active.

Definition run_cache {A} (m : M ForecastCache A) : M ForecastWorker A := fun w =>
  let (c, o) := m (w_cache w) in (set_cache c w, o).

Fixpoint cache_puts (fs : list PublishedForecast) : M ForecastWorker unit :=
  match fs with
  | [] => st_ret tt
  | f :: t => run_cache (cache_put f) ;;~ cache_puts t
  end.

(** The loop of [_publish_batch]. *)
Fixpoint publish_loop (used_fallback : bool) (completed_ns : Z)
    (l : list (ForecastRequest * AdapterResult)) : M ForecastWorker unit :=
  match l with
  | [] => st_ret tt
  | (r, a) :: t =>
      if deadline_ns r <? completed_ns then
        st_put count_miss ;;~
        st_put (store_result (request_id r) (rejected DEADLINE_MISSED "late_completion")) ;;~
        publish_loop used_fallback completed_ns t
      else
        ttl <~ st_get (fun w => forecast_ttl_ns (w_config w)) ;;
        fs <~ st_lift (res_map (fun f => publish ttl (context r) a f completed_ns)
                         (ar_forecasts a)) ;;
        cache_puts fs ;;~
        st_put (count_published (Z.of_nat (length fs))) ;;~
        st_put (store_result (request_id r)
          {| wr_status := if used_fallback then FALLBACK_COMPLETED else COMPLETED;
             wr_forecasts := fs; wr_used_fallback := used_fallback; wr_reason := "" |}) ;;~
        publish_loop used_fallback completed_ns t
  end.

(** [_publish_batch] *)
Definition publish_batch (active : list ForecastRequest) (rs : list AdapterResult)
    (used_fallback : bool) : M ForecastWorker unit :=
  completed_ns <~ read_clock ;;
  publish_loop used_fallback completed_ns (combine active rs).

(** [run_once] *)
Definition run_once : M ForecastWorker Z :=
  self <~ st_get id ;;
  if w_stopped self || bool_decide (w_requests self = []) then st_ret 0 else
  let n := Z.to_nat (Z.min (maximum_batch (w_config self))
                       (Z.of_nat (length (w_requests self)))) in
  let batch := take n (w_requests self) in
  st_put (set_requests (drop n (w_requests self))) ;;~
  now <~ read_clock ;;
  active <~ (fun w => let (w, active) := active_requests batch now w in (w, Ok active)) ;;
  if bool_decide (active = []) then st_ret (Z.of_nat (length batch)) else
  fun w =>
  match (ru <~ invoke (map context active) ;;
         st_lift (validate_result_batch active ru.1) ;;~ st_ret ru) w with
  | (w, Ok (rs, used_fallback)) =>
      (publish_batch active rs used_fallback ;;~ st_ret (Z.of_nat (length batch))) w
  | (w, Err e) =>
      if caught_by e [AdapterDeviceError; AdapterUnavailableError; ValueError]
      then (record_model_failure active e w, Ok (Z.of_nat (length batch)))
      else (w, Err e)
  end.

(** [poll] *)
Definition poll (i : Identifier128) : M ForecastWorker WorkerResult := fun w =>
  match od_get i (w_results w) with
  | Some x => (set_results (od_pop i (w_results w)) w, Ok x)
  | None => (w, Ok (rejected NO_RESULT "not_ready"))
  end.

(** [shutdown] *)
Definition shutdown (deadline : Z) : M ForecastWorker WorkerStatus :=
  now <~ read_clock ;;
  if deadline <? now then st_ret DEADLINE_MISSED else
  st_put (set_stopped true) ;;~
  st_put (fun w => foldl (fun w r => store_result (request_id r) (rejected STOPPED "shutdown") w)
                     (set_requests [] w) (w_requests w)) ;;~
  st_put (set_health DISABLED) ;;~
  st_ret STOPPED.

(** ** The facade *)

Record ServiceStatus := {
  healthy : bool;
  ready : bool;
  model_health : ModelHealth;
  status_version : pystr;
  configuration_sha256 : pystr;
  live_trading_capable : bool;
}.

Definition status (w : ForecastWorker) : res ServiceStatus :=
  let health := w_health w in
  let healthy := negb (bool_decide (health = MH_UNKNOWN) || bool_decide (health = FAILED)) in
  let ready := healthy && negb (w_stopped w) in
  let! digest := config_sha256 (w_config w) in
  Ok {| healthy := healthy; ready := ready; model_health := health; status_version := VERSION;
        configuration_sha256 := digest; live_trading_capable := false |}.

Definition metric_line (name : string) (v : Z) : res pystr :=
  let! s := int_str v in Ok (str name ++ [32] ++ s ++ [10]).

Definition prometheus_metrics (w : ForecastWorker) : res pystr :=
  let m := w_metrics w in
  let! lines := res_map (fun nv => metric_line nv.1 nv.2)
    [("forecast_requests_total", forecast_requests_total m);
     ("forecast_queue_rejections_total", queue_rejections_total m);
     ("forecast_deadline_misses_total", deadline_misses_total m);
     ("forecast_adapter_failures_total", adapter_failures_total m);
     ("forecast_gpu_failures_total", gpu_failures_total m);
     ("forecast_cpu_fallbacks_total", cpu_fallbacks_total m);
     ("forecast_baseline_fallbacks_total", baseline_fallbacks_total m);
     ("forecast_cache_hits_total", cache_hits_total m);
     ("forecast_cache_stale_total", cache_stale_total m);
     ("forecast_published_total", published_forecasts_total m)]%string in
  Ok (mjoin lines).
End service.

(** ** Published forecasts *)

(** [f] is a publication under lifetime [ttl]: its key describes it, it lives
    for [ttl], and its bytes encode a valid contract for the same forecast. *)
Record published_ok (encode : ForecastWire -> pybytes) (ttl : Z) (f : PublishedForecast)
    : Prop := {
  po_key : cache_key f
    = {| ck_context_sha256 := ck_context_sha256 (cache_key f); ck_model_id := pf_model_id f;
         ck_model_version := pf_model_version f; ck_target := pf_target f;
         ck_horizon_ns := pf_horizon_ns f; ck_checkpoint_sha256 := pf_checkpoint_sha256 f |};
  po_created : 0 < created_ns f;
  po_lifetime : valid_until_ns f = created_ns f + ttl;
  po_point : within (pf_target f) (pf_point_value f);
  po_ordered : (pf_quantile_values f).1.1 <= (pf_quantile_values f).1.2
               <= (pf_quantile_values f).2;
  po_quantiles : Forall (within (pf_target f)) (quantile_list (pf_quantile_values f));
  po_contract : exists w,
    validated_forecast (wire_input w) = Ok w /\ contract_bytes f = encode w /\
    mf_forecast_id (wire_input w) = pf_forecast_id f /\
    mf_forecast_target (wire_input w) = pf_target f /\
    mf_horizon_ns (wire_input w) = pf_horizon_ns f /\
    mf_target_value (wire_input w) = pf_point_value f /\
    mf_production_process_monotonic_time_ns (wire_input w) = created_ns f /\
    mf_expiration_process_monotonic_time_ns (wire_input w) = valid_until_ns f;
}.

Section publication.
Context (encode : ForecastWire -> pybytes) (ttl : Z) (c : ForecastContext).

Lemma contract_input_fields a f i j now :
  let d := contract_input ttl c a f i j now in
  mf_forecast_id d = i /\ mf_forecast_target d = target c /\
  mf_horizon_ns d = af_horizon_ns f /\ mf_target_value d = af_point_value f /\
  mf_production_process_monotonic_time_ns d = now /\
  mf_expiration_process_monotonic_time_ns d = now + ttl.
Proof.
  unfold contract_input. destruct (af_quantile_values f) as [[q0 q1] q2].
  by destruct (if bool_decide _ then _ else _) as [[pd pf] pu].
Qed.

Lemma publish_ok a f now p :
  f ∈ ar_forecasts a -> publish encode ttl c a f now = Ok p ->
  published_ok encode ttl p /\ pf_target p = target c /\ pf_horizon_ns p = af_horizon_ns f /\
  ck_context_sha256 (cache_key p) = context_sha256 c /\ created_ns p = now /\
  pf_point_value p = af_point_value f /\ pf_quantile_values p = af_quantile_values f.
Proof.
  intros Hin H. unfold publish in H. apply rbind_ok in H as ([] & Hv & H).
  apply rbind_ok in H as (i & _ & H). apply rbind_ok in H as (j & _ & H).
  apply rbind_ok in H as (b & Hb & H). injection H as <-. cbn. split; [|done].
  apply validate_for_ok in Hv as [_ _ _ _ Hf]. apply list_elem_of_lookup_1 in Hin as [n Hn].
  destruct (Forall2_lookup_r _ _ _ _ _ Hf Hn) as (h & _ & [Hh Hm Hp Hq _]).
  unfold build_model_forecast_contract in Hb. apply rbind_ok in Hb as (w & Hw & [= <-]).
  assert (Hin : wire_input w = contract_input ttl c a f i j now)
    by (by apply validated_forecast_ok in Hw as (_ & ? & _)).
  destruct (contract_input_fields a f i j now) as (F1 & F2 & F3 & F4 & F5 & F6).
  split; cbn; try done.
  - apply validated_forecast_ok in Hw as (Hw & _). pose proof (cv_lifetime _ _ _ Hw) as [Hl _].
    rewrite F5 in Hl. unfold u64 in Hl. lia.
  - exists w. rewrite Hin. by rewrite F1, F2, F3, F4, F5, F6.
Qed.
End publication.

(** ** The cache *)

Record cache_inv (encode : ForecastWire -> pybytes) (ttl : Z) (c : ForecastCache) : Prop := {
  ci_bounds : 0 < cache_capacity c /\ 0 < maximum_age_ns c;
  ci_length : Z.of_nat (length (entries c)) <= cache_capacity c;
  ci_nodup : NoDup (map fst (entries c));
  ci_entries : Forall (fun kf => kf.1 = cache_key kf.2 /\ published_ok encode ttl kf.2)
                 (entries c);
}.

Section cache_facts.
Context (encode : ForecastWire -> pybytes) (ttl : Z).

(** Limits are fixed at construction. *)
Definition same_limits (c c' : ForecastCache) : Prop :=
  cache_capacity c' = cache_capacity c /\ maximum_age_ns c' = maximum_age_ns c.

Lemma cache_pop_inv k n c :
  cache_inv encode ttl c -> cache_inv encode ttl (set_entries (od_pop k (entries c)) n c).
Proof.
  intros [Hb Hl Hn He]. split; cbn; [done | | by apply od_pop_nodup |].
  - pose proof (od_pop_length k (entries c)). lia.
  - rewrite Forall_forall in *. intros kf [Hin _]%od_pop_elem. auto.
Qed.

Lemma cache_get_spec k now c c' o :
  cache_inv encode ttl c -> cache_get k now c = (c', o) ->
  cache_inv encode ttl c' /\ same_limits c c' /\
  (forall kf, kf ∈ entries c' -> kf ∈ entries c) /\
  match o with
  | Some f => (k, f) ∈ entries c /\ c' = c /\ fresh (maximum_age_ns c) now f = true
  | None => forall f, (k, f) ∈ entries c -> fresh (maximum_age_ns c) now f = false
  end.
Proof.
  intros Hi H. unfold cache_get in H. destruct (od_get k (entries c)) as [f|] eqn:Eg.
  - destruct (fresh (maximum_age_ns c) now f) eqn:Ef; simplify_eq.
    + split; [done|]. split; [done|]. split; [done|]. split; [by apply od_get_elem | done].
    + split; [by apply cache_pop_inv|]. split; [done|].
      split; [cbn; by intros kf [? _]%od_pop_elem|]. intros g Hg.
      apply (od_get_in _ _ _ (ci_nodup _ _ _ Hi)) in Hg. congruence.
  - simplify_eq. repeat (split; [done|]). intros g Hg.
    apply (od_get_in _ _ _ (ci_nodup _ _ _ Hi)) in Hg. congruence.
Qed.

Lemma cache_gets_spec ks now : forall c c' os,
  cache_inv encode ttl c -> cache_gets ks now c = (c', os) ->
  cache_inv encode ttl c' /\ same_limits c c' /\
  (forall kf, kf ∈ entries c' -> kf ∈ entries c) /\
  Forall2 (fun k o => forall f, o = Some f -> (k, f) ∈ entries c /\
             fresh (maximum_age_ns c) now f = true) ks os.
Proof.
  induction ks as [|k ks IH]; intros c c' os Hi H; cbn [cache_gets] in H.
  { simplify_eq. by repeat (split; [done|]). }
  destruct (cache_get k now c) as [c1 o] eqn:Eg.
  destruct (cache_gets ks now c1) as [c2 os'] eqn:Es. simplify_eq.
  destruct (cache_get_spec k now c c1 o Hi Eg) as (Hi1 & [Hl1 Hl1'] & Hs1 & Ho).
  destruct (IH c1 c' os' Hi1 Es) as (Hi2 & [Hl2 Hl2'] & Hs2 & Hf).
  split; [done|]. split; [split; congruence|]. split; [auto|]. constructor.
  - intros f ->. by destruct Ho as (? & _ & ?).
  - eapply Forall2_impl; [exact Hf|]. intros k' o' Ho' f Hf'. rewrite <- Hl1'.
    destruct (Ho' f Hf') as [? ?]. auto.
Qed.

Lemma cache_put_spec f c c' o :
  cache_inv encode ttl c -> 0 < ttl -> published_ok encode ttl f -> cache_put f c = (c', o) ->
  cache_inv encode ttl c' /\ same_limits c c' /\
  (contract_bytes f <> [] -> o = Ok tt /\ od_get (cache_key f) (entries c') = Some f) /\
  (o <> Ok tt -> c' = c).
Proof.
  intros Hi Ht Hf H. unfold cache_put, st_bind, st_lift, st_put in H.
  pose proof (po_created _ _ _ Hf). pose proof (po_lifetime _ _ _ Hf).
  destruct Hi as [Hb Hl Hn He].
  destruct (bool_decide (contract_bytes f = [])) eqn:Eb.
  - rewrite orb_true_r in H. cbn in H. simplify_eq. apply bool_decide_eq_true in Eb. done.
  - rewrite (raise_when_false _ _ _) in H by lia. simplify_eq. cbn [entries cache_capacity maximum_age_ns].
    split; [split; cbn|split; [done|split]].
    + done.
    + apply od_store_length; lia.
    + by apply od_store_nodup.
    + apply Forall_forall. intros kf [-> | [Hin _]]%od_store_elem; [done|].
      by rewrite Forall_forall in He; apply He.
    + intros _. split; [done|]. by apply od_store_get.
    + done.
Qed.
End cache_facts.

(** ** The worker's invariant *)

Record result_sound (encode : ForecastWire -> pybytes) (ttl : Z) (x : WorkerResult) : Prop := {
  rs_forecasts : Forall (published_ok encode ttl) (wr_forecasts x);
  rs_status : (wr_status x = COMPLETED /\ wr_used_fallback x = false) \/
              (wr_status x = FALLBACK_COMPLETED /\ wr_used_fallback x = true) \/
              (wr_status x ∈ [DEADLINE_MISSED; MODEL_FAILURE; STOPPED] /\
               wr_forecasts x = [] /\ wr_used_fallback x = false);
}.

(** The part of the state that the queue, the results and the cache share. *)
Record core_inv (encode : ForecastWire -> pybytes) (cfg : ServiceConfig)
    (fallback : option ForecastModelAdapter) (requests : list ForecastRequest) (results : list (Identifier128 * WorkerResult))
    (cache : ForecastCache) (stopped : bool) : Prop := {
  wi_config : ServiceConfig_post_init cfg = Ok tt;
  wi_fallback : forall a, fallback = Some a -> exists k i v, BaselineAdapter k i v 8 = Ok a;
  wi_queue : Z.of_nat (length requests) <= queue_capacity cfg;
  wi_queue_ids : NoDup (map request_id requests);
  wi_results : Z.of_nat (length results) <= result_capacity cfg;
  wi_result_ids : NoDup (map fst results);
  wi_disjoint : forall r, r ∈ requests -> request_id r ∉ map fst results;
  wi_sound : Forall (fun ix => result_sound encode (forecast_ttl_ns cfg) ix.2) results;
  wi_cache : cache_inv encode (forecast_ttl_ns cfg) cache;
  wi_limits : cache_capacity cache = result_capacity cfg * maximum_batch cfg /\
              maximum_age_ns cache = maximum_forecast_age_ns cfg;
  wi_stopped : stopped = true -> requests = [];
}.

Definition worker_inv (encode : ForecastWire -> pybytes) (w : ForecastWorker) : Prop :=
  core_inv encode (w_config w) (w_fallback w) (w_requests w) (w_results w) (w_cache w)
    (w_stopped w).

Lemma config_bounds cfg :
  ServiceConfig_post_init cfg = Ok tt ->
  0 < forecast_ttl_ns cfg /\ 0 < maximum_forecast_age_ns cfg <= forecast_ttl_ns cfg /\
  0 < queue_capacity cfg <= MAX_RESULT_CAPACITY /\
  0 < result_capacity cfg <= MAX_RESULT_CAPACITY /\
  0 < maximum_batch cfg <= queue_capacity cfg.
Proof.
  unfold ServiceConfig_post_init. intros H. apply rbind_ok in H as ([] & _ & H).
  apply raise_when_ok in H. lia.
Qed.

Section worker_facts.
Context (encode : ForecastWire -> pybytes).
Context (clock : nat -> Z) (primary : nat -> BatchFunction).
Context (primary_id primary_version : Identifier128).
Local Notation inv := (worker_inv encode).

Lemma new_worker_inv cfg w :
  ServiceConfig_post_init cfg = Ok tt -> new_worker cfg = Ok w -> inv w /\ w_config w = cfg.
Proof.
  intros Hc H. unfold new_worker in H. apply rbind_ok in H as (cache & Hcache & H).
  apply rbind_ok in H as (? & _ & H). apply rbind_ok in H as (? & _ & H).
  apply rbind_ok in H as (? & _ & H). apply rbind_ok in H as (fb & Hfb & H). simplify_eq.
  pose proof (config_bounds cfg Hc) as Hb. unfold new_cache in Hcache. inv_ok.
  split; [|done]. split; cbn; try done; try lia; try by apply NoDup_nil.
  - intros a ->. destruct (fallback_baseline cfg) as [k|]; [|done].
    apply rbind_ok in Hfb as (a' & Hb' & Ea). injection Ea as <-.
    exists k. do 2 eexists. exact Hb'.
  - set_solver.
  - split; cbn; try lia; [by apply NoDup_nil | done].
Qed.

Lemma rejected_sound ttl s reason :
  s ∈ [DEADLINE_MISSED; MODEL_FAILURE; STOPPED] -> result_sound encode ttl (rejected s reason).
Proof. intros Hs. split; [by apply Forall_nil_2|]. by right; right. Qed.

Lemma store_inv i x w :
  inv w -> i ∉ map request_id (w_requests w) ->
  result_sound encode (forecast_ttl_ns (w_config w)) x -> inv (store_result i x w).
Proof.
  intros [] Hi Hx. pose proof (config_bounds _ wi_config0) as Hb. split; cbn; try done.
  - apply od_store_length. lia.
  - by apply od_store_nodup.
  - intros r Hr (kv & E & Hin)%list_elem_of_fmap_1. apply od_store_elem in Hin as [-> | [Hin _]].
    + apply Hi. change i with (i, x).1. rewrite <- E. by apply list_elem_of_fmap_2.
    + apply (wi_disjoint0 r Hr). rewrite E. by apply list_elem_of_fmap_2.
  - apply Forall_forall. intros ix [-> | [Hin _]]%od_store_elem; [done|].
    by rewrite Forall_forall in wi_sound0; apply wi_sound0.
Qed.

Lemma set_cache_inv c w :
  inv w -> cache_inv encode (forecast_ttl_ns (w_config w)) c -> same_limits (w_cache w) c ->
  inv (set_cache c w).
Proof. intros [] Hc [H1 H2]. split; cbn; try done. by rewrite H1, H2. Qed.

(** What serving from the cache returns. *)
Lemma cached_spec r now w w' o :
  inv w -> cached primary_id primary_version r now w = (w', o) ->
  inv w' /\ w_config w' = w_config w /\ w_requests w' = w_requests w /\
  w_results w' = w_results w /\ w_stopped w' = w_stopped w /\ w_fallback w' = w_fallback w /\
  (forall x, o = Some x -> result_sound encode (forecast_ttl_ns (w_config w)) x /\
     wr_status x = COMPLETED /\
     Forall2 (fun h f => cache_key f = primary_cache_key primary_id primary_version w (context r) h
                /\ fresh (maximum_forecast_age_ns (w_config w)) now f = true
                /\ published_ok encode (forecast_ttl_ns (w_config w)) f)
       (horizons_ns (context r)) (wr_forecasts x)).
Proof.
  intros Hi H. unfold cached in H.
  destruct (cache_gets _ now (w_cache w)) as [c os] eqn:Eg.
  destruct (cache_gets_spec encode (forecast_ttl_ns (w_config w)) _ _ _ _ _ (wi_cache _ _ _ _ _ _ _ Hi) Eg)
    as (Hc & Hl & _ & Hf).
  assert (Hi' : inv (set_cache c w)) by by apply set_cache_inv.
  destruct (forallb _ os) eqn:Eall; simplify_eq; cbn; repeat (split; [done|]); [|done].
  intros x [= <-]. cbn.
  rewrite (proj2 (wi_limits _ _ _ _ _ _ _ Hi)) in Hf.
  assert (Hos : exists fs, os = map Some fs).
  { clear -Eall. induction os as [|o os IH]; [by exists []|]. simpl in Eall.
    apply andb_true_split in Eall as [Ho Hos]. apply bool_decide_eq_true in Ho as [f ->].
    destruct (IH Hos) as [fs ->]. by exists (f :: fs). }
  destruct Hos as [fs ->].
  assert (Hid : omap id (map Some fs) = fs) by (clear; induction fs as [|f fs IH]; cbn; [done | by f_equal]).
  rewrite Hid. rewrite Forall2_fmap_r, Forall2_fmap_l in Hf.
  assert (Hke : forall k f, (k, f) ∈ entries (w_cache w) ->
    k = cache_key f /\ published_ok encode (forecast_ttl_ns (w_config w)) f).
  { intros k f Hin. pose proof (ci_entries _ _ _ (wi_cache _ _ _ _ _ _ _ Hi)) as He.
    rewrite Forall_forall in He. by apply (He (k, f)). }
  split; [split|split]; cbn; [|by left|done|].
  - apply Forall_forall. intros f Hin. apply list_elem_of_lookup_1 in Hin as [n Hn].
    destruct (Forall2_lookup_r _ _ _ _ _ Hf Hn) as (h & _ & Hh).
    destruct (Hh f eq_refl) as [Hin _]. by destruct (Hke _ _ Hin).
  - eapply Forall2_impl; [exact Hf|]. intros h f Hh. destruct (Hh f eq_refl) as [Hin Hfr].
    destruct (Hke _ _ Hin) as [E ?]. split; [by rewrite <- E | done].
Qed.

(** Processing a batch leaves the configuration, the queue and the lifecycle. *)
Definition keeps (w w' : ForecastWorker) : Prop :=
  w_config w' = w_config w /\ w_requests w' = w_requests w /\
  w_stopped w' = w_stopped w /\ w_fallback w' = w_fallback w.

Lemma keeps_trans w1 w2 w3 : keeps w1 w2 -> keeps w2 w3 -> keeps w1 w3.
Proof. intros (?&?&?&?) (?&?&?&?). repeat split; congruence. Qed.

Definition off_queue (l : list ForecastRequest) (w : ForecastWorker) : Prop :=
  forall r, r ∈ l -> request_id r ∉ map request_id (w_requests w).

Lemma off_queue_cons r l w :
  off_queue (r :: l) w -> request_id r ∉ map request_id (w_requests w) /\ off_queue l w.
Proof. intros H. split; [apply H; left | intros q Hq; apply H; by right]. Qed.

Lemma off_queue_keeps l w w' : keeps w w' -> off_queue l w -> off_queue l w'.
Proof. intros (_ & E & _) H r. rewrite E. apply H. Qed.

Lemma active_requests_inv now batch : forall w w' active,
  inv w -> off_queue batch w ->
  active_requests primary_id primary_version batch now w = (w', active) ->
  inv w' /\ keeps w w' /\ (forall r, r ∈ active -> r ∈ batch /\ now <= deadline_ns r).
Proof.
  induction batch as [|r t IH]; intros w w' active Hi Hq H; cbn [active_requests] in H.
  { simplify_eq. split; [done|]. split; [done|]. set_solver. }
  apply off_queue_cons in Hq as [Hr Ht].
  destruct (Z.ltb_spec (deadline_ns r) now).
  - assert (Hs : inv (store_result (request_id r) (rejected DEADLINE_MISSED "deadline")
      (count_miss w))) by (apply store_inv; [exact Hi | exact Hr | apply rejected_sound; set_solver]).
    destruct (IH _ _ _ Hs Ht H) as (H1 & H2 & H3). split; [done|]. split; [done|]. set_solver.
  - destruct (cached _ _ r now w) as [w1 [x|]] eqn:Ec;
      destruct (cached_spec _ _ _ _ _ Hi Ec) as (Hi1 & K1 & K2 & K3 & K4 & K5 & Hx);
      assert (Hk : keeps w w1) by (by repeat split).
    + assert (Hs : inv (store_result (request_id r) x w1)).
      { apply store_inv; [done | by rewrite K2 | rewrite K1; by apply Hx]. }
      destruct (IH _ _ _ Hs (off_queue_keeps _ _ _ Hk Ht) H) as (H1 & H2 & H3).
      split; [done|]. split; [by eapply keeps_trans|]. set_solver.
    + destruct (active_requests _ _ t now w1) as [w2 rest] eqn:Ea. simplify_eq.
      destruct (IH _ _ _ Hi1 (off_queue_keeps _ _ _ Hk Ht) Ea) as (H1 & H2 & H3).
      split; [done|]. split; [by eapply keeps_trans|]. set_solver.
Qed.

Lemma active_requests_reads now batch : forall w w' active,
  active_requests primary_id primary_version batch now w = (w', active) ->
  w_clock_reads w' = w_clock_reads w.
Proof.
  induction batch as [|r t IH]; intros w w' active H; cbn [active_requests] in H; [by simplify_eq|].
  destruct (deadline_ns r <? now); [by apply IH in H|].
  destruct (cached _ _ r now w) as [w1 o] eqn:Ec.
  assert (E : w_clock_reads w1 = w_clock_reads w).
  { unfold cached in Ec. destruct (cache_gets _ _ _) as [c os]. destruct (forallb _ os); by injection Ec as <- <-. }
  destruct o as [x|]; [apply IH in H; by rewrite H|].
  destruct (active_requests _ _ t now w1) as [w2 rest] eqn:Ea. simplify_eq.
  apply IH in Ea. congruence.
Qed.

(** Inference touches only health, metrics and the counters. *)
Definition same_core (w w' : ForecastWorker) : Prop :=
  keeps w w' /\ w_results w' = w_results w /\ w_cache w' = w_cache w /\
  w_clock_reads w' = w_clock_reads w.

Lemma same_core_inv w w' : same_core w w' -> inv w -> inv w'.
Proof.
  intros ((E1 & E2 & E3 & E6) & E4 & E5 & _). unfold worker_inv.
  by rewrite E1, E2, E3, E4, E5, E6.
Qed.

Lemma invoke_fallback_core cs w : same_core w (invoke_fallback cs w).1.
Proof.
  unfold invoke_fallback, st_bind, st_put, st_get, st_lift, st_ret, st_raise. cbn.
  destruct (w_fallback w) as [a|] eqn:E; cbn; [|by repeat split].
  by destruct (forecast_batch a cs CPU None); repeat split.
Qed.

Lemma same_core_trans w1 w2 w3 : same_core w1 w2 -> same_core w2 w3 -> same_core w1 w3.
Proof.
  intros (K & ? & ? & ?) (K' & ? & ? & ?). split; [by eapply keeps_trans|]. repeat split; congruence.
Qed.

Lemma invoke_device_error_core cs w : same_core w (invoke_device_error primary cs w).1.
Proof.
  unfold invoke_device_error, call_primary, st_bind, st_put, st_get, st_ret, st_try.
  cbn beta iota. case_bool_decide; cbn [negb].
  - destruct (primary _ cs CPU _) as [rs|e']; [by repeat split|].
    destruct (caught_by e' _); [|by repeat split].
    eapply same_core_trans; [|apply invoke_fallback_core]. by repeat split.
  - eapply same_core_trans; [|apply invoke_fallback_core]. by repeat split.
Qed.

Lemma invoke_core cs w : same_core w (invoke primary cs w).1.
Proof.
  unfold invoke, call_primary, st_bind, st_put, st_ret.
  destruct (primary _ cs (primary_device (w_config w)) _) as [rs|e]; [by repeat split|].
  destruct (caught_by e [AdapterDeviceError]).
  - eapply same_core_trans; [|apply invoke_device_error_core]. by repeat split.
  - destruct (caught_by e _); [|by repeat split].
    eapply same_core_trans; [|apply invoke_fallback_core]. by repeat split.
Qed.

Lemma model_failure_inv e active : forall w,
  inv w -> off_queue active w ->
  inv (record_model_failure active e w) /\ keeps w (record_model_failure active e w).
Proof.
  unfold record_model_failure. intros w Hi Hq.
  assert (H : forall w0, inv w0 -> off_queue active w0 -> let w1 :=
    foldl (fun w r => store_result (request_id r) (rejected MODEL_FAILURE (error_name e)) w) w0 active
    in inv w1 /\ keeps w0 w1).
  { induction active as [|r t IH]; intros w0 Hi0 Hq0; cbn [foldl]; [done|].
    apply off_queue_cons in Hq0 as [Hr Ht].
    apply (IH (proj2 (off_queue_cons _ _ _ Hq)) (store_result _ _ w0)); [|exact Ht].
    apply store_inv; [done | done | apply rejected_sound; set_solver]. }
  by apply (H (set_health FAILED (count_failure w))).
Qed.

(** What one publication pass leaves behind. *)
Lemma cache_puts_spec fs : forall w w' o,
  inv w -> Forall (published_ok encode (forecast_ttl_ns (w_config w))) fs ->
  cache_puts fs w = (w', o) ->
  inv w' /\ keeps w w' /\ w_results w' = w_results w /\
  (Forall (fun f => contract_bytes f <> []) fs -> o = Ok tt).
Proof.
  induction fs as [|f fs IH]; intros w w' o Hi Hf H; cbn [cache_puts] in H.
  { unfold st_ret in H. by simplify_eq. }
  apply Forall_cons in Hf as [Hf Hfs]. unfold st_bind, run_cache in H.
  destruct (cache_put f (w_cache w)) as [c o1] eqn:Ep.
  pose proof (config_bounds _ (wi_config _ _ _ _ _ _ _ Hi)) as (Ht & _).
  destruct (cache_put_spec encode _ _ _ _ _ (wi_cache _ _ _ _ _ _ _ Hi) Ht Hf Ep)
    as (Hc & Hl & Ho & _).
  assert (Hi' : inv (set_cache c w)) by by apply set_cache_inv.
  destruct o1 as [[]|e]; [|simplify_eq].
  - destruct (IH _ _ _ Hi' Hfs H) as (H1 & H2 & H3 & H4).
    repeat (split; [done|]). intros [_ ?]%Forall_cons. auto.
  - repeat (split; [done|]). intros [Hb _]%Forall_cons. by destruct (Ho Hb).
Qed.

Lemma published_batch ttl c a now fs :
  res_map (fun f => publish encode ttl c a f now) (ar_forecasts a) = Ok fs ->
  Forall (published_ok encode ttl) fs /\
  Forall2 (fun f p => af_horizon_ns f = pf_horizon_ns p /\ pf_target p = target c /\
             ck_context_sha256 (cache_key p) = context_sha256 c /\ created_ns p = now)
    (ar_forecasts a) fs.
Proof.
  intros H%res_map_ok. split.
  - apply Forall_forall. intros p [n Hn]%list_elem_of_lookup_1.
    destruct (Forall2_lookup_r _ _ _ _ _ H Hn) as (f & Hf & Hp).
    by apply publish_ok in Hp as (? & _); [|by eapply list_elem_of_lookup_2].
  - rewrite Forall2_lookup in *. intros n. specialize (H n).
    destruct (ar_forecasts a !! n) as [f|] eqn:Ef; inversion H as [? p Hp|]; constructor.
    apply publish_ok in Hp as (_ & ? & ? & ? & ? & _); [done | by eapply list_elem_of_lookup_2].
Qed.

Lemma publish_loop_inv fb now l : forall w w' o,
  inv w -> off_queue (map fst l) w -> publish_loop encode fb now l w = (w', o) ->
  inv w' /\ keeps w w'.
Proof.
  induction l as [|[r a] l IH]; intros w w' o Hi Hq H; cbn [publish_loop] in H.
  { unfold st_ret in H. by simplify_eq. }
  cbn [map fst] in Hq. apply off_queue_cons in Hq as [Hr Ht].
  destruct (deadline_ns r <? now).
  { unfold st_bind, st_put in H.
    assert (Hs : inv (store_result (request_id r) (rejected DEADLINE_MISSED "late_completion")
      (count_miss w))) by (apply store_inv; [exact Hi | exact Hr | apply rejected_sound; set_solver]).
    by destruct (IH _ _ _ Hs Ht H) as (? & ?). }
  unfold st_bind, st_get, st_lift, st_put in H.
  destruct (res_map _ (ar_forecasts a)) as [fs|e] eqn:Em; [|by simplify_eq].
  apply published_batch in Em as [Hfs _].
  destruct (cache_puts fs w) as [w1 [[]|e]] eqn:Ep;
    destruct (cache_puts_spec fs w _ _ Hi Hfs Ep) as (Hi1 & Hk & _); [|by simplify_eq].
  destruct Hk as (E1 & E2 & E3 & E4). eapply IH in H as [H1 H2].
  - split; [done|]. eapply keeps_trans; [|exact H2]. by repeat split.
  - apply store_inv; [exact Hi1 | cbn; by rewrite E2 |]. cbn. rewrite E1.
    split; cbn; [done|]. destruct fb; auto.
  - intros q Hq. cbn. rewrite E2. by apply Ht.
Qed.

Lemma inv_batch n w :
  inv w -> inv (set_requests (drop n (w_requests w)) w) /\
  off_queue (take n (w_requests w)) (set_requests (drop n (w_requests w)) w).
Proof.
  intros []. rewrite <- (take_drop n (w_requests w)), map_app in wi_queue_ids0.
  apply NoDup_app in wi_queue_ids0 as (_ & Hd & Hn). split.
  - split; cbn; try done.
    + rewrite length_drop. lia.
    + intros r Hr. apply wi_disjoint0. rewrite <- (take_drop n). apply elem_of_app. by right.
    + intros Hs. by rewrite wi_stopped0, drop_nil.
  - intros r Hr. cbn. apply Hd. by apply list_elem_of_fmap_2.
Qed.

Local Notation run := (run_once encode clock primary primary_id primary_version).

(** [run_once] on a worker with queued requests: the batch, then either nothing
    left to infer, a recorded failure, an escaping exception or a publication. *)
Definition batch_of (w : ForecastWorker) : list ForecastRequest :=
  take (Z.to_nat (Z.min (maximum_batch (w_config w)) (Z.of_nat (length (w_requests w)))))
    (w_requests w).
Definition rest_of (w : ForecastWorker) : list ForecastRequest :=
  drop (Z.to_nat (Z.min (maximum_batch (w_config w)) (Z.of_nat (length (w_requests w)))))
    (w_requests w).

Definition inferred (active : list ForecastRequest)
    : M ForecastWorker (list AdapterResult * bool) :=
  ru <~ invoke primary (map context active) ;;
  st_lift (validate_result_batch active ru.1) ;;~ st_ret ru.

(** The worker when the batch has been taken and the clock read. *)
Definition popped (w : ForecastWorker) : ForecastWorker :=
  set_counters (S (w_clock_reads w)) (w_adapter_calls w) (set_requests (rest_of w) w).

Lemma run_once_unfold w :
  w_stopped w = false -> w_requests w <> [] ->
  run w =
  let n := Z.of_nat (length (batch_of w)) in
  let (w1, active) := active_requests primary_id primary_version (batch_of w)
                        (clock (w_clock_reads w)) (popped w) in
  if bool_decide (active = []) then (w1, Ok n) else
  match inferred active w1 with
  | (w2, Ok (rs, fb)) => (publish_batch encode clock active rs fb ;;~ st_ret n) w2
  | (w2, Err e) =>
      if caught_by e [AdapterDeviceError; AdapterUnavailableError; ValueError]
      then (record_model_failure active e w2, Ok n) else (w2, Err e)
  end.
Proof.
  intros Hs Hr. unfold run_once, st_bind at 1, st_get. cbv beta iota. change (id w) with w.
  rewrite Hs. rewrite bool_decide_eq_false_2 by done. cbn [orb].
  unfold st_bind at 1 2 3, st_put, read_clock. cbv beta iota.
  change (set_counters _ _ _) with (popped w).
  fold (batch_of w). destruct (active_requests _ _ _ _ _) as [w1 active]. cbv zeta.
  by case_bool_decide.
Qed.

Lemma run_once_idle w : w_stopped w = true \/ w_requests w = [] -> run w = (w, Ok 0).
Proof.
  intros H. unfold run_once, st_bind at 1, st_get. cbv beta iota. change (id w) with w.
  assert (E : w_stopped w || bool_decide (w_requests w = []) = true).
  { destruct H as [-> | H]; [done|]. by rewrite bool_decide_eq_true_2, orb_true_r. }
  by rewrite E.
Qed.

Lemma inferred_core active w : same_core w (inferred active w).1.
Proof.
  unfold inferred, st_bind, st_lift, st_ret. pose proof (invoke_core (map context active) w) as H.
  destruct (invoke primary (map context active) w) as [w' [[rs fb]|e]]; [|done].
  by destruct (validate_result_batch active (rs, fb).1).
Qed.

Lemma popped_inv w : inv w -> inv (popped w) /\ off_queue (batch_of w) (popped w).
Proof. apply inv_batch. Qed.

Lemma run_once_inv w w' o :
  inv w -> run w = (w', o) -> inv w' /\ w_config w' = w_config w.
Proof.
  intros Hi H.
  destruct (decide (w_stopped w = true \/ w_requests w = [])) as [Hidle|Hbusy].
  { rewrite run_once_idle in H by done. by simplify_eq. }
  apply Decidable.not_or in Hbusy as [Hs Hr]. apply not_true_iff_false in Hs.
  rewrite run_once_unfold in H by done. cbv zeta in H.
  destruct (popped_inv w Hi) as [Hp Hq].
  destruct (active_requests _ _ _ _ _) as [w1 active] eqn:Ea.
  destruct (active_requests_inv _ _ _ _ _ Hp Hq Ea) as (Hi1 & K1 & Ha).
  assert (C1 : w_config w1 = w_config w) by (by destruct K1 as (? & _)).
  assert (Q1 : off_queue active w1).
  { apply (off_queue_keeps _ (popped w)); [done|]. intros r Hin. apply Hq. by apply Ha. }
  case_bool_decide; [by simplify_eq|].
  pose proof (inferred_core active w1) as Hc. destruct (inferred active w1) as [w2 [[rs fb]|e]];
    cbn [fst] in Hc; pose proof (same_core_inv _ _ Hc Hi1) as Hi2;
    pose proof (off_queue_keeps _ _ _ (proj1 Hc) Q1) as Q2; destruct Hc as [K2 _];
    assert (C2 : w_config w2 = w_config w) by (destruct K2 as (? & _); congruence).
  - unfold publish_batch, st_bind, read_clock, st_ret in H.
    destruct (publish_loop _ _ _ _ _) as [w3 [[]|e]] eqn:El; simplify_eq;
      eapply publish_loop_inv in El as [H1 H2];
      [split; [done | destruct H2 as (-> & _); done] | exact Hi2 | |
       split; [done | destruct H2 as (-> & _); done] | exact Hi2 |];
      intros r [[q a] [-> Hin]]%list_elem_of_fmap_1; apply Q2; by eapply elem_of_zip_l.
  - destruct (caught_by e _); simplify_eq; [|done].
    destruct (model_failure_inv e active w2 Hi2 Q2) as [H1 H2].
    split; [done | destruct H2 as (-> & _); done].
Qed.

Lemma submit_spec r w w' o :
  submit clock r w = (w', o) ->
  exists s, o = Ok s /\ w_config w' = w_config w /\ w_results w' = w_results w /\
  w_cache w' = w_cache w /\ w_stopped w' = w_stopped w /\ w_fallback w' = w_fallback w /\
  w_health w' = w_health w /\
  ((s <> ACCEPTED /\ w_requests w' = w_requests w) \/
   (s = ACCEPTED /\ w_requests w' = w_requests w ++ [r] /\ w_stopped w = false /\
    clock (w_clock_reads w) <= deadline_ns r /\
    Z.of_nat (length (w_requests w)) < queue_capacity (w_config w) /\
    request_id r ∉ map request_id (w_requests w) /\ request_id r ∉ map fst (w_results w))).
Proof.
  unfold submit, st_bind, st_put, st_get, st_ret, read_clock. cbv beta iota.
  change (w_stopped (id (count_request w))) with (w_stopped w).
  destruct (w_stopped w) eqn:Es; [intros [= <- <-]; eexists; split; [done|]; cbn; auto 10|].
  cbn [w_config w_requests w_results w_clock_reads id count_request count set_metrics].
  case_match eqn:E1; [intros [= <- <-]; eexists; split; [done|]; cbn; auto 10|].
  case_match eqn:E2; [intros [= <- <-]; eexists; split; [done|]; cbn; auto 10|].
  case_match eqn:E3; intros [= <- <-]; eexists; (split; [done|]); cbn; [auto 10|].
  repeat (split; [done|]). right. split; [done|]. split; [done|]. split; [done|].
  split; [lia|]. split; [lia|]. bprop. split.
  - intros (q & Eq & Hq)%list_elem_of_fmap_1.
    assert (Hex : existsb (fun q => bool_decide (request_id q = request_id r)) (w_requests w) = true).
    { apply existsb_exists. exists q. split; [by apply list_elem_of_In|].
      by apply bool_decide_eq_true_2. }
    cbn in *. congruence.
  - apply od_get_none. match goal with H : ~ is_Some _ |- _ => apply eq_None_not_Some; exact H end.
Qed.

Lemma submit_inv r w w' o :
  inv w -> submit clock r w = (w', o) -> inv w' /\ w_config w' = w_config w.
Proof.
  intros Hi H. apply submit_spec in H as (s & -> & E1 & E2 & E3 & E4 & E5 & _ & Hs).
  split; [|done]. unfold worker_inv. rewrite E1, E2, E3, E4, E5.
  destruct Hs as [[_ ->] | (_ & -> & Hst & _ & Hq & Hid & Hr)]; [done|].
  destruct Hi. split; try done.
  - rewrite length_app. cbn. lia.
  - rewrite map_app. apply NoDup_app. split; [done|]. split; [|apply NoDup_singleton].
    intros i Hin ->%list_elem_of_singleton. done.
  - intros q [Hin | ->%list_elem_of_singleton]%elem_of_app; auto.
  - rewrite Hst. done.
Qed.

Lemma poll_inv i w w' o : inv w -> poll i w = (w', o) -> inv w' /\ w_config w' = w_config w.
Proof.
  unfold poll. intros Hi. destruct (od_get i (w_results w)); intros [= <- <-]; [|done].
  split; [|done]. destruct Hi. split; cbn; try done.
  - pose proof (od_pop_length i (w_results w)). lia.
  - by apply od_pop_nodup.
  - intros r Hr (kv & E & [Hin _]%od_pop_elem)%list_elem_of_fmap_1. apply (wi_disjoint0 r Hr).
    rewrite E. by apply list_elem_of_fmap_2.
  - rewrite Forall_forall in *. intros ix [Hin _]%od_pop_elem. auto.
Qed.

Lemma stop_all_inv l : forall w,
  inv w -> off_queue l w ->
  let w' := foldl (fun w r => store_result (request_id r) (rejected STOPPED "shutdown") w) w l in
  inv w' /\ keeps w w' /\ w_cache w' = w_cache w.
Proof.
  induction l as [|r l IH]; intros w Hi Hq; cbn [foldl]; [done|].
  apply off_queue_cons in Hq as [Hr Hl].
  apply (IH (store_result (request_id r) (rejected STOPPED "shutdown") w)); [|exact Hl].
  apply store_inv; [done | done | apply rejected_sound; set_solver].
Qed.

Lemma shutdown_spec deadline w w' o :
  inv w -> shutdown clock deadline w = (w', o) ->
  inv w' /\ w_config w' = w_config w /\
  ((o = Ok DEADLINE_MISSED /\ deadline < clock (w_clock_reads w) /\
    w_requests w' = w_requests w /\ w_results w' = w_results w /\
    w_stopped w' = w_stopped w /\ w_health w' = w_health w) \/
   (o = Ok STOPPED /\ clock (w_clock_reads w) <= deadline /\ w_stopped w' = true /\
    w_requests w' = [] /\ w_health w' = DISABLED /\
    w_results w' = w_results (foldl (fun w r =>
      store_result (request_id r) (rejected STOPPED "shutdown") w) w (w_requests w)))).
Proof.
  intros Hi. unfold shutdown, st_bind, st_put, st_ret, read_clock. cbv beta iota.
  destruct (Z.ltb_spec deadline (clock (w_clock_reads w))) as [Hd|Hd]; intros [= <- <-].
  { split; [done|]. split; [done|]. by left. }
  set (w0 := set_requests [] (set_stopped true (set_counters (S (w_clock_reads w)) (w_adapter_calls w) w))).
  assert (H0 : inv w0).
  { destruct Hi. split; cbn; try done; [lia | apply NoDup_nil_2 | set_solver]. }
  destruct (stop_all_inv (w_requests w) w0 H0) as (H1 & (K1 & K2 & K3 & _) & _); [set_solver|].
  split; [exact H1|]. split; [exact K1|]. right. split; [done|]. split; [done|].
  split; [exact K3|]. split; [exact K2|]. split; [done|].
  change (w_requests (set_stopped true _)) with (w_requests w). fold w0.
  assert (Hf : forall l w1 w2, w_results w1 = w_results w2 -> w_config w1 = w_config w2 ->
    w_results (foldl (fun w r => store_result (request_id r) (rejected STOPPED "shutdown") w) w1 l)
    = w_results (foldl (fun w r => store_result (request_id r) (rejected STOPPED "shutdown") w) w2 l)).
  { induction l as [|r l IH]; intros w1 w2 E1 E2; cbn [foldl]; [done|].
    apply IH; cbn; [by rewrite E1, E2 | done]. }
  by apply Hf.
Qed.

(** ** Every request of a batch is answered *)

(** [x] is a right answer to [r] given at time [now]. *)
Definition answers_at (cfg : ServiceConfig) (r : ForecastRequest) (x : WorkerResult) (now : Z)
    : Prop :=
  match wr_status x with
  | COMPLETED | FALLBACK_COMPLETED =>
      now <= deadline_ns r /\
      Forall2 (fun h f => pf_horizon_ns f = h /\ pf_target f = target (context r) /\
                 ck_context_sha256 (cache_key f) = context_sha256 (context r) /\
                 fresh (maximum_forecast_age_ns cfg) now f = true)
        (horizons_ns (context r)) (wr_forecasts x)
  | DEADLINE_MISSED => deadline_ns r < now
  | MODEL_FAILURE => True
  | _ => False
  end.

Section answered.
Context (P : ForecastRequest -> WorkerResult -> Prop).

(** The newest results answer the requests [done], in order. *)
Definition answered (done : list ForecastRequest) (w : ForecastWorker) : Prop :=
  exists pre suf, w_results w = pre ++ suf /\
    Forall2 (fun r ix => ix.1 = request_id r /\ P r ix.2) done suf.

Lemma answered_nil w : answered [] w.
Proof using Type. exists (w_results w), []. by rewrite app_nil_r. Qed.

Lemma answered_same w w' done : w_results w' = w_results w -> answered done w -> answered done w'.
Proof using Type. intros E (pre & suf & H & Hf). exists pre, suf. by rewrite E. Qed.

Lemma store_answered done r x w :
  answered done w -> request_id r ∉ map request_id done ->
  Z.of_nat (length done) < result_capacity (w_config w) -> P r x ->
  answered (done ++ [r]) (store_result (request_id r) x w).
Proof using Type.
  intros (pre & suf & H & Hf) Hid Hlen Hx.
  assert (Hk : map fst suf = map request_id done).
  { clear -Hf. induction Hf as [|q ix done suf [E _] _ IH]; cbn; [done | by rewrite E, IH]. }
  destruct (od_store_suffix (result_capacity (w_config w)) (request_id r) x pre suf)
    as [pre' Hp]; [by rewrite Hk | apply Forall2_length in Hf; lia |].
  exists pre', (suf ++ [(request_id r, x)]). cbn. rewrite H, Hp. split; [done|].
  apply Forall2_app; [done | by constructor].
Qed.

Lemma answered_get done r w :
  inv w -> answered done w -> r ∈ done ->
  exists x, od_get (request_id r) (w_results w) = Some x /\ P r x.
Proof using Type.
  intros Hi (pre & suf & H & Hf) [n Hn]%list_elem_of_lookup_1.
  destruct (Forall2_lookup_l _ _ _ _ _ Hf Hn) as ([i x] & Hs & E & Hx). exists x. split; [|done].
  apply od_get_in; [apply (wi_result_ids _ _ _ _ _ _ _ Hi)|]. cbn in E. subst i.
  rewrite H. apply elem_of_app. right. by eapply list_elem_of_lookup_2.
Qed.

(** The identifiers of a batch are distinct and its results fit. *)
Definition roomy (l : list ForecastRequest) (w : ForecastWorker) : Prop :=
  NoDup (map request_id l) /\ Z.of_nat (length l) <= result_capacity (w_config w).

Lemma roomy_next done r t w :
  roomy (done ++ r :: t) w ->
  request_id r ∉ map request_id done /\ Z.of_nat (length done) < result_capacity (w_config w) /\
  roomy ((done ++ [r]) ++ t) w.
Proof using Type.
  intros [Hn Hl]. rewrite <- app_assoc. split; [|split; [|done]].
  - rewrite map_app in Hn. apply NoDup_app in Hn as (_ & Hd & _). intros Hin.
    apply (Hd _ Hin). left.
  - rewrite length_app in Hl. cbn in Hl. lia.
Qed.

Lemma roomy_skip done r t w : roomy (done ++ r :: t) w -> roomy (done ++ t) w.
Proof using Type.
  intros [Hn Hl]. split.
  - rewrite map_app in *. cbn in Hn. apply (NoDup_app (map request_id done)) in Hn as (H1 & H2 & H3).
    apply NoDup_cons in H3 as [_ H3]. apply NoDup_app. split; [done|]. split; [|done].
    intros i Hi Hin. apply (H2 i Hi). by right.
  - rewrite !length_app in *. cbn in Hl. lia.
Qed.

Lemma store_all_answered x l : forall done w,
  roomy (done ++ l) w -> answered done w -> (forall r, r ∈ l -> P r x) ->
  answered (done ++ l) (foldl (fun w r => store_result (request_id r) x w) w l).
Proof using Type.
  induction l as [|r l IH]; intros done w Hr Ha HP; cbn [foldl]; [by rewrite app_nil_r|].
  apply roomy_next in Hr as (H1 & H2 & H3). rewrite cons_middle, app_assoc.
  apply IH; [exact H3 | | intros q Hq; apply HP; by right].
  apply store_answered; [done.. |]. apply HP. left.
Qed.

Lemma active_answered now batch : forall done w w' active,
  inv w -> off_queue batch w -> roomy (done ++ batch) w ->
  (forall r x, r ∈ batch -> answers_at (w_config w) r x now -> P r x) ->
  answered done w -> active_requests primary_id primary_version batch now w = (w', active) ->
  exists done', answered (done ++ done') w' /\ done' ++ active ≡ₚ batch.
Proof using Type.
  induction batch as [|r t IH]; intros done w w' active Hi Hq Hr HP Ha H;
    cbn [active_requests] in H.
  { simplify_eq. exists []. by rewrite app_nil_r. }
  apply off_queue_cons in Hq as [Hq Ht].
  pose proof (roomy_next _ _ _ _ Hr) as (R1 & R2 & R3).
  destruct (Z.ltb_spec (deadline_ns r) now) as [Hd|Hd].
  - eapply (IH (done ++ [r])) in H as (done' & H1 & H2).
    + exists (r :: done'). rewrite cons_middle, app_assoc. split; [done|]. cbn. by rewrite H2.
    + apply store_inv; [exact Hi | exact Hq | apply rejected_sound; set_solver].
    + exact Ht.
    + exact R3.
    + intros q x Hin. apply HP. by right.
    + apply store_answered; [exact Ha | done | done |]. apply HP; [left | done].
  - destruct (cached _ _ r now w) as [w1 [x|]] eqn:Ec;
      destruct (cached_spec _ _ _ _ _ Hi Ec) as (Hi1 & K1 & K2 & K3 & K4 & K5 & Hx);
      assert (Hk : keeps w w1) by (by repeat split).
    + destruct (Hx x eq_refl) as (Hs & Est & Hf). eapply (IH (done ++ [r])) in H as (done' & H1 & H2).
      * exists (r :: done'). rewrite cons_middle, app_assoc. split; [done|]. cbn. by rewrite H2.
      * apply store_inv; [done | by rewrite K2 | by rewrite K1].
      * by apply (off_queue_keeps _ w).
      * unfold roomy in *. cbn. by rewrite K1.
      * cbn. rewrite K1. intros q y Hin. apply HP. by right.
      * apply store_answered; [by apply (answered_same w) | done | by rewrite K1 |].
        apply HP; [left|]. unfold answers_at. rewrite Est. split; [done|].
        eapply Forall2_impl; [exact Hf|]. intros h f (Hkey & Hfr & Hpo).
        pose proof (po_key _ _ _ Hpo) as Hpk. rewrite Hkey in *. unfold primary_cache_key in Hpk.
        injection Hpk as _ _ Et Eh _. by rewrite Et, Eh.
    + destruct (active_requests _ _ t now w1) as [w2 rest] eqn:Ea. simplify_eq.
      eapply (IH done) in Ea as (done' & H1 & H2).
      * exists done'. split; [done|]. rewrite <- H2. by rewrite Permutation_middle.
      * done.
      * by apply (off_queue_keeps _ w).
      * unfold roomy. rewrite K1. by apply roomy_skip in Hr.
      * rewrite K1. intros q y Hin. apply HP. by right.
      * by apply (answered_same w).
Qed.

Lemma publish_answered fb now l : forall done w w',
  inv w -> off_queue (map fst l) w -> roomy (done ++ map fst l) w ->
  Forall (fun ra => result_valid (context ra.1) ra.2) l ->
  (forall r x, r ∈ map fst l -> answers_at (w_config w) r x now -> P r x) ->
  answered done w -> publish_loop encode fb now l w = (w', Ok tt) ->
  answered (done ++ map fst l) w'.
Proof using Type.
  induction l as [|[r a] l IH]; intros done w w' Hi Hq Hr Hv HP Ha H; cbn [publish_loop] in H.
  { unfold st_ret in H. simplify_eq. by rewrite app_nil_r. }
  cbn [map fst] in *. apply off_queue_cons in Hq as [Hq Ht].
  apply Forall_cons in Hv as [Hv Hvl]. cbn [fst snd] in Hv.
  apply roomy_next in Hr as (R1 & R2 & R3). rewrite cons_middle, app_assoc.
  destruct (Z.ltb_spec (deadline_ns r) now) as [Hd|Hd].
  { unfold st_bind, st_put in H. refine (IH _ _ _ _ _ _ Hvl _ _ H); [| exact Ht | exact R3 | |].
    - apply store_inv; [exact Hi | exact Hq | apply rejected_sound; set_solver].
    - intros q x Hin. apply HP. by right.
    - apply store_answered; [exact Ha | done | done |]. apply HP; [left | done]. }
  unfold st_bind, st_get, st_lift, st_put in H.
  destruct (res_map _ (ar_forecasts a)) as [fs|e] eqn:Em; [|done].
  apply published_batch in Em as [Hfs Hff].
  destruct (cache_puts fs w) as [w1 [[]|e]] eqn:Ep; [|done].
  destruct (cache_puts_spec fs w _ _ Hi Hfs Ep) as (Hi1 & (E1 & E2 & _) & E3 & _).
  pose proof (config_bounds _ (wi_config _ _ _ _ _ _ _ Hi)) as Hb.
  refine (IH _ _ _ _ _ _ Hvl _ _ H).
  - apply store_inv; [exact Hi1 | cbn; by rewrite E2 |]. cbn. rewrite E1.
    split; cbn; [done|]. destruct fb; auto.
  - intros q Hin. cbn. rewrite E2. by apply Ht.
  - unfold roomy in *. cbn. by rewrite E1.
  - cbn. rewrite E1. intros q x Hin. apply HP. by right.
  - apply store_answered; [by apply (answered_same w) | done | cbn; by rewrite E1 |].
    apply HP; [left|].
    assert (Hall : Forall2 (fun h f => pf_horizon_ns f = h /\ pf_target f = target (context r) /\
       ck_context_sha256 (cache_key f) = context_sha256 (context r) /\
       fresh (maximum_forecast_age_ns (w_config w)) now f = true) (horizons_ns (context r)) fs).
    { apply Forall2_lookup. intros n. rewrite Forall2_lookup in Hff. specialize (Hff n).
      pose proof (proj1 (Forall2_lookup _ _ _) (av_forecasts _ _ Hv) n) as Hav.
      destruct (ar_forecasts a !! n) as [f|]; inversion Hff as [? p (F1 & F2 & F3 & F4) Ef Efs|];
        inversion Hav as [h ? [Fh _ _ _ _]|]; constructor.
      symmetry in Efs. apply list_elem_of_lookup_2 in Efs. rewrite Forall_forall in Hfs.
      pose proof (po_lifetime _ _ _ (Hfs p Efs)).
      split; [congruence|]. split; [done|]. split; [done|]. unfold fresh. lia. }
    destruct fb; by split.
Qed.
End answered.
End worker_facts.

(** ** When publication and fallback succeed *)

Lemma fromhex_ascii s b : fromhex s = Some b -> forallb is_ascii s = true.
Proof.
  remember (length s) as n eqn:En. revert s b En.
  induction (lt_wf n) as [n _ IH]. intros [|c t] b -> H; [done|]. cbn [fromhex] in H.
  assert (Hspace : forall c, ascii_space c = true -> is_ascii c = true)
    by (unfold ascii_space, is_ascii; intros; lia).
  assert (Hhex : forall c v, hex_value c = Some v -> is_ascii c = true).
  { unfold hex_value, is_ascii. intros x v Hv. repeat case_match; simplify_eq; lia. }
  cbn [forallb]. destruct (ascii_space c) eqn:Ec.
  - rewrite (Hspace c Ec). cbn. by apply (IH (length t) ltac:(cbn; lia) t b).
  - destruct t as [|d t]; [done|].
    destruct (hex_value c) as [h|] eqn:Eh; [|done]. destruct (hex_value d) as [l|] eqn:El; [|done].
    destruct (fromhex t) as [b'|] eqn:Et; [|done]. cbn [forallb].
    rewrite (Hhex c h Eh), (Hhex d l El). cbn. by apply (IH (length t) ltac:(cbn; lia) t b').
Qed.

Lemma checkpoint_ascii o :
  validate_checkpoint_sha256 o = Ok tt -> forallb is_ascii (checkpoint_part o) = true.
Proof.
  destruct o as [[|c v]|]; [done| |done]. intros H. unfold validate_checkpoint_sha256 in H.
  apply rbind_ok in H as ([] & _ & H). apply rbind_ok in H as (b & H & _).
  unfold bytes_fromhex in H. destruct (fromhex (c :: v)) as [b'|] eqn:E; [|done].
  by apply fromhex_ascii in E.
Qed.

Lemma hexc_ascii s : Forall hexc s -> forallb is_ascii s = true.
Proof. induction 1 as [|c s Hc _ IH]; cbn; [done|]. rewrite IH. unfold hexc in Hc. unfold is_ascii. lia. Qed.

(** Identifiers derive from ASCII text, bytes and small numbers. *)
Definition part_ok (p : part) : Prop :=
  match p with
  | PBytes _ => True
  | PStr s => forallb is_ascii s = true
  | PInt n => 0 <= n < 2 ^ 4300
  end.

Lemma part_bytes_total p : part_ok p -> exists b, part_bytes p = Ok b.
Proof.
  destruct p as [b|s|n]; cbn [part_ok part_bytes]; [eauto| |].
  - unfold ascii_encode. intros ->. cbn. eauto.
  - intros [Hn Hb]. destruct (int_str_ok n) as [s Hs]; [by rewrite Z.abs_eq|].
    clear Hb. rewrite Hs. cbn [rbind].
    assert (forallb is_ascii s = true) as Ha; [|unfold ascii_encode; rewrite Ha; cbn; eauto].
    unfold int_str, repr_int in Hs. case_match; [done|].
    rewrite (proj2 (Z.ltb_ge n 0)) in Hs by lia. injection Hs as <-.
    pose proof (dec_str_digit n ltac:(lia)) as Hdig. clear -Hdig.
    induction Hdig as [|c s Hc _ IH]; cbn; [done|]. rewrite IH. unfold is_digit in Hc.
    unfold is_ascii. lia.
Qed.

Lemma derived_identifier_total domain parts :
  forallb is_ascii domain = true -> Forall part_ok parts ->
  exists i, derived_identifier domain parts = Ok i.
Proof.
  intros Hd Hp.
  destruct (res_map_exists part_bytes (fun _ _ => True) parts) as (bs & Hbs & _).
  { intros p Hin. rewrite Forall_forall in Hp. destruct (part_bytes_total p (Hp p Hin)); eauto. }
  destruct (derived_identifier_valid domain parts
    (str "aegis-mx-timeseries-v1" ++ [0] ++ domain ++ flat_map framed bs)) as (i & Hi & _); [|eauto].
  unfold identifier_preimage, ascii_encode. rewrite Hd. cbn [negb raise_when rbind].
  by rewrite Hbs.
Qed.

(** Times that fit the contract's integers: targets below 2^63, expiry below
    2^64. *)
Definition times_fit (ttl now : Z) (c : ForecastContext) : Prop :=
  Forall (fun h => as_of_exchange_event_time_ns c + h < 2 ^ 63) (horizons_ns c) /\
  0 < now /\ now + ttl < 2 ^ 64.

Section totality.
Context (encode : ForecastWire -> pybytes) (ttl : Z).

Lemma directional_sum p :
  Forall ppm [(directional_probabilities p).1.1; (directional_probabilities p).1.2;
              (directional_probabilities p).2] /\
  (directional_probabilities p).1.1 + (directional_probabilities p).1.2
  + (directional_probabilities p).2 = maximum_score.
Proof using Type.
  unfold directional_probabilities, ppm, maximum_score.
  repeat case_match; cbn; (split; [|done]); repeat (apply Forall_cons; split; [lia|]);
    apply Forall_nil_2.
Qed.

Lemma contract_input_valid (c : ForecastContext) a f i j now h :
  forecast_valid (target c) h f -> 0 < h -> 0 < as_of_exchange_event_time_ns c ->
  as_of_exchange_event_time_ns c + h < 2 ^ 63 -> 0 < now -> 0 < ttl -> now + ttl < 2 ^ 64 ->
  contract_valid (contract_input ttl c a f i j now) h (as_of_exchange_event_time_ns c + h).
Proof using Type.
  intros [Fh Fm Fp Fq Fs] Hh Has Hfit Hnow Httl Hexp.
  unfold contract_input. destruct (af_quantile_values f) as [[q0 q1] q2]. cbn [fst snd] in Fm.
  unfold quantile_list in Fq. cbn [fst snd] in Fq. rewrite !Forall_cons in Fq.
  destruct Fq as (Q0 & Q1 & Q2 & _).
  destruct (directional_sum (af_point_value f)) as [Dp Ds].
  destruct (directional_probabilities (af_point_value f)) as [[pd pf] pu] eqn:Ed. cbn [fst snd] in *.
  rewrite !Forall_cons in Fs. destruct Fs as (S1 & S2 & S3 & S4 & _).
  rewrite !Forall_cons in Dp. destruct Dp as (D1 & D2 & D3 & _).
  unfold within, in_ppm, ppm, PPM, maximum_score in *.
  destruct (bool_decide (target c = RETURN)) eqn:Et.
  - apply bool_decide_eq_true in Et. rewrite Et in *. cbn [target_bounds fst snd] in *.
    split; cbn; unfold returns_of, scores_of, costs_of, target_values, ppm, u64, i64_positive,
      maximum_return, maximum_score in *; cbn; rewrite ?Et; cbn; try done;
      rewrite ?Forall_cons; try (repeat split; try done; try apply Forall_nil_2; lia).
    + rewrite bool_decide_eq_false_2 by done. lia.
    + unfold resolve_horizon. cbn. by rewrite Fh.
    + rewrite bool_decide_eq_true_2 by done. unfold returns_of. cbn. rewrite !Forall_cons.
      repeat split; try apply Forall_nil_2; lia.
  - apply bool_decide_eq_false in Et.
    assert (Hb : contract_target_bounds (target c) = target_bounds (target c)) by by destruct (target c).
    split; cbn; unfold returns_of, scores_of, costs_of, target_values, ppm, u64, i64_positive,
      maximum_return, maximum_score in *; cbn; rewrite ?(bool_decide_eq_false_2 _ Et); cbn; try done;
      rewrite ?Hb, ?Forall_cons; try (repeat split; try done; try apply Forall_nil_2; lia).
    + case_bool_decide as Ev; [rewrite Ev in *; cbn in Fp; lia | lia].
    + unfold resolve_horizon. cbn. by rewrite Fh.
Qed.

Lemma publish_total (c : ForecastContext) a f now :
  result_valid c a -> request_valid MIN_HISTORY_POINTS c -> f ∈ ar_forecasts a ->
  times_fit ttl now c -> 0 < ttl -> exists p, publish encode ttl c a f now = Ok p.
Proof using Type.
  intros Hv Hc Hin (Hfit & Hnow & Hexp) Ht. unfold publish.
  rewrite (proj2 (validate_for_ok a c tt) Hv). cbn [rbind].
  apply list_elem_of_lookup_1 in Hin as [n Hn].
  destruct (Forall2_lookup_r _ _ _ _ _ (av_forecasts _ _ Hv) Hn) as (h & Hh & Hf).
  apply list_elem_of_lookup_2 in Hh. pose proof (rv_horizons_positive _ _ Hc) as Hpos.
  rewrite Forall_forall in Hfit, Hpos. specialize (Hfit h Hh). specialize (Hpos h Hh).
  cbn beta in Hfit, Hpos.
  pose proof (proj1 (rv_times _ _ Hc)) as Has. pose proof (fv_horizon _ _ _ Hf) as Eh.
  destruct (derived_identifier_total (str "forecast")
    [PBytes (context_sha256 c); PStr (id_hex (ar_model_id a)); PStr (id_hex (ar_model_version a));
     PInt (ForecastTarget_value (target c)); PInt (af_horizon_ns f);
     PStr (checkpoint_part (ar_checkpoint_sha256 a))]) as [i Hi]; [done| |].
  { assert (2 ^ 63 < 2 ^ 4300) by (apply Z.pow_lt_mono_r; lia).
    assert (100 < 2 ^ 4300) by (apply (Z.lt_trans _ (2 ^ 63)); [lia | done]).
    repeat (apply Forall_cons; split); try apply Forall_nil_2; cbn [part_ok].
    - done.
    - apply hexc_ascii, id_hex_hexc.
    - apply hexc_ascii, id_hex_hexc.
    - destruct (target c); cbn; lia.
    - rewrite Eh. lia.
    - apply checkpoint_ascii, (av_checkpoint _ _ Hv). }
  rewrite Hi. cbn [rbind].
  destruct (derived_identifier_total (str "forecast-record") [PStr (id_hex i)]) as [j Hj]; [done| |].
  { apply Forall_cons. split; [apply hexc_ascii, id_hex_hexc | apply Forall_nil_2]. }
  rewrite Hj. cbn [rbind]. unfold build_model_forecast_contract.
  rewrite (proj2 (validated_forecast_ok _ {| wire_input := contract_input ttl c a f i j now;
     wire_horizon_value := h; wire_target_exchange_event_time_ns := as_of_exchange_event_time_ns c + h;
     wire_target_values := target_values (contract_input ttl c a f i j now) |})).
  - cbn [rbind]. eauto.
  - split; [|done]. by apply contract_input_valid.
Qed.
End totality.

(** ** Failures that the worker contains *)

Definition validated (cs : list ForecastContext) : Prop :=
  Forall (fun c : ForecastContext => request_valid MIN_HISTORY_POINTS c) cs.

Definition contained (e : exn) : Prop :=
  caught_by e [AdapterDeviceError; AdapterUnavailableError; ValueError] = true.

Section containment.
Context (encode : ForecastWire -> pybytes).
Context (clock : nat -> Z) (primary : nat -> BatchFunction).
Context (primary_id primary_version : Identifier128).
Context (Hprimary : forall n cs d k e, validated cs -> primary n cs d k = Err e -> contained e).
Context (Hencode : forall w, encode w <> []).

Lemma contained_class e c :
  exn_cls e = c -> c ∈ [AdapterDeviceError; AdapterUnavailableError; ValueError] -> contained e.
Proof using Type.
  intros <- Hin. unfold contained, caught_by. destruct e as [c msg]. cbn in *.
  repeat (apply elem_of_cons in Hin as [-> | Hin]; [done|]). by apply elem_of_nil in Hin.
Qed.

Lemma validate_for_raises a c : raises_only ValueError (validate_for a c).
Proof using Type.
  unfold validate_for, validate_checkpoint_sha256, validate_forecast.
  repeat first [ apply raises_only_bind; [|intros] | apply raises_only_when
               | apply raises_only_iter; intros | apply raises_only_ok | case_match
               | apply raises_only_raise ].
  unfold try_except. repeat case_match; [apply raises_only_ok | apply raises_only_raise |].
  unfold bytes_fromhex in *. case_match; [done|]. by intros ? [= <-]; injection H0 as <-.
Qed.

Lemma baseline_contained a cs e :
  (exists k i v, BaselineAdapter k i v 8 = Ok a) ->
  Forall (fun c : ForecastContext => request_valid MIN_HISTORY_POINTS c) cs ->
  forecast_batch a cs CPU None = Err e -> contained e.
Proof using Type.
  intros (k & i & v & Ha) Hcs He. unfold BaselineAdapter in Ha. inv_ok.
  cbn [forecast_batch] in He. unfold baseline_forecast_batch in He.
  rewrite !bool_decide_eq_true_2 in He by done. cbn [negb raise_when rbind] in He.
  apply res_map_err in He as (c & Hin & He). rewrite Forall_forall in Hcs. specialize (Hcs c Hin).
  destruct (decide (8 <= Z.of_nat (length (history c)))).
  - destruct (baseline_result_ok c MIN_HISTORY_POINTS (Z.le_refl _) Hcs k i v 8)
      as (x & Hx & _); [lia | congruence].
  - unfold baseline_result, baseline_point in He. rewrite length_map in He.
    replace (_ <? _) with true in He by (unfold MIN_BASELINE_HISTORY; lia).
    cbn [raise_when raise rbind] in He. simplify_eq. done.
Qed.

Lemma invoke_fallback_contained cs w w' e :
  worker_inv encode w ->
  Forall (fun c : ForecastContext => request_valid MIN_HISTORY_POINTS c) cs ->
  invoke_fallback cs w = (w', Err e) -> contained e.
Proof using Type.
  intros Hi Hcs H. unfold invoke_fallback, st_bind, st_put, st_get, st_lift, st_ret, st_raise in H.
  cbn [w_fallback set_health count_failure count set_metrics] in H.
  destruct (w_fallback w) as [a|] eqn:Ea; [|by simplify_eq].
  destruct (forecast_batch a cs CPU None) as [rs|e'] eqn:Ef; simplify_eq.
  eapply baseline_contained; [|done|exact Ef]. by apply (wi_fallback _ _ _ _ _ _ _ Hi).
Qed.

Lemma invoke_contained cs w w' e :
  worker_inv encode w ->
  Forall (fun c : ForecastContext => request_valid MIN_HISTORY_POINTS c) cs ->
  invoke primary cs w = (w', Err e) -> contained e.
Proof using Hprimary.
  intros Hi Hcs H. unfold invoke, call_primary, st_bind, st_ret in H.
  destruct (primary _ cs (primary_device (w_config w)) _) as [rs|e1] eqn:E1; [simplify_eq|].
  destruct (caught_by e1 [AdapterDeviceError]).
  - unfold invoke_device_error, call_primary, st_bind, st_put, st_get, st_ret, st_try in H.
    cbn beta iota in H. case_bool_decide; cbn [negb] in H.
    + destruct (primary _ cs CPU _) as [rs|e2] eqn:E2; [simplify_eq|].
      rewrite (Hprimary _ _ _ _ _ Hcs E2) in H. by eapply invoke_fallback_contained in H.
    + by eapply invoke_fallback_contained in H.
  - destruct (caught_by e1 _) eqn:E2.
    + unfold st_put in H. by eapply invoke_fallback_contained in H.
    + simplify_eq. by eapply Hprimary.
Qed.

Lemma inferred_contained active w w' e :
  worker_inv encode w ->
  Forall (fun r => request_valid MIN_HISTORY_POINTS (context r)) active ->
  inferred primary active w = (w', Err e) -> contained e.
Proof using Hprimary.
  clear Hencode. intros Hi Ha H. unfold inferred, st_bind, st_lift, st_ret in H.
  destruct (invoke primary (map context active) w) as [w1 [[rs fb]|e1]] eqn:Ei.
  - destruct (validate_result_batch active (rs, fb).1) as [[]|e2] eqn:Ev; simplify_eq.
    unfold validate_result_batch in Ev. apply rbind_err in Ev as [Ev | ([] & _ & Ev)].
    + apply (contained_class _ AdapterUnavailableError); [|set_solver].
      by apply (raises_only_when AdapterUnavailableError _ _ _ Ev).
    + apply (contained_class _ ValueError); [|set_solver].
      refine (raises_only_iter ValueError _ _ _ _ Ev). intros ra. apply validate_for_raises.
  - simplify_eq. eapply invoke_contained; [exact Hi | by apply (Forall_fmap context) | exact Ei].
Qed.

Lemma inferred_valid active w w' rs fb :
  inferred primary active w = (w', Ok (rs, fb)) ->
  Forall2 (fun r a => result_valid (context r) a) active rs.
Proof using Type.
  intros H. unfold inferred, st_bind, st_lift, st_ret in H.
  destruct (invoke primary (map context active) w) as [w1 [[rs1 fb1]|e1]]; [|done].
  destruct (validate_result_batch active (rs1, fb1).1) as [[]|e2] eqn:Ev; simplify_eq.
  unfold validate_result_batch in Ev. apply rbind_ok in Ev as ([] & Hl & Ev).
  apply raise_when_ok in Hl. bprop. cbn [fst] in *.
  apply (iter_combine (fun ra => validate_for ra.2 (context ra.1))
    (fun r a => result_valid (context r) a)) in Ev; [done | | lia].
  intros r a. apply validate_for_ok.
Qed.

Lemma publish_loop_total fb now l : forall w,
  worker_inv encode w -> off_queue (map fst l) w ->
  Forall (fun ra => result_valid (context ra.1) ra.2 /\
                    request_valid MIN_HISTORY_POINTS (context ra.1) /\
                    times_fit (forecast_ttl_ns (w_config w)) now (context ra.1)) l ->
  exists w', publish_loop encode fb now l w = (w', Ok tt).
Proof using Hencode.
  clear Hprimary. induction l as [|[r a] l IH]; intros w Hi Hq Hl; cbn [publish_loop]; [by exists w|].
  cbn [map fst] in Hq. apply off_queue_cons in Hq as [Hr Ht].
  apply Forall_cons in Hl as [(Hv & Hc & Hf) Hl]. cbn [fst snd] in *.
  destruct (deadline_ns r <? now).
  { unfold st_bind, st_put. apply IH; [| exact Ht | exact Hl].
    apply store_inv; [exact Hi | exact Hr | apply rejected_sound; set_solver]. }
  unfold st_bind, st_get, st_lift, st_put.
  pose proof (config_bounds _ (wi_config _ _ _ _ _ _ _ Hi)) as (Httl & _).
  destruct (res_map_exists (fun f => publish encode (forecast_ttl_ns (w_config w)) (context r) a f now)
    (fun _ _ => True) (ar_forecasts a)) as (fs & Em & _).
  { intros f Hin. destruct (publish_total encode _ (context r) a f now Hv Hc Hin Hf Httl); eauto. }
  rewrite Em. apply published_batch in Em as [Hfs _].
  destruct (cache_puts fs w) as [w1 o] eqn:Ep.
  destruct (cache_puts_spec encode fs w _ _ Hi Hfs Ep) as (Hi1 & (E1 & E2 & _) & _ & Ho).
  rewrite Ho.
  - apply IH.
    + apply store_inv; [exact Hi1 | cbn; by rewrite E2 |]. cbn. rewrite E1.
      split; cbn; [done|]. destruct fb; auto.
    + intros q Hin. cbn. rewrite E2. by apply Ht.
    + cbn. by rewrite E1.
  - eapply Forall_impl; [exact Hfs|]. intros f Hpo. destruct (po_contract _ _ _ Hpo) as (wi & _ & -> & _).
    apply Hencode.
Qed.

Local Notation run := (run_once encode clock primary primary_id primary_version).

Lemma run_once_total w :
  worker_inv encode w ->
  Forall (fun r => request_valid MIN_HISTORY_POINTS (context r) /\
                   times_fit (forecast_ttl_ns (w_config w)) (clock (S (w_clock_reads w))) (context r))
    (batch_of w) ->
  exists w' n, run w = (w', Ok n).
Proof using Hprimary Hencode.
  intros Hi Hb.
  destruct (decide (w_stopped w = true \/ w_requests w = [])) as [Hidle|Hbusy].
  { rewrite run_once_idle by done. eauto. }
  apply Decidable.not_or in Hbusy as [Hs Hr]. apply not_true_iff_false in Hs.
  rewrite run_once_unfold by done. cbv zeta.
  destruct (popped_inv encode w Hi) as [Hp Hq].
  destruct (active_requests _ _ _ _ _) as [w1 active] eqn:Ea.
  pose proof (active_requests_reads _ _ _ _ _ _ _ Ea) as Hreads.
  destruct (active_requests_inv encode _ _ _ _ _ _ _ Hp Hq Ea) as (Hi1 & K1 & Ha).
  assert (Q1 : off_queue active w1).
  { apply (off_queue_keeps _ (popped w)); [done|]. intros r Hin. apply Hq. by apply Ha. }
  assert (Hact : Forall (fun r => request_valid MIN_HISTORY_POINTS (context r) /\
     times_fit (forecast_ttl_ns (w_config w)) (clock (S (w_clock_reads w))) (context r)) active).
  { apply Forall_forall. intros r Hin. rewrite Forall_forall in Hb. apply Hb. by apply Ha. }
  case_bool_decide; [eauto|].
  pose proof (inferred_core primary active w1) as Hc.
  destruct (inferred primary active w1) as [w2 [[rs fb]|e]] eqn:Ei; cbn [fst] in Hc.
  - unfold publish_batch, st_bind, read_clock, st_ret.
    pose proof (inferred_valid _ _ _ _ _ Ei) as Hv.
    pose proof (same_core_inv encode _ _ Hc Hi1) as Hi2.
    pose proof (off_queue_keeps _ _ _ (proj1 Hc) Q1) as Q2.
    destruct Hc as [(C2 & _) (_ & _ & R2)]. destruct K1 as (C1 & _).
    edestruct (publish_loop_total fb (clock (w_clock_reads w2)) (combine active rs)
      (set_counters (S (w_clock_reads w2)) (w_adapter_calls w2) w2)) as [w3 ->]; [exact Hi2 | | | eauto].
    + intros r [[q a] [-> Hin]]%list_elem_of_fmap_1. apply Q2. by eapply elem_of_zip_l.
    + cbn [w_config set_counters]. rewrite C2, C1, R2, Hreads. apply Forall_forall.
      intros [r a] Hin. cbn [fst snd]. pose proof (elem_of_zip_l _ _ _ _ Hin) as Hr1.
      rewrite Forall_forall in Hact. destruct (Hact r Hr1). split; [|done].
      apply list_elem_of_lookup_1 in Hin as [n Hn].
      change (combine active rs) with (zip active rs) in Hn.
      apply lookup_zip_Some in Hn as [N1 N2]. exact (Forall2_lookup_lr _ _ _ n _ _ Hv N1 N2).
  - assert (He : contained e).
    { eapply inferred_contained; [exact Hi1 | | exact Ei]. eapply Forall_impl; [exact Hact|]. by intros r []. }
    unfold contained in He. rewrite He. eauto.
Qed.
Lemma roomy_perm l k w : l ≡ₚ k -> roomy l w -> roomy k w.
Proof. intros Hp [Hn Hl]. split; [by rewrite <- Hp | by rewrite <- (Permutation_length Hp)]. Qed.

Lemma batch_roomy w :
  worker_inv encode w -> maximum_batch (w_config w) <= result_capacity (w_config w) ->
  roomy (batch_of w) w /\
  Z.of_nat (length (batch_of w))
  = Z.min (maximum_batch (w_config w)) (Z.of_nat (length (w_requests w))).
Proof using Type.
  intros Hi Hm. pose proof (config_bounds _ (wi_config _ _ _ _ _ _ _ Hi)) as Hb.
  assert (Hlen : Z.of_nat (length (batch_of w))
    = Z.min (maximum_batch (w_config w)) (Z.of_nat (length (w_requests w)))).
  { unfold batch_of. rewrite length_take. lia. }
  split; [split; [|lia] | done].
  pose proof (wi_queue_ids _ _ _ _ _ _ _ Hi) as Hn. unfold batch_of.
  set (k := Z.to_nat _). rewrite <- (take_drop k (w_requests w)), map_app in Hn.
  by apply NoDup_app in Hn as (? & _).
Qed.

(** The outcome of [run_once] as a whole. *)
Lemma run_once_answered P w w' n :
  worker_inv encode w -> w_stopped w = false -> w_requests w <> [] ->
  maximum_batch (w_config w) <= result_capacity (w_config w) ->
  (forall r x t, t = clock (w_clock_reads w) \/ t = clock (S (w_clock_reads w)) ->
     answers_at (w_config w) r x t -> P r x) ->
  run w = (w', Ok n) ->
  n = Z.of_nat (length (batch_of w)) /\ w_requests w' = rest_of w /\
  exists l, l ≡ₚ batch_of w /\ answered P l w'.
Proof using Type.
  clear Hprimary Hencode.
  intros Hi Hs Hr Hm HP H. destruct (batch_roomy w Hi Hm) as [Hroom _].
  rewrite run_once_unfold in H by done. cbv zeta in H.
  destruct (popped_inv encode w Hi) as [Hp Hq].
  destruct (active_requests _ _ _ _ _) as [w1 active] eqn:Ea.
  pose proof (active_requests_reads _ _ _ _ _ _ _ Ea) as R1.
  destruct (active_requests_inv encode _ _ _ _ _ _ _ Hp Hq Ea) as (Hi1 & K1 & Ha).
  destruct (active_answered encode primary_id primary_version P _ _ [] _ _ _ Hp Hq Hroom
    (fun r x _ Hx => HP r x _ (or_introl eq_refl) Hx) (answered_nil P _) Ea) as (l & Hl & Hperm).
  cbn [app] in Hl.
  assert (Q1 : off_queue active w1).
  { apply (off_queue_keeps _ (popped w)); [done|]. intros r Hin. apply Hq. by apply Ha. }
  assert (C1 : w_config w1 = w_config w /\ w_requests w1 = rest_of w) by by destruct K1 as (? & ? & _).
  assert (Hroom1 : roomy (l ++ active) w1).
  { unfold roomy. rewrite (proj1 C1). by apply (roomy_perm (batch_of w)). }
  destruct (bool_decide (active = [])) eqn:En.
  { apply bool_decide_eq_true in En. subst active. simplify_eq. split; [done|]. split; [apply C1|].
    exists l. by rewrite app_nil_r in Hperm. }
  pose proof (inferred_core primary active w1) as Hc.
  destruct (inferred primary active w1) as [w2 [[rs fb]|e]] eqn:Ei; cbn [fst] in Hc;
    pose proof (same_core_inv encode _ _ Hc Hi1) as Hi2;
    pose proof (off_queue_keeps _ _ _ (proj1 Hc) Q1) as Q2;
    destruct Hc as [(C2 & E2 & _) (Er2 & _ & R2)]; apply (answered_same P _ w2) in Hl; try done.
  - pose proof (inferred_valid _ _ _ _ _ Ei) as Hv.
    assert (Hfst : map fst (combine active rs) = active).
    { clear -Hv. induction Hv as [|r a active rs _ _ IH]; cbn; [done | by rewrite IH]. }
    unfold publish_batch, st_bind, read_clock, st_ret in H.
    destruct (publish_loop _ _ _ _ _) as [w3 [[]|e]] eqn:El; simplify_eq.
    split; [done|]. split.
    + apply (publish_loop_inv encode) in El as [_ (_ & E & _)];
        [|exact Hi2 | rewrite Hfst; exact Q2]. rewrite E. cbn. rewrite E2. apply C1.
    + exists (l ++ active). split; [done|]. rewrite <- Hfst.
      refine (publish_answered encode P fb _ (combine active rs) l
        (set_counters (S (w_clock_reads w2)) (w_adapter_calls w2) w2) _ Hi2 _ _ _ _ Hl El);
        rewrite ?Hfst.
      * exact Q2.
      * unfold roomy. cbn. rewrite C2. exact Hroom1.
      * apply Forall_forall. intros [r a] Hin. cbn [fst snd].
        apply list_elem_of_lookup_1 in Hin as [k Hk].
        change (combine active rs) with (zip active rs) in Hk.
        apply lookup_zip_Some in Hk as [N1 N2]. exact (Forall2_lookup_lr _ _ _ k _ _ Hv N1 N2).
      * cbn. intros r x _. rewrite C2, (proj1 C1), R2, R1. apply HP. by right.
  - destruct (caught_by e _); simplify_eq. split; [done|].
    destruct (model_failure_inv encode e active w2 Hi2 Q2) as [_ (_ & E & _)].
    split; [rewrite E, E2; apply C1|]. exists (l ++ active). split; [done|].
    unfold record_model_failure. apply store_all_answered; [| exact Hl |].
    + unfold roomy. cbn. rewrite C2. exact Hroom1.
    + intros r _. apply (HP r _ (clock (w_clock_reads w))); [by left | done].
Qed.
End containment.

(** ** Reachable workers *)

Section reachable.
Context (encode : ForecastWire -> pybytes).
Context (clock : nat -> Z) (primary : nat -> BatchFunction).
Context (primary_id primary_version : Identifier128).

(** One public call, with any outcome. *)
Inductive worker_step : ForecastWorker -> ForecastWorker -> Prop :=
  | step_submit r w : worker_step w (submit clock r w).1
  | step_run w : worker_step w (run_once encode clock primary primary_id primary_version w).1
  | step_poll i w : worker_step w (poll i w).1
  | step_shutdown deadline w : worker_step w (shutdown clock deadline w).1.

Inductive worker_reachable (cfg : ServiceConfig) : ForecastWorker -> Prop :=
  | reach_new w :
      ServiceConfig_post_init cfg = Ok tt -> new_worker cfg = Ok w -> worker_reachable cfg w
  | reach_step w w' : worker_reachable cfg w -> worker_step w w' -> worker_reachable cfg w'.
End reachable.

Lemma worker_reachable_inv encode clock primary i v cfg w :
  worker_reachable encode clock primary i v cfg w -> worker_inv encode w /\ w_config w = cfg.
Proof.
  induction 1 as [w Hc Hn | w w' _ [Hi IH] Hs].
  - by apply (new_worker_inv encode).
  - destruct Hs as [r w | w | j w | d w].
    + destruct (submit clock r w) as [w' o] eqn:E.
      destruct (submit_inv encode _ _ _ _ _ Hi E). split; [done | cbn; congruence].
    + destruct (run_once encode clock primary i v w) as [w' o] eqn:E.
      destruct (run_once_inv encode _ _ _ _ _ _ _ Hi E). split; [done | cbn; congruence].
    + destruct (poll j w) as [w' o] eqn:E.
      destruct (poll_inv encode _ _ _ _ Hi E). split; [done | cbn; congruence].
    + destruct (shutdown clock d w) as [w' o] eqn:E.
      destruct (shutdown_spec encode _ _ _ _ _ Hi E) as (? & ? & _). split; [done | cbn; congruence].
Qed.

(** ** Samples *)

Definition sample_config : ServiceConfig :=
  {| cfg_configuration_version := sample_id 4; forecast_ttl_ns := 1000;
     maximum_forecast_age_ns := 500; cfg_checkpoint_sha256 := None; primary_device := GPU;
     fallback_baseline := Some ARIMA_COMPATIBLE; queue_capacity := 4; result_capacity := 4;
     maximum_batch := 2 |}.

Definition sample_encode (w : ForecastWire) : pybytes := [wire_horizon_value w].
Definition sample_clock (n : nat) : Z := 100 + Z.of_nat n.
Definition sample_primary (n : nat) : BatchFunction :=
  reference_forecast_batch (sample_id 8) (sample_id 9).
Definition sample_call (n deadline : Z) (c : ForecastContext) : ForecastRequest :=
  {| request_id := sample_id n; context := c; deadline_ns := deadline |}.

(** The worker after construction, and after two submissions. *)
Definition idle_worker (cfg : ServiceConfig) : ForecastWorker :=
  {| w_config := cfg; w_fallback := None; w_requests := []; w_results := [];
     w_cache := {| cache_capacity := 0; maximum_age_ns := 0; entries := []; stale_count := 0 |};
     w_health := FAILED; w_stopped := true; w_metrics := no_metrics; w_clock_reads := 0;
     w_adapter_calls := 0 |}.
Definition start (cfg : ServiceConfig) : ForecastWorker :=
  match new_worker cfg with Ok w => w | Err _ => idle_worker cfg end.
Definition two_calls (c1 c2 : ForecastContext) : ForecastWorker :=
  (submit sample_clock (sample_call 22 102 c2)
    (submit sample_clock (sample_call 21 1000 c1) (start sample_config)).1).1.
Definition sample_run :=
  run_once sample_encode sample_clock sample_primary (sample_id 8) (sample_id 9).

Lemma start_new : new_worker sample_config = Ok (start sample_config).
Proof.
  unfold start. assert (E : match new_worker sample_config with Ok _ => true | Err _ => false end = true)
    by (vm_compute; reflexivity). by destruct (new_worker sample_config).
Qed.

Lemma two_calls_reachable c1 c2 :
  worker_reachable sample_encode sample_clock sample_primary (sample_id 8) (sample_id 9)
    sample_config (two_calls c1 c2).
Proof.
  unfold two_calls. do 2 (eapply reach_step; [|apply step_submit]).
  apply reach_new; [vm_compute; reflexivity | apply start_new].
Qed.

Example sample_outcome :
  let (w, n) := sample_run (two_calls sample_context sample_context) in
  n = Ok 2 /\ map (fun ix => (ix.1, wr_status ix.2)) (w_results w)
             = [(sample_id 21, COMPLETED); (sample_id 22, DEADLINE_MISSED)].
Proof. vm_compute. split; reflexivity. Qed.

Lemma sample_worker_facts : exists w,
  worker_reachable sample_encode sample_clock sample_primary (sample_id 8) (sample_id 9)
    sample_config w /\
  (sample_run w).2 = Ok 2 /\ w_stopped w = false /\ w_requests w <> [] /\
  maximum_batch (w_config w) <= result_capacity (w_config w) /\
  batch_of w = [sample_call 21 1000 sample_context; sample_call 22 102 sample_context] /\
  w_config w = sample_config /\ w_clock_reads w = 2%nat /\ w_requests w = batch_of w.
Proof.
  exists (two_calls sample_context sample_context). split; [apply two_calls_reachable|].
  vm_compute. repeat split; discriminate.
Qed.

(** A context at the end of the clock: its second target time is past the
    64-bit range. *)
Definition late_point (n : nat) : TimeSeriesPoint :=
  {| pt_event_time := 2 ^ 63 - 116 + Z.of_nat n; pt_available := 5; pt_value := 100 |}.
Definition late_covariate (h : Z) : KnownFutureCovariate :=
  {| cv_horizon := h; cv_event_time := 2 ^ 63 - 101 + h; cv_known := 5; cv_time_of_day := 34200;
     cv_session_state := OPEN; cv_event_flags := 5 |}.
Definition late_request : ContextBuildRequest :=
  {| instrument_id := sample_id 1; session_id := sample_id 2; feature_snapshot_id := sample_id 3;
     configuration_version := sample_id 4; feature_definition_version := sample_id 5;
     source_first_global_event_id := sample_id 6; source_last_global_event_id := sample_id 7;
     target := VOLUME; as_of_exchange_event_time_ns := 2 ^ 63 - 101;
     point_in_time_wall_clock_utc_ns := 50; built_process_monotonic_time_ns := 60;
     source_payload_sha256 := repeat 171 32; horizons_ns := [60; 300];
     quantiles_ppm := (100000, 500000, 900000); history := map late_point (List.seq 0 16);
     future_covariates := map late_covariate [60; 300] |}.
Definition late_context : ForecastContext := Eval vm_compute in
  match build 16 late_request with Ok c => c | Err _ => sample_context end.

(** ** Properties *)

(** C37: every state a worker can reach is well formed.  Whatever the clock, the
    adapter (results and exceptions) and the calls, and also after a call that
    raised: the queue, the results and the cache stay within their configured
    bounds, request identifiers are distinct and never both queued and
    answered, completed results carry only publications whose bytes encode a
    valid contract for them, cache entries sit under their own key, a stopped
    worker has no queue, and the configuration is the one it was built with. *)
Theorem worker_reachable_invariant encode clock primary i v cfg w :
  worker_reachable encode clock primary i v cfg w -> worker_inv encode w /\ w_config w = cfg.
Proof. apply worker_reachable_inv. Qed.

Lemma worker_reachable_invariant_witness :
  worker_inv sample_encode (sample_run (two_calls sample_context late_context)).1.
Proof.
  apply (worker_reachable_invariant sample_encode sample_clock sample_primary (sample_id 8)
    (sample_id 9) sample_config).
  eapply reach_step; [apply two_calls_reachable | apply step_run].
Defined.

(** A batch that is processed is answered.  When the result store can hold
    a batch, a [run_once] that returns has taken the oldest requests off the
    queue, left the others in order, and stored for each taken request a sound
    result: forecasts for exactly its horizons, target and context, fresh and
    given no later than its deadline; or a deadline miss that the clock shows;
    or a model failure. *)
Theorem run_once_answers_batch encode clock primary i v w w' n :
  worker_inv encode w -> w_stopped w = false -> w_requests w <> [] ->
  maximum_batch (w_config w) <= result_capacity (w_config w) ->
  run_once encode clock primary i v w = (w', Ok n) ->
  n = Z.min (maximum_batch (w_config w)) (Z.of_nat (length (w_requests w))) /\
  w_requests w' = rest_of w /\
  forall r, r ∈ batch_of w ->
    exists x, od_get (request_id r) (w_results w') = Some x /\
      result_sound encode (forecast_ttl_ns (w_config w)) x /\
      (answers_at (w_config w) r x (clock (w_clock_reads w)) \/
       answers_at (w_config w) r x (clock (S (w_clock_reads w)))).
Proof.
  intros Hi Hs Hr Hm H. destruct (batch_roomy encode w Hi Hm) as [_ Hlen].
  pose proof (run_once_inv encode _ _ _ _ _ _ _ Hi H) as [Hi' Hc].
  destruct (run_once_answered encode clock primary i v
    (fun r x => answers_at (w_config w) r x (clock (w_clock_reads w)) \/
                answers_at (w_config w) r x (clock (S (w_clock_reads w)))) w w' n Hi Hs Hr Hm)
    as (-> & Hq & l & Hp & Ha); [|done|].
  { intros r x t [-> | ->]; auto. }
  split; [done|]. split; [done|]. intros r Hin. rewrite <- Hp in Hin.
  destruct (answered_get encode _ _ _ _ Hi' Ha Hin) as (x & Hx & HP). exists x.
  split; [done|]. split; [|done]. pose proof (wi_sound _ _ _ _ _ _ _ Hi') as Hso.
  rewrite Forall_forall in Hso. rewrite <- Hc. apply (Hso (request_id r, x)). by apply od_get_elem.
Qed.

Lemma run_once_answers_batch_witness :
  exists w w' x, sample_run w = (w', Ok 2) /\ od_get (sample_id 21) (w_results w') = Some x.
Proof.
  destruct sample_worker_facts as (w & Hr & E2 & Hs & Hq & Hm & Hb & _).
  destruct (sample_run w) as [w' o] eqn:E. cbn [snd] in E2. subst o. exists w, w'.
  destruct (run_once_answers_batch sample_encode sample_clock sample_primary (sample_id 8)
    (sample_id 9) w w' 2 (proj1 (worker_reachable_inv _ _ _ _ _ _ _ Hr)) Hs Hq Hm E) as (_ & _ & H).
  destruct (H (sample_call 21 1000 sample_context)) as (x & Hx & _).
  - rewrite Hb. left.
  - exists x. split; [exact E | exact Hx].
Defined.

(** Failures of inference never escape the worker.  If the primary adapter
    raises only the exceptions its interface names on validated contexts, the encoder never returns an
    empty buffer, and the queued contexts are validated ones whose times fit the
    contract's integers, then [run_once] returns: device errors, unavailable
    models, malformed or mismatched results and a failing fallback all end as
    stored results. *)
Theorem run_once_contains_failures encode clock primary i v w :
  (forall n cs d k e, validated cs -> primary n cs d k = Err e -> contained e) ->
  (forall wire, encode wire <> []) ->
  worker_inv encode w ->
  Forall (fun r => request_valid MIN_HISTORY_POINTS (context r) /\
                   times_fit (forecast_ttl_ns (w_config w)) (clock (S (w_clock_reads w)))
                     (context r)) (batch_of w) ->
  exists w' n, run_once encode clock primary i v w = (w', Ok n) /\ worker_inv encode w'.
Proof.
  intros Hp He Hi Hb. destruct (run_once_total encode clock primary i v Hp He w Hi Hb) as (w' & n & H).
  exists w', n. split; [done|]. by eapply run_once_inv.
Qed.

(** A primary that always fails on its device. *)
Definition broken_primary (n : nat) : BatchFunction := fun _ _ _ =>
  raise AdapterDeviceError "device lost".

Lemma run_once_contains_failures_witness :
  exists w w' n, batch_of w <> [] /\
    run_once sample_encode sample_clock broken_primary (sample_id 8) (sample_id 9) w = (w', Ok n).
Proof.
  destruct sample_worker_facts as (w & Hr & _ & _ & _ & _ & Hb & Hc & Hn & _). exists w.
  destruct (run_once_contains_failures sample_encode sample_clock broken_primary (sample_id 8)
    (sample_id 9) w) as (w' & n & H & _).
  - intros n cs d k e _ [= <-]. reflexivity.
  - intros wire. discriminate.
  - apply (proj1 (worker_reachable_inv _ _ _ _ _ _ _ Hr)).
  - rewrite Hb, Hc, Hn. repeat (apply Forall_cons; split); [ | |apply Forall_nil_2];
      (split; [apply (request_valid_weaken 16); [vm_compute; discriminate | apply sample_context_valid]|]);
      (split; [repeat (apply Forall_cons; split); [vm_compute; reflexivity..|apply Forall_nil_2]|]);
      split; vm_compute; reflexivity.
  - exists w', n. split; [rewrite Hb; discriminate | exact H].
Defined.

(** Every forecast of a validated result is published.  For a validated
    context and a result that passes validation, and times that fit, each
    forecast is published: same target, horizon, point and quantiles, a key
    under its context, the configured lifetime from the moment of publication,
    and bytes that encode a valid contract for it. *)
Theorem publish_validated_forecasts encode ttl c a now :
  result_valid c a -> request_valid MIN_HISTORY_POINTS c -> times_fit ttl now c -> 0 < ttl ->
  exists ps, res_map (fun f => publish encode ttl c a f now) (ar_forecasts a) = Ok ps /\
    Forall2 (fun f p => published_ok encode ttl p /\ pf_target p = target c /\
               pf_horizon_ns p = af_horizon_ns f /\ pf_point_value p = af_point_value f /\
               pf_quantile_values p = af_quantile_values f /\
               ck_context_sha256 (cache_key p) = context_sha256 c /\ created_ns p = now)
      (ar_forecasts a) ps.
Proof.
  intros Hv Hc Hf Ht. apply res_map_exists. intros f Hin.
  destruct (publish_total encode ttl c a f now Hv Hc Hin Hf Ht) as [p Hp]. exists p.
  split; [done|]. destruct (publish_ok encode ttl c a f now p Hin Hp) as (?&?&?&?&?&?&?).
  tauto.
Qed.

Lemma publish_validated_forecasts_witness :
  exists a ps, reference_result (sample_id 8) (sample_id 9) CPU None sample_context = Ok a /\
    res_map (fun f => publish sample_encode 1000 sample_context a f 100) (ar_forecasts a) = Ok ps.
Proof.
  assert (Hm : MIN_HISTORY_POINTS <= 16) by (vm_compute; discriminate).
  destruct (reference_result_ok sample_context 16 Hm sample_context_valid (sample_id 8)
    (sample_id 9) CPU None eq_refl) as (a & Ha & Hv).
  destruct (publish_validated_forecasts sample_encode 1000 sample_context a 100 Hv)
    as (ps & Hps & _).
  - apply (request_valid_weaken 16); [exact Hm | apply sample_context_valid].
  - split; [|split; vm_compute; reflexivity].
    repeat (apply Forall_cons; split); [vm_compute; reflexivity..|apply Forall_nil_2].
  - reflexivity.
  - exists a, ps. split; [exact Ha | exact Hps].
Defined.

(** The cache serves exactly the fresh publications.  A publication that is
    put is found under its key at every later time at which it has neither
    expired nor exceeded the maximum age; outside that window the lookup returns
    nothing and the stale entry is removed and counted.  The cache never exceeds
    its capacity. *)
Theorem cache_serves_fresh encode ttl c f now :
  cache_inv encode ttl c -> 0 < ttl -> published_ok encode ttl f -> contract_bytes f <> [] ->
  let (c1, o) := cache_put f c in
  o = Ok tt /\ cache_inv encode ttl c1 /\
  let (c2, g) := cache_get (cache_key f) now c1 in
  cache_inv encode ttl c2 /\
  (created_ns f <= now <= created_ns f + Z.min ttl (maximum_age_ns c) ->
   g = Some f /\ c2 = c1) /\
  (~ created_ns f <= now <= created_ns f + Z.min ttl (maximum_age_ns c) ->
   g = None /\ od_get (cache_key f) (entries c2) = None /\ stale_count c2 = stale_count c1 + 1).
Proof.
  intros Hi Ht Hf Hb. destruct (cache_put f c) as [c1 o] eqn:Ep.
  destruct (cache_put_spec encode ttl f c c1 o Hi Ht Hf Ep) as (Hi1 & [_ Hage] & Ho & _).
  destruct (Ho Hb) as [-> Hget]. split; [done|]. split; [done|].
  destruct (cache_get (cache_key f) now c1) as [c2 g] eqn:Eg.
  destruct (cache_get_spec encode ttl _ _ _ _ _ Hi1 Eg) as (Hi2 & _). split; [done|].
  unfold cache_get in Eg. rewrite Hget in Eg. pose proof (po_lifetime _ _ _ Hf) as Hl.
  assert (Hfresh : fresh (maximum_age_ns c1) now f = true <->
    created_ns f <= now <= created_ns f + Z.min ttl (maximum_age_ns c)).
  { unfold fresh. rewrite Hage. lia. }
  split; intros Hw.
  - rewrite (proj2 Hfresh Hw) in Eg. by simplify_eq.
  - destruct (fresh (maximum_age_ns c1) now f); [tauto|]. simplify_eq. split; [done|]. split; [|done].
    apply od_get_none. cbn. intros ([k x] & -> & [_ Hne]%od_pop_elem)%list_elem_of_fmap_1. done.
Qed.

Lemma sample_published : exists f,
  published_ok sample_encode 1000 f /\ contract_bytes f <> [] /\ created_ns f = 100.
Proof.
  assert (Hm : MIN_HISTORY_POINTS <= 16) by (vm_compute; discriminate).
  destruct (reference_result_ok sample_context 16 Hm sample_context_valid (sample_id 8)
    (sample_id 9) CPU None eq_refl) as (a & Ha & Hv).
  assert (Hin : exists f t, ar_forecasts a = f :: t).
  { pose proof (av_forecasts _ _ Hv) as H. destruct (ar_forecasts a); [|eauto].
    apply Forall2_length in H. discriminate H. }
  destruct Hin as (f & t & Hf). assert (Hin : f ∈ ar_forecasts a) by (rewrite Hf; left).
  destruct (publish_total sample_encode 1000 sample_context a f 100 Hv) as [p Hp].
  - apply (request_valid_weaken 16); [exact Hm | apply sample_context_valid].
  - exact Hin.
  - split; [|split; reflexivity]. repeat (apply Forall_cons; split); [reflexivity..|apply Forall_nil_2].
  - reflexivity.
  - destruct (publish_ok _ _ _ _ _ _ _ Hin Hp) as (Hpo & _ & _ & _ & Hc & _). exists p.
    split; [done|]. split; [|done]. destruct (po_contract _ _ _ Hpo) as (w & _ & -> & _). discriminate.
Qed.

Lemma cache_serves_fresh_witness : exists c f, (cache_put f c).2 = Ok tt /\
  (cache_get (cache_key f) 600 (cache_put f c).1).2 = Some f /\
  (cache_get (cache_key f) 601 (cache_put f c).1).2 = None.
Proof.
  destruct sample_published as (f & Hf & Hb & Hc).
  exists {| cache_capacity := 2; maximum_age_ns := 500; entries := []; stale_count := 0 |}, f.
  set (c := {| cache_capacity := 2; maximum_age_ns := 500; entries := []; stale_count := 0 |}).
  assert (Hi : cache_inv sample_encode 1000 c)
    by (split; cbn; [lia | lia | apply NoDup_nil_2 | apply Forall_nil_2]).
  pose proof (cache_serves_fresh sample_encode 1000 c f 600 Hi eq_refl Hf Hb) as H1.
  pose proof (cache_serves_fresh sample_encode 1000 c f 601 Hi eq_refl Hf Hb) as H2.
  destruct (cache_put f c) as [c1 o]. destruct H1 as (Ho & _ & H1). destruct H2 as (_ & _ & H2).
  cbn [fst snd]. split; [exact Ho|].
  destruct (cache_get (cache_key f) 600 c1) as [c2 g].
  destruct (cache_get (cache_key f) 601 c1) as [c3 g3]. cbn [snd]. rewrite Hc in H1, H2.
  cbn [maximum_age_ns c] in H1, H2. split.
  - destruct H1 as (_ & H1 & _). apply H1. lia.
  - destruct H2 as (_ & _ & H2). apply H2. lia.
Defined.

(** Shutdown stops the worker for good.  A shutdown within its deadline
    empties the queue and, when the result store can hold the queue, answers
    every queued request with [STOPPED]; afterwards nothing is admitted, nothing
    is inferred and the health is [DISABLED].  Past its deadline shutdown
    changes nothing but the clock. *)
Theorem shutdown_stops_worker encode clock primary i v deadline w :
  worker_inv encode w ->
  let (w', o) := shutdown clock deadline w in
  worker_inv encode w' /\
  (deadline < clock (w_clock_reads w) ->
     o = Ok DEADLINE_MISSED /\ w_requests w' = w_requests w /\ w_results w' = w_results w /\
     w_stopped w' = w_stopped w /\ w_health w' = w_health w) /\
  (clock (w_clock_reads w) <= deadline ->
     o = Ok STOPPED /\ w_requests w' = [] /\ w_health w' = DISABLED /\
     (forall r, (submit clock r w').2 = Ok STOPPED /\ w_requests (submit clock r w').1 = []) /\
     run_once encode clock primary i v w' = (w', Ok 0) /\
     (queue_capacity (w_config w) <= result_capacity (w_config w) ->
      forall r, r ∈ w_requests w ->
        (poll (request_id r) w').2 = Ok (rejected STOPPED "shutdown"))).
Proof.
  intros Hi. destruct (shutdown clock deadline w) as [w' o] eqn:E.
  destruct (shutdown_spec encode _ _ _ _ _ Hi E) as (Hi' & Hc & Ho). split; [done|].
  destruct Ho as [(-> & Hd & ? & ? & ? & ?) | (-> & Hd & Hs & Hq & Hh & Hres)].
  { split; [done|]. intros. lia. }
  split; [intros; lia|]. intros _. split; [done|]. split; [done|]. split; [done|]. split.
  { intros r. destruct (submit clock r w') as [w2 o2] eqn:Es.
    unfold submit, st_bind, st_put, st_get, st_ret in Es. cbv beta iota in Es.
    change (w_stopped (id (count_request w'))) with (w_stopped w') in Es. rewrite Hs in Es.
    injection Es as <- <-. cbn. done. }
  split; [apply run_once_idle; by left|]. intros Hcap r Hr.
  pose proof (config_bounds _ (wi_config _ _ _ _ _ _ _ Hi)) as Hb.
  assert (Ha : answered (fun _ x => x = rejected STOPPED "shutdown") (w_requests w) w').
  { apply (answered_same _ (foldl (fun w r =>
      store_result (request_id r) (rejected STOPPED "shutdown") w) w (w_requests w))); [done|].
    apply (store_all_answered _ _ _ []); [|apply answered_nil | done].
    split; [apply (wi_queue_ids _ _ _ _ _ _ _ Hi)|].
    pose proof (wi_queue _ _ _ _ _ _ _ Hi). 
    change (Z.of_nat (length (w_requests w)) <= result_capacity (w_config w)). lia. }
  destruct (answered_get encode _ _ _ _ Hi' Ha Hr) as (x & Hx & ->).
  unfold poll. by rewrite Hx.
Qed.

Lemma shutdown_stops_worker_witness : exists w,
  w_requests w <> [] /\ (shutdown sample_clock 1000 w).2 = Ok STOPPED.
Proof.
  destruct sample_worker_facts as (w & Hr & _ & _ & Hq & _ & _ & _ & Hn & _).
  exists w. split; [exact Hq|].
  pose proof (shutdown_stops_worker sample_encode sample_clock sample_primary (sample_id 8)
    (sample_id 9) 1000 w (proj1 (worker_reachable_inv _ _ _ _ _ _ _ Hr))) as H.
  destruct (shutdown sample_clock 1000 w) as [w' o]. destruct H as (_ & _ & H).
  rewrite Hn in H. apply H. vm_compute. discriminate.
Defined.

(** One request can lose a whole batch.  A context that the builder accepts
    but whose target time does not fit the contract makes publication raise
    [ValueError] out of [run_once]; the batch is already off the queue, so its
    requests, also the valid one behind it, never get a result. *)
Theorem publication_error_loses_batch :
  build 16 late_request = Ok late_context /\
  let w := two_calls late_context sample_context in
  map request_id (w_requests w) = [sample_id 21; sample_id 22] /\
  let (w', o) := sample_run w in
  o = Err (Exn ValueError "target_exchange_event_time_ns is outside its signed 64-bit wire range") /\
  w_requests w' = [] /\ w_results w' = [] /\
  (poll (sample_id 22) w').2 = Ok (rejected NO_RESULT "not_ready").
Proof. vm_compute. repeat split. Qed.
