(* ===== verification/Runtime.v ===== *)
(** * The HTTP runtime

    Models [python/model_serving/aegis_mx_timeseries/runtime.py]: the role
    application that routes framed requests to the forecast service, the
    admission of a request by identity and rate, the dispatch of the handler, the
    slots that bound concurrent requests, and the reference deployment.  The
    application and its worker read one clock, as the deployment wires them.
    Sockets, signals and threads are the host's: [peer] is what
    [getpeercert] returns or raises. *)

From S2P Require Import Prelude PyText Json Sha256 ForecastDomain ForecastAdapters Contracts.
From S2P Require Import ForecastService TransportSecurity.
Open Scope Z_scope.

Definition MAX_HTTP_BODY_BYTES : Z := 2 ^ 20.
Definition MAX_HTTP_PATH_BYTES : Z := 4096.
Definition DEFAULT_REQUEST_DEADLINE_NS : Z := 5000000000.
Definition MAXIMUM_CONCURRENT_REQUESTS : Z := 1024.

Inductive ServiceRole := API | WORKER | CONTEXT_BUILDER.
#[export] Instance ServiceRole_eq_dec : EqDecision ServiceRole.
Proof. solve_decision. Defined.

Definition ServiceRole_value (r : ServiceRole) : pystr :=
  match r with
  | API => str "timeseries-forecast-api"
  | WORKER => str "timeseries-forecast-worker"
  | CONTEXT_BUILDER => str "timeseries-context-builder"
  end.

(** The members of [http.HTTPStatus] that are used. *)
Definition HTTP_OK : Z := 200.
Definition BAD_REQUEST : Z := 400.
Definition FORBIDDEN : Z := 403.
Definition NOT_FOUND : Z := 404.
Definition METHOD_NOT_ALLOWED : Z := 405.
Definition REQUEST_ENTITY_TOO_LARGE : Z := 413.
Definition REQUEST_URI_TOO_LONG : Z := 414.
Definition TOO_MANY_REQUESTS : Z := 429.
Definition SERVICE_UNAVAILABLE : Z := 503.

Record HttpResponse := { status_code : Z; content_type : pystr; body : pybytes }.

Definition RequestSecurity_post_init (maximum_concurrent_requests : Z) : res unit :=
  raise_when (negb ((0 <? maximum_concurrent_requests)
                    && (maximum_concurrent_requests <=? MAXIMUM_CONCURRENT_REQUESTS))) ValueError
    "maximum concurrent requests is invalid".

(** [_json_response]; the JSON text is ASCII. *)
Definition json_response (code : Z) (payload : json) : res HttpResponse :=
  let! encoded := dumps payload in
  Ok {| status_code := code; content_type := str "application/json"; body := encoded |}.

Definition error_response (code : Z) (error : string) : res HttpResponse :=
  json_response code (JObj [(str "error", JStr (str error))]).

(** [base64.b64encode] *)
Definition b64_char (n : Z) : Z :=
  if n <? 26 then 65 + n else if n <? 52 then 71 + n else if n <? 62 then n - 4
  else if n =? 62 then 43 else 47.
Fixpoint b64encode (b : pybytes) : pystr :=
  match b with
  | [] => []
  | [x] => [b64_char (x / 4); b64_char (x mod 4 * 16); 61; 61]
  | [x; y] => [b64_char (x / 4); b64_char (x mod 4 * 16 + y / 16);
               b64_char (y mod 16 * 4); 61]
  | x :: y :: z :: t =>
      b64_char (x / 4) :: b64_char (x mod 4 * 16 + y / 16)
      :: b64_char (y mod 16 * 4 + z / 64) :: b64_char (z mod 64) :: b64encode t
  end.

(** Names of enumeration members. *)
Definition ModelHealth_name (h : ModelHealth) : pystr :=
  match h with
  | MH_UNKNOWN => str "UNKNOWN" | WARMING => str "WARMING" | HEALTHY => str "HEALTHY"
  | MH_DEGRADED => str "DEGRADED" | FAILED => str "FAILED" | DISABLED => str "DISABLED"
  end.
Definition WorkerStatus_name (s : WorkerStatus) : pystr :=
  match s with
  | ACCEPTED => str "ACCEPTED" | QUEUE_FULL => str "QUEUE_FULL"
  | DEADLINE_MISSED => str "DEADLINE_MISSED" | COMPLETED => str "COMPLETED"
  | FALLBACK_COMPLETED => str "FALLBACK_COMPLETED" | NO_RESULT => str "NO_RESULT"
  | MODEL_FAILURE => str "MODEL_FAILURE" | INVALID_REQUEST => str "INVALID_REQUEST"
  | STOPPED => str "STOPPED"
  end.

(** [{"status": status.name.lower()}] *)
Definition status_response (s : WorkerStatus) : res HttpResponse :=
  json_response SERVICE_UNAVAILABLE (JObj [(str "status", JStr (lower (WorkerStatus_name s)))]).

(** ** The role application *)

Record RoleApplication := { app_role : ServiceRole; request_deadline_ns : Z }.

Definition new_application (role : ServiceRole) (deadline : Z) : res RoleApplication :=
  do! raise_when (deadline <=? 0) ValueError "request deadline must be positive" in
  Ok {| app_role := role; request_deadline_ns := deadline |}.

Definition handle_get (app : RoleApplication) (path : pystr) (w : ForecastWorker)
    : res HttpResponse :=
  let! s := status w in
  if bool_decide (path = str "/healthz") then
    json_response (if healthy s then HTTP_OK else SERVICE_UNAVAILABLE)
      (JObj [(str "healthy", JBool (healthy s));
             (str "model_health", JStr (lower (ModelHealth_name (model_health s))))])
  else if bool_decide (path = str "/readyz") then
    json_response (if ready s then HTTP_OK else SERVICE_UNAVAILABLE)
      (JObj [(str "ready", JBool (ready s))])
  else if bool_decide (path = str "/version") then
    json_response HTTP_OK
      (JObj [(str "live_trading_capable", JBool false);
             (str "role", JStr (ServiceRole_value (app_role app)));
             (str "version", JStr (status_version s))])
  else if bool_decide (path = str "/configuration") then
    json_response HTTP_OK (JObj [(str "configuration_sha256", JStr (configuration_sha256 s))])
  else if bool_decide (path = str "/metrics") then
    let! text := prometheus_metrics w in
    let! encoded := ascii_encode text in
    Ok {| status_code := HTTP_OK; content_type := str "text/plain; version=0.0.4";
          body := encoded |}
  else error_response NOT_FOUND "not_found".

(** [_validate_context] *)
Definition validate_context (b : pybytes) : res HttpResponse :=
  match decode_context b with
  | Ok c =>
      let! encoded := encode_context c in
      json_response HTTP_OK
        (JObj [(str "canonical_context_base64", JStr (b64encode encoded));
               (str "context_sha256", JStr (bytes_hex (context_sha256 c)))])
  | Err e => if caught_by e [ValueError] then error_response BAD_REQUEST "invalid_context"
             else Err e
  end.

Definition forecast_item (f : PublishedForecast) : json :=
  JObj [(str "contract_base64", JStr (b64encode (contract_bytes f)));
        (str "forecast_id", JStr (id_hex (pf_forecast_id f)));
        (str "horizon_ns", JInt (pf_horizon_ns f));
        (str "point_value", JInt (pf_point_value f));
        (str "target", JStr (lower (ForecastTarget_name (pf_target f))))].

Definition result_payload (x : WorkerResult) : json :=
  JObj [(str "forecasts", JArr (map forecast_item (wr_forecasts x)));
        (str "status", JStr (lower (WorkerStatus_name (wr_status x))));
        (str "used_fallback", JBool (wr_used_fallback x))].

Section runtime.
Context (encode : ForecastWire -> pybytes).
Context (clock : nat -> Z) (primary : nat -> BatchFunction).
Context (primary_id primary_version : Identifier128).

(** The request that [_forecast] submits for a context. *)
Definition http_request (app : RoleApplication) (c : ForecastContext) (now : Z)
    : res ForecastRequest :=
  let! i := derived_identifier (str "http-request") [PBytes (context_sha256 c); PInt now] in
  Ok {| request_id := i; context := c; deadline_ns := now + request_deadline_ns app |}.

(** [_forecast] after the context was decoded. *)
Definition forecast_context (app : RoleApplication) (c : ForecastContext)
    : M ForecastWorker HttpResponse :=
  now <~ read_clock clock ;;
  request <~ st_lift (http_request app c now) ;;
  admission <~ submit clock request ;;
  if negb (bool_decide (admission = ACCEPTED)) then st_lift (status_response admission) else
  run_once encode clock primary primary_id primary_version ;;~
  result <~ poll (request_id request) ;;
  if negb (bool_decide (wr_status result ∈ [COMPLETED; FALLBACK_COMPLETED]))
  then st_lift (status_response (wr_status result))
  else st_lift (json_response HTTP_OK (result_payload result)).

(** [_forecast] *)
Definition forecast (app : RoleApplication) (b : pybytes) : M ForecastWorker HttpResponse :=
  match decode_context b with
  | Ok c => forecast_context app c
  | Err e => if caught_by e [ValueError]
             then st_lift (error_response BAD_REQUEST "invalid_context") else st_raise e
  end.

Definition handle_post (app : RoleApplication) (path : pystr) (b : pybytes)
    : M ForecastWorker HttpResponse :=
  if bool_decide (path = str "/v1/context") && bool_decide (app_role app = CONTEXT_BUILDER)
  then st_lift (validate_context b)
  else if bool_decide (path = str "/v1/forecast") && bool_decide (app_role app ∈ [API; WORKER])
  then forecast app b
  else st_lift (error_response NOT_FOUND "not_found").

(** [RoleApplication.handle] *)
Definition handle (app : RoleApplication) (method path : pystr) (b : pybytes)
    : M ForecastWorker HttpResponse :=
  encoded <~ st_lift (utf8_encode path) ;;
  if MAX_HTTP_PATH_BYTES <? Z.of_nat (length encoded)
  then st_lift (error_response REQUEST_URI_TOO_LONG "path_too_long")
  else if MAX_HTTP_BODY_BYTES <? Z.of_nat (length b)
  then st_lift (error_response REQUEST_ENTITY_TOO_LARGE "body_too_large")
  else if bool_decide (method = str "GET")
  then fun w => (w, handle_get app path w)
  else if bool_decide (method = str "POST") then handle_post app path b
  else st_lift (error_response METHOD_NOT_ALLOWED "method_not_allowed").

(** ** Admission and dispatch *)

(** The mutable state behind the handler. *)
Record Server := { sv_worker : ForecastWorker; sv_limiter : IdentityRateLimiter }.
Definition set_worker (w : ForecastWorker) (s : Server) : Server :=
  {| sv_worker := w; sv_limiter := sv_limiter s |}.
Definition set_limiter (l : IdentityRateLimiter) (s : Server) : Server :=
  {| sv_worker := sv_worker s; sv_limiter := l |}.

(** [getpeercert] returns a mapping or [None], or raises; [None] has no [get]. *)
Definition authenticated (p : list (pystr * gset ServicePermission))
    (peer : res (option certificate)) (method path : pystr) : res ServiceIdentity :=
  let! o := peer in
  match o with
  | Some c => authorize p c method path
  | None => raise AttributeError "'NoneType' object has no attribute 'get'"
  end.

(** [_admit_request]: the identity for the log, and the denial if there is one.
    [security] is the policy, or [None] for the insecure loopback mode; [now] is
    the limiter's clock. *)
Definition request_admission (security : option (list (pystr * gset ServicePermission)))
    (peer : res (option certificate)) (now : Z) (method path : pystr)
    : M Server (pystr * option HttpResponse) := fun s =>
  match security with
  | None => (s, Ok (str "insecure-test-only", None))
  | Some p =>
      match authenticated p peer method path with
      | Err e =>
          if caught_by e [AttributeError; TransportSecurityError]
          then (s, let! r := error_response FORBIDDEN "identity_forbidden" in
                   Ok (str "identity-rejected", Some r))
          else (s, Err e)
      | Ok i =>
          let (l, ok) := allow i now (sv_limiter s) in
          if ok then (set_limiter l s, Ok (uri i, None))
          else (set_limiter l s, let! r := error_response TOO_MANY_REQUESTS "rate_limited" in
                                 Ok (uri i, Some r))
      end
  end.

Definition on_worker {A} (m : M ForecastWorker A) : M Server A := fun s =>
  let (w, o) := m (sv_worker s) in (set_worker w s, o).

(** [Handler._dispatch]: the response that is written. *)
Definition dispatch (app : RoleApplication)
    (security : option (list (pystr * gset ServicePermission)))
    (peer : res (option certificate)) (now : Z) (method raw_path : pystr) (b : pybytes)
    : M Server HttpResponse :=
  let path := (partition_char 63 raw_path).1 in
  admission <~ request_admission security peer now method path ;;
  match admission.2 with
  | Some denial => st_ret denial
  | None => on_worker (handle app method path b)
  end.
End runtime.

(** ** Concurrency slots *)

(** [SecureThreadingHTTPServer]: the semaphore's value and the admitted requests. *)
Record Slots := { free_slots : Z; running : Z; slot_limit : Z }.

Definition new_slots (maximum_concurrent_requests : Z) : Slots :=
  {| free_slots := maximum_concurrent_requests; running := 0;
     slot_limit := maximum_concurrent_requests |}.

(** [BoundedSemaphore.release] *)
Definition release (s : Slots) : res Slots :=
  do! raise_when (slot_limit s <=? free_slots s) ValueError "Semaphore released too many times" in
  Ok {| free_slots := free_slots s + 1; running := running s; slot_limit := slot_limit s |}.

(** [process_request]; [spawned] says whether the request thread was started.
    The result says whether the request was taken. *)
Definition process_request (spawned : res unit) : M Slots bool := fun s =>
  if free_slots s <=? 0 then (s, Ok false) else
  let s1 := {| free_slots := free_slots s - 1; running := running s; slot_limit := slot_limit s |} in
  match spawned with
  | Ok _ => ({| free_slots := free_slots s1; running := running s1 + 1;
                slot_limit := slot_limit s1 |}, Ok true)
  | Err e => match release s1 with Ok s2 => (s2, Err e) | Err e' => (s1, Err e') end
  end.

(** The end of [process_request_thread], whatever its body did. *)
Definition finish_request (s : Slots) : Slots * res unit :=
  match release s with
  | Ok s1 => ({| free_slots := free_slots s1; running := running s1 - 1;
                 slot_limit := slot_limit s1 |}, Ok tt)
  | Err e => (s, Err e)
  end.

(** ** The reference deployment *)

(** The configuration of [build_reference_application]. *)
Definition reference_config : res ServiceConfig :=
  let! configuration := derived_identifier (str "reference-service-configuration")
                          [PStr VERSION] in
  let cfg := {| cfg_configuration_version := configuration; forecast_ttl_ns := 30000000000;
                maximum_forecast_age_ns := 10000000000; cfg_checkpoint_sha256 := None;
                primary_device := CPU; fallback_baseline := Some SEASONAL_NAIVE;
                queue_capacity := 256; result_capacity := 256; maximum_batch := 32 |} in
  do! ServiceConfig_post_init cfg in
  Ok cfg.

Definition build_reference_application (role : ServiceRole)
    : res (RoleApplication * ForecastWorker * Identifier128 * Identifier128) :=
  let! model := derived_identifier (str "reference-timesfm-compatible-model") [] in
  let! version := derived_identifier (str "reference-timesfm-compatible-version") [PStr VERSION] in
  let! cfg := reference_config in
  let! w := new_worker cfg in
  let! app := new_application role DEFAULT_REQUEST_DEADLINE_NS in
  Ok (app, w, model, version).

(** ** Responses are always written *)

Lemma error_response_ok code e :
  exists r, error_response code e = Ok r /\ status_code r = code.
Proof.
  unfold error_response, json_response.
  destruct (dumps_total (JObj [(str "error", JStr (str e))]) eq_refl) as [b ->]. cbn. eauto.
Qed.

Lemma status_response_ok s :
  exists r, status_response s = Ok r /\ status_code r = SERVICE_UNAVAILABLE.
Proof.
  unfold status_response, json_response.
  destruct (dumps_total (JObj [(str "status", JStr (lower (WorkerStatus_name s)))]) eq_refl)
    as [b ->]. cbn. eauto.
Qed.

(** ** Admission *)

Lemma authenticated_ok bs p peer method path i :
  new_policy bs = Ok p ->
  authenticated p peer method path = Ok i <->
  exists c, peer = Ok (Some c) /\ certifies c i /\ exists required b,
    permission_for_request method path = Ok required /\ b ∈ bs /\ ib_identity b = i /\
    required ∈ ib_permissions b.
Proof.
  intros Hp. unfold authenticated. split.
  - intros H. apply rbind_ok in H as ([c|] & -> & H); [|done]. exists c. split; [done|].
    by apply (authorize_granted bs p c method path Hp).
  - intros (c & -> & H). cbn [rbind]. by apply (authorize_granted bs p c method path Hp).
Qed.

Definition denied (code : Z) (o : res HttpResponse) : Prop :=
  exists r, o = Ok r /\ status_code r = code.

Section server.
Context (encode : ForecastWire -> pybytes).
Context (clock : nat -> Z) (primary : nat -> BatchFunction).
Context (primary_id primary_version : Identifier128).
Local Notation serve_one := (dispatch encode clock primary primary_id primary_version).
Local Notation app_handle := (handle encode clock primary primary_id primary_version).

Lemma dispatch_cases app p peer now method raw b s :
  let path := (partition_char 63 raw).1 in
  let (s', o) := serve_one app (Some p) peer now method raw b s in
  match authenticated p peer method path with
  | Err e =>
      s' = s /\ (if caught_by e [AttributeError; TransportSecurityError]
                 then denied FORBIDDEN o else o = Err e)
  | Ok i =>
      sv_limiter s' = (allow i now (sv_limiter s)).1 /\
      if (allow i now (sv_limiter s)).2
      then (sv_worker s', o) = app_handle app method path b (sv_worker s)
      else sv_worker s' = sv_worker s /\ denied TOO_MANY_REQUESTS o
  end.
Proof using Type.
  cbv zeta. unfold dispatch, request_admission, st_bind, on_worker, st_ret, denied.
  destruct (authenticated p peer method _) as [i|e].
  - destruct (allow i now (sv_limiter s)) as [l [|]]; cbn [fst snd].
    + change (sv_worker (set_limiter l s)) with (sv_worker s).
      by destruct (app_handle app method _ b (sv_worker s)) as [w o].
    + destruct (error_response_ok TOO_MANY_REQUESTS "rate_limited") as (r & -> & Hr). cbn. eauto.
  - destruct (caught_by e _); [|done].
    destruct (error_response_ok FORBIDDEN "identity_forbidden") as (r & -> & Hr). cbn. eauto.
Qed.
End server.

(** ** Slots and deployment *)

(** A connection is processed, or an admitted request ends. *)
Inductive slots_step : Slots -> Slots -> Prop :=
  | slot_process spawned s : slots_step s (process_request spawned s).1
  | slot_finish s : 0 < running s -> slots_step s (finish_request s).1.

Inductive slots_reachable (limit : Z) : Slots -> Prop :=
  | slots_new : slots_reachable limit (new_slots limit)
  | slots_next s s' : slots_reachable limit s -> slots_step s s' -> slots_reachable limit s'.

(** No slot is lost and no more requests run than the limit, whether threads
    start or fail; the semaphore is never released too often. *)
Lemma slots_conserved limit s :
  0 < limit -> slots_reachable limit s ->
  slot_limit s = limit /\ 0 <= running s <= limit /\ free_slots s + running s = limit /\
  (0 < running s -> (finish_request s).2 = Ok tt).
Proof.
  intros Hl H.
  assert (Hinv : slot_limit s = limit /\ 0 <= running s <= limit /\ free_slots s + running s = limit).
  { induction H as [|s s' _ IH Hs]; [cbn; lia|]. destruct IH as (E & Hr & Hf).
    destruct Hs as [spawned s | s Hpos].
    - unfold process_request, release. destruct (Z.leb_spec (free_slots s) 0); [done|].
      destruct spawned as [u|e]; [cbn; lia|]. cbn [slot_limit free_slots running].
      rewrite raise_when_false by lia. cbn. lia.
    - unfold finish_request, release. rewrite raise_when_false by lia. cbn. lia. }
  destruct Hinv as (E & Hr & Hf). repeat (split; [done|]). intros Hpos.
  unfold finish_request, release. by rewrite raise_when_false by lia.
Qed.

Lemma new_worker_queue cfg w : new_worker cfg = Ok w -> w_requests w = [].
Proof.
  unfold new_worker. intros Hw. apply rbind_ok in Hw as (? & _ & Hw).
  apply rbind_ok in Hw as (? & _ & Hw). apply rbind_ok in Hw as (? & _ & Hw).
  apply rbind_ok in Hw as (? & _ & Hw). apply rbind_ok in Hw as (? & _ & Hw). by injection Hw as <-.
Qed.

Lemma reference_config_valid cfg : reference_config = Ok cfg -> ServiceConfig_post_init cfg = Ok tt.
Proof.
  unfold reference_config. intros Hc. apply rbind_ok in Hc as (i & _ & Hc). cbv zeta in Hc.
  apply rbind_ok in Hc as ([] & Hv & Hc). by injection Hc as <-.
Qed.

Lemma res_ok_exists {A} (r : res A) :
  match r with Ok _ => True | Err _ => False end -> exists x, r = Ok x.
Proof. destruct r; [eauto | done]. Qed.

Lemma reference_builds role :
  match build_reference_application role with Ok _ => True | Err _ => False end.
Proof. vm_compute. exact I. Qed.

Lemma reference_application_built encode role app w mid mver :
  build_reference_application role = Ok (app, w, mid, mver) ->
  app_role app = role /\ worker_inv encode w /\ w_requests w = [].
Proof.
  unfold build_reference_application. intros Eb.
  apply rbind_ok in Eb as (m & _ & Eb). apply rbind_ok in Eb as (v & _ & Eb).
  apply rbind_ok in Eb as (cfg & Hc & Eb). apply rbind_ok in Eb as (w' & Hw & Eb).
  apply rbind_ok in Eb as (app' & Ha & Eb). injection Eb as <- <- <- <-.
  unfold new_application in Ha. apply rbind_ok in Ha as ([] & _ & Ha). injection Ha as <-.
  split; [done|]. split; [|by apply (new_worker_queue cfg)].
  by apply (new_worker_inv encode cfg); [apply reference_config_valid|].
Qed.

(** The reference deployment starts, with an empty well-formed worker. *)
Lemma reference_application_ready encode role :
  exists app w mid mver, build_reference_application role = Ok (app, w, mid, mver) /\
    app_role app = role /\ worker_inv encode w /\ w_requests w = [].
Proof.
  destruct (res_ok_exists (build_reference_application role) (reference_builds role))
    as [[[[app w] mid] mver] Eb].
  exists app, w, mid, mver. split; [exact Eb|]. by apply (reference_application_built _ _ _ _ mid mver).
Qed.

(** ** Properties *)

(** Who may make a request: the certificate of the peer names exactly the identity [i],
    and one of its bindings grants the capability of the method and path. *)
Definition granted_to (bs : list IdentityBinding) (peer : res (option certificate)) (method path : pystr)
    (i : ServiceIdentity) : Prop :=
  exists c, peer = Ok (Some c) /\ certifies c i /\ exists required bd,
    permission_for_request method path = Ok required /\ bd ∈ bs /\ ib_identity bd = i /\
    required ∈ ib_permissions bd.

(** The outcome of a dispatch under a policy with the bindings [bs]. *)
Definition dispatched_by (alone : ForecastWorker * res HttpResponse) (bs : list IdentityBinding)
    (peer : res (option certificate)) (now : Z) (method path : pystr) (s s' : Server) (o : res HttpResponse) : Prop :=
  (forall i, granted_to bs peer method path i -> (allow i now (sv_limiter s)).2 = true -> (sv_worker s', o) = alone) /\
  (forall i, granted_to bs peer method path i -> (allow i now (sv_limiter s)).2 = false ->
     sv_worker s' = sv_worker s /\ denied TOO_MANY_REQUESTS o) /\
  (forall i, granted_to bs peer method path i -> sv_limiter s' = (allow i now (sv_limiter s)).1) /\
  ((forall i, ~ granted_to bs peer method path i) ->
     s' = s /\ (denied FORBIDDEN o \/ exists e, peer = Err e /\ o = Err e)).

Lemma dispatch_secured encode clock primary pid pver app bs p peer now method raw b s :
  new_policy bs = Ok p ->
  let path := (partition_char 63 raw).1 in
  let (s', o) := dispatch encode clock primary pid pver app (Some p) peer now method raw b s in
  dispatched_by (handle encode clock primary pid pver app method path b (sv_worker s)) bs peer now method path s s' o.
Proof.
  intros Hp. cbv zeta. unfold dispatched_by.
  pose proof (dispatch_cases encode clock primary pid pver app p peer now method raw b s) as H.
  cbv zeta in H. set (path := (partition_char 63 raw).1) in *.
  destruct (dispatch _ _ _ _ _ app (Some p) peer now method raw b s) as [s' o].
  assert (Hok : forall i, authenticated p peer method path = Ok i <-> granted_to bs peer method path i)
    by (intros i; exact (authenticated_ok bs p peer method path i Hp)).
  destruct (authenticated p peer method path) as [j|e] eqn:Ea.
  - destruct H as [Hl H].
    assert (Hu : forall i, granted_to bs peer method path i -> i = j) by (intros i Hg%Hok; by injection Hg).
    split; [|split; [|split]].
    + intros i Hg%Hu Ht. subst i. by rewrite Ht in H.
    + intros i Hg%Hu Hf. subst i. by rewrite Hf in H.
    + intros i Hg%Hu. by subst i.
    + intros Hno. destruct (Hno j). by apply Hok.
  - assert (Hno : forall i, ~ granted_to bs peer method path i) by (intros i Hg; by apply Hok in Hg).
    repeat (split; [intros i Hg; by destruct (Hno i)|]). intros _. destruct H as [-> H].
    split; [done|]. destruct (caught_by e _) eqn:Ec; [by left|]. right. exists e.
    split; [|done]. unfold authenticated in Ea. destruct peer as [[c|]|e']; cbn in Ea.
    + pose proof (authorize_raises p c method path e Ea) as Hc.
      destruct e as [cl msg]. cbn in Hc. by subst cl.
    + injection Ea as <-. vm_compute in Ec. discriminate Ec.
    + by injection Ea as <-.
Qed.

(** C39: who reaches the application.  With a security policy, a request reaches the
    application exactly when its certificate names one service identity, a binding of that
    identity grants the capability of the method and path (without the query), and the rate
    limiter allows it; it then behaves as the application alone.  Otherwise the forecast
    worker is untouched and the response is 403, or 429 after charging the limiter; only an
    error of reading the peer's certificate is raised as it is.  Without
    a policy, which is the insecure mode for tests on a loopback address, every request
    reaches the application, whatever the peer, and the limiter is not consulted. *)
Theorem dispatch_only_admitted encode clock primary pid pver app security peer now method raw b s :
  let path := (partition_char 63 raw).1 in
  let alone := handle encode clock primary pid pver app method path b (sv_worker s) in
  let (s', o) := dispatch encode clock primary pid pver app security peer now method raw b s in
  match security with
  | Some p => forall bs, new_policy bs = Ok p -> dispatched_by alone bs peer now method path s s' o
  | None => (sv_worker s', o) = alone /\ sv_limiter s' = sv_limiter s
  end.
Proof.
  cbv zeta. destruct security as [p|].
  - pose proof (dispatch_secured encode clock primary pid pver app) as H. cbv zeta in H.
    destruct (dispatch _ _ _ _ _ app (Some p) peer now method raw b s) as [s' o] eqn:E. intros bs Hp.
    specialize (H bs p peer now method raw b s Hp). by rewrite E in H.
  - unfold dispatch, st_bind, request_admission, on_worker. cbn [snd].
    by destruct (handle _ _ _ _ _ _ _ _ _ _) as [w o].
Qed.

Definition sample_server : Server :=
  {| sv_worker := idle_worker sample_config;
     sv_limiter := {| rl_rate := 2; rl_capacity := 3000000000; rl_maximum_identities := 4;
                      rl_buckets := [] |} |}.

Lemma dispatch_only_admitted_witness : exists p,
  new_policy [sample_binding] = Ok p /\
  let (s', o) := dispatch sample_encode sample_clock sample_primary (sample_id 8) (sample_id 9)
    {| app_role := API; request_deadline_ns := 50 |} (Some p) (Ok (Some sample_certificate)) 7
    (str "GET") (str "/readyz?x=1") [] sample_server in
  (sv_worker s', o) = handle sample_encode sample_clock sample_primary (sample_id 8) (sample_id 9)
    {| app_role := API; request_deadline_ns := 50 |} (str "GET") (str "/readyz") []
    (idle_worker sample_config).
Proof.
  destruct (new_policy [sample_binding]) as [p|e] eqn:E; [|vm_compute in E; discriminate E].
  exists p. split; [reflexivity|].
  pose proof (dispatch_only_admitted sample_encode sample_clock sample_primary (sample_id 8)
    (sample_id 9) {| app_role := API; request_deadline_ns := 50 |} (Some p)
    (Ok (Some sample_certificate)) 7 (str "GET") (str "/readyz?x=1") [] sample_server) as H.
  cbv zeta in H. change (partition_char 63 (str "/readyz?x=1")).1 with (str "/readyz") in H.
  destruct (dispatch _ _ _ _ _ _ _ _ _ _ _ _ _) as [s' o]. destruct (H [sample_binding] E) as [H' _].
  apply (H' (ib_identity sample_binding)).
  - exists sample_certificate. split; [reflexivity|]. split.
    + apply peer_service_identity_ok. vm_compute. reflexivity.
    + exists READ_STATUS, sample_binding. split; [vm_compute; reflexivity|]. split; [left|].
      split; [reflexivity|]. apply elem_of_union_r, elem_of_singleton_2. reflexivity.
  - vm_compute. reflexivity.
Defined.

(** ** The forecast endpoint *)

Lemma decoded_context b c :
  decode_context b = Ok c ->
  request_valid DEFAULT_MINIMUM_HISTORY c /\ Z.of_nat (length b) <= MAX_HTTP_BODY_BYTES.
Proof.
  unfold decode_context. intros H. apply rbind_ok in H as ([] & Hl & H). apply raise_when_ok in Hl.
  apply rbind_ok in H as (? & _ & H). apply rbind_ok in H as (rd & _ & H).
  apply rbind_ok in H as (c' & Hb & H). inv_ok.
  apply build_ok in Hb as (Hv & d & _ & ->). split; [done|].
  unfold MAX_CONTEXT_BYTES, MAX_HTTP_BODY_BYTES in *. lia.
Qed.

Lemma published_printable encode ttl f :
  published_ok encode ttl f -> ints_printable (forecast_item f) = true.
Proof.
  intros Hf. cbn [ints_printable forecast_item forallb snd].
  assert (H64 : 2 ^ 64 < 2 ^ 4300) by (apply Z.pow_lt_mono_r; lia).
  destruct (po_contract _ _ _ Hf) as (w & Hw & _ & _ & _ & Hh & _).
  apply validated_forecast_ok in Hw as [Hw _]. pose proof (cv_horizon_ns _ _ _ Hw) as Hu.
  rewrite Hh in Hu. unfold u64 in Hu. pose proof (po_point _ _ _ Hf) as Hp. unfold within in Hp.
  assert (Hb : -10000000 <= (target_bounds (pf_target f)).1 /\
               (target_bounds (pf_target f)).2 <= 1000000000000) by (destruct (pf_target f); cbn; lia).
  set (big := 2 ^ 4300) in *. clearbody big. lia.
Qed.

Lemma result_response_ok encode ttl x :
  result_sound encode ttl x ->
  exists b, dumps (result_payload x) = Ok b /\
    json_response HTTP_OK (result_payload x)
    = Ok {| status_code := HTTP_OK; content_type := str "application/json"; body := b |}.
Proof.
  intros [Hf _]. destruct (dumps_total (result_payload x)) as [b Hb].
  - cbn [result_payload ints_printable forallb snd]. rewrite andb_true_iff. split; [|done].
    apply forallb_forall. intros j (f & <- & Hin)%in_map_iff.
    rewrite Forall_forall in Hf. eapply published_printable, Hf. by apply list_elem_of_In.
  - exists b. split; [done|]. unfold json_response. by rewrite Hb.
Qed.

Section endpoint.
Context (encode : ForecastWire -> pybytes).
Context (clock : nat -> Z) (primary : nat -> BatchFunction).
Context (pid pver : Identifier128).
Context (Hprimary : forall n cs d k e, validated cs -> primary n cs d k = Err e -> contained e).
Context (Hencode : forall w, encode w <> []).

Lemma submit_reads r w w' :
  submit clock r w = (w', Ok ACCEPTED) -> w_clock_reads w' = S (w_clock_reads w).
Proof using Type.
  unfold submit, st_bind, st_put, st_get, st_ret, read_clock. cbv beta iota.
  repeat case_match; intros [= <-]; try done.
Qed.

(** Answers of the endpoint at the clock readings of one request. *)
Definition answered_by (cfg : ServiceConfig) (r : ForecastRequest) (n : nat) (resp : HttpResponse)
    : Prop :=
  exists x, wr_status x ∈ [COMPLETED; FALLBACK_COMPLETED] /\
    result_sound encode (forecast_ttl_ns cfg) x /\
    (answers_at cfg r x (clock n) \/ answers_at cfg r x (clock (S n))) /\
    dumps (result_payload x) = Ok (body resp).

Lemma run_and_poll r w :
  worker_inv encode w -> w_stopped w = false -> w_requests w = [r] ->
  maximum_batch (w_config w) <= result_capacity (w_config w) ->
  request_valid MIN_HISTORY_POINTS (context r) ->
  times_fit (forecast_ttl_ns (w_config w)) (clock (S (w_clock_reads w))) (context r) ->
  exists w2 n w3 x, run_once encode clock primary pid pver w = (w2, Ok n) /\
    poll (request_id r) w2 = (w3, Ok x) /\ worker_inv encode w3 /\ w_requests w3 = [] /\
    od_get (request_id r) (w_results w3) = None /\
    result_sound encode (forecast_ttl_ns (w_config w)) x /\
    (answers_at (w_config w) r x (clock (w_clock_reads w)) \/
     answers_at (w_config w) r x (clock (S (w_clock_reads w)))).
Proof using Hprimary Hencode.
  intros Hi Hs Hr Hm Hc Ht.
  pose proof (config_bounds _ (wi_config _ _ _ _ _ _ _ Hi)) as Hb.
  assert (Hbatch : batch_of w = [r] /\ rest_of w = []).
  { unfold batch_of, rest_of. rewrite Hr. cbn [length].
    replace (Z.to_nat (Z.min (maximum_batch (w_config w)) (Z.of_nat 1))) with 1%nat by lia. done. }
  destruct Hbatch as [Hbatch Hrest].
  destruct (run_once_total encode clock primary pid pver Hprimary Hencode w Hi) as (w2 & n & Hrun).
  { rewrite Hbatch. apply Forall_singleton. by split. }
  destruct (run_once_answered encode clock primary pid pver
    (fun r x => answers_at (w_config w) r x (clock (w_clock_reads w)) \/
                answers_at (w_config w) r x (clock (S (w_clock_reads w)))) w w2 n Hi Hs)
    as (_ & Hq & l & Hp & Ha); [by rewrite Hr | done | by intros q x t [-> | ->]; auto | done |].
  pose proof (run_once_inv encode _ _ _ _ _ _ _ Hi Hrun) as [Hi2 Hc2].
  assert (Hin : r ∈ l) by (rewrite Hp, Hbatch; left).
  destruct (answered_get encode _ _ _ _ Hi2 Ha Hin) as (x & Hx & HP).
  exists w2, n, (set_results (od_pop (request_id r) (w_results w2)) w2), x.
  assert (Hpoll : poll (request_id r) w2
    = (set_results (od_pop (request_id r) (w_results w2)) w2, Ok x)) by (unfold poll; by rewrite Hx).
  split; [done|]. split; [done|]. split; [by apply (poll_inv encode _ _ _ _ Hi2 Hpoll)|].
  split; [cbn; by rewrite Hq|]. split.
  { cbn. apply od_get_none. intros ([k y] & E & [_ Hne]%od_pop_elem)%list_elem_of_fmap_1. done. }
  split; [|done]. pose proof (wi_sound _ _ _ _ _ _ _ Hi2) as Hso. rewrite Forall_forall in Hso.
  rewrite <- Hc2. apply (Hso (request_id r, x)). by apply od_get_elem.
Qed.

(** ** When a request is served *)

(** What [submit] asks of a request, on a worker with an empty queue. *)
Definition admissible (w : ForecastWorker) (r : ForecastRequest) (now : Z) : Prop :=
  w_stopped w = false /\ 0 < now <= deadline_ns r
  /\ configuration_version (context r) = cfg_configuration_version (w_config w)
  /\ built_process_monotonic_time_ns (context r) <= now
  /\ od_get (request_id r) (w_results w) = None.

(** The worker reads the clock when it takes up the batch, and again when the inference
    has ended.  A request in time is answered from the cache, or by an inference that
    succeeds in time. *)
Definition computed (w : ForecastWorker) (r : ForecastRequest) (taken ended : Z) : Prop :=
  taken <= deadline_ns r
  /\ match (cached pid pver r taken w).2 with
     | Some _ => True
     | None => (exists rs fb, (inferred primary [r] w).2 = Ok (rs, fb)) /\ ended <= deadline_ns r
     end.

(** A request that arrives at an idle worker is served: it is admissible when it is
    submitted, and its result is computed in time.  The clock has been read once before,
    for the identity of the request. *)
Definition served (w : ForecastWorker) (r : ForecastRequest) : Prop :=
  admissible w r (clock (1 + w_clock_reads w)%nat)
  /\ computed w r (clock (2 + w_clock_reads w)%nat) (clock (3 + w_clock_reads w)%nat).

Lemma submit_exact r w :
  w_requests w = [] -> 0 < queue_capacity (w_config w) ->
  ((submit clock r w).2 = Ok ACCEPTED <-> admissible w r (clock (w_clock_reads w)))
  /\ w_adapter_calls (submit clock r w).1 = w_adapter_calls w.
Proof using Type.
  intros Hq Hc. unfold submit, st_bind, st_put, st_get, st_ret, read_clock, admissible. cbv beta iota.
  change (w_stopped (id (count_request w))) with (w_stopped w).
  destruct (w_stopped w); [split; [|done]; split; [done | naive_solver]|].
  cbn [w_config w_requests w_results w_clock_reads id count_request count set_metrics]. rewrite Hq.
  cbn [existsb length]. rewrite orb_false_r.
  destruct ((deadline_ns r <=? 0) || _ || _) eqn:E1; [split; [|done]; split; [done | lia]|].
  match goal with |- context [if ?c then _ else _] => destruct c eqn:E2 end; cbn [fst snd].
  { split; [|done]. split; [done|]. intros (_ & _ & Hv & Hb & Hr).
    apply orb_true_iff in E2 as [[E2|E2]%orb_true_iff|E2];
      [by apply negb_true_iff, bool_decide_eq_false in E2 | lia | apply bool_decide_eq_true in E2 as [? ?]; congruence]. }
  rewrite (proj2 (Z.leb_gt _ _)) by done. cbn [fst snd]. split; [|done]. split; [|done]. intros _. bprop.
  split_and!; try lia; try done. by apply eq_None_not_Some.
Qed.

Lemma cached_ext r t w w' :
  w_cache w' = w_cache w -> w_config w' = w_config w -> (cached pid pver r t w').2 = (cached pid pver r t w).2.
Proof using Type.
  intros H1 H2. unfold cached. unfold primary_cache_key. rewrite H1, H2.
  destruct (cache_gets _ _ _) as [c os]. by destruct (forallb _ os).
Qed.

Lemma invoke_fallback_ext cs w w' :
  w_fallback w' = w_fallback w -> (invoke_fallback cs w').2 = (invoke_fallback cs w).2.
Proof using Type.
  intros H. unfold invoke_fallback, st_bind, st_put, st_get, st_lift, st_ret, st_raise. cbv beta iota.
  change (w_fallback (set_health MH_DEGRADED (count_failure ?v))) with (w_fallback v). rewrite H.
  destruct (w_fallback w) as [a|]; [|done]. by destruct (forecast_batch a cs CPU None).
Qed.

Lemma invoke_device_error_ext cs w w' :
  w_config w' = w_config w -> w_fallback w' = w_fallback w -> w_adapter_calls w' = w_adapter_calls w ->
  (invoke_device_error primary cs w').2 = (invoke_device_error primary cs w).2.
Proof using Type.
  intros H1 H2 H3. unfold invoke_device_error, st_bind, st_put, st_get, st_try, st_ret, call_primary. cbv beta iota.
  change (w_config (set_health MH_DEGRADED ?v)) with (w_config v). rewrite H1. destruct (negb _); [by apply invoke_fallback_ext|].
  change (w_config (count_cpu (count_gpu (set_health MH_DEGRADED ?v)))) with (w_config v).
  change (w_adapter_calls (count_cpu (count_gpu (set_health MH_DEGRADED ?v)))) with (w_adapter_calls v).
  rewrite H1, H3. destruct (primary _ cs CPU _) as [rs|e]; [done|]. destruct (caught_by e _); [|done]. by apply invoke_fallback_ext.
Qed.

Lemma invoke_ext cs w w' :
  w_config w' = w_config w -> w_fallback w' = w_fallback w -> w_adapter_calls w' = w_adapter_calls w ->
  (invoke primary cs w').2 = (invoke primary cs w).2.
Proof using Type.
  intros H1 H2 H3. unfold invoke, st_bind, st_put, st_ret, call_primary. cbv beta iota. rewrite H1, H3.
  destruct (primary _ cs _ _) as [rs|e]; [done|]. destruct (caught_by e [AdapterDeviceError]).
  - apply invoke_device_error_ext; cbn; congruence.
  - destruct (caught_by e _); [|done]. by apply invoke_fallback_ext.
Qed.

Lemma inferred_ext active w w' :
  w_config w' = w_config w -> w_fallback w' = w_fallback w -> w_adapter_calls w' = w_adapter_calls w ->
  (inferred primary active w').2 = (inferred primary active w).2.
Proof using Type.
  intros H1 H2 H3. pose proof (invoke_ext (map context active) w w' H1 H2 H3) as H. unfold inferred, st_bind, st_lift, st_ret.
  destruct (invoke _ _ w') as [v' x'], (invoke _ _ w) as [v x]. cbn in H. subst x'. destruct x as [ru|e]; [|done].
  by destruct (validate_result_batch _ _).
Qed.

Lemma stored_get r x w : NoDup (map fst (w_results w)) -> od_get (request_id r) (w_results (store_result (request_id r) x w)) = Some x.
Proof using Type. intros H. unfold store_result. cbn. by apply od_store_get. Qed.

Lemma cached_frame r t w :
  let w' := (cached pid pver r t w).1 in
  w_results w' = w_results w /\ w_config w' = w_config w /\ w_fallback w' = w_fallback w
  /\ w_adapter_calls w' = w_adapter_calls w /\ w_clock_reads w' = w_clock_reads w
  /\ forall x, (cached pid pver r t w).2 = Some x -> wr_status x = COMPLETED.
Proof using Type.
  unfold cached. destruct (cache_gets _ _ _) as [c os]. destruct (forallb _ os); cbn; split_and!; try done. by intros x [= <-].
Qed.

Lemma cache_puts_results fs : forall w w', cache_puts fs w = (w', Ok tt) -> w_results w' = w_results w.
Proof using Type.
  induction fs as [|f fs IH]; intros w w'; cbn [cache_puts]; [by intros [= <-]|]. unfold st_bind at 1, run_cache.
  destruct (cache_put f (w_cache w)) as [c [[]|e]]; [|done]. intros H. by apply IH in H.
Qed.

(** A batch of one request is answered exactly when its result can be computed. *)
Lemma run_single r w w2 n :
  worker_inv encode w -> w_stopped w = false -> w_requests w = [r] ->
  run_once encode clock primary pid pver w = (w2, Ok n) ->
  exists x, od_get (request_id r) (w_results w2) = Some x
    /\ (wr_status x ∈ [COMPLETED; FALLBACK_COMPLETED]
        <-> computed w r (clock (w_clock_reads w)) (clock (S (w_clock_reads w)))).
Proof using Type.
  clear Hprimary Hencode. intros Hi Hs Hr H. pose proof (config_bounds _ (wi_config _ _ _ _ _ _ _ Hi)) as Hb.
  pose proof (wi_result_ids _ _ _ _ _ _ _ Hi) as Hnd.
  assert (batch_of w = [r]) as Hbatch.
  { unfold batch_of. rewrite Hr. cbn [length].
    by replace (Z.to_nat (Z.min (maximum_batch (w_config w)) (Z.of_nat 1))) with 1%nat by lia. }
  rewrite run_once_unfold in H by (done || by rewrite Hr). cbv zeta in H. rewrite Hbatch in H. cbn [active_requests] in H.
  unfold computed. set (t := clock (w_clock_reads w)) in *. destruct (Z.ltb_spec (deadline_ns r) t) as [Hlate|Hin].
  { rewrite bool_decide_eq_true_2 in H by done. injection H as <- _. exists (rejected DEADLINE_MISSED "deadline").
    split; [by apply stored_get|]. split; [intros Hx; vm_compute in Hx; set_solver | lia]. }
  pose proof (cached_frame r t (popped w)) as Hf. cbv zeta in Hf.
  rewrite <- (cached_ext r t w (popped w) eq_refl eq_refl).
  destruct (cached pid pver r t (popped w)) as [w1 o]. cbn [fst snd] in Hf |- *. destruct Hf as (F1 & F2 & F3 & F4 & F5 & F6).
  destruct o as [x|].
  { rewrite bool_decide_eq_true_2 in H by done. injection H as <- _. exists x. split; [apply stored_get; by rewrite F1|].
    rewrite (F6 x eq_refl). split; [by split | intros _; left]. }
  rewrite bool_decide_eq_false_2 in H by done. pose proof (inferred_core primary [r] w1) as Hc.
  rewrite <- (inferred_ext [r] w w1) by (rewrite ?F2, ?F3, ?F4; done).
  destruct (inferred primary [r] w1) as [w3 [[rs fb]|e]] eqn:Ei; cbn [fst snd] in Hc |- *;
    destruct Hc as [(C2 & E2 & _) (Er2 & _ & R2)].
  - apply inferred_valid in Ei. apply Forall2_length in Ei. destruct rs as [|a [|]]; try done. cbn [combine] in H.
    unfold publish_batch, st_bind at 1 2, read_clock in H. cbn [publish_loop] in H.
    assert (clock (w_clock_reads w3) = clock (S (w_clock_reads w))) as Et by (rewrite R2, F5; done). rewrite Et in H.
    set (t' := clock (S (w_clock_reads w))) in *. cbn [combine publish_loop] in H.
    destruct (Z.ltb_spec (deadline_ns r) t') as [Hlate|Hin'].
    + unfold st_bind, st_put, st_ret in H. injection H as <- _. exists (rejected DEADLINE_MISSED "late_completion").
      split; [apply stored_get; cbn; rewrite Er2, F1; done|]. split; [intros Hx; vm_compute in Hx; set_solver | lia].
    + unfold st_bind, st_put, st_get, st_lift, st_ret in H. destruct (res_map _ _) as [fs|e]; [|done].
      destruct (cache_puts fs _) as [w4 [[]|e]] eqn:Ep; [|done]. apply cache_puts_results in Ep. injection H as <- _.
      eexists. split; [apply stored_get; cbn; rewrite Ep; cbn; rewrite Er2, F1; done|]. cbn [wr_status].
      split; [|intros _; destruct fb; set_solver]. intros _. split; [done|]. split; [by exists [a], fb | done].
  - destruct (caught_by e _); [|done]. injection H as <- _. eexists. split.
    + cbn [record_model_failure foldl]. apply stored_get. cbn. rewrite Er2, F1. done.
    + cbn. split; [intros Hx; set_solver|]. intros (_ & (rs & fb & [=]) & _).
Qed.

Lemma forecast_context_ok app (c : ForecastContext) w :
  worker_inv encode w -> w_requests w = [] ->
  maximum_batch (w_config w) <= result_capacity (w_config w) ->
  request_valid MIN_HISTORY_POINTS c -> 0 <= clock (w_clock_reads w) < 2 ^ 64 ->
  times_fit (forecast_ttl_ns (w_config w)) (clock (3 + w_clock_reads w)%nat) c ->
  exists w' resp r, forecast_context encode clock primary pid pver app c w = (w', Ok resp) /\
    http_request app c (clock (w_clock_reads w)) = Ok r /\
    worker_inv encode w' /\ w_requests w' = [] /\
    (status_code resp = HTTP_OK /\ served w r /\ answered_by (w_config w) r (2 + w_clock_reads w)%nat resp
     \/ status_code resp = SERVICE_UNAVAILABLE /\ ~ served w r).
Proof using Hprimary Hencode.
  intros Hi Hq Hm Hc Hclk Ht.
  destruct (derived_identifier_total (str "http-request")
    [PBytes (context_sha256 c); PInt (clock (w_clock_reads w))]) as [i Hid]; [done| |].
  { assert (2 ^ 64 < 2 ^ 4300) by (apply Z.pow_lt_mono_r; lia).
    repeat (apply Forall_cons; split); try apply Forall_nil_2; cbn [part_ok]; [done | lia]. }
  set (r := {| request_id := i; context := c;
               deadline_ns := clock (w_clock_reads w) + request_deadline_ns app |}).
  assert (Hreq : http_request app c (clock (w_clock_reads w)) = Ok r)
    by (unfold http_request; by rewrite Hid).
  unfold forecast_context, st_bind, st_lift, read_clock. rewrite Hreq.
  set (w0 := set_counters (S (w_clock_reads w)) (w_adapter_calls w) w).
  assert (Hi0 : worker_inv encode w0) by exact Hi.
  pose proof (config_bounds _ (wi_config _ _ _ _ _ _ _ Hi)) as Hbounds.
  destruct (submit_exact r w0 Hq ltac:(cbn; lia)) as [Hadm Hcalls].
  change (w_clock_reads w0) with (1 + w_clock_reads w)%nat in Hadm.
  change (admissible w0 r ?t) with (admissible w r t) in Hadm.
  destruct (submit clock r w0) as [w1 o] eqn:Es. cbn [fst snd] in Hadm, Hcalls.
  pose proof (submit_inv encode clock _ _ _ _ Hi0 Es) as [Hi1 C1].
  pose proof (submit_reads r w0 w1) as Hreads.
  destruct (submit_spec clock _ _ _ _ Es) as (s & -> & S2 & S3 & S4 & S1 & S5 & _ & Hs).
  destruct Hs as [[Hne Hq1] | (-> & Hq1 & Hst & _)].
  - rewrite bool_decide_eq_false_2 by done. cbn [negb].
    destruct (status_response_ok s) as (resp & -> & Hcode). exists w1, resp, r.
    repeat (split; [done|]). split; [by rewrite Hq1|]. right. split; [done|]. intros [Ha _]. apply Hadm in Ha. congruence.
  - rewrite bool_decide_eq_true_2 by done. cbn [negb]. specialize (Hreads Es).
    change (w_clock_reads w0) with (S (w_clock_reads w)) in Hreads.
    change (w_config w0) with (w_config w) in C1. change (w_requests w0) with (w_requests w) in Hq1.
    destruct (run_and_poll r w1 Hi1) as (w2 & n & w3 & x & Hrun & Hpoll & Hi3 & Hq3 & _ & Hso & Hans).
    { by rewrite S1. }
    { by rewrite Hq1, Hq. }
    { by rewrite C1. }
    { done. }
    { by rewrite C1, Hreads. }
    rewrite C1, Hreads in Hans. rewrite C1 in Hso. rewrite Hrun.
    destruct (run_single r w1 w2 n Hi1 ltac:(by rewrite S1) ltac:(by rewrite Hq1, Hq) Hrun) as (x' & Hx' & Hiff).
    assert (x' = x) as -> by (unfold poll in Hpoll; rewrite Hx' in Hpoll; by injection Hpoll).
    rewrite Hreads in Hiff.
    assert (computed w1 r (clock (2 + w_clock_reads w)%nat) (clock (3 + w_clock_reads w)%nat)
            <-> computed w r (clock (2 + w_clock_reads w)%nat) (clock (3 + w_clock_reads w)%nat)) as Hcomp.
    { unfold computed. rewrite (cached_ext r _ w w1 S4 S2), (inferred_ext [r] w w1 S2 S5 Hcalls). done. }
    assert (wr_status x ∈ [COMPLETED; FALLBACK_COMPLETED] <-> served w r) as Hserved.
    { rewrite Hiff. unfold served. change (S (S (w_clock_reads w))) with (2 + w_clock_reads w)%nat.
      change (S (2 + w_clock_reads w)) with (3 + w_clock_reads w)%nat. rewrite Hcomp. pose proof (proj1 Hadm eq_refl). tauto. }
    change (request_id r) with i in Hpoll |- *. rewrite Hpoll.
    case_bool_decide as Hx; cbn [negb].
    + destruct (result_response_ok encode _ x Hso) as (b & Hb & ->). eexists w3, _, r.
      repeat (split; [done|]). left. split; [done|]. split; [by apply Hserved|]. exists x. repeat (split; [done|]). done.
    + destruct (status_response_ok (wr_status x)) as (resp & -> & Hcode). exists w3, resp, r.
      repeat (split; [done|]). right. split; [done|]. by rewrite <- Hserved.
Qed.
End endpoint.

(** The reference adapter raises only exceptions that the worker contains. *)
Lemma reference_contained mid mver cs d k e :
  validated cs -> reference_forecast_batch mid mver cs d k = Err e -> contained e.
Proof.
  intros Hcs H. unfold reference_forecast_batch in H.
  apply rbind_err in H as [H | ([] & Hk & H)].
  - apply (contained_class _ ValueError); [|set_solver].
    refine (_ e H). clear. unfold validate_checkpoint_sha256.
    destruct k; [|apply raises_only_ok]. apply raises_only_bind; [apply raises_only_when|].
    intros []. apply raises_only_bind; [|intros; apply raises_only_ok]. unfold try_except, bytes_fromhex.
    destruct (fromhex l); [apply raises_only_ok | apply raises_only_raise].
  - apply res_map_err in H as (c & Hin & H). unfold validated in Hcs. rewrite Forall_forall in Hcs.
    destruct (reference_result_ok c MIN_HISTORY_POINTS (Z.le_refl _) (Hcs c Hin) mid mver d k Hk)
      as (a & Ha & _). congruence.
Qed.

(** ** Sample request *)

Definition sample_app : RoleApplication := {| app_role := API; request_deadline_ns := 50 |}.
Definition sample_body : pybytes := Eval vm_compute in
  match encode_context sample_context with Ok b => b | Err _ => [] end.

Lemma endpoint_sample : exists w,
  worker_inv sample_encode w /\ w_requests w = [] /\ w_config w = sample_config /\
  w_clock_reads w = 0%nat /\ decode_context sample_body = Ok sample_context /\
  exists resp, (handle sample_encode sample_clock sample_primary (sample_id 8) (sample_id 9)
                  sample_app (str "POST") (str "/v1/forecast") sample_body w).2 = Ok resp /\
               status_code resp = HTTP_OK.
Proof.
  exists (start sample_config).
  destruct (new_worker_inv sample_encode sample_config _ eq_refl start_new) as [Hi Hc].
  split; [exact Hi|]. split; [vm_compute; reflexivity|]. split; [exact Hc|].
  split; [vm_compute; reflexivity|]. split; [vm_compute; reflexivity|].
  eexists. split; [vm_compute; reflexivity|]. reflexivity.
Qed.

(** C40: the forecast endpoint answers.  Take a role that serves forecasts, a worker
    between requests, a clock and a context whose times fit the integers of the contract,
    room for the results of a batch, an encoder that writes at least a byte and a primary
    adapter that fails only with its declared exceptions.  A body that decodes to a context
    then gets a response.  It is 200, and its body the JSON of a sound result
    with forecasts for exactly the horizons of that context given within the request's
    deadline, exactly when the request is served: the worker is not stopped, the request is
    in time, of the worker's configuration, not built in the future and not answered
    already, and its result is cached or the inference succeeds before the deadline.
    Otherwise it is 503.  The call keeps the worker's invariant and leaves no request in the
    queue. *)
Theorem forecast_endpoint_answers encode (clock : nat -> Z) (primary : nat -> BatchFunction)
    pid pver app b (c : ForecastContext) w :
  (forall n cs d k e, validated cs -> primary n cs d k = Err e -> contained e) ->
  (forall wire, encode wire <> []) ->
  worker_inv encode w -> w_requests w = [] ->
  maximum_batch (w_config w) <= result_capacity (w_config w) ->
  app_role app ∈ [API; WORKER] -> decode_context b = Ok c ->
  0 <= clock (w_clock_reads w) < 2 ^ 64 ->
  times_fit (forecast_ttl_ns (w_config w)) (clock (3 + w_clock_reads w)%nat) c ->
  exists w' resp r,
    handle encode clock primary pid pver app (str "POST") (str "/v1/forecast") b w
    = (w', Ok resp) /\
    http_request app c (clock (w_clock_reads w)) = Ok r /\
    worker_inv encode w' /\ w_requests w' = [] /\
    (status_code resp = HTTP_OK /\ served clock primary pid pver w r
       /\ answered_by encode clock (w_config w) r (2 + w_clock_reads w)%nat resp
     \/ status_code resp = SERVICE_UNAVAILABLE /\ ~ served clock primary pid pver w r).
Proof.
  intros Hp He Hi Hq Hm Hrole Hd Hclk Ht. destruct (decoded_context b c Hd) as [Hc Hlen].
  assert (E : handle encode clock primary pid pver app (str "POST") (str "/v1/forecast") b w
            = forecast_context encode clock primary pid pver app c w).
  { unfold handle, st_bind, st_lift. change (utf8_encode (str "/v1/forecast")) with
      (@Ok pybytes (str "/v1/forecast")). cbv beta iota.
    change (MAX_HTTP_PATH_BYTES <? Z.of_nat (length (str "/v1/forecast"))) with false. cbv iota.
    rewrite (proj2 (Z.ltb_ge MAX_HTTP_BODY_BYTES _)) by done.
    change (bool_decide (str "POST" = str "GET")) with false.
    change (bool_decide (str "POST" = str "POST")) with true. cbv iota.
    unfold handle_post. change (bool_decide (str "/v1/forecast" = str "/v1/context")) with false.
    change (bool_decide (str "/v1/forecast" = str "/v1/forecast")) with true.
    rewrite (bool_decide_eq_true_2 (app_role app ∈ _)) by done. cbn [andb].
    unfold forecast. by rewrite Hd. }
  rewrite E. apply (forecast_context_ok encode clock primary pid pver Hp He); try done.
  apply (request_valid_weaken DEFAULT_MINIMUM_HISTORY); [|done].
  unfold MIN_HISTORY_POINTS, DEFAULT_MINIMUM_HISTORY. lia.
Qed.

Lemma forecast_endpoint_answers_witness : exists w w' resp,
  handle sample_encode sample_clock sample_primary (sample_id 8) (sample_id 9) sample_app
    (str "POST") (str "/v1/forecast") sample_body w = (w', Ok resp) /\ w_requests w' = [].
Proof.
  destruct endpoint_sample as (w & Hi & Hq & Hc & Hn & Hd & _). exists w.
  destruct (forecast_endpoint_answers sample_encode sample_clock sample_primary (sample_id 8)
    (sample_id 9) sample_app sample_body sample_context w) as (w' & resp & r & H & _ & _ & Hq' & _).
  - intros n cs d k e. apply reference_contained.
  - intros wire. discriminate.
  - exact Hi.
  - exact Hq.
  - rewrite Hc. vm_compute. discriminate.
  - left.
  - exact Hd.
  - rewrite Hn. split; [vm_compute; discriminate | vm_compute; reflexivity].
  - rewrite Hc, Hn. split; [|split; vm_compute; reflexivity].
    repeat (apply Forall_cons; split); [vm_compute; reflexivity..|apply Forall_nil_2].
  - exists w', resp. split; [exact H | exact Hq'].
Defined.
